(* ===== verification/_CoqProject ===== *)
-Q . S2P
Prelude.v
Words.v
Addr.v
Md5.v
CString.v
HashStream.v
Sha1.v
AiccuMd5.v
TspMd5.v
Base64.v
Float32.v
Rudp.v
Ayiya.v
Redirect.v
TspClient.v
TspSession.v
TspDigest.v
EchoRequest.v
Security.v
Udp.v
EchoEngine.v
KeepAlive.v
Packets.v
PeerList.v
MiredoConf.v
XmlParse.v
XmlTun.v
TspTunnel.v
TspMessages.v
Discovery.v
MiredoDaemon.v
MiredoPriv.v
MiredoMain.v
AiccuLine.v
Tic.v
AiccuConf.v
AiccuMain.v
Maintain.v
Server.v
Relay.v
RelayProofs.v
Tunnel.v
