(* ===== verification/Prelude.v ===== *)
(** * Verification of the tunnelling back-ends bundled by Maiccu

Maiccu is a macOS application that configures and runs IPv6 tunnelling
back-ends written in C: [miredo] (Teredo, RFC 4380), [aiccu] (AYIYA,
heartbeat, TIC) and [gogoc] (TSP).  This development models their own logic:
the Teredo library [src/miredo/libteredo], which decides what a client, relay
or server accepts, trusts, sends and stores, and the daemon
[src/miredo/src] that configures and supervises it; the SixXS client
[src/aiccu], from its configuration and the dialogue with the server to the
heartbeat and the AYIYA tunnel; and the TSP client of
[src/gogoc/gogoc-tsp], from the choice of a broker, over its two transports
and its XML messages, to the tunnel that is kept alive.

** How the parts interact

Teredo: a tunnel ([relay.c]) owns a list of peers ([peerlist.c]), a UDP
socket ([teredo.c]), and, for clients, a maintenance thread ([maintain.c])
and an optional local discovery ([discovery.c]).  The IPv6 stack gives
packets to [teredo_transmit]; a thread gives datagrams to
[teredo_run_inner].  Both look up the peer in the list, which stays locked
while the peer is in use, and send or check packets ([packets.c]) that are
authenticated with keyed hashes ([security.c], [md5.c]).  The maintenance
thread solicits the server ([server.c]) and reports its state with
[teredo_state_change], which resets the list and restarts discovery.

The daemon: [main.c] reads the options, becomes a daemon and calls
[miredo.c], which starts a child, waits for signals and for its end, and
starts it again when asked to.  The child ([relayd.c], [serverd.c]) reads the
configuration ([conf.c], checked beforehand by [checkconf.c]), drops its
privileges and creates the tunnel.  A privileged process ([privproc.c]) that
it has started before receives the settings of the tunnel through a pipe and
runs the script that applies them.

AICCU: [aiccu_main.c] loads the configuration ([aiccu.c]), asks the server
for its tunnel ([tic.c], over the lines of [common.c]), sets it up with
commands of the system ([aiccu_darwin.c]) and beats ([heartbeat.c]) until it is
told to stop.  For AYIYA tunnels, [ayiya.c] carries the packets of a tunnel
device in UDP datagrams signed with SHA-1 ([hash_sha1.c]) and rejects those
whose clock is too far off ([tic_checktime]).

TSP: [tspMain] ([tsp_client.c]) connects to a broker and runs
[tspSetupTunnel], which asks for the capabilities ([tsp_cap.c]), logs in
([tsp_auth.c]), negotiates ([tsp_net.c]) and then configures the host and
stays in the loop of the tunnel ([platform/darwin]), which is
[tspPerformTunnelLoop] ([tsp_tun_mgt.c]) unless the packets go over UDP.  That
loop polls the lease ([tsp_lease.c]) and the keep-alive ([net_ka.c]), a thread around the echo
engine ([icmp_echo_engine.c], [net_cksm.c]).  A broker may redirect the
client to a list of others, which [tsp_redirect.c] sorts by their distance
and saves.  The status of each attempt tells [tspMain] whether to try
another transport, version or broker, or to wait.

** The model

The build is the one described by [miredo/config.h]: [x86_64] macOS, little
endian, client enabled, [tsearch] instead of Judy arrays.  Integers are
[Z] with explicit wrap-around, memory blocks are lists of bytes with
checked accesses, fields in network byte order stay so.  Code that can
fault returns [res]: a failed [assert], an access out of bounds, a null or
stale pointer, or an error on a lock are values of [fault], and the safety
theorems show that they do not occur.  Stateful code is in the monad [st] or
passes its state explicitly.  The outside world is an oracle in the Teredo
files (class [Env] of [Udp], class [Mem] of [Relay]): the answer to the n-th
question is the value of a function at n, the theorems hold for all such
functions, and what the program sends is appended to a trace of events.  In
the other files each turn of a loop takes its answers (clock, sockets,
allocations, other threads) from a record of inputs, and the theorems hold
for all lists of them.  Log and debug output is left out, except where
building the message can fault.

Shared files:
- [Prelude]: faults, the two monads, tactics, generic lemmas.
- [Words]: machine words, byte order, checked buffers.
- [CString]: C strings, bounded copies, the lines of a text file.
- [HashStream]: what the four streaming hash functions have in common.
- [Float32]: single-precision arithmetic, with bounds on its results.

Teredo:
- [Addr]: [teredo.h], [v4global.c]; Teredo and IPv4 addresses.
- [Md5], [Security]: [md5.c], [security.c], against RFC 1321 and RFC 2104.
- [Udp]: [teredo.c], [teredo-udp.h], [checksum.h], [clock.c]; parsing of
  datagrams, sending, checksums.
- [Packets]: [packets.c]; bubbles, router solicitations and
  advertisements, pings, ICMPv6 errors.
- [PeerList]: [peerlist.c]; the lists at the level of pointers, their
  abstract specification [alist], the interleavings of threads [action],
  and the interface [PeerMap] (a finite map from addresses to peers) that
  the relay relies on, with the instance [peerlist_map].
- [Discovery]: [discovery.c], [iothread.c].
- [Maintain]: [maintain.c]; the thread as a state machine [maintenance_step]
  driven by [input]s, its reachable states [reach] and invariant [minv].
- [Server]: [server.c].
- [Relay]: [relay.c], definitions only; [teredo_transmit] and
  [teredo_run_inner] are cut along the cases of RFC 4380 that the comments
  of the source number.
- [RelayProofs]: a calculus ([runs]) for relay code, the states of the list
  during a call ([Free], [Held], [Freed]), and every path through
  transmission and reception, proved for any [PeerMap].
- [Tunnel]: sequences of calls on a tunnel and the theorems about them.

The Teredo daemon:
- [MiredoConf]: [conf.c]; the list of settings at the level of pointers, its
  reader and its typed accessors.
- [MiredoDaemon]: [miredo.c], [relayd.c], [serverd.c], [checkconf.c]; the
  supervisor as a loop over events, the two kinds of children, the checker.
- [MiredoPriv]: [privproc.c] and the callbacks that write to it.
- [MiredoMain]: [main.c].

AICCU:
- [Sha1], [AiccuMd5]: [hash_sha1.c], [hash_md5.c], against RFC 3174 and
  RFC 1321.
- [Ayiya]: [ayiya.c] and the clock test of [tic.c].
- [AiccuLine]: [common.c]; lines from a socket, fields, tables of settings,
  MD5 strings.
- [Tic]: [tic.c]; the dialogue, against scripts of lines ([exchange],
  [converse]).
- [AiccuConf]: the configuration file of [aiccu.c].
- [AiccuMain]: [aiccu_main.c], [heartbeat.c], [aiccu_darwin.c] and the rest of
  [aiccu.c]; what the program does to the system is a trace of [event]s.

TSP:
- [TspMd5]: [md5c.c], against RFC 1321.
- [Redirect]: [tsp_redirect.c] and the threads of [net_echo_request.c] that
  measure distances.
- [TspClient]: the loops of [tspMain] as a state machine [tspMain_step], with
  [tspSetupTunnel] and the choice of servers and transports.
- [TspSession]: [tsp_cap.c], [tsp_net.c], [tsp_auth.c] and the negotiation;
  it provides the session that [TspClient] abstracts.
- [Base64], [TspDigest]: [base64.c] and the digest dialogue of [tsp_auth.c],
  against RFC 2831.
- [Rudp]: [net_rudp.c], [net_rudp6.c]; the reliable transport over UDP, with
  its retransmissions and its estimator.
- [EchoRequest]: [net_echo_request.c]; the measurement that feeds [Redirect].
- [XmlParse]: [xmlparse.c]; the parser with its copies on the heap and its
  global tables, for any table of handlers.
- [XmlTun]: [xml_tun.c]; the handlers of the messages, and the specification
  of the parser as an abstract function.
- [TspMessages]: [xml_req.c]; the requests, and the composition of parser,
  redirection and session.
- [EchoEngine]: [icmp_echo_engine.c], [net_cksm.c]; the list of pending
  requests at the level of pointers.
- [TspTunnel]: [tsp_local.c], [tsp_setup.c], [tsp_tun.c] of [platform/darwin];
  the commands that set a tunnel up and take it down, and the packets that
  are copied in between.
- [KeepAlive]: [net_ka.c], [tsp_lease.c], [tsp_tun_mgt.c]; the thread and the
  loop that share the blocks of the engine.

** The theorems

The comment in front of each theorem states its conditions; the inputs that
they exclude because the code fails on them are, for the most part, examples
or lemmas in the last section of the same file.

- Safety of the whole: any sequence of calls on a tunnel
  ([Tunnel.tunnel_lifecycle_safe]), any interleaving on the peer list
  ([PeerList.peerlist_threads_safe]), any history of the maintenance
  thread ([Maintain.maintenance_thread_safe]), any datagram for the server
  ([Server.server_outputs_classified]), any history of the TSP client
  ([TspClient.tspMain_safe]), of the echo engine
  ([EchoEngine.IEE_process_safe]), of the tunnel loop
  ([KeepAlive.tunnel_loop_safe]) and of a session over reliable UDP
  ([Rudp.rudp_session_safe]).
- The daemon: what the child creates it destroys, in the right order and with
  the privileges it should have ([MiredoDaemon.relay_run_contract]); a file
  that the checker accepts configures the child
  ([MiredoDaemon.checkconf_sound]); the supervisor never has two children and
  ends only without one ([MiredoDaemon.miredo_supervises]); the script runs
  once for each change of the tunnel, with its settings
  ([MiredoPriv.hook_follows_tunnel]); what the options lead to
  ([MiredoMain.miredo_main_contract]).
- The SixXS client: the login follows its script and succeeds only when all
  replies are accepted ([Tic.tic_Login_follows_script]); lists of tunnels and
  descriptions arrive as the server sends them and no block is lost
  ([Tic.tic_ListTunnels_contract], [Tic.tic_GetTunnel_roundtrip],
  [AiccuMain.get_tunnel_end_to_end]); the configuration survives being saved
  ([AiccuConf.aiccu_conf_roundtrip]); a heartbeat is signed
  ([AiccuMain.heartbeat_beat_contract]); a tunnel that was set up is taken down
  on SIGTERM ([AiccuMain.sigterm_tears_down]).
- Text: the XML parser implements its abstract specification
  ([XmlTun.tspXMLParse_refines]) and ends on every text
  ([XmlTun.tspXMLParse_ends]), the configuration reader its own
  ([MiredoConf.miredo_conf_read_refines]); requests fit their buffer
  ([TspMessages.request_fits]); a redirection message becomes the sorted list
  of brokers ([TspMessages.redirection_end_to_end]); lines arrive whole
  however the network cuts them ([AiccuLine.getline_delivers]).
- Authentication: who becomes trusted and what is delivered
  ([Tunnel.teredo_run_contract], [Tunnel.teredo_transmit_contract],
  [Ayiya.ayiya_writer_contract]), what a ping, a hash or an advertisement
  proves ([Packets.CheckPing_authenticates_source],
  [Security.verify_pinghash_exact], [Maintain.maintenance_up_authenticated]);
  the digest dialogue succeeds only with a server that knows the password
  ([TspDigest.digest_success_is_mutual]), and, on challenges of the shape
  that the theorem states, with every such server
  ([TspDigest.digest_verdict_exact]); a broker only chooses addresses and
  numbers in the commands that set a tunnel up
  ([TspTunnel.setup_arguments_safe]).
- Refinement and equivalence: the list against its specification, the
  parser of datagrams against the packet format, four hash functions against
  their RFCs, the keyed hash against HMAC, the checksums against the
  one's-complement sum, the steps of a TSP session against what the
  connection loop expects of them ([TspDigest.session_steps_contract]).
- Round trips: qualification between client and server
  ([Server.qualification_end_to_end]), AYIYA between two ends
  ([Ayiya.ayiya_end_to_end]), a request and its parser
  ([TspMessages.request_roundtrip]), base64 ([Base64.base64_roundtrip]), pings, echo requests, bubbles, capabilities,
  the broker list on disk.
- Progress: a redirected client tries every broker of the list in order
  ([TspClient.redirection_walks_the_list]), falling back through the
  versions ends ([TspClient.version_fallback_terminates]), a dead peer is
  detected after the configured number of requests
  ([EchoEngine.dead_peer_detected]), a session leaves the default route as it
  found it ([TspTunnel.session_restores_default_route]), a transport that gets no answer gives up
  ([Rudp.rudp_gives_up]), brokers that answer come before those that do not
  ([EchoRequest.prompt_brokers_first]).
- Limits: bubbles, pings, ICMPv6 errors, queues, retry delays.
- Flaws: theorems that exhibit what the code does where it departs from its
  comments or documentation, or where it is unsafe.

** Bounds

Loops over lists of the heap take as fuel a little more than the number of
allocated blocks ([PeerList], [EchoEngine]), and the safety theorems show
that it is never exhausted, except in [EchoEngine.simultaneous_events_loop],
which shows that no bound is enough.  Loops of fixed length (ten attempts of
[teredo_send_ipv6], the 64 steps of MD5, the 80 of SHA-1) are written out.
[Rudp] bounds the magnitudes of its estimator over 23 exchanges.
The loops of the XML parser have the length of the text as fuel, which
[XmlTun.tspXMLParse_ends] shows to be enough; [TspMessages.request_fits]
allows 1800 characters of name servers, [AiccuLine.getline_delivers] a line
and a piece of together at most 1014 bytes.  The option loop of [teredo_parse_ra] is bounded by the length of the packet,
the loops over files and strings by their length.  Loops that wait for the
outside world recur on their list of inputs; [None] as their result means
that the inputs are used up and the code still runs.

** Not modelled

Waiting (condition variables, [poll], sleeping), the creation of sockets
and the start and stop of the server's threads: their results are inputs.
In [Relay] one call is one step; the finer interleavings are modelled for
the peer list alone.  The accesses to a peer after its list was released
([relay.c], lines 620 and 801) are therefore safe in the model, though
another thread could free the peer in between:
[PeerList.released_peer_is_freed_by_reset] shows that one reset is enough.
In the TSP client, the exchange of keys of the PASSDSS dialogue is an
argument of [TspSession.AuthPASSDSS_3DES_1], since it calls OpenSSL; what the
last reply leads to is modelled.  [TspSession] takes the digest dialogue as a parameter too, which
[TspDigest.digest_step] instantiates ([TspDigest.digest_keeps] proves what
[TspSession] asks of it).  The durations that [icmp_echo_engine.c] keeps as [double]
milliseconds are exact numbers of microseconds.  [TspSession] takes the XML parser as a parameter,
which [TspMessages] instantiates.  [deque.c] is called by nothing.
[libtun6] is made of calls to the operating system, the [tuntap] driver, the
configuration and messaging of gogoc and the notifier are C++, the
application is Objective-C; none of them is modelled.

** What remains

Of [gogoc]: the exchange of keys of PASSDSS and its buffers; of [libteredo]: a model of
the relay whose calls interleave; of [aiccu]: the interleaving of the AYIYA
threads with the loop of beats. *)

From stdpp Require Import base gmap list numbers.

#[global] Open Scope Z_scope.

(** ** Faults

A C operation that has no defined result (or that the program itself
declares impossible with [assert]) is a value of [fault]; the theorems
that rule faults out are the memory-safety half of the development. *)

Inductive fault :=
| OutOfBounds       (* access past the bytes that are known to be there *)
| AssertFailed      (* an [assert] of the source does not hold *)
| NullDeref         (* dereference of a null pointer *)
| UseAfterFree      (* access to, or release of, memory that is not allocated *)
| Deadlock          (* a non-recursive mutex locked twice by one thread *)
| BadUnlock         (* a mutex unlocked while it is not held *)
| Uninitialised     (* a variable read before it is set *)
| BadConversion     (* a floating-point value converted to an integer type it does not fit *)
| OutOfFuel.        (* a loop bound of the model was too small *)

#[export] Instance fault_eq_dec : EqDecision fault.
Proof. solve_decision. Defined.

(** ** The error monad *)

Inductive res (A : Type) :=
| Ok (a : A)
| Err (f : fault).
Arguments Ok {A} a.
Arguments Err {A} f.

#[export] Instance res_ret : MRet res := fun A a => Ok a.
#[export] Instance res_bind : MBind res :=
  fun A B k m => match m with Ok a => k a | Err f => Err f end.

Definition guard_or (f : fault) (b : bool) : res unit :=
  if b then Ok tt else Err f.

Definition from_option (f : fault) {A} (o : option A) : res A :=
  match o with Some a => Ok a | None => Err f end.

(** [res_ok m P]: the computation returns, without a fault, a value that
    satisfies [P]. *)
Definition res_ok {A} (m : res A) (P : A -> Prop) : Prop :=
  match m with Ok a => P a | Err _ => False end.

Lemma res_ok_bind {A B} (m : res A) (k : A -> res B) (P : B -> Prop) :
  res_ok (m ≫= k) P <-> res_ok m (fun a => res_ok (k a) P).
Proof. by destruct m. Qed.

Lemma res_ok_mono {A} (m : res A) (P Q : A -> Prop) :
  res_ok m P -> (forall a, P a -> Q a) -> res_ok m Q.
Proof. destruct m; simpl; auto. Qed.

Lemma res_ok_inv {A} (m : res A) (P : A -> Prop) :
  res_ok m P -> exists a, m = Ok a /\ P a.
Proof. destruct m; simpl; [eauto | done]. Qed.

Lemma bind_ok_inv {A B} (m : res A) (k : A -> res B) (b : B) :
  (m ≫= k) = Ok b -> exists a, m = Ok a /\ k a = Ok b.
Proof. destruct m; simpl; [eauto | done]. Qed.

#[export] Instance Ok_inj {A} : Inj (=) (=) (@Ok A).
Proof. by intros a b [= ->]. Qed.

Lemma guard_or_ok_inv f b u : guard_or f b = Ok u -> b = true.
Proof. by destruct b. Qed.

Lemma guard_or_true f b : b = true -> guard_or f b = Ok tt.
Proof. by intros ->. Qed.

(** ** The state-and-error monad

Stateful code is a function from the state to a fault or to a result and
the next state. *)

Definition st (S A : Type) := S -> res (A * S).

#[export] Instance st_ret S : MRet (st S) := fun A a s => Ok (a, s).
#[export] Instance st_bind S : MBind (st S) :=
  fun A B k m s => match m s with Ok (a, s') => k a s' | Err f => Err f end.

Definition get {S} : st S S := fun s => Ok (s, s).
Definition put {S} (s : S) : st S unit := fun _ => Ok (tt, s).
Definition gets {S A} (f : S -> A) : st S A := fun s => Ok (f s, s).
Definition modify {S} (f : S -> S) : st S unit := fun s => Ok (tt, f s).
Definition lift {S A} (m : res A) : st S A :=
  fun s => match m with Ok a => Ok (a, s) | Err f => Err f end.

(** [wp m Q s]: run from [s], the computation [m] does not fault, and its
    result and final state satisfy [Q]. *)
Definition wp {S A} (m : st S A) (Q : A -> S -> Prop) (s : S) : Prop :=
  match m s with Ok (a, s') => Q a s' | Err _ => False end.

Section wp_rules.
Context {S : Type}.
Implicit Types s : S.

Lemma wp_bind {A B} (m : st S A) (k : A -> st S B) Q s :
  wp m (fun a s' => wp (k a) Q s') s -> wp (m ≫= k) Q s.
Proof. unfold wp, mbind, st_bind. by destruct (m s) as [[a s']|]. Qed.

Lemma wp_ret {A} (a : A) (Q : A -> S -> Prop) s : Q a s -> wp (mret a) Q s.
Proof. done. Qed.

Lemma wp_get (Q : S -> S -> Prop) s : Q s s -> wp get Q s.
Proof. done. Qed.

Lemma wp_gets {A} (f : S -> A) (Q : A -> S -> Prop) s : Q (f s) s -> wp (gets f) Q s.
Proof. done. Qed.

Lemma wp_put s' (Q : unit -> S -> Prop) s : Q tt s' -> wp (put s') Q s.
Proof. done. Qed.

Lemma wp_modify f (Q : unit -> S -> Prop) s : Q tt (f s) -> wp (modify f) Q s.
Proof. done. Qed.

Lemma wp_lift {A} (m : res A) (Q : A -> S -> Prop) s :
  res_ok m (fun a => Q a s) -> wp (lift m) Q s.
Proof. unfold wp, lift. by destruct m. Qed.

Lemma wp_mono {A} (m : st S A) (Q Q' : A -> S -> Prop) s :
  wp m Q s -> (forall a s', Q a s' -> Q' a s') -> wp m Q' s.
Proof. unfold wp. destruct (m s) as [[a s']|]; eauto. Qed.

Lemma wp_if {A} (b : bool) (m1 m2 : st S A) Q s :
  (b = true -> wp m1 Q s) -> (b = false -> wp m2 Q s) ->
  wp (if b then m1 else m2) Q s.
Proof. destruct b; auto. Qed.

Lemma wp_ok {A} (m : st S A) (Q : A -> S -> Prop) s :
  wp m Q s -> exists a s', m s = Ok (a, s') /\ Q a s'.
Proof. unfold wp. destruct (m s) as [[a s']|]; [eauto | done]. Qed.

Lemma wp_run {A} (m : st S A) (Q : A -> S -> Prop) s a s' :
  wp m Q s -> m s = Ok (a, s') -> Q a s'.
Proof. unfold wp. intros H E. by rewrite E in H. Qed.
End wp_rules.

(** ** Tactics *)

(** Peel one computation step off an equation [m ≫= k = Ok _]. *)
Ltac inv_bind H :=
  let a := fresh "v" in
  let E := fresh "E" in
  apply bind_ok_inv in H as (a & E & H).

(** Case analysis on the boolean tests of the code. *)
Ltac case_ifs :=
  repeat match goal with
         | H : context [if ?b then _ else _] |- _ => destruct b eqn:?; try discriminate
         | |- context [if ?b then _ else _] => destruct b eqn:?; try discriminate
         end.

(** Turn the boolean comparisons of the context into propositions. *)
Ltac reflect_bools :=
  repeat match goal with
         | H : (_ && _)%bool = true |- _ => apply andb_true_iff in H as [? ?]
         | H : (_ || _)%bool = false |- _ => apply orb_false_iff in H as [? ?]
         | H : negb _ = true |- _ => apply negb_true_iff in H
         | H : negb _ = false |- _ => apply negb_false_iff in H
         | H : (_ =? _) = true |- _ => apply Z.eqb_eq in H
         | H : (_ =? _) = false |- _ => apply Z.eqb_neq in H
         | H : (_ <? _) = true |- _ => apply Z.ltb_lt in H
         | H : (_ <? _) = false |- _ => apply Z.ltb_ge in H
         | H : (_ <=? _) = true |- _ => apply Z.leb_le in H
         | H : (_ <=? _) = false |- _ => apply Z.leb_gt in H
         | H : bool_decide _ = true |- _ => apply bool_decide_eq_true in H
         | H : bool_decide _ = false |- _ => apply bool_decide_eq_false in H
         end.

Create HintDb maiccu.
Create HintDb maiccu_rw.

(** ** Lists *)

Section lists.
Context {A : Type}.
Implicit Types l k : list A.

Lemma take_drop_length l n m :
  (n + m <= length l)%nat -> length (take m (drop n l)) = m.
Proof. intros H. rewrite length_take, length_drop. lia. Qed.

Lemma take_app_exact l k n : length l = n -> take n (l ++ k) = l.
Proof. intros <-. apply take_app_length. Qed.

Lemma drop_app_exact l k n : length l = n -> drop n (l ++ k) = k.
Proof. intros <-. apply drop_app_length. Qed.

Lemma join_nil : mjoin ([] : list (list A)) = [].
Proof. done. Qed.

Lemma join_cons l (ls : list (list A)) : mjoin (l :: ls) = l ++ mjoin ls.
Proof. done. Qed.

Lemma join_one l : mjoin [l] = l.
Proof. apply app_nil_r. Qed.

Lemma Forall_take_drop (P : A -> Prop) l n m :
  Forall P l -> Forall P (take m (drop n l)).
Proof. intros H. apply Forall_take, Forall_drop, H. Qed.
End lists.

#[export] Hint Resolve Forall_take_drop : maiccu.
