(* ===== verification/Words.v ===== *)
(** * Machine words and byte buffers

The build described by [miredo/config.h] is [x86_64-apple-darwin]: a
little-endian LP64 host.  Bytes are integers in [0, 256); an unsigned
[w]-bit integer is a [Z] in [0, 2^w) and every operation that can wrap
says so with [wrap].  Loading an integer from memory is [le_load] of its
bytes, so a value "in network byte order" is, as in the C code, the
little-endian reading of the bytes on the wire, and [htonl]/[htons] swap
bytes.  A pointer into a buffer is an offset, and every access is checked
against the bytes that are there. *)

From stdpp Require Import base gmap list numbers.
From S2P Require Import Prelude.

Definition byte_ok (x : Z) : Prop := 0 <= x < 256.
Definition bytes_ok (l : list Z) : Prop := Forall byte_ok l.

Definition wrap (w x : Z) : Z := x mod 2 ^ w.

(** [~x] for an unsigned integer of [w] bits. *)
Definition unot (w x : Z) : Z := Z.lxor x (Z.ones w).

(** ** Little-endian loads and stores *)

Fixpoint le_load (l : list Z) : Z :=
  match l with
  | [] => 0
  | b :: l => b + 256 * le_load l
  end.

Fixpoint le_split (n : nat) (x : Z) : list Z :=
  match n with
  | O => []
  | S n => x mod 256 :: le_split n (x / 256)
  end.

Definition bswap (n : nat) (x : Z) : Z := le_load (rev (le_split n x)).

Definition htonl (x : Z) : Z := bswap 4 x.
Definition htons (x : Z) : Z := bswap 2 x.
Definition ntohl (x : Z) : Z := bswap 4 x.
Definition ntohs (x : Z) : Z := bswap 2 x.

(** ** Checked buffer accesses *)

(** [memcpy (dst, buf + off, len)] *)
Definition slice (off len : nat) (buf : list Z) : res (list Z) :=
  if decide (off + len <= length buf)%nat
  then Ok (take len (drop off buf)) else Err OutOfBounds.

Definition rd8 (off : nat) (buf : list Z) : res Z :=
  from_option OutOfBounds (buf !! off).

Definition rd16 (off : nat) (buf : list Z) : res Z :=
  match slice off 2 buf with Ok a => Ok (le_load a) | Err e => Err e end.

Definition rd32 (off : nat) (buf : list Z) : res Z :=
  match slice off 4 buf with Ok a => Ok (le_load a) | Err e => Err e end.

(** Two's-complement comparison [memcmp (a, b, n) == 0] of equal-sized blocks. *)
Definition mem_eqb (a b : list Z) : bool := bool_decide (a = b).

Definition list_land (a b : list Z) : list Z := zip_with Z.land a b.

(** [memcpy (buf + off, src, length src)], [memmove] included. *)
Definition blit (off : nat) (src buf : list Z) : list Z :=
  take off buf ++ src ++ drop (off + length src) buf.

(** [struct timeval]. *)
Record timeval := mk_timeval { tv_sec : Z; tv_usec : Z }.

(** The instant a [timeval] stands for, in microseconds. *)
Definition usec (t : timeval) : Z := tv_sec t * 1000000 + tv_usec t.

Section facts.
Implicit Types l k : list Z.
Implicit Types x y : Z.

Lemma byte_ok_dec x : 0 <= x < 256 <-> byte_ok x.
Proof. done. Qed.

Lemma bytes_ok_nil : bytes_ok [].
Proof. constructor. Qed.

Lemma bytes_ok_cons x l : bytes_ok (x :: l) <-> byte_ok x /\ bytes_ok l.
Proof. split; [by inversion 1 | intros []; by constructor]. Qed.

Lemma bytes_ok_app l k : bytes_ok (l ++ k) <-> bytes_ok l /\ bytes_ok k.
Proof. apply Forall_app. Qed.

Lemma bytes_ok_rev l : bytes_ok l -> bytes_ok (rev l).
Proof. intros H. apply Forall_rev, H. Qed.

Lemma bytes_ok_lookup l i x : bytes_ok l -> l !! i = Some x -> byte_ok x.
Proof. intros H E. exact (Forall_lookup_1 _ _ _ _ H E). Qed.

Lemma length_le_split n x : length (le_split n x) = n.
Proof. revert x. induction n; simpl; auto. Qed.

Lemma le_split_bytes n x : bytes_ok (le_split n x).
Proof.
  revert x. induction n as [|n IH]; intros x; simpl; [constructor|].
  constructor; [|apply IH]. unfold byte_ok. pose proof (Z.mod_pos_bound x 256). lia.
Qed.

Lemma le_load_bounds l : bytes_ok l -> 0 <= le_load l < 256 ^ Z.of_nat (length l).
Proof.
  induction 1 as [|x l Hx _ IH]; [simpl; lia|].
  cbn [length le_load]. rewrite Nat2Z.inj_succ, Z.pow_succ_r by lia.
  unfold byte_ok in Hx. lia.
Qed.

Lemma le_load_nonneg l : bytes_ok l -> 0 <= le_load l.
Proof. intros H. apply le_load_bounds in H. lia. Qed.

Lemma le_split_load l n : bytes_ok l -> length l = n -> le_split n (le_load l) = l.
Proof.
  intros H <-. induction H as [|x l Hx _ IH]; [done|].
  cbn [length le_load le_split]. unfold byte_ok in Hx. f_equal.
  - rewrite Z.mul_comm, Z.mod_add, Z.mod_small; lia.
  - rewrite Z.mul_comm, Z.div_add, Z.div_small by lia. apply IH.
Qed.

Lemma le_load_split n x : le_load (le_split n x) = x mod 256 ^ Z.of_nat n.
Proof.
  revert x. induction n as [|n IH]; intros x; [simpl; by rewrite Z.mod_1_r|].
  cbn [le_split le_load]. rewrite IH, Nat2Z.inj_succ, Z.pow_succ_r by lia.
  rewrite Z.rem_mul_r by lia. lia.
Qed.

Lemma le_load_split_small n x :
  0 <= x < 256 ^ Z.of_nat n -> le_load (le_split n x) = x.
Proof. intros. rewrite le_load_split. by apply Z.mod_small. Qed.

Lemma le_load_inj l k :
  bytes_ok l -> bytes_ok k -> length l = length k ->
  le_load l = le_load k -> l = k.
Proof.
  intros Hl Hk E EQ.
  rewrite <- (le_split_load l (length l)), <- (le_split_load k (length l)) by done.
  by rewrite EQ.
Qed.

Lemma le_load_eqb l k :
  bytes_ok l -> bytes_ok k -> length l = length k ->
  (le_load l =? le_load k) = bool_decide (l = k).
Proof.
  intros Hl Hk E. case_bool_decide as HE; [subst; apply Z.eqb_refl|].
  apply Z.eqb_neq. contradict HE. by apply le_load_inj.
Qed.

Lemma bswap_bounds n x : 0 <= bswap n x < 256 ^ Z.of_nat n.
Proof.
  unfold bswap. pose proof (le_load_bounds (rev (le_split n x))) as H.
  rewrite length_rev, length_le_split in H.
  apply H, bytes_ok_rev, le_split_bytes.
Qed.

Lemma bswap_load l n :
  bytes_ok l -> length l = n -> bswap n (le_load l) = le_load (rev l).
Proof. intros H E. unfold bswap. by rewrite le_split_load. Qed.

Lemma le_split_bswap n x : le_split n (bswap n x) = rev (le_split n x).
Proof.
  unfold bswap. apply le_split_load; [apply bytes_ok_rev, le_split_bytes|].
  by rewrite length_rev, length_le_split.
Qed.

Lemma bswap_bswap n x : 0 <= x < 256 ^ Z.of_nat n -> bswap n (bswap n x) = x.
Proof.
  intros H. unfold bswap at 1. rewrite le_split_bswap, rev_involutive.
  by apply le_load_split_small.
Qed.

Lemma le_split_app n m x :
  le_split (n + m) x = le_split n x ++ le_split m (x / 256 ^ Z.of_nat n).
Proof.
  revert x. induction n as [|n IH]; intros x; [simpl; by rewrite Z.div_1_r|].
  cbn [Nat.add le_split app]. rewrite IH, Nat2Z.inj_succ, Z.pow_succ_r by lia.
  by rewrite Z.div_div by lia.
Qed.

Lemma le_split_mod n x : le_split n (x mod 256 ^ Z.of_nat n) = le_split n x.
Proof.
  apply le_load_inj; [apply le_split_bytes..|by rewrite !length_le_split|].
  rewrite !le_load_split. apply Zmod_mod.
Qed.

(** *** Bits of a little-endian load *)

Lemma testbit_cons_low x y i :
  byte_ok x -> 0 <= i < 8 -> Z.testbit (x + 256 * y) i = Z.testbit x i.
Proof.
  intros Hx Hi. rewrite <- (Z.mod_pow2_bits_low (x + 256 * y) 8) by lia.
  change (2 ^ 8) with 256. rewrite Z.mul_comm, Z.mod_add by lia.
  unfold byte_ok in Hx. by rewrite Z.mod_small by lia.
Qed.

Lemma testbit_cons_high x y i :
  byte_ok x -> 8 <= i -> Z.testbit (x + 256 * y) i = Z.testbit y (i - 8).
Proof.
  intros Hx Hi. replace i with ((i - 8) + 8) at 1 by lia.
  rewrite <- Z.shiftr_spec by lia. f_equal.
  rewrite Z.shiftr_div_pow2 by lia. change (2 ^ 8) with 256. unfold byte_ok in Hx.
  rewrite Z.mul_comm, Z.div_add, Z.div_small; lia.
Qed.

Lemma testbit_byte_high x i : byte_ok x -> 8 <= i -> Z.testbit x i = false.
Proof.
  intros Hx Hi. rewrite <- (Z.mod_small x (2 ^ 8)) by exact Hx.
  apply Z.mod_pow2_bits_high. lia.
Qed.

Lemma byte_ok_land x y : byte_ok x -> byte_ok y -> byte_ok (Z.land x y).
Proof.
  unfold byte_ok. intros Hx Hy. split; [apply Z.land_nonneg; lia|].
  assert (Z.land x y = Z.land x y mod 2 ^ 8) as ->; [|apply Z.mod_pos_bound; lia].
  apply Z.bits_inj'. intros i Hi. destruct (decide (i < 8)).
  - by rewrite Z.mod_pow2_bits_low by lia.
  - rewrite Z.mod_pow2_bits_high, Z.land_spec by lia.
    by rewrite (testbit_byte_high x i) by (unfold byte_ok; lia).
Qed.

Lemma land_cons x y z w :
  byte_ok x -> byte_ok z ->
  Z.land (x + 256 * y) (z + 256 * w) = Z.land x z + 256 * Z.land y w.
Proof.
  intros Hx Hz. apply Z.bits_inj'. intros i Hi. rewrite Z.land_spec.
  destruct (decide (i < 8)).
  - rewrite !testbit_cons_low, Z.land_spec by (auto using byte_ok_land; lia). done.
  - rewrite !testbit_cons_high, Z.land_spec by (auto using byte_ok_land; lia). done.
Qed.

Lemma le_load_land l k :
  bytes_ok l -> bytes_ok k -> length l = length k ->
  Z.land (le_load l) (le_load k) = le_load (list_land l k).
Proof.
  intros Hl. revert k. induction Hl as [|x l Hx _ IH]; intros [|y k] Hk [=]; [done|].
  apply bytes_ok_cons in Hk as [Hy Hk]. unfold list_land in *. simpl.
  rewrite land_cons, IH by auto. done.
Qed.

(** *** Bitwise complement *)

Lemma unot_involutive w x : unot w (unot w x) = x.
Proof. unfold unot. by rewrite Z.lxor_assoc, Z.lxor_nilpotent, Z.lxor_0_r. Qed.

Lemma unot_eqb w x y : (unot w x =? unot w y) = (x =? y).
Proof.
  destruct (Z.eqb_spec x y) as [->|Hne]; [apply Z.eqb_refl|].
  apply Z.eqb_neq. intros E. apply Hne.
  by rewrite <- (unot_involutive w x), E, unot_involutive.
Qed.

Lemma lxor_bounds w x y :
  0 <= w -> 0 <= x < 2 ^ w -> 0 <= y < 2 ^ w -> 0 <= Z.lxor x y < 2 ^ w.
Proof.
  intros Hw Hx Hy.
  assert (Z.lxor x y = Z.lxor x y mod 2 ^ w) as E.
  { apply Z.bits_inj'. intros i Hi. rewrite Z.testbit_mod_pow2 by lia.
    destruct (Z.ltb_spec i w); [done|]. rewrite Z.lxor_spec.
    rewrite <- (Z.mod_small x (2 ^ w)), <- (Z.mod_small y (2 ^ w)) by lia.
    by rewrite !Z.mod_pow2_bits_high by lia. }
  rewrite E. apply Z.mod_pos_bound. lia.
Qed.

Lemma unot_bounds w x : 0 <= w -> 0 <= x < 2 ^ w -> 0 <= unot w x < 2 ^ w.
Proof.
  intros Hw Hx. apply lxor_bounds; [done..|].
  rewrite Z.ones_equiv. pose proof (Z.pow_pos_nonneg 2 w). lia.
Qed.

Lemma unot_sub w x : 0 <= w -> 0 <= x < 2 ^ w -> unot w x = 2 ^ w - 1 - x.
Proof.
  intros Hw Hx. unfold unot.
  assert (forall i, 0 <= i -> w <= i -> Z.testbit x i = false) as Hhigh.
  { intros i ? ?. rewrite <- (Z.mod_small x (2 ^ w)) by done.
    apply Z.mod_pow2_bits_high. lia. }
  replace (2 ^ w - 1) with (Z.ones w) by (rewrite Z.ones_equiv; lia).
  rewrite Z.sub_nocarry_ldiff.
  - apply Z.bits_inj'. intros i Hi. rewrite Z.lxor_spec, Z.ldiff_spec.
    destruct (decide (i < w)).
    + rewrite Z.ones_spec_low by lia. by destruct (Z.testbit x i).
    + rewrite Hhigh, Z.ones_spec_high by lia. done.
  - apply Z.bits_inj'. intros i Hi. rewrite Z.ldiff_spec, Z.bits_0.
    destruct (decide (i < w)).
    + rewrite Z.ones_spec_low by lia. apply andb_false_r.
    + by rewrite Hhigh by lia.
Qed.

(** *** Checked accesses *)

Lemma slice_ok off len l :
  (off + len <= length l)%nat -> slice off len l = Ok (take len (drop off l)).
Proof. intros H. unfold slice. by rewrite decide_True. Qed.

Lemma slice_ok_inv off len l v :
  slice off len l = Ok v ->
  (off + len <= length l)%nat /\ v = take len (drop off l) /\ length v = len.
Proof.
  unfold slice. case_decide; [|done]. intros [= <-].
  split_and!; [done..|]. by apply take_drop_length.
Qed.

Lemma rd8_ok off l : (off < length l)%nat -> exists x, rd8 off l = Ok x /\ l !! off = Some x.
Proof.
  intros H. unfold rd8. destruct (lookup_lt_is_Some_2 l off H) as [x ->]. by exists x.
Qed.

Lemma res_ok_rd8 off l P :
  (off < length l)%nat -> (forall x, l !! off = Some x -> P x) -> res_ok (rd8 off l) P.
Proof. intros H HP. destruct (rd8_ok off l H) as (x & -> & E). by apply HP. Qed.

Lemma res_ok_slice off len l P :
  (off + len <= length l)%nat -> P (take len (drop off l)) -> res_ok (slice off len l) P.
Proof. intros H HP. by rewrite slice_ok. Qed.

Lemma slice_app_l off len l k v :
  slice off len l = Ok v -> slice off len (l ++ k) = Ok v.
Proof.
  intros (H & -> & _)%slice_ok_inv. rewrite slice_ok by (rewrite length_app; lia).
  f_equal. rewrite drop_app_le by lia. rewrite take_app_le; [done|].
  rewrite length_drop. lia.
Qed.

Lemma slice_app_r a b n off len : length a = n -> slice (n + off) len (a ++ b) = slice off len b.
Proof.
  intros <-. unfold slice. rewrite length_app.
  destruct (decide (off + len <= length b)%nat).
  - rewrite !decide_True by lia. f_equal. by rewrite drop_app_add.
  - by rewrite !decide_False by lia.
Qed.

Lemma rd8_app_r a b n off : length a = n -> rd8 (n + off) (a ++ b) = rd8 off b.
Proof. intros <-. unfold rd8. by rewrite lookup_app_r, Nat.add_comm, Nat.add_sub by lia. Qed.

Lemma length_blit off src buf :
  (off + length src <= length buf)%nat -> length (blit off src buf) = length buf.
Proof. intros H. unfold blit. rewrite !length_app, length_take, length_drop. lia. Qed.

Lemma take_blit off src buf :
  (off <= length buf)%nat -> take (off + length src) (blit off src buf) = take off buf ++ src.
Proof.
  intros H. unfold blit. rewrite app_assoc. apply take_app_exact.
  rewrite length_app, length_take. lia.
Qed.
End facts.

Arguments le_load : simpl never.
Arguments le_split : simpl never.

Lemma mem_eqb_true a b : mem_eqb a b = true <-> a = b.
Proof. apply bool_decide_eq_true. Qed.

Lemma mem_eqb_refl a : mem_eqb a a = true.
Proof. by apply mem_eqb_true. Qed.

(** Conversion to [int]; a result that does not fit wraps around. *)
Definition to_int (x : Z) : Z := (x + 2 ^ 31) mod 2 ^ 32 - 2 ^ 31.

Section to_int.
#[local] Ltac Zify.zify_post_hook ::= Z.div_mod_to_equations.

Lemma to_int_cong a b : (exists k, a = b + 2 ^ 32 * k) -> to_int a = to_int b.
Proof.
  intros [k ->]. unfold to_int. f_equal.
  replace (b + 2 ^ 32 * k + 2 ^ 31) with (b + 2 ^ 31 + k * 2 ^ 32) by lia. apply Z.mod_add. lia.
Qed.

Lemma to_int_eq a : exists k, to_int a = a + 2 ^ 32 * k.
Proof. exists (- ((a + 2 ^ 31) / 2 ^ 32)). unfold to_int. lia. Qed.

Lemma to_int_sub a b : to_int (to_int a - to_int b) = to_int (a - b).
Proof.
  destruct (to_int_eq a) as [k ->], (to_int_eq b) as [k' ->]. apply to_int_cong. exists (k - k'). lia.
Qed.
End to_int.
