(* ===== verification/Addr.v ===== *)
(** * Addresses: [teredo.h], [v4global.c] and the [netinet] address macros

IPv6 addresses are the sixteen bytes of [struct in6_addr]; the
[union teredo_addr] view of them is a record with its two conversions.
IPv4 addresses, ports and the fields of the union are held, as in the
C code, in network byte order. *)

From stdpp Require Import base gmap list numbers.
From S2P Require Import Prelude Words.

Abbreviation in6_addr := (list Z).

Definition addr_wf (a : in6_addr) : Prop := length a = 16%nat /\ bytes_ok a.

Definition IPPORT_TEREDO : Z := 3544.
Definition TEREDO_DISCOVERY_IPV4 : Z := 0xe00000fd.
Definition TEREDO_PREFIX : Z := 0x20010000.
Definition TEREDO_PREFIX_OBSOLETE : Z := 0x3ffe831f.
Definition TEREDO_FLAG_CONE : Z := 0x8000.
Definition TEREDO_RANDOM_MASK : Z := 0x3cff.

(** ** [union teredo_addr] *)

Record teredo_addr := mk_teredo_addr {
  prefix : Z;       (* uint32_t *)
  server_ip : Z;    (* uint32_t *)
  flags : Z;        (* uint16_t *)
  client_port : Z;  (* uint16_t *)
  client_ip : Z;    (* uint32_t *)
}.

#[export] Instance teredo_addr_eq_dec : EqDecision teredo_addr.
Proof. solve_decision. Defined.

Definition teredo_wf (t : teredo_addr) : Prop :=
  0 <= prefix t < 2 ^ 32 /\ 0 <= server_ip t < 2 ^ 32 /\ 0 <= flags t < 2 ^ 16 /\
  0 <= client_port t < 2 ^ 16 /\ 0 <= client_ip t < 2 ^ 32.

(** The [ip6] member of the union, and the [teredo] member. *)
Definition ip6_of (t : teredo_addr) : in6_addr :=
  le_split 4 (prefix t) ++ le_split 4 (server_ip t) ++ le_split 2 (flags t) ++
  le_split 2 (client_port t) ++ le_split 4 (client_ip t).

Definition teredo_of (a : in6_addr) : teredo_addr := {|
  prefix := le_load (take 4 a);
  server_ip := le_load (take 4 (drop 4 a));
  flags := le_load (take 2 (drop 8 a));
  client_port := le_load (take 2 (drop 10 a));
  client_ip := le_load (take 4 (drop 12 a));
|}.

Definition IN6_TEREDO_PREFIX (a : in6_addr) : Z := prefix (teredo_of a).
Definition IN6_TEREDO_SERVER (a : in6_addr) : Z := server_ip (teredo_of a).
Definition IN6_TEREDO_IPV4 (a : in6_addr) : Z := Z.lxor (client_ip (teredo_of a)) 0xffffffff.
Definition IN6_TEREDO_PORT (a : in6_addr) : Z := Z.lxor (client_port (teredo_of a)) 0xffff.
Definition IN6_IS_TEREDO_ADDR_CONE (a : in6_addr) : bool :=
  negb (Z.land (flags (teredo_of a)) (htons TEREDO_FLAG_CONE) =? 0).

Definition in6_matches_teredo_client (a : in6_addr) (ip port : Z) : bool :=
  negb (negb (Z.lxor ip (IN6_TEREDO_IPV4 a) =? 0)
        || negb (Z.lxor port (IN6_TEREDO_PORT a) =? 0)).

Definition is_valid_teredo_prefix (p : Z) : bool :=
  negb (Z.land p 0xff000000 =? 0xff000000).

(** ** [netinet/in.h] *)

Definition s6_addr (a : in6_addr) (i : nat) : Z := nth i a 0.

Definition IN6_ARE_ADDR_EQUAL (a b : in6_addr) : bool := mem_eqb a b.
Definition IN6_IS_ADDR_UNSPECIFIED (a : in6_addr) : bool := mem_eqb a (repeat 0 16).
Definition IN6_IS_ADDR_LOOPBACK (a : in6_addr) : bool := mem_eqb a (repeat 0 15 ++ [1]).
Definition IN6_IS_ADDR_MULTICAST (a : in6_addr) : bool := s6_addr a 0 =? 0xff.
Definition IN6_IS_ADDR_LINKLOCAL (a : in6_addr) : bool :=
  (s6_addr a 0 =? 0xfe) && (Z.land (s6_addr a 1) 0xc0 =? 0x80).

(** ** Well-known Teredo addresses ([teredo.c]) *)

Definition teredo_restrict : in6_addr :=
  [0xfe; 0x80; 0; 0; 0; 0; 0; 0; 0; 0; 0xff; 0xff; 0xff; 0xff; 0xff; 0xff].
Definition teredo_cone : in6_addr :=
  [0xfe; 0x80; 0; 0; 0; 0; 0; 0; 0x80; 0; 84; 69; 82; 69; 68; 79].
Definition in6addr_allrouters : in6_addr :=
  [0xff; 0x02; 0; 0; 0; 0; 0; 0; 0; 0; 0; 0; 0; 0; 0; 0x2].
Definition in6addr_allnodes : in6_addr :=
  [0xff; 0x02; 0; 0; 0; 0; 0; 0; 0; 0; 0; 0; 0; 0; 0; 0x1].

(** ** [is_ipv4_global_unicast] ([v4global.c]) *)

Definition is_ipv4_global_unicast (ip : Z) : bool :=
  if Z.land ip (htonl 0x80000000) =? 0 then
    (* class A *)
    let ip := Z.land ip (htonl 0xff000000) in
    negb (ip =? htonl 0x0a000000) && negb (ip =? htonl 0x7f000000)
    && negb (ip =? htonl 0x00000000)
  else if Z.land ip (htonl 0x40000000) =? 0 then
    (* class B *)
    negb (Z.land ip (htonl 0xffff0000) =? htonl 0xa9fe0000)
    && negb (Z.land ip (htonl 0xfff00000) =? htonl 0xac100000)
  else if Z.land ip (htonl 0x20000000) =? 0 then
    (* class C *)
    negb (Z.land ip (htonl 0xffff0000) =? htonl 0xc0a80000)
    && negb (Z.land ip (htonl 0xffffff00) =? htonl 0xc0586200)
  else if Z.land ip (htonl 0x10000000) =? 0 then
    (* class D *)
    false
  else negb (ip =? htonl 0xffffffff).

(** The network-order address [a.b.c.d]. *)
Definition ipv4 (a b c d : Z) : Z := le_load [a; b; c; d].

(** The address ranges that the function rejects, octet by octet. *)
Definition v4_global_spec (a b c d : Z) : bool :=
  negb ((a =? 0) || (a =? 10) || (a =? 127)
        || (a =? 169) && (b =? 254)
        || (a =? 172) && (16 <=? b) && (b <=? 31)
        || (a =? 192) && (b =? 168)
        || (a =? 192) && (b =? 88) && (c =? 98)
        || (224 <=? a) && (a <=? 239)
        || (a =? 255) && (b =? 255) && (c =? 255) && (d =? 255)).

(** ** Facts *)

Lemma byte_forall (P : Z -> bool) :
  forallb P (seqZ 0 256) = true -> forall x, byte_ok x -> P x = true.
Proof.
  intros H x Hx. rewrite forallb_forall in H. apply H.
  apply list_elem_of_In, elem_of_seqZ. unfold byte_ok in Hx. lia.
Qed.

(** Prove a boolean fact about one byte by checking its 256 values. *)
Ltac byte_cases x :=
  match goal with
  | H : byte_ok x |- ?P = ?Q =>
    let f := eval pattern x in (Bool.eqb P Q) in
    match f with
    | ?g _ => apply eqb_prop; apply (byte_forall g); [vm_compute; reflexivity | exact H]
    end
  end.

Section bytes.
Context (x : Z) (Hx : byte_ok x).

Lemma land_255 : Z.land x 255 = x.
Proof. change 255 with (Z.ones 8). rewrite Z.land_ones by lia. by apply Z.mod_small. Qed.

Lemma land_128_eqb : (Z.land x 128 =? 0) = (x <? 128).
Proof. byte_cases x. Qed.

Lemma land_64_eqb : 128 <= x -> (Z.land x 64 =? 0) = (x <? 192).
Proof.
  intros H. assert ((x <? 128) || Bool.eqb (Z.land x 64 =? 0) (x <? 192) = true) as E
    by byte_cases x.
  apply orb_true_iff in E as [E|E]; [lia | by apply eqb_prop].
Qed.

Lemma land_32_eqb : 192 <= x -> (Z.land x 32 =? 0) = (x <? 224).
Proof.
  intros H. assert ((x <? 192) || Bool.eqb (Z.land x 32 =? 0) (x <? 224) = true) as E
    by byte_cases x.
  apply orb_true_iff in E as [E|E]; [lia | by apply eqb_prop].
Qed.

Lemma land_16_eqb : 224 <= x -> (Z.land x 16 =? 0) = (x <? 240).
Proof.
  intros H. assert ((x <? 224) || Bool.eqb (Z.land x 16 =? 0) (x <? 240) = true) as E
    by byte_cases x.
  apply orb_true_iff in E as [E|E]; [lia | by apply eqb_prop].
Qed.

Lemma land_240_eqb : (Z.land x 240 =? 16) = (16 <=? x) && (x <=? 31).
Proof. byte_cases x. Qed.
End bytes.

Section ipv4_facts.
Context (a b c d a' b' c' d' : Z).
Hypothesis Ha : byte_ok a.
Hypothesis Hb : byte_ok b.
Hypothesis Hc : byte_ok c.
Hypothesis Hd : byte_ok d.
Hypothesis Ha' : byte_ok a'.
Hypothesis Hb' : byte_ok b'.
Hypothesis Hc' : byte_ok c'.
Hypothesis Hd' : byte_ok d'.

Lemma ipv4_land :
  Z.land (ipv4 a b c d) (ipv4 a' b' c' d') =
  ipv4 (Z.land a a') (Z.land b b') (Z.land c c') (Z.land d d').
Proof. apply le_load_land; repeat constructor; by apply byte_ok_dec. Qed.

Lemma ipv4_eqb :
  (ipv4 a b c d =? ipv4 a' b' c' d') = (a =? a') && (b =? b') && (c =? c') && (d =? d').
Proof.
  unfold ipv4, le_load. unfold byte_ok in *.
  destruct (Z.eqb_spec a a'), (Z.eqb_spec b b'), (Z.eqb_spec c c'), (Z.eqb_spec d d');
    simpl; subst; lia.
Qed.
End ipv4_facts.

Lemma byte_ok_literal n : (0 <=? n) && (n <? 256) = true -> byte_ok n.
Proof. unfold byte_ok. lia. Qed.

Ltac byte_ok_tac :=
  first [ assumption | apply byte_ok_land; byte_ok_tac | apply byte_ok_literal; reflexivity ].

Ltac bytes_ok_tac :=
  repeat first [ apply bytes_ok_nil | apply bytes_ok_app; split | apply le_split_bytes
               | apply bytes_ok_cons; split; [byte_ok_tac|] | assumption ].

(** The masks of the function, as octets. *)
Lemma ipv4_mask_eqb a b c d m0 m1 m2 m3 v0 v1 v2 v3 :
  byte_ok a -> byte_ok b -> byte_ok c -> byte_ok d ->
  byte_ok m0 -> byte_ok m1 -> byte_ok m2 -> byte_ok m3 ->
  byte_ok v0 -> byte_ok v1 -> byte_ok v2 -> byte_ok v3 ->
  (Z.land (ipv4 a b c d) (ipv4 m0 m1 m2 m3) =? ipv4 v0 v1 v2 v3) =
  (Z.land a m0 =? v0) && (Z.land b m1 =? v1) && (Z.land c m2 =? v2) && (Z.land d m3 =? v3).
Proof. intros. rewrite ipv4_land, ipv4_eqb by byte_ok_tac. done. Qed.

(** [is_ipv4_global_unicast] decides, octet by octet, exactly the ranges
    listed by [v4_global_spec], for every IPv4 address in network byte order
    on a little-endian host. *)
Theorem is_ipv4_global_unicast_spec (a b c d : Z)
    (Ha : byte_ok a) (Hb : byte_ok b) (Hc : byte_ok c) (Hd : byte_ok d) :
  is_ipv4_global_unicast (ipv4 a b c d) = v4_global_spec a b c d.
Proof.
  unfold is_ipv4_global_unicast.
  change (Z.land (ipv4 a b c d) (htonl 0x80000000) =? 0)
    with (Z.land (ipv4 a b c d) (ipv4 128 0 0 0) =? ipv4 0 0 0 0).
  change (Z.land (ipv4 a b c d) (htonl 0x40000000) =? 0)
    with (Z.land (ipv4 a b c d) (ipv4 64 0 0 0) =? ipv4 0 0 0 0).
  change (Z.land (ipv4 a b c d) (htonl 0x20000000) =? 0)
    with (Z.land (ipv4 a b c d) (ipv4 32 0 0 0) =? ipv4 0 0 0 0).
  change (Z.land (ipv4 a b c d) (htonl 0x10000000) =? 0)
    with (Z.land (ipv4 a b c d) (ipv4 16 0 0 0) =? ipv4 0 0 0 0).
  change (htonl 0xff000000) with (ipv4 255 0 0 0).
  change (htonl 0x0a000000) with (ipv4 10 0 0 0).
  change (htonl 0x7f000000) with (ipv4 127 0 0 0).
  change (htonl 0x00000000) with (ipv4 0 0 0 0).
  change (htonl 0xffff0000) with (ipv4 255 255 0 0).
  change (htonl 0xa9fe0000) with (ipv4 169 254 0 0).
  change (htonl 0xfff00000) with (ipv4 255 240 0 0).
  change (htonl 0xac100000) with (ipv4 172 16 0 0).
  change (htonl 0xc0a80000) with (ipv4 192 168 0 0).
  change (htonl 0xffffff00) with (ipv4 255 255 255 0).
  change (htonl 0xc0586200) with (ipv4 192 88 98 0).
  change (htonl 0xffffffff) with (ipv4 255 255 255 255).
  cbv zeta. rewrite !ipv4_mask_eqb, ipv4_eqb by byte_ok_tac.
  rewrite !land_255, !Z.land_0_r, land_128_eqb, land_240_eqb by done.
  change (0 =? 0) with true. rewrite !andb_true_r. unfold v4_global_spec.
  destruct (Z.ltb_spec a 128); [lia|].
  rewrite land_64_eqb by done. destruct (Z.ltb_spec a 192); [lia|].
  rewrite land_32_eqb by done. destruct (Z.ltb_spec a 224); [lia|].
  rewrite land_16_eqb by done. destruct (Z.ltb_spec a 240); lia.
Qed.

Lemma is_ipv4_global_unicast_witness :
  is_ipv4_global_unicast (ipv4 193 0 6 139) = true
  /\ is_ipv4_global_unicast (ipv4 172 20 123 45) = false.
Proof.
  split.
  - rewrite (is_ipv4_global_unicast_spec 193 0 6 139); by vm_compute.
  - rewrite (is_ipv4_global_unicast_spec 172 20 123 45); by vm_compute.
Defined.

(** The class-C test of [is_ipv4_global_unicast] rejects 192.88.98.0/24
    and accepts 192.88.99.0/24, the 6to4 relay anycast network that its
    comment lists as forbidden: the constant [0xc0586200] is one octet off. *)
Theorem v4global_6to4_anycast_accepted (d : Z) (Hd : byte_ok d) :
  is_ipv4_global_unicast (ipv4 192 88 99 d) = true
  /\ is_ipv4_global_unicast (ipv4 192 88 98 d) = false.
Proof.
  split; byte_cases d.
Qed.

Lemma v4global_6to4_anycast_accepted_witness :
  byte_ok 1 /\ is_ipv4_global_unicast (ipv4 192 88 99 1) = true.
Proof.
  split; [unfold byte_ok; lia|].
  apply (v4global_6to4_anycast_accepted 1). unfold byte_ok; lia.
Defined.

(** [is_valid_teredo_prefix] is applied to prefixes in network byte
    order, so on a little-endian host it looks at the last byte of the prefix:
    it accepts every prefix of the multicast range ff00::/8 whose fourth byte
    is not 0xff, and rejects valid prefixes such as 2001:00ff::/32. *)
Theorem is_valid_teredo_prefix_tests_last_byte (a b c d : Z)
    (Ha : byte_ok a) (Hb : byte_ok b) (Hc : byte_ok c) (Hd : byte_ok d) :
  is_valid_teredo_prefix (ipv4 a b c d) = negb (d =? 255).
Proof.
  unfold is_valid_teredo_prefix. change 0xff000000 with (ipv4 0 0 0 255).
  rewrite ipv4_mask_eqb by byte_ok_tac. by rewrite !Z.land_0_r, land_255 by done.
Qed.

Lemma is_valid_teredo_prefix_tests_last_byte_witness :
  is_valid_teredo_prefix (ipv4 0xff 0x01 0 0) = true
  /\ is_valid_teredo_prefix (ipv4 0x20 0x01 0 0xff) = false.
Proof.
  split; rewrite is_valid_teredo_prefix_tests_last_byte;
    first [reflexivity | by apply byte_ok_literal].
Defined.

(** *** The union *)

Lemma ip6_of_length t : length (ip6_of t) = 16%nat.
Proof. unfold ip6_of. by rewrite !length_app, !length_le_split. Qed.

Lemma ip6_of_wf t : addr_wf (ip6_of t).
Proof.
  split; [apply ip6_of_length|]. unfold ip6_of.
  repeat (apply bytes_ok_app; split); apply le_split_bytes.
Qed.

Lemma teredo_of_wf a : addr_wf a -> teredo_wf (teredo_of a).
Proof.
  intros [HL HB]. unfold teredo_wf, teredo_of. cbn [prefix server_ip flags client_port client_ip].
  assert (forall n m, (n + m <= 16)%nat ->
            0 <= le_load (take m (drop n a)) < 256 ^ Z.of_nat m) as H.
  { intros n m Hnm. pose proof (le_load_bounds (take m (drop n a))) as B.
    rewrite take_drop_length in B by lia. apply B, Forall_take_drop, HB. }
  split_and!; first [ apply (H 0%nat 4%nat) | apply (H 4%nat 4%nat) | apply (H 8%nat 2%nat)
                    | apply (H 10%nat 2%nat) | apply (H 12%nat 4%nat)]; lia.
Qed.

Lemma teredo_of_ip6_of t : teredo_wf t -> teredo_of (ip6_of t) = t.
Proof.
  intros (H1 & H2 & H3 & H4 & H5). destruct t as [p s f cp ci].
  unfold teredo_of, ip6_of; cbn [prefix server_ip flags client_port client_ip] in *.
  f_equal.
  - rewrite take_app_exact by apply length_le_split. by apply le_load_split_small.
  - rewrite drop_app_exact by apply length_le_split.
    rewrite take_app_exact by apply length_le_split. by apply le_load_split_small.
  - rewrite app_assoc, drop_app_exact by (by rewrite length_app, !length_le_split).
    rewrite take_app_exact by apply length_le_split. by apply le_load_split_small.
  - rewrite !app_assoc. rewrite <- app_assoc.
    rewrite drop_app_exact by (by rewrite !length_app, !length_le_split).
    rewrite take_app_exact by apply length_le_split. by apply le_load_split_small.
  - rewrite !app_assoc. rewrite drop_app_exact by (by rewrite !length_app, !length_le_split).
    rewrite take_ge by (by rewrite length_le_split). by apply le_load_split_small.
Qed.

Lemma ip6_of_teredo_of a : addr_wf a -> ip6_of (teredo_of a) = a.
Proof.
  intros [HL HB]. unfold ip6_of, teredo_of; cbn [prefix server_ip flags client_port client_ip].
  do 16 (destruct a as [|? a]; [discriminate|]). destruct a; [|discriminate].
  repeat match goal with H : bytes_ok (_ :: _) |- _ => apply bytes_ok_cons in H as [? ?] end.
  cbn [take drop]. rewrite !le_split_load; [done|..]; first [reflexivity | bytes_ok_tac].
Qed.

Lemma teredo_of_inj a b : addr_wf a -> addr_wf b -> teredo_of a = teredo_of b -> a = b.
Proof. intros Ha Hb E. by rewrite <- (ip6_of_teredo_of a), E, ip6_of_teredo_of. Qed.

Lemma lxor_eqb_0 x y : (Z.lxor x y =? 0) = (x =? y).
Proof.
  destruct (Z.eqb_spec x y) as [->|Hne]; [by rewrite Z.lxor_nilpotent|].
  apply Z.eqb_neq. by rewrite Z.lxor_eq_0_iff.
Qed.

Lemma in6_matches_spec a ip port :
  in6_matches_teredo_client a ip port =
  (ip =? IN6_TEREDO_IPV4 a) && (port =? IN6_TEREDO_PORT a).
Proof.
  unfold in6_matches_teredo_client. rewrite !lxor_eqb_0. by rewrite negb_orb, !negb_involutive.
Qed.

#[export] Hint Resolve ip6_of_wf ip6_of_length teredo_of_wf : maiccu.
