(* ===== verification/Md5.v ===== *)
(** * MD5 ([md5.c])

The message digest that keys the Teredo nonces and ping hashes.  The block
transform is the unrolled code of [md5_process]; it is proved equal to the
table-driven loop of RFC 1321, and the streaming interface
([md5_init]/[md5_append]/[md5_finish]) is proved to compute the one-shot
digest of the concatenated input, whatever the split into appends. *)

From Stdlib Require Import ZifyNat.
From stdpp Require Import base gmap list numbers.
From S2P Require Import Prelude Words.

(** ** Words *)

Definition T_MASK : Z := 0xffffffff.

(** The constants [T1] .. [T64]. *)
Definition Ttab : list Z := [
  Z.lxor T_MASK 0x28955b87;
  Z.lxor T_MASK 0x173848a9;
  0x242070db;
  Z.lxor T_MASK 0x3e423111;
  Z.lxor T_MASK 0x0a83f050;
  0x4787c62a;
  Z.lxor T_MASK 0x57cfb9ec;
  Z.lxor T_MASK 0x02b96afe;
  0x698098d8;
  Z.lxor T_MASK 0x74bb0850;
  Z.lxor T_MASK 0x0000a44e;
  Z.lxor T_MASK 0x76a32841;
  0x6b901122;
  Z.lxor T_MASK 0x02678e6c;
  Z.lxor T_MASK 0x5986bc71;
  0x49b40821;
  Z.lxor T_MASK 0x09e1da9d;
  Z.lxor T_MASK 0x3fbf4cbf;
  0x265e5a51;
  Z.lxor T_MASK 0x16493855;
  Z.lxor T_MASK 0x29d0efa2;
  0x02441453;
  Z.lxor T_MASK 0x275e197e;
  Z.lxor T_MASK 0x182c0437;
  0x21e1cde6;
  Z.lxor T_MASK 0x3cc8f829;
  Z.lxor T_MASK 0x0b2af278;
  0x455a14ed;
  Z.lxor T_MASK 0x561c16fa;
  Z.lxor T_MASK 0x03105c07;
  0x676f02d9;
  Z.lxor T_MASK 0x72d5b375;
  Z.lxor T_MASK 0x0005c6bd;
  Z.lxor T_MASK 0x788e097e;
  0x6d9d6122;
  Z.lxor T_MASK 0x021ac7f3;
  Z.lxor T_MASK 0x5b4115bb;
  0x4bdecfa9;
  Z.lxor T_MASK 0x0944b49f;
  Z.lxor T_MASK 0x4140438f;
  0x289b7ec6;
  Z.lxor T_MASK 0x155ed805;
  Z.lxor T_MASK 0x2b10cf7a;
  0x04881d05;
  Z.lxor T_MASK 0x262b2fc6;
  Z.lxor T_MASK 0x1924661a;
  0x1fa27cf8;
  Z.lxor T_MASK 0x3b53a99a;
  Z.lxor T_MASK 0x0bd6ddbb;
  0x432aff97;
  Z.lxor T_MASK 0x546bdc58;
  Z.lxor T_MASK 0x036c5fc6;
  0x655b59c3;
  Z.lxor T_MASK 0x70f3336d;
  Z.lxor T_MASK 0x00100b82;
  Z.lxor T_MASK 0x7a7ba22e;
  0x6fa87e4f;
  Z.lxor T_MASK 0x01d3191f;
  Z.lxor T_MASK 0x5cfebceb;
  0x4e0811a1;
  Z.lxor T_MASK 0x08ac817d;
  Z.lxor T_MASK 0x42c50dca;
  0x2ad7d2bb;
  Z.lxor T_MASK 0x14792c6e
].

Definition T (i : nat) : Z := nth (i - 1) Ttab 0.

Definition md5_regs : Type := Z * Z * Z * Z.

(** [md5_word_t] arithmetic *)
Definition add32 (x y : Z) : Z := wrap 32 (x + y).
Definition not32 (x : Z) : Z := unot 32 x.
Definition ROTATE_LEFT (x : Z) (n : Z) : Z :=
  Z.lor (wrap 32 (Z.shiftl x n)) (Z.shiftr x (32 - n)).

Definition md5_F (x y z : Z) : Z := Z.lor (Z.land x y) (Z.land (not32 x) z).
Definition md5_G (x y z : Z) : Z := Z.lor (Z.land x z) (Z.land y (not32 z)).
Definition md5_H (x y z : Z) : Z := Z.lxor (Z.lxor x y) z.
Definition md5_I (x y z : Z) : Z := Z.lxor y (Z.lor x (not32 z)).

(** [SET (a, b, c, d, k, s, Ti)]: the new value of [a]. *)
Definition SET (f : Z -> Z -> Z -> Z) (X : list Z) (a b c d : Z) (k : nat) (s Ti : Z) : Z :=
  let t := add32 (add32 (add32 a (f b c d)) (nth k X 0)) Ti in
  add32 (ROTATE_LEFT t s) b.

Definition md5_round1 (X : list Z) (s : md5_regs) : md5_regs :=
  let '(a, b, c, d) := s in
  let a := SET md5_F X a b c d 0 7 (T 1) in
  let d := SET md5_F X d a b c 1 12 (T 2) in
  let c := SET md5_F X c d a b 2 17 (T 3) in
  let b := SET md5_F X b c d a 3 22 (T 4) in
  let a := SET md5_F X a b c d 4 7 (T 5) in
  let d := SET md5_F X d a b c 5 12 (T 6) in
  let c := SET md5_F X c d a b 6 17 (T 7) in
  let b := SET md5_F X b c d a 7 22 (T 8) in
  let a := SET md5_F X a b c d 8 7 (T 9) in
  let d := SET md5_F X d a b c 9 12 (T 10) in
  let c := SET md5_F X c d a b 10 17 (T 11) in
  let b := SET md5_F X b c d a 11 22 (T 12) in
  let a := SET md5_F X a b c d 12 7 (T 13) in
  let d := SET md5_F X d a b c 13 12 (T 14) in
  let c := SET md5_F X c d a b 14 17 (T 15) in
  let b := SET md5_F X b c d a 15 22 (T 16) in
  (a, b, c, d).

Definition md5_round2 (X : list Z) (s : md5_regs) : md5_regs :=
  let '(a, b, c, d) := s in
  let a := SET md5_G X a b c d 1 5 (T 17) in
  let d := SET md5_G X d a b c 6 9 (T 18) in
  let c := SET md5_G X c d a b 11 14 (T 19) in
  let b := SET md5_G X b c d a 0 20 (T 20) in
  let a := SET md5_G X a b c d 5 5 (T 21) in
  let d := SET md5_G X d a b c 10 9 (T 22) in
  let c := SET md5_G X c d a b 15 14 (T 23) in
  let b := SET md5_G X b c d a 4 20 (T 24) in
  let a := SET md5_G X a b c d 9 5 (T 25) in
  let d := SET md5_G X d a b c 14 9 (T 26) in
  let c := SET md5_G X c d a b 3 14 (T 27) in
  let b := SET md5_G X b c d a 8 20 (T 28) in
  let a := SET md5_G X a b c d 13 5 (T 29) in
  let d := SET md5_G X d a b c 2 9 (T 30) in
  let c := SET md5_G X c d a b 7 14 (T 31) in
  let b := SET md5_G X b c d a 12 20 (T 32) in
  (a, b, c, d).

Definition md5_round3 (X : list Z) (s : md5_regs) : md5_regs :=
  let '(a, b, c, d) := s in
  let a := SET md5_H X a b c d 5 4 (T 33) in
  let d := SET md5_H X d a b c 8 11 (T 34) in
  let c := SET md5_H X c d a b 11 16 (T 35) in
  let b := SET md5_H X b c d a 14 23 (T 36) in
  let a := SET md5_H X a b c d 1 4 (T 37) in
  let d := SET md5_H X d a b c 4 11 (T 38) in
  let c := SET md5_H X c d a b 7 16 (T 39) in
  let b := SET md5_H X b c d a 10 23 (T 40) in
  let a := SET md5_H X a b c d 13 4 (T 41) in
  let d := SET md5_H X d a b c 0 11 (T 42) in
  let c := SET md5_H X c d a b 3 16 (T 43) in
  let b := SET md5_H X b c d a 6 23 (T 44) in
  let a := SET md5_H X a b c d 9 4 (T 45) in
  let d := SET md5_H X d a b c 12 11 (T 46) in
  let c := SET md5_H X c d a b 15 16 (T 47) in
  let b := SET md5_H X b c d a 2 23 (T 48) in
  (a, b, c, d).

Definition md5_round4 (X : list Z) (s : md5_regs) : md5_regs :=
  let '(a, b, c, d) := s in
  let a := SET md5_I X a b c d 0 6 (T 49) in
  let d := SET md5_I X d a b c 7 10 (T 50) in
  let c := SET md5_I X c d a b 14 15 (T 51) in
  let b := SET md5_I X b c d a 5 21 (T 52) in
  let a := SET md5_I X a b c d 12 6 (T 53) in
  let d := SET md5_I X d a b c 3 10 (T 54) in
  let c := SET md5_I X c d a b 10 15 (T 55) in
  let b := SET md5_I X b c d a 1 21 (T 56) in
  let a := SET md5_I X a b c d 8 6 (T 57) in
  let d := SET md5_I X d a b c 15 10 (T 58) in
  let c := SET md5_I X c d a b 6 15 (T 59) in
  let b := SET md5_I X b c d a 13 21 (T 60) in
  let a := SET md5_I X a b c d 4 6 (T 61) in
  let d := SET md5_I X d a b c 11 10 (T 62) in
  let c := SET md5_I X c d a b 2 15 (T 63) in
  let b := SET md5_I X b c d a 9 21 (T 64) in
  (a, b, c, d).

(** The sixteen little-endian words of a 64-byte block. *)
Definition md5_words (data : list Z) : list Z :=
  (fun i => le_load (take 4 (drop (4 * i) data))) <$> seq 0 16.

Definition md5_process (abcd : md5_regs) (data : list Z) : md5_regs :=
  let X := md5_words data in
  let '(a, b, c, d) := md5_round4 X (md5_round3 X (md5_round2 X (md5_round1 X abcd))) in
  let '(a0, b0, c0, d0) := abcd in
  (add32 a0 a, add32 b0 b, add32 c0 c, add32 d0 d).

(** ** The streaming interface *)

Record md5_state := mk_md5_state {
  count0 : Z;        (* message length in bits, least significant word *)
  count1 : Z;
  abcd : md5_regs;
  md5_buf : list Z;  (* 64 bytes *)
}.

Definition md5_init (garbage : list Z) : md5_state := {|
  count0 := 0; count1 := 0;
  abcd := (0x67452301, Z.lxor T_MASK 0x10325476, Z.lxor T_MASK 0x67452301, 0x10325476);
  md5_buf := garbage;
|}.

(** The loop over full blocks: [for (; left >= 64; p += 64, left -= 64)].
    The number of iterations is [left / 64]. *)
Fixpoint md5_blocks (n : nat) (abcd : md5_regs) (p : list Z) : md5_regs * list Z :=
  match n with
  | O => (abcd, p)
  | S n => md5_blocks n (md5_process abcd (take 64 p)) (drop 64 p)
  end.

(** The part of [md5_append] after the initial partial block. *)
Definition md5_append_full (c0 c1 : Z) (abcd : md5_regs) (buf p : list Z) : md5_state :=
  let '(abcd, p) := md5_blocks (length p / 64) abcd p in
  {| count0 := c0; count1 := c1; abcd := abcd; md5_buf := blit 0 p buf |}.

Definition md5_append (pms : md5_state) (data : list Z) : md5_state :=
  let nbytes := Z.of_nat (length data) in
  let offset := Z.land (Z.shiftr (count0 pms) 3) 63 in
  let nbits := wrap 32 (Z.shiftl nbytes 3) in
  if nbytes <=? 0 then pms else
  let c1 := add32 (count1 pms) (Z.shiftr nbytes 29) in
  let c0 := add32 (count0 pms) nbits in
  let c1 := if c0 <? nbits then add32 c1 1 else c1 in
  if negb (offset =? 0) then
    let copy := if 64 <? offset + nbytes then 64 - offset else nbytes in
    let buf := blit (Z.to_nat offset) (take (Z.to_nat copy) data) (md5_buf pms) in
    if offset + copy <? 64 then
      {| count0 := c0; count1 := c1; abcd := abcd pms; md5_buf := buf |}
    else
      md5_append_full c0 c1 (md5_process (abcd pms) buf) buf (drop (Z.to_nat copy) data)
  else md5_append_full c0 c1 (abcd pms) (md5_buf pms) data.

Definition md5_pad : list Z := 0x80 :: repeat 0 63.

Definition md5_digest (r : md5_regs) : list Z :=
  let '(a, b, c, d) := r in le_split 4 a ++ le_split 4 b ++ le_split 4 c ++ le_split 4 d.

Definition md5_finish (pms : md5_state) : list Z :=
  let data := le_split 4 (count0 pms) ++ le_split 4 (count1 pms) in
  let n := Z.land (wrap 32 (55 - Z.shiftr (count0 pms) 3)) 63 + 1 in
  let pms := md5_append pms (take (Z.to_nat n) md5_pad) in
  let pms := md5_append pms data in
  md5_digest (abcd pms).

(** ** The reference: RFC 1321

One step per table entry, the registers rotating. *)

Definition md5_step (f : Z -> Z -> Z -> Z) (X : list Z) (r : md5_regs)
    (e : nat * Z * nat) : md5_regs :=
  let '(a, b, c, d) := r in
  let '(k, s, i) := e in
  (d, SET f X a b c d k s (T i), b, c).

(** Entry [i] of round [r]: the word read, the rotation and the constant. *)
Definition md5_entry (r : nat) (i : nat) : nat * Z * nat :=
  let k := match r with
           | 0%nat => i
           | 1%nat => (5 * i + 1) mod 16
           | 2%nat => (3 * i + 5) mod 16
           | _ => (7 * i) mod 16
           end%nat in
  let s := nth (i mod 4) (match r with
                          | 0%nat => [7; 12; 17; 22]
                          | 1%nat => [5; 9; 14; 20]
                          | 2%nat => [4; 11; 16; 23]
                          | _ => [6; 10; 15; 21]
                          end) 0 in
  (k, s, 16 * r + i + 1)%nat.

Definition md5_round_ref (f : Z -> Z -> Z -> Z) (r : nat) (X : list Z) (s : md5_regs) :=
  fold_left (md5_step f X) (md5_entry r <$> seq 0 16) s.

Definition md5_process_ref (abcd : md5_regs) (data : list Z) : md5_regs :=
  let X := md5_words data in
  let '(a, b, c, d) :=
    md5_round_ref md5_I 3 X (md5_round_ref md5_H 2 X
      (md5_round_ref md5_G 1 X (md5_round_ref md5_F 0 X abcd))) in
  let '(a0, b0, c0, d0) := abcd in
  (add32 a0 a, add32 b0 b, add32 c0 c, add32 d0 d).

Fixpoint md5_blocks_ref (n : nat) (r : md5_regs) (m : list Z) : md5_regs :=
  match n with
  | O => r
  | S n => md5_blocks_ref n (md5_process_ref r (take 64 m)) (drop 64 m)
  end.

Definition md5_iv : md5_regs := (0x67452301, 0xefcdab89, 0x98badcfe, 0x10325476).

(** A one bit, zeros up to 56 bytes modulo 64, and the length in bits. *)
Definition md5_padding (len : nat) : list Z :=
  0x80 :: repeat 0 (Z.to_nat ((55 - Z.of_nat len) mod 64)) ++
  le_split 8 (8 * Z.of_nat len).

Definition md5_spec (msg : list Z) : list Z :=
  let m := msg ++ md5_padding (length msg) in
  md5_digest (md5_blocks_ref (length m / 64) md5_iv m).

#[local] Opaque SET T.

Lemma md5_round1_ref X s : md5_round1 X s = md5_round_ref md5_F 0 X s.
Proof. destruct s as [[[a b] c] d]. reflexivity. Qed.
Lemma md5_round2_ref X s : md5_round2 X s = md5_round_ref md5_G 1 X s.
Proof. destruct s as [[[a b] c] d]. reflexivity. Qed.
Lemma md5_round3_ref X s : md5_round3 X s = md5_round_ref md5_H 2 X s.
Proof. destruct s as [[[a b] c] d]. reflexivity. Qed.
Lemma md5_round4_ref X s : md5_round4 X s = md5_round_ref md5_I 3 X s.
Proof. destruct s as [[[a b] c] d]. reflexivity. Qed.

Lemma md5_process_ref_eq r data : md5_process r data = md5_process_ref r data.
Proof.
  unfold md5_process, md5_process_ref.
  by rewrite md5_round1_ref, md5_round2_ref, md5_round3_ref, md5_round4_ref.
Qed.

(** The unrolled block transform [md5_process] computes the table-driven
    transform of RFC 1321 on every block and every register state. *)
Theorem md5_process_is_rfc1321 (r : md5_regs) (data : list Z) :
  md5_process r data = md5_process_ref r data.
Proof. apply md5_process_ref_eq. Qed.

(** ** Streaming *)

#[local] Ltac Zify.zify_post_hook ::= Z.div_mod_to_equations.

Lemma md5_blocks_snd n r l : snd (md5_blocks n r l) = drop (64 * n) l.
Proof.
  revert r l. induction n as [|n IH]; intros r l; [done|].
  cbn [md5_blocks]. rewrite IH, drop_drop. f_equal. lia.
Qed.

Lemma md5_blocks_fst_ref n r l : fst (md5_blocks n r l) = md5_blocks_ref n r l.
Proof.
  revert r l. induction n as [|n IH]; intros r l; [done|].
  cbn [md5_blocks md5_blocks_ref]. by rewrite IH, md5_process_ref_eq.
Qed.

Lemma md5_blocks_eq n r l : md5_blocks n r l = (md5_blocks_ref n r l, drop (64 * n) l).
Proof.
  rewrite <- (md5_blocks_fst_ref n r l), <- (md5_blocks_snd n r l).
  by destruct (md5_blocks n r l).
Qed.

Lemma md5_blocks_ref_add n1 n2 r l :
  md5_blocks_ref (n1 + n2) r l = md5_blocks_ref n2 (md5_blocks_ref n1 r l) (drop (64 * n1) l).
Proof.
  revert r l. induction n1 as [|n1 IH]; intros r l; [done|].
  cbn [md5_blocks_ref Nat.add]. rewrite IH, drop_drop. do 2 f_equal. lia.
Qed.

Lemma md5_blocks_ref_app n r l k :
  (64 * n <= length l)%nat -> md5_blocks_ref n r (l ++ k) = md5_blocks_ref n r l.
Proof.
  revert r l. induction n as [|n IH]; intros r l Hl; [done|].
  cbn [md5_blocks_ref]. rewrite take_app_le, drop_app_le by lia.
  apply IH. rewrite length_drop. lia.
Qed.

(** [pms] has absorbed exactly the bytes [m]. *)
Definition md5_rep (pms : md5_state) (m : list Z) : Prop :=
  let len := length m in
  count0 pms = (8 * Z.of_nat len) mod 2 ^ 32 /\
  count1 pms = (8 * Z.of_nat len / 2 ^ 32) mod 2 ^ 32 /\
  abcd pms = md5_blocks_ref (len / 64) md5_iv m /\
  length (md5_buf pms) = 64%nat /\
  take (len mod 64) (md5_buf pms) = drop (64 * (len / 64)) m.

Lemma md5_offset_eq (len : nat) :
  Z.land (Z.shiftr ((8 * Z.of_nat len) mod 2 ^ 32) 3) 63 = Z.of_nat (len mod 64).
Proof.
  change 63 with (Z.ones 6). rewrite Z.land_ones, Z.shiftr_div_pow2 by lia.
  change (2 ^ 32) with (8 * 2 ^ 29). change (2 ^ 3) with 8. change (2 ^ 6) with 64.
  rewrite Zmult_mod_distr_l, Z.mul_comm, Z.div_mul by lia.
  rewrite Z.mod_mod_divide by (by exists (2 ^ 23)). by rewrite Nat2Z.inj_mod.
Qed.

(** The two-word bit counter of [md5_append]. *)
Lemma md5_count_eq (len n : nat) :
  Z.of_nat n < 2 ^ 28 ->
  let c0 := (8 * Z.of_nat len) mod 2 ^ 32 in
  let c1 := (8 * Z.of_nat len / 2 ^ 32) mod 2 ^ 32 in
  let nbits := wrap 32 (Z.shiftl (Z.of_nat n) 3) in
  let c1' := add32 c1 (Z.shiftr (Z.of_nat n) 29) in
  let c0' := add32 c0 nbits in
  c0' = (8 * Z.of_nat (len + n)) mod 2 ^ 32 /\
  (if c0' <? nbits then add32 c1' 1 else c1') = (8 * Z.of_nat (len + n) / 2 ^ 32) mod 2 ^ 32.
Proof.
  intros Hn. cbv zeta. unfold add32, wrap.
  rewrite Z.shiftl_mul_pow2, Z.shiftr_div_pow2 by lia.
  change (2 ^ 32) with 4294967296. change (2 ^ 29) with 536870912.
  change (2 ^ 28) with 268435456 in Hn. change (2 ^ 3) with 8.
  split; [lia|]. rewrite (Z.mod_small (Z.of_nat n * 8)), (Z.div_small (Z.of_nat n)) by lia.
  set (r := (8 * Z.of_nat len) mod 4294967296).
  set (q := 8 * Z.of_nat len / 4294967296).
  assert (8 * Z.of_nat len = q * 4294967296 + r) as E by lia.
  assert (0 <= r < 4294967296) by lia.
  replace (8 * Z.of_nat (len + n)) with (r + Z.of_nat n * 8 + q * 4294967296) by lia.
  rewrite Z.div_add by lia. rewrite Z.add_0_r, Zmod_mod.
  destruct (Z.ltb_spec ((r + Z.of_nat n * 8) mod 4294967296) (Z.of_nat n * 8)).
  - replace ((r + Z.of_nat n * 8) / 4294967296) with 1 by lia.
    by rewrite Zplus_mod_idemp_l, Z.add_comm.
  - by replace ((r + Z.of_nat n * 8) / 4294967296) with 0 by lia.
Qed.

(** Once the partial block has been flushed, the rest of the data is absorbed
    block by block. *)
Lemma md5_append_full_rep c0 c1 buf m p :
  (length m mod 64 = 0)%nat -> length buf = 64%nat ->
  c0 = (8 * Z.of_nat (length (m ++ p))) mod 2 ^ 32 ->
  c1 = (8 * Z.of_nat (length (m ++ p)) / 2 ^ 32) mod 2 ^ 32 ->
  md5_rep (md5_append_full c0 c1 (md5_blocks_ref (length m / 64) md5_iv m) buf p) (m ++ p).
Proof.
  intros Hm Hbuf Hc0 Hc1. unfold md5_append_full. rewrite md5_blocks_eq.
  assert (length (m ++ p) / 64 = length m / 64 + length p / 64)%nat as Hdiv
    by (rewrite length_app; lia).
  assert (64 * (length m / 64) = length m)%nat as H64 by lia.
  unfold md5_rep; cbn [count0 count1 abcd md5_buf]. split_and!; [done..| | |].
  - rewrite Hdiv, md5_blocks_ref_add, md5_blocks_ref_app by lia.
    by rewrite H64, drop_app_exact.
  - rewrite length_blit; [done|]. rewrite length_drop. lia.
  - rewrite Hdiv. rewrite Nat.mul_add_distr_l, H64, <- drop_drop, drop_app_exact by done.
    replace (length (m ++ p) mod 64)%nat
      with (0 + length (drop (64 * (length p / 64)) p))%nat
      by (rewrite length_app, length_drop; lia).
    rewrite take_blit by lia. done.
Qed.

(** Completing the pending block. *)
Lemma md5_fill_rep c0 c1 pms m d off :
  md5_rep pms m -> off = (length m mod 64)%nat -> (64 <= off + length d)%nat ->
  c0 = (8 * Z.of_nat (length (m ++ d))) mod 2 ^ 32 ->
  c1 = (8 * Z.of_nat (length (m ++ d)) / 2 ^ 32) mod 2 ^ 32 ->
  let buf := blit off (take (64 - off) d) (md5_buf pms) in
  md5_rep (md5_append_full c0 c1 (md5_process (abcd pms) buf) buf (drop (64 - off) d)) (m ++ d).
Proof.
  intros (_ & _ & Habcd & Hlen & Hbuf) Hoff Hd Hc0 Hc1 buf.
  set (m' := m ++ take (64 - off) d).
  assert (m ++ d = m' ++ drop (64 - off) d) as Hmd
    by (subst m'; by rewrite <- app_assoc, take_drop).
  assert (length (take (64 - off) d) = 64 - off)%nat as Ht by (rewrite length_take; lia).
  assert (length m' = 64 * (length m / 64 + 1))%nat as Hm'
    by (subst m'; rewrite length_app, Ht; lia).
  assert (buf = drop (64 * (length m / 64)) m') as Hb.
  { subst m'. rewrite drop_app_le by lia. rewrite <- Hbuf, <- Hoff.
    rewrite <- (take_blit off (take (64 - off) d)) by lia. rewrite take_ge; [done|].
    rewrite length_blit; lia. }
  assert (length buf = 64%nat) as Hbl by (rewrite Hb, length_drop; lia).
  assert (md5_process (abcd pms) buf = md5_blocks_ref (length m' / 64) md5_iv m') as ->.
  { replace (length m' / 64)%nat with (length m / 64 + 1)%nat by lia.
    rewrite md5_blocks_ref_add, <- Hb. cbn [md5_blocks_ref].
    rewrite md5_process_ref_eq, Habcd, take_ge by lia. subst m'.
    by rewrite md5_blocks_ref_app by lia. }
  rewrite Hmd in *. apply md5_append_full_rep; [lia|done..].
Qed.

(** A partial block that stays partial. *)
Lemma md5_partial_rep c0 c1 pms m d off :
  md5_rep pms m -> off = (length m mod 64)%nat -> (off + length d < 64)%nat ->
  c0 = (8 * Z.of_nat (length (m ++ d))) mod 2 ^ 32 ->
  c1 = (8 * Z.of_nat (length (m ++ d)) / 2 ^ 32) mod 2 ^ 32 ->
  md5_rep {| count0 := c0; count1 := c1; abcd := abcd pms;
             md5_buf := blit off d (md5_buf pms) |} (m ++ d).
Proof.
  intros (_ & _ & Habcd & Hlen & Hbuf) Hoff Hd Hc0 Hc1.
  unfold md5_rep; cbn [count0 count1 abcd md5_buf].
  replace (length (m ++ d) / 64)%nat with (length m / 64)%nat by (rewrite length_app; lia).
  split_and!; [done..| | |].
  - rewrite md5_blocks_ref_app by lia. done.
  - rewrite length_blit; lia.
  - replace (length (m ++ d) mod 64)%nat with (off + length d)%nat by (rewrite length_app; lia).
    rewrite take_blit, drop_app_le, Hoff, Hbuf by lia. done.
Qed.

Lemma md5_append_rep pms m d :
  md5_rep pms m -> Z.of_nat (length d) < 2 ^ 28 -> md5_rep (md5_append pms d) (m ++ d).
Proof.
  intros Hrep Hd. pose proof Hrep as (Hc0 & Hc1 & Habcd & Hlen & Hbuf). unfold md5_append.
  destruct (md5_count_eq (length m) (length d) Hd) as [E0 E1].
  rewrite Hc0, Hc1, md5_offset_eq.
  destruct (Z.leb_spec (Z.of_nat (length d)) 0).
  { destruct d; [|simpl in *; lia]. by rewrite app_nil_r. }
  cbv zeta in E0, E1. rewrite E1, E0. clear E0 E1. rewrite <- length_app.
  destruct (Z.eqb_spec (Z.of_nat (length m mod 64)) 0) as [E|E]; cbn [negb].
  { rewrite Habcd. apply md5_append_full_rep; [lia|done..]. }
  set (off := (length m mod 64)%nat) in *. assert (off < 64)%nat by lia.
  destruct (Z.ltb_spec 64 (Z.of_nat off + Z.of_nat (length d))).
  - rewrite (proj2 (Z.ltb_ge _ 64)) by lia.
    replace (Z.to_nat (64 - Z.of_nat off)) with (64 - off)%nat by lia. rewrite Nat2Z.id.
    exact (md5_fill_rep _ _ pms m d off Hrep eq_refl ltac:(lia) eq_refl eq_refl).
  - rewrite !Nat2Z.id. rewrite (take_ge d (length d)) by lia.
    destruct (Z.ltb_spec (Z.of_nat off + Z.of_nat (length d)) 64).
    + exact (md5_partial_rep _ _ pms m d off Hrep eq_refl ltac:(lia) eq_refl eq_refl).
    + assert (length d = 64 - off)%nat as El by lia.
      pose proof (md5_fill_rep _ _ pms m d off Hrep eq_refl ltac:(lia) eq_refl eq_refl) as Hf.
      cbv zeta in Hf. rewrite (take_ge d (64 - off)) in Hf by lia.
      by rewrite <- El in Hf.
Qed.

Lemma md5_init_rep g : length g = 64%nat -> md5_rep (md5_init g) [].
Proof. intros Hg. by repeat split. Qed.

Lemma md5_pad_length len :
  Z.to_nat (Z.land (wrap 32 (55 - Z.shiftr ((8 * Z.of_nat len) mod 2 ^ 32) 3)) 63 + 1) =
  S (Z.to_nat ((55 - Z.of_nat len) mod 64)).
Proof.
  change 63 with (Z.ones 6). rewrite Z.land_ones, Z.shiftr_div_pow2 by lia. unfold wrap.
  change (2 ^ 32) with (8 * 2 ^ 29). change (2 ^ 3) with 8.
  rewrite Zmult_mod_distr_l, Z.mul_comm, Z.div_mul by lia.
  rewrite Z.mod_mod_divide by (by exists (2 ^ 26)). change (2 ^ 6) with 64.
  rewrite Zminus_mod, Z.mod_mod_divide, <- Zminus_mod by (by exists (2 ^ 23)). lia.
Qed.

Lemma take_md5_pad n : (n <= 63)%nat -> take (S n) md5_pad = 0x80 :: repeat 0 n.
Proof.
  intros H. unfold md5_pad. cbn [take]. f_equal.
  replace 63%nat with (n + (63 - n))%nat by lia.
  rewrite repeat_app. apply take_app_exact. apply repeat_length.
Qed.

Lemma md5_length_bytes (len : nat) :
  le_split 4 ((8 * Z.of_nat len) mod 2 ^ 32) ++ le_split 4 ((8 * Z.of_nat len / 2 ^ 32) mod 2 ^ 32)
  = le_split 8 (8 * Z.of_nat len).
Proof.
  change (2 ^ 32) with (256 ^ Z.of_nat 4). rewrite !le_split_mod.
  symmetry. apply (le_split_app 4 4).
Qed.

Lemma md5_finish_rep pms m : md5_rep pms m -> md5_finish pms = md5_spec m.
Proof.
  intros Hrep. pose proof Hrep as (Hc0 & Hc1 & _). unfold md5_finish.
  rewrite Hc0, Hc1, md5_pad_length, md5_length_bytes, take_md5_pad by lia.
  set (p := 128 :: repeat 0 _). set (d := le_split 8 _).
  assert (length p <= 64)%nat by (subst p; simpl; rewrite repeat_length; lia).
  assert (length d = 8)%nat by apply length_le_split.
  destruct (md5_append_rep (md5_append pms p) (m ++ p) d) as (_ & _ & -> & _);
    [apply md5_append_rep; [done|lia]|lia|].
  unfold md5_spec, md5_padding. fold d. by rewrite <- app_assoc.
Qed.

Lemma md5_chunks_rep cs pms m :
  md5_rep pms m -> Forall (fun c => Z.of_nat (length c) < 2 ^ 28) cs ->
  md5_rep (fold_left md5_append cs pms) (m ++ mjoin cs).
Proof.
  intros Hrep Hcs. revert pms m Hrep.
  induction Hcs as [|c cs Hc _ IH]; intros pms m Hrep; simpl.
  - by rewrite app_nil_r.
  - rewrite app_assoc. apply IH, md5_append_rep; done.
Qed.

(** Streaming MD5 is MD5: however the input is cut into appended chunks
    (of less than 2^28 bytes, where the [int] bit count does not overflow),
    [md5_init], [md5_append] and [md5_finish] compute the RFC 1321 digest of
    the concatenation, and the uninitialised block buffer has no influence. *)
Theorem md5_streaming_correct (g : list Z) (cs : list (list Z))
    (Hg : length g = 64%nat)
    (Hcs : Forall (fun c => Z.of_nat (length c) < 2 ^ 28) cs) :
  md5_finish (fold_left md5_append cs (md5_init g)) = md5_spec (mjoin cs).
Proof.
  apply md5_finish_rep. apply (md5_chunks_rep cs (md5_init g) []); [|done].
  by apply md5_init_rep.
Qed.

Lemma md5_streaming_correct_witness :
  md5_finish (fold_left md5_append [[97]; []; [98; 99]] (md5_init (repeat 165 64))) =
  md5_spec [97; 98; 99].
Proof.
  rewrite md5_streaming_correct; [reflexivity|reflexivity|].
  repeat (constructor; [simpl; lia|]). constructor.
Defined.

(** The self-test of [md5test.c]: "abc". *)
Example md5_abc : md5_spec [97; 98; 99] =
  [0x90; 0x01; 0x50; 0x98; 0x3c; 0xd2; 0x4f; 0xb0; 0xd6; 0x96; 0x3f; 0x7d; 0x28; 0xe1; 0x7f; 0x72].
Proof. vm_compute. reflexivity. Qed.

Lemma md5_digest_length r : length (md5_digest r) = 16%nat.
Proof. destruct r as [[[a b] c] d]. unfold md5_digest. by rewrite !length_app, !length_le_split. Qed.

Lemma md5_digest_bytes r : bytes_ok (md5_digest r).
Proof.
  destruct r as [[[a b] c] d]. unfold md5_digest.
  repeat (apply bytes_ok_app; split); apply le_split_bytes.
Qed.

Lemma md5_spec_length m : length (md5_spec m) = 16%nat.
Proof. apply md5_digest_length. Qed.

Lemma md5_spec_bytes m : bytes_ok (md5_spec m).
Proof. apply md5_digest_bytes. Qed.

#[export] Hint Resolve md5_spec_length md5_spec_bytes : maiccu.
