(* ===== verification/CString.v ===== *)
(** * C strings and text files

Strings are the bytes before the terminating zero.  This file holds what the
components that handle text share: bounded copies, [sprintf] into a buffer,
and the lines that [fgets] reads from a file. *)

From Stdlib Require Import ZifyNat.
From stdpp Require Import base list numbers strings.
From S2P Require Import Prelude Words.

(** The bytes of a literal. *)
Definition str (s : string) : list Z := (fun a => Z.of_N (Ascii.N_of_ascii a)) <$> String.list_ascii_of_string s.

Definition char_ok (c : Z) : Prop := 1 <= c < 256.
Definition cstring (s : list Z) : Prop := Forall char_ok s.

Definition LF : Z := 10.
Definition CR : Z := 13.

(** The string at the start of a buffer. *)
Fixpoint c_str (buf : list Z) : list Z :=
  match buf with
  | [] => []
  | c :: buf' => if c =? 0 then [] else c :: c_str buf'
  end.

(** [strlcpy (dst, src, size)] with a positive [size]. *)
Definition strlcpy (src : list Z) (size : nat) : list Z := take (size - 1) src.

(** [index += sprintf (index, "%s", s)] in a buffer of [size] bytes: the
    offset after the text; the terminating zero must fit too. *)
Definition sprintf_at (size index : nat) (s : list Z) : res nat :=
  guard_or OutOfBounds (index + length s + 1 <=? size)%nat;;
  Ok (index + length s)%nat.

(** ** Lines *)

(** At most [n] bytes, up to and including a line feed. *)
Fixpoint read_line (n : nat) (l : list Z) : list Z * list Z :=
  match n, l with
  | O, _ => ([], l)
  | _, [] => ([], [])
  | S n', c :: l' =>
    if c =? LF then ([c], l') else let '(a, b) := read_line n' l' in (c :: a, b)
  end.

(** [fgets (line, size, file)]: the bytes stored and the rest of the file. *)
Definition fgets (size : nat) (l : list Z) : option (list Z * list Z) :=
  match l with [] => None | _ => Some (read_line (size - 1) l) end.

(** [if (strlen (line) && (line[strlen (line) - 1] is LF or CR)) line[...] = 0] *)
Definition chomp (s : list Z) : list Z :=
  match list.last s with
  | Some c => if (c =? LF) || (c =? CR) then take (length s - 1) s else s
  | None => s
  end.

(** ** Characters and numbers *)

Definition is_space (c : Z) : bool := (c =? 32) || ((9 <=? c) && (c <=? 13)).
Definition is_digit (c : Z) : bool := (48 <=? c) && (c <=? 57).

Fixpoint digits (acc : Z) (s : list Z) : Z :=
  match s with
  | c :: s' => if is_digit c then digits (acc * 10 + (c - 48)) s' else acc
  | [] => acc
  end.

Fixpoint skip_spaces (s : list Z) : list Z :=
  match s with
  | c :: s' => if is_space c then skip_spaces s' else s
  | [] => []
  end.

(** [atol]: out of range values are clamped; [atoi] truncates it. *)
Definition atol (s : list Z) : Z :=
  let clamp x := Z.max (- 2 ^ 63) (Z.min (2 ^ 63 - 1) x) in
  match skip_spaces s with
  | 45 :: s' => clamp (- digits 0 s')
  | 43 :: s' => clamp (digits 0 s')
  | s' => clamp (digits 0 s')
  end.

Definition atoi (s : list Z) : Z := to_int (atol s).

Definition tolower (c : Z) : Z := if (65 <=? c) && (c <=? 90) then c + 32 else c.
Definition strcasecmp0 (a b : list Z) : bool := bool_decide (tolower <$> a = tolower <$> b).

(** [strtoul (s, &end, 0)] on 64 bits: the value and the rest of the text. *)
Definition digit_value (c : Z) : Z :=
  if is_digit c then c - 48 else
  let d := tolower c in if (97 <=? d) && (d <=? 122) then d - 87 else 99.

Fixpoint ul_digits (base acc : Z) (s : list Z) : Z * list Z :=
  match s with
  | c :: s' => if digit_value c <? base then ul_digits base (acc * base + digit_value c) s' else (acc, s)
  | [] => (acc, [])
  end.

Definition ul_number (s : list Z) : option (Z * list Z) :=
  match s with
  | 48 :: x :: c :: s' =>
    if (tolower x =? 120) && (digit_value c <? 16) then Some (ul_digits 16 0 (c :: s')) else Some (ul_digits 8 0 s)
  | 48 :: _ => Some (ul_digits 8 0 s)
  | c :: _ => if digit_value c <? 10 then Some (ul_digits 10 0 s) else None
  | [] => None
  end.

Definition strtoul (s : list Z) : Z * list Z :=
  let '(neg, body) := match skip_spaces s with
                      | 45 :: s' => (true, s')
                      | 43 :: s' => (false, s')
                      | s' => (false, s')
                      end in
  match ul_number body with
  | None => (0, s)
  | Some (n, rest) =>
    if 2 ^ 64 <=? n then (2 ^ 64 - 1, rest) else (if neg : bool then (- n) mod 2 ^ 64 else n, rest)
  end.

(** [%d] *)
Fixpoint decimal_digits (fuel : nat) (n : Z) : list Z :=
  match fuel with
  | O => []
  | S fuel' => (if n <? 10 then [] else decimal_digits fuel' (n / 10)) ++ [48 + n mod 10]
  end.
Definition decimal (n : Z) : list Z := if n <? 0 then 45 :: decimal_digits 20 (- n) else decimal_digits 20 n.

(** [%02x] *)
Definition hex_digit (d : Z) : Z := if d <? 10 then 48 + d else 87 + d.
Definition hex_byte (x : Z) : list Z := [hex_digit (x / 16); hex_digit (x mod 16)].

(** A conversion [%ns] of [sscanf]: at most [n] bytes that are not spaces. *)
Fixpoint scan_word (n : nat) (s : list Z) : list Z * list Z :=
  match n, s with
  | S n', c :: s' => if is_space c then ([], s) else let '(w, r) := scan_word n' s' in (c :: w, r)
  | _, _ => ([], s)
  end.

(** ** Facts *)

Lemma c_str_id s : cstring s -> c_str s = s.
Proof.
  induction 1 as [|c s Hc _ IH]; [done|]. cbn. unfold char_ok in Hc.
  rewrite (proj2 (Z.eqb_neq c 0)) by lia. by rewrite IH.
Qed.

Lemma cstring_app s t : cstring (s ++ t) <-> cstring s /\ cstring t.
Proof. apply Forall_app. Qed.

Lemma length_strlcpy s n : (0 < n)%nat -> (length (strlcpy s n) < n)%nat.
Proof. intros H. unfold strlcpy. rewrite length_take. lia. Qed.

Lemma strlcpy_id s n : length (strlcpy s n) = length s -> strlcpy s n = s.
Proof. unfold strlcpy. rewrite length_take. intros H. apply take_ge. lia. Qed.

Lemma strlcpy_short s n : (length s < n)%nat -> strlcpy s n = s.
Proof. intros H. apply take_ge. lia. Qed.

Lemma read_line_app n l : let '(a, b) := read_line n l in l = a ++ b.
Proof.
  revert l. induction n as [|n IH]; intros [|c l]; cbn; try done.
  destruct (Z.eqb_spec c LF) as [->|]; [done|].
  specialize (IH l). destruct (read_line n l). cbn. by rewrite <- IH.
Qed.

(** Every call makes progress, which bounds the loops over a file. *)
Lemma fgets_shorter size l a b :
  (2 <= size)%nat -> fgets size l = Some (a, b) -> (length b < length l)%nat.
Proof.
  unfold fgets. destruct l as [|c l]; [done|]. intros Hs [= E].
  destruct size as [|[|n]]; try lia. cbn in E. destruct (c =? LF).
  - injection E as <- <-. cbn. lia.
  - pose proof (read_line_app n l) as H. destruct (read_line n l) as [a' b'].
    injection E as <- <-. rewrite H. cbn. rewrite length_app. lia.
Qed.

Definition no_lf (s : list Z) : Prop := Forall (fun c => c <> LF) s.

Lemma read_line_full n s l :
  no_lf s -> (length s < n)%nat -> read_line n (s ++ LF :: l) = (s ++ [LF], l).
Proof.
  revert n. induction s as [|c s IH]; intros [|n] Hs Hn; cbn in *; try lia; [done|].
  apply list.Forall_cons in Hs as [Hc Hs]. rewrite (proj2 (Z.eqb_neq c LF)) by done.
  rewrite IH by (done || lia). done.
Qed.

Lemma read_line_cut s l : no_lf s -> read_line (length s) (s ++ l) = (s, l).
Proof.
  induction s as [|c s IH]; intros Hs; cbn; [done|].
  apply list.Forall_cons in Hs as [Hc Hs]. rewrite (proj2 (Z.eqb_neq c LF)) by done.
  by rewrite IH.
Qed.

Lemma chomp_snoc s c : (c = LF \/ c = CR) -> chomp (s ++ [c]) = s.
Proof.
  intros Hc. unfold chomp. rewrite last_snoc. replace ((c =? LF) || (c =? CR)) with true.
  - rewrite length_app. apply take_app_exact. cbn. lia.
  - destruct Hc as [->| ->]; done.
Qed.

(** The text does not end in a line terminator. *)
Definition no_eol (s : list Z) : Prop :=
  match list.last s with Some c => c <> LF /\ c <> CR | None => True end.

Lemma chomp_id s : no_eol s -> chomp s = s.
Proof.
  unfold no_eol, chomp. destruct (list.last s) as [c|]; [|done]. intros [H1 H2].
  by rewrite (proj2 (Z.eqb_neq c LF)), (proj2 (Z.eqb_neq c CR)).
Qed.

Lemma length_chomp s : (length (chomp s) <= length s)%nat.
Proof. unfold chomp. destruct (list.last s); [|done]. case_match; [rewrite length_take|]; lia. Qed.

(** ** Texts without a terminator inside *)

Definition no_nul (s : list Z) : Prop := Forall (fun c => c <> 0) s.

Lemma c_str_no_nul s : no_nul s -> c_str s = s.
Proof. induction 1 as [|c s Hc _ IH]; cbn; [done|]. destruct (Z.eqb_spec c 0); [done|]. by rewrite IH. Qed.

(** ** Hexadecimal *)

Lemma length_hex l : length (mjoin (hex_byte <$> l)) = (2 * length l)%nat.
Proof.
  induction l as [|x l IH]; [done|]. change (mjoin (hex_byte <$> x :: l)) with (hex_byte x ++ mjoin (hex_byte <$> l)).
  rewrite length_app, IH. cbn [length hex_byte]. lia.
Qed.

(** ** Numbers *)

Lemma length_decimal_digits fuel n : (length (decimal_digits fuel n) <= fuel)%nat.
Proof.
  revert n. induction fuel as [|fuel IH]; intros m; [done|]. cbn [decimal_digits]. rewrite length_app. cbn [length].
  destruct (m <? 10); [cbn; lia|]. specialize (IH (m / 10)). lia.
Qed.

Lemma length_decimal n : (length (decimal n) <= 21)%nat.
Proof.
  unfold decimal. pose proof (length_decimal_digits 20 n). pose proof (length_decimal_digits 20 (- n)).
  destruct (n <? 0); cbn [length]; lia.
Qed.

(** The number of digits of a number that is not large. *)
Lemma decimal_digits_below fuel n k : 0 <= n < 10 ^ Z.of_nat k -> (0 < k)%nat -> (length (decimal_digits fuel n) <= k)%nat.
Proof.
  revert n k. induction fuel as [|fuel IH]; intros n k Hn Hk; cbn [decimal_digits]; [cbn; lia|]. rewrite length_app. cbn [length].
  destruct (Z.ltb_spec n 10); [cbn; lia|]. destruct k as [|[|k]]; [lia|cbn in Hn; lia|].
  rewrite Nat2Z.inj_succ, Z.pow_succ_r in Hn by lia. specialize (IH (n / 10) (S k)).
  pose proof (Z.div_lt_upper_bound n 10 _ ltac:(lia) (proj2 Hn)). pose proof (Z.div_pos n 10 ltac:(lia) ltac:(lia)). lia.
Qed.

Lemma decimal_digits_chars fuel n : 0 <= n -> Forall (fun c => 48 <= c <= 57) (decimal_digits fuel n).
Proof.
  revert n. induction fuel as [|fuel IH]; intros n Hn; [constructor|]. cbn [decimal_digits].
  apply Forall_app. split; [destruct (n <? 10); [constructor|]; apply IH; by apply Z.div_pos|].
  constructor; [|constructor]. pose proof (Z.mod_pos_bound n 10 ltac:(lia)). lia.
Qed.

Lemma decimal_chars n : 0 <= n -> Forall (fun c => 48 <= c <= 57) (decimal n).
Proof. intros Hn. unfold decimal. rewrite (proj2 (Z.ltb_ge n 0)) by done. by apply decimal_digits_chars. Qed.
