(* ===== verification/HashStream.v ===== *)
(** * Block-iterated hash functions

MD5 and SHA-1 read their input in blocks of 64 bytes, and each of the four
implementations of the repository ([miredo/libteredo/md5.c],
[aiccu/hash_md5.c], [aiccu/hash_sha1.c], [gogoc-tsp/src/lib/md5c.c]) buffers
the bytes of an incomplete block.  This file holds what their proofs share:
the iteration over the blocks, the invariant of the buffer, and the
arithmetic of the counters. *)

From Stdlib Require Import ZifyNat.
From stdpp Require Import base gmap list numbers.
From S2P Require Import Prelude Words.

#[local] Ltac Zify.zify_post_hook ::= Z.div_mod_to_equations.

Section stream.
Context {R : Type} (process : R -> list Z -> R) (iv : R).

Fixpoint blocks (n : nat) (r : R) (m : list Z) : R :=
  match n with
  | O => r
  | S n => blocks n (process r (take 64 m)) (drop 64 m)
  end.

Lemma blocks_add n1 n2 r l :
  blocks (n1 + n2) r l = blocks n2 (blocks n1 r l) (drop (64 * n1) l).
Proof.
  revert r l. induction n1 as [|n1 IH]; intros r l; [done|].
  cbn [blocks Nat.add]. rewrite IH, drop_drop. do 2 f_equal. lia.
Qed.

Lemma blocks_app n r l k : (64 * n <= length l)%nat -> blocks n r (l ++ k) = blocks n r l.
Proof.
  revert r l. induction n as [|n IH]; intros r l Hl; [done|].
  cbn [blocks]. rewrite take_app_le, drop_app_le by lia.
  apply IH. rewrite length_drop. lia.
Qed.

(** The registers and the buffer of a context that has read the bytes [m]. *)
Definition absorbed (r : R) (buf m : list Z) : Prop :=
  r = blocks (length m / 64) iv m /\ length buf = 64%nat /\
  take (length m mod 64) buf = drop (64 * (length m / 64)) m.

Lemma absorbed_nil buf : length buf = 64%nat -> absorbed iv buf [].
Proof. intros H. by repeat split. Qed.

Lemma absorbed_whole r buf m :
  absorbed r buf m -> (length m mod 64 = 0)%nat -> r = blocks (length m / 64) iv m.
Proof. by intros (-> & _). Qed.

(** The bytes fit in the pending block without completing it. *)
Lemma absorbed_partial r buf m d off :
  absorbed r buf m -> off = (length m mod 64)%nat -> (off + length d < 64)%nat ->
  absorbed r (blit off d buf) (m ++ d).
Proof.
  intros (Hr & Hlen & Hbuf) Hoff Hd. unfold absorbed.
  replace (length (m ++ d) / 64)%nat with (length m / 64)%nat by (rewrite length_app; lia).
  split_and!.
  - by rewrite blocks_app by lia.
  - rewrite length_blit; lia.
  - replace (length (m ++ d) mod 64)%nat with (off + length d)%nat by (rewrite length_app; lia).
    rewrite take_blit, drop_app_le, Hoff, Hbuf by lia. done.
Qed.

(** The bytes complete the pending block and [n] more; the rest of them is
    at the start of the buffer afterwards. *)
Lemma absorbed_fill r buf m d off n r' buf' :
  absorbed r buf m -> off = (length m mod 64)%nat -> (64 <= off + length d)%nat ->
  n = ((length d - (64 - off)) / 64)%nat ->
  r' = blocks n (process r (blit off (take (64 - off) d) buf)) (drop (64 - off) d) ->
  length buf' = 64%nat ->
  take (length d - (64 - off) - 64 * n) buf' = drop (64 - off + 64 * n) d ->
  absorbed r' buf' (m ++ d).
Proof.
  intros (Hr & Hlen & Hbuf) Hoff Hd Hn Hr' Hlen' Hbuf'.
  set (m' := m ++ take (64 - off) d).
  assert (length (take (64 - off) d) = 64 - off)%nat as Ht by (rewrite length_take; lia).
  assert (length m' = 64 * (length m / 64 + 1))%nat as Hm'
    by (subst m'; rewrite length_app, Ht; lia).
  assert (m ++ d = m' ++ drop (64 - off) d) as Hmd
    by (subst m'; by rewrite <- app_assoc, take_drop).
  assert (length (m ++ d) / 64 = length m / 64 + 1 + n)%nat as Hdiv
    by (rewrite length_app; lia).
  assert (blit off (take (64 - off) d) buf = drop (64 * (length m / 64)) m') as Hb.
  { subst m'. rewrite drop_app_le by lia. rewrite <- Hbuf, <- Hoff.
    rewrite <- (take_blit off (take (64 - off) d)) by lia.
    rewrite (take_ge (blit _ _ _)); [done|]. rewrite length_blit; lia. }
  unfold absorbed. split_and!; [|done|].
  - rewrite Hr', Hdiv, Hmd, blocks_add, blocks_app by lia.
    rewrite (drop_app_exact m') by lia. f_equal.
    rewrite blocks_add, <- Hb. cbn [blocks].
    rewrite (take_ge (blit _ _ _)), Hr by (rewrite length_blit; lia). subst m'.
    by rewrite blocks_app by lia.
  - rewrite Hdiv. replace (length (m ++ d) mod 64)%nat with (length d - (64 - off) - 64 * n)%nat
      by (rewrite length_app; lia).
    rewrite Hbuf', Hmd. rewrite Nat.mul_add_distr_l, <- Hm', <- (drop_drop (m' ++ _)).
    by rewrite drop_app_exact, drop_drop.
Qed.
End stream.

Lemma bytes_ok_repeat x n : byte_ok x -> bytes_ok (repeat x n).
Proof.
  intros Hx. apply list.Forall_forall. intros y Hy%list_elem_of_In%repeat_spec. by subst.
Qed.

Lemma blocks_ext {R} (f g : R -> list Z -> R) n r m :
  (forall r b, f r b = g r b) -> blocks f n r m = blocks g n r m.
Proof.
  intros E. revert r m. induction n as [|n IH]; intros r m; [done|].
  cbn [blocks]. by rewrite E, IH.
Qed.

(** ** Counters

A message length in bits, in two 32-bit words, as MD5 and SHA-1 keep it. *)

Definition bits_lo (len : nat) : Z := (8 * Z.of_nat len) mod 2 ^ 32.
Definition bits_hi (len : nat) : Z := (8 * Z.of_nat len / 2 ^ 32) mod 2 ^ 32.

(** [(c0 >> 3) & 63]: the number of bytes in the buffer. *)
Lemma bits_offset (len : nat) : Z.land (Z.shiftr (bits_lo len) 3) 63 = Z.of_nat (len mod 64).
Proof.
  unfold bits_lo. change 63 with (Z.ones 6). rewrite Z.land_ones, Z.shiftr_div_pow2 by lia.
  change (2 ^ 32) with (8 * 2 ^ 29). change (2 ^ 3) with 8. change (2 ^ 6) with 64.
  rewrite Zmult_mod_distr_l, Z.mul_comm, Z.div_mul by lia.
  rewrite Z.mod_mod_divide by (by exists (2 ^ 23)). by rewrite Nat2Z.inj_mod.
Qed.

(** [if ((c0 += n << 3) < (n << 3)) c1++; c1 += n >> 29]. *)
Lemma bits_add (len n : nat) :
  Z.of_nat n < 2 ^ 32 ->
  let nbits := wrap 32 (Z.shiftl (Z.of_nat n) 3) in
  let c0 := wrap 32 (bits_lo len + nbits) in
  c0 = bits_lo (len + n) /\
  wrap 32 ((if c0 <? nbits then wrap 32 (bits_hi len + 1) else bits_hi len)
           + Z.shiftr (Z.of_nat n) 29) = bits_hi (len + n).
Proof.
  intros Hn. cbv zeta. unfold bits_lo, bits_hi, wrap.
  rewrite Z.shiftl_mul_pow2, Z.shiftr_div_pow2 by lia.
  change (2 ^ 32) with 4294967296 in *. change (2 ^ 29) with 536870912. change (2 ^ 3) with 8.
  split; [lia|].
  set (r := (8 * Z.of_nat len) mod 4294967296).
  set (q := 8 * Z.of_nat len / 4294967296).
  set (s := (Z.of_nat n * 8) mod 4294967296).
  assert (8 * Z.of_nat len = q * 4294967296 + r) as E by lia.
  assert (Z.of_nat n * 8 = Z.of_nat n / 536870912 * 4294967296 + s) as E' by lia.
  assert (0 <= r < 4294967296 /\ 0 <= s < 4294967296) as [? ?] by lia.
  replace (8 * Z.of_nat (len + n))
    with (r + s + (q + Z.of_nat n / 536870912) * 4294967296) by lia.
  rewrite Z.div_add by lia. set (k := Z.of_nat n / 536870912) in *.
  destruct (Z.ltb_spec ((r + s) mod 4294967296) s).
  - replace ((r + s) / 4294967296) with 1 by lia.
    rewrite Zplus_mod_idemp_l, <- Z.add_assoc, Zplus_mod_idemp_l. f_equal. lia.
  - replace ((r + s) / 4294967296) with 0 by lia. by rewrite Zplus_mod_idemp_l.
Qed.
