(* ===== verification/Sha1.v ===== *)
(** * SHA-1 ([aiccu/hash_sha1.c])

The hash that signs AYIYA packets.  [SHA1_Transform] is the list of its
eighty macro calls, run on the variables [a] .. [e] and on the block, which
the macros overwrite with the message schedule; it is proved equal to the
compression function of FIPS 180 on every block.  [SHA1_Init],
[SHA1_Update] and [SHA1_Final] are proved to compute the digest of the
concatenated input.  A failed [malloc] ends the process and is not
modelled. *)

From Stdlib Require Import ZifyNat.
From stdpp Require Import base gmap list numbers.
From S2P Require Import Prelude Words HashStream.

(** ** Words *)

Definition rol (value bits : Z) : Z :=
  Z.lor (wrap 32 (Z.shiftl value bits)) (Z.shiftr value (32 - bits)).

(** The variables of [SHA1_Transform] and the sixteen words of [block]. *)
Record sha1_vars := mk_sha1_vars {
  va : Z; vb : Z; vc : Z; vd : Z; ve : Z;
  vl : list Z;
}.

(** [blk0 (i)] and [blk (i)]: the value stored in [block->l[i & 15]]. *)
Definition blk0 (l : list Z) (i : nat) : Z :=
  let x := nth i l 0 in
  Z.lor (Z.land (rol x 24) 0xFF00FF00) (Z.land (rol x 8) 0x00FF00FF).

Definition blk (l : list Z) (i : nat) : Z :=
  let at' k := nth (k mod 16) l 0 in
  rol (Z.lxor (Z.lxor (Z.lxor (at' (i + 13)%nat) (at' (i + 8)%nat)) (at' (i + 2)%nat)) (at' i)) 1.

(** [SHA_R0] .. [SHA_R4]: the expansion, the function and the constant. *)
Inductive sha1_macro := R0 | R1 | R2 | R3 | R4.

Definition macro_blk (m : sha1_macro) : list Z -> nat -> Z :=
  match m with R0 => blk0 | _ => blk end.

Definition macro_f (m : sha1_macro) (w x y : Z) : Z :=
  match m with
  | R0 | R1 => Z.lxor (Z.land w (Z.lxor x y)) y
  | R2 | R4 => Z.lxor (Z.lxor w x) y
  | R3 => Z.lor (Z.land (Z.lor w x) y) (Z.land w x)
  end.

Definition macro_k (m : sha1_macro) : Z :=
  match m with
  | R0 | R1 => 0x5A827999
  | R2 => 0x6ED9EBA1
  | R3 => 0x8F1BBCDC
  | R4 => 0xCA62C1D6
  end.

(** The variables that stand for the parameters [v, w, x, y, z]. *)
Inductive sha1_args := abcde | eabcd | deabc | cdeab | bcdea.

(** [z += f (w, x, y) + blk (i) + k + rol (v, 5); w = rol (w, 30)] *)
Definition macro_z (m : sha1_macro) (l : list Z) (i : nat) (v w x y z : Z) : Z :=
  wrap 32 (z + (macro_f m w x y + macro_blk m l i + macro_k m + rol v 5)).

Definition macro_call (s : sha1_vars) (c : sha1_macro * sha1_args * nat) : sha1_vars :=
  let '(m, args, i) := c in
  let '(mk_sha1_vars a b c d e l) := s in
  let l' := <[(i mod 16)%nat := macro_blk m l i]> l in
  match args with
  | abcde => mk_sha1_vars a (rol b 30) c d (macro_z m l i a b c d e) l'
  | eabcd => mk_sha1_vars (rol a 30) b c (macro_z m l i e a b c d) e l'
  | deabc => mk_sha1_vars a b (macro_z m l i d e a b c) d (rol e 30) l'
  | cdeab => mk_sha1_vars a (macro_z m l i c d e a b) c (rol d 30) e l'
  | bcdea => mk_sha1_vars (macro_z m l i b c d e a) b (rol c 30) d e l'
  end.

(** The body of [SHA1_Transform]. *)
Definition sha1_calls : list (sha1_macro * sha1_args * nat) := [
  (R0, abcde, 0%nat); (R0, eabcd, 1%nat); (R0, deabc, 2%nat); (R0, cdeab, 3%nat);
  (R0, bcdea, 4%nat); (R0, abcde, 5%nat); (R0, eabcd, 6%nat); (R0, deabc, 7%nat);
  (R0, cdeab, 8%nat); (R0, bcdea, 9%nat); (R0, abcde, 10%nat); (R0, eabcd, 11%nat);
  (R0, deabc, 12%nat); (R0, cdeab, 13%nat); (R0, bcdea, 14%nat); (R0, abcde, 15%nat);
  (R1, eabcd, 16%nat); (R1, deabc, 17%nat); (R1, cdeab, 18%nat); (R1, bcdea, 19%nat);
  (R2, abcde, 20%nat); (R2, eabcd, 21%nat); (R2, deabc, 22%nat); (R2, cdeab, 23%nat);
  (R2, bcdea, 24%nat); (R2, abcde, 25%nat); (R2, eabcd, 26%nat); (R2, deabc, 27%nat);
  (R2, cdeab, 28%nat); (R2, bcdea, 29%nat); (R2, abcde, 30%nat); (R2, eabcd, 31%nat);
  (R2, deabc, 32%nat); (R2, cdeab, 33%nat); (R2, bcdea, 34%nat); (R2, abcde, 35%nat);
  (R2, eabcd, 36%nat); (R2, deabc, 37%nat); (R2, cdeab, 38%nat); (R2, bcdea, 39%nat);
  (R3, abcde, 40%nat); (R3, eabcd, 41%nat); (R3, deabc, 42%nat); (R3, cdeab, 43%nat);
  (R3, bcdea, 44%nat); (R3, abcde, 45%nat); (R3, eabcd, 46%nat); (R3, deabc, 47%nat);
  (R3, cdeab, 48%nat); (R3, bcdea, 49%nat); (R3, abcde, 50%nat); (R3, eabcd, 51%nat);
  (R3, deabc, 52%nat); (R3, cdeab, 53%nat); (R3, bcdea, 54%nat); (R3, abcde, 55%nat);
  (R3, eabcd, 56%nat); (R3, deabc, 57%nat); (R3, cdeab, 58%nat); (R3, bcdea, 59%nat);
  (R4, abcde, 60%nat); (R4, eabcd, 61%nat); (R4, deabc, 62%nat); (R4, cdeab, 63%nat);
  (R4, bcdea, 64%nat); (R4, abcde, 65%nat); (R4, eabcd, 66%nat); (R4, deabc, 67%nat);
  (R4, cdeab, 68%nat); (R4, bcdea, 69%nat); (R4, abcde, 70%nat); (R4, eabcd, 71%nat);
  (R4, deabc, 72%nat); (R4, cdeab, 73%nat); (R4, bcdea, 74%nat); (R4, abcde, 75%nat);
  (R4, eabcd, 76%nat); (R4, deabc, 77%nat); (R4, cdeab, 78%nat); (R4, bcdea, 79%nat)
].

Definition sha1_regs : Type := Z * Z * Z * Z * Z.

(** The block seen as words, in the byte order of the host. *)
Definition host_words (buffer : list Z) : list Z :=
  (fun i => le_load (take 4 (drop (4 * i) buffer))) <$> seq 0 16.

Definition host_bytes (l : list Z) : list Z := l ≫= le_split 4.

(** The new state, and the bytes left in [buffer]. *)
Definition SHA1_Transform (state : sha1_regs) (buffer : list Z) : sha1_regs * list Z :=
  let '(a0, b0, c0, d0, e0) := state in
  let '(mk_sha1_vars a b c d e l) :=
    fold_left macro_call sha1_calls (mk_sha1_vars a0 b0 c0 d0 e0 (host_words buffer)) in
  ((wrap 32 (a0 + a), wrap 32 (b0 + b), wrap 32 (c0 + c), wrap 32 (d0 + d), wrap 32 (e0 + e)),
   host_bytes l).

(** ** The streaming interface *)

Record SHA_CTX := mk_SHA_CTX {
  sha_state : sha1_regs;
  sha_count0 : Z;
  sha_count1 : Z;
  sha_buffer : list Z;  (* 64 bytes *)
}.

(** [garbage]: the buffer is not initialised. *)
Definition SHA1_Init (garbage : list Z) : SHA_CTX :=
  mk_SHA_CTX (0x67452301, 0xEFCDAB89, 0x98BADCFE, 0x10325476, 0xC3D2E1F0) 0 0 garbage.

(** [for ( ; i + 63 < len; i += 64)] on [unsigned int]s; the loop runs on a
    copy of the data, which the transforms overwrite behind [i]. *)
Fixpoint SHA1_loop (fuel : nat) (i len : Z) (data : list Z) (state : sha1_regs) : res (sha1_regs * Z) :=
  match fuel with
  | O => Err OutOfFuel
  | S fuel =>
    if wrap 32 (i + 63) <? len
    then b ← slice (Z.to_nat i) 64 data;
         SHA1_loop fuel (wrap 32 (i + 64)) len data (fst (SHA1_Transform state b))
    else Ok (state, i)
  end.

Definition memcpy_in (off : nat) (src buf : list Z) : res (list Z) :=
  if decide (off + length src <= length buf)%nat then Ok (blit off src buf) else Err OutOfBounds.

Definition SHA1_Update (context : SHA_CTX) (d : list Z) : res SHA_CTX :=
  let len := Z.of_nat (length d) in
  let j := Z.land (Z.shiftr (sha_count0 context) 3) 63 in
  let nbits := wrap 32 (Z.shiftl len 3) in
  let c0 := wrap 32 (sha_count0 context + nbits) in
  let c1 := if c0 <? nbits then wrap 32 (sha_count1 context + 1) else sha_count1 context in
  let c1 := wrap 32 (c1 + Z.shiftr len 29) in
  '(state, buf, i, j) ←
    if 63 <? wrap 32 (j + len) then
      let i := 64 - j in
      first ← slice 0 (Z.to_nat i) d;
      buf ← memcpy_in (Z.to_nat j) first (sha_buffer context);
      let '(state, buf) := SHA1_Transform (sha_state context) buf in
      '(state, i) ← SHA1_loop (S (length d / 64)) i len d state;
      Ok (state, buf, i, 0)
    else Ok (sha_state context, sha_buffer context, 0, j);
  rest ← slice (Z.to_nat i) (Z.to_nat (len - i)) d;
  buf ← memcpy_in (Z.to_nat j) rest buf;
  Ok (mk_SHA_CTX state c0 c1 buf).

(** [while ((context->count[0] & 504) != 448)] *)
Fixpoint SHA1_pad (fuel : nat) (context : SHA_CTX) : res SHA_CTX :=
  match fuel with
  | O => Err OutOfFuel
  | S fuel =>
    if Z.land (sha_count0 context) 504 =? 448 then Ok context
    else context ← SHA1_Update context [0]; SHA1_pad fuel context
  end.

(** A word, most significant byte first. *)
Definition be_split (n : nat) (x : Z) : list Z := rev (le_split n x).

Definition sha1_digest (r : sha1_regs) : list Z :=
  let '(a, b, c, d, e) := r in
  be_split 4 a ++ be_split 4 b ++ be_split 4 c ++ be_split 4 d ++ be_split 4 e.

Definition SHA1_Final (context : SHA_CTX) : res (list Z) :=
  let finalcount := be_split 4 (sha_count1 context) ++ be_split 4 (sha_count0 context) in
  context ← SHA1_Update context [0x80];
  context ← SHA1_pad 65 context;
  context ← SHA1_Update context finalcount;
  Ok (sha1_digest (sha_state context)).

(** The three calls that every user of the hash makes. *)
Fixpoint SHA1_Updates (context : SHA_CTX) (ds : list (list Z)) : res SHA_CTX :=
  match ds with
  | [] => Ok context
  | d :: ds => context ← SHA1_Update context d; SHA1_Updates context ds
  end.

(** ** The reference: FIPS 180 *)

Definition be_load (l : list Z) : Z := le_load (rev l).

(** The message schedule [W_0 .. W_(15+n)]. *)
Fixpoint sha1_schedule (X : list Z) (n : nat) : list Z :=
  match n with
  | O => X
  | S n =>
    let W := sha1_schedule X n in
    let t := (16 + n)%nat in
    W ++ [rol (Z.lxor (Z.lxor (Z.lxor (nth (t - 3) W 0) (nth (t - 8) W 0)) (nth (t - 14) W 0))
                      (nth (t - 16) W 0)) 1]
  end.

Definition sha1_f (t : nat) (x y z : Z) : Z :=
  if (t <? 20)%nat then Z.lxor (Z.land x y) (Z.land (unot 32 x) z)
  else if (t <? 40)%nat then Z.lxor (Z.lxor x y) z
  else if (t <? 60)%nat then Z.lxor (Z.lxor (Z.land x y) (Z.land x z)) (Z.land y z)
  else Z.lxor (Z.lxor x y) z.

Definition sha1_K (t : nat) : Z :=
  if (t <? 20)%nat then 0x5a827999
  else if (t <? 40)%nat then 0x6ed9eba1
  else if (t <? 60)%nat then 0x8f1bbcdc
  else 0xca62c1d6.

Definition sha1_step (W : list Z) (r : sha1_regs) (t : nat) : sha1_regs :=
  let '(a, b, c, d, e) := r in
  let T := wrap 32 (rol a 5 + sha1_f t b c d + e + sha1_K t + nth t W 0) in
  (T, a, rol b 30, c, d).

Definition sha1_block_words (block : list Z) : list Z :=
  (fun i => be_load (take 4 (drop (4 * i) block))) <$> seq 0 16.

Definition sha1_process (h : sha1_regs) (block : list Z) : sha1_regs :=
  let W := sha1_schedule (sha1_block_words block) 64 in
  let '(a, b, c, d, e) := fold_left (sha1_step W) (seq 0 80) h in
  let '(a0, b0, c0, d0, e0) := h in
  (wrap 32 (a0 + a), wrap 32 (b0 + b), wrap 32 (c0 + c), wrap 32 (d0 + d), wrap 32 (e0 + e)).

Definition sha1_iv : sha1_regs := (0x67452301, 0xEFCDAB89, 0x98BADCFE, 0x10325476, 0xC3D2E1F0).

Definition sha1_padding (len : nat) : list Z :=
  0x80 :: repeat 0 (Z.to_nat ((55 - Z.of_nat len) mod 64)) ++ be_split 8 (8 * Z.of_nat len).

Definition sha1_spec (msg : list Z) : list Z :=
  let m := msg ++ sha1_padding (length msg) in
  sha1_digest (blocks sha1_process (length m / 64) sha1_iv m).

Example sha1_abc : sha1_spec [97; 98; 99] =
  [0xA9; 0x99; 0x3E; 0x36; 0x47; 0x06; 0x81; 0x6A; 0xBA; 0x3E;
   0x25; 0x71; 0x78; 0x50; 0xC2; 0x6C; 0x9C; 0xD0; 0xD8; 0x9D].
Proof. vm_compute. reflexivity. Qed.

Example SHA1_abc :
  (c ← SHA1_Update (SHA1_Init (repeat 7 64)) [97; 98; 99]; SHA1_Final c) = Ok (sha1_spec [97; 98; 99]).
Proof. vm_compute. reflexivity. Qed.

(** ** 32-bit words *)

#[local] Ltac Zify.zify_post_hook ::= Z.div_mod_to_equations.

Definition word_ok (x : Z) : Prop := 0 <= x < 2 ^ 32.

Lemma word_ok_bits x : 0 <= x -> (forall i, 32 <= i -> Z.testbit x i = false) -> word_ok x.
Proof.
  intros H0 H. assert (x = x mod 2 ^ 32) as ->; [|apply Z.mod_pos_bound; lia].
  apply Z.bits_inj'. intros i Hi. destruct (decide (i < 32)).
  - by rewrite Z.mod_pow2_bits_low by lia.
  - rewrite Z.mod_pow2_bits_high by lia. apply H. lia.
Qed.

Lemma word_bit_high x i : word_ok x -> 32 <= i -> Z.testbit x i = false.
Proof.
  intros Hx Hi. rewrite <- (Z.mod_small x (2 ^ 32)) by exact Hx.
  apply Z.mod_pow2_bits_high. lia.
Qed.

Lemma word_ok_wrap x : word_ok (wrap 32 x).
Proof. apply Z.mod_pos_bound. lia. Qed.

Lemma word_ok_lor x y : word_ok x -> word_ok y -> word_ok (Z.lor x y).
Proof.
  intros Hx Hy. apply word_ok_bits; [apply Z.lor_nonneg; split; [apply Hx|apply Hy]|].
  intros i Hi. by rewrite Z.lor_spec, !word_bit_high.
Qed.

Lemma word_ok_rol x n : word_ok x -> 0 <= n <= 32 -> word_ok (rol x n).
Proof.
  intros Hx Hn. apply word_ok_lor; [apply word_ok_wrap|].
  unfold word_ok in *. rewrite Z.shiftr_div_pow2 by lia.
  split; [apply Z.div_pos; lia|]. apply Z.div_lt_upper_bound; nia.
Qed.

Lemma le_load_word l : bytes_ok l -> length l = 4%nat -> word_ok (le_load l).
Proof. intros H E. pose proof (le_load_bounds l H) as B. rewrite E in B. exact B. Qed.

Lemma rol_testbit x n i :
  word_ok x -> 0 < n < 32 -> 0 <= i < 32 -> Z.testbit (rol x n) i = Z.testbit x ((i - n) mod 32).
Proof.
  intros Hx Hn Hi. unfold rol, wrap.
  rewrite Z.lor_spec, Z.mod_pow2_bits_low, Z.shiftl_spec, Z.shiftr_spec by lia.
  destruct (decide (i < n)).
  - rewrite (Z.testbit_neg_r x) by lia.
    replace ((i - n) mod 32) with (i + (32 - n)); [done|].
    rewrite <- (Z.mod_small (i + (32 - n)) 32) by lia.
    rewrite <- (Z.mod_add (i - n) 1 32) by lia. f_equal. lia.
  - rewrite (word_bit_high x (i + _)) by (done || lia).
    rewrite orb_false_r. by rewrite Z.mod_small by lia.
Qed.

Lemma testbit_mod256 y j : 0 <= j < 8 -> Z.testbit (y mod 256) j = Z.testbit y j.
Proof. intros Hj. change 256 with (2 ^ 8). apply Z.mod_pow2_bits_low. lia. Qed.

Lemma testbit_div256 y j : 0 <= j -> Z.testbit (y / 256) j = Z.testbit y (j + 8).
Proof.
  intros Hj. change 256 with (2 ^ 8). rewrite <- Z.shiftr_div_pow2 by lia. by apply Z.shiftr_spec.
Qed.

(** [blk0] swaps the bytes of a word. *)
Lemma blk0_swap x :
  word_ok x ->
  Z.lor (Z.land (rol x 24) 0xFF00FF00) (Z.land (rol x 8) 0x00FF00FF) = bswap 4 x.
Proof.
  intros Hx. apply Z.bits_inj'. intros i Hi. rewrite Z.lor_spec, !Z.land_spec.
  destruct (decide (32 <= i)) as [Hbig|Hbig].
  { rewrite (word_bit_high (rol x 24)), (word_bit_high (rol x 8))
      by (try apply word_ok_rol; done || lia).
    symmetry. apply word_bit_high; [exact (bswap_bounds 4 x)|done]. }
  rewrite !rol_testbit by (done || lia). unfold bswap, le_split, le_load. cbn [rev app].
  assert (forall y, byte_ok (y mod 256)) as Hb by (intros y; apply Z.mod_pos_bound; lia).
  rewrite <- (Z2Nat.id i) by done. assert (Z.to_nat i < 32)%nat as Hn by lia.
  generalize dependent (Z.to_nat i). clear Hi Hbig. intros n Hn.
  do 32 (destruct n as [|n]; [
    cbn [Z.of_nat];
    repeat first [rewrite testbit_cons_low by (auto || lia) | rewrite testbit_cons_high by (auto || lia)];
    rewrite testbit_mod256, ?testbit_div256 by lia;
    cbn; rewrite ?andb_false_r, ?andb_true_r, ?orb_false_r; reflexivity|]).
  lia.
Qed.

(** ** The transform

The calls are regular: call [t] uses the macro of round [t / 20] and the
variables rotated [t] times. *)

Definition macro_of (t : nat) : sha1_macro :=
  if (t <? 16)%nat then R0 else if (t <? 20)%nat then R1
  else if (t <? 40)%nat then R2 else if (t <? 60)%nat then R3 else R4.

Definition args_of (t : nat) : sha1_args :=
  match (t mod 5)%nat with
  | 0%nat => abcde | 1%nat => eabcd | 2%nat => deabc | 3%nat => cdeab | _ => bcdea
  end.

(** The registers of FIPS 180 before call [t]. *)
Definition view (t : nat) (s : sha1_vars) : sha1_regs :=
  let '(mk_sha1_vars a b c d e _) := s in
  match args_of t with
  | abcde => (a, b, c, d, e) | eabcd => (e, a, b, c, d) | deabc => (d, e, a, b, c)
  | cdeab => (c, d, e, a, b) | bcdea => (b, c, d, e, a)
  end.

Definition regs_ok (r : sha1_regs) : Prop :=
  let '(a, b, c, d, e) := r in word_ok a /\ word_ok b /\ word_ok c /\ word_ok d /\ word_ok e.

Lemma sha1_calls_regular : sha1_calls = (fun t => (macro_of t, args_of t, t)) <$> seq 0 80.
Proof. reflexivity. Qed.

Lemma macro_f_fips t x y z :
  word_ok x -> word_ok y -> word_ok z -> macro_f (macro_of t) x y z = sha1_f t x y z.
Proof.
  intros Hx Hy Hz. unfold macro_of, sha1_f.
  destruct (Nat.ltb_spec t 20), (Nat.ltb_spec t 16), (Nat.ltb_spec t 40), (Nat.ltb_spec t 60);
    try lia; cbn [macro_f]; try done;
    apply Z.bits_inj'; intros i Hi; unfold unot; repeat rewrite ?Z.lxor_spec, ?Z.land_spec, ?Z.lor_spec.
  all: try (destruct (decide (i < 32));
    [rewrite Z.ones_spec_low by lia | rewrite Z.ones_spec_high by lia; rewrite !word_bit_high by (done || lia)]).
  all: by repeat match goal with |- context [Z.testbit ?u ?j] => destruct (Z.testbit u j) end.
Qed.

Lemma macro_k_fips t : macro_k (macro_of t) = sha1_K t.
Proof.
  unfold macro_of, sha1_K.
  destruct (Nat.ltb_spec t 20), (Nat.ltb_spec t 16), (Nat.ltb_spec t 40), (Nat.ltb_spec t 60);
    try lia; done.
Qed.

(** One call is one step of FIPS 180. *)
Lemma macro_call_view W t s :
  regs_ok (view t s) -> macro_blk (macro_of t) (vl s) t = nth t W 0 ->
  view (S t) (macro_call s (macro_of t, args_of t, t)) = sha1_step W (view t s) t /\
  vl (macro_call s (macro_of t, args_of t, t)) = <[(t mod 16)%nat := nth t W 0]> (vl s).
Proof.
  destruct s as [a b c d e l]. cbn [vl]. intros Hok Hblk.
  assert (args_of (S t) = match args_of t with
    | abcde => eabcd | eabcd => deabc | deabc => cdeab | cdeab => bcdea | bcdea => abcde end) as Hargs.
  { unfold args_of. rewrite <- Nat.add_1_l, Nat.Div0.add_mod.
    pose proof (Nat.mod_upper_bound t 5). by destruct (t mod 5)%nat as [|[|[|[|[|?]]]]]; try lia. }
  unfold view in *. unfold sha1_step, macro_call, macro_z. cbn [vl] in *.
  destruct (args_of t) eqn:Ha; cbn [vl]; rewrite Hargs, Hblk; destruct Hok as (? & ? & ? & ? & ?);
    (split; [|done]); rewrite macro_f_fips, macro_k_fips by done;
    match goal with |- (wrap 32 ?p, _, _, _, _) = (wrap 32 ?q, _, _, _, _) => by replace p with q by lia end.
Qed.

Lemma sha1_step_ok W r t : regs_ok r -> regs_ok (sha1_step W r t).
Proof.
  destruct r as [[[[a b] c] d] e]. intros (? & ? & ? & ? & ?).
  split_and!; [apply word_ok_wrap|done|apply word_ok_rol; [done|lia]|done|done].
Qed.

(** *** The schedule *)

Lemma length_sha1_schedule X n : length X = 16%nat -> length (sha1_schedule X n) = (16 + n)%nat.
Proof. intros H. induction n as [|n IH]; [done|]. cbn [sha1_schedule]. rewrite length_app, IH. simpl. lia. Qed.

Lemma sha1_schedule_prefix X n k t :
  length X = 16%nat -> (t < 16 + n)%nat ->
  nth t (sha1_schedule X (k + n)) 0 = nth t (sha1_schedule X n) 0.
Proof.
  intros HX Ht. induction k as [|k IH]; [done|]. cbn [Nat.add sha1_schedule].
  rewrite app_nth1; [done|]. rewrite length_sha1_schedule by done. lia.
Qed.

Lemma sha1_schedule_first X n t :
  length X = 16%nat -> (t < 16)%nat -> nth t (sha1_schedule X n) 0 = nth t X 0.
Proof.
  intros HX Ht. replace n with (n + 0)%nat by lia. by rewrite sha1_schedule_prefix by lia.
Qed.

Lemma sha1_schedule_next X n t :
  length X = 16%nat -> (16 <= t < 16 + n)%nat ->
  let W := sha1_schedule X n in
  nth t W 0 = rol (Z.lxor (Z.lxor (Z.lxor (nth (t - 3) W 0) (nth (t - 8) W 0)) (nth (t - 14) W 0))
                          (nth (t - 16) W 0)) 1.
Proof.
  intros HX Ht W. subst W. set (k := (t - 16)%nat). assert (t = 16 + k)%nat as Hk by lia.
  replace n with ((n - S k) + S k)%nat by lia. rewrite sha1_schedule_prefix by lia.
  cbn [sha1_schedule]. rewrite app_nth2 by (rewrite length_sha1_schedule; lia).
  rewrite length_sha1_schedule by done. replace (t - (16 + k))%nat with 0%nat by lia. cbn [nth].
  rewrite <- Hk, !(sha1_schedule_prefix _ (S k) (n - S k)) by lia.
  cbn [sha1_schedule]. by rewrite !app_nth1 by (rewrite length_sha1_schedule; lia).
Qed.

(** Entry [j] of the circular block: a word of the message before it is
    read, a word of the schedule after. *)
Definition window (H W : list Z) (j : nat) : Z :=
  if (j <? 16)%nat then nth j H 0 else nth (j - 16) W 0.

Definition block_inv (H W : list Z) (t : nat) (l : list Z) : Prop :=
  length l = 16%nat /\ forall j, (t <= j < t + 16)%nat -> nth (j mod 16) l 0 = window H W j.

Lemma macro_blk_schedule Hw X t l :
  length X = 16%nat -> Forall word_ok Hw -> length Hw = 16%nat ->
  (forall j, (j < 16)%nat -> nth j X 0 = bswap 4 (nth j Hw 0)) -> (t < 80)%nat ->
  block_inv Hw (sha1_schedule X 64) t l ->
  macro_blk (macro_of t) l t = nth t (sha1_schedule X 64) 0.
Proof.
  intros HX Hok HH Hswap Ht [Hl Hwin]. destruct (Nat.ltb_spec t 16) as [Hlt|Hge].
  - unfold macro_of. rewrite (proj2 (Nat.ltb_lt t 16)) by done. cbn [macro_blk].
    unfold blk0. pose proof (Hwin t ltac:(lia)) as E. rewrite Nat.mod_small in E by done.
    rewrite E. unfold window. rewrite (proj2 (Nat.ltb_lt t 16)) by done.
    rewrite sha1_schedule_first, Hswap by done. apply blk0_swap.
    apply list.Forall_forall with (l := Hw); [done|]. apply list_elem_of_In, nth_In. lia.
  - assert (macro_blk (macro_of t) = blk) as ->.
    { unfold macro_of. rewrite (proj2 (Nat.ltb_ge t 16)) by done. by case_match; [|case_match; [|case_match]]. }
    unfold blk. rewrite sha1_schedule_next by lia.
    rewrite !Hwin by lia. unfold window.
    rewrite !(proj2 (Nat.ltb_ge _ 16)) by lia.
    replace (t + 13 - 16)%nat with (t - 3)%nat by lia.
    replace (t + 8 - 16)%nat with (t - 8)%nat by lia.
    by replace (t + 2 - 16)%nat with (t - 14)%nat by lia.
Qed.

Lemma block_inv_step Hw W t l :
  block_inv Hw W t l -> block_inv Hw W (S t) (<[(t mod 16)%nat := nth t W 0]> l).
Proof.
  intros [Hl Hwin]. split; [by rewrite length_insert|]. intros j Hj.
  pose proof (Nat.mod_upper_bound j 16). pose proof (Nat.mod_upper_bound t 16).
  rewrite nth_lookup. destruct (decide (j = t + 16)%nat) as [->|Hne].
  - replace ((t + 16) mod 16)%nat with (t mod 16)%nat
      by (rewrite Nat.Div0.add_mod, Nat.Div0.mod_same, Nat.add_0_r, Nat.Div0.mod_mod; done).
    rewrite list_lookup_insert_eq by lia. unfold window.
    rewrite (proj2 (Nat.ltb_ge _ 16)) by lia. cbn. f_equal. lia.
  - rewrite list_lookup_insert_ne, <- nth_lookup by lia. apply Hwin. lia.
Qed.

Section transform.
Context (Hw X : list Z) (HX : length X = 16%nat).
Context (Hok : Forall word_ok Hw) (HH : length Hw = 16%nat).
Context (Hswap : forall j, (j < 16)%nat -> nth j X 0 = bswap 4 (nth j Hw 0)).

(** The code and FIPS 180 in lock step. *)
Lemma sha1_lockstep a b c d e n :
  regs_ok (a, b, c, d, e) -> (n <= 80)%nat ->
  let W := sha1_schedule X 64 in
  let s := fold_left macro_call ((fun t => (macro_of t, args_of t, t)) <$> seq 0 n)
             (mk_sha1_vars a b c d e Hw) in
  view n s = fold_left (sha1_step W) (seq 0 n) (a, b, c, d, e) /\
  regs_ok (view n s) /\ block_inv Hw W n (vl s).
Proof.
  intros Hregs Hn W. induction n as [|n IH].
  { do 3 (split; [done|]). intros j Hj. rewrite Nat.mod_small by lia. unfold window.
    by rewrite (proj2 (Nat.ltb_lt _ 16)) by lia. }
  destruct (IH ltac:(lia)) as (Hview & Hr & Hinv). clear IH. revert Hview Hr Hinv.
  rewrite seq_S, fmap_app, !fold_left_app. cbn [Nat.add fmap list_fmap fold_left].
  set (s := fold_left _ _ _). intros Hview Hr Hinv.
  pose proof (macro_blk_schedule Hw X n (vl s) HX Hok HH Hswap ltac:(lia) Hinv) as Hblk.
  destruct (macro_call_view W n s Hr Hblk) as [E1 E2].
  rewrite E1, E2, <- Hview. split_and!; [done|by apply sha1_step_ok|by apply block_inv_step].
Qed.
End transform.

Lemma host_words_ok b : bytes_ok b -> length b = 64%nat -> Forall word_ok (host_words b).
Proof.
  intros Hb Hl. apply Forall_fmap, list.Forall_forall. intros i [_ Hi]%elem_of_seq.
  apply le_load_word; [by apply Forall_take_drop|]. rewrite take_drop_length; lia.
Qed.

Lemma host_words_swap b j :
  bytes_ok b -> length b = 64%nat -> (j < 16)%nat ->
  nth j (sha1_block_words b) 0 = bswap 4 (nth j (host_words b) 0).
Proof.
  intros Hb Hl Hj. unfold sha1_block_words, host_words.
  rewrite !nth_lookup, !list_lookup_fmap, lookup_seq_lt by done. cbn.
  rewrite bswap_load; [done|by apply Forall_take_drop|]. rewrite take_drop_length; lia.
Qed.

Lemma length_host_bytes l : length (host_bytes l) = (4 * length l)%nat.
Proof.
  induction l as [|x l IH]; [done|]. unfold host_bytes in *. cbn [mbind list_bind].
  rewrite length_app, length_le_split. cbn [length]. lia.
Qed.

(** The transform is the compression function of FIPS 180; what it leaves in
    the buffer only has the right size. *)
Lemma SHA1_Transform_fips r b :
  regs_ok r -> bytes_ok b -> length b = 64%nat ->
  fst (SHA1_Transform r b) = sha1_process r b /\ length (snd (SHA1_Transform r b)) = 64%nat.
Proof.
  intros Hr Hb Hl. destruct r as [[[[a0 b0] c0] d0] e0].
  destruct (sha1_lockstep (host_words b) (sha1_block_words b) eq_refl (host_words_ok b Hb Hl)
              eq_refl (fun j => host_words_swap b j Hb Hl) a0 b0 c0 d0 e0 80 Hr ltac:(lia))
    as (Hview & _ & [Hlen _]).
  unfold SHA1_Transform, sha1_process. rewrite sha1_calls_regular.
  rewrite <- Hview. clear Hview. revert Hlen.
  destruct (fold_left macro_call _ _) as [a b' c d e l]. cbn [vl fst snd]. intros Hlen.
  split; [done|]. rewrite length_host_bytes. lia.
Qed.

Lemma sha1_process_ok r b : regs_ok (sha1_process r b).
Proof.
  unfold sha1_process. destruct r as [[[[a0 b0] c0] d0] e0].
  destruct (fold_left _ _ _) as [[[[a b'] c] d] e]. split_and!; apply word_ok_wrap.
Qed.

(** ** Streaming *)

#[local] Opaque sha1_process SHA1_Transform.

Definition sha1_rep (c : SHA_CTX) (m : list Z) : Prop :=
  absorbed sha1_process sha1_iv (sha_state c) (sha_buffer c) m /\
  sha_count0 c = bits_lo (length m) /\ sha_count1 c = bits_hi (length m) /\ bytes_ok m.

Lemma sha1_blocks_ok n r m : regs_ok r -> regs_ok (blocks sha1_process n r m).
Proof.
  revert r m. induction n as [|n IH]; intros r m Hr; [done|].
  cbn [blocks]. apply IH, sha1_process_ok.
Qed.

Lemma sha1_iv_ok : regs_ok sha1_iv.
Proof. split_and!; done. Qed.

Lemma sha1_rep_regs c m : sha1_rep c m -> regs_ok (sha_state c).
Proof. intros ((-> & _) & _). apply sha1_blocks_ok, sha1_iv_ok. Qed.

Lemma SHA1_Init_rep g : length g = 64%nat -> sha1_rep (SHA1_Init g) [].
Proof. intros Hg. split; [by apply absorbed_nil|]. split_and!; [done..|constructor]. Qed.

Lemma SHA1_loop_blocks fuel (i : nat) d r :
  regs_ok r -> bytes_ok d -> (i <= length d)%nat -> Z.of_nat (length d) < 2 ^ 32 - 64 ->
  ((length d - i) / 64 < fuel)%nat ->
  let n := ((length d - i) / 64)%nat in
  SHA1_loop fuel (Z.of_nat i) (Z.of_nat (length d)) d r =
  Ok (blocks sha1_process n r (drop i d), Z.of_nat (i + 64 * n)).
Proof.
  intros Hr Hd Hi Hlen Hfuel n. subst n. revert i r Hr Hi Hfuel.
  induction fuel as [|fuel IH]; intros i r Hr Hi Hfuel; [lia|]. cbn [SHA1_loop].
  unfold wrap. rewrite !Z.mod_small by lia.
  destruct (Z.ltb_spec (Z.of_nat i + 63) (Z.of_nat (length d))) as [Hlt|Hge].
  - rewrite Nat2Z.id, slice_ok by lia. cbn [mbind res_bind].
    assert (length (take 64 (drop i d)) = 64%nat) as Hl by (apply take_drop_length; lia).
    destruct (SHA1_Transform_fips r (take 64 (drop i d)) Hr (Forall_take_drop _ _ _ _ Hd) Hl) as [E _].
    rewrite E. change 64 with (Z.of_nat 64) at 1. rewrite <- Nat2Z.inj_add.
    rewrite IH by (try apply sha1_process_ok; lia).
    replace ((length d - i) / 64)%nat with (S ((length d - (i + 64)) / 64)) by lia.
    cbn [blocks]. rewrite drop_drop. do 2 f_equal. lia.
  - replace ((length d - i) / 64)%nat with 0%nat by lia. cbn [blocks]. do 2 f_equal. lia.
Qed.

Lemma memcpy_in_ok off src buf :
  (off + length src <= length buf)%nat -> memcpy_in off src buf = Ok (blit off src buf).
Proof. intros H. unfold memcpy_in. by rewrite decide_True. Qed.

(** The bytes of a completed block. *)
Lemma filled_bytes r buf m d off :
  absorbed sha1_process sha1_iv r buf m -> bytes_ok m -> bytes_ok d ->
  off = (length m mod 64)%nat -> (64 <= off + length d)%nat ->
  bytes_ok (blit off (take (64 - off) d) buf).
Proof.
  intros (_ & Hl & Hbuf) Hm Hd -> Hlen. unfold blit. rewrite Hbuf.
  rewrite length_take, (drop_ge buf) by lia.
  apply bytes_ok_app. split; [by apply Forall_drop|].
  apply bytes_ok_app. split; [by apply Forall_take|constructor].
Qed.

Lemma SHA1_Update_rep c m d :
  sha1_rep c m -> bytes_ok d -> Z.of_nat (length d) < 2 ^ 32 - 64 ->
  exists c', SHA1_Update c d = Ok c' /\ sha1_rep c' (m ++ d).
Proof.
  intros Hrep Hd Hlen. pose proof (sha1_rep_regs c m Hrep) as Hregs.
  destruct Hrep as (Habs & Hc0 & Hc1 & Hm). pose proof Habs as (_ & Hbl & _).
  unfold SHA1_Update. rewrite Hc0, Hc1, bits_offset.
  destruct (bits_add (length m) (length d) ltac:(lia)) as [E0 E1].
  cbv zeta in E0, E1. rewrite E1, E0, <- length_app. clear E0 E1.
  set (off := (length m mod 64)%nat). assert (off < 64)%nat by lia.
  unfold wrap. rewrite Z.mod_small by lia.
  destruct (Z.ltb_spec 63 (Z.of_nat off + Z.of_nat (length d))) as [Hfill|Hpart].
  - replace (64 - Z.of_nat off) with (Z.of_nat (64 - off)) by lia. rewrite !Nat2Z.id.
    rewrite slice_ok by lia. cbn [mbind res_bind]. rewrite drop_0.
    rewrite memcpy_in_ok by (rewrite length_take; lia). cbn [mbind res_bind].
    pose proof (filled_bytes _ _ m d off Habs Hm Hd eq_refl ltac:(lia)) as Hfb.
    assert (length (blit off (take (64 - off) d) (sha_buffer c)) = 64%nat) as Hfl
      by (rewrite length_blit, ?length_take; rewrite ?length_take; lia).
    destruct (SHA1_Transform_fips _ _ Hregs Hfb Hfl) as [Et El].
    destruct (SHA1_Transform (sha_state c) _) as [r1 b1]. cbn [fst snd] in Et, El.
    rewrite SHA1_loop_blocks by (rewrite ?Et; try apply sha1_process_ok; try done; lia).
    cbn [mbind res_bind]. set (n := ((length d - (64 - off)) / 64)%nat).
    assert (64 * n <= length d - (64 - off) < 64 * n + 64)%nat as Hn by (subst n; lia).
    rewrite Nat2Z.id, slice_ok by lia. cbn [mbind res_bind].
    rewrite memcpy_in_ok by (rewrite length_take, length_drop; lia). cbn [mbind res_bind].
    eexists. split; [done|].
    split; [|split; [done|split; [done|by apply bytes_ok_app]]]. cbn [sha_state sha_buffer].
    rewrite (take_ge (drop (64 - off + 64 * n) d)) by (rewrite length_drop; lia).
    eapply (absorbed_fill _ _ _ _ m d off n); try done; try lia.
    + by rewrite Et.
    + rewrite length_blit; [done|]. change (Z.to_nat 0) with 0%nat. rewrite length_drop. lia.
    + change (Z.to_nat 0) with 0%nat.
      replace (length d - (64 - off) - 64 * n)%nat
        with (0 + length (drop (64 - off + 64 * n) d))%nat by (rewrite length_drop; lia).
      by rewrite take_blit by lia.
  - cbn [mbind res_bind]. change (Z.to_nat 0) with 0%nat. rewrite slice_ok by lia. cbn [mbind res_bind].
    rewrite Nat2Z.id, drop_0, take_ge by lia. rewrite memcpy_in_ok by lia. cbn [mbind res_bind].
    eexists. split; [done|].
    split; [|split; [done|split; [done|by apply bytes_ok_app]]]. cbn [sha_state sha_buffer].
    apply absorbed_partial; [done..|lia].
Qed.

Lemma bits_lo_504 (len : nat) : Z.land (bits_lo len) 504 = 8 * Z.of_nat (len mod 64).
Proof.
  rewrite <- bits_offset. apply Z.bits_inj'. intros i Hi.
  rewrite Z.mul_comm. change 8 with (2 ^ 3). rewrite <- Z.shiftl_mul_pow2 by lia.
  destruct (decide (i < 3)).
  - rewrite Z.shiftl_spec_low, Z.land_spec by lia.
    assert (Z.testbit 504 i = false) as ->; [|apply andb_false_r].
    assert (i = 0 \/ i = 1 \/ i = 2) as [->|[->| ->]] by lia; done.
  - rewrite Z.shiftl_spec_high, !Z.land_spec, Z.shiftr_spec by lia.
    replace (i - 3 + 3) with i by lia. f_equal.
    change 504 with (Z.shiftl 63 3). rewrite Z.shiftl_spec_high by lia. done.
Qed.

Lemma SHA1_pad_rep fuel c m :
  let k := Z.to_nat ((56 - Z.of_nat (length m)) mod 64) in
  sha1_rep c m -> (k < fuel)%nat ->
  exists c', SHA1_pad fuel c = Ok c' /\ sha1_rep c' (m ++ repeat 0 k).
Proof.
  cbv zeta. revert c m. induction fuel as [|fuel IH]; intros c m Hrep Hfuel; [lia|].
  cbn [SHA1_pad]. pose proof Hrep as (_ & Hc0 & _). rewrite Hc0, bits_lo_504.
  destruct (Z.eqb_spec (8 * Z.of_nat (length m mod 64)) 448) as [E|E].
  - exists c. replace (Z.to_nat _) with 0%nat by lia. by rewrite app_nil_r.
  - destruct (SHA1_Update_rep c m [0] Hrep) as (c1 & -> & Hrep1); [by repeat constructor|done|].
    cbn [mbind res_bind].
    destruct (IH c1 (m ++ [0]) Hrep1) as (c2 & -> & Hrep2); [rewrite length_app; simpl; lia|].
    exists c2. split; [done|]. rewrite <- app_assoc in Hrep2.
    rewrite length_app in Hrep2. simpl in Hrep2.
    replace (Z.to_nat ((56 - Z.of_nat (length m)) mod 64))
      with (S (Z.to_nat ((56 - Z.of_nat (length m + 1)) mod 64))) by lia.
    exact Hrep2.
Qed.

Lemma be_split_bytes n x : bytes_ok (be_split n x).
Proof. apply bytes_ok_rev, le_split_bytes. Qed.

Lemma length_be_split n x : length (be_split n x) = n.
Proof. unfold be_split. by rewrite length_rev, length_le_split. Qed.

(** [finalcount]: the length in bits, most significant byte first. *)
Lemma sha1_length_bytes len :
  be_split 4 (bits_hi len) ++ be_split 4 (bits_lo len) = be_split 8 (8 * Z.of_nat len).
Proof.
  unfold be_split, bits_hi, bits_lo. rewrite <- rev_app_distr.
  change (2 ^ 32) with (256 ^ Z.of_nat 4). rewrite !le_split_mod.
  f_equal. symmetry. apply (le_split_app 4 4).
Qed.

Lemma SHA1_Final_rep c m : sha1_rep c m -> SHA1_Final c = Ok (sha1_spec m).
Proof.
  intros Hrep. pose proof Hrep as (_ & Hc0 & Hc1 & _). unfold SHA1_Final.
  rewrite Hc0, Hc1, sha1_length_bytes.
  destruct (SHA1_Update_rep c m [0x80] Hrep) as (c1 & -> & Hrep1); [by repeat constructor|done|].
  cbn [mbind res_bind].
  destruct (SHA1_pad_rep 65 c1 _ Hrep1) as (c2 & -> & Hrep2); [lia|]. cbn [mbind res_bind].
  destruct (SHA1_Update_rep c2 _ (be_split 8 (8 * Z.of_nat (length m))) Hrep2) as (c3 & -> & Hrep3);
    [apply be_split_bytes|by rewrite length_be_split|].
  cbn [mbind res_bind]. destruct Hrep3 as ((-> & _) & _). unfold sha1_spec, sha1_padding.
  replace (56 - Z.of_nat (length (m ++ [128]))) with (55 - Z.of_nat (length m))
    by (rewrite length_app; cbn [length]; lia).
  by rewrite <- !app_assoc.
Qed.

Lemma SHA1_Updates_rep c m ds :
  sha1_rep c m -> Forall (fun d => bytes_ok d /\ Z.of_nat (length d) < 2 ^ 32 - 64) ds ->
  exists c', SHA1_Updates c ds = Ok c' /\ sha1_rep c' (m ++ mjoin ds).
Proof.
  intros Hrep Hds. revert c m Hrep.
  induction Hds as [|d ds [Hb Hl] _ IH]; intros c m Hrep; cbn [SHA1_Updates].
  - exists c. cbn. by rewrite app_nil_r.
  - destruct (SHA1_Update_rep c m d Hrep Hb Hl) as (c1 & -> & Hrep1). cbn [mbind res_bind].
    destruct (IH c1 _ Hrep1) as (c2 & -> & Hrep2). exists c2.
    rewrite join_cons, app_assoc. done.
Qed.

(** (C23) SHA-1 is SHA-1: however the input is cut into updates, the three calls
    stay within their buffers and terminate, and the result is the FIPS 180
    digest of the concatenation. *)
Theorem SHA1_streaming_correct (g : list Z) (ds : list (list Z))
    (Hg : length g = 64%nat)
    (Hds : Forall (fun d => bytes_ok d /\ Z.of_nat (length d) < 2 ^ 32 - 64) ds) :
  (c ← SHA1_Updates (SHA1_Init g) ds; SHA1_Final c) = Ok (sha1_spec (mjoin ds)).
Proof.
  destruct (SHA1_Updates_rep _ _ ds (SHA1_Init_rep g Hg) Hds) as (c & -> & Hrep).
  exact (SHA1_Final_rep c _ Hrep).
Qed.

Lemma SHA1_streaming_correct_witness :
  (c ← SHA1_Updates (SHA1_Init (repeat 165 64)) [[97]; []; [98; 99]]; SHA1_Final c)
  = Ok (sha1_spec [97; 98; 99]).
Proof.
  rewrite SHA1_streaming_correct; [reflexivity|reflexivity|].
  repeat (apply list.Forall_cons; split; [split; [by repeat constructor|reflexivity]|]).
  by apply list.Forall_nil.
Defined.

Lemma sha1_digest_length r : length (sha1_digest r) = 20%nat.
Proof.
  destruct r as [[[[a b] c] d] e]. unfold sha1_digest. by rewrite !length_app, !length_be_split.
Qed.

Lemma sha1_spec_length m : length (sha1_spec m) = 20%nat.
Proof. apply sha1_digest_length. Qed.

Lemma sha1_spec_bytes m : bytes_ok (sha1_spec m).
Proof.
  unfold sha1_spec. destruct (blocks _ _ _ _) as [[[[a b] c] d] e]. unfold sha1_digest.
  rewrite !bytes_ok_app. split_and!; apply be_split_bytes.
Qed.

(** One update, as the callers do it. *)
Definition SHA1 (g d : list Z) : res (list Z) :=
  c ← SHA1_Update (SHA1_Init g) d; SHA1_Final c.

Lemma SHA1_correct g d :
  length g = 64%nat -> bytes_ok d -> Z.of_nat (length d) < 2 ^ 32 - 64 ->
  SHA1 g d = Ok (sha1_spec d).
Proof.
  intros Hg Hd Hl. unfold SHA1.
  destruct (SHA1_Update_rep _ _ d (SHA1_Init_rep g Hg) Hd Hl) as (c & -> & Hrep).
  exact (SHA1_Final_rep c _ Hrep).
Qed.

#[export] Hint Resolve sha1_spec_length sha1_spec_bytes : maiccu.
