(* ===== verification/AiccuMd5.v ===== *)
(** * MD5 of the SixXS client ([aiccu/hash_md5.c])

Colin Plumb's implementation, which signs heartbeats and TIC challenges.
[MD5Transform] is the list of its sixty-four [MD5STEP]s on the variables
[a] .. [d]; with [MD5Init], [MD5Update] and [MD5Final] it is proved to
compute the digest of RFC 1321, the one of [Md5].  The first section holds
the correspondence between such a list of steps and RFC 1321, which
[TspMd5] uses too. *)

From Stdlib Require Import ZifyNat.
From stdpp Require Import base gmap list numbers.
From S2P Require Import Prelude Words HashStream Md5 Sha1.

(** ** Unrolled transforms *)

(** The variables that stand for the parameters of a step. *)
Inductive md5_args := abcd | dabc | cdab | bcda.

Record md5_vars := mk_md5_vars { ma : Z; mb : Z; mc : Z; md : Z }.

Inductive md5_fun := F1 | F2 | F3 | F4.

Definition md5_call : Type := md5_fun * md5_args * nat * Z * Z.

Definition fun_at (t : nat) : md5_fun :=
  match (t / 16)%nat with 0%nat => F1 | 1%nat => F2 | 2%nat => F3 | _ => F4 end.

Definition md5_args_at (t : nat) : md5_args :=
  match (t mod 4)%nat with 0%nat => abcd | 1%nat => dabc | 2%nat => cdab | _ => bcda end.

Definition entry_at (t : nat) : nat * Z * nat := md5_entry (t / 16) (t mod 16).

Definition rfc_fun (f : md5_fun) : Z -> Z -> Z -> Z :=
  match f with F1 => md5_F | F2 => md5_G | F3 => md5_H | F4 => md5_I end.

Definition md5_view (t : nat) (s : md5_vars) : md5_regs :=
  let '(mk_md5_vars a b c d) := s in
  match md5_args_at t with
  | abcd => (a, b, c, d) | dabc => (d, a, b, c) | cdab => (c, d, a, b) | bcda => (b, c, d, a)
  end.

Definition md5_regs_ok (r : md5_regs) : Prop :=
  let '(a, b, c, d) := r in word_ok a /\ word_ok b /\ word_ok c /\ word_ok d.

Lemma fold_left_ext_in {A B} (f g : A -> B -> A) l x :
  (forall y b, b ∈ l -> f y b = g y b) -> fold_left f l x = fold_left g l x.
Proof.
  revert x. induction l as [|b l IH]; intros x H; [done|]. cbn [fold_left].
  rewrite H by left. apply IH. intros. apply H. by right.
Qed.

Lemma fold_left_fmap {A B C} (f : A -> B -> A) (g : C -> B) l x :
  fold_left f (g <$> l) x = fold_left (fun y c => f y (g c)) l x.
Proof. revert x. induction l as [|c l IH]; intros x; [done|]. cbn. apply IH. Qed.

(** Sixteen consecutive steps are a round. *)
Lemma round_of_steps X q s :
  fold_left (fun r t => md5_step (rfc_fun (fun_at t)) X r (entry_at t)) (seq (16 * q) 16) s =
  md5_round_ref (rfc_fun (fun_at (16 * q))) q X s.
Proof.
  unfold md5_round_ref. rewrite <- (Nat.add_0_r (16 * q)) at 1. rewrite <- fmap_add_seq.
  rewrite !fold_left_fmap.
  apply fold_left_ext_in. intros r i [_ Hi]%elem_of_seq. unfold fun_at, entry_at.
  rewrite (Nat.mul_comm 16 q), Nat.div_add_l, (Nat.add_comm (q * 16)), Nat.Div0.mod_add by lia.
  rewrite Nat.div_mul, (Nat.div_small i), (Nat.mod_small i), Nat.add_0_r by lia. done.
Qed.

Section unrolled.
(** The new value of the first variable: [step f w x y z in const shift]. *)
Context (step : md5_fun -> Z -> Z -> Z -> Z -> Z -> Z -> Z -> Z).

Definition run_call (X : list Z) (v : md5_vars) (e : md5_call) : md5_vars :=
  let '(f, args, k, T, s) := e in
  let '(mk_md5_vars a b c d) := v in
  match args with
  | abcd => mk_md5_vars (step f a b c d (nth k X 0) T s) b c d
  | dabc => mk_md5_vars a b c (step f d a b c (nth k X 0) T s)
  | cdab => mk_md5_vars a b (step f c d a b (nth k X 0) T s) d
  | bcda => mk_md5_vars a (step f b c d a (nth k X 0) T s) c d
  end.

Definition run_calls (calls : list md5_call) (X : list Z) (r : md5_regs) : md5_regs :=
  let '(a0, b0, c0, d0) := r in
  let '(mk_md5_vars a b c d) := fold_left (run_call X) calls (mk_md5_vars a0 b0 c0 d0) in
  (add32 a0 a, add32 b0 b, add32 c0 c, add32 d0 d).

Definition rfc_calls : list md5_call :=
  (fun t => let '(k, s, i) := entry_at t in (fun_at t, md5_args_at t, k, T i, s)) <$> seq 0 64.

Context (Hstep : forall f w x y z xk t s,
  word_ok w -> word_ok x -> word_ok y -> word_ok z ->
  step f w x y z xk t s = SET (rfc_fun f) [xk] w x y z 0 s t).

Lemma run_call_view X t v :
  md5_regs_ok (md5_view t v) ->
  let '(k, s, i) := entry_at t in
  md5_view (S t) (run_call X v (fun_at t, md5_args_at t, k, T i, s)) =
  md5_step (rfc_fun (fun_at t)) X (md5_view t v) (entry_at t).
Proof.
  intros Hok. destruct (entry_at t) as [[k s] i]. destruct v as [a b c d].
  assert (md5_args_at (S t) = match md5_args_at t with
    | abcd => dabc | dabc => cdab | cdab => bcda | bcda => abcd end) as Hargs.
  { unfold md5_args_at. rewrite <- Nat.add_1_l, Nat.Div0.add_mod.
    pose proof (Nat.mod_upper_bound t 4). by destruct (t mod 4)%nat as [|[|[|[|?]]]]; try lia. }
  unfold md5_view in *. unfold run_call, md5_step.
  destruct (md5_args_at t); rewrite Hargs; destruct Hok as (? & ? & ? & ?);
    by rewrite Hstep by done.
Qed.

Lemma md5_step_ok f X r e : md5_regs_ok r -> md5_regs_ok (md5_step f X r e).
Proof.
  destruct r as [[[a b] c] d], e as [[k s] i]. intros (? & ? & ? & ?).
  split_and!; [done| |done|done]. apply word_ok_wrap.
Qed.

Lemma run_calls_lockstep X a b c d n :
  md5_regs_ok (a, b, c, d) ->
  let v := fold_left (run_call X)
    ((fun t => let '(k, s, i) := entry_at t in (fun_at t, md5_args_at t, k, T i, s)) <$> seq 0 n)
    (mk_md5_vars a b c d) in
  md5_view n v =
    fold_left (fun r t => md5_step (rfc_fun (fun_at t)) X r (entry_at t)) (seq 0 n) (a, b, c, d) /\
  md5_regs_ok (md5_view n v).
Proof.
  intros Hregs. induction n as [|n IH]; [done|]. cbv zeta in *.
  destruct IH as [Hview Hok]. rewrite seq_S, fmap_app, !fold_left_app.
  cbn [Nat.add fmap list_fmap fold_left]. revert Hview Hok. set (v := fold_left _ _ _).
  intros Hview Hok. pose proof (run_call_view X n v Hok) as E. revert E.
  pose proof (md5_step_ok (rfc_fun (fun_at n)) X _ (entry_at n) Hok) as Hok'. revert Hok'.
  destruct (entry_at n) as [[k s] i]. intros Hok' E. by rewrite E, <- Hview.
Qed.

(** Steps that are those of RFC 1321 make its transform. *)
Lemma run_calls_rfc1321 r data :
  md5_regs_ok r -> run_calls rfc_calls (md5_words data) r = md5_process_ref r data.
Proof.
  intros Hr. destruct r as [[[a b] c] d]. unfold run_calls, rfc_calls.
  destruct (run_calls_lockstep (md5_words data) a b c d 64 Hr) as [E _]. revert E.
  destruct (fold_left (run_call _) _ _) as [a' b' c' d']. unfold md5_process_ref.
  set (X := md5_words data). change (md5_view 64 (mk_md5_vars a' b' c' d')) with (a', b', c', d').
  change (seq 0 64) with (seq (16 * 0) 16 ++ seq (16 * 1) 16 ++ seq (16 * 2) 16 ++ seq (16 * 3) 16).
  rewrite !fold_left_app, !round_of_steps. intros E.
  change (md5_round_ref md5_I 3 X (md5_round_ref md5_H 2 X (md5_round_ref md5_G 1 X
    (md5_round_ref md5_F 0 X (a, b, c, d))))) with
    (md5_round_ref (rfc_fun (fun_at (16 * 3))) 3 X (md5_round_ref (rfc_fun (fun_at (16 * 2))) 2 X
      (md5_round_ref (rfc_fun (fun_at (16 * 1))) 1 X
        (md5_round_ref (rfc_fun (fun_at (16 * 0))) 0 X (a, b, c, d))))).
  by rewrite <- E.
Qed.
End unrolled.

(** ** The code *)

Definition F1_def (x y z : Z) : Z := Z.lxor z (Z.land x (Z.lxor y z)).
Definition F2_def (x y z : Z) : Z := F1_def z x y.
Definition F3_def (x y z : Z) : Z := Z.lxor (Z.lxor x y) z.
Definition F4_def (x y z : Z) : Z := Z.lxor y (Z.lor x (not32 z)).

Definition md5_function (f : md5_fun) : Z -> Z -> Z -> Z :=
  match f with F1 => F1_def | F2 => F2_def | F3 => F3_def | F4 => F4_def end.

(** [w += f (x, y, z) + in, w = (w << s | w >> (32 - s)) + x], where [in] is
    a word of the block plus a constant. *)
Definition MD5STEP (f : md5_fun) (w x y z xk T s : Z) : Z :=
  let w := add32 w (add32 (md5_function f x y z) (add32 xk T)) in
  add32 (Z.lor (wrap 32 (Z.shiftl w s)) (Z.shiftr w (32 - s))) x.

Definition MD5Transform_calls : list md5_call := [
  (F1, abcd, 0%nat, 0xd76aa478, 7); (F1, dabc, 1%nat, 0xe8c7b756, 12);
  (F1, cdab, 2%nat, 0x242070db, 17); (F1, bcda, 3%nat, 0xc1bdceee, 22);
  (F1, abcd, 4%nat, 0xf57c0faf, 7); (F1, dabc, 5%nat, 0x4787c62a, 12);
  (F1, cdab, 6%nat, 0xa8304613, 17); (F1, bcda, 7%nat, 0xfd469501, 22);
  (F1, abcd, 8%nat, 0x698098d8, 7); (F1, dabc, 9%nat, 0x8b44f7af, 12);
  (F1, cdab, 10%nat, 0xffff5bb1, 17); (F1, bcda, 11%nat, 0x895cd7be, 22);
  (F1, abcd, 12%nat, 0x6b901122, 7); (F1, dabc, 13%nat, 0xfd987193, 12);
  (F1, cdab, 14%nat, 0xa679438e, 17); (F1, bcda, 15%nat, 0x49b40821, 22);
  (F2, abcd, 1%nat, 0xf61e2562, 5); (F2, dabc, 6%nat, 0xc040b340, 9);
  (F2, cdab, 11%nat, 0x265e5a51, 14); (F2, bcda, 0%nat, 0xe9b6c7aa, 20);
  (F2, abcd, 5%nat, 0xd62f105d, 5); (F2, dabc, 10%nat, 0x02441453, 9);
  (F2, cdab, 15%nat, 0xd8a1e681, 14); (F2, bcda, 4%nat, 0xe7d3fbc8, 20);
  (F2, abcd, 9%nat, 0x21e1cde6, 5); (F2, dabc, 14%nat, 0xc33707d6, 9);
  (F2, cdab, 3%nat, 0xf4d50d87, 14); (F2, bcda, 8%nat, 0x455a14ed, 20);
  (F2, abcd, 13%nat, 0xa9e3e905, 5); (F2, dabc, 2%nat, 0xfcefa3f8, 9);
  (F2, cdab, 7%nat, 0x676f02d9, 14); (F2, bcda, 12%nat, 0x8d2a4c8a, 20);
  (F3, abcd, 5%nat, 0xfffa3942, 4); (F3, dabc, 8%nat, 0x8771f681, 11);
  (F3, cdab, 11%nat, 0x6d9d6122, 16); (F3, bcda, 14%nat, 0xfde5380c, 23);
  (F3, abcd, 1%nat, 0xa4beea44, 4); (F3, dabc, 4%nat, 0x4bdecfa9, 11);
  (F3, cdab, 7%nat, 0xf6bb4b60, 16); (F3, bcda, 10%nat, 0xbebfbc70, 23);
  (F3, abcd, 13%nat, 0x289b7ec6, 4); (F3, dabc, 0%nat, 0xeaa127fa, 11);
  (F3, cdab, 3%nat, 0xd4ef3085, 16); (F3, bcda, 6%nat, 0x04881d05, 23);
  (F3, abcd, 9%nat, 0xd9d4d039, 4); (F3, dabc, 12%nat, 0xe6db99e5, 11);
  (F3, cdab, 15%nat, 0x1fa27cf8, 16); (F3, bcda, 2%nat, 0xc4ac5665, 23);
  (F4, abcd, 0%nat, 0xf4292244, 6); (F4, dabc, 7%nat, 0x432aff97, 10);
  (F4, cdab, 14%nat, 0xab9423a7, 15); (F4, bcda, 5%nat, 0xfc93a039, 21);
  (F4, abcd, 12%nat, 0x655b59c3, 6); (F4, dabc, 3%nat, 0x8f0ccc92, 10);
  (F4, cdab, 10%nat, 0xffeff47d, 15); (F4, bcda, 1%nat, 0x85845dd1, 21);
  (F4, abcd, 8%nat, 0x6fa87e4f, 6); (F4, dabc, 15%nat, 0xfe2ce6e0, 10);
  (F4, cdab, 6%nat, 0xa3014314, 15); (F4, bcda, 13%nat, 0x4e0811a1, 21);
  (F4, abcd, 4%nat, 0xf7537e82, 6); (F4, dabc, 11%nat, 0xbd3af235, 10);
  (F4, cdab, 2%nat, 0x2ad7d2bb, 15); (F4, bcda, 9%nat, 0xeb86d391, 21)
].

(** [in] is an array of words; its 64 bytes are the data read so far. *)
Definition MD5Transform (buf : md5_regs) (in_ : list Z) : md5_regs :=
  run_calls MD5STEP MD5Transform_calls (md5_words in_) buf.

Record MD5Context := mk_MD5Context {
  md5c_buf : md5_regs;
  md5c_bytes0 : Z;
  md5c_bytes1 : Z;
  md5c_in : list Z;  (* 64 bytes *)
}.

Definition MD5Init (garbage : list Z) : MD5Context :=
  mk_MD5Context (0x67452301, 0xefcdab89, 0x98badcfe, 0x10325476) 0 0 garbage.

(** [while (len >= 64)] and the copy of the remaining bytes. *)
Fixpoint MD5Update_loop (fuel : nat) (regs : md5_regs) (in_ p : list Z) : res (md5_regs * list Z) :=
  match fuel with
  | O => Err OutOfFuel
  | S fuel =>
    if 64 <=? Z.of_nat (length p) then
      in_ ← memcpy_in 0 (take 64 p) in_;
      MD5Update_loop fuel (MD5Transform regs in_) in_ (drop 64 p)
    else in_ ← memcpy_in 0 p in_; Ok (regs, in_)
  end.

Definition MD5Update (ctx : MD5Context) (buf : list Z) : res MD5Context :=
  let len := Z.of_nat (length buf) in
  let t := md5c_bytes0 ctx in
  let bytes0 := wrap 32 (t + len) in
  let bytes1 := if bytes0 <? t then wrap 32 (md5c_bytes1 ctx + 1) else md5c_bytes1 ctx in
  let t := 64 - Z.land t 0x3f in
  if len <? t then
    in_ ← memcpy_in (Z.to_nat (64 - t)) buf (md5c_in ctx);
    Ok (mk_MD5Context (md5c_buf ctx) bytes0 bytes1 in_)
  else
    first ← slice 0 (Z.to_nat t) buf;
    in_ ← memcpy_in (Z.to_nat (64 - t)) first (md5c_in ctx);
    '(regs, in_) ← MD5Update_loop (S (length buf / 64)) (MD5Transform (md5c_buf ctx) in_) in_
                     (drop (Z.to_nat t) buf);
    Ok (mk_MD5Context regs bytes0 bytes1 in_).

(** [memset (p, 0, n)] *)
Definition memset_in (p : Z) (n : Z) (in_ : list Z) : res (list Z) :=
  memcpy_in (Z.to_nat p) (repeat 0 (Z.to_nat n)) in_.

Definition MD5Final (ctx : MD5Context) : res (list Z) :=
  let count := Z.land (md5c_bytes0 ctx) 0x3f in
  in_ ← memcpy_in (Z.to_nat count) [0x80] (md5c_in ctx);
  let p := count + 1 in
  let count := 56 - 1 - count in
  '(buf, in_, p, count) ←
    if count <? 0 then
      in_ ← memset_in p (count + 8) in_;
      Ok (MD5Transform (md5c_buf ctx) in_, in_, 0, 56)
    else Ok (md5c_buf ctx, in_, p, count);
  in_ ← memset_in p count in_;
  let in14 := wrap 32 (Z.shiftl (md5c_bytes0 ctx) 3) in
  let in15 := Z.lor (wrap 32 (Z.shiftl (md5c_bytes1 ctx) 3)) (Z.shiftr (md5c_bytes0 ctx) 29) in
  in_ ← memcpy_in 56 (le_split 4 in14) in_;
  in_ ← memcpy_in 60 (le_split 4 in15) in_;
  Ok (md5_digest (MD5Transform buf in_)).

Example MD5_abc :
  (c ← MD5Update (MD5Init (repeat 7 64)) [97; 98; 99]; MD5Final c) = Ok (md5_spec [97; 98; 99]).
Proof. vm_compute. reflexivity. Qed.

(** ** The transform is that of RFC 1321 *)

Lemma MD5Transform_calls_rfc : MD5Transform_calls = rfc_calls.
Proof. vm_compute. reflexivity. Qed.

Lemma md5_function_rfc f x y z :
  word_ok x -> word_ok y -> word_ok z -> md5_function f x y z = rfc_fun f x y z.
Proof.
  intros Hx Hy Hz. destruct f; [| |done|done];
    apply Z.bits_inj'; intros i Hi;
    unfold md5_function, rfc_fun, F2_def, F1_def, md5_F, md5_G, not32, unot;
    rewrite ?Z.lxor_spec, ?Z.land_spec, ?Z.lor_spec, ?Z.land_spec, ?Z.lxor_spec;
    (destruct (decide (i < 32));
      [rewrite Z.ones_spec_low by lia
      |rewrite Z.ones_spec_high by lia; rewrite !word_bit_high by (done || lia)]);
    by repeat match goal with |- context [Z.testbit ?u ?j] => destruct (Z.testbit u j) end.
Qed.

Lemma add32_assoc x y z : add32 x (add32 y z) = add32 (add32 x y) z.
Proof. unfold add32, wrap. rewrite Zplus_mod_idemp_l, Zplus_mod_idemp_r. f_equal. lia. Qed.

Lemma MD5STEP_rfc f w x y z xk t s :
  word_ok w -> word_ok x -> word_ok y -> word_ok z ->
  MD5STEP f w x y z xk t s = SET (rfc_fun f) [xk] w x y z 0 s t.
Proof.
  intros Hw Hx Hy Hz. unfold MD5STEP, SET, ROTATE_LEFT. cbn [nth].
  by rewrite md5_function_rfc, !add32_assoc by done.
Qed.

Lemma MD5Transform_rfc r b : md5_regs_ok r -> MD5Transform r b = md5_process_ref r b.
Proof.
  intros Hr. unfold MD5Transform. rewrite MD5Transform_calls_rfc.
  apply run_calls_rfc1321; [apply MD5STEP_rfc|done].
Qed.

Lemma md5_process_ref_ok r b : md5_regs_ok (md5_process_ref r b).
Proof.
  unfold md5_process_ref. destruct r as [[[a0 b0] c0] d0].
  destruct (md5_round_ref md5_I 3 _ _) as [[[a b'] c] d]. split_and!; apply word_ok_wrap.
Qed.

(** ** Streaming *)

#[local] Opaque md5_process_ref MD5Transform.
#[local] Ltac Zify.zify_post_hook ::= Z.div_mod_to_equations.

Definition md5c_rep (c : MD5Context) (m : list Z) : Prop :=
  absorbed md5_process_ref md5_iv (md5c_buf c) (md5c_in c) m /\
  md5c_bytes0 c = Z.of_nat (length m) mod 2 ^ 32 /\
  md5c_bytes1 c = (Z.of_nat (length m) / 2 ^ 32) mod 2 ^ 32.

Lemma md5_iv_ok : md5_regs_ok md5_iv.
Proof. split_and!; done. Qed.

Lemma md5_blocks_ok n r m : md5_regs_ok r -> md5_regs_ok (blocks md5_process_ref n r m).
Proof.
  revert r m. induction n as [|n IH]; intros r m Hr; [done|].
  cbn [blocks]. apply IH, md5_process_ref_ok.
Qed.

Lemma absorbed_md5_regs r b m : absorbed md5_process_ref md5_iv r b m -> md5_regs_ok r.
Proof. intros (-> & _). apply md5_blocks_ok, md5_iv_ok. Qed.

Lemma MD5Init_rep g : length g = 64%nat -> md5c_rep (MD5Init g) [].
Proof. intros Hg. split; [by apply absorbed_nil|done]. Qed.

Lemma bytes_offset (len : nat) : Z.land (Z.of_nat len mod 2 ^ 32) 0x3f = Z.of_nat (len mod 64).
Proof.
  change 0x3f with (Z.ones 6). rewrite Z.land_ones by lia. change (2 ^ 6) with 64.
  rewrite Z.mod_mod_divide by (by exists (2 ^ 26)). by rewrite Nat2Z.inj_mod.
Qed.

Lemma bytes_add (len n : nat) :
  Z.of_nat n < 2 ^ 32 ->
  let t := Z.of_nat len mod 2 ^ 32 in
  let b1 := (Z.of_nat len / 2 ^ 32) mod 2 ^ 32 in
  let b0 := wrap 32 (t + Z.of_nat n) in
  b0 = Z.of_nat (len + n) mod 2 ^ 32 /\
  (if b0 <? t then wrap 32 (b1 + 1) else b1) = (Z.of_nat (len + n) / 2 ^ 32) mod 2 ^ 32.
Proof.
  intros Hn. cbv zeta. unfold wrap. change (2 ^ 32) with 4294967296 in *. split; [lia|].
  set (r := Z.of_nat len mod 4294967296). set (q := Z.of_nat len / 4294967296).
  assert (Z.of_nat len = q * 4294967296 + r) by lia.
  assert (0 <= r < 4294967296) by lia.
  replace (Z.of_nat (len + n)) with (r + Z.of_nat n + q * 4294967296) by lia.
  rewrite Z.div_add by lia.
  destruct (Z.ltb_spec ((r + Z.of_nat n) mod 4294967296) r).
  - replace ((r + Z.of_nat n) / 4294967296) with 1 by lia. rewrite Zplus_mod_idemp_l. f_equal. lia.
  - by replace ((r + Z.of_nat n) / 4294967296) with 0 by lia.
Qed.

Lemma blit_all src buf : length src = length buf -> blit 0 src buf = src.
Proof. intros H. unfold blit. rewrite Nat.add_0_l, H, drop_all, take_0. apply app_nil_r. Qed.

Lemma MD5Update_loop_blocks fuel r b p :
  md5_regs_ok r -> length b = 64%nat -> (length p / 64 < fuel)%nat ->
  exists b', MD5Update_loop fuel r b p = Ok (blocks md5_process_ref (length p / 64) r p, b') /\
    length b' = 64%nat /\ take (length p mod 64) b' = drop (64 * (length p / 64)) p.
Proof.
  revert r b p. induction fuel as [|fuel IH]; intros r b p Hr Hb Hfuel; [lia|].
  cbn [MD5Update_loop]. destruct (Z.leb_spec 64 (Z.of_nat (length p))).
  - rewrite memcpy_in_ok by (rewrite length_take; lia). cbn [mbind res_bind].
    rewrite blit_all by (rewrite length_take; lia). rewrite MD5Transform_rfc by done.
    destruct (IH (md5_process_ref r (take 64 p)) (take 64 p) (drop 64 p)) as (b' & -> & Hb' & Ht);
      [apply md5_process_ref_ok|rewrite length_take; lia|rewrite length_drop; lia|].
    exists b'. rewrite length_drop in *.
    replace (length p / 64)%nat with (S ((length p - 64) / 64)) by lia. cbn [blocks].
    split_and!; [done..|]. replace (length p mod 64)%nat with ((length p - 64) mod 64)%nat by lia.
    rewrite Ht, drop_drop. f_equal. lia.
  - rewrite memcpy_in_ok by lia. cbn [mbind res_bind]. eexists.
    replace (length p / 64)%nat with 0%nat by lia. split_and!; [done| |].
    + rewrite length_blit; lia.
    + replace (length p mod 64)%nat with (0 + length p)%nat by lia. by rewrite take_blit by lia.
Qed.

Lemma MD5Update_rep c m d :
  md5c_rep c m -> Z.of_nat (length d) < 2 ^ 32 ->
  exists c', MD5Update c d = Ok c' /\ md5c_rep c' (m ++ d).
Proof.
  intros (Habs & Hc0 & Hc1) Hlen. pose proof (absorbed_md5_regs _ _ _ Habs) as Hregs.
  pose proof Habs as (_ & Hbl & _). unfold MD5Update. rewrite Hc0, Hc1, bytes_offset.
  destruct (bytes_add (length m) (length d) Hlen) as [E0 E1].
  cbv zeta in E0, E1. rewrite E1, E0, <- length_app. clear E0 E1.
  set (off := (length m mod 64)%nat). assert (off < 64)%nat by lia.
  replace (64 - (64 - Z.of_nat off)) with (Z.of_nat off) by lia.
  replace (64 - Z.of_nat off) with (Z.of_nat (64 - off)) by lia. rewrite !Nat2Z.id.
  destruct (Z.ltb_spec (Z.of_nat (length d)) (Z.of_nat (64 - off))) as [Hpart|Hfill].
  - rewrite memcpy_in_ok by lia. eexists. split; [done|]. split; [|done].
    cbn [md5c_buf md5c_in]. apply absorbed_partial; [done..|lia].
  - rewrite slice_ok, drop_0 by lia. cbn [mbind res_bind].
    rewrite memcpy_in_ok by (rewrite length_take; lia). cbn [mbind res_bind].
    rewrite MD5Transform_rfc by done.
    destruct (MD5Update_loop_blocks (S (length d / 64))
      (md5_process_ref (md5c_buf c) (blit off (take (64 - off) d) (md5c_in c)))
      (blit off (take (64 - off) d) (md5c_in c)) (drop (64 - off) d)) as (b' & -> & Hb' & Ht).
    { apply md5_process_ref_ok. } { rewrite length_blit; rewrite ?length_take; lia. }
    { rewrite length_drop. lia. }
    eexists. split; [done|]. split; [|done]. cbn [md5c_buf md5c_in]. rewrite length_drop in *.
    eapply (absorbed_fill _ _ _ _ m d off); try done; try lia.
    replace (length d - (64 - off) - 64 * ((length d - (64 - off)) / 64))%nat
      with ((length d - (64 - off)) mod 64)%nat by lia. by rewrite Ht, drop_drop.
Qed.

Lemma blit_blit off a b buf :
  (off + length a <= length buf)%nat ->
  blit (off + length a) b (blit off a buf) = blit off (a ++ b) buf.
Proof.
  intros H. unfold blit at 1. rewrite take_blit by lia.
  unfold blit. rewrite (app_assoc (take off buf) a), drop_app, length_app, length_take.
  rewrite (drop_ge (take off buf ++ a)) by (rewrite length_app, length_take; lia).
  rewrite drop_drop, length_app, <- !app_assoc. cbn [app]. do 4 f_equal. lia.
Qed.

(** The bit count of RFC 1321 from the byte count of the context. *)
Lemma lor_shiftl_add a z n : 0 <= n -> 0 <= z < 2 ^ n -> Z.lor (Z.shiftl a n) z = Z.shiftl a n + z.
Proof.
  intros Hn Hz. assert (Z.land (Z.shiftl a n) z = 0) as E.
  { apply Z.bits_inj'. intros i Hi. rewrite Z.land_spec, Z.bits_0.
    destruct (decide (i < n)); [by rewrite Z.shiftl_spec_low|].
    rewrite <- (Z.mod_small z (2 ^ n)), Z.mod_pow2_bits_high by lia. apply andb_false_r. }
  rewrite (Z.add_nocarry_lxor _ _ E). symmetry. by apply Z.lxor_lor.
Qed.

Lemma in14_bits len : wrap 32 (Z.shiftl (Z.of_nat len mod 2 ^ 32) 3) = bits_lo len.
Proof.
  unfold wrap, bits_lo. rewrite Z.shiftl_mul_pow2 by lia. change (2 ^ 3) with 8.
  rewrite Zmult_mod_idemp_l. f_equal. lia.
Qed.

Lemma in15_bits len :
  Z.lor (wrap 32 (Z.shiftl ((Z.of_nat len / 2 ^ 32) mod 2 ^ 32) 3))
        (Z.shiftr (Z.of_nat len mod 2 ^ 32) 29) = bits_hi len.
Proof.
  unfold wrap, bits_hi. rewrite Z.shiftr_div_pow2 by lia.
  replace (Z.shiftl ((Z.of_nat len / 2 ^ 32) mod 2 ^ 32) 3 mod 2 ^ 32)
    with (Z.shiftl ((Z.of_nat len / 2 ^ 32) mod 2 ^ 29) 3).
  - rewrite lor_shiftl_add, Z.shiftl_mul_pow2;
      change (2 ^ 32) with 4294967296; change (2 ^ 29) with 536870912; change (2 ^ 3) with 8; lia.
  - rewrite !Z.shiftl_mul_pow2 by lia.
    change (2 ^ 32) with 4294967296; change (2 ^ 29) with 536870912; change (2 ^ 3) with 8; lia.
Qed.

(** The last one or two blocks. *)
Lemma absorbed_last r buf m d off :
  absorbed md5_process_ref md5_iv r buf m -> off = (length m mod 64)%nat ->
  length d = (64 - off)%nat ->
  md5_process_ref r (blit off d buf) = blocks md5_process_ref (length (m ++ d) / 64) md5_iv (m ++ d).
Proof.
  intros Habs -> Hd. pose proof Habs as (_ & Hl & _).
  destruct (absorbed_fill md5_process_ref md5_iv r buf m d (length m mod 64) 0
    (md5_process_ref r (blit (length m mod 64) d buf)) buf Habs eq_refl) as (-> & _);
    [lia|rewrite Hd, Nat.sub_diag; done|cbn [blocks]; by rewrite take_ge by lia|done| |done].
  rewrite Hd, Nat.sub_diag. by rewrite drop_ge by lia.
Qed.

Lemma absorbed_last_two r buf m d1 d2 off :
  absorbed md5_process_ref md5_iv r buf m -> off = (length m mod 64)%nat ->
  length d1 = (64 - off)%nat -> length d2 = 64%nat ->
  md5_process_ref (md5_process_ref r (blit off d1 buf)) d2 =
  blocks md5_process_ref (length (m ++ d1 ++ d2) / 64) md5_iv (m ++ d1 ++ d2).
Proof.
  intros Habs Hoff H1 H2. rewrite (absorbed_last r buf m d1 off Habs Hoff H1).
  rewrite app_assoc. set (m1 := m ++ d1).
  assert (length m1 = 64 * (length m / 64 + 1))%nat as Hm1
    by (subst m1; rewrite length_app; lia).
  replace (length (m1 ++ d2) / 64)%nat with (length m1 / 64 + 1)%nat
    by (rewrite length_app; lia).
  rewrite blocks_add, blocks_app, drop_app_exact by lia. cbn [blocks]. by rewrite take_ge by lia.
Qed.

(** The bytes that [MD5Final] stores for the length. *)
Definition final_length (c : MD5Context) : list Z :=
  le_split 4 (wrap 32 (Z.shiftl (md5c_bytes0 c) 3)) ++
  le_split 4 (Z.lor (wrap 32 (Z.shiftl (md5c_bytes1 c) 3)) (Z.shiftr (md5c_bytes0 c) 29)).

Section final.
Context (c : MD5Context) (off : nat) (Hin : length (md5c_in c) = 64%nat).
Context (Hregs : md5_regs_ok (md5c_buf c)) (Hoff : Z.land (md5c_bytes0 c) 0x3f = Z.of_nat off).

Lemma MD5Final_one :
  (off <= 55)%nat ->
  MD5Final c = Ok (md5_digest (md5_process_ref (md5c_buf c)
    (blit off (0x80 :: repeat 0 (55 - off) ++ final_length c) (md5c_in c)))).
Proof.
  intros H. unfold MD5Final, memset_in, final_length. rewrite Hoff.
  set (lo := le_split 4 (wrap 32 _)). set (hi := le_split 4 (Z.lor _ _)).
  assert (length lo = 4%nat /\ length hi = 4%nat) as [Hll Hlh] by (split; apply length_le_split).
  rewrite Nat2Z.id, memcpy_in_ok by (cbn [length]; lia). cbn [mbind res_bind].
  rewrite (proj2 (Z.ltb_ge _ 0)) by lia. cbn [mbind res_bind].
  replace (Z.to_nat (Z.of_nat off + 1)) with (off + length [0x80%Z])%nat by (cbn [length]; lia).
  replace (Z.to_nat (56 - 1 - Z.of_nat off)) with (55 - off)%nat by lia.
  rewrite memcpy_in_ok by (rewrite length_blit, repeat_length; cbn [length]; lia).
  rewrite blit_blit by (cbn [length]; lia). cbn [mbind res_bind app].
  set (d1 := 0x80 :: repeat 0 (55 - off)). assert (length d1 = 56 - off)%nat as Hd1
    by (subst d1; cbn [length]; rewrite repeat_length; lia).
  replace 60%nat with (off + length (d1 ++ lo))%nat by (rewrite length_app; lia).
  replace 56%nat with (off + length d1)%nat by lia.
  rewrite memcpy_in_ok, blit_blit by (rewrite ?length_blit; lia). cbn [mbind res_bind].
  rewrite memcpy_in_ok, blit_blit by (rewrite ?length_blit; rewrite ?length_app; lia).
  cbn [mbind res_bind]. rewrite MD5Transform_rfc by done. subst d1. cbn [app].
  by rewrite <- app_assoc.
Qed.

Lemma MD5Final_two :
  (55 < off < 64)%nat ->
  MD5Final c = Ok (md5_digest (md5_process_ref
    (md5_process_ref (md5c_buf c) (blit off (0x80 :: repeat 0 (63 - off)) (md5c_in c)))
    (repeat 0 56 ++ final_length c))).
Proof.
  intros H. unfold MD5Final, memset_in, final_length. rewrite Hoff.
  set (lo := le_split 4 (wrap 32 _)). set (hi := le_split 4 (Z.lor _ _)).
  assert (length lo = 4%nat /\ length hi = 4%nat) as [Hll Hlh] by (split; apply length_le_split).
  rewrite Nat2Z.id, memcpy_in_ok by (cbn [length]; lia). cbn [mbind res_bind].
  rewrite (proj2 (Z.ltb_lt _ 0)) by lia. cbn [mbind res_bind].
  replace (Z.to_nat (Z.of_nat off + 1)) with (off + length [0x80%Z])%nat by (cbn [length]; lia).
  replace (Z.to_nat (56 - 1 - Z.of_nat off + 8)) with (63 - off)%nat by lia.
  rewrite memcpy_in_ok by (rewrite length_blit, repeat_length; cbn [length]; lia).
  rewrite blit_blit by (cbn [length]; lia). cbn [mbind res_bind app].
  set (d1 := 0x80 :: repeat 0 (63 - off)). assert (length d1 = 64 - off)%nat as Hd1
    by (subst d1; cbn [length]; rewrite repeat_length; lia).
  change (Z.to_nat 0) with 0%nat. change (Z.to_nat 56) with 56%nat.
  assert (length (blit off d1 (md5c_in c)) = 64%nat) as Hb1 by (rewrite length_blit; lia).
  rewrite MD5Transform_rfc by done. set (z := repeat 0 56).
  assert (length z = 56%nat) as Hz by apply repeat_length.
  rewrite memcpy_in_ok by lia. cbn [mbind res_bind].
  replace 60%nat with (0 + length (z ++ lo))%nat by (rewrite length_app; lia).
  replace 56%nat with (0 + length z)%nat at 1 by lia.
  rewrite memcpy_in_ok, blit_blit by (rewrite ?length_blit; lia). cbn [mbind res_bind].
  rewrite memcpy_in_ok, blit_blit by (rewrite ?length_blit; rewrite ?length_app; lia).
  cbn [mbind res_bind]. rewrite MD5Transform_rfc by apply md5_process_ref_ok.
  rewrite blit_all by (rewrite !length_app; lia). by rewrite <- app_assoc.
Qed.
End final.

Lemma final_length_spec c m : md5c_rep c m -> final_length c = le_split 8 (8 * Z.of_nat (length m)).
Proof.
  intros (_ & Hc0 & Hc1). unfold final_length. rewrite Hc0, Hc1, in14_bits, in15_bits.
  apply md5_length_bytes.
Qed.

(** The digest, with the iteration over the blocks that the streaming
    lemmas use. *)
Lemma md5_spec_blocks m :
  let p := m ++ md5_padding (length m) in
  md5_spec m = md5_digest (blocks md5_process_ref (length p / 64) md5_iv p).
Proof.
  reflexivity.
Qed.

Lemma MD5Final_rep c m : md5c_rep c m -> MD5Final c = Ok (md5_spec m).
Proof.
  intros Hrep. pose proof (final_length_spec c m Hrep) as Hfl. destruct Hrep as (Habs & Hc0 & Hc1).
  pose proof (absorbed_md5_regs _ _ _ Habs) as Hregs. pose proof Habs as (_ & Hbl & _).
  assert (Z.land (md5c_bytes0 c) 0x3f = Z.of_nat (length m mod 64)) as Hoff
    by (rewrite Hc0; apply bytes_offset).
  rewrite md5_spec_blocks. set (off := (length m mod 64)%nat) in *.
  destruct (decide (off <= 55)%nat).
  - rewrite (MD5Final_one c off) by done. rewrite Hfl.
    rewrite (absorbed_last _ _ m _ off Habs eq_refl)
      by (cbn [length]; rewrite length_app, repeat_length, length_le_split; lia).
    unfold md5_padding. do 2 f_equal.
    by replace (Z.to_nat ((55 - Z.of_nat (length m)) mod 64)) with (55 - off)%nat by lia.
  - rewrite (MD5Final_two c off) by (done || lia). rewrite Hfl.
    rewrite (absorbed_last_two _ _ m _ _ off Habs eq_refl)
      by (cbn [length]; rewrite ?length_app, ?repeat_length, ?length_le_split; lia).
    unfold md5_padding. cbn [app]. rewrite app_assoc, <- repeat_app.
    by replace (63 - off + 56)%nat with (Z.to_nat ((55 - Z.of_nat (length m)) mod 64)) by lia.
Qed.

(** One update, as the callers do it. *)
Definition MD5 (g d : list Z) : res (list Z) := c ← MD5Update (MD5Init g) d; MD5Final c.

Fixpoint MD5Updates (c : MD5Context) (ds : list (list Z)) : res MD5Context :=
  match ds with
  | [] => Ok c
  | d :: ds => c ← MD5Update c d; MD5Updates c ds
  end.

Lemma MD5Updates_rep c m ds :
  md5c_rep c m -> Forall (fun d => Z.of_nat (length d) < 2 ^ 32) ds ->
  exists c', MD5Updates c ds = Ok c' /\ md5c_rep c' (m ++ mjoin ds).
Proof.
  intros Hrep Hds. revert c m Hrep.
  induction Hds as [|d ds Hl _ IH]; intros c m Hrep; cbn [MD5Updates].
  - exists c. cbn. by rewrite app_nil_r.
  - destruct (MD5Update_rep c m d Hrep Hl) as (c1 & -> & Hrep1). cbn [mbind res_bind].
    destruct (IH c1 _ Hrep1) as (c2 & -> & Hrep2). exists c2. by rewrite join_cons, app_assoc.
Qed.

Lemma MD5_correct g d :
  length g = 64%nat -> Z.of_nat (length d) < 2 ^ 32 -> MD5 g d = Ok (md5_spec d).
Proof.
  intros Hg Hl. unfold MD5.
  destruct (MD5Update_rep _ _ d (MD5Init_rep g Hg) Hl) as (c & -> & Hrep).
  exact (MD5Final_rep c _ Hrep).
Qed.

(** MD5 of the SixXS client is MD5: however the input is cut into updates,
    the calls stay within the context and terminate, and the result is the
    digest of RFC 1321 that [Md5.md5_streaming_correct] states for the
    Teredo implementation. *)
Theorem aiccu_md5_correct (g : list Z) (ds : list (list Z))
    (Hg : length g = 64%nat) (Hds : Forall (fun d => Z.of_nat (length d) < 2 ^ 32) ds) :
  (c ← MD5Updates (MD5Init g) ds; MD5Final c) = Ok (md5_spec (mjoin ds)).
Proof.
  destruct (MD5Updates_rep _ _ ds (MD5Init_rep g Hg) Hds) as (c & -> & Hrep).
  exact (MD5Final_rep c _ Hrep).
Qed.

Lemma aiccu_md5_correct_witness :
  (c ← MD5Updates (MD5Init (repeat 165 64)) [[97]; repeat 98 70; [99]]; MD5Final c)
  = Ok (md5_spec (97 :: repeat 98 70 ++ [99])).
Proof.
  rewrite aiccu_md5_correct; [reflexivity|reflexivity|].
  repeat (apply list.Forall_cons; split; [reflexivity|]). by apply list.Forall_nil.
Defined.
