(* ===== verification/TspMd5.v ===== *)
(** * MD5 of the TSP client ([gogoc-tsp/src/lib/md5c.c])

The RSA reference implementation, used by the DIGEST-MD5 authentication of
[gogoc].  The same digest as [Md5] and [AiccuMd5] is proved of it. *)

From Stdlib Require Import ZifyNat.
From stdpp Require Import base gmap list numbers.
From S2P Require Import Prelude Words HashStream Md5 Sha1 AiccuMd5.

(** ** The code *)

(** The macros [FF], [GG], [HH] and [II] differ by their function. *)
Notation FF := AiccuMd5.F1.
Notation GG := AiccuMd5.F2.
Notation HH := AiccuMd5.F3.
Notation II := AiccuMd5.F4.

Definition tsp_function (f : md5_fun) (x y z : Z) : Z :=
  match f with
  | FF => Z.lor (Z.land x y) (Z.land (not32 x) z)
  | GG => Z.lor (Z.land x z) (Z.land y (not32 z))
  | HH => Z.lxor (Z.lxor x y) z
  | II => Z.lxor y (Z.lor x (not32 z))
  end.

(** [a += F (b, c, d) + x + ac; a = ROTATE_LEFT (a, s); a += b] *)
Definition tsp_step (f : md5_fun) (a b c d x ac s : Z) : Z :=
  let a := add32 a (add32 (add32 (tsp_function f b c d) x) ac) in
  let a := Z.lor (wrap 32 (Z.shiftl a s)) (Z.shiftr a (32 - s)) in
  add32 a b.

Definition S11 : Z := 7.
Definition S12 : Z := 12.
Definition S13 : Z := 17.
Definition S14 : Z := 22.
Definition S21 : Z := 5.
Definition S22 : Z := 9.
Definition S23 : Z := 14.
Definition S24 : Z := 20.
Definition S31 : Z := 4.
Definition S32 : Z := 11.
Definition S33 : Z := 16.
Definition S34 : Z := 23.
Definition S41 : Z := 6.
Definition S42 : Z := 10.
Definition S43 : Z := 15.
Definition S44 : Z := 21.

Definition tsp_calls : list md5_call := [
  (FF, abcd, 0%nat, 0xd76aa478, S11); (FF, dabc, 1%nat, 0xe8c7b756, S12);
  (FF, cdab, 2%nat, 0x242070db, S13); (FF, bcda, 3%nat, 0xc1bdceee, S14);
  (FF, abcd, 4%nat, 0xf57c0faf, S11); (FF, dabc, 5%nat, 0x4787c62a, S12);
  (FF, cdab, 6%nat, 0xa8304613, S13); (FF, bcda, 7%nat, 0xfd469501, S14);
  (FF, abcd, 8%nat, 0x698098d8, S11); (FF, dabc, 9%nat, 0x8b44f7af, S12);
  (FF, cdab, 10%nat, 0xffff5bb1, S13); (FF, bcda, 11%nat, 0x895cd7be, S14);
  (FF, abcd, 12%nat, 0x6b901122, S11); (FF, dabc, 13%nat, 0xfd987193, S12);
  (FF, cdab, 14%nat, 0xa679438e, S13); (FF, bcda, 15%nat, 0x49b40821, S14);
  (GG, abcd, 1%nat, 0xf61e2562, S21); (GG, dabc, 6%nat, 0xc040b340, S22);
  (GG, cdab, 11%nat, 0x265e5a51, S23); (GG, bcda, 0%nat, 0xe9b6c7aa, S24);
  (GG, abcd, 5%nat, 0xd62f105d, S21); (GG, dabc, 10%nat, 0x2441453, S22);
  (GG, cdab, 15%nat, 0xd8a1e681, S23); (GG, bcda, 4%nat, 0xe7d3fbc8, S24);
  (GG, abcd, 9%nat, 0x21e1cde6, S21); (GG, dabc, 14%nat, 0xc33707d6, S22);
  (GG, cdab, 3%nat, 0xf4d50d87, S23); (GG, bcda, 8%nat, 0x455a14ed, S24);
  (GG, abcd, 13%nat, 0xa9e3e905, S21); (GG, dabc, 2%nat, 0xfcefa3f8, S22);
  (GG, cdab, 7%nat, 0x676f02d9, S23); (GG, bcda, 12%nat, 0x8d2a4c8a, S24);
  (HH, abcd, 5%nat, 0xfffa3942, S31); (HH, dabc, 8%nat, 0x8771f681, S32);
  (HH, cdab, 11%nat, 0x6d9d6122, S33); (HH, bcda, 14%nat, 0xfde5380c, S34);
  (HH, abcd, 1%nat, 0xa4beea44, S31); (HH, dabc, 4%nat, 0x4bdecfa9, S32);
  (HH, cdab, 7%nat, 0xf6bb4b60, S33); (HH, bcda, 10%nat, 0xbebfbc70, S34);
  (HH, abcd, 13%nat, 0x289b7ec6, S31); (HH, dabc, 0%nat, 0xeaa127fa, S32);
  (HH, cdab, 3%nat, 0xd4ef3085, S33); (HH, bcda, 6%nat, 0x4881d05, S34);
  (HH, abcd, 9%nat, 0xd9d4d039, S31); (HH, dabc, 12%nat, 0xe6db99e5, S32);
  (HH, cdab, 15%nat, 0x1fa27cf8, S33); (HH, bcda, 2%nat, 0xc4ac5665, S34);
  (II, abcd, 0%nat, 0xf4292244, S41); (II, dabc, 7%nat, 0x432aff97, S42);
  (II, cdab, 14%nat, 0xab9423a7, S43); (II, bcda, 5%nat, 0xfc93a039, S44);
  (II, abcd, 12%nat, 0x655b59c3, S41); (II, dabc, 3%nat, 0x8f0ccc92, S42);
  (II, cdab, 10%nat, 0xffeff47d, S43); (II, bcda, 1%nat, 0x85845dd1, S44);
  (II, abcd, 8%nat, 0x6fa87e4f, S41); (II, dabc, 15%nat, 0xfe2ce6e0, S42);
  (II, cdab, 6%nat, 0xa3014314, S43); (II, bcda, 13%nat, 0x4e0811a1, S44);
  (II, abcd, 4%nat, 0xf7537e82, S41); (II, dabc, 11%nat, 0xbd3af235, S42);
  (II, cdab, 2%nat, 0x2ad7d2bb, S43); (II, bcda, 9%nat, 0xeb86d391, S44)
].

(** [Decode] reads the words of the block least significant byte first. *)
Definition Decode (block : list Z) : list Z :=
  (fun i => let b k := nth (4 * i + k) block 0 in
            Z.lor (Z.lor (Z.lor (b 0%nat) (Z.shiftl (b 1%nat) 8)) (Z.shiftl (b 2%nat) 16))
                  (Z.shiftl (b 3%nat) 24)) <$> seq 0 16.

(** [Encode] of a list of words. *)
Definition Encode (input : list Z) : list Z :=
  input ≫= fun w => [Z.land w 0xff; Z.land (Z.shiftr w 8) 0xff;
                     Z.land (Z.shiftr w 16) 0xff; Z.land (Z.shiftr w 24) 0xff].

Definition tsp_MD5Transform (state : md5_regs) (block : list Z) : md5_regs :=
  run_calls tsp_step tsp_calls (Decode block) state.

Record MD5_CTX := mk_MD5_CTX {
  tsp_state : md5_regs;
  tsp_count0 : Z;
  tsp_count1 : Z;
  tsp_buffer : list Z;  (* 64 bytes *)
}.

Definition tsp_MD5Init (garbage : list Z) : MD5_CTX :=
  mk_MD5_CTX (0x67452301, 0xefcdab89, 0x98badcfe, 0x10325476) 0 0 garbage.

(** [for (i = partLen; i + 63 < inputLen; i += 64)] on [unsigned int]s *)
Fixpoint tsp_loop (fuel : nat) (i len : Z) (input : list Z) (state : md5_regs) : res (md5_regs * Z) :=
  match fuel with
  | O => Err OutOfFuel
  | S fuel =>
    if wrap 32 (i + 63) <? len
    then b ← slice (Z.to_nat i) 64 input;
         tsp_loop fuel (wrap 32 (i + 64)) len input (tsp_MD5Transform state b)
    else Ok (state, i)
  end.

Definition tsp_MD5Update (context : MD5_CTX) (input : list Z) : res MD5_CTX :=
  let inputLen := Z.of_nat (length input) in
  let index := Z.land (Z.shiftr (tsp_count0 context) 3) 0x3F in
  let nbits := wrap 32 (Z.shiftl inputLen 3) in
  let c0 := wrap 32 (tsp_count0 context + nbits) in
  let c1 := if c0 <? nbits then wrap 32 (tsp_count1 context + 1) else tsp_count1 context in
  let c1 := wrap 32 (c1 + Z.shiftr inputLen 29) in
  let partLen := 64 - index in
  '(state, buf, i, index) ←
    if partLen <=? inputLen then
      first ← slice 0 (Z.to_nat partLen) input;
      buf ← memcpy_in (Z.to_nat index) first (tsp_buffer context);
      '(state, i) ← tsp_loop (S (length input / 64)) partLen inputLen input
                      (tsp_MD5Transform (tsp_state context) buf);
      Ok (state, buf, i, 0)
    else Ok (tsp_state context, tsp_buffer context, 0, index);
  rest ← slice (Z.to_nat i) (Z.to_nat (inputLen - i)) input;
  buf ← memcpy_in (Z.to_nat index) rest buf;
  Ok (mk_MD5_CTX state c0 c1 buf).

Definition PADDING : list Z := 0x80 :: repeat 0 63.

Definition MD5Pad (context : MD5_CTX) : res MD5_CTX :=
  let bits := Encode [tsp_count0 context; tsp_count1 context] in
  let index := Z.land (Z.shiftr (tsp_count0 context) 3) 0x3f in
  let padLen := if index <? 56 then 56 - index else 120 - index in
  pad ← slice 0 (Z.to_nat padLen) PADDING;
  context ← tsp_MD5Update context pad;
  tsp_MD5Update context bits.

Definition tsp_MD5Final (context : MD5_CTX) : res (list Z) :=
  context ← MD5Pad context;
  let '(a, b, c, d) := tsp_state context in
  Ok (Encode [a; b; c; d]).

Definition md5digest (g string : list Z) : res (list Z) :=
  context ← tsp_MD5Update (tsp_MD5Init g) string; tsp_MD5Final context.

Example tsp_md5_abc : md5digest (repeat 7 64) [97; 98; 99] = Ok (md5_spec [97; 98; 99]).
Proof. vm_compute. reflexivity. Qed.

(** ** Correctness *)

#[local] Ltac Zify.zify_post_hook ::= Z.div_mod_to_equations.

Lemma tsp_calls_rfc : tsp_calls = rfc_calls.
Proof. vm_compute. reflexivity. Qed.

Lemma tsp_step_rfc f w x y z xk t s :
  word_ok w -> word_ok x -> word_ok y -> word_ok z ->
  tsp_step f w x y z xk t s = SET (rfc_fun f) [xk] w x y z 0 s t.
Proof.
  intros _ _ _ _. unfold tsp_step, SET, ROTATE_LEFT. cbn [nth].
  rewrite !add32_assoc. by destruct f.
Qed.

(** Bytes of a word, one at a time. *)
Lemma Decode_word b0 b1 b2 b3 :
  bytes_ok [b0; b1; b2; b3] ->
  Z.lor (Z.lor (Z.lor b0 (Z.shiftl b1 8)) (Z.shiftl b2 16)) (Z.shiftl b3 24) = le_load [b0; b1; b2; b3].
Proof.
  rewrite !bytes_ok_cons. unfold byte_ok. intros (H0 & H1 & H2 & H3 & _).
  rewrite (Z.lor_comm b0), (Z.lor_comm (Z.lor _ _) (Z.shiftl b2 16)), (Z.lor_comm _ (Z.shiftl b3 24)).
  rewrite (lor_shiftl_add b1 b0 8) by lia. rewrite !Z.shiftl_mul_pow2 by lia.
  change (2 ^ 8) with 256. change (2 ^ 16) with 65536. change (2 ^ 24) with 16777216.
  change 65536 with (2 ^ 16) at 1. rewrite <- Z.shiftl_mul_pow2, lor_shiftl_add by lia.
  change 16777216 with (2 ^ 24). rewrite <- (Z.shiftl_mul_pow2 b3), lor_shiftl_add
    by (rewrite ?Z.shiftl_mul_pow2; lia).
  rewrite !Z.shiftl_mul_pow2 by lia. unfold le_load. lia.
Qed.

Lemma Decode_words block : bytes_ok block -> length block = 64%nat -> Decode block = md5_words block.
Proof.
  intros Hb Hl. unfold Decode, md5_words. apply list_fmap_ext. intros i j [-> Hi]%lookup_seq. cbn [Nat.add] in *.
  rewrite !nth_lookup.
  assert (forall k, (k < 4)%nat -> block !! (4 * i + k)%nat = take 4 (drop (4 * i) block) !! k) as E.
  { intros k Hk. by rewrite lookup_take_lt, lookup_drop by lia. }
  rewrite !E by lia. pose proof (Forall_take_drop _ _ (4 * i) 4 Hb) as Hok.
  assert (length (take 4 (drop (4 * i) block)) = 4%nat) as H4 by (rewrite take_drop_length; lia).
  destruct (take 4 _) as [|b0 [|b1 [|b2 [|b3 [|? ?]]]]]; try discriminate.
  cbn. by apply Decode_word.
Qed.

Lemma Encode_word w :
  [Z.land w 0xff; Z.land (Z.shiftr w 8) 0xff; Z.land (Z.shiftr w 16) 0xff;
   Z.land (Z.shiftr w 24) 0xff] = le_split 4 w.
Proof.
  change 0xff with (Z.ones 8). rewrite !Z.land_ones, !Z.shiftr_div_pow2 by lia.
  unfold le_split. rewrite !Z.div_div by lia. done.
Qed.

Lemma tsp_Transform_rfc r b :
  md5_regs_ok r -> bytes_ok b -> length b = 64%nat -> tsp_MD5Transform r b = md5_process_ref r b.
Proof.
  intros Hr Hb Hl. unfold tsp_MD5Transform. rewrite tsp_calls_rfc, Decode_words by done.
  apply run_calls_rfc1321; [apply tsp_step_rfc|done].
Qed.

(** ** Streaming *)

#[local] Opaque md5_process_ref tsp_MD5Transform.

Definition tsp_rep (c : MD5_CTX) (m : list Z) : Prop :=
  absorbed md5_process_ref md5_iv (tsp_state c) (tsp_buffer c) m /\
  tsp_count0 c = bits_lo (length m) /\ tsp_count1 c = bits_hi (length m) /\ bytes_ok m.

Lemma tsp_MD5Init_rep g : length g = 64%nat -> tsp_rep (tsp_MD5Init g) [].
Proof. intros Hg. split; [by apply absorbed_nil|]. split_and!; [done..|constructor]. Qed.

Lemma tsp_loop_blocks fuel (i : nat) d r :
  md5_regs_ok r -> bytes_ok d -> (i <= length d)%nat -> Z.of_nat (length d) < 2 ^ 32 - 64 ->
  ((length d - i) / 64 < fuel)%nat ->
  let n := ((length d - i) / 64)%nat in
  tsp_loop fuel (Z.of_nat i) (Z.of_nat (length d)) d r =
  Ok (blocks md5_process_ref n r (drop i d), Z.of_nat (i + 64 * n)).
Proof.
  intros Hr Hd Hi Hlen Hfuel n. subst n. revert i r Hr Hi Hfuel.
  induction fuel as [|fuel IH]; intros i r Hr Hi Hfuel; [lia|]. cbn [tsp_loop].
  unfold wrap. rewrite !Z.mod_small by lia.
  destruct (Z.ltb_spec (Z.of_nat i + 63) (Z.of_nat (length d))) as [Hlt|Hge].
  - rewrite Nat2Z.id, slice_ok by lia. cbn [mbind res_bind].
    rewrite tsp_Transform_rfc by (try apply Forall_take_drop; try apply take_drop_length; done || lia).
    change 64 with (Z.of_nat 64) at 1. rewrite <- Nat2Z.inj_add.
    rewrite IH by (try apply md5_process_ref_ok; lia).
    replace ((length d - i) / 64)%nat with (S ((length d - (i + 64)) / 64)) by lia.
    cbn [blocks]. rewrite drop_drop. do 2 f_equal. lia.
  - replace ((length d - i) / 64)%nat with 0%nat by lia. cbn [blocks]. do 2 f_equal. lia.
Qed.

Lemma tsp_MD5Update_rep c m d :
  tsp_rep c m -> bytes_ok d -> Z.of_nat (length d) < 2 ^ 32 - 64 ->
  exists c', tsp_MD5Update c d = Ok c' /\ tsp_rep c' (m ++ d).
Proof.
  intros (Habs & Hc0 & Hc1 & Hm) Hd Hlen. pose proof (absorbed_md5_regs _ _ _ Habs) as Hregs.
  pose proof Habs as (_ & Hbl & Hbuf).
  unfold tsp_MD5Update. rewrite Hc0, Hc1. change 0x3F with 63. rewrite bits_offset.
  destruct (bits_add (length m) (length d) ltac:(lia)) as [E0 E1].
  cbv zeta in E0, E1. rewrite E1, E0, <- length_app. clear E0 E1.
  set (off := (length m mod 64)%nat) in *. assert (off < 64)%nat by lia.
  replace (64 - Z.of_nat off) with (Z.of_nat (64 - off)) by lia. rewrite !Nat2Z.id.
  destruct (Z.leb_spec (Z.of_nat (64 - off)) (Z.of_nat (length d))) as [Hfill|Hpart].
  - rewrite slice_ok, drop_0 by lia. cbn [mbind res_bind].
    rewrite memcpy_in_ok by (rewrite length_take; lia). cbn [mbind res_bind].
    set (blk := blit off (take (64 - off) d) (tsp_buffer c)).
    assert (length blk = 64%nat) as Hbk by (subst blk; rewrite length_blit; rewrite ?length_take; lia).
    assert (bytes_ok blk).
    { subst blk. unfold blit. rewrite Hbuf, length_take, (drop_ge (tsp_buffer c)) by lia.
      rewrite !bytes_ok_app. split_and!; [by apply Forall_drop|by apply Forall_take|constructor]. }
    rewrite tsp_Transform_rfc by done.
    rewrite tsp_loop_blocks by (try apply md5_process_ref_ok; done || lia).
    cbn [mbind res_bind]. set (n := ((length d - (64 - off)) / 64)%nat).
    assert (64 * n <= length d - (64 - off) < 64 * n + 64)%nat as Hn by (subst n; lia).
    rewrite Nat2Z.id, slice_ok by lia. cbn [mbind res_bind].
    rewrite memcpy_in_ok by (rewrite length_take, length_drop; lia). cbn [mbind res_bind].
    eexists. split; [done|].
    split; [|split; [done|split; [done|by apply bytes_ok_app]]]. cbn [tsp_state tsp_buffer].
    rewrite (take_ge (drop (64 - off + 64 * n) d)) by (rewrite length_drop; lia).
    eapply (absorbed_fill _ _ _ _ m d off n); try done; try lia.
    + rewrite length_blit; [done|]. change (Z.to_nat 0) with 0%nat. rewrite length_drop. lia.
    + change (Z.to_nat 0) with 0%nat.
      replace (length d - (64 - off) - 64 * n)%nat
        with (0 + length (drop (64 - off + 64 * n) d))%nat by (rewrite length_drop; lia).
      by rewrite take_blit by lia.
  - cbn [mbind res_bind]. change (Z.to_nat 0) with 0%nat. rewrite slice_ok by lia. cbn [mbind res_bind].
    rewrite Nat2Z.id, drop_0, take_ge by lia. rewrite memcpy_in_ok by lia. cbn [mbind res_bind].
    eexists. split; [done|].
    split; [|split; [done|split; [done|by apply bytes_ok_app]]]. cbn [tsp_state tsp_buffer].
    apply absorbed_partial; [done..|lia].
Qed.

Lemma Encode_words ws : Encode ws = ws ≫= le_split 4.
Proof. unfold Encode. apply list_bind_ext; [|done]. apply Encode_word. Qed.

Lemma Encode_count len : Encode [bits_lo len; bits_hi len] = le_split 8 (8 * Z.of_nat len).
Proof. rewrite Encode_words. cbn [mbind list_bind]. rewrite app_nil_r. apply md5_length_bytes. Qed.

Lemma tsp_MD5Final_rep c m : tsp_rep c m -> tsp_MD5Final c = Ok (md5_spec m).
Proof.
  intros Hrep. pose proof Hrep as (_ & Hc0 & Hc1 & _). unfold tsp_MD5Final, MD5Pad.
  rewrite Hc0, Hc1, Encode_count. change 0x3f with 63. rewrite bits_offset.
  set (k := Z.to_nat ((55 - Z.of_nat (length m)) mod 64)).
  assert (Z.to_nat (if Z.of_nat (length m mod 64) <? 56 then 56 - Z.of_nat (length m mod 64)
                    else 120 - Z.of_nat (length m mod 64)) = S k) as ->
    by (subst k; destruct (Z.ltb_spec (Z.of_nat (length m mod 64)) 56); lia).
  assert (k <= 63)%nat by lia.
  rewrite slice_ok by (cbn [Nat.add]; change (length PADDING) with 64%nat; lia).
  cbn [mbind res_bind]. change PADDING with md5_pad. rewrite drop_0, take_md5_pad by done.
  destruct (tsp_MD5Update_rep c m (0x80 :: repeat 0 k) Hrep) as (c1 & -> & Hrep1).
  { constructor; [done|]. by apply bytes_ok_repeat. }
  { cbn [length]. rewrite repeat_length. lia. }
  cbn [mbind res_bind].
  destruct (tsp_MD5Update_rep c1 _ (le_split 8 (8 * Z.of_nat (length m))) Hrep1) as (c2 & -> & Hrep2);
    [apply le_split_bytes|by rewrite length_le_split|].
  cbn [mbind res_bind]. destruct Hrep2 as ((Hst & _) & _).
  assert (forall r : md5_regs, (let '(a, b, c, d) := r in Ok (Encode [a; b; c; d])) = Ok (md5_digest r)) as ->.
  { intros [[[a b] c'] d]. rewrite Encode_words. cbn [mbind list_bind]. by rewrite app_nil_r. }
  rewrite Hst, md5_spec_blocks. unfold md5_padding. fold k. by rewrite <- app_assoc.
Qed.

(** The digest of the TSP client is MD5, and none of its calls leaves its
    buffers. *)
Theorem tsp_md5digest_correct (g m : list Z)
    (Hg : length g = 64%nat) (Hm : bytes_ok m) (Hlen : Z.of_nat (length m) < 2 ^ 32 - 64) :
  md5digest g m = Ok (md5_spec m).
Proof.
  unfold md5digest.
  destruct (tsp_MD5Update_rep _ _ m (tsp_MD5Init_rep g Hg) Hm Hlen) as (c & -> & Hrep).
  exact (tsp_MD5Final_rep c _ Hrep).
Qed.

Lemma tsp_md5digest_correct_witness :
  md5digest (repeat 165 64) (repeat 97 100) = Ok (md5_spec (repeat 97 100)).
Proof.
  apply tsp_md5digest_correct; [reflexivity| |reflexivity].
  by apply bytes_ok_repeat.
Defined.
