(* ===== verification/Base64.v ===== *)
(** * Base64 of the TSP client ([lib/base64.c])

The decoder stops at the first character outside the alphabet, so the text that
follows, and the padding, do not matter.  The encoder writes the padding and a
terminator. *)

From Stdlib Require Import ZifyNat.
From stdpp Require Import base list numbers strings.
From S2P Require Import Prelude Words CString AiccuMd5.

(** ** Definitions *)

Definition pr2six_table : list Z := [
  64; 64; 64; 64; 64; 64; 64; 64; 64; 64; 64; 64; 64; 64; 64; 64;
  64; 64; 64; 64; 64; 64; 64; 64; 64; 64; 64; 64; 64; 64; 64; 64;
  64; 64; 64; 64; 64; 64; 64; 64; 64; 64; 64; 62; 64; 64; 64; 63;
  52; 53; 54; 55; 56; 57; 58; 59; 60; 61; 64; 64; 64; 64; 64; 64;
  64;  0;  1;  2;  3;  4;  5;  6;  7;  8;  9; 10; 11; 12; 13; 14;
  15; 16; 17; 18; 19; 20; 21; 22; 23; 24; 25; 64; 64; 64; 64; 64;
  64; 26; 27; 28; 29; 30; 31; 32; 33; 34; 35; 36; 37; 38; 39; 40;
  41; 42; 43; 44; 45; 46; 47; 48; 49; 50; 51; 64; 64; 64; 64; 64;
  64; 64; 64; 64; 64; 64; 64; 64; 64; 64; 64; 64; 64; 64; 64; 64;
  64; 64; 64; 64; 64; 64; 64; 64; 64; 64; 64; 64; 64; 64; 64; 64;
  64; 64; 64; 64; 64; 64; 64; 64; 64; 64; 64; 64; 64; 64; 64; 64;
  64; 64; 64; 64; 64; 64; 64; 64; 64; 64; 64; 64; 64; 64; 64; 64;
  64; 64; 64; 64; 64; 64; 64; 64; 64; 64; 64; 64; 64; 64; 64; 64;
  64; 64; 64; 64; 64; 64; 64; 64; 64; 64; 64; 64; 64; 64; 64; 64;
  64; 64; 64; 64; 64; 64; 64; 64; 64; 64; 64; 64; 64; 64; 64; 64;
  64; 64; 64; 64; 64; 64; 64; 64; 64; 64; 64; 64; 64; 64; 64; 64 ].

Definition pr2six (c : Z) : Z := nth (Z.to_nat c) pr2six_table 64.

Definition basis_64 : list Z := str "ABCDEFGHIJKLMNOPQRSTUVWXYZabcdefghijklmnopqrstuvwxyz0123456789+/".
Definition basis (i : Z) : Z := nth (Z.to_nat i) basis_64 0.

(** [while (pr2six[*(bufin++)] <= 63);] the characters before the one that ends
    it; there must be one. *)
Fixpoint coded (buf : list Z) : res (list Z) :=
  match buf with
  | [] => Err OutOfBounds
  | c :: buf' => if pr2six c <=? 63 then l ← coded buf'; Ok (c :: l) else Ok []
  end.

(** The three bytes of a group, stored in [unsigned char]. *)
Definition six1 (a b : Z) : Z := wrap 8 (Z.lor (Z.shiftl (pr2six a) 2) (Z.shiftr (pr2six b) 4)).
Definition six2 (b c : Z) : Z := wrap 8 (Z.lor (Z.shiftl (pr2six b) 4) (Z.shiftr (pr2six c) 2)).
Definition six3 (c d : Z) : Z := wrap 8 (Z.lor (Z.shiftl (pr2six c) 6) (pr2six d)).

(** The loop over the groups; the last one has at most four characters. *)
Fixpoint decode_groups (l : list Z) : list Z :=
  match l with
  | a :: b :: c :: d :: l' => six1 a b :: six2 b c :: six3 c d :: decode_groups l'
  | [a; b; c] => [six1 a b; six2 b c]
  | [a; b] => [six1 a b]
  | _ => []
  end.

(** The number that [base64decode_binary] returns for [n] characters. *)
Definition decoded_len (n : nat) : Z :=
  let last := if (n <=? 4)%nat then Z.of_nat n else (Z.of_nat n - 1) mod 4 + 1 in
  (Z.of_nat n + 3) / 4 * 3 - Z.land (4 - last) 3.

(** [base64decode], into a block of [size] bytes: the bytes before the
    terminator that it writes. *)
Definition base64decode (size : nat) (bufcoded : list Z) : res (list Z) :=
  l ← coded bufcoded;
  let bytes := decode_groups l in
  guard_or OutOfBounds (decoded_len (length l) + 1 <=? Z.of_nat size);;
  Ok (take (Z.to_nat (decoded_len (length l))) bytes).

(** The characters before the terminator. *)
Fixpoint encode_groups (l : list Z) : list Z :=
  match l with
  | a :: b :: c :: l' =>
    basis (Z.land (Z.shiftr a 2) 0x3F) :: basis (Z.lor (Z.shiftl (Z.land a 0x3) 4) (Z.shiftr (Z.land b 0xF0) 4)) ::
    basis (Z.lor (Z.shiftl (Z.land b 0xF) 2) (Z.shiftr (Z.land c 0xC0) 6)) :: basis (Z.land c 0x3F) :: encode_groups l'
  | [a; b] =>
    [basis (Z.land (Z.shiftr a 2) 0x3F); basis (Z.lor (Z.shiftl (Z.land a 0x3) 4) (Z.shiftr (Z.land b 0xF0) 4));
     basis (Z.shiftl (Z.land b 0xF) 2); 61]
  | [a] => [basis (Z.land (Z.shiftr a 2) 0x3F); basis (Z.shiftl (Z.land a 0x3) 4); 61; 61]
  | [] => []
  end.

Definition base64encode_len (len : Z) : Z := (len + 2) / 3 * 4 + 1.

(** [base64encode], into a block of [size] bytes. *)
Definition base64encode (size : nat) (string : list Z) : res (list Z) :=
  let text := encode_groups string in
  guard_or OutOfBounds (S (length text) <=? size)%nat;; Ok text.

(** ** Correctness *)

Lemma pr2six_basis i : 0 <= i < 64 -> pr2six (basis i) = i.
Proof.
  intros Hi. assert (forallb (fun k => pr2six (basis (Z.of_nat k)) =? Z.of_nat k) (seq 0 64) = true) as H by (by vm_compute).
  rewrite forallb_forall in H. specialize (H (Z.to_nat i)). rewrite Z2Nat.id in H by lia. apply Z.eqb_eq, H, in_seq. lia.
Qed.

#[local] Ltac Zify.zify_post_hook ::= Z.to_euclidean_division_equations.

Lemma first_six a : byte_ok a -> Z.land (Z.shiftr a 2) 0x3F = a / 4 /\ 0 <= a / 4 < 64.
Proof. unfold byte_ok. intros Ha. rewrite Z.shiftr_div_pow2 by lia. change 0x3F with (Z.ones 6). rewrite Z.land_ones by lia. lia. Qed.

Lemma high_bits x n : byte_ok x -> 0 <= n <= 8 -> Z.shiftr (Z.land x (Z.shiftl (Z.ones (8 - n)) n)) n = x / 2 ^ n.
Proof.
  unfold byte_ok. intros Hx Hn. rewrite Z.shiftr_land, Z.shiftr_shiftl_l, Z.sub_diag, Z.shiftl_0_r by lia. rewrite Z.land_ones by lia.
  rewrite Z.shiftr_div_pow2 by lia. apply Z.mod_small. split; [apply Z.div_pos; lia|]. apply Z.div_lt_upper_bound; [lia|].
  rewrite <- Z.pow_add_r by lia. replace (n + (8 - n)) with 8 by lia. lia.
Qed.

Lemma second_six a b : byte_ok a -> byte_ok b ->
  Z.lor (Z.shiftl (Z.land a 0x3) 4) (Z.shiftr (Z.land b 0xF0) 4) = a mod 4 * 16 + b / 16.
Proof.
  intros Ha Hb. change 0xF0 with (Z.shiftl (Z.ones (8 - 4)) 4). rewrite high_bits by (done || lia). change 0x3 with (Z.ones 2). rewrite Z.land_ones by lia.
  rewrite lor_shiftl_add by (unfold byte_ok in *; lia). by rewrite Z.shiftl_mul_pow2 by lia.
Qed.

Lemma third_six b c : byte_ok b -> byte_ok c ->
  Z.lor (Z.shiftl (Z.land b 0xF) 2) (Z.shiftr (Z.land c 0xC0) 6) = b mod 16 * 4 + c / 64.
Proof.
  intros Hb Hc. change 0xC0 with (Z.shiftl (Z.ones (8 - 6)) 6). rewrite high_bits by (done || lia). change 0xF with (Z.ones 4). rewrite Z.land_ones by lia.
  rewrite lor_shiftl_add by (unfold byte_ok in *; lia). by rewrite Z.shiftl_mul_pow2 by lia.
Qed.

(** The bytes come back from the values. *)
Lemma six1_ok x y : 0 <= x < 64 -> 0 <= y < 64 -> six1 (basis x) (basis y) = x * 4 + y / 16.
Proof.
  intros Hx Hy. unfold six1, wrap. rewrite !pr2six_basis, Z.shiftr_div_pow2 by lia.
  rewrite lor_shiftl_add, Z.shiftl_mul_pow2 by lia. change (2 ^ 2) with 4. change (2 ^ 4) with 16. change (2 ^ 8) with 256. lia.
Qed.

Lemma six2_ok y z : 0 <= y < 64 -> 0 <= z < 64 -> six2 (basis y) (basis z) = y mod 16 * 16 + z / 4.
Proof.
  intros Hx Hy. unfold six2, wrap. rewrite !pr2six_basis, Z.shiftr_div_pow2 by lia.
  rewrite lor_shiftl_add, Z.shiftl_mul_pow2 by lia. change (2 ^ 2) with 4. change (2 ^ 4) with 16. change (2 ^ 8) with 256. lia.
Qed.

Lemma six3_ok z w : 0 <= z < 64 -> 0 <= w < 64 -> six3 (basis z) (basis w) = z mod 4 * 64 + w.
Proof.
  intros Hx Hy. unfold six3, wrap. rewrite !pr2six_basis by lia.
  rewrite lor_shiftl_add, Z.shiftl_mul_pow2 by lia. change (2 ^ 6) with 64. change (2 ^ 8) with 256. lia.
Qed.

Lemma coded_basis i l : 0 <= i < 64 -> coded (basis i :: l) = (k ← coded l; Ok (basis i :: k)).
Proof. intros Hi. cbn [coded]. rewrite pr2six_basis by done. destruct (Z.leb_spec i 63); [done|lia]. Qed.

(** The groups of a text, by the values of their characters. *)
Fixpoint chars (l : list Z) : list Z :=
  match l with
  | a :: b :: c :: l' => [basis (a / 4); basis (a mod 4 * 16 + b / 16); basis (b mod 16 * 4 + c / 64); basis (c mod 64)] ++ chars l'
  | [a; b] => [basis (a / 4); basis (a mod 4 * 16 + b / 16); basis (b mod 16 * 4)]
  | [a] => [basis (a / 4); basis (a mod 4 * 16)]
  | [] => []
  end.

Definition padding (l : list Z) : list Z := match (length l mod 3)%nat with 1%nat => [61; 61] | 2%nat => [61] | _ => [] end.

(** Lists by groups of three. *)
Lemma by_three (P : list Z -> Prop) :
  P [] -> (forall a, P [a]) -> (forall a b, P [a; b]) -> (forall a b c l, P l -> P (a :: b :: c :: l)) -> forall l, P l.
Proof.
  intros H0 H1 H2 H3 l. enough (P l /\ (forall a, P (a :: l)) /\ (forall a b, P (a :: b :: l))) by tauto.
  induction l as [|c l (IH0 & IH1 & IH2)]; [done|]. split; [apply IH1|]. split; [intros a; apply (IH2 a c)|]. intros a b. by apply H3.
Qed.

Lemma encode_chars l : bytes_ok l -> encode_groups l = chars l ++ padding l.
Proof.
  induction l as [|a|a b|a b c l IH] using by_three; intros H; [done| | |].
  - apply bytes_ok_cons in H as [Ha _]. cbn [encode_groups]. destruct (first_six a Ha) as [-> _]. cbn [chars padding app].
    change 0x3 with (Z.ones 2). rewrite Z.land_ones, Z.shiftl_mul_pow2 by lia. done.
  - apply bytes_ok_cons in H as [Ha H]. apply bytes_ok_cons in H as [Hb _]. cbn [encode_groups]. destruct (first_six a Ha) as [-> _].
    rewrite second_six by done. change 0xF with (Z.ones 4). rewrite Z.land_ones, Z.shiftl_mul_pow2 by lia. done.
  - apply bytes_ok_cons in H as [Ha H]. apply bytes_ok_cons in H as [Hb H]. apply bytes_ok_cons in H as [Hc H]. cbn [encode_groups chars app].
    destruct (first_six a Ha) as [-> _]. rewrite second_six, third_six, IH by done. change 0x3F with (Z.ones 6). rewrite Z.land_ones by lia.
    do 4 f_equal. f_equal. unfold padding. replace (length (a :: b :: c :: l)) with (length l + 1 * 3)%nat by (cbn; lia). by rewrite Nat.Div0.mod_add.
Qed.

Lemma coded_chars l rest x : bytes_ok l -> 63 < pr2six x -> coded (chars l ++ x :: rest) = Ok (chars l).
Proof.
  intros H Hx. assert (coded (x :: rest) = Ok []) as Hend by (cbn [coded]; by rewrite (proj2 (Z.leb_gt _ _) Hx)).
  induction l as [|a|a b|a b c l IH] using by_three; [done| | |].
  - apply bytes_ok_cons in H as [Ha _]. cbn [chars app]. rewrite !coded_basis by (unfold byte_ok in *; lia). by rewrite Hend.
  - apply bytes_ok_cons in H as [Ha H]. apply bytes_ok_cons in H as [Hb _]. cbn [chars app]. rewrite !coded_basis by (unfold byte_ok in *; lia). by rewrite Hend.
  - apply bytes_ok_cons in H as [Ha H]. apply bytes_ok_cons in H as [Hb H]. apply bytes_ok_cons in H as [Hc H]. cbn [chars app].
    rewrite !coded_basis by (unfold byte_ok in *; lia). by rewrite IH.
Qed.

Lemma decode_chars l : bytes_ok l -> decode_groups (chars l) = l.
Proof.
  induction l as [|a|a b|a b c l IH] using by_three; intros H; [done| | |].
  - apply bytes_ok_cons in H as [Ha _]. unfold byte_ok in *. cbn [chars decode_groups]. rewrite six1_ok by lia. f_equal. lia.
  - apply bytes_ok_cons in H as [Ha H]. apply bytes_ok_cons in H as [Hb _]. unfold byte_ok in *. cbn [chars decode_groups].
    rewrite six1_ok, six2_ok by lia. f_equal; [lia|f_equal; lia].
  - apply bytes_ok_cons in H as [Ha H]. apply bytes_ok_cons in H as [Hb H]. apply bytes_ok_cons in H as [Hc H]. unfold byte_ok in *. cbn [chars app].
    cbn [decode_groups]. rewrite six1_ok, six2_ok, six3_ok, IH by (done || lia). do 2 (f_equal; [lia|]). f_equal; lia.
Qed.

Lemma decoded_chars l : decoded_len (length (chars l)) = Z.of_nat (length l).
Proof.
  assert (forall n, Z.land (4 - n) 3 = (4 - n) mod 4) as Hland by (intros n; change 3 with (Z.ones 2); by rewrite Z.land_ones by lia).
  assert (length (chars l) = (length l / 3 * 4 + match length l mod 3 with O => 0 | 1 => 2 | _ => 3 end)%nat) as ->.
  { induction l as [|a|a b|a b c l IH] using by_three; [done..|]. cbn [chars]. rewrite length_app, IH.
    replace (length (a :: b :: c :: l)) with (length l + 1 * 3)%nat by (cbn; lia). rewrite Nat.Div0.mod_add, Nat.div_add by lia. cbn [length]. lia. }
  unfold decoded_len. rewrite Hland. destruct (length l mod 3)%nat as [|[|[|]]] eqn:E;
    match goal with |- context [(?x <=? 4)%nat] => destruct (Nat.leb_spec x 4) end; lia.
Qed.

Lemma length_encode l : bytes_ok l -> length (encode_groups l) = (Z.to_nat (base64encode_len (Z.of_nat (length l))) - 1)%nat.
Proof.
  intros H. rewrite encode_chars by done. clear H. unfold base64encode_len. induction l as [|a|a b|a b c l IH] using by_three; [done..|].
  cbn [chars]. assert (padding (a :: b :: c :: l) = padding l) as ->.
  { unfold padding. replace (length (a :: b :: c :: l)) with (length l + 1 * 3)%nat by (cbn; lia). by rewrite Nat.Div0.mod_add. }
  rewrite <- app_assoc, length_app, IH. cbn [length]. lia.
Qed.

Lemma base64encode_ok l : bytes_ok l -> base64encode (Z.to_nat (base64encode_len (Z.of_nat (length l)))) l = Ok (encode_groups l).
Proof.
  intros H. unfold base64encode, guard_or. rewrite (proj2 (Nat.leb_le _ _)); [done|]. rewrite length_encode by done. unfold base64encode_len. lia.
Qed.

Lemma base64encode_inv size l t : base64encode size l = Ok t -> t = encode_groups l /\ (length t < size)%nat.
Proof. unfold base64encode, guard_or. destruct (Nat.leb_spec (S (length (encode_groups l))) size); [|done]. intros [= <-]. split; [done|lia]. Qed.

(** The padding and what follows are not looked at. *)
Lemma base64decode_ok l x rest size :
  bytes_ok l -> 63 < pr2six x -> (length (encode_groups l) < size)%nat -> base64decode size (encode_groups l ++ x :: rest) = Ok l.
Proof.
  intros H Hx Hsize. rewrite encode_chars by done. unfold base64decode.
  assert (coded ((chars l ++ padding l) ++ x :: rest) = Ok (chars l)) as ->.
  { rewrite <- app_assoc. destruct (padding l) as [|y p] eqn:E; [by apply coded_chars|]. cbn [app]. apply coded_chars; [done|].
    unfold padding in E. destruct (length l mod 3)%nat as [|[|[|k]]]; [done|by injection E as <- _|by injection E as <- _|done]. }
  cbn [mbind res_bind]. rewrite decoded_chars, decode_chars by done. unfold guard_or. rewrite (proj2 (Z.leb_le _ _)).
  - cbn [mbind res_bind]. by rewrite Nat2Z.id, take_ge.
  - rewrite length_encode in Hsize by done. unfold base64encode_len in Hsize. lia.
Qed.

(** The encoding is a text. *)
Lemma basis_char i : 0 <= i < 64 -> char_ok (basis i).
Proof.
  intros Hi. assert (forallb (fun k => (1 <=? basis (Z.of_nat k)) && (basis (Z.of_nat k) <? 256)) (seq 0 64) = true) as H by (by vm_compute).
  rewrite forallb_forall in H. specialize (H (Z.to_nat i)). rewrite Z2Nat.id in H by lia. unfold char_ok.
  assert ((1 <=? basis i) && (basis i <? 256) = true) as E by (apply H, in_seq; lia). apply andb_true_iff in E as [E1%Z.leb_le E2%Z.ltb_lt]. done.
Qed.

Lemma encode_cstring l : bytes_ok l -> cstring (encode_groups l).
Proof.
  intros H. rewrite encode_chars by done. apply cstring_app. split.
  - induction l as [|a|a b|a b c l IH] using by_three; [constructor| | |].
    + apply bytes_ok_cons in H as [Ha _]. unfold byte_ok in *. cbn [chars]. repeat (apply list.Forall_cons_2; [apply basis_char; lia|]). constructor.
    + apply bytes_ok_cons in H as [Ha H]. apply bytes_ok_cons in H as [Hb _]. unfold byte_ok in *. cbn [chars].
      repeat (apply list.Forall_cons_2; [apply basis_char; lia|]). constructor.
    + apply bytes_ok_cons in H as [Ha H]. apply bytes_ok_cons in H as [Hb H]. apply bytes_ok_cons in H as [Hc H]. unfold byte_ok in *. cbn [chars app].
      do 4 (apply list.Forall_cons_2; [apply basis_char; lia|]). by apply IH.
  - unfold padding. destruct (length l mod 3)%nat as [|[|[|k]]]; by repeat constructor.
Qed.

(** The first character of the encoding of a text in ASCII is a letter. *)
Lemma encode_letter a l : 32 <= a < 127 -> exists y r, encode_groups (a :: l) = y :: r /\ 65 <= y <= 122.
Proof.
  intros Ha. exists (basis (Z.land (Z.shiftr a 2) 0x3F)). assert (65 <= basis (Z.land (Z.shiftr a 2) 0x3F) <= 122) as H.
  { assert (forallb (fun k => let y := basis (Z.land (Z.shiftr (Z.of_nat k) 2) 0x3F) in (65 <=? y) && (y <=? 122)) (seq 32 95) = true) as H by (by vm_compute).
    rewrite forallb_forall in H. specialize (H (Z.to_nat a) ltac:(apply in_seq; lia)). rewrite Z2Nat.id in H by lia.
    cbv zeta in H. apply andb_true_iff in H as [E1%Z.leb_le E2%Z.leb_le]. done. }
  destruct l as [|b [|c l]]; cbn [encode_groups]; by eexists.
Qed.

Lemma length_encode_ge l : bytes_ok l -> (length l <= length (encode_groups l))%nat.
Proof. intros H. rewrite length_encode by done. unfold base64encode_len. lia. Qed.

(** Whatever it is given, the decoder makes bytes. *)
Lemma wrapped_bytes x : byte_ok (wrap 8 x).
Proof. unfold byte_ok, wrap. apply Z.mod_pos_bound. done. Qed.

Lemma decode_groups_bytes l : bytes_ok (decode_groups l).
Proof.
  revert l. fix IH 1. intros [|a [|b [|c [|d l]]]]; cbn [decode_groups]; try (apply list.Forall_nil_2); repeat (apply list.Forall_cons_2; [apply wrapped_bytes|]);
    [apply list.Forall_nil_2..|apply IH].
Qed.

Lemma base64decode_bytes size s l : base64decode size s = Ok l -> bytes_ok l.
Proof.
  unfold base64decode. intros E. inv_bind E. inv_bind E. injection E as <-. apply Forall_take, decode_groups_bytes.
Qed.

(** Every string of bytes comes back from its encoding, whatever follows it: the
    text needs exactly the space that [base64encode_len] says, and the decoder
    stops at its end. *)
Theorem base64_roundtrip l rest :
  bytes_ok l ->
  exists text, base64encode (Z.to_nat (base64encode_len (Z.of_nat (length l)))) l = Ok text /\
    base64decode (S (length text)) (text ++ 0 :: rest) = Ok l.
Proof. intros Hl. exists (encode_groups l). split; [by apply base64encode_ok|apply base64decode_ok; [done|done|lia]]. Qed.

Lemma base64_roundtrip_witness :
  exists text, base64encode (Z.to_nat (base64encode_len 5)) (str "hello") = Ok text /\ base64decode (S (length text)) (text ++ 0 :: [7]) = Ok (str "hello").
Proof. apply (base64_roundtrip (str "hello") [7]). by repeat constructor. Defined.
