(* ===== verification/Float32.v ===== *)
(** * Single-precision arithmetic

The C type [float] on a machine that evaluates it as IEEE binary32: the
operations are those of the Standard Library's executable specification,
with 24 bits of precision.  The lemmas bound the magnitude of a result by
that of its operands, which rules out infinities and NaNs. *)

From Stdlib Require Import SpecFloat ZifyBool.
From stdpp Require Import base list numbers.
From S2P Require Import Prelude Words.

Abbreviation f32 := spec_float.

Definition f32_add : f32 -> f32 -> f32 := SFadd 24 128.
Definition f32_sub : f32 -> f32 -> f32 := SFsub 24 128.
Definition f32_mul : f32 -> f32 -> f32 := SFmul 24 128.
Definition f32_div : f32 -> f32 -> f32 := SFdiv 24 128.
Definition f32_of_Z (n : Z) : f32 := binary_normalize 24 128 n 0 false.

(** Conversion to an integer type of [w] bits: towards zero, undefined when
    the value does not fit. *)
Definition f32_to_Z (w : Z) (x : f32) : res Z :=
  match x with
  | S754_zero _ => Ok 0
  | S754_finite s m e =>
    let n := cond_Zopp s (Z.shiftl (Zpos m) e) in
    if (- 2 ^ (w - 1) <=? n) && (n <? 2 ^ (w - 1)) then Ok n else Err BadConversion
  | _ => Err BadConversion
  end.

(** ** Magnitudes *)

Definition digits (m : Z) : Z := Zdigits2 m.

(** [below k x]: a number in canonical form whose absolute value is less
    than [2 ^ k]. *)
Definition below (k : Z) (x : f32) : Prop :=
  match x with
  | S754_zero _ => True
  | S754_finite _ m e => fexp 24 128 (digits (Zpos m) + e) = e /\ digits (Zpos m) + e <= k
  | _ => False
  end.

Lemma below_mono k k' x : below k x -> k <= k' -> below k' x.
Proof. destruct x; cbn; try done. intros [? ?] ?. split; [done|lia]. Qed.

Lemma digits_pos_bounds m : 2 ^ (digits (Zpos m) - 1) <= Zpos m < 2 ^ digits (Zpos m).
Proof.
  unfold digits. cbn [Zdigits2]. induction m as [m IH|m IH|]; cbn [digits2_pos]; [..|cbn; lia].
  all: rewrite Pos2Z.inj_succ; replace (Z.succ (Zpos (digits2_pos m)) - 1) with (Zpos (digits2_pos m)) by lia;
    rewrite Z.pow_succ_r by lia; replace (2 ^ Zpos (digits2_pos m)) with (2 * 2 ^ (Zpos (digits2_pos m) - 1)) in *
      by (rewrite <- Z.pow_succ_r by lia; f_equal; lia); lia.
Qed.

Lemma digits_nonneg m : 0 <= digits m.
Proof. by destruct m. Qed.

Lemma digits_bounds m : 0 <= m -> m < 2 ^ digits m.
Proof. destruct m; [cbn; lia|intros _; apply digits_pos_bounds|lia]. Qed.

Lemma digits_le m k : 0 <= m < 2 ^ k -> digits m <= k.
Proof.
  intros [H0 H]. destruct m as [|p|p]; [|..|lia].
  - destruct (Z.lt_ge_cases k 0); [rewrite Z.pow_neg_r in H by lia; cbn in *; lia|cbn; lia].
  - pose proof (digits_pos_bounds p). destruct (Z.lt_ge_cases k (digits (Zpos p))); [|lia].
    pose proof (Z.pow_le_mono_r 2 k (digits (Zpos p) - 1)). lia.
Qed.

Lemma digits_ge m k : 0 <= k -> 2 ^ k <= m -> k < digits m.
Proof.
  intros Hk H. pose proof (Z.pow_pos_nonneg 2 k). destruct (Z.lt_ge_cases k (digits m)); [done|].
  pose proof (digits_bounds m ltac:(lia)). pose proof (Z.pow_le_mono_r 2 (digits m) k). lia.
Qed.

Lemma digits_shift m k : 0 < m -> 0 <= k -> digits (m * 2 ^ k) = digits m + k.
Proof.
  intros Hm Hk. destruct m as [|m|]; try lia. pose proof (digits_pos_bounds m) as [H1 H2].
  pose proof (Z.pow_pos_nonneg 2 k). pose proof (digits_nonneg (Zpos m)).
  assert (1 <= digits (Zpos m)) by (unfold digits; cbn; lia).
  apply Z.le_antisymm.
  - apply digits_le. rewrite Z.pow_add_r by lia. nia.
  - assert (digits (Zpos m) - 1 + k < digits (Zpos m * 2 ^ k)); [|lia].
    apply digits_ge; [lia|]. rewrite Z.pow_add_r by lia. nia.
Qed.

(** ** Rounding *)

Lemma shr_1_half r : 0 <= shr_m r -> shr_m (shr_1 r) = shr_m r / 2.
Proof.
  destruct r as [m a b]. cbn [shr_m]. intros H. destruct m as [|[p|p|]|]; try done; cbn [shr_1 shr_m].
  - by rewrite <- (Z.div_unique (Zpos p~1) 2 (Zpos p) 1) by lia.
  - by rewrite <- (Z.div_unique (Zpos p~0) 2 (Zpos p) 0) by lia.
Qed.

Lemma iter_shr_1 p r : 0 <= shr_m r -> shr_m (SpecFloat.iter_pos shr_1 p r) = shr_m r / 2 ^ Zpos p.
Proof.
  revert r. induction p as [p IH|p IH|]; intros r H; cbn [SpecFloat.iter_pos]; [..|by rewrite shr_1_half].
  all: pose proof (Z.pow_pos_nonneg 2 (Zpos p) ltac:(lia) ltac:(lia)) as Hp.
  - assert (0 <= shr_m (shr_1 r)) as H1 by (rewrite shr_1_half by done; by apply Z.div_pos).
    assert (0 <= shr_m (SpecFloat.iter_pos shr_1 p (shr_1 r))) as H2 by (rewrite IH by done; by apply Z.div_pos).
    rewrite (IH _ H2), (IH _ H1), (shr_1_half _ H), !Z.div_div by nia. f_equal.
    replace (Zpos p~1) with (1 + Zpos p + Zpos p) by lia. rewrite !Z.pow_add_r by lia. ring.
  - assert (0 <= shr_m (SpecFloat.iter_pos shr_1 p r)) as H2 by (rewrite IH by done; by apply Z.div_pos).
    rewrite (IH _ H2), (IH _ H), !Z.div_div by nia. f_equal.
    replace (Zpos p~0) with (Zpos p + Zpos p) by lia. rewrite !Z.pow_add_r by lia. ring.
Qed.

Lemma shr_fexp_spec m e l mrs e' :
  0 <= m -> shr_fexp 24 128 m e l = (mrs, e') ->
  e' = Z.max e (fexp 24 128 (digits m + e)) /\ shr_m mrs = m / 2 ^ (e' - e).
Proof.
  intros Hm. unfold shr_fexp. fold (digits m). set (n := fexp 24 128 (digits m + e)).
  assert (shr_m (shr_record_of_loc m l) = m) as Hl by (by destruct l as [|[]]).
  unfold shr. destruct (n - e) as [|p|p] eqn:E; intros [= <- <-].
  - split; [lia|]. replace (e - e) with 0 by lia. by rewrite Hl, Z.div_1_r.
  - split; [lia|]. rewrite iter_shr_1 by lia. rewrite Hl. do 2 f_equal. lia.
  - split; [lia|]. replace (e - e) with 0 by lia. by rewrite Hl, Z.div_1_r.
Qed.

Lemma round_bounds m l : 0 <= m -> m <= round_nearest_even m l <= m + 1.
Proof. intros. destruct l as [|[]]; cbn [round_nearest_even]; try destruct (Z.even m); lia. Qed.

Lemma digits_div m k : 0 <= m -> 0 <= k -> 0 < m / 2 ^ k -> digits (m / 2 ^ k) = digits m - k.
Proof.
  intros Hm Hk Hq. pose proof (Z.pow_pos_nonneg 2 k ltac:(lia) Hk) as Hp.
  pose proof (Z.div_mod m (2 ^ k) ltac:(lia)) as E. pose proof (Z.mod_pos_bound m (2 ^ k) Hp).
  assert (0 < m) by nia. destruct m as [|m|]; try lia. pose proof (digits_pos_bounds m) as [H1 H2].
  pose proof (digits_nonneg (Zpos m)).
  assert (k < digits (Zpos m)). { apply digits_ge; nia. }
  apply Z.le_antisymm.
  - apply digits_le. split; [lia|]. apply Z.div_lt_upper_bound; [done|]. rewrite <- Z.pow_add_r by lia.
    by replace (k + (digits (Zpos m) - k)) with (digits (Zpos m)) by lia.
  - assert (digits (Zpos m) - 1 - k < digits (Zpos m / 2 ^ k)); [|lia].
    apply digits_ge; [lia|]. apply Z.div_le_lower_bound; [done|]. rewrite <- Z.pow_add_r by lia.
    by replace (k + (digits (Zpos m) - 1 - k)) with (digits (Zpos m) - 1) by lia.
Qed.

Lemma fexp_eq t : fexp 24 128 t = Z.max (t - 24) (-149).
Proof. done. Qed.

(** The digits of the rounded mantissa: at most one more than before. *)
Lemma round_digits m e l e' :
  0 <= m -> e' = fexp 24 128 (digits m + e) -> e <= e' ->
  let m1 := round_nearest_even (m / 2 ^ (e' - e)) l in
  0 <= m1 /\ (0 < m1 -> e' <= fexp 24 128 (digits m1 + e') /\ digits m1 + e' <= Z.max (digits m + e + 1) (-148)).
Proof.
  intros Hm He' Hle m1. pose proof (Z.pow_pos_nonneg 2 (e' - e) ltac:(lia) ltac:(lia)) as Hp.
  pose proof (Z.div_pos m (2 ^ (e' - e)) Hm Hp). pose proof (round_bounds (m / 2 ^ (e' - e)) l ltac:(done)) as Hr.
  fold m1 in Hr. split; [lia|]. intros H1. rewrite fexp_eq in *. pose proof (digits_nonneg m).
  destruct (Z.le_gt_cases (digits m + e) e') as [HD|HD].
  - assert (m / 2 ^ (e' - e) = 0) as E0.
    { apply Z.div_small. split; [done|]. eapply Z.lt_le_trans; [by apply digits_bounds|]. apply Z.pow_le_mono_r; lia. }
    assert (m1 = 1) as E1 by lia. rewrite E1. cbn [digits Zdigits2 digits2_pos]. lia.
  - assert (0 < m / 2 ^ (e' - e)) as Hq.
    { apply Z.div_str_pos. split; [done|]. destruct m as [|m|]; [cbn in *; lia| |lia].
      etransitivity; [|apply digits_pos_bounds]. apply Z.pow_le_mono_r; lia. }
    pose proof (digits_div m (e' - e) Hm ltac:(lia) Hq) as Ed.
    assert (digits m - (e' - e) <= digits m1) as Hlo.
    { rewrite <- Ed. destruct (m / 2 ^ (e' - e)) as [|q|] eqn:Eq; try lia. pose proof (digits_pos_bounds q).
      assert (digits (Zpos q) - 1 < digits m1); [|lia]. apply digits_ge; [unfold digits; cbn; lia|lia]. }
    assert (digits m1 <= digits m - (e' - e) + 1) as Hhi.
    { rewrite <- Ed. apply digits_le. split; [lia|]. pose proof (digits_bounds (m / 2 ^ (e' - e)) ltac:(lia)).
      rewrite Z.pow_add_r by (try apply digits_nonneg; lia). lia. }
    lia.
Qed.

Lemma round_below s m e l K :
  0 <= m -> digits m + e <= K -> e <= fexp 24 128 (digits m + e) -> -149 <= K < 128 ->
  below (K + 1) (binary_round_aux 24 128 s m e l).
Proof.
  intros Hm HK He HK2. unfold binary_round_aux.
  destruct (shr_fexp 24 128 m e l) as [r1 e1] eqn:E1. apply shr_fexp_spec in E1 as [Ee1 Em1]; [|done].
  rewrite Z.max_r in Ee1 by done. rewrite Em1.
  destruct (round_digits m e (loc_of_shr_record r1) e1 Hm Ee1 ltac:(lia)) as [Hn Hd]. cbv zeta in Hn, Hd.
  set (m1 := round_nearest_even _ _) in *.
  destruct (shr_fexp 24 128 m1 e1 loc_Exact) as [r2 e2] eqn:E2. apply shr_fexp_spec in E2 as [Ee2 Em2]; [|done].
  pose proof (Z.pow_pos_nonneg 2 (e2 - e1) ltac:(lia) ltac:(lia)) as Hp.
  destruct (shr_m r2) as [|q|q] eqn:Eq; [done|..].
  - assert (0 < m1) as H1. { destruct (Z.eq_dec m1 0) as [E0|]; [rewrite E0, Z.div_0_l in Em2 by lia; done|lia]. }
    destruct (Hd H1) as [Hle Hup]. rewrite Z.max_r in Ee2 by done.
    pose proof (digits_div m1 (e2 - e1) Hn ltac:(lia) ltac:(lia)) as Edd. rewrite <- Em2 in Edd.
    rewrite fexp_eq in Ee2. destruct (Z.leb_spec e2 (128 - 24)) as [_|]; [|lia].
    cbn [below]. rewrite Edd, fexp_eq. lia.
  - pose proof (Z.div_pos m1 (2 ^ (e2 - e1)) Hn Hp). lia.
Qed.

(** ** Operations *)

Lemma shl_align_spec m e e' :
  let '(mz, ez) := shl_align m e e' in ez = Z.min e e' /\ Zpos mz = Zpos m * 2 ^ (e - ez).
Proof.
  unfold shl_align. destruct (e' - e) as [|d|d] eqn:E.
  1, 2: split; [lia|]; replace (e - e) with 0 by lia; lia.
  split; [lia|]. replace (e - e') with (Zpos d) by lia. clear E.
  induction d as [|d IH] using Pos.peano_ind; [cbn; lia|].
  rewrite Pos.iter_succ, Pos2Z.inj_succ, Z.pow_succ_r by lia. lia.
Qed.

Lemma digits_opp m : digits (- m) = digits m.
Proof. by destruct m. Qed.

Lemma digits_abs_le n k : 0 <= k -> Z.abs n < 2 ^ k -> digits n <= k.
Proof.
  intros Hk H. destruct (Z.abs_spec n) as [[? E]|[? E]]; rewrite E in H.
  - by apply digits_le.
  - rewrite <- digits_opp. apply digits_le. lia.
Qed.

Lemma binary_round_below s m e K :
  digits (Zpos m) + e <= K -> -149 <= K < 128 -> below (K + 1) (binary_round 24 128 s m e).
Proof.
  intros H HK. unfold binary_round. fold (Zdigits2 (Zpos m)). fold (digits (Zpos m)).
  pose proof (shl_align_spec m e (fexp 24 128 (digits (Zpos m) + e))) as Ha.
  destruct (shl_align m e _) as [mz ez]. destruct Ha as [Hez Hmz].
  assert (digits (Zpos mz) = digits (Zpos m) + (e - ez)) as Ed by (rewrite Hmz; apply digits_shift; lia).
  apply round_below; [done|lia| |done]. rewrite Ed. replace (digits (Zpos m) + (e - ez) + ez) with (digits (Zpos m) + e) by lia. lia.
Qed.

Lemma normalize_below n e b K :
  digits n + e <= K -> -149 <= K < 128 -> below (K + 1) (binary_normalize 24 128 n e b).
Proof.
  intros H HK. destruct n as [|m|m]; [done|..]; cbn [binary_normalize]; by apply binary_round_below.
Qed.

Lemma f32_of_Z_below n k : 0 <= k < 128 -> Z.abs n < 2 ^ k -> below (k + 1) (f32_of_Z n).
Proof. intros Hk H. apply normalize_below; [|lia]. pose proof (digits_abs_le n k). lia. Qed.

Lemma align_bound m e ez k :
  ez <= e -> digits (Zpos m) + e <= k -> 0 < Zpos (fst (shl_align m e ez)) < 2 ^ (k - ez).
Proof.
  intros Hle H. pose proof (shl_align_spec m e ez) as Ha. destruct (shl_align m e ez) as [mz ez'].
  destruct Ha as [E Em]. rewrite Z.min_r in E by done. subst ez'. cbn [fst]. rewrite Em.
  pose proof (digits_pos_bounds m). pose proof (Z.pow_pos_nonneg 2 (e - ez)).
  split; [lia|]. replace (k - ez) with (k - e + (e - ez)) by lia.
  assert (0 <= k - e) by (pose proof (digits_nonneg (Zpos m)); lia). rewrite Z.pow_add_r by lia.
  pose proof (Z.pow_le_mono_r 2 (digits (Zpos m)) (k - e)). nia.
Qed.

Lemma sum_below sx mx ex sy my ey k :
  digits (Zpos mx) + ex <= k -> digits (Zpos my) + ey <= k -> -150 <= k < 127 ->
  let ez := Z.min ex ey in
  let a := cond_Zopp sx (Zpos (fst (shl_align mx ex ez))) in
  let b := cond_Zopp sy (Zpos (fst (shl_align my ey ez))) in
  below (k + 2) (binary_normalize 24 128 (a + b) ez false) /\ below (k + 2) (binary_normalize 24 128 (a - b) ez false).
Proof.
  intros Hx Hy Hk ez a b.
  pose proof (align_bound mx ex ez k ltac:(lia) Hx) as Ha. pose proof (align_bound my ey ez k ltac:(lia) Hy) as Hb.
  assert (0 <= k - ez) by (pose proof (digits_nonneg (Zpos mx)); lia).
  replace (k + 2) with (k + 1 + 1) by lia.
  assert (Z.abs (a + b) < 2 ^ (k - ez + 1) /\ Z.abs (a - b) < 2 ^ (k - ez + 1)) as [H1 H2].
  { rewrite Z.pow_add_r by lia. unfold a, b. destruct sx, sy; cbn [cond_Zopp]; lia. }
  apply digits_abs_le in H1, H2; try lia. split; apply normalize_below; lia.
Qed.

Lemma f32_add_below x y k : below k x -> below k y -> -150 <= k < 127 -> below (k + 2) (f32_add x y).
Proof.
  intros Hx Hy Hk. unfold f32_add. destruct x as [sx| | |sx mx ex], y as [sy| | |sy my ey]; try done; cbn [SFadd].
  - by destruct sx, sy.
  - eapply below_mono; [done|lia].
  - eapply below_mono; [done|lia].
  - destruct Hx, Hy. by apply sum_below.
Qed.

Lemma f32_sub_below x y k : below k x -> below k y -> -150 <= k < 127 -> below (k + 2) (f32_sub x y).
Proof.
  intros Hx Hy Hk. unfold f32_sub. destruct x as [sx| | |sx mx ex], y as [sy| | |sy my ey]; try done; cbn [SFsub].
  - by destruct sx, sy.
  - eapply below_mono; [exact Hy|lia].
  - eapply below_mono; [done|lia].
  - destruct Hx, Hy. by apply sum_below.
Qed.

Lemma digits_mul a b : digits (Zpos a) + digits (Zpos b) - 1 <= digits (Zpos (a * b)) <= digits (Zpos a) + digits (Zpos b).
Proof.
  pose proof (digits_pos_bounds a) as [A1 A2]. pose proof (digits_pos_bounds b) as [B1 B2].
  assert (1 <= digits (Zpos a) /\ 1 <= digits (Zpos b)) as [? ?] by (unfold digits; cbn; lia).
  rewrite Pos2Z.inj_mul. split.
  - assert (digits (Zpos a) - 1 + (digits (Zpos b) - 1) < digits (Zpos a * Zpos b)); [|lia].
    apply digits_ge; [lia|]. rewrite Z.pow_add_r by lia. apply Z.mul_le_mono_nonneg; (done || by apply Z.pow_nonneg).
  - apply digits_le. rewrite Z.pow_add_r by lia. split; [lia|]. by apply Z.mul_lt_mono_nonneg.
Qed.

Lemma f32_mul_below x y k1 k2 :
  below k1 x -> below k2 y -> -149 <= k1 + k2 < 128 -> below (k1 + k2 + 1) (f32_mul x y).
Proof.
  intros Hx Hy Hk. unfold f32_mul. destruct x as [sx| | |sx mx ex], y as [sy| | |sy my ey]; try done; cbn [SFmul].
  destruct Hx as [Hx1 Hx2], Hy as [Hy1 Hy2]. pose proof (digits_mul mx my). rewrite fexp_eq in Hx1, Hy1.
  assert (1 <= digits (Zpos mx) /\ 1 <= digits (Zpos my)) as [? ?] by (unfold digits; cbn; lia).
  apply round_below; [done|lia| |done]. rewrite fexp_eq. lia.
Qed.

Lemma f32_div_below x sy my ey k c :
  below k x -> c <= digits (Zpos my) + ey -> -150 <= k - c < 127 ->
  below (k - c + 2) (f32_div x (S754_finite sy my ey)).
Proof.
  intros Hx Hc Hk. unfold f32_div. destruct x as [sx| | |sx mx ex]; try done. destruct Hx as [_ Hx].
  cbn [SFdiv]. unfold SFdiv_core_binary. fold (digits (Zpos mx)). fold (digits (Zpos my)).
  set (D := digits (Zpos mx) + ex - (digits (Zpos my) + ey)). set (e := Z.min (fexp 24 128 D) (ex - ey)).
  set (s := ex - ey - e). assert (0 <= s) as Hs by lia.
  replace (match s with 0 => Zpos mx | Zpos _ => Z.shiftl (Zpos mx) s | Zneg _ => 0 end) with (Zpos mx * 2 ^ s).
  2: { rewrite <- Z.shiftl_mul_pow2 by done. by destruct s. }
  destruct (Z.div_eucl (Zpos mx * 2 ^ s) (Zpos my)) as [q r] eqn:Eq.
  assert (q = Zpos mx * 2 ^ s / Zpos my) as -> by (unfold Z.div; by rewrite Eq). clear Eq.
  pose proof (digits_pos_bounds mx) as [X1 X2]. pose proof (digits_pos_bounds my) as [Y1 Y2].
  assert (1 <= digits (Zpos mx) /\ 1 <= digits (Zpos my)) as [? ?] by (unfold digits; cbn; lia).
  pose proof (Z.pow_pos_nonneg 2 s ltac:(lia) Hs) as Hp.
  set (q := Zpos mx * 2 ^ s / Zpos my). assert (0 <= q) as Hq by (apply Z.div_pos; lia).
  assert (digits q + e <= Z.max (D + 1) e) as Hup.
  { destruct (Z.le_gt_cases 0 (digits (Zpos mx) + s - digits (Zpos my) + 1)) as [Hge|Hlt].
    - assert (digits q <= digits (Zpos mx) + s - digits (Zpos my) + 1); [|lia]. apply digits_le. split; [done|].
      apply Z.div_lt_upper_bound; [lia|].
      eapply Z.lt_le_trans with (2 ^ (digits (Zpos mx) + s)); [rewrite Z.pow_add_r by lia; nia|].
      replace (2 ^ (digits (Zpos mx) + s)) with (2 ^ (digits (Zpos my) - 1) * 2 ^ (digits (Zpos mx) + s - digits (Zpos my) + 1))
        by (rewrite <- Z.pow_add_r by lia; f_equal; lia). apply Z.mul_le_mono_nonneg_r; [apply Z.pow_nonneg; lia|lia].
    - assert (q = 0) as ->; [|cbn; lia]. apply Z.div_small. split; [lia|].
      eapply Z.lt_le_trans with (2 ^ (digits (Zpos mx) + s)); [rewrite Z.pow_add_r by lia; nia|].
      etransitivity; [apply (Z.pow_le_mono_r 2 _ (digits (Zpos my) - 1)); lia|lia]. }
  assert (D <= digits q + e) as Hlo.
  { assert (digits (Zpos mx) - 1 + s - digits (Zpos my) < digits q \/ digits (Zpos mx) + s - digits (Zpos my) <= 0) as [|];
      [|lia|pose proof (digits_nonneg q); lia].
    destruct (Z.le_gt_cases (digits (Zpos mx) + s - digits (Zpos my)) 0); [by right|left].
    apply digits_ge; [lia|]. apply Z.div_le_lower_bound; [lia|].
    transitivity (2 ^ digits (Zpos my) * 2 ^ (digits (Zpos mx) - 1 + s - digits (Zpos my)));
      [apply Z.mul_le_mono_nonneg_r; [apply Z.pow_nonneg; lia|lia]|].
    rewrite <- Z.pow_add_r by lia.
    replace (digits (Zpos my) + (digits (Zpos mx) - 1 + s - digits (Zpos my))) with (digits (Zpos mx) - 1 + s) by lia.
    rewrite Z.pow_add_r by lia. nia. }
  replace (k - c + 2) with (k - c + 1 + 1) by lia. 
  assert (e <= fexp 24 128 D) as He by (unfold e; lia). rewrite fexp_eq in He.
  apply round_below; [done|..]; rewrite ?fexp_eq; unfold D in *; lia.
Qed.

(** ** Signs and conversions *)

Definition positive (x : f32) : Prop :=
  match x with S754_zero _ => True | S754_finite s _ _ => s = false | _ => False end.

Lemma round_sign s m e l k : below k (binary_round_aux 24 128 s m e l) -> s = false -> positive (binary_round_aux 24 128 s m e l).
Proof.
  unfold binary_round_aux. destruct (shr_fexp 24 128 m e l) as [r1 e1]. destruct (shr_fexp 24 128 _ e1 loc_Exact) as [r2 e2].
  destruct (shr_m r2); [done| |done]. by destruct (e2 <=? 128 - 24).
Qed.

Lemma f32_mul_positive x y k : below k (f32_mul x y) -> positive x -> positive y -> positive (f32_mul x y).
Proof.
  unfold f32_mul. destruct x as [| | |sx mx ex], y as [| | |sy my ey]; try done. cbn [SFmul positive].
  intros Hb -> ->. by eapply round_sign.
Qed.

Lemma normalize_positive n e b k : below k (binary_normalize 24 128 n e b) -> 0 <= n -> positive (binary_normalize 24 128 n e b).
Proof.
  destruct n as [|m|m]; [done|..]; cbn [binary_normalize]; [|lia]. unfold binary_round.
  destruct (shl_align m e _) as [mz ez]. intros Hb _. by eapply round_sign.
Qed.

Lemma f32_to_Z_below w x k :
  below k x -> positive x -> 0 <= k < w -> exists n, f32_to_Z w x = Ok n /\ 0 <= n < 2 ^ k.
Proof.
  intros Hb Hp Hk. destruct x as [| | |s m e]; try done; cbn [f32_to_Z].
  { exists 0. pose proof (Z.pow_pos_nonneg 2 k). split; [done|lia]. }
  cbn in Hp. subst s. destruct Hb as [_ Hb]. cbn [cond_Zopp]. pose proof (digits_pos_bounds m) as [_ Hm].
  assert (0 <= Z.shiftl (Zpos m) e < 2 ^ k) as Hn.
  { split; [by apply Z.shiftl_nonneg|]. destruct (Z.le_gt_cases 0 e).
    - rewrite Z.shiftl_mul_pow2 by done. pose proof (Z.pow_pos_nonneg 2 e).
      eapply Z.lt_le_trans with (2 ^ (digits (Zpos m) + e)); [|apply Z.pow_le_mono_r; lia].
      rewrite Z.pow_add_r by (try apply digits_nonneg; lia). nia.
    - rewrite Z.shiftl_div_pow2 by lia. pose proof (Z.pow_pos_nonneg 2 (- e)).
      apply Z.div_lt_upper_bound; [lia|]. rewrite <- Z.pow_add_r by lia.
      eapply Z.lt_le_trans; [exact Hm|]. apply Z.pow_le_mono_r; lia. }
  pose proof (Z.pow_le_mono_r 2 k (w - 1)).
  destruct (Z.leb_spec (- 2 ^ (w - 1)) (Z.shiftl (Zpos m) e)); [|lia].
  destruct (Z.ltb_spec (Z.shiftl (Zpos m) e) (2 ^ (w - 1))); [|lia]. by eauto.
Qed.
