(* ===== verification/Rudp.v ===== *)
(** * Reliable UDP ([gogoc-tsp/src/net/net_rudp.c], [net_rudp6.c])

TSP over UDP: every request carries a sequence number and a time stamp and is
sent again until a datagram with its sequence number comes back.  The
statistics of the round trips, which are global in the source, give the time
to wait.  The messages, the cached address and the statistics are modelled,
with the number of allocated blocks; resolving names, sockets, clocks and
allocations are inputs, and each turn of the waiting loop is one of them.

[select] fails when the time to wait is negative, as POSIX prescribes. *)

From stdpp Require Import base gmap list numbers.
From Stdlib Require Import SpecFloat.
From S2P Require Import Prelude Words Float32.

(** ** Data *)

Definition RTTENGINE_G : f32 := f32_div (f32_of_Z 1) (f32_of_Z 8).
Definition RTTENGINE_H : f32 := f32_div (f32_of_Z 1) (f32_of_Z 4).
Definition RTTENGINE_TMIN : Z := 2.
Definition RTTENGINE_TMAX : Z := 30.
Definition RTTENGINE_MAXRTT : Z := 3.
Definition RTTENGINE_MAXRT : Z := 8.

(** [sizeof(rudp_msghdr_t)]: a sequence number and a time stamp, in network
    byte order. *)
Definition rudp_msghdr_t : nat := 8.

Record rttengine_stat_t := mk_rttengine_stat_t {
  sai : option (list Z);
  rtt : f32;
  srtt : f32;
  rttvar : f32;
  rto : f32;
  sequence : Z;
  retries : Z;
  last_recv_sequence : Z;
  initial_timestamp : Z;
  apply_backoff : Z;
  has_peer : Z;
  initiated : Z;
}.

Definition rttengine_zero : rttengine_stat_t :=
  mk_rttengine_stat_t None (S754_zero false) (S754_zero false) (S754_zero false) (S754_zero false) 0 0 0 0 0 0 0.

(** The global statistics and the number of allocated blocks. *)
Record rudp := mk_rudp { rttengine_stats : rttengine_stat_t; live : Z }.

Definition set_stats (f : rttengine_stat_t -> rttengine_stat_t) (r : rudp) : rudp :=
  mk_rudp (f (rttengine_stats r)) (live r).
Definition free_blocks (n : Z) (r : rudp) : rudp := mk_rudp (rttengine_stats r) (live r - n).
Definition alloc_blocks (n : Z) (r : rudp) : rudp := mk_rudp (rttengine_stats r) (live r + n).

Definition set_sai (v : option (list Z)) (s : rttengine_stat_t) : rttengine_stat_t :=
  mk_rttengine_stat_t v (rtt s) (srtt s) (rttvar s) (rto s) (sequence s) (retries s) (last_recv_sequence s)
    (initial_timestamp s) (apply_backoff s) (has_peer s) (initiated s).
Definition set_rto (v : f32) (s : rttengine_stat_t) : rttengine_stat_t :=
  mk_rttengine_stat_t (sai s) (rtt s) (srtt s) (rttvar s) v (sequence s) (retries s) (last_recv_sequence s)
    (initial_timestamp s) (apply_backoff s) (has_peer s) (initiated s).
Definition set_sequence (v : Z) (s : rttengine_stat_t) : rttengine_stat_t :=
  mk_rttengine_stat_t (sai s) (rtt s) (srtt s) (rttvar s) (rto s) v (retries s) (last_recv_sequence s)
    (initial_timestamp s) (apply_backoff s) (has_peer s) (initiated s).
Definition set_retries (v : Z) (s : rttengine_stat_t) : rttengine_stat_t :=
  mk_rttengine_stat_t (sai s) (rtt s) (srtt s) (rttvar s) (rto s) (sequence s) v (last_recv_sequence s)
    (initial_timestamp s) (apply_backoff s) (has_peer s) (initiated s).
Definition set_apply_backoff (v : Z) (s : rttengine_stat_t) : rttengine_stat_t :=
  mk_rttengine_stat_t (sai s) (rtt s) (srtt s) (rttvar s) (rto s) (sequence s) (retries s) (last_recv_sequence s)
    (initial_timestamp s) v (has_peer s) (initiated s).
Definition set_has_peer (v : Z) (s : rttengine_stat_t) : rttengine_stat_t :=
  mk_rttengine_stat_t (sai s) (rtt s) (srtt s) (rttvar s) (rto s) (sequence s) (retries s) (last_recv_sequence s)
    (initial_timestamp s) (apply_backoff s) v (initiated s).
Definition set_initiated (v : Z) (s : rttengine_stat_t) : rttengine_stat_t :=
  mk_rttengine_stat_t (sai s) (rtt s) (srtt s) (rttvar s) (rto s) (sequence s) (retries s) (last_recv_sequence s)
    (initial_timestamp s) (apply_backoff s) (has_peer s) v.

(** ** The statistics engine *)

(** [None]: the clock could not be read. *)
Definition internal_get_timestamp (s : rttengine_stat_t) (tv : option timeval) : Z :=
  match tv with
  | None => 0
  | Some t => wrap 32 ((tv_sec t - initial_timestamp s) * 1000 + Z.quot (tv_usec t) 1000)
  end.

Definition internal_get_adjusted_rto (v : f32) : f32 :=
  if SFltb v (f32_of_Z RTTENGINE_TMIN) then f32_of_Z RTTENGINE_TMIN else
  if SFltb (f32_of_Z RTTENGINE_TMAX) v then f32_of_Z RTTENGINE_TMAX else v.

Definition rttengine_init (tv : option timeval) (s : rttengine_stat_t) : rttengine_stat_t :=
  if initiated s =? 1 then s else
  let t := default (mk_timeval 0 0) tv in
  mk_rttengine_stat_t (sai s) (f32_of_Z 0) (f32_of_Z 0) (f32_div (f32_of_Z 1) (f32_of_Z 2)) (f32_of_Z RTTENGINE_TMIN)
    240 0 2989 (tv_sec t) 0 0 1.

(** [im] and [om] tell how many of the two messages are released. *)
Definition rttengine_deinit (messages : Z) (r : rudp) : rudp :=
  let r1 := match sai (rttengine_stats r) with
            | Some _ => set_stats (set_sai None) (free_blocks 1 r)
            | None => r
            end in
  set_stats (set_initiated 0) (free_blocks messages r1).

Definition rttengine_update (v : Z) (s : rttengine_stat_t) : rttengine_stat_t :=
  let rtt' := f32_div (f32_of_Z v) (f32_of_Z 1000) in
  let delta := f32_sub rtt' (srtt s) in
  let srtt' := f32_add (srtt s) (f32_mul RTTENGINE_G delta) in
  let abs_delta := if SFltb delta (f32_of_Z 0) then SFopp delta else delta in
  let rttvar' := f32_add (rttvar s) (f32_mul RTTENGINE_H abs_delta) in
  let rto' := internal_get_adjusted_rto (f32_add srtt' (f32_mul (f32_of_Z 4) rttvar')) in
  mk_rttengine_stat_t (sai s) rtt' srtt' rttvar' rto' (sequence s) 0 (last_recv_sequence s)
    (initial_timestamp s) (apply_backoff s) (has_peer s) (initiated s).

(** ** One exchange *)

(** A block of [n] bytes as [malloc] returns it, with any contents. *)
Definition block (n : nat) (contents : nat -> Z) : list Z := contents <$> seq 0 n.

Definition be32 (x : Z) : list Z := rev (le_split 4 x).

(** What [select] and [recv] may answer; a datagram comes with the clock that
    the code reads next. *)
Inductive wait :=
| WTimeout
| WPacket (pkt : list Z) (tv_now : timeval) (stamp : option timeval)
| WRecvError
| WSelectError.

Inductive waited :=
| Expired (im : list Z)
| Got (ret : Z) (im : list Z) (stamp : option timeval)
| Broken
| Waiting.

Fixpoint wait_loop (waits : list wait) (tv_sel tv_beg : timeval) (omh_sequence im : list Z) : waited :=
  match waits with
  | [] => Waiting
  | w :: waits' =>
    if tv_sec tv_sel <? 0 then Broken else
    match w with
    | WTimeout => Expired im
    | WPacket pkt tv_now stamp =>
      let received := take (length im) pkt in
      let im' := blit 0 received im in
      if mem_eqb (take 4 im') omh_sequence
      then Got (Z.of_nat (length received) - Z.of_nat rudp_msghdr_t) im' stamp
      else wait_loop waits' (mk_timeval (tv_sec tv_sel - (tv_sec tv_now - tv_sec tv_beg)) (tv_usec tv_sel)) tv_now
             omh_sequence im'
    | WRecvError | WSelectError => Broken
    end
  end.

Definition tv_of_rto (v : f32) : res timeval :=
  s ← f32_to_Z 64 v;
  u ← f32_to_Z 32 (f32_mul (f32_sub v (f32_of_Z s)) (f32_of_Z 1000));
  Ok (mk_timeval s u).

Record attempt := mk_attempt {
  at_stamp : option timeval;
  at_sent : bool;
  at_beg : timeval;
  at_waits : list wait;
}.

Inductive outcome :=
| Failed
| Replied (ret : Z) (im : list Z) (stamp : option timeval)
| Unfinished.

(** The statistics after a wait in vain. *)
Definition expire (s : rttengine_stat_t) : rttengine_stat_t :=
  let s1 := if apply_backoff s =? 1 then set_rto (internal_get_adjusted_rto (f32_mul (rto s) (f32_of_Z 2))) s else s in
  set_retries (retries s1 + 1) s1.

(** From the label [sendloop]; the datagrams that leave are collected, each with
    the time that [select] is told to wait for an answer. *)
Fixpoint send_loop (attempts : list attempt) (om im : list Z) (r : rudp) : res (outcome * list (list Z * timeval) * rudp) :=
  let s := rttengine_stats r in
  if (retries s =? RTTENGINE_MAXRTT) && (has_peer s =? 0) then Ok (Failed, [], rttengine_deinit 2 r) else
  let r := if retries s =? RTTENGINE_MAXRTT then set_stats (set_apply_backoff 1) r else r in
  if retries s =? RTTENGINE_MAXRT then Ok (Failed, [], rttengine_deinit 2 r) else
  match attempts with
  | [] => Ok (Unfinished, [], r)
  | a :: attempts' =>
    let om := blit 4 (be32 (internal_get_timestamp s (at_stamp a))) om in
    if negb (at_sent a) then Ok (Failed, [], rttengine_deinit 2 r) else
    tv_sel ← tv_of_rto (rto s);
    match wait_loop (at_waits a) tv_sel (at_beg a) (take 4 om) im with
    | Expired im =>
      x ← send_loop attempts' om im (set_stats expire r);
      let '(o, sent, r') := x in Ok (o, (om, tv_sel) :: sent, r')
    | Got ret im stamp => Ok (Replied ret im stamp, [(om, tv_sel)], r)
    | Broken => Ok (Failed, [(om, tv_sel)], rttengine_deinit 2 r)
    | Waiting => Ok (Unfinished, [(om, tv_sel)], r)
    end
  end.

(** [memset] of a message of which only the pointer may be null. *)
Definition clear (n : nat) (m : option (list Z)) : res (option (list Z)) :=
  match m with
  | Some l => Ok (Some (blit 0 (repeat 0 n) l))
  | None => if (n =? 0)%nat then Ok None else Err NullDeref
  end.

(** The result is the return value and the contents of [out]; it is [None]
    when the answers are used up and the call still waits. *)
Definition internal_send_recv (mo mi : option (nat -> Z)) (input out : list Z) (attempts : list attempt) (r : rudp) :
    res (option (Z * list Z) * list (list Z * timeval) * rudp) :=
  let s := rttengine_stats r in
  if initiated s =? 0 then Ok (Some (-1, out), [], r) else
  om ← clear (length input) (block (length input + rudp_msghdr_t) <$> mo);
  im ← clear (length out) (block (length out + rudp_msghdr_t) <$> mi);
  match om, im with
  | Some om, Some im =>
    let r := alloc_blocks 2 r in
    let om := blit 8 input om in
    let om := blit 0 (be32 (Z.lor (sequence s) 4026531840)) om in
    let r := set_stats (set_sequence (wrap 32 (sequence s + 1))) r in
    x ← send_loop attempts om im r;
    match x with
    | (Failed, sent, r') => Ok (Some (-1, out), sent, r')
    | (Unfinished, sent, r') => Ok (None, sent, r')
    | (Replied ret im stamp, sent, r') =>
      ts ← slice 4 4 im;
      let s' := rttengine_stats r' in
      let s' := rttengine_update (wrap 32 (internal_get_timestamp s' stamp - le_load (rev ts))) s' in
      _ ← guard_or OutOfBounds (0 <=? ret);
      data ← slice 8 (Z.to_nat ret) im;
      _ ← guard_or OutOfBounds (Nat.leb (length data) (length out));
      Ok (Some (ret, blit 0 data out), sent,
          free_blocks 2 (set_stats (fun _ => set_retries 0 (set_has_peer 1 s')) r'))
    end
  | _, _ =>
    let n := (if om then 1 else 0) + (if im then 1 else 0) in
    Ok (Some (-1, out), [], rttengine_deinit n (alloc_blocks n r))
  end.

(** ** Connections *)

Definition NetRUDPInit (tv : option timeval) (r : rudp) : rudp :=
  set_stats (fun _ => rttengine_init tv rttengine_zero) r.

Definition NetRUDPDestroy (r : rudp) : Z * rudp := (1, rttengine_deinit 0 r).

Definition sockaddr_in (addr : list Z) (port : Z) : list Z := [0; 2] ++ rev (le_split 2 port) ++ addr ++ repeat 0 8.
Definition sockaddr_in6 (addr : list Z) (port : Z) : list Z :=
  [0; 30] ++ rev (le_split 2 port) ++ repeat 0 4 ++ addr ++ repeat 0 4.

(** [make] builds the address of the family; [resolved] is the answer of the
    name service. *)
Definition internal_get_sai (make : list Z -> Z -> list Z) (resolved : option (list Z)) (malloc : bool) (port : Z) (r : rudp) :
    option (list Z) * rudp :=
  match sai (rttengine_stats r) with
  | Some a => (Some a, r)
  | None =>
    match resolved with
    | None => (None, r)
    | Some addr =>
      if negb malloc then (None, r) else
      let a := make addr port in (Some a, set_stats (set_sai (Some a)) (alloc_blocks 1 r))
    end
  end.

(** The address that the socket is connected to, or the error code. *)
Definition connect_with (make : list Z -> Z -> list Z) (size : nat) (tv : option timeval) (resolved : option (list Z))
    (malloc socket connected : bool) (port : Z) (r : rudp) : res (Z * option (list Z) * rudp) :=
  let r := if initiated (rttengine_stats r) =? 0 then NetRUDPInit tv r else r in
  match internal_get_sai make resolved malloc port r with
  | (None, r) => Ok (-1, None, r)
  | (Some a, r) =>
    if negb socket then Ok (-2, None, r) else
    name ← slice 0 size a;
    if negb connected then Ok (-2, None, r) else Ok (0, Some name, r)
  end.

Definition NetRUDPConnect := connect_with sockaddr_in 16.
Definition NetRUDP6Connect := connect_with sockaddr_in6 28.

Definition NetRUDPClose (r : rudp) : Z * rudp := NetRUDPDestroy r.

(** ** The time to wait *)

(** A time to wait between the two limits. *)
Definition rto_ok (v : f32) : Prop :=
  below 5 v /\ positive v /\ SFltb v (f32_of_Z RTTENGINE_TMIN) = false /\ SFltb (f32_of_Z RTTENGINE_TMAX) v = false.

Lemma two_eq : f32_of_Z 2 = S754_finite false 8388608 (-22).
Proof. by vm_compute. Qed.
Lemma thirty_eq : f32_of_Z 30 = S754_finite false 15728640 (-19).
Proof. by vm_compute. Qed.
Lemma thousand_eq : f32_of_Z 1000 = S754_finite false 16384000 (-14).
Proof. by vm_compute. Qed.

Lemma rto_between s m e k :
  below k (S754_finite s m e) -> SFltb (S754_finite s m e) (f32_of_Z 2) = false ->
  SFltb (f32_of_Z 30) (S754_finite s m e) = false ->
  s = false /\ digits (Zpos m) = 24 /\ (-22 <= e <= -19) /\ (e = -19 -> Zpos m <= 15728640).
Proof.
  rewrite two_eq, thirty_eq. intros [Hc _] H1 H2. rewrite fexp_eq in Hc. unfold SFltb in H1, H2. cbn [SFcompare] in H1, H2.
  destruct s; [done|]. split; [done|].
  destruct (Z.compare_spec e (-22)) as [E1|E1|E1]; [|done|];
    (destruct (Z.compare_spec (-19) e) as [E2|E2|E2]; [|done|]); try lia.
  all: split; [lia|]; split; [lia|]; try lia.
  intros _. change (Pos.compare_cont Eq 15728640 m) with (15728640 ?= Zpos m) in H2.
  destruct (Z.compare_spec 15728640 (Zpos m)); [lia|discriminate H2|lia].
Qed.

Lemma adjusted_ok v k : below k v -> rto_ok (internal_get_adjusted_rto v).
Proof.
  intros Hb. unfold internal_get_adjusted_rto.
  destruct (SFltb v (f32_of_Z RTTENGINE_TMIN)) eqn:E1; [by vm_compute|].
  destruct (SFltb (f32_of_Z RTTENGINE_TMAX) v) eqn:E2; [by vm_compute|].
  destruct v as [| | |s m e]; try done. destruct (rto_between s m e k Hb E1 E2) as (-> & Hd & He & _).
  split; [|done]. destruct Hb as [Hc _]. split; [done|lia].
Qed.

Lemma whole_eq e s :
  -22 <= e <= -19 -> 2 ^ (23 + e) <= s < 2 ^ (24 + e) -> f32_of_Z s = S754_finite false (Z.to_pos (s * 2 ^ (- e))) e.
Proof.
  intros He Hs. assert (e = -22 \/ e = -21 \/ e = -20 \/ e = -19) as [-> | [-> | [-> | ->]]] by lia; cbn in Hs.
  - assert (s = 2 \/ s = 3) as [-> | ->] by lia; by vm_compute.
  - assert (s = 4 \/ s = 5 \/ s = 6 \/ s = 7) as [-> | [-> | [-> | ->]]] by lia; by vm_compute.
  - assert (s = 8 \/ s = 9 \/ s = 10 \/ s = 11 \/ s = 12 \/ s = 13 \/ s = 14 \/ s = 15)
      as [-> | [-> | [-> | [-> | [-> | [-> | [-> | ->]]]]]]] by lia; by vm_compute.
  - assert (s = 16 \/ s = 17 \/ s = 18 \/ s = 19 \/ s = 20 \/ s = 21 \/ s = 22 \/ s = 23 \/
            s = 24 \/ s = 25 \/ s = 26 \/ s = 27 \/ s = 28 \/ s = 29 \/ s = 30 \/ s = 31)
      as [-> | [-> | [-> | [-> | [-> | [-> | [-> | [-> | [-> | [-> | [-> | [-> | [-> | [-> | [-> | ->]]]]]]]]]]]]]]] by lia;
    by vm_compute.
Qed.

(** The time to wait converts to whole seconds between the limits, plus a
    fraction of less than five milliseconds: the code takes the thousandths
    of a second for microseconds. *)
Lemma tv_of_rto_ok v :
  rto_ok v -> exists s u, tv_of_rto v = Ok (mk_timeval s u) /\ RTTENGINE_TMIN <= s <= RTTENGINE_TMAX /\ 0 <= u < 4096.
Proof.
  intros (Hb & _ & H1 & H2). destruct v as [| | |sg m e]; try done.
  destruct (rto_between sg m e 5 Hb H1 H2) as (-> & Hd & He & H30).
  pose proof (digits_pos_bounds m) as Hm. rewrite Hd in Hm. cbn in Hm. change (2 ^ (24 - 1)) with 8388608 in Hm.
  unfold tv_of_rto. set (s := Zpos m / 2 ^ (- e)).
  assert (2 ^ (23 + e) <= s < 2 ^ (24 + e) /\ 2 <= s <= 30 /\ s * 2 ^ (- e) <= Zpos m < s * 2 ^ (- e) + 2 ^ (- e)) as (Hs & Hs' & Hfl).
  { pose proof (Z.div_mod (Zpos m) (2 ^ (- e)) ltac:(apply Z.pow_nonzero; lia)) as E.
    pose proof (Z.mod_pos_bound (Zpos m) (2 ^ (- e)) ltac:(apply Z.pow_pos_nonneg; lia)). fold s in E.
    assert (e = -22 \/ e = -21 \/ e = -20 \/ e = -19) as [-> | [-> | [-> | ->]]] by lia; cbn in *; lia. }
  assert (f32_to_Z 64 (S754_finite false m e) = Ok s) as ->.
  { cbn [f32_to_Z cond_Zopp]. rewrite Z.shiftl_div_pow2 by lia. fold s.
    destruct (Z.leb_spec (- 2 ^ (64 - 1)) s); [|lia]. destruct (Z.ltb_spec s (2 ^ (64 - 1))); [done|lia]. }
  cbn [mbind res_bind]. rewrite (whole_eq e s He Hs). pose proof (Z.pow_pos_nonneg 2 (- e) ltac:(lia) ltac:(lia)) as Hp.
  assert (below 1 (f32_sub (S754_finite false m e) (S754_finite false (Z.to_pos (s * 2 ^ (- e))) e)) /\
          positive (f32_sub (S754_finite false m e) (S754_finite false (Z.to_pos (s * 2 ^ (- e))) e))) as [Hfb Hfp].
  { unfold f32_sub. cbn [SFsub]. rewrite Z.min_id. unfold shl_align. replace (e - e) with 0 by lia. cbn [fst cond_Zopp].
    rewrite Z2Pos.id by nia.
    assert (below (0 + 1) (binary_normalize 24 128 (Zpos m - s * 2 ^ (- e)) e false)) as Hn.
    { apply normalize_below; [|lia]. pose proof (digits_le (Zpos m - s * 2 ^ (- e)) (- e)). lia. }
    split; [exact Hn|]. eapply normalize_positive; [exact Hn|lia]. }
  set (fr := f32_sub _ _) in *.
  assert (below (1 + 10 + 1) (f32_mul fr (f32_of_Z 1000))) as Hmb by (apply f32_mul_below; [done|by vm_compute|lia]).
  destruct (f32_to_Z_below 32 (f32_mul fr (f32_of_Z 1000)) 12 Hmb) as (u & -> & Hu); [|lia|].
  { eapply f32_mul_positive; [exact Hmb|done|by vm_compute]. }
  exists s, u. split; [done|]. split; [exact Hs'|exact Hu].
Qed.

(** ** The statistics *)

(** [stats_ok k s]: no statistic is infinite or not a number. *)
Definition stats_ok (k : Z) (s : rttengine_stat_t) : Prop :=
  below k (srtt s) /\ below k (rttvar s) /\ rto_ok (rto s).

Lemma below_opp k x : below k x -> below k (SFopp x).
Proof. by destruct x. Qed.

Lemma G_below : below (-2) RTTENGINE_G.
Proof. by vm_compute. Qed.
Lemma H_below : below (-1) RTTENGINE_H.
Proof. by vm_compute. Qed.
Lemma four_below : below 3 (f32_of_Z 4).
Proof. by vm_compute. Qed.

Lemma mul_below {c k1} (Hc : below k1 c) k x : below k x -> -149 <= k1 + k < 128 -> below (k1 + k + 1) (f32_mul c x).
Proof. intros. by apply f32_mul_below. Qed.

Lemma update_ok k v s :
  25 <= k <= 117 -> stats_ok k s -> stats_ok (k + 4) (rttengine_update (wrap 32 v) s).
Proof.
  intros Hk (Hs & Hv & _). unfold rttengine_update.
  assert (below 25 (f32_div (f32_of_Z (wrap 32 v)) (f32_of_Z 1000))) as Hr.
  { rewrite thousand_eq. apply (f32_div_below _ _ _ _ 33 10); [|by vm_compute|lia].
    apply (f32_of_Z_below _ 32); [lia|]. unfold wrap. pose proof (Z.mod_pos_bound v (2 ^ 32)). lia. }
  set (rtt' := f32_div _ _) in *.
  assert (below (k + 2) (f32_sub rtt' (srtt s))) as Hd by (apply f32_sub_below; [eapply below_mono; [exact Hr|lia]|assumption|lia]).
  set (delta := f32_sub _ _) in *.
  assert (below (k + 2) (if SFltb delta (f32_of_Z 0) then SFopp delta else delta)) as Ha
    by (destruct (SFltb _ _); [by apply below_opp|assumption]).
  set (ad := if SFltb delta _ then _ else _) in *.
  assert (below (k + 1) (f32_mul RTTENGINE_G delta)) as Hg.
  { replace (k + 1) with (-2 + (k + 2) + 1) by lia. by apply (mul_below G_below); [|lia]. }
  assert (below (k + 2) (f32_mul RTTENGINE_H ad)) as Hh.
  { replace (k + 2) with (-1 + (k + 2) + 1) by lia. by apply (mul_below H_below); [|lia]. }
  assert (below (k + 3) (f32_add (srtt s) (f32_mul RTTENGINE_G delta))) as Hs'.
  { replace (k + 3) with (k + 1 + 2) by lia. apply f32_add_below; [eapply below_mono; [eassumption|lia]|assumption|lia]. }
  assert (below (k + 4) (f32_add (rttvar s) (f32_mul RTTENGINE_H ad))) as Hv'.
  { replace (k + 4) with (k + 2 + 2) by lia. apply f32_add_below; [eapply below_mono; [eassumption|lia]|assumption|lia]. }
  split; [|split]; cbn [srtt rttvar rto]; [eapply below_mono; [exact Hs'|lia]|exact Hv'|].
  eapply adjusted_ok. apply (f32_add_below _ _ (k + 8)); [eapply below_mono; [exact Hs'|lia]| |lia].
  replace (k + 8) with (3 + (k + 4) + 1) by lia. by apply (mul_below four_below); [|lia].
Qed.

Lemma backoff_ok v : rto_ok v -> rto_ok (internal_get_adjusted_rto (f32_mul v (f32_of_Z 2))).
Proof. intros (H & _). apply (adjusted_ok _ 8), (f32_mul_below _ _ 5 2); [done|by vm_compute|lia]. Qed.

Lemma expire_ok k s : stats_ok k s -> stats_ok k (expire s).
Proof.
  intros (H1 & H2 & H3). unfold expire. destruct (apply_backoff s =? 1); [|done].
  split; [done|]. split; [done|]. by apply backoff_ok.
Qed.

Lemma init_ok tv : stats_ok 25 (rttengine_init tv rttengine_zero).
Proof. by vm_compute. Qed.

(** ** Waiting *)

(** A datagram that holds at least a header. *)
Definition wait_ok (w : wait) : Prop := match w with WPacket pkt _ _ => (8 <= length pkt)%nat | _ => True end.

Lemma blit_0_take l src : (length src <= length l)%nat -> take (length src) (blit 0 src l) = src.
Proof. intros H. pose proof (take_blit 0 src l ltac:(lia)) as E. by rewrite take_0 in E. Qed.

(** A datagram goes to the front of the message. *)
Lemma receive_ok (im pkt : list Z) :
  (8 <= length im)%nat -> (8 <= length pkt)%nat ->
  let received := take (length im) pkt in
  length received = Nat.min (length im) (length pkt) /\ length (blit 0 received im) = length im /\
  take (length received) (blit 0 received im) = received /\ take 4 (blit 0 received im) = take 4 pkt.
Proof.
  intros Him Hp received.
  assert (length received = Nat.min (length im) (length pkt)) as Hr by apply length_take.
  assert (take (length received) (blit 0 received im) = received) as Ht by (apply blit_0_take; lia).
  split; [done|]. split; [apply length_blit; lia|]. split; [done|].
  replace (take 4 (blit 0 received im)) with (take 4 (take (length received) (blit 0 received im)))
    by (rewrite take_take; f_equal; lia). rewrite Ht. unfold received. rewrite take_take. f_equal. lia.
Qed.

Lemma wait_loop_ok waits tv_sel tv_beg sq im :
  Forall wait_ok waits -> (8 <= length im)%nat ->
  match wait_loop waits tv_sel tv_beg sq im with
  | Expired im' => length im' = length im
  | Got ret im' stamp => exists pkt tv_now, WPacket pkt tv_now stamp ∈ waits /\ take 4 pkt = sq /\ (8 <= length pkt)%nat /\
      ret = Z.of_nat (Nat.min (length im) (length pkt)) - 8 /\ length im' = length im /\
      take (Nat.min (length im) (length pkt)) im' = take (length im) pkt
  | _ => True
  end.
Proof.
  intros Hw. revert tv_sel tv_beg im. induction Hw as [|w waits Hw _ IH]; intros tv_sel tv_beg im Him; cbn [wait_loop]; [done|].
  destruct (tv_sec tv_sel <? 0); [done|]. destruct w as [|pkt tv_now stamp| |]; try done. cbn in Hw.
  destruct (receive_ok im pkt Him Hw) as (Hr & Hl & Ht & H4). set (received := take (length im) pkt) in *.
  destruct (mem_eqb _ _) eqn:E.
  - apply mem_eqb_true in E. exists pkt, tv_now. split; [by left|]. split; [congruence|].
    split; [done|]. rewrite Hr in *. done.
  - specialize (IH (mk_timeval (tv_sec tv_sel - (tv_sec tv_now - tv_sec tv_beg)) (tv_usec tv_sel)) tv_now
      (blit 0 received im) ltac:(lia)). rewrite Hl in IH.
    destruct (wait_loop _ _ _ _ _) as [im'|ret im' stamp'| |]; try done.
    destruct IH as (p & t & Hin & Hrest). exists p, t. split; [by right|done].
Qed.

(** ** Sending *)

Definition attempts_ok (attempts : list attempt) : Prop := Forall (fun a => Forall wait_ok (at_waits a)) attempts.

(** A datagram of one exchange: only the time stamp differs between copies. *)
Definition framed (sq input d : list Z) : Prop := exists ts, length ts = 4%nat /\ d = sq ++ ts ++ input.

(** A time to wait between the limits, in seconds; the microseconds are what the
    code makes of the fraction, which never reach 5 milliseconds. *)
Definition timely (tv : timeval) : Prop := RTTENGINE_TMIN <= tv_sec tv <= RTTENGINE_TMAX /\ 0 <= tv_usec tv < 5000.

(** What leaves, and the wait that follows. *)
Definition copy_ok (sq input : list Z) (x : list Z * timeval) : Prop := framed sq input x.1 /\ timely x.2.

Definition max_tries (s : rttengine_stat_t) : Z := if has_peer s =? 0 then RTTENGINE_MAXRTT else RTTENGINE_MAXRT.

Definition arrives (attempts : list attempt) (pkt : list Z) (stamp : option timeval) : Prop :=
  exists a tv_now, a ∈ attempts /\ WPacket pkt tv_now stamp ∈ at_waits a.

(** What a failure leaves: nothing of the connection. *)
Definition torn_down (r r' : rudp) : Prop :=
  sai (rttengine_stats r') = None /\ initiated (rttengine_stats r') = 0 /\
  live r' = live r - (if sai (rttengine_stats r) then 1 else 0).

Definition same_connection (s s' : rttengine_stat_t) : Prop :=
  sai s' = sai s /\ srtt s' = srtt s /\ rttvar s' = rttvar s /\ sequence s' = sequence s /\
  has_peer s' = has_peer s /\ initiated s' = initiated s.

(** The reply [pkt] fills the message [im]. *)
Definition fills (ret : Z) (n : nat) (pkt im : list Z) : Prop :=
  (8 <= length pkt)%nat /\ ret = Z.of_nat (Nat.min n (length pkt)) - 8 /\ length im = n /\
  take (Nat.min n (length pkt)) im = take n pkt.

Definition loop_result (attempts : list attempt) (sq : list Z) (n : nat) (r : rudp) (o : outcome) (r' : rudp) : Prop :=
  match o with
  | Failed => torn_down (free_blocks 2 r) r'
  | Replied ret im stamp =>
    exists pkt, arrives attempts pkt stamp /\ take 4 pkt = sq /\ fills ret n pkt im /\
      same_connection (rttengine_stats r) (rttengine_stats r') /\ live r' = live r /\ rto_ok (rto (rttengine_stats r'))
  | Unfinished => True
  end.

Lemma deinit_torn_down n r : torn_down (free_blocks n r) (rttengine_deinit n r).
Proof. unfold torn_down, rttengine_deinit. destruct r as [s l]. cbn. destruct (sai s) eqn:E; cbn; rewrite ?E; split_and!; try done; lia. Qed.

Lemma deinit_backoff n (b : bool) r :
  torn_down (free_blocks n r) (rttengine_deinit n (if b then set_stats (set_apply_backoff 1) r else r)).
Proof. destruct b; [apply (deinit_torn_down n (set_stats (set_apply_backoff 1) r))|apply deinit_torn_down]. Qed.

Lemma framed_stamp sq input om t : length sq = 4%nat -> framed sq input om -> framed sq input (blit 4 (be32 t) om).
Proof.
  intros Hs (ts & Ht & ->). exists (be32 t). unfold be32. rewrite length_rev, length_le_split. split; [done|].
  unfold blit. rewrite length_rev, length_le_split. rewrite take_app_exact by done. f_equal. f_equal.
  rewrite app_assoc. apply drop_app_exact. rewrite length_app. lia.
Qed.

Lemma framed_sequence sq input om : length sq = 4%nat -> framed sq input om -> take 4 om = sq.
Proof. intros Hs (ts & _ & ->). by apply take_app_exact. Qed.

Lemma expire_same s : same_connection s (expire s) /\ retries (expire s) = retries s + 1.
Proof. unfold expire. by destruct (apply_backoff s =? 1). Qed.

Lemma expire_backoff (b : bool) r :
  let s := rttengine_stats r in
  let s1 := rttengine_stats (set_stats expire (if b then set_stats (set_apply_backoff 1) r else r)) in
  same_connection s s1 /\ retries s1 = retries s + 1 /\ (forall k, stats_ok k s -> stats_ok k s1).
Proof.
  intros s s1. unfold s1. destruct b.
  - pose proof (expire_same (set_apply_backoff 1 s)) as [H1 H2]. split; [exact H1|]. split; [exact H2|].
    intros k Hk. apply expire_ok. exact Hk.
  - pose proof (expire_same s) as [H1 H2]. split; [exact H1|]. split; [exact H2|]. intros k. apply expire_ok.
Qed.

Lemma loop_result_expire a attempts sq n r b o r' :
  let s := rttengine_stats r in
  let r1 := set_stats expire (if b : bool then set_stats (set_apply_backoff 1) r else r) in
  loop_result attempts sq n r1 o r' -> loop_result (a :: attempts) sq n r o r'.
Proof.
  intros s r1. assert (same_connection s (rttengine_stats r1) /\ live r1 = live r) as [Hs Hl].
  { split; [apply expire_backoff|]. unfold r1. by destruct b. }
  clearbody r1. subst s. destruct Hs as (S1 & S2 & S3 & S4 & S5 & S6). destruct o as [|ret im stamp|]; [| |done]; cbn [loop_result].
  - unfold torn_down. cbn [free_blocks rttengine_stats live]. by rewrite S1, Hl.
  - intros (pkt & (a' & t & Hin & Hp) & Hsq & Hf & (T1 & T2 & T3 & T4 & T5 & T6) & Hlive & Hrto).
    exists pkt. split; [exists a', t; split; [by right|done]|]. split; [done|]. split; [done|].
    split; [|split; [congruence|done]]. split_and!; congruence.
Qed.

Lemma max_tries_range s : 3 <= max_tries s <= 8.
Proof. unfold max_tries, RTTENGINE_MAXRTT, RTTENGINE_MAXRT. destruct (has_peer s =? 0); lia. Qed.

(** Before each copy is sent, fewer than the limit were sent. *)
Lemma tries_left s :
  0 <= retries s <= max_tries s -> (retries s =? RTTENGINE_MAXRTT) && (has_peer s =? 0) = false ->
  (retries s =? RTTENGINE_MAXRT) = false -> retries s + 1 <= max_tries s.
Proof.
  unfold max_tries, RTTENGINE_MAXRTT, RTTENGINE_MAXRT.
  destruct (Z.eqb_spec (retries s) 3), (Z.eqb_spec (retries s) 8), (has_peer s =? 0); cbn [andb]; (lia || done).
Qed.

Lemma send_loop_ok attempts k om im r sq input :
  attempts_ok attempts -> stats_ok k (rttengine_stats r) -> 0 <= retries (rttengine_stats r) <= max_tries (rttengine_stats r) ->
  length sq = 4%nat -> framed sq input om -> (8 <= length im)%nat ->
  exists o sent r', send_loop attempts om im r = Ok (o, sent, r') /\ Forall (copy_ok sq input) sent /\
    retries (rttengine_stats r) + Z.of_nat (length sent) <= max_tries (rttengine_stats r) /\
    loop_result attempts sq (length im) r o r'.
Proof.
  intros Ha Hok Hret Hsq Hom Him. revert om im r Hok Hret Hom Him.
  induction Ha as [|a attempts Ha _ IH]; intros om im r Hok Hret Hom Him; cbn [send_loop]; set (s := rttengine_stats r) in *.
  all: destruct (_ && (has_peer s =? 0)) eqn:G;
    [eexists Failed, [], _; split; [done|]; split; [constructor|]; split; [cbn; lia|apply deinit_torn_down]|].
  all: set (b := retries s =? RTTENGINE_MAXRTT) in *; destruct (retries s =? RTTENGINE_MAXRT) eqn:E8;
    [eexists Failed, [], _; split; [done|]; split; [constructor|]; split; [cbn; lia|apply deinit_backoff]|].
  { eexists Unfinished, [], _. split; [done|]. split; [constructor|]. split; [cbn; lia|done]. }
  pose proof (tries_left s Hret G E8) as Hlt. set (om' := blit 4 _ om).
  assert (framed sq input om') as Hom' by by apply framed_stamp.
  destruct (at_sent a); cbn [negb].
  2: { eexists Failed, [], _. split; [done|]. split; [constructor|]. split; [cbn; lia|apply deinit_backoff]. }
  destruct (tv_of_rto_ok (rto s)) as (sec & u & -> & Hsec & Hu); [apply Hok|]. cbn [mbind res_bind].
  assert (copy_ok sq input (om', mk_timeval sec u)) as Hcopy by (split; [done|]; split; [exact Hsec|cbn; lia]).
  rewrite (framed_sequence sq input om' Hsq Hom').
  pose proof (wait_loop_ok (at_waits a) (mk_timeval sec u) (at_beg a) sq im Ha Him) as Hw.
  destruct (wait_loop _ _ _ _ _) as [im'|ret im' stamp| |].
  - set (r1 := set_stats expire _).
    assert (same_connection s (rttengine_stats r1) /\ retries (rttengine_stats r1) = retries s + 1 /\ stats_ok k (rttengine_stats r1))
      as ((S1 & S2 & S3 & S4 & S5 & S6) & Hr1 & Hok1).
    { pose proof (expire_backoff b r) as (H1 & H2 & H3). split; [exact H1|]. split; [exact H2|by apply H3]. }
    assert (max_tries (rttengine_stats r1) = max_tries s) as Hmt by (unfold max_tries; by rewrite S5).
    destruct (IH om' im' r1) as (o & sent & r' & -> & Hf & Hn & Hres); [done|lia|done|lia|].
    cbn [mbind res_bind]. exists o, ((om', mk_timeval sec u) :: sent), r'. split; [done|]. split; [by constructor|].
    split; [cbn [length]; lia|]. rewrite Hw in Hres. by eapply loop_result_expire.
  - destruct Hw as (pkt & t & Hin & Ht & Hfill). eexists _, _, _. split; [done|]. split; [by apply list.Forall_singleton|].
    split; [cbn; lia|]. exists pkt. split; [exists a, t; split; [by left|done]|]. split; [done|]. split; [exact Hfill|].
    unfold b. destruct (retries s =? RTTENGINE_MAXRTT); split_and!; try done; apply Hok.
  - eexists _, _, _. split; [done|]. split; [by apply list.Forall_singleton|]. split; [cbn; lia|]. apply deinit_backoff.
  - eexists _, _, _. split; [done|]. split; [by apply list.Forall_singleton|]. split; [cbn; lia|]. done.
Qed.

(** ** One exchange *)

(** An engine between two exchanges. *)
Definition engine_ok (k : Z) (r : rudp) : Prop :=
  let s := rttengine_stats r in initiated s = 1 /\ retries s = 0 /\ stats_ok k s.

Definition sequence_bytes (n : Z) : list Z := be32 (Z.lor n 4026531840).

(** The first bytes of [pkt] after the header, as many as fit, go to [out]. *)
Definition received_into (out pkt : list Z) (ret : Z) (out' : list Z) : Prop :=
  ret = Z.min (Z.of_nat (length out)) (Z.of_nat (length pkt) - 8) /\ 0 <= ret /\
  out' = take (Z.to_nat ret) (drop 8 pkt) ++ drop (Z.to_nat ret) out.

Definition exchange_result (k : Z) (attempts : list attempt) (out : list Z) (r : rudp) (o : option (Z * list Z)) (r' : rudp) : Prop :=
  match o with
  | None => True
  | Some (ret, out') =>
    (ret = -1 /\ out' = out /\ torn_down r r') \/
    (exists pkt stamp, arrives attempts pkt stamp /\ take 4 pkt = sequence_bytes (sequence (rttengine_stats r)) /\
       received_into out pkt ret out' /\ engine_ok (k + 4) r' /\ has_peer (rttengine_stats r') = 1 /\
       sai (rttengine_stats r') = sai (rttengine_stats r) /\ live r' = live r /\
       sequence (rttengine_stats r') = wrap 32 (sequence (rttengine_stats r) + 1))
  end.

Lemma length_block n g : length (block n g) = n.
Proof. unfold block. by rewrite length_fmap, length_seq. Qed.

Lemma framed_new sq input l :
  length sq = 4%nat -> length l = (length input + 8)%nat -> framed sq input (blit 0 sq (blit 8 input l)).
Proof.
  intros Hs Hl. exists (drop 4 (take 8 l)). split; [rewrite length_drop, length_take; lia|].
  unfold blit at 1. rewrite take_0, Hs. cbn [app Nat.add]. f_equal.
  unfold blit. rewrite (drop_ge l (8 + length input)) by lia. rewrite app_nil_r.
  rewrite drop_app_le by (rewrite length_take; lia). done.
Qed.

Lemma take_drop_prefix k m n (l l' : list Z) :
  take n l = take n l' -> (k + m <= n)%nat -> take m (drop k l) = take m (drop k l').
Proof.
  intros H Hle. rewrite !take_drop_commute. f_equal.
  rewrite <- (Nat.min_l (k + m) n) by done. by rewrite <- !take_take, H.
Qed.

Lemma exchange_ok k mo mi input out attempts r :
  engine_ok k r -> 25 <= k <= 117 -> attempts_ok attempts ->
  exists o sent r', internal_send_recv (Some mo) (Some mi) input out attempts r = Ok (o, sent, r') /\
    Forall (copy_ok (sequence_bytes (sequence (rttengine_stats r))) input) sent /\
    Z.of_nat (length sent) <= max_tries (rttengine_stats r) /\ exchange_result k attempts out r o r'.
Proof.
  intros (Hi & Hr & Hok) Hk Ha. unfold internal_send_recv. rewrite Hi. cbn [Z.eqb fmap option_fmap option_map clear mbind res_bind].
  set (om0 := blit 0 (repeat 0 (length input)) _). set (im := blit 0 (repeat 0 (length out)) _).
  assert (length om0 = (length input + 8)%nat /\ length im = (length out + 8)%nat) as [Hom0 Him].
  { split; unfold om0, im; rewrite length_blit; rewrite ?repeat_length, length_block; unfold rudp_msghdr_t; lia. }
  set (sq := sequence_bytes (sequence (rttengine_stats r))).
  assert (length sq = 4%nat) as Hsq by (unfold sq, sequence_bytes, be32; by rewrite length_rev, length_le_split).
  change (be32 (Z.lor (sequence (rttengine_stats r)) 4026531840)) with sq.
  set (r1 := set_stats _ (alloc_blocks 2 r)).
  destruct (send_loop_ok attempts k (blit 0 sq (blit 8 input om0)) im r1 sq input) as (o & sent & r' & -> & Hf & Hn & Hres);
    [done|exact Hok|change (retries (rttengine_stats r1)) with (retries (rttengine_stats r)); rewrite Hr; pose proof (max_tries_range (rttengine_stats r1)); lia|done|by apply framed_new|lia|].
  cbn [mbind res_bind]. cbn in Hn. rewrite Hr in Hn. destruct o as [|ret im' stamp|]; cbn [loop_result] in Hres.
  - eexists _, _, _. split; [done|]. split; [done|]. split; [exact Hn|]. left. split; [done|]. split; [done|].
    destruct Hres as (H1 & H2 & H3). split; [done|]. split; [done|]. rewrite H3. cbn. destruct (sai _); lia.
  - destruct Hres as (pkt & Harr & Ht & (Hp & Hret & Hl & Hfill) & (S1 & S2 & S3 & S4 & S5 & S6) & Hlive & Hrto).
    rewrite Him in *. rewrite slice_ok by lia. cbn [mbind res_bind].
    set (ts := take 4 (drop 4 im')). assert (0 <= ret) as Hret0 by lia.
    destruct (Z.leb_spec 0 ret); [|lia]. cbn [guard_or mbind res_bind]. rewrite slice_ok by lia. cbn [mbind res_bind].
    assert (take (Z.to_nat ret) (drop 8 im') = take (Z.to_nat ret) (drop 8 pkt)) as Hdata.
    { apply (take_drop_prefix _ _ (Nat.min (length out + 8) (length pkt))); [|lia]. rewrite Hfill.
      destruct (Nat.le_ge_cases (length out + 8) (length pkt)); [by rewrite Nat.min_l by done|].
      rewrite Nat.min_r by done. rewrite !take_ge by lia. done. }
    rewrite Hdata. assert (length (take (Z.to_nat ret) (drop 8 pkt)) = Z.to_nat ret) as Hld by (rewrite length_take, length_drop; lia).
    rewrite Hld. destruct (Nat.leb_spec (Z.to_nat ret) (length out)); [|lia]. cbn [guard_or mbind res_bind].
    eexists _, _, _. split; [done|]. split; [done|]. split; [exact Hn|]. right. exists pkt, stamp.
    split; [done|]. split; [done|]. split.
    { split; [lia|]. split; [done|]. unfold blit. by rewrite take_0, Hld. }
    split; [|cbn; rewrite S1, S4, Hlive; split_and!; try done; cbn; lia].
    split; [exact (eq_trans S6 Hi)|]. split; [done|].
    assert (stats_ok k (rttengine_stats r')) as Hk' by (destruct Hok as (K1 & K2 & _); split; [by rewrite S2|]; split; [by rewrite S3|done]).
    exact (update_ok k _ _ Hk Hk').
  - eexists _, _, _. split; [done|]. split; [done|]. split; [exact Hn|done].
Qed.

(** ** Sessions *)

Record call := mk_call {
  c_mo : nat -> Z;
  c_mi : nat -> Z;
  c_in : list Z;
  c_out : list Z;
  c_attempts : list attempt;
}.

(** The exchanges of a connection, up to the first one that still waits. *)
Fixpoint session (calls : list call) (r : rudp) : res (list (option (Z * list Z) * list (list Z * timeval)) * rudp) :=
  match calls with
  | [] => Ok ([], r)
  | c :: calls' =>
    x ← internal_send_recv (Some (c_mo c)) (Some (c_mi c)) (c_in c) (c_out c) (c_attempts c) r;
    let '(o, sent, r1) := x in
    match o with
    | None => Ok ([(o, sent)], r1)
    | Some _ => y ← session calls' r1; let '(log, r2) := y in Ok ((o, sent) :: log, r2)
    end
  end.

(** What the exchange number [n] may show. *)
Definition exchange_seen (n : Z) (c : call) (x : option (Z * list Z) * list (list Z * timeval)) : Prop :=
  Forall (copy_ok (sequence_bytes n) (c_in c)) x.2 /\ Z.of_nat (length x.2) <= RTTENGINE_MAXRT /\
  forall ret out', x.1 = Some (ret, out') ->
    (ret = -1 /\ out' = c_out c) \/
    exists pkt stamp, arrives (c_attempts c) pkt stamp /\ take 4 pkt = sequence_bytes n /\ received_into (c_out c) pkt ret out'.

Lemma sequence_bytes_inj n m : 0 <= n < 2 ^ 28 -> 0 <= m < 2 ^ 28 -> sequence_bytes n = sequence_bytes m -> n = m.
Proof.
  intros Hn Hm E. unfold sequence_bytes, be32 in E. apply (f_equal (fun l => le_load (rev l))) in E.
  rewrite !rev_involutive, !le_load_split in E. apply (f_equal (fun x => Z.land x (Z.ones 28))) in E.
  assert (forall a, 0 <= a < 2 ^ 28 -> Z.land (Z.lor a 4026531840 mod 256 ^ Z.of_nat 4) (Z.ones 28) = a) as H.
  { intros a Ha. change (256 ^ Z.of_nat 4) with (2 ^ 32). rewrite <- (Z.land_ones _ 32) by lia.
    rewrite <- Z.land_assoc. change (Z.land (Z.ones 32) (Z.ones 28)) with (Z.ones 28).
    rewrite Z.land_lor_distr_l. change (Z.land 4026531840 (Z.ones 28)) with 0. rewrite Z.lor_0_r, Z.land_ones by lia.
    by apply Z.mod_small. }
  by rewrite !H in E.
Qed.

(** Once the engine is down, nothing is sent any more. *)
Lemma session_down calls r n :
  initiated (rttengine_stats r) = 0 ->
  exists log, session calls r = Ok (log, r) /\
    forall i c x, calls !! i = Some c -> log !! i = Some x -> exchange_seen (n + Z.of_nat i) c x.
Proof.
  intros H. revert n. induction calls as [|c calls IH]; intros n; cbn [session].
  { exists []. split; [done|]. by intros i c x E. }
  unfold internal_send_recv. rewrite H. cbn [Z.eqb mbind res_bind]. destruct (IH (n + 1)) as (log & -> & Hlog).
  cbn [mbind res_bind]. eexists. split; [done|]. intros [|i] c' x; cbn [lookup list_lookup].
  - intros [= <-] [= <-]. split; [constructor|]. split; [done|]. intros ret out' [= <- <-]. by left.
  - intros E1 E2. specialize (Hlog i c' x E1 E2). by replace (n + Z.of_nat (S i)) with (n + 1 + Z.of_nat i) by lia.
Qed.

Lemma session_ok calls k n base r :
  engine_ok k r -> 25 <= k -> k + 4 * Z.of_nat (length calls) <= 121 ->
  sequence (rttengine_stats r) = n -> 0 <= n -> n + Z.of_nat (length calls) < 2 ^ 28 ->
  live r = base + (if sai (rttengine_stats r) then 1 else 0) -> Forall (fun c => attempts_ok (c_attempts c)) calls ->
  exists log r', session calls r = Ok (log, r') /\
    (Forall (fun x => is_Some x.1) log -> live r' = base + (if sai (rttengine_stats r') then 1 else 0)) /\
    forall i c x, calls !! i = Some c -> log !! i = Some x -> exchange_seen (n + Z.of_nat i) c x.
Proof.
  intros Hok Hk Hlen Hn Hn0 Hmax Hlive Hc. revert k n r Hok Hk Hlen Hn Hn0 Hmax Hlive.
  induction Hc as [|c calls Hc _ IH]; intros k n r Hok Hk Hlen Hn Hn0 Hmax Hlive; cbn [session].
  { exists [], r. split; [done|]. split; [done|]. by intros i c x E. }
  cbn [length] in Hlen, Hmax.
  destruct (exchange_ok k (c_mo c) (c_mi c) (c_in c) (c_out c) (c_attempts c) r Hok ltac:(lia) Hc)
    as (o & sent & r1 & -> & Hf & Hlen1 & Hres).
  rewrite Hn in Hf. pose proof (max_tries_range (rttengine_stats r)) as Hmt. cbn [mbind res_bind].
  assert (exchange_seen n c (o, sent)) as Hseen.
  { split; [done|]. split; [cbn; unfold RTTENGINE_MAXRT; lia|]. cbn [fst]. intros ret out' ->.
    destruct Hres as [(-> & -> & _)|(pkt & stamp & H1 & H2 & H3 & _)]; [by left|right]. rewrite Hn in H2. by exists pkt, stamp. }
  destruct o as [[ret out']|].
  2: { eexists _, _. split; [done|]. split; [by intros [[? [=]] _]%list.Forall_cons|].
       intros [|i] c' x; [|done]. intros [= <-] [= <-]. by rewrite Z.add_0_r. }
  assert (exists log r', session calls r1 = Ok (log, r') /\
    (Forall (fun x => is_Some x.1) log -> live r' = base + (if sai (rttengine_stats r') then 1 else 0)) /\
    forall i c x, calls !! i = Some c -> log !! i = Some x -> exchange_seen (n + 1 + Z.of_nat i) c x)
    as (log & r' & -> & Hl & Hlog).
  { destruct Hres as [(_ & _ & H1 & H2 & H3)|(pkt & stamp & _ & _ & _ & H1 & H2 & H3 & H4 & H5)].
    - destruct (session_down calls r1 (n + 1) H2) as (log & -> & Hlog). exists log, r1. split; [done|]. split; [|done].
      intros _. rewrite H1, H3, Hlive. lia.
    - apply (IH (k + 4)); try lia; [done|rewrite H5, Hn; unfold wrap; apply Z.mod_small; lia|by rewrite H3, H4]. }
  cbn [mbind res_bind]. eexists _, _. split; [done|]. split; [by intros [_ H]%list.Forall_cons; apply Hl|].
  intros [|i] c' x; cbn [lookup list_lookup].
  - intros [= <-] [= <-]. by rewrite Z.add_0_r.
  - intros E1 E2. specialize (Hlog i c' x E1 E2). by replace (n + Z.of_nat (S i)) with (n + 1 + Z.of_nat i) by lia.
Qed.

Lemma length_sockaddr_in addr port : length (sockaddr_in addr port) = (12 + length addr)%nat.
Proof. unfold sockaddr_in. rewrite !length_app, length_rev, length_le_split, repeat_length. cbn. lia. Qed.

(** (C29) A connection over IPv4 that was made is safe for 23 exchanges, more than the
    16 that the sequence numbers allow with old servers: whatever comes back, as long
    as every datagram holds a header of eight bytes and both blocks of each exchange
    can be allocated (the code tests neither in time), no call faults and no memory
    is lost; there are at most 8 copies of a request, which differ only in their
    time stamp, and after each copy the client asks to wait for its answer from 2 to
    30 seconds, to which less than 5 milliseconds may be added (the code stores the
    milliseconds of the estimate as microseconds: a finding); and a call returns the data of a datagram that bears its own sequence
    number, which no other call of the session has, or -1. *)
Theorem rudp_session_safe tv addr port base calls s :
  initiated s = 0 -> (length calls <= 23)%nat -> length addr = 4%nat -> Forall (fun c => attempts_ok (c_attempts c)) calls ->
  exists r0 log r', NetRUDPConnect tv (Some addr) true true true port (mk_rudp s base) = Ok (0, Some (sockaddr_in addr port), r0) /\
    session calls r0 = Ok (log, r') /\
    (Forall (fun x => is_Some x.1) log -> live (NetRUDPClose r').2 = base) /\
    (forall i c x, calls !! i = Some c -> log !! i = Some x -> exchange_seen (240 + Z.of_nat i) c x) /\
    (forall i j, (i < length calls)%nat -> (j < length calls)%nat ->
       sequence_bytes (240 + Z.of_nat i) = sequence_bytes (240 + Z.of_nat j) -> i = j).
Proof.
  intros Hi Hlen Haddr Hc. unfold NetRUDPConnect, connect_with. cbn [rttengine_stats]. rewrite Hi. cbn [Z.eqb].
  unfold internal_get_sai. cbn [NetRUDPInit set_stats rttengine_stats rttengine_init rttengine_zero sai initiated Z.eqb negb].
  rewrite slice_ok by (rewrite length_sockaddr_in; lia). cbn [mbind res_bind].
  rewrite drop_0, (take_ge (sockaddr_in addr port)) by (rewrite length_sockaddr_in; lia).
  set (r0 := set_stats _ _).
  destruct (session_ok calls 25 240 base r0) as (log & r' & E & Hl & Hlog); try (done || lia).
  exists r0, log, r'. split; [done|]. split; [done|]. split; [|split; [done|]].
  - intros H. specialize (Hl H). unfold NetRUDPClose, NetRUDPDestroy, rttengine_deinit. cbn [snd].
    destruct (sai (rttengine_stats r')); cbn; lia.
  - intros i j Hi' Hj' E'. apply sequence_bytes_inj in E'; lia.
Qed.

(** ** A silent server *)

(** The request leaves and nothing comes back. *)
Definition unanswered (a : attempt) : Prop := at_sent a = true /\ at_waits a = [WTimeout].

Lemma send_loop_silent attempts k om im r :
  stats_ok k (rttengine_stats r) -> 0 <= retries (rttengine_stats r) <= max_tries (rttengine_stats r) ->
  Forall unanswered attempts -> max_tries (rttengine_stats r) - retries (rttengine_stats r) <= Z.of_nat (length attempts) ->
  exists sent r', send_loop attempts om im r = Ok (Failed, sent, r') /\
    Z.of_nat (length sent) = max_tries (rttengine_stats r) - retries (rttengine_stats r).
Proof.
  intros Hok Hret Ha. revert om im r Hok Hret.
  induction Ha as [|a attempts [Hs Hw] _ IH]; intros om im r Hok Hret Hlen; cbn [send_loop]; set (s := rttengine_stats r) in *.
  all: destruct (_ && (has_peer s =? 0)) eqn:G;
    [eexists [], _; split; [done|]; apply andb_true_iff in G as [G1%Z.eqb_eq G2]; unfold max_tries; rewrite G2; cbn; lia|].
  all: destruct (retries s =? RTTENGINE_MAXRT) eqn:E8;
    [eexists [], _; split; [done|]; apply Z.eqb_eq in E8; pose proof (max_tries_range s); unfold RTTENGINE_MAXRT in *; cbn; lia|].
  all: pose proof (tries_left s Hret G E8) as Hlt.
  { cbn in Hlen. lia. }
  rewrite Hs. cbn [negb]. destruct (tv_of_rto_ok (rto s)) as (sec & u & -> & [Hsec _] & _); [apply Hok|]. cbn [mbind res_bind].
  rewrite Hw. cbn [wait_loop tv_sec]. unfold RTTENGINE_TMIN in Hsec. destruct (Z.ltb_spec sec 0); [lia|].
  set (om' := blit 4 _ om). set (r1 := set_stats expire _).
  assert (max_tries (rttengine_stats r1) = max_tries s /\ retries (rttengine_stats r1) = retries s + 1 /\ stats_ok k (rttengine_stats r1))
    as (Hmt & Hr1 & Hok1).
  { pose proof (expire_backoff (retries s =? RTTENGINE_MAXRTT) r) as (H1 & H2 & H3). split; [|split; [exact H2|by apply H3]].
    unfold max_tries. destruct H1 as (_ & _ & _ & _ & H1 & _). unfold r1. by rewrite H1. }
  destruct (IH om' im r1 Hok1) as (sent & r' & -> & Hn); [lia|cbn [length] in Hlen; lia|].
  cbn [mbind res_bind]. eexists _, _. split; [done|]. cbn [length]. lia.
Qed.

(** A server that does not answer is given up: after exactly three requests
    when it never answered, after eight when it did, the call returns -1, and
    the waits in between, 2 to 30 seconds each, end by themselves. *)
Theorem rudp_gives_up k mo mi input out attempts r :
  engine_ok k r -> Forall unanswered attempts -> max_tries (rttengine_stats r) <= Z.of_nat (length attempts) ->
  exists sent r', internal_send_recv (Some mo) (Some mi) input out attempts r = Ok (Some (-1, out), sent, r') /\
    Z.of_nat (length sent) = if has_peer (rttengine_stats r) =? 0 then 3 else 8.
Proof.
  intros (Hi & Hr & Hok) Ha Hlen. unfold internal_send_recv. rewrite Hi. cbn [Z.eqb fmap option_fmap option_map clear mbind res_bind].
  set (om := blit 0 (be32 _) _). set (im := blit 0 (repeat 0 (length out)) _).
  set (r1 := set_stats _ (alloc_blocks 2 r)). change (max_tries (rttengine_stats r)) with (max_tries (rttengine_stats r1)) in Hlen.
  assert (retries (rttengine_stats r1) = 0) as Hr1 by exact Hr. pose proof (max_tries_range (rttengine_stats r1)).
  destruct (send_loop_silent attempts k om im r1) as (sent & r' & -> & Hn); [exact Hok|lia|done|lia|].
  cbn [mbind res_bind]. eexists _, _. split; [done|]. rewrite Hn, Hr1. unfold max_tries.
  change (has_peer (rttengine_stats r1)) with (has_peer (rttengine_stats r)). by destruct (_ =? 0).
Qed.

(** ** Flaws *)

(** A reply that ends inside the header makes the length of its data
    negative, and the copy to the caller runs past both buffers. *)
Theorem rudp_short_reply_overruns k mo mi input out a r pkt t stamp waits :
  engine_ok k r -> at_sent a = true -> at_waits a = WPacket pkt t stamp :: waits ->
  (4 <= length pkt < 8)%nat -> take 4 pkt = sequence_bytes (sequence (rttengine_stats r)) ->
  internal_send_recv (Some mo) (Some mi) input out [a] r = Err OutOfBounds.
Proof.
  intros (Hi & Hr & Hok) Hs Hw Hlen Hsq. unfold internal_send_recv. rewrite Hi. cbn [Z.eqb fmap option_fmap option_map clear mbind res_bind].
  set (om0 := blit 0 (repeat 0 (length input)) _). set (im := blit 0 (repeat 0 (length out)) _).
  assert (length om0 = (length input + 8)%nat /\ length im = (length out + 8)%nat) as [Hom0 Him].
  { split; unfold om0, im; rewrite length_blit; rewrite ?repeat_length, length_block; unfold rudp_msghdr_t; lia. }
  set (sq := sequence_bytes (sequence (rttengine_stats r))) in *.
  assert (length sq = 4%nat) as Hsl by (unfold sq, sequence_bytes, be32; by rewrite length_rev, length_le_split).
  change (be32 (Z.lor (sequence (rttengine_stats r)) 4026531840)) with sq.
  pose proof (framed_new sq input om0 Hsl Hom0) as Hf. set (om := blit 0 sq _) in *. cbn [send_loop].
  cbn [set_stats rttengine_stats retries set_sequence alloc_blocks rto]. rewrite Hr.
  change (0 =? RTTENGINE_MAXRTT) with false. change (0 =? RTTENGINE_MAXRT) with false. cbn [andb].
  rewrite Hs. cbn [negb]. destruct (tv_of_rto_ok (rto (rttengine_stats r))) as (sec & u & -> & [Hsec _] & _); [apply Hok|].
  cbn [mbind res_bind]. rewrite Hw. cbn [wait_loop tv_sec]. unfold RTTENGINE_TMIN in Hsec. destruct (Z.ltb_spec sec 0); [lia|].
  set (om' := blit 4 _ om). rewrite (framed_sequence sq input om') by (done || by apply framed_stamp). rewrite (take_ge pkt) by lia.
  assert (take 4 (blit 0 pkt im) = sq) as ->.
  { rewrite <- Hsq. rewrite <- (Nat.min_l 4 (length pkt)) at 1 by lia. rewrite <- take_take, blit_0_take by lia. done. }
  assert (length (blit 0 pkt im) = length im) as Hb by (apply length_blit; cbn; lia).
  rewrite mem_eqb_refl. cbn [mbind res_bind]. rewrite (slice_ok 4 4) by lia. cbn [mbind res_bind].
  unfold rudp_msghdr_t. destruct (Z.leb_spec 0 (Z.of_nat (length pkt) - Z.of_nat 8)); [lia|done].
Qed.

(** When a connection attempt fails, the address stays: the next connection,
    whatever the host that it names, goes to the old address. *)
Theorem rudp_failed_connect_keeps_address tv tv' addr addr' port port' malloc s base :
  initiated s = 0 -> length addr = 4%nat ->
  exists r1 r2, NetRUDPConnect tv (Some addr) true true false port (mk_rudp s base) = Ok (-2, None, r1) /\
    NetRUDPConnect tv' (Some addr') malloc true true port' r1 = Ok (0, Some (sockaddr_in addr port), r2).
Proof.
  intros Hi Haddr. unfold NetRUDPConnect, connect_with. cbn [rttengine_stats]. rewrite Hi. cbn [Z.eqb].
  unfold internal_get_sai at 1. cbn [NetRUDPInit set_stats rttengine_stats rttengine_init rttengine_zero sai initiated Z.eqb negb].
  rewrite slice_ok by (rewrite length_sockaddr_in; lia). cbn [mbind res_bind]. eexists _, _. split; [done|].
  unfold internal_get_sai. cbn [NetRUDPInit set_stats rttengine_stats rttengine_init rttengine_zero sai set_sai alloc_blocks initiated Z.eqb negb].
  rewrite slice_ok by (rewrite length_sockaddr_in; lia). cbn [mbind res_bind].
  rewrite drop_0, (take_ge (sockaddr_in addr port)) by (rewrite length_sockaddr_in; lia). done.
Qed.

(** An IPv4 address that was kept so is read as an IPv6 one: [connect] is told
    that the block has 28 bytes, but it has 16. *)
Theorem rudp_kept_address_overread tv addr port resolved malloc connected s base :
  initiated s = 0 -> length addr = 4%nat ->
  exists r1, NetRUDPConnect tv (Some addr) true true false port (mk_rudp s base) = Ok (-2, None, r1) /\
    NetRUDP6Connect tv resolved malloc true connected port r1 = Err OutOfBounds.
Proof.
  intros Hi Haddr. unfold NetRUDPConnect, NetRUDP6Connect, connect_with. cbn [rttengine_stats]. rewrite Hi. cbn [Z.eqb].
  unfold internal_get_sai at 1. cbn [NetRUDPInit set_stats rttengine_stats rttengine_init rttengine_zero sai initiated Z.eqb negb].
  rewrite slice_ok by (rewrite length_sockaddr_in; lia). cbn [mbind res_bind]. eexists. split; [done|].
  unfold internal_get_sai. cbn [NetRUDPInit set_stats rttengine_stats rttengine_init rttengine_zero sai set_sai alloc_blocks initiated Z.eqb negb].
  unfold slice. rewrite decide_False by (rewrite length_sockaddr_in; lia). done.
Qed.

(** The signature that old servers look for in the last byte of a sequence
    number is there for the first sixteen requests of a connection and gone
    with the seventeenth. *)
Theorem sequence_signature :
  (forall i, (i < 16)%nat -> exists b, sequence_bytes (240 + Z.of_nat i) = [240; 0; 0; b] /\ Z.land b 240 = 240) /\
  sequence_bytes (240 + 16) = [240; 0; 1; 0].
Proof.
  split; [|by vm_compute]. intros i Hi. do 16 (destruct i as [|i]; [eexists; split; by vm_compute|]). lia.
Qed.

(** ** Examples *)

Definition rudp0 : rudp := NetRUDPInit (Some (mk_timeval 1000 0)) (mk_rudp rttengine_zero 0).
Definition silent0 : attempt := mk_attempt (Some (mk_timeval 1001 0)) true (mk_timeval 1001 0) [WTimeout].

(** A request that is answered at the second attempt, after a stray datagram. *)
Definition call0 : call :=
  mk_call (fun _ => 7) (fun _ => 7) [65; 66] [0; 0; 0; 0]
    [silent0; mk_attempt (Some (mk_timeval 1003 0)) true (mk_timeval 1003 0)
       [WPacket [240; 0; 0; 1; 0; 0; 0; 0; 88] (mk_timeval 1004 0) None;
        WPacket [240; 0; 0; 240; 0; 0; 11; 184; 67; 68] (mk_timeval 1004 0) (Some (mk_timeval 1004 500000))]].

Example call0_replies :
  exists sent r', session [call0] rudp0 = Ok ([(Some (2, [67; 68; 0; 0]), sent)], r') /\ length sent = 2%nat.
Proof. eexists _, _. split; vm_compute; reflexivity. Qed.

Lemma rudp0_ok : engine_ok 25 rudp0.
Proof. split; [done|]. split; [done|]. exact (init_ok _). Qed.

Lemma rudp_session_safe_witness :
  exists r0 log r', NetRUDPConnect None (Some [10; 0; 0; 1]) true true true 3653 (mk_rudp rttengine_zero 5) =
      Ok (0, Some (sockaddr_in [10; 0; 0; 1] 3653), r0) /\
    session [call0] r0 = Ok (log, r') /\ (Forall (fun x => is_Some x.1) log -> live (NetRUDPClose r').2 = 5).
Proof.
  destruct (rudp_session_safe None [10; 0; 0; 1] 3653 5 [call0] rttengine_zero eq_refl) as (r0 & log & r' & H1 & H2 & H3 & _).
  - cbn. lia.
  - done.
  - repeat constructor; cbn; lia.
  - by exists r0, log, r'.
Defined.

Lemma rudp_gives_up_witness :
  exists sent r', internal_send_recv (Some (fun _ => 0)) (Some (fun _ => 0)) [65] [0] [silent0; silent0; silent0] rudp0 =
      Ok (Some (-1, [0]), sent, r') /\ Z.of_nat (length sent) = 3.
Proof.
  apply (rudp_gives_up 25 (fun _ => 0) (fun _ => 0) [65] [0] [silent0; silent0; silent0] rudp0 rudp0_ok);
    [|by vm_compute].
  do 3 (apply list.Forall_cons_2; [by split|]). apply list.Forall_nil_2.
Defined.

Lemma rudp_short_reply_overruns_witness :
  internal_send_recv (Some (fun _ => 0)) (Some (fun _ => 0)) [65] [0]
    [mk_attempt None true (mk_timeval 1000 0) [WPacket [240; 0; 0; 240; 0] (mk_timeval 1000 0) None]] rudp0 = Err OutOfBounds.
Proof.
  apply (rudp_short_reply_overruns 25 (fun _ => 0) (fun _ => 0) [65] [0] _ rudp0 [240; 0; 0; 240; 0] (mk_timeval 1000 0) None [] rudp0_ok);
    [done|done|cbn; lia|by vm_compute].
Defined.

Lemma rudp_failed_connect_keeps_address_witness :
  exists r1 r2, NetRUDPConnect None (Some [10; 0; 0; 1]) true true false 3653 (mk_rudp rttengine_zero 0) = Ok (-2, None, r1) /\
    NetRUDPConnect None (Some [10; 0; 0; 2]) true true true 3653 r1 = Ok (0, Some (sockaddr_in [10; 0; 0; 1] 3653), r2).
Proof. by apply (rudp_failed_connect_keeps_address None None [10; 0; 0; 1] [10; 0; 0; 2] 3653 3653 true rttengine_zero 0). Defined.

Lemma rudp_kept_address_overread_witness :
  exists r1, NetRUDPConnect None (Some [10; 0; 0; 1]) true true false 3653 (mk_rudp rttengine_zero 0) = Ok (-2, None, r1) /\
    NetRUDP6Connect None None true true true 3653 r1 = Err OutOfBounds.
Proof. by apply (rudp_kept_address_overread None [10; 0; 0; 1] 3653 None true true rttengine_zero 0). Defined.
