(* ===== verification/Ayiya.v ===== *)
(** * AYIYA tunnels ([aiccu/ayiya.c])

Anything In Anything: IPv6 packets carried in UDP datagrams that are signed
with a SHA-1 of the packet in which the hash of the shared secret stands in
the place of the signature.  [ayiya_reader] sends what the tunnel device
reads, [ayiya_writer] checks what the network delivers, [ayiya_beat] keeps
the tunnel alive, [ayiya] sets it up.  The clock test [tic_checktime] of
[aiccu/tic.c] is here too.  Log output is left out. *)

From Stdlib Require Import ZifyNat.
From stdpp Require Import base gmap list numbers.
From S2P Require Import Prelude Words HashStream Sha1.

(** ** The clock *)

Definition CLOCK_OFF : Z := 120.

(** [tic_checktime], with the value of [time (NULL)]. *)
Definition tic_checktime (curr_time epochtime : Z) : Z :=
  let i :=
    if (- CLOCK_OFF <=? curr_time) || (- CLOCK_OFF <=? epochtime)
    then to_int (to_int (to_int curr_time + CLOCK_OFF * 2) - to_int (to_int epochtime + CLOCK_OFF * 2))
    else to_int (to_int curr_time - to_int epochtime) in
  let i := if i <? 0 then to_int (- i) else i in
  if CLOCK_OFF <? i then i else 0.

(** ** Packets *)

(** [enum ayiya_identities], [ayiya_hash], [ayiya_auth] and [ayiya_opcode] *)
Definition ayiya_id_integer : Z := 1.
Definition ayiya_hash_sha1 : Z := 2.
Definition ayiya_auth_sharedsecret : Z := 1.
Definition ayiya_op_noop : Z := 0.
Definition ayiya_op_forward : Z := 1.
Definition ayiya_op_echo_request : Z := 2.
Definition ayiya_op_echo_request_forward : Z := 3.

Definition IPPROTO_IPV6 : Z := 41.
Definition IPPROTO_NONE : Z := 59.

(** [struct ayiyahdr]: bit-fields of four bits, the first one in the low half
    of its byte, then a byte and a 32-bit word. *)
Record ayiyahdr := mk_ayiyahdr {
  ayh_idtype : Z; ayh_idlen : Z;
  ayh_hshmeth : Z; ayh_siglen : Z;
  ayh_opcode : Z; ayh_autmeth : Z;
  ayh_nextheader : Z;
  ayh_epochtime : Z;
}.

Definition hdr_bytes (h : ayiyahdr) : list Z :=
  [ayh_idtype h + 16 * ayh_idlen h; ayh_hshmeth h + 16 * ayh_siglen h;
   ayh_opcode h + 16 * ayh_autmeth h; ayh_nextheader h] ++ le_split 4 (ayh_epochtime h).

Definition hdr_load (b : list Z) : ayiyahdr :=
  let byte k := nth k b 0 in
  let lo k := Z.land (byte k) 15 in
  let hi k := Z.shiftr (byte k) 4 in
  mk_ayiyahdr (lo 0%nat) (hi 0%nat) (lo 1%nat) (hi 1%nat) (lo 2%nat) (hi 2%nat) (byte 3%nat)
              (le_load (take 4 (drop 4 b))).

(** The globals of [ayiya.c]. *)
Record ayiya_conf := mk_ayiya_conf {
  ayiya_ipv6_local : list Z;
  ayiya_ipv6_pop : list Z;
  ayiya_hash : list Z;   (* SHA-1 of the shared secret *)
}.

(** [sizeof (struct pseudo_ayh)] less its payload: header, identity, hash. *)
Definition AYH_SIZE : nat := 8 + 16 + 20.
Definition PAYLOAD_SIZE : nat := 2048.

(** *** Tun to socket *)

(** The datagram that [ayiya_reader] sends; [g] is the stack memory of the
    hash context. *)
Definition ayiya_reader (cf : ayiya_conf) (g : list Z) (now : Z) (buf : list Z) : res (list Z) :=
  let hdr := mk_ayiyahdr ayiya_id_integer 4 ayiya_hash_sha1 5 ayiya_op_forward
               ayiya_auth_sharedsecret IPPROTO_IPV6 (htonl (wrap 32 now)) in
  let identity := ayiya_ipv6_local cf in
  guard_or OutOfBounds (length buf <=? PAYLOAD_SIZE)%nat;;
  hash ← SHA1 g (hdr_bytes hdr ++ identity ++ ayiya_hash cf ++ buf);
  Ok (hdr_bytes hdr ++ identity ++ hash ++ buf).

(** *** The keep-alive *)

Definition ayiya_beat (cf : ayiya_conf) (g : list Z) (now : Z) : res (list Z) :=
  let hdr := mk_ayiyahdr ayiya_id_integer 4 ayiya_hash_sha1 5 ayiya_op_noop
               ayiya_auth_sharedsecret IPPROTO_NONE (htonl (wrap 32 now)) in
  let identity := ayiya_ipv6_local cf in
  hash ← SHA1 g (hdr_bytes hdr ++ identity ++ ayiya_hash cf);
  Ok (hdr_bytes hdr ++ identity ++ hash).

(** *** Socket to tun *)

(** [buf]: what [recvfrom] leaves in the zeroed buffer. *)
Definition recv_buf (datagram : list Z) : list Z :=
  datagram ++ repeat 0 (2048 - length datagram).

Definition hdr_invalid (h : ayiyahdr) : bool :=
  negb (ayh_idlen h =? 4) ||
  negb (ayh_idtype h =? ayiya_id_integer) ||
  negb (ayh_siglen h =? 5) ||
  negb (ayh_hshmeth h =? ayiya_hash_sha1) ||
  negb (ayh_autmeth h =? ayiya_auth_sharedsecret) ||
  (negb (ayh_nextheader h =? IPPROTO_IPV6) && negb (ayh_nextheader h =? IPPROTO_NONE)) ||
  (negb (ayh_opcode h =? ayiya_op_forward) && negb (ayh_opcode h =? ayiya_op_echo_request) &&
   negb (ayh_opcode h =? ayiya_op_echo_request_forward)).

(** Conversion of a byte to [char], which is signed. *)
Definition to_char (x : Z) : Z := (x + 128) mod 256 - 128.

(** One turn of the loop of [ayiya_writer]: [recv] is the result of
    [recvfrom], [None] an error; [now] the clock.  The result is what is
    written to the tunnel device. *)
Definition ayiya_writer (cf : ayiya_conf) (g : list Z) (now : Z) (recv : option (list Z)) :
    res (option (list Z)) :=
  match recv with
  | None => Ok None
  | Some datagram =>
    let n := Z.of_nat (length datagram) in
    let buf := recv_buf datagram in
    if n <? 8 then Ok None else
    let h := hdr_load buf in
    if hdr_invalid h then Ok None else
    identity ← slice 8 16 buf;
    if negb (mem_eqb identity (ayiya_ipv6_pop cf)) then Ok None else
    if negb (tic_checktime now (ntohl (ayh_epochtime h)) =? 0) then Ok None else
    let payloadlen := wrap 32 (n - Z.of_nat AYH_SIZE) in
    their_hash ← slice 24 20 buf;
    let buf := blit 24 (ayiya_hash cf) buf in
    packet ← slice 0 (Z.to_nat n) buf;
    our_hash ← SHA1 g packet;
    let buf := blit 24 our_hash buf in
    if negb (mem_eqb their_hash our_hash) then Ok None else
    if ayh_nextheader h =? IPPROTO_IPV6 then
      first ← rd8 AYH_SIZE buf;
      if negb (Z.shiftr (to_char first) 4 =? 6) then Ok None else
      payload ← slice AYH_SIZE (Z.to_nat payloadlen) buf;
      Ok (Some payload)
    else Ok None
  end.

(** *** Set-up *)

(** [struct addrinfo] lists, as [getaddrinfo] returns them ([None] on error):
    family and address bytes.  The loops of [ayiya] stop at the first entry
    of the wanted family. *)
Inductive family := AF_INET | AF_INET6.

#[export] Instance family_eq_dec : EqDecision family.
Proof. solve_decision. Defined.

Fixpoint find_family (af : family) (l : list (family * list Z)) : option (list Z) :=
  match l with
  | [] => None
  | (f, a) :: l' => if decide (f = af) then Some a else find_family af l'
  end.

(** What the calls that [ayiya] makes answer. *)
Record ayiya_env := mk_ayiya_env {
  env_tun_start : bool;
  env_ipv4_pop : option (list (family * list Z));
  env_ipv6_local : option (list (family * list Z));
  env_ipv6_pop : option (list (family * list Z));
  env_password : option (list Z);
  env_connect : bool;
  env_aiccu_setup : bool;
}.

Record ayiya_globals := mk_ayiya_globals {
  ayiya_ipv4_pop : list Z;
  ayiya_cf : ayiya_conf;
  ayiya_socket : bool;       (* connected *)
  writer_running : bool;     (* the thread of [ayiya_writer] is started *)
}.

Definition ayiya (e : ayiya_env) (g : list Z) (s : ayiya_globals) : res (bool * ayiya_globals) :=
  if negb (env_tun_start e) then Ok (false, s) else
  match env_ipv4_pop e ≫= find_family AF_INET with
  | None => Ok (false, s)
  | Some pop4 =>
    let s := mk_ayiya_globals pop4 (ayiya_cf s) (ayiya_socket s) (writer_running s) in
    let with_cf c := mk_ayiya_globals pop4 c (ayiya_socket s) (writer_running s) in
    match env_ipv6_local e ≫= find_family AF_INET6 with
    | None => Ok (false, s)
    | Some local =>
      let c := mk_ayiya_conf local (ayiya_ipv6_pop (ayiya_cf s)) (ayiya_hash (ayiya_cf s)) in
      match env_ipv6_pop e ≫= find_family AF_INET6 with
      | None => Ok (false, with_cf c)
      | Some pop =>
        let c := mk_ayiya_conf local pop (ayiya_hash c) in
        match env_password e with
        | None => Ok (false, with_cf c)
        | Some password =>
          hash ← SHA1 g password;
          let c := mk_ayiya_conf local pop hash in
          let s := mk_ayiya_globals pop4 c (env_connect e) (writer_running s) in
          if negb (env_connect e) then Ok (false, s) else
          if negb (env_aiccu_setup e) then Ok (false, s) else
          Ok (true, mk_ayiya_globals pop4 c (env_connect e) true)
        end
      end
    end
  end.

(** ** The format

The packets that an endpoint accepts, independently of the code. *)

Definition ayiya_hdr (op nh time : Z) : list Z :=
  hdr_bytes (mk_ayiyahdr ayiya_id_integer 4 ayiya_hash_sha1 5 op ayiya_auth_sharedsecret nh (htonl time)).

Definition ayiya_signed (op nh time : Z) (identity secret payload : list Z) : list Z :=
  let h := ayiya_hdr op nh time in
  h ++ identity ++ sha1_spec (h ++ identity ++ secret ++ payload) ++ payload.

Definition is_ipv6 (p : list Z) : Prop := exists x q, p = x :: q /\ x / 16 = 6.

Definition conf_ok (cf : ayiya_conf) : Prop :=
  (length (ayiya_ipv6_local cf) = 16%nat /\ bytes_ok (ayiya_ipv6_local cf)) /\
  (length (ayiya_ipv6_pop cf) = 16%nat /\ bytes_ok (ayiya_ipv6_pop cf)) /\
  (length (ayiya_hash cf) = 20%nat /\ bytes_ok (ayiya_hash cf)).

(** ** Headers *)

#[local] Ltac Zify.zify_post_hook ::= Z.div_mod_to_equations.

Lemma length_hdr_bytes h : length (hdr_bytes h) = 8%nat.
Proof. unfold hdr_bytes. by rewrite length_app, length_le_split. Qed.

Lemma land15 x : Z.land x 15 = x mod 16.
Proof. change 15 with (Z.ones 4). by rewrite Z.land_ones by lia. Qed.

Lemma shiftr4 x : Z.shiftr x 4 = x / 16.
Proof. by rewrite Z.shiftr_div_pow2 by lia. Qed.

Lemma length8 (l : list Z) : length l = 8%nat ->
  exists a b c d e, l = [a; b; c; d] ++ e /\ length e = 4%nat.
Proof.
  intros H. destruct l as [|a [|b [|c [|d e]]]]; try discriminate.
  exists a, b, c, d, e. split; [done|]. by injection H.
Qed.

Lemma hdr_load_bytes h :
  byte_ok (ayh_nextheader h) -> 0 <= ayh_epochtime h < 2 ^ 32 ->
  Forall (fun x => 0 <= x < 16)
    [ayh_idtype h; ayh_idlen h; ayh_hshmeth h; ayh_siglen h; ayh_opcode h; ayh_autmeth h] ->
  hdr_load (hdr_bytes h) = h.
Proof.
  destruct h as [a b c d e f n t]. cbn. intros Hn Ht Hf.
  rewrite !list.Forall_cons in Hf. destruct Hf as (? & ? & ? & ? & ? & ? & _).
  unfold hdr_load, hdr_bytes. cbn [nth app drop ayh_idtype ayh_idlen ayh_hshmeth ayh_siglen ayh_opcode
    ayh_autmeth ayh_nextheader ayh_epochtime].
  rewrite drop_0, take_ge by (rewrite length_le_split; lia). rewrite le_load_split_small by done.
  rewrite !land15, !shiftr4. f_equal; lia.
Qed.

Lemma hdr_bytes_load b : bytes_ok b -> length b = 8%nat -> hdr_bytes (hdr_load b) = b.
Proof.
  intros Hb Hl. destruct (length8 b Hl) as (x & y & z & w & e & -> & He).
  unfold hdr_bytes, hdr_load. cbn [nth app drop ayh_idtype ayh_idlen ayh_hshmeth ayh_siglen ayh_opcode
    ayh_autmeth ayh_nextheader ayh_epochtime].
  rewrite drop_0, (take_ge e) by lia. cbn [app] in Hb. rewrite !bytes_ok_cons in Hb.
  destruct Hb as (? & ? & ? & ? & Hbe). rewrite le_split_load by done.
  rewrite !land15, !shiftr4. unfold byte_ok in *. repeat f_equal; lia.
Qed.

Lemma hdr_load_epoch b : bytes_ok b -> length b = 8%nat -> 0 <= ayh_epochtime (hdr_load b) < 2 ^ 32.
Proof.
  intros Hb Hl. unfold hdr_load. cbn [ayh_epochtime].
  pose proof (le_load_bounds (take 4 (drop 4 b)) (Forall_take_drop _ _ _ _ Hb)) as H.
  rewrite take_drop_length in H by lia. exact H.
Qed.

Lemma bswap4_word x : 0 <= htonl x < 2 ^ 32.
Proof. exact (bswap_bounds 4 x). Qed.

Lemma ntohl_htonl x : 0 <= x < 2 ^ 32 -> ntohl (htonl x) = x.
Proof. intros H. by apply (bswap_bswap 4). Qed.

Lemma htonl_ntohl x : 0 <= x < 2 ^ 32 -> htonl (ntohl x) = x.
Proof. intros H. by apply (bswap_bswap 4). Qed.

Definition valid_op (op : Z) : Prop :=
  op = ayiya_op_forward \/ op = ayiya_op_echo_request \/ op = ayiya_op_echo_request_forward.

(** The headers that pass the test are those of the format. *)
Lemma hdr_valid_iff b :
  bytes_ok b -> length b = 8%nat ->
  hdr_invalid (hdr_load b) = false <->
  exists op nh t, valid_op op /\ (nh = IPPROTO_IPV6 \/ nh = IPPROTO_NONE) /\
    0 <= t < 2 ^ 32 /\ b = ayiya_hdr op nh t.
Proof.
  intros Hb Hl. split.
  - unfold hdr_invalid. intros H. rewrite !orb_false_iff, !negb_false_iff, !Z.eqb_eq in H.
    destruct H as ((((((? & ?) & ?) & ?) & ?) & Hnh) & Hop).
    exists (ayh_opcode (hdr_load b)), (ayh_nextheader (hdr_load b)), (ntohl (ayh_epochtime (hdr_load b))).
    pose proof (hdr_load_epoch b Hb Hl). split_and!.
    + unfold valid_op. rewrite !andb_false_iff, !negb_false_iff, !Z.eqb_eq in Hop. tauto.
    + rewrite andb_false_iff, !negb_false_iff, !Z.eqb_eq in Hnh. done.
    + apply bswap4_word.
    + apply bswap4_word.
    + unfold ayiya_hdr. rewrite htonl_ntohl by done. rewrite <- (hdr_bytes_load b Hb Hl) at 1.
      destruct (hdr_load b) as [i1 i2 i3 i4 i5 i6 i7 i8]. cbn in *. by subst.
  - intros (op & nh & t & Hop & Hnh & Ht & ->). unfold ayiya_hdr.
    rewrite hdr_load_bytes; cbn.
    + destruct Hop as [->|[->| ->]], Hnh as [->| ->]; done.
    + destruct Hnh as [->| ->]; done.
    + apply bswap4_word.
    + destruct Hop as [->|[->| ->]]; by repeat constructor.
Qed.

Lemma hdr_load_app b k : length b = 8%nat -> hdr_load (b ++ k) = hdr_load b.
Proof.
  intros Hl. destruct (length8 b Hl) as (x & y & z & w & e & -> & He).
  unfold hdr_load. cbn [nth app drop]. rewrite !drop_0. by rewrite (take_app_exact e k 4), (take_ge e 4) by lia.
Qed.

(** ** The receive buffer *)

Lemma slice_mid (a b c : list Z) i n :
  length a = i -> length b = n -> slice i n (a ++ b ++ c) = Ok b.
Proof.
  intros Ha Hb. rewrite slice_ok by (rewrite !length_app; lia).
  by rewrite drop_app_exact, take_app_exact.
Qed.

Lemma blit_mid (a b b' c : list Z) i :
  length a = i -> length b' = length b -> blit i b' (a ++ b ++ c) = a ++ b' ++ c.
Proof.
  intros Ha Hb. unfold blit. rewrite take_app_exact by done. do 2 f_equal.
  by rewrite app_assoc, drop_app_exact by (rewrite length_app; lia).
Qed.

Lemma rd8_mid (a c : list Z) x i : length a = i -> rd8 i (a ++ x :: c) = Ok x.
Proof. intros <-. unfold rd8. by rewrite list_lookup_middle. Qed.

Lemma blit_blit_same (a a' b : list Z) i :
  length a = length a' -> (i + length a' <= length b)%nat -> blit i a (blit i a' b) = blit i a b.
Proof.
  intros Ha Hl. unfold blit. rewrite take_app_exact by (rewrite length_take; lia). do 2 f_equal.
  rewrite app_assoc, drop_app_exact by (rewrite length_app, length_take; lia). by rewrite Ha.
Qed.

Lemma bytes_ok_blit (a b : list Z) i : bytes_ok a -> bytes_ok b -> bytes_ok (blit i a b).
Proof.
  intros Ha Hb. unfold blit. rewrite !bytes_ok_app. split_and!; [by apply Forall_take|done|by apply Forall_drop].
Qed.

Lemma lookup_repeat (x : Z) k n : (k < n)%nat -> repeat x n !! k = Some x.
Proof. revert k. induction n as [|n IH]; intros [|k] Hk; cbn; try lia; [done|]. apply IH. lia. Qed.

Lemma rd8_blit_zeros (a d : list Z) i k n :
  (i + length a <= k)%nat -> (length d <= k < n)%nat -> (i <= n)%nat ->
  rd8 k (blit i a (d ++ repeat 0 (n - length d))) = Ok 0.
Proof.
  intros Hi Hd Hn. unfold rd8, blit.
  assert (length (d ++ repeat 0 (n - length d)) = n) as Hl by (rewrite length_app, repeat_length; lia).
  rewrite lookup_app_r by (rewrite length_take; lia).
  rewrite lookup_app_r by (rewrite length_take; lia).
  rewrite lookup_drop, length_take, Hl, lookup_app_r by lia.
  by rewrite lookup_repeat by lia.
Qed.

(** ** Reception *)

Section writer.
Context (cf : ayiya_conf) (g : list Z) (now : Z).
Context (Hcf : conf_ok cf) (Hg : length g = 64%nat).

Definition nibble6 (p : list Z) : bool :=
  match p with x :: _ => x / 16 =? 6 | [] => false end.

Lemma first_nibble x : byte_ok x -> (Z.shiftr (to_char x) 4 =? 6) = (x / 16 =? 6).
Proof.
  intros Hx. rewrite shiftr4. unfold to_char, byte_ok in *.
  destruct (Z.eqb_spec (((x + 128) mod 256 - 128) / 16) 6), (Z.eqb_spec (x / 16) 6); lia.
Qed.

Lemma nibble6_iff p : nibble6 p = true <-> is_ipv6 p.
Proof.
  unfold is_ipv6. destruct p as [|x q]; cbn.
  - split; [done|]. by intros (? & ? & ? & _).
  - rewrite Z.eqb_eq. split; [by eauto|]. by intros (? & ? & [= -> ->] & ?).
Qed.

(** The last test and the write, on a packet with all its header. *)
Definition deliver (h : ayiyahdr) (sg our p : list Z) : option (list Z) :=
  if negb (mem_eqb sg our) then None
  else if ayh_nextheader h =? IPPROTO_IPV6 then if nibble6 p then Some p else None
  else None.

Definition accept (hb id sg p : list Z) : option (list Z) :=
  let h := hdr_load hb in
  if hdr_invalid h then None
  else if negb (mem_eqb id (ayiya_ipv6_pop cf)) then None
  else if negb (tic_checktime now (ntohl (ayh_epochtime h)) =? 0) then None
  else deliver h sg (sha1_spec (hb ++ id ++ ayiya_hash cf ++ p)) p.

Section long.
Context (hb id sg p : list Z) (Hb : bytes_ok (hb ++ id ++ sg ++ p)).
Context (H8 : length hb = 8%nat) (H16 : length id = 16%nat) (H20 : length sg = 20%nat).
Context (Hlen : (length p <= 2004)%nat).

Lemma writer_long : ayiya_writer cf g now (Some (hb ++ id ++ sg ++ p)) = Ok (accept hb id sg p).
Proof.
  destruct Hcf as (_ & _ & Hhl & Hhb). rewrite !bytes_ok_app in Hb. destruct Hb as (? & ? & ? & Hp).
  assert (length (hb ++ id ++ sg ++ p) = 44 + length p)%nat as Hd by (rewrite !length_app; lia).
  unfold ayiya_writer, accept, recv_buf. rewrite Hd.
  assert (exists z0 z, repeat 0 (2048 - (44 + length p)) = z /\ p ++ z = nth 0 p 0 :: z0) as (z0 & z & -> & Hz).
  { clear. destruct p as [|x q]; cbn [nth app length].
    - by exists (repeat 0 2003), (0 :: repeat 0 2003).
    - by exists (q ++ repeat 0 (2048 - (44 + S (length q)))), (repeat 0 (2048 - (44 + S (length q)))). }
  rewrite (proj2 (Z.ltb_ge _ 8)) by lia. rewrite <- !app_assoc, hdr_load_app by done.
  destruct (hdr_invalid (hdr_load hb)); [done|].
  rewrite (slice_mid hb id _ 8 16) by done. cbn [mbind res_bind].
  destruct (mem_eqb id (ayiya_ipv6_pop cf)); [|done]. cbn [negb].
  destruct (tic_checktime _ _ =? 0); [|done]. cbn [negb].
  rewrite (app_assoc hb id (sg ++ p ++ z)), slice_mid by (rewrite ?length_app; lia). cbn [mbind res_bind].
  rewrite blit_mid by (rewrite ?length_app; lia).
  replace ((hb ++ id) ++ ayiya_hash cf ++ p ++ z) with ([] ++ (hb ++ id ++ ayiya_hash cf ++ p) ++ z)
    by (cbn [app]; by rewrite <- !app_assoc).
  rewrite slice_mid by (rewrite ?length_app; cbn [length]; lia). cbn [mbind res_bind app].
  rewrite SHA1_correct; [|done|rewrite !bytes_ok_app; by repeat split|rewrite !length_app; lia].
  cbn [mbind res_bind]. unfold deliver. set (our := sha1_spec _).
  assert (length our = 20%nat) as Hour by apply sha1_spec_length.
  destruct (mem_eqb sg our); [|done]. cbn [negb].
  destruct (ayh_nextheader (hdr_load hb) =? IPPROTO_IPV6); [|done].
  replace ((hb ++ id ++ ayiya_hash cf ++ p) ++ z) with ((hb ++ id) ++ ayiya_hash cf ++ p ++ z)
    by (by rewrite <- !app_assoc).
  rewrite blit_mid by (rewrite ?length_app; lia).
  rewrite (app_assoc (hb ++ id) our). unfold AYH_SIZE. rewrite Hz.
  rewrite rd8_mid by (rewrite !length_app; lia). cbn [mbind res_bind].
  rewrite first_nibble; [|destruct p as [|x q]; cbn; [done|by apply bytes_ok_cons in Hp as [? _]]].
  rewrite <- Hz. destruct p as [|x q]; [done|]. cbn [nth nibble6].
  destruct (x / 16 =? 6); [|done]. cbn [negb].
  rewrite slice_mid; [done|rewrite !length_app; lia|].
  unfold wrap. rewrite Z.mod_small; lia.
Qed.
End long.

(** A datagram without all of the header: the zeroed buffer is not IPv6. *)
Lemma writer_short d :
  bytes_ok d -> (length d < 44)%nat -> ayiya_writer cf g now (Some d) = Ok None.
Proof.
  intros Hb Hl. destruct Hcf as (_ & _ & Hhl & Hhb). unfold ayiya_writer, recv_buf.
  set (buf := d ++ repeat 0 _).
  assert (length buf = 2048%nat) as Hbuf by (subst buf; rewrite length_app, repeat_length; lia).
  destruct (Z.of_nat (length d) <? 8); [done|]. destruct (hdr_invalid (hdr_load buf)); [done|].
  rewrite (slice_ok 8 16) by lia. cbn [mbind res_bind].
  destruct (mem_eqb _ (ayiya_ipv6_pop cf)); [|done]. cbn [negb].
  destruct (tic_checktime _ _ =? 0); [|done]. cbn [negb].
  rewrite (slice_ok 24 20) by lia. cbn [mbind res_bind].
  assert (bytes_ok buf) as Hbb by (apply bytes_ok_app; split; [done|by apply bytes_ok_repeat]).
  assert (forall a, length a = 20%nat -> length (blit 24 a buf) = 2048%nat) as Hlb
    by (intros a Ha; rewrite length_blit; lia).
  rewrite slice_ok by (rewrite Hlb by done; lia). cbn [mbind res_bind]. rewrite drop_0.
  rewrite SHA1_correct; [|done| |].
  - cbn [mbind res_bind]. destruct (mem_eqb _ (sha1_spec _)); [|done]. cbn [negb].
    set (our := sha1_spec _). assert (length our = 20%nat) as Ho by apply sha1_spec_length.
    destruct (ayh_nextheader (hdr_load buf) =? IPPROTO_IPV6); [|done].
    assert (rd8 AYH_SIZE (blit 24 our (blit 24 (ayiya_hash cf) buf)) = Ok 0) as ->; [|done].
    rewrite blit_blit_same by lia. apply rd8_blit_zeros; unfold AYH_SIZE; lia.
  - apply Forall_take. by apply bytes_ok_blit.
  - rewrite length_take, Hlb by done. lia.
Qed.
End writer.

(** ** The clock *)

(** The test in terms of the 32-bit difference of the clocks; 2^31 is its own
    negation. *)
Lemma tic_checktime_0 now t :
  0 <= now -> 0 <= t ->
  tic_checktime now t = 0 <->
  let d := (now - t) mod 2 ^ 32 in d <= CLOCK_OFF \/ 2 ^ 32 - CLOCK_OFF <= d \/ d = 2 ^ 31.
Proof.
  intros Hn Ht. unfold tic_checktime, CLOCK_OFF.
  rewrite (proj2 (Z.leb_le _ now)) by lia. cbn [orb].
  set (i := to_int _). assert (i = to_int (now - t)) as ->.
  { subst i. rewrite to_int_sub, <- (to_int_sub now t). f_equal. lia. }
  unfold to_int. cbv zeta. change (2 ^ 31) with 2147483648. change (2 ^ 32) with 4294967296.
  destruct (Z.ltb_spec ((now - t + 2147483648) mod 4294967296 - 2147483648) 0) as [H|H];
    cbn [negb]; match goal with |- context [120 <? ?x] => destruct (Z.ltb_spec 120 x) end; lia.
Qed.

(** Clocks less than 2^31 seconds apart: the test returns 0 when they
    differ by at most [CLOCK_OFF] seconds, and otherwise the difference. *)
Theorem tic_checktime_spec now t :
  0 <= now -> 0 <= t -> Z.abs (now - t) < 2 ^ 31 ->
  tic_checktime now t = if Z.abs (now - t) <=? CLOCK_OFF then 0 else Z.abs (now - t).
Proof.
  intros Hn Ht Hd. unfold tic_checktime, CLOCK_OFF.
  rewrite (proj2 (Z.leb_le _ now)) by lia. cbn [orb].
  set (i := to_int _). assert (i = now - t) as ->.
  { subst i. rewrite to_int_sub. unfold to_int. lia. }
  unfold to_int. destruct (Z.leb_spec (Z.abs (now - t)) 120), (Z.ltb_spec (now - t) 0);
    match goal with |- context [120 <? ?x] => destruct (Z.ltb_spec 120 x) end; lia.
Qed.

(** A time stamp that is 2^31 seconds off passes the test: the negation of
    the difference does not fit an [int]. *)
Theorem tic_checktime_antipode now :
  0 <= now < 2 ^ 31 -> tic_checktime now (now + 2 ^ 31) = 0.
Proof.
  intros H. apply tic_checktime_0; [lia|lia|]. right; right. unfold CLOCK_OFF. lia.
Qed.

(** ** The contract *)


Lemma split44 (d : list Z) : (44 <= length d)%nat ->
  exists hb id sg p, d = hb ++ id ++ sg ++ p /\
    length hb = 8%nat /\ length id = 16%nat /\ length sg = 20%nat.
Proof.
  intros H. exists (take 8 d), (take 16 (drop 8 d)), (take 20 (drop 24 d)), (drop 44 d).
  rewrite !length_take, !length_drop. split_and!; [|lia..].
  rewrite <- (take_drop 8 d) at 1. f_equal. rewrite <- (take_drop 16 (drop 8 d)) at 1. f_equal.
  rewrite drop_drop. rewrite <- (take_drop 20 (drop (8 + 16) d)) at 1. f_equal. by rewrite drop_drop.
Qed.

Lemma length_ayiya_hdr op nh t : length (ayiya_hdr op nh t) = 8%nat.
Proof. apply length_hdr_bytes. Qed.

Lemma hdr_load_ayiya_hdr op nh t :
  valid_op op -> (nh = IPPROTO_IPV6 \/ nh = IPPROTO_NONE) ->
  hdr_load (ayiya_hdr op nh t) =
  mk_ayiyahdr ayiya_id_integer 4 ayiya_hash_sha1 5 op ayiya_auth_sharedsecret nh (htonl t).
Proof.
  intros Hop Hnh. apply hdr_load_bytes; cbn.
  - destruct Hnh as [->| ->]; done.
  - apply bswap4_word.
  - destruct Hop as [->|[->| ->]]; by repeat constructor.
Qed.

Section contract.
Context (cf : ayiya_conf) (now : Z) (Hcf : conf_ok cf).

Lemma accept_iff hb id sg p q :
  bytes_ok hb -> length hb = 8%nat ->
  accept cf now hb id sg p = Some q <->
  exists op t, valid_op op /\ 0 <= t < 2 ^ 32 /\ tic_checktime now t = 0 /\
    hb = ayiya_hdr op IPPROTO_IPV6 t /\ id = ayiya_ipv6_pop cf /\
    sg = sha1_spec (hb ++ id ++ ayiya_hash cf ++ p) /\ is_ipv6 p /\ q = p.
Proof.
  intros Hb H8. unfold accept, deliver. split.
  - destruct (hdr_invalid (hdr_load hb)) eqn:Hi; [done|].
    apply (hdr_valid_iff hb Hb H8) in Hi as (op & nh & t & Hop & Hnh & Ht & Eb).
    assert (hdr_load hb = _) as -> by (rewrite Eb; by apply hdr_load_ayiya_hdr). cbn [ayh_epochtime ayh_nextheader].
    rewrite ntohl_htonl by done.
    destruct (mem_eqb id _) eqn:Hid; [|done]. destruct (Z.eqb_spec (tic_checktime now t) 0); [|done].
    cbn [negb]. destruct (mem_eqb sg _) eqn:Hsg; [|done]. cbn [negb].
    destruct (Z.eqb_spec nh IPPROTO_IPV6); [|done]. destruct (nibble6 p) eqn:Hp; [|done].
    intros [= <-]. subst nh. apply mem_eqb_true in Hid, Hsg. apply nibble6_iff in Hp. by exists op, t.
  - intros (op & t & Hop & Ht & Hc & Eb & -> & Hsg & Hp & ->).
    rewrite (proj2 (hdr_valid_iff hb Hb H8)) by (exists op, IPPROTO_IPV6, t; destruct Ht; split_and!; by auto).
    assert (hdr_load hb = _) as -> by (rewrite Eb; apply hdr_load_ayiya_hdr; by auto).
    rewrite Hsg. cbn [ayh_epochtime ayh_nextheader].
    rewrite ntohl_htonl, Hc, !mem_eqb_refl by done. cbn [negb Z.eqb].
    by rewrite (proj2 (nibble6_iff p) Hp).
Qed.
End contract.

(** (C16) Reception: on any datagram of at most 2048 bytes the receiver reads
    nothing outside its buffers, and it writes a packet to the tunnel exactly
    when the datagram is that packet signed with the shared secret by the PoP,
    with a clock that passes the test, and the packet starts like IPv6. *)
Theorem ayiya_writer_contract cf g now d :
  conf_ok cf -> length g = 64%nat -> bytes_ok d -> (length d <= 2048)%nat ->
  exists out, ayiya_writer cf g now (Some d) = Ok out /\
    forall p, out = Some p <->
      exists op t, valid_op op /\ 0 <= t < 2 ^ 32 /\ tic_checktime now t = 0 /\
        d = ayiya_signed op IPPROTO_IPV6 t (ayiya_ipv6_pop cf) (ayiya_hash cf) p /\ is_ipv6 p.
Proof.
  intros Hcf Hg Hd Hl. destruct (decide (length d < 44)%nat) as [Hs|Hs].
  - exists None. split; [by apply writer_short|]. intros p. split; [done|].
    intros (op & t & _ & _ & _ & -> & _). exfalso. revert Hs. unfold ayiya_signed.
    rewrite !length_app, length_ayiya_hdr, sha1_spec_length. destruct Hcf as (_ & (-> & _) & _). lia.
  - destruct (split44 d ltac:(lia)) as (hb & id & sg & q & -> & H8 & H16 & H20).
    exists (accept cf now hb id sg q). split.
    + apply writer_long; [done..|]. rewrite !length_app in Hl. lia.
    + intros p. rewrite !bytes_ok_app in Hd. rewrite accept_iff by (done || apply Hd). split.
      * intros (op & t & Hop & Ht & Hc & -> & -> & -> & Hp & ->). by exists op, t.
      * intros (op & t & Hop & Ht & Hc & E & Hp). unfold ayiya_signed in E.
        apply app_inj_1 in E as [-> E]; [|by rewrite length_ayiya_hdr].
        apply app_inj_1 in E as [-> E]; [|by destruct Hcf as (_ & (-> & _) & _)].
        apply app_inj_1 in E as [-> ->]; [|by rewrite sha1_spec_length].
        by exists op, t.
Qed.

(** ** Emission *)

Lemma bytes_ok_hdr_bytes h :
  byte_ok (ayh_nextheader h) ->
  Forall (fun x => 0 <= x < 16)
    [ayh_idtype h; ayh_idlen h; ayh_hshmeth h; ayh_siglen h; ayh_opcode h; ayh_autmeth h] ->
  bytes_ok (hdr_bytes h).
Proof.
  intros Hn Hf. rewrite !list.Forall_cons in Hf. destruct Hf as (? & ? & ? & ? & ? & ? & _).
  unfold hdr_bytes. rewrite bytes_ok_app. split; [|apply le_split_bytes].
  rewrite !bytes_ok_cons. unfold byte_ok in *. split_and!; try lia. constructor.
Qed.

Lemma bytes_ok_ayiya_hdr op nh t :
  0 <= op < 16 -> (nh = IPPROTO_IPV6 \/ nh = IPPROTO_NONE) -> bytes_ok (ayiya_hdr op nh t).
Proof.
  intros Hop Hnh. apply bytes_ok_hdr_bytes; cbn.
  - by destruct Hnh as [->| ->].
  - rewrite !list.Forall_cons. split_and!; try done; by destruct Hop.
Qed.

(** The reader sends the signed packet, with a copy that overruns the payload
    buffer when the device delivers more than 2048 bytes. *)
Lemma ayiya_reader_signed cf g now p :
  conf_ok cf -> length g = 64%nat -> bytes_ok p ->
  ayiya_reader cf g now p =
    if (length p <=? PAYLOAD_SIZE)%nat then
      Ok (ayiya_signed ayiya_op_forward IPPROTO_IPV6 (wrap 32 now) (ayiya_ipv6_local cf) (ayiya_hash cf) p)
    else Err OutOfBounds.
Proof.
  intros ((Hl & Hlb) & _ & Hh & Hhb) Hg Hp. unfold ayiya_reader, guard_or.
  destruct (Nat.leb_spec (length p) PAYLOAD_SIZE) as [Hle|]; [|done]. cbn [mbind res_bind].
  rewrite SHA1_correct; [done|done| |].
  - rewrite !bytes_ok_app. split_and!; [|done..]. apply (bytes_ok_ayiya_hdr ayiya_op_forward); [done|by left].
  - unfold PAYLOAD_SIZE in *. rewrite !length_app, length_hdr_bytes. lia.
Qed.

Lemma ayiya_beat_signed cf g now :
  conf_ok cf -> length g = 64%nat ->
  ayiya_beat cf g now =
    Ok (ayiya_signed ayiya_op_noop IPPROTO_NONE (wrap 32 now) (ayiya_ipv6_local cf) (ayiya_hash cf) []).
Proof.
  intros ((Hl & Hlb) & _ & Hh & Hhb) Hg. unfold ayiya_beat.
  rewrite SHA1_correct; [unfold ayiya_signed; by rewrite !app_nil_r|done| |].
  - rewrite !bytes_ok_app. split_and!; [|done..]. apply (bytes_ok_ayiya_hdr ayiya_op_noop); [done|by right].
  - rewrite !length_app, length_hdr_bytes. lia.
Qed.

(** Endpoints of one tunnel: same secret, each knows the other's address. *)
Definition peered (a b : ayiya_conf) : Prop :=
  ayiya_hash a = ayiya_hash b /\ ayiya_ipv6_local a = ayiya_ipv6_pop b.

Lemma bytes_ok_signed op nh t id sec p :
  0 <= op < 16 -> (nh = IPPROTO_IPV6 \/ nh = IPPROTO_NONE) -> bytes_ok id -> bytes_ok p ->
  bytes_ok (ayiya_signed op nh t id sec p).
Proof.
  intros. unfold ayiya_signed. rewrite !bytes_ok_app.
  split_and!; [by apply bytes_ok_ayiya_hdr|done|apply sha1_spec_bytes|done].
Qed.

Lemma length_signed op nh t id sec p :
  length (ayiya_signed op nh t id sec p) = (28 + length id + length p)%nat.
Proof. unfold ayiya_signed. rewrite !length_app, length_ayiya_hdr, sha1_spec_length. lia. Qed.

(** (C17) End to end: what one endpoint reads from its device (an IPv6 packet of
    at most 2004 bytes) the other endpoint writes to its own, unchanged, when
    the clocks differ by at most 120 seconds. *)
Theorem ayiya_end_to_end a b g g' now now' p :
  conf_ok a -> conf_ok b -> peered a b -> length g = 64%nat -> length g' = 64%nat ->
  bytes_ok p -> is_ipv6 p -> (length p <= 2004)%nat ->
  0 <= now < 2 ^ 32 -> 0 <= now' -> Z.abs (now' - now) <= CLOCK_OFF ->
  exists d, ayiya_reader a g now p = Ok d /\ ayiya_writer b g' now' (Some d) = Ok (Some p).
Proof.
  intros Ha Hb [Hh Hid] Hg Hg' Hp H6 Hl Hn Hn' Hc.
  rewrite (ayiya_reader_signed a g now p Ha Hg Hp), Hh, Hid.
  rewrite (proj2 (Nat.leb_le _ _)) by (unfold PAYLOAD_SIZE; lia). unfold wrap. rewrite Z.mod_small by lia.
  eexists. split; [done|]. unfold ayiya_signed.
  pose proof Hb as (_ & (Hpl & Hpb) & Hsl & Hsb).
  rewrite writer_long.
  - f_equal. apply accept_iff; [apply bytes_ok_ayiya_hdr; [done|by left]|apply length_ayiya_hdr|].
    exists ayiya_op_forward, now. destruct Hn. split_and!; try done; [by left|].
    rewrite tic_checktime_0 by lia. unfold CLOCK_OFF in *. lia.
  - done.
  - done.
  - apply bytes_ok_signed; auto; done.
  - apply length_ayiya_hdr.
  - done.
  - apply sha1_spec_length.
  - done.
Qed.

(** A keep-alive never reaches a tunnel device, whatever its time stamp. *)
Theorem ayiya_beat_not_delivered a b g g' now now' :
  conf_ok a -> conf_ok b -> length g = 64%nat -> length g' = 64%nat ->
  exists d, ayiya_beat a g now = Ok d /\ length d = AYH_SIZE /\ ayiya_writer b g' now' (Some d) = Ok None.
Proof.
  intros Ha Hb Hg Hg'. rewrite (ayiya_beat_signed a g now Ha Hg). eexists. split; [done|].
  destruct Ha as ((Hl & Hlb) & _). split; [by rewrite length_signed, Hl|].
  unfold ayiya_signed. rewrite writer_long; try done.
  - apply bytes_ok_signed; auto; [done|constructor].
  - apply sha1_spec_length.
  - cbn [length]. lia.
Qed.

(** ** Set-up *)

(** The answers under which the set-up goes through. *)
Definition env_succeeds (e : ayiya_env) (pop4 local pop password : list Z) : Prop :=
  env_tun_start e = true /\
  (env_ipv4_pop e ≫= find_family AF_INET) = Some pop4 /\
  (env_ipv6_local e ≫= find_family AF_INET6) = Some local /\
  (env_ipv6_pop e ≫= find_family AF_INET6) = Some pop /\
  env_password e = Some password /\ env_connect e = true /\ env_aiccu_setup e = true.

(** Set-up: [ayiya] returns true exactly when every step succeeds; then
    the receiver runs with the addresses the resolver gave and the SHA-1 of
    the password as the secret.  When it returns false no receiver was
    started. *)
Theorem ayiya_setup e g s password :
  length g = 64%nat -> env_password e = Some password -> bytes_ok password ->
  Z.of_nat (length password) < 2 ^ 32 - 64 ->
  exists b s', ayiya e g s = Ok (b, s') /\
  (b = true <-> exists pop4 local pop, env_succeeds e pop4 local pop password) /\
  (b = false -> writer_running s' = writer_running s) /\
  (b = true -> writer_running s' = true /\ ayiya_socket s' = true /\
  env_succeeds e (ayiya_ipv4_pop s') (ayiya_ipv6_local (ayiya_cf s'))
         (ayiya_ipv6_pop (ayiya_cf s')) password /\
  ayiya_hash (ayiya_cf s') = sha1_spec password).
Proof.
  intros Hg Hp Hb Hl. unfold ayiya, env_succeeds. rewrite Hp, SHA1_correct by done.
  destruct (env_tun_start e), (env_ipv4_pop e ≫= _) as [pop4|], (env_ipv6_local e ≫= _) as [local|],
    (env_ipv6_pop e ≫= _) as [pop|], (env_connect e), (env_aiccu_setup e); cbn [negb mbind res_bind];
    eexists _, _; (split; [done|]); (split; [|done]); (split; [try done|naive_solver]).
  intros _. by exists pop4, local, pop.
Qed.

(** ** Witnesses *)

Definition cf_a : ayiya_conf := mk_ayiya_conf (repeat 1 16) (repeat 2 16) (repeat 7 20).
Definition cf_b : ayiya_conf := mk_ayiya_conf (repeat 2 16) (repeat 1 16) (repeat 7 20).

Lemma cf_a_ok : conf_ok cf_a.
Proof. by repeat constructor. Qed.

Lemma cf_b_ok : conf_ok cf_b.
Proof. by repeat constructor. Qed.

Lemma tic_checktime_spec_witness : tic_checktime 1000 1130 = 130 /\ tic_checktime 1000 881 = 0.
Proof. split; [apply (tic_checktime_spec 1000 1130)|apply (tic_checktime_spec 1000 881)]; lia. Defined.

Lemma tic_checktime_antipode_witness : tic_checktime 1000 (1000 + 2 ^ 31) = 0.
Proof. apply (tic_checktime_antipode 1000). lia. Defined.

Lemma ayiya_writer_contract_witness :
  exists out, ayiya_writer cf_b (repeat 0 64) 100 (Some (repeat 0 60)) = Ok out /\
  forall p, out = Some p <->
      exists op t, valid_op op /\ 0 <= t < 2 ^ 32 /\ tic_checktime 100 t = 0 /\
  repeat 0 60 = ayiya_signed op IPPROTO_IPV6 t (repeat 1 16) (repeat 7 20) p /\ is_ipv6 p.
Proof.
  apply (ayiya_writer_contract cf_b (repeat 0 64) 100 (repeat 0 60));
    [exact cf_b_ok|done|by apply bytes_ok_repeat|cbn; lia].
Defined.

Lemma ayiya_end_to_end_witness :
  exists d, ayiya_reader cf_a (repeat 0 64) 1000 [0x60; 1; 2] = Ok d /\
  ayiya_writer cf_b (repeat 0 64) 1100 (Some d) = Ok (Some [0x60; 1; 2]).
Proof.
  apply (ayiya_end_to_end cf_a cf_b (repeat 0 64) (repeat 0 64) 1000 1100 [0x60; 1; 2]);
    [exact cf_a_ok|exact cf_b_ok|done|done|done|by repeat constructor|by eexists _, _|cbn; lia|lia|lia|].
  unfold CLOCK_OFF. lia.
Defined.

Lemma ayiya_beat_not_delivered_witness :
  exists d, ayiya_beat cf_a (repeat 0 64) 1000 = Ok d /\ length d = AYH_SIZE /\
  ayiya_writer cf_b (repeat 0 64) 1000 (Some d) = Ok None.
Proof.
  exact (ayiya_beat_not_delivered cf_a cf_b (repeat 0 64) (repeat 0 64) 1000 1000 cf_a_ok cf_b_ok
           eq_refl eq_refl).
Defined.

Definition env_ok : ayiya_env :=
  mk_ayiya_env true (Some [(AF_INET, [192; 0; 2; 1])])
    (Some [(AF_INET, [192; 0; 2; 2]); (AF_INET6, repeat 1 16)]) (Some [(AF_INET6, repeat 2 16)])
    (Some [112; 119]) true true.

Lemma ayiya_setup_witness :
  exists b s', ayiya env_ok (repeat 0 64) (mk_ayiya_globals [] cf_a false false) = Ok (b, s') /\ b = true.
Proof.
  destruct (ayiya_setup env_ok (repeat 0 64) (mk_ayiya_globals [] cf_a false false) [112; 119])
    as (b & s' & H & Hb & _); [done|done|by repeat constructor|cbn; lia|].
  exists b, s'. split; [exact H|]. apply Hb. exists [192; 0; 2; 1], (repeat 1 16), (repeat 2 16).
  by repeat split.
Defined.
