(* ===== verification/Redirect.v ===== *)
(** * Broker redirection ([gogoc-tsp/src/tsp/tsp_redirect.c])

A TSP server may answer with a list of other brokers.  The client turns the
message into a list, measures the distance of each broker, sorts the list and
saves it to a file; it also keeps the name of the last server.  This file
models these operations together with [tspGetBrokerDistances]
([net_echo_request.c]) and [tspFreeBrokerList], with an account of the memory
blocks they own.  The XML parser and the echo exchange are arguments. *)

From Stdlib Require Import ZifyNat Sorted.
From stdpp Require Import base list numbers sorting.
From S2P Require Import Prelude CString.

(** ** Data *)

Inductive tRedirectStatus :=
| TSP_REDIRECT_OK | TSP_REDIRECT_INTERNAL_ERR | TSP_REDIRECT_CANT_OPEN_FILE
| TSP_REDIRECT_NO_LAST_SERVER | TSP_REDIRECT_CANT_WRITE_TO_FILE
| TSP_REDIRECT_CANT_ADD_BROKER_TO_LIST | TSP_REDIRECT_CANT_EXTRACT_PAYLOAD
| TSP_REDIRECT_CANT_CREATE_LIST | TSP_REDIRECT_CANT_SORT_LIST
| TSP_REDIRECT_CANT_LOG_REDIRECTION | TSP_REDIRECT_CANT_ALLOCATE_MEM
| TSP_REDIRECT_ADDRESS_TRUNCATED | TSP_REDIRECT_CANT_GET_DISTANCES
| TSP_REDIRECT_CANT_INSERT_BROKER_IN_LIST | TSP_REDIRECT_CANT_SAVE_BROKER_LIST
| TSP_REDIRECT_EMPTY_BROKER_LIST | TSP_REDIRECT_TOO_MANY_BROKERS
| TSP_REDIRECT_CANT_INIT_THREAD_ARG | TSP_REDIRECT_CANT_CREATE_THREAD
| TSP_REDIRECT_CANT_WAIT_FOR_THREAD | TSP_REDIRECT_ECHO_REQUEST_TIMEOUT
| TSP_REDIRECT_ECHO_REQUEST_ERROR | TSP_REDIRECT_CANT_MALLOC_THREAD_ARRAY
| TSP_REDIRECT_CANT_MALLOC_THREAD_ARGS.

#[export] Instance tRedirectStatus_eq_dec : EqDecision tRedirectStatus.
Proof. solve_decision. Defined.

Inductive tBrokerAddressType :=
| TSP_REDIRECT_BROKER_TYPE_NONE | TSP_REDIRECT_BROKER_TYPE_FQDN
| TSP_REDIRECT_BROKER_TYPE_IPV4 | TSP_REDIRECT_BROKER_TYPE_IPV6.

(** An element of [tBrokerList]; a list is owned by one pointer, so it is a
    list of its elements. *)
Record tBroker := mk_broker {
  address : list Z;
  address_type : tBrokerAddressType;
  distance : Z;
}.

Definition MAX_REDIRECT_ADDRESS_LENGTH : nat := 255.
Definition MAX_REDIRECT_LAST_SERVER_LINE_LENGTH : nat := 255.
Definition MAX_REDIRECT_BROKER_LIST_LINE_LENGTH : nat := 255.
Definition MAX_REDIRECT_BROKERS_IN_LIST : Z := 50.
Definition MAX_BROKER_LIST_STRING_LENGTH : nat := 4096.
Definition MAX_REDIRECT_STATUS_LENGTH : nat := 1024.
Definition REDIRECT_STATUS_CODE_BASE : Z := 1000.

Definition tspIsRedirectStatus (status : Z) : bool := REDIRECT_STATUS_CODE_BASE <? status.

(** The fields of [tTunnel] that a redirection message fills. *)
Record tTunnel := mk_tTunnel {
  broker_redirect_ipv4 : list (option (list Z));
  broker_redirect_ipv6 : list (option (list Z));
  broker_redirect_dn : list (option (list Z));
}.

(** ** Memory

Which allocations succeed is an argument; the state counts the allocations
made and the blocks that are live. *)
Record heap := mk_heap { hp_next : nat; hp_live : Z }.

Section redirect.
Context (malloc_ok : nat -> bool).

Definition pal_malloc : st heap bool := fun h =>
  if malloc_ok (hp_next h) then Ok (true, mk_heap (S (hp_next h)) (hp_live h + 1))
  else Ok (false, mk_heap (S (hp_next h)) (hp_live h)).

Definition pal_free : st heap unit := modify (fun h => mk_heap (hp_next h) (hp_live h - 1)).

Fixpoint tspFreeBrokerList (broker_list : list tBroker) : st heap tRedirectStatus :=
  match broker_list with
  | [] => mret TSP_REDIRECT_OK
  | _ :: next_broker => _ ← pal_free; tspFreeBrokerList next_broker
  end.

(** ** Lists *)

(** [broker_list] is [None] for a null [tBrokerList **], [addr] for a null
    string. *)
Definition tspAddBrokerToList (broker_list : option (list tBroker)) (addr : option (list Z))
    (ty : tBrokerAddressType) (dist : Z) : st heap (tRedirectStatus * option (list tBroker)) :=
  match broker_list, addr with
  | None, _ => mret (TSP_REDIRECT_INTERNAL_ERR, None)
  | Some l, None => mret (TSP_REDIRECT_INTERNAL_ERR, Some l)
  | Some l, Some a =>
    ok ← pal_malloc;
    if negb ok then mret (TSP_REDIRECT_CANT_ALLOCATE_MEM, Some l) else
    let a' := strlcpy a MAX_REDIRECT_ADDRESS_LENGTH in
    if negb (length a' =? length a)%nat then
      _ ← pal_free;
      mret (TSP_REDIRECT_ADDRESS_TRUNCATED, Some l)
    else mret (TSP_REDIRECT_OK, Some (l ++ [mk_broker a' ty dist]))
  end.

(** One of the three loops of [tspCreateBrokerList]. *)
Fixpoint create_loop (ty : tBrokerAddressType) (values : list (option (list Z)))
    (broker_list : list tBroker) (broker_count : Z) :
    st heap (tRedirectStatus * list tBroker * Z) :=
  match values with
  | [] => mret (TSP_REDIRECT_OK, broker_list, broker_count)
  | v :: values' =>
    if broker_count <? MAX_REDIRECT_BROKERS_IN_LIST then
      r ← tspAddBrokerToList (Some broker_list) v ty 0;
      let l := default [] (snd r) in
      if decide (fst r = TSP_REDIRECT_OK) then create_loop ty values' l (broker_count + 1)
      else
        _ ← tspFreeBrokerList l;
        mret (TSP_REDIRECT_CANT_ADD_BROKER_TO_LIST, [], broker_count)
    else
      _ ← tspFreeBrokerList broker_list;
      mret (TSP_REDIRECT_TOO_MANY_BROKERS, [], broker_count)
  end.

Definition tspCreateBrokerList (tunnel_info : tTunnel) (broker_list : list tBroker) :
    st heap (tRedirectStatus * list tBroker * Z) :=
  _ ← tspFreeBrokerList broker_list;
  r4 ← create_loop TSP_REDIRECT_BROKER_TYPE_IPV4 (broker_redirect_ipv4 tunnel_info) [] 0;
  let '(s4, l4, n4) := r4 in
  if negb (bool_decide (s4 = TSP_REDIRECT_OK)) then mret r4 else
  r6 ← create_loop TSP_REDIRECT_BROKER_TYPE_IPV6 (broker_redirect_ipv6 tunnel_info) l4 n4;
  let '(s6, l6, n6) := r6 in
  if negb (bool_decide (s6 = TSP_REDIRECT_OK)) then mret r6 else
  create_loop TSP_REDIRECT_BROKER_TYPE_FQDN (broker_redirect_dn tunnel_info) l6 n6.

(** The new element goes before the first one that is not closer. *)
Fixpoint tspInsertInBrokerList (new_element : tBroker) (sorted_list : list tBroker) : list tBroker :=
  match sorted_list with
  | [] => [new_element]
  | b :: l => if distance b <? distance new_element then b :: tspInsertInBrokerList new_element l
              else new_element :: b :: l
  end.

(** *** Distances *)

(** What the threads do: whether thread [t] can be created and joined, and
    what [tspDoEchoRequest] finds for a broker. *)
Context (thread_ok join_ok : nat -> bool) (echo : tBroker -> Z).

Fixpoint create_threads (t : nat) (l : list tBroker) : option nat :=
  match l with
  | [] => None
  | _ :: l' => if thread_ok t then create_threads (S t) l' else Some t
  end.

Fixpoint join_threads (t : nat) (l : list tBroker) : option nat :=
  match l with
  | [] => None
  | _ :: l' => if join_ok t then join_threads (S t) l' else Some t
  end.

(** The status, the list with its distances, and the number of threads that
    still hold an element of [thread_arguments] when it is freed.  When a
    thread fails the distances are those of the threads that are done, which
    nobody reads. *)
Definition tspGetBrokerDistances (broker_list : list tBroker) (broker_count : Z) :
    st heap (tRedirectStatus * list tBroker * nat) :=
  let seen := take (Z.to_nat broker_count) broker_list in
  threads ← pal_malloc;
  if negb threads then mret (TSP_REDIRECT_CANT_MALLOC_THREAD_ARRAY, broker_list, 0%nat) else
  thread_arguments ← pal_malloc;
  if negb thread_arguments then
    _ ← pal_free; mret (TSP_REDIRECT_CANT_MALLOC_THREAD_ARGS, broker_list, 0%nat)
  else
  match create_threads 0 seen with
  | Some t => _ ← pal_free; _ ← pal_free; mret (TSP_REDIRECT_CANT_CREATE_THREAD, broker_list, t)
  | None =>
    match join_threads 0 seen with
    | Some t =>
      _ ← pal_free; _ ← pal_free;
      mret (TSP_REDIRECT_CANT_WAIT_FOR_THREAD, broker_list, (length seen - t)%nat)
    | None =>
      _ ← pal_free; _ ← pal_free;
      mret (TSP_REDIRECT_OK,
            ((fun b => mk_broker (address b) (address_type b) (echo b)) <$> seen)
              ++ drop (Z.to_nat broker_count) broker_list, 0%nat)
    end
  end.

(** The loop of [tspSortBrokerList] over the original list. *)
Fixpoint sort_loop (l sorted_list : list tBroker) : st heap (tRedirectStatus * list tBroker) :=
  match l with
  | [] => mret (TSP_REDIRECT_OK, sorted_list)
  | b :: l' =>
    ok ← pal_malloc;
    if negb ok then
      _ ← tspFreeBrokerList sorted_list; mret (TSP_REDIRECT_CANT_ALLOCATE_MEM, [])
    else
      let new_element := mk_broker (address b) (address_type b) (distance b) in
      sort_loop l' (tspInsertInBrokerList new_element sorted_list)
  end.

Definition tspSortBrokerList (broker_list : list tBroker) (broker_count : Z) :
    st heap (tRedirectStatus * list tBroker) :=
  d ← tspGetBrokerDistances broker_list broker_count;
  let '(s, l, _) := d in
  if negb (bool_decide (s = TSP_REDIRECT_OK)) then mret (TSP_REDIRECT_CANT_GET_DISTANCES, l) else
  r ← sort_loop l [];
  if negb (bool_decide (fst r = TSP_REDIRECT_OK)) then mret (fst r, l) else
  _ ← tspFreeBrokerList l;
  mret (TSP_REDIRECT_OK, snd r).

(** ** The log *)

Definition BROKER_LIST_STRING_START : list Z := [91; 32].         (* "[ " *)
Definition BROKER_LIST_STRING_END : list Z := [32; 93].           (* " ]" *)
Definition BROKER_LIST_STRING_SEPARATOR : list Z := [44; 32].     (* ", " *)
Definition BROKER_LIST_STRING_SUSPENSION : list Z := [46; 46; 46]. (* "..." *)

(** [space_left] is computed once; the loop does not change it. *)
Definition space_left : nat :=
  MAX_BROKER_LIST_STRING_LENGTH - 1 -
  (length BROKER_LIST_STRING_START + length BROKER_LIST_STRING_SEPARATOR +
   length BROKER_LIST_STRING_SUSPENSION + length BROKER_LIST_STRING_END).

Fixpoint log_loop (first_broker : bool) (l : list tBroker) (index : nat) : res nat :=
  match l with
  | [] => Ok index
  | b :: l' =>
    let separator := if first_broker then [] else BROKER_LIST_STRING_SEPARATOR in
    let space_needed := (length separator + length (address b))%nat in
    if (space_needed <=? space_left)%nat then
      i ← sprintf_at MAX_BROKER_LIST_STRING_LENGTH index (separator ++ address b);
      log_loop false l' i
    else sprintf_at MAX_BROKER_LIST_STRING_LENGTH index (separator ++ BROKER_LIST_STRING_SUSPENSION)
  end.

Definition tspLogRedirectionList (broker_list : list tBroker) : res tRedirectStatus :=
  i ← sprintf_at MAX_BROKER_LIST_STRING_LENGTH 0 BROKER_LIST_STRING_START;
  i ← log_loop true broker_list i;
  _ ← sprintf_at MAX_BROKER_LIST_STRING_LENGTH i BROKER_LIST_STRING_END;
  Ok TSP_REDIRECT_OK.

(** [sscanf (payload, "%[^\n]", status)]: no width limits what is stored. *)
Fixpoint scan_line (l : list Z) : list Z :=
  match l with
  | [] => []
  | c :: l' => if c =? LF then [] else c :: scan_line l'
  end.

Definition tspLogReceivedRedirection (payload : list Z) : res tRedirectStatus :=
  let s := scan_line payload in
  guard_or OutOfBounds ((length s =? 0) || (length s + 1 <=? MAX_REDIRECT_STATUS_LENGTH))%nat;;
  Ok TSP_REDIRECT_OK.

(** ** Files

[fopen] succeeds when the argument says so; [write_ok k] tells whether the
[k]-th [fprintf] does.  The second result is what the file then holds.  The
names of the files are never null: the configuration always sets them. *)
Fixpoint write_lines (write_ok : nat -> bool) (k : nat) (lines : list (list Z)) (written : list Z) :
    tRedirectStatus * list Z :=
  match lines with
  | [] => (TSP_REDIRECT_OK, written)
  | s :: lines' =>
    if write_ok k then write_lines write_ok (S k) lines' (written ++ s ++ [LF])
    else (TSP_REDIRECT_CANT_WRITE_TO_FILE, written)
  end.

Definition tspWriteBrokerListToFile (open_ok : bool) (write_ok : nat -> bool) (broker_list : list tBroker)
    (file : list Z) : tRedirectStatus * list Z :=
  if negb open_ok then (TSP_REDIRECT_CANT_OPEN_FILE, file)
  else write_lines write_ok 0 (address <$> broker_list) [].

Definition tspWriteLastServerToFile (open_ok : bool) (write_ok : nat -> bool) (last_server : option (list Z))
    (file : list Z) : tRedirectStatus * list Z :=
  match last_server with
  | None => (TSP_REDIRECT_INTERNAL_ERR, file)
  | Some s =>
    if negb open_ok then (TSP_REDIRECT_CANT_OPEN_FILE, file)
    else write_lines write_ok 0 [s] []
  end.

(** The loop over the lines; the file shrinks at every turn, so its length is
    enough fuel. *)
Fixpoint last_server_loop (fuel : nat) (file : list Z) (bufsize : nat) : res (tRedirectStatus * list Z) :=
  match fuel with
  | O => Err OutOfFuel
  | S fuel' =>
    match fgets MAX_REDIRECT_LAST_SERVER_LINE_LENGTH file with
    | None => Ok (TSP_REDIRECT_NO_LAST_SERVER, [])
    | Some (line, rest) =>
      let first := default 0 (head line) in
      if (first =? 35) || (first =? CR) || (first =? LF) then last_server_loop fuel' rest bufsize
      else Ok (TSP_REDIRECT_OK, strlcpy (chomp (chomp (c_str line))) bufsize)
    end
  end.

(** [None] stands for a file that cannot be opened; the second result is what
    is copied to the caller's buffer, which is untouched when nothing is found. *)
Definition tspReadLastServerFromFile (file : option (list Z)) (bufsize : nat) : res (tRedirectStatus * list Z) :=
  match file with
  | None => Ok (TSP_REDIRECT_CANT_OPEN_FILE, [])
  | Some f => last_server_loop (S (length f)) f bufsize
  end.

Fixpoint broker_list_loop (fuel : nat) (file : list Z) (broker_list : list tBroker) (broker_count : Z) :
    st heap (tRedirectStatus * list tBroker) :=
  match fuel with
  | O => lift (Err OutOfFuel)
  | S fuel' =>
    match fgets MAX_REDIRECT_BROKER_LIST_LINE_LENGTH file with
    | None => mret (TSP_REDIRECT_OK, broker_list)
    | Some (line, rest) =>
      let line := chomp (chomp (c_str line)) in
      if (0 <? length line)%nat then
        if broker_count <? MAX_REDIRECT_BROKERS_IN_LIST then
          r ← tspAddBrokerToList (Some broker_list) (Some line) TSP_REDIRECT_BROKER_TYPE_NONE 0;
          let l := default [] (snd r) in
          if decide (fst r = TSP_REDIRECT_OK) then broker_list_loop fuel' rest l (broker_count + 1)
          else mret (TSP_REDIRECT_CANT_ADD_BROKER_TO_LIST, l)
        else mret (TSP_REDIRECT_TOO_MANY_BROKERS, broker_list)
      else broker_list_loop fuel' rest broker_list broker_count
    end
  end.

(** The caller's list is overwritten with a null pointer. *)
Definition tspReadBrokerListFromFile (file : option (list Z)) : st heap (tRedirectStatus * list tBroker) :=
  match file with
  | None => mret (TSP_REDIRECT_CANT_OPEN_FILE, [])
  | Some f => broker_list_loop (S (length f)) f [] 0
  end.

(** ** The handler *)

Context (tspExtractPayload : list Z -> res (option tTunnel)).

Definition tspHandleRedirect (payload : list Z) (open_ok : bool) (write_ok : nat -> bool)
    (broker_list : list tBroker) (file : list Z) :
    st heap (tRedirectStatus * list tBroker * list Z) :=
  _ ← lift (tspLogReceivedRedirection payload);
  x ← lift (tspExtractPayload payload);
  match x with
  | None => mret (TSP_REDIRECT_CANT_EXTRACT_PAYLOAD, broker_list, file)
  | Some tunnel_info =>
    c ← tspCreateBrokerList tunnel_info broker_list;
    let '(s, l, broker_count) := c in
    if negb (bool_decide (s = TSP_REDIRECT_OK)) then mret (TSP_REDIRECT_CANT_CREATE_LIST, l, file) else
    _ ← lift (tspLogRedirectionList l);
    if 1 <? broker_count then
      r ← tspSortBrokerList l broker_count;
      if negb (bool_decide (fst r = TSP_REDIRECT_OK)) then mret (TSP_REDIRECT_CANT_SORT_LIST, snd r, file) else
      _ ← lift (tspLogRedirectionList (snd r));
      let '(_, file') := tspWriteBrokerListToFile open_ok write_ok (snd r) file in
      mret (TSP_REDIRECT_OK, snd r, file')
    else if broker_count =? 0 then mret (TSP_REDIRECT_EMPTY_BROKER_LIST, l, file)
    else mret (TSP_REDIRECT_OK, l, file)
  end.
End redirect.

(** ** Memory accounts

Every operation changes the number of live blocks by the change of the length
of the list its caller owns. *)

Definition good_address (a : list Z) : Prop := (length a < MAX_REDIRECT_ADDRESS_LENGTH)%nat.
Definition good_broker (b : tBroker) : Prop := good_address (address b).

Lemma wp_free l (Q : tRedirectStatus -> heap -> Prop) h :
  Q TSP_REDIRECT_OK (mk_heap (hp_next h) (hp_live h - Z.of_nat (length l))) ->
  wp (tspFreeBrokerList l) Q h.
Proof.
  revert h. induction l as [|b l IH]; intros h H; cbn [tspFreeBrokerList].
  - apply wp_ret. destruct h as [n k]. cbn in H. by rewrite Z.sub_0_r in H.
  - apply wp_bind, wp_modify, IH. cbn. cbn [length] in H.
    by replace (hp_live h - 1 - Z.of_nat (length l)) with (hp_live h - Z.of_nat (S (length l))) by lia.
Qed.

Section accounts.
Context (malloc_ok : nat -> bool).

Lemma wp_malloc (Q : bool -> heap -> Prop) h :
  (malloc_ok (hp_next h) = true -> Q true (mk_heap (S (hp_next h)) (hp_live h + 1))) ->
  (malloc_ok (hp_next h) = false -> Q false (mk_heap (S (hp_next h)) (hp_live h))) ->
  wp (pal_malloc malloc_ok) Q h.
Proof. unfold wp, pal_malloc. destruct (malloc_ok (hp_next h)); auto. Qed.

Lemma wp_add l a ty d (Q : tRedirectStatus * option (list tBroker) -> heap -> Prop) h :
  (forall s h', hp_live h' = hp_live h -> s <> TSP_REDIRECT_OK ->
     (malloc_ok (hp_next h) = true -> ~ exists s, a = Some s /\ good_address s) -> Q (s, Some l) h') ->
  (forall s h', hp_live h' = hp_live h + 1 -> hp_next h' = S (hp_next h) ->
     a = Some s -> good_address s -> Q (TSP_REDIRECT_OK, Some (l ++ [mk_broker s ty d])) h') ->
  wp (tspAddBrokerToList malloc_ok (Some l) a ty d) Q h.
Proof.
  intros Hbad Hok. unfold tspAddBrokerToList. destruct a as [a|].
  - apply wp_bind, wp_malloc; intros Hm; cbn [negb].
    + destruct (Nat.eqb_spec (length (strlcpy a MAX_REDIRECT_ADDRESS_LENGTH)) (length a)) as [E|E].
      * cbn [negb]. apply wp_ret. rewrite (strlcpy_id _ _ E). apply Hok; try done.
        rewrite <- (strlcpy_id _ _ E). apply length_strlcpy. unfold MAX_REDIRECT_ADDRESS_LENGTH. lia.
      * cbn [negb]. apply wp_bind, wp_modify, wp_ret, Hbad; cbn; [lia|done|].
        intros _ (s & [= <-] & Hs). by rewrite strlcpy_short in E.
    + apply wp_ret, Hbad; cbn; [done|done|]. by rewrite Hm.
  - apply wp_ret, Hbad; [done|done|]. by intros _ (s & ? & _).
Qed.

(** What a message announces. *)
Definition announce (ty : tBrokerAddressType) (values : list (option (list Z))) : option (list tBroker) :=
  mapM (fun v => match v with
                 | Some a => if decide (good_address a) then Some (mk_broker a ty 0) else None
                 | None => None end) values.

Lemma announce_cons ty v vs :
  announce ty (v :: vs) =
  match v with
  | Some a => if decide (good_address a) then (mk_broker a ty 0 ::.) <$> announce ty vs else None
  | None => None
  end.
Proof.
  unfold announce. cbn [mapM]. destruct v as [a|]; [|done]. case_decide; [|done]. cbn.
  by destruct (mapM _ vs).
Qed.

Definition all_ok : Prop := forall n, malloc_ok n = true.

Lemma wp_create_loop ty vs l n h :
  wp (create_loop malloc_ok ty vs l n)
     (fun r h' => let '(s, l', n') := r in
        hp_live h' = hp_live h - Z.of_nat (length l) + Z.of_nat (length l') /\
        (s = TSP_REDIRECT_OK ->
           exists new, announce ty vs = Some new /\ l' = l ++ new /\ n' = n + Z.of_nat (length new) /\
             (n <= MAX_REDIRECT_BROKERS_IN_LIST -> n' <= MAX_REDIRECT_BROKERS_IN_LIST)) /\
        (s <> TSP_REDIRECT_OK -> l' = [] /\
           (all_ok -> announce ty vs = None \/ MAX_REDIRECT_BROKERS_IN_LIST < n + Z.of_nat (length vs)))) h.
Proof.
  revert l n h. induction vs as [|v vs IH]; intros l n h; cbn [create_loop].
  - apply wp_ret. split; [lia|]. split; [|done]. intros _. exists []. rewrite app_nil_r. cbn. split_and!; done || lia.
  - rewrite announce_cons. destruct (Z.ltb_spec n MAX_REDIRECT_BROKERS_IN_LIST) as [Hn|Hn].
    + apply wp_bind, wp_add.
      * intros s h' Hh Hs Hv. cbn [fst snd option.from_option id]. rewrite decide_False by done.
        apply wp_bind, wp_free, wp_ret. cbn. split; [lia|]. split; [done|]. intros _. split; [done|].
        intros Hall. left. specialize (Hv (Hall _)). destruct v as [a|]; [|done].
        rewrite decide_False; [done|]. intros Ha. apply Hv. by exists a.
      * intros a h' Hh _ -> Ha. cbn [fst snd option.from_option id]. rewrite decide_True by done.
        eapply wp_mono; [apply IH|]. intros [[s l'] n'] h'' (Hl & Hok & Hbad). cbn [fst snd option.from_option id] in *.
        rewrite decide_True by done. rewrite length_app in Hl. cbn [length] in *.
        split; [lia|]. split.
        -- intros Hs. destruct (Hok Hs) as (new & Hnew & -> & -> & Hmax).
           exists (mk_broker a ty 0 :: new). rewrite Hnew. split; [done|]. rewrite <- app_assoc. cbn [app length].
           split; [done|]. split; [lia|]. lia.
        -- intros Hs. destruct (Hbad Hs) as [-> Hall]. split; [done|]. intros Ha'.
           destruct (Hall Ha') as [-> | Hlen]; [by left|]. right. lia.
    + apply wp_bind, wp_free, wp_ret. cbn [hp_live length]. split; [lia|]. split; [done|].
      intros _. split; [done|]. intros _. right. lia.
Qed.

Definition announced (t : tTunnel) : option (list tBroker) :=
  l4 ← announce TSP_REDIRECT_BROKER_TYPE_IPV4 (broker_redirect_ipv4 t);
  l6 ← announce TSP_REDIRECT_BROKER_TYPE_IPV6 (broker_redirect_ipv6 t);
  ld ← announce TSP_REDIRECT_BROKER_TYPE_FQDN (broker_redirect_dn t);
  Some (l4 ++ l6 ++ ld).

Lemma announce_length ty vs l :
  announce ty vs = Some l -> length l = length vs.
Proof. intros H. symmetry. apply (length_mapM _ _ _ H). Qed.

Lemma announce_good ty vs l : announce ty vs = Some l -> Forall good_broker l.
Proof.
  revert l. induction vs as [|v vs IH]; intros l.
  - intros [= <-]. constructor.
  - rewrite announce_cons. destruct v as [a|]; [|done]. case_decide as Ha; [|done].
    destruct (announce ty vs) as [k|]; [|done]. intros [= <-]. constructor; [done|]. by apply IH.
Qed.

Lemma announced_good t l : announced t = Some l -> Forall good_broker l.
Proof.
  unfold announced. intros H.
  apply bind_Some in H as (l4 & H4 & H). apply bind_Some in H as (l6 & H6 & H).
  apply bind_Some in H as (ld & Hd & [= <-]). rewrite !Forall_app.
  split_and!; by eapply announce_good.
Qed.

(** How many brokers the message names. *)
Definition named (t : tTunnel) : Z :=
  Z.of_nat (length (broker_redirect_ipv4 t) + length (broker_redirect_ipv6 t) + length (broker_redirect_dn t)).

Lemma wp_create t l h :
  wp (tspCreateBrokerList malloc_ok t l)
     (fun r h' => let '(s, l', n) := r in
        hp_live h' = hp_live h - Z.of_nat (length l) + Z.of_nat (length l') /\
        (s = TSP_REDIRECT_OK ->
           announced t = Some l' /\ n = Z.of_nat (length l') /\ n <= MAX_REDIRECT_BROKERS_IN_LIST) /\
        (s <> TSP_REDIRECT_OK -> l' = [] /\
           (all_ok -> announced t = None \/ MAX_REDIRECT_BROKERS_IN_LIST < named t))) h.
Proof.
  unfold tspCreateBrokerList, announced, named.
  apply wp_bind, wp_free, wp_bind. eapply wp_mono; [apply wp_create_loop|].
  intros [[s4 l4] n4] h4 (Hl4 & Hok4 & Hbad4). cbn [hp_live length] in Hl4.
  case_bool_decide as H4; cbn [negb].
  2:{ apply wp_ret. destruct (Hbad4 H4) as [-> Ha]. cbn [length] in *. split; [lia|]. split; [done|].
      intros _. split; [done|]. intros Hall. destruct (Ha Hall) as [-> |]; [by left|right; lia]. }
  destruct (Hok4 H4) as (k4 & E4 & -> & -> & Hm4). rewrite E4. cbn [mbind option_bind].
  apply announce_length in E4. apply wp_bind. eapply wp_mono; [apply wp_create_loop|].
  intros [[s6 l6] n6] h6 (Hl6 & Hok6 & Hbad6). case_bool_decide as H6; cbn [negb].
  2:{ apply wp_ret. destruct (Hbad6 H6) as [-> Ha]. cbn [length app] in *. split; [lia|]. split; [done|].
      intros _. split; [done|]. intros Hall. destruct (Ha Hall) as [-> |]; [by left|right; lia]. }
  destruct (Hok6 H6) as (k6 & E6 & -> & -> & Hm6). rewrite E6. cbn [mbind option_bind].
  apply announce_length in E6. eapply wp_mono; [apply wp_create_loop|].
  intros [[s l'] n] h' (Hl & Hok & Hbad). cbn [app] in *. split; [lia|]. split.
  - intros Hs. destruct (Hok Hs) as (kd & Ed & -> & -> & Hm). rewrite Ed. cbn [mbind option_bind].
    rewrite <- app_assoc. split; [done|]. rewrite !length_app. unfold MAX_REDIRECT_BROKERS_IN_LIST in *. lia.
  - intros Hs. destruct (Hbad Hs) as [-> Ha]. split; [done|]. intros Hall.
    destruct (Ha Hall) as [-> |]; [by left|right; lia].
Qed.
End accounts.

(** (C18) The list of a redirection message: on success it is exactly the
    brokers the message names, in order, at most 50 of them, each address
    stored whole; on failure it is empty.  With memory it fails only for a
    message with a missing or overlong address or more than 50 brokers.  The
    old list is freed and no block is lost. *)
Theorem tspCreateBrokerList_contract malloc_ok t l h :
  exists s l' n h', tspCreateBrokerList malloc_ok t l h = Ok ((s, l', n), h') /\
    hp_live h' = hp_live h - Z.of_nat (length l) + Z.of_nat (length l') /\
    (s = TSP_REDIRECT_OK ->
       announced t = Some l' /\ n = Z.of_nat (length l') /\ n <= MAX_REDIRECT_BROKERS_IN_LIST) /\
    (s <> TSP_REDIRECT_OK -> l' = [] /\
       (all_ok malloc_ok -> announced t = None \/ MAX_REDIRECT_BROKERS_IN_LIST < named t)).
Proof.
  destruct (wp_ok _ _ _ (wp_create malloc_ok t l h)) as ([[s l'] n] & h' & E & H).
  by exists s, l', n, h'.
Qed.

(** ** Sorting *)

Definition closer (a b : tBroker) : Prop := distance a <= distance b.

#[export] Instance closer_trans : Transitive closer.
Proof. intros a b c. unfold closer. lia. Qed.

Lemma insert_perm b l : tspInsertInBrokerList b l ≡ₚ b :: l.
Proof.
  induction l as [|c l IH]; cbn; [done|]. case_match; [|done].
  rewrite IH. apply Permutation_swap.
Qed.

Lemma insert_sorted b l : StronglySorted closer l -> StronglySorted closer (tspInsertInBrokerList b l).
Proof.
  induction 1 as [|c l Hl IH Hc]; cbn; [by repeat constructor|].
  destruct (Z.ltb_spec (distance c) (distance b)).
  - constructor; [done|]. rewrite insert_perm. constructor; [unfold closer; lia|done].
  - assert (closer b c) by (unfold closer; lia). constructor; [by constructor|].
    constructor; [done|]. eapply Forall_impl; [done|]. intros x Hx. by transitivity c.
Qed.

Definition at_distance (d : Z) (l : list tBroker) : list tBroker := filter (fun b => distance b = d) l.

Lemma at_distance_insert d b l :
  at_distance d (tspInsertInBrokerList b l) =
  if decide (distance b = d) then b :: at_distance d l else at_distance d l.
Proof.
  unfold at_distance. induction l as [|c l IH]; cbn [tspInsertInBrokerList].
  - rewrite filter_cons, filter_nil. done.
  - destruct (Z.ltb_spec (distance c) (distance b)).
    + rewrite !filter_cons, IH. repeat case_decide; try done. lia.
    + by rewrite filter_cons.
Qed.

(** Insertion of a whole list. *)
Definition insert_all (l acc : list tBroker) : list tBroker :=
  foldl (fun acc b => tspInsertInBrokerList b acc) acc l.

Lemma insert_all_sorted l acc : StronglySorted closer acc -> StronglySorted closer (insert_all l acc).
Proof. revert acc. induction l as [|b l IH]; intros acc H; cbn; [done|]. by apply IH, insert_sorted. Qed.

Lemma insert_all_perm l acc : insert_all l acc ≡ₚ l ++ acc.
Proof.
  revert acc. induction l as [|b l IH]; intros acc; cbn; [done|].
  unfold insert_all in IH. rewrite IH, insert_perm. by rewrite Permutation_middle.
Qed.

Lemma insert_all_at_distance d l acc :
  at_distance d (insert_all l acc) = rev (at_distance d l) ++ at_distance d acc.
Proof.
  revert acc. induction l as [|b l IH]; intros acc; [done|].
  change (insert_all (b :: l) acc) with (insert_all l (tspInsertInBrokerList b acc)).
  rewrite IH, at_distance_insert. unfold at_distance. rewrite filter_cons. case_decide; cbn [rev]; [|done].
  by rewrite <- app_assoc.
Qed.

Definition measured (echo : tBroker -> Z) (b : tBroker) : tBroker :=
  mk_broker (address b) (address_type b) (echo b).

Section sorting.
Context (malloc_ok thread_ok join_ok : nat -> bool) (echo : tBroker -> Z).

Lemma wp_distances l h :
  wp (tspGetBrokerDistances malloc_ok thread_ok join_ok echo l (Z.of_nat (length l)))
     (fun r h' => let '(s, l', _) := r in
        hp_live h' = hp_live h /\
        (s = TSP_REDIRECT_OK -> l' = measured echo <$> l) /\
        (s <> TSP_REDIRECT_OK -> l' = l /\
          (all_ok malloc_ok -> all_ok thread_ok -> all_ok join_ok -> False))) h.
Proof.
  unfold tspGetBrokerDistances. rewrite Nat2Z.id, firstn_all, drop_all, app_nil_r.
  assert (forall k, all_ok thread_ok -> create_threads thread_ok k l = None) as Hc.
  { intros k H. revert k. induction l as [|b l' IH]; intros k; cbn; [done|]. by rewrite H. }
  assert (forall k, all_ok join_ok -> join_threads join_ok k l = None) as Hj.
  { intros k H. revert k. clear Hc. induction l as [|b l' IH]; intros k; cbn; [done|]. by rewrite H. }
  apply wp_bind, wp_malloc; intros Hm; cbn [negb].
  2:{ apply wp_ret. split; [done|]. split; [done|]. intros _. split; [done|]. intros H. by rewrite H in Hm. }
  apply wp_bind, wp_malloc; intros Hm'; cbn [negb].
  2:{ apply wp_bind, wp_modify, wp_ret. split; [cbn; lia|]. split; [done|]. intros _. split; [done|].
      intros H. by rewrite H in Hm'. }
  destruct (create_threads thread_ok 0 l) eqn:E.
  - apply wp_bind, wp_modify, wp_bind, wp_modify, wp_ret. split; [cbn; lia|]. split; [done|].
    intros _. split; [done|]. intros _ H _. by rewrite Hc in E.
  - destruct (join_threads join_ok 0 l) eqn:E';
      apply wp_bind, wp_modify, wp_bind, wp_modify, wp_ret; (split; [cbn; lia|]); (split; [done|]).
    + intros _. split; [done|]. intros _ _ H. by rewrite Hj in E'.
    + done.
Qed.

Lemma wp_sort_loop l acc h :
  wp (sort_loop malloc_ok l acc)
     (fun r h' => let '(s, l') := r in
        hp_live h' = hp_live h - Z.of_nat (length acc) + Z.of_nat (length l') /\
        (s = TSP_REDIRECT_OK -> l' = insert_all l acc) /\
        (s <> TSP_REDIRECT_OK -> l' = [] /\ (all_ok malloc_ok -> False))) h.
Proof.
  revert acc h. induction l as [|b l IH]; intros acc h; cbn [sort_loop].
  - apply wp_ret. split; [lia|]. done.
  - apply wp_bind, wp_malloc; intros Hm; cbn [negb].
    + eapply wp_mono; [apply IH|]. intros [s l'] h' (Hl & H). rewrite insert_perm in Hl. cbn [hp_live length] in Hl.
      split; [lia|]. destruct b. exact H.
    + apply wp_bind, wp_free, wp_ret. cbn [hp_live length]. split; [lia|]. split; [done|].
      intros _. split; [done|]. intros H. by rewrite H in Hm.
Qed.

Lemma wp_sort l h :
  wp (tspSortBrokerList malloc_ok thread_ok join_ok echo l (Z.of_nat (length l)))
     (fun r h' => let '(s, l') := r in
        hp_live h' = hp_live h /\ length l' = length l /\
        (s = TSP_REDIRECT_OK -> l' = insert_all (measured echo <$> l) []) /\
        (s <> TSP_REDIRECT_OK -> (l' = l \/ l' = measured echo <$> l) /\
          (all_ok malloc_ok -> all_ok thread_ok -> all_ok join_ok -> False))) h.
Proof.
  unfold tspSortBrokerList. apply wp_bind. eapply wp_mono; [apply wp_distances|].
  intros [[s l'] k] h1 (Hl & Hok & Hbad). case_bool_decide as Hs; cbn [negb].
  2:{ apply wp_ret. destruct (Hbad Hs) as [-> H]. split; [done|]. split; [done|]. split; [done|]. by auto. }
  rewrite (Hok Hs). apply wp_bind. eapply wp_mono; [apply wp_sort_loop|].
  intros [s2 l2] h2 (Hl2 & Hok2 & Hbad2). cbn [fst snd length] in *.
  case_bool_decide as Hs2; cbn [negb].
  - apply wp_bind, wp_free, wp_ret. rewrite (Hok2 Hs2) in *. cbn [hp_live].
    assert (length (insert_all (measured echo <$> l) []) = length l) as Hn
      by (by rewrite insert_all_perm, app_nil_r, length_fmap).
    rewrite Hn, length_fmap in *. split; [lia|]. done.
  - apply wp_ret. destruct (Hbad2 Hs2) as [-> H]. cbn [length] in Hl2. rewrite length_fmap.
    split; [lia|]. split; [done|]. split; [done|]. intros _. by auto.
Qed.
End sorting.

(** Sorting: with memory and threads the result holds the brokers of the
    list with their measured distances, by increasing distance; brokers at
    the same distance come out in reverse order.  On failure the brokers are
    kept, and in every case no block is lost. *)
Theorem tspSortBrokerList_contract malloc_ok thread_ok join_ok echo l h :
  exists s l' h',
    tspSortBrokerList malloc_ok thread_ok join_ok echo l (Z.of_nat (length l)) h = Ok ((s, l'), h') /\
    hp_live h' = hp_live h /\ length l' = length l /\
    (all_ok malloc_ok -> all_ok thread_ok -> all_ok join_ok -> s = TSP_REDIRECT_OK) /\
    (s <> TSP_REDIRECT_OK -> address <$> l' = address <$> l) /\
    (s = TSP_REDIRECT_OK ->
       l' ≡ₚ (measured echo <$> l) /\ StronglySorted closer l' /\
       forall d, at_distance d l' = rev (at_distance d (measured echo <$> l))).
Proof.
  destruct (wp_ok _ _ _ (wp_sort malloc_ok thread_ok join_ok echo l h)) as ([s l'] & h' & E & Hl & Hn & Hok & Hbad).
  exists s, l', h'. split; [done|]. split; [done|]. split; [done|]. split_and!.
  - intros Hm Ht Hj. destruct (decide (s = TSP_REDIRECT_OK)) as [|Hs]; [done|]. by destruct (Hbad Hs) as [_ []].
  - intros Hs. destruct (Hbad Hs) as [[->| ->] _]; [done|]. by rewrite <- list_fmap_compose.
  - intros Hs. rewrite (Hok Hs). split_and!.
    + by rewrite insert_all_perm, app_nil_r.
    + apply insert_all_sorted. constructor.
    + intros d. rewrite insert_all_at_distance. cbn. by rewrite app_nil_r.
Qed.

(** ** The log *)

(** The text of a list. *)
Fixpoint rendered_from (first : bool) (l : list tBroker) : list Z :=
  match l with
  | [] => []
  | b :: l' => (if first then [] else BROKER_LIST_STRING_SEPARATOR) ++ address b ++ rendered_from false l'
  end.

Definition rendered (l : list tBroker) : list Z :=
  BROKER_LIST_STRING_START ++ rendered_from true l ++ BROKER_LIST_STRING_END.

Lemma log_loop_run first l i :
  Forall good_broker l -> (i < MAX_BROKER_LIST_STRING_LENGTH)%nat ->
  log_loop first l i =
  if (i + length (rendered_from first l) + 1 <=? MAX_BROKER_LIST_STRING_LENGTH)%nat
  then Ok (i + length (rendered_from first l))%nat else Err OutOfBounds.
Proof.
  intros Hl. revert first i. induction Hl as [|b l Hb Hl IH]; intros first i Hi; cbn [log_loop rendered_from].
  - cbn [length]. rewrite Nat.add_0_r, (proj2 (Nat.leb_le _ _)) by lia. done.
  - set (sep := if first then [] else _).
    assert (length sep <= 2)%nat by (subst sep; destruct first; cbn; lia).
    unfold good_broker, good_address, MAX_REDIRECT_ADDRESS_LENGTH in Hb.
    rewrite (proj2 (Nat.leb_le _ _)) by (cbn; lia). unfold sprintf_at, guard_or. rewrite !length_app.
    destruct (Nat.leb_spec (i + (length sep + length (address b)) + 1) MAX_BROKER_LIST_STRING_LENGTH) as [Hc|Hc];
      cbn [mbind res_bind].
    + rewrite IH by lia. rewrite !Nat.add_assoc. done.
    + rewrite (proj2 (Nat.leb_gt _ _)) by lia. done.
Qed.

(** The log of a list: the text is written to a buffer of 4096 bytes, and
    overruns it exactly when it is longer; the room that is left is never
    updated, so the dots that should stand for the rest are never used. *)
Lemma tspLogRedirectionList_run l :
  Forall good_broker l ->
  tspLogRedirectionList l =
  if (length (rendered l) <? MAX_BROKER_LIST_STRING_LENGTH)%nat then Ok TSP_REDIRECT_OK else Err OutOfBounds.
Proof.
  intros Hl. unfold tspLogRedirectionList, rendered.
  change (sprintf_at MAX_BROKER_LIST_STRING_LENGTH 0 BROKER_LIST_STRING_START) with (Ok (A:=nat) 2%nat).
  cbn [mbind res_bind]. rewrite log_loop_run by (done || (unfold MAX_BROKER_LIST_STRING_LENGTH; lia)).
  rewrite !length_app. cbn [length BROKER_LIST_STRING_START BROKER_LIST_STRING_END].
  unfold sprintf_at, guard_or. cbn [length BROKER_LIST_STRING_END].
  repeat match goal with
         | |- context [(?a <=? ?b)%nat] => destruct (Nat.leb_spec a b); cbn [mbind res_bind]
         end; destruct (Nat.ltb_spec (2 + (length (rendered_from true l) + 2)) MAX_BROKER_LIST_STRING_LENGTH);
    done || lia.
Qed.

(** ** Files *)

(** Addresses that a line of the file can hold. *)
Definition storable (s : list Z) : Prop :=
  cstring s /\ no_lf s /\ no_eol s /\ (0 < length s <= 254)%nat.

Definition lines_of (l : list (list Z)) : list Z := mjoin ((fun s => s ++ [LF]) <$> l).

Lemma write_lines_all write_ok k lines w :
  all_ok write_ok -> write_lines write_ok k lines w = (TSP_REDIRECT_OK, w ++ lines_of lines).
Proof.
  intros H. revert k w. induction lines as [|s lines IH]; intros k w; cbn [write_lines].
  - unfold lines_of. cbn. by rewrite app_nil_r.
  - rewrite H, IH. unfold lines_of. cbn. by rewrite <- !app_assoc.
Qed.

Lemma lines_of_cons s l : lines_of (s :: l) = s ++ LF :: lines_of l.
Proof. unfold lines_of. cbn. by rewrite <- app_assoc. Qed.

Lemma storable_cons s : storable s -> exists c s', s = c :: s'.
Proof. intros (_ & _ & _ & H). destruct s as [|c s']; [cbn in H; lia|by exists c, s']. Qed.

(** A line of 255 bytes or less is read whole; one of 256 leaves its line
    feed for the next call. *)
Lemma fgets_storable s rest :
  storable s ->
  exists line rest', fgets 255 (s ++ LF :: rest) = Some (line, rest') /\
    chomp (chomp (c_str line)) = s /\ head line = head s /\ (rest' = rest \/ rest' = LF :: rest).
Proof.
  intros Hs. destruct (storable_cons s Hs) as (c & s' & Es). destruct Hs as (Hc & Hlf & He & Hl).
  assert (fgets 255 (s ++ LF :: rest) = Some (read_line 254 (s ++ LF :: rest))) as -> by (by rewrite Es).
  destruct (decide (length s = 254%nat)) as [E|E].
  - assert (read_line 254 (s ++ LF :: rest) = (s, LF :: rest)) as -> by (rewrite <- E; by apply read_line_cut).
    exists s, (LF :: rest). split; [done|]. rewrite c_str_id, (chomp_id s), (chomp_id s) by done. by auto.
  - rewrite read_line_full by (done || lia). exists (s ++ [LF]), rest. split; [done|].
    rewrite c_str_id by (apply cstring_app; split; [done|by repeat constructor]).
    rewrite chomp_snoc, chomp_id by (done || by left). subst s. by auto.
Qed.

Section files.
Context (malloc_ok : nat -> bool).

Lemma read_blank fuel rest l n h :
  broker_list_loop malloc_ok (S fuel) (LF :: rest) l n h = broker_list_loop malloc_ok fuel rest l n h.
Proof. done. Qed.

Lemma read_one fuel s rest l n h :
  storable s -> n < MAX_REDIRECT_BROKERS_IN_LIST -> malloc_ok (hp_next h) = true ->
  (length (s ++ LF :: rest) < fuel)%nat ->
  exists fuel', (length rest < fuel')%nat /\
    broker_list_loop malloc_ok fuel (s ++ LF :: rest) l n h =
    broker_list_loop malloc_ok fuel' rest (l ++ [mk_broker s TSP_REDIRECT_BROKER_TYPE_NONE 0]) (n + 1)
      (mk_heap (S (hp_next h)) (hp_live h + 1)).
Proof.
  intros Hs Hn Hm Hf. destruct (fgets_storable s rest Hs) as (line & rest' & E & Hline & _ & Hrest).
  destruct Hs as (_ & _ & _ & Hlen). rewrite length_app in Hf. cbn [length] in Hf.
  destruct fuel as [|fuel]; [lia|]. cbn [broker_list_loop].
  unfold MAX_REDIRECT_BROKER_LIST_LINE_LENGTH. rewrite E, Hline.
  rewrite (proj2 (Nat.ltb_lt _ _)), (proj2 (Z.ltb_lt _ _)) by lia.
  unfold tspAddBrokerToList, mbind, st_bind, pal_malloc. rewrite Hm. cbn [negb].
  rewrite strlcpy_short by (unfold MAX_REDIRECT_ADDRESS_LENGTH; lia). rewrite Nat.eqb_refl.
  destruct Hrest as [-> | ->].
  - exists fuel. split; [lia|done].
  - destruct fuel as [|fuel]; [lia|]. exists fuel. split; [lia|]. by rewrite <- read_blank.
Qed.

Lemma read_all fuel lines l h :
  all_ok malloc_ok -> Forall storable lines ->
  Z.of_nat (length l + length lines) <= MAX_REDIRECT_BROKERS_IN_LIST ->
  (length (lines_of lines) < fuel)%nat ->
  exists h', broker_list_loop malloc_ok fuel (lines_of lines) l (Z.of_nat (length l)) h =
    Ok ((TSP_REDIRECT_OK, l ++ ((fun s => mk_broker s TSP_REDIRECT_BROKER_TYPE_NONE 0) <$> lines)), h').
Proof.
  intros Hm Hs. revert fuel l h. induction Hs as [|s lines Hs _ IH]; intros fuel l h Hn Hf.
  - destruct fuel; [cbn in Hf; lia|]. exists h. cbn. by rewrite app_nil_r.
  - rewrite lines_of_cons in *. cbn [length] in Hn.
    destruct (read_one fuel s (lines_of lines) l (Z.of_nat (length l)) h Hs ltac:(lia) (Hm _) Hf)
      as (fuel' & Hf' & ->).
    replace (Z.of_nat (length l) + 1) with
      (Z.of_nat (length (l ++ [mk_broker s TSP_REDIRECT_BROKER_TYPE_NONE 0])))
      by (rewrite length_app; cbn; lia).
    destruct (IH fuel' (l ++ [mk_broker s TSP_REDIRECT_BROKER_TYPE_NONE 0])
      (mk_heap (S (hp_next h)) (hp_live h + 1))) as (h' & E); [rewrite length_app; cbn; lia|done|].
    exists h'. rewrite E. rewrite <- app_assoc. done.
Qed.

(** Any file at all. *)
Lemma wp_read_any fuel file l n h :
  (length file < fuel)%nat -> Forall good_broker l -> n = Z.of_nat (length l) ->
  n <= MAX_REDIRECT_BROKERS_IN_LIST ->
  wp (broker_list_loop malloc_ok fuel file l n)
     (fun r h' => hp_live h' = hp_live h + Z.of_nat (length (snd r)) - Z.of_nat (length l) /\
        Z.of_nat (length (snd r)) <= MAX_REDIRECT_BROKERS_IN_LIST /\ Forall good_broker (snd r)) h.
Proof.
  revert file l n h. induction fuel as [|fuel IH]; intros file l n h Hf Hl -> Hn; [lia|].
  cbn [broker_list_loop]. destruct (fgets _ file) as [[line rest]|] eqn:E.
  2:{ apply wp_ret. split; [cbn; lia|done]. }
  apply fgets_shorter in E; [|unfold MAX_REDIRECT_BROKER_LIST_LINE_LENGTH; lia].
  destruct (0 <? length _)%nat; [|apply IH; done || lia].
  destruct (Z.ltb_spec (Z.of_nat (length l)) MAX_REDIRECT_BROKERS_IN_LIST); [|apply wp_ret; split; [cbn; lia|done]].
  apply wp_bind, wp_add; cbn [fst snd option.from_option id].
  - intros s h' Hh Hs _. rewrite decide_False by done. apply wp_ret. split; [cbn; lia|done].
  - intros s h' Hh _ _ Hs. rewrite decide_True by done.
    eapply wp_mono; [apply IH|].
    + lia.
    + apply Forall_app. split; [done|]. by apply Forall_singleton.
    + rewrite length_app. cbn. lia.
    + lia.
    + cbn beta. intros r h'' (H1 & H2 & H3). rewrite length_app in H1. cbn [length] in H1. split; [lia|done].
Qed.
End files.

(** A broker list survives the file: what [tspWriteBrokerListToFile]
    wrote, [tspReadBrokerListFromFile] reads back, addresses of 254 bytes
    included, with the type and the distance reset. *)
Theorem broker_list_file_roundtrip malloc_ok write_ok l old h :
  all_ok malloc_ok -> all_ok write_ok ->
  Forall (fun b => storable (address b)) l -> Z.of_nat (length l) <= MAX_REDIRECT_BROKERS_IN_LIST ->
  exists file h', tspWriteBrokerListToFile true write_ok l old = (TSP_REDIRECT_OK, file) /\
    tspReadBrokerListFromFile malloc_ok (Some file) h =
    Ok ((TSP_REDIRECT_OK, (fun b => mk_broker (address b) TSP_REDIRECT_BROKER_TYPE_NONE 0) <$> l), h').
Proof.
  intros Hm Hw Hl Hn. unfold tspWriteBrokerListToFile, tspReadBrokerListFromFile. cbn [negb].
  rewrite write_lines_all by done. cbn [app].
  destruct (read_all malloc_ok (S (length (lines_of (address <$> l)))) (address <$> l) [] h Hm) as (h' & E).
  - by apply Forall_fmap.
  - rewrite length_fmap. done.
  - lia.
  - exists (lines_of (address <$> l)), h'. split; [done|]. etransitivity; [exact E|].
    cbn [app]. by rewrite <- list_fmap_compose.
Qed.

(** Reading terminates on every file, with at most 50 brokers whose
    addresses fit their field, whatever the file holds. *)
Theorem tspReadBrokerListFromFile_total malloc_ok file h :
  exists s l h', tspReadBrokerListFromFile malloc_ok (Some file) h = Ok ((s, l), h') /\
    hp_live h' = hp_live h + Z.of_nat (length l) /\
    Z.of_nat (length l) <= MAX_REDIRECT_BROKERS_IN_LIST /\ Forall good_broker l.
Proof.
  destruct (wp_ok _ _ _ (wp_read_any malloc_ok (S (length file)) file [] 0 h ltac:(lia) ltac:(by constructor)
    eq_refl ltac:(unfold MAX_REDIRECT_BROKERS_IN_LIST; lia))) as ([s l] & h' & E & H1 & H2 & H3).
  exists s, l, h'. split; [done|]. split; [cbn in *; lia|done].
Qed.

Lemma last_server_loop_total fuel file size :
  (length file < fuel)%nat -> exists r, last_server_loop fuel file size = Ok r.
Proof.
  revert file. induction fuel as [|fuel IH]; intros file Hf; [lia|]. cbn [last_server_loop].
  destruct (fgets _ file) as [[line rest]|] eqn:E; [|by eauto].
  apply fgets_shorter in E; [|unfold MAX_REDIRECT_LAST_SERVER_LINE_LENGTH; lia].
  case_match; [|by eauto]. apply IH. lia.
Qed.

(** The last server survives its file, when its name fits a line and is
    not a comment. *)
Theorem last_server_file_roundtrip write_ok s old :
  all_ok write_ok -> storable s -> head s <> Some 35 -> head s <> Some CR ->
  exists file, tspWriteLastServerToFile true write_ok (Some s) old = (TSP_REDIRECT_OK, file) /\
    tspReadLastServerFromFile (Some file) MAX_REDIRECT_ADDRESS_LENGTH = Ok (TSP_REDIRECT_OK, s).
Proof.
  intros Hw Hs H35 HCR. unfold tspWriteLastServerToFile, tspReadLastServerFromFile. cbn [negb].
  rewrite write_lines_all by done. eexists. split; [done|]. cbn [app]. rewrite lines_of_cons.
  destruct (fgets_storable s (lines_of []) Hs) as (line & rest & E & Hline & Hhd & _).
  cbn [last_server_loop]. unfold MAX_REDIRECT_LAST_SERVER_LINE_LENGTH. rewrite E, Hline, Hhd. clear E Hline.
  destruct (storable_cons s Hs) as (c & s' & Es). destruct Hs as (_ & Hlf & _ & Hlen).
  rewrite strlcpy_short by (unfold MAX_REDIRECT_ADDRESS_LENGTH; lia). subst s. cbn [head option.from_option id] in *.
  apply list.Forall_cons in Hlf as [Hlf _].
  rewrite (proj2 (Z.eqb_neq c 35)), (proj2 (Z.eqb_neq c CR)), (proj2 (Z.eqb_neq c LF)) by congruence. done.
Qed.

(** ** The handler *)

Lemma length_rendered_false_perm l l' :
  address <$> l ≡ₚ address <$> l' -> length (rendered_from false l) = length (rendered_from false l').
Proof.
  assert (forall k, length (rendered_from false k) =
    foldr (fun a n => (2 + length a + n)%nat) 0%nat (address <$> k)) as H.
  { induction k as [|b k IH]; cbn [rendered_from]; [done|]. rewrite !length_app, IH. cbn. lia. }
  rewrite !H. clear H. generalize (address <$> l), (address <$> l'). induction 1; cbn in *; lia.
Qed.

Lemma length_rendered_perm l l' :
  address <$> l ≡ₚ address <$> l' -> length (rendered l) = length (rendered l').
Proof.
  intros Hp. unfold rendered. rewrite !length_app. do 2 f_equal.
  pose proof (length_rendered_false_perm l l' Hp) as H.
  destruct l as [|b l], l' as [|b' l']; cbn [rendered_from] in *; rewrite ?length_app in *; cbn in *; lia.
Qed.

Section handler.
Context (malloc_ok thread_ok join_ok : nat -> bool) (echo : tBroker -> Z).
Context (tspExtractPayload : list Z -> res (option tTunnel)).

(** Messages whose text fits the buffers it is formatted into. *)
Definition fits (payload : list Z) : Prop :=
  (length (scan_line payload) < MAX_REDIRECT_STATUS_LENGTH)%nat /\
  (exists x, tspExtractPayload payload = Ok x) /\
  forall t l, tspExtractPayload payload = Ok (Some t) -> announced t = Some l ->
    (length (rendered l) < MAX_BROKER_LIST_STRING_LENGTH)%nat.

Lemma log_received_fits payload :
  (length (scan_line payload) < MAX_REDIRECT_STATUS_LENGTH)%nat ->
  tspLogReceivedRedirection payload = Ok TSP_REDIRECT_OK.
Proof.
  intros H. unfold tspLogReceivedRedirection, guard_or.
  rewrite (proj2 (Nat.leb_le (length (scan_line payload) + 1) _)) by lia. by rewrite orb_true_r.
Qed.

Lemma log_fits l :
  Forall good_broker l -> (length (rendered l) < MAX_BROKER_LIST_STRING_LENGTH)%nat ->
  tspLogRedirectionList l = Ok TSP_REDIRECT_OK.
Proof. intros Hl H. rewrite tspLogRedirectionList_run by done. by rewrite (proj2 (Nat.ltb_lt _ _)). Qed.

(** What the handler promises of the list it leaves. *)
Definition redirected (payload : list Z) (l' : list tBroker) : Prop :=
  exists t l, tspExtractPayload payload = Ok (Some t) /\ announced t = Some l /\
    (1 <= length l <= 50)%nat /\
    ((length l = 1%nat /\ l' = l) \/
     ((1 < length l)%nat /\ l' ≡ₚ (measured echo <$> l) /\ StronglySorted closer l')).

Lemma wp_handle payload open_ok write_ok l file h :
  fits payload ->
  wp (tspHandleRedirect malloc_ok thread_ok join_ok echo tspExtractPayload payload open_ok write_ok l file)
     (fun r h' => let '(s, l', _) := r in
        hp_live h' = hp_live h - Z.of_nat (length l) + Z.of_nat (length l') /\
        (s = TSP_REDIRECT_OK -> redirected payload l')) h.
Proof.
  intros (Hfit1 & [x Et] & Hfit2). unfold tspHandleRedirect. rewrite log_received_fits by done.
  apply wp_bind, wp_lift; cbn [res_ok]. rewrite Et. apply wp_bind, wp_lift; cbn [res_ok]. destruct x as [t|].
  2:{ apply wp_ret. split; [lia|done]. }
  apply wp_bind. eapply wp_mono; [apply wp_create|].
  intros [[s l1] n] h1 (Hl1 & Hok & Hbad). case_bool_decide as Hs; cbn [negb].
  2:{ apply wp_ret. split; [lia|done]. }
  destruct (Hok Hs) as (Hann & -> & Hmax). specialize (Hfit2 t l1 Et Hann).
  pose proof (announced_good t l1 Hann) as Hgood. unfold MAX_REDIRECT_BROKERS_IN_LIST in Hmax.
  rewrite log_fits by done. apply wp_bind, wp_lift; cbn [res_ok].
  destruct (Z.ltb_spec 1 (Z.of_nat (length l1))).
  - apply wp_bind. eapply wp_mono; [apply wp_sort|].
    intros [s2 l2] h2 (Hh2 & Hlen2 & Hok2 & _). cbn [fst snd]. case_bool_decide as Hs2; cbn [negb].
    2:{ apply wp_ret. split; [lia|done]. }
    assert (l2 ≡ₚ (measured echo <$> l1)) as Hp by (by rewrite (Hok2 Hs2), insert_all_perm, app_nil_r).
    assert (address <$> l2 ≡ₚ address <$> l1) as Ha by (rewrite Hp; by rewrite <- list_fmap_compose).
    rewrite log_fits; [|..|by rewrite (length_rendered_perm l2 l1)].
    2:{ rewrite Hp. apply Forall_fmap. exact Hgood. }
    apply wp_bind, wp_lift; cbn [res_ok]. destruct (tspWriteBrokerListToFile _ _ _ _) as [? file'].
    apply wp_ret. split; [lia|]. intros _. exists t, l1. split_and!; try done; try lia. right. split_and!; [lia|done|].
    rewrite (Hok2 Hs2). apply insert_all_sorted. constructor.
  - destruct (Z.eqb_spec (Z.of_nat (length l1)) 0); apply wp_ret; (split; [lia|]); [done|].
    intros _. exists t, l1. split_and!; try done; try lia. left. split; [lia|done].
Qed.
End handler.

(** The handler: when the texts it formats fit their buffers it never
    faults, it loses no block, and when it returns OK the list is not empty,
    holds between 1 and 50 brokers, exactly those that the message announces,
    and is sorted by distance if there are several. *)
Theorem tspHandleRedirect_contract malloc_ok thread_ok join_ok echo extract payload open_ok write_ok l file h :
  fits extract payload ->
  exists s l' file' h',
    tspHandleRedirect malloc_ok thread_ok join_ok echo extract payload open_ok write_ok l file h
      = Ok ((s, l', file'), h') /\
    hp_live h' = hp_live h - Z.of_nat (length l) + Z.of_nat (length l') /\
    (s = TSP_REDIRECT_OK -> redirected echo extract payload l').
Proof.
  intros Hf.
  destruct (wp_ok _ _ _ (wp_handle malloc_ok thread_ok join_ok echo extract payload open_ok write_ok l file h Hf))
    as ([[s l'] file'] & h' & E & H1 & H2).
  by exists s, l', file', h'.
Qed.

(** A message of 17 brokers with names of 254 bytes, all within the limits
    that the list imposes, overruns the buffer of the log. *)
Theorem redirection_overruns_log :
  exists t l, announced t = Some l /\ (length l <= 50)%nat /\ Forall good_broker l /\
    tspHandleRedirect (fun _ => true) (fun _ => true) (fun _ => true) (fun _ => 0) (fun _ => Ok (Some t))
      [] true (fun _ => true) [] [] (mk_heap 0 0) = Err OutOfBounds.
Proof.
  set (v := Some (repeat 97 254)). set (t := mk_tTunnel [] [] (repeat v 17)).
  exists t, (repeat (mk_broker (repeat 97 254) TSP_REDIRECT_BROKER_TYPE_FQDN 0) 17).
  split_and!; [vm_compute; reflexivity|cbn; lia| |vm_compute; reflexivity].
  repeat constructor.
Qed.

(** When a thread cannot be created the arguments of the threads before it
    are freed while these threads run. *)
Theorem tspGetBrokerDistances_dangling malloc_ok thread_ok join_ok echo l t h :
  all_ok malloc_ok -> (t < length l)%nat -> thread_ok t = false ->
  (forall k, (k < t)%nat -> thread_ok k = true) ->
  exists h', tspGetBrokerDistances malloc_ok thread_ok join_ok echo l (Z.of_nat (length l)) h =
    Ok ((TSP_REDIRECT_CANT_CREATE_THREAD, l, t), h').
Proof.
  intros Hm Ht Hbad Hgood. unfold tspGetBrokerDistances. rewrite Nat2Z.id, firstn_all.
  assert (forall k, (k <= t)%nat -> (t - k < length (drop k l))%nat ->
    create_threads thread_ok k (drop k l) = Some t) as H.
  { intros k Hk. remember (drop k l) as r eqn:Er. clear Er Ht. revert k Hk.
    induction r as [|b r IH]; intros k Hk Hr; cbn in *; [lia|].
    destruct (decide (k = t)) as [->|]; [by rewrite Hbad|]. rewrite Hgood by lia. apply IH; lia. }
  specialize (H 0%nat ltac:(lia)). rewrite drop_0 in H. rewrite H by lia.
  unfold mbind, st_bind, pal_malloc. do 2 (rewrite Hm; cbn [negb hp_next]). by eexists.
Qed.

(** ** Witnesses *)

Definition broker_a : tBroker := mk_broker [97; 46; 98] TSP_REDIRECT_BROKER_TYPE_FQDN 7.
Definition broker_z : tBroker := mk_broker (repeat 122 254) TSP_REDIRECT_BROKER_TYPE_FQDN 0.

Lemma storable_a : storable (address broker_a).
Proof. split_and!; try done; try (cbn; lia); by repeat constructor. Qed.

Lemma storable_z : storable (address broker_z).
Proof. split_and!; try done; try (cbn; lia); by repeat constructor. Qed.

Lemma broker_list_file_roundtrip_witness :
  exists file h', tspWriteBrokerListToFile true (fun _ => true) [broker_z; broker_a] [] = (TSP_REDIRECT_OK, file) /\
    tspReadBrokerListFromFile (fun _ => true) (Some file) (mk_heap 0 0) =
    Ok ((TSP_REDIRECT_OK, [mk_broker (repeat 122 254) TSP_REDIRECT_BROKER_TYPE_NONE 0;
                           mk_broker [97; 46; 98] TSP_REDIRECT_BROKER_TYPE_NONE 0]), h').
Proof.
  apply (broker_list_file_roundtrip (fun _ => true) (fun _ => true) [broker_z; broker_a] [] (mk_heap 0 0));
    [done|done|apply list.Forall_cons; split; [exact storable_z|apply Forall_singleton; exact storable_a]
    |cbn; unfold MAX_REDIRECT_BROKERS_IN_LIST; lia].
Defined.

Lemma last_server_file_roundtrip_witness :
  exists file, tspWriteLastServerToFile true (fun _ => true) (Some [97; 46; 98]) [] = (TSP_REDIRECT_OK, file) /\
    tspReadLastServerFromFile (Some file) 255 = Ok (TSP_REDIRECT_OK, [97; 46; 98]).
Proof. apply (last_server_file_roundtrip (fun _ => true) [97; 46; 98] []); [done|exact storable_a|done|done]. Defined.

Definition tunnel_ab : tTunnel := mk_tTunnel [Some [49; 46; 50]] [] [Some [97; 46; 98]].

Lemma tspHandleRedirect_contract_witness :
  exists s l' file' h',
    tspHandleRedirect (fun _ => true) (fun _ => true) (fun _ => true) (fun b => Z.of_nat (length (address b)))
      (fun _ => Ok (Some tunnel_ab)) [49; 50; 48; 48; LF] true (fun _ => true) [] [] (mk_heap 0 0)
      = Ok ((s, l', file'), h') /\ hp_live h' = Z.of_nat (length l').
Proof.
  destruct (tspHandleRedirect_contract (fun _ => true) (fun _ => true) (fun _ => true)
    (fun b => Z.of_nat (length (address b))) (fun _ => Ok (Some tunnel_ab)) [49; 50; 48; 48; LF] true (fun _ => true)
    [] [] (mk_heap 0 0)) as (s & l' & file' & h' & E & H & _).
  - split; [cbn; unfold MAX_REDIRECT_STATUS_LENGTH; lia|]. split; [by eexists|]. intros t l [= <-] [= <-].
    unfold MAX_BROKER_LIST_STRING_LENGTH. cbn. lia.
  - exists s, l', file', h'. split; [exact E|exact H].
Defined.

Lemma tspGetBrokerDistances_dangling_witness :
  exists h', tspGetBrokerDistances (fun _ => true) (fun t => (t <? 1)%nat) (fun _ => true) (fun _ => 0)
    [broker_a; broker_z] 2 (mk_heap 0 0) = Ok ((TSP_REDIRECT_CANT_CREATE_THREAD, [broker_a; broker_z], 1%nat), h').
Proof.
  apply (tspGetBrokerDistances_dangling (fun _ => true) (fun t => (t <? 1)%nat) (fun _ => true) (fun _ => 0)
    [broker_a; broker_z] 1 (mk_heap 0 0)); [done|cbn; lia|done|intros k Hk; by apply Nat.ltb_lt].
Defined.
