(* ===== verification/TspClient.v ===== *)
(** * The TSP client ([gogoc-tsp/src/tsp/tsp_client.c])

[tspMain] connects to a broker, negotiates a tunnel and keeps it; when that
fails it changes the transport, the version of the protocol or the broker, or
waits.  The loop is a state machine whose inputs are the answers of the
network and of the file system; [tspSetupTunnel] is the session it runs at
every turn.  The build is that of the application: [V4V6_SUPPORT] is defined,
[DSLITE_SUPPORT] and [HACCESS] are not.  Status messages for the user
interface and log output are left out. *)

From Stdlib Require Import ZifyNat.
From stdpp Require Import base list numbers.
From S2P Require Import Prelude CString Redirect.

(** ** Data *)

Inductive tTunnelMode := V6V4 | V6UDPV4 | V6ANYV4 | V4V6 | DSLITE.

Definition tunnel_bits (m : tTunnelMode) : Z :=
  match m with V6V4 => 1 | V6UDPV4 => 2 | V6ANYV4 => 3 | V4V6 => 4 | DSLITE => 5 end.

Inductive net_tools :=
| NET_TOOLS_T_RUDP | NET_TOOLS_T_UDP | NET_TOOLS_T_TCP | NET_TOOLS_T_TCP6 | NET_TOOLS_T_RUDP6.

#[export] Instance net_tools_eq_dec : EqDecision net_tools.
Proof. solve_decision. Defined.
#[export] Instance tTunnelMode_eq_dec : EqDecision tTunnelMode.
Proof. solve_decision. Defined.

(** [enum gogoc_status_codes]; the context in the upper half of a status is
    only printed. *)
Inductive status_code :=
| SUCCESS | ERR_WINSOCK_INIT | ERR_MEMORY_STARVATION | ERR_INVAL_CFG_FILE | ERR_INVAL_GOGOC_ADDRESS
| ERR_INVAL_CLIENT_ADDR | ERR_FAIL_LOG_INIT | ERR_FAIL_LAST_SERVER | ERR_FAIL_RESOLV_ADDR
| ERR_FAIL_SOCKET_CONNECT | ERR_SOCKET_IO | ERR_INVAL_TSP_VERSION | ERR_TSP_SERVER_TOO_BUSY
| ERR_TSP_GENERIC_ERROR | ERR_BROKER_REDIRECTION | ERR_TUNMODE_NOT_AVAILABLE
| ERR_AUTHENTICATION_FAILURE | ERR_NO_COMMON_AUTHENTICATION | ERR_INTERFACE_SETUP_FAILED
| ERR_BAD_TUNNEL_PARAM | ERR_KEEPALIVE_ERROR | ERR_KEEPALIVE_TIMEOUT | ERR_TUN_LEASE_EXPIRED
| ERR_TUNNEL_IO | ERR_HACCESS_INIT | ERR_HACCESS_SETUP | ERR_HACCESS_EXPOSE_DEVICES
| EVNT_BROKER_REDIRECTION.

#[export] Instance status_code_eq_dec : EqDecision status_code.
Proof. solve_decision. Defined.

(** [tClientVersionIndex]: 2.0.2, 2.0.1, 2.0.0, 1.0.1 *)
Definition CLIENT_VERSION_INDEX_2_0_0 : Z := 2.
Definition CLIENT_VERSION_INDEX_1_0_1 : Z := 3.
Definition CLIENT_VERSION_INDEX_CURRENT : Z := 0.
Definition CLIENT_VERSION_INDEX_OLDEST : Z := 3.
Definition CLIENT_VERSION_INDEX_V6UDPV4_START : Z := 2.
Definition CLIENT_VERSION_INDEX_V4V6_START : Z := 2.
Definition CONSEC_RETRY_TO_DOUBLE_WAIT : Z := 3.
Definition TSP_VERSION_FALLBACK_DELAY : Z := 5.

(** The configuration, with what [tspMain] finds out before its loop. *)
Record tConf := mk_tConf {
  tunnel_mode : tTunnelMode;
  retry_delay : Z;
  retry_delay_max : Z;
  boot_mode : bool;
  auto_retry_connect : bool;
  has_broker_list_file : bool;   (* the name of the file is not empty *)
  original_server : list Z;
  read_last_server : bool;       (* the server comes from the last_server file *)
}.

(** ** A session *)

(** The answers of the calls of [tspSetupTunnel].  A step that handles a
    redirection replaces the broker list. *)
Record session := mk_session {
  se_addr : bool;                              (* [parse_addr_port] *)
  se_open : Z;                                 (* [nt->netopen] *)
  se_caps : status_code * option (list tBroker);  (* [tspGetCapabilities] *)
  se_cap : Z;                                  (* its capability bits *)
  se_auth : status_code * option (list tBroker);  (* [tspAuthenticate] *)
  se_source : bool;                            (* [tspUpdateSourceAddr] succeeds *)
  se_nego : status_code * option (list tBroker);  (* [tspTunnelNegotiation] *)
  se_local : status_code;                      (* [tspStartLocal] *)
}.

Definition tspConnect (ret : Z) : status_code :=
  if ret =? 0 then SUCCESS
  else if ret =? -1 then ERR_FAIL_RESOLV_ADDR
  else if ret =? -2 then ERR_FAIL_SOCKET_CONNECT
  else SUCCESS.

Definition is_rudp (t : net_tools) : bool :=
  bool_decide (t = NET_TOOLS_T_RUDP) || bool_decide (t = NET_TOOLS_T_RUDP6).

Definition tspSetupTunnel (m : tTunnelMode) (t : net_tools) (se : session) :
    status_code * option (list tBroker) :=
  if negb (se_addr se) then (ERR_INVAL_GOGOC_ADDRESS, None) else
  let status := tspConnect (se_open se) in
  if negb (bool_decide (status = SUCCESS)) then (status, None) else
  match fst (se_caps se) with
  | SUCCESS =>
    if Z.land (tunnel_bits m) (se_cap se) =? 0 then (ERR_TUNMODE_NOT_AVAILABLE, snd (se_caps se)) else
    match fst (se_auth se) with
    | SUCCESS =>
      let list1 := union (snd (se_auth se)) (snd (se_caps se)) in
      if negb (se_source se) then (ERR_INVAL_CLIENT_ADDR, list1) else
      let list2 := union (snd (se_nego se)) list1 in
      match fst (se_nego se) with
      | SUCCESS => (se_local se, list2)
      | status => (status, list2)
      end
    | status => (status, union (snd (se_auth se)) (snd (se_caps se)))
    end
  | ERR_SOCKET_IO =>
    (if is_rudp t then ERR_FAIL_SOCKET_CONNECT else ERR_SOCKET_IO, snd (se_caps se))
  | status => (status, snd (se_caps se))
  end.

(** ** The state of the connection loop *)

Record main_state := mk_main {
  ms_server : option (list Z);       (* c.server *)
  ms_transport : net_tools;          (* c.transport *)
  ms_gen : nat;                      (* how many broker lists were made before *)
  ms_list : list tBroker;            (* broker_list *)
  ms_orig : bool;                    (* trying_original_server *)
  ms_version : Z;                    (* version_index *)
  ms_cycle : Z;
  ms_fallback : bool;                (* tsp_version_fallback *)
  ms_current : option (nat * nat);   (* current_broker_in_list: list and element *)
  ms_trying_list : bool;             (* trying_broker_list *)
  ms_eff : option Z;                 (* effective_retry_delay; not initialised *)
  ms_consec : Z;                     (* consec_retry, eight bits *)
}.

Definition set_server v s := mk_main v (ms_transport s) (ms_gen s) (ms_list s) (ms_orig s) (ms_version s)
  (ms_cycle s) (ms_fallback s) (ms_current s) (ms_trying_list s) (ms_eff s) (ms_consec s).
Definition set_list v s := mk_main (ms_server s) (ms_transport s) (S (ms_gen s)) v (ms_orig s) (ms_version s)
  (ms_cycle s) (ms_fallback s) (ms_current s) (ms_trying_list s) (ms_eff s) (ms_consec s).
Definition set_orig v s := mk_main (ms_server s) (ms_transport s) (ms_gen s) (ms_list s) v (ms_version s)
  (ms_cycle s) (ms_fallback s) (ms_current s) (ms_trying_list s) (ms_eff s) (ms_consec s).
Definition set_choice c f v t s := mk_main (ms_server s) t (ms_gen s) (ms_list s) (ms_orig s) v
  c f (ms_current s) (ms_trying_list s) (ms_eff s) (ms_consec s).
Definition set_cycle v s := mk_main (ms_server s) (ms_transport s) (ms_gen s) (ms_list s) (ms_orig s) (ms_version s)
  v (ms_fallback s) (ms_current s) (ms_trying_list s) (ms_eff s) (ms_consec s).
Definition set_fallback v s := mk_main (ms_server s) (ms_transport s) (ms_gen s) (ms_list s) (ms_orig s)
  (ms_version s) (ms_cycle s) v (ms_current s) (ms_trying_list s) (ms_eff s) (ms_consec s).
Definition set_current v s := mk_main (ms_server s) (ms_transport s) (ms_gen s) (ms_list s) (ms_orig s)
  (ms_version s) (ms_cycle s) (ms_fallback s) v (ms_trying_list s) (ms_eff s) (ms_consec s).
Definition set_trying v s := mk_main (ms_server s) (ms_transport s) (ms_gen s) (ms_list s) (ms_orig s)
  (ms_version s) (ms_cycle s) (ms_fallback s) (ms_current s) v (ms_eff s) (ms_consec s).
Definition set_delay e n s := mk_main (ms_server s) (ms_transport s) (ms_gen s) (ms_list s) (ms_orig s)
  (ms_version s) (ms_cycle s) (ms_fallback s) (ms_current s) (ms_trying_list s) e n.

(** Access to the element that [current_broker_in_list] points to; the
    elements of a list that was freed or replaced are gone. *)
Definition broker_at (s : main_state) (p : option (nat * nat)) : res tBroker :=
  match p with
  | None => Err NullDeref
  | Some (g, i) => if (g =? ms_gen s)%nat then from_option UseAfterFree (ms_list s !! i) else Err UseAfterFree
  end.

Definition next_broker (s : main_state) (p : option (nat * nat)) : res (option (nat * nat)) :=
  _ ← broker_at s p;
  match p with
  | Some (g, i) => Ok (if (S i <? length (ms_list s))%nat then Some (g, S i) else None)
  | None => Err NullDeref
  end.

(** What the loop does that others can see. *)
Inductive event :=
| Attempt (server : option (list Z)) (t : net_tools) (version : Z)
| Sleep (seconds : Z).

(** The answers of one turn. *)
Record answers := mk_answers {
  an_stop : bool;                    (* [tspCheckForStopOrWait (0)] *)
  an_session : session;
  an_file : option (list Z);         (* the broker list file *)
  an_malloc : nat -> bool;           (* the allocations while it is read *)
  an_strdup : bool;                  (* the allocation of [FormatBrokerListAddr] *)
}.

(** [FormatBrokerListAddr]: the result and the new server; a failed [strdup]
    is not noticed. *)
Definition FormatBrokerListAddr (alloc : bool) (b : tBroker) : bool * option (list Z) :=
  match address_type b with
  | TSP_REDIRECT_BROKER_TYPE_IPV6 =>
    if alloc then (true, Some ([91] ++ address b ++ [93])) else (false, None)
  | _ => (true, if alloc then Some (address b) else None)
  end.

Inductive verdict := Continue | Stop | End | Break.

(** ** The loop *)

Section main.
Context (c : tConf).

(** The choice of the transport and of the version; [None]: all versions were
    tried. *)
Definition fall_back (more : bool) (fallback : bool) (version : Z) : option Z :=
  if fallback then if more then Some (version + 1) else None
  else Some CLIENT_VERSION_INDEX_CURRENT.

Definition choose_transport (s : main_state) : option main_state :=
  let v := ms_version s in
  let older := v <? CLIENT_VERSION_INDEX_OLDEST in
  match tunnel_mode c with
  | V6UDPV4 =>
    v' ← fall_back ((v <? CLIENT_VERSION_INDEX_V6UDPV4_START) && older) (ms_fallback s) v;
    Some (set_choice 0 false v' NET_TOOLS_T_RUDP s)
  | V6ANYV4 | V6V4 =>
    v' ← fall_back older (ms_fallback s) v;
    Some (if ms_cycle s =? 1 then set_choice 1 false v' NET_TOOLS_T_TCP s
          else set_choice 0 false v' NET_TOOLS_T_RUDP s)
  | DSLITE => Some s
  | V4V6 =>
    v' ← fall_back ((v <? CLIENT_VERSION_INDEX_V4V6_START) && older) (ms_fallback s) v;
    Some (if ms_cycle s =? 1 then set_choice 1 false v' NET_TOOLS_T_TCP6 s
          else set_choice 0 false v' NET_TOOLS_T_RUDP6 s)
  end.

Definition quick_cycle (s : main_state) : bool :=
  ((bool_decide (tunnel_mode c = V6ANYV4) || bool_decide (tunnel_mode c = V6V4)) &&
     bool_decide (ms_transport s = NET_TOOLS_T_RUDP)) ||
  (bool_decide (tunnel_mode c = V4V6) && bool_decide (ms_transport s = NET_TOOLS_T_RUDP6)).

(** Start on the list from its first element. *)
Definition take_broker (a : answers) (p : option (nat * nat)) (s : main_state) : res (bool * main_state) :=
  let s := set_current p s in
  b ← broker_at s p;
  let '(ok, server) := FormatBrokerListAddr (an_strdup a) b in
  Ok (ok, set_server server s).

(** [ERR_FAIL_SOCKET_CONNECT], while the original server is tried. *)
Definition original_failed (a : answers) (s : main_state) : res (verdict * main_state) :=
  let s := set_list [] s in
  if negb (has_broker_list_file c) then Ok (Break, set_cycle (ms_cycle s + 1) s) else
  r ← tspReadBrokerListFromFile (an_malloc a) (an_file a) (mk_heap 0 0);
  let '(status, l, _) := r in
  match status with
  | TSP_REDIRECT_OK =>
    let s := set_list l s in
    if bool_decide (l = []) then Ok (Break, set_cycle (ms_cycle s + 1) s)
    else if ms_cycle s =? 0 then Ok (Continue, set_cycle (ms_cycle s + 1) s)
    else
      _ ← tspLogRedirectionList l;
      let s := set_orig false (set_trying true s) in
      r ← take_broker a (Some (ms_gen s, 0%nat)) s;
      let '(ok, s) := r in
      if negb ok then Ok (End, set_list [] s) else Ok (Continue, set_cycle 0 s)
  | _ => Ok (Break, set_list [] (set_cycle (ms_cycle s + 1) s))
  end.

(** [ERR_FAIL_SOCKET_CONNECT], while a list is tried. *)
Definition listed_failed (a : answers) (s : main_state) : res (verdict * main_state) :=
  if bool_decide (ms_list s = []) || bool_decide (ms_current s = None) then
    _ ← broker_at s (ms_current s);   (* its address is logged *)
    Ok (Stop, set_list [] s)
  else
  next ← next_broker s (ms_current s);
  match next with
  | None =>
    Ok (Break, set_orig true (set_cycle 0 (set_server (Some (original_server c)) s)))
  | Some p =>
    r ← take_broker a (Some p) s;
    let '(ok, s) := r in
    if negb ok then Ok (End, set_list [] s) else Ok (Continue, set_cycle 0 s)
  end.

Definition connect_failed (a : answers) (quick : bool) (s : main_state) : res (verdict * main_state) :=
  if boot_mode c then Ok (Stop, s)
  else if quick then Ok (Continue, set_cycle (ms_cycle s + 1) s)
  else if read_last_server c then Ok (Break, set_cycle (ms_cycle s + 1) s)
  else
    let s := set_delay (Some (retry_delay c mod 2 ^ 16)) 1 s in
    if ms_orig s then original_failed a s
    else if ms_trying_list s then listed_failed a s
    else Ok (Break, s).

Definition redirected_to (a : answers) (s : main_state) : res (verdict * main_state) :=
  if bool_decide (ms_list s = []) then Ok (Stop, s) else
  let s := set_cycle 0 (set_orig false (set_trying true s)) in
  r ← take_broker a (Some (ms_gen s, 0%nat)) s;
  let '(ok, s) := r in
  Ok (if negb ok then Stop else Continue, s).

Definition no_wait (s : main_state) : main_state := set_delay (ms_eff s) 0 s.

(** The switch on the status of the session. *)
Definition on_status (a : answers) (status : status_code) (s : main_state) :
    res (verdict * list event * main_state) :=
  let quiet (r : res (verdict * main_state)) : res (verdict * list event * main_state) :=
    match r with Ok (v, s') => Ok (v, [], s') | Err f => Err f end in
  match status with
  | ERR_KEEPALIVE_TIMEOUT =>
    Ok (if auto_retry_connect c then Break else Stop, [], no_wait s)
  | ERR_TUN_LEASE_EXPIRED => Ok (Continue, [], s)
  | ERR_INVAL_TSP_VERSION =>
    let s' := set_fallback true s in
    let s' := if ms_version s =? CLIENT_VERSION_INDEX_2_0_0 then set_cycle 1 s' else s' in
    Ok (Continue,
        if negb (ms_version s =? CLIENT_VERSION_INDEX_2_0_0) && is_rudp (ms_transport s)
        then [Sleep TSP_VERSION_FALLBACK_DELAY] else [],
        s')
  | ERR_SOCKET_IO => Ok (if quick_cycle s then Continue else Break, [], no_wait s)
  | ERR_TSP_SERVER_TOO_BUSY => Ok (Break, [], set_delay (Some (retry_delay c mod 2 ^ 16)) 1 s)
  | ERR_AUTHENTICATION_FAILURE | ERR_FAIL_SOCKET_CONNECT => quiet (connect_failed a (quick_cycle s) s)
  | EVNT_BROKER_REDIRECTION => quiet (redirected_to a s)
  | ERR_BROKER_REDIRECTION => Ok (Stop, [], set_list [] s)
  | ERR_TUNNEL_IO | ERR_KEEPALIVE_ERROR => Ok (Break, [], no_wait s)
  | _ => Ok (Stop, [], s)
  end.

(** The wait after a failure. *)
Definition wait_retry (s : main_state) : res (list event * main_state) :=
  if 0 <? ms_consec s then
    eff ← from_option Uninitialised (ms_eff s);
    let eff :=
      if ms_consec s mod CONSEC_RETRY_TO_DOUBLE_WAIT =? 0 then
        let eff := (eff * 2) mod 2 ^ 16 in
        if retry_delay_max c <? eff then retry_delay_max c mod 2 ^ 16 else eff
      else eff in
    Ok ([Sleep eff], set_delay (Some eff) ((ms_consec s + 1) mod 2 ^ 8) s)
  else Ok ([], set_delay (Some (retry_delay c mod 2 ^ 16)) ((ms_consec s + 1) mod 2 ^ 8) s).

(** One turn of [while (connected)]. *)
Inductive outcome := Again | Leave | Quit.

Definition tspMain_step (a : answers) (s : main_state) : res (outcome * list event * main_state) :=
  if an_stop a then Ok (Quit, [], s) else
  match choose_transport s with
  | None => Ok (Leave, [], s)
  | Some s =>
    let '(status, redirect) := tspSetupTunnel (tunnel_mode c) (ms_transport s) (an_session a) in
    let tried := Attempt (ms_server s) (ms_transport s) (ms_version s) in
    let s := match redirect with Some l => set_list l s | None => s end in
    r ← on_status a status s;
    let '(v, ev, s) := r in
    match v with
    | Continue => Ok (Again, tried :: ev, s)
    | Stop => Ok (Leave, tried :: ev, s)
    | End => Ok (Quit, tried :: ev, s)
    | Break => w ← wait_retry s; Ok (Again, tried :: ev ++ fst w, snd w)
    end
  end.

(** The variables that are local to the body of the outer loop. *)
Definition enter (s : main_state) : main_state :=
  mk_main (ms_server s) (ms_transport s) (ms_gen s) (ms_list s) (ms_orig s)
    CLIENT_VERSION_INDEX_CURRENT 0 false None false None 0.

Definition main_start (server : list Z) (orig : bool) : main_state :=
  enter (mk_main (Some server) NET_TOOLS_T_RUDP 0 [] orig 0 0 false None false None 0).

(** The outer loop: after [connected] is cleared, a wait that doubles, then
    a new turn unless the client runs at boot. *)
Fixpoint tspMain_loop (inputs : list answers) (loop_delay : Z) (s : main_state) :
    res (list event * main_state) :=
  match inputs with
  | [] => Ok ([], s)
  | a :: inputs' =>
    r ← tspMain_step a s;
    let '(o, ev, s) := r in
    match o with
    | Again => q ← tspMain_loop inputs' loop_delay s; Ok (ev ++ fst q, snd q)
    | Quit => Ok (ev, s)
    | Leave =>
      let ev := ev ++ [Sleep loop_delay] in
      let loop_delay := Z.min (loop_delay * 2) (retry_delay_max c) in
      if boot_mode c then Ok (ev, s)
      else q ← tspMain_loop inputs' loop_delay (enter s); Ok (ev ++ fst q, snd q)
    end
  end.
End main.

(** ** Safety *)

(** What the steps of a session promise: only a redirection touches the
    broker list. *)
Definition step_contract (x : status_code * option (list tBroker)) : Prop :=
  forall l, snd x = Some l -> fst x = EVNT_BROKER_REDIRECTION \/ fst x = ERR_BROKER_REDIRECTION.

Definition session_ok (se : session) : Prop :=
  step_contract (se_caps se) /\ step_contract (se_auth se) /\ step_contract (se_nego se).

Lemma union_Some_or {A} (x y : option A) l : union x y = Some l -> x = Some l \/ y = Some l.
Proof. destruct x, y; cbn; by auto. Qed.

Lemma tspSetupTunnel_contract m t se : session_ok se -> step_contract (tspSetupTunnel m t se).
Proof.
  intros (Hc & Ha & Hn). unfold step_contract in *. intros l. unfold tspSetupTunnel.
  destruct (se_addr se); [|done]. cbn [negb]. case_bool_decide; [|done]. cbn [negb].
  destruct (fst (se_caps se)) eqn:Ec; cbn [fst snd]; try (intros H'; specialize (Hc _ H'); naive_solver).
  destruct (_ =? 0); cbn [fst snd]; [intros H'; specialize (Hc _ H'); naive_solver|].
  destruct (fst (se_auth se)) eqn:Ea; cbn [fst snd];
    try (intros H'; apply union_Some_or in H' as [H'|H']; [specialize (Ha _ H')|specialize (Hc _ H')]; naive_solver).
  destruct (se_source se); cbn [negb fst snd];
    [|intros H'; apply union_Some_or in H' as [H'|H']; [specialize (Ha _ H')|specialize (Hc _ H')]; naive_solver].
  destruct (fst (se_nego se)) eqn:En; cbn [fst snd];
    (intros H'; apply union_Some_or in H' as [H'|H']; [specialize (Hn _ H'); naive_solver|];
     apply union_Some_or in H' as [H'|H']; [specialize (Ha _ H')|specialize (Hc _ H')]; naive_solver).
Qed.

Section safety.
Context (c : tConf).

(** The validation of the configuration. *)
Definition conf_valid : Prop := 0 <= retry_delay c <= retry_delay_max c /\ retry_delay_max c <= 3600.

Context (Hc : conf_valid).

Definition delay_ok (n : Z) : Prop := 0 <= n <= retry_delay_max c.

(** The pointer into the list is good whenever it may be used, and so is the
    delay. *)
Definition current_ok (s : main_state) : Prop :=
  ms_trying_list s = true -> ms_orig s = false ->
  exists i, ms_current s = Some (ms_gen s, i) /\ (i < length (ms_list s))%nat.

Definition wait_ok (s : main_state) : Prop :=
  0 <= ms_consec s < 256 /\ (0 < ms_consec s -> exists e, ms_eff s = Some e /\ delay_ok e).

Definition main_inv (s : main_state) : Prop := current_ok s /\ wait_ok s.

(** The text of a list that the file holds fits the buffer of the log. *)
Definition file_fits (a : answers) : Prop :=
  forall st l h, tspReadBrokerListFromFile (an_malloc a) (an_file a) (mk_heap 0 0) = Ok ((st, l), h) ->
    (length (rendered l) < MAX_BROKER_LIST_STRING_LENGTH)%nat.

Definition answers_ok (a : answers) : Prop := session_ok (an_session a) /\ file_fits a.

Lemma delay_mod : retry_delay c mod 2 ^ 16 = retry_delay c.
Proof. unfold conf_valid in Hc. apply Z.mod_small. lia. Qed.

Lemma wait_retry_ok s :
  wait_ok s ->
  res_ok (wait_retry c s) (fun r => wait_ok (snd r) /\ (current_ok s -> current_ok (snd r)) /\
    forall n, Sleep n ∈ fst r -> delay_ok n).
Proof.
  intros [Hn He]. unfold wait_retry. rewrite delay_mod. unfold conf_valid, delay_ok, wait_ok in *.
  destruct (Z.ltb_spec 0 (ms_consec s)) as [H0|H0].
  - destruct (He H0) as (e & -> & Hb). cbn [from_option mbind res_bind res_ok fst snd].
    set (e' := if _ =? 0 then _ else _). assert (0 <= e' <= retry_delay_max c) as Hb'.
    { subst e'. destruct (_ =? 0); [|done]. rewrite (Z.mod_small (e * 2)) by lia.
      rewrite Z.mod_small by lia. destruct (Z.ltb_spec (retry_delay_max c) (e * 2)); lia. }
    split; [|split; [done|intros n Hin; by apply list_elem_of_singleton in Hin as [= ->]]].
    cbn [ms_consec ms_eff set_delay]. split; [apply Z.mod_pos_bound; lia|by exists e'].
  - cbn [res_ok fst snd]. split; [|split; [done|intros n Hin; by inversion Hin]].
    cbn [ms_consec ms_eff set_delay]. split; [apply Z.mod_pos_bound; lia|]. intros _. exists (retry_delay c). split; [done|]. unfold delay_ok. lia.
Qed.

Lemma broker_at_ok s g i : g = ms_gen s -> (i < length (ms_list s))%nat -> exists b, broker_at s (Some (g, i)) = Ok b.
Proof.
  intros -> Hi. unfold broker_at. rewrite Nat.eqb_refl.
  destruct (lookup_lt_is_Some_2 _ _ Hi) as [b ->]. by exists b.
Qed.

Lemma take_broker_ok a i s :
  (i < length (ms_list s))%nat ->
  exists ok server, take_broker a (Some (ms_gen s, i)) s =
    Ok (ok, set_server server (set_current (Some (ms_gen s, i)) s)).
Proof.
  intros Hi. unfold take_broker.
  destruct (broker_at_ok (set_current (Some (ms_gen s, i)) s) (ms_gen s) i eq_refl Hi) as [b Eb].
  rewrite Eb. cbn [mbind res_bind]. destruct (FormatBrokerListAddr _ b) as [ok server]. by exists ok, server.
Qed.

Definition goes_on (v : verdict) : Prop := v = Continue \/ v = Break.

(** Nothing is asked of the pointer while the original server is tried. *)
Lemma inv_original s : ms_orig s = true -> wait_ok s -> main_inv s.
Proof. intros Ho Hw. split; [|done]. intros _ H. congruence. Qed.

Lemma original_failed_ok a s :
  ms_orig s = true -> wait_ok s -> file_fits a ->
  res_ok (original_failed c a s) (fun r => goes_on (fst r) -> main_inv (snd r)).
Proof.
  intros Ho Hw Hf. unfold original_failed. destruct (has_broker_list_file c); cbn [negb].
  2:{ intros _. by apply inv_original. }
  assert (exists st l h, tspReadBrokerListFromFile (an_malloc a) (an_file a) (mk_heap 0 0) = Ok ((st, l), h) /\
    Forall good_broker l) as (st & l & h & E & Hg).
  { destruct (an_file a) as [f|]; [|by exists TSP_REDIRECT_CANT_OPEN_FILE, [], (mk_heap 0 0)].
    destruct (wp_ok _ _ _ (wp_read_any (an_malloc a) (S (length f)) f [] 0 (mk_heap 0 0) ltac:(lia)
      ltac:(by constructor) eq_refl ltac:(unfold MAX_REDIRECT_BROKERS_IN_LIST; lia)))
      as ([st l] & h & E & _ & _ & Hl). by exists st, l, h. }
  specialize (Hf st l h E). rewrite E. cbn [mbind res_bind].
  destruct st; try (intros _; by apply inv_original).
  case_bool_decide as Hl; [intros _; by apply inv_original|].
  destruct (_ =? 0); [intros _; by apply inv_original|].
  rewrite log_fits by done. cbn [mbind res_bind].
  match goal with |- context [take_broker a (Some (ms_gen ?x, _)) ?x] => set (s1 := x) end.
  assert (0 < length (ms_list s1))%nat as Hi by (subst s1; cbn; destruct l; [done|cbn; lia]).
  destruct (take_broker_ok a 0 s1 Hi) as (ok & server & ->). cbn [mbind res_bind].
  destruct ok; cbn [negb res_ok fst snd]; [|by intros [|]]. intros _. split; [|done]. intros _ _. by exists 0%nat.
Qed.

Lemma listed_failed_ok a s :
  ms_orig s = false -> ms_trying_list s = true -> main_inv s ->
  res_ok (listed_failed c a s) (fun r => goes_on (fst r) -> main_inv (snd r)).
Proof.
  intros Ho Ht [Hcur Hw]. destruct (Hcur Ht Ho) as (i & Ei & Hi). unfold listed_failed. rewrite Ei.
  rewrite (bool_decide_eq_false_2 (ms_list s = [])) by (intros H; rewrite H in Hi; cbn in Hi; lia).
  rewrite bool_decide_eq_false_2 by done. cbn [orb]. unfold next_broker.
  destruct (broker_at_ok s (ms_gen s) i eq_refl Hi) as [b ->]. cbn [mbind res_bind].
  destruct (Nat.ltb_spec (S i) (length (ms_list s))) as [Hn|Hn].
  - destruct (take_broker_ok a (S i) s Hn) as (ok & server & ->). cbn [mbind res_bind].
    destruct ok; cbn [negb res_ok fst snd]; [|by intros [|]]. intros _. split; [|done].
    intros _ _. by exists (S i).
  - intros _. by apply inv_original.
Qed.

Lemma connect_failed_ok a q s :
  main_inv s -> file_fits a -> res_ok (connect_failed c a q s) (fun r => goes_on (fst r) -> main_inv (snd r)).
Proof.
  intros [Hcur Hw] Hf. unfold connect_failed. destruct (boot_mode c); [by intros [|]|].
  destruct q; [done|]. destruct (read_last_server c); [done|].
  assert (wait_ok (set_delay (Some (retry_delay c mod 2 ^ 16)) 1 s)) as Hw'.
  { rewrite delay_mod. split; [cbn; lia|]. intros _. exists (retry_delay c). unfold conf_valid in Hc.
    split; [done|]. unfold delay_ok. lia. }
  destruct (ms_orig (set_delay _ 1 s)) eqn:Ho; [by apply original_failed_ok|].
  destruct (ms_trying_list (set_delay _ 1 s)) eqn:Ht; [by apply listed_failed_ok|]. done.
Qed.

Lemma redirected_to_ok a s :
  wait_ok s -> res_ok (redirected_to a s) (fun r => goes_on (fst r) -> main_inv (snd r)).
Proof.
  intros Hw. unfold redirected_to. case_bool_decide as Hl; [by intros [|]|].
  match goal with |- context [take_broker a (Some (ms_gen ?x, _)) ?x] => set (s1 := x) end.
  assert (0 < length (ms_list s1))%nat as Hi by (subst s1; cbn; destruct (ms_list s); [done|cbn; lia]).
  destruct (take_broker_ok a 0 s1 Hi) as (ok & server & ->). cbn [mbind res_bind].
  destruct ok; cbn [negb res_ok fst snd]; [|by intros [|]]. intros _. split; [|done]. intros _ _. by exists 0%nat.
Qed.

Definition sleep_ok (n : Z) : Prop := delay_ok n \/ n = TSP_VERSION_FALLBACK_DELAY.

Lemma no_wait_inv s : main_inv s -> main_inv (no_wait s).
Proof. intros [Hcur _]. split; [done|]. split; cbn; lia. Qed.

(** The switch; a redirection comes with a new list. *)
Lemma on_status_ok a st s :
  wait_ok s -> (st <> EVNT_BROKER_REDIRECTION -> st <> ERR_BROKER_REDIRECTION -> current_ok s) -> file_fits a ->
  res_ok (on_status c a st s) (fun r => let '(v, ev, s') := r in
    (goes_on v -> main_inv s') /\ forall n, Sleep n ∈ ev -> sleep_ok n).
Proof.
  intros Hw Hcur Hf.
  assert (forall r, res_ok r (fun r => goes_on (fst r) -> main_inv (snd r)) ->
    res_ok (match r with Ok (v, s') => Ok (v, [], s') | Err f => Err f end)
      (fun r => let '(v, ev, s') := r in (goes_on v -> main_inv s') /\ forall n, Sleep n ∈ ev -> sleep_ok n)) as Hq.
  { intros [[v s']|]; [|done]. cbn. intros H. split; [done|]. intros n Hn. by inversion Hn. }
  assert (forall v, ~ goes_on v -> res_ok (Ok (v, [] : list event, s)) (fun r => let '(v, ev, s') := r in
    (goes_on v -> main_inv s') /\ forall n, Sleep n ∈ ev -> sleep_ok n)) as Hstop.
  { intros v Hv. split; [done|]. intros n Hn. by inversion Hn. }
  destruct st; cbn [on_status]; try (apply Hstop; by intros [|]);
    try (assert (main_inv s) as Hi by (split; [by apply Hcur|done]));
    try (split; [intros _; by (apply no_wait_inv || idtac)|intros n Hn; by inversion Hn]).
  - apply Hq. by apply connect_failed_ok.
  - cbn [res_ok]. split.
    + intros _. by destruct (_ =? _).
    + intros n Hn. destruct (_ && _); [|by inversion Hn].
      apply list_elem_of_singleton in Hn as [= ->]. by right.
  - cbn [res_ok]. split; [|intros n Hn; by inversion Hn]. intros _. split; [exact (proj1 Hi)|].
    rewrite delay_mod. split; [cbn; lia|]. intros _. exists (retry_delay c). unfold conf_valid in Hc.
    split; [done|]. unfold delay_ok. lia.
  - split; [by intros [|]|]. intros n Hn. by inversion Hn.
  - apply Hq. by apply connect_failed_ok.
  - apply Hq. by apply redirected_to_ok.
Qed.

Lemma choose_transport_inv s s' : main_inv s -> choose_transport c s = Some s' -> main_inv s'.
Proof.
  unfold choose_transport, fall_back. intros Hi.
  repeat (case_match; cbn [mbind option_bind]; try done); intros [= <-]; exact Hi.
Qed.

Lemma tspMain_step_ok a s :
  answers_ok a -> main_inv s ->
  res_ok (tspMain_step c a s) (fun r => let '(o, ev, s') := r in
    (o = Again -> main_inv s') /\ forall n, Sleep n ∈ ev -> sleep_ok n).
Proof.
  intros [Hs Hf] Hi. unfold tspMain_step.
  destruct (an_stop a); [split; [done|intros n Hn; by inversion Hn]|].
  destruct (choose_transport c s) as [s1|] eqn:Ech; [|split; [done|intros n Hn; by inversion Hn]].
  apply choose_transport_inv in Ech; [|done]. clear Hi s. destruct Ech as [Hcur Hw].
  pose proof (tspSetupTunnel_contract (tunnel_mode c) (ms_transport s1) _ Hs) as Hset.
  destruct (tspSetupTunnel _ _ _) as [st redirect]. unfold step_contract in Hset. cbn [fst snd] in Hset.
  set (s2 := match redirect with Some l => set_list l s1 | None => s1 end).
  assert (wait_ok s2) as Hw2 by (subst s2; by destruct redirect).
  assert (st <> EVNT_BROKER_REDIRECTION -> st <> ERR_BROKER_REDIRECTION -> current_ok s2) as Hcur2.
  { intros H1 H2. subst s2. destruct redirect as [l|]; [|done]. by destruct (Hset l eq_refl). }
  rewrite res_ok_bind. eapply res_ok_mono; [by apply on_status_ok|].
  intros [[v ev] s3] [Hgo Hsl]. cbv beta zeta.
  assert (forall n, Sleep n ∈ Attempt (ms_server s1) (ms_transport s1) (ms_version s1) :: ev -> sleep_ok n) as Hsl'.
  { intros n Hn. apply elem_of_cons in Hn as [|]; [done|]. by apply Hsl. }
  destruct v; cbn [res_ok]; try (split; [done|exact Hsl']).
  - split; [intros _; apply Hgo; by left|exact Hsl'].
  - destruct Hgo as [Hc3 Hw3]; [by right|]. rewrite res_ok_bind.
    eapply res_ok_mono; [by apply wait_retry_ok|]. intros [ev' s4] (Hw4 & Hc4 & Hn4). cbn [res_ok fst snd] in *.
    split; [intros _; split; [by apply Hc4|done]|]. intros n Hn. rewrite app_comm_cons, elem_of_app in Hn.
    destruct Hn as [Hn|Hn]; [by apply Hsl'|left; by apply Hn4].
Qed.

Lemma tspMain_loop_ok inputs d s :
  Forall answers_ok inputs -> delay_ok d -> main_inv s ->
  res_ok (tspMain_loop c inputs d s) (fun r => forall n, Sleep n ∈ fst r -> sleep_ok n).
Proof.
  intros Hin. revert d s. induction Hin as [|a inputs Ha _ IH]; intros d s Hd Hi; cbn [tspMain_loop].
  - cbn. intros n Hn. by inversion Hn.
  - rewrite res_ok_bind. eapply res_ok_mono; [by apply tspMain_step_ok|].
    intros [[o ev] s'] [Hag Hsl]. destruct o.
    + rewrite res_ok_bind. eapply res_ok_mono; [apply IH; auto|]. intros [ev' s''] H. cbn [res_ok fst snd] in *.
      intros n. rewrite elem_of_app. intros [|]; by auto.
    + assert (forall n, Sleep n ∈ ev ++ [Sleep d] -> sleep_ok n) as Hsl'.
      { intros n. rewrite elem_of_app, list_elem_of_singleton. intros [|[= ->]]; [by auto|by left]. }
      destruct (boot_mode c); [exact Hsl'|]. rewrite res_ok_bind.
      eapply res_ok_mono; [apply IH|].
      * unfold delay_ok, conf_valid in *. lia.
      * split; [by intros|]. split; cbn; lia.
      * intros [ev' s''] H. cbn [res_ok fst snd] in *. intros n. rewrite elem_of_app. intros [|]; by auto.
    + exact Hsl.
Qed.
End safety.

(** (C12) The connection loop is safe: whatever the network and the brokers answer,
    for as long as it runs, it never follows a null or stale pointer into the
    broker list nor uses a delay that is not set, and no wait exceeds
    [retry_delay_max] (or the fixed 5 seconds of a version fallback).
    Conditions: the delays of the configuration have passed its validation
    ([retry_delay] at most [retry_delay_max], at most 3600 seconds); each step of a
    session keeps its contract, that only a redirection event or error replaces the
    broker list and an event leaves a broker in it (which the claim on the steps of
    a session proves of the code); and every text of a broker list that the broker
    list file gives is shorter than the 4096 bytes of the buffer it is printed into
    for the log, since the code does not test that and a longer one overruns it. *)
Theorem tspMain_safe c server orig inputs :
  conf_valid c -> Forall answers_ok inputs ->
  exists ev s', tspMain_loop c inputs (retry_delay c) (main_start server orig) = Ok (ev, s') /\
    forall n, Sleep n ∈ ev -> 0 <= n <= retry_delay_max c \/ n = TSP_VERSION_FALLBACK_DELAY.
Proof.
  intros Hc Hin.
  destruct (res_ok_inv _ _ (tspMain_loop_ok c Hc inputs (retry_delay c) (main_start server orig) Hin
    ltac:(unfold delay_ok; unfold conf_valid in Hc; lia)
    ltac:(split; [by intros|split; cbn; lia]))) as ([ev s'] & E & H).
  by exists ev, s'.
Qed.

(** ** Behaviours of the loop *)

(** The turns up to the end of [while (connected)]; [Again] if the inputs run
    out before. *)
Fixpoint inner_loop (c : tConf) (inputs : list answers) (s : main_state) : res (outcome * list event * main_state) :=
  match inputs with
  | [] => Ok (Again, [], s)
  | a :: inputs' =>
    r ← tspMain_step c a s;
    let '(o, ev, s) := r in
    match o with
    | Again => q ← inner_loop c inputs' s; let '(o', ev', s') := q in Ok (o', ev ++ ev', s')
    | _ => Ok (o, ev, s)
    end
  end.

(** The session ends with [st] and no redirection, whatever the transport. *)
Definition answers_with (st : status_code) (m : tTunnelMode) (a : answers) : Prop :=
  an_stop a = false /\ forall t, tspSetupTunnel m t (an_session a) = (st, None).

(** *** Version fallback *)

Lemma step_fallback c a s :
  answers_with ERR_INVAL_TSP_VERSION (tunnel_mode c) a ->
  tspMain_step c a s =
  match choose_transport c s with
  | None => Ok (Leave, [], s)
  | Some s1 =>
    Ok (Again, Attempt (ms_server s1) (ms_transport s1) (ms_version s1) ::
          (if negb (ms_version s1 =? CLIENT_VERSION_INDEX_2_0_0) && is_rudp (ms_transport s1)
           then [Sleep TSP_VERSION_FALLBACK_DELAY] else []),
        if ms_version s1 =? CLIENT_VERSION_INDEX_2_0_0 then set_cycle 1 (set_fallback true s1)
        else set_fallback true s1)
  end.
Proof.
  intros [Hs Ht]. unfold tspMain_step. rewrite Hs. destruct (choose_transport c s); [|done]. by rewrite Ht.
Qed.

(** The versions that are tried, with their transports. *)
Definition fallback_plan (m : tTunnelMode) : list (net_tools * Z) :=
  match m with
  | V6UDPV4 => [(NET_TOOLS_T_RUDP, 0); (NET_TOOLS_T_RUDP, 1); (NET_TOOLS_T_RUDP, 2)]
  | V6V4 | V6ANYV4 => [(NET_TOOLS_T_RUDP, 0); (NET_TOOLS_T_RUDP, 1); (NET_TOOLS_T_RUDP, 2); (NET_TOOLS_T_TCP, 3)]
  | V4V6 => [(NET_TOOLS_T_RUDP6, 0); (NET_TOOLS_T_RUDP6, 1); (NET_TOOLS_T_RUDP6, 2)]
  | DSLITE => []
  end.

Fixpoint attempts (ev : list event) : list (option (list Z) * net_tools * Z) :=
  match ev with
  | [] => []
  | Attempt server t v :: ev' => (server, t, v) :: attempts ev'
  | Sleep _ :: ev' => attempts ev'
  end.

(** Version fallback ends: against a server that refuses every version of
    the protocol, the client tries each version that its tunnel mode allows
    exactly once, in order, and leaves the loop. *)
Theorem version_fallback_terminates c a1 a2 a3 a4 a5 s :
  tunnel_mode c <> DSLITE ->
  Forall (answers_with ERR_INVAL_TSP_VERSION (tunnel_mode c)) [a1; a2; a3; a4; a5] ->
  exists ev s', inner_loop c [a1; a2; a3; a4; a5] (enter s) = Ok (Leave, ev, s') /\
    attempts ev = (fun '(t, v) => (ms_server s, t, v)) <$> fallback_plan (tunnel_mode c).
Proof.
  intros Hm Ha. rewrite !list.Forall_cons in Ha. destruct Ha as (H1 & H2 & H3 & H4 & H5 & _).
  cbn [inner_loop]. destruct s as [server t g l o v cy fb cu tr ef co].
  destruct c as [m rd rdm bm ar hb os rl]. cbn [tunnel_mode] in *. unfold enter. cbn [ms_server].
  destruct m; try done;
    do 5 (try (rewrite step_fallback by assumption; cbv -[tspMain_step]));
    eexists _, _; (split; [reflexivity|reflexivity]).
Qed.

(** *** Delays *)

Lemma connect_failed_delay c a q s v s' :
  read_last_server c = false -> connect_failed c a q s = Ok (v, s') -> v = Break ->
  ms_consec s' = 1 /\ ms_eff s' = Some (retry_delay c mod 2 ^ 16).
Proof.
  intros Hl E Hv. revert E. unfold connect_failed. rewrite Hl. destruct (boot_mode c); [by intros [= <- _]|].
  destruct q; [by intros [= <- _]|]. destruct (ms_orig _); [|destruct (ms_trying_list _); [|by intros [= _ <-]]].
  - unfold original_failed. destruct (has_broker_list_file c); cbn [negb]; [|by intros [= _ <-]].
    destruct (tspReadBrokerListFromFile _ _ _) as [[[st l] h]|]; [|done]. cbn [mbind res_bind].
    destruct st; try by intros [= _ <-]. case_bool_decide; [by intros [= _ <-]|].
    destruct (_ =? 0); [by intros [= <- _]|]. destruct (tspLogRedirectionList l); [|done]. cbn [mbind res_bind].
    destruct (take_broker _ _ _) as [[ok s1]|] eqn:Et; [|done]. cbn [mbind res_bind].
    destruct ok; cbn [negb]; intros [= <- _]; done.
  - unfold listed_failed. destruct (_ || _).
    + destruct (broker_at _ _); [|done]. by intros [= <- _].
    + destruct (next_broker _ _) as [[p|]|]; [|by intros [= _ <-]|done]. cbn [mbind res_bind].
      destruct (take_broker _ _ _) as [[ok s1]|]; [|done]. cbn [mbind res_bind].
      destruct ok; cbn [negb]; intros [= <- _]; done.
Qed.

Lemma on_status_delay c a st s v ev s' n :
  conf_valid c -> read_last_server c = false -> on_status c a st s = Ok (v, ev, s') ->
  (v = Break -> ms_consec s' = 0 \/ (ms_consec s' = 1 /\ ms_eff s' = Some (retry_delay c))) /\
  (Sleep n ∈ ev -> n = TSP_VERSION_FALLBACK_DELAY).
Proof.
  intros Hc Hl. pose proof (delay_mod c Hc) as Hd.
  assert (forall q, match connect_failed c a q s with Ok (v, s') => Ok (v, [], s') | Err f => Err f end = Ok (v, ev, s') ->
    (v = Break -> ms_consec s' = 0 \/ (ms_consec s' = 1 /\ ms_eff s' = Some (retry_delay c))) /\
    (Sleep n ∈ ev -> n = TSP_VERSION_FALLBACK_DELAY)) as Hcf.
  { intros q. destruct (connect_failed c a q s) as [[v1 s1]|] eqn:E; [|done]. intros [= <- <- <-].
    split; [|intros H; by inversion H]. intros Hv. right. rewrite <- Hd. by eapply connect_failed_delay. }
  destruct st; cbn [on_status]; try apply Hcf;
    try (intros [= <- <- <-]; split; [try done; by left|intros H; by inversion H]).
  - intros [= <- <- <-]. split; [done|]. destruct (_ && _); intros H; [|by inversion H].
    by apply list_elem_of_singleton in H as [= ->].
  - intros [= <- <- <-]. split; [|intros H; by inversion H]. intros _. right. by rewrite Hd.
  - unfold redirected_to. case_bool_decide; [by intros [= <- <- <-]; split; [|intros H'; inversion H']|].
    destruct (take_broker _ _ _) as [[ok s1]|]; [|done]. cbn [mbind res_bind].
    destruct ok; intros [= <- <- <-]; (split; [done|intros H'; by inversion H']).
Qed.

(** Unless the server comes from the last_server file, every wait between
    attempts is exactly [retry_delay]: each failure that waits sets the
    counter to one first, so the delay never doubles. *)
Theorem retry_delay_never_doubles c a s o ev s' n :
  conf_valid c -> read_last_server c = false ->
  tspMain_step c a s = Ok (o, ev, s') -> Sleep n ∈ ev ->
  n = retry_delay c \/ n = TSP_VERSION_FALLBACK_DELAY.
Proof.
  intros Hc Hl. unfold tspMain_step. destruct (an_stop a); [intros [= _ <- _] H; by inversion H|].
  destruct (choose_transport c s) as [s1|]; [|intros [= _ <- _] H; by inversion H].
  destruct (tspSetupTunnel _ _ _) as [st redirect].
  set (s2 := match redirect with Some l => set_list l s1 | None => s1 end).
  destruct (on_status c a st s2) as [[[v ev'] s3]|] eqn:E; [|done]. cbn [mbind res_bind].
  destruct (on_status_delay c a st s2 v ev' s3 n Hc Hl E) as [Hb Hsl].
  destruct v; try (intros [= _ <- _] H; apply elem_of_cons in H as [|H]; [done|]; right; by apply Hsl).
  unfold wait_retry. destruct (Hb eq_refl) as [-> | [-> ->]]; cbn [Z.ltb Z.compare];
    (intros [= _ <- _] H; apply elem_of_cons in H as [|H]; [done|]; rewrite elem_of_app in H; destruct H as [H|H];
     [right; by apply Hsl|]; cbn [fst] in H).
  - by inversion H.
  - apply list_elem_of_singleton in H as [= ->]. by left.
Qed.

(** *** Back-off towards the last server *)

Fixpoint waits (c : tConf) (n : nat) (s : main_state) : res (list event * main_state) :=
  match n with
  | O => Ok ([], s)
  | S n' => r ← wait_retry c s; q ← waits c n' (snd r); Ok (fst r ++ fst q, snd q)
  end.

Lemma pow_div3 j : 0 <= j -> 2 ^ ((j + 1) / 3) = 2 ^ (j / 3) * (if (j + 1) mod 3 =? 0 then 2 else 1).
Proof.
  intros Hj. destruct (Z.eqb_spec ((j + 1) mod 3) 0).
  - replace ((j + 1) / 3) with (Z.succ (j / 3)).
    + rewrite Z.pow_succ_r by (apply Z.div_pos; lia). lia.
    + Z.to_euclidean_division_equations. lia.
  - replace ((j + 1) / 3) with (j / 3); [lia|]. Z.to_euclidean_division_equations. lia.
Qed.

Definition backoff (c : tConf) (j : Z) : Z := Z.min (retry_delay_max c) (retry_delay c * 2 ^ (j / 3)).

Lemma wait_retry_backoff c s j :
  conf_valid c -> 1 <= j < 255 -> ms_consec s = j -> ms_eff s = Some (backoff c (j - 1)) ->
  wait_retry c s = Ok ([Sleep (backoff c j)], set_delay (Some (backoff c j)) (j + 1) s).
Proof.
  intros Hc Hj Hn He. unfold wait_retry. rewrite Hn, He, (proj2 (Z.ltb_lt 0 j)) by lia.
  cbn [from_option mbind res_bind]. rewrite (Z.mod_small (j + 1)) by lia.
  assert ((if j mod CONSEC_RETRY_TO_DOUBLE_WAIT =? 0
           then (if retry_delay_max c <? (backoff c (j - 1) * 2) mod 2 ^ 16 then retry_delay_max c mod 2 ^ 16
                 else (backoff c (j - 1) * 2) mod 2 ^ 16)
           else backoff c (j - 1)) = backoff c j) as ->; [|done].
  pose proof (pow_div3 (j - 1) ltac:(lia)) as Hp. replace (j - 1 + 1) with j in Hp by lia.
  assert (1 <= 2 ^ ((j - 1) / 3)) by (apply (Z.pow_le_mono_r 2 0); [lia|apply Z.div_pos; lia]).
  unfold CONSEC_RETRY_TO_DOUBLE_WAIT, backoff, conf_valid in *. rewrite Hp.
  set (x := 2 ^ ((j - 1) / 3)) in *. destruct (j mod 3 =? 0); [|by rewrite Z.mul_1_r].
  assert (0 <= retry_delay c * x) by nia. rewrite (Z.mod_small (Z.min _ _ * 2)) by lia.
  rewrite Z.mod_small by lia. destruct (Z.ltb_spec (retry_delay_max c) (Z.min (retry_delay_max c) (retry_delay c * x) * 2)); nia.
Qed.

(** The schedule of the back-off when nothing resets the counter (the server
    of the last_server file keeps failing): the [j]-th wait is
    [retry_delay * 2^(j/3)], capped by [retry_delay_max]. *)
Theorem backoff_schedule c s n :
  conf_valid c -> ms_consec s = 1 -> ms_eff s = Some (retry_delay c) -> (n <= 254)%nat ->
  exists s', waits c n s = Ok ((fun j => Sleep (backoff c (Z.of_nat j))) <$> seq 1 n, s').
Proof.
  intros Hc Hn He Hle.
  assert (forall k s, (k + n <= 255)%nat -> (1 <= k)%nat -> ms_consec s = Z.of_nat k ->
    ms_eff s = Some (backoff c (Z.of_nat k - 1)) ->
    exists s', waits c n s = Ok ((fun j => Sleep (backoff c (Z.of_nat j))) <$> seq k n, s')) as H.
  { clear s Hn He Hle. induction n as [|n IH]; intros k s Hk H1 Hs He; cbn [waits seq fmap list_fmap]; [by eauto|].
    rewrite (wait_retry_backoff c s (Z.of_nat k)) by (done || lia). cbn [mbind res_bind fst snd].
    destruct (IH (S k) (set_delay (Some (backoff c (Z.of_nat k))) (Z.of_nat k + 1) s)) as [s' ->];
      [lia|lia|cbn; lia|cbn; do 3 f_equal; lia|]. cbn [mbind res_bind fst snd app]. by exists s'. }
  apply (H 1%nat s); [lia|lia|done|]. rewrite He. f_equal. unfold backoff, conf_valid in *.
  change (2 ^ ((Z.of_nat 1 - 1) / 3)) with 1. lia.
Qed.

(** *** Walking a broker list *)

Section walk.
Context (c : tConf).
Context (Hm : tunnel_mode c = V6V4 \/ tunnel_mode c = V6ANYV4).
Context (Hb : boot_mode c = false) (Hl : read_last_server c = false).

Definition connect_fails (a : answers) : Prop :=
  answers_with ERR_FAIL_SOCKET_CONNECT (tunnel_mode c) a /\ an_strdup a = true.

Definition server_of (b : tBroker) : option (list Z) := snd (FormatBrokerListAddr true b).

(** On element [i] of the list, about to try it over RUDP. *)
Definition at_broker (s : main_state) (l : list tBroker) (i : nat) : Prop :=
  ms_list s = l /\ ms_current s = Some (ms_gen s, i) /\ ms_trying_list s = true /\ ms_orig s = false /\
  ms_cycle s = 0 /\ ms_fallback s = false /\ exists b, l !! i = Some b /\ ms_server s = server_of b.

Lemma format_ok b : FormatBrokerListAddr true b = (true, server_of b).
Proof. unfold server_of, FormatBrokerListAddr. by destruct (address_type b). Qed.

Lemma take_at a s i b :
  an_strdup a = true -> ms_list s !! i = Some b ->
  take_broker a (Some (ms_gen s, i)) s = Ok (true, set_server (server_of b) (set_current (Some (ms_gen s, i)) s)).
Proof.
  intros Ha Hi. unfold take_broker, broker_at. cbn [ms_gen ms_list set_current]. rewrite Nat.eqb_refl, Hi, Ha.
  cbn [from_option mbind res_bind]. by rewrite format_ok.
Qed.

Lemma choose_v6 s :
  ms_fallback s = false ->
  choose_transport c s = Some (if ms_cycle s =? 1 then set_choice 1 false 0 NET_TOOLS_T_TCP s
                               else set_choice 0 false 0 NET_TOOLS_T_RUDP s).
Proof. intros Hf. unfold choose_transport. rewrite Hf. by destruct Hm as [->| ->]. Qed.

Lemma quick_v6 s : quick_cycle c s = bool_decide (ms_transport s = NET_TOOLS_T_RUDP).
Proof. unfold quick_cycle. destruct Hm as [->| ->]; cbn; by rewrite orb_false_r. Qed.

Lemma step_connect_fails a s s1 :
  connect_fails a -> choose_transport c s = Some s1 ->
  tspMain_step c a s =
  (r ← connect_failed c a (quick_cycle c s1) s1;
   let '(v, s2) := r in
   let tried := Attempt (ms_server s1) (ms_transport s1) (ms_version s1) in
   match v with
   | Continue => Ok (Again, [tried], s2)
   | Stop => Ok (Leave, [tried], s2)
   | End => Ok (Quit, [tried], s2)
   | Break => w ← wait_retry c s2; Ok (Again, tried :: fst w, snd w)
   end).
Proof.
  intros [[Hs Ht] _] E. unfold tspMain_step. rewrite Hs, E, Ht. cbn [on_status].
  by destruct (connect_failed c a (quick_cycle c s1) s1) as [[[] s2]|].
Qed.

(** The attempt over RUDP leads to the one over TCP. *)
Lemma walk_rudp a s :
  connect_fails a -> ms_fallback s = false -> ms_cycle s = 0 ->
  tspMain_step c a s = Ok (Again, [Attempt (ms_server s) NET_TOOLS_T_RUDP 0],
                           set_cycle 1 (set_choice 0 false 0 NET_TOOLS_T_RUDP s)).
Proof.
  intros Ha Hf Hcy. rewrite (step_connect_fails a s _ Ha (choose_v6 s Hf)), Hcy. cbn [Z.eqb].
  rewrite quick_v6, bool_decide_eq_true_2 by done. unfold connect_failed. by rewrite Hb.
Qed.

Lemma walk_tcp a s l i b :
  connect_fails a -> ms_fallback s = false -> ms_cycle s = 1 -> ms_trying_list s = true -> ms_orig s = false ->
  ms_list s = l -> ms_current s = Some (ms_gen s, i) -> l !! i = Some b ->
  exists ev s', tspMain_step c a s = Ok (Again, Attempt (ms_server s) NET_TOOLS_T_TCP 0 :: ev, s') /\
    match l !! S i with
    | Some _ => at_broker s' l (S i) /\ ev = []
    | None => ms_server s' = Some (original_server c) /\ ms_orig s' = true /\ ev = [Sleep (retry_delay c mod 2 ^ 16)]
    end.
Proof.
  intros Ha Hf Hcy Ht Ho Hli Hcu Hi. rewrite (step_connect_fails a s _ Ha (choose_v6 s Hf)), Hcy. cbn [Z.eqb Pos.eqb].
  rewrite quick_v6, bool_decide_eq_false_2 by done. unfold connect_failed. rewrite Hb, Hl.
  set (s1 := set_delay _ 1 _). change (ms_orig s1) with (ms_orig s). change (ms_trying_list s1) with (ms_trying_list s).
  rewrite Ho, Ht. unfold listed_failed. change (ms_list s1) with (ms_list s). change (ms_current s1) with (ms_current s).
  assert (i < length l)%nat as Hlt by (by apply lookup_lt_Some in Hi).
  rewrite Hli, Hcu, (bool_decide_eq_false_2 (l = [])) by (intros ->; cbn in Hlt; lia).
  rewrite bool_decide_eq_false_2 by done. cbn [orb]. unfold next_broker, broker_at.
  change (ms_gen s1) with (ms_gen s). change (ms_list s1) with (ms_list s). rewrite Nat.eqb_refl, Hli, Hi.
  cbn [from_option mbind res_bind].
  destruct (l !! S i) as [b'|] eqn:E'.
  - rewrite (proj2 (Nat.ltb_lt _ _)) by (by apply lookup_lt_Some in E').
    change (ms_gen s) with (ms_gen s1). rewrite (take_at a s1 (S i) b'); [|apply Ha|by change (ms_list s1) with (ms_list s); rewrite Hli].
    cbn [mbind res_bind negb]. eexists [], _. split; [reflexivity|]. split; [|done]. repeat split; try done. by exists b'.
  - rewrite (proj2 (Nat.ltb_ge _ _)) by (by apply lookup_ge_None in E'). cbn [mbind res_bind].
    unfold wait_retry. cbn [ms_consec set_orig set_cycle set_server Z.ltb Z.compare]. subst s1.
    cbn [ms_consec set_delay Z.ltb Z.compare ms_eff set_orig set_cycle set_server from_option mbind res_bind fst snd].
    eexists _, _. split; [reflexivity|]. done.
Qed.

(** What the attempts on a list look like. *)
Definition walk (l : list tBroker) : list event :=
  l ≫= fun b => [Attempt (server_of b) NET_TOOLS_T_RUDP 0; Attempt (server_of b) NET_TOOLS_T_TCP 0].

Lemma walk_list l i b s inputs :
  at_broker s l i -> l !! i = Some b -> Forall connect_fails inputs ->
  length inputs = (2 * (length l - i))%nat ->
  exists s', inner_loop c inputs s = Ok (Again, walk (drop i l) ++ [Sleep (retry_delay c mod 2 ^ 16)], s') /\
    ms_server s' = Some (original_server c) /\ ms_orig s' = true.
Proof.
  intros Hat Hi Hin Hlen. assert (i < length l)%nat as Hlt by (by apply lookup_lt_Some in Hi).
  remember (length l - i)%nat as k eqn:Ek. revert i b s inputs Hat Hi Hin Hlen Hlt Ek.
  induction k as [|k IH]; intros i b s inputs Hat Hi Hin Hlen Hlt Ek; [lia|].
  destruct inputs as [|a1 [|a2 inputs]]; cbn [length] in Hlen; try lia.
  rewrite !list.Forall_cons in Hin. destruct Hin as (H1 & H2 & Hin).
  destruct Hat as (E1 & E2 & E3 & E4 & E5 & E6 & b0 & E7 & E8). rewrite Hi in E7. injection E7 as <-.
  cbn [inner_loop]. rewrite (walk_rudp a1 s H1 E6 E5). cbn [mbind res_bind].
  destruct (walk_tcp a2 (set_cycle 1 (set_choice 0 false 0 NET_TOOLS_T_RUDP s)) l i b) as (ev & s' & -> & Hs'); try done.
  cbn [mbind res_bind]. rewrite (drop_S l b i Hi). unfold walk. cbn [mbind list_bind].
  change (ms_server (set_cycle 1 (set_choice 0 false 0 NET_TOOLS_T_RUDP s))) with (ms_server s). rewrite E8.
  destruct (l !! S i) as [b'|] eqn:E'.
  - destruct Hs' as [Hat' ->]. assert (S i < length l)%nat by (by apply lookup_lt_Some in E').
    destruct (IH (S i) b' s' inputs) as (s'' & -> & H'); [done|done|done|lia|lia|lia|].
    cbn [mbind res_bind]. exists s''. split; [|exact H']. done.
  - destruct Hs' as (Hsv & Ho & ->). assert (length l <= S i)%nat by (by apply lookup_ge_None in E').
    destruct inputs as [|]; [|cbn in Hlen; lia]. exists s'. cbn. rewrite drop_ge by lia. done.
Qed.
End walk.

(** (C19) A redirection is followed to its end, in the modes V6V4 and V6ANYV4: a
    client that gets a redirection with a list of brokers, and then fails to
    connect to each of them, tries them in the order of the list, each once over
    RUDP and once over TCP, without waiting in between, and then waits
    [retry_delay] seconds and goes back to the original server.  Conditions: the
    boot mode is off, the server does not come from the last_server file, no
    version fallback is under way, the client is not told to stop meanwhile, and
    the copies of the names of the brokers can be allocated.  The other modes use
    other transports and are not covered. *)
Theorem redirection_walks_the_list c a inputs s l :
  (tunnel_mode c = V6V4 \/ tunnel_mode c = V6ANYV4) -> boot_mode c = false -> read_last_server c = false ->
  ms_fallback s = false -> l <> [] ->
  an_stop a = false -> an_strdup a = true ->
  (forall t, tspSetupTunnel (tunnel_mode c) t (an_session a) = (EVNT_BROKER_REDIRECTION, Some l)) ->
  Forall (connect_fails c) inputs -> length inputs = (2 * length l)%nat ->
  exists first s', inner_loop c (a :: inputs) s =
      Ok (Again, first :: walk l ++ [Sleep (retry_delay c mod 2 ^ 16)], s') /\
    ms_server s' = Some (original_server c) /\ ms_orig s' = true.
Proof.
  intros Hm Hb Hl Hf Hne Hs Hd Ht Hin Hlen. cbn [inner_loop]. unfold tspMain_step.
  rewrite Hs, (choose_v6 c Hm s Hf), Ht. set (s1 := if _ =? 1 then _ else _). cbn [on_status].
  destruct l as [|b l]; [done|]. unfold redirected_to. rewrite bool_decide_eq_false_2 by done.
  match goal with |- context [take_broker a (Some (ms_gen ?x, _)) ?x] => set (s2 := x) end.
  rewrite (take_at a s2 0 b Hd eq_refl). cbn [mbind res_bind negb].
  destruct (walk_list c Hm Hb Hl (b :: l) 0 b (set_server (server_of b) (set_current (Some (ms_gen s2, 0%nat)) s2)) inputs)
    as (s' & E & H); [|done|done|cbn [length] in *; lia|].
  - repeat split; try done; [subst s2 s1; cbn; by destruct (_ =? 1)|]. by exists b.
  - rewrite E. cbn [mbind res_bind app]. eexists _, s'. split; [reflexivity|]. exact H.
Qed.

(** *** Two dead ends *)

(** In [v6udpv4] mode, with brokers in the broker list file, a client that
    cannot reach the original server retries it for ever without waiting, and
    never tries the brokers of the file. *)
Theorem v6udpv4_ignores_broker_list c inputs s l :
  tunnel_mode c = V6UDPV4 -> boot_mode c = false -> read_last_server c = false -> has_broker_list_file c = true ->
  ms_orig s = true -> ms_fallback s = false -> l <> [] ->
  Forall (fun a => connect_fails c a /\
    exists h, tspReadBrokerListFromFile (an_malloc a) (an_file a) (mk_heap 0 0) = Ok ((TSP_REDIRECT_OK, l), h)) inputs ->
  exists s', inner_loop c inputs s = Ok (Again, repeat (Attempt (ms_server s) NET_TOOLS_T_RUDP 0) (length inputs), s') /\
    ms_server s' = ms_server s /\ ms_orig s' = true.
Proof.
  intros Hm Hb Hl Hbl Ho Hf Hne Hin. revert s Ho Hf.
  induction Hin as [|a inputs [Ha [h Hr]] _ IH]; intros s Ho Hf; cbn [inner_loop length repeat]; [by eauto|].
  rewrite (step_connect_fails c a s (set_choice 0 false 0 NET_TOOLS_T_RUDP s) Ha)
    by (unfold choose_transport; by rewrite Hm, Hf).
  assert (quick_cycle c (set_choice 0 false 0 NET_TOOLS_T_RUDP s) = false) as ->
    by (unfold quick_cycle; by rewrite Hm).
  unfold connect_failed. rewrite Hb, Hl.
  set (s1 := set_delay _ 1 _). change (ms_orig s1) with (ms_orig s). rewrite Ho. unfold original_failed.
  rewrite Hbl, Hr. cbn [negb mbind res_bind]. rewrite bool_decide_eq_false_2 by done.
  change (ms_cycle (set_list l (set_list [] s1))) with 0. cbn [Z.eqb Z.add mbind res_bind].
  destruct (IH (set_cycle 1 (set_list l (set_list [] s1)))) as (s' & E & H1 & H2); [done|done|].
  change (0 + 1) with 1. rewrite E. cbn [mbind res_bind app]. by exists s'.
Qed.

(** Once a redirected session has been abandoned, the new loop never goes
    back to the original server: as long as connections fail it retries the
    same broker. *)
Theorem abandoned_redirection_is_sticky c inputs s :
  boot_mode c = false -> read_last_server c = false -> ms_orig s = false -> ms_trying_list s = false ->
  ms_fallback s = false ->
  Forall (connect_fails c) inputs ->
  exists ev s', inner_loop c inputs s = Ok (Again, ev, s') /\ ms_server s' = ms_server s /\
    Forall (fun x => fst (fst x) = ms_server s) (attempts ev).
Proof.
  intros Hb Hl Ho Ht Hf Hin. revert s Ho Ht Hf.
  induction Hin as [|a inputs Ha _ IH]; intros s Ho Ht Hf; cbn [inner_loop].
  - exists [], s. repeat split. constructor.
  - assert (exists s1, choose_transport c s = Some s1 /\ ms_orig s1 = false /\ ms_trying_list s1 = false /\
      ms_fallback s1 = false /\ ms_server s1 = ms_server s) as (s1 & E & Ho1 & Ht1 & Hf1 & Hs1).
    { unfold choose_transport. rewrite Hf. cbn [fall_back mbind option_bind].
      destruct (tunnel_mode c); try (eexists; split; [reflexivity|]); by repeat case_match. }
    rewrite (step_connect_fails c a s s1 Ha E). unfold connect_failed. rewrite Hb, Hl.
    destruct (quick_cycle c s1).
    + cbn [mbind res_bind]. destruct (IH (set_cycle (ms_cycle s1 + 1) s1)) as (ev & s' & -> & Hv & Hev); [done..|].
      cbn [mbind res_bind]. eexists _, s'. split; [reflexivity|].
      change (ms_server (set_cycle (ms_cycle s1 + 1) s1)) with (ms_server s1) in *. rewrite Hs1 in *.
      split; [done|]. cbn. by constructor.
    + cbn [ms_orig ms_trying_list set_delay]. rewrite Ho1, Ht1. cbn [mbind res_bind].
      unfold wait_retry. cbn [ms_consec set_delay Z.ltb Z.compare ms_eff from_option mbind res_bind fst snd].
      match goal with |- context [inner_loop c inputs ?x] => destruct (IH x) as (ev & s' & -> & Hv & Hev); [done..|] end.
      cbn [mbind res_bind]. eexists _, s'. split; [reflexivity|].
      cbn [ms_server set_delay] in Hv, Hev. rewrite Hs1 in *. split; [done|]. cbn. by constructor.
Qed.

(** ** Witnesses *)

Definition conf0 (m : tTunnelMode) : tConf := mk_tConf m 30 300 false true true [111] false.

Definition session0 (st : status_code) (l : option (list tBroker)) : session :=
  mk_session true 0 (SUCCESS, None) 15 (st, l) true (SUCCESS, None) SUCCESS.

Definition answers0 (st : status_code) (l : option (list tBroker)) : answers :=
  mk_answers false (session0 st l) (Some [97; LF]) (fun _ => true) true.

Lemma conf0_valid m : conf_valid (conf0 m).
Proof. unfold conf_valid. cbn. lia. Qed.

Lemma answers0_with st m : st <> SUCCESS -> answers_with st m (answers0 st None).
Proof. intros Hs. split; [done|]. intros t. by destruct st, m. Qed.

Lemma answers0_ok : answers_ok (answers0 ERR_FAIL_SOCKET_CONNECT None).
Proof.
  split; [by repeat split|]. intros st l h [= _ <- _]. unfold MAX_BROKER_LIST_STRING_LENGTH. cbn. lia.
Qed.

Lemma tspMain_safe_witness :
  exists ev s', tspMain_loop (conf0 V6V4) (repeat (answers0 ERR_FAIL_SOCKET_CONNECT None) 3) 30 (main_start [111] true)
      = Ok (ev, s') /\
    forall n, Sleep n ∈ ev -> 0 <= n <= 300 \/ n = TSP_VERSION_FALLBACK_DELAY.
Proof.
  apply (tspMain_safe (conf0 V6V4) [111] true (repeat (answers0 ERR_FAIL_SOCKET_CONNECT None) 3));
    [apply conf0_valid|]. repeat apply list.Forall_cons_2; try exact answers0_ok. constructor.
Defined.

Lemma version_fallback_terminates_witness :
  let a := answers0 ERR_INVAL_TSP_VERSION None in
  exists ev s', inner_loop (conf0 V6V4) [a; a; a; a; a] (enter (main_start [111] true)) = Ok (Leave, ev, s') /\
    attempts ev = [(Some [111], NET_TOOLS_T_RUDP, 0); (Some [111], NET_TOOLS_T_RUDP, 1);
                   (Some [111], NET_TOOLS_T_RUDP, 2); (Some [111], NET_TOOLS_T_TCP, 3)].
Proof.
  intros a. apply (version_fallback_terminates (conf0 V6V4) a a a a a (main_start [111] true)); [done|].
  repeat apply list.Forall_cons_2; try (by apply answers0_with). constructor.
Defined.

Lemma retry_delay_never_doubles_witness : 30 = retry_delay (conf0 V6UDPV4) \/ 30 = TSP_VERSION_FALLBACK_DELAY.
Proof.
  set (s := enter (main_start [111] true)).
  refine (retry_delay_never_doubles (conf0 V6UDPV4) (answers0 ERR_TSP_SERVER_TOO_BUSY None) s Again
    [Attempt (Some [111]) NET_TOOLS_T_RUDP 0; Sleep 30]
    (set_delay (Some 30) 2 (set_choice 0 false 0 NET_TOOLS_T_RUDP s)) 30 (conf0_valid _) eq_refl eq_refl _).
  apply elem_of_cons; right; by apply list_elem_of_singleton.
Defined.

Lemma backoff_schedule_witness :
  exists s', waits (conf0 V6V4) 7 (set_delay (Some 30) 1 (main_start [111] true)) =
    Ok ([Sleep 30; Sleep 30; Sleep 60; Sleep 60; Sleep 60; Sleep 120; Sleep 120], s').
Proof.
  apply (backoff_schedule (conf0 V6V4) (set_delay (Some 30) 1 (main_start [111] true)) 7);
    [apply conf0_valid|done|done|lia].
Defined.

Lemma connect_fails0 m : connect_fails (conf0 m) (answers0 ERR_FAIL_SOCKET_CONNECT None).
Proof. split; [by apply answers0_with|done]. Qed.

Definition list0 : list tBroker :=
  [mk_broker [49] TSP_REDIRECT_BROKER_TYPE_IPV4 0; mk_broker [58; 58; 49] TSP_REDIRECT_BROKER_TYPE_IPV6 5].

Lemma redirection_walks_the_list_witness :
  exists first s', inner_loop (conf0 V6V4) (answers0 EVNT_BROKER_REDIRECTION (Some list0) ::
        repeat (answers0 ERR_FAIL_SOCKET_CONNECT None) 4) (main_start [111] true) =
      Ok (Again, first :: [Attempt (Some [49]) NET_TOOLS_T_RUDP 0; Attempt (Some [49]) NET_TOOLS_T_TCP 0;
        Attempt (Some [91; 58; 58; 49; 93]) NET_TOOLS_T_RUDP 0; Attempt (Some [91; 58; 58; 49; 93]) NET_TOOLS_T_TCP 0;
        Sleep 30], s') /\
    ms_server s' = Some [111] /\ ms_orig s' = true.
Proof.
  apply (redirection_walks_the_list (conf0 V6V4) (answers0 EVNT_BROKER_REDIRECTION (Some list0))
    (repeat (answers0 ERR_FAIL_SOCKET_CONNECT None) 4) (main_start [111] true) list0); try done.
  - by left.
  - repeat apply list.Forall_cons_2; try apply connect_fails0. constructor.
Defined.

Lemma v6udpv4_ignores_broker_list_witness :
  exists s', inner_loop (conf0 V6UDPV4) (repeat (answers0 ERR_FAIL_SOCKET_CONNECT None) 3) (main_start [111] true) =
      Ok (Again, repeat (Attempt (Some [111]) NET_TOOLS_T_RUDP 0) 3, s') /\
    ms_server s' = Some [111] /\ ms_orig s' = true.
Proof.
  apply (v6udpv4_ignores_broker_list (conf0 V6UDPV4) (repeat (answers0 ERR_FAIL_SOCKET_CONNECT None) 3)
    (main_start [111] true) [mk_broker [97] TSP_REDIRECT_BROKER_TYPE_NONE 0]); try done.
  repeat apply list.Forall_cons_2; try apply list.Forall_nil_2;
    (split; [apply connect_fails0|exists (mk_heap 1 1); vm_compute; reflexivity]).
Defined.

Lemma abandoned_redirection_is_sticky_witness :
  exists ev s', inner_loop (conf0 V6V4) (repeat (answers0 ERR_FAIL_SOCKET_CONNECT None) 3) (main_start [98] false) =
      Ok (Again, ev, s') /\ ms_server s' = Some [98] /\
    Forall (fun x => fst (fst x) = Some [98]) (attempts ev).
Proof.
  apply (abandoned_redirection_is_sticky (conf0 V6V4) (repeat (answers0 ERR_FAIL_SOCKET_CONNECT None) 3)
    (main_start [98] false)); try done.
  repeat apply list.Forall_cons_2; try apply connect_fails0. constructor.
Defined.
