(* ===== verification/TspSession.v ===== *)
(** * The steps of a TSP session

Capability bits ([tsp_cap.c]), framed messages ([tsp_net.c]), the choice of
the authentication ([tsp_auth.c]) and the negotiation ([tsp_client.c]).  Each
step is proved to satisfy the contract under which the connection loop of
[TspClient] is verified.  What the transport delivers is an argument, and so
are the XML parser, the digest dialogue (file [TspDigest]) and the part of the
PASSDSS dialogue that OpenSSL does. *)

From Stdlib Require Import ZifyNat.
From stdpp Require Import base list numbers.
From S2P Require Import Prelude Words CString Redirect TspClient.

(** ** Numbers in text *)

(** The payload is never null where the function is called. *)
Definition tspGetStatusCode (payload : list Z) : Z := atoi payload.

Definition TSP_PROTOCOL_SUCCESS : Z := 200.
Definition TSP_PROTOCOL_AUTH_FAILED : Z := 300.
Definition TSP_PROTOCOL_UNSUP_TSP_VER : Z := 302.
Definition TSP_PROTOCOL_SERVER_TOO_BUSY : Z := 530.

(** ** Capabilities *)

Definition TUNNEL_V6V4 : Z := 0x0001.
Definition TUNNEL_V6UDPV4 : Z := 0x0002.
Definition TUNNEL_V4V6 : Z := 0x0004.
Definition AUTH_PASSDSS_3DES_1 : Z := 0x0080.
Definition AUTH_DIGEST_MD5 : Z := 0x0040.
Definition AUTH_PLAIN : Z := 0x0020.
Definition AUTH_ANONYMOUS : Z := 0x0010.
Definition AUTH_ANY : Z := 0x00F0.

Definition strcmp0 (a b : list Z) : bool := bool_decide (a = b).


Definition str_TUNNEL : list Z := [84; 85; 78; 78; 69; 76].
Definition str_AUTH : list Z := [65; 85; 84; 72].
Definition str_V6V4 : list Z := [86; 54; 86; 52].
Definition str_V6UDPV4 : list Z := [86; 54; 85; 68; 80; 86; 52].
Definition str_V4V6 : list Z := [86; 52; 86; 54].
Definition str_PASSDSS : list Z := [80; 65; 83; 83; 68; 83; 83; 45; 51; 68; 69; 83; 45; 49].
Definition str_DIGEST : list Z := [68; 73; 71; 69; 83; 84; 45; 77; 68; 53].
Definition str_ANONYMOUS : list Z := [65; 78; 79; 78; 89; 77; 79; 85; 83].
Definition str_PLAIN : list Z := [80; 76; 65; 73; 78].
Definition str_any : list Z := [97; 110; 121].
Definition str_CAPABILITY : list Z := [67; 65; 80; 65; 66; 73; 76; 73; 84; 89; 32].

Definition tspSetCapability (Token Value : list Z) : Z :=
  if strcmp0 str_TUNNEL Token && strcmp0 str_V6V4 Value then TUNNEL_V6V4
  else if strcmp0 str_TUNNEL Token && strcmp0 str_V6UDPV4 Value then TUNNEL_V6UDPV4
  else if strcmp0 str_TUNNEL Token && strcmp0 str_V4V6 Value then TUNNEL_V4V6
  else if strcmp0 str_AUTH Token then
    if strcasecmp0 str_PASSDSS Value then AUTH_PASSDSS_3DES_1
    else if strcasecmp0 str_DIGEST Value then AUTH_DIGEST_MD5
    else if strcasecmp0 str_ANONYMOUS Value then AUTH_ANONYMOUS
    else if strcasecmp0 str_PLAIN Value then AUTH_PLAIN
    else 0
  else 0.

Definition is_sep (c : Z) : bool := (c =? 32) || (c =? CR) || (c =? LF) || (c =? 0).

Definition region (buf : list Z) (s e : nat) : list Z := take (e - s) (drop s buf).

(** The [for] loop of [tspExtractCapability]; [s] and [e] are offsets in the
    buffer that holds the string.  Every turn advances [e]. *)
Fixpoint cap_loop (fuel : nat) (buf : list Z) (s e : nat) (Token Value : list Z) (flags : Z) : res Z :=
  match fuel with
  | O => Err OutOfFuel
  | S fuel' =>
    c ← rd8 e buf;
    if c =? 0 then Ok flags else
    let '(s, e, Token, Value, flags) :=
      if is_sep c then
        let '(Token, Value, flags) :=
          if negb (s =? e)%nat then
            let Value := if negb (bool_decide (Token = [])) && bool_decide (Value = [])
                         then region buf s e else Value in
            if negb (bool_decide (Token = [])) && negb (bool_decide (Value = []))
            then ([], [], Z.lor flags (tspSetCapability Token Value))
            else (Token, Value, flags)
          else (Token, Value, flags) in
        (S e, S e, Token, Value, flags)
      else (s, e, Token, Value, flags) in
    c ← rd8 e buf;
    if ((c =? 61) || is_sep c) && negb (e =? s)%nat then
      cap_loop fuel' buf (S e) (S (S e)) (region buf s e) Value flags
    else cap_loop fuel' buf s (S e) Token Value flags
  end.

Definition tspExtractCapability (buf : list Z) : res Z :=
  cap_loop (S (length buf)) buf 11 11 [] [] 0.

(** ** Messages *)

Definition PROTOCOLFRAMESIZE : nat := 4096.
Definition REDIRECT_RECEIVE_BUFFER_SIZE : nat := 4096.

(** A zeroed buffer into which the transport has stored [data]. *)
Definition received (data : list Z) : list Z :=
  data ++ repeat 0 (REDIRECT_RECEIVE_BUFFER_SIZE - length data).

(** [strlen] of what starts at an offset: there must be a zero in the buffer. *)
Definition strlen_at (off : nat) (buf : list Z) : res nat :=
  let n := length (c_str (drop off buf)) in
  guard_or OutOfBounds (off + n <? length buf)%nat;; Ok n.

(** [strchr (buf, c)]: the offset, if the string holds the character. *)
Fixpoint strchr (c : Z) (buf : list Z) : option nat :=
  match buf with
  | [] => None
  | x :: buf' => if x =? c then Some O else if x =? 0 then None else S <$> strchr c buf'
  end.

Definition str_CL : list Z := [67; 111; 110; 116; 101; 110; 116; 45; 108; 101; 110; 103; 116; 104; 58].

(** The rest of a message: each [netrecv] stores one chunk after what is
    there; an empty or missing chunk is an error or the end of the stream
    ([inl], with the buffer as it is). *)
Fixpoint recv_rest (chunks : list (list Z)) (buf : list Z) (ptr_c size left : nat) :
    res (list Z + list Z * nat) :=
  match left with
  | O => Ok (inr (buf, size))
  | _ =>
    match chunks with
    | [] | [] :: _ => Ok (inl buf)
    | chunk :: chunks' =>
      let data := take left chunk in
      guard_or OutOfBounds (ptr_c + size + length data <=? length buf)%nat;;
      recv_rest chunks' (blit (ptr_c + size) data buf) ptr_c (size + length data) (left - length data)
    end
  end.

(** The value that stands for a lost connection. *)
Definition PROTOCOL_ERROR : Z := 1.

(** [tspSendRecv]; [header] is what [snprintf] makes of the length of the
    request, [plin] the request.  The result is the return value and the
    content of [plout]. *)
Definition tspSendRecv (header plin : list Z) (reply : option (list Z)) (chunks : list (list Z)) :
    res (Z * list Z) :=
  guard_or OutOfBounds (length header + length plin + 1 <=? PROTOCOLFRAMESIZE)%nat;;
  match reply with
  | None => Ok (-1, received [])
  | Some data =>
    let data := take REDIRECT_RECEIVE_BUFFER_SIZE data in
    let ret := Z.of_nat (length data) in
    let payload := received data in
    if ret <=? 0 then Ok (ret, payload) else
    if negb (mem_eqb (take 15 payload) str_CL) then Ok (-1, payload) else
    match strchr LF payload with
    | None => Ok (-1, payload)
    | Some nl =>
      let ptr_c := S nl in
      size ← strlen_at ptr_c payload;
      let plout_size := atol (drop 15 payload) mod 2 ^ 64 in
      if (plout_size <=? 0) || (plout_size <? Z.of_nat size) then Ok (-1, payload) else
      r ← recv_rest chunks payload ptr_c size (Z.to_nat plout_size - size);
      match r with
      | inl buf => Ok (PROTOCOL_ERROR, buf)
      | inr (buf, size) => Ok (ret, take size (drop ptr_c buf))
      end
    end
  end.

(** ** The steps *)

(** [strchr (strchr (Payload, '\n'), '<')]: the inner result is not tested. *)
Definition tspExtractPayload (tspXMLParse : list Z -> res (option tTunnel)) (payload : list Z) : res (option tTunnel) :=
  match strchr LF payload with
  | None => Err NullDeref
  | Some nl =>
    match strchr 60 (drop nl payload) with
    | None => Ok None
    | Some p => tspXMLParse (c_str (drop p (drop nl payload)))
    end
  end.

Section steps.
Context (malloc_ok thread_ok join_ok : nat -> bool) (echo : tBroker -> Z).
Context (tspXMLParse : list Z -> res (option tTunnel)) (open_ok : bool) (write_ok : nat -> bool).

(** A reply with a redirection status. *)
Definition handle_redirect (payload : list Z) (broker_list : list tBroker) : st heap (status_code * list tBroker) :=
  r ← tspHandleRedirect malloc_ok thread_ok join_ok echo (tspExtractPayload tspXMLParse)
        payload open_ok write_ok broker_list [];
  let '(s, l, _) := r in
  mret (if bool_decide (s = TSP_REDIRECT_OK) then EVNT_BROKER_REDIRECTION else ERR_BROKER_REDIRECTION, l).

Definition tspGetCapabilities (reply : option (list Z)) (broker_list : list tBroker) :
    st heap (status_code * Z * list tBroker) :=
  match reply with
  | None => mret (ERR_SOCKET_IO, 0, broker_list)
  | Some data =>
    let datain := received (take REDIRECT_RECEIVE_BUFFER_SIZE data) in
    if mem_eqb (take 11 datain) str_CAPABILITY then
      cap ← lift (tspExtractCapability datain);
      mret (SUCCESS, cap, broker_list)
    else
    let tsp_status := tspGetStatusCode datain in
    if tspIsRedirectStatus tsp_status then
      r ← handle_redirect (c_str datain) broker_list;
      mret (fst r, 0, snd r)
    else if tsp_status =? TSP_PROTOCOL_SERVER_TOO_BUSY then mret (ERR_TSP_SERVER_TOO_BUSY, 0, broker_list)
    else if tsp_status =? TSP_PROTOCOL_UNSUP_TSP_VER then mret (ERR_INVAL_TSP_VERSION, 0, broker_list)
    else mret (ERR_TSP_GENERIC_ERROR, 0, broker_list)
  end.

(** [AuthANONYMOUS] and [AuthPLAIN]; [buffer] is what the reply leaves in the
    buffer, which starts uninitialised. *)
Definition AuthANONYMOUS (buffer : option (list Z)) (broker_list : list tBroker) :
    st heap (status_code * list tBroker) :=
  match buffer with
  | None => mret (ERR_SOCKET_IO, broker_list)
  | Some b =>
    let tsp_status := tspGetStatusCode b in
    if tspIsRedirectStatus tsp_status then handle_redirect (c_str b) broker_list
    else if negb (tsp_status =? TSP_PROTOCOL_SUCCESS) then mret (ERR_TSP_GENERIC_ERROR, broker_list)
    else mret (SUCCESS, broker_list)
  end.

Definition AuthPLAIN (sent : bool) (buffer : option (list Z)) (broker_list : list tBroker) :
    st heap (status_code * list tBroker) :=
  if negb sent then mret (ERR_SOCKET_IO, broker_list) else
  match buffer with
  | None => mret (ERR_SOCKET_IO, broker_list)
  | Some b =>
    let tsp_status := tspGetStatusCode b in
    if tspIsRedirectStatus tsp_status then handle_redirect (c_str b) broker_list
    else if tsp_status =? TSP_PROTOCOL_SUCCESS then mret (SUCCESS, broker_list)
    else if tsp_status =? TSP_PROTOCOL_AUTH_FAILED then mret (ERR_AUTHENTICATION_FAILURE, broker_list)
    else mret (ERR_TSP_GENERIC_ERROR, broker_list)
  end.

(** How the exchange of keys of [AuthPASSDSS_3DES_1] fails: no memory, an invalid
    key or signature, or a socket that failed. *)
Inductive passdss_failure := Passdss_memory | Passdss_invalid | Passdss_socket.

(** [AuthPASSDSS_3DES_1]: the exchange, which is the work of OpenSSL, is an
    argument; when it succeeds, it leaves the last reply in [BufferIn]. *)
Definition AuthPASSDSS_3DES_1 (exchange : passdss_failure + list Z) (broker_list : list tBroker) :
    st heap (status_code * list tBroker) :=
  match exchange with
  | inl Passdss_memory => mret (ERR_MEMORY_STARVATION, broker_list)
  | inl Passdss_invalid => mret (ERR_AUTHENTICATION_FAILURE, broker_list)
  | inl Passdss_socket => mret (ERR_SOCKET_IO, broker_list)
  | inr BufferIn =>
    let tsp_status := tspGetStatusCode BufferIn in
    if tspIsRedirectStatus tsp_status then handle_redirect (c_str BufferIn) broker_list
    else if tsp_status =? TSP_PROTOCOL_SUCCESS then mret (SUCCESS, broker_list)
    else if tsp_status =? TSP_PROTOCOL_AUTH_FAILED then mret (ERR_AUTHENTICATION_FAILURE, broker_list)
    else mret (ERR_TSP_GENERIC_ERROR, broker_list)
  end.

(** Which dialogue [tspAuthenticate] starts. *)
Inductive mechanism := Mech_PASSDSS | Mech_DIGEST | Mech_PLAIN | Mech_ANONYMOUS.

Definition tspAuthenticate_choice (auth_method : list Z) (cap : Z) : option mechanism :=
  let Mechanism := if strcasecmp0 auth_method str_any then AUTH_ANY else tspSetCapability str_AUTH auth_method in
  let has bit := negb (Z.land (Z.land Mechanism cap) bit =? 0) in
  if negb (strcasecmp0 auth_method str_ANONYMOUS) then
    if has AUTH_PASSDSS_3DES_1 then Some Mech_PASSDSS
    else if has AUTH_DIGEST_MD5 then Some Mech_DIGEST
    else if has AUTH_PLAIN then Some Mech_PLAIN
    else None
  else if has AUTH_ANONYMOUS then Some Mech_ANONYMOUS
  else None.

(** The two long dialogues are arguments. *)
Definition tspAuthenticate (passdss digest : list tBroker -> st heap (status_code * list tBroker))
    (auth_method : list Z) (cap : Z) (sent : bool) (buffer : option (list Z)) (broker_list : list tBroker) :
    st heap (status_code * list tBroker) :=
  match tspAuthenticate_choice auth_method cap with
  | Some Mech_PASSDSS => passdss broker_list
  | Some Mech_DIGEST => digest broker_list
  | Some Mech_PLAIN => AuthPLAIN sent buffer broker_list
  | Some Mech_ANONYMOUS => AuthANONYMOUS buffer broker_list
  | None => mret (ERR_NO_COMMON_AUTHENTICATION, broker_list)
  end.

Definition tspTunnelNegotiation (version_index : Z) (header plin : list Z) (payload_ok : bool)
    (reply : option (list Z)) (chunks : list (list Z)) (ack_sent : bool) (broker_list : list tBroker) :
    st heap (status_code * list tBroker) :=
  if negb payload_ok then mret (ERR_MEMORY_STARVATION, broker_list) else
  r ← lift (tspSendRecv header plin reply chunks);
  let '(ret, payload) := r in
  if ret <=? 0 then mret (ERR_SOCKET_IO, broker_list) else
  let tsp_status := tspGetStatusCode payload in
  if tspIsRedirectStatus tsp_status then handle_redirect (c_str payload) broker_list
  else if negb (tsp_status =? TSP_PROTOCOL_SUCCESS) then mret (ERR_TSP_GENERIC_ERROR, broker_list)
  else
    _ ← lift (tspExtractPayload tspXMLParse (c_str payload));
    if version_index =? CLIENT_VERSION_INDEX_1_0_1 then mret (SUCCESS, broker_list)
    else if negb ack_sent then mret (ERR_SOCKET_IO, broker_list)
    else mret (SUCCESS, broker_list).
End steps.

(** ** Capabilities, proofs *)

Definition plain (c : Z) : Prop := c <> 0 /\ is_sep c = false /\ c <> 61.

Lemma region_mid (pre w post : list Z) s e :
  s = length pre -> e = (length pre + length w)%nat -> region (pre ++ w ++ post) s e = w.
Proof.
  intros -> ->. unfold region. rewrite drop_app_exact by done. apply take_app_exact. lia.
Qed.

Lemma cap_plain fuel buf s e T V f c :
  buf !! e = Some c -> plain c ->
  cap_loop (S fuel) buf s e T V f = cap_loop fuel buf s (S e) T V f.
Proof.
  intros Hc (H0 & Hs & H61). cbn [cap_loop]. unfold rd8. rewrite Hc. cbn [from_option mbind res_bind].
  rewrite (proj2 (Z.eqb_neq c 0)), Hs by done. rewrite Hc. cbn [from_option mbind res_bind].
  by rewrite (proj2 (Z.eqb_neq c 61)), Hs by done.
Qed.

Lemma cap_skip w : forall fuel pre post s T V f,
  Forall plain w ->
  cap_loop (length w + fuel) (pre ++ w ++ post) s (length pre) T V f =
  cap_loop fuel (pre ++ w ++ post) s (length pre + length w) T V f.
Proof.
  induction w as [|c w IH]; intros fuel pre post s T V f Hw; cbn [length Nat.add].
  - by rewrite Nat.add_0_r.
  - apply list.Forall_cons in Hw as [Hc Hw].
    rewrite (cap_plain _ _ _ _ _ _ _ c) by (done || (cbn [app]; by rewrite list_lookup_middle)).
    replace (pre ++ (c :: w) ++ post) with ((pre ++ [c]) ++ w ++ post) by (by rewrite <- app_assoc).
    replace (S (length pre)) with (length (pre ++ [c])) by (rewrite length_app; cbn; lia).
    rewrite IH by done. f_equal. rewrite length_app. cbn. lia.
Qed.

Lemma cap_equals fuel buf s e T V f :
  buf !! e = Some 61 -> e <> s ->
  cap_loop (S fuel) buf s e T V f = cap_loop fuel buf (S e) (S (S e)) (region buf s e) V f.
Proof.
  intros Hc He. cbn [cap_loop]. unfold rd8. rewrite Hc. cbn [from_option mbind res_bind].
  change (is_sep 61) with false. change (61 =? 0) with false. cbv beta iota. rewrite Hc.
  cbn [from_option mbind res_bind]. change (61 =? 61) with true. by rewrite (proj2 (Nat.eqb_neq e s)).
Qed.

Lemma cap_sep fuel buf s e T f c c' :
  buf !! e = Some c -> c = 32 \/ c = CR -> buf !! S e = Some c' -> s <> e -> T <> [] -> region buf s e <> [] ->
  cap_loop (S fuel) buf s e T [] f =
  cap_loop fuel buf (S e) (S (S e)) [] [] (Z.lor f (tspSetCapability T (region buf s e))).
Proof.
  intros Hc Hsep Hc' Hse HT HV. cbn [cap_loop]. unfold rd8. rewrite Hc. cbn [from_option mbind res_bind].
  assert (c <> 0) by (unfold CR in Hsep; lia). assert (is_sep c = true) as -> by (by destruct Hsep as [->| ->]).
  rewrite (proj2 (Z.eqb_neq c 0)), (proj2 (Nat.eqb_neq s e)) by done. cbn [negb].
  rewrite (bool_decide_eq_false_2 (T = [])), (bool_decide_eq_true_2 ([] = [])) by done. cbn [negb andb].
  rewrite bool_decide_eq_false_2 by done. cbn [negb]. rewrite Hc'. cbn [from_option mbind res_bind].
  rewrite Nat.eqb_refl. by rewrite andb_false_r.
Qed.

(** The items of a capability line, as the server writes them. *)
Definition cap_item : Type := list Z * list Z.

Definition item_ok (x : cap_item) : Prop :=
  Forall plain (fst x) /\ Forall plain (snd x) /\ fst x <> [] /\ snd x <> [].

Definition item_text (x : cap_item) (sep : Z) : list Z := fst x ++ [61] ++ snd x ++ [sep].

Fixpoint items_text (l : list cap_item) : list Z :=
  match l with
  | [] => []
  | [x] => item_text x CR
  | x :: l' => item_text x 32 ++ items_text l'
  end.

Definition item_bits (l : list cap_item) (f : Z) : Z :=
  foldl (fun f x => Z.lor f (tspSetCapability (fst x) (snd x))) f l.

Lemma length_item_text x sep : length (item_text x sep) = (length (fst x) + length (snd x) + 2)%nat.
Proof. unfold item_text. rewrite !length_app. cbn. lia. Qed.

(** Equality of concatenations. *)
Ltac app_eq := cbn [app fst snd]; do 3 (rewrite <- ?app_assoc; cbn [app fst snd]); reflexivity.

Lemma cap_one fuel pre x sep c' post f :
  item_ok x -> sep = 32 \/ sep = CR ->
  cap_loop (length (fst x) + length (snd x) + fuel) (pre ++ item_text x sep ++ c' :: post)
    (length pre) (S (length pre)) [] [] f =
  cap_loop fuel (pre ++ item_text x sep ++ c' :: post)
    (length (pre ++ item_text x sep)) (S (length (pre ++ item_text x sep))) [] []
    (Z.lor f (tspSetCapability (fst x) (snd x))).
Proof.
  destruct x as [[|t0 t] [|v0 v]]; intros (Ht & Hv & Hnt & Hnv) Hsep; try done. cbn [fst snd] in *.
  set (buf := pre ++ item_text (t0 :: t, v0 :: v) sep ++ c' :: post).
  apply list.Forall_cons in Ht as [_ Ht]. apply list.Forall_cons in Hv as [_ Hv]. cbn [length].
  assert (buf = (pre ++ [t0]) ++ t ++ (61 :: (v0 :: v) ++ [sep] ++ c' :: post)) as E1
    by (subst buf; unfold item_text; app_eq).
  assert (buf = ((pre ++ t0 :: t) ++ [61; v0]) ++ v ++ (sep :: c' :: post)) as E2
    by (subst buf; unfold item_text; app_eq).
  replace (S (length t) + S (length v) + fuel)%nat with (length t + S (length v + S fuel))%nat by lia.
  replace (S (length pre)) with (length (pre ++ [t0])) by (rewrite length_app; cbn; lia).
  rewrite E1, cap_skip, <- E1 by done.
  assert (buf !! (length (pre ++ [t0]) + length t)%nat = Some 61) as H61.
  { rewrite E1, app_assoc. apply list_lookup_middle. rewrite !length_app. cbn. lia. }
  rewrite cap_equals by (done || (rewrite length_app; cbn; lia)).
  assert (region buf (length pre) (length (pre ++ [t0]) + length t) = t0 :: t) as ->.
  { subst buf. unfold item_text. cbn [fst]. rewrite <- app_assoc. apply region_mid; [done|].
    rewrite length_app. cbn. lia. }
  replace (S (S (length (pre ++ [t0]) + length t))) with (length ((pre ++ t0 :: t) ++ [61; v0]))
    by (rewrite !length_app; cbn; lia).
  rewrite E2, cap_skip, <- E2 by done.
  assert (buf !! (length ((pre ++ t0 :: t) ++ [61%Z; v0]) + length v)%nat = Some sep) as Hs.
  { rewrite E2, app_assoc. apply list_lookup_middle. rewrite !length_app. cbn. lia. }
  assert (buf !! S (length ((pre ++ t0 :: t) ++ [61%Z; v0]) + length v)%nat = Some c') as Hs'.
  { rewrite E2, app_assoc, (cons_middle sep), app_assoc. apply list_lookup_middle. rewrite !length_app. cbn. lia. }
  assert (region buf (S (length (pre ++ [t0]) + length t)) (length ((pre ++ t0 :: t) ++ [61%Z; v0]) + length v) = v0 :: v)
    as Hreg.
  { assert (buf = (pre ++ (t0 :: t) ++ [61]) ++ (v0 :: v) ++ (sep :: c' :: post)) as ->
      by (subst buf; unfold item_text; app_eq).
    apply region_mid; rewrite !length_app; cbn; lia. }
  rewrite (cap_sep _ _ _ _ _ _ sep c') by (done || (rewrite Hreg; done) || (rewrite !length_app; cbn; lia)).
  rewrite Hreg. f_equal; subst buf; rewrite ?length_app, length_item_text; cbn; rewrite ?length_app; cbn; lia.
Qed.

Lemma cap_items l : forall fuel pre post f,
  l <> [] -> Forall item_ok l ->
  cap_loop (length (items_text l) + fuel) (pre ++ items_text l ++ LF :: 0 :: post) (length pre) (S (length pre)) [] [] f
  = Ok (item_bits l f).
Proof.
  induction l as [|x l IH]; intros fuel pre post f Hne Hl; [done|].
  apply list.Forall_cons in Hl as [Hx Hl]. destruct l as [|y l].
  - cbn [items_text item_bits foldl]. rewrite length_item_text.
    replace (length (fst x) + length (snd x) + 2 + fuel)%nat
      with (length (fst x) + length (snd x) + S (S fuel))%nat by lia.
    rewrite cap_one by (done || by right). cbn [cap_loop]. unfold rd8.
    assert ((pre ++ item_text x CR ++ LF :: 0 :: post) !! S (length (pre ++ item_text x CR)) = Some 0) as ->; [|done].
    rewrite app_assoc, (cons_middle LF), app_assoc. apply list_lookup_middle. rewrite !length_app. cbn. lia.
  - change (items_text (x :: y :: l)) with (item_text x 32 ++ items_text (y :: l)).
    rewrite length_app, length_item_text, <- app_assoc.
    destruct (items_text (y :: l)) as [|c' r] eqn:Ey.
    { exfalso. apply list.Forall_cons in Hl as [(_ & _ & Hy & _) _].
      destruct y as [[|] ?]; [by destruct Hy|]. by destruct l. }
    replace (length (fst x) + length (snd x) + 2 + length (c' :: r) + fuel)%nat
      with (length (fst x) + length (snd x) + (length (c' :: r) + (2 + fuel)))%nat by lia.
    cbn [app]. rewrite cap_one by (done || by left). cbn [app] in *.
    rewrite (app_assoc pre (item_text x 32)), IH by done. done.
Qed.

(** The capability line round-trips: whatever items a server lists, in any
    order and number, as [NAME=VALUE] separated by single spaces and ended by
    a line break, the parser stays within the reply and returns exactly the
    bits of the items it knows. *)
Theorem tspExtractCapability_roundtrip l :
  l <> [] -> Forall item_ok l -> (length (items_text l) + 13 <= 4096)%nat ->
  tspExtractCapability (received (str_CAPABILITY ++ items_text l ++ [LF])) = Ok (item_bits l 0).
Proof.
  intros Hne Hl Hlen. unfold tspExtractCapability, received, REDIRECT_RECEIVE_BUFFER_SIZE.
  set (z := (4096 - length (str_CAPABILITY ++ items_text l ++ [LF]))%nat).
  assert (exists k, z = S k) as [k Ek].
  { subst z. rewrite !length_app. exists (4096 - (11 + length (items_text l) + 1) - 1)%nat. cbn. lia. }
  rewrite Ek. cbn [repeat]. rewrite <- !app_assoc. cbn [app LF].
  match goal with |- cap_loop (S (length ?b)) _ _ _ _ _ _ = _ => set (buf := b) end.
  assert (exists c r, items_text l = c :: r /\ plain c) as (c & r & Ei & Hc).
  { destruct l as [|[t v] l]; [done|]. apply list.Forall_cons in Hl as [(Ht & _ & Hnt & _) _].
    destruct t as [|c t]; [done|]. apply list.Forall_cons in Ht as [Hc _]. exists c. destruct l; cbn; by eauto. }
  assert (length buf = 11 + length (items_text l) + 2 + k)%nat as Hb
    by (subst buf; rewrite !length_app; cbn; rewrite repeat_length; lia).
  rewrite Hb. rewrite (cap_plain _ _ _ _ _ _ _ c).
  - replace (11 + length (items_text l) + 2 + k)%nat with (length (items_text l) + (13 + k))%nat by lia.
    exact (cap_items l (13 + k) str_CAPABILITY (repeat 0 k) 0 Hne Hl).
  - subst buf. rewrite Ei. by apply list_lookup_middle.
  - done.
Qed.

(** ** The contract of the steps *)

Section contract.
Context (malloc_ok thread_ok join_ok : nat -> bool) (echo : tBroker -> Z).
Context (tspXMLParse : list Z -> res (option tTunnel)) (open_ok : bool) (write_ok : nat -> bool).

(** A handler that succeeds leaves a list that is not empty. *)
Lemma handle_ok_nonempty extract payload l file h l' file' h' :
  tspHandleRedirect malloc_ok thread_ok join_ok echo extract payload open_ok write_ok l file h
    = Ok ((TSP_REDIRECT_OK, l', file'), h') -> l' <> [].
Proof.
  unfold tspHandleRedirect, mbind, st_bind, lift. destruct (tspLogReceivedRedirection payload); [|done].
  destruct (extract payload) as [[t|]|]; [|done|done].
  pose proof (wp_create malloc_ok t l h) as Hc. unfold wp in Hc.
  destruct (tspCreateBrokerList malloc_ok t l h) as [[[[s l1] n] h1]|]; [|done].
  destruct Hc as (_ & Hok & _). case_bool_decide as Hs; cbn [negb]; [|done].
  destruct (Hok Hs) as (_ & -> & _). destruct (tspLogRedirectionList l1); [|done].
  destruct (Z.ltb_spec 1 (Z.of_nat (length l1))).
  - pose proof (wp_sort malloc_ok thread_ok join_ok echo l1 h1) as Hsort. unfold wp in Hsort.
    destruct (tspSortBrokerList _ _ _ _ _ _ h1) as [[[s2 l2] h2]|]; [|done].
    destruct Hsort as (_ & Hlen & _). cbn [fst snd]. case_bool_decide; cbn [negb]; [|done].
    destruct (tspLogRedirectionList l2); [|done]. destruct (tspWriteBrokerListToFile _ _ _ _).
    intros [= <- _ _]. intros ->. cbn in Hlen. lia.
  - destruct (Z.eqb_spec (Z.of_nat (length l1)) 0); [done|]. intros [= <- _ _]. intros ->. cbn in *. lia.
Qed.

(** What the connection loop relies on: a step that does not announce a
    redirection leaves the broker list alone, and a redirection comes with
    brokers. *)
Definition keeps_list (l : list tBroker) (st : status_code) (l' : list tBroker) : Prop :=
  (st <> EVNT_BROKER_REDIRECTION -> st <> ERR_BROKER_REDIRECTION -> l' = l) /\
  (st = EVNT_BROKER_REDIRECTION -> l' <> []).

Lemma handle_redirect_keeps payload l h st l' h' :
  handle_redirect malloc_ok thread_ok join_ok echo tspXMLParse open_ok write_ok payload l h = Ok ((st, l'), h') ->
  keeps_list l st l'.
Proof.
  unfold handle_redirect, mbind, st_bind.
  destruct (tspHandleRedirect _ _ _ _ _ _ _ _ _ _ h) as [[[[s l1] f1] h1]|] eqn:E; [|done].
  intros [= <- <- _]. case_bool_decide as Hs; [|by split].
  split; [done|]. intros _. subst s. by eapply handle_ok_nonempty.
Qed.

Lemma keeps_same l st : st <> EVNT_BROKER_REDIRECTION -> keeps_list l st l.
Proof. by split. Qed.

Lemma tspGetCapabilities_keeps reply l h st cap l' h' :
  tspGetCapabilities malloc_ok thread_ok join_ok echo tspXMLParse open_ok write_ok reply l h
    = Ok ((st, cap, l'), h') -> keeps_list l st l'.
Proof.
  unfold tspGetCapabilities. destruct reply as [data|]; [|intros [= <- _ <- _]; by apply keeps_same].
  destruct (mem_eqb _ _).
  - unfold mbind, st_bind, lift. destruct (tspExtractCapability _); [|done].
    intros [= <- _ <- _]. by apply keeps_same.
  - destruct (tspIsRedirectStatus _).
    + unfold mbind, st_bind. destruct (handle_redirect _ _ _ _ _ _ _ _ _ h) as [[[s1 l1] h1]|] eqn:E; [|done].
      intros [= <- _ <- _]. by eapply handle_redirect_keeps.
    + repeat case_match; intros [= <- _ <- _]; by apply keeps_same.
Qed.

Lemma AuthANONYMOUS_keeps b l h st l' h' :
  AuthANONYMOUS malloc_ok thread_ok join_ok echo tspXMLParse open_ok write_ok b l h = Ok ((st, l'), h') ->
  keeps_list l st l'.
Proof.
  unfold AuthANONYMOUS. destruct b as [b|]; [|intros [= <- <- _]; by apply keeps_same].
  destruct (tspIsRedirectStatus _); [by apply handle_redirect_keeps|].
  case_match; intros [= <- <- _]; by apply keeps_same.
Qed.

Lemma AuthPLAIN_keeps sent b l h st l' h' :
  AuthPLAIN malloc_ok thread_ok join_ok echo tspXMLParse open_ok write_ok sent b l h = Ok ((st, l'), h') ->
  keeps_list l st l'.
Proof.
  unfold AuthPLAIN. destruct sent; cbn [negb]; [|intros [= <- <- _]; by apply keeps_same].
  destruct b as [b|]; [|intros [= <- <- _]; by apply keeps_same].
  destruct (tspIsRedirectStatus _); [by apply handle_redirect_keeps|].
  repeat case_match; intros [= <- <- _]; by apply keeps_same.
Qed.

Lemma AuthPASSDSS_keeps exchange l h st l' h' :
  AuthPASSDSS_3DES_1 malloc_ok thread_ok join_ok echo tspXMLParse open_ok write_ok exchange l h = Ok ((st, l'), h') ->
  keeps_list l st l'.
Proof.
  unfold AuthPASSDSS_3DES_1. destruct exchange as [[]|b]; try (intros [= <- <- _]; by apply keeps_same).
  destruct (tspIsRedirectStatus _); [by apply handle_redirect_keeps|].
  repeat case_match; intros [= <- <- _]; by apply keeps_same.
Qed.

Lemma tspTunnelNegotiation_keeps v header plin pl reply chunks ack l h st l' h' :
  tspTunnelNegotiation malloc_ok thread_ok join_ok echo tspXMLParse open_ok write_ok v header plin pl reply chunks
    ack l h = Ok ((st, l'), h') ->
  keeps_list l st l'.
Proof.
  unfold tspTunnelNegotiation. destruct pl; cbn [negb]; [|intros [= <- <- _]; by apply keeps_same].
  unfold mbind, st_bind, lift. destruct (tspSendRecv _ _ _ _) as [[ret payload]|]; [|done].
  case_match; [intros [= <- <- _]; by apply keeps_same|].
  destruct (tspIsRedirectStatus _); [by apply handle_redirect_keeps|].
  case_match; [intros [= <- <- _]; by apply keeps_same|].
  destruct (tspExtractPayload _ _); [|done]. repeat case_match; intros [= <- <- _]; by apply keeps_same.
Qed.
End contract.

(** What the loop of [TspClient] is told of a step that ends with a status and
    leaves a broker list: the list, when the status says it was replaced. *)
Definition observed (st : status_code) (l' : list tBroker) : status_code * option (list tBroker) :=
  (st, if bool_decide (st = EVNT_BROKER_REDIRECTION \/ st = ERR_BROKER_REDIRECTION) then Some l' else None).

(** An answer [x] represents a step that started from the list [l]: it has
    the status of the step, applying it to [l] gives the list the step really
    left, it obeys the contract of the loop, and a redirection event comes
    with at least one broker. *)
Definition represents (l : list tBroker) (x : status_code * option (list tBroker))
    (st : status_code) (l' : list tBroker) : Prop :=
  fst x = st /\ default l (snd x) = l' /\ step_contract x /\ (st = EVNT_BROKER_REDIRECTION -> l' <> []).

Lemma observed_represents l st l' : keeps_list l st l' -> represents l (observed st l') st l'.
Proof.
  intros [Hk Hn]. unfold represents, observed, step_contract. cbn [fst snd]. case_bool_decide as E; cbn; [by auto|].
  split_and!; try done. symmetry. apply Hk; tauto.
Qed.

(** Credentials are sent in the clear only as the last resort: the plain
    dialogue is chosen only when the server offers it, and, for a client that
    accepts any method, only when the server offers neither digest nor
    PASSDSS.  The anonymous dialogue is never chosen unless it is asked for. *)
Theorem plain_is_the_last_resort m cap :
  (tspAuthenticate_choice m cap = Some Mech_PLAIN ->
     Z.testbit cap 5 = true /\
     (strcasecmp0 m str_any = true -> Z.testbit cap 6 = false /\ Z.testbit cap 7 = false)) /\
  (tspAuthenticate_choice m cap = Some Mech_ANONYMOUS -> strcasecmp0 m str_ANONYMOUS = true /\ Z.testbit cap 4 = true).
Proof.
  assert (forall x k, 0 <= k -> (Z.land x (2 ^ k) =? 0) = negb (Z.testbit x k)) as Hbit.
  { intros x k Hk. destruct (Z.testbit x k) eqn:Eb; cbn.
    - apply Z.eqb_neq. intros H. assert (Z.testbit (Z.land x (2 ^ k)) k = true) as H'.
      { by rewrite Z.land_spec, Eb, Z.pow2_bits_true by lia. }
      by rewrite H, Z.bits_0 in H'.
    - apply Z.eqb_eq. apply Z.bits_inj'. intros n Hn. rewrite Z.land_spec, Z.bits_0, Z.pow2_bits_eqb by lia.
      destruct (Z.eqb_spec k n) as [<-|]; [by rewrite Eb|by rewrite andb_false_r]. }
  unfold tspAuthenticate_choice. change AUTH_PASSDSS_3DES_1 with (2 ^ 7). change AUTH_DIGEST_MD5 with (2 ^ 6).
  change AUTH_PLAIN with (2 ^ 5). change AUTH_ANONYMOUS with (2 ^ 4).
  rewrite !Hbit, !negb_involutive, !Z.land_spec by lia.
  destruct (strcasecmp0 m str_ANONYMOUS); cbn [negb].
  - split; [by case_match|]. case_match eqn:E; [|done]. intros _. by apply andb_true_iff in E as [_ ?].
  - destruct (_ && Z.testbit cap 7) eqn:E7; [done|]. destruct (_ && Z.testbit cap 6) eqn:E6; [done|].
    destruct (_ && Z.testbit cap 5) eqn:E5; [|done]. split; [|done]. intros _. apply andb_true_iff in E5 as [_ ->]. split; [done|].
    intros Hany. rewrite Hany in E6, E7. change (Z.testbit AUTH_ANY 6) with true in E6.
    change (Z.testbit AUTH_ANY 7) with true in E7. done.
Qed.

(** ** Framed messages *)

Definition digit (c : Z) : Prop := is_digit c = true.

Lemma digits_app d c rest acc : Forall digit d -> is_digit c = false -> digits acc (d ++ c :: rest) = digits acc d.
Proof.
  intros Hd Hc. revert acc. induction Hd as [|x d Hx _ IH]; intros acc; cbn; [by rewrite Hc|].
  unfold digit in Hx. by rewrite Hx.
Qed.

Lemma digits_mono d acc : 0 <= acc -> Forall digit d -> acc <= digits acc d.
Proof.
  intros Ha Hd. revert acc Ha. induction Hd as [|x d Hx _ IH]; intros acc Ha; cbn; [lia|].
  unfold digit in Hx. rewrite Hx. unfold is_digit in Hx. apply andb_true_iff in Hx as [H1 H2].
  apply Z.leb_le in H1, H2. specialize (IH (acc * 10 + (x - 48)) ltac:(lia)). lia.
Qed.

Lemma atol_number d rest :
  d <> [] -> Forall digit d -> digits 0 d < 2 ^ 63 -> atol (32 :: d ++ CR :: rest) = digits 0 d.
Proof.
  intros Hne Hd Hlt. unfold atol. cbn [skip_spaces is_space orb Z.eqb Pos.eqb].
  destruct d as [|c d]; [done|]. pose proof Hd as Hd'. apply list.Forall_cons in Hd' as [Hc _].
  unfold digit, is_digit in Hc. apply andb_true_iff in Hc as [H1 H2]. apply Z.leb_le in H1, H2.
  assert (skip_spaces ((c :: d) ++ CR :: rest) = (c :: d) ++ CR :: rest) as ->.
  { cbn [app skip_spaces]. unfold is_space. rewrite (proj2 (Z.eqb_neq c 32)) by lia.
    rewrite (proj2 (Z.leb_gt c 13)) by lia. by rewrite andb_false_r. }
  pose proof (digits_mono (c :: d) 0 ltac:(lia) Hd). cbn [app].
  replace (match c with 45 => _ | 43 => _ | _ => _ end) with
    (Z.max (- 2 ^ 63) (Z.min (2 ^ 63 - 1) (digits 0 (c :: d ++ CR :: rest)))).
  - change (c :: d ++ CR :: rest) with ((c :: d) ++ CR :: rest). rewrite digits_app by done. lia.
  - destruct c as [|c|c]; [done| |lia]. do 6 (destruct c as [c|c|]; try done; try lia).
Qed.

Lemma strchr_first c pre rest :
  Forall (fun x => x <> c /\ x <> 0) pre -> strchr c (pre ++ c :: rest) = Some (length pre).
Proof.
  induction 1 as [|x pre [Hx H0] _ IH]; cbn; [by rewrite Z.eqb_refl|].
  rewrite (proj2 (Z.eqb_neq x c)), (proj2 (Z.eqb_neq x 0)) by done. by rewrite IH.
Qed.

Lemma c_str_app_zero s k : cstring s -> c_str (s ++ repeat 0 k) = s.
Proof.
  intros Hs. induction Hs as [|c s Hc _ IH]; cbn; [by destruct k|]. unfold char_ok in Hc.
  rewrite (proj2 (Z.eqb_neq c 0)) by lia. by rewrite IH.
Qed.

Definition cl_header (d : list Z) : list Z := str_CL ++ [32] ++ d ++ [CR; LF].

Lemma length_cl_header d : length (cl_header d) = (18 + length d)%nat.
Proof. unfold cl_header. rewrite !length_app. cbn. lia. Qed.

Lemma recv_rest_all chunks : forall pre got k,
  Forall (fun ch => ch <> []) chunks -> (length (mjoin chunks) <= k)%nat ->
  recv_rest chunks (pre ++ got ++ repeat 0 k) (length pre) (length got) (length (mjoin chunks)) =
  Ok (inr (pre ++ (got ++ mjoin chunks) ++ repeat 0 (k - length (mjoin chunks)),
           (length got + length (mjoin chunks))%nat)).
Proof.
  induction chunks as [|ch chunks IH]; intros pre got k Hne Hk.
  - cbn. by rewrite app_nil_r, Nat.sub_0_r, Nat.add_0_r.
  - apply list.Forall_cons in Hne as [Hch Hne]. rewrite join_cons, length_app in *.
    destruct ch as [|c ch]; [done|]. cbn [recv_rest]. set (w := c :: ch) in *.
    destruct (length w + length (mjoin chunks))%nat as [|n] eqn:En; [subst w; cbn in En; lia|]. rewrite <- En in *.
    rewrite (take_ge w) by lia. unfold guard_or. rewrite !length_app, repeat_length.
    rewrite (proj2 (Nat.leb_le _ _)) by lia. cbn [mbind res_bind].
    assert (blit (length pre + length got) w (pre ++ got ++ repeat 0 k) = pre ++ (got ++ w) ++ repeat 0 (k - length w)) as ->.
    { unfold blit. rewrite (app_assoc pre got), take_app_exact by (by rewrite length_app).
      rewrite drop_app_ge by (rewrite length_app; lia).
      replace (length pre + length got + length w - length (pre ++ got))%nat with (length w) by (rewrite length_app; lia).
      rewrite <- !app_assoc. do 3 f_equal. clear - Hk. revert k Hk. generalize (length w) as a. induction a as [|a IH]; intros k Hk.
      - by rewrite Nat.sub_0_r.
      - destruct k as [|k]; [lia|]. cbn. apply IH. lia. }
    replace (length w + length (mjoin chunks) - length w)%nat with (length (mjoin chunks)) by lia.
    replace (length got + length w)%nat with (length (got ++ w)) by (by rewrite length_app).
    rewrite IH by (done || lia). rewrite <- !app_assoc, length_app, <- Nat.add_assoc.
    by replace (k - length w - length (mjoin chunks))%nat with (k - (length w + length (mjoin chunks)))%nat by lia.
Qed.

Section framed.
Context (d body1 : list Z) (chunks : list (list Z)).
Context (Hd : Forall digit d) (Hd0 : d <> []) (Hb1 : cstring body1).

Lemma header_chars : Forall (fun x => x <> LF /\ x <> 0) (str_CL ++ [32] ++ d ++ [CR]).
Proof.
  rewrite !Forall_app. split_and!; [by repeat constructor|by repeat constructor| |by repeat constructor].
  apply (list.Forall_impl digit); [exact Hd|]. intros x Hx. unfold digit, is_digit in Hx. apply andb_true_iff in Hx as [H1 H2].
  apply Z.leb_le in H1, H2. unfold LF. lia.
Qed.

Context (Hfit : (length (cl_header d) + length body1 <= 4095)%nat) (Hlt : digits 0 d < 2 ^ 63).

(** The reply up to the loop that reads its rest. *)
Lemma tspSendRecv_run header plin :
  (length header + length plin + 1 <= PROTOCOLFRAMESIZE)%nat ->
  tspSendRecv header plin (Some (cl_header d ++ body1)) chunks =
  (let payload := received (cl_header d ++ body1) in
   if (digits 0 d <=? 0) || (digits 0 d <? Z.of_nat (length body1)) then Ok (-1, payload) else
   r ← recv_rest chunks payload (length (cl_header d)) (length body1) (Z.to_nat (digits 0 d) - length body1);
   match r with
   | inl buf => Ok (PROTOCOL_ERROR, buf)
   | inr (buf, size) =>
     Ok (Z.of_nat (length (cl_header d ++ body1)), take size (drop (length (cl_header d)) buf))
   end).
Proof.
  intros Hh. unfold tspSendRecv, guard_or. rewrite (proj2 (Nat.leb_le _ _)) by done. cbn [mbind res_bind].
  assert (18 <= length (cl_header d))%nat by (rewrite length_cl_header; lia).
  rewrite take_ge by (rewrite length_app; unfold REDIRECT_RECEIVE_BUFFER_SIZE; lia).
  rewrite (proj2 (Z.leb_gt _ 0)) by (rewrite length_app; lia).
  set (z := (REDIRECT_RECEIVE_BUFFER_SIZE - length (cl_header d ++ body1))%nat).
  assert (received (cl_header d ++ body1) =
    (str_CL ++ [32] ++ d ++ [CR]) ++ LF :: body1 ++ repeat 0 z) as E1.
  { unfold received. fold z. unfold cl_header. clearbody z. app_eq. }
  assert (take 15 (received (cl_header d ++ body1)) = str_CL) as ->.
  { rewrite E1, <- app_assoc. by apply take_app_exact. }
  rewrite mem_eqb_refl. cbn [negb]. rewrite E1 at 1. rewrite strchr_first by apply header_chars.
  assert (S (length (str_CL ++ [32%Z] ++ d ++ [CR])) = length (cl_header d)) as Enl
    by (unfold cl_header; rewrite !length_app; cbn; lia).
  rewrite Enl. unfold strlen_at.
  assert (drop (length (cl_header d)) (received (cl_header d ++ body1)) = body1 ++ repeat 0 z) as ->.
  { unfold received. fold z. rewrite <- app_assoc. by apply drop_app_exact. }
  rewrite c_str_app_zero by done.
  assert (length (received (cl_header d ++ body1)) = 4096%nat) as Hlen.
  { unfold received. rewrite length_app, repeat_length, length_app. unfold REDIRECT_RECEIVE_BUFFER_SIZE. lia. }
  unfold guard_or. rewrite Hlen, (proj2 (Nat.ltb_lt _ _)) by lia. cbn [mbind res_bind].
  assert (drop 15 (received (cl_header d ++ body1)) = 32 :: d ++ CR :: (LF :: body1 ++ repeat 0 z)) as ->.
  { rewrite E1, <- app_assoc. rewrite drop_app_exact by done. app_eq. }
  rewrite atol_number by done. pose proof (digits_mono d 0 ltac:(lia) Hd).
  rewrite (Z.mod_small (digits 0 d)) by lia. done.
Qed.
End framed.

(** Replies are reassembled: a reply that announces its length and whose
    body arrives in any number of pieces is returned whole, when it fits the
    buffer. *)
Theorem tspSendRecv_reassembles header plin d body1 chunks :
  Forall digit d -> d <> [] -> cstring body1 -> Forall (fun ch => ch <> []) chunks ->
  digits 0 d = Z.of_nat (length (body1 ++ mjoin chunks)) -> (0 < length (body1 ++ mjoin chunks))%nat ->
  (length header + length plin + 1 <= PROTOCOLFRAMESIZE)%nat ->
  (length (cl_header d) + length body1 <= 4095)%nat ->
  (length (cl_header d) + length (body1 ++ mjoin chunks) <= 4096)%nat ->
  tspSendRecv header plin (Some (cl_header d ++ body1)) chunks =
  Ok (Z.of_nat (length (cl_header d ++ body1)), body1 ++ mjoin chunks).
Proof.
  intros Hd Hd0 Hb1 Hch HN Hpos Hh Hfit Hall. rewrite length_app in *.
  rewrite tspSendRecv_run by (done || lia). rewrite HN.
  rewrite (proj2 (Z.leb_gt _ 0)), (proj2 (Z.ltb_ge _ _)) by lia. cbn [orb].
  replace (Z.to_nat (Z.of_nat (length body1 + length (mjoin chunks))) - length body1)%nat
    with (length (mjoin chunks)) by lia.
  unfold received. rewrite <- app_assoc, recv_rest_all.
  - cbn [mbind res_bind]. rewrite drop_app_exact by done.
    rewrite take_app_exact by (by rewrite length_app). by rewrite ?length_app.
  - done.
  - rewrite length_app. unfold REDIRECT_RECEIVE_BUFFER_SIZE. lia.
Qed.

(** A connection that is lost in the middle of a reply is not reported as
    such: the error value is positive, the negotiation takes the header of
    the reply for its text and ends with a generic error, on which the client
    gives up instead of reconnecting. *)
Theorem lost_reply_is_a_generic_error malloc_ok thread_ok join_ok echo xml open_ok write_ok
    header plin d body1 ack v l h :
  Forall digit d -> d <> [] -> cstring body1 -> digits 0 d < 2 ^ 63 ->
  Z.of_nat (length body1) < digits 0 d ->
  (length header + length plin + 1 <= PROTOCOLFRAMESIZE)%nat ->
  (length (cl_header d) + length body1 <= 4095)%nat ->
  tspTunnelNegotiation malloc_ok thread_ok join_ok echo xml open_ok write_ok v header plin true
    (Some (cl_header d ++ body1)) [] ack l h = Ok ((ERR_TSP_GENERIC_ERROR, l), h).
Proof.
  intros Hd Hd0 Hb1 Hlt Hshort Hh Hfit. unfold tspTunnelNegotiation. cbn [negb].
  unfold mbind, st_bind, lift. rewrite tspSendRecv_run by done.
  rewrite (proj2 (Z.leb_gt _ 0)), (proj2 (Z.ltb_ge _ _)) by lia. cbn [orb].
  destruct (Z.to_nat (digits 0 d) - length body1)%nat as [|n] eqn:En; [lia|]. done.
Qed.

(** The announced length is not compared with the buffer: a server that
    announces and sends more than fits overruns the heap. *)
Theorem long_reply_overruns_buffer :
  exists d chunks, Forall digit d /\
    tspSendRecv [] [] (Some (cl_header d)) chunks = Err OutOfBounds.
Proof.
  exists [57; 48; 48; 48], [repeat 65 9000]. split; [by repeat constructor|]. vm_compute. reflexivity.
Qed.

(** ** Witnesses *)

Definition items0 : list cap_item := [(str_TUNNEL, str_V6V4); (str_AUTH, str_DIGEST); (str_AUTH, [88])].

Lemma items0_ok : Forall item_ok items0.
Proof. repeat apply list.Forall_cons_2; try apply list.Forall_nil_2; (split_and!; [by repeat constructor..|done|done]). Qed.

Lemma items0_short : (length (items_text items0) + 13 <= 4096)%nat.
Proof. vm_compute. lia. Qed.

Lemma tspExtractCapability_roundtrip_witness :
  tspExtractCapability (received (str_CAPABILITY ++ items_text items0 ++ [LF])) = Ok (item_bits items0 0) /\
  item_bits items0 0 = Z.lor TUNNEL_V6V4 AUTH_DIGEST_MD5.
Proof.
  split; [|vm_compute; reflexivity].
  exact (tspExtractCapability_roundtrip items0 (fun H => eq_ind items0 (fun l => match l with [] => False | _ => True end)
    I [] H) items0_ok items0_short).
Defined.

Lemma tspSendRecv_reassembles_witness :
  tspSendRecv [] [] (Some (cl_header [51] ++ [65])) [[66]; [67]] =
  Ok (Z.of_nat (length (cl_header [51] ++ [65])), [65; 66; 67]).
Proof.
  apply (tspSendRecv_reassembles [] [] [51] [65] [[66]; [67]]);
    [by repeat constructor|done|by repeat constructor|by repeat constructor|reflexivity|..];
    apply Nat.leb_le; vm_compute; reflexivity.
Defined.

Lemma lost_reply_is_a_generic_error_witness :
  tspTunnelNegotiation (fun _ => true) (fun _ => true) (fun _ => true) (fun _ => 0) (fun _ => Ok None) true (fun _ => true)
    0 [] [] true (Some (cl_header [57] ++ [65])) [] true [broker_a] (mk_heap 0 0)
  = Ok ((ERR_TSP_GENERIC_ERROR, [broker_a]), mk_heap 0 0).
Proof.
  apply (lost_reply_is_a_generic_error (fun _ => true) (fun _ => true) (fun _ => true) (fun _ => 0) (fun _ => Ok None)
    true (fun _ => true) [] [] [57] [65] true 0 [broker_a] (mk_heap 0 0));
    [by repeat constructor|done|by repeat constructor|reflexivity|reflexivity|..];
    apply Nat.leb_le; vm_compute; reflexivity.
Defined.
