(* ===== verification/TspDigest.v ===== *)
(** * The digest dialogue of the TSP client ([tsp_auth.c])

[AuthDIGEST_MD5] answers the challenge of a server as RFC 2831 says and checks
what the server answers.  The replies are arguments, and so are the time that
serves as client nonce, the allocations that succeed and what fresh memory
holds. *)

From Stdlib Require Import ZifyNat.
From stdpp Require Import base list numbers strings.
From S2P Require Import Prelude Words CString Md5 TspMd5 Base64 Redirect TspClient TspSession.

(** ** Challenges *)

Record tChallenge := mk_tChallenge {
  realm : option (list Z);
  nonce : option (list Z);
  qop : option (list Z);
  algorithm : option (list Z);
  charset : option (list Z);
  rspauth : option (list Z);
}.

Definition no_challenge : tChallenge := mk_tChallenge None None None None None None.

Definition is_end (c : Z) : bool := (c =? 44) || (c =? CR) || (c =? LF) || (c =? 0).

(** The text between two offsets, without its quotes; [s[len - 1]] is the byte
    before [e]. *)
Definition chop_quotes (buf : list Z) (s e : nat) : res (list Z) :=
  let len := (e - s)%nat in
  first ← rd8 s buf;
  let '(s, len) := if (first =? 34) && negb (len =? 0)%nat then (S s, (len - 1)%nat) else (s, len) in
  last ← rd8 (e - 1) buf;
  let len := if (last =? 34) && negb (len =? 0)%nat then (len - 1)%nat else len in
  Ok (take len (drop s buf)).

(** Stores a text and its terminator in a block of [size] bytes. *)
Definition store_text (size : nat) (s : list Z) : res (list Z) :=
  guard_or OutOfBounds (length s <? size)%nat;; Ok (c_str s).

Definition non_null {A} (p : option A) : res A := from_option NullDeref p.

(** [Buffer], [userid] and the [Data] of [NetTCPPrintf]. *)
Definition RESPONSE_BUFFER_SIZE : nat := 4096.
Definition USERID_SIZE : nat := 512.
Definition PRINTF_BUFFER_SIZE : nat := 1024.

(** The formats of the response. *)
Definition A1_1Fmt : list Z := str "%s:%s:%s".
Definition A1Fmt : list Z := str ":%s:%lu".
Definition ChallRespFmt : list Z := str "%s:%s:00000001:%lu:%s:%s".
Definition A2Fmt : list Z := str "%s:tsp/%s".
Definition quote : list Z := [34].

(** [charset=%s,username="%s",realm="%s",nonce="%s",nc=00000001,cnonce="%lu",
    digest-uri="tsp/%s",response=%s,qop=auth] *)
Definition ResponseFmt : list Z :=
  str "charset=%s,username=" ++ quote ++ str "%s" ++ quote ++ str ",realm=" ++ quote ++ str "%s" ++ quote ++
  str ",nonce=" ++ quote ++ str "%s" ++ quote ++ str ",nc=00000001,cnonce=" ++ quote ++ str "%lu" ++ quote ++
  str ",digest-uri=" ++ quote ++ str "tsp/%s" ++ quote ++ str ",response=%s,qop=auth".

Definition print_A1_1 (user realm passwd : list Z) : list Z := user ++ str ":" ++ realm ++ str ":" ++ passwd.
Definition print_A1 (nonce cnonce : list Z) : list Z := str ":" ++ nonce ++ str ":" ++ cnonce.
Definition print_A2 (verb server : list Z) : list Z := verb ++ str ":tsp/" ++ server.
Definition print_ChallResp (a1 nonce cnonce qop a2 : list Z) : list Z :=
  a1 ++ str ":" ++ nonce ++ str ":00000001:" ++ cnonce ++ str ":" ++ qop ++ str ":" ++ a2.
Definition print_Response (charset user realm nonce cnonce server response : list Z) : list Z :=
  str "charset=" ++ charset ++ str ",username=" ++ quote ++ user ++ quote ++ str ",realm=" ++ quote ++ realm ++ quote ++
  str ",nonce=" ++ quote ++ nonce ++ quote ++ str ",nc=00000001,cnonce=" ++ quote ++ cnonce ++ quote ++
  str ",digest-uri=" ++ quote ++ str "tsp/" ++ server ++ quote ++ str ",response=" ++ response ++ str ",qop=auth".

(** [snprintf]: what fits before the terminator. *)
Definition pal_snprintf (len : nat) (s : list Z) : list Z := take (len - 1) s.

(** [md5], with the stack memory of its context. *)
Definition md5 (g s : list Z) : res (list Z) := d ← md5digest g s; Ok (mjoin (hex_byte <$> d)).

Definition TSPProtoVerStr : list (list Z) := [str "2.0.2"; str "2.0.1"; str "2.0.0"; str "1.0.1"].

(** [strcmp (a, b) > 0] *)
Fixpoint strcmp_gt (a b : list Z) : bool :=
  match a, b with
  | [], _ => false
  | _ :: _, [] => true
  | x :: a', y :: b' => if x =? y then strcmp_gt a' b' else y <? x
  end.

(** The characters of the user name, with a backslash before the ones that would
    end it, in [userid[512]]. *)
Fixpoint escape (i : nat) (s : list Z) : res (list Z) :=
  match s with
  | [] => guard_or OutOfBounds (i <? USERID_SIZE)%nat;; Ok []
  | c :: s' =>
    if (i <? USERID_SIZE)%nat then
      if (c =? 34) || (c =? 92) then
        guard_or OutOfBounds (S i <? USERID_SIZE)%nat;; r ← escape (S (S i)) s'; Ok (92 :: c :: r)
      else r ← escape (S i) s'; Ok (c :: r)
    else Err OutOfBounds
  end.

(** [memcmp (p, q, n)] of a string in a block of its size, and a longer one. *)
Definition differs (n : nat) (p q : list Z) : res bool :=
  guard_or OutOfBounds (n <=? length p + 1)%nat;;
  Ok (negb (mem_eqb (take n (p ++ [0])) (take n q))).

Lemma differs_inv n p q : differs n p q = Ok false -> length q = n -> take n (p ++ [0]) = q.
Proof.
  unfold differs, guard_or. case_match; [|done]. intros [= E] Hq. apply negb_false_iff, mem_eqb_true in E. by rewrite E, take_ge by lia.
Qed.

Section digest.
Context (malloc_ok thread_ok join_ok : nat -> bool) (echo : tBroker -> Z).
Context (tspXMLParse : list Z -> res (option tTunnel)) (open_ok : bool) (write_ok : nat -> bool).
(** What a fresh block holds, and the stack memory of the [k]-th digest. *)
Context (garbage : nat -> Z) (stack : nat -> list Z).
(** The configuration. *)
Context (userid passwd server : list Z).

Definition pal_strdup (s : list Z) : st heap (option (list Z)) :=
  ok ← pal_malloc malloc_ok; mret (if ok : bool then Some s else None).

Definition InsertInChallegeStruct (c : tChallenge) (Token Value : list Z) : st heap tChallenge :=
  let '(mk_tChallenge r n q a ch rsp) := c in
  if strcmp0 Token (str "realm") then v ← pal_strdup Value; mret (mk_tChallenge v n q a ch rsp)
  else if strcmp0 Token (str "nonce") then v ← pal_strdup Value; mret (mk_tChallenge r v q a ch rsp)
  else if strcmp0 Token (str "qop") then v ← pal_strdup Value; mret (mk_tChallenge r n v a ch rsp)
  else if strcmp0 Token (str "algorithm") then v ← pal_strdup Value; mret (mk_tChallenge r n q v ch rsp)
  else if strcmp0 Token (str "charset") then v ← pal_strdup Value; mret (mk_tChallenge r n q a v rsp)
  else if strcmp0 Token (str "rspauth") then v ← pal_strdup Value; mret (mk_tChallenge r n q a ch v)
  else mret c.

(** The [for] loop of [ExtractChallenge], like the one that reads capabilities:
    [s] and [e] are offsets, [size] is the size of the blocks for the two texts. *)
Fixpoint challenge_loop (fuel size : nat) (buf : list Z) (s e : nat) (Token Value : list Z) (c : tChallenge) : st heap tChallenge :=
  match fuel with
  | O => lift (Err OutOfFuel)
  | S fuel' =>
    x ← lift (rd8 e buf);
    r ←
      (if is_end x && negb (s =? e)%nat then
         Value ← (if negb (bool_decide (Token = [])) && bool_decide (Value = [])
                  then lift (v ← chop_quotes buf s e; store_text size v) else mret Value);
         if negb (bool_decide (Token = [])) && negb (bool_decide (Value = []))
         then c ← InsertInChallegeStruct c Token Value; mret ([], [], c)
         else mret (Token, Value, c)
       else mret (Token, Value, c));
    let '(Token, Value, c) := r in
    if x =? 0 then mret c else
    let '(s, e) := if is_end x then (S e, S e) else (s, e) in
    x ← lift (rd8 e buf);
    if ((x =? 61) || is_end x) && bool_decide (Token = []) && negb (e =? s)%nat then
      Token ← lift (store_text size (region buf s e));
      if x =? 0 then mret c else challenge_loop fuel' size buf (S e) (S (S e)) Token Value c
    else challenge_loop fuel' size buf s (S e) Token Value c
  end.

Definition ExtractChallenge (buf : list Z) : st heap tChallenge :=
  n ← lift (strlen_at 0 buf);
  t ← pal_malloc malloc_ok;
  v ← pal_malloc malloc_ok;
  if negb (t && v) then lift (Err NullDeref) else
  c ← challenge_loop (S (length buf)) (S n) buf 0 0 [] [] no_challenge;
  _ ← pal_free; _ ← pal_free; mret c.

(** ** The response *)

(** [HEX (H (A1))]; versions up to 2.0.0 stop at a zero byte of the first
    digest. *)
Definition hash_A1 (version_index : Z) (g : list Z) (digest rest : list Z) : res (list Z) :=
  version ← from_option OutOfBounds (TSPProtoVerStr !! Z.to_nat version_index);
  if (length (c_str digest) <? 16)%nat && negb ((5 <? length version)%nat || strcmp_gt version (str "2.0.0"))
  then md5 g (c_str digest)
  else md5 g (digest ++ rest).

(** A block of [len] bytes for the continuation, or [None]. *)
Definition with_block {A} (k : st heap (option A)) : st heap (option A) :=
  ok ← pal_malloc malloc_ok; if negb ok then mret None else k.

(** The text that is left in [Buffer], and [cResponse]; [None] when there is no
    memory. *)
Definition build_response (version_index cnonce : Z) (c : tChallenge) : st heap (option (list Z * list Z)) :=
  let cn := decimal_digits 20 (wrap 64 cnonce) in
  with_block (
    let len := (length A2Fmt + 12 + length server + 1)%nat in
    A2 ← lift (md5 (stack 0) (pal_snprintf len (print_A2 (str "AUTHENTICATE") server)));
    cA2 ← lift (md5 (stack 1) (pal_snprintf len (print_A2 [] server)));
    _ ← pal_free;
    realm ← lift (non_null (realm c));
    with_block (
      let len := (length A1_1Fmt + length userid + length realm + length passwd + 1)%nat in
      A1_1 ← lift (md5digest (stack 2) (pal_snprintf len (print_A1_1 userid realm passwd)));
      _ ← pal_free;
      nonce ← lift (non_null (nonce c));
      with_block (
        let len := (16 + 1 + length nonce + 16 + 1)%nat in
        A1 ← lift (hash_A1 version_index (stack 3) A1_1 (pal_snprintf (len - 16) (print_A1 nonce cn)));
        _ ← pal_free;
        qop ← lift (non_null (qop c));
        with_block (
          let len := (length ChallRespFmt + 32 + length nonce + 16 + length qop + 32 + 1)%nat in
          Response ← lift (md5 (stack 4) (pal_snprintf len (print_ChallResp A1 nonce cn qop A2)));
          cResponse ← lift (md5 (stack 5) (pal_snprintf len (print_ChallResp A1 nonce cn qop cA2)));
          _ ← pal_free;
          user ← lift (escape 0 userid);
          charset ← lift (non_null (charset c));
          with_block (
            let len := (length ResponseFmt + length charset + length user + length realm + length nonce + 16 + length server + 32)%nat in
            Buffer ← lift (base64encode RESPONSE_BUFFER_SIZE (pal_snprintf len (print_Response charset user realm nonce cn server Response)));
            _ ← pal_free;
            mret (Some (Buffer, cResponse))))))).

(** ** The dialogue *)

(** What is done with each of the first two replies: a redirection and a refusal
    end the dialogue ([inl]). *)
Definition read_challenge (BufferIn : list Z) (l : list tBroker) : st heap (status_code * list tBroker + tChallenge) :=
  let tsp_status := tspGetStatusCode BufferIn in
  if tspIsRedirectStatus tsp_status then
    r ← handle_redirect malloc_ok thread_ok join_ok echo tspXMLParse open_ok write_ok (c_str BufferIn) l; mret (inl r)
  else if tsp_status =? TSP_PROTOCOL_AUTH_FAILED then mret (inl (ERR_AUTHENTICATION_FAILURE, l)) else
  n ← lift (strlen_at 0 BufferIn);
  ok ← pal_malloc malloc_ok;
  if negb ok then mret (inl (ERR_MEMORY_STARVATION, l)) else
  text ← lift (base64decode (S n) BufferIn);
  c ← ExtractChallenge (take (S n) (text ++ 0 :: (garbage <$> seq 0 n)));
  _ ← pal_free;
  mret (inr c).

(** [NetTCPPrintf] formats into 1024 bytes. *)
Definition printed_line (Buffer : list Z) : list Z := take (PRINTF_BUFFER_SIZE - 1) (Buffer ++ [CR; LF]).

(** A reply is [None] when the socket fails; when the response cannot be written
    [netprintf] returns 0 and leaves its buffer as it is.  The last component of
    the result is the line that is sent. *)
Definition AuthDIGEST_MD5 (version_index cnonce : Z) (reply1 : option (list Z)) (written : bool)
    (reply2 reply3 : option (list Z)) (l : list tBroker) : st heap (status_code * list tBroker * option (list Z)) :=
  match reply1 with
  | None => mret (ERR_SOCKET_IO, l, None)
  | Some data =>
    x ← read_challenge (received (take REDIRECT_RECEIVE_BUFFER_SIZE data)) l;
    match x with
    | inl r => mret (r, None)
    | inr c =>
      b ← build_response version_index cnonce c;
      match b with
      | None => mret (ERR_MEMORY_STARVATION, l, None)
      | Some (Buffer, cResponse) =>
        let line := Some (printed_line Buffer) in
        match (if written then reply2 else Some []) with
        | None => mret (ERR_SOCKET_IO, l, line)
        | Some data =>
          x ← read_challenge (received (take REDIRECT_RECEIVE_BUFFER_SIZE data)) l;
          match x with
          | inl r => mret (r, line)
          | inr c =>
            rsp ← lift (non_null (rspauth c));
            d ← lift (differs 32 rsp cResponse);
            if d : bool then mret (ERR_AUTHENTICATION_FAILURE, l, line) else
            match reply3 with
            | None => mret (ERR_SOCKET_IO, l, line)
            | Some data =>
              let Buffer := blit 0 (take RESPONSE_BUFFER_SIZE data) (Buffer ++ repeat 0 (RESPONSE_BUFFER_SIZE - length Buffer)) in
              let tsp_status := tspGetStatusCode Buffer in
              if tspIsRedirectStatus tsp_status then
                r ← handle_redirect malloc_ok thread_ok join_ok echo tspXMLParse open_ok write_ok (c_str Buffer) l; mret (r, line)
              else if tsp_status =? TSP_PROTOCOL_SUCCESS then mret (SUCCESS, l, line)
              else if tsp_status =? TSP_PROTOCOL_AUTH_FAILED then mret (ERR_AUTHENTICATION_FAILURE, l, line)
              else mret (ERR_TSP_GENERIC_ERROR, l, line)
            end
          end
        end
      end
    end
  end.
End digest.

(** ** RFC 2831 *)

(** [HEX (H (s))] *)
Definition HEX (s : list Z) : list Z := mjoin (hex_byte <$> md5_spec s).

(** The last step of RFC 2831, from [A1]. *)
Definition rfc2831_with (A1 verb nonce cnonce qop server : list Z) : list Z :=
  let A2 := verb ++ str ":tsp/" ++ server in
  HEX (HEX A1 ++ str ":" ++ nonce ++ str ":00000001:" ++ cnonce ++ str ":" ++ qop ++ str ":" ++ HEX A2).

Definition first_digest (user realm passwd : list Z) : list Z := md5_spec (user ++ str ":" ++ realm ++ str ":" ++ passwd).
Definition rfc_A1 (user realm passwd nonce cnonce : list Z) : list Z :=
  first_digest user realm passwd ++ str ":" ++ nonce ++ str ":" ++ cnonce.

(** The response of the RFC, for the verb [AUTHENTICATE], and what the server must
    prove to know, for the empty verb; there is no authorization identity. *)
Definition rfc2831 (verb user realm passwd nonce cnonce qop server : list Z) : list Z :=
  rfc2831_with (rfc_A1 user realm passwd nonce cnonce) verb nonce cnonce qop server.

(** What the two sides agree on: the value of the RFC, except that the versions
    2.0.0 and 1.0.1 of the protocol cut [A1] at a zero byte of its first digest. *)
Definition cut_A1 (v : Z) (d : list Z) : bool := (CLIENT_VERSION_INDEX_2_0_0 <=? v) && bool_decide (0 ∈ d).
Definition tsp_A1 (v : Z) (user realm passwd nonce cnonce : list Z) : list Z :=
  let d := first_digest user realm passwd in if cut_A1 v d then c_str d else rfc_A1 user realm passwd nonce cnonce.
Definition tsp_digest (v : Z) (verb user realm passwd nonce cnonce qop server : list Z) : list Z :=
  rfc2831_with (tsp_A1 v user realm passwd nonce cnonce) verb nonce cnonce qop server.

Lemma tsp_digest_rfc v verb user r passwd n cn q server :
  v < CLIENT_VERSION_INDEX_2_0_0 -> tsp_digest v verb user r passwd n cn q server = rfc2831 verb user r passwd n cn q server.
Proof. intros Hv. unfold tsp_digest, tsp_A1, cut_A1. by rewrite (proj2 (Z.leb_gt _ _) Hv). Qed.

Definition escaped (s : list Z) : list Z := s ≫= fun c => if (c =? 34) || (c =? 92) then [92; c] else [c].

Lemma escape_ok i s : (i + length (escaped s) < USERID_SIZE)%nat -> escape i s = Ok (escaped s).
Proof.
  unfold escaped. revert i. induction s as [|c s IH]; intros i Hi; cbn [escape mbind list_bind] in *.
  - cbn in Hi. unfold guard_or. by rewrite (proj2 (Nat.ltb_lt _ _)) by lia.
  - rewrite length_app in Hi. rewrite (proj2 (Nat.ltb_lt _ _)) by lia. destruct ((c =? 34) || (c =? 92)); cbn [length] in Hi.
    + unfold guard_or. rewrite (proj2 (Nat.ltb_lt _ _)) by lia. cbn [mbind res_bind]. by rewrite IH by lia.
    + by rewrite IH by lia.
Qed.

Lemma escape_inv i s r : escape i s = Ok r -> r = escaped s.
Proof.
  unfold escaped. revert i r. induction s as [|c s IH]; intros i r; cbn [escape mbind list_bind].
  - unfold guard_or. case_match; [|done]. by intros [= <-].
  - case_match; [|done]. destruct ((c =? 34) || (c =? 92)).
    + unfold guard_or. case_match; [|done]. cbn [mbind res_bind]. intros E. inv_bind E. injection E as <-. by rewrite <- (IH _ _ E0).
    + intros E. inv_bind E. injection E as <-. by rewrite <- (IH _ _ E0).
Qed.

Lemma hex_bytes l : bytes_ok l -> bytes_ok (mjoin (hex_byte <$> l)).
Proof.
  induction 1 as [|x l Hx _ IH]; [constructor|]. change (mjoin (hex_byte <$> x :: l)) with (hex_byte x ++ mjoin (hex_byte <$> l)).
  apply bytes_ok_app. split; [|done]. unfold byte_ok in Hx. assert (forall d, 0 <= d < 16 -> byte_ok (hex_digit d)) as Hd.
  { intros d Hd. unfold byte_ok, hex_digit. destruct (Z.ltb_spec d 10); lia. }
  cbn [hex_byte]. apply list.Forall_cons_2; [|apply list.Forall_cons_2; [|constructor]]; apply Hd; [split; [apply Z.div_pos; lia|apply Z.div_lt_upper_bound; lia]|apply Z.mod_pos_bound; lia].
Qed.

Lemma HEX_bytes s : bytes_ok (HEX s).
Proof. apply hex_bytes, md5_spec_bytes. Qed.

Lemma length_HEX s : length (HEX s) = 32%nat.
Proof. unfold HEX. by rewrite length_hex, md5_spec_length. Qed.

Lemma length_tsp_digest v verb user r passwd n cn q server : length (tsp_digest v verb user r passwd n cn q server) = 32%nat.
Proof. apply length_HEX. Qed.

#[local] Hint Resolve HEX_bytes : maiccu.

Lemma str_bytes s : bytes_ok (str s).
Proof.
  unfold str. generalize (String.list_ascii_of_string s). intros l. induction l as [|a l IH]; [constructor|]. cbn [fmap list_fmap]. apply list.Forall_cons_2; [|done].
  pose proof (Ascii.N_ascii_bounded a). unfold byte_ok. lia.
Qed.

#[local] Hint Resolve str_bytes : maiccu.

(** A text that a digest can take. *)
Definition text_ok (s : list Z) : Prop := bytes_ok s /\ Z.of_nat (length s) <= 2 ^ 20.

Lemma md5_ok g s : length g = 64%nat -> bytes_ok s -> Z.of_nat (length s) < 2 ^ 30 -> md5 g s = Ok (HEX s).
Proof. intros Hg Hs Hl. unfold md5. by rewrite tsp_md5digest_correct by (done || lia). Qed.

Lemma pal_snprintf_id len s : (length s < len)%nat -> pal_snprintf len s = s.
Proof. intros H. unfold pal_snprintf. apply take_ge. lia. Qed.

Lemma c_str_full s : (length (c_str s) <? length s)%nat = bool_decide (0 ∈ s).
Proof.
  induction s as [|c s IH]; [done|]. cbn [c_str length]. destruct (Z.eqb_spec c 0) as [->|Hc].
  - rewrite bool_decide_eq_true_2 by apply list_elem_of_here. done.
  - cbn [length]. change (S (length (c_str s)) <? S (length s))%nat with (length (c_str s) <? length s)%nat. rewrite IH. apply bool_decide_ext.
    rewrite elem_of_cons. split; [auto|]. by intros [|].
Qed.

Lemma c_str_bytes s : bytes_ok s -> bytes_ok (c_str s) /\ (length (c_str s) <= length s)%nat.
Proof.
  induction 1 as [|c s Hc _ [IH1 IH2]]; cbn [c_str]; [by split; [constructor|]|]. destruct (c =? 0); [split; [constructor|cbn; lia]|].
  split; [by apply list.Forall_cons_2|cbn; lia].
Qed.

(** The digest of [A1] is cut in the two old versions only. *)
Lemma hash_A1_ok v g d rest :
  length g = 64%nat -> bytes_ok d -> length d = 16%nat -> bytes_ok rest -> Z.of_nat (length rest) < 2 ^ 29 ->
  0 <= v < 4 -> hash_A1 v g d rest = Ok (HEX (if cut_A1 v d then c_str d else d ++ rest)).
Proof.
  intros Hg Hd Hl Hr Hrl Hv. unfold hash_A1, cut_A1, CLIENT_VERSION_INDEX_2_0_0. rewrite <- Hl, c_str_full.
  assert (exists w, TSPProtoVerStr !! Z.to_nat v = Some w /\ negb ((5 <? length w)%nat || strcmp_gt w (str "2.0.0")) = (2 <=? v)) as (w & -> & Hw).
  { assert (v = 0 \/ v = 1 \/ v = 2 \/ v = 3) as [-> |[-> |[-> | ->]]] by lia; eexists; (split; [reflexivity|]); by vm_compute. }
  cbn [from_option mbind res_bind]. rewrite Hw, andb_comm. destruct ((2 <=? v) && _).
  - pose proof (c_str_bytes d Hd) as [Hc Hcl]. apply md5_ok; [done..|lia].
  - apply md5_ok; [done|by apply bytes_ok_app|rewrite length_app; lia].
Qed.

Section response.
Context (malloc_ok : nat -> bool) (stack : nat -> list Z) (userid passwd server : list Z).
Context (Hstack : forall k, length (stack k) = 64%nat).
Context (Huser : text_ok userid) (Hpasswd : text_ok passwd) (Hserver : text_ok server).

(** Every field is a text that a digest can take. *)
Definition optional_text (o : option (list Z)) : Prop := forall s, o = Some s -> text_ok s.
Definition fields_ok (c : tChallenge) : Prop :=
  optional_text (realm c) /\ optional_text (nonce c) /\ optional_text (qop c) /\ optional_text (algorithm c) /\
  optional_text (charset c) /\ optional_text (rspauth c).

Lemma with_block_inv {A} (k : st heap (option A)) h x h' :
  with_block malloc_ok k h = Ok (Some x, h') -> exists h1, k h1 = Ok (Some x, h').
Proof.
  unfold with_block, mbind, st_bind. destruct (pal_malloc malloc_ok h) as [[[|] h1]|]; cbn [negb]; [eauto|done|done].
Qed.

Lemma with_block_ok {A} (k : st heap (option A)) h :
  all_ok malloc_ok -> with_block malloc_ok k h = k (mk_heap (S (hp_next h)) (hp_live h + 1)).
Proof. intros Hm. unfold with_block, mbind, st_bind, pal_malloc. by rewrite Hm. Qed.

Lemma lift_ok {S A B} (a : A) (k : A -> st S B) s : (x ← lift (Ok a); k x) s = k a s.
Proof. done. Qed.

Lemma lift_inv {S A B} (m : res A) (k : A -> st S B) s b s' : (x ← lift m; k x) s = Ok (b, s') -> exists a, m = Ok a /\ k a s = Ok (b, s').
Proof. unfold mbind, st_bind, lift. destruct m as [a|]; [eauto|done]. Qed.

Lemma st_bind_inv {S A B} (m : st S A) (k : A -> st S B) s b s' :
  (x ← m; k x) s = Ok (b, s') -> exists a s1, m s = Ok (a, s1) /\ k a s1 = Ok (b, s').
Proof. unfold mbind, st_bind. destruct (m s) as [[a s1]|]; [eauto|done]. Qed.

Lemma free_step {A} (k : unit -> st heap A) h : (x ← pal_free; k x) h = k tt (mk_heap (hp_next h) (hp_live h - 1)).
Proof. done. Qed.

Lemma non_null_inv {A} (p : option A) a : non_null p = Ok a -> p = Some a.
Proof. destruct p; [|done]. by intros [= ->]. Qed.

Definition client_text (v : Z) (r n q ch cn : list Z) : list Z :=
  print_Response ch (escaped userid) r n cn server (tsp_digest v (str "AUTHENTICATE") userid r passwd n cn q server).

(** The lengths of the literals. *)
#[local] Ltac vm_literals :=
  repeat match goal with
         | |- context [length (str ?s)] => let k := eval vm_compute in (length (str s)) in change (length (str s)) with k
         | |- context [length ?f] => is_const f; let k := eval vm_compute in (length f) in change (length f) with k
         end.
Lemma A2_ok g verb : length g = 64%nat -> bytes_ok verb -> (length verb <= 12)%nat ->
  md5 g (pal_snprintf (length A2Fmt + 12 + length server + 1) (print_A2 verb server)) = Ok (HEX (verb ++ str ":tsp/" ++ server)).
Proof. intros Hg Hb Hl. 
  pose proof (proj2 Hserver). unfold print_A2. rewrite pal_snprintf_id by (rewrite !length_app; vm_literals; lia).
  apply md5_ok; [done| |rewrite !length_app; vm_literals; lia]. apply bytes_ok_app. split; [done|]. apply bytes_ok_app. split; [apply str_bytes|apply Hserver].
Qed.

Section texts.
Context (v cnonce : Z) (Hcn : 0 <= cnonce < 10 ^ 15).
Context (r n q ch : list Z) (Hr : text_ok r) (Hn : text_ok n) (Hq : text_ok q) (Hch : text_ok ch) (Hv : 0 <= v < 4).
Let cn := decimal_digits 20 (wrap 64 cnonce).

Lemma cnonce_text : bytes_ok cn /\ (length cn <= 15)%nat.
Proof.
  subst cn. unfold wrap. rewrite Z.mod_small by lia. split.
  - apply (list.Forall_impl (fun c => 48 <= c <= 57)); [apply decimal_digits_chars; lia|]. unfold byte_ok. lia.
  - apply decimal_digits_below; [cbn; lia|lia].
Qed.

#[local] Ltac texts :=
  repeat match goal with |- bytes_ok (_ ++ _) => apply bytes_ok_app; split end; auto with maiccu;
  match goal with
  | H : text_ok ?s |- bytes_ok ?s => apply H
  | |- bytes_ok cn => apply cnonce_text
  end.
#[local] Ltac sizes :=
  rewrite ?length_app, ?length_HEX, ?length_tsp_digest; cbn [length];
  repeat match goal with
         | H : text_ok ?s |- context [length ?s] => lazymatch goal with _ : Z.of_nat (length s) <= _ |- _ => fail | _ => pose proof (proj2 H) end
         end;
  try match goal with |- context [length cn] => pose proof (proj2 cnonce_text) end;
  cbn [length] in *; vm_literals; lia.

Lemma A1_1_ok g : length g = 64%nat ->
  md5digest g (pal_snprintf (length A1_1Fmt + length userid + length r + length passwd + 1) (print_A1_1 userid r passwd)) =
  Ok (first_digest userid r passwd).
Proof. clear - Huser Hpasswd Hr. intros Hg. unfold print_A1_1. rewrite pal_snprintf_id by sizes. apply tsp_md5digest_correct; [done| |sizes]. texts. Qed.

Lemma A1_ok g : length g = 64%nat ->
  hash_A1 v g (first_digest userid r passwd) (pal_snprintf (16 + 1 + length n + 16 + 1 - 16) (print_A1 n cn)) =
  Ok (HEX (tsp_A1 v userid r passwd n cn)).
Proof.
  intros Hg. unfold print_A1. rewrite pal_snprintf_id by sizes.
  unfold tsp_A1. rewrite hash_A1_ok; [done|done|apply md5_spec_bytes|apply md5_spec_length| |sizes|apply Hv]. texts.
Qed.

Lemma ChallResp_ok g verb A1 : length g = 64%nat ->
  A1 = HEX (tsp_A1 v userid r passwd n cn) ->
  md5 g (pal_snprintf (length ChallRespFmt + 32 + length n + 16 + length q + 32 + 1)
           (print_ChallResp A1 n cn q (HEX (verb ++ str ":tsp/" ++ server)))) = Ok (tsp_digest v verb userid r passwd n cn q server).
Proof. intros Hg ->. unfold print_ChallResp. rewrite pal_snprintf_id by sizes. apply md5_ok; [done| |sizes]. texts. Qed.

Lemma Response_fits : pal_snprintf (length ResponseFmt + length ch + length (escaped userid) + length r + length n + 16 + length server + 32)
    (print_Response ch (escaped userid) r n cn server (tsp_digest v (str "AUTHENTICATE") userid r passwd n cn q server)) = client_text v r n q ch cn.
Proof. apply pal_snprintf_id. unfold client_text, print_Response. set (u := escaped userid). clearbody u. sizes. Qed.

(** The response, and what the server must answer, when the blocks are there. *)
Lemma build_response_ok c h :
  all_ok malloc_ok -> realm c = Some r -> nonce c = Some n -> qop c = Some q -> charset c = Some ch ->
  (length (escaped userid) < USERID_SIZE)%nat -> (length (encode_groups (client_text v r n q ch cn)) < RESPONSE_BUFFER_SIZE)%nat ->
  build_response malloc_ok stack userid passwd server v cnonce c h =
  Ok (Some (encode_groups (client_text v r n q ch cn), tsp_digest v [] userid r passwd n cn q server), mk_heap (hp_next h + 5) (hp_live h)).
Proof.
  intros Hm Er En Eq Ech Hesc Hfit. unfold build_response. fold cn. rewrite with_block_ok by done.
  rewrite !A2_ok by (apply Hstack || apply str_bytes || apply list.Forall_nil_2 || (cbn; lia)). rewrite !lift_ok, free_step, Er. cbn [non_null from_option]. rewrite lift_ok, with_block_ok by done.
  rewrite A1_1_ok by done. rewrite lift_ok, free_step, En. cbn [non_null from_option]. rewrite lift_ok, with_block_ok by done.
  rewrite A1_ok by done. rewrite lift_ok, free_step, Eq. cbn [non_null from_option]. rewrite lift_ok, with_block_ok by done.
  rewrite !ChallResp_ok by done. rewrite !lift_ok, free_step, escape_ok by done. rewrite lift_ok, Ech. cbn [non_null from_option]. rewrite lift_ok, with_block_ok by done.
  rewrite Response_fits. unfold base64encode, guard_or. rewrite (proj2 (Nat.leb_le _ _)) by lia. cbn [mbind res_bind].
  rewrite lift_ok, free_step. unfold mret, st_ret. do 2 f_equal. cbn. f_equal; lia.
Qed.
End texts.

(** Whatever it makes, the response is the one of the RFC. *)
Lemma build_response_inv v cnonce c h B R h' :
  0 <= cnonce < 10 ^ 15 -> fields_ok c -> 0 <= v < 4 ->
  build_response malloc_ok stack userid passwd server v cnonce c h = Ok (Some (B, R), h') ->
  let cn := decimal_digits 20 cnonce in
  exists r n q ch, realm c = Some r /\ nonce c = Some n /\ qop c = Some q /\ charset c = Some ch /\
    B = encode_groups (client_text v r n q ch cn) /\ (length B < RESPONSE_BUFFER_SIZE)%nat /\ R = tsp_digest v [] userid r passwd n cn q server.
Proof.
  intros Hcn (Hf1 & Hf2 & Hf3 & _ & Hf5 & _) Hv E. assert (decimal_digits 20 (wrap 64 cnonce) = decimal_digits 20 cnonce) as Ecn.
  { unfold wrap. by rewrite Z.mod_small by lia. }
  unfold build_response in E. apply with_block_inv in E as [h1 E]. rewrite !A2_ok in E by (apply Hstack || apply str_bytes || apply list.Forall_nil_2 || (cbn; lia)).
  rewrite !lift_ok, free_step in E. apply lift_inv in E as (r & Er%non_null_inv & E). pose proof (Hf1 _ Er) as Hr.
  apply with_block_inv in E as [h2 E]. rewrite A1_1_ok, lift_ok, free_step in E by done. apply lift_inv in E as (n & En%non_null_inv & E).
  pose proof (Hf2 _ En) as Hn. apply with_block_inv in E as [h3 E]. rewrite A1_ok, lift_ok, free_step in E by auto.
  apply lift_inv in E as (q & Eq%non_null_inv & E). pose proof (Hf3 _ Eq) as Hq. apply with_block_inv in E as [h4 E].
  rewrite !(ChallResp_ok v cnonce Hcn r n q Hn Hq) in E by done. rewrite !lift_ok, free_step in E.
  apply lift_inv in E as (u & ->%escape_inv & E). apply lift_inv in E as (ch & Ech%non_null_inv & E).
  pose proof (Hf5 _ Ech) as Hch. apply with_block_inv in E as [h5 E]. rewrite (Response_fits v cnonce Hcn r n q ch) in E by done.
  apply lift_inv in E as (B' & [-> Hl]%base64encode_inv & E). rewrite free_step in E.
  assert (B = encode_groups (client_text v r n q ch (decimal_digits 20 (wrap 64 cnonce))) /\ R = tsp_digest v [] userid r passwd n (decimal_digits 20 (wrap 64 cnonce)) q server)
    as [-> ->] by (unfold mret, st_ret in E; split; congruence).
  rewrite Ecn in *. exists r, n, q, ch. by split_and!.
Qed.
End response.

(** ** What a challenge holds *)

(** Every result of a computation that does not fault satisfies a predicate. *)
Definition yields {A} (m : st heap A) (P : A -> Prop) : Prop := forall h a h', m h = Ok (a, h') -> P a.

Lemma yields_bind {A B} (m : st heap A) (k : A -> st heap B) (P : A -> Prop) (Q : B -> Prop) :
  yields m P -> (forall a, P a -> yields (k a) Q) -> yields (m ≫= k) Q.
Proof. intros Hm Hk h b h'. unfold mbind, st_bind. destruct (m h) as [[a h1]|] eqn:E; [|done]. intros E'. by eapply Hk; [eapply Hm|]. Qed.

Lemma yields_ret {A} (a : A) (P : A -> Prop) : P a -> yields (mret a) P.
Proof. intros Ha h a' h' E. unfold mret, st_ret in E. by injection E as <- _. Qed.

Lemma yields_lift {A} (m : res A) (P : A -> Prop) : (forall a, m = Ok a -> P a) -> yields (lift m) P.
Proof. intros Hm h a h'. unfold lift. destruct m; [|done]. intros [= <- _]. by apply Hm. Qed.

Lemma yields_any {A} (m : st heap A) : yields m (fun _ => True).
Proof. done. Qed.

Lemma yields_if {A} (b : bool) (m k : st heap A) P : (b = true -> yields m P) -> (b = false -> yields k P) -> yields (if b then m else k) P.
Proof. destruct b; auto. Qed.

Lemma text_ok_sub buf n m : text_ok buf -> text_ok (take n (drop m buf)).
Proof. intros [Hb Hl]. split; [by apply Forall_take, Forall_drop|]. rewrite length_take, length_drop. lia. Qed.

Lemma text_ok_c_str s : text_ok s -> text_ok (c_str s).
Proof. intros [Hb Hl]. destruct (c_str_bytes s Hb). split; [done|lia]. Qed.

Lemma store_text_ok size s t : text_ok s -> store_text size s = Ok t -> text_ok t.
Proof. intros Hs. unfold store_text, guard_or. case_match; [|done]. intros [= <-]. by apply text_ok_c_str. Qed.

Lemma chop_quotes_ok buf s e t : text_ok buf -> chop_quotes buf s e = Ok t -> text_ok t.
Proof.
  intros Hb. unfold chop_quotes. intros E. inv_bind E. destruct (_ && _) in E; inv_bind E; injection E as <-; by apply text_ok_sub.
Qed.

Section challenges.
Context (malloc_ok : nat -> bool).

Lemma fields_none : fields_ok no_challenge.
Proof. by split_and!. Qed.

Lemma strdup_text v : text_ok v -> yields (pal_strdup malloc_ok v) optional_text.
Proof.
  intros Hv. unfold pal_strdup. eapply yields_bind; [apply yields_any|]. intros ok _. apply yields_ret. destruct ok; [by intros s [= <-]|done].
Qed.

Lemma insert_fields c t v : fields_ok c -> text_ok v -> yields (InsertInChallegeStruct malloc_ok c t v) fields_ok.
Proof.
  intros Hc Hv. unfold InsertInChallegeStruct. destruct c as [r n q a ch rsp]. pose proof Hc as (H1 & H2 & H3 & H4 & H5 & H6). cbn in *.
  do 6 (apply yields_if; intros _; [apply (yields_bind _ _ optional_text); [by apply strdup_text|]; intros x Hx; apply yields_ret; by split_and!|]).
  by apply yields_ret.
Qed.

Lemma challenge_loop_fields fuel size buf s e t v c :
  text_ok buf -> text_ok v -> fields_ok c -> yields (challenge_loop malloc_ok fuel size buf s e t v c) fields_ok.
Proof.
  intros Hb. revert s e t v c. induction fuel as [|fuel IH]; intros s e t v c Hv Hc; cbn [challenge_loop]; [by apply yields_lift|].
  eapply yields_bind; [apply yields_any|]. intros x _. apply (yields_bind _ _ (fun r => text_ok (snd (fst r)) /\ fields_ok (snd r))).
  - apply yields_if; intros _; [|by apply yields_ret]. apply (yields_bind _ _ text_ok).
    + apply yields_if; intros _; [|by apply yields_ret]. apply yields_lift. intros w E. inv_bind E. eapply store_text_ok; [exact (chop_quotes_ok _ _ _ _ Hb E0)|exact E].
    + intros w Hw. apply yields_if; intros _; [|by apply yields_ret]. eapply yields_bind; [by apply insert_fields|]. intros c' Hc'.
      apply yields_ret. cbn. split; [|done]. split; [constructor|cbn; lia].
  - intros [[t' v'] c'] [Hv' Hc']. cbn [fst snd] in *. apply yields_if; intros _; [by apply yields_ret|].
    destruct (is_end x); (eapply yields_bind; [apply yields_any|]; intros y _; apply yields_if; intros _; [|by apply IH]);
      (eapply yields_bind; [apply yields_any|]; intros w _; apply yields_if; intros _; [by apply yields_ret|by apply IH]).
Qed.

Lemma ExtractChallenge_fields buf : text_ok buf -> yields (ExtractChallenge malloc_ok buf) fields_ok.
Proof.
  intros Hb. unfold ExtractChallenge. eapply yields_bind; [apply yields_any|]. intros n _. eapply yields_bind; [apply yields_any|]. intros t _.
  eapply yields_bind; [apply yields_any|]. intros v _. apply yields_if; intros _; [by apply yields_lift|].
  eapply yields_bind; [apply challenge_loop_fields; [done|by split; [constructor|cbn; lia]|apply fields_none]|]. intros c Hc.
  eapply yields_bind; [apply yields_any|]. intros _ _. eapply yields_bind; [apply yields_any|]. intros _ _. by apply yields_ret.
Qed.
End challenges.

(** *** The text of a challenge *)

Record directive := mk_directive { dir_name : list Z; dir_value : list Z; dir_quoted : bool }.

Definition value_text (d : directive) : list Z := if dir_quoted d then 34 :: dir_value d ++ [34] else dir_value d.
Definition directive_text (d : directive) : list Z := dir_name d ++ 61 :: value_text d.

Fixpoint challenge_text (ds : list directive) : list Z :=
  match ds with
  | [] => []
  | [d] => directive_text d
  | d :: ds' => directive_text d ++ 44 :: challenge_text ds'
  end.

Definition name_char (c : Z) : Prop := 33 <= c < 127 /\ c <> 61 /\ c <> 44.
Definition value_char (c : Z) : Prop := byte_ok c /\ is_end c = false.

Definition directive_ok (d : directive) : Prop :=
  dir_name d <> [] /\ Forall name_char (dir_name d) /\ dir_value d <> [] /\ Forall value_char (dir_value d) /\
  (dir_quoted d = false -> head (dir_value d) <> Some 34 /\ list.last (dir_value d) <> Some 34).

(** The last value of a name. *)
Fixpoint last_value (k : list Z) (ds : list directive) (v : option (list Z)) : option (list Z) :=
  match ds with
  | [] => v
  | d :: ds' => last_value k ds' (if strcmp0 (dir_name d) k then Some (dir_value d) else v)
  end.

Definition fields (ds : list directive) (c : tChallenge) : tChallenge :=
  mk_tChallenge (last_value (str "realm") ds (realm c)) (last_value (str "nonce") ds (nonce c)) (last_value (str "qop") ds (qop c))
    (last_value (str "algorithm") ds (algorithm c)) (last_value (str "charset") ds (charset c)) (last_value (str "rspauth") ds (rspauth c)).

Lemma name_char_end c : name_char c -> is_end c = false /\ c <> 61.
Proof. unfold name_char, is_end, CR, LF. intros H. split; lia. Qed.

Lemma value_text_chars d : directive_ok d -> Forall (fun c => is_end c = false) (value_text d) /\ value_text d <> [].
Proof.
  intros (_ & _ & Hne & Hv & _). assert (Forall (fun c => is_end c = false) (dir_value d)) as H by (eapply list.Forall_impl; [exact Hv|]; by intros c [_ ?]).
  unfold value_text. destruct (dir_quoted d); [|done]. split; [|done]. apply list.Forall_cons_2; [done|]. apply Forall_app. split; [done|]. by repeat constructor.
Qed.

Section parse.
Context (malloc_ok : nat -> bool).
Context (size : nat).

Let loop := challenge_loop malloc_ok.

Lemma loop_skip fuel buf s e t v c h x :
  buf !! e = Some x -> is_end x = false -> x <> 61 \/ t <> [] -> loop (S fuel) size buf s e t v c h = loop fuel size buf s (S e) t v c h.
Proof.
  intros Hx Hend Ht. unfold loop. cbn [challenge_loop]. unfold rd8. rewrite Hx. cbn [from_option]. rewrite lift_ok, Hend. cbn [andb].
  unfold mbind at 1, st_bind at 1, mret at 1, st_ret at 1. assert ((x =? 0) = false) as -> by (unfold is_end in Hend; lia).
  rewrite Hx. cbn [from_option]. rewrite lift_ok, Hend, orb_false_r. destruct Ht as [Ht|Ht].
  - by rewrite (proj2 (Z.eqb_neq x 61)).
  - by rewrite (bool_decide_eq_false_2 _ Ht), andb_false_r.
Qed.

Lemma loop_skips w : forall fuel pre post s t v c h,
  Forall (fun x => is_end x = false /\ (x <> 61 \/ t <> [])) w ->
  loop (length w + fuel) size (pre ++ w ++ post) s (length pre) t v c h = loop fuel size (pre ++ w ++ post) s (length pre + length w) t v c h.
Proof.
  induction w as [|x w IH]; intros fuel pre post s t v c h Hw; cbn [length Nat.add]; [by rewrite Nat.add_0_r|].
  apply list.Forall_cons in Hw as [[Hx Ht] Hw]. rewrite (loop_skip _ _ _ _ _ _ _ _ x) by (done || (cbn [app]; by rewrite list_lookup_middle)).
  replace (pre ++ (x :: w) ++ post) with ((pre ++ [x]) ++ w ++ post) by (by rewrite <- app_assoc).
  replace (S (length pre)) with (length (pre ++ [x])) by (rewrite length_app; cbn; lia). rewrite IH by done. f_equal. rewrite length_app. cbn. lia.
Qed.

Lemma loop_equals fuel buf s e v c h :
  buf !! e = Some 61 -> e <> s -> (length (region buf s e) < size)%nat -> no_nul (region buf s e) ->
  loop (S fuel) size buf s e [] v c h = loop fuel size buf (S e) (S (S e)) (region buf s e) v c h.
Proof.
  intros Hx He Hl Hz. unfold loop. cbn [challenge_loop]. unfold rd8. rewrite Hx. cbn [from_option]. rewrite lift_ok.
  change (is_end 61) with false. cbn [andb]. unfold mbind at 1, st_bind at 1, mret at 1, st_ret at 1. change (61 =? 0) with false. cbv beta iota.
  rewrite Hx. cbn [from_option]. rewrite lift_ok. change (61 =? 61) with true. rewrite (proj2 (Nat.eqb_neq e s)) by done. cbn [orb andb negb].
  rewrite bool_decide_eq_true_2 by done. unfold store_text, guard_or. rewrite (proj2 (Nat.ltb_lt _ _)) by done. cbn [mbind res_bind andb].
  rewrite lift_ok. change (61 =? 0) with false. cbv beta iota. by rewrite c_str_no_nul.
Qed.

Lemma loop_value fuel buf s e t w c h x :
  buf !! e = Some x -> x = 44 \/ x = 0 -> (x = 44 -> exists y, buf !! S e = Some y) -> t <> [] -> s <> e -> chop_quotes buf s e = Ok w ->
  w <> [] -> no_nul w -> (length w < size)%nat ->
  loop (S fuel) size buf s e t [] c h =
  (c' ← InsertInChallegeStruct malloc_ok c t w; if x =? 0 then mret c' else loop fuel size buf (S e) (S (S e)) [] [] c') h.
Proof.
  intros Hx Hsep Hy Ht Hse Hchop Hw Hz Hl. unfold loop. cbn [challenge_loop]. unfold rd8. rewrite Hx. cbn [from_option]. rewrite lift_ok.
  assert (is_end x = true) as Hend by (by destruct Hsep as [-> | ->]). rewrite !Hend. rewrite (proj2 (Nat.eqb_neq s e)) by done. cbn [andb negb].
  rewrite (bool_decide_eq_false_2 _ Ht), (bool_decide_eq_true_2 ([] = [])) by done. cbn [negb andb]. rewrite Hchop. unfold store_text, guard_or.
  cbn [mbind res_bind]. rewrite (proj2 (Nat.ltb_lt _ _) Hl). cbn [mbind res_bind]. rewrite (c_str_no_nul w Hz).
  unfold mbind, st_bind, lift at 1, mret, st_ret. rewrite (bool_decide_eq_false_2 _ Hw). cbn [negb].
  destruct (InsertInChallegeStruct malloc_ok c t w h) as [[c' h']|]; [|done]. destruct (Z.eqb_spec x 0) as [|Hx0]; [done|].
  destruct (Hy ltac:(tauto)) as [y Hy']. rewrite Hy'. unfold lift. cbn [from_option]. rewrite Nat.eqb_refl. cbn [negb]. by rewrite andb_false_r.
Qed.

Lemma chop_value pre d post : directive_ok d ->
  chop_quotes (pre ++ value_text d ++ post) (length pre) (length pre + length (value_text d)) = Ok (dir_value d).
Proof.
  intros (_ & _ & Hne & _ & Hq). unfold chop_quotes, rd8. replace (length pre + length (value_text d) - length pre)%nat with (length (value_text d)) by lia.
  assert (forall x w, value_text d = x :: w -> (pre ++ value_text d ++ post) !! length pre = Some x) as Hfirst.
  { intros x w ->. cbn [app]. by apply list_lookup_middle. }
  assert (forall x w, value_text d = w ++ [x] -> (pre ++ value_text d ++ post) !! (length pre + length (value_text d) - 1)%nat = Some x) as Hlast.
  { intros x w ->. rewrite <- app_assoc, app_assoc. apply list_lookup_middle. rewrite !length_app. cbn. lia. }
  unfold value_text in *. destruct (dir_quoted d).
  - rewrite (Hfirst _ _ eq_refl). cbn [from_option mbind res_bind]. change (34 =? 34) with true. rewrite (Hlast 34 (34 :: dir_value d) eq_refl). cbn [from_option mbind res_bind].
    change (34 =? 34) with true. cbn [length]. rewrite length_app. cbn [length andb negb Nat.eqb]. f_equal.
    assert (length (dir_value d) <> 0)%nat by (by destruct (dir_value d)).
    rewrite (proj2 (Nat.eqb_neq (S (length (dir_value d) + 1) - 1) 0)) by lia. cbn [negb].
    replace (S (length pre)) with (length (pre ++ [34])) by (rewrite length_app; cbn; lia).
    replace (pre ++ (34 :: dir_value d ++ [34]) ++ post) with ((pre ++ [34]) ++ dir_value d ++ [34] ++ post) by app_eq.
    rewrite drop_app_exact by done. apply take_app_exact. lia.
  - destruct (Hq eq_refl) as [Hf Hl]. destruct (dir_value d) as [|x w] eqn:Ew; [done|]. rewrite (Hfirst _ _ eq_refl). cbn [from_option mbind res_bind].
    rewrite (proj2 (Z.eqb_neq x 34)) by (cbn in Hf; congruence). cbn [andb].
    destruct (exists_last (l := x :: w) ltac:(done)) as (w' & y & Ey). rewrite (Hlast y w' Ey). cbn [from_option mbind res_bind].
    rewrite (proj2 (Z.eqb_neq y 34)); [|rewrite Ey, last_snoc in Hl; congruence]. cbn [andb]. f_equal. rewrite drop_app_exact by done. by apply take_app_exact.
Qed.

Lemma directive_no_nul d : directive_ok d -> no_nul (dir_name d) /\ no_nul (dir_value d).
Proof.
  intros (_ & Hn & _ & Hv & _). split; (eapply list.Forall_impl; [first [exact Hn|exact Hv]|]); intros c Hc ->; cbn in Hc; unfold name_char, value_char in Hc;
    [lia|by destruct Hc].
Qed.

(** One directive, up to the separator or the end of the text. *)
Lemma loop_directive d fuel pre sep post c h :
  directive_ok d -> (length (directive_text d) < size)%nat -> sep = 44 /\ post <> [] \/ sep = 0 ->
  loop (length (directive_text d) + fuel) size (pre ++ directive_text d ++ sep :: post) (length pre) (S (length pre)) [] [] c h =
  (c' ← InsertInChallegeStruct malloc_ok c (dir_name d) (dir_value d);
   if sep =? 0 then mret c' else loop (S fuel) size (pre ++ directive_text d ++ sep :: post) (length (pre ++ directive_text d ++ [sep]))
     (S (length (pre ++ directive_text d ++ [sep]))) [] [] c') h.
Proof.
  intros Hd Hsize Hsep. pose proof Hd as (Hnn & Hn & _). destruct (directive_no_nul d Hd) as [Hzn Hzv]. destruct (value_text_chars d Hd) as [Hvt Hvn].
  pose proof (chop_value ((pre ++ dir_name d) ++ [61]) d (sep :: post) Hd) as Hchop. unfold directive_text in *.
  destruct (dir_name d) as [|n0 name] eqn:En; [done|]. destruct (value_text d) as [|v0 vt] eqn:Ev; [done|].
  set (buf := pre ++ ((n0 :: name) ++ 61 :: v0 :: vt) ++ sep :: post).
  apply list.Forall_cons in Hn as [_ Hn]. apply list.Forall_cons in Hvt as [_ Hvt].
  replace (length ((n0 :: name) ++ 61%Z :: v0 :: vt) + fuel)%nat with (length name + S (length vt + S (S fuel)))%nat in * by (rewrite length_app; cbn; lia).
  assert (buf = (pre ++ [n0]) ++ name ++ 61 :: (v0 :: vt) ++ sep :: post) as E1 by (subst buf; app_eq).
  replace (S (length pre)) with (length (pre ++ [n0])) by (rewrite length_app; cbn; lia).
  rewrite E1, loop_skips, <- E1 by (eapply list.Forall_impl; [exact Hn|]; intros x Hx; destruct (name_char_end x Hx); auto).
  assert (region buf (length pre) (length (pre ++ [n0]) + length name) = n0 :: name) as Hreg.
  { subst buf. rewrite <- app_assoc. apply region_mid; [done|]. rewrite length_app. cbn. lia. }
  rewrite loop_equals.
  2: { rewrite E1, app_assoc. apply list_lookup_middle. rewrite !length_app. lia. }
  2: { rewrite length_app. cbn. lia. }
  2: { rewrite Hreg. rewrite length_app in Hsize. cbn in *. lia. }
  2: by rewrite Hreg.
  rewrite Hreg.
  assert (buf = (((pre ++ n0 :: name) ++ [61]) ++ [v0]) ++ vt ++ sep :: post) as E2 by (subst buf; app_eq).
  assert (S (length (pre ++ [n0]) + length name) = length ((pre ++ n0 :: name) ++ [61])) as -> by (rewrite !length_app; cbn; lia).
  replace (S (length ((pre ++ n0 :: name) ++ [61]))) with (length (((pre ++ n0 :: name) ++ [61]) ++ [v0])) by (rewrite (length_app _ [v0]); cbn; lia).
  rewrite E2, loop_skips, <- E2 by (eapply list.Forall_impl; [exact Hvt|]; intros x Hx; split; [done|by right]).
  assert (length (((pre ++ n0 :: name) ++ [61%Z]) ++ [v0]) + length vt = length (pre ++ (n0 :: name) ++ 61%Z :: v0 :: vt))%nat as Hend
    by (rewrite !length_app; cbn; lia).
  rewrite Hend. rewrite (loop_value _ _ _ _ _ (dir_value d) _ _ sep).
  - assert (length (pre ++ ((n0 :: name) ++ 61 :: v0 :: vt) ++ [sep]) = S (length (pre ++ (n0 :: name) ++ 61 :: v0 :: vt))) as ->
      by (rewrite !length_app; cbn; lia). done.
  - subst buf. rewrite (app_assoc pre _ (sep :: post)). by apply list_lookup_middle.
  - destruct Hsep as [[-> _]| ->]; auto.
  - intros ->. destruct Hsep as [[_ Hp]|]; [|done]. destruct post as [|y post]; [done|]. exists y. subst buf.
    replace (pre ++ ((n0 :: name) ++ 61 :: v0 :: vt) ++ 44 :: y :: post) with ((pre ++ ((n0 :: name) ++ 61 :: v0 :: vt) ++ [44]) ++ y :: post) by app_eq.
    apply list_lookup_middle. rewrite !length_app. cbn. lia.
  - done.
  - rewrite !length_app. cbn. lia.
  - replace buf with (((pre ++ n0 :: name) ++ [61]) ++ (v0 :: vt) ++ sep :: post) by (subst buf; app_eq).
    replace (length (pre ++ (n0 :: name) ++ 61 :: v0 :: vt)) with (length ((pre ++ n0 :: name) ++ [61%Z]) + length (v0 :: vt))%nat by (rewrite !length_app; cbn; lia).
    exact Hchop.
  - apply Hd.
  - done.
  - assert (length (dir_value d) <= length (value_text d))%nat as Hlv by (unfold value_text; destruct (dir_quoted d); cbn; rewrite ?length_app; lia).
    rewrite Ev in Hlv. rewrite length_app in Hsize. cbn in *. lia.
Qed.
Context (Hm : all_ok malloc_ok).

Lemma insert_ok d c h : exists h', InsertInChallegeStruct malloc_ok c (dir_name d) (dir_value d) h = Ok (fields [d] c, h').
Proof.
  assert (forall v g, exists g', pal_strdup malloc_ok v g = Ok (Some v, g')) as Hdup.
  { intros v g. unfold pal_strdup, mbind, st_bind, pal_malloc. rewrite Hm. eexists. reflexivity. }
  destruct d as [k v q], c as [r n qo a ch rsp]. unfold fields, InsertInChallegeStruct. cbn [dir_name dir_value last_value realm nonce qop algorithm charset rspauth].
  destruct (Hdup v h) as [h' E].
  assert (forall s, strcmp0 k s = true -> k = s) as Heq by (intros s Es; by apply bool_decide_eq_true in Es).
  repeat match goal with
         | |- context [strcmp0 k ?s] => destruct (strcmp0 k s) eqn:?;
             [match goal with H : strcmp0 k _ = true |- _ => apply Heq in H; subst k end; exists h'; unfold mbind, st_bind; rewrite E; reflexivity|]
         end.
  by eexists.
Qed.

Lemma challenge_text_cons d d' ds : challenge_text (d :: d' :: ds) = directive_text d ++ 44 :: challenge_text (d' :: ds).
Proof. done. Qed.

Lemma loop_directives ds : forall fuel pre post c h,
  ds <> [] -> Forall directive_ok ds -> (length (challenge_text ds) < size)%nat ->
  exists h', loop (length (challenge_text ds) + fuel) size (pre ++ challenge_text ds ++ 0 :: post) (length pre) (S (length pre)) [] [] c h = Ok (fields ds c, h').
Proof.
  induction ds as [|d ds IH]; intros fuel pre post c h Hne Hds Hsize; [done|]. apply list.Forall_cons in Hds as [Hd Hds].
  destruct (insert_ok d c h) as [h1 E1]. destruct ds as [|d' ds].
  - cbn [challenge_text] in *. rewrite loop_directive by auto. unfold mbind, st_bind. rewrite E1. by exists h1.
  - rewrite challenge_text_cons in *. rewrite length_app in *. cbn [length] in *.
    replace (length (directive_text d) + S (length (challenge_text (d' :: ds))) + fuel)%nat
      with (length (directive_text d) + (S (length (challenge_text (d' :: ds)) + fuel)))%nat by lia.
    rewrite <- app_assoc. cbn [app]. rewrite loop_directive; [|done|lia|left; split; [done|by destruct (challenge_text (d' :: ds))]].
    unfold mbind, st_bind. rewrite E1. change (44 =? 0) with false. cbv beta iota.
    destruct (IH (S (S fuel)) (pre ++ directive_text d ++ [44]) post (fields [d] c) h1) as [h2 E2]; [done..|lia|].
    exists h2. etrans; [|exact E2]. rewrite <- !plus_n_Sm. f_equal. app_eq.
Qed.

End parse.

Lemma challenge_text_chars ds : Forall directive_ok ds -> Forall (fun c => byte_ok c /\ c <> 0) (challenge_text ds).
Proof.
  assert (forall d, directive_ok d -> Forall (fun c => byte_ok c /\ c <> 0) (directive_text d)) as Hdir.
  { intros d (_ & Hn & _ & Hv & _). assert (Forall (fun c => byte_ok c /\ c <> 0) (dir_value d)) as H.
    { eapply list.Forall_impl; [exact Hv|]. intros c [Hc He]. split; [done|]. by intros ->. }
    unfold directive_text, value_text. apply Forall_app. split.
    - eapply list.Forall_impl; [exact Hn|]. intros c Hc. unfold name_char in Hc. unfold byte_ok. lia.
    - apply list.Forall_cons_2; [done|]. destruct (dir_quoted d); [|done]. apply list.Forall_cons_2; [done|]. apply Forall_app. split; [done|by repeat constructor]. }
  induction 1 as [|d ds Hd Hds IH]; [constructor|]. destruct ds as [|d' ds]; [by apply Hdir|].
  rewrite challenge_text_cons. apply Forall_app. split; [by apply Hdir|]. by apply list.Forall_cons_2.
Qed.

Lemma first_char ds : ds <> [] -> Forall directive_ok ds -> exists x w, challenge_text ds = x :: w /\ name_char x.
Proof.
  intros Hne Hds. destruct ds as [|d ds]; [done|]. apply list.Forall_cons in Hds as [(Hn & Hc & _) _]. destruct (dir_name d) as [|x w] eqn:En; [done|].
  apply list.Forall_cons in Hc as [Hx _]. exists x. destruct ds as [|d' ds]; [|rewrite challenge_text_cons]; [cbn [challenge_text]|]; unfold directive_text; rewrite En; by eexists.
Qed.

Lemma strlen_at_text s post : no_nul s -> strlen_at 0 (s ++ 0 :: post) = Ok (length s).
Proof.
  intros Hs. unfold strlen_at. rewrite drop_0. assert (c_str (s ++ 0 :: post) = s) as ->.
  { induction Hs as [|c s Hc _ IH]; [done|]. cbn [app c_str]. rewrite (proj2 (Z.eqb_neq c 0)) by done. by rewrite IH. }
  unfold guard_or. rewrite (proj2 (Nat.ltb_lt _ _)); [done|]. rewrite length_app. cbn. lia.
Qed.

Lemma malloc_step {A} malloc_ok (k : bool -> st heap A) h :
  all_ok malloc_ok -> (x ← pal_malloc malloc_ok; k x) h = k true (mk_heap (S (hp_next h)) (hp_live h + 1)).
Proof. intros Hm. unfold mbind, st_bind, pal_malloc. by rewrite Hm. Qed.

Lemma bind_ok {S A B} (m : st S A) (k : A -> st S B) s a s' : m s = Ok (a, s') -> (x ← m; k x) s = k a s'.
Proof. intros E. unfold mbind, st_bind. by rewrite E. Qed.

(** A challenge comes back from its text, whatever is in memory after it. *)
Lemma ExtractChallenge_text malloc_ok ds post h :
  all_ok malloc_ok -> ds <> [] -> Forall directive_ok ds ->
  exists h', ExtractChallenge malloc_ok (challenge_text ds ++ 0 :: post) h = Ok (fields ds no_challenge, h').
Proof.
  intros Hm Hne Hds. unfold ExtractChallenge. rewrite strlen_at_text by (eapply list.Forall_impl; [by apply challenge_text_chars|]; by intros c []).
  rewrite lift_ok, !malloc_step by done. cbn [andb negb]. cbv beta.
  destruct (first_char ds Hne Hds) as (x & w & Ew & Hx).
  destruct (name_char_end x Hx) as [Hend H61].
  set (buf := challenge_text ds ++ 0 :: post). replace (S (length buf)) with (S (length (challenge_text ds) + S (length post)))%nat
    by (subst buf; rewrite length_app; done).
  set (h1 := mk_heap _ _).
  destruct (loop_directives malloc_ok (S (length (challenge_text ds))) Hm ds (S (length post)) [] post no_challenge h1) as [h2 E2]; [done..|lia|].
  eexists. rewrite (bind_ok _ _ _ (fields ds no_challenge) h2); [rewrite !free_step; reflexivity|].
  rewrite (loop_skip _ _ _ _ _ _ _ _ _ _ x) by (try done; subst buf; rewrite ?Ew; auto). exact E2.
Qed.

(** ** Authentication *)

Lemma strlen_at_inv off buf n : strlen_at off buf = Ok n -> (off + n < length buf)%nat.
Proof. unfold strlen_at, guard_or. destruct (Nat.ltb_spec (off + length (c_str (drop off buf))) (length buf)); [|done]. by intros [= <-]. Qed.

Section dialogue.
Context (malloc_ok thread_ok join_ok : nat -> bool) (echo : tBroker -> Z).
Context (tspXMLParse : list Z -> res (option tTunnel)) (open_ok : bool) (write_ok : nat -> bool).
Context (garbage : nat -> Z) (stack : nat -> list Z) (userid passwd server : list Z).

Let redirect := handle_redirect malloc_ok thread_ok join_ok echo tspXMLParse open_ok write_ok.
Let challenge := read_challenge malloc_ok thread_ok join_ok echo tspXMLParse open_ok write_ok garbage.
Let dialogue := AuthDIGEST_MD5 malloc_ok thread_ok join_ok echo tspXMLParse open_ok write_ok garbage stack userid passwd server.

(** The content of the buffer for a reply. *)
Definition reply_buffer (data : list Z) : list Z := received (take REDIRECT_RECEIVE_BUFFER_SIZE data).

(** The challenge that the client finds in a reply. *)
Definition challenges (reply : option (list Z)) (l : list tBroker) (c : tChallenge) : Prop :=
  exists data h h', reply = Some data /\ challenge (reply_buffer data) l h = Ok (inr c, h').

Lemma length_reply_buffer data : length (reply_buffer data) = REDIRECT_RECEIVE_BUFFER_SIZE.
Proof. unfold reply_buffer, received, REDIRECT_RECEIVE_BUFFER_SIZE. rewrite length_app, repeat_length, length_take. lia. Qed.

Lemma redirect_status payload l : yields (redirect payload l) (fun r => fst r <> SUCCESS).
Proof.
  unfold redirect, handle_redirect. eapply yields_bind; [apply yields_any|]. intros [[s l'] f] _. apply yields_ret. cbn. by case_bool_decide.
Qed.

(** A reply ends the dialogue without success, or it holds a challenge. *)
Lemma challenge_fields data l : (forall k, byte_ok (garbage k)) ->
  yields (challenge (reply_buffer data) l) (fun x => match x with inl r => fst r <> SUCCESS | inr c => fields_ok c end).
Proof.
  intros Hg. unfold challenge, read_challenge. apply yields_if; intros _; [eapply yields_bind; [apply redirect_status|]; intros r Hr; by apply yields_ret|].
  apply yields_if; intros _; [by apply yields_ret|]. apply (yields_bind _ _ (fun n => (n <= REDIRECT_RECEIVE_BUFFER_SIZE)%nat)).
  { apply yields_lift. intros n Hn%strlen_at_inv. rewrite length_reply_buffer in Hn. clear - Hn. lia. }
  intros n Hn. eapply yields_bind; [apply yields_any|]. intros ok _. apply yields_if; intros _; [by apply yields_ret|].
  apply (yields_bind _ _ bytes_ok); [apply yields_lift; intros t; apply base64decode_bytes|]. intros t Ht.
  eapply yields_bind; [apply ExtractChallenge_fields|].
  - split; [|rewrite length_take; unfold REDIRECT_RECEIVE_BUFFER_SIZE in Hn; lia]. apply Forall_take, bytes_ok_app. split; [done|]. apply list.Forall_cons_2; [unfold byte_ok; lia|].
    apply Forall_fmap, list.Forall_forall. intros k _. apply Hg.
  - intros c Hc. eapply yields_bind; [apply yields_any|]. intros _ _. by apply yields_ret.
Qed.

Lemma challenges_fields reply l c : (forall k, byte_ok (garbage k)) -> challenges reply l c -> fields_ok c.
Proof. intros Hg (data & h & h' & _ & E). exact (challenge_fields data l Hg h _ h' E). Qed.

(** Without an answer there is no proof. *)
Lemma silence_no_rspauth l h c h' : challenge (reply_buffer []) l h = Ok (inr c, h') -> rspauth c = None.
Proof.
  unfold challenge, read_challenge.
  assert (tspGetStatusCode (reply_buffer []) = 0) as -> by (vm_compute; reflexivity). cbn [tspIsRedirectStatus Z.ltb Z.compare Z.eqb REDIRECT_STATUS_CODE_BASE TSP_PROTOCOL_AUTH_FAILED].
  assert (strlen_at 0 (reply_buffer []) = Ok 0%nat) as -> by (vm_compute; reflexivity). rewrite lift_ok.
  intros E. apply st_bind_inv in E as ([|] & h1 & _ & E); cbn [negb] in E; [|done].
  assert (base64decode 1 (reply_buffer []) = Ok []) as Ed by (vm_compute; reflexivity). rewrite Ed, lift_ok in E. clear Ed.
  apply st_bind_inv in E as (c0 & h2 & E & E'). unfold pal_free in E'. injection E' as -> _.
  cbn [take app fmap list_fmap seq] in E. unfold ExtractChallenge in E. apply lift_inv in E as (n & _ & E).
  apply st_bind_inv in E as (t & h3 & _ & E). apply st_bind_inv in E as (v & h4 & _ & E). destruct (negb (t && v)); [done|].
  apply st_bind_inv in E as (c' & h5 & E & E''). apply st_bind_inv in E'' as (? & h6 & _ & E''). apply st_bind_inv in E'' as (? & h7 & _ & E'').
  injection E'' as -> _. cbn in E. by injection E as <- _.
Qed.

(** (C14) Whatever the server sends, the client reports success only if the server has
    shown that it knows the password: the response that the client has sent is the
    one that the protocol prescribes for the challenge of the server, the answer of
    the server holds the value that it prescribes for the same challenge, and the
    last reply says that the user is accepted.  The list of brokers is then
    unchanged.  The values are those of RFC 2831, except that in the versions 2.0.0
    and 1.0.1 of the protocol, which a server can ask for, [A1] is cut at a zero
    byte of its first digest, if there is one ([tsp_A1]).  The version is one of
    the four that the client knows; the user name, the password and the name of the
    server have at most 2^20 bytes, and the time that serves as client nonce is
    below 10^15. *)
Theorem digest_success_is_mutual v cnonce reply1 written reply2 reply3 l h l' line h' :
  (forall k, byte_ok (garbage k)) -> (forall k, length (stack k) = 64%nat) ->
  text_ok userid -> text_ok passwd -> text_ok server -> 0 <= cnonce < 10 ^ 15 -> 0 <= v < 4 ->
  dialogue v cnonce reply1 written reply2 reply3 l h = Ok ((SUCCESS, l', line), h') ->
  let cn := decimal_digits 20 cnonce in
  l' = l /\ written = true /\
  exists c1 c2 r n q ch rsp data3 response,
    challenges reply1 l c1 /\ realm c1 = Some r /\ nonce c1 = Some n /\ qop c1 = Some q /\ charset c1 = Some ch /\
    response = encode_groups (print_Response ch (escaped userid) r n cn server
                 (tsp_digest v (str "AUTHENTICATE") userid r passwd n cn q server)) /\
    line = Some (printed_line response) /\
    challenges reply2 l c2 /\ rspauth c2 = Some rsp /\ take 32 (rsp ++ [0]) = tsp_digest v [] userid r passwd n cn q server /\
    reply3 = Some data3 /\
    tspGetStatusCode (blit 0 (take RESPONSE_BUFFER_SIZE data3) (response ++ repeat 0 (RESPONSE_BUFFER_SIZE - length response))) = TSP_PROTOCOL_SUCCESS.
Proof.
  intros Hg Hst Hu Hp Hs Hcn Hv E cn. unfold dialogue, AuthDIGEST_MD5 in E. destruct reply1 as [data1|]; [|done].
  apply st_bind_inv in E as (x & h1 & E1 & E). pose proof (challenge_fields data1 l Hg h x h1 E1) as Hx. destruct x as [[s1 l1]|c1]; [by injection E as -> _ _ _|].
  apply st_bind_inv in E as ([[B R]|] & h2 & E2 & E); [|done].
  apply build_response_inv in E2 as (r & n & q & ch & Er & En & Eq & Ech & EB & HB & ER); [|done..|unfold CLIENT_VERSION_INDEX_2_0_0 in Hv; split; lia].
  destruct (if written then reply2 else Some []) as [data2|] eqn:E2; [|done].
  apply st_bind_inv in E as (x & h3 & E3 & E). pose proof (challenge_fields data2 l Hg h2 x h3 E3) as Hx2. destruct x as [[s2 l2]|c2]; [by injection E as -> _ _ _|].
  apply lift_inv in E as (rsp & Ersp%non_null_inv & E). apply lift_inv in E as (d & Ed & E). destruct d; [done|]. destruct reply3 as [data3|]; [|done].
  assert (written = true) as ->.
  { destruct written; [done|]. injection E2 as <-. by rewrite (silence_no_rspauth _ _ _ _ E3) in Ersp. }
  set (status := tspGetStatusCode _) in E. destruct (tspIsRedirectStatus status).
  { apply st_bind_inv in E as ([s3 l3] & h4 & E4 & E). injection E as -> _ _ _. by apply redirect_status in E4. }
  destruct (Z.eqb_spec status TSP_PROTOCOL_SUCCESS) as [Hstatus|]; [|by destruct (status =? TSP_PROTOCOL_AUTH_FAILED)]. injection E as <- <- _.
  split; [done|]. split; [done|]. exists c1, c2, r, n, q, ch, rsp, data3, B. split_and!; try done.
  - by exists data1, h, h1.
  - by exists data2, h2, h3.
  - subst cn. rewrite <- ER. apply differs_inv in Ed; [done|]. rewrite ER. apply length_tsp_digest.
Qed.

(** *** A server that keeps to the protocol *)

Lemma atoi_letter y r : 65 <= y <= 122 -> atoi (y :: r) = 0.
Proof.
  intros Hy. unfold atoi, atol. assert (skip_spaces (y :: r) = y :: r) as ->.
  { cbn [skip_spaces]. assert (is_space y = false) as -> by (unfold is_space; lia). done. }
  assert (digits 0 (y :: r) = 0) as Hd by (cbn [digits]; by assert (is_digit y = false) as -> by (unfold is_digit; lia)).
  replace (match y with 45 => _ | 43 => _ | _ => _ end) with (Z.max (- 2 ^ 63) (Z.min (2 ^ 63 - 1) (digits 0 (y :: r)))); [by rewrite Hd|].
  destruct y as [|y|y]; [lia| |lia]. do 6 (destruct y as [y|y|]; try done; try lia).
Qed.

(** The line that holds a text. *)
Definition base64_line (s : list Z) : list Z := encode_groups s ++ [CR; LF].

Lemma honest_challenge ds l h :
  all_ok malloc_ok -> ds <> [] -> Forall directive_ok ds -> (length (base64_line (challenge_text ds)) < REDIRECT_RECEIVE_BUFFER_SIZE)%nat ->
  exists h', challenge (reply_buffer (base64_line (challenge_text ds))) l h = Ok (inr (fields ds no_challenge), h').
Proof.
  intros Hm Hne Hds Hlen. set (t := challenge_text ds) in *.
  assert (Forall (fun c => byte_ok c /\ c <> 0) t) as Hchars by (by apply challenge_text_chars).
  assert (bytes_ok t) as Ht by (eapply list.Forall_impl; [exact Hchars|]; by intros c []).
  pose proof (encode_cstring t Ht) as Hc. pose proof (length_encode_ge t Ht) as Hge.
  assert (exists z, reply_buffer (base64_line t) = encode_groups t ++ CR :: LF :: 0 :: repeat 0 z) as [z Hbuf].
  { unfold reply_buffer, received, base64_line, REDIRECT_RECEIVE_BUFFER_SIZE. rewrite take_ge by (unfold REDIRECT_RECEIVE_BUFFER_SIZE, base64_line in Hlen; lia).
    destruct (4096 - length (encode_groups t ++ [CR; LF]))%nat as [|k] eqn:Ek; [unfold REDIRECT_RECEIVE_BUFFER_SIZE, base64_line in Hlen; lia|].
    exists k. cbn [repeat]. app_eq. }
  unfold challenge, read_challenge. rewrite Hbuf.
  assert (tspGetStatusCode (encode_groups t ++ CR :: LF :: 0 :: repeat 0 z) = 0) as ->.
  { destruct (first_char ds Hne Hds) as (x & w & Ew & Hx). fold t in Ew. destruct (encode_letter x w) as (y & r & Ey & Hy); [unfold name_char in Hx; lia|].
    rewrite Ew, Ey. unfold tspGetStatusCode. by apply atoi_letter. }
  change (tspIsRedirectStatus 0) with false. change (0 =? TSP_PROTOCOL_AUTH_FAILED) with false. cbv beta iota.
  assert (strlen_at 0 (encode_groups t ++ CR :: LF :: 0 :: repeat 0 z) = Ok (length (encode_groups t ++ [CR; LF]))) as ->.
  { replace (encode_groups t ++ CR :: LF :: 0 :: repeat 0 z) with ((encode_groups t ++ [CR; LF]) ++ 0 :: repeat 0 z) by app_eq.
    apply strlen_at_text, Forall_app. split; [eapply list.Forall_impl; [exact Hc|]; intros c Hcc; unfold char_ok in Hcc; lia|by repeat constructor]. }
  rewrite lift_ok, malloc_step by done. cbn [negb]. rewrite base64decode_ok by (done || (rewrite length_app; lia)). rewrite lift_ok.
  set (n := length (encode_groups t ++ [CR; LF])). assert (length t <= n)%nat by (subst n; rewrite length_app; lia).
  replace (take (S n) (t ++ 0 :: (garbage <$> seq 0 n))) with (t ++ 0 :: take (n - length t) (garbage <$> seq 0 n)).
  2: { rewrite take_app_ge by lia. replace (S n - length t)%nat with (S (n - length t)) by lia. done. }
  set (h1 := mk_heap _ _). destruct (ExtractChallenge_text malloc_ok ds (take (n - length t) (garbage <$> seq 0 n)) h1 Hm Hne Hds) as [h2 E2].
  rewrite (bind_ok _ _ _ _ _ E2), free_step. by eexists.
Qed.

Lemma differs_ok p q : length p = 32%nat -> length q = 32%nat -> differs 32 p q = Ok (negb (bool_decide (p = q))).
Proof.
  intros Hp Hq. unfold differs, guard_or. rewrite (proj2 (Nat.leb_le _ _)) by lia. cbn [mbind res_bind]. rewrite take_app_exact, take_ge by lia.
  destruct (decide (p = q)) as [->|Hne]; [by rewrite mem_eqb_refl, bool_decide_eq_true_2|]. rewrite bool_decide_eq_false_2 by done.
  destruct (mem_eqb p q) eqn:E; [by apply mem_eqb_true in E|done].
Qed.

(** (C15) A dialogue with a server that keeps to the protocol: the client answers the
    challenge, whatever the order and the quotes of its directives, with the line
    that RFC 2831 asks for (with [A1] cut at a zero byte in the versions 2.0.0 and
    1.0.1), and its verdict is exact: it reports success when the server proves that
    it knows the password, and a failed authentication when the proof is any other
    value of 32 characters.  Conditions: the challenge has the directives realm,
    nonce, qop and also charset, which the RFC makes optional; names and values are
    not empty, values hold no comma, line end or zero byte, and an unquoted one does
    not begin or end with a quote; the two replies of the server fit the buffer of
    4096 bytes, the response line is shorter than 1024 bytes and the user name, with
    its quotes escaped, than 512; the other texts have at most 2^20 bytes and the
    time is below 10^15; every allocation succeeds, the response is written, and the
    last reply begins with 200. *)
Theorem digest_verdict_exact v cnonce ds1 ds2 r n q ch proof more l h :
  all_ok malloc_ok -> (forall k, byte_ok (garbage k)) -> (forall k, length (stack k) = 64%nat) ->
  text_ok userid -> text_ok passwd -> text_ok server -> 0 <= cnonce < 10 ^ 15 -> 0 <= v < 4 ->
  ds1 <> [] -> Forall directive_ok ds1 -> (length (base64_line (challenge_text ds1)) < REDIRECT_RECEIVE_BUFFER_SIZE)%nat ->
  ds2 <> [] -> Forall directive_ok ds2 -> (length (base64_line (challenge_text ds2)) < REDIRECT_RECEIVE_BUFFER_SIZE)%nat ->
  last_value (str "realm") ds1 None = Some r -> last_value (str "nonce") ds1 None = Some n ->
  last_value (str "qop") ds1 None = Some q -> last_value (str "charset") ds1 None = Some ch ->
  last_value (str "rspauth") ds2 None = Some proof -> length proof = 32%nat ->
  let cn := decimal_digits 20 cnonce in
  let text := print_Response ch (escaped userid) r n cn server (tsp_digest v (str "AUTHENTICATE") userid r passwd n cn q server) in
  (length (escaped userid) < USERID_SIZE)%nat -> (length (base64_line text) < PRINTF_BUFFER_SIZE)%nat ->
  exists h', dialogue v cnonce (Some (base64_line (challenge_text ds1))) true (Some (base64_line (challenge_text ds2))) (Some (str "200" ++ CR :: more)) l h =
    Ok ((if bool_decide (proof = tsp_digest v [] userid r passwd n cn q server) then SUCCESS else ERR_AUTHENTICATION_FAILURE, l, Some (base64_line text)), h').
Proof.
  intros Hm Hg Hst Hu Hp Hs Hcn Hv Hne1 Hds1 Hl1 Hne2 Hds2 Hl2 Er En Eq Ech Ersp Hproof cn text Hesc Hline. unfold dialogue, AuthDIGEST_MD5.
  destruct (honest_challenge ds1 l h Hm Hne1 Hds1 Hl1) as [h1 E1]. pose proof (challenge_fields _ l Hg h _ h1 E1) as (H1 & H2 & H3 & _ & H5 & _).
  cbn [fields realm nonce qop charset no_challenge] in H1, H2, H3, H5. apply H1 in Er as Hr. apply H2 in En as Hn. apply H3 in Eq as Hq. apply H5 in Ech as Hch.
  rewrite (bind_ok _ _ _ _ _ E1).
  assert (decimal_digits 20 (wrap 64 cnonce) = cn) as Ecn by (unfold wrap; by rewrite Z.mod_small by lia).
  rewrite (bind_ok _ _ _ _ _ (build_response_ok malloc_ok stack userid passwd server Hst Hu Hp Hs v cnonce Hcn r n q ch Hr Hn Hq Hch Hv
    (fields ds1 no_challenge) h1 Hm Er En Eq Ech Hesc ltac:(rewrite Ecn; unfold base64_line, PRINTF_BUFFER_SIZE in Hline; rewrite length_app in Hline; unfold client_text, RESPONSE_BUFFER_SIZE; fold text; lia))).
  rewrite Ecn. unfold client_text. fold text. set (h2 := mk_heap _ _). cbn [Nat.eqb].
  destruct (honest_challenge ds2 l h2 Hm Hne2 Hds2 Hl2) as [h3 E3]. rewrite (bind_ok _ _ _ _ _ E3). cbn [fields rspauth no_challenge].
  rewrite Ersp. cbn [non_null from_option]. rewrite lift_ok, differs_ok by (done || apply length_tsp_digest). rewrite lift_ok.
  assert (printed_line (encode_groups text) = base64_line text) as -> by (unfold printed_line; apply take_ge; lia).
  case_bool_decide; cbn [negb]; [|by eexists].
  change (take RESPONSE_BUFFER_SIZE (str "200" ++ CR :: more)) with (50 :: 48 :: 48 :: 13 :: take 4092 more). unfold blit. cbn [take app].
  eexists. reflexivity.
Qed.

(** The dialogue keeps the contract of a step of the session: it is the argument
    [digest] of [tspAuthenticate]. *)
Definition digest_step (v cnonce : Z) (reply1 : option (list Z)) (written : bool) (reply2 reply3 : option (list Z)) (l : list tBroker) :
    st heap (status_code * list tBroker) := r ← dialogue v cnonce reply1 written reply2 reply3 l; mret (fst r).

Lemma redirect_keeps payload l : yields (redirect payload l) (fun r => keeps_list l (fst r) (snd r)).
Proof. intros h [s l'] h' E. by eapply handle_redirect_keeps. Qed.

Lemma challenge_keeps buf l : yields (challenge buf l) (fun x => match x with inl r => keeps_list l (fst r) (snd r) | inr _ => True end).
Proof.
  unfold challenge, read_challenge. apply yields_if; intros _; [eapply yields_bind; [apply redirect_keeps|]; intros r Hr; by apply yields_ret|].
  apply yields_if; intros _; [apply yields_ret; by apply keeps_same|]. eapply yields_bind; [apply yields_any|]. intros n _.
  eapply yields_bind; [apply yields_any|]. intros ok _. apply yields_if; intros _; [apply yields_ret; by apply keeps_same|].
  do 3 (eapply yields_bind; [apply yields_any|]; intros ? _). by apply yields_ret.
Qed.

Lemma digest_keeps v cnonce reply1 written reply2 reply3 l h s l' h' :
  digest_step v cnonce reply1 written reply2 reply3 l h = Ok ((s, l'), h') -> keeps_list l s l'.
Proof.
  revert h s l' h'. enough (yields (digest_step v cnonce reply1 written reply2 reply3 l) (fun r => keeps_list l (fst r) (snd r))) as H
    by (intros h s l' h' E; exact (H h (s, l') h' E)).
  unfold digest_step, dialogue, AuthDIGEST_MD5. apply (yields_bind _ _ (fun r => keeps_list l (fst (fst r)) (snd (fst r)))); [|intros r Hr; by apply yields_ret].
  destruct reply1 as [data1|]; [|apply yields_ret; by apply keeps_same]. eapply yields_bind; [apply challenge_keeps|]. intros [r|c] Hr; [by apply yields_ret|].
  eapply yields_bind; [apply yields_any|]. intros [[B R]|] _; [|apply yields_ret; by apply keeps_same].
  destruct (if written then reply2 else Some []) as [data2|]; [|apply yields_ret; by apply keeps_same].
  eapply yields_bind; [apply challenge_keeps|]. intros [r|c2] Hr2; [by apply yields_ret|].
  do 2 (eapply yields_bind; [apply yields_any|]; intros ? _). apply yields_if; intros _; [apply yields_ret; by apply keeps_same|].
  destruct reply3 as [data3|]; [|apply yields_ret; by apply keeps_same]. cbv zeta.
  apply yields_if; intros _; [eapply yields_bind; [apply redirect_keeps|]; intros r Hr3; by apply yields_ret|].
  repeat (apply yields_if; intros _; [apply yields_ret; by apply keeps_same|]). apply yields_ret; by apply keeps_same.
Qed.
End dialogue.

(** ** The steps of a session *)

(** (C13) The steps of a session refine what the connection loop assumes of them:
    whatever the server replies, whichever authentication is chosen, and
    whatever memory and threads are refused, a step that returns on the broker
    list of the client is represented by the answer that the loop is told, so
    the list that the loop goes on with is the list that the step left; only a
    redirection changes it, and a redirection event never leaves it empty.
    The digest dialogue is the one of this file.  Of the PASSDSS dialogue
    ([tsp_auth_passdss.c]) the exchange of keys through OpenSSL is replaced by
    its outcome, any of its three errors or any last reply; the XML parser is
    any function.  Steps that fault (a few replies make the dialogues read
    outside a buffer, as the findings say) are not covered. *)
Theorem session_steps_contract malloc_ok thread_ok join_ok echo xml open_ok write_ok garbage stack userid passwd server
    exchange dv cnonce reply1 written reply2 reply3
    auth_method cap reply sent buffer header plin pl areply chunks ack v l h :
  let passdss := AuthPASSDSS_3DES_1 malloc_ok thread_ok join_ok echo xml open_ok write_ok exchange in
  let digest := digest_step malloc_ok thread_ok join_ok echo xml open_ok write_ok garbage stack userid passwd server
                  dv cnonce reply1 written reply2 reply3 in
  (forall st c l' h',
     tspGetCapabilities malloc_ok thread_ok join_ok echo xml open_ok write_ok reply l h = Ok ((st, c, l'), h') ->
     represents l (observed st l') st l') /\
  (forall st l' h',
     tspAuthenticate malloc_ok thread_ok join_ok echo xml open_ok write_ok passdss digest auth_method cap sent buffer l h
       = Ok ((st, l'), h') -> represents l (observed st l') st l') /\
  (forall st l' h',
     tspTunnelNegotiation malloc_ok thread_ok join_ok echo xml open_ok write_ok v header plin pl areply chunks ack l h
       = Ok ((st, l'), h') -> represents l (observed st l') st l').
Proof.
  intros passdss digest. split_and!.
  - intros st c l' h' E. by eapply observed_represents, tspGetCapabilities_keeps.
  - intros st l' h' E. apply observed_represents. unfold tspAuthenticate in E.
    destruct (tspAuthenticate_choice auth_method cap) as [[]|].
    + by eapply AuthPASSDSS_keeps.
    + by eapply digest_keeps.
    + by eapply AuthPLAIN_keeps.
    + by eapply AuthANONYMOUS_keeps.
    + injection E as <- <- _. by apply keeps_same.
  - intros st l' h' E. by eapply observed_represents, tspTunnelNegotiation_keeps.
Qed.

Lemma session_steps_contract_witness :
  exists st l' h',
    tspAuthenticate (fun _ => true) (fun _ => true) (fun _ => true) (fun _ => 0) (fun _ => Ok None) true (fun _ => true)
      (AuthPASSDSS_3DES_1 (fun _ => true) (fun _ => true) (fun _ => true) (fun _ => 0) (fun _ => Ok None) true (fun _ => true)
         (inr [50; 48; 48; 0]))
      (digest_step (fun _ => true) (fun _ => true) (fun _ => true) (fun _ => 0) (fun _ => Ok None) true (fun _ => true)
         (fun _ => 0) (fun _ => repeat 0 64) [] [] [] 0 0 None true None None)
      str_any AUTH_PASSDSS_3DES_1 true None [] (mk_heap 0 0) = Ok ((st, l'), h') /\
    represents [] (observed st l') st l'.
Proof.
  eexists _, _, _. split; [vm_compute; reflexivity|].
  refine (proj1 (proj2 (session_steps_contract (fun _ => true) (fun _ => true) (fun _ => true) (fun _ => 0)
    (fun _ => Ok None) true (fun _ => true) (fun _ => 0) (fun _ => repeat 0 64) [] [] [] (inr [50; 48; 48; 0]) 0 0 None true None None
    str_any AUTH_PASSDSS_3DES_1 None true None [] [] true None [] true 0 [] (mk_heap 0 0))) _ _ (mk_heap 0 0) _).
  vm_compute. reflexivity.
Defined.

(** ** Examples *)

Definition example_challenge : list directive := [
  mk_directive (str "realm") (str "hexago") true; mk_directive (str "nonce") (str "OA6MG9tEQGm2hh") true;
  mk_directive (str "qop") (str "auth") true; mk_directive (str "algorithm") (str "md5-sess") false;
  mk_directive (str "charset") (str "utf-8") false ].

(** What the server must prove to know. *)
Definition example_rsp : list Z :=
  tsp_digest 0 [] (str "bob") (str "hexago") (str "secret") (str "OA6MG9tEQGm2hh") (decimal_digits 20 1300000000) (str "auth") (str "tsp.org").
Definition example_proof : list directive := [mk_directive (str "rspauth") example_rsp false].

Notation example_dialogue := (AuthDIGEST_MD5 (fun _ => true) (fun _ => true) (fun _ => true) (fun _ => 0) (fun _ => Ok None) true (fun _ => true)
  (fun _ => 0) (fun _ => repeat 0 64) (str "bob") (str "secret") (str "tsp.org")).

(** The directive [charset] is optional, but the client needs it. *)
Example challenge_without_charset_crashes :
  example_dialogue 0 1300000000 (Some (base64_line (challenge_text (take 4 example_challenge)))) true None None [] (mk_heap 0 0) = Err NullDeref.
Proof. vm_compute. reflexivity. Qed.

(** So does any refusal other than 300. *)
Example busy_server_crashes :
  example_dialogue 0 1300000000 (Some (str "530 Server too busy" ++ [CR; LF])) true None None [] (mk_heap 0 0) = Err NullDeref.
Proof. vm_compute. reflexivity. Qed.

(** A challenge that ends with a comma is read past its terminator. *)
Example trailing_comma_overread :
  ExtractChallenge (fun _ => true) (challenge_text example_challenge ++ [44; 0]) (mk_heap 0 0) = Err OutOfBounds.
Proof. vm_compute. reflexivity. Qed.

(** The texts of a challenge are never released. *)
Example challenge_leaks :
  match ExtractChallenge (fun _ => true) (challenge_text example_challenge ++ [0]) (mk_heap 0 0) with Ok (_, h) => hp_live h = 5 | Err _ => False end.
Proof. vm_compute. reflexivity. Qed.

(** The conditions on a directive, as a test. *)
Definition directive_okb (d : directive) : bool :=
  negb (bool_decide (dir_name d = [])) && forallb (fun c => (33 <=? c) && (c <? 127) && negb (c =? 61) && negb (c =? 44)) (dir_name d) &&
  negb (bool_decide (dir_value d = [])) && forallb (fun c => (0 <=? c) && (c <? 256) && negb (is_end c)) (dir_value d) &&
  (dir_quoted d || negb (bool_decide (head (dir_value d) = Some 34)) && negb (bool_decide (list.last (dir_value d) = Some 34))).

Lemma directive_okb_ok ds : forallb directive_okb ds = true -> Forall directive_ok ds.
Proof.
  rewrite forallb_forall. intros H. apply list.Forall_forall. intros d Hd%list_elem_of_In. specialize (H d Hd). unfold directive_okb in H.
  apply andb_true_iff in H as [H Hq]. apply andb_true_iff in H as [H Hv]. apply andb_true_iff in H as [H Hnv]. apply andb_true_iff in H as [Hnn Hn].
  rewrite forallb_forall in Hn, Hv. reflect_bools. split_and!; [done| |done| |].
  - apply list.Forall_forall. intros c Hc%list_elem_of_In. specialize (Hn c Hc). unfold name_char. lia.
  - apply list.Forall_forall. intros c Hc%list_elem_of_In. specialize (Hv c Hc). apply andb_true_iff in Hv as [Hb He%negb_true_iff]. split; [unfold byte_ok; lia|done].
  - intros Eq. rewrite Eq in Hq. cbn [orb] in Hq. reflect_bools. done.
Qed.

Lemma example_texts : Forall directive_ok example_challenge /\ Forall directive_ok example_proof.
Proof. split; apply directive_okb_ok; vm_compute; reflexivity. Qed.

Lemma short_text s : (length s <=? 1000)%nat = true -> forallb (fun c => (0 <=? c) && (c <? 256)) s = true -> text_ok s.
Proof.
  intros Hl%Nat.leb_le Hs. split; [|lia]. rewrite forallb_forall in Hs. apply list.Forall_forall. intros c Hc%list_elem_of_In.
  specialize (Hs c Hc). unfold byte_ok. lia.
Qed.

Lemma digest_verdict_exact_witness :
  exists line h', example_dialogue 0 1300000000 (Some (base64_line (challenge_text example_challenge))) true
    (Some (base64_line (challenge_text example_proof))) (Some (str "200" ++ CR :: str " Success")) [] (mk_heap 0 0) = Ok ((SUCCESS, [], line), h').
Proof.
  eexists. destruct (digest_verdict_exact (fun _ => true) (fun _ => true) (fun _ => true) (fun _ => 0) (fun _ => Ok None) true (fun _ => true)
    (fun _ => 0) (fun _ => repeat 0 64) (str "bob") (str "secret") (str "tsp.org") 0 1300000000 example_challenge example_proof
    (str "hexago") (str "OA6MG9tEQGm2hh") (str "auth") (str "utf-8") example_rsp (str " Success") [] (mk_heap 0 0)) as [h' E];
    [done|by intros k|by intros k|apply short_text; vm_compute; reflexivity|apply short_text; vm_compute; reflexivity|apply short_text; vm_compute; reflexivity|by split|by split|done|apply example_texts
    |apply Nat.ltb_lt; vm_compute; reflexivity|done|apply example_texts|apply Nat.ltb_lt; vm_compute; reflexivity|vm_compute; reflexivity|vm_compute; reflexivity|vm_compute; reflexivity|vm_compute; reflexivity|vm_compute; reflexivity|vm_compute; reflexivity
    |apply Nat.ltb_lt; vm_compute; reflexivity|apply Nat.ltb_lt; vm_compute; reflexivity|].
  rewrite bool_decide_eq_true_2 in E by reflexivity. exists h'. exact E.
Defined.

Lemma example_success : exists line h',
  example_dialogue 0 1300000000 (Some (base64_line (challenge_text example_challenge))) true
    (Some (base64_line (challenge_text example_proof))) (Some (str "200" ++ [CR; LF])) [] (mk_heap 0 0) = Ok ((SUCCESS, [], line), h').
Proof. eexists _, _. vm_compute. reflexivity. Qed.

Lemma digest_success_is_mutual_witness :
  exists c1 r n q rsp, realm c1 = Some r /\ nonce c1 = Some n /\ qop c1 = Some q /\
    take 32 (rsp ++ [0]) = tsp_digest 0 [] (str "bob") r (str "secret") n (decimal_digits 20 1300000000) q (str "tsp.org").
Proof.
  destruct example_success as (line & h' & E).
  destruct (digest_success_is_mutual (fun _ => true) (fun _ => true) (fun _ => true) (fun _ => 0) (fun _ => Ok None) true (fun _ => true)
    (fun _ => 0) (fun _ => repeat 0 64) (str "bob") (str "secret") (str "tsp.org") 0 1300000000
    (Some (base64_line (challenge_text example_challenge))) true (Some (base64_line (challenge_text example_proof))) (Some (str "200" ++ [CR; LF])) [] (mk_heap 0 0) [] line h'
    (fun k => conj (Z.le_refl 0) eq_refl) (fun k => eq_refl)) as (_ & _ & c1 & c2 & r & n & q & ch & rsp & data3 & response & _ & Er & En & Eq & _ & _ & _ & _ & _ & Hrsp & _);
    [apply short_text; vm_compute; reflexivity|apply short_text; vm_compute; reflexivity|apply short_text; vm_compute; reflexivity|by split|by split|exact E|].
  exists c1, r, n, q, rsp. exact (conj Er (conj En (conj Eq Hrsp))).
Defined.
