(* ===== verification/EchoRequest.v ===== *)
(** * Measuring the distance of a broker ([gogoc-tsp/src/net/net_echo_request.c])

The client sends a TSP echo request over reliable UDP to each broker of a
redirection and takes the time of the round trip for its distance; a broker
that cannot be measured gets a penalty.  The engine is the one of [Rudp], with
statistics of its own; the distances are those that [Redirect] sorts by.
Names, sockets, clocks and allocations are inputs. *)

From Stdlib Require Import Sorted.
From stdpp Require Import base gmap list numbers.
From S2P Require Import Prelude Words Float32 Rudp CString Redirect TspClient TspSession.

(** ** Data *)

Definition ECHO_REQUEST_COMMAND : list Z := [69; 67; 72; 79; 32; 82; 69; 81; 85; 69; 83; 84].
Definition ECHO_REQUEST_SUCCESS_STATUS : Z := 200.
Definition ECHO_REQUEST_IN_BUF_SIZE : nat := 4096.
Definition ECHO_REQUEST_TIMEOUT : Z := 10 * 1000.
Definition ECHO_REQUEST_TIMEOUT_ADJUST : Z := ECHO_REQUEST_TIMEOUT * 2.
Definition ECHO_REQUEST_ERROR_ADJUST : Z := ECHO_REQUEST_TIMEOUT * 2.
Definition ECHO_REQUEST_WRONG_FAMILY_ADJUST : Z := ECHO_REQUEST_TIMEOUT * 3.
Definition ECHO_REQUEST_ATTEMPTS : Z := 3.

Inductive tSocketAddressStatus :=
| SOCKET_ADDRESS_OK | SOCKET_ADDRESS_WRONG_FAMILY | SOCKET_ADDRESS_PROBLEM_RESOLVING | SOCKET_ADDRESS_ERROR.

#[export] Instance tSocketAddressStatus_eq_dec : EqDecision tSocketAddressStatus.
Proof. solve_decision. Defined.

(** The families of the addresses that the resolver returns. *)
Inductive ai_family := AF_INET | AF_INET6 | AF_OTHER.

#[export] Instance ai_family_eq_dec : EqDecision ai_family.
Proof. solve_decision. Defined.

(** What the exchange waits for: a datagram comes with the two readings of
    the clock that follow it. *)
Inductive echo_wait :=
| EWTimeout
| EWPacket (pkt : list Z) (stamp1 stamp2 : option timeval)
| EWRecvError
| EWSelectError.

Record echo_attempt := mk_echo_attempt {
  ea_stamp : option timeval;
  ea_sent : bool;
  ea_waits : list echo_wait;
}.

(** ** The exchange *)

Inductive echo_waited :=
| EExpired (im : list Z)
| EGot (ret : Z) (im : list Z) (stamp1 stamp2 : option timeval)
| EBroken
| EWaiting.

Fixpoint echo_wait_loop (waits : list echo_wait) (omh_sequence im : list Z) : echo_waited :=
  match waits with
  | [] => EWaiting
  | EWTimeout :: _ => EExpired im
  | EWPacket pkt stamp1 stamp2 :: waits' =>
    let received := take (length im) pkt in
    let im' := blit 0 received im in
    if mem_eqb (take 4 im') omh_sequence
    then EGot (Z.of_nat (length received) - Z.of_nat rudp_msghdr_t) im' stamp1 stamp2
    else echo_wait_loop waits' omh_sequence im'
  | (EWRecvError | EWSelectError) :: _ => EBroken
  end.

Definition add_distance (d x : Z) : Z := wrap 32 (d + x).

Inductive echo_outcome :=
| EDone (status : tRedirectStatus) (distance : Z)
| EReply (distance ret : Z) (im : list Z) (stamp2 : option timeval)
| EUnfinished.

(** From the label [send_loop]. *)
Fixpoint echo_send_loop (attempts : list echo_attempt) (om im : list Z) (distance : Z) (r : rudp) : echo_outcome * rudp :=
  let s := rttengine_stats r in
  if retries s =? ECHO_REQUEST_ATTEMPTS
  then (EDone TSP_REDIRECT_ECHO_REQUEST_TIMEOUT (add_distance distance ECHO_REQUEST_TIMEOUT_ADJUST), rttengine_deinit 2 r) else
  match attempts with
  | [] => (EUnfinished, r)
  | a :: attempts' =>
    let now := internal_get_timestamp s (ea_stamp a) in
    let om := blit 4 (be32 now) om in
    if negb (ea_sent a)
    then (EDone TSP_REDIRECT_ECHO_REQUEST_ERROR (add_distance distance ECHO_REQUEST_ERROR_ADJUST), rttengine_deinit 2 r) else
    match echo_wait_loop (ea_waits a) (take 4 om) im with
    | EExpired im => echo_send_loop attempts' om im distance (set_stats (set_retries (retries s + 1)) r)
    | EGot ret im stamp1 stamp2 =>
      (EReply (add_distance distance (wrap 32 (internal_get_timestamp s stamp1 - now))) ret im stamp2, r)
    | EBroken =>
      (EDone TSP_REDIRECT_ECHO_REQUEST_ERROR (add_distance distance ECHO_REQUEST_ERROR_ADJUST), rttengine_deinit 2 r)
    | EWaiting => (EUnfinished, r)
    end
  end.

(** The status and the distance; [None] while the call waits. *)
Definition timeEchoRequestReply (mi mo : option (nat -> Z)) (attempts : list echo_attempt) (distance : Z) (r : rudp) :
    res (option (tRedirectStatus * Z) * rudp) :=
  let s := rttengine_stats r in
  match mi, mo with
  | Some gi, Some go =>
    let r := alloc_blocks 2 r in
    let im := blit 0 (repeat 0 ECHO_REQUEST_IN_BUF_SIZE) (block (ECHO_REQUEST_IN_BUF_SIZE + rudp_msghdr_t) gi) in
    let om := blit 0 (repeat 0 (length ECHO_REQUEST_COMMAND)) (block (length ECHO_REQUEST_COMMAND + rudp_msghdr_t) go) in
    let om := blit 8 ECHO_REQUEST_COMMAND om in
    let om := blit 0 (be32 (Z.lor (sequence s) 4026531840)) om in
    let r := set_stats (set_sequence (wrap 32 (sequence s + 1))) r in
    match echo_send_loop attempts om im distance r with
    | (EUnfinished, r) => Ok (None, r)
    | (EDone status distance, r) => Ok (Some (status, distance), r)
    | (EReply distance ret im stamp2, r) =>
      ts ← slice 4 4 im;
      let s' := rttengine_stats r in
      let s' := rttengine_update (wrap 32 (internal_get_timestamp s' stamp2 - le_load (rev ts))) s' in
      _ ← guard_or OutOfBounds (0 <=? ret);
      data ← slice 8 (Z.to_nat ret) im;
      let data_in := blit 0 data (repeat 0 ECHO_REQUEST_IN_BUF_SIZE) in
      let r := free_blocks 2 (set_stats (fun _ => set_retries 0 s') r) in
      Ok (Some (if tspGetStatusCode data_in =? ECHO_REQUEST_SUCCESS_STATUS
                then TSP_REDIRECT_OK else TSP_REDIRECT_ECHO_REQUEST_ERROR, distance), r)
    end
  | _, _ =>
    let n := (if mi then 1 else 0) + (if mo then 1 else 0) in
    Ok (Some (TSP_REDIRECT_ECHO_REQUEST_ERROR, add_distance distance ECHO_REQUEST_ERROR_ADJUST),
        rttengine_deinit n (alloc_blocks n r))
  end.

(** ** Addresses and sockets *)

(** The status and the address that is chosen; [getaddrinfo] returns [None]
    on failure, otherwise a non-empty list. *)
Definition getSocketAddress (address_type : tBrokerAddressType) (tunnel_mode : tTunnelMode)
    (getaddrinfo : option (ai_family * list ai_family)) : tSocketAddressStatus * option ai_family :=
  let need_v6_endpoint := bool_decide (tunnel_mode = V4V6) in
  match address_type with
  | TSP_REDIRECT_BROKER_TYPE_NONE => (SOCKET_ADDRESS_ERROR, None)
  | _ =>
    match getaddrinfo with
    | None => (SOCKET_ADDRESS_PROBLEM_RESOLVING, None)
    | Some (first, rest) =>
      match address_type with
      | TSP_REDIRECT_BROKER_TYPE_IPV4 =>
        (if need_v6_endpoint then SOCKET_ADDRESS_WRONG_FAMILY else SOCKET_ADDRESS_OK, Some first)
      | TSP_REDIRECT_BROKER_TYPE_IPV6 =>
        (if need_v6_endpoint then SOCKET_ADDRESS_OK else SOCKET_ADDRESS_WRONG_FAMILY, Some first)
      | _ =>
        let wanted := if need_v6_endpoint then AF_INET6 else AF_INET in
        if existsb (fun f => bool_decide (f = wanted)) (first :: rest)
        then (SOCKET_ADDRESS_OK, Some wanted) else (SOCKET_ADDRESS_WRONG_FAMILY, Some first)
      end
    end
  end.

(** Allocated blocks, resolver results and sockets. *)
Record echo_sys := mk_echo_sys { es_live : Z; es_infos : Z; es_sockets : Z }.

Record echo_env := mk_echo_env {
  en_getaddrinfo : option (ai_family * list ai_family);
  en_socket : bool;
  en_connect : bool;
  en_engine : bool;              (* the allocation of the engine *)
  en_clock : option timeval;     (* the clock that the engine starts with *)
  en_im : option (nat -> Z);
  en_om : option (nat -> Z);
  en_attempts : list echo_attempt;
}.

Definition createConnectedSocket (e : echo_env) (f : ai_family) (y : echo_sys) : bool * echo_sys :=
  match f with
  | AF_OTHER => (false, y)
  | _ =>
    if negb (en_socket e) then (false, y) else
    let y := mk_echo_sys (es_live y) (es_infos y) (es_sockets y + 1) in
    (en_connect e, y)
  end.

Definition destroySocket (y : echo_sys) : echo_sys := mk_echo_sys (es_live y) (es_infos y) (es_sockets y - 1).
Definition freeaddrinfo (y : echo_sys) : echo_sys := mk_echo_sys (es_live y) (es_infos y - 1) (es_sockets y).
Definition es_alloc (n : Z) (y : echo_sys) : echo_sys := mk_echo_sys (es_live y + n) (es_infos y) (es_sockets y).

Definition tspDoEchoRequest (address_type : tBrokerAddressType) (tunnel_mode : tTunnelMode) (e : echo_env) (y : echo_sys) :
    res (option (tRedirectStatus * Z) * echo_sys) :=
  let '(socket_address_status, address_info) := getSocketAddress address_type tunnel_mode (en_getaddrinfo e) in
  let y := if address_info then mk_echo_sys (es_live y) (es_infos y + 1) (es_sockets y) else y in
  match socket_address_status, address_info with
  | (SOCKET_ADDRESS_OK | SOCKET_ADDRESS_WRONG_FAMILY), Some f =>
    let distance := match socket_address_status with
                    | SOCKET_ADDRESS_WRONG_FAMILY => ECHO_REQUEST_WRONG_FAMILY_ADJUST
                    | _ => 0
                    end in
    let '(connected, y) := createConnectedSocket e f y in
    if negb connected then
      (* the code closes the socket number -1 *)
      Ok (Some (TSP_REDIRECT_ECHO_REQUEST_ERROR, add_distance distance ECHO_REQUEST_ERROR_ADJUST), freeaddrinfo y) else
    let y := freeaddrinfo y in
    if negb (en_engine e) then
      Ok (Some (TSP_REDIRECT_ECHO_REQUEST_ERROR, add_distance distance ECHO_REQUEST_ERROR_ADJUST), destroySocket y) else
    let engine := rttengine_init (en_clock e) rttengine_zero in
    x ← timeEchoRequestReply (en_im e) (en_om e) (en_attempts e) distance (mk_rudp engine (es_live y + 1));
    match x with
    | (None, r) => Ok (None, mk_echo_sys (live r) (es_infos y) (es_sockets y))
    | (Some result, r) =>
      let r := rttengine_deinit 0 r in
      Ok (Some result, destroySocket (mk_echo_sys (live r - 1) (es_infos y) (es_sockets y)))
    end
  | (SOCKET_ADDRESS_OK | SOCKET_ADDRESS_WRONG_FAMILY), None => Err NullDeref
  | SOCKET_ADDRESS_ERROR, _ => Ok (Some (TSP_REDIRECT_ECHO_REQUEST_ERROR, ECHO_REQUEST_ERROR_ADJUST), y)
  | SOCKET_ADDRESS_PROBLEM_RESOLVING, _ => Ok (Some (TSP_REDIRECT_ECHO_REQUEST_ERROR, ECHO_REQUEST_ERROR_ADJUST), y)
  end.

(** ** Every request ends cleanly *)

Definition echo_wait_ok (w : echo_wait) : Prop := match w with EWPacket pkt _ _ => (8 <= length pkt)%nat | _ => True end.
Definition echo_attempts_ok (attempts : list echo_attempt) : Prop := Forall (fun a => Forall echo_wait_ok (ea_waits a)) attempts.

Lemma echo_wait_loop_ok waits sq im :
  Forall echo_wait_ok waits -> (8 <= length im)%nat ->
  match echo_wait_loop waits sq im with
  | EExpired im' => length im' = length im
  | EGot ret im' _ _ => length im' = length im /\ 0 <= ret <= Z.of_nat (length im) - 8
  | _ => True
  end.
Proof.
  intros Hw. revert im. induction Hw as [|w waits Hw _ IH]; intros im Him; cbn [echo_wait_loop]; [done|].
  destruct w as [|pkt s1 s2| |]; try done. cbn in Hw. destruct (receive_ok im pkt Him Hw) as (Hr & Hl & _ & _).
  destruct (mem_eqb _ _).
  - split; [done|]. unfold rudp_msghdr_t. lia.
  - specialize (IH (blit 0 (take (length im) pkt) im) ltac:(lia)). by rewrite Hl in IH.
Qed.

(** What the loop leaves: the two messages are freed unless there is a reply. *)
Definition echo_result (n : nat) (r : rudp) (o : echo_outcome) (r' : rudp) : Prop :=
  match o with
  | EDone _ _ => live r' = live r - 2 /\ sai (rttengine_stats r') = None
  | EReply _ ret im _ => live r' = live r /\ sai (rttengine_stats r') = None /\ length im = n /\ 0 <= ret <= Z.of_nat n - 8
  | EUnfinished => True
  end.

Lemma deinit_no_address n r :
  sai (rttengine_stats r) = None -> live (rttengine_deinit n r) = live r - n /\ sai (rttengine_stats (rttengine_deinit n r)) = None.
Proof. intros H. unfold rttengine_deinit. rewrite H. split; [done|exact H]. Qed.

Lemma echo_send_loop_ok attempts om im d r :
  echo_attempts_ok attempts -> (8 <= length im)%nat -> sai (rttengine_stats r) = None ->
  let '(o, r') := echo_send_loop attempts om im d r in echo_result (length im) r o r'.
Proof.
  intros Ha. revert om im r. induction Ha as [|a attempts Ha _ IH]; intros om im r Him Hs; cbn [echo_send_loop].
  all: destruct (_ =? ECHO_REQUEST_ATTEMPTS); [by apply deinit_no_address|].
  { done. }
  set (om' := blit 4 _ om). destruct (ea_sent a); cbn [negb]; [|by apply deinit_no_address].
  pose proof (echo_wait_loop_ok (ea_waits a) (take 4 om') im Ha Him) as Hw.
  destruct (echo_wait_loop _ _ _) as [im'|ret im' s1 s2| |]; [| |by apply deinit_no_address|done].
  - rewrite <- Hw in Him |- *.
    exact (IH om' im' (set_stats (set_retries (retries (rttengine_stats r) + 1)) r) Him Hs).
  - by destruct Hw.
Qed.

Lemma timeEchoRequestReply_ok mi mo attempts d r :
  echo_attempts_ok attempts -> sai (rttengine_stats r) = None ->
  exists o r', timeEchoRequestReply mi mo attempts d r = Ok (o, r') /\
    (is_Some o -> live r' = live r /\ sai (rttengine_stats r') = None).
Proof.
  intros Ha Hs. unfold timeEchoRequestReply. destruct mi as [gi|], mo as [go|].
  2-4: eexists _, _; split; [done|]; intros _;
    match goal with |- live (rttengine_deinit ?n ?x) = _ /\ _ => destruct (deinit_no_address n x Hs) as [H1 H2] end;
    split; [rewrite H1; cbn; lia|exact H2].
  set (om := blit 0 (be32 _) _). set (im := blit 0 (repeat 0 ECHO_REQUEST_IN_BUF_SIZE) _).
  assert (length im = (ECHO_REQUEST_IN_BUF_SIZE + 8)%nat) as Him
    by (unfold im; rewrite length_blit; rewrite ?repeat_length, length_block; unfold rudp_msghdr_t; lia).
  clearbody im. set (r1 := set_stats _ _).
  pose proof (echo_send_loop_ok attempts om im d r1 Ha ltac:(lia) Hs) as Hl. destruct (echo_send_loop _ _ _ _ _) as [o r'].
  destruct o as [status d'|d' ret im' s2|]; cbn [echo_result] in Hl.
  - eexists _, _. split; [done|]. intros _. split; [rewrite (proj1 Hl); cbn; lia|apply Hl].
  - destruct Hl as (Hlive & Hsai & Hlen & Hret). rewrite (slice_ok 4 4) by lia. cbn [mbind res_bind].
    destruct (Z.leb_spec 0 ret); [|lia]. cbn [guard_or mbind res_bind]. rewrite slice_ok by lia. cbn [mbind res_bind].
    eexists _, _. split; [done|]. intros _. split; [cbn; rewrite Hlive; cbn; lia|exact Hsai].
  - eexists _, _. split; [done|]. by intros [].
Qed.

(** A socket that was opened and could not be connected. *)
Definition orphan_socket (ty : tBrokerAddressType) (mode : tTunnelMode) (e : echo_env) : Z :=
  match snd (getSocketAddress ty mode (en_getaddrinfo e)) with
  | Some (AF_INET | AF_INET6) => if en_socket e && negb (en_connect e) then 1 else 0
  | _ => 0
  end.

(** A request never faults as long as every datagram that comes back holds a
    header, and when it ends, every block and every result of the resolver is
    released, and the socket is closed, except one that could not be
    connected. *)
Theorem tspDoEchoRequest_releases ty mode e y :
  echo_attempts_ok (en_attempts e) ->
  exists o y', tspDoEchoRequest ty mode e y = Ok (o, y') /\
    (is_Some o -> y' = mk_echo_sys (es_live y) (es_infos y) (es_sockets y + orphan_socket ty mode e)).
Proof.
  intros Ha. unfold tspDoEchoRequest, orphan_socket.
  destruct (getSocketAddress ty mode (en_getaddrinfo e)) as [st info] eqn:Eg. cbn [snd].
  assert (match st with SOCKET_ADDRESS_OK | SOCKET_ADDRESS_WRONG_FAMILY => is_Some info | _ => info = None end) as Hi.
  { revert Eg. unfold getSocketAddress. destruct ty, (en_getaddrinfo e) as [[f rest]|]; try (by intros [= <- <-]).
    all: destruct (bool_decide _); try (by intros [= <- <-]); destruct (existsb _ _); by intros [= <- <-]. }
  destruct y as [l n k].
  destruct st; [| |subst info; eexists _, _; split; [done|]; intros _; cbn; f_equal; lia..].
  all: destruct info as [f|]; [|by destruct Hi]; unfold createConnectedSocket; cbn [es_live es_infos es_sockets].
  all: assert (forall d sk, exists o y',
    (x ← timeEchoRequestReply (en_im e) (en_om e) (en_attempts e) d (mk_rudp (rttengine_init (en_clock e) rttengine_zero) (l + 1));
     match x with
     | (None, r) => Ok (None, mk_echo_sys (live r) (n + 1 - 1) sk)
     | (Some result, r) => Ok (Some result, destroySocket (mk_echo_sys (live (rttengine_deinit 0 r) - 1) (n + 1 - 1) sk))
     end) = Ok (o, y') /\ (is_Some o -> y' = mk_echo_sys l n (sk - 1))) as Hmain.
  1, 3: intros d sk; destruct (timeEchoRequestReply_ok (en_im e) (en_om e) (en_attempts e) d
      (mk_rudp (rttengine_init (en_clock e) rttengine_zero) (l + 1)) Ha eq_refl) as (o & r' & -> & Ho); cbn [mbind res_bind];
    destruct o as [x|]; [|by eexists _, _; split; [done|intros []]]; destruct Ho as [H1 H2]; [by eexists|];
    eexists _, _; split; [done|]; intros _; unfold destroySocket;
    rewrite (proj1 (deinit_no_address 0 r' H2)), H1; cbn; f_equal; lia.
  all: destruct f, (en_socket e), (en_connect e), (en_engine e); cbn [negb andb freeaddrinfo es_live es_infos es_sockets];
    try (eexists _, _; split; [done|]; intros _; unfold destroySocket, freeaddrinfo; cbn; f_equal; lia).
  all: match goal with |- context [timeEchoRequestReply _ _ _ ?d _] => destruct (Hmain d (k + 1)) as (o & y' & E & Ho) end;
    exists o, y'; (split; [exact E|]); intros H; rewrite (Ho H); f_equal; lia.
Qed.

(** ** Distances *)

(** The broker answers the first request: [ms] milliseconds later by the clock
    of the client, with the status of success. *)
Definition answers (e : echo_env) (ms : Z) : Prop :=
  let s := rttengine_init (en_clock e) rttengine_zero in
  en_socket e = true /\ en_connect e = true /\ en_engine e = true /\ is_Some (en_im e) /\ is_Some (en_om e) /\
  exists a attempts pkt s1 s2 waits,
    en_attempts e = a :: attempts /\ ea_sent a = true /\ ea_waits a = EWPacket pkt s1 s2 :: waits /\
    (8 <= length pkt <= ECHO_REQUEST_IN_BUF_SIZE + 8)%nat /\ take 4 pkt = sequence_bytes 240 /\
    tspGetStatusCode (blit 0 (drop 8 pkt) (repeat 0 ECHO_REQUEST_IN_BUF_SIZE)) = ECHO_REQUEST_SUCCESS_STATUS /\
    ms = wrap 32 (internal_get_timestamp s s1 - internal_get_timestamp s (ea_stamp a)).

Definition echo_unanswered (a : echo_attempt) : Prop := ea_sent a = true /\ ea_waits a = [EWTimeout].

(** The broker cannot be resolved or reached, or does not answer. *)
Definition unreachable (e : echo_env) : Prop :=
  en_getaddrinfo e = None \/ en_socket e = false \/ en_connect e = false \/
  exists a1 a2 a3 attempts, en_attempts e = a1 :: a2 :: a3 :: attempts /\
    echo_unanswered a1 /\ echo_unanswered a2 /\ echo_unanswered a3.

Lemma reply_distance gi go a attempts pkt s1 s2 waits d r :
  let s := rttengine_stats r in
  retries s = 0 -> ea_sent a = true -> ea_waits a = EWPacket pkt s1 s2 :: waits ->
  (8 <= length pkt <= ECHO_REQUEST_IN_BUF_SIZE + 8)%nat -> take 4 pkt = sequence_bytes (sequence s) ->
  exists r', timeEchoRequestReply (Some gi) (Some go) (a :: attempts) d r =
    Ok (Some (if tspGetStatusCode (blit 0 (drop 8 pkt) (repeat 0 ECHO_REQUEST_IN_BUF_SIZE)) =? ECHO_REQUEST_SUCCESS_STATUS
              then TSP_REDIRECT_OK else TSP_REDIRECT_ECHO_REQUEST_ERROR,
              add_distance d (wrap 32 (internal_get_timestamp s s1 - internal_get_timestamp s (ea_stamp a)))), r').
Proof.
  intros s Hretry Hsent Hw Hlen H4. unfold timeEchoRequestReply. fold s.
  set (om0 := blit 0 (repeat 0 (length ECHO_REQUEST_COMMAND)) _). set (im := blit 0 (repeat 0 ECHO_REQUEST_IN_BUF_SIZE) _).
  assert (length im = (ECHO_REQUEST_IN_BUF_SIZE + 8)%nat) as Him
    by (unfold im; rewrite length_blit; rewrite ?repeat_length, length_block; unfold rudp_msghdr_t; lia). clearbody im.
  assert (length om0 = (length ECHO_REQUEST_COMMAND + 8)%nat) as Hom0
    by (unfold om0; rewrite length_blit; rewrite ?repeat_length, length_block; unfold rudp_msghdr_t; lia). clearbody om0.
  change (be32 (Z.lor (sequence s) 4026531840)) with (sequence_bytes (sequence s)). set (sq := sequence_bytes (sequence s)) in *.
  assert (length sq = 4%nat) as Hsq by (unfold sq, sequence_bytes, be32; by rewrite length_rev, length_le_split).
  pose proof (framed_new sq ECHO_REQUEST_COMMAND om0 Hsq Hom0) as Hf0. set (om := blit 0 sq _) in *. clearbody om.
  set (r1 := set_stats _ (alloc_blocks 2 r)). assert (retries (rttengine_stats r1) = 0) as Hr1 by exact Hretry.
  assert (forall t, internal_get_timestamp (rttengine_stats r1) t = internal_get_timestamp s t) as Hts by done. clearbody r1.
  cbn [echo_send_loop]. rewrite Hr1. change (0 =? ECHO_REQUEST_ATTEMPTS) with false. cbv iota.
  rewrite Hsent, Hw, !Hts. cbn [negb echo_wait_loop]. set (om1 := blit 4 _ om).
  assert (framed sq ECHO_REQUEST_COMMAND om1) as Hf1 by by apply framed_stamp.
  rewrite (framed_sequence sq ECHO_REQUEST_COMMAND om1 Hsq Hf1).
  destruct (receive_ok im pkt ltac:(lia) ltac:(lia)) as (Hr & Hl & Ht & H4'). set (received := take (length im) pkt) in *.
  assert (received = pkt) as Hrp by (apply take_ge; lia). rewrite Hrp in *. rewrite H4', H4, mem_eqb_refl. cbv iota. unfold rudp_msghdr_t.
  rewrite (slice_ok 4 4) by lia. cbn [mbind res_bind].
  destruct (Z.leb_spec 0 (Z.of_nat (length pkt) - Z.of_nat 8)); [|lia]. cbn [guard_or mbind res_bind].
  rewrite slice_ok by lia. cbn [mbind res_bind].
  assert (take (Z.to_nat (Z.of_nat (length pkt) - Z.of_nat 8)) (drop 8 (blit 0 pkt im)) = drop 8 pkt) as ->.
  { rewrite <- (take_ge (drop 8 pkt) (Z.to_nat (Z.of_nat (length pkt) - Z.of_nat 8))) by (rewrite length_drop; lia).
    apply (take_drop_prefix _ _ (length pkt)); [|lia]. rewrite Ht. symmetry. by apply take_ge. }
  rewrite !Hts. by eexists.
Qed.

(** A connected socket and an engine: the exchange decides. *)
Lemma connected_distance ty mode e y st f o r' :
  let d := match st with SOCKET_ADDRESS_WRONG_FAMILY => ECHO_REQUEST_WRONG_FAMILY_ADJUST | _ => 0 end in
  getSocketAddress ty mode (en_getaddrinfo e) = (st, Some f) -> (st = SOCKET_ADDRESS_OK \/ st = SOCKET_ADDRESS_WRONG_FAMILY) ->
  f <> AF_OTHER -> en_socket e = true -> en_connect e = true -> en_engine e = true ->
  timeEchoRequestReply (en_im e) (en_om e) (en_attempts e) d
    (mk_rudp (rttengine_init (en_clock e) rttengine_zero) (es_live y + 1)) = Ok (Some o, r') ->
  exists y', tspDoEchoRequest ty mode e y = Ok (Some o, y').
Proof.
  intros d Hg Hst Hf Hs Hc He Ht. unfold tspDoEchoRequest. rewrite Hg. unfold createConnectedSocket. rewrite Hs, Hc, He.
  destruct Hst as [-> | ->]; destruct f; try done; cbn [negb freeaddrinfo es_live]; unfold d in Ht; rewrite Ht; by eexists.
Qed.

Lemma answers_distance ty mode e y ms f :
  getSocketAddress ty mode (en_getaddrinfo e) = (SOCKET_ADDRESS_OK, Some f) -> f <> AF_OTHER -> answers e ms ->
  exists y', tspDoEchoRequest ty mode e y = Ok (Some (TSP_REDIRECT_OK, ms), y').
Proof.
  intros Hg Hf (Hs & Hc & He & [gi Hi] & [go Ho] & a & attempts & pkt & s1 & s2 & waits & Ea & Hsent & Hw & Hlen & H4 & Hst & ->).
  destruct (reply_distance gi go a attempts pkt s1 s2 waits 0
    (mk_rudp (rttengine_init (en_clock e) rttengine_zero) (es_live y + 1))) as (r' & E); try done.
  rewrite Hst, Z.eqb_refl in E. unfold add_distance in E. rewrite Z.add_0_l in E. unfold wrap at 1 in E. rewrite Z.mod_small in E
    by (apply Z.mod_pos_bound; lia).
  apply (connected_distance ty mode e y SOCKET_ADDRESS_OK f _ r'); try done; [by left|]. by rewrite Hi, Ho, Ea.
Qed.

Lemma timeouts_distance mi mo a1 a2 a3 attempts d r :
  retries (rttengine_stats r) = 0 -> echo_unanswered a1 -> echo_unanswered a2 -> echo_unanswered a3 ->
  exists st r', timeEchoRequestReply mi mo (a1 :: a2 :: a3 :: attempts) d r =
    Ok (Some (st, add_distance d ECHO_REQUEST_TIMEOUT_ADJUST), r') /\ st <> TSP_REDIRECT_OK.
Proof.
  intros Hr [S1 W1] [S2 W2] [S3 W3]. unfold timeEchoRequestReply.
  destruct mi as [gi|], mo as [go|]; [|by eexists _, _..].
  set (om := blit 0 (be32 _) _). set (im := blit 0 (repeat 0 ECHO_REQUEST_IN_BUF_SIZE) _). set (r1 := set_stats _ (alloc_blocks 2 r)).
  assert (retries (rttengine_stats r1) = 0) as Hr1 by exact Hr. clearbody om im r1.
  cbn [echo_send_loop]. rewrite S1, S2, S3, W1, W2, W3. cbn [set_stats set_retries rttengine_stats retries]. rewrite Hr1.
  cbn [negb echo_wait_loop]. destruct attempts; eexists _, _; (split; [reflexivity|done]).
Qed.

Lemma unreachable_distance ty mode e y :
  unreachable e ->
  exists st d y', tspDoEchoRequest ty mode e y = Ok (Some (st, d), y') /\ st <> TSP_REDIRECT_OK /\ ECHO_REQUEST_ERROR_ADJUST <= d.
Proof.
  intros Hu. destruct (getSocketAddress ty mode (en_getaddrinfo e)) as [st info] eqn:Eg.
  assert (match st with SOCKET_ADDRESS_OK | SOCKET_ADDRESS_WRONG_FAMILY => is_Some info /\ is_Some (en_getaddrinfo e) | _ => True end) as Hi.
  { revert Eg. unfold getSocketAddress. destruct ty, (en_getaddrinfo e) as [[f rest]|]; try (by intros [= <- <-]).
    all: destruct (bool_decide _); try (by intros [= <- <-]); destruct (existsb _ _); by intros [= <- <-]. }
  destruct (decide (st = SOCKET_ADDRESS_OK \/ st = SOCKET_ADDRESS_WRONG_FAMILY)) as [Hst|Hst].
  2: { unfold tspDoEchoRequest. rewrite Eg. destruct st; [tauto..| |]; by eexists _, _, _. }
  assert (exists f, info = Some f) as [f ->] by (destruct Hst as [-> | ->]; destruct Hi as [[f ->] _]; by exists f).
  assert (is_Some (en_getaddrinfo e)) as Hg by (by destruct Hst as [-> | ->]; destruct Hi).
  destruct (decide (f <> AF_OTHER /\ en_socket e = true /\ en_connect e = true /\ en_engine e = true)) as [(Hf & Hs & Hc & He)|Hbad].
  2: { unfold tspDoEchoRequest. rewrite Eg. unfold createConnectedSocket.
       destruct Hst as [-> | ->]; destruct f, (en_socket e), (en_connect e), (en_engine e); cbn [negb]; try (by eexists _, _, _);
         destruct Hbad; by split_and!. }
  destruct Hu as [H | [H | [H | (a1 & a2 & a3 & attempts & Ea & U1 & U2 & U3)]]];
    [rewrite H in Hg; by destruct Hg|congruence..|].
  set (d := match st with SOCKET_ADDRESS_WRONG_FAMILY => ECHO_REQUEST_WRONG_FAMILY_ADJUST | _ => 0 end).
  destruct (timeouts_distance (en_im e) (en_om e) a1 a2 a3 attempts d
    (mk_rudp (rttengine_init (en_clock e) rttengine_zero) (es_live y + 1)) eq_refl U1 U2 U3) as (st' & r' & E & Hne).
  destruct (connected_distance ty mode e y st f (st', add_distance d ECHO_REQUEST_TIMEOUT_ADJUST) r' Eg Hst Hf Hs Hc He)
    as (y' & ->); [by rewrite Ea|]. eexists _, _, _. split; [done|]. split; [done|]. by destruct Hst as [-> | ->].
Qed.

(** ** The order of the brokers *)

(** What a thread stores for its broker. *)
Definition broker_distance (mode : tTunnelMode) (env : tBroker -> echo_env) (b : tBroker) : Z :=
  match tspDoEchoRequest (address_type b) mode (env b) (mk_echo_sys 0 0 0) with
  | Ok (Some (_, d), _) => d
  | _ => 0
  end.

(** The address of the broker is of the family that the tunnel mode needs. *)
Definition suitable (mode : tTunnelMode) (e : echo_env) (b : tBroker) : Prop :=
  exists f, getSocketAddress (address_type b) mode (en_getaddrinfo e) = (SOCKET_ADDRESS_OK, Some f) /\ f <> AF_OTHER.

Lemma sorted_lookup l i j a b :
  StronglySorted closer l -> l !! i = Some a -> l !! j = Some b -> (i < j)%nat -> distance a <= distance b.
Proof.
  intros H. revert i j. induction H as [|c l _ IH Hc]; intros [|i] [|j]; cbn [lookup list_lookup]; try done; try lia.
  - intros [= <-] Hj _. exact (proj1 (list.Forall_forall _ _) Hc b (list_elem_of_lookup_2 _ _ _ Hj)).
  - intros Hi Hj Hlt. apply (IH i j); (done || lia).
Qed.

(** The client turns first to the brokers that work: when the redirection list
    is sorted by the measured distances, every broker of the right family that
    answered its echo request within twenty seconds comes before every broker
    that could not be resolved, reached or heard. *)
Theorem prompt_brokers_first mode env malloc_ok thread_ok join_ok l h :
  all_ok malloc_ok -> all_ok thread_ok -> all_ok join_ok ->
  let echo := broker_distance mode env in
  exists l' h', tspSortBrokerList malloc_ok thread_ok join_ok echo l (Z.of_nat (length l)) h = Ok ((TSP_REDIRECT_OK, l'), h') /\
    l' ≡ₚ (measured echo <$> l) /\
    forall i j a b ms, l' !! i = Some (measured echo a) -> l' !! j = Some (measured echo b) ->
      suitable mode (env a) a -> answers (env a) ms -> ms < 20000 -> unreachable (env b) -> (i < j)%nat.
Proof.
  intros Hm Ht Hj echo.
  destruct (wp_ok _ _ _ (wp_sort malloc_ok thread_ok join_ok echo l h)) as ([s l'] & h' & E & _ & _ & Hok & Hbad).
  assert (s = TSP_REDIRECT_OK) as ->. { destruct (decide (s = TSP_REDIRECT_OK)) as [|Hs]; [done|]. by destruct (Hbad Hs) as [_ []]. }
  specialize (Hok eq_refl). exists l', h'. split; [done|]. split; [by rewrite Hok, insert_all_perm, app_nil_r|].
  intros i j a b ms Hi Hjj (f & Hf & Hne) Ha Hms Hu.
  assert (echo a = ms) as Ea by (unfold echo, broker_distance; by destruct (answers_distance _ _ _ (mk_echo_sys 0 0 0) ms f Hf Hne Ha) as (y' & ->)).
  assert (20000 <= echo b) as Eb.
  { unfold echo, broker_distance. destruct (unreachable_distance (address_type b) mode (env b) (mk_echo_sys 0 0 0) Hu)
      as (st & d & y' & -> & _ & Hd). exact Hd. }
  destruct (Nat.lt_ge_cases i j) as [|Hge]; [done|]. exfalso.
  assert (StronglySorted closer l') as Hsort by (rewrite Hok; apply insert_all_sorted; constructor).
  destruct (decide (i = j)) as [->|Hne'].
  - rewrite Hi in Hjj. injection Hjj as _ _ Hd. lia.
  - pose proof (sorted_lookup l' j i _ _ Hsort Hjj Hi ltac:(lia)) as Hd. cbn [distance measured] in Hd. lia.
Qed.

(** ** Flaws *)

(** A broker that refuses the request is not penalised: the status is an
    error, but the distance is the plain round-trip time. *)
Theorem refusal_is_not_penalised ty mode e y f a attempts pkt s1 s2 waits :
  let s := rttengine_init (en_clock e) rttengine_zero in
  getSocketAddress ty mode (en_getaddrinfo e) = (SOCKET_ADDRESS_OK, Some f) -> f <> AF_OTHER ->
  en_socket e = true -> en_connect e = true -> en_engine e = true -> is_Some (en_im e) -> is_Some (en_om e) ->
  en_attempts e = a :: attempts -> ea_sent a = true -> ea_waits a = EWPacket pkt s1 s2 :: waits ->
  (8 <= length pkt <= ECHO_REQUEST_IN_BUF_SIZE + 8)%nat -> take 4 pkt = sequence_bytes 240 ->
  tspGetStatusCode (blit 0 (drop 8 pkt) (repeat 0 ECHO_REQUEST_IN_BUF_SIZE)) <> ECHO_REQUEST_SUCCESS_STATUS ->
  exists y', tspDoEchoRequest ty mode e y =
    Ok (Some (TSP_REDIRECT_ECHO_REQUEST_ERROR,
              wrap 32 (internal_get_timestamp s s1 - internal_get_timestamp s (ea_stamp a))), y').
Proof.
  intros s Hg Hf Hs Hc He [gi Hi] [go Ho] Ea Hsent Hw Hlen H4 Hst.
  destruct (reply_distance gi go a attempts pkt s1 s2 waits 0 (mk_rudp s (es_live y + 1))) as (r' & E); try done.
  apply Z.eqb_neq in Hst. rewrite Hst in E. unfold add_distance in E. rewrite Z.add_0_l in E. unfold wrap at 1 in E.
  rewrite Z.mod_small in E by (apply Z.mod_pos_bound; lia).
  apply (connected_distance ty mode e y SOCKET_ADDRESS_OK f _ r'); try done; [by left|]. by rewrite Hi, Ho, Ea.
Qed.

(** ** Examples *)

Definition reply0 (status : list Z) : list Z := [240; 0; 0; 240; 0; 0; 0; 0] ++ status.
Definition str_200 : list Z := [50; 48; 48].
Definition str_500 : list Z := [53; 48; 48].

Definition env_reply (status : list Z) : echo_env :=
  mk_echo_env (Some (AF_INET, [])) true true true (Some (mk_timeval 1000 0)) (Some (fun _ => 0)) (Some (fun _ => 0))
    [mk_echo_attempt (Some (mk_timeval 1000 0)) true
       [EWPacket (reply0 status) (Some (mk_timeval 1000 70000)) (Some (mk_timeval 1000 70000))]].
Definition env_silent : echo_env :=
  mk_echo_env (Some (AF_INET, [])) true true true None (Some (fun _ => 0)) (Some (fun _ => 0))
    (repeat (mk_echo_attempt None true [EWTimeout]) 3).

(** A reply to the first request that arrives after the second one was sent
    is timed from the second: eleven seconds look like one. *)
Example late_reply_looks_close :
  exists y', tspDoEchoRequest TSP_REDIRECT_BROKER_TYPE_IPV4 V6UDPV4
    (mk_echo_env (Some (AF_INET, [])) true true true (Some (mk_timeval 1000 0)) (Some (fun _ => 0)) (Some (fun _ => 0))
       [mk_echo_attempt (Some (mk_timeval 1000 0)) true [EWTimeout];
        mk_echo_attempt (Some (mk_timeval 1010 0)) true
          [EWPacket (reply0 str_200) (Some (mk_timeval 1011 0)) (Some (mk_timeval 1011 0))]]) (mk_echo_sys 0 0 0) =
    Ok (Some (TSP_REDIRECT_OK, 1000), y').
Proof. eexists. vm_compute. reflexivity. Qed.

Lemma env_reply_answers : answers (env_reply str_200) 70.
Proof.
  split_and!; try done; [by eexists..|]. eexists _, _, _, _, _, _. split; [done|]. split; [done|]. split; [done|].
  split; [split; apply Nat.leb_le; vm_compute; reflexivity|]. split; [vm_compute; reflexivity|]. split; vm_compute; reflexivity.
Qed.

Lemma env_silent_unreachable : unreachable env_silent.
Proof. right. right. right. eexists _, _, _, []. by split_and!. Qed.

Definition broker0 (c : Z) : tBroker := mk_broker [c] TSP_REDIRECT_BROKER_TYPE_IPV4 0.
Definition env0 (b : tBroker) : echo_env := if bool_decide (address b = [1]) then env_silent else env_reply str_200.

Lemma prompt_brokers_first_witness :
  exists l' h', tspSortBrokerList (fun _ => true) (fun _ => true) (fun _ => true) (broker_distance V6UDPV4 env0)
      [broker0 1; broker0 2] 2 (mk_heap 0 0) = Ok ((TSP_REDIRECT_OK, l'), h') /\
    forall i j, l' !! i = Some (measured (broker_distance V6UDPV4 env0) (broker0 2)) ->
      l' !! j = Some (measured (broker_distance V6UDPV4 env0) (broker0 1)) -> (i < j)%nat.
Proof.
  destruct (prompt_brokers_first V6UDPV4 env0 (fun _ => true) (fun _ => true) (fun _ => true) [broker0 1; broker0 2] (mk_heap 0 0))
    as (l' & h' & E & _ & H); [by intros ?..|].
  exists l', h'. split; [exact E|]. intros i j Hi Hj. apply (H i j (broker0 2) (broker0 1) 70 Hi Hj).
  - exists AF_INET. by split.
  - exact env_reply_answers.
  - lia.
  - exact env_silent_unreachable.
Defined.

Lemma refusal_is_not_penalised_witness :
  exists y', tspDoEchoRequest TSP_REDIRECT_BROKER_TYPE_IPV4 V6UDPV4 (env_reply str_500) (mk_echo_sys 0 0 0) =
    Ok (Some (TSP_REDIRECT_ECHO_REQUEST_ERROR, 70), y').
Proof.
  apply (refusal_is_not_penalised TSP_REDIRECT_BROKER_TYPE_IPV4 V6UDPV4 (env_reply str_500) (mk_echo_sys 0 0 0) AF_INET
    (mk_echo_attempt (Some (mk_timeval 1000 0)) true
       [EWPacket (reply0 str_500) (Some (mk_timeval 1000 70000)) (Some (mk_timeval 1000 70000))]) []
    (reply0 str_500) (Some (mk_timeval 1000 70000)) (Some (mk_timeval 1000 70000)) []); try done.
  - split; apply Nat.leb_le; vm_compute; reflexivity.
Defined.

Lemma tspDoEchoRequest_releases_witness :
  exists o y', tspDoEchoRequest TSP_REDIRECT_BROKER_TYPE_IPV4 V6UDPV4 (env_reply str_200) (mk_echo_sys 5 2 3) = Ok (o, y') /\
    (is_Some o -> y' = mk_echo_sys 5 2 (3 + 0)).
Proof.
  apply (tspDoEchoRequest_releases TSP_REDIRECT_BROKER_TYPE_IPV4 V6UDPV4 (env_reply str_200) (mk_echo_sys 5 2 3)).
  repeat constructor; apply Nat.leb_le; vm_compute; reflexivity.
Defined.
