(* ===== verification/Security.v ===== *)
(** * HMAC authentication ([security.c])

The process-wide HMAC key, the nonces of bubbles and router
solicitations, and the timestamped hash carried by the echo requests of
the direct IPv6 connectivity test. *)

From stdpp Require Import base gmap list numbers.
From S2P Require Import Prelude Words Addr Md5.

Definition LIBTEREDO_KEY_LEN : nat := 16.
Definition HMAC_BLOCK_LEN : nat := 64.
Definition LIBTEREDO_HASH_LEN : nat := 16.
Definition LIBTEREDO_NONCE_LEN : nat := 8.
Definition LIBTEREDO_HMAC_LEN : nat := 22.

(** The static variables [inner_key], [outer_key] and [hmac_pid]. *)
Record hmac_state := mk_hmac_state {
  ipad : list Z;    (* 64 bytes *)
  opad : list Z;    (* 64 bytes *)
  hmac_pid : Z;     (* uint16_t, network byte order *)
}.

(** Static storage starts zeroed. *)
Definition hmac_state0 : hmac_state :=
  {| ipad := repeat 0 64; opad := repeat 0 64; hmac_pid := 0 |}.

(** ** Key generation

[reads] lists what successive calls of [read (fd, ...)] deliver; the
empty list stands for an error or an end of file. *)

Fixpoint read_key (len : Z) (key : list Z) (reads : list (list Z)) : res (list Z) :=
  if len <? Z.of_nat LIBTEREDO_KEY_LEN then
    match reads with
    | [] => Err OutOfFuel
    | bs :: reads =>
      (* read () delivers at most the number of bytes requested *)
      let bs := take (LIBTEREDO_KEY_LEN - Z.to_nat len) bs in
      let val := Z.of_nat (length bs) in
      let key := blit (Z.to_nat len) bs key in
      if 0 <? val then read_key (wrap 32 (len - val)) key reads
      else read_key len key reads
    end
  else Ok key.

(** [pid] is the result of [getpid ()], [fd_ok] tells whether [open] succeeded. *)
Definition teredo_init_HMAC (pid : Z) (fd_ok : bool) (reads : list (list Z))
    (k : hmac_state) : res (Z * hmac_state) :=
  if negb (hmac_pid k =? htons (wrap 16 pid)) then
    if negb fd_ok then Ok (-1, k) else
    key ← read_key 0 (repeat 0 HMAC_BLOCK_LEN) reads;
    Ok (0, {| ipad := Z.lxor 0x36 <$> key;
              opad := Z.lxor 0x5c <$> key;
              hmac_pid := htons (wrap 16 pid) |})
  else Ok (0, k).

(** ** Keyed hash *)

(** A fresh MD5 context on the stack. *)
Definition md5_fresh : md5_state := md5_init (repeat 0 64).

Definition teredo_hash (k : hmac_state) (src dst : list Z) (timestamp : Z) : list Z :=
  let ctx := md5_append md5_fresh (ipad k) in
  let ctx := md5_append ctx src in
  let ctx := md5_append ctx dst in
  let ctx := md5_append ctx (le_split 2 (hmac_pid k)) in
  let ctx := md5_append ctx (le_split 4 timestamp) in
  let hash := md5_finish ctx in
  let ctx := md5_append md5_fresh (opad k) in
  let ctx := md5_append ctx hash in
  md5_finish ctx.

Definition teredo_pinghash (k : hmac_state) (src dst : in6_addr) (timestamp : Z) : list Z :=
  teredo_hash k src dst timestamp.

Definition teredo_get_pinghash (k : hmac_state) (timestamp : Z) (src dst : in6_addr) : list Z :=
  let timestamp := htonl timestamp in
  le_split 2 (hmac_pid k) ++ take 2 (drop 2 (le_split 4 timestamp)) ++
  take 2 (le_split 4 timestamp) ++ teredo_pinghash k src dst timestamp.

(** [hash] is the 22 bytes at the pointer argument; 0 is success. *)
Definition teredo_verify_pinghash (k : hmac_state) (now : Z) (src dst : in6_addr)
    (hash : list Z) : Z :=
  if negb (mem_eqb (take 2 hash) (le_split 2 (hmac_pid k))) then -1 else
  let timestamp := le_load (take 2 (drop 4 hash) ++ take 2 (drop 2 hash)) in
  if 30 <=? Z.land (now - ntohl timestamp) 0xffffffff then -1 else
  let h1 := teredo_pinghash k src dst timestamp in
  if mem_eqb h1 (take LIBTEREDO_HASH_LEN (drop 6 hash)) then 0 else -1.

Definition teredo_get_flbits (k : hmac_state) (timestamp : Z) : Z :=
  let buf := teredo_hash k [] [] timestamp in
  wrap 16 (Z.lor (Z.shiftl (nth 0 buf 0) 8) (nth 1 buf 0)).

Definition teredo_get_nonce (k : hmac_state) (timestamp ipv4 port : Z) : list Z :=
  take LIBTEREDO_NONCE_LEN (teredo_hash k (le_split 4 ipv4) (le_split 2 port) timestamp).

(** ** HMAC (RFC 2104) *)

Definition hmac_md5 (key msg : list Z) : list Z :=
  let k0 := key ++ repeat 0 (64 - length key) in
  md5_spec ((Z.lxor 0x5c <$> k0) ++ md5_spec ((Z.lxor 0x36 <$> k0) ++ msg)).

(** The state that [teredo_init_HMAC] sets up from a complete key. *)
Definition hmac_keyed (key : list Z) (pid : Z) : hmac_state := {|
  ipad := Z.lxor 0x36 <$> (key ++ repeat 0 (64 - length key));
  opad := Z.lxor 0x5c <$> (key ++ repeat 0 (64 - length key));
  hmac_pid := pid;
|}.

Definition hmac_wf (k : hmac_state) : Prop :=
  length (ipad k) = 64%nat /\ length (opad k) = 64%nat /\ 0 <= hmac_pid k < 2 ^ 16.

Definition small (l : list Z) : Prop := Z.of_nat (length l) < 2 ^ 28.

Lemma teredo_hash_md5 k src dst ts :
  hmac_wf k -> small src -> small dst ->
  teredo_hash k src dst ts =
  md5_spec (opad k ++ md5_spec (ipad k ++ src ++ dst ++ le_split 2 (hmac_pid k) ++ le_split 4 ts)).
Proof.
  intros (Hi & Ho & _) Hs Hd. unfold teredo_hash.
  assert (md5_rep md5_fresh []) as H0 by by apply md5_init_rep.
  rewrite (md5_finish_rep (md5_append _ (le_split 4 ts)) (ipad k ++ src ++ dst ++ le_split 2 (hmac_pid k) ++ le_split 4 ts)).
  - apply md5_finish_rep. rewrite <- (app_nil_l (opad k)).
    repeat apply md5_append_rep; [done|lia|]. rewrite md5_spec_length. lia.
  - rewrite !app_assoc, <- (app_nil_l (ipad k)).
    repeat apply md5_append_rep; unfold small in *; rewrite ?length_le_split; done || lia.
Qed.

Lemma teredo_hash_length k src dst ts :
  hmac_wf k -> small src -> small dst -> length (teredo_hash k src dst ts) = 16%nat.
Proof. intros. rewrite teredo_hash_md5 by done. apply md5_spec_length. Qed.

Lemma teredo_hash_bytes k src dst ts :
  hmac_wf k -> small src -> small dst -> bytes_ok (teredo_hash k src dst ts).
Proof. intros. rewrite teredo_hash_md5 by done. apply md5_spec_bytes. Qed.

Lemma hmac_keyed_wf key pid :
  (length key <= 64)%nat -> 0 <= pid < 2 ^ 16 -> hmac_wf (hmac_keyed key pid).
Proof.
  intros Hk Hp. split_and!; cbn [hmac_keyed ipad opad hmac_pid]; [| |lia..];
    rewrite length_fmap, length_app, repeat_length; lia.
Qed.

(** The keyed hash of [security.c] is HMAC-MD5 (RFC 2104) under the
    process key, of the message source, destination, process id, timestamp. *)
Theorem teredo_hash_is_hmac_md5 (key src dst : list Z) (pid ts : Z)
    (Hkey : length key = LIBTEREDO_KEY_LEN) (Hpid : 0 <= pid < 2 ^ 16)
    (Hsrc : small src) (Hdst : small dst) :
  teredo_hash (hmac_keyed key pid) src dst ts =
  hmac_md5 key (src ++ dst ++ le_split 2 pid ++ le_split 4 ts).
Proof.
  rewrite teredo_hash_md5; [done| |done..].
  apply hmac_keyed_wf; [|done]. unfold LIBTEREDO_KEY_LEN in Hkey. lia.
Qed.

Lemma teredo_hash_is_hmac_md5_witness :
  teredo_hash (hmac_keyed (repeat 11 16) 77) [1; 2] [3] 5 =
  hmac_md5 (repeat 11 16) ([1; 2] ++ [3] ++ le_split 2 77 ++ le_split 4 5).
Proof. apply teredo_hash_is_hmac_md5; vm_compute; intuition congruence. Defined.

(** Short reads weaken the key: the loop of [teredo_init_HMAC] subtracts
    the bytes read from the unsigned counter, so it stops after the first
    successful [read], however short; the rest of the 16-byte key stays zero. *)
Theorem init_HMAC_key_from_first_read (pid : Z) (bs : list Z) (rest : list (list Z))
    (k : hmac_state)
    (Hbs : (1 <= length bs <= LIBTEREDO_KEY_LEN)%nat)
    (Hpid : hmac_pid k <> htons (wrap 16 pid)) :
  teredo_init_HMAC pid true (bs :: rest) k =
  Ok (0, hmac_keyed bs (htons (wrap 16 pid))).
Proof.
  unfold teredo_init_HMAC. apply Z.eqb_neq in Hpid. rewrite Hpid.
  unfold LIBTEREDO_KEY_LEN in *. cbn [negb read_key Z.ltb Z.compare Z.of_nat]. unfold LIBTEREDO_KEY_LEN.
  rewrite take_ge by (simpl; lia). unfold HMAC_BLOCK_LEN.
  rewrite (proj2 (Z.ltb_lt 0 (Z.of_nat (length bs)))) by lia.
  assert (read_key (wrap 32 (0 - Z.of_nat (length bs))) (blit (Z.to_nat 0) bs (repeat 0 64)) rest
          = Ok (blit (Z.to_nat 0) bs (repeat 0 64))) as E.
  { assert (wrap 32 (0 - Z.of_nat (length bs)) = 2 ^ 32 - Z.of_nat (length bs)) as E.
    { unfold wrap. symmetry. apply (Z.mod_unique_pos _ _ (-1)); lia. }
    destruct rest; cbn [read_key]; rewrite E, (proj2 (Z.ltb_ge _ _));
      unfold LIBTEREDO_KEY_LEN; done || lia. }
  rewrite E. cbn [mbind res_bind]. unfold hmac_keyed, blit.
  change (Z.to_nat 0) with 0%nat. cbn [take app Nat.add].
  assert (drop (length bs) (repeat 0 64) = repeat 0 (64 - length bs)) as ->; [|done].
  replace 64%nat with (length bs + (64 - length bs))%nat at 1 by lia.
  rewrite repeat_app. apply drop_app_exact, repeat_length.
Qed.

Lemma init_HMAC_key_from_first_read_witness :
  teredo_init_HMAC 4242 true [[200]; [1; 2; 3]] hmac_state0 =
  Ok (0, hmac_keyed [200] (htons (wrap 16 4242))).
Proof.
  apply (init_HMAC_key_from_first_read 4242 [200] [[1; 2; 3]] hmac_state0).
  - unfold LIBTEREDO_KEY_LEN. simpl. lia.
  - vm_compute. congruence.
Defined.

(** A process whose id is a multiple of 65536 runs with the all-zero
    static key: [hmac_pid] is compared with the id truncated to 16 bits, which
    equals its initial value, and key generation is skipped with success. *)
Theorem init_HMAC_skipped_on_truncated_pid (n : Z) (fd_ok : bool) (reads : list (list Z)) :
  teredo_init_HMAC (n * 65536) fd_ok reads hmac_state0 = Ok (0, hmac_state0).
Proof.
  unfold teredo_init_HMAC, wrap. change (2 ^ 16) with 65536. rewrite Z.mod_mul by lia.
  reflexivity.
Qed.

(** ** The ping hash *)

Lemma addr_small a : addr_wf a -> small a.
Proof. intros [H _]. unfold small. lia. Qed.

#[export] Hint Resolve addr_small hmac_keyed_wf : maiccu.

Lemma pinghash_length k ts src dst :
  hmac_wf k -> addr_wf src -> addr_wf dst ->
  length (teredo_get_pinghash k ts src dst) = LIBTEREDO_HMAC_LEN.
Proof.
  intros. unfold teredo_get_pinghash, teredo_pinghash.
  rewrite !length_app, !length_take, length_drop, !length_le_split, teredo_hash_length
    by auto with maiccu. done.
Qed.

Lemma pinghash_bytes k ts src dst :
  hmac_wf k -> addr_wf src -> addr_wf dst -> bytes_ok (teredo_get_pinghash k ts src dst).
Proof.
  intros. unfold teredo_get_pinghash, teredo_pinghash.
  repeat (apply bytes_ok_app; split); try apply le_split_bytes.
  - apply Forall_take_drop, le_split_bytes.
  - apply Forall_take, le_split_bytes.
  - apply teredo_hash_bytes; auto with maiccu.
Qed.

(** The 22 bytes of a hash, cut where the code cuts them. *)
Lemma pinghash_split (h : list Z) :
  h = take 2 h ++ take 2 (drop 2 h) ++ take 2 (drop 4 h) ++ drop 6 h.
Proof.
  rewrite <- (take_drop 2 h) at 1. f_equal. rewrite <- (take_drop 2 (drop 2 h)) at 1. f_equal.
  rewrite drop_drop. rewrite <- (take_drop 2 (drop (2 + 2) h)) at 1. f_equal.
  by rewrite drop_drop.
Qed.

Lemma wrapped_age now ts : Z.land (now - ts) 0xffffffff = (now - ts) mod 2 ^ 32.
Proof. change 0xffffffff with (Z.ones 32). by rewrite Z.land_ones by lia. Qed.

Section verify.
Context (k : hmac_state) (now : Z) (src dst : in6_addr).
Hypothesis Hk : hmac_wf k.
Hypothesis Hsrc : addr_wf src.
Hypothesis Hdst : addr_wf dst.

Lemma verify_pinghash_get ts :
  0 <= ts < 2 ^ 32 ->
  teredo_verify_pinghash k now src dst (teredo_get_pinghash k ts src dst) =
  if 30 <=? (now - ts) mod 2 ^ 32 then -1 else 0.
Proof.
  intros Hts. unfold teredo_verify_pinghash, teredo_get_pinghash.
  rewrite take_app_exact by apply length_le_split. rewrite mem_eqb_refl. cbn [negb].
  set (T := htonl ts). remember (le_split 4 T) as b eqn:Eb.
  assert (length b = 4%nat) as Hb by (subst b; apply length_le_split).
  set (h := teredo_pinghash k src dst T).
  assert (length h = 16%nat) as Hh by (apply teredo_hash_length; auto with maiccu).
  rewrite (drop_app_exact (le_split 2 (hmac_pid k)) _ 2) by apply length_le_split.
  rewrite (take_app_exact (take 2 (drop 2 b)) _ 2) by (rewrite length_take, length_drop; lia).
  rewrite (app_assoc (le_split 2 (hmac_pid k))).
  rewrite (drop_app_exact _ _ 4)
    by (rewrite length_app, length_le_split, length_take, length_drop; lia).
  rewrite (take_app_exact (take 2 b) _ 2) by (rewrite length_take; lia).
  rewrite (app_assoc _ (take 2 b)).
  rewrite (drop_app_exact _ _ 6)
    by (rewrite !length_app, length_le_split, !length_take, length_drop; lia).
  assert (take 2 b ++ take 2 (drop 2 b) = b) as ->.
  { rewrite <- (take_drop 2 b) at 3. f_equal. apply take_ge. rewrite length_drop. lia. }
  assert (le_load b = T) as ->.
  { subst b T. apply le_load_split_small, bswap_bounds. }
  assert (ntohl T = ts) as -> by (by apply bswap_bswap).
  rewrite wrapped_age. destruct (30 <=? (now - ts) mod 2 ^ 32); [done|].
  rewrite take_ge by (unfold LIBTEREDO_HASH_LEN; lia). subst h. by rewrite mem_eqb_refl.
Qed.

Lemma verify_pinghash_inv h :
  length h = LIBTEREDO_HMAC_LEN -> bytes_ok h ->
  teredo_verify_pinghash k now src dst h = 0 ->
  exists ts, 0 <= ts < 2 ^ 32 /\ (now - ts) mod 2 ^ 32 < 30 /\
             h = teredo_get_pinghash k ts src dst.
Proof.
  intros Hlen Hok. unfold teredo_verify_pinghash. unfold LIBTEREDO_HMAC_LEN in Hlen.
  destruct (mem_eqb (take 2 h) _) eqn:E1; [|done]. apply mem_eqb_true in E1. cbn [negb].
  set (b := take 2 (drop 4 h) ++ take 2 (drop 2 h)).
  assert (length b = 4%nat) as Hb.
  { subst b. rewrite length_app, !length_take, !length_drop. lia. }
  assert (bytes_ok b) as HB by (apply bytes_ok_app; split; by apply Forall_take_drop).
  destruct (Z.leb_spec 30 (Z.land (now - ntohl (le_load b)) 0xffffffff)); [done|].
  destruct (mem_eqb _ (take _ (drop 6 h))) eqn:E2; [|done]. apply mem_eqb_true in E2. intros _.
  rewrite wrapped_age in *. exists (ntohl (le_load b)).
  split; [apply bswap_bounds|]. split; [done|].
  unfold teredo_get_pinghash. change (htonl (ntohl ?x)) with (bswap 4 (bswap 4 x)).
  pose proof (le_load_bounds b HB) as HLB. rewrite Hb in HLB.
  unfold htonl, ntohl. rewrite bswap_bswap, le_split_load by done.
  rewrite take_ge in E2 by (rewrite length_drop; unfold LIBTEREDO_HASH_LEN; lia).
  rewrite E2. subst b.
  rewrite drop_app_exact, (take_ge (take 2 (drop 2 h))), take_app_exact
    by (rewrite length_take, length_drop; lia).
  rewrite <- E1. apply pinghash_split.
Qed.

Lemma verify_pinghash_iff h :
  length h = LIBTEREDO_HMAC_LEN -> bytes_ok h ->
  teredo_verify_pinghash k now src dst h = 0 <->
  exists ts, 0 <= ts < 2 ^ 32 /\ (now - ts) mod 2 ^ 32 < 30 /\
             h = teredo_get_pinghash k ts src dst.
Proof.
  intros Hlen Hok. split; [by apply verify_pinghash_inv|].
  intros (ts & Hts & Hage & ->). rewrite verify_pinghash_get by done.
  destruct (Z.leb_spec 30 ((now - ts) mod 2 ^ 32)); [lia|done].
Qed.
End verify.

(** (C7) The ping hash authenticates exactly: a 22-byte block is accepted for a
    pair of addresses if and only if it is the hash this process generates for
    that pair at some 32-bit timestamp less than 30 seconds old, clock
    wrap-around included. *)
Theorem verify_pinghash_exact (k : hmac_state) (now : Z) (src dst : in6_addr) (h : list Z)
    (Hk : hmac_wf k) (Hsrc : addr_wf src) (Hdst : addr_wf dst)
    (Hlen : length h = LIBTEREDO_HMAC_LEN) (Hok : bytes_ok h) :
  teredo_verify_pinghash k now src dst h = 0 <->
  exists ts, 0 <= ts < 2 ^ 32 /\ (now - ts) mod 2 ^ 32 < 30 /\
             h = teredo_get_pinghash k ts src dst.
Proof. by apply verify_pinghash_iff. Qed.

Lemma verify_pinghash_exact_witness :
  let k := hmac_keyed (repeat 11 16) 77 in
  teredo_verify_pinghash k 5 teredo_cone teredo_restrict
    (teredo_get_pinghash k (2 ^ 32 - 20) teredo_cone teredo_restrict) = 0.
Proof.
  intros k. apply verify_pinghash_exact; [..|exists (2 ^ 32 - 20)].
  - apply hmac_keyed_wf; [vm_compute; lia|lia].
  - split; [done|]. bytes_ok_tac.
  - split; [done|]. bytes_ok_tac.
  - vm_compute. reflexivity.
  - vm_compute. repeat (constructor; [split; congruence|]). constructor.
  - split; [lia|]. split; [vm_compute; reflexivity|reflexivity].
Defined.
