(* ===== verification/Udp.v ===== *)
(** * Teredo encapsulation over UDP ([teredo.c], [teredo-udp.h], [checksum.h])

Reception and parsing of Teredo datagrams, transmission, and the Internet
checksum.  The environment (clock, sockets) is an oracle: the answer of
the [k]-th call of the outside world is the value of a function at [k],
and everything sent to it is appended to a trace. *)

From stdpp Require Import base gmap list numbers.
From S2P Require Import Prelude Words Addr.

(** ** Packets *)

Definition MAX_TEREDO_PACKET_SIZE : nat := Z.to_nat 65507.
Definition TEREDO_PACKET_SIZE : nat := MAX_TEREDO_PACKET_SIZE.

(** [struct teredo_packet].  [ip6] is the [ip6_len] bytes at the pointer of
    that name: code that reads past them is at fault. *)
Record teredo_packet := mk_teredo_packet {
  ip6 : list Z;
  source_ipv4 : Z;
  source_port : Z;
  orig_port : Z;
  orig_ipv4 : Z;
  dest_ipv4 : Z;
  auth_present : bool;
  auth_fail : bool;
  auth_nonce : list Z;  (* 8 bytes *)
}.

(** [struct ip6_hdr]: the forty bytes of an IPv6 header. *)
Record ip6_hdr := mk_ip6_hdr {
  ip6_flow : list Z;   (* 4 bytes; the first one is [ip6_vfc] *)
  ip6_plen : Z;        (* uint16_t, network byte order *)
  ip6_nxt : Z;         (* uint8_t *)
  ip6_hlim : Z;        (* uint8_t *)
  ip6_src : in6_addr;
  ip6_dst : in6_addr;
}.

Definition ip6_vfc (h : ip6_hdr) : Z := nth 0 (ip6_flow h) 0.

Definition IPPROTO_ICMPV6 : Z := 58.
Definition IPPROTO_NONE : Z := 59.

(** Access through a [struct ip6_hdr *]: all forty bytes must be there. *)
Definition get_ip6 (b : list Z) : res ip6_hdr :=
  if decide (40 <= length b)%nat then
    Ok {| ip6_flow := take 4 b;
          ip6_plen := le_load (take 2 (drop 4 b));
          ip6_nxt := nth 6 b 0;
          ip6_hlim := nth 7 b 0;
          ip6_src := take 16 (drop 8 b);
          ip6_dst := take 16 (drop 24 b) |}
  else Err OutOfBounds.

(** The header as bytes, for the packets the code builds. *)
Definition put_ip6 (h : ip6_hdr) : list Z :=
  ip6_flow h ++ le_split 2 (ip6_plen h) ++ [ip6_nxt h; ip6_hlim h] ++ ip6_src h ++ ip6_dst h.

Definition ip6_hdr_wf (h : ip6_hdr) : Prop :=
  length (ip6_flow h) = 4%nat /\ bytes_ok (ip6_flow h) /\ 0 <= ip6_plen h < 2 ^ 16 /\
  byte_ok (ip6_nxt h) /\ byte_ok (ip6_hlim h) /\ addr_wf (ip6_src h) /\ addr_wf (ip6_dst h).

(** ** The outside world *)

Class Env := {
  env_clock : nat -> Z;      (* teredo_clock () *)
  env_time : nat -> Z;       (* (uint32_t)time (NULL) *)
  env_sendmsg : nat -> Z;    (* result of sendmsg () *)
  env_setsockopt : nat -> Z; (* result of setsockopt () *)
  env_sendto : nat -> Z + Z; (* bytes sent by sendto (), or errno *)
}.

Inductive event :=
| Sendmsg (fd ip port : Z) (data : list Z)   (* UDP/IPv4 datagram *)
| Multicast_if (fd addr : Z)                  (* IP_MULTICAST_IF *)
| Join_mcast (sk ifaddr : Z)                  (* IP_ADD_MEMBERSHIP *)
| Multicast_loop_off (fd : Z)                 (* IP_MULTICAST_LOOP *)
| Recv_cb (data : list Z)                     (* packet passed to the IPv6 stack *)
| Icmpv6_cb (data : list Z) (dst : in6_addr)  (* ICMPv6 error for the IPv6 stack *)
| Up_cb (addr : in6_addr) (mtu : Z)
| Down_cb
| To_maintenance (p : teredo_packet)          (* packet handed to the maintenance thread *)
| Sendto_raw (data : list Z) (dst : in6_addr). (* raw IPv6 socket of the server *)

Record world := mk_world { w_k : nat; w_out : list event }.

Section io.
Context `{Env}.

(** Ask the outside world: the answer is the oracle's at the current call number. *)
Definition ask {A} (f : nat -> A) : st world A :=
  fun w => Ok (f (w_k w), {| w_k := S (w_k w); w_out := w_out w |}).

Definition emit (e : event) : st world unit :=
  fun w => Ok (tt, {| w_k := w_k w; w_out := w_out w ++ [e] |}).

Definition teredo_clock : st world Z := ask env_clock.

(** [MSG_ERRQUEUE] is not available in this build: [teredo_recverr] fails
    with EAGAIN, so the sending loop makes a single attempt. *)
Definition teredo_recverr : Z := -1.

(** [sendmsg] through a scatter-gather array. *)
Definition teredo_sendv (fd : Z) (iov : list (list Z)) (dest_ip dest_port : Z) : st world Z :=
  emit (Sendmsg fd dest_ip dest_port (mjoin iov));; ask env_sendmsg.

Definition teredo_send (fd : Z) (packet : list Z) (dest_ip dest_port : Z) : st world Z :=
  teredo_sendv fd [packet] dest_ip dest_port.
End io.

(** ** Reception *)

Definition teredo_orig_ind : Z := 0.
Definition teredo_auth_hdr : Z := 1.

Definition IPPROTO_IP : Z := 0.
Definition IP_RECVDSTADDR : Z := 7.

(** What [recvmsg] delivers: [None] is an error. *)
Record datagram := mk_datagram {
  dg_data : list Z;
  dg_ip : Z;
  dg_port : Z;
  dg_cmsgs : list (Z * Z * Z);   (* level, type, address *)
}.

Fixpoint cmsg_dest (cmsgs : list (Z * Z * Z)) (dest : Z) : Z :=
  match cmsgs with
  | [] => dest
  | (level, type, addr) :: cmsgs =>
    cmsg_dest cmsgs (if (level =? IPPROTO_IP) && (type =? IP_RECVDSTADDR) then addr else dest)
  end.

(** The Teredo Authentication header at the start of [buf]: the remaining
    length, the shifted buffer, the nonce and the confirmation. [None] when
    the datagram is too short. *)
Definition parse_auth (length : Z) (buf : list Z)
    : res (option (Z * list Z * list Z * bool)) :=
  let length := length - 13 in
  if length <? 0 then Ok None else
  id_len ← rd8 2 buf;
  au_len ← rd8 3 buf;
  let length := length - (id_len + au_len) in
  if length <? 0 then Ok None else
  let ptr := (4 + Z.to_nat (id_len + au_len))%nat in
  nonce ← slice ptr 8 buf;
  conf ← rd8 (ptr + 8) buf;
  rest ← slice (ptr + 9) (Z.to_nat length) buf;
  Ok (Some (length, blit 0 rest buf, nonce, negb (conf =? 0))).

(** The origin indication: remaining length, offset of the IPv6 packet, port
    and address. *)
Definition parse_orig (length : Z) (buf : list Z) : res (option (Z * nat * Z * Z)) :=
  let length := length - 8 in
  if length <? 0 then Ok None else
  port ← rd16 2 buf;
  addr ← rd32 4 buf;
  Ok (Some (length, 8%nat, unot 16 port, unot 32 addr)).

(** The part of [teredo_recv_inner] after the authentication header. *)
Definition recv_orig (p : teredo_packet) (length : Z) (buf : list Z) : res (option teredo_packet) :=
  b0 ← rd8 0 buf;
  b1 ← rd8 1 buf;
  orig ← (if (b0 =? 0) && (b1 =? teredo_orig_ind) then parse_orig length buf
          else Ok (Some (length, 0%nat, orig_port p, orig_ipv4 p)));
  match orig with
  | None => Ok None
  | Some (length, ptr, port, addr) =>
    data ← slice ptr (Z.to_nat length) buf;
    Ok (Some {| ip6 := data;
                source_ipv4 := source_ipv4 p; source_port := source_port p;
                orig_port := port; orig_ipv4 := addr; dest_ipv4 := dest_ipv4 p;
                auth_present := auth_present p; auth_fail := auth_fail p;
                auth_nonce := auth_nonce p |})
  end.

(** [p] is the caller's uninitialised packet, [fill] the previous contents of
    its 65507-byte buffer. [None] is the error return -1. *)
Definition teredo_recv_inner (p : teredo_packet) (fill : list Z) (msg : option datagram)
    : res (option teredo_packet) :=
  match msg with
  | None => Ok None
  | Some d =>
    let length := Z.of_nat (length (dg_data d)) in
    if length <? 2 then Ok None else
    let buf := blit 0 (dg_data d) fill in
    let p := {| ip6 := ip6 p;
                source_ipv4 := dg_ip d; source_port := dg_port d;
                orig_port := 0; orig_ipv4 := 0; dest_ipv4 := cmsg_dest (dg_cmsgs d) 0;
                auth_present := false; auth_fail := auth_fail p; auth_nonce := auth_nonce p |} in
    b0 ← rd8 0 buf;
    b1 ← rd8 1 buf;
    if (b0 =? 0) && (b1 =? teredo_auth_hdr) then
      auth ← parse_auth length buf;
      match auth with
      | None => Ok None
      | Some (length, buf, nonce, fail) =>
        recv_orig {| ip6 := ip6 p;
                     source_ipv4 := source_ipv4 p; source_port := source_port p;
                     orig_port := 0; orig_ipv4 := 0; dest_ipv4 := dest_ipv4 p;
                     auth_present := true; auth_fail := fail; auth_nonce := nonce |}
                  length buf
      end
    else recv_orig p length buf
  end.

(** ** Internet checksum *)

(** One byte of the loop: the running sum, the pending byte of the word
    ([w.bytes[0]]) and the parity. *)
Definition cksum_byte (s : Z * Z * bool) (b : Z) : Z * Z * bool :=
  let '(sum, w0, odd) := s in
  if (odd : bool) then
    let sum := wrap 32 (sum + (w0 + 256 * b)) in
    ((if 0xffff <? sum then sum - 0xffff else sum), w0, false)
  else (sum, b, true).

Definition in_cksum (iov : list (list Z)) : Z :=
  let '(sum, w0, odd) :=
    fold_left (fun s bytes => fold_left cksum_byte bytes s) iov (0, 0, false) in
  let sum := if (odd : bool) then
               let sum := wrap 32 (sum + w0) in if 0xffff <? sum then sum - 0xffff else sum
             else sum in
  wrap 16 (Z.lxor sum 0xffff).

Definition teredo_cksum (src dst : list Z) (protocol : Z) (data : list (list Z)) : Z :=
  let plen := Z.of_nat (length (mjoin data)) in
  let pseudo := le_split 4 (htonl (wrap 32 plen)) ++ le_split 4 (htonl protocol) in
  in_cksum (src :: dst :: pseudo :: data).

(** [icmp6_checksum (ip6, icmp6)], with [icmp6] the bytes after the header. *)
Definition icmp6_checksum (h : ip6_hdr) (icmp6 : list Z) : Z :=
  teredo_cksum (ip6_src h) (ip6_dst h) IPPROTO_ICMPV6
    [take (Z.to_nat (ntohs (ip6_plen h))) icmp6].

(** ** Facts: headers *)

Lemma get_ip6_ok b : (40 <= length b)%nat -> exists h, get_ip6 b = Ok h.
Proof. intros H. unfold get_ip6. rewrite decide_True by done. eauto. Qed.

Lemma get_ip6_inv b h :
  get_ip6 b = Ok h ->
  (40 <= length b)%nat /\ ip6_src h = take 16 (drop 8 b) /\ ip6_dst h = take 16 (drop 24 b).
Proof. unfold get_ip6. case_decide; [|done]. by intros [= <-]. Qed.

Lemma get_ip6_wf b h : bytes_ok b -> get_ip6 b = Ok h -> ip6_hdr_wf h.
Proof.
  unfold get_ip6. intros Hb. case_decide as HL; [|done]. intros [= <-].
  assert (forall i, (i < 40)%nat -> byte_ok (nth i b 0)) as Hn.
  { intros i Hi. destruct (lookup_lt_is_Some_2 b i) as [x Hx]; [lia|].
    erewrite nth_lookup_Some by exact Hx. by eapply bytes_ok_lookup. }
  assert (forall n m, (n + m <= 40)%nat -> length (take m (drop n b)) = m) as Ht
    by (intros; apply take_drop_length; lia).
  unfold ip6_hdr_wf, addr_wf; cbn [ip6_flow ip6_plen ip6_nxt ip6_hlim ip6_src ip6_dst].
  split_and!; try (apply Hn; lia); try (by apply Forall_take_drop); try (apply Ht; lia).
  - apply (Ht 0%nat 4%nat). lia.
  - by apply Forall_take.
  - apply le_load_nonneg. by apply Forall_take_drop.
  - pose proof (le_load_bounds (take 2 (drop 4 b))) as HB.
    rewrite Ht in HB by lia. apply HB. by apply Forall_take_drop.
Qed.

Lemma put_ip6_length h : ip6_hdr_wf h -> length (put_ip6 h) = 40%nat.
Proof.
  intros (H1 & _ & _ & _ & _ & [H2 _] & [H3 _]). unfold put_ip6.
  rewrite !length_app, length_le_split. simpl. lia.
Qed.

(** The header round trip: reading back what the code wrote. *)
Lemma get_put_ip6 h rest : ip6_hdr_wf h -> get_ip6 (put_ip6 h ++ rest) = Ok h.
Proof.
  intros Hwf. pose proof (put_ip6_length h Hwf) as HL.
  destruct Hwf as (H1 & _ & H2 & _ & _ & [H3 _] & [H4 _]).
  unfold get_ip6. rewrite decide_True by (rewrite length_app; lia). f_equal.
  destruct h as [flow plen nxt hlim src dst];
    cbn [ip6_flow ip6_plen ip6_nxt ip6_hlim ip6_src ip6_dst] in *.
  unfold put_ip6; cbn [ip6_flow ip6_plen ip6_nxt ip6_hlim ip6_src ip6_dst].
  do 4 (destruct flow as [|? flow]; [discriminate|]). destruct flow; [|discriminate].
  do 16 (destruct src as [|? src]; [discriminate|]). destruct src; [|discriminate].
  do 16 (destruct dst as [|? dst]; [discriminate|]). destruct dst; [|discriminate].
  f_equal. exact (le_load_split_small 2 plen H2).
Qed.

(** ** The wire format

What [teredo_recv_inner] has to make of the bytes of a datagram, without
buffers and pointers. *)

Definition set_orig (p : teredo_packet) (data : list Z) (port addr : Z) : teredo_packet :=
  {| ip6 := data; source_ipv4 := source_ipv4 p; source_port := source_port p;
     orig_port := port; orig_ipv4 := addr; dest_ipv4 := dest_ipv4 p;
     auth_present := auth_present p; auth_fail := auth_fail p; auth_nonce := auth_nonce p |}.

Definition orig_spec (p : teredo_packet) (data : list Z) : option teredo_packet :=
  match data with
  | 0 :: 0 :: l =>
    match l with
    | p0 :: p1 :: a0 :: a1 :: a2 :: a3 :: data =>
      Some (set_orig p data (unot 16 (le_load [p0; p1])) (unot 32 (le_load [a0; a1; a2; a3])))
    | _ => None
    end
  | _ => Some (set_orig p data 0 0)
  end.

Definition recv_packet (p : teredo_packet) (d : datagram) (auth : option (list Z * bool))
    : teredo_packet :=
  {| ip6 := ip6 p; source_ipv4 := dg_ip d; source_port := dg_port d;
     orig_port := 0; orig_ipv4 := 0; dest_ipv4 := cmsg_dest (dg_cmsgs d) 0;
     auth_present := match auth with Some _ => true | None => false end;
     auth_fail := match auth with Some (_, f) => f | None => auth_fail p end;
     auth_nonce := match auth with Some (n, _) => n | None => auth_nonce p end |}.

Definition recv_spec (p : teredo_packet) (d : datagram) : option teredo_packet :=
  match dg_data d with
  | 0 :: 1 :: l =>
    match l with
    | id_len :: au_len :: l =>
      let skip := Z.to_nat (id_len + au_len) in
      if decide (length l < skip + 9)%nat then None
      else orig_spec (recv_packet p d (Some (take 8 (drop skip l), negb (nth (skip + 8) l 0 =? 0))))
                     (drop (skip + 9) l)
    | _ => None
    end
  | _ :: _ :: _ => orig_spec (recv_packet p d None) (dg_data d)
  | _ => None
  end.

Lemma rd8_app_l l k i x : l !! i = Some x -> rd8 i (l ++ k) = Ok x.
Proof. intros E. unfold rd8. by rewrite (lookup_app_l_Some _ _ _ _ E). Qed.

Lemma slice_app_exact a b c off len :
  length a = off -> length b = len -> slice off len (a ++ b ++ c) = Ok b.
Proof.
  intros <- <-. rewrite slice_ok by (rewrite !length_app; lia).
  by rewrite drop_app_length, take_app_length.
Qed.

(** The second half of the parser, on a buffer that holds [data] followed by
    stale bytes, when a short [data] cannot be mistaken for an indication. *)
Lemma recv_orig_correct p data stale :
  orig_port p = 0 -> orig_ipv4 p = 0 ->
  (2 <= length data)%nat \/
   (exists x y l, data ++ stale = x :: y :: l /\ y <> 0 /\ (length data < 2)%nat) ->
  recv_orig p (Z.of_nat (length data)) (data ++ stale) = Ok (orig_spec p data).
Proof.
  intros Hp Ha Hlen. unfold recv_orig.
  assert (forall x y l, data ++ stale = x :: y :: l ->
            rd8 0 (data ++ stale) = Ok x /\ rd8 1 (data ++ stale) = Ok y) as Hrd
    by (intros x y l ->; done).
  assert (slice 0 (Z.to_nat (Z.of_nat (length data))) (data ++ stale) = Ok data) as Hsl.
  { rewrite Nat2Z.id. apply (slice_app_exact [] data stale); done. }
  destruct Hlen as [Hlen | (x & y & l & E & Hy & Hlen)].
  - destruct data as [|x [|y data]]; [simpl in Hlen; lia..|].
    destruct (Hrd x y (data ++ stale)) as [-> ->]; [done|]. cbn [mbind res_bind].
    unfold teredo_orig_ind. destruct (Z.eqb_spec x 0) as [->|Hx]; cbn [andb].
    2:{ cbn [mbind res_bind]. rewrite Hsl. cbn [mbind res_bind orig_spec].
        rewrite Hp, Ha. by destruct x. }
    destruct (Z.eqb_spec y 0) as [->|Hy]; cbn [andb].
    2:{ cbn [mbind res_bind]. rewrite Hsl. cbn [mbind res_bind orig_spec].
        rewrite Hp, Ha. by destruct y. }
    unfold parse_orig.
    destruct (Z.ltb_spec (Z.of_nat (length (0 :: 0 :: data)) - 8) 0) as [Hs|Hs].
    { do 6 (destruct data as [|? data]; [done|]). simpl in Hs. lia. }
    do 6 (destruct data as [|? data]; [simpl in Hs; lia|]). cbn [mbind res_bind orig_spec].
    unfold rd16, rd32. rewrite !slice_ok by (simpl; lia). cbn [drop take app mbind res_bind].
    replace (Z.to_nat _) with (length data) by (simpl; lia).
    match goal with |- context [slice 8 ?n ?l] =>
      replace (slice 8 n l) with (Ok data)
        by (symmetry; exact (slice_app_exact [_; _; _; _; _; _; _; _] data stale 8 n eq_refl eq_refl))
    end. done.
  - destruct (Hrd _ _ _ E) as [-> ->]. cbn [mbind res_bind]. unfold teredo_orig_ind.
    rewrite (proj2 (Z.eqb_neq y 0)) by done. rewrite andb_false_r. cbn [mbind res_bind].
    rewrite Hsl. cbn [mbind res_bind]. rewrite Hp, Ha.
    destruct data as [|? [|? ?]]; [done| |simpl in Hlen; lia].
    simpl. by repeat case_match.
Qed.

Lemma blit_app data fill :
  (length data <= length fill)%nat -> exists stale, blit 0 data fill = data ++ stale.
Proof. intros. unfold blit. simpl. eauto. Qed.

(** The authentication header, on a buffer that starts with the datagram. *)
Lemma parse_auth_correct id_len au_len l stale :
  byte_ok id_len -> byte_ok au_len ->
  let data := 0 :: 1 :: id_len :: au_len :: l in
  let skip := Z.to_nat (id_len + au_len) in
  parse_auth (Z.of_nat (length data)) (data ++ stale) =
  if decide (length l < skip + 9)%nat then Ok None
  else Ok (Some (Z.of_nat (length (drop (skip + 9) l)),
                 blit 0 (drop (skip + 9) l) (data ++ stale),
                 take 8 (drop skip l), negb (nth (skip + 8) l 0 =? 0))).
Proof.
  intros Hid Hau data skip. unfold byte_ok in *. unfold parse_auth.
  assert (Z.of_nat (length data) = 4 + Z.of_nat (length l)) as Hlen by (subst data; simpl; lia).
  assert (0 <= id_len + au_len) by lia.
  assert (Z.of_nat skip = id_len + au_len) as Hskip by (subst skip; lia).
  destruct (Z.ltb_spec (Z.of_nat (length data) - 13) 0).
  { rewrite decide_True by lia. done. }
  change (rd8 2 (data ++ stale)) with (Ok id_len).
  change (rd8 3 (data ++ stale)) with (Ok au_len). cbn [mbind res_bind].
  destruct (Z.ltb_spec (Z.of_nat (length data) - 13 - (id_len + au_len)) 0).
  { rewrite decide_True by lia. done. }
  rewrite decide_False by lia. fold skip.
  replace (Z.of_nat (length data) - 13 - (id_len + au_len))
    with (Z.of_nat (length l - (skip + 9))) by lia. rewrite Nat2Z.id.
  assert (forall n m, (n + m <= length l)%nat ->
            slice (4 + n) m (data ++ stale) = Ok (take m (drop n l))) as Hsl.
  { intros n m Hnm. apply slice_app_l. rewrite slice_ok by lia. done. }
  rewrite (Hsl skip 8%nat) by lia. cbn [mbind res_bind].
  replace (4 + skip + 8)%nat with (4 + (skip + 8))%nat by lia.
  assert (rd8 (4 + (skip + 8)) (data ++ stale) = Ok (nth (skip + 8) l 0)) as ->.
  { destruct (lookup_lt_is_Some_2 l (skip + 8)) as [x Hx]; [lia|].
    rewrite (nth_lookup_Some _ _ _ _ Hx). apply rd8_app_l. exact Hx. }
  cbn [mbind res_bind].
  replace (4 + skip + 9)%nat with (4 + (skip + 9))%nat by lia.
  rewrite Hsl by lia. cbn [mbind res_bind]. rewrite length_drop.
  rewrite (take_ge (drop (skip + 9) l)) by (rewrite length_drop; lia). done.
Qed.

Lemma recv_inner_correct p fill d :
  length fill = TEREDO_PACKET_SIZE -> (length (dg_data d) <= TEREDO_PACKET_SIZE)%nat ->
  bytes_ok (dg_data d) ->
  teredo_recv_inner p fill (Some d) = Ok (recv_spec p d).
Proof.
  intros Hfill Hd Hok. unfold teredo_recv_inner, recv_spec.
  destruct (blit_app (dg_data d) fill) as [stale Hbuf]; [lia|]. rewrite Hbuf. clear Hbuf.
  destruct (dg_data d) as [|b0 [|b1 l]] eqn:Ed; [done|by destruct b0|].
  rewrite (proj2 (Z.ltb_ge (Z.of_nat (length (b0 :: b1 :: l))) 2)) by (simpl; lia).
  change (rd8 0 ((b0 :: b1 :: l) ++ stale)) with (Ok b0).
  change (rd8 1 ((b0 :: b1 :: l) ++ stale)) with (Ok b1).
  cbn [mbind res_bind]. unfold teredo_auth_hdr.
  destruct (Z.eqb_spec b0 0) as [->|Hb0]; cbn [andb]; [|
    rewrite recv_orig_correct by (done || (left; simpl; lia)); by destruct b0].
  destruct (Z.eqb_spec b1 1) as [->|Hb1]; cbn [andb]; [|
    rewrite recv_orig_correct by (done || (left; simpl; lia)); destruct b1 as [|[]|]; done].
  destruct l as [|id_len [|au_len l]]; [done..|].
  repeat match goal with H : bytes_ok (_ :: _) |- _ => apply bytes_ok_cons in H as [? ?] end.
  rewrite parse_auth_correct by done. cbv zeta. case_decide as Hl; [done|].
  cbn [mbind res_bind]. set (data := drop (Z.to_nat (id_len + au_len) + 9) l).
  change (blit 0 data ?b) with (data ++ drop (length data) b).
  apply recv_orig_correct; [done..|].
  clearbody data. destruct data as [|x [|y data]]; [right..|left; simpl; lia].
  - exists 0, 1, (id_len :: au_len :: l ++ stale). split_and!; [done|lia|simpl; lia].
  - exists x, 1, (id_len :: au_len :: l ++ stale). split_and!; [done|lia|simpl; lia].
Qed.

Lemma orig_spec_bytes p data q : bytes_ok data -> orig_spec p data = Some q -> bytes_ok (ip6 q).
Proof.
  intros Hb. unfold orig_spec.
  repeat match goal with
         | |- context [match ?x with _ => _ end] => destruct x; try done
         end; intros [= <-]; cbn [ip6 set_orig]; try done;
    repeat (apply bytes_ok_cons in Hb as [_ Hb]); done.
Qed.

Lemma recv_spec_bytes p d q : bytes_ok (dg_data d) -> recv_spec p d = Some q -> bytes_ok (ip6 q).
Proof.
  intros Hb. unfold recv_spec. destruct (dg_data d) as [|b0 [|b1 l]]; [done|by destruct b0|].
  assert (forall a, orig_spec (recv_packet p d a) (b0 :: b1 :: l) = Some q -> bytes_ok (ip6 q)) as H1
    by (intros a; by apply orig_spec_bytes).
  destruct b0; [destruct b1 as [|[]|]|..]; try apply H1.
  destruct l as [|id_len [|au_len l]]; [done..|]. case_decide; [done|].
  apply orig_spec_bytes. apply Forall_drop. do 4 apply bytes_ok_cons in Hb as [_ Hb]. done.
Qed.

(** (C8) Reception implements the Teredo encapsulation format: for every
    datagram that fits the buffer, [teredo_recv_inner] returns, without reading
    outside the buffer, exactly what the format prescribes; the bytes left in
    the buffer by earlier datagrams never influence the result. *)
Theorem teredo_recv_inner_refines_format (p : teredo_packet) (fill : list Z) (d : datagram)
    (Hfill : length fill = TEREDO_PACKET_SIZE)
    (Hd : (length (dg_data d) <= TEREDO_PACKET_SIZE)%nat)
    (Hok : bytes_ok (dg_data d)) :
  teredo_recv_inner p fill (Some d) = Ok (recv_spec p d).
Proof. by apply recv_inner_correct. Qed.

Definition example_packet : teredo_packet :=
  mk_teredo_packet [] 0 0 0 0 0 false false (repeat 7 8).

(** An origin indication for 192.0.2.1 port 3544, after an authentication header. *)
Definition example_datagram : datagram :=
  mk_datagram ([0; 1; 1; 0; 99] ++ [1; 2; 3; 4; 5; 6; 7; 8; 0] ++
               [0; 0; 0xf2; 0x27; 63; 255; 253; 254] ++ [0x60; 1; 2; 3])
              (ipv4 198 51 100 1) (htons 3544) [(IPPROTO_IP, IP_RECVDSTADDR, ipv4 10 0 0 1)].

Lemma teredo_recv_inner_refines_format_witness :
  teredo_recv_inner example_packet (repeat 1 TEREDO_PACKET_SIZE) (Some example_datagram) =
  Ok (Some {| ip6 := [0x60; 1; 2; 3]; source_ipv4 := ipv4 198 51 100 1;
              source_port := htons 3544; orig_port := htons 3544;
              orig_ipv4 := ipv4 192 0 2 1; dest_ipv4 := ipv4 10 0 0 1;
              auth_present := true; auth_fail := false;
              auth_nonce := [1; 2; 3; 4; 5; 6; 7; 8] |}).
Proof.
  rewrite (teredo_recv_inner_refines_format example_packet
             (repeat 1 TEREDO_PACKET_SIZE) example_datagram).
  - vm_compute. reflexivity.
  - apply repeat_length.
  - apply Nat2Z.inj_le. vm_compute. congruence.
  - vm_compute. repeat (constructor; [split; congruence|]). constructor.
Defined.

(** ** The Internet checksum *)

(** The sum of the little-endian 16-bit words, the last one zero-padded. *)
Fixpoint word_sum (l : list Z) : Z :=
  match l with
  | [] => 0
  | [a] => a
  | a :: b :: l => a + 256 * b + word_sum l
  end.

(** [s] is the one's-complement sum of words whose integer sum is [v]. *)
Definition ones_sum (s v : Z) : Prop :=
  0 <= s <= 65535 /\ 0 <= v /\ s mod 65535 = v mod 65535 /\ (s = 0 <-> v = 0).

Definition cksum_add (sum w : Z) : Z :=
  let sum := wrap 32 (sum + w) in if 0xffff <? sum then sum - 0xffff else sum.

Lemma ones_sum_add s v w :
  ones_sum s v -> 0 <= w <= 65535 -> ones_sum (cksum_add s w) (v + w).
Proof.
  intros (Hs & Hv & Hm & Hz) Hw. unfold cksum_add, wrap. rewrite Z.mod_small by lia.
  assert ((s + w) mod 65535 = (v + w) mod 65535) as Hsw.
  { by rewrite <- (Zplus_mod_idemp_l s), Hm, Zplus_mod_idemp_l. }
  destruct (Z.ltb_spec 65535 (s + w)); split_and!; try lia.
  rewrite <- Hsw. replace (s + w - 65535) with (s + w + (-1) * 65535) by lia.
  by rewrite Z.mod_add by lia.
Qed.

Definition cksum_final (s : Z * Z * bool) : Z :=
  let '(sum, w0, odd) := s in if (odd : bool) then cksum_add sum w0 else sum.

Lemma cksum_bytes_sum l : bytes_ok l -> forall sum w v,
  ones_sum sum v ->
  ones_sum (cksum_final (fold_left cksum_byte l (sum, w, false))) (v + word_sum l).
Proof.
  induction l as [l IH] using (induction_ltof1 _ (@length Z)). unfold ltof in IH.
  intros Hl sum w v Hs. destruct l as [|a [|b l]].
  - simpl. by rewrite Z.add_0_r.
  - apply bytes_ok_cons in Hl as [Ha _]. unfold byte_ok in Ha. simpl. apply ones_sum_add; [done|lia].
  - apply bytes_ok_cons in Hl as [Ha Hl]. apply bytes_ok_cons in Hl as [Hb Hl].
    unfold byte_ok in Ha, Hb. cbn [fold_left cksum_byte word_sum].
    rewrite (Z.add_assoc v). apply IH; [simpl; lia|done|].
    apply (ones_sum_add sum v (a + 256 * b)); [done|lia].
Qed.

Lemma in_cksum_flat iov : in_cksum iov = in_cksum [mjoin iov].
Proof.
  unfold in_cksum. cbn [fold_left]. generalize (0, 0, false) as s.
  induction iov as [|b iov IH]; intros s; [done|]. simpl.
  rewrite fold_left_app. apply IH.
Qed.

Lemma in_cksum_sum l :
  bytes_ok l -> exists s, ones_sum s (word_sum l) /\ in_cksum [l] = 65535 - s.
Proof.
  intros Hl. exists (cksum_final (fold_left cksum_byte l (0, 0, false))).
  assert (ones_sum (cksum_final (fold_left cksum_byte l (0, 0, false))) (word_sum l)) as H.
  { apply (cksum_bytes_sum l Hl 0 0 0). unfold ones_sum. split_and!; lia || done. }
  split; [done|]. unfold in_cksum. cbn [fold_left].
  destruct H as (Hb & _). destruct (fold_left cksum_byte l (0, 0, false)) as [[sum w0] odd].
  unfold cksum_final, cksum_add in *. cbv zeta in *.
  set (s := if odd then _ else _) in *.
  change (Z.lxor s 65535) with (unot 16 s). rewrite unot_sub by lia.
  unfold wrap. rewrite Z.mod_small; lia.
Qed.

Lemma word_sum_app a l :
  Nat.Even (length a) -> word_sum (a ++ l) = word_sum a + word_sum l.
Proof.
  induction a as [a IH] using (induction_ltof1 _ (@length Z)). unfold ltof in IH.
  intros [n Hn]. destruct a as [|x [|y a]]; [done|simpl in Hn; lia|].
  cbn [app word_sum]. rewrite IH; [lia|simpl; lia|]. exists (n - 1)%nat. simpl in Hn. lia.
Qed.

Lemma in_cksum_bounds iov : bytes_ok (mjoin iov) -> 0 <= in_cksum iov < 2 ^ 16.
Proof.
  intros H. rewrite in_cksum_flat. destruct (in_cksum_sum _ H) as (s & (Hs & _) & ->). lia.
Qed.

Lemma in_cksum_verifies a b :
  Nat.Even (length a) -> bytes_ok a -> bytes_ok b ->
  in_cksum [a ++ le_split 2 (in_cksum [a ++ [0; 0] ++ b]) ++ b] = 0.
Proof.
  intros He Ha Hb.
  assert (bytes_ok (a ++ [0; 0] ++ b)) as H0 by bytes_ok_tac.
  destruct (in_cksum_sum _ H0) as (s & (Hs & Hv & Hm & Hz) & Ec).
  rewrite word_sum_app in Hv, Hm, Hz by done. cbn [app word_sum] in Hv, Hm, Hz.
  set (c := in_cksum [a ++ [0; 0] ++ b]) in *.
  assert (bytes_ok (a ++ le_split 2 c ++ b)) as H1 by bytes_ok_tac.
  destruct (in_cksum_sum _ H1) as (s' & (Hs' & Hv' & Hm' & Hz') & ->).
  rewrite word_sum_app in Hv', Hm', Hz' by done.
  assert (word_sum (le_split 2 c ++ b) = c + word_sum b) as E.
  { rewrite word_sum_app by (rewrite length_le_split; by exists 1%nat). f_equal.
    rewrite <- (le_load_split_small 2 c) at 2 by (simpl; lia).
    destruct (le_split 2 c) as [|x [|y [|]]] eqn:E2;
      try (pose proof (length_le_split 2 c) as HL; rewrite E2 in HL; discriminate).
    unfold le_load, word_sum. lia. }
  rewrite E in Hv', Hm', Hz'.
  assert (s' mod 65535 = 0) as Hs0.
  { rewrite Hm'. replace (word_sum a + (c + word_sum b))
      with (word_sum a + (0 + 256 * 0 + word_sum b) + c) by lia.
    rewrite <- Zplus_mod_idemp_l, <- Hm, Zplus_mod_idemp_l.
    replace (s + c) with 65535 by lia. done. }
  assert (s' = 65535); [|lia].
  assert (s' <> 0) by lia.
  apply Z.mod_divide in Hs0 as [q Hq]; lia.
Qed.

(** The same for a message with its pseudo-header. *)
Lemma teredo_cksum_verifies src dst proto a b :
  addr_wf src -> addr_wf dst -> Nat.Even (length a) -> bytes_ok a -> bytes_ok b ->
  teredo_cksum src dst proto
    [a ++ le_split 2 (teredo_cksum src dst proto [a ++ [0; 0] ++ b]) ++ b] = 0.
Proof.
  intros [Hsl Hsb] [Hdl Hdb] [n Hn] Ha Hb. unfold teredo_cksum. rewrite !join_one.
  assert (forall c, length (a ++ le_split 2 c ++ b) = length (a ++ [0; 0] ++ b)) as Hl.
  { intros c. by rewrite !length_app, length_le_split. }
  rewrite Hl. set (ps := _ ++ _ : list Z).
  assert (bytes_ok ps) by (subst ps; bytes_ok_tac).
  assert (length ps = 8%nat) by (subst ps; by rewrite length_app, !length_le_split).
  rewrite !(in_cksum_flat (src :: dst :: ps :: _)), !join_cons, !join_nil, !app_nil_r.
  rewrite !(app_assoc dst), !(app_assoc src), !(app_assoc _ a).
  apply in_cksum_verifies; [|bytes_ok_tac..].
  exists (20 + n)%nat. rewrite !length_app. lia.
Qed.

Lemma teredo_cksum_bounds src dst proto data :
  bytes_ok src -> bytes_ok dst -> bytes_ok data ->
  0 <= teredo_cksum src dst proto [data] < 2 ^ 16.
Proof.
  intros. unfold teredo_cksum. apply in_cksum_bounds. rewrite !join_cons, join_nil. bytes_ok_tac.
Qed.

(** The Internet checksum: [in_cksum] of a scatter-gather array is the
    complement of the one's-complement sum of the 16-bit words of the
    concatenated data, whatever the lengths and parities of the pieces. *)
Theorem in_cksum_ones_complement (iov : list (list Z)) (Hok : bytes_ok (mjoin iov)) :
  exists s, ones_sum s (word_sum (mjoin iov)) /\ in_cksum iov = 65535 - s.
Proof. rewrite in_cksum_flat. by apply in_cksum_sum. Qed.

Lemma in_cksum_ones_complement_witness :
  exists s, ones_sum s (word_sum [1; 2; 3; 4; 255]) /\ in_cksum [[1]; [2; 3; 4]; [255]] = 65535 - s.
Proof. apply (in_cksum_ones_complement [[1]; [2; 3; 4]; [255]]). bytes_ok_tac. Defined.

(** A checksummed message verifies: storing the checksum that was computed
    over a zeroed checksum field at an even offset makes the checksum of the
    message zero. *)
Theorem in_cksum_self_verifying (a b : list Z)
    (He : Nat.Even (length a)) (Ha : bytes_ok a) (Hb : bytes_ok b) :
  in_cksum [a ++ le_split 2 (in_cksum [a ++ [0; 0] ++ b]) ++ b] = 0.
Proof. by apply in_cksum_verifies. Qed.

Lemma in_cksum_self_verifying_witness :
  in_cksum [[128; 0] ++ le_split 2 (in_cksum [[128; 0] ++ [0; 0] ++ [7; 9; 11]]) ++ [7; 9; 11]] = 0.
Proof.
  apply (in_cksum_self_verifying [128; 0] [7; 9; 11]); [by exists 1%nat|bytes_ok_tac..].
Defined.

(** ** What a computation sends *)

(** [outputs m w P]: run from [w], [m] returns, and what it adds to the trace
    satisfies [P]. *)
Definition outputs {A} (m : st world A) (w : world) (P : A -> list event -> Prop) : Prop :=
  exists r w' evs, m w = Ok (r, w') /\ w_out w' = w_out w ++ evs /\ P r evs.

Lemma outputs_ret {A} (a : A) w (P : A -> list event -> Prop) : P a [] -> outputs (mret a) w P.
Proof. intros HP. exists a, w, []. by rewrite app_nil_r. Qed.

Lemma outputs_lift {A B} (m : res A) (a : A) (f : A -> st world B) w P :
  m = Ok a -> outputs (f a) w P -> outputs (lift m ≫= f) w P.
Proof. intros ->. done. Qed.

Lemma outputs_map {A B} (m : st world A) (f : A -> B) w (P : A -> list event -> Prop) Q :
  outputs m w P -> (forall a evs, P a evs -> Q (f a) evs) ->
  outputs (a ← m; mret (f a)) w Q.
Proof.
  intros (r & w' & evs & E & Ew & HP) HQ. exists (f r), w', evs.
  unfold mbind, st_bind. rewrite E. split_and!; [done..|]. by apply HQ.
Qed.

Lemma outputs_mono {A} (m : st world A) w (P Q : A -> list event -> Prop) :
  outputs m w P -> (forall a evs, P a evs -> Q a evs) -> outputs m w Q.
Proof. intros (r & w' & evs & E & Ew & HP) HQ. exists r, w', evs. auto. Qed.

Section sends.
Context `{Env}.

Lemma sendv_outputs fd iov ip port w :
  outputs (teredo_sendv fd iov ip port) w (fun _ evs => evs = [Sendmsg fd ip port (mjoin iov)]).
Proof. unfold teredo_sendv, emit, ask, mbind, st_bind. by eexists _, _, _. Qed.

Lemma ask_outputs {A} (f : nat -> A) w : outputs (ask f) w (fun _ evs => evs = []).
Proof. eexists _, _, []. by rewrite app_nil_r. Qed.

Lemma emit_outputs e w : outputs (emit e) w (fun _ evs => evs = [e]).
Proof. by eexists _, _, _. Qed.
End sends.

Lemma outputs_bind {A B} (m : st world A) (f : A -> st world B) w P Q :
  outputs m w P ->
  (forall a evs w', P a evs -> outputs (f a) w' (fun b evs' => Q b (evs ++ evs'))) ->
  outputs (m ≫= f) w Q.
Proof.
  intros (a & w1 & evs & E & Ew & HP) Hf.
  destruct (Hf a evs w1 HP) as (b & w2 & evs' & E' & Ew' & HQ).
  exists b, w2, (evs ++ evs'). unfold mbind, st_bind. rewrite E. split_and!; [done| |done].
  by rewrite Ew', Ew, app_assoc.
Qed.
