(* ===== verification/EchoEngine.v ===== *)
(** * The ICMP echo engine of gogoc ([icmp_echo_engine.c], [net_cksm.c])

The engine sends echo requests at a fixed interval, keeps one event per
request in a list sorted by time-out, and waits for replies or expirations
until it is told to stop.  The list is modelled at the level of pointers.

Durations, which the code computes as [double] milliseconds from two
[timeval]s, are exact numbers of microseconds here: they are only compared
with each other and with zero, and below 2^42 ms the rounding of a [double]
is too small to change the outcome.  The clock, the sockets and the
allocations are inputs; so are the moments at which another thread calls
[IEE_stop].  A [timeval] takes 16 bytes, the last 4 of them padding, as on
[x86_64] macOS. *)

From Stdlib Require Import ZifyNat Sorted.
From stdpp Require Import base gmap list numbers.
From S2P Require Import Prelude Words Udp.

(** ** Data *)

Inductive iee_ret_t :=
| IEE_SUCCESS | IEE_INVALID_PARMS | IEE_RESOURCE_STARVATION | IEE_CONNECTIVITY_ASSESSED
| IEE_GENERAL_ECHO_TIMEOUT | IEE_GENERAL_ECHO_ERROR.

Inductive iee_mode_t := IEE_MODE_OTHER | IEE_MODE_KA | IEE_MODE_ACD.

Inductive iee_priv_ret_t :=
| READ_SELECT_ERROR | READ_SELECT_TIMEOUT | READ_SOCKET_CLOSED | READ_RECV_ERROR
| SEND_PINGOUT_SUCCESS | SEND_PINGOUT_ERROR | SEND_MEMORY_STARVATION
| ANAL_PACKET_BAD | ANAL_PACKET_IGNORED | ANAL_PACKET_PINGIN_LATE | ANAL_PACKET_PINGIN_ONTIME
| ECHO_EVENT_REMOVED | ECHO_EVENT_NOTFOUND | GENERAL_ECHO_ERROR.

#[export] Instance iee_ret_t_eq_dec : EqDecision iee_ret_t.
Proof. solve_decision. Defined.
#[export] Instance iee_mode_t_eq_dec : EqDecision iee_mode_t.
Proof. solve_decision. Defined.
#[export] Instance iee_priv_ret_t_eq_dec : EqDecision iee_priv_ret_t.
Proof. solve_decision. Defined.

Definition ICMP4_ECHO_REQUEST_TYPE : Z := 8.
Definition ICMP4_ECHO_REPLY_TYPE : Z := 0.
Definition ICMP6_ECHO_REQUEST_TYPE : Z := 128.
Definition ICMP6_ECHO_REPLY_TYPE : Z := 129.
Definition ICMP_ECHO_CODE : Z := 0.
Definition ICMP_ECHO_DATA_LEN : nat := 16.

Definition tv_bytes (t : timeval) (pad : list Z) : list Z :=
  le_split 8 (tv_sec t) ++ le_split 4 (tv_usec t) ++ pad.

(** Loads of signed 64- and 32-bit fields. *)
Definition to_signed (w x : Z) : Z := (x + 2 ^ (w - 1)) mod 2 ^ w - 2 ^ (w - 1).

Definition tv_load (off : nat) (buf : list Z) : res timeval :=
  s ← slice off 8 buf;
  u ← slice (off + 8) 4 buf;
  Ok (mk_timeval (to_signed 64 (le_load s)) (to_signed 32 (le_load u))).

Record ECHO_EVENT := mk_ECHO_EVENT {
  echo_seq : Z;
  tv_timeout : timeval;
  ev_next : option positive;
}.

(** The parameters that never change after [IEE_init]. *)
Record iee_parms := mk_iee_parms {
  send_interval : Z;
  echo_num : Z;
  echo_timeout_threshold : Z;
  eng_mode : iee_mode_t;
  icmp_echo_id : Z;
  icmp_v6 : bool;                (* icmp_saf is AF_INET6 *)
  echo_addr_src : list Z;
  echo_addr_dst : list Z;
}.

Record iee_counts := mk_iee_counts {
  count_send : Z;
  count_ontime : Z;
  count_late : Z;
  count_consec_late : Z;         (* eight bits *)
}.

Record engine := mk_engine {
  parms : iee_parms;
  echo_timeout : Z;              (* set for each request in ACD mode *)
  eng_ongoing : bool;
  counts : iee_counts;
  event_list : option positive;
  events : gmap positive ECHO_EVENT;   (* the memory of the events *)
}.

Definition set_ongoing (v : bool) (e : engine) : engine :=
  mk_engine (parms e) (echo_timeout e) v (counts e) (event_list e) (events e).
Definition set_timeout (v : Z) (e : engine) : engine :=
  mk_engine (parms e) v (eng_ongoing e) (counts e) (event_list e) (events e).
Definition set_counts (f : iee_counts -> iee_counts) (e : engine) : engine :=
  mk_engine (parms e) (echo_timeout e) (eng_ongoing e) (f (counts e)) (event_list e) (events e).
Definition set_events (p : option positive) (h : gmap positive ECHO_EVENT) (e : engine) : engine :=
  mk_engine (parms e) (echo_timeout e) (eng_ongoing e) (counts e) p h.

Definition inc_send (c : iee_counts) :=
  mk_iee_counts (wrap 32 (count_send c + 1)) (count_ontime c) (count_late c) (count_consec_late c).
Definition add_late (c : iee_counts) :=
  mk_iee_counts (count_send c) (count_ontime c) (wrap 32 (count_late c + 1)) (wrap 8 (count_consec_late c + 1)).
Definition add_ontime (c : iee_counts) :=
  mk_iee_counts (count_send c) (wrap 32 (count_ontime c + 1)) (count_late c) 0.
Definition cancel_late (c : iee_counts) :=
  mk_iee_counts (count_send c) (count_ontime c) (wrap 32 (count_late c - 1)) (count_consec_late c).

(** ** Time *)

Definition _compare_tv (t1 t2 : timeval) : Z := usec t1 - usec t2.

Definition _compute_next_send (e : engine) (t : timeval) : timeval :=
  mk_timeval (tv_sec t + send_interval (parms e) / 1000)
             (tv_usec t + (send_interval (parms e) mod 1000) * 1000).

(** [while (tv_usec > 1000000)]; the fuel is the number of whole seconds. *)
Fixpoint tv_carry (fuel : nat) (t : timeval) : timeval :=
  match fuel with
  | O => t
  | S fuel =>
    if 1000000 <? tv_usec t then tv_carry fuel (mk_timeval (tv_sec t + 1) (tv_usec t - 1000000)) else t
  end.

Definition _compute_echo_timeout (e : engine) (t : timeval) : engine * timeval :=
  let e := if bool_decide (eng_mode (parms e) = IEE_MODE_ACD)
           then set_timeout (wrap 32 (send_interval (parms e) *
                               wrap 32 (echo_num (parms e) - count_send (counts e)))) e
           else e in
  let t := mk_timeval (tv_sec t + echo_timeout e / 1000) (tv_usec t + (echo_timeout e mod 1000) * 1000) in
  (e, tv_carry (Z.to_nat (tv_usec t / 1000000)) t).

(** ** The list of events *)

(** A [PECHO_EVENT *]: the head of the list or the [next] field of an event. *)
Inductive pp_event := PHead | PNext (p : positive).

Definition event_at (e : engine) (p : positive) : res ECHO_EVENT :=
  from_option UseAfterFree (events e !! p).

Definition load_pp (e : engine) (pp : pp_event) : res (option positive) :=
  match pp with
  | PHead => Ok (event_list e)
  | PNext p => ev ← event_at e p; Ok (ev_next ev)
  end.

Definition set_next (p : positive) (v : option positive) (e : engine) : res engine :=
  ev ← event_at e p;
  Ok (set_events (event_list e) (<[p := mk_ECHO_EVENT (echo_seq ev) (tv_timeout ev) v]> (events e)) e).

Definition store_pp (pp : pp_event) (v : option positive) (e : engine) : res engine :=
  match pp with
  | PHead => Ok (set_events v (events e) e)
  | PNext p => set_next p v e
  end.

Fixpoint insert_loop (fuel : nat) (e : engine) (pp : pp_event) (p : positive) : res engine :=
  match fuel with
  | O => Err OutOfFuel
  | S fuel =>
    cur ← load_pp e pp;
    match cur with
    | None => e ← store_pp pp (Some p) e; set_next p None e
    | Some q =>
      i ← event_at e p;
      c ← event_at e q;
      if 0 <? _compare_tv (tv_timeout i) (tv_timeout c)
      then insert_loop fuel e (PNext q) p
      else e ← set_next p (Some q) e; set_next q (Some p) e
    end
  end.

Definition _insert_echo_event (e : engine) (p : positive) : res engine :=
  insert_loop (S (S (size (events e)))) e PHead p.

Fixpoint remove_loop (fuel : nat) (e : engine) (pp : pp_event) (seq : Z) : res (iee_priv_ret_t * engine) :=
  match fuel with
  | O => Err OutOfFuel
  | S fuel =>
    cur ← load_pp e pp;
    match cur with
    | None => Ok (ECHO_EVENT_NOTFOUND, e)
    | Some q =>
      ev ← event_at e q;
      if echo_seq ev =? seq then
        e ← store_pp pp (ev_next ev) e;
        Ok (ECHO_EVENT_REMOVED, set_events (event_list e) (delete q (events e)) e)
      else remove_loop fuel e (PNext q) seq
    end
  end.

Definition _remove_free_echo_event (e : engine) (seq : Z) : res (iee_priv_ret_t * engine) :=
  remove_loop (S (S (size (events e)))) e PHead seq.

(** The recursion frees the rest of the list first. *)
Fixpoint free_loop (fuel : nat) (p : option positive) (h : gmap positive ECHO_EVENT) :
    res (gmap positive ECHO_EVENT) :=
  match fuel with
  | O => Err OutOfFuel
  | S fuel =>
    match p with
    | None => Ok h
    | Some q =>
      ev ← from_option UseAfterFree (h !! q);
      h ← free_loop fuel (ev_next ev) h;
      _ ← from_option UseAfterFree (h !! q);
      Ok (delete q h)
    end
  end.

Definition _free_echo_event_list (e : engine) : res (gmap positive ECHO_EVENT) :=
  free_loop (S (S (size (events e)))) (event_list e) (events e).

Definition _create_insert_echo_event (malloc : bool) (e : engine) (tv_sent : timeval) (seq : Z) :
    res (bool * engine) :=
  if negb malloc then Ok (false, e) else
  let p := fresh (dom (events e)) in
  let '(e, t) := _compute_echo_timeout e tv_sent in
  let e := set_events (event_list e) (<[p := mk_ECHO_EVENT seq t None]> (events e)) e in
  e ← _insert_echo_event e p;
  Ok (true, e).

(** ** Checksum *)

(** [in_cksum] of [net_cksm.c]: the loop over words, then the last byte. *)
Fixpoint cksum_words (sum : Z) (l : list Z) : Z :=
  match l with
  | a :: b :: l => cksum_words (to_int (sum + (a + 256 * b))) l
  | [a] => to_int (sum + a)
  | [] => sum
  end.

Definition net_in_cksum (l : list Z) : Z :=
  let sum := cksum_words 0 l in
  let sum := to_int (Z.shiftr sum 16 + Z.land sum 0xffff) in
  let sum := to_int (sum + Z.shiftr sum 16) in
  wrap 16 (Z.lnot sum).

(** ** Sending *)

(** An echo header and its data. *)
Definition echo_packet (type cksum id seq : Z) (data : list Z) : list Z :=
  [type; ICMP_ECHO_CODE] ++ le_split 2 cksum ++ le_split 2 id ++ le_split 2 seq ++ data.

Definition IPPROTO_ICMPV6_nxt : Z := 58.

Definition pseudo_header (src dst : list Z) : list Z :=
  src ++ dst ++ le_split 4 (htonl 24) ++ [0; 0; 0; IPPROTO_ICMPV6_nxt].

Definition _calc_icmp_csum (pm : iee_parms) (icmp : list Z) : Z :=
  if icmp_v6 pm then net_in_cksum (pseudo_header (echo_addr_src pm) (echo_addr_dst pm) ++ icmp)
  else net_in_cksum icmp.

(** The answers during [_do_send]: the clock, the padding of the [timeval] on
    the stack, [malloc], and whether [sendto] took the whole packet. *)
Record send_input := mk_send_input {
  si_now : timeval;
  si_pad : list Z;
  si_malloc : bool;
  si_sent : bool;
}.

Definition _do_send (i : send_input) (e : engine) : res (iee_priv_ret_t * option (list Z) * engine) :=
  let pm := parms e in
  let type := if icmp_v6 pm then ICMP6_ECHO_REQUEST_TYPE else ICMP4_ECHO_REQUEST_TYPE in
  let seq := wrap 16 (count_send (counts e)) in
  let e := set_counts inc_send e in
  let data := tv_bytes (si_now i) (si_pad i) in
  let cksum := _calc_icmp_csum pm (echo_packet type 0 (icmp_echo_id pm) seq data) in
  r ← _create_insert_echo_event (si_malloc i) e (si_now i) seq;
  let '(created, e) := r in
  if (created : bool) then
    let packet := echo_packet type cksum (icmp_echo_id pm) seq data in
    Ok (if si_sent i then SEND_PINGOUT_SUCCESS else SEND_PINGOUT_ERROR, Some packet, e)
  else Ok (SEND_MEMORY_STARVATION, None, e).

Definition _do_send_wrap (i : send_input) (e : engine) : res (iee_ret_t * option (list Z) * engine) :=
  r ← _do_send i e;
  let '(ret, packet, e) := r in
  Ok (match ret with
      | SEND_PINGOUT_SUCCESS => IEE_SUCCESS
      | SEND_MEMORY_STARVATION => IEE_RESOURCE_STARVATION
      | _ => IEE_GENERAL_ECHO_ERROR
      end, packet, e).

(** ** Receiving *)

Definition READ_BUF_LEN : nat := 2048.

(** [_decode_icmp_packet]: [buf] is the whole of [read_buf], of which the first
    [pkt_len] bytes were received; [now] is the clock when the round trip is
    computed.  The result is the status and the sequence number, when set. *)
Definition decode_header (e : engine) (buf : list Z) (off : nat) (now : timeval) :
    res (iee_priv_ret_t * option Z) :=
  code ← rd8 (off + 1) buf;
  if negb (code =? ICMP_ECHO_CODE) then Ok (GENERAL_ECHO_ERROR, None) else
  id ← rd16 (off + 4) buf;
  if negb (id =? icmp_echo_id (parms e)) then Ok (ANAL_PACKET_IGNORED, None) else
  seq ← rd16 (off + 6) buf;
  sent ← tv_load (off + 8) buf;
  let rtt := - _compare_tv sent now in
  Ok (if echo_timeout e * 1000 <? rtt then ANAL_PACKET_PINGIN_LATE else ANAL_PACKET_PINGIN_ONTIME, Some seq).

Definition _decode_icmp_packet (e : engine) (buf : list Z) (pkt_len : Z) (now : timeval) :
    res (iee_priv_ret_t * option Z) :=
  if icmp_v6 (parms e) then
    if pkt_len <? 8 then Ok (ANAL_PACKET_BAD, None) else
    type ← rd8 0 buf;
    if negb (type =? ICMP6_ECHO_REPLY_TYPE) then Ok (ANAL_PACKET_IGNORED, None) else
    decode_header e buf 0 now
  else
    b0 ← rd8 0 buf;
    if negb (Z.shiftr (Z.land b0 0xF0) 4 =? 4) then Ok (ANAL_PACKET_BAD, None) else
    let ip_len := Z.shiftl (Z.land b0 0x0F) 2 in
    if wrap 64 (pkt_len - ip_len) <? 8 then Ok (ANAL_PACKET_BAD, None) else
    let off := Z.to_nat ip_len in
    type ← rd8 off buf;
    if negb (type =? ICMP4_ECHO_REPLY_TYPE) then Ok (ANAL_PACKET_IGNORED, None) else
    decode_header e buf off now.

(** The answers of [select] and [recv]. *)
Inductive select_ret :=
| SelTimeout
| SelPacket (packet : list Z)    (* recv returned its length *)
| SelClosed                      (* recv returned 0 *)
| SelRecvError                   (* recv returned -1 *)
| SelEINTR
| SelEBADF
| SelError.

(** One turn of the read loop. *)
Record read_input := mk_read_input {
  ri_delay_at : timeval;         (* the clock when the delay is computed *)
  ri_stop : bool;                (* IEE_stop is called before the wait ends *)
  ri_select : select_ret;
  ri_buf : list Z;               (* what read_buf held *)
  ri_decode_at : timeval;        (* the clock when the packet is decoded *)
  ri_left_at : timeval;          (* the clock at the end of the turn *)
  ri_stop_after : bool;          (* IEE_stop is called before the test of the loop *)
}.

(** [IEE_stop]; the socket is the environment's. *)
Definition IEE_stop (e : engine) : engine := set_ongoing false e.
Definition stop_if (b : bool) (e : engine) : engine := if b then IEE_stop e else e.

Definition _do_read (i : read_input) (e : engine) : res (iee_priv_ret_t * option Z) :=
  match ri_select i with
  | SelTimeout | SelEINTR => Ok (READ_SELECT_TIMEOUT, None)
  | SelPacket packet =>
    _decode_icmp_packet e (packet ++ drop (length packet) (ri_buf i)) (Z.of_nat (length packet)) (ri_decode_at i)
  | SelRecvError => Ok (if eng_ongoing e then READ_RECV_ERROR else READ_SOCKET_CLOSED, None)
  | SelClosed => Ok (READ_RECV_ERROR, None)
  | SelEBADF => Ok (if eng_ongoing e then READ_SELECT_ERROR else READ_SOCKET_CLOSED, None)
  | SelError => Ok (READ_SELECT_ERROR, None)
  end.

(** The reply was the last one. *)
Definition last_reply (e : engine) : engine :=
  if negb (echo_num (parms e) =? 0) && (echo_num (parms e) <=? count_send (counts e))
  then set_ongoing false e else e.

(** The switch on what was read. *)
Definition on_read (ret : iee_priv_ret_t) (seq : option Z) (time_left read_delay : Z) (e : engine) :
    res (iee_ret_t * engine) :=
  match ret with
  | ANAL_PACKET_BAD | ANAL_PACKET_IGNORED => Ok (IEE_SUCCESS, e)
  | READ_SELECT_TIMEOUT =>
    match event_list e with
    | Some p =>
      if read_delay <? time_left then
        let e := set_counts add_late e in
        ev ← event_at e p;
        r ← _remove_free_echo_event e (echo_seq ev);
        Ok (IEE_SUCCESS, snd r)
      else Ok (IEE_SUCCESS, e)
    | None => Ok (IEE_SUCCESS, e)
    end
  | ANAL_PACKET_PINGIN_ONTIME =>
    let e := set_counts add_ontime e in
    seq ← from_option Uninitialised seq;
    r ← _remove_free_echo_event e seq;
    let '(removed, e) := r in
    let e := if bool_decide (removed = ECHO_EVENT_REMOVED) then e else set_counts cancel_late e in
    let acd := bool_decide (eng_mode (parms e) = IEE_MODE_ACD) in
    Ok (if acd then IEE_CONNECTIVITY_ASSESSED else IEE_SUCCESS,
        last_reply (if acd then set_ongoing false e else e))
  | ANAL_PACKET_PINGIN_LATE => Ok (IEE_SUCCESS, last_reply e)
  | READ_SOCKET_CLOSED => Ok (IEE_SUCCESS, set_ongoing false e)
  | _ => Ok (IEE_GENERAL_ECHO_ERROR, set_ongoing false e)
  end.

(** How long until the first event expires. *)
Definition read_delay (i : read_input) (e : engine) : res Z :=
  match event_list e with
  | Some p => ev ← event_at e p; Ok (_compare_tv (tv_timeout ev) (ri_delay_at i))
  | None => Ok (send_interval (parms e) * 1000)
  end.

(** One turn: the new status and engine. *)
Definition read_turn (i : read_input) (time_left : Z) (e : engine) : res (iee_ret_t * engine) :=
  read_delay ← read_delay i e;
  let e := stop_if (ri_stop i) e in
  r ← _do_read i e;
  let '(priv, seq) := r in
  r ← on_read priv seq time_left read_delay e;
  let '(retval, e) := r in
  Ok (if echo_timeout_threshold (parms e) <=? count_consec_late (counts e)
      then (IEE_GENERAL_ECHO_TIMEOUT, set_ongoing false e) else (retval, e)).

(** The read loop; [None] when the inputs end before the loop does. *)
Fixpoint read_loop (inputs : list read_input) (tv_ref : timeval) (time_left : Z) (e : engine) :
    res (option iee_ret_t * engine) :=
  match inputs with
  | [] => Ok (None, e)
  | i :: inputs =>
    r ← read_turn i time_left e;
    let '(retval, e) := r in
    let time_left := _compare_tv tv_ref (ri_left_at i) in
    let e := stop_if (ri_stop_after i) e in
    if (0 <? time_left) && eng_ongoing e then read_loop inputs tv_ref time_left e
    else Ok (Some retval, e)
  end.

Definition _do_read_wrap (inputs : list read_input) (now tv_ref : timeval) (e : engine) :
    res (option iee_ret_t * engine) :=
  let time_left := _compare_tv tv_ref now in
  if time_left <=? 0 then Ok (Some IEE_SUCCESS, e) else read_loop inputs tv_ref time_left e.

(** ** The main loop *)

(** One turn of the loop of [IEE_process]. *)
Record cycle_input := mk_cycle_input {
  ci_stop : bool;                (* IEE_stop is called before the test of the loop *)
  ci_send : send_input;
  ci_stop_sent : bool;           (* ... after the request was sent *)
  ci_ref : timeval;              (* the clock after the request was sent *)
  ci_now : timeval;              (* the clock when _do_read_wrap starts *)
  ci_reads : list read_input;
}.

Fixpoint process_loop (inputs : list cycle_input) (retval : iee_ret_t) (e : engine) :
    res (option iee_ret_t * list (list Z) * engine) :=
  match inputs with
  | [] => Ok (None, [], e)
  | i :: inputs =>
    let e := stop_if (ci_stop i) e in
    if eng_ongoing e && ((echo_num (parms e) =? 0) || (count_send (counts e) <? echo_num (parms e))) then
      r ← _do_send_wrap (ci_send i) e;
      let '(retval, packet, e) := r in
      let sent := option_list packet in
      if negb (bool_decide (retval = IEE_SUCCESS)) then Ok (Some retval, sent, e) else
      let e := stop_if (ci_stop_sent i) e in
      if negb (eng_ongoing e) then Ok (Some retval, sent, e) else
      r ← _do_read_wrap (ci_reads i) (ci_now i) (_compute_next_send e (ci_ref i)) e;
      let '(retval, e) := r in
      match retval with
      | None => Ok (None, sent, e)
      | Some IEE_SUCCESS =>
        r ← process_loop inputs IEE_SUCCESS e;
        let '(retval, sent', e) := r in Ok (retval, sent ++ sent', e)
      | Some retval => Ok (Some retval, sent, e)
      end
    else Ok (Some retval, [], e)
  end.

(** [IEE_process]; the sleep before the first request of a keep-alive only
    delays it, a call of [IEE_stop] meanwhile is the [ci_stop] of the first
    turn. *)
Definition IEE_process (inputs : list cycle_input) (e : engine) :
    res (option iee_ret_t * list (list Z) * engine) :=
  process_loop inputs IEE_SUCCESS e.

(** [IEE_init].  [given] tells that the pointer to the block is there and null
    and that there is a destination; [af] is the address family, of which the
    code knows two: whether it is IPv6, or none.  The rest are the answers of
    [malloc], [inet_pton] for the two addresses, [socket] and [getpid]. *)
Definition IEE_init (mode : iee_mode_t) (interval num timeout threshold : Z) (given malloc : bool) (af : option bool)
    (src dst : option (list Z)) (socket : bool) (pid : Z) : iee_ret_t * option engine :=
  if negb given then (IEE_INVALID_PARMS, None) else
  if negb malloc then (IEE_RESOURCE_STARVATION, None) else
  match af with
  | None => (IEE_INVALID_PARMS, None)
  | Some v6 =>
    match src with
    | None => (IEE_INVALID_PARMS, None)
    | Some src =>
      match dst with
      | None => (IEE_INVALID_PARMS, None)
      | Some dst =>
        if negb socket then (IEE_GENERAL_ECHO_ERROR, None) else
        (IEE_SUCCESS,
         Some (mk_engine (mk_iee_parms interval num threshold mode (wrap 16 pid) v6 src dst) timeout true
                 (mk_iee_counts 0 0 0 0) None ∅))
      end
    end
  end.

(** [IEE_destroy]: what is left of the memory of the events. *)
Definition IEE_destroy (e : engine) : res (gmap positive ECHO_EVENT) := _free_echo_event_list e.

(** ** The list of events and its abstraction *)

(** What the list holds: the block, sequence number and time-out of each
    event. *)
Definition entry : Type := positive * Z * timeval.
Definition e_loc (x : entry) : positive := fst (fst x).
Definition e_seq (x : entry) : Z := snd (fst x).
Definition e_time (x : entry) : timeval := snd x.

(** The blocks from [p] up to [stop] hold the entries [L]. *)
Fixpoint seg (h : gmap positive ECHO_EVENT) (p : option positive) (L : list entry) (stop : option positive) : Prop :=
  match L with
  | [] => p = stop
  | x :: L => p = Some (e_loc x) /\
              exists n, h !! e_loc x = Some (mk_ECHO_EVENT (e_seq x) (e_time x) n) /\ seg h n L stop
  end.

Definition locs (L : list entry) : gset positive := list_to_set (e_loc <$> L).

(** The engine holds exactly the entries [L], and no other block. *)
Definition rep (e : engine) (L : list entry) : Prop :=
  seg (events e) (event_list e) L None /\ NoDup (e_loc <$> L) /\ dom (events e) = locs L.

Section segments.
Implicit Types (h : gmap positive ECHO_EVENT) (L : list entry).

Lemma ev_seg_app h p L1 L2 stop :
  seg h p (L1 ++ L2) stop <-> exists m, seg h p L1 m /\ seg h m L2 stop.
Proof.
  revert p. induction L1 as [|x L1 IH]; intros p; cbn; [naive_solver|].
  setoid_rewrite IH. naive_solver.
Qed.

Lemma ev_seg_frame h h' p L stop :
  (forall x, x ∈ L -> h' !! e_loc x = h !! e_loc x) -> seg h p L stop -> seg h' p L stop.
Proof.
  revert p. induction L as [|x L IH]; intros p Hh; [done|]. cbn. intros (-> & n & E & Hs).
  split; [done|]. exists n. rewrite Hh by (apply elem_of_cons; by left).
  split; [done|]. apply IH; [|done]. intros y Hy. apply Hh, elem_of_cons. by right.
Qed.

Lemma elem_locs x L : x ∈ L -> e_loc x ∈ e_loc <$> L.
Proof. intros H. by apply (list_elem_of_fmap_2 e_loc). Qed.

(** The pointer that designates the place after the entries [L]. *)
Definition pp_after (L : list entry) : pp_event :=
  match list.last L with Some x => PNext (e_loc x) | None => PHead end.

Lemma pp_after_snoc L x : pp_after (L ++ [x]) = PNext (e_loc x).
Proof. unfold pp_after. by rewrite last_snoc. Qed.

Lemma load_pp_after e L m : seg (events e) (event_list e) L m -> load_pp e (pp_after L) = Ok m.
Proof.
  destruct L as [|x L _] using rev_ind; [by intros <-|].
  rewrite pp_after_snoc, ev_seg_app. intros (n & _ & -> & m' & E & <-).
  cbn. unfold event_at. by rewrite E.
Qed.

Lemma store_pp_after e L m v :
  seg (events e) (event_list e) L m -> NoDup (e_loc <$> L) ->
  exists p h, store_pp (pp_after L) v e = Ok (set_events p h e) /\
    seg h p L v /\ dom h = dom (events e) /\
    (forall q, q ∉ e_loc <$> L -> h !! q = events e !! q).
Proof.
  destruct L as [|x L _] using rev_ind; intros Hs Hn.
  - exists v, (events e). by split_and!.
  - rewrite pp_after_snoc. apply ev_seg_app in Hs as (n & H1 & -> & m' & E & ->). cbn [store_pp].
    unfold set_next, event_at. rewrite E. cbn [Prelude.from_option mbind res_bind].
    eexists _, _. split; [done|]. rewrite fmap_app, list.NoDup_app in Hn. destruct Hn as (_ & Hd & _).
    split_and!.
    + apply ev_seg_app. exists (Some (e_loc x)). split.
      * eapply ev_seg_frame; [|exact H1]. intros y Hy. rewrite lookup_insert_ne; [done|].
        intros Heq. apply (Hd (e_loc y)); [by apply elem_locs|]. rewrite <- Heq. by left.
      * cbn. split; [done|]. exists v. by rewrite lookup_insert_eq.
    + rewrite dom_insert_L. apply elem_of_dom_2 in E. set_solver.
    + intros q Hq. rewrite lookup_insert_ne; [done|]. intros <-. apply Hq.
      rewrite fmap_app, elem_of_app. right. by left.
Qed.
End segments.

(** Insertion at the end: the new event is due after every other. *)
Lemma insert_loop_spec L2 L1 fuel e x n :
  (length L2 < fuel)%nat ->
  seg (events e) (event_list e) (L1 ++ L2) None -> NoDup (e_loc <$> L1 ++ L2 ++ [x]) ->
  events e !! e_loc x = Some (mk_ECHO_EVENT (e_seq x) (e_time x) n) ->
  Forall (fun y => usec (e_time y) < usec (e_time x)) L2 ->
  exists p h, insert_loop fuel e (pp_after L1) (e_loc x) = Ok (set_events p h e) /\
    seg h p (L1 ++ L2 ++ [x]) None /\ dom h = dom (events e).
Proof.
  revert L1 fuel e. induction L2 as [|y L2 IH]; intros L1 fuel e Hf Hs Hn Ex Hall.
  - destruct fuel as [|fuel]; [cbn in Hf; lia|]. cbn [insert_loop]. rewrite app_nil_r in Hs.
    rewrite (load_pp_after e L1 None Hs). cbn [mbind res_bind].
    rewrite app_nil_l, fmap_app, list.NoDup_app in Hn. destruct Hn as (Hn1 & Hd & _).
    destruct (store_pp_after e L1 None (Some (e_loc x)) Hs Hn1) as (p & h & -> & Hs' & Hdom & Hfr).
    cbn [mbind res_bind].
    assert (e_loc x ∉ e_loc <$> L1) as Hx. { intros Hx. apply (Hd _ Hx). by left. }
    unfold set_next, event_at. cbn [events set_events event_list]. rewrite (Hfr _ Hx), Ex. cbn [Prelude.from_option mbind res_bind].
    eexists _, _. split; [done|]. split.
    + rewrite app_nil_l. apply ev_seg_app. exists (Some (e_loc x)). split.
      * eapply ev_seg_frame; [|exact Hs']. intros y Hy. rewrite lookup_insert_ne; [done|].
        intros Heq. apply Hx. rewrite Heq. by apply elem_locs.
      * cbn. split; [done|]. exists None. by rewrite lookup_insert_eq.
    + rewrite dom_insert_L, Hdom. apply elem_of_dom_2 in Ex. set_solver.
  - destruct fuel as [|fuel]; [cbn in Hf; lia|]. cbn [insert_loop].
    pose proof Hs as Hs0. apply ev_seg_app in Hs0 as (m & H1 & -> & n' & Ey & _).
    rewrite (load_pp_after e L1 _ H1). cbn [mbind res_bind].
    unfold event_at. rewrite Ex, Ey. cbn [Prelude.from_option mbind res_bind tv_timeout].
    apply list.Forall_cons in Hall as [Hy Hall]. unfold _compare_tv.
    destruct (Z.ltb_spec 0 (usec (e_time x) - usec (e_time y))); [|lia].
    rewrite <- (pp_after_snoc L1 y). cbn in Hf.
    destruct (IH (L1 ++ [y]) fuel e) as (p & h & -> & Hs' & Hdom); try done; try lia.
    + by rewrite <- app_assoc.
    + by rewrite <- app_assoc.
    + exists p, h. rewrite <- app_assoc in Hs'. done.
Qed.

Lemma size_locs e L : dom (events e) = locs L -> NoDup (e_loc <$> L) -> size (events e) = length L.
Proof.
  intros Hd Hn. rewrite <- size_dom, Hd. unfold locs. rewrite size_list_to_set by done. apply length_fmap.
Qed.

(** A new event, due after all the others, goes to the end of the list. *)
Lemma create_insert_spec e L t seq e1 t1 :
  rep e L -> _compute_echo_timeout e t = (e1, t1) -> Forall (fun y => usec (e_time y) < usec t1) L ->
  exists q e2, _create_insert_echo_event true e t seq = Ok (true, e2) /\
    rep e2 (L ++ [(q, seq, t1)]) /\ parms e2 = parms e /\ counts e2 = counts e /\
    eng_ongoing e2 = eng_ongoing e /\ echo_timeout e2 = echo_timeout e1.
Proof.
  intros (Hs & Hn & Hd) Ht Hall. unfold _create_insert_echo_event. cbn [negb]. rewrite Ht.
  set (q := fresh (dom (events e))).
  assert (q ∉ dom (events e)) as Hq by apply is_fresh.
  assert (events e1 = events e /\ event_list e1 = event_list e /\ parms e1 = parms e /\ counts e1 = counts e /\
          eng_ongoing e1 = eng_ongoing e) as (E1 & E2 & E3 & E4 & E5).
  { revert Ht. unfold _compute_echo_timeout. case_bool_decide; by intros [= <- _]. }
  rewrite E1, E2. set (e' := set_events _ _ e1).
  assert (q ∉ e_loc <$> L) as HqL. { rewrite Hd in Hq. unfold locs in Hq. set_solver. }
  destruct (insert_loop_spec L [] (S (S (size (events e')))) e' (q, seq, t1) None) as (p & h & E & Hs' & Hdom).
  - subst e'. cbn [events set_events]. rewrite map_size_insert_None by (by apply not_elem_of_dom).
    rewrite (size_locs e L) by done. lia.
  - eapply ev_seg_frame; [|exact Hs]. intros y Hy. subst e'. cbn [events set_events]. rewrite lookup_insert_ne; [done|].
    intros Heq. apply HqL. rewrite Heq. by apply elem_locs.
  - cbn [app]. rewrite fmap_app. apply list.NoDup_app. split_and!; [done| |apply list.NoDup_singleton].
    intros z Hz. cbn. rewrite list_elem_of_singleton. by intros ->.
  - subst e'. cbn. by rewrite lookup_insert_eq.
  - done.
  - unfold _insert_echo_event. change (pp_after []) with PHead in E. change (e_loc (q, seq, t1)) with q in E.
    rewrite E. cbn [mbind res_bind]. exists q. eexists. split; [done|]. split; [|by subst e'].
    split; [done|]. split.
    + rewrite fmap_app. apply list.NoDup_app. split_and!; [done| |apply list.NoDup_singleton].
      intros z Hz. cbn. rewrite list_elem_of_singleton. by intros ->.
    + cbn [events set_events]. rewrite Hdom. subst e'. cbn [events set_events]. rewrite dom_insert_L, Hd.
      unfold locs. rewrite fmap_app, list_to_set_app_L. cbn. set_solver.
Qed.

(** The list without the first event of a sequence number. *)
Fixpoint without (seq : Z) (L : list entry) : list entry :=
  match L with
  | [] => []
  | x :: L => if e_seq x =? seq then L else x :: without seq L
  end.

Definition pending (seq : Z) (L : list entry) : bool := existsb (fun x => e_seq x =? seq) L.

Lemma without_absent seq L : pending seq L = false -> without seq L = L.
Proof.
  induction L as [|x L IH]; [done|]. cbn. destruct (e_seq x =? seq); cbn; [done|]. intros H. by rewrite IH.
Qed.

Lemma without_submseteq seq L : sublist (without seq L) L.
Proof.
  induction L as [|x L IH]; cbn; [constructor|]. destruct (e_seq x =? seq); [by apply sublist_cons|by constructor].
Qed.

(** What an operation on the list leaves alone. *)
Definition same_engine (e e' : engine) : Prop :=
  parms e' = parms e /\ counts e' = counts e /\ eng_ongoing e' = eng_ongoing e /\ echo_timeout e' = echo_timeout e.

Lemma rep_unlink e L1 x L2 p h n :
  NoDup (e_loc <$> L1 ++ x :: L2) -> dom (events e) = locs (L1 ++ x :: L2) ->
  seg h p L1 n -> seg (events e) n L2 None -> dom h = dom (events e) ->
  (forall q, q ∉ e_loc <$> L1 -> h !! q = events e !! q) ->
  rep (set_events p (delete (e_loc x) h) e) (L1 ++ L2).
Proof.
  intros Hn Hd Hs Hr Hdh Hf. rewrite fmap_app in Hn. cbn in Hn. apply list.NoDup_app in Hn as (Hn1 & Hdj & Hn2).
  apply list.NoDup_cons in Hn2 as [Hx Hn2].
  assert (e_loc x ∉ e_loc <$> L1) as Hx1. { intros H. apply (Hdj _ H). by left. }
  split_and!; cbn [events event_list set_events].
  - apply ev_seg_app. exists n. split.
    + eapply ev_seg_frame; [|exact Hs]. intros y Hy. rewrite lookup_delete_ne; [done|].
      intros E. apply Hx1. rewrite E. by apply elem_locs.
    + eapply ev_seg_frame; [|exact Hr]. intros y Hy. rewrite lookup_delete_ne.
      * apply Hf. intros H. apply (Hdj _ H). right. by apply elem_locs.
      * intros E. apply Hx. rewrite E. by apply elem_locs.
  - rewrite fmap_app. apply list.NoDup_app. split_and!; [done| |done]. intros y Hy H. apply (Hdj y Hy). by right.
  - rewrite dom_delete_L, Hdh, Hd. unfold locs. rewrite !fmap_app, !list_to_set_app_L. cbn. set_solver.
Qed.

Lemma remove_loop_spec seq L2 L1 fuel e :
  (length L2 < fuel)%nat -> rep e (L1 ++ L2) ->
  exists e', remove_loop fuel e (pp_after L1) seq =
      Ok (if pending seq L2 then ECHO_EVENT_REMOVED else ECHO_EVENT_NOTFOUND, e') /\
    rep e' (L1 ++ without seq L2) /\ same_engine e e'.
Proof.
  revert L1 fuel. induction L2 as [|x L2 IH]; intros L1 fuel Hf Hr; (destruct fuel as [|fuel]; [cbn in Hf; lia|]);
    cbn [remove_loop]; pose proof Hr as (Hs & Hn & Hd); apply ev_seg_app in Hs as (m & H1 & H2);
    rewrite (load_pp_after e L1 _ H1); cbn [mbind res_bind].
  - cbn in H2. subst m. exists e. by split.
  - destruct H2 as (-> & n & Ex & H2). unfold event_at. rewrite Ex. cbn [Prelude.from_option mbind res_bind echo_seq ev_next pending existsb without].
    destruct (e_seq x =? seq) eqn:Eq; cbn [orb].
    + destruct (store_pp_after e L1 _ n H1) as (p & h & -> & Hs' & Hdom & Hfr).
      { rewrite fmap_app in Hn. by apply list.NoDup_app in Hn as (? & _). }
      cbn [mbind res_bind event_list set_events events]. eexists. split; [done|]. split; [|done].
      exact (rep_unlink e L1 x L2 p h n Hn Hd Hs' H2 Hdom Hfr).
    + cbn in Hf. destruct (IH (L1 ++ [x]) fuel) as (e' & E & Hr' & Hsame); [lia|by rewrite <- app_assoc|].
      rewrite pp_after_snoc in E. rewrite E. rewrite <- app_assoc in Hr'. by eauto.
Qed.

(** Removal takes the first event of a sequence number out of the list and
    frees its block. *)
Lemma remove_spec e L seq :
  rep e L ->
  exists e', _remove_free_echo_event e seq =
      Ok (if pending seq L then ECHO_EVENT_REMOVED else ECHO_EVENT_NOTFOUND, e') /\
    rep e' (without seq L) /\ same_engine e e'.
Proof.
  intros Hr. unfold _remove_free_echo_event. pose proof Hr as (_ & Hn & Hd).
  change PHead with (pp_after []). apply (remove_loop_spec seq L []); [|done]. rewrite (size_locs e L) by done. lia.
Qed.

Lemma free_loop_spec L h p fuel :
  (length L < fuel)%nat -> seg h p L None -> NoDup (e_loc <$> L) ->
  exists h', free_loop fuel p h = Ok h' /\ dom h' = dom h ∖ locs L /\
    (forall q, q ∉ locs L -> h' !! q = h !! q).
Proof.
  revert h p fuel. induction L as [|x L IH]; intros h p fuel Hf Hs Hn; (destruct fuel as [|fuel]; [cbn in Hf; lia|]); cbn [free_loop].
  - cbn in Hs. subst p. exists h. split; [done|]. unfold locs. cbn. split; [set_solver|done].
  - destruct Hs as (-> & n & E & Hs). rewrite E. cbn [Prelude.from_option mbind res_bind ev_next]. cbn in Hn, Hf.
    apply list.NoDup_cons in Hn as [Hx Hn]. destruct (IH h n fuel ltac:(lia) Hs Hn) as (h' & -> & Hd & Hfr).
    cbn [mbind res_bind].
    assert (e_loc x ∉ locs L) as HxL by (unfold locs; set_solver).
    rewrite (Hfr _ HxL), E. cbn [Prelude.from_option mbind res_bind]. eexists. split; [done|]. split.
    + rewrite dom_delete_L, Hd. unfold locs. cbn. set_solver.
    + intros q Hq. unfold locs in *. cbn in Hq. rewrite lookup_delete_ne by set_solver. apply Hfr. set_solver.
Qed.

Lemma destroy_spec e L : rep e L -> IEE_destroy e = Ok ∅.
Proof.
  intros (Hs & Hn & Hd). destruct (free_loop_spec L (events e) (event_list e) (S (S (size (events e))))) as (h & E & Hd' & _); try done.
  { rewrite (size_locs e L) by done. lia. }
  unfold IEE_destroy, _free_echo_event_list. rewrite E. f_equal. apply dom_empty_inv_L. rewrite Hd', Hd. set_solver.
Qed.

(** ** Checksums *)

Lemma word_sum_bounds l : bytes_ok l -> 0 <= word_sum l <= 32768 * Z.of_nat (length l + 1).
Proof.
  induction l as [l IH] using (induction_ltof1 _ (@length Z)). unfold ltof in IH. intros Hl.
  destruct l as [|a [|b l]]; [cbn; lia| |].
  - apply bytes_ok_cons in Hl as [Ha _]. unfold byte_ok in Ha. cbn. lia.
  - apply bytes_ok_cons in Hl as [Ha Hl]. apply bytes_ok_cons in Hl as [Hb Hl]. unfold byte_ok in Ha, Hb.
    specialize (IH l ltac:(cbn; lia) Hl). cbn [word_sum length]. lia.
Qed.

Lemma cksum_words_sum l s :
  bytes_ok l -> 0 <= s -> s + word_sum l < 2 ^ 31 -> cksum_words s l = s + word_sum l.
Proof.
  revert s. induction l as [l IH] using (induction_ltof1 _ (@length Z)). unfold ltof in IH. intros s Hl Hs Hb.
  destruct l as [|a [|b l]]; [cbn; lia| |].
  - apply bytes_ok_cons in Hl as [Ha _]. unfold byte_ok in Ha. cbn in *. unfold to_int. rewrite Z.mod_small; lia.
  - apply bytes_ok_cons in Hl as [Ha Hl]. apply bytes_ok_cons in Hl as [Hb' Hl]. unfold byte_ok in Ha, Hb'.
    pose proof (word_sum_bounds l Hl). cbn [cksum_words word_sum] in *.
    assert (to_int (s + (a + 256 * b)) = s + (a + 256 * b)) as ->. { unfold to_int. rewrite Z.mod_small; lia. }
    rewrite IH; [lia|cbn; lia|done|lia|lia].
Qed.

(** The checksum of the keep-alive packets is the one's-complement checksum
    of RFC 1071, the same as the checksum of the Teredo client, on any data
    of at most 65534 bytes. *)
Theorem net_in_cksum_is_rfc1071 l :
  bytes_ok l -> Z.of_nat (length l) <= 65534 ->
  net_in_cksum l = in_cksum [l] /\ exists s, ones_sum s (word_sum l) /\ net_in_cksum l = 65535 - s.
Proof.
  intros Hl Hlen. pose proof (word_sum_bounds l Hl) as Hw.
  set (w := word_sum l) in *. assert (w < 2 ^ 31) as Hw' by lia.
  assert (exists s, ones_sum s w /\ net_in_cksum l = 65535 - s) as (s & Hs & E).
  { unfold net_in_cksum. rewrite cksum_words_sum by (done || lia). fold w. rewrite Z.add_0_l.
    rewrite Z.shiftr_div_pow2 by lia. change (Z.land w 65535) with (Z.land w (Z.ones 16)). rewrite Z.land_ones by lia.
    pose proof (Z.div_mod w (2 ^ 16) ltac:(lia)). pose proof (Z.mod_pos_bound w (2 ^ 16) ltac:(lia)).
    set (q := w / 2 ^ 16) in *. set (r := w mod 2 ^ 16) in *.
    assert (to_int (q + r) = q + r) as ->. { unfold to_int. rewrite Z.mod_small; lia. }
    rewrite Z.shiftr_div_pow2 by lia.
    assert ((q + r) / 2 ^ 16 = if 65535 <? q + r then 1 else 0) as ->.
    { destruct (Z.ltb_spec 65535 (q + r)); [symmetry; apply Z.div_unique with (q + r - 65536); lia|apply Z.div_small; lia]. }
    set (u := if 65535 <? q + r then q + r - 65535 else q + r).
    exists u. split.
    - unfold ones_sum, u. destruct (Z.ltb_spec 65535 (q + r)); (split; [lia|]; split; [lia|]; split; [|lia]).
      + rewrite <- (Z.mod_add (q + r - 65535) (q + 1) 65535) by lia. f_equal. lia.
      + rewrite <- (Z.mod_add (q + r) q 65535) by lia. f_equal. lia.
    - unfold wrap, Z.lnot, to_int, u. destruct (Z.ltb_spec 65535 (q + r));
        (rewrite (Z.mod_small (_ + _ + 2 ^ 31)) by lia); symmetry.
      + apply Z.mod_unique with (-2); lia.
      + apply Z.mod_unique with (-1); lia. }
  split; [|by eauto]. destruct (in_cksum_sum l Hl) as (s' & Hs' & ->). rewrite E. f_equal.
  destruct Hs as (B1 & _ & M1 & Z1), Hs' as (B2 & _ & M2 & Z2). fold w in M2, Z2. rewrite <- M1 in M2.
  destruct (Z.eq_dec s 65535) as [->|]; destruct (Z.eq_dec s' 65535) as [->|]; try done.
  - change (65535 mod 65535) with 0 in M2. rewrite Z.mod_small in M2 by lia. lia.
  - change (65535 mod 65535) with 0 in M2. rewrite Z.mod_small in M2 by lia. lia.
  - rewrite !Z.mod_small in M2 by lia. done.
Qed.

Lemma net_in_cksum_is_rfc1071_witness :
  net_in_cksum [1; 2; 255] = in_cksum [[1; 2; 255]] /\
  exists s, ones_sum s (word_sum [1; 2; 255]) /\ net_in_cksum [1; 2; 255] = 65535 - s.
Proof. apply (net_in_cksum_is_rfc1071 [1; 2; 255]); [repeat (constructor; [unfold byte_ok; lia|]); constructor|cbn; lia]. Defined.

Lemma echo_packet_bytes type ck id seq data :
  byte_ok type -> bytes_ok data -> bytes_ok (echo_packet type ck id seq data).
Proof.
  intros Ht Hd. unfold echo_packet. repeat (apply bytes_ok_app; split); try apply le_split_bytes; try done.
  apply bytes_ok_cons. split; [done|]. apply bytes_ok_cons. split; [unfold byte_ok, ICMP_ECHO_CODE; lia|constructor].
Qed.

Lemma length_echo_packet type ck id seq data : length (echo_packet type ck id seq data) = (8 + length data)%nat.
Proof. done. Qed.

Lemma length_pseudo src dst : length src = 16%nat -> length dst = 16%nat -> length (pseudo_header src dst) = 40%nat.
Proof. intros Hs Hd. unfold pseudo_header. rewrite !length_app, Hs, Hd, length_le_split. done. Qed.

Lemma pseudo_bytes src dst : bytes_ok src -> bytes_ok dst -> bytes_ok (pseudo_header src dst).
Proof.
  intros. unfold pseudo_header. repeat (apply bytes_ok_app; split); try done; [apply le_split_bytes|].
  repeat (constructor; [unfold byte_ok, IPPROTO_ICMPV6_nxt; lia|]). constructor.
Qed.

Definition parms_ok (pm : iee_parms) : Prop :=
  length (echo_addr_src pm) = 16%nat /\ length (echo_addr_dst pm) = 16%nat /\
  bytes_ok (echo_addr_src pm) /\ bytes_ok (echo_addr_dst pm) /\
  0 <= icmp_echo_id pm < 2 ^ 16.

(** Every echo request leaves with a valid checksum, for both address
    families: the receiver's sum over the packet (and the pseudo-header of
    RFC 2460) is zero. *)
Theorem request_checksum_valid pm type seq data :
  parms_ok pm -> byte_ok type -> bytes_ok data -> length data = ICMP_ECHO_DATA_LEN ->
  let csum := _calc_icmp_csum pm (echo_packet type 0 (icmp_echo_id pm) seq data) in
  _calc_icmp_csum pm (echo_packet type csum (icmp_echo_id pm) seq data) = 0.
Proof.
  intros (Hs & Hd & Bs & Bd & _) Ht Hdata Hlen. cbv zeta.
  assert (forall ck, Z.of_nat (length (echo_packet type ck (icmp_echo_id pm) seq data)) = 24) as L8.
  { intros ck. rewrite length_echo_packet, Hlen. done. }
  assert (forall a, bytes_ok a -> Nat.Even (length a) -> Z.of_nat (length a) <= 40 ->
    net_in_cksum (a ++ echo_packet type (net_in_cksum (a ++ echo_packet type 0 (icmp_echo_id pm) seq data))
                         (icmp_echo_id pm) seq data) = 0) as Hcore.
  { intros a Ba Ea La.
    assert (forall ck, net_in_cksum (a ++ echo_packet type ck (icmp_echo_id pm) seq data) =
                       in_cksum [a ++ echo_packet type ck (icmp_echo_id pm) seq data]) as Hi.
    { intros ck. apply net_in_cksum_is_rfc1071.
      - apply bytes_ok_app. split; [done|]. by apply echo_packet_bytes.
      - rewrite length_app, Nat2Z.inj_add, L8. lia. }
    rewrite !Hi. unfold echo_packet. change (le_split 2 0) with [0; 0]. rewrite !(app_assoc a [type; ICMP_ECHO_CODE]).
    apply in_cksum_verifies.
    - destruct Ea as [n En]. exists (S n). rewrite length_app, En. cbn. lia.
    - apply bytes_ok_app. split; [done|]. repeat (constructor; [done || (unfold byte_ok, ICMP_ECHO_CODE; lia)|]). constructor.
    - repeat (apply bytes_ok_app; split); try apply le_split_bytes; done. }
  unfold _calc_icmp_csum. destruct (icmp_v6 pm).
  - apply Hcore; [by apply pseudo_bytes|by exists 20%nat; rewrite length_pseudo|rewrite length_pseudo by done; lia].
  - apply (Hcore []); [constructor|by exists 0%nat|cbn; lia].
Qed.

(** ** Decoding *)

Lemma rd16_ok off l : (off + 2 <= length l)%nat -> exists x, rd16 off l = Ok x.
Proof. intros H. unfold rd16. rewrite slice_ok by done. by eauto. Qed.

Lemma ip_len_bounds b : (Z.to_nat (Z.shiftl (Z.land b 15) 2) <= 60)%nat.
Proof.
  change 15 with (Z.ones 4). rewrite Z.land_ones, Z.shiftl_mul_pow2 by lia.
  pose proof (Z.mod_pos_bound b (2 ^ 4) ltac:(lia)). lia.
Qed.

(** What decoding may answer, and when it accepts a packet as ours: the type
    of an echo reply, the code 0 and the identifier of the engine. *)
Definition decoded (e : engine) (buf : list Z) (r : iee_priv_ret_t * option Z) : Prop :=
  match snd r with
  | None => fst r = ANAL_PACKET_BAD \/ fst r = ANAL_PACKET_IGNORED \/ fst r = GENERAL_ECHO_ERROR
  | Some seq =>
    (fst r = ANAL_PACKET_PINGIN_ONTIME \/ fst r = ANAL_PACKET_PINGIN_LATE) /\
    exists off, (off <= 60)%nat /\
      rd8 off buf = Ok (if icmp_v6 (parms e) then ICMP6_ECHO_REPLY_TYPE else ICMP4_ECHO_REPLY_TYPE) /\
      rd8 (off + 1) buf = Ok ICMP_ECHO_CODE /\ rd16 (off + 4) buf = Ok (icmp_echo_id (parms e)) /\
      rd16 (off + 6) buf = Ok seq
  end.

Lemma decode_header_ok e buf off now :
  length buf = READ_BUF_LEN -> (off <= 60)%nat ->
  rd8 off buf = Ok (if icmp_v6 (parms e) then ICMP6_ECHO_REPLY_TYPE else ICMP4_ECHO_REPLY_TYPE) ->
  exists r, decode_header e buf off now = Ok r /\ decoded e buf r.
Proof.
  intros Hb Ho Ht. unfold READ_BUF_LEN in Hb. unfold decode_header.
  destruct (rd8_ok (off + 1) buf ltac:(lia)) as (code & Ec & _). rewrite Ec. cbn [mbind res_bind].
  destruct (Z.eqb_spec code ICMP_ECHO_CODE) as [->|]; cbn [negb]; [|eexists; split; [done|]; by right; right].
  destruct (rd16_ok (off + 4) buf ltac:(lia)) as (id & Ei). rewrite Ei. cbn [mbind res_bind].
  destruct (Z.eqb_spec id (icmp_echo_id (parms e))) as [->|]; cbn [negb]; [|eexists; split; [done|]; by right; left].
  destruct (rd16_ok (off + 6) buf ltac:(lia)) as (seq & Eq). rewrite Eq. cbn [mbind res_bind].
  unfold tv_load. rewrite !slice_ok by lia. cbn [mbind res_bind]. eexists. split; [done|].
  cbn [decoded fst snd]. split; [destruct (_ <? _); by auto|]. by exists off.
Qed.

(** Decoding stays within the receive buffer, whatever was received. *)
Lemma decode_ok e buf n now :
  length buf = READ_BUF_LEN -> exists r, _decode_icmp_packet e buf n now = Ok r /\ decoded e buf r.
Proof.
  intros Hb. unfold _decode_icmp_packet. destruct (icmp_v6 (parms e)) eqn:V.
  - destruct (n <? 8); [eexists; split; [done|]; by left|].
    destruct (rd8_ok 0 buf ltac:(unfold READ_BUF_LEN in Hb; lia)) as (t & Et & _). rewrite Et. cbn [mbind res_bind].
    destruct (Z.eqb_spec t ICMP6_ECHO_REPLY_TYPE) as [->|]; cbn [negb]; [|eexists; split; [done|]; by right; left].
    apply decode_header_ok; [done|lia|]. by rewrite V.
  - destruct (rd8_ok 0 buf ltac:(unfold READ_BUF_LEN in Hb; lia)) as (b & Eb & _). rewrite Eb. cbn [mbind res_bind].
    destruct (_ =? 4); cbn [negb]; [|eexists; split; [done|]; by left].
    destruct (_ <? 8); [eexists; split; [done|]; by left|].
    pose proof (ip_len_bounds b) as Hl. set (off := Z.to_nat _) in *.
    destruct (rd8_ok off buf ltac:(unfold READ_BUF_LEN in Hb; lia)) as (t & Et & _). rewrite Et. cbn [mbind res_bind].
    destruct (Z.eqb_spec t ICMP4_ECHO_REPLY_TYPE) as [->|]; cbn [negb]; [|eexists; split; [done|]; by right; left].
    apply decode_header_ok; [done|lia|]. by rewrite V.
Qed.

(** *** A reply to a request *)

(** The reply of a conforming host: the type of a reply, a checksum of its
    own, and the rest of the request; over IPv4 behind a header whose first
    byte tells its length. *)
Definition conforming_reply (pm : iee_parms) (header : list Z) (ck : Z) (request : list Z) : list Z :=
  (if icmp_v6 pm then [] else header) ++
  [if icmp_v6 pm then ICMP6_ECHO_REPLY_TYPE else ICMP4_ECHO_REPLY_TYPE; ICMP_ECHO_CODE] ++ le_split 2 ck ++ drop 4 request.

Definition ip4_header (header : list Z) : Prop :=
  exists ihl, 5 <= ihl <= 15 /\ header !! 0%nat = Some (64 + ihl) /\ Z.of_nat (length header) = 4 * ihl.

Definition tv_ok (t : timeval) : Prop := 0 <= tv_sec t < 2 ^ 63 /\ 0 <= tv_usec t < 1000000.

Lemma to_signed_split w n x :
  w = 8 * Z.of_nat n -> 0 < w -> 0 <= x < 2 ^ (w - 1) -> to_signed w (le_load (le_split n x)) = x.
Proof.
  intros -> Hw Hx. rewrite le_load_split. replace (256 ^ Z.of_nat n) with (2 ^ (8 * Z.of_nat n)) by (by rewrite Z.pow_mul_r by lia).
  set (w := 8 * Z.of_nat n) in *. unfold to_signed.
  assert (2 ^ w = 2 * 2 ^ (w - 1)) by (rewrite <- Z.pow_succ_r by lia; f_equal; lia).
  rewrite (Z.mod_small x) by lia. rewrite Z.mod_small; lia.
Qed.

Lemma rd16_app_r off l k : rd16 (length l + off) (l ++ k) = rd16 off k.
Proof. unfold rd16. by rewrite (slice_app_r _ _ _ _ _ eq_refl). Qed.

Lemma tv_load_bytes t pad rest off l :
  off = length l -> tv_ok t -> tv_load off (l ++ tv_bytes t pad ++ rest) = Ok t.
Proof.
  intros -> [Hs Hu]. unfold tv_load, tv_bytes. rewrite <- !app_assoc.
  rewrite <- (Nat.add_0_r (length l)) at 1. rewrite !(slice_app_r _ _ _ _ _ eq_refl).
  rewrite (slice_ok 0 8) by (rewrite length_app, length_le_split; lia).
  rewrite drop_0, take_app_exact by apply length_le_split. cbn [mbind res_bind].
  replace (slice 8 4 _) with (slice 0 4 (le_split 4 (tv_usec t) ++ pad ++ rest)) by
    exact (eq_sym (slice_app_r (le_split 8 (tv_sec t)) (le_split 4 (tv_usec t) ++ pad ++ rest) _ 0 4 eq_refl)).
  rewrite (slice_ok 0 4) by (rewrite length_app, length_le_split; lia).
  rewrite drop_0, take_app_exact by apply length_le_split. cbn [mbind res_bind].
  rewrite (to_signed_split 64 8), (to_signed_split 32 4) by lia. by destruct t.
Qed.

(** What [_do_send] makes: the request, and the event that waits for its
    reply. *)
Lemma do_send_spec i e L e1 t1 :
  rep e L -> si_malloc i = true ->
  _compute_echo_timeout (set_counts inc_send e) (si_now i) = (e1, t1) ->
  Forall (fun y => usec (e_time y) < usec t1) L ->
  let seq := wrap 16 (count_send (counts e)) in
  let type := if icmp_v6 (parms e) then ICMP6_ECHO_REQUEST_TYPE else ICMP4_ECHO_REQUEST_TYPE in
  exists ck q e2,
    _do_send i e = Ok (if si_sent i then SEND_PINGOUT_SUCCESS else SEND_PINGOUT_ERROR,
      Some (echo_packet type ck (icmp_echo_id (parms e)) seq (tv_bytes (si_now i) (si_pad i))), e2) /\
    ck = _calc_icmp_csum (parms e) (echo_packet type 0 (icmp_echo_id (parms e)) seq (tv_bytes (si_now i) (si_pad i))) /\
    rep e2 (L ++ [(q, seq, t1)]) /\ parms e2 = parms e /\ counts e2 = inc_send (counts e) /\
    eng_ongoing e2 = eng_ongoing e /\ echo_timeout e2 = echo_timeout e1.
Proof.
  intros Hr Hm Ht Hall seq type. unfold _do_send. fold seq type. rewrite Hm.
  destruct (create_insert_spec (set_counts inc_send e) L (si_now i) seq e1 t1 Hr Ht Hall)
    as (q & e2 & -> & Hr2 & E1 & E2 & E3 & E4).
  cbn [mbind res_bind]. eexists _, q, e2. split; [done|]. by split_and!.
Qed.

(** A request that the peer answers comes back as its own reply: decoding the
    reply of a conforming host, behind any IPv4 header and whatever else the
    receive buffer holds, yields the sequence number of the request, on time
    exactly when no more than the time-out went by. *)
Theorem echo_roundtrip e i ck ck' header rest now seq :
  parms_ok (parms e) -> tv_ok (si_now i) -> ip4_header header -> 0 <= seq < 2 ^ 16 ->
  length (si_pad i) = 4%nat ->
  let type := if icmp_v6 (parms e) then ICMP6_ECHO_REQUEST_TYPE else ICMP4_ECHO_REQUEST_TYPE in
  let request := echo_packet type ck (icmp_echo_id (parms e)) seq (tv_bytes (si_now i) (si_pad i)) in
  let reply := conforming_reply (parms e) header ck' request in
  _decode_icmp_packet e (reply ++ rest) (Z.of_nat (length reply)) now =
  Ok (if echo_timeout e * 1000 <? usec now - usec (si_now i)
      then ANAL_PACKET_PINGIN_LATE else ANAL_PACKET_PINGIN_ONTIME, Some seq).
Proof.
  intros (_ & _ & _ & _ & Hid) Htv (ihl & Hihl & Hh0 & Hhl) Hseq Hpad type request reply.
  set (t := if icmp_v6 (parms e) then ICMP6_ECHO_REPLY_TYPE else ICMP4_ECHO_REPLY_TYPE).
  set (pre := [t; ICMP_ECHO_CODE] ++ le_split 2 ck' ++ le_split 2 (icmp_echo_id (parms e)) ++ le_split 2 seq).
  set (body := pre ++ tv_bytes (si_now i) (si_pad i) ++ rest).
  assert (forall l, decode_header e (l ++ body) (length l) now =
    Ok (if echo_timeout e * 1000 <? usec now - usec (si_now i)
        then ANAL_PACKET_PINGIN_LATE else ANAL_PACKET_PINGIN_ONTIME, Some seq)) as Hdec.
  { intros l. unfold decode_header. rewrite (rd8_app_r _ _ _ _ eq_refl), !rd16_app_r.
    change (rd8 1 body) with (@Ok Z ICMP_ECHO_CODE). cbn [mbind res_bind]. rewrite Z.eqb_refl. cbn [negb].
    assert (rd16 4 body = Ok (icmp_echo_id (parms e))) as ->.
    { change (rd16 4 body) with (Ok (le_load (le_split 2 (icmp_echo_id (parms e))))).
      rewrite le_load_split_small by lia. done. }
    cbn [mbind res_bind]. rewrite Z.eqb_refl. cbn [negb].
    assert (rd16 6 body = Ok seq) as ->.
    { change (rd16 6 body) with (Ok (le_load (le_split 2 seq))). rewrite le_load_split_small by lia. done. }
    cbn [mbind res_bind]. unfold body. rewrite app_assoc.
    rewrite tv_load_bytes; [|by rewrite length_app|done]. cbn [mbind res_bind]. unfold _compare_tv.
    by replace (- (usec (si_now i) - usec now)) with (usec now - usec (si_now i)) by lia. }
  assert (reply ++ rest = (if icmp_v6 (parms e) then [] else header) ++ body) as Hrep.
  { subst reply request body pre. unfold conforming_reply. fold t. by rewrite <- !app_assoc. }
  assert (length reply = ((if icmp_v6 (parms e) then 0 else length header) + 24)%nat) as Hlen.
  { subst reply request. unfold conforming_reply. rewrite length_app. f_equal; [by destruct (icmp_v6 _)|].
    transitivity (20 + length (si_pad i))%nat; [done|lia]. }
  unfold _decode_icmp_packet. rewrite Hrep, Hlen. subst t. destruct (icmp_v6 (parms e)) eqn:V.
  - cbn [app]. destruct (Z.ltb_spec (Z.of_nat (0 + 24)) 8); [lia|].
    change (rd8 0 body) with (@Ok Z ICMP6_ECHO_REPLY_TYPE). cbn [mbind res_bind]. rewrite Z.eqb_refl. cbn [negb]. apply (Hdec []).
  - assert (rd8 0 (header ++ body) = Ok (64 + ihl)) as ->.
    { unfold rd8. rewrite lookup_app_l by (apply lookup_lt_is_Some; by eauto). by rewrite Hh0. }
    cbn [mbind res_bind].
    assert (Z.shiftr (Z.land (64 + ihl) 0xF0) 4 =? 4 = true /\ Z.shiftl (Z.land (64 + ihl) 0x0F) 2 = 4 * ihl) as (-> & ->).
    { assert (ihl = 5 \/ ihl = 6 \/ ihl = 7 \/ ihl = 8 \/ ihl = 9 \/ ihl = 10 \/ ihl = 11 \/ ihl = 12 \/ ihl = 13 \/
              ihl = 14 \/ ihl = 15) as Hc by lia. by destruct_or! Hc; subst ihl. }
    cbn [negb]. rewrite <- Hhl, Nat2Z.id.
    assert (wrap 64 (Z.of_nat (length header + 24) - Z.of_nat (length header)) = 24) as ->.
    { unfold wrap. rewrite Z.mod_small; lia. }
    cbn [Z.ltb Z.compare Pos.compare Pos.compare_cont].
    assert (rd8 (length header) (header ++ body) = Ok ICMP4_ECHO_REPLY_TYPE) as ->.
    { rewrite <- (Nat.add_0_r (length header)) at 1. by rewrite rd8_app_r. }
    cbn [mbind res_bind]. rewrite Z.eqb_refl. cbn [negb]. apply Hdec.
Qed.

(** ** The invariant of the engine *)

(** Events are sorted by their time-out, and the statistics add up: every
    request sent was answered on time, was counted as late, or still waits. *)
Definition sooner (x y : entry) : Prop := usec (e_time x) < usec (e_time y).

Definition balanced (c : iee_counts) (waiting : Z) : Prop :=
  exists k, count_send c = waiting + count_ontime c + count_late c + 2 ^ 32 * k.

Definition iee_inv (e : engine) (L : list entry) : Prop :=
  rep e L /\ StronglySorted sooner L /\ balanced (counts e) (Z.of_nat (length L)).

Lemma wrap_eq w x : 0 <= w -> exists k, wrap w x = x + 2 ^ w * k.
Proof. intros Hw. exists (- (x / 2 ^ w)). unfold wrap. rewrite Z.mod_eq by lia. lia. Qed.

Lemma balanced_send c n : balanced c n -> balanced (inc_send c) (n + 1).
Proof.
  intros [k Hk]. destruct (wrap_eq 32 (count_send c + 1)) as [k' E]; [lia|]. exists (k + k'). cbn. lia.
Qed.

Lemma balanced_late c n : balanced c n -> balanced (add_late c) (n - 1).
Proof.
  intros [k Hk]. destruct (wrap_eq 32 (count_late c + 1)) as [k' E]; [lia|]. exists (k - k'). cbn. lia.
Qed.

Lemma balanced_ontime c n : balanced c n -> balanced (add_ontime c) (n - 1).
Proof.
  intros [k Hk]. destruct (wrap_eq 32 (count_ontime c + 1)) as [k' E]; [lia|]. exists (k - k'). cbn. lia.
Qed.

Lemma balanced_cancel c n : balanced c n -> balanced (cancel_late c) (n + 1).
Proof.
  intros [k Hk]. destruct (wrap_eq 32 (count_late c - 1)) as [k' E]; [lia|]. exists (k - k').
  cbn [count_send count_ontime count_late cancel_late]. lia.
Qed.

Lemma without_length seq L : length (without seq L) = (length L - if pending seq L then 1 else 0)%nat.
Proof.
  induction L as [|x L IH]; [done|]. cbn [without length pending existsb]. fold (pending seq L).
  destruct (e_seq x =? seq); cbn [orb length]; [lia|]. rewrite IH.
  destruct (pending seq L) eqn:E; [|lia]. destruct L; [done|cbn; lia].
Qed.

Lemma pending_nonempty seq L : pending seq L = true -> (1 <= length L)%nat.
Proof. destruct L; [done|cbn; lia]. Qed.

Lemma sublist_sorted L L' : sublist L' L -> StronglySorted sooner L -> StronglySorted sooner L'.
Proof.
  induction 1 as [|x k l Hs IH|x k l Hs IH]; intros Hl; [done| |].
  - apply StronglySorted_inv in Hl as [Hl Hx]. constructor; [by apply IH|]. apply list.Forall_forall. intros y Hy.
    eapply list.Forall_forall in Hx; [exact Hx|]. by eapply elem_of_submseteq, sublist_submseteq.
  - apply StronglySorted_inv in Hl as [Hl _]. by apply IH.
Qed.

Lemma rep_events e e' L : events e' = events e -> event_list e' = event_list e -> rep e L -> rep e' L.
Proof. unfold rep. by intros -> ->. Qed.

(** What a turn keeps: the parameters, and the order and number of the
    events. *)
Definition turn_ok (e : engine) (L : list entry) (e' : engine) (L' : list entry) : Prop :=
  iee_inv e' L' /\ sublist L' L /\ parms e' = parms e /\ echo_timeout e' = echo_timeout e /\
  count_send (counts e') = count_send (counts e).

Lemma last_reply_same e :
  events (last_reply e) = events e /\ event_list (last_reply e) = event_list e /\
  parms (last_reply e) = parms e /\ echo_timeout (last_reply e) = echo_timeout e /\
  counts (last_reply e) = counts e /\ (eng_ongoing (last_reply e) = true -> eng_ongoing e = true).
Proof. unfold last_reply. by destruct (_ && _). Qed.

Lemma turn_ok_ongoing e L e' L' v : turn_ok e L e' L' -> turn_ok e L (set_ongoing v e') L'.
Proof. done. Qed.

Lemma turn_ok_last_reply e L e' L' : turn_ok e L e' L' -> turn_ok e L (last_reply e') L'.
Proof. unfold last_reply. by destruct (_ && _). Qed.

Lemma inv_turn_ok e L : iee_inv e L -> turn_ok e L e L.
Proof. by split. Qed.

Lemma turn_ok_intro e L e' L' :
  rep e' L' -> StronglySorted sooner L -> sublist L' L -> balanced (counts e') (Z.of_nat (length L')) ->
  parms e' = parms e -> echo_timeout e' = echo_timeout e -> count_send (counts e') = count_send (counts e) ->
  turn_ok e L e' L'.
Proof. intros. split; [split; [done|split; [by eapply sublist_sorted|done]]|done]. Qed.

(** A reply on time: its event is removed, or, if it was already given up,
    one late reply is taken back. *)
Lemma on_ontime_ok e L seq tl rd :
  iee_inv e L ->
  exists ret e', on_read ANAL_PACKET_PINGIN_ONTIME (Some seq) tl rd e = Ok (ret, e') /\
    turn_ok e L e' (without seq L) /\ count_consec_late (counts e') = 0 /\
    (eng_ongoing e' = true -> ret = IEE_SUCCESS).
Proof.
  intros (Hr & Hs & Hb). cbn [on_read].
  destruct (remove_spec (set_counts add_ontime e) L seq Hr) as (e1 & E & Hr1 & E1 & E2 & E3 & E4).
  cbn [Prelude.from_option mbind res_bind]. rewrite E. cbn [mbind res_bind].
  eexists _, _. split; [done|].
  set (e2 := if bool_decide _ then e1 else _).
  assert (turn_ok e L e2 (without seq L) /\ count_consec_late (counts e2) = 0) as [H2 H2'].
  { subst e2. pose proof (without_length seq L) as Hl. apply balanced_ontime in Hb.
    change (counts (set_counts add_ontime e)) with (add_ontime (counts e)) in E2.
    destruct (pending seq L) eqn:P.
    - apply pending_nonempty in P. rewrite bool_decide_eq_true_2 by done. rewrite E2. split; [|done].
      apply turn_ok_intro; try done; [apply without_submseteq| |by rewrite E2].
      rewrite E2, Hl. by replace (Z.of_nat (length L - 1)) with (Z.of_nat (length L) - 1) by lia.
    - rewrite bool_decide_eq_false_2 by done. cbn [counts set_counts]. rewrite E2. split; [|done].
      rewrite without_absent in * by done.
      apply turn_ok_intro; try done; cbn [counts set_counts]; rewrite ?E2; try done.
      apply balanced_cancel in Hb. by replace (Z.of_nat (length L)) with (Z.of_nat (length L) - 1 + 1) by lia. }
  split_and!.
  - apply turn_ok_last_reply. by case_bool_decide.
  - destruct (last_reply_same (if bool_decide (eng_mode (parms e2) = IEE_MODE_ACD) then set_ongoing false e2 else e2))
      as (_ & _ & _ & _ & -> & _). by case_bool_decide.
  - destruct (last_reply_same (if bool_decide (eng_mode (parms e2) = IEE_MODE_ACD) then set_ongoing false e2 else e2))
      as (_ & _ & _ & _ & _ & H). intros Ho. apply H in Ho. by case_bool_decide.
Qed.

(** An expiration: the first event is given up. *)
Lemma on_expired_ok e x L tl rd :
  iee_inv e (x :: L) -> rd < tl ->
  exists e', on_read READ_SELECT_TIMEOUT None tl rd e = Ok (IEE_SUCCESS, e') /\
    turn_ok e (x :: L) e' L /\ counts e' = add_late (counts e) /\ eng_ongoing e' = eng_ongoing e.
Proof.
  intros (Hr & Hs & Hb) Hlt. cbn [on_read]. pose proof Hr as ((Ep & n & Ex & _) & _ & _). rewrite Ep.
  destruct (Z.ltb_spec rd tl); [|lia].
  unfold event_at. cbn [events set_counts]. rewrite Ex. cbn [Prelude.from_option mbind res_bind echo_seq].
  destruct (remove_spec (set_counts add_late e) (x :: L) (e_seq x) Hr) as (e1 & -> & Hr1 & E1 & E2 & E3 & E4).
  cbn [mbind res_bind snd]. cbn [without] in Hr1. rewrite Z.eqb_refl in Hr1.
  exists e1. split; [done|]. split; [|by split].
  apply turn_ok_intro; try done; [by apply sublist_cons| |by rewrite E2].
  rewrite E2. apply balanced_late in Hb. cbn [length] in Hb.
  by replace (Z.of_nat (length L)) with (Z.of_nat (S (length L)) - 1) by lia.
Qed.

Definition read_ok (i : read_input) : Prop :=
  length (ri_buf i) = READ_BUF_LEN /\
  forall packet, ri_select i = SelPacket packet -> (length packet <= READ_BUF_LEN)%nat.

(** The answers a turn may get from [_do_read]. *)
Definition read_answer (r : iee_priv_ret_t * option Z) : Prop :=
  fst r = ANAL_PACKET_PINGIN_ONTIME -> exists seq, snd r = Some seq.

Lemma do_read_ok i e : read_ok i -> exists r, _do_read i e = Ok r /\ read_answer r.
Proof.
  intros [Hb Hp]. unfold _do_read, read_answer. destruct (ri_select i) as [|packet| | | | |];
    try (eexists; split; [done|]; by intros [=]).
  - specialize (Hp packet eq_refl).
    destruct (decode_ok e (packet ++ drop (length packet) (ri_buf i)) (Z.of_nat (length packet)) (ri_decode_at i))
      as (r & -> & Hr). { rewrite length_app, length_drop, Hb. lia. }
    exists r. split; [done|]. intros E. unfold decoded in Hr. destruct (snd r); [by eauto|].
    rewrite E in Hr. by destruct_or! Hr.
  - destruct (eng_ongoing e); eexists; (split; [done|]); by intros [=].
  - destruct (eng_ongoing e); eexists; (split; [done|]); by intros [=].
Qed.

Lemma on_read_ok priv seq tl rd e L :
  iee_inv e L -> read_answer (priv, seq) ->
  exists ret e' L', on_read priv seq tl rd e = Ok (ret, e') /\ turn_ok e L e' L' /\
    (eng_ongoing e' = true -> ret = IEE_SUCCESS) /\ ret <> IEE_GENERAL_ECHO_TIMEOUT.
Proof.
  intros Hi Ha. destruct (decide (priv = ANAL_PACKET_PINGIN_ONTIME)) as [->|Hne].
  - destruct (Ha eq_refl) as [n E]. cbn in E. subst seq.
    destruct (on_ontime_ok e L n tl rd Hi) as (ret & e' & E & Ht & _ & Ho).
    exists ret, e', (without n L). split_and!; try done. revert E. cbn [on_read Prelude.from_option mbind res_bind].
    destruct (_remove_free_echo_event _ _) as [[rm e1]|]; [|done]. cbn [mbind res_bind].
    intros [= <- _]. by case_bool_decide.
  - destruct (decide (priv = READ_SELECT_TIMEOUT)) as [->|Hne'].
    + destruct L as [|x L].
      * exists IEE_SUCCESS, e, []. pose proof Hi as ((Hs & _) & _). cbn in Hs. cbn [on_read]. rewrite Hs.
        split; [done|]. split; [by apply inv_turn_ok|done].
      * destruct (Z.lt_ge_cases rd tl) as [Hlt|Hge].
        -- destruct (on_expired_ok e x L tl rd Hi Hlt) as (e' & E & Ht & _).
           exists IEE_SUCCESS, e', L. split; [by destruct seq|done].
        -- exists IEE_SUCCESS, e, (x :: L). pose proof Hi as (((Ep & _) & _) & _). cbn [on_read]. rewrite Ep.
           destruct (Z.ltb_spec rd tl); [lia|]. split; [done|]. split; [by apply inv_turn_ok|done].
    + pose proof (inv_turn_ok e L Hi) as Ht. destruct priv; try done; cbn [on_read]; eexists _, _, L;
        (split; [done|]); (split; [first [exact Ht|by apply turn_ok_ongoing|by apply turn_ok_last_reply]|]); by split.
Qed.

Lemma iee_inv_stop b e L : iee_inv e L -> iee_inv (stop_if b e) L.
Proof. by destruct b. Qed.

Lemma turn_ok_stop b e L e' L' : turn_ok (stop_if b e) L e' L' -> turn_ok e L e' L'.
Proof. by destruct b. Qed.

Lemma turn_ok_stop_r b e L e' L' : turn_ok e L e' L' -> turn_ok e L (stop_if b e') L'.
Proof. by destruct b. Qed.

Lemma read_delay_ok i e L : iee_inv e L -> exists rd, read_delay i e = Ok rd.
Proof.
  intros ((Hs & _) & _). unfold read_delay. destruct L as [|x L]; cbn in Hs; [rewrite Hs; by eauto|].
  destruct Hs as (-> & n & E & _). unfold event_at. rewrite E. cbn. by eauto.
Qed.

Lemma read_delay_head i e x L :
  iee_inv e (x :: L) -> read_delay i e = Ok (usec (e_time x) - usec (ri_delay_at i)).
Proof. intros (((Ep & n & Ex & _) & _) & _). unfold read_delay, event_at. rewrite Ep. cbn [mbind res_bind]. by rewrite Ex. Qed.

(** Every turn of the read loop returns, keeps the invariant, and declares a
    general time-out exactly when the counter has reached the threshold. *)
Lemma read_turn_ok i tl e L :
  iee_inv e L -> read_ok i ->
  exists ret e' L', read_turn i tl e = Ok (ret, e') /\ turn_ok e L e' L' /\
    (eng_ongoing e' = true -> ret = IEE_SUCCESS) /\
    (ret = IEE_GENERAL_ECHO_TIMEOUT <-> echo_timeout_threshold (parms e) <= count_consec_late (counts e')).
Proof.
  intros Hi Hok. unfold read_turn.
  destruct (read_delay_ok i e L Hi) as (rd & ->).
  cbn [mbind res_bind]. apply (iee_inv_stop (ri_stop i)) in Hi.
  destruct (do_read_ok i (stop_if (ri_stop i) e) Hok) as ((priv & seq) & -> & Ha). cbn [mbind res_bind].
  destruct (on_read_ok priv seq tl rd _ L Hi Ha) as (ret & e' & L' & -> & Ht & Ho & Hne). cbn [mbind res_bind].
  apply turn_ok_stop in Ht. pose proof Ht as (_ & _ & Ep & _ & _). rewrite Ep.
  destruct (Z.leb_spec (echo_timeout_threshold (parms e)) (count_consec_late (counts e'))).
  - eexists _, _, L'. split; [done|]. by split; [apply turn_ok_ongoing|].
  - exists ret, e', L'. split_and!; try done. by split; [|lia].
Qed.

Lemma turn_ok_trans e L e1 L1 e2 L2 : turn_ok e L e1 L1 -> turn_ok e1 L1 e2 L2 -> turn_ok e L e2 L2.
Proof.
  intros (_ & S1 & P1 & T1 & C1) (I2 & S2 & P2 & T2 & C2).
  split; [done|]. split; [by transitivity L1|]. split_and!; congruence.
Qed.

Lemma read_loop_ok inputs ref tl e L :
  iee_inv e L -> Forall read_ok inputs ->
  exists ret e' L', read_loop inputs ref tl e = Ok (ret, e') /\ turn_ok e L e' L' /\
    (eng_ongoing e' = true -> ret = None \/ ret = Some IEE_SUCCESS).
Proof.
  revert tl e L. induction inputs as [|i inputs IH]; intros tl e L Hi Hok; cbn [read_loop].
  - exists None, e, L. split; [done|]. split; [by apply inv_turn_ok|by left].
  - apply list.Forall_cons in Hok as [Hok1 Hok].
    destruct (read_turn_ok i tl e L Hi Hok1) as (ret & e1 & L1 & -> & Ht & Ho & _). cbn [mbind res_bind].
    apply (turn_ok_stop_r (ri_stop_after i)) in Ht. set (e1' := stop_if _ e1) in *.
    destruct (_ && _) eqn:Eb.
    + destruct (IH (_compare_tv ref (ri_left_at i)) e1' L1) as (ret' & e2 & L2 & -> & Ht2 & Ho2); [apply Ht|done|].
      exists ret', e2, L2. split; [done|]. split; [by eapply turn_ok_trans|done].
    + exists (Some ret), e1', L1. split; [done|]. split; [done|]. intros H. right. f_equal. apply Ho.
      subst e1'. by destruct (ri_stop_after i).
Qed.

(** ** The engine as a whole *)

Lemma usec_carry n t : usec (tv_carry n t) = usec t.
Proof.
  revert t. induction n as [|n IH]; intros t; [done|]. cbn [tv_carry]. destruct (_ <? _); [|done].
  rewrite IH. unfold usec. cbn [tv_sec tv_usec]. lia.
Qed.

(** The carry loop of [_compute_echo_timeout] runs to its end. *)
Lemma tv_carry_done n t : n = Z.to_nat (tv_usec t / 1000000) -> tv_usec (tv_carry n t) <= 1000000.
Proof.
  revert t. induction n as [|n IH]; intros t En; cbn [tv_carry].
  - destruct (Z.lt_ge_cases (tv_usec t) 1000000) as [|H]; [lia|].
    assert (1 <= tv_usec t / 1000000) by (apply Z.div_le_lower_bound; lia). lia.
  - destruct (Z.ltb_spec 1000000 (tv_usec t)); [|lia]. apply IH. cbn [tv_usec].
    replace (tv_usec t - 1000000) with (tv_usec t + (-1) * 1000000) by lia. rewrite Z.div_add by lia. lia.
Qed.

Lemma compute_timeout_spec e t e1 t1 :
  _compute_echo_timeout e t = (e1, t1) -> usec t1 = usec t + echo_timeout e1 * 1000.
Proof.
  unfold _compute_echo_timeout. set (e' := if bool_decide _ then _ else e). intros [= <- <-].
  rewrite usec_carry. unfold usec. cbn [tv_sec tv_usec]. pose proof (Z.div_mod (echo_timeout e') 1000). lia.
Qed.

(** Requests leave at strictly increasing instants, the first one after
    [last]. *)
Fixpoint sends_after (last : Z) (inputs : list cycle_input) : Prop :=
  match inputs with
  | [] => True
  | i :: inputs => last < usec (si_now (ci_send i)) /\ sends_after (usec (si_now (ci_send i))) inputs
  end.

Definition due_by (e : engine) (last : Z) (x : entry) : Prop := usec (e_time x) <= last + echo_timeout e * 1000.

Lemma sorted_snoc L x :
  StronglySorted sooner L -> Forall (fun y => sooner y x) L -> StronglySorted sooner (L ++ [x]).
Proof.
  induction 1 as [|y L Hs IH Hy]; cbn; intros Hx; [by repeat constructor|].
  apply list.Forall_cons in Hx as [Hyx Hx]. constructor; [by apply IH|]. apply Forall_app_2; [done|]. by repeat constructor.
Qed.

(** One request: the engine keeps its invariant unless memory ran out. *)
Lemma do_send_wrap_ok i e L last :
  eng_mode (parms e) <> IEE_MODE_ACD -> iee_inv e L -> Forall (due_by e last) L -> last < usec (si_now i) ->
  exists ret packet e' L', _do_send_wrap i e = Ok (ret, packet, e') /\ rep e' L' /\ StronglySorted sooner L' /\
    parms e' = parms e /\ echo_timeout e' = echo_timeout e /\ eng_ongoing e' = eng_ongoing e /\
    count_consec_late (counts e') = count_consec_late (counts e) /\
    (ret = IEE_SUCCESS \/ ret = IEE_GENERAL_ECHO_ERROR ->
       iee_inv e' L' /\ Forall (due_by e' (usec (si_now i))) L' /\
       count_send (counts e') = wrap 32 (count_send (counts e) + 1)) /\
    (ret = IEE_SUCCESS \/ ret = IEE_GENERAL_ECHO_ERROR \/ ret = IEE_RESOURCE_STARVATION).
Proof.
  intros Hm Hi Hdue Hlast. unfold _do_send_wrap. destruct (si_malloc i) eqn:Em.
  - destruct (_compute_echo_timeout (set_counts inc_send e) (si_now i)) as [e1 t1] eqn:Ht.
    assert (echo_timeout e1 = echo_timeout e) as Et.
    { revert Ht. unfold _compute_echo_timeout. rewrite bool_decide_eq_false_2 by done. by intros [= <- _]. }
    apply compute_timeout_spec in Ht as Hu. rewrite Et in Hu. pose proof Hi as (Hr & Hs & Hb).
    assert (Forall (fun y => usec (e_time y) < usec t1) L) as Hall.
    { eapply list.Forall_impl; [exact Hdue|]. unfold due_by. intros y Hy. cbv beta. lia. }
    destruct (do_send_spec i e L e1 t1 Hr Em Ht Hall) as (ck & q & e2 & -> & _ & Hr2 & P2 & C2 & O2 & T2).
    cbn [mbind res_bind]. eexists _, _, e2, _. split; [done|]. split; [exact Hr2|].
    assert (StronglySorted sooner (L ++ [(q, wrap 16 (count_send (counts e)), t1)])) as Hs2 by (by apply sorted_snoc).
    split; [done|]. split; [done|]. split; [congruence|]. split; [done|]. split; [by rewrite C2|].
    split; [|destruct (si_sent i); by auto]. intros _. split.
    + split; [done|]. split; [done|]. rewrite C2, length_app. apply balanced_send in Hb.
      cbn [length]. replace (Z.of_nat (length L + 1)) with (Z.of_nat (length L) + 1) by lia. exact Hb.
    + split; [|by rewrite C2]. unfold due_by. rewrite T2, Et. apply Forall_app_2.
      * eapply list.Forall_impl; [exact Hall|]. intros y Hy. cbv beta in Hy. lia.
      * repeat constructor. cbn. lia.
  - unfold _do_send. rewrite Em. cbn [_create_insert_echo_event negb mbind res_bind].
    destruct Hi as (Hr & Hs & _). eexists _, _, _, L. split; [done|]. split; [exact Hr|]. split_and!; try done; [|by auto].
    by intros [[=]|[=]].
Qed.

Definition cycle_ok (i : cycle_input) : Prop := Forall read_ok (ci_reads i).

Lemma due_by_sublist e e' last L L' :
  sublist L' L -> echo_timeout e' = echo_timeout e -> Forall (due_by e last) L -> Forall (due_by e' last) L'.
Proof.
  intros Hs Et Hd. apply list.Forall_forall. intros x Hx. unfold due_by. rewrite Et.
  eapply list.Forall_forall in Hd; [exact Hd|]. by eapply elem_of_submseteq, sublist_submseteq.
Qed.

Lemma do_read_wrap_ok inputs now ref e L :
  iee_inv e L -> Forall read_ok inputs ->
  exists ret e' L', _do_read_wrap inputs now ref e = Ok (ret, e') /\ turn_ok e L e' L'.
Proof.
  intros Hi Hok. unfold _do_read_wrap. destruct (_ <=? 0).
  - eexists _, e, L. split; [done|]. by apply inv_turn_ok.
  - destruct (read_loop_ok inputs ref (_compare_tv ref now) e L Hi Hok) as (ret & e' & L' & E & Ht & _). by eauto.
Qed.

Lemma process_loop_ok inputs r e L last :
  eng_mode (parms e) <> IEE_MODE_ACD -> iee_inv e L -> Forall (due_by e last) L -> sends_after last inputs ->
  Forall cycle_ok inputs ->
  exists ret sent e' L', process_loop inputs r e = Ok (ret, sent, e') /\ rep e' L' /\ StronglySorted sooner L' /\
    (ret <> Some IEE_RESOURCE_STARVATION -> r <> IEE_RESOURCE_STARVATION -> balanced (counts e') (Z.of_nat (length L'))).
Proof.
  revert r e L last. induction inputs as [|i inputs IH]; intros r e L last Hm Hi Hd Hs Hok; cbn [process_loop].
  { exists None, [], e, L. destruct Hi as (? & ? & ?). by split_and!. }
  apply list.Forall_cons in Hok as [Hok1 Hok]. destruct Hs as [Hlast Hs].
  apply (iee_inv_stop (ci_stop i)) in Hi. set (e0 := stop_if (ci_stop i) e) in *.
  assert (parms e0 = parms e /\ echo_timeout e0 = echo_timeout e) as [P0 T0] by (subst e0; by destruct (ci_stop i)).
  assert (Forall (due_by e0 last) L) as Hd0 by (by eapply due_by_sublist).
  clearbody e0. destruct (_ && _).
  2:{ exists (Some r), [], e0, L. destruct Hi as (? & ? & ?). by split_and!. }
  destruct (do_send_wrap_ok (ci_send i) e0 L last) as (ret & packet & e1 & L1 & -> & Hr1 & Hs1 & P1 & T1 & _ & _ & Hok' & Hret);
    [by rewrite P0|done..|]. cbn [mbind res_bind].
  case_bool_decide as Er; cbn [negb].
  2:{ exists (Some ret), (option_list packet), e1, L1. split; [done|]. split; [done|]. split; [done|]. intros Hne _.
      destruct Hret as [-> | [-> | ->]]; [done| |done]. by apply Hok'; right. }
  destruct Hok' as (Hi1 & Hd1 & _); [by left|].
  apply (iee_inv_stop (ci_stop_sent i)) in Hi1. set (e2 := stop_if (ci_stop_sent i) e1) in *.
  assert (parms e2 = parms e1 /\ echo_timeout e2 = echo_timeout e1) as [P2 T2] by (subst e2; by destruct (ci_stop_sent i)).
  clearbody e2. destruct (eng_ongoing e2); cbn [negb].
  2:{ exists (Some ret), (option_list packet), e2, L1. destruct Hi1 as (? & ? & ?). by split_and!. }
  destruct (do_read_wrap_ok (ci_reads i) (ci_now i) (_compute_next_send e2 (ci_ref i)) e2 L1 Hi1 Hok1) as (ret2 & e3 & L3 & -> & Ht).
  cbn [mbind res_bind]. pose proof Ht as (Hi3 & Hsub & P3 & T3 & _).
  destruct ret2 as [ret2|].
  2:{ exists None, (option_list packet), e3, L3. destruct Hi3 as (? & ? & ?). by split_and!. }
  destruct (decide (ret2 = IEE_SUCCESS)) as [->|Hne].
  - destruct (IH IEE_SUCCESS e3 L3 (usec (si_now (ci_send i)))) as (ret' & sent' & e' & L' & -> & H1 & H2 & H3);
      [congruence|done|apply (due_by_sublist e1 e3 _ L1); [done|congruence|done]|done|done|].
    cbn [mbind res_bind]. eexists _, _, e', L'. split; [done|]. split; [done|]. split; [done|]. intros Hne _. by apply H3.
  - exists (Some ret2), (option_list packet), e3, L3. destruct Hi3 as (? & ? & ?). by destruct ret2; split_and!.
Qed.

(** (C20) The engine is safe: from its initialisation, in the modes other than
    automatic detection and with a clock that advances between two requests,
    whatever packets, expirations, errors and stops come in whatever order, it
    never reads outside its buffers nor follows a stale pointer, its events
    stay sorted by time-out, its statistics add up as long as memory lasts, and
    destroying it frees every event. *)
Theorem IEE_process_safe mode interval num timeout threshold given malloc af src dst socket pid e inputs last :
  IEE_init mode interval num timeout threshold given malloc af src dst socket pid = (IEE_SUCCESS, Some e) ->
  mode <> IEE_MODE_ACD -> sends_after last inputs -> Forall cycle_ok inputs ->
  exists ret sent e' L, IEE_process inputs e = Ok (ret, sent, e') /\
    rep e' L /\ StronglySorted sooner L /\ IEE_destroy e' = Ok ∅ /\
    (ret <> Some IEE_RESOURCE_STARVATION -> balanced (counts e') (Z.of_nat (length L))).
Proof.
  unfold IEE_init. destruct given; [|done]. destruct malloc; [|done]. destruct af as [v6|]; [|done]. destruct src as [src|]; [|done].
  destruct dst as [dst|]; [|done]. destruct socket; [|done]. cbn [negb]. intros [= <-] Hm Hs Hok.
  destruct (process_loop_ok inputs IEE_SUCCESS (mk_engine (mk_iee_parms interval num threshold mode (wrap 16 pid) v6 src dst)
    timeout true (mk_iee_counts 0 0 0 0) None ∅) [] last) as (ret & sent & e' & L & E & Hr & Hso & Hb); try done.
  { split; [|split; [constructor|by exists 0]]. split; [done|]. split; [constructor|]. done. }
  exists ret, sent, e', L. split_and!; try done; [by eapply destroy_spec|]. intros Hne. by apply Hb.
Qed.

(** ** A peer that does not answer *)

(** A wait that ends without a packet, and no call of [IEE_stop]. *)
Definition silent (i : read_input) : Prop :=
  ri_stop i = false /\ ri_stop_after i = false /\ ri_select i = SelTimeout.

Lemma silent_turn i tl e x L :
  iee_inv e (x :: L) -> silent i -> usec (e_time x) - usec (ri_delay_at i) < tl ->
  exists e', turn_ok e (x :: L) e' L /\ counts e' = add_late (counts e) /\ eng_ongoing e' = eng_ongoing e /\
    read_turn i tl e =
      Ok (if echo_timeout_threshold (parms e) <=? wrap 8 (count_consec_late (counts e) + 1)
          then (IEE_GENERAL_ECHO_TIMEOUT, set_ongoing false e') else (IEE_SUCCESS, e')).
Proof.
  intros Hi (H1 & _ & H2) Hlt.
  destruct (on_expired_ok e x L tl _ Hi Hlt) as (e' & E & Ht & Hc & Ho).
  exists e'. split_and!; try done. unfold read_turn. rewrite (read_delay_head i e x L Hi). cbn [mbind res_bind]. rewrite H1. cbn [stop_if]. unfold _do_read. rewrite H2. cbn [mbind res_bind].
  rewrite E. cbn [mbind res_bind]. pose proof Ht as (_ & _ & -> & _). by rewrite Hc.
Qed.

Lemma idle_turn i tl e :
  iee_inv e [] -> silent i -> count_consec_late (counts e) < echo_timeout_threshold (parms e) ->
  read_turn i tl e = Ok (IEE_SUCCESS, e).
Proof.
  intros ((Ep & _) & _) (H1 & _ & H2) Hlt. cbn in Ep. unfold read_turn, read_delay. rewrite Ep. cbn [mbind res_bind]. rewrite H1. cbn [stop_if].
  unfold _do_read. rewrite H2. cbn [mbind res_bind on_read]. rewrite Ep. cbn [mbind res_bind].
  destruct (Z.leb_spec (echo_timeout_threshold (parms e)) (count_consec_late (counts e))); [lia|done].
Qed.

(** One interval during which the peer does not answer: the request expires,
    and the rest of the interval goes by. *)
Definition dead_cycle (e : engine) (i : cycle_input) : Prop :=
  ci_stop i = false /\ ci_stop_sent i = false /\ si_malloc (ci_send i) = true /\ si_sent (ci_send i) = true /\
  let ref := usec (_compute_next_send e (ci_ref i)) in
  exists r1 r2, ci_reads i = [r1; r2] /\ silent r1 /\ silent r2 /\
    usec (ci_now i) <= usec (ri_delay_at r1) /\ usec (ci_now i) < ref /\ usec (ri_left_at r1) < ref <= usec (ri_left_at r2) /\
    usec (si_now (ci_send i)) + echo_timeout e * 1000 < ref.

Lemma do_send_wrap_dead i e :
  iee_inv e [] -> si_malloc i = true -> si_sent i = true -> eng_mode (parms e) <> IEE_MODE_ACD ->
  exists packet e' x, _do_send_wrap i e = Ok (IEE_SUCCESS, Some packet, e') /\ iee_inv e' [x] /\
    usec (e_time x) = usec (si_now i) + echo_timeout e * 1000 /\ parms e' = parms e /\
    echo_timeout e' = echo_timeout e /\ eng_ongoing e' = eng_ongoing e /\
    count_consec_late (counts e') = count_consec_late (counts e) /\
    count_send (counts e') = wrap 32 (count_send (counts e) + 1).
Proof.
  intros (Hr & Hs & Hb) Em Es Hm. unfold _do_send_wrap.
  destruct (_compute_echo_timeout (set_counts inc_send e) (si_now i)) as [e1 t1] eqn:Ht.
  assert (echo_timeout e1 = echo_timeout e) as Et.
  { revert Ht. unfold _compute_echo_timeout. rewrite bool_decide_eq_false_2 by done. by intros [= <- _]. }
  apply compute_timeout_spec in Ht as Hu. rewrite Et in Hu.
  destruct (do_send_spec i e [] e1 t1 Hr Em Ht ltac:(constructor)) as (ck & q & e2 & -> & _ & Hr2 & P2 & C2 & O2 & T2).
  rewrite Es. cbn [mbind res_bind]. eexists _, e2, _. split; [done|]. split.
  { split; [exact Hr2|]. split; [by repeat constructor|]. rewrite C2. apply (balanced_send _ 0 Hb). }
  split; [done|]. split; [done|]. split; [congruence|]. split; [done|]. rewrite C2. done.
Qed.

Lemma dead_cycle_spec i inputs r e c :
  iee_inv e [] -> eng_ongoing e = true -> echo_num (parms e) = 0 -> eng_mode (parms e) <> IEE_MODE_ACD ->
  count_consec_late (counts e) = c -> 0 <= c < 255 -> dead_cycle e i ->
  exists packet e', iee_inv e' [] /\ parms e' = parms e /\ echo_timeout e' = echo_timeout e /\
    eng_ongoing e' = true /\ count_consec_late (counts e') = c + 1 /\
    process_loop (i :: inputs) r e =
      if echo_timeout_threshold (parms e) <=? c + 1
      then Ok (Some IEE_GENERAL_ECHO_TIMEOUT, [packet], set_ongoing false e')
      else r ← process_loop inputs IEE_SUCCESS e'; let '(ret, sent, e'') := r in Ok (ret, packet :: sent, e'').
Proof.
  intros Hi Ho Hnum Hm Hc Hcb (S1 & S2 & Em & Es & r1 & r2 & Er & Q1 & Q2 & T1 & T1' & T2 & T3).
  destruct (do_send_wrap_dead (ci_send i) e Hi Em Es Hm) as (packet & e1 & x & E & Hi1 & Hx & P1 & TT1 & O1 & C1 & _).
  set (ref := _compute_next_send e (ci_ref i)) in *.
  destruct (silent_turn r1 (_compare_tv ref (ci_now i)) e1 x [] Hi1 Q1) as (e2 & Ht & Hc2 & Ho2 & E2).
  { unfold _compare_tv. lia. }
  pose proof Ht as (Hi2 & _ & P2 & TT2 & _).
  assert (wrap 8 (count_consec_late (counts e1) + 1) = c + 1) as Hw.
  { unfold wrap. rewrite C1, Hc, Z.mod_small; lia. }
  exists packet, e2. split; [done|]. split; [congruence|]. split; [congruence|]. split; [congruence|].
  split. { rewrite Hc2. exact Hw. }
  cbn [process_loop]. rewrite S1. cbn [stop_if]. rewrite Ho, Hnum. cbn [Z.eqb orb andb]. rewrite E. cbn [mbind res_bind].
  rewrite bool_decide_eq_true_2 by done. cbn [negb option_list]. rewrite S2. cbn [stop_if]. rewrite O1, Ho. cbn [negb].
  replace (_compute_next_send e1 (ci_ref i)) with ref by (subst ref; unfold _compute_next_send; by rewrite P1).
  unfold _do_read_wrap. rewrite Er. destruct (Z.leb_spec (_compare_tv ref (ci_now i)) 0); [unfold _compare_tv in *; lia|].
  cbn [read_loop]. rewrite E2, Hw, P1. cbn [mbind res_bind].
  destruct (Z.leb_spec (echo_timeout_threshold (parms e)) (c + 1)) as [Hthr|Hthr]; cbn [mbind res_bind].
  - destruct Q1 as (_ & -> & _). cbn [stop_if]. rewrite andb_false_r. by cbn [mbind res_bind].
  - pose proof Q1 as (_ & -> & _). cbn [stop_if]. rewrite Ho2, O1, Ho, andb_true_r.
    destruct (Z.ltb_spec 0 (_compare_tv ref (ri_left_at r1))); [|unfold _compare_tv in *; lia].
    rewrite (idle_turn r2 _ e2 Hi2 Q2) by (rewrite P2, P1, Hc2; cbn [count_consec_late add_late]; rewrite Hw; lia). cbn [mbind res_bind].
    pose proof Q2 as (_ & -> & _). cbn [stop_if].
    destruct (Z.ltb_spec 0 (_compare_tv ref (ri_left_at r2))); [unfold _compare_tv in *; lia|]. cbn [andb mbind res_bind].
    by destruct (process_loop inputs IEE_SUCCESS e2) as [[[ret sent] e3]|].
Qed.

Lemma dead_cycle_mono e e' i : parms e' = parms e -> echo_timeout e' = echo_timeout e -> dead_cycle e i -> dead_cycle e' i.
Proof. unfold dead_cycle, _compute_next_send. by intros -> ->. Qed.

Lemma dead_cycles inputs r e c :
  iee_inv e [] -> eng_ongoing e = true -> echo_num (parms e) = 0 -> eng_mode (parms e) <> IEE_MODE_ACD ->
  count_consec_late (counts e) = c -> 0 <= c -> echo_timeout_threshold (parms e) <= 255 ->
  c + Z.of_nat (length inputs) = echo_timeout_threshold (parms e) -> inputs <> [] -> Forall (dead_cycle e) inputs ->
  exists sent e', process_loop inputs r e = Ok (Some IEE_GENERAL_ECHO_TIMEOUT, sent, e') /\ length sent = length inputs.
Proof.
  revert r e c. induction inputs as [|i inputs IH]; intros r e c Hi Ho Hn Hm Hc Hc0 Hthr Hlen Hne Hall; [done|].
  apply list.Forall_cons in Hall as [Hd Hall]. cbn [length] in Hlen.
  destruct (dead_cycle_spec i inputs r e c) as (packet & e' & Hi' & P & T & Ho' & Hc' & ->); try done; [lia|].
  destruct inputs as [|j inputs].
  - destruct (Z.leb_spec (echo_timeout_threshold (parms e)) (c + 1)); [|cbn in Hlen; lia]. by eauto.
  - destruct (Z.leb_spec (echo_timeout_threshold (parms e)) (c + 1)) as [?|_]; [cbn [length] in Hlen; lia|].
    destruct (IH IEE_SUCCESS e' (c + 1)) as (sent & e'' & -> & Hl); try done; try congruence; try lia.
    + rewrite P. lia.
    + eapply list.Forall_impl; [exact Hall|]. intros k. by apply dead_cycle_mono.
    + cbn [mbind res_bind]. eexists _, _. split; [done|]. cbn [length]. by rewrite Hl.
Qed.

(** (C21) A dead peer is detected when requests expire before the next one is due:
    in the modes other than ACD and without a limit on the number of requests, if
    the time-out of a request is shorter than what is left of the interval when it
    is sent, and in each interval nothing arrives in the two waits of which the
    first ends with the expiry of the request and the second with the interval
    (neither is cut short by a signal, memory is available, the request can be
    sent and nobody tells the engine to stop), then the engine declares a general
    time-out after exactly as many requests as the threshold says (at most 255),
    one per interval.  For the keep-alive, whose threshold is three and whose
    time-out is 5 seconds, that is three requests, if the interval that the server
    sets is longer than 5 seconds; with a shorter one more requests are sent
    before the verdict. *)
Theorem dead_peer_detected mode interval timeout threshold given malloc af src dst socket pid e inputs :
  IEE_init mode interval 0 timeout threshold given malloc af src dst socket pid = (IEE_SUCCESS, Some e) ->
  mode <> IEE_MODE_ACD -> 1 <= threshold <= 255 -> Z.of_nat (length inputs) = threshold ->
  Forall (dead_cycle e) inputs ->
  exists sent e', IEE_process inputs e = Ok (Some IEE_GENERAL_ECHO_TIMEOUT, sent, e') /\
    Z.of_nat (length sent) = threshold.
Proof.
  intros Hinit Hm Hthr Hlen Hall. assert (inputs <> []) as Hne by (by intros ->; cbn in Hlen; lia).
  revert Hinit. unfold IEE_init. destruct given; [|done]. destruct malloc; [|done]. destruct af as [v6|]; [|done]. destruct src as [src|]; [|done].
  destruct dst as [dst|]; [|done]. destruct socket; [|done]. cbn [negb]. intros [= <-].
  destruct (dead_cycles inputs IEE_SUCCESS (mk_engine (mk_iee_parms interval 0 threshold mode (wrap 16 pid) v6 src dst)
    timeout true (mk_iee_counts 0 0 0 0) None ∅) 0) as (sent & e' & E & Hl); try done; cbn [parms echo_timeout_threshold]; try lia.
  { split; [|split; [constructor|by exists 0]]. split; [done|]. split; [constructor|]. done. }
  exists sent, e'. split; [done|]. lia.
Qed.

(** ** Flaws *)

(** Two events that are due at the same instant, or an event that is due
    before another, corrupt the list: the two events point to each other and
    the search for any other reply, like the release of the list, never ends. *)
Definition event0 (seq sec : Z) : ECHO_EVENT := mk_ECHO_EVENT seq (mk_timeval sec 0) None.

Definition engine0 : engine :=
  mk_engine (mk_iee_parms 1000 0 3 IEE_MODE_KA 7 true (repeat 0 16) (repeat 0 16)) 5000 true (mk_iee_counts 1 0 0 0)
    (Some 1%positive) {[ 1%positive := event0 0 9; 2%positive := event0 1 9 ]}.

Lemma cycle_remove fuel h p seq e :
  events e = h -> h !! 1%positive = Some (mk_ECHO_EVENT 0 (mk_timeval 9 0) (Some 2%positive)) ->
  h !! 2%positive = Some (mk_ECHO_EVENT 1 (mk_timeval 9 0) (Some 1%positive)) -> seq <> 0 -> seq <> 1 ->
  p = 1%positive \/ p = 2%positive ->
  remove_loop fuel e (PNext p) seq = Err OutOfFuel.
Proof.
  intros <- H1 H2 N0 N1. revert p. induction fuel as [|fuel IH]; intros p Hp; [done|]. cbn [remove_loop load_pp].
  unfold event_at. destruct Hp as [-> | ->].
  - rewrite H1. cbn [Prelude.from_option mbind res_bind ev_next]. rewrite H2. cbn [Prelude.from_option mbind res_bind echo_seq].
    destruct (Z.eqb_spec 1 seq); [lia|]. apply IH. by right.
  - rewrite H2. cbn [Prelude.from_option mbind res_bind ev_next]. rewrite H1. cbn [Prelude.from_option mbind res_bind echo_seq].
    destruct (Z.eqb_spec 0 seq); [lia|]. apply IH. by left.
Qed.

Lemma cycle_free fuel h p :
  h !! 1%positive = Some (mk_ECHO_EVENT 0 (mk_timeval 9 0) (Some 2%positive)) ->
  h !! 2%positive = Some (mk_ECHO_EVENT 1 (mk_timeval 9 0) (Some 1%positive)) ->
  p = 1%positive \/ p = 2%positive -> free_loop fuel (Some p) h = Err OutOfFuel.
Proof.
  intros H1 H2. revert p. induction fuel as [|fuel IH]; intros p Hp; [done|]. cbn [free_loop].
  destruct Hp as [-> | ->].
  - rewrite H1. cbn [Prelude.from_option mbind res_bind ev_next]. rewrite IH; [done|by right].
  - rewrite H2. cbn [Prelude.from_option mbind res_bind ev_next]. rewrite IH; [done|by left].
Qed.

(** A request that is due no later than one already in the list makes the
    list circular: from then on neither the removal of the reply to another
    request nor the destruction of the engine ends, whatever their bound. *)
Theorem simultaneous_events_loop :
  exists e, _insert_echo_event engine0 2%positive = Ok e /\
    (forall fuel seq, seq <> 0 -> seq <> 1 -> remove_loop fuel e PHead seq = Err OutOfFuel) /\
    (forall fuel, free_loop fuel (event_list e) (events e) = Err OutOfFuel).
Proof.
  eexists. split; [vm_compute; reflexivity|]. split.
  - intros [|fuel] seq N0 N1; [done|]. cbn [remove_loop load_pp mbind res_bind event_list].
    change (event_at _ 1%positive) with (@Ok ECHO_EVENT (mk_ECHO_EVENT 0 (mk_timeval 9 0) (Some 2%positive))).
    cbn [mbind res_bind echo_seq]. destruct (Z.eqb_spec 0 seq); [lia|]. by eapply cycle_remove; [done..|left].
  - intros fuel. by apply cycle_free; [..|left].
Qed.

(** A signal that interrupts the wait counts as an expiration: the first
    event is given up although its time-out has not come. *)
Theorem signal_counts_as_timeout i tl e x L :
  iee_inv e (x :: L) -> ri_stop i = false -> ri_select i = SelEINTR ->
  count_consec_late (counts e) + 1 < echo_timeout_threshold (parms e) -> 0 <= count_consec_late (counts e) < 255 ->
  usec (ri_delay_at i) < usec (e_time x) < usec (ri_delay_at i) + tl ->
  exists e', read_turn i tl e = Ok (IEE_SUCCESS, e') /\ rep e' L /\
    count_consec_late (counts e') = count_consec_late (counts e) + 1.
Proof.
  intros Hi Hs Hsel Hthr Hc Htime.
  destruct (on_expired_ok e x L tl (usec (e_time x) - usec (ri_delay_at i)) Hi ltac:(lia)) as (e' & E & Ht & Hc' & Ho).
  exists e'. unfold read_turn. rewrite (read_delay_head i e x L Hi). cbn [mbind res_bind]. rewrite Hs. cbn [stop_if]. unfold _do_read. rewrite Hsel. cbn [mbind res_bind].
  rewrite E. cbn [mbind res_bind]. pose proof Ht as ((Hr & _) & _ & -> & _). rewrite Hc'.
  cbn [count_consec_late add_late]. unfold wrap. rewrite Z.mod_small by lia.
  destruct (Z.leb_spec (echo_timeout_threshold (parms e)) (count_consec_late (counts e) + 1)); [lia|done].
Qed.

(** Anybody can stop the engine: an echo reply with a code other than 0 is a
    fatal error before its identifier is even looked at. *)
Theorem foreign_reply_stops_engine i tl e L code rest :
  iee_inv e L -> icmp_v6 (parms e) = true -> ri_stop i = false -> length (ri_buf i) = READ_BUF_LEN ->
  ri_select i = SelPacket (ICMP6_ECHO_REPLY_TYPE :: code :: rest) ->
  code <> ICMP_ECHO_CODE -> (6 <= length rest)%nat ->
  count_consec_late (counts e) < echo_timeout_threshold (parms e) ->
  exists e', read_turn i tl e = Ok (IEE_GENERAL_ECHO_ERROR, e') /\ eng_ongoing e' = false.
Proof.
  intros Hi V6 Hs Hb Hsel Hcode Hlen Hthr. unfold read_turn.
  destruct (read_delay_ok i e L Hi) as (rd & ->).
  cbn [mbind res_bind]. rewrite Hs. cbn [stop_if]. unfold _do_read. rewrite Hsel. unfold _decode_icmp_packet. rewrite V6.
  destruct (Z.ltb_spec (Z.of_nat (length (ICMP6_ECHO_REPLY_TYPE :: code :: rest))) 8); [cbn [length] in *; lia|].
  cbn [app]. unfold rd8 at 1. cbn [lookup list_lookup Prelude.from_option mbind res_bind].
  rewrite Z.eqb_refl. cbn [negb]. unfold decode_header, rd8. cbn [Nat.add lookup list_lookup Prelude.from_option mbind res_bind].
  destruct (Z.eqb_spec code ICMP_ECHO_CODE); [done|]. cbn [negb mbind res_bind on_read parms set_ongoing counts].
  destruct (Z.leb_spec (echo_timeout_threshold (parms e)) (count_consec_late (counts e))); [lia|]. by eauto.
Qed.

(** ** The keep-alive does not end by itself *)

Definition unstopped_read (i : read_input) : Prop := ri_stop i = false /\ ri_stop_after i = false.
Definition unstopped (i : cycle_input) : Prop :=
  ci_stop i = false /\ ci_stop_sent i = false /\ Forall unstopped_read (ci_reads i).

Lemma remove_loop_same fuel e pp seq r e' :
  remove_loop fuel e pp seq = Ok (r, e') -> parms e' = parms e /\ eng_ongoing e' = eng_ongoing e.
Proof.
  revert pp. induction fuel as [|fuel IH]; intros pp; [done|]. cbn [remove_loop].
  destruct (load_pp e pp) as [[q|]|]; cbn [mbind res_bind]; [|by intros [= _ <-]|done].
  destruct (event_at e q) as [ev|]; cbn [mbind res_bind]; [|done]. destruct (_ =? _); [|apply IH].
  unfold store_pp, set_next. destruct pp as [|p]; [by intros [= _ <-]|].
  destruct (event_at e p); cbn [mbind res_bind]; [|done]. by intros [= _ <-].
Qed.

Lemma on_read_unstopped priv seq tl rd e ret e' :
  on_read priv seq tl rd e = Ok (ret, e') -> eng_mode (parms e) <> IEE_MODE_ACD -> echo_num (parms e) = 0 ->
  eng_ongoing e = true -> priv <> READ_SOCKET_CLOSED ->
  parms e' = parms e /\ (ret = IEE_SUCCESS -> eng_ongoing e' = true).
Proof.
  intros E Hm Hn Ho Hne.
  assert (forall x, parms x = parms e -> eng_ongoing x = true -> eng_ongoing (last_reply x) = true /\ parms (last_reply x) = parms e) as Hl.
  { intros x Hp Hx. unfold last_reply. by rewrite Hp, Hn. }
  destruct priv; try done; cbn [on_read] in E; try by injection E as <- <-.
  - destruct (event_list e) as [p|]; [|by injection E as <- <-]. destruct (_ <? _); [|by injection E as <- <-].
    inv_bind E. inv_bind E. destruct v0 as [r0 e0]. apply remove_loop_same in E1 as [P O].
    cbn [parms set_counts eng_ongoing] in P, O. injection E as <- <-. cbn [snd]. split; [done|]. intros _. congruence.
  - injection E as <- <-. destruct (Hl e eq_refl Ho). by split.
  - inv_bind E. inv_bind E. destruct v0 as [r0 e0]. apply remove_loop_same in E1 as [P O]. cbn [parms set_counts eng_ongoing] in P, O.
    set (e1 := if bool_decide _ then e0 else _) in E.
    assert (parms e1 = parms e /\ eng_ongoing e1 = true) as [P1 O1] by (clear E; subst e1; destruct (bool_decide _); cbn; split; congruence).
    rewrite P1 in E. rewrite bool_decide_eq_false_2 in E by done. injection E as <- <-. destruct (Hl e1 P1 O1). by split.
Qed.

Lemma insert_loop_same fuel e pp p e' :
  insert_loop fuel e pp p = Ok e' -> parms e' = parms e /\ eng_ongoing e' = eng_ongoing e.
Proof.
  revert pp. induction fuel as [|fuel IH]; intros pp; [done|]. cbn [insert_loop].
  assert (forall q v x x', set_next q v x = Ok x' -> parms x' = parms x /\ eng_ongoing x' = eng_ongoing x) as Hn.
  { unfold set_next. intros q v x x' E. inv_bind E. by injection E as <-. }
  destruct (load_pp e pp) as [[q|]|]; cbn [mbind res_bind]; [|intros E|done].
  - intros E. inv_bind E. inv_bind E. destruct (_ <? _); [by eapply IH|]. inv_bind E.
    apply Hn in E2 as [? ?]. apply Hn in E as [? ?]. split; congruence.
  - inv_bind E. apply Hn in E as [-> ->]. destruct pp; cbn [store_pp] in E0; [by injection E0 as <-|by apply Hn in E0].
Qed.

Lemma do_send_wrap_same i e ret packet e' :
  _do_send_wrap i e = Ok (ret, packet, e') -> parms e' = parms e /\ eng_ongoing e' = eng_ongoing e.
Proof.
  unfold _do_send_wrap, _do_send, _create_insert_echo_event. intros E. inv_bind E. destruct v as [[r0 p0] e0]. injection E as _ _ <-.
  inv_bind E0. destruct v as [created e1].
  assert (parms e1 = parms e /\ eng_ongoing e1 = eng_ongoing e) as [P O].
  { destruct (si_malloc i); cbn [negb] in E; [|by injection E as <- <-].
    unfold _compute_echo_timeout in E. case_bool_decide; inv_bind E; injection E as _ <-; by apply insert_loop_same in E1. }
  by destruct created; injection E0 as _ _ <-.
Qed.

Lemma do_read_not_closed i e r : _do_read i e = Ok r -> eng_ongoing e = true -> fst r <> READ_SOCKET_CLOSED.
Proof.
  unfold _do_read. intros E Ho. rewrite Ho in E. destruct (ri_select i); try by injection E as <-.
  revert E. unfold _decode_icmp_packet, decode_header. intros E. repeat (first [inv_bind E|case_match]); injection E as <-; done.
Qed.

Lemma read_loop_unstopped inputs ref tl e ret e' :
  read_loop inputs ref tl e = Ok (ret, e') -> Forall unstopped_read inputs ->
  eng_mode (parms e) <> IEE_MODE_ACD -> echo_num (parms e) = 0 -> eng_ongoing e = true ->
  parms e' = parms e /\ (ret = Some IEE_SUCCESS -> eng_ongoing e' = true).
Proof.
  revert tl e. induction inputs as [|i inputs IH]; intros tl e E Hu Hm Hn Ho; cbn [read_loop] in E; [by injection E as <- <-|].
  apply list.Forall_cons in Hu as [[U1 U2] Hu]. inv_bind E. destruct v as [ret1 e1]. rewrite U2 in E. cbn [stop_if] in E.
  unfold read_turn in E0. inv_bind E0. rewrite U1 in E0. cbn [stop_if] in E0. inv_bind E0. destruct v0 as [priv seq]. inv_bind E0.
  destruct v0 as [ret2 e2]. apply do_read_not_closed in E2; [|done].
  apply on_read_unstopped in E3 as [P2 O2]; try done.
  assert (parms e1 = parms e /\ (ret1 = IEE_SUCCESS -> eng_ongoing e1 = true)) as [P1 O1].
  { destruct (_ <=? _); injection E0 as <- <-; cbn; by split. }
  destruct (_ && _) eqn:Eb.
  - apply andb_true_iff in Eb as [_ Eo]. rewrite <- P1. apply (IH (_compare_tv ref (ri_left_at i)) e1); try done; by rewrite P1.
  - injection E as <- <-. split; [done|]. intros [= ->]. by apply O1.
Qed.

(** A keep-alive never ends by itself without a reason: as long as nobody
    calls [IEE_stop], the engine either runs on or returns a time-out or an
    error, never success. *)
Theorem keepalive_never_ends_quietly inputs e ret sent e' :
  IEE_process inputs e = Ok (ret, sent, e') -> Forall unstopped inputs ->
  eng_mode (parms e) <> IEE_MODE_ACD -> echo_num (parms e) = 0 -> eng_ongoing e = true ->
  ret <> Some IEE_SUCCESS.
Proof.
  unfold IEE_process. generalize IEE_SUCCESS at 1 as r. revert e ret sent e'.
  induction inputs as [|i inputs IH]; intros e ret sent e' r E Hu Hm Hn Ho; cbn [process_loop] in E; [by injection E as <- _ _|].
  apply list.Forall_cons in Hu as [(U1 & U2 & U3) Hu]. rewrite U1 in E. cbn [stop_if] in E. rewrite Ho, Hn in E. cbn [Z.eqb orb andb] in E.
  inv_bind E. destruct v as [[ret1 packet] e1].
  assert (parms e1 = parms e /\ eng_ongoing e1 = true) as [P1 O1].
  { apply do_send_wrap_same in E0 as [-> ->]. done. }
  case_bool_decide as Er; cbn [negb] in E; [|injection E as <- _ _; congruence].
  rewrite U2 in E. cbn [stop_if] in E. rewrite O1 in E. cbn [negb] in E. inv_bind E. destruct v as [ret2 e2].
  unfold _do_read_wrap in E1. destruct (_ <=? 0).
  - injection E1 as <- <-. inv_bind E. destruct v as [[ret3 sent3] e3]. injection E as <- _ _.
    eapply (IH e1); [exact E1|done|by rewrite P1..|done].
  - apply read_loop_unstopped in E1 as [P2 O2]; try done; try by rewrite P1.
    destruct ret2 as [[]|]; try by injection E as <- _ _.
    inv_bind E. destruct v as [[ret3 sent3] e3]. injection E as <- _ _. rewrite <- P1, <- P2 in *.
    eapply (IH e2); [exact E1|done..|by apply O2].
Qed.

(** ** Witnesses *)

Definition parms0 : iee_parms := mk_iee_parms 10000 0 3 IEE_MODE_KA 7 true (repeat 1 16) (repeat 2 16).
Definition ka0 : engine := mk_engine parms0 5000 true (mk_iee_counts 0 0 0 0) None ∅.
Definition read0 (s : Z) (sel : select_ret) : read_input :=
  mk_read_input (mk_timeval s 0) false sel (repeat 0 2048) (mk_timeval s 0) (mk_timeval s 0) false.
Definition send0 (s : Z) : send_input := mk_send_input (mk_timeval s 0) [0; 0; 0; 0] true true.
Definition dead0 (s : Z) : cycle_input :=
  mk_cycle_input false (send0 s) false (mk_timeval s 0) (mk_timeval s 0)
    [read0 (s + 6) SelTimeout; read0 (s + 10) SelTimeout].

Lemma repeat_bytes x n : byte_ok x -> bytes_ok (repeat x n).
Proof. intros Hx. induction n; cbn; [constructor|by constructor]. Qed.

Lemma parms0_ok : parms_ok parms0.
Proof. split_and!; try done; apply repeat_bytes; unfold byte_ok; lia. Qed.

Lemma ka0_init :
  IEE_init IEE_MODE_KA 10000 0 5000 3 true true (Some true) (Some (repeat 1 16)) (Some (repeat 2 16)) true 7 = (IEE_SUCCESS, Some ka0).
Proof. reflexivity. Qed.

Lemma request_checksum_valid_witness :
  _calc_icmp_csum parms0 (echo_packet 128
    (_calc_icmp_csum parms0 (echo_packet 128 0 7 1 (repeat 3 16))) 7 1 (repeat 3 16)) = 0.
Proof.
  apply (request_checksum_valid parms0 128 1 (repeat 3 16)); [apply parms0_ok|unfold byte_ok; lia| |reflexivity].
  apply repeat_bytes. unfold byte_ok. lia.
Defined.

Lemma echo_roundtrip_witness :
  let request := echo_packet ICMP6_ECHO_REQUEST_TYPE 0 7 1 (tv_bytes (mk_timeval 100 0) [0; 0; 0; 0]) in
  let reply := conforming_reply parms0 (69 :: repeat 0 19) 9 request in
  _decode_icmp_packet ka0 (reply ++ [1; 2]) (Z.of_nat (length reply)) (mk_timeval 104 0) =
  Ok (if 5000000 <? usec (mk_timeval 104 0) - usec (mk_timeval 100 0)
      then ANAL_PACKET_PINGIN_LATE else ANAL_PACKET_PINGIN_ONTIME, Some 1).
Proof.
  apply (echo_roundtrip ka0 (send0 100) 0 9 (69 :: repeat 0 19) [1; 2] (mk_timeval 104 0) 1);
    [apply parms0_ok|split; cbn; lia|exists 5; split_and!; [lia..|done|done]|lia|done].
Defined.

Lemma read0_ok s : read_ok (read0 s SelTimeout).
Proof. split; [reflexivity|by intros packet [=]]. Qed.

Lemma dead0_ok s : cycle_ok (dead0 s).
Proof. unfold cycle_ok. cbn [ci_reads dead0]. by apply list.Forall_cons_2; [apply read0_ok|apply list.Forall_cons_2; [apply read0_ok|]]. Qed.

Lemma IEE_process_safe_witness :
  exists ret sent e' L, IEE_process [dead0 100; dead0 110] ka0 = Ok (ret, sent, e') /\
    rep e' L /\ StronglySorted sooner L /\ IEE_destroy e' = Ok ∅ /\
    (ret <> Some IEE_RESOURCE_STARVATION -> balanced (counts e') (Z.of_nat (length L))).
Proof.
  apply (IEE_process_safe IEE_MODE_KA 10000 0 5000 3 true true (Some true) (Some (repeat 1 16)) (Some (repeat 2 16)) true 7 ka0
    [dead0 100; dead0 110] 0); [apply ka0_init|done|cbn; unfold usec; cbn; lia|].
  apply list.Forall_cons_2; [apply dead0_ok|]. apply list.Forall_cons_2; [apply dead0_ok|by apply list.Forall_nil_2].
Defined.

Lemma dead0_dead s : dead_cycle ka0 (dead0 s).
Proof.
  split_and!; try done. exists (read0 (s + 6) SelTimeout), (read0 (s + 10) SelTimeout).
  split_and!; try done; unfold usec; cbn; lia.
Qed.

Lemma dead_peer_detected_witness :
  exists sent e', IEE_process [dead0 100; dead0 110; dead0 120] ka0 = Ok (Some IEE_GENERAL_ECHO_TIMEOUT, sent, e') /\
    Z.of_nat (length sent) = 3.
Proof.
  apply (dead_peer_detected IEE_MODE_KA 10000 5000 3 true true (Some true) (Some (repeat 1 16)) (Some (repeat 2 16)) true 7 ka0
    [dead0 100; dead0 110; dead0 120]); [apply ka0_init|done|lia|done|].
  apply list.Forall_cons_2; [apply dead0_dead|]. apply list.Forall_cons_2; [apply dead0_dead|].
  apply list.Forall_cons_2; [apply dead0_dead|by apply list.Forall_nil_2].
Defined.

Definition waiting0 : engine :=
  mk_engine parms0 5000 true (mk_iee_counts 1 0 0 0) (Some 1%positive) {[ 1%positive := event0 0 9 ]}.

Lemma waiting0_inv : iee_inv waiting0 [(1%positive, 0, mk_timeval 9 0)].
Proof.
  split; [|split; [by repeat constructor|by exists 0]]. split_and!.
  - split; [reflexivity|]. exists None. split; reflexivity.
  - apply list.NoDup_singleton.
  - unfold waiting0, locs. cbn. rewrite dom_singleton_L. set_solver.
Qed.

Lemma signal_counts_as_timeout_witness :
  exists e', read_turn (read0 5 SelEINTR) 5000000 waiting0 = Ok (IEE_SUCCESS, e') /\ rep e' [] /\
    count_consec_late (counts e') = 1.
Proof.
  apply (signal_counts_as_timeout (read0 5 SelEINTR) 5000000 waiting0 (1%positive, 0, mk_timeval 9 0) []);
    [apply waiting0_inv|done|done|cbn; lia|cbn; lia|unfold usec; cbn; lia].
Defined.

Lemma foreign_reply_stops_engine_witness :
  exists e', read_turn (read0 5 (SelPacket [129; 1; 0; 0; 0; 0; 0; 0])) 5000000 waiting0 = Ok (IEE_GENERAL_ECHO_ERROR, e') /\
    eng_ongoing e' = false.
Proof.
  apply (foreign_reply_stops_engine (read0 5 (SelPacket [129; 1; 0; 0; 0; 0; 0; 0])) 5000000 waiting0
    [(1%positive, 0, mk_timeval 9 0)] 1 [0; 0; 0; 0; 0; 0]);
    [apply waiting0_inv|done..|cbn; lia|cbn; lia].
Defined.

Lemma dead0_unstopped s : unstopped (dead0 s).
Proof. split; [done|]. split; [done|]. by apply list.Forall_cons_2; [|apply list.Forall_cons_2]. Qed.

Lemma keepalive_never_ends_quietly_witness :
  exists ret sent e', IEE_process [dead0 100; dead0 110; dead0 120] ka0 = Ok (ret, sent, e') /\ ret <> Some IEE_SUCCESS.
Proof.
  eexists _, _, _. split; [vm_compute; reflexivity|].
  eapply (keepalive_never_ends_quietly [dead0 100; dead0 110; dead0 120] ka0); [vm_compute; reflexivity| |done..].
  apply list.Forall_cons_2; [apply dead0_unstopped|]. apply list.Forall_cons_2; [apply dead0_unstopped|].
  apply list.Forall_cons_2; [apply dead0_unstopped|by apply list.Forall_nil_2].
Defined.
