(* ===== verification/KeepAlive.v ===== *)
(** * The keep-alive and the tunnel loop of gogoc ([net_ka.c], [tsp_lease.c], [tsp_tun_mgt.c])

While a tunnel is up, [tspPerformTunnelLoop] polls a keep-alive thread, the
expiration of the lease and the request to stop.  The thread runs the echo
engine of [EchoEngine]; it shares with the loop the block of the keep-alive
and the block of the engine, which are part of the state here so that an
access after their release is a fault.  Each turn of the loop is one input:
what the thread did meanwhile, the clock, and whether the client was told to
stop.  Joining a thread twice, which has no defined behaviour, is modelled
as the fault [UseAfterFree]. *)

From Stdlib Require Import ZifyNat.
From stdpp Require Import base list numbers gmap.
From S2P Require Import Prelude Words TspClient EchoEngine.

(** ** Data *)

Inductive ka_ret_t := KA_ERROR | KA_SUCCESS.

Inductive ka_status_t :=
| KA_STAT_INVALID | KA_STAT_ONGOING | KA_STAT_FIN_SUCCESS | KA_STAT_FIN_TIMEOUT | KA_STAT_FIN_ERROR.

#[export] Instance ka_ret_t_eq_dec : EqDecision ka_ret_t.
Proof. solve_decision. Defined.
#[export] Instance ka_status_t_eq_dec : EqDecision ka_status_t.
Proof. solve_decision. Defined.

Definition KA_ECHO_REPLY_TIMEOUT : Z := 5000.
Definition KA_NUM_CONSEC_TIMEOUT : Z := 3.

(** [KA_ENGINE_PARMS]; the engine is a block of its own. *)
Record KA_ENGINE_PARMS := mk_KA_ENGINE_PARMS {
  ka_status : ka_status_t;
  p_echo_engine : bool;          (* is not null *)
}.

Inductive thread_state := NotStarted | Running | Exited | Joined.

#[export] Instance thread_state_eq_dec : EqDecision thread_state.
Proof. solve_decision. Defined.

(** What the loop and the thread share. *)
Record world := mk_world {
  w_ptr : bool;                      (* p_ka_engine of the loop is not null *)
  w_ka : option KA_ENGINE_PARMS;     (* its block, unless freed *)
  w_iee : option bool;               (* the block of the engine: eng_ongoing *)
  w_thread : thread_state;
}.

Definition world0 : world := mk_world false None None NotStarted.

Definition set_ptr (v : bool) (w : world) : world := mk_world v (w_ka w) (w_iee w) (w_thread w).
Definition set_ka (v : option KA_ENGINE_PARMS) (w : world) : world := mk_world (w_ptr w) v (w_iee w) (w_thread w).
Definition set_iee (v : option bool) (w : world) : world := mk_world (w_ptr w) (w_ka w) v (w_thread w).
Definition set_thread (v : thread_state) (w : world) : world := mk_world (w_ptr w) (w_ka w) (w_iee w) v.

Definition ka_block (w : world) : res KA_ENGINE_PARMS := Prelude.from_option UseAfterFree (w_ka w).
Definition iee_block (w : world) : res bool := Prelude.from_option UseAfterFree (w_iee w).

(** ** The thread *)

(** The status that [_ka_start_thread] stores. *)
Definition fin_status (ret : iee_ret_t) : ka_status_t :=
  match ret with
  | IEE_SUCCESS => KA_STAT_FIN_SUCCESS
  | IEE_GENERAL_ECHO_TIMEOUT => KA_STAT_FIN_TIMEOUT
  | _ => KA_STAT_FIN_ERROR
  end.

(** While it runs, the thread uses the engine; at the end it stores its
    status in the block of the keep-alive. *)
Definition thread_runs (w : world) : res world :=
  _ ← iee_block w;
  Ok w.

Definition _ka_start_thread (ret : iee_ret_t) (w : world) : res world :=
  _ ← iee_block w;
  k ← ka_block w;
  Ok (set_thread Exited (set_ka (Some (mk_KA_ENGINE_PARMS (fin_status ret) (p_echo_engine k))) w)).

(** What the thread did between two steps of the loop. *)
Definition thread_step (fin : option iee_ret_t) (w : world) : res world :=
  if bool_decide (w_thread w = Running) then
    match fin with Some ret => _ka_start_thread ret w | None => thread_runs w end
  else Ok w.

(** ** The keep-alive *)

(** [KA_init]; [malloc] and [iee] are the answers of the allocation and of
    [IEE_init].  On failure the block is freed through a copy of the pointer,
    and the pointer of the caller is left as it is. *)
Definition KA_init (malloc : bool) (iee : iee_ret_t) (w : world) : res (ka_ret_t * world) :=
  if w_ptr w then Ok (KA_ERROR, w) else
  if negb malloc then Ok (KA_ERROR, w) else
  let w := set_ptr true (set_ka (Some (mk_KA_ENGINE_PARMS KA_STAT_INVALID false)) w) in
  match iee with
  | IEE_SUCCESS =>
    Ok (KA_SUCCESS, set_iee (Some true) (set_ka (Some (mk_KA_ENGINE_PARMS KA_STAT_INVALID true)) w))
  | _ => Ok (KA_ERROR, set_ka None w)
  end.

(** [KA_start]; [fin] tells whether the thread ends before the status is set. *)
Definition KA_start (created : bool) (fin : option iee_ret_t) (w : world) : res (ka_ret_t * world) :=
  if negb (w_ptr w) then Ok (KA_ERROR, w) else
  _ ← ka_block w;
  if negb created then Ok (KA_ERROR, w) else
  w ← thread_step fin (set_thread Running w);
  k ← ka_block w;
  Ok (KA_SUCCESS, set_ka (Some (mk_KA_ENGINE_PARMS KA_STAT_ONGOING (p_echo_engine k))) w).

(** [KA_stop]; [last] is how the engine ends when it is told to stop. *)
Definition KA_stop (last : iee_ret_t) (w : world) : res (ka_ret_t * world) :=
  if negb (w_ptr w) then Ok (KA_ERROR, w) else
  k ← ka_block w;
  if negb (p_echo_engine k) then Ok (KA_ERROR, w) else
  _ ← iee_block w;
  let w := set_iee (Some false) w in
  match w_thread w with
  | Running => w ← _ka_start_thread last w; Ok (KA_SUCCESS, set_thread Joined w)
  | Exited => Ok (KA_SUCCESS, set_thread Joined w)
  | NotStarted => Ok (KA_ERROR, w)
  | Joined => Err UseAfterFree
  end.

Definition KA_qry_status (w : world) : res ka_status_t :=
  if negb (w_ptr w) then Ok KA_STAT_INVALID else k ← ka_block w; Ok (ka_status k).

Definition KA_destroy (w : world) : res (ka_ret_t * world) :=
  if negb (w_ptr w) then Ok (KA_ERROR, w) else
  k ← ka_block w;
  if negb (p_echo_engine k) then Ok (KA_ERROR, w) else
  _ ← iee_block w;
  Ok (KA_SUCCESS, set_ptr false (set_ka None (set_iee None w))).

(** ** Leases *)

(** [long] is 64 bits wide; [tv_sec] is the clock. *)
Definition to_long (x : Z) : Z := (x + 2 ^ 63) mod 2 ^ 64 - 2 ^ 63.

Definition tspLeaseGetExpTime (tv_sec tun_lifetime : Z) : Z := to_long (tv_sec + tun_lifetime).
Definition tspLeaseCheckExp (tv_sec tun_expiration : Z) : bool := tun_expiration <? tv_sec.

(** ** The loop *)

Record tunnel_loop_config := mk_tunnel_loop_config {
  ka_interval : Z;               (* seconds *)
  tun_lifetime : Z;
}.

Record loop_input := mk_loop_input {
  li_stop : bool;                (* tspCheckForStopOrWait *)
  li_finish : option iee_ret_t;  (* the engine ended by itself meanwhile *)
  li_last : iee_ret_t;           (* how it ends when it is stopped *)
  li_now : Z;                    (* the clock, in seconds *)
}.

(** The keep-alive part of a turn. *)
Definition loop_keepalive (i : loop_input) (w : world) : res (status_code * world) :=
  w ← (if li_stop i then r ← KA_stop (li_last i) w; Ok (snd r) else Ok w);
  st ← KA_qry_status w;
  match st with
  | KA_STAT_FIN_SUCCESS | KA_STAT_ONGOING => Ok (SUCCESS, w)
  | KA_STAT_FIN_ERROR | KA_STAT_INVALID => r ← KA_stop (li_last i) w; Ok (ERR_KEEPALIVE_ERROR, snd r)
  | KA_STAT_FIN_TIMEOUT => r ← KA_stop (li_last i) w; Ok (ERR_KEEPALIVE_TIMEOUT, snd r)
  end.

(** One turn: the status, whether the loop goes on, and the new state. *)
Definition loop_turn (c : tunnel_loop_config) (expiration : Z) (i : loop_input) (w : world) :
    res (status_code * bool * world) :=
  w ← thread_step (li_finish i) w;
  r ← (if 0 <? ka_interval c then loop_keepalive i w else Ok (SUCCESS, w));
  let '(status, w) := r in
  let status := if negb (expiration =? 0) && tspLeaseCheckExp (li_now i) expiration
                then ERR_TUN_LEASE_EXPIRED else status in
  Ok (status, bool_decide (status = SUCCESS) && negb (li_stop i), w).

(** The loop; [None] when the inputs end before it does. *)
Fixpoint tunnel_loop (c : tunnel_loop_config) (expiration : Z) (inputs : list loop_input) (w : world) :
    res (option status_code * world) :=
  match inputs with
  | [] => Ok (None, w)
  | i :: inputs =>
    r ← loop_turn c expiration i w;
    let '(status, again, w) := r in
    if (again : bool) then tunnel_loop c expiration inputs w else Ok (Some status, w)
  end.

(** The answers before the loop. *)
Record start_input := mk_start_input {
  ss_now : Z;
  ss_malloc : bool;
  ss_iee : iee_ret_t;
  ss_created : bool;
  ss_finish : option iee_ret_t;
}.

Definition loop_start (c : tunnel_loop_config) (s : start_input) : res (option status_code * world) :=
  if 0 <? ka_interval c then
    r ← KA_init (ss_malloc s) (ss_iee s) world0;
    let '(ret, w) := r in
    if negb (bool_decide (ret = KA_SUCCESS)) then Ok (Some ERR_KEEPALIVE_ERROR, w) else
    r ← KA_start (ss_created s) (ss_finish s) w;
    let '(ret, w) := r in
    if negb (bool_decide (ret = KA_SUCCESS)) then r ← KA_destroy w; Ok (Some ERR_KEEPALIVE_ERROR, snd r)
    else Ok (None, w)
  else Ok (None, world0).

Definition tspPerformTunnelLoop (c : tunnel_loop_config) (s : start_input) (inputs : list loop_input) :
    res (option status_code * world) :=
  let expiration := if tun_lifetime c =? 0 then 0 else tspLeaseGetExpTime (ss_now s) (tun_lifetime c) in
  r ← loop_start c s;
  match r with
  | (Some status, w) => Ok (Some status, w)
  | (None, w) =>
    r ← tunnel_loop c expiration inputs w;
    match r with
    | (Some status, w) =>
      if 0 <? ka_interval c then r ← KA_destroy w; Ok (Some status, snd r) else Ok (Some status, w)
    | (None, w) => Ok (None, w)
    end
  end.

(** ** Safety *)

(** The states of the loop: the thread runs, or ended with a status that the
    loop does not act upon. *)
Definition loop_inv (w : world) : Prop :=
  w_ptr w = true /\ (exists b, w_iee w = Some b) /\
  exists st, w_ka w = Some (mk_KA_ENGINE_PARMS st true) /\
    ((w_thread w = Running /\ st = KA_STAT_ONGOING) \/
     (w_thread w = Exited /\ (st = KA_STAT_ONGOING \/ st = KA_STAT_FIN_SUCCESS))).

(** Both blocks are there and the thread was joined: destroying is safe. *)
Definition stopped (w : world) : Prop :=
  w_ptr w = true /\ (exists b, w_iee w = Some b) /\ (exists st, w_ka w = Some (mk_KA_ENGINE_PARMS st true)) /\
  w_thread w = Joined.

(** Nothing is left: no block, and no thread that could use one. *)
Definition released (w : world) : Prop :=
  w_ka w = None /\ w_iee w = None /\ (w_thread w = NotStarted \/ w_thread w = Joined).

(** The engine ends without an error when the client asks it to. *)
Definition clean_stop (i : loop_input) : Prop :=
  li_stop i = true -> li_last i = IEE_SUCCESS /\ (li_finish i = None \/ li_finish i = Some IEE_SUCCESS).

Lemma stop_running_or_exited last w :
  w_ptr w = true -> (exists b, w_iee w = Some b) ->
  (exists st, w_ka w = Some (mk_KA_ENGINE_PARMS st true)) -> w_thread w = Running \/ w_thread w = Exited ->
  exists w', KA_stop last w = Ok (KA_SUCCESS, w') /\ stopped w' /\
    w_ka w' = if bool_decide (w_thread w = Running)
              then Some (mk_KA_ENGINE_PARMS (fin_status last) true) else w_ka w.
Proof.
  intros Hp [b Hb] [st Hk] Ht. unfold KA_stop, ka_block, iee_block. rewrite Hp, Hk. cbn [negb Prelude.from_option mbind res_bind p_echo_engine].
  rewrite Hb. cbn [Prelude.from_option mbind res_bind w_thread set_iee]. destruct Ht as [-> | ->].
  - unfold _ka_start_thread, iee_block, ka_block. cbn [w_iee set_iee w_ka]. rewrite Hk. cbn [Prelude.from_option mbind res_bind p_echo_engine].
    eexists. split; [done|]. rewrite bool_decide_eq_true_2 by done. split; [|done]. split_and!; cbn; eauto.
  - eexists. split; [done|]. rewrite bool_decide_eq_false_2 by done. split; [|done]. split_and!; cbn; eauto.
Qed.

Lemma destroy_stopped w : stopped w -> exists w', KA_destroy w = Ok (KA_SUCCESS, w') /\ released w'.
Proof.
  intros (Hp & [b Hb] & [st Hk] & Ht). unfold KA_destroy, ka_block, iee_block. rewrite Hp, Hk.
  cbn [negb Prelude.from_option mbind res_bind p_echo_engine]. rewrite Hb. cbn [Prelude.from_option mbind res_bind].
  eexists. split; [done|]. split_and!; cbn; auto.
Qed.

(** After the thread's step: the loop's state, with any final status. *)
Definition polled (i : loop_input) (w : world) : Prop :=
  w_ptr w = true /\ (exists b, w_iee w = Some b) /\
  exists st, w_ka w = Some (mk_KA_ENGINE_PARMS st true) /\
    ((w_thread w = Running /\ st = KA_STAT_ONGOING /\ li_finish i = None) \/
     (w_thread w = Exited /\ (st = KA_STAT_ONGOING \/ st = KA_STAT_FIN_SUCCESS \/
        exists ret, li_finish i = Some ret /\ st = fin_status ret))).

Lemma thread_step_polled i w : loop_inv w -> exists w', thread_step (li_finish i) w = Ok w' /\ polled i w'.
Proof.
  intros (Hp & [b Hb] & st & Hk & Ht). unfold thread_step. destruct Ht as [[Ht ->]|[Ht Hst]]; rewrite Ht.
  - rewrite bool_decide_eq_true_2 by done. destruct (li_finish i) as [ret|] eqn:E.
    + unfold _ka_start_thread, iee_block, ka_block. rewrite Hb, Hk. cbn [Prelude.from_option mbind res_bind p_echo_engine].
      eexists. split; [done|]. split_and!; cbn; eauto. eexists. split; [done|]. right. split; [done|]. right. right. by eauto.
    + unfold thread_runs, iee_block. rewrite Hb. cbn [Prelude.from_option mbind res_bind]. eexists. split; [done|].
      split_and!; eauto. eexists. split; [done|]. left. done.
  - rewrite bool_decide_eq_false_2 by done. eexists. split; [done|]. split_and!; eauto. exists st. split; [done|]. right.
    split; [done|]. tauto.
Qed.

Lemma loop_keepalive_ok i w :
  polled i w -> clean_stop i ->
  exists status w', loop_keepalive i w = Ok (status, w') /\
    (if bool_decide (status = SUCCESS) && negb (li_stop i) then loop_inv w' else stopped w') /\
    (status = SUCCESS \/
     status = ERR_KEEPALIVE_TIMEOUT /\ li_finish i = Some IEE_GENERAL_ECHO_TIMEOUT \/
     status = ERR_KEEPALIVE_ERROR /\ exists ret, li_finish i = Some ret /\ ret <> IEE_SUCCESS /\ ret <> IEE_GENERAL_ECHO_TIMEOUT).
Proof.
  intros (Hp & [b Hb] & st & Hk & Ht) Hc. unfold loop_keepalive.
  assert (w_thread w = Running \/ w_thread w = Exited) as Hth by tauto.
  destruct (stop_running_or_exited (li_last i) w Hp ltac:(eauto) ltac:(eauto) Hth) as (w' & Es & Hs & Hk').
  destruct (li_stop i) eqn:Estop.
  - destruct (Hc Estop) as [Hl Hf]. rewrite Es. cbn [mbind res_bind snd].
    assert (exists st', w_ka w' = Some (mk_KA_ENGINE_PARMS st' true) /\ (st' = KA_STAT_FIN_SUCCESS \/ st' = KA_STAT_ONGOING)) as (st' & Hk2 & Hst').
    { rewrite Hk'. destruct Ht as [(-> & -> & _)|(-> & Hst)].
      - rewrite bool_decide_eq_true_2, Hl by done. by eauto.
      - rewrite bool_decide_eq_false_2 by done. exists st. split; [done|]. destruct Hst as [->|[->|(ret & E & ->)]]; [tauto|tauto|].
        destruct Hf as [Hf|Hf]; rewrite E in Hf; [done|]. injection Hf as ->. by left. }
    pose proof Hs as (Hp' & _). unfold KA_qry_status, ka_block. rewrite Hp', Hk2. cbn [negb Prelude.from_option mbind res_bind KeepAlive.ka_status].
    destruct Hst' as [-> | ->]; exists SUCCESS, w'; (split; [done|]); by rewrite andb_false_r; split; [|left].
  - cbn [mbind res_bind]. unfold KA_qry_status, ka_block. rewrite Hp, Hk. cbn [negb Prelude.from_option mbind res_bind KeepAlive.ka_status].
    destruct (decide (st = KA_STAT_ONGOING \/ st = KA_STAT_FIN_SUCCESS)) as [Hgo|Hno].
    + exists SUCCESS, w. split; [by destruct Hgo as [-> | ->]|]. rewrite bool_decide_eq_true_2 by done. cbn [negb andb].
      split; [|by left]. split_and!; eauto. exists st. split; [done|]. destruct Ht as [(? & ? & _)|(? & _)]; tauto.
    + destruct Ht as [(_ & -> & _)|(_ & [->|[->|(ret & E & ->)]])]; [tauto..|].
      destruct (decide (ret = IEE_GENERAL_ECHO_TIMEOUT)) as [->|Hne]; cbn [fin_status].
      * rewrite Es. exists ERR_KEEPALIVE_TIMEOUT, w'. split; [done|]. rewrite bool_decide_eq_false_2 by done. split; [done|]. tauto.
      * assert (fin_status ret = KA_STAT_FIN_ERROR) as -> by (destruct ret; cbn in *; tauto).
        rewrite Es. exists ERR_KEEPALIVE_ERROR, w'. split; [done|]. rewrite bool_decide_eq_false_2 by done.
        split; [done|]. right. right. split; [done|]. exists ret. split_and!; try done. intros ->. tauto.
Qed.

(** Why the loop ended. *)
Definition reason (c : tunnel_loop_config) (expiration : Z) (inputs : list loop_input) (status : status_code) : Prop :=
  match status with
  | SUCCESS => exists i, i ∈ inputs /\ li_stop i = true
  | ERR_KEEPALIVE_TIMEOUT => exists i, i ∈ inputs /\ li_finish i = Some IEE_GENERAL_ECHO_TIMEOUT
  | ERR_KEEPALIVE_ERROR => exists i ret, i ∈ inputs /\ li_finish i = Some ret /\ ret <> IEE_SUCCESS
  | ERR_TUN_LEASE_EXPIRED => tun_lifetime c <> 0 /\ exists i, i ∈ inputs /\ expiration < li_now i
  | _ => False
  end.

Lemma reason_cons c ex i inputs status : reason c ex inputs status -> reason c ex (i :: inputs) status.
Proof.
  destruct status; cbn; try done.
  - intros (j & Hj & ?). exists j. split; [by right|done].
  - intros (j & ret & Hj & ?). exists j, ret. split; [by right|done].
  - intros (j & Hj & ?). exists j. split; [by right|done].
  - intros (? & j & Hj & ?). split; [done|]. exists j. split; [by right|done].
Qed.

Lemma keepalive_loop_ok c inputs w :
  0 < ka_interval c -> loop_inv w -> Forall clean_stop inputs ->
  exists ret w', tunnel_loop c 0 inputs w = Ok (ret, w') /\
    match ret with
    | Some status => stopped w' /\ reason c 0 inputs status
    | None => loop_inv w'
    end.
Proof.
  intros Hka. revert w. induction inputs as [|i inputs IH]; intros w Hi Hc; cbn [tunnel_loop].
  { by exists None, w. }
  apply list.Forall_cons in Hc as [Hc1 Hc]. unfold loop_turn.
  destruct (thread_step_polled i w Hi) as (w1 & -> & Hp). cbn [mbind res_bind].
  destruct (Z.ltb_spec 0 (ka_interval c)); [|lia].
  destruct (loop_keepalive_ok i w1 Hp Hc1) as (status & w2 & -> & Hw & Hst). cbn [mbind res_bind Z.eqb negb andb].
  destruct (bool_decide (status = SUCCESS) && negb (li_stop i)) eqn:Eb.
  - destruct (IH w2 Hw Hc) as (ret & w' & -> & Hret). exists ret, w'. split; [done|].
    destruct ret; [|done]. destruct Hret. split; [done|]. by apply reason_cons.
  - exists (Some status), w2. split; [done|]. split; [done|].
    destruct Hst as [->|[[-> E]|[-> (ret & E & ? & _)]]]; cbn [reason].
    + exists i. split; [by left|]. rewrite bool_decide_eq_true_2 in Eb by done. cbn in Eb. by destruct (li_stop i).
    + exists i. split; [by left|done].
    + exists i, ret. split; [by left|done].
Qed.

Lemma lease_loop_ok c ex inputs w :
  ka_interval c <= 0 -> (ex <> 0 -> tun_lifetime c <> 0) -> w_thread w = NotStarted ->
  exists ret, tunnel_loop c ex inputs w = Ok (ret, w) /\
    match ret with Some status => reason c ex inputs status | None => True end.
Proof.
  intros Hka Hex Ht. induction inputs as [|i inputs IH]; cbn [tunnel_loop]; [by exists None|].
  unfold loop_turn, thread_step. rewrite Ht. rewrite bool_decide_eq_false_2 by done. cbn [mbind res_bind].
  destruct (Z.ltb_spec 0 (ka_interval c)); [lia|]. cbn [mbind res_bind].
  destruct (negb (ex =? 0) && tspLeaseCheckExp (li_now i) ex) eqn:El.
  - rewrite bool_decide_eq_false_2 by done. cbn [andb]. exists (Some ERR_TUN_LEASE_EXPIRED). split; [done|]. cbn.
    unfold tspLeaseCheckExp in El. reflect_bools. split; [by apply Hex|]. exists i. split; [by left|done].
  - rewrite bool_decide_eq_true_2 by done. cbn [andb]. destruct (li_stop i) eqn:Es; cbn [negb].
    + exists (Some SUCCESS). split; [done|]. exists i. split; [by left|done].
    + destruct IH as (ret & -> & Hr). exists ret. split; [done|]. destruct ret; [by apply reason_cons|done].
Qed.

(** The start of the keep-alive: it runs, or everything was released. *)
Lemma loop_start_ok c s :
  0 < ka_interval c ->
  exists ret w, loop_start c s = Ok (ret, w) /\
    match ret with Some status => status = ERR_KEEPALIVE_ERROR /\ released w | None => loop_inv w end.
Proof.
  intros Hka. unfold loop_start. destruct (Z.ltb_spec 0 (ka_interval c)); [|lia].
  destruct s as [now malloc iee created fin]. cbn [ss_malloc ss_iee ss_created ss_finish].
  destruct malloc; [|eexists _, _; split; [reflexivity|]; split; [done|]; split_and!; auto].
  destruct (decide (iee = IEE_SUCCESS)) as [->|Hne].
  2:{ eexists _, _. split; [by destruct iee; [done|reflexivity..]|]. cbn. split; [done|]. split_and!; auto. }
  destruct created; [|eexists _, _; split; [reflexivity|]; split; [done|]; split_and!; auto].
  destruct fin as [ret|]; eexists _, _; (split; [reflexivity|]); (split_and!; cbn; eauto);
    eexists; (split; [reflexivity|]); tauto.
Qed.

(** The loop from its start to its end; what the loop of the tunnel and the
    session of the platform share. *)
Lemma tspPerformTunnelLoop_ok c s inputs :
  (ka_interval c <= 0 \/ tun_lifetime c = 0) -> Forall clean_stop inputs ->
  let expiration := if tun_lifetime c =? 0 then 0 else tspLeaseGetExpTime (ss_now s) (tun_lifetime c) in
  exists ret w, tspPerformTunnelLoop c s inputs = Ok (ret, w) /\
    forall status, ret = Some status ->
      released w /\ (reason c expiration inputs status \/ status = ERR_KEEPALIVE_ERROR).
Proof.
  intros Hcase Hc expiration. unfold tspPerformTunnelLoop. fold expiration.
  destruct (Z.lt_ge_cases 0 (ka_interval c)) as [Hka|Hka].
  - destruct Hcase as [|Hlt]; [lia|].
    destruct (loop_start_ok c s Hka) as (ret & w & -> & Hret). cbn [mbind res_bind].
    destruct ret as [status|].
    + destruct Hret as [-> Hr]. eexists _, _. split; [done|]. intros status [= <-]. by auto.
    + assert (expiration = 0) as -> by (subst expiration; by rewrite Hlt).
      destruct (keepalive_loop_ok c inputs w Hka Hret Hc) as (ret & w' & -> & Hw'). cbn [mbind res_bind].
      destruct ret as [status|]; [|by eexists _, _].
      destruct (Z.ltb_spec 0 (ka_interval c)); [|lia]. destruct Hw' as [Hs Hr].
      destruct (destroy_stopped w' Hs) as (w2 & -> & Hrel). cbn [mbind res_bind snd].
      eexists _, _. split; [done|]. intros status' [= <-]. by auto.
  - unfold loop_start. destruct (Z.ltb_spec 0 (ka_interval c)); [lia|]. cbn [mbind res_bind].
    destruct (lease_loop_ok c expiration inputs world0 Hka) as (ret & -> & Hr); [|done|].
    { subst expiration. destruct (Z.eqb_spec (tun_lifetime c) 0); [done|]. by intros _. }
    cbn [mbind res_bind]. destruct ret as [status|]; [|by eexists _, _].
    eexists _, _. split; [done|]. intros status' [= <-]. split; [|by auto]. split_and!; auto.
Qed.

(** (C22) The tunnel loop is safe when the keep-alive is used without a lease (or a
    lease without the keep-alive) and the engine stops without an error when
    it is told to: whatever the thread does and whenever it ends, no block is
    used after its release, and when the loop returns, the thread is gone,
    every block is freed, and the status tells what ended the tunnel. *)
Theorem tunnel_loop_safe c s inputs :
  (ka_interval c <= 0 \/ tun_lifetime c = 0) -> Forall clean_stop inputs ->
  let expiration := if tun_lifetime c =? 0 then 0 else tspLeaseGetExpTime (ss_now s) (tun_lifetime c) in
  exists ret w, tspPerformTunnelLoop c s inputs = Ok (ret, w) /\
    forall status, ret = Some status ->
      released w /\ (reason c expiration inputs status \/ status = ERR_KEEPALIVE_ERROR).
Proof. apply tspPerformTunnelLoop_ok. Qed.

(** ** Flaws *)

(** When the lease expires the thread is not stopped: the loop frees the
    blocks under a thread that still runs, and its next access is a use of
    freed memory. *)
Theorem lease_expiry_frees_running_engine c s i :
  0 < ka_interval c -> tun_lifetime c <> 0 ->
  ss_malloc s = true -> ss_iee s = IEE_SUCCESS -> ss_created s = true -> ss_finish s = None ->
  li_stop i = false -> li_finish i = None ->
  tspLeaseGetExpTime (ss_now s) (tun_lifetime c) <> 0 ->
  tspLeaseGetExpTime (ss_now s) (tun_lifetime c) < li_now i ->
  exists w, tspPerformTunnelLoop c s [i] = Ok (Some ERR_TUN_LEASE_EXPIRED, w) /\ w_thread w = Running /\
    thread_runs w = Err UseAfterFree /\ forall ret, _ka_start_thread ret w = Err UseAfterFree.
Proof.
  intros Hka Hlt Hm Hi Hcr Hf Hs Hfi Hex Hnow. unfold tspPerformTunnelLoop.
  destruct (Z.eqb_spec (tun_lifetime c) 0); [done|]. set (ex := tspLeaseGetExpTime _ _) in *.
  unfold loop_start. destruct (Z.ltb_spec 0 (ka_interval c)); [|lia]. rewrite Hm, Hi, Hcr, Hf.
  cbn [tunnel_loop]. unfold loop_turn, loop_keepalive. rewrite Hs, Hfi. destruct (Z.ltb_spec 0 (ka_interval c)); [|lia].
  unfold tspLeaseCheckExp. destruct (Z.eqb_spec ex 0); [done|]. destruct (Z.ltb_spec ex (li_now i)); [|lia].
  eexists. split; [reflexivity|]. done.
Qed.

(** A client that is told to stop just when the keep-alive has failed joins
    the thread twice. *)
Theorem stop_after_failure_joins_twice c ex i inputs w ret :
  0 < ka_interval c -> loop_inv w -> w_thread w = Running ->
  li_stop i = true -> li_finish i = Some ret -> ret <> IEE_SUCCESS ->
  tunnel_loop c ex (i :: inputs) w = Err UseAfterFree.
Proof.
  intros Hka (Hp & [b Hb] & st & Hk & Hw) Hr Hs Hf Hne. cbn [tunnel_loop]. unfold loop_turn.
  destruct w as [ptr ka iee th]. cbn in Hp, Hb, Hk, Hr. subst. destruct (Z.ltb_spec 0 (ka_interval c)); [|lia].
  unfold loop_keepalive. rewrite Hs, Hf. destruct (li_last i), ret; first [done|reflexivity].
Qed.

(** A keep-alive that ends before [KA_start] has set its status is never
    noticed: the loop keeps polling a status that says it is ongoing. *)
Theorem early_finish_is_forgotten c s inputs ret :
  0 < ka_interval c -> tun_lifetime c = 0 ->
  ss_malloc s = true -> ss_iee s = IEE_SUCCESS -> ss_created s = true -> ss_finish s = Some ret ->
  Forall (fun i => li_stop i = false) inputs ->
  exists w, tspPerformTunnelLoop c s inputs = Ok (None, w) /\ w_thread w = Exited.
Proof.
  intros Hka Hlt Hm Hi Hcr Hf Hall. unfold tspPerformTunnelLoop. rewrite Hlt. cbn [Z.eqb].
  set (w := mk_world true (Some (mk_KA_ENGINE_PARMS KA_STAT_ONGOING true)) (Some true) Exited).
  assert (loop_start c s = Ok (None, w)) as ->.
  { unfold loop_start. destruct (Z.ltb_spec 0 (ka_interval c)); [|lia]. by rewrite Hm, Hi, Hcr, Hf. }
  assert (tunnel_loop c 0 inputs w = Ok (None, w)) as E.
  { induction Hall as [|i inputs Hs _ IH]; [done|]. cbn [tunnel_loop]. unfold loop_turn, loop_keepalive. rewrite Hs.
    destruct (Z.ltb_spec 0 (ka_interval c)); [|lia]. exact IH. }
  cbn [mbind res_bind]. rewrite E. by exists w.
Qed.

(** ** Witnesses *)

Definition start0 (fin : option iee_ret_t) : start_input := mk_start_input 1000 true IEE_SUCCESS true fin.
Definition turn0 (stop : bool) (fin : option iee_ret_t) (now : Z) : loop_input := mk_loop_input stop fin IEE_SUCCESS now.

Lemma tunnel_loop_safe_witness :
  exists ret w, tspPerformTunnelLoop (mk_tunnel_loop_config 30 0) (start0 None)
      [turn0 false None 1001; turn0 true None 1002] = Ok (ret, w) /\
    forall status, ret = Some status ->
      released w /\ (reason (mk_tunnel_loop_config 30 0) 0 [turn0 false None 1001; turn0 true None 1002] status \/
                     status = ERR_KEEPALIVE_ERROR).
Proof.
  apply (tunnel_loop_safe (mk_tunnel_loop_config 30 0) (start0 None) [turn0 false None 1001; turn0 true None 1002]).
  - by right.
  - repeat constructor; done.
Defined.

Lemma lease_expiry_frees_running_engine_witness :
  exists w, tspPerformTunnelLoop (mk_tunnel_loop_config 30 600) (start0 None) [turn0 false None 1601] =
      Ok (Some ERR_TUN_LEASE_EXPIRED, w) /\ w_thread w = Running /\
    thread_runs w = Err UseAfterFree /\ forall ret, _ka_start_thread ret w = Err UseAfterFree.
Proof.
  apply (lease_expiry_frees_running_engine (mk_tunnel_loop_config 30 600) (start0 None) (turn0 false None 1601));
    first [done|cbn; lia|vm_compute; lia|vm_compute; congruence].
Defined.

Lemma stop_after_failure_joins_twice_witness :
  tunnel_loop (mk_tunnel_loop_config 30 0) 0 [turn0 true (Some IEE_GENERAL_ECHO_ERROR) 1001]
    (mk_world true (Some (mk_KA_ENGINE_PARMS KA_STAT_ONGOING true)) (Some true) Running) = Err UseAfterFree.
Proof.
  apply (stop_after_failure_joins_twice (mk_tunnel_loop_config 30 0) 0 (turn0 true (Some IEE_GENERAL_ECHO_ERROR) 1001) []
    (mk_world true (Some (mk_KA_ENGINE_PARMS KA_STAT_ONGOING true)) (Some true) Running) IEE_GENERAL_ECHO_ERROR);
    try done. split_and!; [done|by eexists|]. eexists. split; [reflexivity|]. by left.
Defined.

Lemma early_finish_is_forgotten_witness :
  exists w, tspPerformTunnelLoop (mk_tunnel_loop_config 30 0) (start0 (Some IEE_GENERAL_ECHO_ERROR)) [turn0 false None 1001] =
      Ok (None, w) /\ w_thread w = Exited.
Proof.
  apply (early_finish_is_forgotten (mk_tunnel_loop_config 30 0) (start0 (Some IEE_GENERAL_ECHO_ERROR)) [turn0 false None 1001]
    IEE_GENERAL_ECHO_ERROR); first [done|cbn; lia|by repeat constructor].
Defined.
