(* ===== verification/Packets.v ===== *)
(** * Packets sent and checked by relays and clients ([packets.c], [packets.h])

Bubbles, router solicitations and advertisements, the authenticated echo
requests of the direct connectivity test and ICMPv6 errors. *)

From stdpp Require Import base gmap list numbers.
From S2P Require Import Prelude Words Addr Md5 Security Udp.

Definition ND_ROUTER_SOLICIT : Z := 133.
Definition ND_ROUTER_ADVERT : Z := 134.
Definition ND_OPT_PREFIX_INFORMATION : Z := 3.
Definition ND_OPT_MTU : Z := 5.
Definition ICMP6_DST_UNREACH : Z := 1.
Definition ICMP6_ECHO_REQUEST : Z := 128.
Definition ICMP6_ECHO_REPLY : Z := 129.

Definition sizeof_ip6_hdr : Z := 40.
Definition sizeof_icmp6_hdr : Z := 8.
Definition sizeof_nd_router_solicit : Z := 8.
Definition sizeof_nd_router_advert : Z := 16.
Definition sizeof_nd_opt_prefix_info : Z := 32.
Definition PING_PAYLOAD : Z := Z.of_nat LIBTEREDO_HMAC_LEN - 4.

(** [htonl (0x60000000)] as stored in the flow label word. *)
Definition ip6_flow_v6 : list Z := le_split 4 (htonl 0x60000000).

Definition IsBubble (h : ip6_hdr) : bool :=
  (ip6_plen h =? 0) && (ip6_nxt h =? IPPROTO_NONE).

(** ** Bubbles *)

Definition bubble_head : list Z := [0x60; 0; 0; 0; 0; 0; 0x3b; 0].

(** The interface identifier derived from a mapping: the nonce with the
    universal and group bits cleared. *)
Definition bubble_iid (k : hmac_state) (ip port : Z) : list Z :=
  match teredo_get_nonce k 0 ip port with
  | b :: nonce => Z.land b 0xfc :: nonce
  | [] => []
  end.

Section bubbles.
Context `{Env} (k : hmac_state).

Definition teredo_send_bubble_anyway (fd ip port : Z) (src dst : in6_addr) : st world Z :=
  r ← teredo_sendv fd [bubble_head; src; dst] ip port;
  mret (if r =? 40 then 0 else -1).

Definition teredo_send_bubble (fd ip port : Z) (src dst : in6_addr) : st world Z :=
  if is_ipv4_global_unicast ip then teredo_send_bubble_anyway fd ip port src dst
  else mret 0.

Definition SendBubbleFromDst (fd : Z) (dst : in6_addr) (indirect : bool) : st world Z :=
  let ip := IN6_TEREDO_IPV4 dst in
  let port := IN6_TEREDO_PORT dst in
  let src := [0xfe; 0x80; 0; 0; 0; 0; 0; 0] ++ bubble_iid k ip port in
  if indirect
  then teredo_send_bubble fd (IN6_TEREDO_SERVER dst) (htons IPPORT_TEREDO) src dst
  else teredo_send_bubble fd ip port src dst.

Definition teredo_reply_bubble (fd ip port : Z) (req : ip6_hdr) : st world Z :=
  teredo_send_bubble fd ip port (ip6_dst req) (ip6_src req).
End bubbles.

Definition CheckBubble (k : hmac_state) (packet : teredo_packet) : res Z :=
  h ← get_ip6 (ip6 packet);
  let it := ip6_src h in
  let hash := bubble_iid k (IN6_TEREDO_IPV4 it) (IN6_TEREDO_PORT it) in
  Ok (if mem_eqb hash (drop 8 (ip6_dst h)) then 0 else -1).

(** ** Router solicitation and advertisement *)

Definition rs_header (cone : bool) : ip6_hdr := {|
  ip6_flow := ip6_flow_v6;
  ip6_plen := htons 8;
  ip6_nxt := IPPROTO_ICMPV6;
  ip6_hlim := 255;
  ip6_src := if cone then teredo_cone else teredo_restrict;
  ip6_dst := in6addr_allrouters;
|}.

Definition rs_body (cksum : Z) : list Z :=
  [ND_ROUTER_SOLICIT; 0] ++ le_split 2 cksum ++ [0; 0; 0; 0].

(** The checksums are pre-computed. *)
Definition rs_cksum (cone : bool) : Z := if cone then htons 0x125d else htons 0x7d37.

Definition teredo_send_rs `{Env} (fd server_ip : Z) (nonce : list Z) (cone : bool) : st world Z :=
  let auth := [0; 1; 0; 0] ++ nonce ++ [0] in
  let rs := put_ip6 (rs_header cone) ++ rs_body (rs_cksum cone) in
  r ← teredo_sendv fd [auth; rs] server_ip (htons IPPORT_TEREDO);
  mret (if 0 <? r then 0 else -1).

Definition set_server_ip (s : Z) (t : teredo_addr) : teredo_addr :=
  mk_teredo_addr (prefix t) s (flags t) (client_port t) (client_ip t).
Definition set_prefix (p : Z) (t : teredo_addr) : teredo_addr :=
  mk_teredo_addr p (server_ip t) (flags t) (client_port t) (client_ip t).

(** The loop over the options of a router advertisement, from offset [off] of
    the IPv6 packet with [length] bytes left.  The boolean is false on a
    failure return; the address written so far is part of the result because
    it belongs to the caller. *)
Fixpoint ra_options (fuel : nat) (b : list Z) (off : nat) (length : Z)
    (newaddr : teredo_addr) (net_mtu : Z) : res (bool * teredo_addr * Z) :=
  if length <? 8 then Ok (true, newaddr, net_mtu) else
  match fuel with
  | O => Err OutOfFuel
  | S fuel =>
    len8 ← rd8 (off + 1) b;
    let optlen := Z.shiftl len8 3 in
    if (length <? optlen) || (optlen =? 0) then Ok (false, newaddr, net_mtu) else
    type ← rd8 off b;
    let next := ra_options fuel b (off + Z.to_nat optlen) (length - optlen) in
    if type =? ND_OPT_PREFIX_INFORMATION then
      if optlen <? sizeof_nd_opt_prefix_info then Ok (false, newaddr, net_mtu) else
      plen ← rd8 (off + 2) b;
      if negb (plen =? 64) then Ok (false, newaddr, net_mtu) else
      if negb (server_ip newaddr =? 0) then Ok (false, newaddr, net_mtu) else
      pi ← slice (off + 16) 8 b;
      next (set_prefix (le_load (take 4 pi)) (set_server_ip (le_load (drop 4 pi)) newaddr)) net_mtu
    else if type =? ND_OPT_MTU then
      mo ← rd32 (off + 4) b;
      let net_mtu := ntohl mo in
      if (net_mtu <? 1280) || (65535 <? net_mtu) then Ok (false, newaddr, net_mtu)
      else next newaddr net_mtu
    else next newaddr net_mtu
  end.

(** After the options: prefix checks and the final address. *)
Definition ra_finish (packet : teredo_packet) (cone : bool) (newaddr : teredo_addr)
    (net_mtu mtu : Z) : bool * teredo_addr * Z :=
  let newaddr := if prefix newaddr =? htonl TEREDO_PREFIX_OBSOLETE
                 then set_prefix (htonl TEREDO_PREFIX) newaddr else newaddr in
  if negb (is_valid_teredo_prefix (prefix newaddr)) then (false, newaddr, mtu) else
  (true,
   {| prefix := prefix newaddr; server_ip := server_ip newaddr;
      flags := if cone then htons TEREDO_FLAG_CONE else 0;
      client_port := unot 16 (orig_port packet);
      client_ip := unot 32 (orig_ipv4 packet) |},
   if negb (net_mtu =? 0) then wrap 16 net_mtu else mtu).

(** Returns success, and the new values of [newaddr] and [mtu]. *)
Definition teredo_parse_ra (packet : teredo_packet) (newaddr : teredo_addr) (cone : bool)
    (mtu : Z) : res (bool * teredo_addr * Z) :=
  if orig_ipv4 packet =? 0 then Ok (false, newaddr, mtu) else
  h ← get_ip6 (ip6 packet);
  let length := ntohs (ip6_plen h) in
  if negb (IN6_ARE_ADDR_EQUAL (ip6_dst h) (if cone then teredo_cone else teredo_restrict))
     || negb (ip6_nxt h =? IPPROTO_ICMPV6)
     || (length <? sizeof_nd_router_advert)
  then Ok (false, newaddr, mtu) else
  type ← rd8 40 (ip6 packet);
  code ← rd8 41 (ip6 packet);
  let length := length - sizeof_nd_router_advert in
  if negb (type =? ND_ROUTER_ADVERT) || negb (code =? 0)
     || (length <? sizeof_nd_opt_prefix_info)
  then Ok (false, newaddr, mtu) else
  '(ok, newaddr, net_mtu) ←
     ra_options (Z.to_nat length) (ip6 packet) 56 length (set_server_ip 0 newaddr) 0;
  if (ok : bool) then Ok (ra_finish packet cone newaddr net_mtu mtu)
  else Ok (false, newaddr, mtu).

(** ** Direct IPv6 connectivity test *)

Definition ping_header (src dst : in6_addr) : ip6_hdr := {|
  ip6_flow := ip6_flow_v6;
  ip6_plen := htons (sizeof_icmp6_hdr + PING_PAYLOAD);
  ip6_nxt := IPPROTO_ICMPV6;
  ip6_hlim := 128;
  ip6_src := src;
  ip6_dst := dst;
|}.

(** The echo request: header, type, code, checksum, then the hash, which
    starts at the identifier field. *)
Definition ping_icmp6 (cksum : Z) (hash : list Z) : list Z :=
  [ICMP6_ECHO_REQUEST; 0] ++ le_split 2 cksum ++ hash.

Definition ping_packet (k : hmac_state) (now : Z) (src dst : in6_addr) : list Z :=
  let h := ping_header src dst in
  let hash := teredo_get_pinghash k now src dst in
  let cksum := icmp6_checksum h (ping_icmp6 0 hash) in
  put_ip6 h ++ ping_icmp6 cksum hash.

Definition SendPing `{Env} (k : hmac_state) (fd : Z) (src : teredo_addr) (dst : in6_addr)
    : st world Z :=
  now ← ask env_time;
  r ← teredo_send fd (ping_packet k now (ip6_of src) dst)
        (IN6_TEREDO_SERVER (ip6_of src)) (htons IPPORT_TEREDO);
  mret (if 0 <? r then 0 else -1).

(** The test of the echo request quoted by an unreachable error: [None] when
    the packet is rejected. *)
Definition check_quoted_ping (b : list Z) (length : Z) (me it : in6_addr)
    : res (option (in6_addr * in6_addr)) :=
  let length := length - sizeof_icmp6_hdr in
  if length <? sizeof_ip6_hdr + sizeof_icmp6_hdr + PING_PAYLOAD then Ok None else
  h ← get_ip6 (drop 48 b);
  if negb (ip6_nxt h =? IPPROTO_ICMPV6) then Ok None else
  if negb (ntohs (ip6_plen h) =? sizeof_icmp6_hdr + PING_PAYLOAD) then Ok None else
  type ← rd8 88 b;
  if negb (IN6_ARE_ADDR_EQUAL (ip6_src h) me) || negb (type =? ICMP6_ECHO_REQUEST)
  then Ok None else
  if negb (IN6_ARE_ADDR_EQUAL (ip6_dst h) it) then Ok None else
  Ok (Some (ip6_src h, ip6_dst h)).

(** The final checks on the ICMPv6 header at offset [off]. *)
Definition check_ping_hash (k : hmac_state) (now : Z) (b : list Z) (off : nat)
    (me it : in6_addr) : res Z :=
  code ← rd8 (off + 1) b;
  if negb (code =? 0) then Ok (-1) else
  hash ← slice (off + 4) LIBTEREDO_HMAC_LEN b;
  Ok (teredo_verify_pinghash k now me it hash).

Definition CheckPing (k : hmac_state) (now : Z) (packet : teredo_packet) : res Z :=
  let b := ip6 packet in
  h ← get_ip6 b;
  let length := ntohs (ip6_plen h) in
  if negb (ip6_nxt h =? IPPROTO_ICMPV6) || (length <? sizeof_icmp6_hdr + PING_PAYLOAD)
  then Ok (-1) else
  type ← rd8 40 b;
  if type =? ICMP6_DST_UNREACH then
    quoted ← check_quoted_ping b length (ip6_dst h) (ip6_src h);
    match quoted with
    | None => Ok (-1)
    | Some (me, it) => check_ping_hash k now b 88 me it
    end
  else if negb (type =? ICMP6_ECHO_REPLY) then Ok (-1)
  else check_ping_hash k now b 40 (ip6_dst h) (ip6_src h).

(** ** ICMPv6 errors *)

(** The bytes of the error message; empty when none should be sent. *)
Definition BuildICMPv6Error (type code : Z) (inp : list Z) : res (list Z) :=
  if Z.of_nat (length inp) <? sizeof_ip6_hdr then Ok [] else
  h ← get_ip6 inp;
  is_error ← (if ip6_nxt h =? IPPROTO_ICMPV6
              then t ← rd8 40 inp; Ok (Z.land t 0x80 =? 0)
              else Ok false);
  if (is_error : bool) then Ok [] else
  if IN6_IS_ADDR_MULTICAST (ip6_dst h) then Ok [] else
  if IN6_IS_ADDR_MULTICAST (ip6_src h) || IN6_IS_ADDR_UNSPECIFIED (ip6_src h) then Ok [] else
  let inlen := if (Z.to_nat (1280 - (sizeof_ip6_hdr + sizeof_icmp6_hdr)) <? length inp)%nat
               then Z.to_nat (1280 - (sizeof_ip6_hdr + sizeof_icmp6_hdr)) else length inp in
  Ok ([type; code; 0; 0; 0; 0; 0; 0] ++ take inlen inp).

(** ** Router solicitations *)

(** The two pre-computed checksums of [teredo_send_rs] are the ICMPv6
    checksums of the solicitations they are stored in, for both flavours. *)
Theorem rs_checksums_precomputed (cone : bool) :
  icmp6_checksum (rs_header cone) (rs_body 0) = rs_cksum cone.
Proof. by destruct cone; vm_compute. Qed.

(** ** Router advertisements *)

(** The packet handed to the parsers has passed the checks of the receivers:
    its payload length fits the bytes received. *)
Definition packet_wf (p : teredo_packet) : Prop :=
  bytes_ok (ip6 p) /\
  exists h, get_ip6 (ip6 p) = Ok h /\
            (40 + Z.to_nat (ntohs (ip6_plen h)) <= length (ip6 p))%nat.

Lemma shiftl3 x : Z.shiftl x 3 = 8 * x.
Proof. rewrite Z.shiftl_mul_pow2 by lia. lia. Qed.

Lemma rd8_some off b : (off < length b)%nat -> bytes_ok b -> exists x, rd8 off b = Ok x /\ byte_ok x.
Proof.
  intros H Hb. destruct (rd8_ok off b H) as (x & E & Hx). exists x. split; [done|].
  by eapply bytes_ok_lookup.
Qed.

Lemma rd32_some off b : (off + 4 <= length b)%nat -> exists x, rd32 off b = Ok x.
Proof. intros H. unfold rd32. rewrite slice_ok by done. eauto. Qed.

(** What the option loop may do to the caller's address. *)
Definition ra_mtu_ok (m : Z) : Prop := m = 0 \/ 1280 <= m <= 65535.

Lemma ra_options_ok fuel b : bytes_ok b -> forall off len na mtu,
  0 <= len -> (off + Z.to_nat len <= length b)%nat -> (Z.to_nat len <= fuel)%nat ->
  ra_mtu_ok mtu ->
  exists ok na' mtu', ra_options fuel b off len na mtu = Ok (ok, na', mtu')
    /\ (ok = true -> ra_mtu_ok mtu').
Proof.
  intros Hb. induction fuel as [|fuel IH]; intros off len na mtu Hlen Hoff Hf Hm; cbn [ra_options].
  { destruct (Z.ltb_spec len 8); [eauto 6|lia]. }
  destruct (Z.ltb_spec len 8); [eauto 6|].
  destruct (rd8_some (off + 1) b) as (len8 & -> & H8); [lia|done|]. cbn [mbind res_bind].
  unfold byte_ok in H8. rewrite shiftl3.
  destruct (Z.ltb_spec len (8 * len8)); cbn [orb]; [eauto 6|].
  destruct (Z.eqb_spec (8 * len8) 0); [eauto 6|].
  destruct (rd8_some off b) as (type & -> & _); [lia|done|]. cbn [mbind res_bind].
  assert (forall na mtu, ra_mtu_ok mtu -> exists ok na' mtu',
    ra_options fuel b (off + Z.to_nat (8 * len8)) (len - 8 * len8) na mtu = Ok (ok, na', mtu')
    /\ (ok = true -> ra_mtu_ok mtu')) as Hnext by (intros; apply IH; done || lia).
  unfold sizeof_nd_opt_prefix_info. destruct (type =? ND_OPT_PREFIX_INFORMATION).
  - destruct (Z.ltb_spec (8 * len8) 32); [eauto 6|].
    destruct (rd8_some (off + 2) b) as (plen & -> & _); [lia|done|]. cbn [mbind res_bind].
    destruct (negb (plen =? 64)); [eauto 6|]. destruct (negb (server_ip na =? 0)); [eauto 6|].
    rewrite slice_ok by lia. cbn [mbind res_bind]. by apply Hnext.
  - destruct (type =? ND_OPT_MTU); [|by apply Hnext].
    destruct (rd32_some (off + 4) b) as (mo & ->); [lia|]. cbn [mbind res_bind].
    destruct (Z.ltb_spec (ntohl mo) 1280); cbn [orb]; [eexists false, _, _; split; done|].
    destruct (Z.ltb_spec 65535 (ntohl mo)); [eexists false, _, _; split; done|].
    apply Hnext. right. lia.
Qed.

(** Two runs from addresses that agree on what has been parsed. *)
Definition ra_agree (a1 a2 : teredo_addr) : Prop :=
  server_ip a1 = server_ip a2 /\ (server_ip a1 <> 0 -> prefix a1 = prefix a2).

Definition ra_result_agree (r1 r2 : res (bool * teredo_addr * Z)) : Prop :=
  match r1, r2 with
  | Ok (ok1, a1, m1), Ok (ok2, a2, m2) => ok1 = ok2 /\ ra_agree a1 a2 /\ m1 = m2
  | Err f1, Err f2 => f1 = f2
  | _, _ => False
  end.

Lemma ra_options_agree fuel b off len a1 a2 mtu :
  ra_agree a1 a2 ->
  ra_result_agree (ra_options fuel b off len a1 mtu) (ra_options fuel b off len a2 mtu).
Proof.
  revert off len a1 a2 mtu. induction fuel as [|fuel IH]; intros off len a1 a2 mtu Ha;
    cbn [ra_options]; destruct (len <? 8); [done..|].
  destruct (rd8 (off + 1) b) as [len8|]; cbn [mbind res_bind]; [|done].
  destruct (_ || _); [done|]. destruct (rd8 off b) as [type|]; cbn [mbind res_bind]; [|done].
  destruct (type =? ND_OPT_PREFIX_INFORMATION).
  - destruct (_ <? _); [done|]. destruct (rd8 (off + 2) b) as [plen|]; cbn [mbind res_bind]; [|done].
    destruct (negb (plen =? 64)); [done|]. rewrite <- (proj1 Ha).
    destruct (negb (server_ip a1 =? 0)); [done|].
    destruct (slice (off + 16) 8 b) as [pi|]; cbn [mbind res_bind]; [|done]. by apply IH.
  - destruct (type =? ND_OPT_MTU); [|by apply IH].
    destruct (rd32 (off + 4) b) as [mo|]; cbn [mbind res_bind]; [|done].
    destruct (_ || _); [done|]. by apply IH.
Qed.

Section parse_ra.
Context (p : teredo_packet) (cone : bool).

Lemma parse_ra_ok na mtu :
  packet_wf p ->
  exists ok na' mtu', teredo_parse_ra p na cone mtu = Ok (ok, na', mtu') /\
    (ok = true -> orig_ipv4 p <> 0 /\ is_valid_teredo_prefix (prefix na') = true /\
                  prefix na' <> htonl TEREDO_PREFIX_OBSOLETE /\
                  flags na' = (if cone then htons TEREDO_FLAG_CONE else 0) /\
                  client_port na' = unot 16 (orig_port p) /\
                  client_ip na' = unot 32 (orig_ipv4 p) /\
                  (mtu' = mtu \/ 1280 <= mtu' <= 65535)).
Proof.
  intros (Hb & h & Hh & Hlen). unfold teredo_parse_ra.
  destruct (Z.eqb_spec (orig_ipv4 p) 0); [eexists false, _, _; split; done|].
  rewrite Hh. cbn [mbind res_bind].
  destruct (_ || _ || _) eqn:E; [eexists false, _, _; split; done|].
  apply orb_false_iff in E as [_ E]. apply Z.ltb_ge in E.
  unfold sizeof_nd_router_advert in *.
  destruct (rd8_some 40 (ip6 p)) as (type & -> & _); [lia|done|].
  destruct (rd8_some 41 (ip6 p)) as (code & -> & _); [lia|done|]. cbn [mbind res_bind].
  destruct (_ || _ || _) eqn:E2; [eexists false, _, _; split; done|].
  apply orb_false_iff in E2 as [_ E2]. apply Z.ltb_ge in E2.
  unfold sizeof_nd_opt_prefix_info in E2.
  set (len := ntohs (ip6_plen h) - 16) in *.
  destruct (ra_options_ok (Z.to_nat len) (ip6 p) Hb 56 len (set_server_ip 0 na) 0)
    as (ok & na' & mtu' & -> & Hm); [lia..|by left|]. cbn [mbind res_bind].
  destruct ok; [|eexists false, _, _; split; done].
  specialize (Hm eq_refl). unfold ra_finish.
  set (na1 := if prefix na' =? htonl TEREDO_PREFIX_OBSOLETE
              then set_prefix (htonl TEREDO_PREFIX) na' else na').
  destruct (is_valid_teredo_prefix (prefix na1)) eqn:Ev; cbn [negb];
    [|eexists false, _, _; split; done].
  eexists true, _, _. split; [done|]. intros _.
  cbn [prefix server_ip flags client_port client_ip]. split_and!; try done.
  - subst na1. destruct (Z.eqb_spec (prefix na') (htonl TEREDO_PREFIX_OBSOLETE)); [|done].
    cbn [set_prefix prefix]. vm_compute. congruence.
  - destruct (Z.eqb_spec mtu' 0) as [|Hne]; cbn [negb]; [by left|right].
    destruct Hm as [|Hm]; [done|]. unfold wrap. rewrite Z.mod_small; lia.
Qed.

(** The result does not depend on what the caller's address held before. *)
Lemma parse_ra_agree na1 na2 mtu a1 m1 :
  teredo_parse_ra p na1 cone mtu = Ok (true, a1, m1) -> server_ip a1 <> 0 ->
  teredo_parse_ra p na2 cone mtu = Ok (true, a1, m1).
Proof.
  unfold teredo_parse_ra. destruct (_ =? 0); [done|].
  destruct (get_ip6 (ip6 p)) as [h|]; cbn [mbind res_bind]; [|done].
  destruct (_ || _ || _); [done|].
  destruct (rd8 40 (ip6 p)) as [type|]; cbn [mbind res_bind]; [|done].
  destruct (rd8 41 (ip6 p)) as [code|]; cbn [mbind res_bind]; [|done].
  destruct (_ || _ || _); [done|]. set (len := _ - _).
  pose proof (ra_options_agree (Z.to_nat len) (ip6 p) 56 len
                (set_server_ip 0 na1) (set_server_ip 0 na2) 0
                (conj eq_refl (fun Hne => False_ind _ (Hne eq_refl)))) as Hagree.
  destruct (ra_options _ _ 56 len (set_server_ip 0 na1) 0) as [[[ok1 b1] n1]|] eqn:E1;
    cbn [mbind res_bind]; [|done].
  destruct (ra_options _ _ 56 len (set_server_ip 0 na2) 0) as [[[ok2 b2] n2]|] eqn:E2; [|done].
  destruct Hagree as (-> & [Hs Hp] & ->).
  cbn [mbind res_bind]. destruct ok2; [|done].
  intros [= Hfin] Hne.
  assert (server_ip b1 <> 0) as Hne1.
  { unfold ra_finish in Hfin. destruct (negb _); [done|]. injection Hfin as <- _.
    cbn [server_ip] in Hne. by destruct (prefix b1 =? _). }
  f_equal. revert Hfin. unfold ra_finish. rewrite <- (Hp Hne1).
  destruct (prefix b1 =? _); cbn [set_prefix prefix server_ip];
    rewrite <- ?(Hp Hne1), <- Hs; by destruct (negb _).
Qed.

(** A failed parse leaves the caller's MTU alone. *)
Lemma parse_ra_fail_mtu na mtu na' mtu' :
  teredo_parse_ra p na cone mtu = Ok (false, na', mtu') -> mtu' = mtu.
Proof.
  unfold teredo_parse_ra. destruct (_ =? 0); [by intros [= _ <-]|].
  destruct (get_ip6 (ip6 p)) as [h|]; cbn [mbind res_bind]; [|done].
  destruct (_ || _ || _); [by intros [= _ <-]|].
  destruct (rd8 40 (ip6 p)); cbn [mbind res_bind]; [|done].
  destruct (rd8 41 (ip6 p)); cbn [mbind res_bind]; [|done].
  destruct (_ || _ || _); [by intros [= _ <-]|].
  destruct (ra_options _ _ _ _ _ _) as [[[ok1 b1] n1]|]; cbn [mbind res_bind]; [|done].
  destruct ok1; [|by intros [= _ <-]]. unfold ra_finish.
  destruct (negb _); by intros [= _ <-].
Qed.
End parse_ra.

(** Parsing a router advertisement is memory safe and terminates on every
    packet whose payload length fits the bytes received, and a successful parse
    yields the mapping of the origin indication, a valid non-obsolete prefix
    and an MTU between 1280 and 65535 or unchanged. *)
Theorem teredo_parse_ra_correct (p : teredo_packet) (cone : bool) (na : teredo_addr) (mtu : Z)
    (Hwf : packet_wf p) :
  exists ok na' mtu', teredo_parse_ra p na cone mtu = Ok (ok, na', mtu') /\
    (ok = true -> orig_ipv4 p <> 0 /\ is_valid_teredo_prefix (prefix na') = true /\
                  prefix na' <> htonl TEREDO_PREFIX_OBSOLETE /\
                  flags na' = (if cone then htons TEREDO_FLAG_CONE else 0) /\
                  client_port na' = unot 16 (orig_port p) /\
                  client_ip na' = unot 32 (orig_ipv4 p) /\
                  (mtu' = mtu \/ 1280 <= mtu' <= 65535)).
Proof. by apply parse_ra_ok. Qed.

(** A router advertisement for prefix 2001:0::/32 and server 192.0.2.45, with
    an MTU option, received with an origin indication. *)
Definition example_ra : teredo_packet :=
  mk_teredo_packet
    (put_ip6 {| ip6_flow := ip6_flow_v6; ip6_plen := htons 56; ip6_nxt := IPPROTO_ICMPV6;
                ip6_hlim := 255; ip6_src := teredo_cone; ip6_dst := teredo_restrict |} ++
     [134; 0; 0; 0; 0; 0; 0; 0; 0; 0; 0; 0; 0; 0; 7; 208] ++
     [3; 4; 64; 64; 255; 255; 255; 255; 255; 255; 255; 255; 0; 0; 0; 0;
      0x20; 1; 0; 0; 192; 0; 2; 45; 0; 0; 0; 0; 0; 0; 0; 0] ++
     [5; 1; 0; 0; 0; 0; 5; 0])
    (ipv4 192 0 2 45) (htons 3544) (htons 40000) (ipv4 198 51 100 7) (ipv4 10 0 0 1)
    true false (repeat 1 8).

Lemma example_ra_wf : packet_wf example_ra.
Proof.
  split; [vm_compute; repeat (constructor; [split; congruence|]); constructor|].
  eexists. split; [vm_compute; reflexivity|]. vm_compute. lia.
Qed.

Lemma teredo_parse_ra_correct_witness :
  packet_wf example_ra /\
  exists ok na' mtu',
    teredo_parse_ra example_ra (mk_teredo_addr 9 9 9 9 9) false 1400 = Ok (ok, na', mtu') /\
    ok = true /\ client_ip na' = unot 32 (ipv4 198 51 100 7) /\ mtu' = 1280.
Proof.
  split; [apply example_ra_wf|].
  destruct (teredo_parse_ra_correct example_ra false (mk_teredo_addr 9 9 9 9 9) 1400
              example_ra_wf) as (ok & na' & mtu' & E & H).
  exists ok, na', mtu'. split; [exact E|]. vm_compute in E. injection E as <- <- <-.
  destruct (H eq_refl) as (_ & _ & _ & _ & _ & Hc & _). by split_and!.
Defined.

(** ** Echo requests *)

Lemma ping_header_wf src dst : addr_wf src -> addr_wf dst -> ip6_hdr_wf (ping_header src dst).
Proof.
  intros Hs Hd. unfold ip6_hdr_wf, ping_header;
    cbn [ip6_flow ip6_plen ip6_nxt ip6_hlim ip6_src ip6_dst].
  split_and!; try done; try apply byte_ok_literal; try reflexivity.
  apply le_split_bytes.
Qed.

(** Timestamps that are less than 30 seconds old, on a 32-bit clock. *)
Definition fresh (now ts : Z) : Prop := 0 <= ts < 2 ^ 32 /\ (now - ts) mod 2 ^ 32 < 30.

(** The unreachable error [b], with [len] bytes after its header, quotes an
    echo request that [me] sent to [it] and that is as long as ours. *)
Definition quotes_request (b : list Z) (len : Z) (me it : in6_addr) : Prop :=
  74 <= len /\
  exists q, get_ip6 (drop 48 b) = Ok q /\ ip6_nxt q = IPPROTO_ICMPV6 /\ ntohs (ip6_plen q) = 26 /\
    b !! 88%nat = Some ICMP6_ECHO_REQUEST /\ ip6_src q = me /\ ip6_dst q = it.

(** The packet [b] with the IPv6 header [h] answers the echo request that
    carries [hash]: it is an echo reply with that hash, or an unreachable
    error that quotes a request with it. *)
Definition answers (hash : list Z) (h : ip6_hdr) (b : list Z) : Prop :=
  ip6_nxt h = IPPROTO_ICMPV6 /\ 26 <= ntohs (ip6_plen h) /\
  (b !! 40%nat = Some ICMP6_ECHO_REPLY /\ b !! 41%nat = Some 0 /\ take 22 (drop 44 b) = hash \/
   b !! 40%nat = Some ICMP6_DST_UNREACH /\
   quotes_request b (ntohs (ip6_plen h)) (ip6_dst h) (ip6_src h) /\
   b !! 89%nat = Some 0 /\ take 22 (drop 92 b) = hash).

Section check_ping.
Context (k : hmac_state) (now : Z).
Hypothesis Hk : hmac_wf k.

Lemma check_ping_hash_total b off me it :
  (off + 26 <= length b)%nat -> exists r, check_ping_hash k now b off me it = Ok r.
Proof.
  intros Hlen. unfold check_ping_hash. destruct (rd8_ok (off + 1) b) as (code & -> & _); [lia|]. cbn [mbind res_bind].
  destruct (negb (code =? 0)); [by eexists|].
  rewrite slice_ok by (unfold LIBTEREDO_HMAC_LEN; lia). cbn [mbind res_bind]. by eexists.
Qed.

Lemma check_ping_hash_ok b off me it :
  bytes_ok b -> (off + 26 <= length b)%nat ->
  exists r, check_ping_hash k now b off me it = Ok r /\
    (addr_wf me -> addr_wf it ->
     r = 0 <-> b !! (off + 1)%nat = Some 0 /\
     exists ts, fresh now ts /\ take 22 (drop (off + 4) b) = teredo_get_pinghash k ts me it).
Proof.
  intros Hb Hlen. unfold check_ping_hash.
  destruct (rd8_ok (off + 1) b) as (code & -> & Hc); [lia|]. cbn [mbind res_bind].
  destruct (Z.eqb_spec code 0) as [->|Hne]; cbn [negb].
  2:{ exists (-1). split; [done|]. intros _ _. split; [done|]. intros [Hc' _]. congruence. }
  rewrite slice_ok by (unfold LIBTEREDO_HMAC_LEN; lia). cbn [mbind res_bind].
  eexists. split; [done|]. intros Hme Hit. change LIBTEREDO_HMAC_LEN with 22%nat.
  rewrite verify_pinghash_iff; [|done..| |by apply Forall_take_drop].
  - unfold fresh. split; [intros (ts & ? & ? & ?)|intros (_ & ts & [? ?] & ?)]; [split; [done|]|]; by exists ts.
  - apply take_drop_length. unfold LIBTEREDO_HMAC_LEN. lia.
Qed.

Lemma check_quoted_ping_ok b len me it :
  bytes_ok b -> 0 <= len -> (40 + Z.to_nat len <= length b)%nat ->
  exists q, check_quoted_ping b len me it = Ok q /\
    (q = None /\ ~ quotes_request b len me it \/
     q = Some (me, it) /\ quotes_request b len me it /\ (114 <= length b)%nat).
Proof.
  intros Hb H0 Hlen. unfold check_quoted_ping, quotes_request.
  change (sizeof_ip6_hdr + sizeof_icmp6_hdr + PING_PAYLOAD) with 66.
  change (len - sizeof_icmp6_hdr) with (len - 8). change (sizeof_icmp6_hdr + PING_PAYLOAD) with 26.
  destruct (Z.ltb_spec (len - 8) 66); [eexists; split; [done|]; left; split; [done|]; lia|].
  destruct (get_ip6_ok (drop 48 b)) as [h Hh]; [rewrite length_drop; lia|]. rewrite Hh. cbn [mbind res_bind].
  assert (forall Q : Prop, (forall q, Ok h = Ok q -> Q) -> Q) as Hq by (intros Q HQ; by apply (HQ h)).
  destruct (rd8_ok 88 b) as (type & -> & Ht); [lia|].
  destruct (Z.eqb_spec (ip6_nxt h) IPPROTO_ICMPV6) as [E1|N]; cbn [negb].
  2:{ eexists. split; [done|]. left. split; [done|]. intros (_ & q & [= <-] & ? & _). done. }
  destruct (Z.eqb_spec (ntohs (ip6_plen h)) 26) as [E2|N]; cbn [negb].
  2:{ eexists. split; [done|]. left. split; [done|]. intros (_ & q & [= <-] & _ & ? & _). done. }
  cbn [mbind res_bind]. unfold IN6_ARE_ADDR_EQUAL.
  destruct (mem_eqb (ip6_src h) me) eqn:E3; cbn [negb orb].
  2:{ eexists. split; [done|]. left. split; [done|]. intros (_ & q & [= <-] & _ & _ & _ & E & _).
      by rewrite E, mem_eqb_refl in E3. }
  destruct (Z.eqb_spec type ICMP6_ECHO_REQUEST) as [->|N]; cbn [negb].
  2:{ eexists. split; [done|]. left. split; [done|]. intros (_ & q & [= <-] & _ & _ & E & _). congruence. }
  destruct (mem_eqb (ip6_dst h) it) eqn:E4; cbn [negb].
  2:{ eexists. split; [done|]. left. split; [done|]. intros (_ & q & [= <-] & _ & _ & _ & _ & E).
      by rewrite E, mem_eqb_refl in E4. }
  apply mem_eqb_true in E3, E4. subst me it. eexists. split; [done|]. right.
  split; [done|]. split; [|lia]. split; [lia|]. by exists h.
Qed.

Lemma CheckPing_total p : packet_wf p -> exists r, CheckPing k now p = Ok r.
Proof.
  intros (Hb & h & Hh & Hlen). unfold CheckPing. rewrite Hh. cbn [mbind res_bind].
  pose proof (bswap_bounds 2 (ip6_plen h)) as Hbnd. fold (ntohs (ip6_plen h)) in Hbnd.
  change (sizeof_icmp6_hdr + PING_PAYLOAD) with 26.
  destruct (_ || _) eqn:E; [by eexists|]. reflect_bools.
  destruct (rd8_some 40 (ip6 p)) as (type & -> & _); [lia|done|]. cbn [mbind res_bind].
  destruct (type =? ICMP6_DST_UNREACH).
  - destruct (check_quoted_ping_ok (ip6 p) (ntohs (ip6_plen h)) (ip6_dst h) (ip6_src h))
      as (q & -> & Hq); [done|lia..|]. cbn [mbind res_bind].
    destruct Hq as [[-> _]|(-> & _ & Hl)]; [by eexists|].
    destruct (check_ping_hash_total (ip6 p) 88 (ip6_dst h) (ip6_src h)) as (r & ->); [lia|by eauto].
  - destruct (negb _); [by eexists|].
    destruct (check_ping_hash_total (ip6 p) 40 (ip6_dst h) (ip6_src h)) as (r & ->); [lia|by eauto].
Qed.

(** A packet passes exactly if it answers a request for its own source. *)
Lemma CheckPing_ok p :
  packet_wf p ->
  exists h r, get_ip6 (ip6 p) = Ok h /\ CheckPing k now p = Ok r /\
    (r = 0 <-> exists ts, fresh now ts /\
       answers (teredo_get_pinghash k ts (ip6_dst h) (ip6_src h)) h (ip6 p)).
Proof.
  intros (Hb & h & Hh & Hlen). exists h. unfold CheckPing, answers. rewrite Hh. cbn [mbind res_bind].
  destruct (get_ip6_wf _ _ Hb Hh) as (_ & _ & _ & _ & _ & Hsrc & Hdst).
  pose proof (bswap_bounds 2 (ip6_plen h)) as Hbnd. fold (ntohs (ip6_plen h)) in Hbnd.
  change (sizeof_icmp6_hdr + PING_PAYLOAD) with 26.
  assert (ICMP6_ECHO_REPLY <> ICMP6_DST_UNREACH) as Hty by done.
  assert (forall P, ~ P -> (-1 = 0 <-> P)) as Hno by (intros P; split; done).
  destruct (_ || _) eqn:E.
  { exists (-1). split; [done|]. split; [done|]. apply Hno. intros (ts & _ & E1 & E2 & _).
    rewrite E1, Z.eqb_refl in E. cbn [negb orb] in E. lia. }
  apply orb_false_iff in E as [E1 E2]. apply negb_false_iff, Z.eqb_eq in E1. apply Z.ltb_ge in E2.
  destruct (rd8_ok 40 (ip6 p)) as (type & -> & Ht); [lia|]. cbn [mbind res_bind].
  destruct (Z.eqb_spec type ICMP6_DST_UNREACH) as [->|N1].
  - destruct (check_quoted_ping_ok (ip6 p) (ntohs (ip6_plen h)) (ip6_dst h) (ip6_src h))
      as (q & -> & [[-> Hq]|(-> & Hq & Hl)]); [done|lia..| |]; cbn [mbind res_bind].
    { exists (-1). split; [done|]. split; [done|]. apply Hno.
      intros (ts & _ & _ & _ & [(E & _)|(_ & E & _)]); [congruence|done]. }
    destruct (check_ping_hash_ok (ip6 p) 88 (ip6_dst h) (ip6_src h) Hb) as (r & -> & Hr); [lia|].
    exists r. split; [done|]. split; [done|]. rewrite Hr by done. split.
    + intros (Hc & ts & Hf & He). exists ts. by auto 10.
    + intros (ts & Hf & _ & _ & [(E & _)|(_ & _ & Hc & He)]); [congruence|]. by eauto.
  - destruct (Z.eqb_spec type ICMP6_ECHO_REPLY) as [->|N2]; cbn [negb].
    2:{ exists (-1). split; [done|]. split; [done|]. apply Hno.
        intros (ts & _ & _ & _ & [(E & _)|(E & _)]); congruence. }
    destruct (check_ping_hash_ok (ip6 p) 40 (ip6_dst h) (ip6_src h) Hb) as (r & -> & Hr); [lia|].
    exists r. split; [done|]. split; [done|]. rewrite Hr by done. split.
    + intros (Hc & ts & Hf & He). exists ts. by auto 10.
    + intros (ts & Hf & _ & _ & [(_ & Hc & He)|(E & _)]); [by eauto|congruence].
Qed.
End check_ping.

(** (C6) Direct connectivity test, exactly: on every packet whose payload length
    fits the bytes received, [CheckPing] returns without reading out of
    bounds, and it succeeds if and only if the packet answers an echo request
    that this process made for the pair (packet destination, packet source)
    less than 30 seconds ago, wrap-around of the 32-bit clock included: it is
    an ICMPv6 echo reply of code 0 with the keyed hash of that request, or an
    ICMPv6 unreachable error that quotes an echo request of code 0 with that
    hash, and with the two addresses the other way round.  So no other host
    can be vouched for. *)
Theorem CheckPing_authenticates_source (k : hmac_state) (now : Z) (p : teredo_packet)
    (Hk : hmac_wf k) (Hwf : packet_wf p) :
  exists h r, get_ip6 (ip6 p) = Ok h /\ CheckPing k now p = Ok r /\
    (r = 0 <-> exists ts, fresh now ts /\
       answers (teredo_get_pinghash k ts (ip6_dst h) (ip6_src h)) h (ip6 p)).
Proof. by apply CheckPing_ok. Qed.

(** What a conforming IPv6 node (RFC 4443) answers to an echo request. *)
Definition echo_reply (ping : list Z) (hlim cksum : Z) : list Z :=
  match get_ip6 ping with
  | Ok h =>
    put_ip6 {| ip6_flow := ip6_flow h; ip6_plen := ip6_plen h; ip6_nxt := ip6_nxt h;
               ip6_hlim := hlim; ip6_src := ip6_dst h; ip6_dst := ip6_src h |} ++
    [ICMP6_ECHO_REPLY; 0] ++ le_split 2 cksum ++ drop 44 ping
  | Err _ => []
  end.

Section ping_roundtrip.
Context (k : hmac_state) (ts now : Z) (us peer : in6_addr).
Hypothesis Hk : hmac_wf k.
Hypothesis Hus : addr_wf us.
Hypothesis Hpeer : addr_wf peer.

Let hash := teredo_get_pinghash k ts us peer.
Let cksum := icmp6_checksum (ping_header us peer) (ping_icmp6 0 hash).

Lemma ping_packet_parts :
  get_ip6 (ping_packet k ts us peer) = Ok (ping_header us peer) /\
  drop 40 (ping_packet k ts us peer) = ping_icmp6 cksum hash /\
  drop 44 (ping_packet k ts us peer) = hash.
Proof.
  pose proof (put_ip6_length _ (ping_header_wf us peer Hus Hpeer)) as HL.
  unfold ping_packet. fold hash. fold cksum. split_and!.
  - apply get_put_ip6, ping_header_wf; done.
  - by rewrite drop_app_exact.
  - unfold ping_icmp6. rewrite !app_assoc. apply drop_app_exact.
    by rewrite !length_app, length_le_split, HL.
Qed.

(** The reply is authenticated exactly while the hash is fresh. *)
Lemma CheckPing_reply p hlim c :
  0 <= ts < 2 ^ 32 -> byte_ok hlim ->
  ip6 p = echo_reply (ping_packet k ts us peer) hlim c ->
  CheckPing k now p = Ok (if 30 <=? (now - ts) mod 2 ^ 32 then -1 else 0).
Proof.
  intros Hts Hlim Hp. destruct ping_packet_parts as (E1 & _ & E3).
  unfold echo_reply in Hp. rewrite E1, E3 in Hp.
  set (h := mk_ip6_hdr _ _ _ _ _ _) in Hp.
  assert (ip6_hdr_wf h) as Hh.
  { destruct (ping_header_wf us peer Hus Hpeer) as (? & ? & ? & ? & ? & ? & ?).
    unfold ip6_hdr_wf, h; cbn [ip6_flow ip6_plen ip6_nxt ip6_hlim ip6_src ip6_dst].
    repeat (split; [done|]). done. }
  pose proof (put_ip6_length h Hh) as HL.
  pose proof (pinghash_length k ts us peer Hk Hus Hpeer) as Hhash. fold hash in Hhash.
  unfold CheckPing. rewrite Hp, get_put_ip6 by done. cbn [mbind res_bind].
  change (ip6_nxt h =? IPPROTO_ICMPV6) with true. change (ntohs (ip6_plen h)) with 26.
  change (26 <? sizeof_icmp6_hdr + PING_PAYLOAD) with false. cbn [negb orb].
  assert (forall i, rd8 (40 + i) (put_ip6 h ++ [ICMP6_ECHO_REPLY; 0] ++ le_split 2 c ++ hash) =
                    rd8 i ([ICMP6_ECHO_REPLY; 0] ++ le_split 2 c ++ hash)) as Hrd.
  { intros i. unfold rd8. rewrite lookup_app_r by lia. do 2 f_equal. lia. }
  change (rd8 40) with (rd8 (40 + 0)). rewrite (Hrd 0%nat). change (rd8 0 _) with (Ok ICMP6_ECHO_REPLY). cbn [mbind res_bind].
  change (ICMP6_ECHO_REPLY =? ICMP6_DST_UNREACH) with false.
  change (negb (ICMP6_ECHO_REPLY =? ICMP6_ECHO_REPLY)) with false. cbv iota.
  unfold check_ping_hash. rewrite (Hrd 1%nat). change (rd8 1 _) with (Ok 0). cbn [mbind res_bind].
  change (negb (0 =? 0)) with false. cbv iota.
  replace (put_ip6 h ++ [ICMP6_ECHO_REPLY; 0] ++ le_split 2 c ++ hash)
    with ((put_ip6 h ++ [ICMP6_ECHO_REPLY; 0] ++ le_split 2 c) ++ hash ++ [])
    by (by rewrite app_nil_r, <- !app_assoc).
  rewrite slice_app_exact; [|by rewrite !length_app, length_le_split, HL|done].
  cbn [mbind res_bind]. f_equal. by apply verify_pinghash_get.
Qed.

Lemma ping_checksum_valid :
  teredo_cksum us peer IPPROTO_ICMPV6 [drop 40 (ping_packet k ts us peer)] = 0.
Proof.
  destruct ping_packet_parts as (_ & -> & _). unfold ping_icmp6, cksum, icmp6_checksum.
  pose proof (pinghash_length k ts us peer Hk Hus Hpeer) as Hhash. fold hash in Hhash.
  rewrite take_ge.
  - apply teredo_cksum_verifies; [done..|by exists 1%nat|bytes_ok_tac|].
    unfold hash. by apply pinghash_bytes.
  - change (Z.to_nat (ntohs (ip6_plen (ping_header us peer)))) with 26%nat.
    unfold ping_icmp6. rewrite !length_app, length_le_split, Hhash. done.
Qed.
End ping_roundtrip.

Definition example_key : hmac_state := hmac_keyed (repeat 7 16) 1234.
Definition example_us : in6_addr := ip6_of (mk_teredo_addr (htonl TEREDO_PREFIX)
  (ipv4 192 0 2 45) 0 (unot 16 (htons 40000)) (unot 32 (ipv4 198 51 100 7))).
Definition example_peer : in6_addr := [0x20; 1; 0x0d; 0xb8; 0; 0; 0; 0; 0; 0; 0; 0; 0; 0; 0; 1].

Lemma example_key_wf : hmac_wf example_key.
Proof. apply hmac_keyed_wf; [vm_compute; lia|lia]. Qed.

Lemma example_peer_wf : addr_wf example_peer.
Proof. split; [done|]. bytes_ok_tac. Qed.

Definition example_pong : teredo_packet :=
  mk_teredo_packet (echo_reply (ping_packet example_key 100 example_us example_peer) 60 0)
    (ipv4 192 0 2 45) (htons 3544) 0 0 0 false false [].

Lemma example_pong_wf : packet_wf example_pong.
Proof.
  split; [vm_compute; repeat (constructor; [split; congruence|]); constructor|].
  eexists. split; [vm_compute; reflexivity|]. vm_compute. lia.
Qed.

Lemma CheckPing_authenticates_source_witness :
  hmac_wf example_key /\ packet_wf example_pong /\ CheckPing example_key 110 example_pong = Ok 0 /\
  exists h r, get_ip6 (ip6 example_pong) = Ok h /\ CheckPing example_key 110 example_pong = Ok r /\
    (r = 0 <-> exists ts, fresh 110 ts /\
       answers (teredo_get_pinghash example_key ts (ip6_dst h) (ip6_src h)) h (ip6 example_pong)).
Proof.
  split; [apply example_key_wf|]. split; [apply example_pong_wf|].
  split; [vm_compute; reflexivity|].
  apply (CheckPing_authenticates_source example_key 110 example_pong example_key_wf
           example_pong_wf).
Defined.

(** Direct connectivity test, completeness: the echo reply of a conforming
    peer to the echo request built by [SendPing] at time [ts] is accepted by
    [CheckPing] at time [now] exactly when less than 30 seconds went by. *)
Theorem CheckPing_roundtrip (k : hmac_state) (ts now hlim c : Z) (us peer : in6_addr)
    (p : teredo_packet) (Hk : hmac_wf k) (Hus : addr_wf us) (Hpeer : addr_wf peer)
    (Hts : 0 <= ts < 2 ^ 32) (Hlim : byte_ok hlim)
    (Hp : ip6 p = echo_reply (ping_packet k ts us peer) hlim c) :
  CheckPing k now p = Ok (if 30 <=? (now - ts) mod 2 ^ 32 then -1 else 0).
Proof. exact (CheckPing_reply k ts now us peer Hk Hus Hpeer p hlim c Hts Hlim Hp). Qed.

Lemma CheckPing_roundtrip_witness :
  CheckPing example_key 129 example_pong = Ok 0 /\ CheckPing example_key 130 example_pong = Ok (-1).
Proof.
  split.
  - apply (CheckPing_roundtrip example_key 100 129 60 0 example_us example_peer example_pong
             example_key_wf (ip6_of_wf _) example_peer_wf ltac:(lia)
             (byte_ok_literal 60 eq_refl) eq_refl).
  - apply (CheckPing_roundtrip example_key 100 130 60 0 example_us example_peer example_pong
             example_key_wf (ip6_of_wf _) example_peer_wf ltac:(lia)
             (byte_ok_literal 60 eq_refl) eq_refl).
Defined.

(** The echo request built by [SendPing] carries a valid ICMPv6 checksum
    for every key, clock value and pair of addresses. *)
Theorem SendPing_checksum_valid (k : hmac_state) (ts : Z) (us peer : in6_addr)
    (Hk : hmac_wf k) (Hus : addr_wf us) (Hpeer : addr_wf peer) :
  teredo_cksum us peer IPPROTO_ICMPV6 [drop 40 (ping_packet k ts us peer)] = 0.
Proof. exact (ping_checksum_valid k ts us peer Hk Hus Hpeer). Qed.

Lemma SendPing_checksum_valid_witness :
  teredo_cksum example_us example_peer IPPROTO_ICMPV6
    [drop 40 (ping_packet example_key 100 example_us example_peer)] = 0.
Proof.
  apply (SendPing_checksum_valid example_key 100 example_us example_peer
           example_key_wf (ip6_of_wf _) example_peer_wf).
Defined.

(** ** Bubbles, facts *)

Lemma bubble_iid_wf k ip port :
  hmac_wf k -> length (bubble_iid k ip port) = 8%nat /\ bytes_ok (bubble_iid k ip port).
Proof.
  intros Hk. unfold bubble_iid, teredo_get_nonce.
  assert (forall n x, (n < 16)%nat -> small (le_split n x)) as Hs.
  { intros n x Hn. unfold small. rewrite length_le_split. lia. }
  pose proof (teredo_hash_length k (le_split 4 ip) (le_split 2 port) 0 Hk
                ltac:(apply Hs; lia) ltac:(apply Hs; lia)) as HL.
  pose proof (teredo_hash_bytes k (le_split 4 ip) (le_split 2 port) 0 Hk
                ltac:(apply Hs; lia) ltac:(apply Hs; lia)) as HB.
  destruct (teredo_hash _ _ _ _) as [|b l]; [done|].
  change LIBTEREDO_NONCE_LEN with (S 7). cbn [take length] in *.
  apply bytes_ok_cons in HB as [Hb Hl]. rewrite length_take. split; [lia|].
  apply bytes_ok_cons. split; [|by apply Forall_take].
  apply byte_ok_land; [done|]. by apply byte_ok_literal.
Qed.

Lemma CheckBubble_ok k p :
  packet_wf p ->
  exists h r, get_ip6 (ip6 p) = Ok h /\ CheckBubble k p = Ok r /\
    (r = 0 <-> drop 8 (ip6_dst h) =
               bubble_iid k (IN6_TEREDO_IPV4 (ip6_src h)) (IN6_TEREDO_PORT (ip6_src h))).
Proof.
  intros (Hb & h & Hh & _). exists h. eexists. unfold CheckBubble. rewrite Hh.
  cbn [mbind res_bind]. split_and!; [done..|].
  destruct (mem_eqb _ _) eqn:E.
  - apply mem_eqb_true in E. done.
  - split; [done|]. intros E'. rewrite E', mem_eqb_refl in E. done.
Qed.

(** What [SendBubbleFromDst] puts on the wire. *)
Definition bubble_bytes (k : hmac_state) (dst : in6_addr) : list Z :=
  bubble_head ++ ([0xfe; 0x80; 0; 0; 0; 0; 0; 0] ++
                  bubble_iid k (IN6_TEREDO_IPV4 dst) (IN6_TEREDO_PORT dst)) ++ dst.

Lemma SendBubbleFromDst_run `{Env} k fd dst (indirect : bool) w :
  SendBubbleFromDst k fd dst indirect w =
  let ip := if indirect then IN6_TEREDO_SERVER dst else IN6_TEREDO_IPV4 dst in
  let port := if indirect then htons IPPORT_TEREDO else IN6_TEREDO_PORT dst in
  if is_ipv4_global_unicast ip then
    Ok (if env_sendmsg (w_k w) =? 40 then 0 else -1,
        mk_world (S (w_k w)) (w_out w ++ [Sendmsg fd ip port (bubble_bytes k dst)]))
  else Ok (0, w).
Proof.
  unfold SendBubbleFromDst, teredo_send_bubble. destruct indirect; cbv zeta;
    destruct (is_ipv4_global_unicast _); try done;
    unfold teredo_send_bubble_anyway, teredo_sendv, emit, ask, mbind, st_bind;
    cbn [w_k w_out]; do 4 f_equal; unfold bubble_bytes;
    rewrite !join_cons, join_nil, app_nil_r; done.
Qed.

Lemma SendBubbleFromDst_out `{Env} k fd dst indirect w :
  exists r w', SendBubbleFromDst k fd dst indirect w = Ok (r, w') /\
    (w' = w \/
     exists ip port, is_ipv4_global_unicast ip = true /\
       w_out w' = w_out w ++ [Sendmsg fd ip port (bubble_bytes k dst)]).
Proof.
  rewrite SendBubbleFromDst_run. cbv zeta. destruct (is_ipv4_global_unicast _) eqn:E.
  - eexists _, _. split; [done|]. right. eexists _, _. by split; [exact E|].
  - eexists _, _. split; [done|]. by left.
Qed.

Lemma bubble_bytes_iid k dst h :
  hmac_wf k -> get_ip6 (bubble_bytes k dst) = Ok h ->
  drop 8 (ip6_src h) = bubble_iid k (IN6_TEREDO_IPV4 dst) (IN6_TEREDO_PORT dst).
Proof.
  intros Hk Hh. apply get_ip6_inv in Hh as (_ & -> & _). unfold bubble_bytes.
  pose proof (bubble_iid_wf k (IN6_TEREDO_IPV4 dst) (IN6_TEREDO_PORT dst) Hk) as [HL _].
  generalize dependent (bubble_iid k (IN6_TEREDO_IPV4 dst) (IN6_TEREDO_PORT dst)).
  intros iid HL. rewrite drop_app_exact by done.
  rewrite take_app_exact by (by rewrite length_app, HL). by rewrite drop_app_exact.
Qed.

(** Bubble hand-shake: the bubble that [SendBubbleFromDst] sends to a
    Teredo client, directly or through its server, only ever goes to a global
    unicast IPv4 address; a peer that answers it with the addresses swapped
    passes [CheckBubble]. *)
Theorem bubble_roundtrip `{Env} (k : hmac_state) (fd : Z) (dst : in6_addr) (indirect : bool)
    (w : world) (bubble reply : ip6_hdr) (p : teredo_packet)
    (Hk : hmac_wf k) (Hdst : addr_wf dst) (Hwf : packet_wf p)
    (Hb : get_ip6 (bubble_bytes k dst) = Ok bubble)
    (Hp : get_ip6 (ip6 p) = Ok reply)
    (Hsrc : ip6_src reply = dst) (Hto : ip6_dst reply = ip6_src bubble) :
  (exists r w', SendBubbleFromDst k fd dst indirect w = Ok (r, w') /\
     (w' = w \/
      exists ip port, is_ipv4_global_unicast ip = true /\
        w_out w' = w_out w ++ [Sendmsg fd ip port (bubble_bytes k dst)])) /\
  CheckBubble k p = Ok 0.
Proof.
  split; [by apply SendBubbleFromDst_out|].
  destruct (CheckBubble_ok k p Hwf) as (h & r & Hh & -> & Hr). f_equal. apply Hr.
  rewrite Hp in Hh. apply (inj Ok) in Hh as <-. rewrite Hsrc, Hto.
  by apply bubble_bytes_iid.
Qed.

Definition example_bubble_reply : teredo_packet :=
  mk_teredo_packet
    (bubble_head ++ example_us ++ take 16 (drop 8 (bubble_bytes example_key example_us)))
    (ipv4 198 51 100 7) (htons 40000) 0 0 0 false false [].

Lemma example_bubble_reply_wf : packet_wf example_bubble_reply.
Proof.
  split; [vm_compute; repeat (constructor; [split; congruence|]); constructor|].
  eexists. split; [vm_compute; reflexivity|]. vm_compute. lia.
Qed.

Definition quiet_env : Env := {|
  env_clock := fun n => Z.of_nat n; env_time := fun _ => 100;
  env_sendmsg := fun _ => 40; env_setsockopt := fun _ => 0;
  env_sendto := fun _ => inl 40 |}.

Lemma bubble_roundtrip_witness :
  CheckBubble example_key example_bubble_reply = Ok 0 /\
  @SendBubbleFromDst quiet_env example_key 3 example_us false (mk_world 0 []) =
  Ok (0, mk_world 1 [Sendmsg 3 (ipv4 198 51 100 7) (htons 40000)
                       (bubble_bytes example_key example_us)]).
Proof.
  split; [|vm_compute; reflexivity].
  destruct (get_ip6 (ip6 example_bubble_reply)) as [h|] eqn:E; [|by vm_compute in E].
  destruct (get_ip6 (bubble_bytes example_key example_us)) as [b|] eqn:Eb; [|by vm_compute in Eb].
  apply (@bubble_roundtrip quiet_env example_key 3 example_us false (mk_world 0 []) b h
           example_bubble_reply example_key_wf (ip6_of_wf _) example_bubble_reply_wf Eb E);
    vm_compute in E, Eb; injection E as <-; injection Eb as <-; vm_compute; reflexivity.
Defined.

(** ** ICMPv6 errors, facts *)

(** The packets RFC 4443 forbids to answer with an error. *)
Definition no_icmp_error (inp : list Z) (h : ip6_hdr) : bool :=
  ((ip6_nxt h =? IPPROTO_ICMPV6) && (nth 40 inp 0 <? 128)) ||
  IN6_IS_ADDR_MULTICAST (ip6_dst h) ||
  IN6_IS_ADDR_MULTICAST (ip6_src h) || IN6_IS_ADDR_UNSPECIFIED (ip6_src h).

Lemma icmp_error_bit t : byte_ok t -> (Z.land t 0x80 =? 0) = (t <? 128).
Proof. apply land_128_eqb. Qed.

Lemma BuildICMPv6Error_ok type code inp h :
  bytes_ok inp -> get_ip6 inp = Ok h ->
  ip6_nxt h <> IPPROTO_ICMPV6 \/ (41 <= length inp)%nat ->
  BuildICMPv6Error type code inp =
  Ok (if no_icmp_error inp h then [] else [type; code; 0; 0; 0; 0; 0; 0] ++ take 1232 inp).
Proof.
  intros Hb Hh Hlen. unfold BuildICMPv6Error, no_icmp_error.
  destruct (get_ip6_inv _ _ Hh) as (HL & _).
  destruct (Z.ltb_spec (Z.of_nat (length inp)) sizeof_ip6_hdr) as [Hl|_];
    [unfold sizeof_ip6_hdr in Hl; lia|].
  rewrite Hh. cbn [mbind res_bind].
  assert ((if ip6_nxt h =? IPPROTO_ICMPV6
           then t ← rd8 40 inp; Ok (Z.land t 0x80 =? 0) else Ok false) =
          Ok ((ip6_nxt h =? IPPROTO_ICMPV6) && (nth 40 inp 0 <? 128))) as ->.
  { destruct (Z.eqb_spec (ip6_nxt h) IPPROTO_ICMPV6) as [E|E]; [|done].
    destruct Hlen as [|Hlen]; [done|]. unfold rd8.
    destruct (lookup_lt_is_Some_2 inp 40) as [x Hx]; [lia|].
    rewrite Hx. cbn [from_option mbind res_bind]. erewrite nth_lookup_Some by exact Hx.
    rewrite icmp_error_bit; [done|]. by eapply bytes_ok_lookup. }
  cbn [mbind res_bind]. destruct (_ && _); [done|]. cbn [orb].
  destruct (IN6_IS_ADDR_MULTICAST (ip6_dst h)); [done|]. cbn [orb].
  destruct (_ || _); [done|]. do 2 f_equal.
  change (Z.to_nat (1280 - (sizeof_ip6_hdr + sizeof_icmp6_hdr))) with 1232%nat.
  destruct (Nat.ltb_spec 1232 (length inp)); [done|]. rewrite !take_ge by lia. done.
Qed.

(** [BuildICMPv6Error] answers nothing to ICMPv6 errors, multicast
    destinations and multicast or unspecified sources, and otherwise quotes at
    most 1232 bytes, so that the error message fits the minimum IPv6 MTU. *)
Theorem BuildICMPv6Error_spec (type code : Z) (inp : list Z) (h : ip6_hdr)
    (Hb : bytes_ok inp) (Hh : get_ip6 inp = Ok h)
    (Hlen : ip6_nxt h <> IPPROTO_ICMPV6 \/ (41 <= length inp)%nat) :
  exists out, BuildICMPv6Error type code inp = Ok out /\ (length out <= 1240)%nat /\
    out = (if no_icmp_error inp h then [] else [type; code; 0; 0; 0; 0; 0; 0] ++ take 1232 inp).
Proof.
  eexists. split; [by apply BuildICMPv6Error_ok|]. split; [|done].
  destruct (no_icmp_error _ _); [cbn; lia|]. rewrite length_app, length_take. cbn [length]. lia.
Qed.

Lemma BuildICMPv6Error_spec_witness :
  exists out, BuildICMPv6Error 1 4 (ip6 example_pong) = Ok out /\ (length out <= 1240)%nat /\
    out = [1; 4; 0; 0; 0; 0; 0; 0] ++ ip6 example_pong.
Proof.
  destruct (get_ip6 (ip6 example_pong)) as [h|] eqn:E; [|by vm_compute in E].
  destruct (BuildICMPv6Error_spec 1 4 (ip6 example_pong) h) as (out & E1 & E2 & E3).
  - apply example_pong_wf.
  - exact E.
  - right. vm_compute. lia.
  - exists out. split_and!; [exact E1|exact E2|]. rewrite E3.
    vm_compute in E. injection E as <-. vm_compute. reflexivity.
Defined.

(** A packet that is exactly an IPv6 header announcing ICMPv6 makes
    [BuildICMPv6Error] read the ICMPv6 type past the end of the packet. *)
Theorem BuildICMPv6Error_reads_past_header (type code : Z) (inp : list Z) (h : ip6_hdr)
    (Hh : get_ip6 inp = Ok h) (Hlen : length inp = 40%nat) (Hnxt : ip6_nxt h = IPPROTO_ICMPV6) :
  BuildICMPv6Error type code inp = Err OutOfBounds.
Proof.
  unfold BuildICMPv6Error. rewrite Hlen, Hh. cbn [mbind res_bind]. rewrite Hnxt.
  change (Z.of_nat 40 <? sizeof_ip6_hdr) with false. change (IPPROTO_ICMPV6 =? _) with true.
  cbv iota. unfold rd8. rewrite lookup_ge_None_2 by lia. done.
Qed.

Lemma BuildICMPv6Error_reads_past_header_witness :
  BuildICMPv6Error 1 4 (put_ip6 (rs_header true)) = Err OutOfBounds.
Proof.
  destruct (get_ip6 (put_ip6 (rs_header true))) as [h|] eqn:E; [|by vm_compute in E].
  apply (BuildICMPv6Error_reads_past_header 1 4 _ h E); [done|].
  vm_compute in E. injection E as <-. reflexivity.
Defined.
