(* ===== verification/PeerList.v ===== *)
(** * Peer list of a relay or client ([peerlist.c], [peerlist.h])

Two intrusive doubly linked lists (peers used recently, peers used before
the last collection), a search tree that indexes them by IPv6 address, a
mutex and a garbage collection thread.  The lists are modelled at the
level of the pointers: a heap of list items, [pprev] pointers that may
designate the list heads or the [next] field of another item, and
explicit allocation and release. *)

From stdpp Require Import base gmap list numbers.
From S2P Require Import Prelude Words Addr Udp.

(** ** Data *)

(** [struct teredo_queue]; the [length] field is the length of the data. *)
Record teredo_queue := mk_teredo_queue {
  q_data : list Z;
  q_ipv4 : Z;
  q_port : Z;
  q_incoming : bool;
}.

(** [struct teredo_peer]; the singly linked queue is owned by the peer. *)
Record teredo_peer := mk_teredo_peer {
  queue : list teredo_queue;
  queue_left : Z;
  last_rx : Z;
  last_tx : Z;
  last_ping : Z;
  mapped_addr : Z;
  mapped_port : Z;
  trusted : bool;
  local : bool;
  bubbles : Z;   (* 3 bits *)
  pings : Z;     (* 3 bits *)
}.

Definition teredo_MaxQueueBytes : Z := 1280.

Abbreviation loc := positive.

(** A [teredo_listitem **]: one of the two heads, or the [next] field of an item. *)
Inductive pptr := PRecent | POld | PNext (p : loc).

#[export] Instance pptr_eq_dec : EqDecision pptr.
Proof. solve_decision. Defined.

Record teredo_listitem := mk_teredo_listitem {
  key : in6_addr;
  pprev : pptr;
  next : option loc;
  peer : teredo_peer;
}.

(** [struct teredo_peerlist], with the memory the items live in.  A tree node
    holds the address of an item, or ([None]) the address of the caller's key
    until the item is allocated. *)
Record teredo_peerlist := mk_teredo_peerlist {
  recent : option loc;
  old : option loc;
  left : Z;
  expiration : Z;
  locked : bool;
  root : gmap in6_addr (option loc);
  heap : gmap loc teredo_listitem;
}.

Definition set_recent (v : option loc) (l : teredo_peerlist) :=
  mk_teredo_peerlist v (old l) (left l) (expiration l) (locked l) (root l) (heap l).
Definition set_old (v : option loc) (l : teredo_peerlist) :=
  mk_teredo_peerlist (recent l) v (left l) (expiration l) (locked l) (root l) (heap l).
Definition set_left (v : Z) (l : teredo_peerlist) :=
  mk_teredo_peerlist (recent l) (old l) v (expiration l) (locked l) (root l) (heap l).
Definition set_locked (v : bool) (l : teredo_peerlist) :=
  mk_teredo_peerlist (recent l) (old l) (left l) (expiration l) v (root l) (heap l).
Definition set_root (v : gmap in6_addr (option loc)) (l : teredo_peerlist) :=
  mk_teredo_peerlist (recent l) (old l) (left l) (expiration l) (locked l) v (heap l).
Definition set_heap (v : gmap loc teredo_listitem) (l : teredo_peerlist) :=
  mk_teredo_peerlist (recent l) (old l) (left l) (expiration l) (locked l) (root l) v.

(** ** Packet queues *)

Definition teredo_peer_init (p : teredo_peer) : teredo_peer :=
  mk_teredo_peer [] teredo_MaxQueueBytes (last_rx p) (last_tx p) (last_ping p)
    (mapped_addr p) (mapped_port p) (trusted p) (local p) (bubbles p) (pings p).

Definition set_queue (q : list teredo_queue) (left : Z) (p : teredo_peer) : teredo_peer :=
  mk_teredo_peer q left (last_rx p) (last_tx p) (last_ping p)
    (mapped_addr p) (mapped_port p) (trusted p) (local p) (bubbles p) (pings p).

(** [mem]: whether [malloc] succeeds; its result is not tested by the code. *)
Definition teredo_peer_queue (mem : bool) (p : teredo_peer) (data : list Z) (ip port : Z)
    (incoming : bool) : res teredo_peer :=
  let len := Z.of_nat (length data) in
  if queue_left p <? len then Ok p else
  if negb mem then Err NullDeref else
  Ok (set_queue (mk_teredo_queue data ip port incoming :: queue p) (queue_left p - len) p).

Definition teredo_enqueue_in (mem : bool) (p : teredo_peer) (data : list Z) (ip port : Z)
    : res teredo_peer := teredo_peer_queue mem p data ip port true.

Definition teredo_enqueue_out (mem : bool) (p : teredo_peer) (data : list Z) : res teredo_peer :=
  teredo_peer_queue mem p data 0 0 false.

Definition teredo_peer_queue_yield (p : teredo_peer) : list teredo_queue * teredo_peer :=
  (queue p, set_queue [] teredo_MaxQueueBytes p).

Section emit.
Context `{Env}.

Fixpoint teredo_queue_emit (q : list teredo_queue) (fd ipv4 port : Z)
    (cb : list Z -> st world unit) : st world unit :=
  match q with
  | [] => mret tt
  | p :: q =>
    (if q_incoming p then
       if (ipv4 =? q_ipv4 p) && (port =? q_port p) then cb (q_data p) else mret tt
     else teredo_send fd (q_data p) ipv4 port;; mret tt);;
    teredo_queue_emit q fd ipv4 port cb
  end.
End emit.

Definition SetMapping (ip port : Z) (p : teredo_peer) : teredo_peer :=
  mk_teredo_peer (queue p) (queue_left p) (last_rx p) (last_tx p) (last_ping p)
    ip port (trusted p) (local p) (bubbles p) (pings p).
Definition TouchReceive (now : Z) (p : teredo_peer) : teredo_peer :=
  mk_teredo_peer (queue p) (queue_left p) now (last_tx p) (last_ping p)
    (mapped_addr p) (mapped_port p) (trusted p) (local p) (bubbles p) (pings p).
Definition TouchTransmit (now : Z) (p : teredo_peer) : teredo_peer :=
  mk_teredo_peer (queue p) (queue_left p) (last_rx p) now (last_ping p)
    (mapped_addr p) (mapped_port p) (trusted p) (local p) (bubbles p) (pings p).

(** [teredo_clock_t] is an [unsigned long]: 64 bits. *)
Definition IsValid (p : teredo_peer) (now : Z) : bool :=
  wrap 64 (now - last_rx p) <=? (if local p then 600 else 30).

(** ** Memory *)

Definition deref (h : gmap loc teredo_listitem) (p : loc) : res teredo_listitem :=
  from_option UseAfterFree (h !! p).

Definition set_pprev (p : loc) (v : pptr) (l : teredo_peerlist) : res teredo_peerlist :=
  it ← deref (heap l) p;
  Ok (set_heap (<[p := mk_teredo_listitem (key it) v (next it) (peer it)]> (heap l)) l).

Definition set_next (p : loc) (v : option loc) (l : teredo_peerlist) : res teredo_peerlist :=
  it ← deref (heap l) p;
  Ok (set_heap (<[p := mk_teredo_listitem (key it) (pprev it) v (peer it)]> (heap l)) l).

(** [*pp] and [*pp = v]. *)
Definition load_pp (pp : pptr) (l : teredo_peerlist) : res (option loc) :=
  match pp with
  | PRecent => Ok (recent l)
  | POld => Ok (old l)
  | PNext p => it ← deref (heap l) p; Ok (next it)
  end.
Definition store_pp (pp : pptr) (v : option loc) (l : teredo_peerlist) : res teredo_peerlist :=
  match pp with
  | PRecent => Ok (set_recent v l)
  | POld => Ok (set_old v l)
  | PNext p => set_next p v l
  end.

(** Access to the peer behind a pointer returned by a lookup. *)
Definition get_peer (p : loc) (l : teredo_peerlist) : res teredo_peer :=
  it ← deref (heap l) p; Ok (peer it).
Definition put_peer (p : loc) (v : teredo_peer) (l : teredo_peerlist) : res teredo_peerlist :=
  it ← deref (heap l) p;
  Ok (set_heap (<[p := mk_teredo_listitem (key it) (pprev it) (next it) v]> (heap l)) l).

Definition pthread_mutex_lock (l : teredo_peerlist) : res teredo_peerlist :=
  if locked l then Err Deadlock else Ok (set_locked true l).
Definition pthread_mutex_unlock (l : teredo_peerlist) : res teredo_peerlist :=
  if locked l then Ok (set_locked false l) else Err BadUnlock.

(** ** List items *)

(** [mem] is the memory [malloc] returns, with arbitrary contents. *)
Definition listitem_create (mem : option teredo_listitem) : option teredo_listitem :=
  match mem with
  | None => None
  | Some g => Some (mk_teredo_listitem (key g) (pprev g) (next g) (teredo_peer_init (peer g)))
  end.

(** One iteration of [listitem_recdestroy]: the next item and the heap. *)
Definition listitem_destroy_next (h : gmap loc teredo_listitem) (p : loc)
    : res (option loc * gmap loc teredo_listitem) :=
  it ← deref h p;
  Ok (next it, delete p h).

Fixpoint listitem_recdestroy (fuel : nat) (h : gmap loc teredo_listitem) (entry : option loc)
    : res (gmap loc teredo_listitem) :=
  match entry with
  | None => Ok h
  | Some p =>
    match fuel with
    | O => Err OutOfFuel
    | S fuel => '(buf, h) ← listitem_destroy_next h p; listitem_recdestroy fuel h buf
    end
  end.

(** ** Garbage collection *)

(** The loop that removes the expired peers from the tree. *)
Fixpoint gc_unhash (fuel : nat) (p : option loc) (l : teredo_peerlist) : res teredo_peerlist :=
  match p with
  | None => Ok l
  | Some p =>
    match fuel with
    | O => Err OutOfFuel
    | S fuel =>
      it ← deref (heap l) p;
      guard_or AssertFailed (bool_decide (is_Some (root l !! key it)));;
      gc_unhash fuel (next it)
        (set_left (wrap 32 (left l + 1)) (set_root (delete (key it) (root l)) l))
    end
  end.

(** The part of the collector that runs under the lock; returns the peers to
    be released. *)
Definition gc_collect (l : teredo_peerlist) : res (option loc * teredo_peerlist) :=
  l ← pthread_mutex_lock l;
  l ← gc_unhash (S (size (heap l))) (old l) l;
  let expired := old l in
  let l := set_recent None (set_old (recent l) l) in
  l ← match old l with Some p => set_pprev p POld l | None => Ok l end;
  l ← pthread_mutex_unlock l;
  Ok (expired, l).

(** One round of the collector. *)
Definition garbage_collector (l : teredo_peerlist) : res teredo_peerlist :=
  '(expired, l) ← gc_collect l;
  h ← listitem_recdestroy (S (size (heap l))) (heap l) expired;
  Ok (set_heap h l).

(** ** Creation and destruction *)

Definition teredo_list_create (mem thread : bool) (max exp : Z) : res (option teredo_peerlist) :=
  guard_or AssertFailed (0 <? exp);;
  if negb mem then Ok None else
  if negb thread then Ok None else
  Ok (Some (mk_teredo_peerlist None None max exp false ∅ ∅)).

(** The part of [teredo_list_reset] that runs under the lock. *)
Definition reset_detach (max : Z) (l : teredo_peerlist)
    : res (option loc * option loc * teredo_peerlist) :=
  l ← pthread_mutex_lock l;
  let rs := recent l in
  let os := old l in
  l ← pthread_mutex_unlock (set_left max (set_recent None (set_old None (set_root ∅ l))));
  Ok (rs, os, l).

Definition teredo_list_reset (max : Z) (l : teredo_peerlist) : res teredo_peerlist :=
  '(rs, os, l) ← reset_detach max l;
  h ← listitem_recdestroy (S (size (heap l))) (heap l) os;
  h ← listitem_recdestroy (S (size h)) h rs;
  Ok (set_heap h l).

(** The memory still allocated once the list itself is released. *)
Definition teredo_list_destroy (l : teredo_peerlist) : res (gmap loc teredo_listitem) :=
  l ← teredo_list_reset 0 l;
  Ok (heap l).

(** ** Lookup *)

(** The assertions on the position of an item in its list. *)
Definition assert_linked (p : loc) (l : teredo_peerlist) : res unit :=
  it ← deref (heap l) p;
  v ← load_pp (pprev it) l;
  guard_or AssertFailed (bool_decide (v = Some p));;
  match next it with
  | None => Ok tt
  | Some n => nit ← deref (heap l) n;
              guard_or AssertFailed (bool_decide (pprev nit = PNext p))
  end.

Definition unlink (p : loc) (l : teredo_peerlist) : res teredo_peerlist :=
  it ← deref (heap l) p;
  l ← match next it with Some n => set_pprev n (pprev it) l | None => Ok l end;
  store_pp (pprev it) (next it) l.

Definition push_recent (p : loc) (l : teredo_peerlist) : res teredo_peerlist :=
  l ← set_next p (recent l) l;
  l ← match recent l with Some n => set_pprev n (PNext p) l | None => Ok l end;
  set_pprev p PRecent (set_recent (Some p) l).

(** The peer was already in the list. *)
Definition lookup_found (p : loc) (l : teredo_peerlist) : res teredo_peerlist :=
  assert_linked p l;;
  if bool_decide (recent l = Some p) then Ok l else
  l ← unlink p l;
  l ← push_recent p l;
  assert_linked p l;;
  Ok l.

(** The peer was not in the list, the tree node for it exists. *)
Definition lookup_create (addr : in6_addr) (mem : option teredo_listitem) (l : teredo_peerlist)
    : res (option loc * teredo_peerlist) :=
  match (if 0 <? left l then listitem_create mem else None) with
  | None =>
    l ← pthread_mutex_unlock (set_root (delete addr (root l)) l);
    Ok (None, l)
  | Some it =>
    let p := fresh (dom (heap l)) in
    l ← push_recent p (set_heap (<[p := it]> (heap l)) l);
    let l := set_left (left l - 1) l in
    assert_linked p l;;
    it ← deref (heap l) p;
    Ok (Some p,
        set_heap (<[p := mk_teredo_listitem addr (pprev it) (next it) (peer it)]> (heap l))
          (set_root (<[addr := Some p]> (root l)) l))
  end.

(** [create]: whether the caller passes a non-null pointer; the new value of
    [*create] is returned with the peer.  [node]: whether the tree can
    allocate a node; [mem]: what [malloc] returns for the item. *)
Definition lookup_locked (addr : in6_addr) (create node : bool) (mem : option teredo_listitem)
    (l : teredo_peerlist) : res (option (loc * bool) * teredo_peerlist) :=
  match root l !! addr with
  | Some (Some p) => l ← lookup_found p l; Ok (Some (p, false), l)
  | Some None => Err UseAfterFree
  | None =>
    if create && node then
      '(r, l) ← lookup_create addr mem (set_root (<[addr := None]> (root l)) l);
      Ok (match r with Some p => Some (p, true) | None => None end, l)
    else l ← pthread_mutex_unlock l; Ok (None, l)
  end.

Definition teredo_list_lookup (addr : in6_addr) (create node : bool)
    (mem : option teredo_listitem) (l : teredo_peerlist)
    : res (option (loc * bool) * teredo_peerlist) :=
  l ← pthread_mutex_lock l;
  lookup_locked addr create node mem l.

Definition teredo_list_release (l : teredo_peerlist) : res teredo_peerlist :=
  pthread_mutex_unlock l.

(** ** Abstract view

The list as two sequences of entries, most recently used first. *)

Record entry := mk_entry { e_loc : loc; e_key : in6_addr; e_peer : teredo_peer }.

Definition locs (es : list entry) : list loc := e_loc <$> es.
Definition keys (es : list entry) : list in6_addr := e_key <$> es.

(** A segment of a doubly linked list: [cur] designates its first item, whose
    [pprev] is [pp]; [pp'] and [cur'] are those of the item after the last. *)
Fixpoint seg (h : gmap loc teredo_listitem) (pp : pptr) (cur : option loc) (es : list entry)
    (pp' : pptr) (cur' : option loc) : Prop :=
  match es with
  | [] => pp = pp' /\ cur = cur'
  | e :: es =>
    cur = Some (e_loc e) /\
    exists nx, h !! e_loc e = Some (mk_teredo_listitem (e_key e) pp nx (e_peer e)) /\
               seg h (PNext (e_loc e)) nx es pp' cur'
  end.

Definition chain h pp cur es : Prop := exists pp', seg h pp cur es pp' None.

(** A detached list: only its forward links matter. *)
Fixpoint fseg (h : gmap loc teredo_listitem) (cur : option loc) (ls : list loc) : Prop :=
  match ls with
  | [] => cur = None
  | p :: ls => cur = Some p /\ exists it, h !! p = Some it /\ fseg h (next it) ls
  end.

Definition with_pprev (v : pptr) (it : teredo_listitem) : teredo_listitem :=
  mk_teredo_listitem (key it) v (next it) (peer it).
Definition with_next (v : option loc) (it : teredo_listitem) : teredo_listitem :=
  mk_teredo_listitem (key it) (pprev it) v (peer it).

(** Two states that differ at most in their links. *)
Definition same_rest (l l' : teredo_peerlist) : Prop :=
  left l' = left l /\ expiration l' = expiration l /\ locked l' = locked l /\ root l' = root l /\
  dom (heap l') = dom (heap l).

Section segments.
Implicit Types h : gmap loc teredo_listitem.

Lemma seg_app h pp cur es1 es2 pp' cur' :
  seg h pp cur (es1 ++ es2) pp' cur' <->
  exists ppm curm, seg h pp cur es1 ppm curm /\ seg h ppm curm es2 pp' cur'.
Proof.
  revert pp cur. induction es1 as [|e es1 IH]; intros pp cur; simpl.
  - split; [|by intros (? & ? & [-> ->] & ?)]. intros H. by exists pp, cur.
  - setoid_rewrite IH. naive_solver.
Qed.

Lemma seg_frame h h' pp cur es pp' cur' :
  (forall p, p ∈ locs es -> h' !! p = h !! p) ->
  seg h pp cur es pp' cur' -> seg h' pp cur es pp' cur'.
Proof.
  revert pp cur. induction es as [|e es IH]; intros pp cur Hf; simpl; [done|].
  intros (-> & nx & Hl & Hs). split; [done|]. exists nx. split.
  - rewrite Hf; [done|]. apply elem_of_cons. by left.
  - apply IH; [|done]. intros p Hp. apply Hf, elem_of_cons. by right.
Qed.

Lemma chain_frame h h' pp cur es :
  (forall p, p ∈ locs es -> h' !! p = h !! p) -> chain h pp cur es -> chain h' pp cur es.
Proof. intros Hf [pp' Hs]. exists pp'. by eapply seg_frame. Qed.

Lemma fseg_frame h h' cur ls :
  (forall p, p ∈ ls -> h' !! p = h !! p) -> fseg h cur ls -> fseg h' cur ls.
Proof.
  revert cur. induction ls as [|p ls IH]; intros cur Hf; simpl; [done|].
  intros (-> & it & Hl & Hs). split; [done|]. exists it. split.
  - rewrite Hf; [done|]. apply elem_of_cons. by left.
  - apply IH; [|done]. intros q Hq. apply Hf, elem_of_cons. by right.
Qed.

Lemma seg_in_dom h pp cur es pp' cur' p :
  seg h pp cur es pp' cur' -> p ∈ locs es -> is_Some (h !! p).
Proof.
  revert pp cur. induction es as [|e es IH]; intros pp cur; simpl; [by intros _ ?%elem_of_nil|].
  intros (_ & nx & Hl & Hs) [->|Hp]%elem_of_cons; [eauto|]. by eapply IH.
Qed.

Lemma chain_fseg h pp cur es : chain h pp cur es -> fseg h cur (locs es).
Proof.
  intros [pp' Hs]. revert pp cur Hs. induction es as [|e es IH]; intros pp cur; simpl;
    [naive_solver|].
  intros (-> & nx & Hl & Hs). split; [done|]. eexists. split; [done|]. by eapply IH.
Qed.

Lemma chain_nil h pp cur : chain h pp cur [] <-> cur = None.
Proof. unfold chain; simpl. naive_solver. Qed.

Lemma chain_hd h pp cur es : chain h pp cur es -> cur = head (locs es).
Proof. intros [pp' Hs]. destruct es; simpl in *; naive_solver. Qed.

(** The item in the middle of a chain. *)
Lemma chain_middle h pp cur es1 e es2 :
  chain h pp cur (es1 ++ e :: es2) <->
  exists ppm nx, seg h pp cur es1 ppm (Some (e_loc e)) /\
    h !! e_loc e = Some (mk_teredo_listitem (e_key e) ppm nx (e_peer e)) /\
    chain h (PNext (e_loc e)) nx es2.
Proof.
  unfold chain. setoid_rewrite seg_app. simpl. split.
  - intros (pp' & ppm & curm & H1 & -> & nx & Hl & H2). eauto 10.
  - intros (ppm & nx & H1 & Hl & pp' & H2). eauto 10.
Qed.

(** Redirecting the [pprev] field of the first item. *)
Lemma chain_set_pprev h pp pp1 cur es :
  NoDup (locs es) -> chain h pp cur es ->
  chain (match cur with Some n => alter (with_pprev pp1) n h | None => h end) pp1 cur es.
Proof.
  intros Hnd [pp' Hs]. destruct es as [|e es]; simpl in *.
  - destruct Hs as [<- ->]. by exists pp1.
  - destruct Hs as (-> & nx & Hl & Hs). apply list.NoDup_cons in Hnd as [Hn _].
    exists pp'. split; [done|]. exists nx. rewrite lookup_alter_eq, Hl. split; [done|].
    eapply seg_frame; [|done]. intros p Hp. rewrite lookup_alter_ne; [done|].
    intros <-. done.
Qed.

(** Redirecting the [next] field of the last item. *)
Lemma seg_set_next h pp cur es p cur1 cur2 :
  NoDup (locs es) -> es <> [] -> seg h pp cur es (PNext p) cur1 ->
  p ∈ locs es /\ seg (alter (with_next cur2) p h) pp cur es (PNext p) cur2.
Proof.
  intros Hnd Hne. destruct es as [|e es _] using rev_ind; [done|].
  unfold locs in *. rewrite fmap_app in *. simpl in *.
  apply list.NoDup_app in Hnd as (_ & Hd & _). rewrite !seg_app. simpl.
  intros (ppm & curm & H1 & -> & nx & Hl & [= <-] & ->). split; [set_solver|].
  exists ppm, (Some (e_loc e)). split.
  - eapply seg_frame; [|done]. intros q Hq. apply lookup_alter_ne. intros <-.
    apply (Hd _ Hq). set_solver.
  - split; [done|]. exists cur2. rewrite lookup_alter_eq, Hl. done.
Qed.

Lemma seg_end h pp cur es pp' cur' :
  seg h pp cur es pp' cur' ->
  (es = [] /\ pp' = pp /\ cur = cur') \/ (exists p, es <> [] /\ pp' = PNext p /\ p ∈ locs es).
Proof.
  destruct es as [|e es _] using rev_ind; [intros [-> ->]; by left|].
  rewrite seg_app. simpl. intros (? & ? & _ & _ & ? & _ & <- & _). right.
  exists (e_loc e). split_and!; [by destruct es|done|].
  unfold locs. rewrite fmap_app. apply elem_of_app. right. by left.
Qed.
End segments.

(** ** Pointer operations on well-formed lists *)

(** The head pointers. *)
Definition is_head (R : pptr) : Prop := R = PRecent \/ R = POld.
Definition head_of (R : pptr) (l : teredo_peerlist) : option loc :=
  match R with PRecent => recent l | POld => old l | PNext _ => None end.

Lemma deref_ok h p it : h !! p = Some it -> deref h p = Ok it.
Proof. unfold deref. by intros ->. Qed.

Lemma set_pprev_ok l p v :
  is_Some (heap l !! p) -> set_pprev p v l = Ok (set_heap (alter (with_pprev v) p (heap l)) l).
Proof.
  intros [it Hit]. unfold set_pprev. rewrite (deref_ok _ _ _ Hit). cbn [mbind res_bind].
  do 2 f_equal. apply map_eq. intros q. destruct (decide (p = q)) as [<-|Hne].
  - by rewrite lookup_insert_eq, lookup_alter_eq, Hit.
  - by rewrite lookup_insert_ne, lookup_alter_ne.
Qed.

Lemma set_next_ok l p v :
  is_Some (heap l !! p) -> set_next p v l = Ok (set_heap (alter (with_next v) p (heap l)) l).
Proof.
  intros [it Hit]. unfold set_next. rewrite (deref_ok _ _ _ Hit). cbn [mbind res_bind].
  do 2 f_equal. apply map_eq. intros q. destruct (decide (p = q)) as [<-|Hne].
  - by rewrite lookup_insert_eq, lookup_alter_eq, Hit.
  - by rewrite lookup_insert_ne, lookup_alter_ne.
Qed.

(** The optional [n->pprev = v] of the code. *)
Lemma set_pprev_opt_ok l on v :
  (forall n, on = Some n -> is_Some (heap l !! n)) ->
  match on with Some n => set_pprev n v l | None => Ok l end =
  Ok (set_heap (match on with Some n => alter (with_pprev v) n (heap l) | None => heap l end) l).
Proof.
  intros Hn. destruct on as [n|]; [by apply set_pprev_ok, Hn|]. by destruct l.
Qed.

Lemma chain_next_some h pp cur es n :
  chain h pp cur es -> cur = Some n -> n ∈ locs es /\ is_Some (h !! n).
Proof.
  intros [pp' Hs] ->. destruct es as [|e es]; [by destruct Hs|].
  assert (n ∈ locs (e :: es)) by (destruct Hs as ([= ->] & _); by left).
  split; [done|]. by eapply seg_in_dom.
Qed.

Lemma locs_app es1 es2 : locs (es1 ++ es2) = locs es1 ++ locs es2.
Proof. apply fmap_app. Qed.

Lemma same_rest_heap l h : dom h = dom (heap l) -> same_rest l (set_heap h l).
Proof. by intros ?. Qed.

Lemma same_rest_trans l1 l2 l3 : same_rest l1 l2 -> same_rest l2 l3 -> same_rest l1 l3.
Proof.
  intros (H1 & H2 & H3 & H4 & H5) (H1' & H2' & H3' & H4' & H5').
  split_and!; by etrans.
Qed.

Lemma assert_linked_ok l R es1 e es2 :
  is_head R -> chain (heap l) R (head_of R l) (es1 ++ e :: es2) ->
  assert_linked (e_loc e) l = Ok tt.
Proof.
  intros HR (ppm & nx & H1 & Hl & H2)%chain_middle. unfold assert_linked.
  rewrite (deref_ok _ _ _ Hl). cbn [mbind res_bind pprev next].
  assert (load_pp ppm l = Ok (Some (e_loc e))) as ->.
  { destruct (seg_end _ _ _ _ _ _ H1) as [(-> & -> & <-)|(p & Hne & -> & Hp)].
    - destruct HR as [-> | ->]; done.
    - destruct es1 as [|e1 es1 _] using rev_ind; [done|].
      apply seg_app in H1 as (? & ? & _ & _ & nx1 & Hl1 & [= <-] & ->).
      unfold load_pp. by rewrite (deref_ok _ _ _ Hl1). }
  cbn [mbind res_bind]. rewrite bool_decide_eq_true_2 by done. cbn [guard_or mbind res_bind].
  destruct nx as [n|]; [|done]. destruct H2 as [pp' H2].
  destruct es2 as [|e2 es2]; [by destruct H2|]. destruct H2 as ([= ->] & nx2 & Hl2 & _).
  rewrite (deref_ok _ _ _ Hl2). cbn [mbind res_bind pprev].
  by rewrite bool_decide_eq_true_2.
Qed.

(** Storing through the [pprev] of an item: the segment before it now leads
    to the stored pointer. *)
Lemma store_pp_seg l R es ppm c c' :
  is_head R -> NoDup (locs es) -> seg (heap l) R (head_of R l) es ppm c ->
  exists l', store_pp ppm c' l = Ok l' /\ same_rest l l' /\
    seg (heap l') R (head_of R l') es ppm c' /\
    (forall R', is_head R' -> R' <> R -> head_of R' l' = head_of R' l) /\
    (forall q, q ∉ locs es -> heap l' !! q = heap l !! q).
Proof.
  intros HR Hnd Hs. destruct (seg_end _ _ _ _ _ _ Hs) as [(-> & -> & _)|(p & Hne & -> & Hp)].
  - destruct HR as [-> | ->]; eexists; (split; [done|]); split_and!; try done;
      intros R' [-> | ->] ?; done.
  - destruct (seg_set_next _ _ _ _ _ _ c' Hnd Hne Hs) as [_ Hs'].
    eexists. split; [by apply set_next_ok; eapply seg_in_dom|].
    split; [apply same_rest_heap; by rewrite dom_alter_L|]. split_and!.
    + destruct HR as [-> | ->]; exact Hs'.
    + by intros R' [-> | ->].
    + intros q Hq. cbn. apply lookup_alter_ne. by intros ->.
Qed.

Lemma unlink_ok l R es1 e es2 :
  is_head R -> NoDup (locs (es1 ++ e :: es2)) ->
  chain (heap l) R (head_of R l) (es1 ++ e :: es2) ->
  exists l', unlink (e_loc e) l = Ok l' /\ same_rest l l' /\
    chain (heap l') R (head_of R l') (es1 ++ es2) /\
    (forall R', is_head R' -> R' <> R -> head_of R' l' = head_of R' l) /\
    (forall q, q ∉ locs (es1 ++ es2) -> heap l' !! q = heap l !! q).
Proof.
  intros HR Hnd (ppm & nx & H1 & Hl & H2)%chain_middle. unfold unlink.
  rewrite (deref_ok _ _ _ Hl). cbn [mbind res_bind pprev next].
  rewrite set_pprev_opt_ok by (intros n ->; by eapply chain_next_some). cbn [mbind res_bind].
  rewrite locs_app in Hnd. apply list.NoDup_app in Hnd as (Hnd1 & Hd & Hnd2).
  apply list.NoDup_cons in Hnd2 as [Hn2 Hnd2]. fold (locs es2) in Hn2, Hnd2.
  set (h1 := match nx with Some n => alter (with_pprev ppm) n (heap l) | None => heap l end).
  assert (forall q, q ∉ locs es2 -> h1 !! q = heap l !! q) as Hf1.
  { intros q Hq. subst h1. destruct nx as [n|]; [|done]. apply lookup_alter_ne. intros <-.
    by destruct (chain_next_some _ _ _ _ _ H2 eq_refl). }
  assert (dom h1 = dom (heap l)) as Hdom.
  { subst h1. destruct nx; [by rewrite dom_alter_L|done]. }
  pose proof (chain_set_pprev (heap l) _ ppm nx es2 Hnd2 H2) as [pp2 H2']. fold h1 in H2'.
  clearbody h1.
  assert (forall q, q ∈ locs es1 -> q ∉ locs es2) as Hd'
    by (intros q Hq Hq'; apply (Hd q Hq); by right).
  destruct (store_pp_seg (set_heap h1 l) R es1 ppm (Some (e_loc e)) nx HR Hnd1)
    as (l' & -> & Hrest & H1' & Hheads & Hf2).
  { replace (head_of R (set_heap h1 l)) with (head_of R l) by by destruct HR as [-> | ->].
    eapply seg_frame; [|exact H1]. intros q Hq. by apply Hf1, Hd'. }
  exists l'. split; [done|].
  split; [eapply same_rest_trans; [by apply same_rest_heap|done]|]. split_and!.
  - exists pp2. apply seg_app. exists ppm, nx. split; [done|].
    eapply seg_frame; [|exact H2']. intros q Hq. apply Hf2. intros Hq'. by apply (Hd' q).
  - intros R' HR' Hne. rewrite Hheads by done. by destruct HR' as [-> | ->].
  - intros q Hq. rewrite locs_app in Hq. apply not_elem_of_app in Hq as [Hq1 Hq2].
    rewrite Hf2 by done. by apply Hf1.
Qed.

(** Inserting an allocated item at the head of the recent list. *)
Lemma push_recent_ok l p it es :
  heap l !! p = Some it -> p ∉ locs es -> NoDup (locs es) ->
  chain (heap l) PRecent (recent l) es ->
  exists l', push_recent p l = Ok l' /\ same_rest l l' /\ old l' = old l /\ recent l' = Some p /\
    chain (heap l') PRecent (recent l') (mk_entry p (key it) (peer it) :: es) /\
    (forall q, q ≠ p -> q ∉ locs es -> heap l' !! q = heap l !! q).
Proof.
  intros Hp Hn Hnd Hc. unfold push_recent. rewrite set_next_ok by eauto. cbn [mbind res_bind].
  set (h1 := alter (with_next (recent l)) p (heap l)).
  assert (chain h1 PRecent (recent l) es) as Hc1.
  { eapply chain_frame; [|exact Hc]. intros q Hq. apply lookup_alter_ne. by intros <-. }
  change (recent (set_heap h1 l)) with (recent l).
  rewrite set_pprev_opt_ok by (intros n E; by eapply chain_next_some). cbn [mbind res_bind].
  change (heap (set_heap h1 l)) with h1.
  set (h2 := match recent l with Some n => alter (with_pprev (PNext p)) n h1 | None => h1 end).
  pose proof (chain_set_pprev h1 _ (PNext p) _ es Hnd Hc1) as Hc2. fold h2 in Hc2.
  assert (forall q, q ∉ locs es -> h2 !! q = h1 !! q) as Hf2.
  { intros q Hq. subst h2. cbn. destruct (recent l) as [n|] eqn:E; [|done].
    apply lookup_alter_ne. intros <-. by destruct (chain_next_some _ _ _ _ _ Hc1 eq_refl). }
  assert (dom h2 = dom (heap l)) as Hdom.
  { subst h2 h1. destruct (recent l); cbn [heap set_heap]; by rewrite ?dom_alter_L. }
  clearbody h2.
  assert (h2 !! p = Some (mk_teredo_listitem (key it) (pprev it) (recent l) (peer it))) as Hp2.
  { rewrite Hf2 by done. unfold h1. by rewrite lookup_alter_eq, Hp. }
  rewrite set_pprev_ok by eauto.
  eexists. split; [done|]. cbn [heap set_heap set_recent old recent]. split_and!; try done.
  - unfold same_rest. cbn [heap set_heap set_recent]. by rewrite dom_alter_L.
  - destruct Hc2 as [pp' Hc2]. exists pp'. split; [done|]. exists (recent l).
    split; [by rewrite lookup_alter_eq, Hp2|]. cbn [e_loc].
    eapply seg_frame; [|exact Hc2]. intros q Hq. apply lookup_alter_ne. by intros <-.
  - intros q Hqp Hq. rewrite lookup_alter_ne by done. rewrite Hf2 by done.
    unfold h1. by rewrite lookup_alter_ne.
Qed.

(** ** Representation of the abstract list *)

Record alist := mk_alist {
  a_recent : list entry;
  a_old : list entry;
  a_max : Z;
}.

Definition entries (a : alist) : list entry := a_recent a ++ a_old a.

Fixpoint find_entry (k : in6_addr) (es : list entry) : option entry :=
  match es with
  | [] => None
  | e :: es => if decide (e_key e = k) then Some e else find_entry k es
  end.

Definition without (k : in6_addr) (es : list entry) : list entry :=
  filter (fun e => e_key e <> k) es.

Definition tree_of (es : list entry) : gmap in6_addr (option loc) :=
  list_to_map ((fun e => (e_key e, Some (e_loc e))) <$> es).

(** [pend]: the detached lists that are being released, as head pointer and
    items. *)
Record rep (l : teredo_peerlist) (a : alist) (pend : list (option loc * list loc)) : Prop := {
  rep_recent : chain (heap l) PRecent (recent l) (a_recent a);
  rep_old : chain (heap l) POld (old l) (a_old a);
  rep_pend : Forall (fun d => fseg (heap l) d.1 d.2) pend;
  rep_locs : NoDup (locs (entries a) ++ mjoin (snd <$> pend));
  rep_dom : dom (heap l) = list_to_set (locs (entries a) ++ mjoin (snd <$> pend));
  rep_keys : NoDup (keys (entries a));
  rep_root : root l = tree_of (entries a);
  rep_left : left l = a_max a - Z.of_nat (length (entries a));
  rep_max : Z.of_nat (length (entries a)) <= a_max a < 2 ^ 32;
}.

Section entries.
Implicit Types es : list entry.

Lemma find_entry_split k es e :
  find_entry k es = Some e ->
  e_key e = k /\ exists es1 es2, es = es1 ++ e :: es2 /\ k ∉ keys es1.
Proof.
  induction es as [|e' es IH]; simpl; [done|]. case_decide as Hk.
  - intros [= <-]. split; [done|]. exists [], es. split; [done|]. apply not_elem_of_nil.
  - intros (Hk' & es1 & es2 & -> & Hn)%IH. split; [done|].
    exists (e' :: es1), es2. split; [done|]. simpl. apply not_elem_of_cons. by split.
Qed.

Lemma find_entry_none k es : find_entry k es = None <-> k ∉ keys es.
Proof.
  induction es as [|e es IH]; simpl; [split; [intros _; apply not_elem_of_nil|done]|].
  rewrite not_elem_of_cons, <- IH. case_decide; naive_solver.
Qed.

Lemma find_entry_app k es1 es2 :
  find_entry k (es1 ++ es2) =
  match find_entry k es1 with Some e => Some e | None => find_entry k es2 end.
Proof. induction es1 as [|e es1 IH]; simpl; [done|]. by case_decide. Qed.

Lemma tree_lookup es k : tree_of es !! k = (fun e => Some (e_loc e)) <$> find_entry k es.
Proof.
  unfold tree_of. induction es as [|e es IH]; simpl; [apply lookup_empty|].
  case_decide as E; [subst; by rewrite lookup_insert_eq|by rewrite lookup_insert_ne].
Qed.

Lemma keys_app es1 es2 : keys (es1 ++ es2) = keys es1 ++ keys es2.
Proof. apply fmap_app. Qed.

Lemma without_none k es : k ∉ keys es -> without k es = es.
Proof.
  induction es as [|e es IH]; [done|]. simpl. intros [Hk Hn]%not_elem_of_cons.
  unfold without. rewrite filter_cons_True by done. by f_equal; apply IH.
Qed.

Lemma without_split k es1 e es2 :
  e_key e = k -> NoDup (keys (es1 ++ e :: es2)) -> without k (es1 ++ e :: es2) = es1 ++ es2.
Proof.
  rewrite keys_app. intros Hk (_ & Hd & Hnd)%list.NoDup_app.
  apply list.NoDup_cons in Hnd as [Hn _]. fold (keys es2) in Hn. subst k.
  unfold without. rewrite list.filter_app, filter_cons_False by (intros H; by apply H).
  fold (without (e_key e) es1) (without (e_key e) es2).
  rewrite !without_none; [done|done|]. intros Hin. apply (Hd _ Hin). by left.
Qed.

Lemma locs_perm es es' : es ≡ₚ es' -> locs es ≡ₚ locs es'.
Proof. apply fmap_Permutation. Qed.
Lemma keys_perm es es' : es ≡ₚ es' -> keys es ≡ₚ keys es'.
Proof. apply fmap_Permutation. Qed.

Lemma tree_perm es es' : NoDup (keys es) -> es ≡ₚ es' -> tree_of es = tree_of es'.
Proof.
  intros Hnd Hp. apply list_to_map_proper; [|by apply fmap_Permutation].
  rewrite <- list_fmap_compose. exact Hnd.
Qed.
End entries.

Lemma pend_in (pend : list (option loc * list loc)) d q :
  d ∈ pend -> q ∈ d.2 -> q ∈ mjoin (snd <$> pend).
Proof. intros Hd Hq. apply list_elem_of_join. exists d.2. split; [done|]. by apply list_elem_of_fmap_2. Qed.

(** A list that was rearranged, with an unchanged tree. *)
Lemma rep_permute l l' a rs' os' pend :
  rep l a pend -> same_rest l l' -> rs' ++ os' ≡ₚ entries a ->
  chain (heap l') PRecent (recent l') rs' -> chain (heap l') POld (old l') os' ->
  (forall q, q ∉ locs (entries a) -> heap l' !! q = heap l !! q) ->
  rep l' (mk_alist rs' os' (a_max a)) pend.
Proof.
  intros [Hr Ho Hp Hl Hd Hk Ht Hlf Hm] (E1 & E2 & E3 & E4 & E5) Hperm Hr' Ho' Hf.
  assert (entries (mk_alist rs' os' (a_max a)) = rs' ++ os') as He by done.
  split; rewrite ?He; cbn [a_recent a_old a_max].
  - done.
  - done.
  - apply list.NoDup_app in Hl as (_ & Hdis & _).
    apply list.Forall_forall. intros d Hin. rewrite list.Forall_forall in Hp.
    eapply fseg_frame; [|by apply Hp]. intros q Hq. apply Hf. intros Hq'.
    apply (Hdis q Hq'). by eapply pend_in.
  - by rewrite (locs_perm _ _ Hperm).
  - rewrite E5, Hd. apply list_to_set_perm_L. by rewrite (locs_perm _ _ Hperm).
  - by rewrite (keys_perm _ _ Hperm).
  - rewrite E4, Ht. by apply tree_perm.
  - rewrite E1, Hlf. by rewrite (Permutation_length Hperm).
  - by rewrite (Permutation_length Hperm).
Qed.

(** ** Lookup *)

(** Where an item is, and the two lists without it. *)
Definition located (a : alist) (e : entry) (R : pptr) (es1 es2 rs' os' : list entry) : Prop :=
  (R = PRecent /\ a_recent a = es1 ++ e :: es2 /\ rs' = es1 ++ es2 /\ os' = a_old a) \/
  (R = POld /\ a_old a = es1 ++ e :: es2 /\ rs' = a_recent a /\ os' = es1 ++ es2).

Lemma located_perm a e R es1 es2 rs' os' :
  located a e R es1 es2 rs' os' -> e :: rs' ++ os' ≡ₚ entries a.
Proof.
  unfold entries. intros [(_ & -> & -> & ->)|(_ & -> & -> & ->)].
  - rewrite <- !app_assoc. simpl. by rewrite Permutation_middle.
  - rewrite Permutation_middle. f_equiv. by rewrite Permutation_middle.
Qed.

Section lookup.
Context (l : teredo_peerlist) (a : alist) (pend : list (option loc * list loc)).
Hypothesis Hrep : rep l a pend.

Lemma located_chain e R es1 es2 rs' os' :
  located a e R es1 es2 rs' os' ->
  is_head R /\ chain (heap l) R (head_of R l) (es1 ++ e :: es2) /\
  NoDup (locs (es1 ++ e :: es2)).
Proof.
  destruct Hrep as [Hr Ho _ Hl _ _ _ _ _]. apply list.NoDup_app in Hl as (Hl & _ & _).
  unfold entries in Hl. rewrite locs_app in Hl. apply list.NoDup_app in Hl as (Hlr & _ & Hlo).
  intros [(-> & <- & _ & _)|(-> & <- & _ & _)]; split_and!; try done; [by left|by right].
Qed.

Lemma move_front e R es1 es2 rs' os' :
  located a e R es1 es2 rs' os' ->
  exists l1 l2, unlink (e_loc e) l = Ok l1 /\ push_recent (e_loc e) l1 = Ok l2 /\
    locked l2 = locked l /\ rep l2 (mk_alist (e :: rs') os' (a_max a)) pend.
Proof.
  intros Hloc. pose proof (located_perm _ _ _ _ _ _ _ Hloc) as Hperm.
  destruct (located_chain _ _ _ _ _ _ Hloc) as (HR & Hc & Hnd).
  assert (NoDup (locs (e :: rs' ++ os'))) as HND.
  { rewrite (locs_perm _ _ Hperm). destruct Hrep as [_ _ _ Hl _ _ _ _ _].
    by apply list.NoDup_app in Hl as (? & _). }
  destruct (unlink_ok l R es1 e es2 HR Hnd Hc) as (l1 & E1 & Hs1 & Hc1 & Hh1 & Hf1).
  assert (heap l1 !! e_loc e = heap l !! e_loc e) as He1.
  { apply Hf1. rewrite locs_app in *. apply list.NoDup_app in Hnd as (_ & Hd & Hn2).
    apply list.NoDup_cons in Hn2 as [Hn2 _]. apply not_elem_of_app. split; [|done].
    intros Hin. apply (Hd _ Hin). by left. }
  apply list.NoDup_cons in HND as [Hnin HND]. fold (locs (rs' ++ os')) in Hnin, HND.
  rewrite locs_app in Hnin, HND. apply not_elem_of_app in Hnin as [Hnr Hno].
  apply list.NoDup_app in HND as (HNr & Hdis & HNo).
  assert (chain (heap l1) PRecent (recent l1) rs' /\ chain (heap l1) POld (old l1) os')
    as [Hr1 Ho1].
  { destruct Hrep as [Hr Ho _ _ _ _ _ _ _].
    destruct Hloc as [(-> & ? & -> & ->)|(-> & ? & -> & ->)]; split; try done.
    - change (old l1) with (head_of POld l1). rewrite Hh1; [|by right|done].
      eapply chain_frame; [|exact Ho]. intros q Hq. apply Hf1.
      intros Hq'. by apply (Hdis q).
    - change (recent l1) with (head_of PRecent l1). rewrite Hh1; [|by left|done].
      eapply chain_frame; [|exact Hr]. intros q Hq. apply Hf1.
      intros Hq'. by apply (Hdis q). }
  apply chain_middle in Hc as (ppm & nx & _ & Hl & _).
  rewrite <- He1 in Hl. destruct (push_recent_ok l1 _ _ rs' Hl Hnr HNr Hr1)
    as (l2 & E2 & Hs2 & Eo2 & _ & Hr2 & Hf2). cbn [key peer] in Hr2.
  exists l1, l2. split_and!; [done|done|by destruct Hs1, Hs2; naive_solver|].
  apply (rep_permute l); [done|by eapply same_rest_trans|done|by destruct e| |].
  - rewrite Eo2. eapply chain_frame; [|exact Ho1]. intros q Hq. apply Hf2.
    + intros ->. done.
    + intros Hq'. by apply (Hdis q).
  - intros q Hq. rewrite <- (locs_perm _ _ Hperm) in Hq. cbn in Hq.
    apply not_elem_of_cons in Hq as [Hqe Hq]. fold (locs (rs' ++ os')) in Hq.
    rewrite locs_app in Hq. apply not_elem_of_app in Hq as [Hqr Hqo].
    rewrite Hf2 by done. apply Hf1.
    destruct Hloc as [(_ & _ & <- & _)|(_ & _ & _ & <-)]; done.
Qed.
End lookup.

Definition promote (e : entry) (a : alist) : alist :=
  mk_alist (e :: without (e_key e) (a_recent a)) (without (e_key e) (a_old a)) (a_max a).

Lemma find_located a k e :
  NoDup (keys (entries a)) -> find_entry k (entries a) = Some e ->
  e_key e = k /\ exists R es1 es2 rs' os',
    located a e R es1 es2 rs' os' /\ promote e a = mk_alist (e :: rs') os' (a_max a).
Proof.
  unfold entries. intros Hnd Hf. rewrite find_entry_app in Hf.
  rewrite keys_app in Hnd. apply list.NoDup_app in Hnd as (Hnr & Hd & Hno). unfold promote.
  destruct (find_entry k (a_recent a)) as [e'|] eqn:Er.
  - injection Hf as ->. apply find_entry_split in Er as (Hk & es1 & es2 & Er & _).
    split; [done|]. exists PRecent, es1, es2, (es1 ++ es2), (a_old a). split; [left; done|].
    f_equal; [|apply without_none].
    + f_equal. rewrite Er in *. by apply without_split.
    + apply Hd. rewrite Er, keys_app. apply elem_of_app. right. by left.
  - apply find_entry_split in Hf as (Hk & es1 & es2 & Eo & _). split; [done|].
    exists POld, es1, es2, (a_recent a), (es1 ++ es2). split; [right; done|].
    apply find_entry_none in Er. f_equal.
    + f_equal. apply without_none. by rewrite Hk.
    + rewrite Eo in *. by apply without_split.
Qed.

Lemma lookup_found_rep l a pend k e :
  rep l a pend -> find_entry k (entries a) = Some e ->
  exists l', lookup_found (e_loc e) l = Ok l' /\ locked l' = locked l /\ rep l' (promote e a) pend.
Proof.
  intros Hrep Hf. destruct (find_located a k e (rep_keys _ _ _ Hrep) Hf)
    as (_ & R & es1 & es2 & rs' & os' & Hloc & Hpro).
  destruct (located_chain l a pend Hrep _ _ _ _ _ _ Hloc) as (HR & Hc & _).
  unfold lookup_found. rewrite (assert_linked_ok l R es1 e es2 HR Hc). cbn [mbind res_bind].
  case_bool_decide as Hhd.
  - exists l. split_and!; [done..|]. enough (promote e a = a) as -> by done.
    pose proof (chain_hd _ _ _ _ (rep_recent _ _ _ Hrep)) as Hh. rewrite Hhd in Hh.
    pose proof (rep_locs _ _ _ Hrep) as Hnd. apply list.NoDup_app in Hnd as (Hnd & _).
    rewrite <- (locs_perm _ _ (located_perm _ _ _ _ _ _ _ Hloc)) in Hnd. rewrite Hpro.
    apply list.NoDup_cons in Hnd as [Hnin _]. fold (locs (rs' ++ os')) in Hnin.
    rewrite locs_app, not_elem_of_app in Hnin. destruct Hnin as [Hnr Hno].
    destruct a as [ar ao am]; cbn [a_recent a_old a_max] in *.
    destruct Hloc as [(_ & Ea & Er & Eo)|(_ & Ea & Er & Eo)]; cbn [a_recent a_old] in *; subst.
    + destruct es1 as [|e1 es1]; [done|]. injection Hh as Hh. exfalso. apply Hnr. rewrite Hh. by left.
    + destruct ar as [|e1 ar]; [done|]. injection Hh as Hh. exfalso. apply Hnr. rewrite Hh. by left.
  - destruct (move_front l a pend Hrep _ _ _ _ _ _ Hloc) as (l1 & l2 & -> & E2 & Hlk & Hrep2).
    cbn [mbind res_bind]. rewrite E2. cbn [mbind res_bind].
    rewrite (assert_linked_ok l2 PRecent [] e rs'); [|by left|by destruct Hrep2].
    cbn [mbind res_bind]. exists l2. rewrite Hpro. done.
Qed.

Definition spec_create (p : loc) (addr : in6_addr) (g : teredo_listitem) (a : alist) : alist :=
  mk_alist (mk_entry p addr (teredo_peer_init (peer g)) :: a_recent a) (a_old a) (a_max a).

(** The contract of the lookup on the abstract list: [p] is the location that
    a successful allocation returns. *)
Definition spec_lookup (p : loc) (addr : in6_addr) (create node : bool)
    (mem : option teredo_listitem) (a : alist) : option (loc * bool) * alist :=
  match find_entry addr (entries a), mem with
  | Some e, _ => (Some (e_loc e, false), promote e a)
  | None, Some g =>
    if create && node && (Z.of_nat (length (entries a)) <? a_max a)
    then (Some (p, true), spec_create p addr g a) else (None, a)
  | None, None => (None, a)
  end.

Lemma rep_locked b l a pend : rep l a pend -> rep (set_locked b l) a pend.
Proof. by intros []. Qed.

Lemma rep_not_in_dom l a pend q :
  rep l a pend -> q ∉ dom (heap l) -> q ∉ locs (entries a) /\ q ∉ mjoin (snd <$> pend).
Proof.
  intros Hrep Hq. rewrite (rep_dom _ _ _ Hrep), elem_of_list_to_set in Hq.
  by apply not_elem_of_app in Hq.
Qed.

Lemma chain_set_key h pp p k k' pe es cur :
  chain h pp cur (mk_entry p k pe :: es) -> p ∉ locs es ->
  exists nx, h !! p = Some (mk_teredo_listitem k pp nx pe) /\
    chain (<[p := mk_teredo_listitem k' pp nx pe]> h) pp cur (mk_entry p k' pe :: es).
Proof.
  intros [pp' (-> & nx & Hl & Hs)] Hn. exists nx. split; [done|]. exists pp'. split; [done|].
  exists nx. rewrite lookup_insert_eq. split; [done|]. eapply seg_frame; [|exact Hs].
  intros q Hq. apply lookup_insert_ne. intros <-. done.
Qed.

(** Putting an item at the head of the recent list. *)
Lemma rep_add l l' a pend p addr g :
  rep l a pend -> p ∉ dom (heap l) -> find_entry addr (entries a) = None ->
  Z.of_nat (length (entries a)) < a_max a ->
  chain (heap l') PRecent (recent l') (a_recent (spec_create p addr g a)) ->
  (forall q, q ≠ p -> q ∉ locs (a_recent a) -> heap l' !! q = heap l !! q) ->
  dom (heap l') = {[p]} ∪ dom (heap l) -> old l' = old l ->
  root l' = <[addr := Some p]> (root l) -> left l' = left l - 1 ->
  rep l' (spec_create p addr g a) pend.
Proof.
  intros Hrep Hp Hnone Hroom Hc Hf Hdom Eo Er El.
  destruct (rep_not_in_dom _ _ _ _ Hrep Hp) as [Hpe Hpp].
  unfold entries in Hpe. rewrite locs_app, not_elem_of_app in Hpe. destruct Hpe as [Hpr Hpo].
  pose proof (rep_locs _ _ _ Hrep) as HL. pose proof HL as HL0.
  unfold entries in HL. rewrite locs_app in HL.
  apply list.NoDup_app in HL as (HL & Hdp & HLp). apply list.NoDup_app in HL as (HLr & Hdo & HLo).
  unfold spec_create in *. split; cbn [a_recent a_old a_max] in *; unfold entries; cbn [a_recent a_old].
  - exact Hc.
  - rewrite Eo. eapply chain_frame; [|apply (rep_old _ _ _ Hrep)]. intros q Hq. apply Hf.
    + by intros ->.
    + intros Hq'. by apply (Hdo q).
  - apply list.Forall_forall. intros d Hd. pose proof (rep_pend _ _ _ Hrep) as HP.
    rewrite list.Forall_forall in HP. eapply fseg_frame; [|by apply HP].
    intros q Hq. assert (q ∈ mjoin (snd <$> pend)) by by eapply pend_in.
    apply Hf; [by intros ->|]. intros Hq'. apply (Hdp q); [|done]. apply elem_of_app. by left.
  - simpl. apply list.NoDup_cons. split; [|exact HL0]. fold (locs (a_recent a ++ a_old a)).
    rewrite locs_app, !not_elem_of_app. done.
  - rewrite Hdom, (rep_dom _ _ _ Hrep). simpl. set_solver.
  - simpl. apply list.NoDup_cons.
    split; [by apply find_entry_none in Hnone|apply (rep_keys _ _ _ Hrep)].
  - rewrite Er, (rep_root _ _ _ Hrep). done.
  - rewrite El, (rep_left _ _ _ Hrep). unfold entries. simpl length. lia.
  - simpl length. pose proof (rep_max _ _ _ Hrep). unfold entries in *. lia.
Qed.

Lemma lookup_create_some l a pend addr g :
  rep l a pend -> find_entry addr (entries a) = None ->
  Z.of_nat (length (entries a)) < a_max a ->
  let p := fresh (dom (heap l)) in
  exists l', lookup_create addr (Some g) (set_root (<[addr := None]> (root l)) l) = Ok (Some p, l') /\
    locked l' = locked l /\ rep l' (spec_create p addr g a) pend.
Proof.
  intros Hrep Hnone Hroom p. unfold lookup_create. cbn [listitem_create].
  cbn [left set_root heap]. rewrite (rep_left _ _ _ Hrep).
  destruct (Z.ltb_spec 0 (a_max a - Z.of_nat (length (entries a)))); [|lia].
  fold p. set (it := mk_teredo_listitem _ _ _ _).
  assert (p ∉ dom (heap l)) as Hp by apply is_fresh.
  destruct (rep_not_in_dom _ _ _ _ Hrep Hp) as [Hpe Hpp].
  unfold entries in Hpe. rewrite locs_app, not_elem_of_app in Hpe. destruct Hpe as [Hpr Hpo].
  assert (NoDup (locs (a_recent a))) as HLr.
  { pose proof (rep_locs _ _ _ Hrep) as HL. unfold entries in HL. rewrite locs_app in HL.
    by apply list.NoDup_app in HL as ((HLr & _)%list.NoDup_app & _). }
  set (l1 := set_heap (<[p := it]> (heap l)) (set_root (<[addr := None]> (root l)) l)).
  destruct (push_recent_ok l1 p it (a_recent a)) as (l2 & E2 & (S1 & S2 & S3 & S4 & S5) & Eo & Er & Hc2 & Hf2).
  { apply lookup_insert_eq. }
  { done. }
  { done. }
  { eapply chain_frame; [|apply (rep_recent _ _ _ Hrep)]. intros q Hq. apply lookup_insert_ne.
    by intros <-. }
  cbn [set_heap set_root left heap] in E2 |- *. fold l1. rewrite E2. cbn [mbind res_bind].
  pose proof (assert_linked_ok (set_left (left l2 - 1) l2) PRecent [] _ (a_recent a)
                (or_introl eq_refl) Hc2) as HA. cbn [e_loc] in HA. rewrite HA. cbn [mbind res_bind].
  destruct (chain_set_key _ _ _ _ addr _ _ _ Hc2 Hpr) as (nx & Hl2 & Hc3).
  cbn [heap set_left]. rewrite (deref_ok _ _ _ Hl2). cbn [mbind res_bind].
  eexists. split; [done|]. split; [by cbn; rewrite S3|].
  apply (rep_add l); cbn [pprev next peer recent old left root heap set_heap set_root set_left] in *; try done.
  - intros q Hq Hqr. rewrite lookup_insert_ne by done. rewrite Hf2 by done. cbn.
    by rewrite lookup_insert_ne.
  - rewrite dom_insert_L, S5. cbn [heap l1 set_heap]. rewrite dom_insert_L. set_solver.
  - rewrite S4. cbn [root l1 set_heap set_root]. by rewrite insert_insert_eq.
  - by rewrite S1.
Qed.

Lemma lookup_create_none l a pend addr mem :
  rep l a pend -> find_entry addr (entries a) = None -> locked l = true ->
  mem = None \/ a_max a <= Z.of_nat (length (entries a)) ->
  lookup_create addr mem (set_root (<[addr := None]> (root l)) l) = Ok (None, set_locked false l).
Proof.
  intros Hrep Hnone Hlk Hmem. unfold lookup_create. cbn [left set_root].
  assert ((if 0 <? left l then listitem_create mem else None) = None) as ->.
  { destruct Hmem as [->|Hm]; [by destruct (_ <? _)|]. rewrite (rep_left _ _ _ Hrep).
    destruct (Z.ltb_spec 0 (a_max a - Z.of_nat (length (entries a)))); [lia|done]. }
  unfold pthread_mutex_unlock. cbn [locked set_root]. rewrite Hlk. cbn [mbind res_bind].
  do 2 f_equal. unfold set_locked, set_root; cbn. f_equal.
  apply delete_insert_id. rewrite (rep_root _ _ _ Hrep), tree_lookup, Hnone. done.
Qed.

Lemma list_lookup_rep l a pend addr create node mem :
  rep l a pend -> locked l = false ->
  exists r l' a', teredo_list_lookup addr create node mem l = Ok (r, l') /\
    spec_lookup (fresh (dom (heap l))) addr create node mem a = (r, a') /\
    rep l' a' pend /\ locked l' = bool_decide (is_Some r).
Proof.
  intros Hrep Hlk. unfold teredo_list_lookup, pthread_mutex_lock. rewrite Hlk. cbn [mbind res_bind].
  pose proof (rep_locked true _ _ _ Hrep) as Hrep1.
  unfold lookup_locked, spec_lookup. change (root (set_locked true l)) with (root l).
  rewrite (rep_root _ _ _ Hrep), tree_lookup. rewrite <- (rep_root _ _ _ Hrep).
  destruct (find_entry addr (entries a)) as [e|] eqn:Hf; cbn [fmap option_fmap option_map].
  { destruct (lookup_found_rep _ _ _ _ _ Hrep1 Hf) as (l' & -> & Hlk' & Hrep').
    cbn [mbind res_bind]. eexists _, _, _. split_and!; try done. }
  assert (rep (set_locked false (set_locked true l)) a pend) as Hrep2 by by apply rep_locked.
  destruct (create && node); cbn [andb].
  2: { cbn [pthread_mutex_unlock mbind res_bind locked set_locked].
       eexists None, _, a. split_and!; [done|by destruct mem|done|done]. }
  change (root l) with (root (set_locked true l)).
  destruct mem as [g|];
    [destruct (Z.ltb_spec (Z.of_nat (length (entries a))) (a_max a)) as [Hroom|Hroom]|].
  - destruct (lookup_create_some _ _ _ _ g Hrep1 Hf Hroom) as (l' & -> & Hlk' & Hrep').
    cbn [mbind res_bind]. eexists _, _, _. split_and!; try done.
  - rewrite (lookup_create_none _ _ _ _ _ Hrep1 Hf eq_refl (or_intror Hroom)). cbn [mbind res_bind].
    eexists _, _, _. split_and!; done.
  - rewrite (lookup_create_none _ _ _ _ _ Hrep1 Hf eq_refl (or_introl eq_refl)). cbn [mbind res_bind].
    eexists _, _, _. split_and!; done.
Qed.

(** ** Releasing detached lists *)

Lemma fseg_nodup_size h cur ls :
  fseg h cur ls -> NoDup ls -> (length ls <= size h)%nat.
Proof.
  intros Hs Hnd. rewrite <- size_dom, <- (size_list_to_set (C:=gset loc) ls) by done.
  apply subseteq_size. intros p Hp. apply elem_of_list_to_set in Hp.
  revert cur Hs Hp. clear Hnd. induction ls as [|q ls IH]; intros cur; [by intros _ ?%elem_of_nil|].
  intros (_ & it & Hl & Hs) [->|Hp]%elem_of_cons; [by apply elem_of_dom_2 in Hl|]. by eapply IH.
Qed.

Lemma listitem_recdestroy_ok ls : forall fuel h cur,
  fseg h cur ls -> NoDup ls -> (length ls <= fuel)%nat ->
  exists h', listitem_recdestroy fuel h cur = Ok h' /\
    (forall p, p ∉ ls -> h' !! p = h !! p) /\ dom h' = dom h ∖ list_to_set ls.
Proof.
  induction ls as [|p ls IH]; intros fuel h cur Hs Hnd Hf.
  - cbn in Hs. subst cur. exists h. destruct fuel; split_and!; try done; cbn; set_solver.
  - destruct Hs as (-> & it & Hl & Hs). destruct fuel as [|fuel]; [simpl in Hf; lia|].
    cbn [listitem_recdestroy]. unfold listitem_destroy_next. rewrite (deref_ok _ _ _ Hl).
    cbn [mbind res_bind]. apply list.NoDup_cons in Hnd as [Hn Hnd].
    destruct (IH fuel (delete p h) (next it)) as (h' & -> & Hf' & Hd').
    + eapply fseg_frame; [|exact Hs]. intros q Hq. apply lookup_delete_ne. by intros <-.
    + done.
    + simpl in Hf. lia.
    + exists h'. split_and!; [done| |].
      * intros q [Hq1 Hq2]%not_elem_of_cons. rewrite Hf' by done. by rewrite lookup_delete_ne.
      * rewrite Hd', dom_delete_L. cbn. set_solver.
Qed.

(** Releasing the first pending list. *)
Lemma recdestroy_rep l a cur ls pend :
  rep l a ((cur, ls) :: pend) ->
  exists h, listitem_recdestroy (S (size (heap l))) (heap l) cur = Ok h /\
    rep (set_heap h l) a pend.
Proof.
  intros [Hr Ho Hp Hl Hd Hk Ht Hlf Hm]. apply list.Forall_cons in Hp as [Hs Hp]. cbn in Hs.
  rewrite fmap_cons, join_cons in Hl, Hd. cbn [snd] in Hl, Hd.
  rewrite (Permutation_app_comm ls) in Hl. rewrite app_assoc in Hl.
  apply list.NoDup_app in Hl as (Hl & Hdis & Hnd).
  destruct (listitem_recdestroy_ok ls (S (size (heap l))) (heap l) cur Hs Hnd) as (h & -> & Hf & Hd').
  { pose proof (fseg_nodup_size _ _ _ Hs Hnd). lia. }
  assert (forall q, q ∈ locs (entries a) ++ mjoin (snd <$> pend) -> h !! q = heap l !! q) as Hf'
    by (intros q Hq; apply Hf; by apply Hdis).
  exists h. split; [done|]. split; cbn [heap set_heap recent old root left]; try done.
  - eapply chain_frame; [|exact Hr]. intros q Hq. apply Hf', elem_of_app. left.
    unfold entries. rewrite locs_app. apply elem_of_app. by left.
  - eapply chain_frame; [|exact Ho]. intros q Hq. apply Hf', elem_of_app. left.
    unfold entries. rewrite locs_app. apply elem_of_app. by right.
  - apply list.Forall_forall. intros d Hin. rewrite list.Forall_forall in Hp.
    eapply fseg_frame; [|by apply Hp]. intros q Hq. apply Hf', elem_of_app. right. by eapply pend_in.
  - rewrite Hd', Hd. rewrite !list_to_set_app_L.
    assert (forall q, q ∈ ls -> q ∉ locs (entries a) ++ mjoin (snd <$> pend)) as Hdis'
      by (intros q Hq Hq'; by apply (Hdis q)).
    apply set_eq. intros q. rewrite elem_of_difference, !elem_of_union, !elem_of_list_to_set.
    specialize (Hdis q). specialize (Hdis' q). rewrite elem_of_app in Hdis, Hdis'. tauto.
Qed.

(** ** Garbage collection *)

Definition drop_keys (ks : list in6_addr) (m : gmap in6_addr (option loc)) :=
  foldl (fun m k => delete k m) m ks.

Lemma drop_keys_lookup ks m k :
  drop_keys ks m !! k = if decide (k ∈ ks) then None else m !! k.
Proof.
  revert m. induction ks as [|k' ks IH]; intros m.
  - rewrite decide_False by apply not_elem_of_nil. done.
  - cbn [drop_keys foldl]. fold (drop_keys ks (delete k' m)). rewrite IH.
    destruct (decide (k ∈ ks)) as [Hin|Hnin].
    + rewrite decide_True by by right. done.
    + destruct (decide (k = k')) as [->|Hne].
      * rewrite decide_True by by left. apply lookup_delete_eq.
      * rewrite lookup_delete_ne by done. rewrite decide_False; [done|].
        by apply not_elem_of_cons.
Qed.

Lemma gc_unhash_ok es : forall fuel pp cur pp' l,
  seg (heap l) pp cur es pp' None -> (length es <= fuel)%nat -> NoDup (keys es) ->
  (forall k, k ∈ keys es -> is_Some (root l !! k)) ->
  0 <= left l -> left l + Z.of_nat (length es) < 2 ^ 32 ->
  gc_unhash fuel cur l =
  Ok (set_left (left l + Z.of_nat (length es)) (set_root (drop_keys (keys es) (root l)) l)).
Proof.
  induction es as [|e es IH]; intros fuel pp cur pp' l Hs Hf Hnd Hin H0 H1.
  - destruct Hs as [_ ->]. destruct fuel; cbn; rewrite Z.add_0_r; by destruct l.
  - destruct Hs as (-> & nx & Hl & Hs). destruct fuel as [|fuel]; [simpl in Hf; lia|].
    cbn [gc_unhash]. rewrite (deref_ok _ _ _ Hl). cbn [mbind res_bind key next].
    rewrite bool_decide_eq_true_2 by (apply Hin; by left). cbn [guard_or mbind res_bind].
    apply list.NoDup_cons in Hnd as [Hn Hnd]. fold (keys es) in Hn, Hnd.
    cbn [length] in *. assert (wrap 32 (left l + 1) = left l + 1) as ->.
    { unfold wrap. rewrite Z.mod_small; lia. }
    erewrite IH; [|exact Hs|lia|done| |cbn [left set_left]; lia|cbn [left set_left]; lia].
    all: cbn [left set_left set_root root].
    + replace (left l + 1 + Z.of_nat (length es)) with (left l + Z.of_nat (S (length es))) by lia.
      done.
    + intros k Hk. rewrite lookup_delete_ne; [apply Hin; by right|]. intros <-. done.
Qed.

Lemma tree_drop_old rs os :
  NoDup (keys (rs ++ os)) -> drop_keys (keys os) (tree_of (rs ++ os)) = tree_of rs.
Proof.
  rewrite keys_app. intros (_ & Hd & _)%list.NoDup_app. apply map_eq. intros k.
  rewrite drop_keys_lookup, !tree_lookup, find_entry_app. case_decide as Hk.
  - assert (find_entry k rs = None) as ->; [|done]. apply find_entry_none.
    intros Hk'. by apply (Hd k).
  - destruct (find_entry k rs); [done|]. apply find_entry_none in Hk. by rewrite Hk.
Qed.

(** What one collection does to the abstract list. *)
Definition spec_collect (a : alist) : alist := mk_alist [] (a_recent a) (a_max a).

Lemma gc_collect_rep l a pend :
  rep l a pend -> locked l = false ->
  exists l', gc_collect l = Ok (old l, l') /\ locked l' = false /\
    rep l' (spec_collect a) ((old l, locs (a_old a)) :: pend).
Proof.
  intros [Hr Ho Hp Hl Hd Hk Ht Hlf Hm] Hlk. unfold gc_collect, pthread_mutex_lock.
  rewrite Hlk. cbn [mbind res_bind]. unfold entries in *.
  rewrite locs_app in Hl, Hd. rewrite keys_app in Hk.
  pose proof Hl as (Hlall & Hdp & HLp)%list.NoDup_app.
  apply list.NoDup_app in Hlall as (HLr & Hdo & HLo).
  apply list.NoDup_app in Hk as (Hkr & Hdk & Hko). rewrite length_app in *.
  pose proof (fseg_nodup_size _ _ _ (chain_fseg _ _ _ _ Ho) HLo) as Hsz.
  unfold locs in Hsz at 1. rewrite length_fmap in Hsz. pose proof Ho as [pp' Ho'].
  erewrite (gc_unhash_ok (a_old a)); [|exact Ho'|cbn [heap set_locked]; lia|done| | |];
    cbn [left root set_locked]; [|..|lia|lia].
  2: { intros k Hin. rewrite Ht, tree_lookup.
       destruct (find_entry k (a_recent a ++ a_old a)) eqn:E; [done|].
       apply find_entry_none in E. rewrite keys_app in E. exfalso. apply E, elem_of_app. by right. }
  cbn [mbind res_bind]. rewrite Ht, tree_drop_old by (rewrite keys_app; apply list.NoDup_app; by split_and!).
  cbn [old recent set_left set_root set_old set_recent set_locked].
  rewrite set_pprev_opt_ok by (cbn; intros n E; apply (chain_next_some _ _ _ _ _ Hr E)).
  cbn [mbind res_bind pthread_mutex_unlock locked set_heap set_recent set_old set_left set_root set_locked heap].
  eexists. split; [done|]. split; [done|].
  set (h1 := match recent l with Some n => alter (with_pprev POld) n (heap l) | None => heap l end).
  assert (forall q, q ∉ locs (a_recent a) -> h1 !! q = heap l !! q) as Hf.
  { intros q Hq. subst h1. destruct (recent l) as [n|] eqn:E; [|done].
    apply lookup_alter_ne. intros <-. by destruct (chain_next_some _ _ _ _ _ Hr eq_refl). }
  split; cbn [recent old left root heap set_locked spec_collect a_recent a_old a_max entries];
    unfold entries; cbn [a_recent a_old spec_collect app].
  - by apply chain_nil.
  - by apply (chain_set_pprev (heap l) PRecent).
  - apply list.Forall_cons. split.
    + eapply fseg_frame; [|by eapply chain_fseg]. intros q Hq. apply Hf. intros Hq'. by apply (Hdo q).
    + apply list.Forall_forall. intros d Hin. rewrite list.Forall_forall in Hp.
      eapply fseg_frame; [|by apply Hp]. intros q Hq. apply Hf. intros Hq'.
      apply (Hdp q); [apply elem_of_app; by left|by eapply pend_in].
  - rewrite fmap_cons, join_cons. cbn [snd]. by rewrite app_assoc.
  - rewrite fmap_cons, join_cons. cbn [snd]. rewrite app_assoc, <- Hd. cbn [heap set_heap].
    subst h1. destruct (recent l); [by rewrite dom_alter_L|done].
  - done.
  - done.
  - cbn [left set_heap set_recent set_old set_left]. lia.
  - lia.
Qed.

Lemma garbage_collector_rep l a pend :
  rep l a pend -> locked l = false ->
  exists l', garbage_collector l = Ok l' /\ locked l' = false /\ rep l' (spec_collect a) pend.
Proof.
  intros Hrep Hlk. unfold garbage_collector.
  destruct (gc_collect_rep _ _ _ Hrep Hlk) as (l1 & -> & Hlk1 & Hrep1). cbn [mbind res_bind].
  destruct (recdestroy_rep _ _ _ _ _ Hrep1) as (h & -> & Hrep2). cbn [mbind res_bind].
  eexists. split; [done|]. by split.
Qed.

(** ** Reset and destruction *)

Lemma reset_detach_rep l a pend max :
  rep l a pend -> locked l = false -> 0 <= max < 2 ^ 32 ->
  exists l', reset_detach max l = Ok (recent l, old l, l') /\ locked l' = false /\
    heap l' = heap l /\
    rep l' (mk_alist [] [] max) ((old l, locs (a_old a)) :: (recent l, locs (a_recent a)) :: pend).
Proof.
  intros [Hr Ho Hp Hl Hd Hk Ht Hlf Hm] Hlk Hmax. unfold reset_detach, pthread_mutex_lock.
  rewrite Hlk. cbn [mbind res_bind]. eexists. split; [done|]. split; [done|]. split; [done|].
  unfold entries in *. rewrite locs_app in Hl, Hd.
  split; cbn [recent old left root heap a_recent a_old a_max entries];
    unfold entries; cbn [a_recent a_old app].
  - by apply chain_nil.
  - by apply chain_nil.
  - repeat apply list.Forall_cons; split; cbn [fst snd]; [by eapply chain_fseg|].
    apply list.Forall_cons; split; [by eapply chain_fseg|done].
  - rewrite !fmap_cons, !join_cons. cbn [snd]. cbn [locs fmap list_fmap app].
    by rewrite app_assoc, (Permutation_app_comm (locs (a_old a))).
  - rewrite !fmap_cons, !join_cons. cbn [snd]. cbn [locs fmap list_fmap app]. cbn.
    rewrite Hd. apply list_to_set_perm_L.
    by rewrite app_assoc, (Permutation_app_comm (locs (a_old a))).
  - constructor.
  - done.
  - cbn. lia.
  - cbn. lia.
Qed.

Lemma list_reset_rep l a pend max :
  rep l a pend -> locked l = false -> 0 <= max < 2 ^ 32 ->
  exists l', teredo_list_reset max l = Ok l' /\ locked l' = false /\
    rep l' (mk_alist [] [] max) pend.
Proof.
  intros Hrep Hlk Hmax. unfold teredo_list_reset.
  destruct (reset_detach_rep _ _ _ _ Hrep Hlk Hmax) as (l1 & -> & Hlk1 & _ & Hrep1).
  cbn [mbind res_bind].
  destruct (recdestroy_rep _ _ _ _ _ Hrep1) as (h1 & -> & Hrep2). cbn [mbind res_bind].
  destruct (recdestroy_rep _ _ _ _ _ Hrep2) as (h2 & E & Hrep3). cbn [heap set_heap] in E.
  rewrite E. cbn [mbind res_bind]. eexists. split; [done|]. by split.
Qed.

Lemma rep_empty max exp : 0 <= max < 2 ^ 32 ->
  rep (mk_teredo_peerlist None None max exp false ∅ ∅) (mk_alist [] [] max) [].
Proof. intros H. split; try done; try (by apply chain_nil); try constructor; cbn; lia. Qed.

(** ** Access to peers *)

Definition with_peer (v : teredo_peer) (it : teredo_listitem) : teredo_listitem :=
  mk_teredo_listitem (key it) (pprev it) (next it) v.

Definition upd_entry (p : loc) (v : teredo_peer) (e : entry) : entry :=
  if decide (e_loc e = p) then mk_entry (e_loc e) (e_key e) v else e.
Definition upd (p : loc) (v : teredo_peer) (a : alist) : alist :=
  mk_alist (upd_entry p v <$> a_recent a) (upd_entry p v <$> a_old a) (a_max a).

Lemma upd_entry_same p v e : e_loc (upd_entry p v e) = e_loc e /\ e_key (upd_entry p v e) = e_key e.
Proof. unfold upd_entry. by case_decide. Qed.

Lemma upd_locs p v es : locs (upd_entry p v <$> es) = locs es.
Proof. induction es as [|e es IH]; [done|]. cbn. f_equal; [apply upd_entry_same|apply IH]. Qed.

Lemma upd_keys p v es : keys (upd_entry p v <$> es) = keys es.
Proof. induction es as [|e es IH]; [done|]. cbn. f_equal; [apply upd_entry_same|apply IH]. Qed.

Lemma upd_tree p v es : tree_of (upd_entry p v <$> es) = tree_of es.
Proof.
  unfold tree_of. f_equal. induction es as [|e es IH]; [done|]. cbn.
  destruct (upd_entry_same p v e) as [-> ->]. f_equal. apply IH.
Qed.

Lemma entries_upd p v a : entries (upd p v a) = upd_entry p v <$> entries a.
Proof. unfold entries. by rewrite fmap_app. Qed.

Lemma seg_upd h p v pp cur es pp' cur' :
  seg h pp cur es pp' cur' ->
  seg (alter (with_peer v) p h) pp cur (upd_entry p v <$> es) pp' cur'.
Proof.
  revert pp cur. induction es as [|e es IH]; intros pp cur; cbn; [done|].
  intros (-> & nx & Hl & Hs). destruct (upd_entry_same p v e) as [-> ->]. split; [done|].
  exists nx. split; [|by apply IH]. unfold upd_entry. case_decide as E.
  - by rewrite E, lookup_alter_eq, <- E, Hl.
  - by rewrite lookup_alter_ne.
Qed.

Lemma fseg_upd h p v cur ls : fseg h cur ls -> fseg (alter (with_peer v) p h) cur ls.
Proof.
  revert cur. induction ls as [|q ls IH]; intros cur; cbn; [done|].
  intros (-> & it & Hl & Hs). split; [done|]. destruct (decide (p = q)) as [->|Hne].
  - exists (with_peer v it). rewrite lookup_alter_eq, Hl. split; [done|]. by apply IH.
  - exists it. rewrite lookup_alter_ne by done. split; [done|]. by apply IH.
Qed.

Lemma rep_upd l a pend p v :
  rep l a pend -> rep (set_heap (alter (with_peer v) p (heap l)) l) (upd p v a) pend.
Proof.
  intros [[pr Hr] [po Ho] Hp Hl Hd Hk Ht Hlf Hm].
  split; rewrite ?entries_upd, ?upd_locs, ?upd_keys, ?upd_tree, ?length_fmap;
    cbn [heap set_heap recent old left root upd a_recent a_old a_max]; try done.
  - exists pr. by apply seg_upd.
  - exists po. by apply seg_upd.
  - eapply list.Forall_impl; [exact Hp|]. intros d. apply fseg_upd.
  - by rewrite dom_alter_L.
Qed.

Lemma put_peer_ok l p v :
  is_Some (heap l !! p) -> put_peer p v l = Ok (set_heap (alter (with_peer v) p (heap l)) l).
Proof.
  intros [it Hit]. unfold put_peer. rewrite (deref_ok _ _ _ Hit). cbn [mbind res_bind].
  do 2 f_equal. apply map_eq. intros q. destruct (decide (p = q)) as [<-|Hne].
  - by rewrite lookup_insert_eq, lookup_alter_eq, Hit.
  - by rewrite lookup_insert_ne, lookup_alter_ne.
Qed.

Lemma seg_entry h pp cur es pp' cur' e :
  seg h pp cur es pp' cur' -> e ∈ es -> exists it, h !! e_loc e = Some it /\
    key it = e_key e /\ peer it = e_peer e.
Proof.
  revert pp cur. induction es as [|e' es IH]; intros pp cur; [by intros _ ?%elem_of_nil|].
  intros (_ & nx & Hl & Hs) [->|He]%elem_of_cons; [eauto|]. by eapply IH.
Qed.

Lemma rep_entry l a pend e :
  rep l a pend -> e ∈ entries a -> exists it, heap l !! e_loc e = Some it /\
    key it = e_key e /\ peer it = e_peer e.
Proof.
  intros [[pr Hr] [po Ho] _ _ _ _ _ _ _] [He|He]%elem_of_app;
    [by apply (seg_entry _ _ _ _ _ _ _ Hr)|by apply (seg_entry _ _ _ _ _ _ _ Ho)].
Qed.

Lemma get_peer_rep l a pend e :
  rep l a pend -> e ∈ entries a -> get_peer (e_loc e) l = Ok (e_peer e).
Proof.
  intros Hrep He. destruct (rep_entry _ _ _ _ Hrep He) as (it & Hl & _ & <-).
  unfold get_peer. by rewrite (deref_ok _ _ _ Hl).
Qed.

Lemma find_entry_in k es e : find_entry k es = Some e -> e ∈ es /\ e_key e = k.
Proof.
  intros (Hk & es1 & es2 & -> & _)%find_entry_split. split; [|done].
  apply elem_of_app. right. by left.
Qed.

(** ** Threads

The users of the list (which hold the mutex between a successful lookup
and the release), the collector, and resets.  Each action is what one
thread does between two points where another thread can run; a thread
that has to wait for the mutex leaves the state unchanged. *)

Record threads := mk_threads {
  t_list : teredo_peerlist;
  t_pending : list (option loc);  (* lists being released without the mutex *)
  t_held : option loc;            (* the peer of the user that holds the mutex *)
}.

Inductive action :=
| Lookup (addr : in6_addr) (create node : bool) (mem : option teredo_listitem)
| Update (f : teredo_peer -> teredo_peer)
| Release
| Collect
| Reset (max : Z)
| Free_one (i : nat).

Definition action_ok (x : action) : Prop :=
  match x with Reset max => 0 <= max < 2 ^ 32 | _ => True end.

Definition exec (x : action) (s : threads) : res threads :=
  let l := t_list s in
  match x with
  | Lookup addr create node mem =>
    if locked l then Ok s else
    '(r, l) ← teredo_list_lookup addr create node mem l;
    Ok (mk_threads l (t_pending s) (fst <$> r))
  | Update f =>
    match t_held s with
    | None => Ok s
    | Some p => v ← get_peer p l; l ← put_peer p (f v) l; Ok (mk_threads l (t_pending s) (Some p))
    end
  | Release =>
    match t_held s with
    | None => Ok s
    | Some _ => l ← teredo_list_release l; Ok (mk_threads l (t_pending s) None)
    end
  | Collect =>
    if locked l then Ok s else
    '(expired, l) ← gc_collect l;
    Ok (mk_threads l (expired :: t_pending s) (t_held s))
  | Reset max =>
    if locked l then Ok s else
    '(rs, os, l) ← reset_detach max l;
    Ok (mk_threads l (os :: rs :: t_pending s) (t_held s))
  | Free_one i =>
    match t_pending s !! i with
    | Some (Some p) =>
      '(buf, h) ← listitem_destroy_next (heap l) p;
      Ok (mk_threads (set_heap h l) (<[i := buf]> (t_pending s)) (t_held s))
    | _ => Ok s
    end
  end.

Fixpoint run (xs : list action) (s : threads) : res threads :=
  match xs with
  | [] => Ok s
  | x :: xs => s ← exec x s; run xs s
  end.

Definition threads_inv (s : threads) : Prop :=
  exists a pend, rep (t_list s) a pend /\ pend.*1 = t_pending s /\
    match t_held s with
    | None => locked (t_list s) = false
    | Some p => locked (t_list s) = true /\ p ∈ locs (entries a)
    end.

Lemma free_one_rep l a pend i p :
  rep l a pend -> pend.*1 !! i = Some (Some p) ->
  exists buf ls h, listitem_destroy_next (heap l) p = Ok (buf, h) /\
    rep (set_heap h l) a (<[i := (buf, ls)]> pend).
Proof.
  intros [Hr Ho Hp Hl Hd Hk Ht Hlf Hm] Hi. rewrite list_lookup_fmap in Hi.
  destruct (pend !! i) as [[cur ls0]|] eqn:Ei; [|done]. injection Hi as ->.
  pose proof (Forall_lookup_1 _ _ _ _ Hp Ei) as Hs. destruct ls0 as [|p' ls]; [done|].
  destruct Hs as ([= <-] & it & Hit & Hs). unfold listitem_destroy_next.
  rewrite (deref_ok _ _ _ Hit). cbn [mbind res_bind].
  exists (next it), ls, (delete p (heap l)). split; [done|].
  pose proof (lookup_lt_Some _ _ _ Ei) as Hlen.
  assert (locs (entries a) ++ mjoin pend.*2 ≡ₚ
          p :: (locs (entries a) ++ mjoin (<[i := (next it, ls)]> pend).*2)) as Hperm.
  { rewrite insert_take_drop by done. rewrite <- (take_drop_middle _ _ _ Ei) at 1.
    rewrite !fmap_app, !join_app, !fmap_cons, !join_cons. cbn [snd app].
    rewrite !(app_assoc (locs (entries a))). symmetry. apply Permutation_middle. }
  rewrite Hperm in Hl. apply list.NoDup_cons in Hl as [Hn Hl].
  assert (forall q, q ∈ locs (entries a) ++ mjoin (<[i := (next it, ls)]> pend).*2 ->
            delete p (heap l) !! q = heap l !! q) as Hf.
  { intros q Hq. apply lookup_delete_ne. by intros <-. }
  assert (forall q, q ∈ locs (entries a) -> delete p (heap l) !! q = heap l !! q) as Hfe.
  { intros q Hq. apply Hf, elem_of_app. by left. }
  unfold entries in Hfe. rewrite locs_app in Hfe.
  split; cbn [heap set_heap recent old left root]; try done.
  - eapply chain_frame; [|exact Hr]. intros q Hq. apply Hfe, elem_of_app. by left.
  - eapply chain_frame; [|exact Ho]. intros q Hq. apply Hfe, elem_of_app. by right.
  - apply list.Forall_forall. intros d Hin.
    eapply fseg_frame; [intros q Hq; apply Hf, elem_of_app; right; by eapply pend_in|].
    apply list_elem_of_lookup in Hin as [j Hj]. destruct (decide (i = j)) as [<-|Hne].
    + rewrite list_lookup_insert_eq in Hj by done. by injection Hj as <-.
    + rewrite list_lookup_insert_ne in Hj by done. by apply (Forall_lookup_1 _ _ _ _ Hp Hj).
  - rewrite dom_delete_L, Hd. rewrite (list_to_set_perm_L _ _ Hperm). cbn.
    assert (p ∉ (list_to_set (locs (entries a) ++ mjoin (<[i := (next it, ls)]> pend).*2) : gset loc))
      by (by rewrite elem_of_list_to_set). set_solver.
Qed.

Lemma promote_entry e a : e ∈ entries (promote e a).
Proof. by left. Qed.

Lemma elem_of_locs e es : e ∈ es -> e_loc e ∈ locs es.
Proof. apply list_elem_of_fmap_2. Qed.

Lemma exec_inv x s :
  action_ok x -> threads_inv s -> exists s', exec x s = Ok s' /\ threads_inv s'.
Proof.
  intros Hx (a & pend & Hrep & Hpend & Hheld). destruct s as [l pd held]; cbn in *. subst pd.
  destruct x as [addr create node mem|f| | |max|i]; cbn [exec t_list t_pending t_held].
  - destruct (locked l) eqn:Hlk; [eexists; split; [done|]; exists a, pend; cbn; by rewrite Hlk|].
    destruct (list_lookup_rep l a pend addr create node mem Hrep Hlk)
      as (r & l' & a' & -> & Hspec & Hrep' & Hlk'). cbn [mbind res_bind].
    eexists. split; [done|]. exists a', pend. split_and!; [done..|]. cbn [t_held t_list].
    destruct r as [[p b]|]; cbn [fmap option_fmap option_map fst]; [|done]. split; [done|].
    unfold spec_lookup in Hspec. destruct (find_entry addr (entries a)) as [e|].
    + injection Hspec as <- _ <-. by apply elem_of_locs, promote_entry.
    + destruct mem as [g|]; [|done]. destruct (_ && _); [|done]. injection Hspec as <- _ <-.
      by left.
  - destruct held as [p|]; [|by eexists; split; [|exists a, pend]].
    destruct Hheld as [Hlk Hin]. apply list_elem_of_fmap in Hin as (e & -> & He).
    rewrite (get_peer_rep _ _ _ _ Hrep He). cbn [mbind res_bind].
    destruct (rep_entry _ _ _ _ Hrep He) as (it & Hit & _). rewrite put_peer_ok by eauto.
    cbn [mbind res_bind]. eexists. split; [done|]. eexists _, pend.
    split; [by apply rep_upd|]. split; [done|]. split; [done|].
    rewrite entries_upd, upd_locs. by apply elem_of_locs.
  - destruct held as [p|]; [|by eexists; split; [|exists a, pend]].
    destruct Hheld as [Hlk Hin]. unfold teredo_list_release, pthread_mutex_unlock. rewrite Hlk.
    cbn [mbind res_bind]. eexists. split; [done|]. exists a, pend.
    split; [by apply rep_locked|done].
  - destruct (locked l) eqn:Hlk; [eexists; split; [done|]; exists a, pend; cbn; by rewrite Hlk|].
    destruct held as [p|]; [by destruct Hheld|].
    destruct (gc_collect_rep l a pend Hrep Hlk) as (l' & -> & Hlk' & Hrep'). cbn [mbind res_bind].
    eexists. split; [done|]. by eexists _, (_ :: pend).
  - destruct (locked l) eqn:Hlk; [eexists; split; [done|]; exists a, pend; cbn; by rewrite Hlk|].
    destruct held as [p|]; [by destruct Hheld|].
    destruct (reset_detach_rep l a pend max Hrep Hlk Hx) as (l' & -> & Hlk' & _ & Hrep').
    cbn [mbind res_bind]. eexists. split; [done|]. by eexists _, (_ :: _ :: pend).
  - destruct (pend.*1 !! i) as [[p|]|] eqn:Ei; try (by eexists; split; [|exists a, pend]).
    destruct (free_one_rep _ _ _ _ _ Hrep Ei) as (buf & ls & h & -> & Hrep').
    cbn [mbind res_bind]. eexists. split; [done|]. eexists a, _. split; [done|].
    cbn [t_pending t_held t_list]. by rewrite list_fmap_insert.
Qed.

Lemma run_inv xs s :
  Forall action_ok xs -> threads_inv s -> exists s', run xs s = Ok s' /\ threads_inv s'.
Proof.
  revert s. induction xs as [|x xs IH]; intros s Hx Hs; [by exists s|].
  apply list.Forall_cons in Hx as [Hx Hxs]. destruct (exec_inv x s Hx Hs) as (s1 & E & Hs1).
  cbn [run]. rewrite E. cbn [mbind res_bind]. by apply IH.
Qed.

(** (C4) No interleaving of lookups, updates of the peer held, releases,
    collections, resets and of the lock-free release of expired items, started
    on a fresh list, ever fails an assertion, dereferences a released or
    dangling pointer, locks twice or unlocks a free mutex; and every state
    reached represents two well-formed doubly linked lists, with the tree
    indexing exactly their items and the allocated memory being exactly the
    items and the lists pending release. *)
Theorem peerlist_threads_safe (max exp : Z) (xs : list action) (l : teredo_peerlist)
    (Hmax : 0 <= max < 2 ^ 32) (Hcreate : teredo_list_create true true max exp = Ok (Some l))
    (Hxs : Forall action_ok xs) :
  exists s, run xs (mk_threads l [] None) = Ok s /\ threads_inv s.
Proof.
  apply run_inv; [done|]. unfold teredo_list_create in Hcreate.
  destruct (guard_or _ _) eqn:E; [|done]. cbn in Hcreate. injection Hcreate as <-.
  exists (mk_alist [] [] max), []. split; [by apply rep_empty|done].
Qed.

Definition garbage_item : teredo_listitem :=
  mk_teredo_listitem [7] (PNext 99) (Some 98%positive)
    (mk_teredo_peer [] 3 5 5 5 5 5 true true 5 5).

Definition example_actions : list action :=
  [Lookup [1] true true (Some garbage_item); Update (SetMapping 7 8); Collect; Release;
   Lookup [2] true true (Some garbage_item); Release; Collect;
   Lookup [1] false true None; Release; Collect; Free_one 0; Reset 1; Free_one 0; Free_one 1].

Definition example_list : teredo_peerlist := mk_teredo_peerlist None None 2 30 false ∅ ∅.

Lemma peerlist_threads_safe_witness :
  (exists s, run example_actions (mk_threads example_list [] None) = Ok s /\ threads_inv s) /\
  match run (take 10 example_actions) (mk_threads example_list [] None) with
  | Ok s => old (t_list s) = Some 1%positive /\ t_pending s = [Some 2%positive; None]
  | Err _ => False
  end.
Proof.
  split; [|vm_compute; split; reflexivity].
  apply (peerlist_threads_safe 2 30 example_actions example_list); [lia|reflexivity|].
  repeat (apply list.Forall_cons; split; [first [exact I|cbn; lia]|]). constructor.
Defined.

(** (C5) [teredo_list_lookup] refines its abstract contract on the pair of
    recency lists: a peer that is found moves to the front of the recent list
    and nothing else changes, a peer is created exactly when it is absent, was
    asked for, memory is available and fewer than the maximum are in the list,
    and the mutex is held on return exactly when a peer is returned. *)
Theorem teredo_list_lookup_refines (l : teredo_peerlist) (a : alist)
    (pend : list (option loc * list loc)) (addr : in6_addr) (create node : bool)
    (mem : option teredo_listitem) (Hrep : rep l a pend) (Hlk : locked l = false) :
  exists r l' a', teredo_list_lookup addr create node mem l = Ok (r, l') /\
    spec_lookup (fresh (dom (heap l))) addr create node mem a = (r, a') /\
    rep l' a' pend /\ locked l' = bool_decide (is_Some r).
Proof. by apply list_lookup_rep. Qed.

Lemma teredo_list_lookup_refines_witness :
  exists r l' a',
    teredo_list_lookup [1] true true (Some garbage_item) example_list = Ok (r, l') /\
    spec_lookup (fresh (dom (heap example_list))) [1] true true (Some garbage_item)
      (mk_alist [] [] 2) = (r, a') /\
    rep l' a' [] /\ locked l' = true.
Proof.
  assert (rep example_list (mk_alist [] [] 2) []) as Hrep by (apply rep_empty; lia).
  destruct (teredo_list_lookup_refines example_list (mk_alist [] [] 2) [] [1] true true
              (Some garbage_item) Hrep eq_refl) as (r & l' & a' & E1 & E2 & H & Hlk).
  exists r, l', a'. split_and!; [exact E1|exact E2|exact H|].
  vm_compute in E1. injection E1 as <- _. exact Hlk.
Defined.

(** One round of the garbage collector releases exactly the peers that
    were not used since the previous round: the recent peers become the old
    ones, in the same order, and no memory is lost. *)
Theorem garbage_collector_refines (l : teredo_peerlist) (a : alist)
    (Hrep : rep l a []) (Hlk : locked l = false) :
  exists l', garbage_collector l = Ok l' /\ locked l' = false /\
    rep l' (mk_alist [] (a_recent a) (a_max a)) [] /\
    dom (heap l') = list_to_set (locs (a_recent a)).
Proof.
  destruct (garbage_collector_rep l a [] Hrep Hlk) as (l' & E & Hlk' & Hrep').
  exists l'. split_and!; try done. rewrite (rep_dom _ _ _ Hrep'). cbn. by rewrite app_nil_r.
Qed.

Lemma garbage_collector_refines_witness :
  exists l', garbage_collector example_list = Ok l' /\ locked l' = false /\
    rep l' (mk_alist [] [] 2) [] /\ dom (heap l') = list_to_set (locs []).
Proof.
  apply (garbage_collector_refines example_list (mk_alist [] [] 2)); [apply rep_empty; lia|done].
Defined.

Lemma list_destroy_rep l a : rep l a [] -> locked l = false -> teredo_list_destroy l = Ok ∅.
Proof.
  intros Hrep Hlk. unfold teredo_list_destroy.
  destruct (list_reset_rep l a [] 0 Hrep Hlk) as (l' & -> & _ & Hrep'); [lia|].
  cbn [mbind res_bind]. f_equal. apply dom_empty_inv_L. by rewrite (rep_dom _ _ _ Hrep').
Qed.

(** Destroying an unlocked list releases every item. *)
Theorem teredo_list_destroy_no_leak (l : teredo_peerlist) (a : alist)
    (Hrep : rep l a []) (Hlk : locked l = false) :
  teredo_list_destroy l = Ok ∅.
Proof. by apply (list_destroy_rep l a). Qed.

Lemma teredo_list_destroy_no_leak_witness : teredo_list_destroy example_list = Ok ∅.
Proof.
  apply (teredo_list_destroy_no_leak example_list (mk_alist [] [] 2)); [apply rep_empty; lia|done].
Defined.

(** ** Queues *)

Definition queue_bytes (q : list teredo_queue) : Z :=
  foldr (fun p n => Z.of_nat (length (q_data p)) + n) 0 q.

Definition queue_ok (p : teredo_peer) : Prop :=
  queue_left p = teredo_MaxQueueBytes - queue_bytes (queue p) /\ 0 <= queue_left p.

Lemma peer_queue_ok p data ip port inc :
  queue_ok p -> exists p', teredo_peer_queue true p data ip port inc = Ok p' /\ queue_ok p' /\
    queue p' = (if Z.of_nat (length data) <=? queue_left p
                then mk_teredo_queue data ip port inc :: queue p else queue p).
Proof.
  intros [Hl H0]. unfold teredo_peer_queue. cbn [negb].
  destruct (Z.ltb_spec (queue_left p) (Z.of_nat (length data)));
    destruct (Z.leb_spec (Z.of_nat (length data)) (queue_left p)); try lia.
  - by exists p.
  - eexists. split; [done|]. split; [|done]. unfold queue_ok.
    cbn [queue_left queue set_queue queue_bytes foldr q_data].
    fold (queue_bytes (queue p)). lia.
Qed.

Fixpoint enqueue_all (p : teredo_peer) (ds : list (list Z * Z * Z * bool)) : res teredo_peer :=
  match ds with
  | [] => Ok p
  | (data, ip, port, inc) :: ds =>
    p ← teredo_peer_queue true p data ip port inc; enqueue_all p ds
  end.

Lemma enqueue_all_ok ds : forall p, queue_ok p -> exists p', enqueue_all p ds = Ok p' /\ queue_ok p'.
Proof.
  induction ds as [|[[[data ip] port] inc] ds IH]; intros p Hp; cbn [enqueue_all]; [by exists p|].
  destruct (peer_queue_ok p data ip port inc Hp) as (p' & -> & Hp' & _). cbn [mbind res_bind].
  by apply IH.
Qed.

(** What an emission puts on the wire or hands to the IPv6 stack. *)
Definition queue_event (fd ip port : Z) (q : teredo_queue) : list event :=
  if q_incoming q then
    if (ip =? q_ipv4 q) && (port =? q_port q) then [Recv_cb (q_data q)] else []
  else [Sendmsg fd ip port (q_data q)].

Lemma queue_emit_trace `{Env} q fd ip port : forall w,
  exists n, teredo_queue_emit q fd ip port (fun d => emit (Recv_cb d)) w =
    Ok (tt, mk_world n (w_out w ++ mjoin (queue_event fd ip port <$> q))).
Proof.
  induction q as [|p q IH]; intros w.
  - exists (w_k w). cbn. rewrite app_nil_r. by destruct w.
  - cbn [teredo_queue_emit]. rewrite fmap_cons, join_cons. unfold queue_event at 1.
    destruct (q_incoming p).
    + destruct (_ && _).
      * destruct (IH (mk_world (w_k w) (w_out w ++ [Recv_cb (q_data p)]))) as [n E].
        exists n. cbn [w_out] in E. rewrite <- app_assoc in E. exact E.
      * destruct (IH w) as [n E]. exists n. exact E.
    + destruct (IH (mk_world (S (w_k w)) (w_out w ++ [Sendmsg fd ip port (q_data p)]))) as [n E].
      exists n. cbn [w_out] in E. rewrite <- app_assoc in E. rewrite <- E.
      unfold teredo_send, teredo_sendv, emit, ask, mbind, st_bind. cbn [w_k w_out].
      by rewrite join_one.
Qed.

(** Packet queues: whatever is enqueued on a fresh peer, at most 1280
    bytes are stored and [queue_left] is exactly the room left; releasing the
    queue hands each incoming packet whose recorded mapping matches to the
    IPv6 stack, sends each outgoing packet to the peer, in the reverse order
    of their arrival, and nothing else. *)
Theorem peer_queue_capacity_and_release `{Env} (g : teredo_peer)
    (ds : list (list Z * Z * Z * bool)) (fd ip port : Z) (w : world) :
  exists p n, enqueue_all (teredo_peer_init g) ds = Ok p /\
    queue_left p = 1280 - queue_bytes (queue p) /\ 0 <= queue_left p /\
    teredo_queue_emit (teredo_peer_queue_yield p).1 fd ip port (fun d => emit (Recv_cb d)) w =
    Ok (tt, mk_world n (w_out w ++ mjoin (queue_event fd ip port <$> queue p))).
Proof.
  destruct (enqueue_all_ok ds (teredo_peer_init g)) as (p & E & Hp & H0); [by split|].
  destruct (queue_emit_trace (queue p) fd ip port w) as [n En]. by exists p, n.
Qed.

(** The result of [malloc] is not tested when a packet is queued: with
    room in the queue and no memory, [teredo_peer_queue] writes through a null
    pointer. *)
Theorem peer_queue_unchecked_malloc (p : teredo_peer) (data : list Z) (ip port : Z) (inc : bool)
    (Hroom : Z.of_nat (length data) <= queue_left p) :
  teredo_peer_queue false p data ip port inc = Err NullDeref.
Proof. unfold teredo_peer_queue. by destruct (Z.ltb_spec (queue_left p) (Z.of_nat (length data))); [lia|]. Qed.

Lemma peer_queue_unchecked_malloc_witness :
  teredo_peer_queue false (teredo_peer_init (peer garbage_item)) [1; 2; 3] 4 5 true = Err NullDeref.
Proof. apply peer_queue_unchecked_malloc. vm_compute. discriminate. Defined.

(** ** The list as a finite map

What the relay relies on: the list is a map from addresses to peers, a
pointer returned by a lookup designates the entry of its address, and the
operations act on the map. *)

Definition view (l : teredo_peerlist) (k : in6_addr) : option teredo_peer :=
  match root l !! k with
  | Some (Some p) => peer <$> heap l !! p
  | _ => None
  end.

Definition designates (l : teredo_peerlist) (p : loc) (k : in6_addr) : Prop :=
  root l !! k = Some (Some p).

Definition list_ok (l : teredo_peerlist) : Prop := exists a, rep l a [].

Lemma view_rep l a pend k : rep l a pend -> view l k = e_peer <$> find_entry k (entries a).
Proof.
  intros Hrep. unfold view. rewrite (rep_root _ _ _ Hrep), tree_lookup.
  destruct (find_entry k (entries a)) as [e|] eqn:E; cbn [fmap option_fmap option_map]; [|done].
  apply find_entry_in in E as [He _].
  destruct (rep_entry _ _ _ _ Hrep He) as (it & -> & _ & <-). done.
Qed.

Lemma designates_rep l a pend p k :
  rep l a pend -> designates l p k ->
  exists e, find_entry k (entries a) = Some e /\ e_loc e = p.
Proof.
  intros Hrep. unfold designates. rewrite (rep_root _ _ _ Hrep), tree_lookup.
  destruct (find_entry k (entries a)) as [e|]; cbn; [|done]. intros [= <-]. eauto.
Qed.

Lemma find_entry_iff k es e :
  NoDup (keys es) -> find_entry k es = Some e <-> e ∈ es /\ e_key e = k.
Proof.
  intros Hnd. split; [apply find_entry_in|]. induction es as [|e' es IH]; intros [He Hk];
    [by apply elem_of_nil in He|]. cbn. apply list.NoDup_cons in Hnd as [Hn Hnd].
  apply elem_of_cons in He as [->|He]; [by rewrite decide_True|].
  rewrite decide_False; [by apply IH|]. intros E. apply Hn. rewrite E, <- Hk.
  by apply list_elem_of_fmap_2.
Qed.

Lemma find_entry_perm k es es' :
  NoDup (keys es) -> es ≡ₚ es' -> find_entry k es = find_entry k es'.
Proof.
  intros Hnd Hp. assert (NoDup (keys es')) as Hnd' by by rewrite <- (keys_perm _ _ Hp).
  apply option_eq. intros e. by rewrite !find_entry_iff, Hp.
Qed.

Lemma promote_perm a k e :
  NoDup (keys (entries a)) -> find_entry k (entries a) = Some e ->
  entries a ≡ₚ entries (promote e a).
Proof.
  intros Hnd Hf. destruct (find_located a k e Hnd Hf) as (_ & R & es1 & es2 & rs' & os' & Hl & ->).
  by rewrite <- (located_perm _ _ _ _ _ _ _ Hl).
Qed.

Lemma find_entry_upd p v k es :
  find_entry k (upd_entry p v <$> es) = upd_entry p v <$> find_entry k es.
Proof.
  induction es as [|e es IH]; [done|]. cbn. destruct (upd_entry_same p v e) as [_ ->].
  case_decide; [done|]. exact IH.
Qed.

(** Outcome of a lookup, on the map. *)
Definition lookup_post (l : teredo_peerlist) (k : in6_addr) (create : bool)
    (mem : option teredo_listitem) (r : option (loc * bool)) (l' : teredo_peerlist) : Prop :=
  list_ok l' /\
  match r with
  | None => locked l' = false /\ (forall k', view l' k' = view l k') /\
            view l k = None
  | Some (p, b) =>
    locked l' = true /\ designates l' p k /\
    (forall k', k' <> k -> view l' k' = view l k') /\
    (if b then create = true /\ view l k = None /\
               exists g, mem = Some g /\ view l' k = Some (teredo_peer_init (peer g))
     else view l' k = view l k /\ is_Some (view l k))
  end.

Lemma lookup_view l k create node mem :
  list_ok l -> locked l = false ->
  exists r l', teredo_list_lookup k create node mem l = Ok (r, l') /\
    lookup_post l k create mem r l'.
Proof.
  intros (a & Hrep) Hlk.
  destruct (list_lookup_rep l a [] k create node mem Hrep Hlk)
    as (r & l' & a' & E & Hspec & Hrep' & Hlk').
  exists r, l'. split; [done|]. split; [by exists a'|].
  unfold spec_lookup in Hspec.
  destruct (find_entry k (entries a)) as [e|] eqn:Ef.
  - injection Hspec as <- <-. rewrite Hlk', bool_decide_eq_true_2 by done.
    assert (forall k', find_entry k' (entries (promote e a)) = find_entry k' (entries a)) as Hsame.
    { intros k'. symmetry. apply find_entry_perm; [apply (rep_keys _ _ _ Hrep)|].
      by eapply promote_perm, Ef; apply (rep_keys _ _ _ Hrep). }
    split; [done|]. split; [|split; [|split]].
    + unfold designates. by rewrite (rep_root _ _ _ Hrep'), tree_lookup, Hsame, Ef.
    + intros k' _. by rewrite (view_rep _ _ _ _ Hrep'), (view_rep _ _ _ _ Hrep), Hsame.
    + by rewrite (view_rep _ _ _ _ Hrep'), (view_rep _ _ _ _ Hrep), Hsame.
    + rewrite (view_rep _ _ _ _ Hrep), Ef. by eexists.
  - assert (view l k = None) as Hnone by by rewrite (view_rep _ _ _ _ Hrep), Ef.
    destruct mem as [g|]; [destruct (_ && _) eqn:Eb|]; injection Hspec as <- <-.
    2,3: rewrite Hlk', bool_decide_eq_false_2 by (intros [? ?]; done);
      split_and!; [done| |done]; intros k';
      by rewrite (view_rep _ _ _ _ Hrep'), (view_rep _ _ _ _ Hrep).
    rewrite Hlk', bool_decide_eq_true_2 by done. split; [done|]. split; [|split].
    + unfold designates. rewrite (rep_root _ _ _ Hrep'), tree_lookup. cbn.
      by rewrite decide_True.
    + intros k' Hne. rewrite (view_rep _ _ _ _ Hrep'), (view_rep _ _ _ _ Hrep). cbn.
      by rewrite decide_False.
    + apply andb_true_iff in Eb as [[Hc _]%andb_true_iff _]. split_and!; [done..|].
      exists g. split; [done|]. rewrite (view_rep _ _ _ _ Hrep'). cbn. by rewrite decide_True.
Qed.

Lemma get_peer_view l p k :
  list_ok l -> designates l p k -> exists v, get_peer p l = Ok v /\ view l k = Some v.
Proof.
  intros (a & Hrep) Hd. destruct (designates_rep _ _ _ _ _ Hrep Hd) as (e & Ef & <-).
  exists (e_peer e). rewrite (view_rep _ _ _ _ Hrep), Ef. split; [|done].
  apply find_entry_in in Ef as [He _]. by eapply get_peer_rep.
Qed.

Lemma put_peer_view l p k v :
  list_ok l -> designates l p k ->
  exists l', put_peer p v l = Ok l' /\ list_ok l' /\ locked l' = locked l /\ root l' = root l /\
    view l' k = Some v /\ (forall k', k' <> k -> view l' k' = view l k').
Proof.
  intros (a & Hrep) Hd. destruct (designates_rep _ _ _ _ _ Hrep Hd) as (e & Ef & <-).
  pose proof (find_entry_in _ _ _ Ef) as [He Hk].
  destruct (rep_entry _ _ _ _ Hrep He) as (it & Hit & _).
  pose proof (rep_upd _ _ _ (e_loc e) v Hrep) as Hrep'.
  eexists. split; [by apply put_peer_ok; eauto|]. split; [by eexists|]. split_and!; try done.
  - rewrite (view_rep _ _ _ _ Hrep'), entries_upd, find_entry_upd, Ef. cbn.
    unfold upd_entry. by rewrite decide_True.
  - intros k' Hne. rewrite (view_rep _ _ _ _ Hrep'), (view_rep _ _ _ _ Hrep), entries_upd, find_entry_upd.
    destruct (find_entry k' (entries a)) as [e'|] eqn:Ef'; [|done]. cbn. unfold upd_entry.
    apply find_entry_in in Ef' as [He' Hk'].
    rewrite decide_False; [done|]. intros E. apply Hne. rewrite <- Hk', <- Hk.
    destruct (rep_entry _ _ _ _ Hrep He') as (it' & Hit' & K' & _).
    destruct (rep_entry _ _ _ _ Hrep He) as (it2 & Hit2 & K2 & _).
    rewrite E, Hit2 in Hit'. injection Hit' as <-. by rewrite <- K', <- K2.
Qed.

Lemma release_view l :
  list_ok l -> locked l = true ->
  exists l', teredo_list_release l = Ok l' /\ list_ok l' /\ locked l' = false /\
    root l' = root l /\ heap l' = heap l /\ (forall k, view l' k = view l k).
Proof.
  intros (a & Hrep) Hlk. unfold teredo_list_release, pthread_mutex_unlock. rewrite Hlk.
  eexists. split; [done|]. split; [eexists; by apply rep_locked|done].
Qed.

Lemma reset_view l max :
  list_ok l -> locked l = false -> 0 <= max < 2 ^ 32 ->
  exists l', teredo_list_reset max l = Ok l' /\ list_ok l' /\ locked l' = false /\
    (forall k, view l' k = None).
Proof.
  intros (a & Hrep) Hlk Hmax.
  destruct (list_reset_rep _ _ _ _ Hrep Hlk Hmax) as (l' & E & Hlk' & Hrep').
  exists l'. split_and!; [done|by eexists|done|]. intros k.
  by rewrite (view_rep _ _ _ _ Hrep').
Qed.

Lemma create_view max exp :
  0 <= max < 2 ^ 32 -> list_ok (mk_teredo_peerlist None None max exp false ∅ ∅) /\
  (forall k, view (mk_teredo_peerlist None None max exp false ∅ ∅) k = None).
Proof. intros H. split; [eexists; by apply rep_empty|done]. Qed.

Lemma list_ok_create mem thread max exp :
  0 < exp -> 0 <= max < 2 ^ 32 ->
  teredo_list_create mem thread max exp = Ok None \/
  exists l, teredo_list_create mem thread max exp = Ok (Some l) /\ list_ok l /\ locked l = false /\
    (forall k, view l k = None).
Proof.
  intros He Hm. unfold teredo_list_create. rewrite (proj2 (Z.ltb_lt _ _) He).
  cbn [guard_or mbind res_bind]. destruct mem, thread; cbn [negb]; [right|by left..].
  eexists. split; [done|]. destruct (create_view max exp Hm) as [H1 H2]. by split_and!.
Qed.

(** A round of the collector only forgets peers. *)
Lemma collect_view l :
  list_ok l -> locked l = false ->
  exists l', garbage_collector l = Ok l' /\ list_ok l' /\ locked l' = false /\
    (forall k v, view l' k = Some v -> view l k = Some v).
Proof.
  intros (a & Hrep) Hlk. destruct (garbage_collector_rep l a [] Hrep Hlk) as (l' & E & Hlk' & Hrep').
  exists l'. split_and!; [done|by eexists|done|]. intros k v.
  rewrite (view_rep _ _ _ _ Hrep'), (view_rep _ _ _ _ Hrep). unfold entries, spec_collect. cbn.
  rewrite find_entry_app. by destruct (find_entry k (a_recent a)).
Qed.

Lemma destroy_view l : list_ok l -> locked l = false -> teredo_list_destroy l = Ok ∅.
Proof. intros (a & Hrep) Hlk. by apply (list_destroy_rep l a). Qed.

(** A pointer does not survive the lock: once the caller has released the list,
    a reset by another thread frees the peer it points to. *)
Lemma released_peer_is_freed_by_reset l p k max :
  list_ok l -> locked l = true -> designates l p k -> 0 <= max < 2 ^ 32 ->
  exists l1 l2, teredo_list_release l = Ok l1 /\ teredo_list_reset max l1 = Ok l2 /\
    get_peer p l2 = Err UseAfterFree.
Proof.
  intros Hok Hlk Hd Hmax. destruct (release_view l Hok Hlk) as (l1 & E1 & [a Hrep] & Hlk1 & _).
  destruct (list_reset_rep _ _ _ _ Hrep Hlk1 Hmax) as (l2 & E2 & _ & Hrep2).
  exists l1, l2. split_and!; [done|done|]. unfold get_peer, deref.
  assert (heap l2 = ∅) as -> by (apply dom_empty_inv_L; by rewrite (rep_dom _ _ _ Hrep2)).
  by rewrite lookup_empty.
Qed.

(** ** The interface of the list

    What the list promises to its users, without its pointers: a well-formed
    list is a map from addresses to peers; a lookup that returns a peer leaves
    the list locked and its pointer designates the entry of the address; the
    pointer stays valid over accesses to the peer and the release of the lock. *)
Class PeerMap := {
  pm_ok : teredo_peerlist -> Prop;
  pm_view : teredo_peerlist -> in6_addr -> option teredo_peer;
  pm_at : teredo_peerlist -> loc -> in6_addr -> Prop;
  pm_create mem thread max exp :
    0 < exp -> 0 <= max < 2 ^ 32 ->
    teredo_list_create mem thread max exp = Ok None \/
    exists l, teredo_list_create mem thread max exp = Ok (Some l) /\ pm_ok l /\
      locked l = false /\ forall k, pm_view l k = None;
  pm_lookup l k create node mem :
    pm_ok l -> locked l = false ->
    exists r l', teredo_list_lookup k create node mem l = Ok (r, l') /\ pm_ok l' /\
      match r with
      | None => locked l' = false /\ (forall k', pm_view l' k' = pm_view l k') /\ pm_view l k = None
      | Some (p, b) =>
        locked l' = true /\ pm_at l' p k /\
        (forall k', k' <> k -> pm_view l' k' = pm_view l k') /\
        (if b then create = true /\ pm_view l k = None /\
                   exists g, mem = Some g /\ pm_view l' k = Some (teredo_peer_init (peer g))
         else pm_view l' k = pm_view l k /\ is_Some (pm_view l k))
      end;
  pm_get l p k :
    pm_ok l -> pm_at l p k -> exists v, get_peer p l = Ok v /\ pm_view l k = Some v;
  pm_put l p k v :
    pm_ok l -> pm_at l p k ->
    exists l', put_peer p v l = Ok l' /\ pm_ok l' /\ locked l' = locked l /\ pm_at l' p k /\
      pm_view l' k = Some v /\ (forall k', k' <> k -> pm_view l' k' = pm_view l k');
  pm_release l :
    pm_ok l -> locked l = true ->
    exists l', teredo_list_release l = Ok l' /\ pm_ok l' /\ locked l' = false /\
      (forall p k, pm_at l p k -> pm_at l' p k) /\ (forall k, pm_view l' k = pm_view l k);
  pm_reset l max :
    pm_ok l -> locked l = false -> 0 <= max < 2 ^ 32 ->
    exists l', teredo_list_reset max l = Ok l' /\ pm_ok l' /\ locked l' = false /\
      (forall k, pm_view l' k = None);
  pm_collect l :
    pm_ok l -> locked l = false ->
    exists l', garbage_collector l = Ok l' /\ pm_ok l' /\ locked l' = false /\
      (forall k v, pm_view l' k = Some v -> pm_view l k = Some v);
  pm_destroy l : pm_ok l -> locked l = false -> teredo_list_destroy l = Ok ∅;
}.

Lemma put_peer_at l p k v :
  list_ok l -> designates l p k ->
  exists l', put_peer p v l = Ok l' /\ list_ok l' /\ locked l' = locked l /\ designates l' p k /\
    view l' k = Some v /\ (forall k', k' <> k -> view l' k' = view l k').
Proof.
  intros Hok Hd. destruct (put_peer_view l p k v Hok Hd) as (l' & E & Hok' & Hlk & Hroot & Hv & Ho).
  exists l'. split_and!; try done. unfold designates. by rewrite Hroot.
Qed.

Lemma release_at l :
  list_ok l -> locked l = true ->
  exists l', teredo_list_release l = Ok l' /\ list_ok l' /\ locked l' = false /\
    (forall p k, designates l p k -> designates l' p k) /\ (forall k, view l' k = view l k).
Proof.
  intros Hok Hlk. destruct (release_view l Hok Hlk) as (l' & E & Hok' & Hlk' & Hroot & _ & Hv).
  exists l'. split_and!; try done. intros p k. unfold designates. by rewrite Hroot.
Qed.

#[export] Instance peerlist_map : PeerMap := {|
  pm_ok := list_ok;
  pm_view := view;
  pm_at := designates;
  pm_create := list_ok_create;
  pm_lookup := lookup_view;
  pm_get := get_peer_view;
  pm_put := put_peer_at;
  pm_release := release_at;
  pm_reset := reset_view;
  pm_collect := collect_view;
  pm_destroy := destroy_view;
|}.
