(* ===== verification/MiredoConf.v ===== *)
(** * The configuration of miredo ([miredo/src/conf.c])

A file of directives, one name and one value per line, is read into a singly
linked list with a pointer to its last element; the daemon then takes the
settings out one by one and warns about those that are left.  The list is
modelled at the level of pointers, and addresses are never used twice, so that
an access through a stale pointer is a fault.  Name resolution is a parameter;
the messages that the program logs are recorded, because the checking tool
counts them. *)

From Stdlib Require Import ZifyNat.
From stdpp Require Import base gmap list numbers strings.
From S2P Require Import Prelude Words CString Addr.

(** ** Data *)

(** What is logged; [LogError] or [LogWarning] and the text. *)
Inductive log :=
| Superfluous (name : list Z) (line : Z)   (* warning *)
| SkippedLine (line : Z)                   (* warning *)
| IgnoredLine (line : Z) (name : list Z)   (* warning *)
| NoMemory
| ReadError
| OpenError
| InvalidInteger (value name : list Z)
| InvalidHostname (value : list Z) (line : Z)
| InvalidPrefix (prefix : Z)
| UnknownFacility (value : list Z) (line : Z).

Record setting := mk_setting {
  s_name : list Z;
  s_value : list Z;
  s_line : Z;
  s_next : option positive;
}.

(** The structure, the blocks of its settings, the number of strings that are
    allocated, and the log. *)
Record miredo_conf := mk_miredo_conf {
  head : option positive;
  tail : option positive;
  settings : gmap positive setting;
  next_addr : positive;
  strings : Z;
  logged : list log;
}.

Definition miredo_conf_create : miredo_conf := mk_miredo_conf None None ∅ 1 0 [].

Definition set_head (v : option positive) (c : miredo_conf) : miredo_conf :=
  mk_miredo_conf v (tail c) (settings c) (next_addr c) (strings c) (logged c).
Definition set_tail (v : option positive) (c : miredo_conf) : miredo_conf :=
  mk_miredo_conf (head c) v (settings c) (next_addr c) (strings c) (logged c).
Definition set_settings (v : gmap positive setting) (c : miredo_conf) : miredo_conf :=
  mk_miredo_conf (head c) (tail c) v (next_addr c) (strings c) (logged c).
Definition add_strings (n : Z) (c : miredo_conf) : miredo_conf :=
  mk_miredo_conf (head c) (tail c) (settings c) (next_addr c) (strings c + n) (logged c).
Definition add_log (m : log) (c : miredo_conf) : miredo_conf :=
  mk_miredo_conf (head c) (tail c) (settings c) (next_addr c) (strings c) (logged c ++ [m]).

Definition setting_at (c : miredo_conf) (p : positive) : res setting := Prelude.from_option UseAfterFree (settings c !! p).

(** ** The list *)

Fixpoint clear_loop (fuel : nat) (p : option positive) (show : Z) (c : miredo_conf) : res miredo_conf :=
  match fuel with
  | O => Err OutOfFuel
  | S fuel' =>
    match p with
    | None => Ok c
    | Some q =>
      s ← setting_at c q;
      let '(show, c) := if 0 <? show then (show - 1, add_log (Superfluous (s_name s) (s_line s)) c) else (show, c) in
      clear_loop fuel' (s_next s) show (add_strings (-2) (set_settings (delete q (settings c)) c))
    end
  end.

Definition miredo_conf_clear (show : Z) (c : miredo_conf) : res miredo_conf :=
  clear_loop (S (size (settings c))) (head c) show (set_head None c).

Definition miredo_conf_destroy (c : miredo_conf) : res miredo_conf := miredo_conf_clear 0 c.

(** [mem] tells which of the three allocations succeed. *)
Definition miredo_conf_set (mem : bool * bool * bool) (name value : list Z) (line : Z) (c : miredo_conf) :
    res (bool * miredo_conf) :=
  let '(m1, m2, m3) := mem in
  if m1 && m2 && m3 then
    let p := next_addr c in
    let c := mk_miredo_conf (head c) (tail c) (<[p := mk_setting name value line None]> (settings c)) (Pos.succ p)
               (strings c + 2) (logged c) in
    match head c with
    | None => Ok (true, set_tail (Some p) (set_head (Some p) c))
    | Some _ =>
      t ← Prelude.from_option AssertFailed (tail c);
      s ← setting_at c t;
      Ok (true, set_tail (Some p)
           (set_settings (<[t := mk_setting (s_name s) (s_value s) (s_line s) (Some p)]> (settings c)) c))
    end
  else Ok (false, add_log NoMemory c).

Fixpoint get_loop (fuel : nat) (p prev : option positive) (name : list Z) (c : miredo_conf) :
    res (option (list Z * Z) * miredo_conf) :=
  match fuel with
  | O => Err OutOfFuel
  | S fuel' =>
    match p with
    | None => Ok (None, c)
    | Some q =>
      s ← setting_at c q;
      if strcasecmp0 (s_name s) name then
        c ← match prev with
            | Some r =>
              t ← setting_at c r;
              Ok (set_settings (<[r := mk_setting (s_name t) (s_value t) (s_line t) (s_next s)]> (settings c)) c)
            | None => Ok (set_head (s_next s) c)
            end;
        Ok (Some (s_value s, s_line s), add_strings (-1) (set_settings (delete q (settings c)) c))
      else get_loop fuel' (s_next s) (Some q) name c
    end
  end.

(** The value, which the caller frees, and its line. *)
Definition miredo_conf_get (name : list Z) (c : miredo_conf) : res (option (list Z * Z) * miredo_conf) :=
  get_loop (S (size (settings c))) (head c) None name c.

Definition free_value (c : miredo_conf) : miredo_conf := add_strings (-1) c.

(** ** Reading a file *)

Definition LBUF : nat := 1056.
Definition HASH : Z := 35.

(** [while (fgetc (stream) != '\n') if (feof (stream) || ferror (stream)) break;] *)
Fixpoint skip_line (s : list Z) : list Z :=
  match s with
  | [] => []
  | c :: s' => if c =? LF then s' else skip_line s'
  end.

(** [sscanf (lbuf, " %31s %1023s", nbuf, vbuf)]. *)
Definition scan_line (l : list Z) : option (list Z * option (list Z)) :=
  let '(n, r) := scan_word 31 (skip_spaces l) in
  match n with
  | [] => None
  | _ => let '(v, _) := scan_word 1023 (skip_spaces r) in Some (n, match v with [] => None | _ => Some v end)
  end.

(** [stream] is what the file still holds; [mem] gives the allocations of each
    line. *)
Fixpoint read_loop (fuel : nat) (mem : Z -> bool * bool * bool) (stream : list Z) (line : Z) (c : miredo_conf) :
    res (bool * miredo_conf) :=
  match fuel with
  | O => Err OutOfFuel
  | S fuel' =>
    match fgets LBUF stream with
    | None => Ok (true, c)
    | Some (lbuf, stream) =>
      let text := c_str lbuf in
      let line := wrap 32 (line + 1) in
      last_char ← Prelude.from_option OutOfBounds (list.last text);
      if negb (last_char =? LF) then
        read_loop fuel' mem (skip_line stream) line (add_log (SkippedLine line) c)
      else
        match scan_line (take (length text - 1) text) with
        | Some (nbuf, Some vbuf) =>
          if negb (bool_decide (list.head nbuf = Some HASH)) then
            x ← miredo_conf_set (mem line) nbuf vbuf line c;
            let '(ok, c) := x in
            if ok : bool then read_loop fuel' mem stream line c else Ok (false, c)
          else read_loop fuel' mem stream line c
        | Some (nbuf, None) =>
          read_loop fuel' mem stream line (if negb (bool_decide (list.head nbuf = Some HASH)) then add_log (IgnoredLine line nbuf) c else c)
        | None => read_loop fuel' mem stream line c
        end
    end
  end.

(** [ferror]: reading stopped with an error. *)
Definition miredo_conf_read_FILE (mem : Z -> bool * bool * bool) (stream : list Z) (ferror : bool) (c : miredo_conf) :
    res (bool * miredo_conf) :=
  x ← read_loop (S (length stream)) mem stream 0 c;
  let '(ok, c) := x in
  if negb ok then Ok (false, c) else
  if ferror then Ok (false, add_log ReadError c) else Ok (true, c).

Definition miredo_conf_read_file (file : option (list Z * bool)) (mem : Z -> bool * bool * bool) (c : miredo_conf) :
    res (bool * miredo_conf) :=
  match file with
  | Some (stream, ferror) => miredo_conf_read_FILE mem stream ferror c
  | None => Ok (false, add_log OpenError c)
  end.

(** ** Typed settings *)

Definition miredo_conf_get_int16 (name : list Z) (value : Z) (c : miredo_conf) : res (bool * Z * miredo_conf) :=
  x ← miredo_conf_get name c;
  match x with
  | (None, c) => Ok (true, value, c)
  | (Some (val, _), c) =>
    let '(l, rest) := strtoul val in
    if negb (bool_decide (rest = [])) || (65535 <? l)
    then Ok (false, value, free_value (add_log (InvalidInteger val name) c))
    else Ok (true, l, free_value c)
  end.

Section resolver.
Context (getaddrinfo4 : list Z -> option Z) (getaddrinfo6 : list Z -> option (list Z)).

Definition GetIPv4ByName (hostname : list Z) : option Z := getaddrinfo4 hostname.

Definition miredo_conf_parse_IPv4 (name : list Z) (ipv4 : Z) (c : miredo_conf) : res (bool * Z * miredo_conf) :=
  x ← miredo_conf_get name c;
  match x with
  | (None, c) => Ok (true, ipv4, c)
  | (Some (val, line), c) =>
    match GetIPv4ByName val with
    | None => Ok (false, ipv4, free_value (add_log (InvalidHostname val line) c))
    | Some a => Ok (true, a, free_value c)
    end
  end.

Definition miredo_conf_parse_IPv6 (name : list Z) (value : list Z) (c : miredo_conf) : res (bool * list Z * miredo_conf) :=
  x ← miredo_conf_get name c;
  match x with
  | (None, c) => Ok (true, value, c)
  | (Some (val, line), c) =>
    match getaddrinfo6 val with
    | None => Ok (false, value, free_value (add_log (InvalidHostname val line) c))
    | Some a => Ok (true, a, free_value c)
    end
  end.

Definition miredo_conf_parse_teredo_prefix (name : list Z) (value : Z) (c : miredo_conf) : res (bool * Z * miredo_conf) :=
  let addr := le_split 4 value ++ repeat 0 12 in
  x ← miredo_conf_parse_IPv6 name addr c;
  match x with
  | (true, ip6, c) =>
    let prefix := le_load (take 4 ip6) in
    if negb (is_valid_teredo_prefix prefix) then Ok (false, value, add_log (InvalidPrefix prefix) c)
    else Ok (true, prefix, c)
  | (false, _, c) => Ok (false, value, c)
  end.
End resolver.

(** The facilities of [syslog.h] on macOS. *)
Definition facilities : list (list Z * Z) :=
  [(str "auth", 32); (str "authpriv", 80); (str "cron", 72); (str "daemon", 24); (str "ftp", 88); (str "kern", 0);
   (str "local0", 128); (str "local1", 136); (str "local2", 144); (str "local3", 152); (str "local4", 160);
   (str "local5", 168); (str "local6", 176); (str "local7", 184); (str "lpr", 48); (str "mail", 16); (str "news", 56);
   (str "syslog", 40); (str "user", 8); (str "uucp", 64)].

Definition find_facility (s : list Z) : option Z :=
  snd <$> List.find (fun x => strcasecmp0 s (fst x)) facilities.

Definition miredo_conf_parse_syslog_facility (name : list Z) (facility : Z) (c : miredo_conf) : res (bool * Z * miredo_conf) :=
  x ← miredo_conf_get name c;
  match x with
  | (None, c) => Ok (true, facility, c)
  | (Some (val, line), c) =>
    match find_facility val with
    | Some f => Ok (true, f, free_value c)
    | None => Ok (false, facility, free_value (add_log (UnknownFacility val line) c))
    end
  end.

(** ** The list as a sequence *)

Abbreviation directive := (list Z * list Z * Z)%type.
Definition entry : Type := positive * directive.
Definition d_name (d : directive) : list Z := d.1.1.
Definition d_value (d : directive) : list Z := d.1.2.
Definition d_line (d : directive) : Z := d.2.

Definition node (d : directive) (next : option positive) : setting := mk_setting (d_name d) (d_value d) (d_line d) next.

Fixpoint lseg (h : gmap positive setting) (p : option positive) (L : list entry) (q : option positive) : Prop :=
  match L with
  | [] => p = q
  | x :: L' => p = Some x.1 /\ exists next, h !! x.1 = Some (node x.2 next) /\ lseg h next L' q
  end.

(** [conf_rep base c L]: the structure holds the settings [L]; [base] strings
    are not its own. *)
Definition conf_rep (base : Z) (c : miredo_conf) (L : list entry) : Prop :=
  lseg (settings c) (head c) L None /\ NoDup (L.*1) /\ dom (settings c) = list_to_set (L.*1) /\
  Forall (fun x => (x.1 < next_addr c)%positive) L /\ strings c = base + 2 * Z.of_nat (length L).

(** The pointer to the last element is right. *)
Definition tail_ok (c : miredo_conf) (L : list entry) : Prop := L = [] \/ tail c = fst <$> list.last L.

Lemma lseg_app h p L1 L2 q : lseg h p (L1 ++ L2) q <-> exists m, lseg h p L1 m /\ lseg h m L2 q.
Proof.
  revert p. induction L1 as [|x L1 IH]; intros p; cbn [app lseg].
  - split; [by exists p|]. by intros (m & -> & H).
  - split.
    + intros (-> & nx & Hx & (m & H1 & H2)%IH). exists m. split; [|done]. split; [done|]. by exists nx.
    + intros (m & (-> & nx & Hx & H1) & H2). split; [done|]. exists nx. split; [done|]. apply IH. by exists m.
Qed.

Lemma lseg_ext h h' p L q : (forall k, k ∈ L.*1 -> h' !! k = h !! k) -> lseg h p L q -> lseg h' p L q.
Proof.
  revert p. induction L as [|x L IH]; intros p Hk; cbn [lseg]; [done|]. intros (-> & nx & Hx & H).
  split; [done|]. exists nx. split; [rewrite Hk by (cbn; by left); done|]. apply IH; [|done].
  intros k Hin. apply Hk. cbn. by right.
Qed.

Lemma lseg_insert h k v p L q : k ∉ L.*1 -> lseg h p L q -> lseg (<[k := v]> h) p L q.
Proof. intros Hk. apply lseg_ext. intros j Hj. rewrite lookup_insert_ne; [done|]. by intros ->. Qed.

Lemma lseg_delete h k p L q : k ∉ L.*1 -> lseg h p L q -> lseg (delete k h) p L q.
Proof. intros Hk. apply lseg_ext. intros j Hj. rewrite lookup_delete_ne; [done|]. by intros ->. Qed.

(** The last element is linked to something else. *)
Lemma lseg_relink h p L x q q' :
  NoDup ((L ++ [x]).*1) -> lseg h p (L ++ [x]) q -> lseg (<[x.1 := node x.2 q']> h) p (L ++ [x]) q'.
Proof.
  rewrite fmap_app. intros (H1 & H2 & _)%list.NoDup_app (m & Hm & Hx)%lseg_app. cbn in Hx. destruct Hx as (-> & nx & Hx & ->).
  apply lseg_app. exists (Some x.1). split.
  - apply lseg_insert; [|done]. intros Hin. apply (H2 _ Hin). cbn. by left.
  - cbn. split; [done|]. exists q'. split; [|done]. apply lookup_insert_eq.
Qed.

Lemma conf_rep_size base c L : conf_rep base c L -> size (settings c) = length L.
Proof.
  intros (_ & Hn & Hd & _). rewrite <- (size_dom (D := gset positive)), Hd, size_list_to_set by done. by rewrite length_fmap.
Qed.

Lemma setting_at_ok c p x : settings c !! p = Some x -> setting_at c p = Ok x.
Proof. intros H. unfold setting_at. by rewrite H. Qed.

Lemma create_rep : conf_rep 0 miredo_conf_create [].
Proof. split; [done|]. split; [constructor|]. split; [done|]. by split; [constructor|]. Qed.

Lemma fresh_addr base c L : conf_rep base c L -> next_addr c ∉ L.*1.
Proof.
  intros (_ & _ & _ & Hlt & _) (x & E & Hin)%list_elem_of_fmap. rewrite list.Forall_forall in Hlt.
  specialize (Hlt _ Hin). rewrite <- E in Hlt. lia.
Qed.

Lemma set_ok base c L name value line :
  conf_rep base c L -> tail_ok c L ->
  exists c', miredo_conf_set (true, true, true) name value line c = Ok (true, c') /\
    conf_rep base c' (L ++ [(next_addr c, (name, value, line))]) /\ tail_ok c' (L ++ [(next_addr c, (name, value, line))]) /\
    logged c' = logged c.
Proof.
  intros HR Ht. pose proof (fresh_addr _ _ _ HR) as Hf. destruct HR as (Hs & Hn & Hd & Hlt & Hst).
  unfold miredo_conf_set. cbn [andb]. set (p := next_addr c) in *. set (x := (p, (name, value, line))).
  change (mk_setting name value line None) with (node (name, value, line) None).
  assert (NoDup ((L ++ [x]).*1)) as Hn'.
  { rewrite fmap_app. apply list.NoDup_app. split; [done|]. split; [|apply list.NoDup_singleton].
    intros k Hk Hin. cbn in Hin. apply list_elem_of_singleton in Hin as ->. by apply Hf. }
  assert (Forall (fun y => (y.1 < Pos.succ p)%positive) (L ++ [x])) as Hlt'.
  { apply Forall_app. split; [|repeat constructor; cbn; lia]. eapply list.Forall_impl; [exact Hlt|]. cbn. intros y Hy. lia. }
  assert (dom (<[p := node x.2 None]> (settings c)) = list_to_set ((L ++ [x]).*1)) as Hd'.
  { rewrite dom_insert_L, Hd, fmap_app, list_to_set_app_L. cbn. set_solver. }
  assert (strings c + 2 = base + 2 * Z.of_nat (length (L ++ [x]))) as Hst' by (rewrite length_app; cbn; lia).
  assert (tail_ok (set_tail (Some p) c) (L ++ [x])) as Ht' by (right; by rewrite last_snoc).
  destruct L as [|y L] using rev_ind; [|clear IHL]; cbn [head tail].
  - cbn in Hs. rewrite Hs. eexists. split; [done|]. split; [|by split].
    split; [|by split_and!]. cbn. split; [done|]. exists None. split; [apply lookup_insert_eq|done].
  - assert (is_Some (head c)) as [hd Ehd].
    { destruct L as [|z L]; cbn in Hs; destruct Hs as (-> & _); by eexists. }
    rewrite Ehd. destruct Ht as [E|E]; [by destruct L|]. rewrite last_snoc in E. cbn in E. rewrite E. cbn [Prelude.from_option mbind res_bind].
    pose proof Hs as (m & _ & Hy)%lseg_app. cbn in Hy. destruct Hy as (Em & nx & Hy & _).
    assert (p <> y.1) as Hpy. { intros ->. apply Hf. rewrite fmap_app. apply elem_of_app. right. cbn. by left. }
    unfold setting_at. cbn [settings]. rewrite lookup_insert_ne, Hy by done. cbn [Prelude.from_option mbind res_bind node s_name s_value s_line].
    eexists. split; [done|]. split; [|by split]. split; [|split_and!; try done].
    + cbn [settings set_settings set_tail head]. rewrite <- Ehd.
      change (mk_setting (d_name y.2) (d_value y.2) (d_line y.2) (Some p)) with (node y.2 (Some p)).
      apply lseg_app. exists (Some p). split.
      * apply (lseg_relink _ _ _ _ None); [done|]. by apply lseg_insert.
      * cbn. split; [done|]. exists None. split; [|done]. rewrite lookup_insert_ne by done. apply lookup_insert_eq.
    + cbn [settings set_settings set_tail]. rewrite dom_insert_L. change (node (name, value, line) None) with (node x.2 None). rewrite Hd'.
      assert (y.1 ∈ (list_to_set (((L ++ [y]) ++ [x]).*1) : gset positive)); [|set_solver].
      apply elem_of_list_to_set. rewrite !fmap_app. apply elem_of_app. left. apply elem_of_app. right. cbn. by left.
Qed.

(** What [miredo_conf_get] promises: the first setting of that name, in any
    case of letters, is taken out. *)
Fixpoint spec_get (name : list Z) (A : list directive) : option (list Z * Z) * list directive :=
  match A with
  | [] => (None, [])
  | d :: A' =>
    if strcasecmp0 (d_name d) name then (Some (d_value d, d_line d), A')
    else let '(r, A'') := spec_get name A' in (r, d :: A'')
  end.

Definition taken (r : option (list Z * Z)) : Z := if r then 1 else 0.

(** Taking out an element that is not where [L1] ends. *)
Lemma unlink_rep base c L1 x L2 h' hd :
  conf_rep base c (L1 ++ x :: L2) -> lseg h' hd (L1 ++ L2) None ->
  dom h' = (list_to_set ((L1 ++ x :: L2).*1) : gset positive) ∖ {[x.1]} ->
  conf_rep (base + 1) (add_strings (-1) (set_settings h' (set_head hd c))) (L1 ++ L2).
Proof.
  intros (_ & Hn & _ & Hlt & Hst) Hs Hd. split; [done|].
  rewrite fmap_app, fmap_cons in Hn. apply list.NoDup_app in Hn as (N1 & N2 & [N3 N4]%list.NoDup_cons).
  split; [rewrite fmap_app; apply list.NoDup_app; split_and!; [done| |done]; intros k H1 H2; apply (N2 k H1); by right|].
  split.
  { cbn. rewrite Hd, !fmap_app, fmap_cons, !list_to_set_app_L. cbn.
    assert (x.1 ∉ (list_to_set (L1.*1) : gset positive)) as H1 by (rewrite elem_of_list_to_set; intros H; apply (N2 _ H); by left).
    assert (x.1 ∉ (list_to_set (L2.*1) : gset positive)) as H2 by (by rewrite elem_of_list_to_set). set_solver. }
  split; [|cbn; rewrite Hst, !length_app; cbn; lia].
  apply Forall_app in Hlt as [H1 H2]. apply list.Forall_cons in H2 as [_ H2]. cbn. apply Forall_app. by split.
Qed.

Lemma get_loop_ok base name c L1 L2 p prev fuel :
  conf_rep base c (L1 ++ L2) -> lseg (settings c) (head c) L1 p -> lseg (settings c) p L2 None ->
  prev = fst <$> list.last L1 -> (length L2 < fuel)%nat ->
  exists r c' L2', get_loop fuel p prev name c = Ok (r, c') /\ (r, L2'.*2) = spec_get name (L2.*2) /\
    conf_rep (base + taken r) c' (L1 ++ L2') /\ logged c' = logged c /\ next_addr c' = next_addr c /\ tail c' = tail c /\
    (r = None -> c' = c /\ L2' = L2) /\ (forall y, y ∈ L2' -> y ∈ L2).
Proof.
  revert L1 p prev fuel. induction L2 as [|x L2 IH]; intros L1 p prev fuel HR H1 H2 Hp Hf;
    (destruct fuel as [|fuel]; [cbn in Hf; lia|]); cbn [get_loop].
  { cbn in H2. subst p. exists None, c, []. rewrite Z.add_0_r. by split_and!. }
  cbn in H2. destruct H2 as (-> & nx & Hx & H2). rewrite (setting_at_ok _ _ _ Hx). cbn [mbind res_bind node s_name s_value s_line s_next].
  cbn [fmap list_fmap spec_get]. destruct (strcasecmp0 (d_name x.2) name).
  - exists (Some (d_value x.2, d_line x.2)).
    pose proof HR as (_ & Hn & Hd & _). rewrite fmap_app, fmap_cons in Hn. apply list.NoDup_app in Hn as (N1 & N2 & [N3 N4]%list.NoDup_cons).
    assert (x.1 ∉ L1.*1) as Nx by (intros H; apply (N2 _ H); by left).
    destruct L1 as [|y L1 _] using rev_ind.
    + subst prev. cbn [mbind res_bind list.last fmap option_fmap option_map]. eexists _, L2. split; [done|]. split; [done|]. split; [|split_and!; try done; intros y0; by right].
      apply (unlink_rep base c [] x L2 (delete x.1 (settings c)) nx HR); [by apply lseg_delete|].
      cbn [settings]. by rewrite dom_delete_L, Hd.
    + subst prev. rewrite last_snoc. cbn [fmap option_fmap option_map]. pose proof H1 as (m & _ & Hy)%lseg_app. cbn in Hy. destruct Hy as (_ & ny & Hy & _).
      rewrite (setting_at_ok _ _ _ Hy). cbn [mbind res_bind node s_name s_value s_line].
      eexists _, L2. split; [done|]. split; [done|]. split; [|split_and!; try done; intros y0; by right].
      change (mk_setting (d_name y.2) (d_value y.2) (d_line y.2) nx) with (node y.2 nx).
      apply (unlink_rep base c (L1 ++ [y]) x L2 (delete x.1 (<[y.1 := node y.2 nx]> (settings c))) (head c) HR).
      * apply lseg_app. exists nx. split; [apply lseg_delete; [done|]; by eapply lseg_relink|].
        apply lseg_delete; [done|]. apply lseg_insert; [|done].
        intros H. apply (N2 y.1); [rewrite fmap_app; apply elem_of_app; right; cbn; by left|by right].
      * cbn [settings]. rewrite dom_delete_L, dom_insert_L, Hd.
        assert (y.1 ∈ (list_to_set (((L1 ++ [y]) ++ x :: L2).*1) : gset positive)); [|set_solver].
        apply elem_of_list_to_set. rewrite !fmap_app. apply elem_of_app. left. apply elem_of_app. right. cbn. by left.
  - destruct (IH (L1 ++ [x]) nx (Some x.1) fuel) as (r & c' & L2' & -> & Hs & HR' & Hl & Hna & Htl & Hnone & Hsub); try done.
    + by rewrite <- app_assoc.
    + apply lseg_app. exists (Some x.1). split; [done|]. cbn. split; [done|]. by exists nx.
    + by rewrite last_snoc.
    + cbn in Hf. lia.
    + rewrite <- Hs. exists r, c', (x :: L2'). split; [done|]. split; [done|]. rewrite <- app_assoc in HR'.
      split; [done|]. split; [done|]. split; [done|]. split; [done|]. split; [intros E; by destruct (Hnone E) as [-> ->]|].
      intros y [-> |Hy]%elem_of_cons; [by left|right; by apply Hsub].
Qed.

Lemma get_ok base name c L :
  conf_rep base c L ->
  exists r c' L', miredo_conf_get name c = Ok (r, c') /\ (r, L'.*2) = spec_get name (L.*2) /\
    conf_rep (base + taken r) c' L' /\ logged c' = logged c /\ next_addr c' = next_addr c /\ tail c' = tail c /\ (r = None -> c' = c /\ L' = L) /\
    (forall y, y ∈ L' -> y ∈ L).
Proof.
  intros HR. unfold miredo_conf_get. rewrite (conf_rep_size _ _ _ HR).
  apply (get_loop_ok base name c [] L); try done; [apply HR|lia].
Qed.

(** Freeing everything, with warnings about the first [show] settings. *)
Definition superfluous (show : Z) (A : list directive) : list log :=
  (fun d => Superfluous (d_name d) (d_line d)) <$> take (Z.to_nat show) A.

Lemma clear_loop_ok base L fuel p show c :
  lseg (settings c) p L None -> NoDup (L.*1) -> dom (settings c) = list_to_set (L.*1) ->
  strings c = base + 2 * Z.of_nat (length L) -> (length L < fuel)%nat ->
  exists c', clear_loop fuel p show c = Ok c' /\ settings c' = ∅ /\ strings c' = base /\ head c' = head c /\
    next_addr c' = next_addr c /\ logged c' = logged c ++ superfluous show (L.*2).
Proof.
  revert fuel p show c. induction L as [|x L IH]; intros fuel p show c Hs Hn Hd Hst Hf;
    (destruct fuel as [|fuel]; [cbn in Hf; lia|]); cbn [clear_loop].
  { cbn in Hs. subst p. exists c. split; [done|]. split; [by apply dom_empty_inv_L|]. split; [cbn in Hst; lia|].
    unfold superfluous. cbn. rewrite take_nil, app_nil_r. done. }
  cbn in Hs. destruct Hs as (-> & nx & Hx & Hs). rewrite (setting_at_ok _ _ _ Hx). cbn [mbind res_bind node s_name s_value s_line s_next].
  cbn in Hn. apply list.NoDup_cons in Hn as [N1 N2].
  assert (forall sh cl, settings cl = settings c -> strings cl = strings c -> head cl = head c -> next_addr cl = next_addr c ->
    exists c', clear_loop fuel nx sh (add_strings (-2) (set_settings (delete x.1 (settings cl)) cl)) = Ok c' /\
      settings c' = ∅ /\ strings c' = base /\ head c' = head c /\ next_addr c' = next_addr c /\
      logged c' = logged cl ++ superfluous sh (L.*2)) as Hgo.
  { intros sh cl E1 E2 E3 E4.
    destruct (IH fuel nx sh (add_strings (-2) (set_settings (delete x.1 (settings cl)) cl))) as (c' & E & H1 & H2 & H3 & H4 & H5).
    - cbn [settings set_settings add_strings]. rewrite E1. by apply lseg_delete.
    - done.
    - cbn [settings set_settings add_strings]. rewrite E1, dom_delete_L, Hd. cbn.
      assert (x.1 ∉ (list_to_set (L.*1) : gset positive)) by (by rewrite elem_of_list_to_set). set_solver.
    - cbn [strings set_settings add_strings]. rewrite E2, Hst. cbn. lia.
    - cbn in Hf. lia.
    - exists c'. split; [done|]. split; [done|]. split; [done|]. split; [by rewrite H3|]. split; [by rewrite H4|done]. }
  destruct (Z.ltb_spec 0 show) as [Hp|Hp].
  - destruct (Hgo (show - 1) (add_log (Superfluous (d_name x.2) (d_line x.2)) c)) as (c' & E & H1 & H2 & H3 & H4 & H5); try done.
    exists c'. split; [exact E|]. split_and!; try done. rewrite H5. unfold superfluous. cbn [logged add_log].
    replace (Z.to_nat show) with (S (Z.to_nat (show - 1))) by lia. cbn. by rewrite <- app_assoc.
  - destruct (Hgo show c) as (c' & E & H1 & H2 & H3 & H4 & H5); try done.
    exists c'. split; [exact E|]. split_and!; try done. rewrite H5. unfold superfluous. by replace (Z.to_nat show) with O by lia.
Qed.

Lemma clear_ok base show c L :
  conf_rep base c L ->
  exists c', miredo_conf_clear show c = Ok c' /\ conf_rep base c' [] /\ logged c' = logged c ++ superfluous show (L.*2).
Proof.
  intros HR. pose proof (conf_rep_size _ _ _ HR) as Hsz. destruct HR as (Hs & Hn & Hd & Hlt & Hst). unfold miredo_conf_clear. rewrite Hsz.
  destruct (clear_loop_ok base L (S (length L)) (head c) show (set_head None c)) as (c' & E & H1 & H2 & H3 & H4 & H5); try done; [lia|].
  exists c'. split; [done|]. split; [|done]. split; [exact H3|]. split; [constructor|]. rewrite H1. split; [done|].
  split; [constructor|]. cbn. lia.
Qed.

(** ** The format of the file *)

(** The lines of a file, with whether they end in a line feed. *)
Fixpoint split_lines (s : list Z) : list (list Z * bool) :=
  match s with
  | [] => []
  | c :: s' =>
    if c =? LF then ([], true) :: split_lines s' else
    match split_lines s' with
    | [] => [([c], false)]
    | (l, t) :: r => (c :: l, t) :: r
    end
  end.

Definition is_comment (n : list Z) : bool := bool_decide (list.head n = Some HASH).

(** What a line means: a setting, or a warning, or nothing. *)
Definition line_meaning (line : Z) (x : list Z * bool) : list directive * list log :=
  let '(l, ended) := x in
  if negb ended || (1055 <=? length l)%nat then ([], [SkippedLine line]) else
  match scan_line l with
  | Some (n, Some v) => (if is_comment n then [] else [(n, v, line)], [])
  | Some (n, None) => ([], if is_comment n then [] else [IgnoredLine line n])
  | None => ([], [])
  end.

Fixpoint lines_meaning (line : Z) (ls : list (list Z * bool)) : list directive * list log :=
  match ls with
  | [] => ([], [])
  | x :: ls' =>
    let '(d, w) := line_meaning line x in
    let '(d', w') := lines_meaning (line + 1) ls' in (d ++ d', w ++ w')
  end.

Definition file_meaning (s : list Z) : list directive * list log := lines_meaning 1 (split_lines s).

Lemma split_lines_lf l rest : no_lf l -> split_lines (l ++ LF :: rest) = (l, true) :: split_lines rest.
Proof.
  induction 1 as [|c l Hc _ IH]; cbn [app split_lines]; [done|]. rewrite IH. destruct (Z.eqb_spec c LF); [done|]. done.
Qed.

Lemma split_lines_end l : no_lf l -> l <> [] -> split_lines l = [(l, false)].
Proof.
  induction 1 as [|c l Hc Hl IH]; [done|]. intros _. cbn [split_lines]. destruct (Z.eqb_spec c LF); [done|].
  destruct l as [|c' l]; [done|]. by rewrite IH.
Qed.

Lemma first_line s : s = [] \/ (exists l rest, no_lf l /\ s = l ++ LF :: rest) \/ (no_lf s /\ s <> []).
Proof.
  induction s as [|c s [-> | [(l & rest & Hl & ->)|[Hs _]]]]; [by left|right..].
  - destruct (Z.eqb_spec c LF) as [-> |]; [left; exists [], []; by split; [constructor|]|right]. split; [by repeat constructor|done].
  - left. destruct (Z.eqb_spec c LF) as [-> |]; [exists [], (l ++ LF :: rest); by split; [constructor|]|]. exists (c :: l), rest. split; [by constructor|done].
  - destruct (Z.eqb_spec c LF) as [-> |]; [left; exists [], s; by split; [constructor|]|right]. split; [by constructor|done].
Qed.

Lemma skip_line_lf l rest : no_lf l -> skip_line (l ++ LF :: rest) = rest.
Proof. induction 1 as [|c l Hc _ IH]; cbn; [done|]. by destruct (Z.eqb_spec c LF). Qed.

Lemma skip_line_end l : no_lf l -> skip_line l = [].
Proof. induction 1 as [|c l Hc _ IH]; cbn; [done|]. by destruct (Z.eqb_spec c LF). Qed.

Lemma read_line_end n l : no_lf l -> (length l <= n)%nat -> read_line n l = (l, []).
Proof.
  intros H. revert n. induction H as [|c l Hc _ IH]; intros [|n] Hn; cbn in *; try done; [lia|].
  destruct (Z.eqb_spec c LF); [done|]. by rewrite IH by lia.
Qed.

Lemma last_no_lf l : no_lf l -> l <> [] -> exists c, list.last l = Some c /\ (c =? LF) = false.
Proof.
  intros H Hne. destruct l as [|c l _] using rev_ind; [done|]. rewrite last_snoc. exists c. split; [done|].
  apply Forall_app in H as [_ H]. apply list.Forall_cons in H as [H _]. by apply Z.eqb_neq.
Qed.

(** One turn of the loop on a line that is not too long. *)
Definition line_turn (fuel : nat) (mem : Z -> bool * bool * bool) (rest : list Z) (line : Z) (l : list Z) (c : miredo_conf) :
    res (bool * miredo_conf) :=
  match scan_line l with
  | Some (n, Some v) =>
    if is_comment n then read_loop fuel mem rest line c else
    x ← miredo_conf_set (mem line) n v line c;
    let '(ok, c) := x in if ok : bool then read_loop fuel mem rest line c else Ok (false, c)
  | Some (n, None) => read_loop fuel mem rest line (if is_comment n then c else add_log (IgnoredLine line n) c)
  | None => read_loop fuel mem rest line c
  end.

Lemma read_loop_line fuel mem l rest line c :
  no_lf l -> no_nul l -> (length l < 1055)%nat ->
  read_loop (S fuel) mem (l ++ LF :: rest) line c = line_turn fuel mem rest (wrap 32 (line + 1)) l c.
Proof.
  intros Hl Hn Hlen. cbn [read_loop]. unfold fgets. replace (match l ++ LF :: rest with [] => None | _ => _ end)
    with (Some (read_line (LBUF - 1) (l ++ LF :: rest))) by (by destruct l).
  rewrite read_line_full by (done || unfold LBUF; lia). rewrite c_str_no_nul by (apply Forall_app; split; [done|by repeat constructor]).
  rewrite last_snoc. cbn [Prelude.from_option mbind res_bind]. rewrite Z.eqb_refl. cbn [negb].
  rewrite length_app, Nat.add_sub. rewrite take_app_exact by done. unfold line_turn, is_comment.
  destruct (scan_line l) as [[n [v|]]|]; [|by case_bool_decide|done]. by case_bool_decide.
Qed.

Lemma read_loop_long fuel mem s line c :
  no_lf (take 1055 s) -> no_nul s -> s <> [] ->
  read_loop (S fuel) mem s line c =
    read_loop fuel mem (skip_line (drop 1055 s)) (wrap 32 (line + 1)) (add_log (SkippedLine (wrap 32 (line + 1))) c).
Proof.
  intros Hl Hn Hne. cbn [read_loop]. unfold fgets. replace (match s with [] => None | _ => _ end)
    with (Some (read_line (LBUF - 1) s)) by (by destruct s).
  replace (read_line (LBUF - 1) s) with (take 1055 s, drop 1055 s).
  2: { change (LBUF - 1)%nat with 1055%nat. destruct (Nat.lt_ge_cases (length s) 1055) as [H|H].
       - rewrite take_ge in * by lia. rewrite drop_ge by lia. by rewrite read_line_end by (done || lia).
       - rewrite <- (take_drop 1055 s) at 3. rewrite <- read_line_cut by done. f_equal. rewrite length_take. lia. }
  rewrite c_str_no_nul by (by apply Forall_take).
  destruct (last_no_lf (take 1055 s) Hl) as (x & -> & Ex). { destruct s; [done|]. by cbn. }
  cbn [Prelude.from_option mbind res_bind]. rewrite Ex. done.
Qed.

Definition all_mem (mem : Z -> bool * bool * bool) : Prop := forall n, mem n = (true, true, true).

(** The outcome of reading the lines that mean [m] into a list [L]. *)
Definition read_result (base : Z) (mem : Z -> bool * bool * bool) (L : list entry) (c : miredo_conf)
    (m : list directive * list log) (ok : bool) (c' : miredo_conf) : Prop :=
  exists L', conf_rep base c' L' /\ tail_ok c' L' /\
    (exists d, d `prefix_of` m.1 /\ L'.*2 = L.*2 ++ d) /\
    (all_mem mem -> ok = true /\ L'.*2 = L.*2 ++ m.1 /\ logged c' = logged c ++ m.2).

Lemma add_log_rep base m c L : conf_rep base c L -> conf_rep base (add_log m c) L.
Proof. done. Qed.

Lemma add_log_tail m c L : tail_ok c L -> tail_ok (add_log m c) L.
Proof. done. Qed.

(** A line that adds no setting. *)
Lemma read_result_log base mem L c m w ok c' :
  (exists c1, logged c1 = logged c ++ w /\ read_result base mem L c1 m ok c') -> read_result base mem L c (m.1, w ++ m.2) ok c'.
Proof.
  intros (c1 & Hl & L' & HR & Ht & Hd & Hall). exists L'. split; [done|]. split; [done|]. split; [done|].
  intros H. destruct (Hall H) as (-> & HL & Hlog). split; [done|]. split; [done|]. by rewrite Hlog, Hl, <- app_assoc.
Qed.

Lemma split_lines_length s : (length (split_lines s) <= length s)%nat.
Proof.
  induction s as [|c s IH]; cbn [split_lines]; [done|]. destruct (c =? LF); [cbn; lia|].
  destruct (split_lines s) as [|[l t] r]; cbn in *; lia.
Qed.

Lemma conf_read_loop_ok base mem fuel s line c L :
  no_nul s -> (length s < fuel)%nat -> 0 <= line -> line + Z.of_nat (length s) < 2 ^ 32 -> conf_rep base c L -> tail_ok c L ->
  exists ok c', read_loop fuel mem s line c = Ok (ok, c') /\
    read_result base mem L c (lines_meaning (line + 1) (split_lines s)) ok c'.
Proof.
  revert s line c L. induction fuel as [|fuel IH]; intros s line c L Hn Hf H0 Hmax HR Ht; [lia|].
  destruct (first_line s) as [-> | [(l & rest & Hl & ->)|[Hl Hne]]].
  { cbn. exists true, c. split; [done|]. exists L. split; [done|]. split; [done|]. split; [|by rewrite !app_nil_r].
    exists []. split; [done|]. by rewrite app_nil_r. }
  - apply Forall_app in Hn as [Hnl Hnr]. apply list.Forall_cons in Hnr as [_ Hnr]. rewrite split_lines_lf by done. cbn [lines_meaning].
    rewrite length_app in Hf, Hmax. cbn in Hf, Hmax.
    assert (wrap 32 (line + 1) = line + 1) as Hwrap by (unfold wrap; apply Z.mod_small; lia).
    destruct (lines_meaning (line + 1 + 1) (split_lines rest)) as [d' w'] eqn:Em.
    assert (forall c1 L1, conf_rep base c1 L1 -> tail_ok c1 L1 ->
      exists ok c', read_loop fuel mem rest (line + 1) c1 = Ok (ok, c') /\ read_result base mem L1 c1 (d', w') ok c') as Hgo.
    { intros c1 L1 HR1 Ht1. destruct (IH rest (line + 1) c1 L1) as (ok & c' & E & H); try done; try lia. rewrite Em in H. by exists ok, c'. }
    cbn [line_meaning negb orb]. destruct (Nat.leb_spec 1055 (length l)) as [Hlong|Hshort].
    + rewrite read_loop_long; [|rewrite take_app_le by lia; by apply Forall_take|apply Forall_app; split; [done|by constructor]|by destruct l].
      rewrite drop_app_le by lia. rewrite skip_line_lf by (by apply Forall_drop). rewrite Hwrap.
      destruct (Hgo (add_log (SkippedLine (line + 1)) c) L) as (ok & c' & E & H); try done. exists ok, c'. split; [done|].
      apply (read_result_log base mem L c (d', w')). eexists. split; [|exact H]. done.
    + rewrite read_loop_line by done. rewrite Hwrap. unfold line_turn.
      destruct (scan_line l) as [[n [v|]]|].
      * destruct (is_comment n); cbn [app]; [by apply Hgo|]. destruct (mem (line + 1)) as [[m1 m2] m3] eqn:Emem.
        destruct (m1 && m2 && m3) eqn:Eall.
        -- apply andb_true_iff in Eall as [[-> ->]%andb_true_iff ->].
           destruct (set_ok base c L n v (line + 1) HR Ht) as (c1 & -> & HR1 & Ht1 & Hlog). cbn [mbind res_bind].
           destruct (Hgo c1 _ HR1 Ht1) as (ok & c' & -> & L' & HR' & Ht' & (dp & Hp & HL) & Hall). exists ok, c'. split; [done|].
           exists L'. rewrite fmap_app in HL, Hall. split; [done|]. split; [done|]. split.
           { exists ((n, v, line + 1) :: dp). split; [by apply prefix_cons|]. by rewrite HL, <- app_assoc. }
           intros H. destruct (Hall H) as (-> & -> & ->). split; [done|]. rewrite Hlog, <- app_assoc. done.
        -- unfold miredo_conf_set. rewrite Eall. cbn [mbind res_bind]. eexists false, _. split; [done|]. exists L.
           split; [done|]. split; [done|]. split; [exists []; split; [apply prefix_nil|by rewrite app_nil_r]|].
           intros H. rewrite (H (line + 1)) in Emem. injection Emem as <- <- <-. done.
      * destruct (is_comment n); [cbn [app]; by apply Hgo|]. destruct (Hgo (add_log (IgnoredLine (line + 1) n) c) L) as (ok & c' & E & H); try done.
        exists ok, c'. split; [done|]. apply (read_result_log base mem L c (d', w')). eexists. split; [|exact H]. done.
      * cbn [app]. by apply Hgo.
  - rewrite read_loop_long; [|by apply Forall_take|done|done]. rewrite (split_lines_end s) by done. cbn [lines_meaning line_meaning negb orb].
    rewrite skip_line_end by (by apply Forall_drop).
    assert (0 < length s)%nat as Hpos by (destruct s; [done|cbn; lia]).
    assert (wrap 32 (line + 1) = line + 1) as Hwrap by (unfold wrap; apply Z.mod_small; lia). rewrite Hwrap.
    destruct (IH [] (line + 1) (add_log (SkippedLine (line + 1)) c) L) as (ok & c' & E & H); try done; try (constructor || (cbn; lia)).
    exists ok, c'. split; [done|]. apply (read_result_log base mem L c ([], [])). eexists. split; [|exact H]. done.
Qed.

Lemma conf_read_ok base mem s ferror c :
  no_nul s -> Z.of_nat (length s) < 2 ^ 32 - 1 -> conf_rep base c [] ->
  exists ok c' L, miredo_conf_read_FILE mem s ferror c = Ok (ok, c') /\
    conf_rep base c' L /\ tail_ok c' L /\ L.*2 `prefix_of` (file_meaning s).1 /\
    (all_mem mem -> L.*2 = (file_meaning s).1 /\ ok = negb ferror /\
       logged c' = logged c ++ (file_meaning s).2 ++ (if ferror then [ReadError] else [])).
Proof.
  intros Hn Hlen HR0. unfold miredo_conf_read_FILE.
  destruct (conf_read_loop_ok base mem (S (length s)) s 0 c []) as (ok & c' & -> & L & HR & Ht & (d & Hp & HL) & Hall);
    try done; try lia; [by left|].
  cbn [mbind res_bind]. cbn in HL. assert (L.*2 `prefix_of` (file_meaning s).1) as Hpre by (by rewrite HL).
  destruct ok; cbn [negb].
  - destruct ferror; eexists _, _, L; (split; [done|]); split_and!; try done; intros H; destruct (Hall H) as (_ & HL' & Hlog);
      (split; [exact HL'|]); (split; [done|]); cbn [logged add_log]; rewrite Hlog; [by rewrite app_assoc|by rewrite app_nil_r].
  - eexists _, _, L. split; [done|]. split_and!; try done. intros H. by destruct (Hall H).
Qed.

(** (C30) Reading a configuration file: for any contents without zero bytes, of less
    than four gigabytes, the loop ends without a fault, the list is well
    formed, and it holds a beginning of the settings that the format gives to
    the file; all of them, with exactly the warnings that the format
    prescribes, when memory suffices.  Lines of more than 1054 bytes and a last
    line without a line feed are skipped whole. *)
Theorem miredo_conf_read_refines mem s ferror :
  no_nul s -> Z.of_nat (length s) < 2 ^ 32 - 1 ->
  exists ok c L, miredo_conf_read_FILE mem s ferror miredo_conf_create = Ok (ok, c) /\
    conf_rep 0 c L /\ tail_ok c L /\ L.*2 `prefix_of` (file_meaning s).1 /\
    (all_mem mem -> L.*2 = (file_meaning s).1 /\ ok = negb ferror /\
       logged c = (file_meaning s).2 ++ (if ferror then [ReadError] else [])).
Proof. intros Hn Hlen. exact (conf_read_ok 0 mem s ferror miredo_conf_create Hn Hlen create_rep). Qed.

(** ** Writing a file *)

Definition word_ok (n : nat) (w : list Z) : Prop :=
  w <> [] /\ (length w <= n)%nat /\ Forall (fun c => c <> 0 /\ is_space c = false) w.

Definition pair_ok (x : list Z * list Z) : Prop :=
  word_ok 31 x.1 /\ word_ok 1023 x.2 /\ is_comment x.1 = false /\ (length x.1 + length x.2 < 1054)%nat.

Definition print_pair (x : list Z * list Z) : list Z := x.1 ++ 32 :: x.2.
Definition print_conf (ds : list (list Z * list Z)) : list Z := mjoin ((fun x => print_pair x ++ [LF]) <$> ds).

Fixpoint numbered (line : Z) (ds : list (list Z * list Z)) : list directive :=
  match ds with [] => [] | x :: ds' => (x.1, x.2, line) :: numbered (line + 1) ds' end.

Lemma scan_word_ok n w rest :
  Forall (fun c => c <> 0 /\ is_space c = false) w -> (length w <= n)%nat -> (rest = [] \/ exists r, rest = 32 :: r) ->
  scan_word n (w ++ rest) = (w, rest).
Proof.
  intros Hw. revert n. induction Hw as [|c w [_ Hc] _ IH]; intros n Hn Hr.
  - cbn [app]. destruct n; [done|]. by destruct Hr as [-> | [r ->]].
  - destruct n; cbn in Hn; [lia|]. cbn [app scan_word]. rewrite Hc, IH by (done || lia). done.
Qed.

Lemma skip_spaces_word w rest : w <> [] -> Forall (fun c => c <> 0 /\ is_space c = false) w -> skip_spaces (w ++ rest) = w ++ rest.
Proof. intros Hne Hw. destruct Hw as [|c w [_ Hc] _]; [done|]. cbn. by rewrite Hc. Qed.

Lemma scan_line_pair x : pair_ok x -> scan_line (print_pair x) = Some (x.1, Some x.2).
Proof.
  intros ((Hn & Hnl & Hnw) & (Hv & Hvl & Hvw) & _ & _). unfold scan_line, print_pair.
  rewrite skip_spaces_word, scan_word_ok by (done || (right; by eexists)).
  change (skip_spaces (32 :: x.2)) with (skip_spaces x.2).
  pose proof (skip_spaces_word x.2 [] Hv Hvw) as Es. pose proof (scan_word_ok 1023 x.2 [] Hvw Hvl ltac:(by left)) as Ew.
  rewrite app_nil_r in Es, Ew. rewrite Es, Ew. destruct x as [[|a n] [|b v]]; done.
Qed.

Lemma word_no_lf n w : word_ok n w -> no_lf w /\ no_nul w.
Proof.
  intros (_ & _ & H). split; (eapply list.Forall_impl; [exact H|]); intros c [H0 Hs]; [|done]. intros ->. done.
Qed.

Lemma pair_no_lf x : pair_ok x -> no_lf (print_pair x) /\ no_nul (print_pair x) /\ (length (print_pair x) < 1055)%nat.
Proof.
  intros (Hn & Hv & _ & Hlen). apply word_no_lf in Hn as [N1 N2], Hv as [V1 V2]. unfold print_pair. split_and!.
  - apply Forall_app. split; [done|]. by constructor.
  - apply Forall_app. split; [done|]. by constructor.
  - rewrite length_app. cbn. lia.
Qed.

Lemma print_conf_cons x ds : print_conf (x :: ds) = print_pair x ++ LF :: print_conf ds.
Proof. unfold print_conf. cbn. by rewrite <- app_assoc. Qed.

Lemma print_conf_meaning line ds :
  Forall pair_ok ds -> lines_meaning line (split_lines (print_conf ds)) = (numbered line ds, []).
Proof.
  intros H. revert line. induction H as [|x ds Hx _ IH]; intros line; [done|]. rewrite print_conf_cons.
  destruct (pair_no_lf x Hx) as (H1 & _ & H3). rewrite split_lines_lf by done. cbn [lines_meaning line_meaning negb orb].
  destruct (Nat.leb_spec 1055 (length (print_pair x))); [lia|]. rewrite scan_line_pair by done.
  destruct Hx as (_ & _ & -> & _). rewrite IH. done.
Qed.

Lemma print_conf_no_nul ds : Forall pair_ok ds -> no_nul (print_conf ds).
Proof.
  induction 1 as [|x ds Hx _ IH]; [constructor|]. rewrite print_conf_cons. apply Forall_app. split; [by apply pair_no_lf|by constructor].
Qed.

(** A file that is written one setting per line reads back as these settings,
    in their order and with their line numbers, without a warning, and looking
    up a name, in any case of letters, gives the first value that was written
    for it. *)
Theorem conf_file_roundtrip ds mem :
  Forall pair_ok ds -> all_mem mem -> Z.of_nat (length (print_conf ds)) < 2 ^ 32 - 1 ->
  exists c L, miredo_conf_read_FILE mem (print_conf ds) false miredo_conf_create = Ok (true, c) /\
    conf_rep 0 c L /\ L.*2 = numbered 1 ds /\ logged c = [] /\
    forall name, exists c', miredo_conf_get name c = Ok ((spec_get name (numbered 1 ds)).1, c').
Proof.
  intros Hds Hm Hlen. unfold miredo_conf_read_FILE.
  destruct (conf_read_loop_ok 0 mem (S (length (print_conf ds))) (print_conf ds) 0 miredo_conf_create [])
    as (ok & c & -> & L & HR & Ht & _ & Hall); try lia; [by apply print_conf_no_nul|exact create_rep|by left|].
  destruct (Hall Hm) as (-> & HL & Hlog). rewrite print_conf_meaning in HL, Hlog by done. cbn in HL, Hlog. cbn [mbind res_bind negb].
  exists c, L. split; [done|]. split; [done|]. split; [done|]. split; [done|]. intros name.
  destruct (get_ok 0 name c L HR) as (r & c' & L' & -> & Hs & _). exists c'. rewrite HL in Hs. change (0 + 1) with 1 in Hs. by rewrite <- Hs.
Qed.

(** ** Integers *)

Lemma ul_digits_decimal acc s :
  Forall (fun c => is_digit c = true) s -> ul_digits 10 acc s = (digits acc s, []).
Proof.
  intros H. revert acc. induction H as [|c s Hc _ IH]; intros acc; cbn; [done|].
  assert (digit_value c = c - 48) as -> by (unfold digit_value; by rewrite Hc). rewrite Hc.
  unfold is_digit in Hc. apply andb_true_iff in Hc as [H1%Z.leb_le H2%Z.leb_le]. destruct (Z.ltb_spec (c - 48) 10); [|lia]. apply IH.
Qed.

Lemma strtoul_decimal s :
  s <> [] -> list.head s <> Some 48 -> Forall (fun c => is_digit c = true) s -> digits 0 s < 2 ^ 64 ->
  strtoul s = (digits 0 s, []).
Proof.
  intros Hne H0 Hs Hlt. destruct Hs as [|c s Hc Hs]; [done|].
  assert (c <> 48) as Hc0 by (intros ->; by apply H0).
  assert (48 < c <= 57) as Hcr by (unfold is_digit in Hc; lia).
  assert (skip_spaces (c :: s) = c :: s) as Hsk.
  { cbn. unfold is_space. destruct (Z.eqb_spec c 32), (Z.leb_spec 9 c), (Z.leb_spec c 13); try lia; done. }
  assert (ul_number (c :: s) = Some (digits 0 (c :: s), [])) as Hn.
  { rewrite <- ul_digits_decimal by (by constructor).
    assert (c = 49 \/ c = 50 \/ c = 51 \/ c = 52 \/ c = 53 \/ c = 54 \/ c = 55 \/ c = 56 \/ c = 57)
      as [-> | [-> | [-> | [-> | [-> | [-> | [-> | [-> | ->]]]]]]]] by lia; done. }
  unfold strtoul. rewrite Hsk.
  assert (c = 49 \/ c = 50 \/ c = 51 \/ c = 52 \/ c = 53 \/ c = 54 \/ c = 55 \/ c = 56 \/ c = 57) as Hcase by lia.
  destruct (Z.leb_spec (2 ^ 64) (digits 0 (c :: s))) as [|Hb]; [lia|].
  destruct Hcase as [-> | [-> | [-> | [-> | [-> | [-> | [-> | [-> | ->]]]]]]]]; rewrite Hn; apply Z.leb_gt in Hb; rewrite Hb; done.
Qed.

(** A port or an MTU written as a decimal number is read as that number when
    it fits in sixteen bits and refused, leaving the variable alone, when it
    does not; a missing setting leaves it alone too. *)
Theorem miredo_conf_get_int16_decimal base c L name value :
  conf_rep base c L ->
  exists ok v c' L', miredo_conf_get_int16 name value c = Ok (ok, v, c') /\ conf_rep base c' L' /\
    L'.*2 = (spec_get name (L.*2)).2 /\
    match (spec_get name (L.*2)).1 with
    | None => ok = true /\ v = value
    | Some (val, _) =>
      val <> [] -> list.head val <> Some 48 -> Forall (fun c => is_digit c = true) val -> digits 0 val < 2 ^ 64 ->
      (ok = true <-> digits 0 val <= 65535) /\ v = if ok then digits 0 val else value
    end.
Proof.
  intros HR. destruct (get_ok base name c L HR) as (r & c' & L' & E & Hs & HR' & _). unfold miredo_conf_get_int16.
  rewrite E, <- Hs. cbn [mbind res_bind fst snd].
  assert (forall c1, conf_rep (base + 1) c1 L' -> conf_rep base (free_value c1) L') as Hfree.
  { intros c1 (H1 & H2 & H3 & H4 & H5). split_and!; try done. cbn. lia. }
  destruct r as [[val line]|]; cbn [taken] in HR'.
  - destruct (strtoul val) as [l rest] eqn:El. destruct (negb _ || _) eqn:Eb; eexists _, _, _, L'; (split; [done|]);
      (split; [by apply Hfree|]); (split; [done|]); intros H1 H2 H3 H4; rewrite (strtoul_decimal val) in El by done; injection El as <- <-.
    + cbn [negb orb] in Eb. rewrite bool_decide_eq_true_2 in Eb by done. cbn in Eb. apply Z.ltb_lt in Eb. split; [|done]. split; [done|lia].
    + rewrite bool_decide_eq_true_2 in Eb by done. cbn in Eb. apply Z.ltb_ge in Eb. done.
  - rewrite Z.add_0_r in HR'. eexists _, _, _, L'. by split_and!.
Qed.

(** ** Flaws *)

(** Taking out the last setting leaves the pointer to the tail on a freed
    block: the next setting that is added is written through it. *)
Theorem stale_tail_after_get base c L x name :
  conf_rep base c (L ++ [x]) -> tail_ok c (L ++ [x]) -> L <> [] ->
  Forall (fun y => strcasecmp0 (d_name y.2) name = false) L -> strcasecmp0 (d_name x.2) name = true ->
  exists c1, miredo_conf_get name c = Ok (Some (d_value x.2, d_line x.2), c1) /\
    forall n v line, miredo_conf_set (true, true, true) n v line c1 = Err UseAfterFree.
Proof.
  intros HR Ht Hne HL Hx. destruct (get_ok base name c _ HR) as (r & c1 & L' & E & Hs & HR' & _ & Hna & Htl & _ & Hsub).
  assert (spec_get name ((L ++ [x]).*2) = (Some (d_value x.2, d_line x.2), L.*2)) as Hsp.
  { clear -HL Hx. induction HL as [|y L Hy _ IH]; cbn [app fmap list_fmap spec_get]; [by rewrite Hx|]. rewrite Hy, IH. done. }
  rewrite Hsp in Hs. injection Hs as -> HL'. exists c1. split; [done|]. intros n v line.
  assert (settings c1 !! x.1 = None) as Hgone.
  { apply not_elem_of_dom. destruct HR' as (_ & _ & -> & _). rewrite elem_of_list_to_set. intros (y & Ey & Hy)%list_elem_of_fmap.
    pose proof (Hsub y Hy) as [Hy'|Hy']%elem_of_app.
    - destruct HR as (_ & Hn & _). rewrite fmap_app in Hn. apply list.NoDup_app in Hn as (_ & Hn & _).
      apply (Hn y.1); [by apply list_elem_of_fmap_2|]. cbn. rewrite Ey. by left.
    - apply list_elem_of_singleton in Hy' as ->. assert (x.2 ∈ L.*2) as (z & Ez & Hz)%list_elem_of_fmap
        by (rewrite <- HL'; by apply list_elem_of_fmap_2).
      rewrite list.Forall_forall in HL. specialize (HL z Hz). rewrite <- Ez in HL. congruence. }
  assert (x.1 <> next_addr c1) as Hfresh.
  { rewrite Hna. destruct HR as (_ & _ & _ & Hlt & _). rewrite list.Forall_forall in Hlt.
    assert (x.1 < next_addr c)%positive; [|lia]. apply Hlt, elem_of_app. right. by left. }
  destruct HR' as (Hseg & _).
  assert (is_Some (head c1)) as [p Hp].
  { destruct L' as [|y L']; [by destruct L|]. destruct Hseg as [-> _]. by eexists. }
  destruct Ht as [Ht|Ht]; [by destruct L|]. rewrite last_snoc in Ht. cbn in Ht.
  unfold miredo_conf_set. cbn [andb head tail]. rewrite Hp, Htl, Ht. cbn [Prelude.from_option mbind res_bind].
  unfold setting_at. cbn [settings]. rewrite lookup_insert_ne, Hgone by done. done.
Qed.

(** A line that starts with a zero byte makes the program look at the byte
    before its buffer. *)
Theorem nul_line_reads_before_buffer mem rest ferror c :
  miredo_conf_read_FILE mem (0 :: rest) ferror c = Err OutOfBounds.
Proof.
  unfold miredo_conf_read_FILE. cbn [length read_loop]. unfold fgets.
  assert (exists a b, read_line (LBUF - 1) (0 :: rest) = (0 :: a, b)) as (a & b & ->); [|done].
  assert (forall n, read_line (S n) (0 :: rest) = let '(a, b) := read_line n rest in (0 :: a, b)) as E by done.
  change (LBUF - 1)%nat with (S 1054). rewrite E. destruct (read_line 1054 rest) as [a b]. by exists a, b.
Qed.

(** ** Examples *)

Definition mem0 : Z -> bool * bool * bool := fun _ => (true, true, true).
Definition pairs0 : list (list Z * list Z) := [(str "RelayType", str "client"); (str "BindPort", str "3545"); (str "bindport", str "1")].

Lemma pairs0_ok : Forall pair_ok pairs0.
Proof.
  repeat (apply list.Forall_cons_2 || apply list.Forall_nil_2).
  all: split; [|split; [|split; [done|apply Nat.ltb_lt; reflexivity]]].
  all: (split; [done|]); (split; [apply Nat.leb_le; reflexivity|]); repeat constructor; done.
Qed.

(** The octal prefix: the port of this line is 8. *)
Example octal_port :
  exists c, (x ← miredo_conf_read_FILE mem0 (str "BindPort 010" ++ [LF]) false miredo_conf_create;
             miredo_conf_get_int16 (str "BindPort") 0 x.2) = Ok (true, 8, c).
Proof. eexists. vm_compute. reflexivity. Qed.

Lemma miredo_conf_read_refines_witness :
  exists ok c L, miredo_conf_read_FILE mem0 (print_conf pairs0) false miredo_conf_create = Ok (ok, c) /\
    conf_rep 0 c L /\ L.*2 `prefix_of` (file_meaning (print_conf pairs0)).1.
Proof.
  destruct (miredo_conf_read_refines mem0 (print_conf pairs0) false (print_conf_no_nul _ pairs0_ok) ltac:(vm_compute; reflexivity))
    as (ok & c & L & H1 & H2 & _ & H3 & _). by exists ok, c, L.
Defined.

Lemma conf_file_roundtrip_witness :
  exists c c', miredo_conf_read_FILE mem0 (print_conf pairs0) false miredo_conf_create = Ok (true, c) /\
    miredo_conf_get (str "BINDPORT") c = Ok (Some (str "3545", 2), c').
Proof.
  destruct (conf_file_roundtrip pairs0 mem0 pairs0_ok (fun _ => eq_refl) ltac:(vm_compute; reflexivity)) as (c & L & H1 & _ & _ & _ & H).
  destruct (H (str "BINDPORT")) as (c' & H'). exists c, c'. split; [exact H1|]. exact H'.
Defined.

Lemma one_setting_rep :
  exists c, miredo_conf_set (true, true, true) (str "BindPort") (str "3545") 1 miredo_conf_create = Ok (true, c) /\
    conf_rep 0 c [(1%positive, (str "BindPort", str "3545", 1))] /\ tail_ok c [(1%positive, (str "BindPort", str "3545", 1))].
Proof.
  destruct (set_ok 0 miredo_conf_create [] (str "BindPort") (str "3545") 1 create_rep ltac:(by left)) as (c & H1 & H2 & H3 & _). by exists c.
Qed.

Lemma miredo_conf_get_int16_decimal_witness :
  exists c ok v c', miredo_conf_get_int16 (str "BindPort") 0 c = Ok (ok, v, c') /\ (ok = true <-> 3545 <= 65535) /\ v = if ok then 3545 else 0.
Proof.
  destruct one_setting_rep as (c & _ & HR & _).
  destruct (miredo_conf_get_int16_decimal 0 c _ (str "BindPort") 0 HR) as (ok & v & c' & L' & E & _ & _ & H).
  exists c, ok, v, c'. split; [exact E|]. vm_compute in H.
  apply H; [discriminate|discriminate| |reflexivity].
  repeat (apply list.Forall_cons_2; [reflexivity|]). apply list.Forall_nil_2.
Defined.

Lemma stale_tail_after_get_witness :
  exists c c1, miredo_conf_get (str "RelayType") c = Ok (Some (str "client", 2), c1) /\
    forall n v line, miredo_conf_set (true, true, true) n v line c1 = Err UseAfterFree.
Proof.
  destruct one_setting_rep as (c & _ & HR & Ht).
  destruct (set_ok 0 c _ (str "RelayType") (str "client") 2 HR Ht) as (c' & _ & HR' & Ht' & _). exists c'.
  apply (stale_tail_after_get 0 c' _ _ (str "RelayType") HR' Ht'); [done|by repeat constructor|done].
Defined.
