(* ===== verification/XmlParse.v ===== *)
(** * The XML parser of gogoc ([gogoc-tsp/src/xml/xmlparse.c])

[XMLParse] walks once over the text of a node: it looks every child up in a
table, stores the values of the attributes in the table and hands the text of
the child to a handler.  It works on a copy of the text, in which it
terminates names and values by zeros; the tables are global and keep pointers
into that copy.  The copies are blocks of a heap here, and addresses are never
used twice, so that a pointer that outlives its copy is a stale pointer.  The
tables, the state of the handlers and which allocations succeed are
parameters. *)

From Stdlib Require Import ZifyNat.
From stdpp Require Import base gmap list numbers strings.
From S2P Require Import Prelude Words CString.

(** ** Data *)

(** A pointer to a character of a block. *)
Definition char_ptr : Type := positive * nat.

Record tAttribute := mk_tAttribute { at_name : list Z; at_value : option char_ptr }.
Record tNode := mk_tNode { nd_name : list Z; nd_attributes : list tAttribute }.

(** The copies that are allocated, the number of allocations made, the tables
    and the state of the handlers. *)
Record xml {table info : Type} := mk_xml {
  blocks : gmap positive (list Z);
  next_block : positive;
  allocs : nat;
  tables : table -> list tNode;
  user : info;
}.
Arguments xml : clear implicits.

(** ** Characters and scanning *)

Definition LT : Z := 60.
Definition GT : Z := 62.
Definition SLASH : Z := 47.
Definition QUOTE : Z := 34.
Definition EQUAL : Z := 61.
Definition SPACE : Z := 32.

Definition isalpha (c : Z) : bool := ((65 <=? c) && (c <=? 90)) || ((97 <=? c) && (c <=? 122)).
Definition name_char (c : Z) : bool := isalpha c || is_digit c || (c =? 95).
Definition blank (c : Z) : bool := (c =? SPACE) || (c =? 9) || (c =? CR) || (c =? LF).
Definition value_char (c : Z) : bool := negb ((c =? LF) || (c =? CR) || (c =? GT) || (c =? QUOTE)).

(** [while (str[pos] && p (str[pos])) pos += 1]: how far [pos] moves. *)
Fixpoint scan (p : Z -> bool) (l : list Z) : res nat :=
  match l with
  | [] => Err OutOfBounds
  | c :: l' => if (c =? 0) || negb (p c) then Ok O else n ← scan p l'; Ok (S n)
  end.

(** The string that starts at the beginning of [l]. *)
Fixpoint read_cstr (l : list Z) : res (list Z) :=
  match l with
  | [] => Err OutOfBounds
  | c :: l' => if c =? 0 then Ok [] else s ← read_cstr l'; Ok (c :: s)
  end.

Fixpoint has_prefix (t s : list Z) : bool :=
  match t, s with
  | [], _ => true
  | a :: t', b :: s' => (a =? b) && has_prefix t' s'
  | _ :: _, [] => false
  end.

(** [strstr (s, t)] as an offset. *)
Fixpoint strstr (t s : list Z) : option nat :=
  if has_prefix t s then Some O else
  match s with
  | [] => None
  | _ :: s' => S <$> strstr t s'
  end.

Fixpoint find_name {A} (name_of : A -> list Z) (name : list Z) (l : list A) : option nat :=
  match l with
  | [] => None
  | a :: l' => if bool_decide (name = name_of a) then Some O else S <$> find_name name_of name l'
  end.

Definition findNode (name : list Z) (nodes : list tNode) : option nat := find_name nd_name name nodes.
Definition findAttribute (name : list Z) (attributes : list tAttribute) : option nat := find_name at_name name attributes.

Definition SkipBlanks (str : list Z) (pos : nat) : res nat :=
  n ← scan blank (drop pos str); Ok (pos + n)%nat.

(** The size of [endToken]. *)
Definition END_TOKEN : nat := 100.

Definition end_token (name : list Z) : list Z := [LT; SLASH] ++ name ++ [GT].

(** ** The parser *)

Section parser.
Context {table info : Type} `{EqDecision table} (malloc_ok : nat -> bool).
Notation xml := (xml table info).

(** [n->p (n, content)]: a node is an index of a table. *)
Definition processNode : Type := char_ptr -> st xml Z.

Definition set_blocks (v : gmap positive (list Z)) (w : xml) : xml :=
  mk_xml _ _ v (next_block w) (allocs w) (tables w) (user w).
Definition set_user (v : info) (w : xml) : xml :=
  mk_xml _ _ (blocks w) (next_block w) (allocs w) (tables w) v.
Definition set_value (T : table) (n a : nat) (p : char_ptr) (w : xml) : xml :=
  mk_xml _ _ (blocks w) (next_block w) (allocs w)
    (fun T' => if decide (T' = T)
               then alter (fun nd => mk_tNode (nd_name nd) (alter (fun x => mk_tAttribute (at_name x) (Some p)) a (nd_attributes nd))) n
                      (tables w T)
               else tables w T') (user w).

(** The next allocation. *)
Definition try_malloc : st xml bool := fun w =>
  Ok (malloc_ok (allocs w), mk_xml _ _ (blocks w) (next_block w) (S (allocs w)) (tables w) (user w)).

Definition new_block (contents : list Z) : st xml positive := fun w =>
  Ok (next_block w, mk_xml _ _ (<[next_block w := contents]> (blocks w)) (Pos.succ (next_block w)) (allocs w) (tables w) (user w)).

Definition load (b : positive) : st xml (list Z) := fun w =>
  match blocks w !! b with Some l => Ok (l, w) | None => Err UseAfterFree end.

Definition store (b : positive) (pos : nat) (c : Z) : st xml unit :=
  l ← load b;
  _ ← lift (guard_or OutOfBounds (pos <? length l)%nat);
  modify (fun w => set_blocks (<[b := <[pos := c]> l]> (blocks w)) w).

Definition free_block (b : positive) : st xml unit :=
  _ ← load b;
  modify (fun w => set_blocks (delete b (blocks w)) w).

Definition peek (b : positive) (pos : nat) : st xml Z :=
  l ← load b; lift (Prelude.from_option OutOfBounds (l !! pos)).

Definition scan_at (p : Z -> bool) (b : positive) (pos : nat) : st xml nat :=
  l ← load b; n ← lift (scan p (drop pos l)); mret (pos + n)%nat.

Definition skip_at (b : positive) (pos : nat) : st xml nat :=
  l ← load b; lift (SkipBlanks l pos).

(** The string at a pointer. *)
Definition read_at (p : char_ptr) : st xml (list Z) :=
  l ← load (fst p); lift (read_cstr (drop (snd p) l)).

(** Code that may leave [XMLParse]: [inl] is the value it returns. *)
Definition leave {A} (code : Z) : st xml (Z + A) := mret (inl code).
Definition go {A} (a : A) : st xml (Z + A) := mret (inr a).
Definition andthen {A B} (m : st xml (Z + A)) (k : A -> st xml (Z + B)) : st xml (Z + B) :=
  x ← m; match x with inl code => mret (inl code) | inr a => k a end.

(** The attributes of node [n] of table [T], from [pos]: the position after
    them. *)
Fixpoint attributes_loop (fuel : nat) (T : table) (n : nat) (b : positive) (pos : nat) : st xml (Z + nat) :=
  match fuel with
  | O => lift (Err OutOfFuel)
  | S fuel' =>
    c ← peek b pos;
    if negb (isalpha c) then go pos else
    let attrName := pos in
    pos ← scan_at name_char b pos;
    c ← peek b pos;
    if negb (c =? EQUAL) then leave (Z.of_nat pos) else
    _ ← store b pos 0;
    let pos := S pos in
    name ← read_at (b, attrName);
    nodes ← gets (fun w => tables w T);
    let a := node ← nodes !! n; findAttribute name (nd_attributes node) in
    c ← peek b pos;
    if negb (c =? QUOTE) then leave (Z.of_nat pos) else
    let pos := S pos in
    let attrValue := pos in
    pos ← scan_at value_char b pos;
    c ← peek b pos;
    if negb (c =? QUOTE) then leave (Z.of_nat pos) else
    _ ← store b pos 0;
    let pos := S pos in
    _ ← match a with
        | Some a => modify (set_value T n a (b, attrValue))
        | None => mret tt
        end;
    pos ← skip_at b pos;
    attributes_loop fuel' T n b pos
  end.

(** The start of a tag: where its name is, the position, and whether the node
    is complete. *)
Definition open_tag (b : positive) (pos : nat) : st xml (Z + (nat * nat * bool)) :=
  pos ← skip_at b pos;
  c ← peek b pos;
  if c =? 0 then leave 0 else
  if negb (c =? LT) then leave (Z.of_nat pos) else
  let pos := S pos in
  c ← peek b pos;
  if negb (isalpha c) then leave (Z.of_nat pos) else
  let tagName := pos in
  pos ← scan_at name_char b pos;
  c ← peek b pos;
  if c =? 0 then leave (Z.of_nat pos) else
  if c =? SLASH then
    _ ← store b pos 0;
    let pos := S pos in
    c ← peek b pos;
    if negb (c =? GT) then leave (Z.of_nat pos) else
    _ ← store b pos 0;
    go (tagName, pos, true)
  else if c =? SPACE then
    _ ← store b pos 0;
    go (tagName, S pos, false)
  else if c =? GT then
    _ ← store b pos 0;
    go (tagName, pos, false)
  else leave (Z.of_nat pos).

(** The rest of the tag of a node that has an entry in the table. *)
Definition known_tag (T : table) (n : nat) (b : positive) (pos : nat) (simple : bool) : st xml (Z + (nat * bool)) :=
  c ← peek b pos;
  if c =? 0 then go (S pos, simple) else
  pos ← skip_at b pos;
  l ← load b;
  andthen (attributes_loop (S (length l)) T n b pos) (fun pos =>
    c ← peek b pos;
    let simple := simple || (c =? SLASH) in
    let pos := if c =? SLASH then S pos else pos in
    c ← peek b pos;
    if c =? GT then go (S pos, simple) else leave (Z.of_nat pos)).

Definition unknown_tag (b : positive) (pos : nat) (simple : bool) : st xml (Z + (nat * bool)) :=
  c ← peek b pos;
  pos ← (if c =? 0 then mret (S pos) else
         pos ← scan_at (fun c => negb (c =? GT)) b pos;
         c ← peek b pos;
         mret (if c =? GT then S pos else pos));
  c ← peek b pos;
  if (c =? 0) && negb simple then leave (Z.of_nat pos) else go (pos, simple).

(** [res = n->p (n, &string[pos])], if there is a handler. *)
Definition call_handler (h : option processNode) (b : positive) (pos : nat) : st xml (Z + unit) :=
  match h with
  | None => go tt
  | Some p =>
    r ← p (b, pos);
    if r =? 0 then go tt else leave (if 0 <? r then r + Z.of_nat pos else r)
  end.

(** The content of the node: the position after it. *)
Definition node_content (h : option processNode) (tagName : nat) (b : positive) (pos : nat) (simple : bool) : st xml (Z + nat) :=
  if simple then andthen (call_handler h b pos) (fun _ => go pos) else
  name ← read_at (b, tagName);
  let endToken := end_token name in
  _ ← lift (guard_or OutOfBounds (length endToken + 1 <=? END_TOKEN)%nat);
  rest ← read_at (b, pos);
  match strstr endToken rest with
  | None => leave (Z.of_nat pos)
  | Some i =>
    _ ← store b (pos + i) 0;
    andthen (call_handler h b pos) (fun _ => go (pos + i + length endToken)%nat)
  end.

(** One turn of the loop: the position after the node. *)
Definition parse_node (T : table) (handlers : nat -> option processNode) (b : positive) (pos : nat) : st xml (Z + nat) :=
  andthen (open_tag b pos) (fun '(tagName, pos, simple) =>
  name ← read_at (b, tagName);
  if bool_decide (name = []) then leave (Z.of_nat pos) else
  nodes ← gets (fun w => tables w T);
  let n := findNode name nodes in
  andthen (match n with
           | Some i => known_tag T i b pos simple
           | None => unknown_tag b pos simple
           end) (fun '(pos, simple) =>
  node_content (i ← n; handlers i) tagName b pos simple)).

Fixpoint parse_loop (fuel : nat) (T : table) (handlers : nat -> option processNode) (b : positive) (pos : nat) : st xml Z :=
  match fuel with
  | O => lift (Err OutOfFuel)
  | S fuel' =>
    c ← peek b pos;
    if c =? 0 then mret 0 else
    r ← parse_node T handlers b pos;
    match r with
    | inl code => mret code
    | inr pos => parse_loop fuel' T handlers b pos
    end
  end.

Definition XMLParse (T : table) (handlers : nat -> option processNode) (str : list Z) : st xml Z :=
  ok ← try_malloc;
  if negb ok then mret (-1) else
  b ← new_block (str ++ [0]);
  code ← parse_loop (S (length str)) T handlers b 0;
  _ ← free_block b;
  mret code.
End parser.

(** ** Text *)

Definition all_chars (p : Z -> bool) (s : list Z) : Prop := Forall (fun c => c <> 0 /\ p c = true) s.

Lemma all_chars_no_nul p s : all_chars p s -> no_nul s.
Proof. intros H. eapply list.Forall_impl; [exact H|]. by intros c [? _]. Qed.

Lemma no_nul_app s t : no_nul (s ++ t) <-> no_nul s /\ no_nul t.
Proof. apply Forall_app. Qed.

Lemma no_nul_cons c s : no_nul (c :: s) <-> c <> 0 /\ no_nul s.
Proof. unfold no_nul. by rewrite list.Forall_cons. Qed.

Lemma scan_ok p xs c tl :
  all_chars p xs -> c = 0 \/ p c = false -> scan p (xs ++ c :: tl) = Ok (length xs).
Proof.
  intros Hx Hc. induction Hx as [|x xs [H1 H2] _ IH]; cbn [app scan length].
  - destruct Hc as [-> | ->]; [done|]. cbn [negb]. by rewrite orb_true_r.
  - rewrite (proj2 (Z.eqb_neq x 0)), H2 by done. cbn [orb negb]. by rewrite IH.
Qed.

Lemma read_cstr_ok s tl : no_nul s -> read_cstr (s ++ 0 :: tl) = Ok s.
Proof.
  induction 1 as [|c s Hc _ IH]; cbn [app read_cstr]; [done|].
  rewrite (proj2 (Z.eqb_neq c 0)) by done. by rewrite IH.
Qed.

Lemma has_prefix_spec t s : has_prefix t s = true <-> exists k, s = t ++ k.
Proof.
  revert s. induction t as [|a t IH]; intros s; cbn; [split; [by exists s | done]|].
  destruct s as [|b s]; [split; [done | by intros [k ?]]|].
  rewrite andb_true_iff, IH, Z.eqb_eq. split.
  - intros [-> [k ->]]. by exists k.
  - intros [k [= -> ->]]. eauto.
Qed.

Lemma prefix_within (a : Z) t s k m :
  Forall (fun c => c <> a) t -> s ++ a :: k = t ++ m -> exists m', s = t ++ m'.
Proof.
  intros Ht. revert s. induction Ht as [|x t Hx _ IH]; intros s E; [by exists s|].
  destruct s as [|y s]; injection E as -> E; [done|].
  destruct (IH _ E) as [m' ->]. by exists m'.
Qed.

(** A token that cannot overlap itself is found where it stands first. *)
Lemma strstr_app a t s k :
  strstr (a :: t) s = None -> Forall (fun c => c <> a) t -> strstr (a :: t) (s ++ (a :: t) ++ k) = Some (length s).
Proof.
  intros Hs Ht. induction s as [|c s IH].
  - cbn [app strstr length]. replace (has_prefix (a :: t) (a :: t ++ k)) with true; [done|].
    symmetry. apply has_prefix_spec. by exists k.
  - cbn [strstr] in Hs. destruct (has_prefix (a :: t) (c :: s)) eqn:E; [done|].
    destruct (strstr (a :: t) s) eqn:E2; [done|]. cbn [app strstr length].
    destruct (has_prefix (a :: t) (c :: s ++ a :: t ++ k)) eqn:E3.
    + exfalso. apply has_prefix_spec in E3 as [m [= -> Hm]].
      destruct (prefix_within _ _ _ _ _ Ht Hm) as [m' ->].
      enough (has_prefix (a :: t) (a :: t ++ m') = true) by congruence.
      apply has_prefix_spec. by exists m'.
    + cbn [app] in IH. by rewrite IH.
Qed.

(** ** Rules

The state with the contents of one block made explicit; every step of the
parser keeps this form. *)

Section rules.
Context {table info : Type} `{EqDecision table}.
Notation xml := (xml table info).
Implicit Types w : xml.

Definition buf_set (b : positive) (l : list Z) (w : xml) : xml := set_blocks (<[b := l]> (blocks w)) w.

Lemma buf_set_set b l l' w : buf_set b l' (buf_set b l w) = buf_set b l' w.
Proof. unfold buf_set, set_blocks. cbn. by rewrite insert_insert_eq. Qed.

Lemma buf_set_id b l w : blocks w !! b = Some l -> buf_set b l w = w.
Proof. intros H. unfold buf_set, set_blocks. rewrite insert_id by done. by destruct w. Qed.

Lemma lookup_buf_set b l w : blocks (buf_set b l w) !! b = Some l.
Proof. apply lookup_insert_eq. Qed.

Lemma set_value_buf_set T n a p b l w : set_value T n a p (buf_set b l w) = buf_set b l (set_value T n a p w).
Proof. done. Qed.

Lemma wp_load b l w (Q : list Z -> xml -> Prop) : Q l (buf_set b l w) -> wp (load b) Q (buf_set b l w).
Proof. intros H. unfold wp, load. by rewrite lookup_buf_set. Qed.

Lemma wp_peek b pre c tl pos w (Q : Z -> xml -> Prop) :
  pos = length pre -> Q c (buf_set b (pre ++ c :: tl) w) -> wp (peek b pos) Q (buf_set b (pre ++ c :: tl) w).
Proof.
  intros -> H. apply wp_bind, wp_load, wp_lift. by rewrite list_lookup_middle.
Qed.

Lemma wp_store b pre c tl pos v w (Q : unit -> xml -> Prop) :
  pos = length pre -> Q tt (buf_set b (pre ++ v :: tl) w) -> wp (store b pos v) Q (buf_set b (pre ++ c :: tl) w).
Proof.
  intros -> H. apply wp_bind, wp_load, wp_bind, wp_lift. rewrite length_app. cbn [length].
  rewrite (proj2 (Nat.ltb_lt _ _)) by lia. apply wp_modify.
  replace (length pre) with (length pre + 0)%nat by lia. rewrite insert_app_r. cbn [insert list_insert].
  fold (buf_set b (pre ++ v :: tl) (buf_set b (pre ++ c :: tl) w)).
  by rewrite buf_set_set.
Qed.

Lemma wp_scan_at p b pre xs c tl pos w (Q : nat -> xml -> Prop) :
  pos = length pre -> all_chars p xs -> c = 0 \/ p c = false ->
  Q (length (pre ++ xs)) (buf_set b (pre ++ xs ++ c :: tl) w) -> wp (scan_at p b pos) Q (buf_set b (pre ++ xs ++ c :: tl) w).
Proof.
  intros -> Hx Hc H. apply wp_bind, wp_load, wp_bind, wp_lift. rewrite drop_app_length.
  rewrite scan_ok by done. apply wp_ret. by rewrite <- length_app.
Qed.

Lemma wp_skip_at b pre xs c tl pos w (Q : nat -> xml -> Prop) :
  pos = length pre -> all_chars blank xs -> c = 0 \/ blank c = false ->
  Q (length (pre ++ xs)) (buf_set b (pre ++ xs ++ c :: tl) w) -> wp (skip_at b pos) Q (buf_set b (pre ++ xs ++ c :: tl) w).
Proof.
  intros -> Hx Hc H. apply wp_bind, wp_load, wp_lift. unfold SkipBlanks. rewrite drop_app_length.
  rewrite scan_ok by done. cbn [mbind res_bind res_ok]. by rewrite <- length_app.
Qed.

Lemma wp_read_at b pre s tl pos w (Q : list Z -> xml -> Prop) :
  pos = length pre -> no_nul s ->
  Q s (buf_set b (pre ++ s ++ 0 :: tl) w) -> wp (read_at (b, pos)) Q (buf_set b (pre ++ s ++ 0 :: tl) w).
Proof.
  intros -> Hs H. apply wp_bind. cbn [fst snd]. apply wp_load, wp_lift. rewrite drop_app_length.
  by rewrite read_cstr_ok.
Qed.

Lemma wp_andthen {A B} (m : st xml (Z + A)) (k : A -> st xml (Z + B)) Q w :
  wp m (fun x w' => match x with inl code => Q (inl code) w' | inr a => wp (k a) Q w' end) w -> wp (andthen m k) Q w.
Proof. intros H. apply wp_bind. eapply wp_mono; [exact H|]. by intros [code|a] w' H'. Qed.

(** *** The start of a tag *)

Definition name_ok (name : list Z) : Prop :=
  all_chars name_char name /\ exists c s, name = c :: s /\ isalpha c = true.

(** What follows the name, what it is replaced by, how far the position moves,
    and whether the node is complete. *)
Inductive name_end : list Z -> list Z -> nat -> bool -> Prop :=
| end_space tl : name_end (SPACE :: tl) (0 :: tl) 1 false
| end_tag tl : name_end (GT :: tl) (0 :: tl) 0 false
| end_simple tl : name_end (SLASH :: GT :: tl) (0 :: 0 :: tl) 1 true.

Lemma wp_open_tag b pre ws name tl tl' k simple w (Q : Z + (nat * nat * bool) -> xml -> Prop) :
  all_chars blank ws -> name_ok name -> name_end tl tl' k simple ->
  Q (inr (length (pre ++ ws ++ [LT]), length (pre ++ ws ++ LT :: name) + k, simple))%nat
    (buf_set b (pre ++ ws ++ LT :: name ++ tl') w) ->
  wp (open_tag b (length pre)) Q (buf_set b (pre ++ ws ++ LT :: name ++ tl) w).
Proof.
  intros Hws [Hn (a & s & -> & Ha)] Hend H. unfold open_tag.
  apply wp_bind, wp_skip_at; [done..| by right|].
  assert (exists c tl0, tl = c :: tl0 /\ c <> 0 /\ name_char c = false) as (c & tl0 & Etl & Hc0 & Hc)
    by (destruct Hend; eexists _, _; done).
  rewrite !(app_assoc pre ws). set (p1 := pre ++ ws) in *.
  apply wp_bind, wp_peek; [done|]. change (LT =? 0) with false. change (LT =? LT) with true. cbn [negb].
  replace (p1 ++ LT :: (a :: s) ++ tl) with ((p1 ++ [LT]) ++ a :: s ++ tl) by (by rewrite <- app_assoc).
  apply wp_bind, wp_peek; [rewrite length_app; cbn; lia|]. rewrite Ha. cbn [negb].
  change (a :: s ++ tl) with ((a :: s) ++ tl). rewrite Etl.
  apply wp_bind, wp_scan_at; [rewrite length_app; cbn; lia | done | by right|].
  rewrite app_assoc. set (p2 := (p1 ++ [LT]) ++ a :: s) in *.
  apply wp_bind, wp_peek; [done|].
  rewrite (proj2 (Z.eqb_neq c 0)) by done.
  assert (Ep2 : forall l, p2 ++ l = pre ++ ws ++ LT :: (a :: s) ++ l).
  { intros l. unfold p2, p1. by rewrite <- !app_assoc. }
  assert (Hl : length (pre ++ ws ++ LT :: a :: s) = length p2).
  { unfold p2, p1. rewrite !length_app. cbn. lia. }
  assert (Hp : S (length p1) = length (pre ++ ws ++ [LT])) by (unfold p1; rewrite !length_app; cbn; lia).
  rewrite Hp. destruct Hend as [tl1|tl1|tl1]; injection Etl as <- <-; cbn [negb].
  - apply wp_bind, wp_store; [done|]. apply wp_ret. rewrite Ep2, <- Hl.
    by replace (S (length (pre ++ ws ++ LT :: a :: s))) with (length (pre ++ ws ++ LT :: a :: s) + 1)%nat by lia.
  - apply wp_bind, wp_store; [done|]. apply wp_ret. rewrite Ep2, <- Hl. by rewrite Nat.add_0_r in H.
  - apply wp_bind, wp_store; [done|].
    replace (p2 ++ 0 :: GT :: tl1) with ((p2 ++ [0]) ++ GT :: tl1) by (by rewrite <- app_assoc).
    apply wp_bind, wp_peek; [rewrite length_app; cbn; lia|]. change (GT =? GT) with true. cbn [negb].
    apply wp_bind, wp_store; [rewrite length_app; cbn; lia|]. apply wp_ret.
    rewrite <- app_assoc. cbn [app]. rewrite Ep2, <- Hl.
    by replace (S (length (pre ++ ws ++ LT :: a :: s))) with (length (pre ++ ws ++ LT :: a :: s) + 1)%nat by lia.
Qed.

(** *** Attributes *)

(** The part of a table that never changes. *)
Definition skel (nodes : list tNode) : list (list Z * list (list Z)) :=
  (fun nd => (nd_name nd, at_name <$> nd_attributes nd)) <$> nodes.

(** The value of attribute [k] of node [n]. *)
Definition attr_at (w : xml) (T : table) (n k : nat) : option char_ptr :=
  nd ← tables w T !! n; a ← nd_attributes nd !! k; at_value a.

Lemma find_name_fmap {A} (f : A -> list Z) name l : find_name f name l = find_name id name (f <$> l).
Proof. induction l as [|a l IH]; cbn; [done|]. by rewrite IH. Qed.

Lemma find_name_Some names j a : NoDup names -> names !! j = Some a -> find_name id a names = Some j.
Proof.
  revert j. induction names as [|x names IH]; intros j Hnd Hj; [done|].
  apply list.NoDup_cons in Hnd as [Hx Hnd]. cbn. destruct j as [|j]; cbn in Hj.
  - injection Hj as ->. by rewrite bool_decide_true.
  - rewrite bool_decide_false by (intros ->; apply Hx; by eapply list_elem_of_lookup_2).
    by rewrite (IH j).
Qed.

Lemma find_name_lookup names j a : find_name id a names = Some j -> names !! j = Some a.
Proof.
  revert j. induction names as [|x names IH]; intros j; [done|]. cbn.
  case_bool_decide as E; [intros [= <-]; by rewrite E|].
  destruct (find_name id a names) eqn:Ef; [|done]. intros [= <-]. by apply IH.
Qed.

Lemma skel_set_value T n a p w T' : skel (tables (set_value T n a p w) T') = skel (tables w T').
Proof.
  cbn. case_decide as E; [subst|done]. unfold skel. apply list_eq. intros i.
  rewrite !list_lookup_fmap. destruct (decide (i = n)) as [->|Hne].
  - rewrite list_lookup_alter_eq. destruct (tables w T !! n) as [nd|]; [|done]. cbn. do 2 f_equal.
    apply list_eq. intros j. rewrite !list_lookup_fmap. destruct (decide (j = a)) as [->|].
    + rewrite list_lookup_alter_eq. by destruct (nd_attributes nd !! a).
    + by rewrite list_lookup_alter_ne.
  - by rewrite list_lookup_alter_ne.
Qed.

Lemma skel_lookup nodes n nm names :
  skel nodes !! n = Some (nm, names) -> exists nd, nodes !! n = Some nd /\ nd_name nd = nm /\ at_name <$> nd_attributes nd = names.
Proof.
  unfold skel. rewrite list_lookup_fmap. destruct (nodes !! n) as [nd|]; [|done]. intros [= <- <-]. eauto.
Qed.

Lemma attr_at_set_value T n a p w nm names x :
  skel (tables w T) !! n = Some (nm, names) -> names !! a = Some x ->
  attr_at (set_value T n a p w) T n a = Some p /\
  forall k, k <> a -> attr_at (set_value T n a p w) T n k = attr_at w T n k.
Proof.
  intros Hs Ha. destruct (skel_lookup _ _ _ _ Hs) as (nd & Hn & _ & Hnames).
  unfold attr_at. cbn. rewrite decide_True by done. rewrite list_lookup_alter_eq, Hn. cbn. split.
  - rewrite list_lookup_alter_eq. rewrite <- Hnames, list_lookup_fmap in Ha.
    by destruct (nd_attributes nd !! a).
  - intros k Hk. by rewrite list_lookup_alter_ne.
Qed.

Fixpoint assoc (a : list Z) (attrs : list (list Z * list Z)) : option (list Z) :=
  match attrs with
  | [] => None
  | (k, v) :: attrs' => if bool_decide (a = k) then Some v else assoc a attrs'
  end.

Lemma assoc_None a attrs : a ∉ attrs.*1 -> assoc a attrs = None.
Proof.
  induction attrs as [|[k v] attrs IH]; cbn; [done|]. intros Ha.
  apply not_elem_of_cons in Ha as [Hk Ha]. by rewrite bool_decide_false, IH.
Qed.

(** The attributes as they are written after the first space. *)
Fixpoint attrs_text (attrs : list (list Z * list Z)) : list Z :=
  match attrs with
  | [] => []
  | (k, v) :: attrs' =>
    k ++ EQUAL :: QUOTE :: v ++ QUOTE :: match attrs' with [] => [] | _ => SPACE :: attrs_text attrs' end
  end.

Definition attr_ok (x : list Z * list Z) : Prop := name_ok (fst x) /\ all_chars value_char (snd x).

(** [v] stands, terminated, in the text [pre] at offset [off]. *)
Definition stands (pre v : list Z) (off : nat) : Prop := exists p1 p2, off = length p1 /\ pre = p1 ++ v ++ 0 :: p2.

Lemma stands_app pre v off k : stands pre v off -> stands (pre ++ k) v off.
Proof. intros (p1 & p2 & -> & ->). exists p1, (p2 ++ k). split; [done|]. by rewrite <- !app_assoc. Qed.

(** What parsing the attributes of node [n] leaves. *)
Definition attrs_set (T : table) (n : nat) (names : list (list Z)) (b : positive) (pre : list Z)
    (attrs : list (list Z * list Z)) (w w' : xml) : Prop :=
  user w' = user w /\ blocks w' = blocks w /\ next_block w' = next_block w /\ allocs w' = allocs w /\
  (forall T', skel (tables w' T') = skel (tables w T')) /\
  (forall j a, names !! j = Some a ->
     match assoc a attrs with
     | Some v => exists off, attr_at w' T n j = Some (b, off) /\ stands pre v off
     | None => attr_at w' T n j = attr_at w T n j
     end).

Lemma attrs_set_nil T n names b pre w : attrs_set T n names b pre [] w w.
Proof. repeat split; done. Qed.

(** One turn of the loop. *)
Lemma wp_attribute_turn fuel T n names b pre k v ws e tl w nm (Q : Z + nat -> xml -> Prop) :
  skel (tables w T) !! n = Some (nm, names) -> NoDup names -> attr_ok (k, v) ->
  all_chars blank ws -> blank e = false ->
  (forall pre' w',
     pre' = pre ++ k ++ 0 :: QUOTE :: v ++ 0 :: ws -> attrs_set T n names b pre' [(k, v)] w w' ->
     wp (attributes_loop fuel T n b (length pre')) Q (buf_set b (pre' ++ e :: tl) w')) ->
  wp (attributes_loop (S fuel) T n b (length pre)) Q
     (buf_set b (pre ++ k ++ EQUAL :: QUOTE :: v ++ QUOTE :: ws ++ e :: tl) w).
Proof.
  intros Hs Hnd [Hk Hv] Hws He H. cbn [fst snd] in Hk, Hv. destruct Hk as [Hk (a & s & -> & Ha)]. cbn [attributes_loop].
  set (k := a :: s) in *.
  change (pre ++ k ++ EQUAL :: QUOTE :: v ++ QUOTE :: ws ++ e :: tl) with
    (pre ++ a :: (s ++ EQUAL :: QUOTE :: v ++ QUOTE :: ws ++ e :: tl)).
  apply wp_bind, wp_peek; [done|]. rewrite Ha. cbn [negb].
  change (a :: s ++ EQUAL :: QUOTE :: v ++ QUOTE :: ws ++ e :: tl) with (k ++ EQUAL :: QUOTE :: v ++ QUOTE :: ws ++ e :: tl).
  apply wp_bind, wp_scan_at; [done|done|by right|].
  rewrite app_assoc. apply wp_bind, wp_peek; [done|]. change (EQUAL =? EQUAL) with true. cbn [negb].
  apply wp_bind, wp_store; [done|]. rewrite <- app_assoc.
  apply wp_bind, wp_read_at; [done | by eapply all_chars_no_nul|].
  apply wp_bind, wp_gets. match goal with |- context [tables ?w0 T !! n ≫= ?f] => set (o := tables w0 T !! n ≫= f) end.
  replace (pre ++ k ++ 0 :: QUOTE :: v ++ QUOTE :: ws ++ e :: tl)
    with ((pre ++ k ++ [0]) ++ QUOTE :: v ++ QUOTE :: ws ++ e :: tl) by (by rewrite <- !app_assoc).
  apply wp_bind, wp_peek; [rewrite !length_app; cbn; lia|]. change (QUOTE =? QUOTE) with true. cbn [negb].
  replace ((pre ++ k ++ [0]) ++ QUOTE :: v ++ QUOTE :: ws ++ e :: tl)
    with ((pre ++ k ++ [0; QUOTE]) ++ v ++ QUOTE :: ws ++ e :: tl) by (by rewrite <- !app_assoc).
  set (p1 := pre ++ k ++ [0; QUOTE]).
  apply wp_bind, wp_scan_at; [unfold p1; rewrite !length_app; cbn; lia | done | by right|].
  rewrite (app_assoc p1 v). apply wp_bind, wp_peek; [done|]. change (QUOTE =? QUOTE) with true. cbn [negb].
  apply wp_bind, wp_store; [done|].
  assert (Hnext : forall w', attrs_set T n names b (pre ++ k ++ 0 :: QUOTE :: v ++ 0 :: ws) [(k, v)] w w' ->
    wp (pos ← skip_at b (S (length (p1 ++ v))); attributes_loop fuel T n b pos) Q (buf_set b ((p1 ++ v) ++ 0 :: ws ++ e :: tl) w')).
  { intros w' Hw'.
    replace ((p1 ++ v) ++ 0 :: ws ++ e :: tl) with (((p1 ++ v) ++ [0]) ++ ws ++ e :: tl) by (by rewrite <- !app_assoc).
    apply wp_bind, wp_skip_at; [rewrite !length_app; cbn; lia | done | by right|].
    rewrite (app_assoc _ ws).
    replace (((p1 ++ v) ++ [0]) ++ ws) with (pre ++ k ++ 0 :: QUOTE :: v ++ 0 :: ws) by (unfold p1; by rewrite <- !app_assoc).
    by apply H. }
  assert (Hst : stands (pre ++ k ++ 0 :: QUOTE :: v ++ 0 :: ws) v (length p1)).
  { exists p1, ws. split; [done|]. unfold p1. by rewrite <- !app_assoc. }
  assert (Ho : o = find_name id k names).
  { unfold o. destruct (skel_lookup _ _ _ _ Hs) as (nd & Hn & _ & Hnames). cbn. rewrite Hn. cbn.
    unfold findAttribute. by rewrite find_name_fmap, Hnames. }
  rewrite Ho. destruct (find_name id k names) as [j|] eqn:Ef.
  - pose proof (find_name_lookup _ _ _ Ef) as Hj.
    destruct (attr_at_set_value T n j (b, length p1) w nm names k Hs Hj) as [Hat Hother].
    apply wp_bind, wp_modify. rewrite set_value_buf_set.
    replace (S (S (length (pre ++ k)))) with (length p1) by (unfold p1; rewrite !length_app; cbn; lia).
    apply Hnext. split_and!; try done; [intros T'; apply skel_set_value|].
    intros j' a' Hj'. cbn [assoc]. case_bool_decide as E; [subst|].
    + assert (j' = j) as -> by (rewrite (find_name_Some _ _ _ Hnd Hj') in Ef; congruence).
      by exists (length p1).
    + apply Hother. intros ->. congruence.
  - apply wp_bind, wp_ret. apply Hnext. split_and!; try done.
    intros j a' Hj. cbn [assoc]. rewrite bool_decide_false; [done|]. intros ->.
    by rewrite (find_name_Some _ _ _ Hnd Hj) in Ef.
Qed.

Lemma attrs_set_cons T n names b pre ext k v attrs w w1 w2 :
  k ∉ attrs.*1 -> attrs_set T n names b pre [(k, v)] w w1 -> attrs_set T n names b (pre ++ ext) attrs w1 w2 ->
  attrs_set T n names b (pre ++ ext) ((k, v) :: attrs) w w2.
Proof.
  intros Hk (Hu & Hb & Hn & Ha & Hs & Hv) (Hu' & Hb' & Hn' & Ha' & Hs' & Hv').
  split_and!; [congruence..|intros T'; by rewrite Hs', Hs|].
  intros j a Hj. specialize (Hv j a Hj). specialize (Hv' j a Hj). cbn [assoc] in *.
  case_bool_decide as E; [subst|].
  - rewrite assoc_None in Hv' by done. destruct Hv as (off & Hoff & Hst).
    exists off. rewrite Hv'. split; [done|]. by apply stands_app.
  - destruct (assoc a attrs); [done|]. by rewrite Hv'.
Qed.

Lemma attrs_text_alpha k v attrs :
  name_ok k -> exists a t, attrs_text ((k, v) :: attrs) = a :: t /\ isalpha a = true.
Proof. intros [_ (a & s & -> & Ha)]. cbn. eauto. Qed.

Lemma alpha_not_blank a : isalpha a = true -> blank a = false.
Proof. unfold isalpha, blank, SPACE, CR, LF. lia. Qed.

Lemma wp_attributes_loop attrs fuel T n names b pre e tl w nm (Q : Z + nat -> xml -> Prop) :
  skel (tables w T) !! n = Some (nm, names) -> NoDup names -> Forall attr_ok attrs -> NoDup attrs.*1 ->
  isalpha e = false -> blank e = false -> (length attrs < fuel)%nat ->
  (forall ext w',
     length ext = length (attrs_text attrs) -> attrs_set T n names b (pre ++ ext) attrs w w' ->
     Q (inr (length (pre ++ ext))) (buf_set b ((pre ++ ext) ++ e :: tl) w')) ->
  wp (attributes_loop fuel T n b (length pre)) Q (buf_set b (pre ++ attrs_text attrs ++ e :: tl) w).
Proof.
  intros Hs Hnd Hok Hnda He1 He2. revert fuel pre w Hs.
  induction attrs as [|[k v] attrs IH]; intros fuel pre w Hs Hf H; destruct fuel as [|fuel]; cbn [length] in Hf; try lia.
  - cbn [attrs_text app attributes_loop]. apply wp_bind, wp_peek; [done|]. rewrite He1. cbn [negb]. apply wp_ret.
    specialize (H [] w). rewrite app_nil_r in H. apply H; [done|]. apply attrs_set_nil.
  - apply list.Forall_cons in Hok as [Hkv Hok]. cbn [fmap list_fmap fst] in Hnda. apply list.NoDup_cons in Hnda as [Hk Hnda].
    set (ws := match attrs with [] => [] | _ => [SPACE] end).
    assert (exists e' tl', attrs_text attrs ++ e :: tl = e' :: tl' /\ blank e' = false) as (e' & tl' & Ee & He').
    { destruct attrs as [|[k' v'] attrs']; [by eexists _, _|]. apply list.Forall_cons in Hok as [[Hk' _] _].
      destruct (attrs_text_alpha k' v' attrs' Hk') as (a & t & -> & Ha). eexists _, _. split; [done|].
      by apply alpha_not_blank. }
    assert (Et : attrs_text ((k, v) :: attrs) ++ e :: tl = k ++ EQUAL :: QUOTE :: v ++ QUOTE :: ws ++ e' :: tl').
    { rewrite <- Ee. cbn [attrs_text]. rewrite <- app_assoc. cbn [app]. rewrite <- app_assoc. cbn [app].
      unfold ws. by destruct attrs. }
    rewrite Et. eapply wp_attribute_turn; [done|done|done| |done|].
    { unfold ws. destruct attrs; repeat constructor; done. }
    intros pre' w' -> Hw'. rewrite <- Ee. apply IH; [done|done| |lia|].
    { destruct Hw' as (_ & _ & _ & _ & Hsk & _). by rewrite Hsk. }
    intros ext w'' Hl Hw''.
    specialize (H (k ++ 0 :: QUOTE :: v ++ 0 :: ws ++ ext) w'').
    assert (Ep : forall l, (pre ++ k ++ 0 :: QUOTE :: v ++ 0 :: ws) ++ l = pre ++ k ++ 0 :: QUOTE :: v ++ 0 :: ws ++ l).
    { intros l. repeat (rewrite <- app_assoc; cbn [app]). done. }
    rewrite Ep in Hw'' |- *. apply H; rewrite <- ?Ep.
    + cbn [attrs_text]. repeat (rewrite length_app; cbn [length]). rewrite Hl. unfold ws.
      by destruct attrs.
    + eapply attrs_set_cons; [done|done|]. by rewrite Ep.
Qed.

(** *** Nodes *)

Definition tag_close (simple : bool) : list Z := if simple then [SLASH; GT] else [GT].

(** What follows the name of a node in its tag, and how [open_tag] leaves it. *)
Definition tag_rest (attrs : list (list Z * list Z)) (simple : bool) : list Z :=
  match attrs with [] => [] | _ => SPACE :: attrs_text attrs end ++ tag_close simple.

Definition tag_opened (attrs : list (list Z * list Z)) (simple : bool) : list Z * nat * bool :=
  match attrs with
  | [] => if simple then ([0; 0], 1%nat, true) else ([0], 0%nat, false)
  | _ => (0 :: attrs_text attrs ++ tag_close simple, 1%nat, false)
  end.

Lemma tag_opened_ok attrs simple rest :
  name_end (tag_rest attrs simple ++ rest) ((tag_opened attrs simple).1.1 ++ rest) (tag_opened attrs simple).1.2 (tag_opened attrs simple).2.
Proof. destruct attrs as [|x attrs]; [destruct simple; constructor|]. constructor. Qed.

Lemma length_tag_opened attrs simple : length (tag_opened attrs simple).1.1 = length (tag_rest attrs simple).
Proof. destruct attrs as [|x attrs]; [by destruct simple|]. unfold tag_rest. cbn [tag_opened fst app length]. done. Qed.

Lemma attrs_set_app T n names b pre ext attrs w w' :
  attrs_set T n names b pre attrs w w' -> attrs_set T n names b (pre ++ ext) attrs w w'.
Proof.
  intros (? & ? & ? & ? & ? & Hv). split_and!; try done. intros j x Hj. specialize (Hv j x Hj).
  destruct (assoc x attrs); [|done]. destruct Hv as (off & ? & ?). exists off. split; [done|]. by apply stands_app.
Qed.

(** The end of a tag that has attributes. *)
Lemma wp_tag_close b pre simple rest w (Q : Z + (nat * bool) -> xml -> Prop) :
  Q (inr (length (pre ++ tag_close simple), simple)) (buf_set b ((pre ++ tag_close simple) ++ rest) w) ->
  wp (c ← peek b (length pre);
      let simple := c =? SLASH in
      let pos := if c =? SLASH then S (length pre) else length pre in
      c ← peek b pos;
      if c =? GT then go (S pos, simple) else leave (Z.of_nat pos)) Q (buf_set b (pre ++ tag_close simple ++ rest) w).
Proof.
  intros H. rewrite length_app, <- app_assoc in H. destruct simple; cbn [tag_close app length] in *.
  - apply wp_bind, wp_peek; [done|]. change (SLASH =? SLASH) with true. cbn [orb].
    replace (pre ++ SLASH :: GT :: rest) with ((pre ++ [SLASH]) ++ GT :: rest) in * by (by rewrite <- app_assoc).
    apply wp_bind, wp_peek; [rewrite length_app; cbn; lia|]. apply wp_ret.
    by replace (S (S (length pre))) with (length pre + 2)%nat by lia.
  - apply wp_bind, wp_peek; [done|]. change (GT =? SLASH) with false. cbn [orb].
    apply wp_bind, wp_peek; [done|]. apply wp_ret. by replace (S (length pre)) with (length pre + 1)%nat by lia.
Qed.

Lemma length_attrs_text attrs : (length attrs <= length (attrs_text attrs))%nat.
Proof.
  induction attrs as [|[k v] attrs IH]; [done|]. cbn [attrs_text]. repeat (rewrite length_app; cbn [length]).
  destruct attrs; cbn [length] in *; lia.
Qed.

Lemma wp_known_tag T n names nm b pre attrs simple rest w (Q : Z + (nat * bool) -> xml -> Prop) :
  skel (tables w T) !! n = Some (nm, names) -> NoDup names -> Forall attr_ok attrs -> NoDup attrs.*1 ->
  (forall ext w',
     length (0 :: ext) = length (tag_rest attrs simple) -> attrs_set T n names b (pre ++ 0 :: ext) attrs w w' ->
     Q (inr (length (pre ++ 0 :: ext), simple)) (buf_set b ((pre ++ 0 :: ext) ++ rest) w')) ->
  wp (known_tag T n b (length pre + (tag_opened attrs simple).1.2) (tag_opened attrs simple).2) Q
     (buf_set b (pre ++ (tag_opened attrs simple).1.1 ++ rest) w).
Proof.
  intros Hs Hnd Hok Hnda H. unfold known_tag. destruct attrs as [|[k v] attrs].
  - destruct simple; cbn [tag_opened fst snd app].
    + replace (pre ++ 0 :: 0 :: rest) with ((pre ++ [0]) ++ 0 :: rest) by (by rewrite <- app_assoc).
      apply wp_bind, wp_peek; [rewrite length_app; cbn; lia|]. apply wp_ret.
      specialize (H [0] w eq_refl (attrs_set_nil _ _ _ _ _ _)). rewrite <- !app_assoc in *. cbn [app] in *.
      by replace (S (length pre + 1)) with (length (pre ++ [0; 0])) by (rewrite length_app; cbn; lia).
    + apply wp_bind, wp_peek; [lia|]. apply wp_ret.
      specialize (H [] w eq_refl (attrs_set_nil _ _ _ _ _ _)). rewrite <- app_assoc in H. cbn [app] in H.
      by replace (S (length pre + 0)) with (length (pre ++ [0])) by (rewrite length_app; cbn; lia).
  - pose proof (Forall_inv Hok) as [Hkn _].
    destruct (attrs_text_alpha k v attrs Hkn) as (a & t & Et & Ha).
    cbn [tag_opened fst snd app]. unfold tag_rest in H. cbn [app] in H. set (attrs' := (k, v) :: attrs) in *.
    assert (exists e tl, tag_close simple ++ rest = e :: tl /\ isalpha e = false /\ blank e = false) as (e & tl & Ee & He1 & He2)
      by (destruct simple; eexists _, _; done).
    rewrite <- app_assoc.
    replace (pre ++ 0 :: attrs_text attrs' ++ tag_close simple ++ rest) with ((pre ++ [0]) ++ attrs_text attrs' ++ tag_close simple ++ rest)
      by (by rewrite <- app_assoc).
    rewrite Et. cbn [app]. apply wp_bind, wp_peek; [rewrite length_app; cbn; lia|].
    replace (a =? 0) with false by (unfold isalpha in Ha; lia).
    change ((pre ++ [0]) ++ a :: t ++ tag_close simple ++ rest) with ((pre ++ [0]) ++ [] ++ a :: t ++ tag_close simple ++ rest).
    apply wp_bind, wp_skip_at; [rewrite length_app; cbn; lia | constructor | right; by apply alpha_not_blank|].
    cbn [app]. rewrite app_nil_r. apply wp_bind, wp_load, wp_andthen.
    change (a :: t ++ tag_close simple ++ rest) with ((a :: t) ++ tag_close simple ++ rest). rewrite <- Et, Ee.
    eapply wp_attributes_loop; [done..| |].
    { pose proof (length_attrs_text attrs'). rewrite !length_app. lia. }
    intros ext w' Hl Hw'. rewrite <- Ee. cbn [orb]. apply wp_tag_close.
    replace (((pre ++ [0]) ++ ext) ++ tag_close simple) with (pre ++ 0 :: ext ++ tag_close simple) in *
      by (by rewrite <- !app_assoc).
    apply H.
    + cbn [length]. by rewrite !length_app, Hl.
    + replace (pre ++ 0 :: ext ++ tag_close simple) with (((pre ++ [0]) ++ ext) ++ tag_close simple) by (by rewrite <- !app_assoc).
      by apply attrs_set_app.
Qed.

(** A node as it is written. *)
Record elem := mk_elem {
  e_indent : list Z;
  e_name : list Z;
  e_attrs : list (list Z * list Z);
  e_simple : bool;
  e_content : list Z;
}.

Definition elem_text (e : elem) : list Z :=
  e_indent e ++ LT :: e_name e ++ tag_rest (e_attrs e) (e_simple e) ++
  (if e_simple e then [] else e_content e ++ end_token (e_name e)).

Definition elem_ok (e : elem) : Prop :=
  all_chars blank (e_indent e) /\ name_ok (e_name e) /\ (length (e_name e) <= 96)%nat /\
  Forall attr_ok (e_attrs e) /\ NoDup (e_attrs e).*1 /\
  no_nul (e_content e) /\ strstr (end_token (e_name e)) (e_content e) = None.

(** The blocks are below the next address, and the tables have their names. *)
Definition inv (sk : table -> list (list Z * list (list Z))) (w : xml) : Prop :=
  (forall b, is_Some (blocks w !! b) -> (b < next_block w)%positive) /\ forall T, skel (tables w T) = sk T.

(** The attributes of the node are those of [attrs]. *)
Definition attrs_given (T : table) (n : nat) (names : list (list Z)) (b : positive) (pre : list Z)
    (attrs : list (list Z * list Z)) (w : xml) : Prop :=
  forall j a, names !! j = Some a ->
    match assoc a attrs with
    | Some v => exists off, attr_at w T n j = Some (b, off) /\ stands pre v off
    | None => attr_at w T n j = None
    end.

(** A handler that does [f] to the state of the client for the node [e]: it may
    change the text of the node, and nothing else in the parser.  It reads the
    attributes [names]. *)
Definition handles (sk : table -> list (list Z * list (list Z))) (T : table) (n : nat) (names : list (list Z))
    (h : processNode) (e : elem) (f : info -> info) : Prop :=
  forall b pre s tl w,
    inv sk w -> blocks w !! b = Some (pre ++ s ++ 0 :: tl) -> no_nul s -> (e_simple e = false -> s = e_content e) ->
    attrs_given T n names b pre (e_attrs e) w ->
    wp (h (b, length pre))
       (fun r w' => r = 0 /\ user w' = f (user w) /\ inv sk w' /\
          exists pre' s', length pre' = length pre /\ length s' = length s /\ (e_simple e = true -> s' = s) /\
            blocks w' = <[b := pre' ++ s' ++ 0 :: tl]> (blocks w)) w.

Lemma inv_buf_set sk b l l' w : inv sk (buf_set b l w) -> inv sk (buf_set b l' w).
Proof.
  intros [H1 H2]. split; [|exact H2]. intros b' Hb'. apply H1. cbn in *.
  destruct (decide (b = b')) as [->|]; [by rewrite lookup_insert_eq|]. by rewrite lookup_insert_ne in *.
Qed.

Lemma inv_attrs_set sk T n names b b' pre attrs l w w' :
  attrs_set T n names b' pre attrs w w' -> inv sk (buf_set b l w) -> inv sk (buf_set b l w').
Proof.
  intros (_ & Hb & Hn & _ & Hs & _) [H1 H2]. split.
  - intros x. cbn. rewrite Hb, Hn. apply H1.
  - intros T'. cbn. rewrite Hs. apply H2.
Qed.

Lemma end_token_self name : name_ok name -> end_token name = LT :: SLASH :: name ++ [GT] /\ Forall (fun c => c <> LT) (SLASH :: name ++ [GT]).
Proof.
  intros [Hn _]. split; [done|]. constructor; [done|]. apply Forall_app. split; [|by repeat constructor].
  eapply list.Forall_impl; [exact Hn|]. intros c [_ Hc] ->. done.
Qed.

(** The content of a node that is handled. *)
Lemma wp_node_content sk T n names h b pre name p2 e f rest w :
  inv sk (buf_set b [] w) -> elem_ok e -> name = e_name e -> handles sk T n names h e f ->
  attrs_given T n names b (pre ++ name ++ 0 :: p2) (e_attrs e) w -> no_nul rest ->
  wp (node_content (Some h) (length pre) b (length (pre ++ name ++ 0 :: p2)) (e_simple e))
     (fun r w' => exists pre', r = inr (length pre') /\
        length pre' = length ((pre ++ name ++ 0 :: p2) ++ (if e_simple e then [] else e_content e ++ end_token name)) /\
        user w' = f (user w) /\ inv sk w' /\ blocks w' = <[b := pre' ++ rest ++ [0]]> (blocks w))
     (buf_set b ((pre ++ name ++ 0 :: p2) ++ (if e_simple e then [] else e_content e ++ end_token name) ++ rest ++ [0]) w).
Proof.
  intros Hinv (_ & Hname & Hlen & _ & _ & Hc & Hstr) -> Hh Hattr Hrest. unfold node_content.
  set (p := pre ++ e_name e ++ 0 :: p2) in *. destruct (e_simple e) eqn:Es.
  - apply wp_andthen, wp_bind. cbn [app].
    eapply wp_mono; [apply (Hh b p rest [] ); [by eapply inv_buf_set | apply lookup_buf_set | done | by rewrite Es | exact Hattr]|].
    intros r w' (-> & Hu & Hi & pre' & s' & Hl & _ & Hs' & Hb). apply wp_ret. cbn beta iota. apply wp_ret.
    exists pre'. rewrite (Hs' Es) in Hb. rewrite Hl, app_nil_r. split_and!; try done.
    rewrite Hb. cbn. by rewrite insert_insert_eq.
  - destruct (end_token_self _ Hname) as [Htok Hself].
    assert (Hnn : no_nul (e_name e)) by (destruct Hname; by eapply all_chars_no_nul).
    assert (Hnt : no_nul (end_token (e_name e))).
    { unfold end_token. rewrite !no_nul_app. split; [by repeat constructor|]. split; [done|by repeat constructor]. }
    set (body := (e_content e ++ end_token (e_name e)) ++ rest ++ [0]).
    assert (Ep : p ++ body = pre ++ e_name e ++ 0 :: p2 ++ body) by (unfold p; by rewrite <- !app_assoc).
    rewrite Ep. apply wp_bind, wp_read_at; [done|done|]. rewrite <- Ep.
    apply wp_bind, wp_lift. rewrite guard_or_true by (apply Nat.leb_le; rewrite Htok; cbn [length]; rewrite length_app; cbn; unfold END_TOKEN; lia).
    cbn [res_ok].
    assert (Eb : body = (e_content e ++ end_token (e_name e) ++ rest) ++ [0]) by (unfold body; by rewrite <- !app_assoc).
    rewrite Eb. apply wp_bind, wp_read_at; [done | by rewrite !no_nul_app|].
    assert (Hfind : strstr (end_token (e_name e)) (e_content e ++ end_token (e_name e) ++ rest) = Some (length (e_content e))).
    { rewrite Htok. apply strstr_app; [by rewrite <- Htok|done]. }
    rewrite Hfind, <- Eb. set (tl := SLASH :: e_name e ++ [GT] ++ rest ++ [0]).
    assert (Eb2 : p ++ body = (p ++ e_content e) ++ LT :: tl).
    { unfold body, tl. rewrite Htok. by repeat (rewrite <- app_assoc; cbn [app]). }
    rewrite Eb2. apply wp_bind, wp_store; [by rewrite length_app|]. apply wp_andthen, wp_bind. rewrite <- app_assoc.
    eapply wp_mono; [apply (Hh b p (e_content e) tl); [by eapply inv_buf_set | apply lookup_buf_set | done | done | exact Hattr]|].
    intros r w' (-> & Hu & Hi & pre' & s' & Hl & Hl2 & _ & Hb). apply wp_ret. cbn beta iota. apply wp_ret.
    exists ((pre' ++ s' ++ [0]) ++ SLASH :: e_name e ++ [GT]).
    assert (Hlt : length (end_token (e_name e)) = S (S (S (length (e_name e))))) by (rewrite Htok; cbn; rewrite length_app; cbn; lia).
    split_and!; try done.
    + do 2 f_equal. repeat (rewrite length_app; cbn [length]). rewrite Hl, Hl2, Hlt. lia.
    + repeat (rewrite length_app; cbn [length]). rewrite Hl, Hl2, Hlt. lia.
    + rewrite Hb. cbn. rewrite insert_insert_eq. f_equal. unfold tl. by repeat (rewrite <- app_assoc; cbn [app]).
Qed.

(** The result of a turn at the node [e]. *)
Definition node_done (sk : table -> list (list Z * list (list Z))) (b : positive) (pre rest : list Z) (e : elem)
    (f : info -> info) (w : xml) (r : Z + nat) (w' : xml) : Prop :=
  exists pre', r = inr (length pre') /\ length pre' = length (pre ++ elem_text e) /\
    user w' = f (user w) /\ inv sk w' /\ blocks w' = <[b := pre' ++ rest ++ [0]]> (blocks w).

Lemma elem_text_app e rest :
  elem_text e ++ rest =
  e_indent e ++ LT :: e_name e ++ tag_rest (e_attrs e) (e_simple e) ++
    (if e_simple e then [] else e_content e ++ end_token (e_name e)) ++ rest.
Proof. unfold elem_text. by repeat (rewrite <- app_assoc; cbn [app]). Qed.

Lemma findNode_skel name nodes : findNode name nodes = find_name id name (skel nodes).*1.
Proof. unfold findNode, skel. rewrite find_name_fmap. f_equal. by rewrite <- list_fmap_compose. Qed.

(** The part of a turn up to the lookup of the node. *)
Lemma wp_parse_node_open T handlers b pre e rest w (Q : Z + nat -> xml -> Prop) :
  elem_ok e ->
  (let o := tag_opened (e_attrs e) (e_simple e) in
   let p := pre ++ e_indent e ++ [LT] in
   let n := find_name id (e_name e) (skel (tables w T)).*1 in
   wp (andthen (match n with
                | Some i => known_tag T i b (length (p ++ e_name e) + o.1.2) o.2
                | None => unknown_tag b (length (p ++ e_name e) + o.1.2) o.2
                end) (fun '(pos, simple) => node_content (i ← n; handlers i) (length p) b pos simple)) Q
      (buf_set b ((p ++ e_name e) ++ o.1.1 ++ (if e_simple e then [] else e_content e ++ end_token (e_name e)) ++ rest ++ [0]) w)) ->
  wp (parse_node T handlers b (length pre)) Q (buf_set b (pre ++ elem_text e ++ rest ++ [0]) w).
Proof.
  intros (Hws & Hname & _) H. rewrite elem_text_app. unfold parse_node.
  set (body := (if e_simple e then [] else e_content e ++ end_token (e_name e)) ++ rest ++ [0]) in *.
  apply wp_andthen. eapply wp_open_tag; [done|done|apply tag_opened_ok|]. cbn beta iota.
  set (o := tag_opened (e_attrs e) (e_simple e)) in *. set (p := pre ++ e_indent e ++ [LT]) in *.
  assert (Ep : forall l, pre ++ e_indent e ++ LT :: l = p ++ l) by (intros l; unfold p; by repeat (rewrite <- app_assoc; cbn [app])).
  rewrite !Ep. assert (exists t, o.1.1 ++ body = 0 :: t) as [t Et].
  { unfold o, tag_opened. destruct (e_attrs e); [destruct (e_simple e)|]; cbn; by eexists. }
  rewrite Et. apply wp_bind, wp_read_at; [done | destruct Hname; by eapply all_chars_no_nul|].
  rewrite bool_decide_false by (destruct Hname as [_ (? & ? & -> & _)]; done).
  apply wp_bind, wp_gets. rewrite findNode_skel. cbn [tables buf_set set_blocks].
  rewrite <- Et, app_assoc. exact H.
Qed.

Lemma wp_parse_node sk T handlers n names used h b pre e f rest w :
  inv sk (buf_set b [] w) -> elem_ok e -> no_nul rest ->
  find_name id (e_name e) (sk T).*1 = Some n -> sk T !! n = Some (e_name e, names) -> NoDup names -> used `prefix_of` names ->
  handlers n = Some h -> handles sk T n used h e f ->
  (forall j a, used !! j = Some a -> assoc a (e_attrs e) = None -> attr_at w T n j = None) ->
  wp (parse_node T handlers b (length pre)) (node_done sk b pre rest e f w) (buf_set b (pre ++ elem_text e ++ rest ++ [0]) w).
Proof.
  intros Hinv Hok Hrest Hfind Hsk Hnd Hused Hh Hhandles Hnull. apply wp_parse_node_open; [done|]. cbv zeta.
  pose proof Hinv as [_ Hskel]. cbn in Hskel. rewrite Hskel, Hfind. cbn [mbind option_bind]. rewrite Hh.
  pose proof Hok as (_ & _ & _ & Hattrs & Hnda & _).
  apply wp_andthen. eapply wp_known_tag; [by rewrite Hskel|done..|].
  intros ext w' Hl Hw'. cbn beta iota.
  set (p := pre ++ e_indent e ++ [LT]) in *. rewrite <- app_assoc in Hw' |- *.
  eapply wp_mono; [eapply wp_node_content; [by eapply inv_attrs_set|done|done|exact Hhandles| |done]|].
  - destruct Hw' as (_ & _ & _ & _ & _ & Hv). intros j a Hj. specialize (Hv j a (prefix_lookup_Some _ _ _ _ Hj Hused)).
    destruct (assoc a (e_attrs e)) eqn:E; [done|]. rewrite Hv. by apply (Hnull j a).
  - intros r w'' (pre' & -> & Hlen & Hu & Hi & Hb). destruct Hw' as (Hu' & Hb' & _).
    exists pre'. split_and!; try done; [|congruence|congruence].
    rewrite Hlen. unfold elem_text, p. rewrite !length_app. cbn [length]. rewrite !length_app. cbn [length] in Hl |- *.
    rewrite <- Hl. lia.
Qed.

(** A node without an entry in the table is skipped. *)
Lemma attrs_text_chars attrs : Forall attr_ok attrs -> all_chars (fun c => negb (c =? GT)) (attrs_text attrs).
Proof.
  induction attrs as [|[k v] attrs IH]; intros H; [constructor|]. apply list.Forall_cons in H as [[[Hk _] Hv] H].
  specialize (IH H). cbn [fst snd] in Hk, Hv. cbn [attrs_text].
  apply Forall_app. split; [|constructor; [done|]; constructor; [done|]; apply Forall_app; split; [|constructor; [done|]]].
  - eapply list.Forall_impl; [exact Hk|]. intros c [? Hc]. split; [done|]. apply negb_true_iff, Z.eqb_neq. intros ->. done.
  - eapply list.Forall_impl; [exact Hv|]. intros c [? Hc]. split; [done|]. apply negb_true_iff, Z.eqb_neq. intros ->. done.
  - destruct attrs; [constructor|]. constructor; [done|]. exact IH.
Qed.

Lemma wp_unknown_tag b pre attrs simple rest c w (Q : Z + (nat * bool) -> xml -> Prop) :
  Forall attr_ok attrs -> (simple = true -> attrs = []) -> head rest = Some c -> (simple = false -> c <> 0) ->
  (forall ext, length (0 :: ext) = length (tag_rest attrs simple) ->
     Q (inr (length (pre ++ 0 :: ext), simple)) (buf_set b ((pre ++ 0 :: ext) ++ rest) w)) ->
  wp (unknown_tag b (length pre + (tag_opened attrs simple).1.2) (tag_opened attrs simple).2) Q
     (buf_set b (pre ++ (tag_opened attrs simple).1.1 ++ rest) w).
Proof.
  intros Hok Hsimple Hrest Hc H. destruct rest as [|c' rest]; [done|]. injection Hrest as ->. unfold unknown_tag.
  assert (Hend : forall ext, length (0 :: ext) = length (tag_rest attrs simple) ->
    wp (c0 ← peek b (length (pre ++ 0 :: ext)); if (c0 =? 0) && negb simple then leave (Z.of_nat (length (pre ++ 0 :: ext))) else go (length (pre ++ 0 :: ext), simple))
       Q (buf_set b ((pre ++ 0 :: ext) ++ c :: rest) w)).
  { intros ext Hl. apply wp_bind, wp_peek; [done|]. destruct simple; cbn [negb].
    - rewrite andb_false_r. by apply wp_ret, H.
    - rewrite (proj2 (Z.eqb_neq c 0)) by auto. by apply wp_ret, H. }
  destruct attrs as [|x attrs].
  - destruct simple; cbn [tag_opened fst snd app].
    + replace (pre ++ 0 :: 0 :: c :: rest) with ((pre ++ [0]) ++ 0 :: c :: rest) by (by rewrite <- app_assoc).
      apply wp_bind, wp_peek; [rewrite length_app; cbn; lia|]. apply wp_bind, wp_ret.
      specialize (Hend [0] eq_refl). replace (S (length pre + 1)) with (length (pre ++ [0; 0])) by (rewrite length_app; cbn; lia).
      by replace ((pre ++ [0]) ++ 0 :: c :: rest) with ((pre ++ [0; 0]) ++ c :: rest) by (by rewrite <- !app_assoc).
    + apply wp_bind, wp_peek; [lia|]. apply wp_bind, wp_ret. specialize (Hend [] eq_refl).
      replace (S (length pre + 0)) with (length (pre ++ [0])) by (rewrite length_app; cbn; lia).
      by replace (pre ++ 0 :: c :: rest) with ((pre ++ [0]) ++ c :: rest) by (by rewrite <- !app_assoc).
  - destruct simple; [by discriminate Hsimple|]. pose proof (attrs_text_chars _ Hok) as Hchars.
    unfold tag_rest in Hend. cbn [tag_opened fst snd tag_close app] in *.
    destruct (attrs_text_alpha x.1 x.2 attrs) as (a & t & Et & Ha); [by destruct (Forall_inv Hok)|].
    rewrite <- surjective_pairing in Et. set (attrs' := x :: attrs) in *.
    replace (pre ++ 0 :: (attrs_text attrs' ++ [GT]) ++ c :: rest) with ((pre ++ [0]) ++ attrs_text attrs' ++ GT :: c :: rest)
      by (by rewrite <- !app_assoc).
    rewrite Et. cbn [app]. apply wp_bind, wp_peek; [rewrite length_app; cbn; lia|].
    replace (a =? 0) with false by (unfold isalpha in Ha; lia).
    change (a :: t ++ GT :: c :: rest) with ((a :: t) ++ GT :: c :: rest). rewrite <- Et.
    apply wp_bind, wp_bind, wp_scan_at; [rewrite length_app; cbn; lia | done | by right|].
    rewrite app_assoc. apply wp_bind, wp_peek; [done|]. change (GT =? GT) with true. apply wp_ret.
    specialize (Hend (attrs_text attrs' ++ [GT])).
    replace (S (length ((pre ++ [0]) ++ attrs_text attrs'))) with (length (pre ++ 0 :: attrs_text attrs' ++ [GT]))
      by (repeat (rewrite length_app; cbn [length]); lia).
    replace (((pre ++ [0]) ++ attrs_text attrs') ++ GT :: c :: rest) with ((pre ++ 0 :: attrs_text attrs' ++ [GT]) ++ c :: rest)
      by (by repeat (rewrite <- app_assoc; cbn [app])).
    by apply Hend.
Qed.

Definition nothing : char_ptr -> st xml Z := fun _ => mret 0.

Lemma node_content_None tagName b pos simple : node_content None tagName b pos simple = node_content (Some nothing) tagName b pos simple.
Proof. done. Qed.

Lemma nothing_handles sk T n e : handles sk T n [] nothing e id.
Proof.
  intros b pre s tl w Hi Hb _ _ _. apply wp_ret. split_and!; [done..|]. exists pre, s. split_and!; [done..|].
  by rewrite insert_id.
Qed.

Lemma wp_parse_node_unknown sk T handlers b pre e rest w :
  inv sk (buf_set b [] w) -> elem_ok e -> no_nul rest ->
  find_name id (e_name e) (sk T).*1 = None -> (e_simple e = true -> e_attrs e = []) ->
  wp (parse_node T handlers b (length pre)) (node_done sk b pre rest e id w) (buf_set b (pre ++ elem_text e ++ rest ++ [0]) w).
Proof.
  intros Hinv Hok Hrest Hfind Hsimple. apply wp_parse_node_open; [done|]. cbv zeta.
  pose proof Hinv as [_ Hskel]. cbn in Hskel. rewrite Hskel, Hfind. cbn [mbind option_bind].
  pose proof Hok as (_ & _ & _ & Hattrs & _ & Hc & _). set (p := pre ++ e_indent e ++ [LT]) in *.
  apply wp_andthen.
  assert (exists c, head ((if e_simple e then [] else e_content e ++ end_token (e_name e)) ++ rest ++ [0]) = Some c /\
    (e_simple e = false -> c <> 0)) as (c & Hhd & Hc0).
  { destruct (e_simple e); [destruct rest; by eexists|]. destruct (e_content e) as [|c s]; [by eexists|].
    apply no_nul_cons in Hc as [? _]. by exists c. }
  eapply wp_unknown_tag; [done|done|exact Hhd|done|]. intros ext Hl. cbn beta iota.
  rewrite <- app_assoc, node_content_None.
  eapply wp_mono; [eapply (wp_node_content sk T 0 []); [done|done|done|apply nothing_handles|by intros j a ?|done]|].
  intros r w'' (pre' & -> & Hlen & Hu & Hi & Hb). exists pre'. split_and!; try done.
  rewrite Hlen. unfold elem_text, p. rewrite !length_app. cbn [length]. rewrite !length_app. cbn [length] in Hl |- *.
  rewrite <- Hl. lia.
Qed.

(** *** Text without an end tag *)

Definition no_token (name s : list Z) : Prop := strstr (end_token name) s = None.
Definition no_lt (s : list Z) : Prop := Forall (fun c => c <> LT) s.

Lemma no_token_cons name c s :
  no_token name (c :: s) <-> has_prefix (end_token name) (c :: s) = false /\ no_token name s.
Proof.
  unfold no_token. cbn [strstr]. destruct (has_prefix (end_token name) (c :: s)); [by split; [|intros [? _]]|].
  destruct (strstr (end_token name) s); cbn; [by split; [|intros [_ ?]]|done].
Qed.

Lemma no_token_nil name : no_token name [].
Proof. done. Qed.

Lemma no_token_skip name a s : no_lt a -> no_token name s -> no_token name (a ++ s).
Proof.
  induction 1 as [|c a Hc _ IH]; intros Hs; [done|]. cbn [app]. apply no_token_cons. split; [|by apply IH].
  unfold end_token. cbn [app has_prefix]. by rewrite (proj2 (Z.eqb_neq LT c)) by done.
Qed.

Lemma no_token_plain name a : no_lt a -> no_token name a.
Proof. intros H. rewrite <- (app_nil_r a). by apply no_token_skip. Qed.

Lemma no_token_open name c s : c <> SLASH -> no_token name (c :: s) -> no_token name (LT :: c :: s).
Proof. intros Hc H. apply no_token_cons. split; [|done].
  unfold end_token. cbn [app has_prefix]. rewrite (proj2 (Z.eqb_neq SLASH c)) by done. by rewrite andb_false_r.
Qed.

Lemma has_prefix_name n n' s :
  n <> n' -> Forall (fun c => c <> GT) n -> Forall (fun c => c <> GT) n' -> has_prefix (n ++ [GT]) (n' ++ GT :: s) = false.
Proof.
  intros Hne Hn. revert n' Hne. induction Hn as [|c n Hc Hn IH]; intros n' Hne Hn'; inversion Hn' as [|c' m Hc' Hm]; subst; try done.
  - cbn [app has_prefix]. by rewrite (proj2 (Z.eqb_neq GT c')).
  - cbn [app has_prefix]. by rewrite (proj2 (Z.eqb_neq c GT)).
  - cbn [app has_prefix]. destruct (Z.eqb_spec c c') as [->|]; [|done]. cbn. apply IH; [congruence|done].
Qed.

Lemma no_token_close name name' s :
  name <> name' -> Forall (fun c => c <> GT) name -> Forall (fun c => c <> GT) name' -> no_lt name' -> no_token name s ->
  no_token name (end_token name' ++ s).
Proof.
  intros Hne Hn Hn' Hlt Hs. unfold end_token. rewrite <- !app_assoc. cbn [app]. apply no_token_cons. split.
  - unfold end_token. cbn [app has_prefix]. rewrite !Z.eqb_refl. cbn [andb]. by apply has_prefix_name.
  - change (SLASH :: name' ++ GT :: s) with ([SLASH] ++ name' ++ [GT] ++ s).
    apply no_token_skip; [by repeat constructor|]. apply no_token_skip; [done|]. apply no_token_skip; [by repeat constructor|done].
Qed.

Lemma no_token_app name a b : Forall (fun c => c <> LT) (SLASH :: name ++ [GT]) -> no_token name a -> no_token name (LT :: b) -> no_token name (a ++ LT :: b).
Proof.
  intros Hn. induction a as [|c a IH]; intros Ha Hb; [done|]. apply no_token_cons in Ha as [Ha1 Ha2].
  cbn [app]. apply no_token_cons. split; [|by apply IH].
  destruct (has_prefix (end_token name) (c :: a ++ LT :: b)) eqn:E; [|done].
  exfalso. apply has_prefix_spec in E as [m [= -> Hm]]. destruct (prefix_within _ _ _ _ _ Hn Hm) as [m' ->].
  enough (has_prefix (end_token name) (LT :: (SLASH :: name ++ [GT]) ++ m') = true) by congruence.
  apply has_prefix_spec. by exists m'.
Qed.

Lemma name_ok_chars name : name_ok name -> no_lt name /\ Forall (fun c => c <> GT) name.
Proof.
  intros [Hn _]. split; eapply list.Forall_impl; try exact Hn; intros c [_ Hc] ->; done.
Qed.

(** The text of a node does not hold the end tag of another one. *)
Lemma elem_no_token name e s :
  name_ok name -> elem_ok e -> e_name e <> name -> Forall (fun x => no_lt (snd x)) (e_attrs e) ->
  no_token name (e_content e) -> no_token name s -> no_token name (elem_text e ++ s).
Proof.
  intros Hname Hok Hne Hattrs Hc Hs. pose proof Hok as (Hws & He & _ & Ha & _).
  destruct (end_token_self _ Hname) as [_ Hself].
  destruct (name_ok_chars _ Hname) as [_ Hgt]. destruct (name_ok_chars _ He) as [Hlt' Hgt'].
  rewrite elem_text_app. apply no_token_skip.
  { eapply list.Forall_impl; [exact Hws|]. intros c [_ Hb] ->. done. }
  destruct He as [Hen (c & t & Ent & Hal)]. rewrite Ent. cbn [app]. apply no_token_open; [intros ->; done|].
  change (c :: t ++ ?x) with ((c :: t) ++ x). rewrite <- Ent. apply no_token_skip; [done|].
  assert (Htag : no_lt (tag_rest (e_attrs e) (e_simple e))).
  { unfold tag_rest. apply Forall_app. split; [|destruct (e_simple e); by repeat constructor].
    enough (no_lt (attrs_text (e_attrs e))) by (destruct (e_attrs e); [constructor|by constructor]).
    clear -Ha Hattrs. induction Ha as [|[k v] attrs [Hk _] _ IH]; [constructor|].
    apply list.Forall_cons in Hattrs as [Hv Hattrs]. specialize (IH Hattrs). destruct (name_ok_chars _ Hk) as [Hk' _].
    cbn [fst snd] in *. cbn [attrs_text]. apply Forall_app. split; [done|]. constructor; [done|]. constructor; [done|].
    apply Forall_app. split; [done|]. constructor; [done|]. destruct attrs; [constructor|by constructor]. }
  apply no_token_skip; [done|]. destruct (e_simple e); [done|]. rewrite <- app_assoc.
  assert (Hend : no_token name (end_token (e_name e) ++ s)) by (apply no_token_close; done).
  unfold end_token in Hend |- *. rewrite <- app_assoc in Hend |- *. cbn [app] in *. by apply no_token_app.
Qed.

(** *** Sequences of nodes *)

(** The node [e] does [f] to the state of the client. *)
Definition elem_runs (sk : table -> list (list Z * list (list Z))) (T : table) (handlers : nat -> option processNode)
    (e : elem) (f : info -> info) : Prop :=
  elem_ok e /\
  ((exists n names used h, find_name id (e_name e) (sk T).*1 = Some n /\ sk T !! n = Some (e_name e, names) /\ NoDup names /\
      used `prefix_of` names /\
      handlers n = Some h /\ handles sk T n used h e f /\ Forall (fun a => is_Some (assoc a (e_attrs e))) used) \/
   (find_name id (e_name e) (sk T).*1 = None /\ (forall x, f x = x) /\ (e_simple e = true -> e_attrs e = []))).

Definition elems_text (es : list elem) (tail : list Z) : list Z := mjoin (elem_text <$> es) ++ tail.

Definition run_all (fs : list (info -> info)) (x : info) : info := foldl (fun x f => f x) x fs.

(** The text of a sequence of nodes, as the content of a node. *)
Lemma elems_no_token name es tail :
  name_ok name -> no_lt tail ->
  Forall (fun e => elem_ok e /\ e_name e <> name /\ Forall (fun x => no_lt (snd x)) (e_attrs e) /\ no_token name (e_content e)) es ->
  no_token name (elems_text es tail).
Proof.
  intros Hn Ht. unfold elems_text. induction 1 as [|e es (? & ? & ? & ?) _ IH]; [by apply no_token_plain|].
  cbn [fmap list_fmap]. rewrite join_cons, <- app_assoc. by apply elem_no_token.
Qed.

Lemma elem_runs_node sk T handlers e f b pre rest w :
  elem_runs sk T handlers e f -> inv sk (buf_set b [] w) -> no_nul rest ->
  wp (parse_node T handlers b (length pre)) (node_done sk b pre rest e f w) (buf_set b (pre ++ elem_text e ++ rest ++ [0]) w).
Proof.
  intros [Hok [(n & names & used & h & ? & ? & ? & ? & ? & ? & Hall)|(? & Hf & ?)]] Hinv Hrest.
  - eapply wp_parse_node; try done. intros j a Hj Ha.
    pose proof (Forall_lookup_1 _ _ _ _ Hall Hj) as [v Hv]. congruence.
  - eapply wp_mono; [by apply wp_parse_node_unknown|]. intros r w' (pre' & ? & ? & Hu & ? & ?). exists pre'.
    split_and!; try done. by rewrite Hf.
Qed.

(** At the end of the text, only blanks are left. *)
Lemma wp_parse_end fuel T handlers b pre tail w (Q : Z -> xml -> Prop) :
  all_chars blank tail -> Q 0 (buf_set b (pre ++ tail ++ [0]) w) ->
  wp (parse_loop (S fuel) T handlers b (length pre)) Q (buf_set b (pre ++ tail ++ [0]) w).
Proof.
  intros Ht H. cbn [parse_loop]. destruct tail as [|c tail]; cbn [app].
  - by apply wp_bind, wp_peek.
  - apply wp_bind, wp_peek; [done|]. pose proof (Forall_inv Ht) as [Hc _]. cbn beta in Hc.
    rewrite (proj2 (Z.eqb_neq c 0)) by done. apply wp_bind.
    unfold parse_node. apply wp_andthen. unfold open_tag.
    change (c :: tail ++ [0]) with ((c :: tail) ++ [0]). apply wp_bind, wp_skip_at; [done|done|by left|].
    rewrite app_assoc. apply wp_bind, wp_peek; [done|]. apply wp_ret. cbn beta iota. apply wp_ret.
    by rewrite <- app_assoc.
Qed.

Lemma elem_text_head e : elem_ok e -> exists c t, elem_text e = c :: t /\ c <> 0.
Proof.
  intros (Hws & _). unfold elem_text. destruct (e_indent e) as [|c ws]; [by eexists _, _|].
  pose proof (Forall_inv Hws) as [Hc _]. by eexists _, _.
Qed.

Lemma no_nul_elem (e : elem) : elem_ok e -> no_nul (elem_text e).
Proof.
  intros (Hws & [Hn _] & _ & Ha & _ & Hc & _). pose proof (all_chars_no_nul _ _ Hn) as Hn'.
  unfold elem_text, tag_rest, end_token. rewrite no_nul_app, no_nul_cons, !no_nul_app.
  split_and!; [by eapply all_chars_no_nul|done|done| |by destruct (e_simple e); repeat constructor|].
  - pose proof (all_chars_no_nul _ _ (attrs_text_chars _ Ha)). destruct (e_attrs e); [constructor|].
    by rewrite no_nul_cons.
  - destruct (e_simple e); [constructor|]. rewrite !no_nul_app. split_and!; try done; by repeat constructor.
Qed.

Lemma no_nul_elems es tail : Forall elem_ok es -> no_nul tail -> no_nul (elems_text es tail).
Proof.
  intros Hes Ht. unfold elems_text. apply no_nul_app. split; [|done].
  induction Hes as [|e es Hok _ IH]; [constructor|]. cbn [fmap list_fmap]. rewrite join_cons.
  apply no_nul_app. split; [by apply no_nul_elem|done].
Qed.

Lemma wp_parse_elems sk T handlers es fs tail fuel b pre w :
  Forall2 (elem_runs sk T handlers) es fs -> all_chars blank tail -> inv sk (buf_set b [] w) ->
  (length es < fuel)%nat ->
  wp (parse_loop fuel T handlers b (length pre))
     (fun r w' => r = 0 /\ user w' = run_all fs (user w) /\ inv sk w' /\
        exists l, blocks w' = <[b := l]> (blocks w)) (buf_set b (pre ++ elems_text es tail ++ [0]) w).
Proof.
  intros Hes Htail. revert fuel pre w. unfold elems_text.
  induction Hes as [|e f es fs He Hes IH]; intros fuel pre w Hinv Hf; destruct fuel as [|fuel]; cbn [length] in Hf; try lia.
  - cbn [fmap list_fmap mjoin list_join app]. apply wp_parse_end; [done|].
    split_and!; [done..| |by eexists]. by eapply inv_buf_set.
  - cbn [fmap list_fmap]. rewrite join_cons, <- !app_assoc. pose proof He as [Hok _].
    destruct (elem_text_head e Hok) as (c & t & Et & Hc). cbn [parse_loop].
    rewrite Et. cbn [app]. apply wp_bind, wp_peek; [done|]. rewrite (proj2 (Z.eqb_neq c 0)) by done.
    change (c :: t ++ mjoin (elem_text <$> es) ++ tail ++ [0]) with ((c :: t) ++ mjoin (elem_text <$> es) ++ tail ++ [0]).
    rewrite <- Et, (app_assoc (mjoin _)). apply wp_bind.
    assert (Hrest : no_nul (mjoin (elem_text <$> es) ++ tail)).
    { apply no_nul_elems; [|by eapply all_chars_no_nul]. clear -Hes. by induction Hes as [|e f es fs [? _]]; constructor. }
    eapply wp_mono; [by apply elem_runs_node|].
    intros r w' (pre' & -> & _ & Hu & Hi & Hb). cbn beta iota.
    assert (Ew : w' = buf_set b (pre' ++ (mjoin (elem_text <$> es) ++ tail) ++ [0]) w').
    { symmetry. apply buf_set_id. rewrite Hb. apply lookup_insert_eq. }
    rewrite Ew. eapply wp_mono; [apply IH; [by rewrite Ew in Hi; eapply inv_buf_set|lia]|].
    intros r w'' (-> & Hu' & Hi' & l & Hb'). split_and!; try done.
    + cbn [run_all foldl]. by rewrite Hu', Hu.
    + exists l. by rewrite Hb', Hb, insert_insert_eq.
Qed.

Context (malloc_ok : nat -> bool).

(** The copy is released, and nothing else changes among the blocks. *)
Lemma wp_XMLParse_copy sk T handlers text F w :
  (forall n, malloc_ok n = true) -> inv sk w ->
  (forall b w1, user w1 = user w -> tables w1 = tables w -> inv sk (buf_set b [] w1) ->
     wp (parse_loop (S (length text)) T handlers b 0)
        (fun r w' => r = 0 /\ user w' = F (user w) /\ inv sk w' /\ exists l, blocks w' = <[b := l]> (blocks w1))
        (buf_set b (text ++ [0]) w1)) ->
  wp (XMLParse malloc_ok T handlers text)
     (fun r w' => r = 0 /\ user w' = F (user w) /\ inv sk w' /\ blocks w' = blocks w) w.
Proof.
  intros Hm [Hfresh Hskel] H. unfold XMLParse. apply wp_bind. unfold try_malloc, wp at 1. rewrite Hm. cbn [negb].
  apply wp_bind. unfold new_block, wp at 1. cbn [blocks next_block allocs tables user].
  set (b := next_block w). set (w1 := mk_xml _ _ _ _ _ _ _).
  assert (Hnew : blocks w !! b = None).
  { apply eq_None_not_Some. intros Hb. specialize (Hfresh b Hb). unfold b in Hfresh. lia. }
  assert (Ew1 : w1 = buf_set b (text ++ [0]) w1) by (symmetry; apply buf_set_id, lookup_insert_eq).
  assert (Hinv1 : inv sk w1).
  { split; [|exact Hskel]. intros b' Hb'. cbn in *. destruct (decide (b' = b)) as [->|]; [lia|].
    rewrite lookup_insert_ne in Hb' by done. specialize (Hfresh b' Hb'). unfold b in *. lia. }
  apply wp_bind. rewrite Ew1. eapply wp_mono; [apply H; [done|done|]; rewrite Ew1 in Hinv1; by eapply inv_buf_set|].
  intros r w' (-> & Hu & [Hf' Hs'] & l & Hb). unfold free_block. apply wp_bind, wp_bind.
  unfold load, wp at 1. rewrite Hb, lookup_insert_eq. apply wp_modify, wp_ret. split_and!; [done|exact Hu| |].
  - split; [|exact Hs']. intros b' Hb'. apply Hf'. cbn in Hb'.
    destruct (decide (b = b')) as [->|]; [by rewrite lookup_delete_eq in Hb'; destruct Hb'|]. by rewrite lookup_delete_ne in Hb'.
  - cbn. rewrite Hb. cbn. rewrite insert_insert_eq, delete_insert_eq. by apply delete_id.
Qed.

(** The parser on a sequence of nodes. *)
Lemma wp_XMLParse sk T handlers es fs tail w :
  (forall n, malloc_ok n = true) -> Forall2 (elem_runs sk T handlers) es fs -> all_chars blank tail -> inv sk w ->
  wp (XMLParse malloc_ok T handlers (elems_text es tail))
     (fun r w' => r = 0 /\ user w' = run_all fs (user w) /\ inv sk w' /\ blocks w' = blocks w) w.
Proof.
  intros Hm Hes Htail Hinv. apply wp_XMLParse_copy; [done|done|]. intros b w1 <- _ Hi1.
  apply (wp_parse_elems sk T handlers es fs tail _ b []); [done|done|done|].
  unfold elems_text. rewrite length_app. enough (length es <= length (mjoin (elem_text <$> es)))%nat by lia. clear.
  induction es as [|e es IH]; [done|]. cbn [fmap list_fmap length]. rewrite join_cons, length_app.
  unfold elem_text at 1. rewrite length_app. cbn [length]. lia.
Qed.

(** The parser on one node, whose missing attributes were never given. *)
Lemma wp_XMLParse_one sk T handlers n names used h e f tail w :
  (forall n, malloc_ok n = true) -> inv sk w -> elem_ok e -> all_chars blank tail ->
  find_name id (e_name e) (sk T).*1 = Some n -> sk T !! n = Some (e_name e, names) -> NoDup names -> used `prefix_of` names ->
  handlers n = Some h -> handles sk T n used h e f ->
  (forall j a, used !! j = Some a -> assoc a (e_attrs e) = None -> attr_at w T n j = None) ->
  wp (XMLParse malloc_ok T handlers (elem_text e ++ tail))
     (fun r w' => r = 0 /\ user w' = f (user w) /\ inv sk w' /\ blocks w' = blocks w) w.
Proof.
  intros Hm Hinv Hok Htail Hfind Hsk Hnd Hused Hh Hhandles Hnull. apply wp_XMLParse_copy; [done|done|].
  intros b w1 Hu1 Ht1 Hi1. rewrite <- app_assoc. destruct (elem_text_head e Hok) as (c & t & Et & Hc). cbn [parse_loop].
  assert (E : elem_text e ++ tail ++ [0] = [] ++ c :: t ++ tail ++ [0]) by (by rewrite Et).
  rewrite E. apply wp_bind, (wp_peek b []); [done|]. rewrite (proj2 (Z.eqb_neq c 0)) by done. rewrite <- E. apply wp_bind.
  eapply wp_mono; [eapply (wp_parse_node sk T handlers n names used h b []); try done|].
  - by eapply all_chars_no_nul.
  - intros j a Hj Ha. unfold attr_at. rewrite Ht1. by apply (Hnull j a).
  - intros r w' (pre' & -> & Hl & Hu & Hi & Hb). cbn beta iota.
    assert (Ew : w' = buf_set b (pre' ++ tail ++ [0]) w') by (symmetry; apply buf_set_id; rewrite Hb; apply lookup_insert_eq).
    rewrite Ew. destruct (length (elem_text e ++ tail)) as [|k] eqn:Ek; [by rewrite length_app, Et in Ek|].
    apply wp_parse_end; [done|]. rewrite <- Ew. split_and!; [done|by rewrite Hu, Hu1|done|by eexists].
Qed.
End rules.

(** ** Termination

A computation that ends: it returns or faults, but never runs out of fuel, and
it keeps the sizes of the blocks it did not allocate itself. *)

Section ends.
Context {table info : Type} `{EqDecision table} (malloc_ok : nat -> bool).
Notation xml := (xml table info).
Implicit Types w : xml.

Definition fresh_above w : Prop := forall b, is_Some (blocks w !! b) -> (b < next_block w)%positive.

Definition sizes_kept w w' : Prop :=
  forall b l, blocks w !! b = Some l -> exists l', blocks w' !! b = Some l' /\ length l' = length l.

Definition ends {A} (m : st xml A) (Q : A -> xml -> Prop) w : Prop :=
  match m w with
  | Ok (a, w') => fresh_above w' /\ sizes_kept w w' /\ Q a w'
  | Err f => f <> OutOfFuel
  end.

(** A computation that does not change the state. *)
Definition reads {A} (m : st xml A) : Prop := forall w, match m w with Ok (_, w') => w' = w | Err f => f <> OutOfFuel end.

Lemma sizes_kept_refl w : sizes_kept w w.
Proof. intros b l H. eauto. Qed.

Lemma sizes_kept_trans w w1 w2 : sizes_kept w w1 -> sizes_kept w1 w2 -> sizes_kept w w2.
Proof. intros H1 H2 b l H. destruct (H1 b l H) as (l1 & H1' & E1). destruct (H2 b l1 H1') as (l2 & ? & E2). exists l2. split; [done|congruence]. Qed.

Lemma ends_ret {A} (a : A) (Q : A -> xml -> Prop) w : fresh_above w -> Q a w -> ends (mret a) Q w.
Proof. intros ? ?. split_and!; [done|apply sizes_kept_refl|done]. Qed.

Lemma ends_bind {A B} (m : st xml A) (k : A -> st xml B) Q w :
  ends m (fun a w' => ends (k a) Q w') w -> ends (m ≫= k) Q w.
Proof.
  unfold ends, mbind, st_bind. destruct (m w) as [[a w1]|]; [|done]. intros (_ & Hs & H).
  destruct (k a w1) as [[c w2]|]; [|done]. destruct H as (? & ? & ?). split_and!; [done|by eapply sizes_kept_trans|done].
Qed.

Lemma ends_mono {A} (m : st xml A) (Q Q' : A -> xml -> Prop) w :
  ends m Q w -> (forall a w', sizes_kept w w' -> fresh_above w' -> Q a w' -> Q' a w') -> ends m Q' w.
Proof. unfold ends. destruct (m w) as [[a w1]|]; [|done]. intros (Hf & Hs & Hq) H. split_and!; try done. by apply H. Qed.

Lemma ends_andthen {A B} (m : st xml (Z + A)) (k : A -> st xml (Z + B)) Q w :
  ends m (fun x w' => match x with inl code => fresh_above w' -> Q (inl code) w' | inr a => fresh_above w' -> ends (k a) Q w' end) w ->
  ends (andthen m k) Q w.
Proof.
  intros H. apply ends_bind. eapply ends_mono; [exact H|]. intros [code|a] w' _ Hf H'; [|by apply H'].
  by apply ends_ret; [|apply H'].
Qed.

Lemma ends_reads {A B} (m : st xml A) (k : A -> st xml B) Q w :
  reads m -> fresh_above w -> (forall a, m w = Ok (a, w) -> ends (k a) Q w) -> ends (m ≫= k) Q w.
Proof.
  intros Hr Hf H. apply ends_bind. specialize (Hr w). unfold ends. destruct (m w) as [[a w']|] eqn:E; [|done]. subst w'.
  split_and!; [done|apply sizes_kept_refl|by apply H].
Qed.

Lemma scan_fuel p l : scan p l <> Err OutOfFuel.
Proof. induction l as [|c l IH]; cbn; [done|]. case_match; [done|]. by destruct (scan p l) as [|[]]. Qed.

Lemma read_cstr_fuel l : read_cstr l <> Err OutOfFuel.
Proof. induction l as [|c l IH]; cbn; [done|]. case_match; [done|]. by destruct (read_cstr l) as [|[]]. Qed.

Lemma reads_load b : reads (load b).
Proof. intros w. unfold load. by destruct (blocks w !! b). Qed.

Lemma reads_bind {A B} (m : st xml A) (k : A -> st xml B) : reads m -> (forall a, reads (k a)) -> reads (m ≫= k).
Proof. intros H1 H2 w. unfold mbind, st_bind. specialize (H1 w). destruct (m w) as [[a w']|]; [subst; apply H2|done]. Qed.

Lemma reads_lift {A} (m : res A) : m <> Err OutOfFuel -> reads (lift m).
Proof. intros H w. unfold lift. destruct m; [done|]. congruence. Qed.

Lemma reads_ret {A} (a : A) : reads (mret a).
Proof. done. Qed.

Lemma reads_peek b pos : reads (peek b pos).
Proof. apply reads_bind; [apply reads_load|]. intros l. apply reads_lift. by destruct (l !! pos). Qed.

Lemma reads_scan_at p b pos : reads (scan_at p b pos).
Proof.
  apply reads_bind; [apply reads_load|]. intros l. apply reads_bind; [apply reads_lift, scan_fuel|]. intros n. apply reads_ret.
Qed.

Lemma reads_skip_at b pos : reads (skip_at b pos).
Proof.
  apply reads_bind; [apply reads_load|]. intros l. apply reads_lift. unfold SkipBlanks.
  pose proof (scan_fuel blank (drop pos l)). by destruct (scan blank (drop pos l)) as [|[]].
Qed.

Lemma reads_read_at p : reads (read_at p).
Proof. apply reads_bind; [apply reads_load|]. intros l. apply reads_lift, read_cstr_fuel. Qed.

Lemma reads_gets {A} (f : xml -> A) : reads (gets f).
Proof. done. Qed.

(** Positions only grow. *)
Lemma scan_at_le p b pos n w : scan_at p b pos w = Ok (n, w) -> (pos <= n)%nat.
Proof.
  unfold scan_at, mbind, st_bind, load, lift. destruct (blocks w !! b); [|done]. destruct (scan p (drop pos l)); [|done].
  intros [= <-]. lia.
Qed.

Lemma skip_at_le b pos n w : skip_at b pos w = Ok (n, w) -> (pos <= n)%nat.
Proof.
  unfold skip_at, mbind, st_bind, load, lift, SkipBlanks. destruct (blocks w !! b); [|done].
  destruct (scan blank (drop pos l)); [|done]. intros [= <-]. lia.
Qed.

Lemma peek_lt b pos c w : peek b pos w = Ok (c, w) -> exists l, blocks w !! b = Some l /\ (pos < length l)%nat.
Proof.
  unfold peek, mbind, st_bind, load, lift. destruct (blocks w !! b) as [l|]; [|done].
  destruct (l !! pos) eqn:E; [|done]. intros _. exists l. split; [done|]. by eapply lookup_lt_Some.
Qed.

Lemma ends_store {A} b pos v (m : st xml A) Q w :
  fresh_above w -> (forall w', sizes_kept w w' -> fresh_above w' -> ends m Q w') -> ends (_ ← store b pos v; m) Q w.
Proof.
  intros Hf H. apply ends_bind. unfold ends, store, mbind, st_bind, load, lift, modify.
  destruct (blocks w !! b) as [l|] eqn:E; [|done]. destruct (pos <? length l)%nat; [|done]. cbn.
  assert (fresh_above (set_blocks (<[b := <[pos := v]> l]> (blocks w)) w)).
  { intros x Hx. apply Hf. cbn in Hx. destruct (decide (b = x)) as [->|]; [by rewrite E|]. by rewrite lookup_insert_ne in Hx. }
  assert (sizes_kept w (set_blocks (<[b := <[pos := v]> l]> (blocks w)) w)).
  { intros x k Hx. cbn. destruct (decide (b = x)) as [->|].
    - rewrite lookup_insert_eq. eexists. split; [done|]. rewrite length_insert. congruence.
    - rewrite lookup_insert_ne by done. eauto. }
  split_and!; try done. by apply H.
Qed.

Create HintDb xml_reads.
#[local] Hint Resolve reads_load reads_peek reads_scan_at reads_skip_at reads_read_at reads_gets : xml_reads.

(** One step that only reads. *)
Ltac read_step x E :=
  apply ends_reads; [by auto with xml_reads | assumption | intros x E].

Lemma sizes_same w w' b l l' : sizes_kept w w' -> blocks w !! b = Some l -> blocks w' !! b = Some l' -> length l' = length l.
Proof. intros Hs Hl Hl'. destruct (Hs b l Hl) as (k & Hk & E). congruence. Qed.

Lemma ends_attributes_loop fuel T n b pos w :
  fresh_above w -> (1 <= fuel)%nat -> (forall l, blocks w !! b = Some l -> (pos < length l)%nat -> (length l < fuel + pos)%nat) ->
  ends (attributes_loop fuel T n b pos) (fun r _ => match r with inr pos' => (pos <= pos')%nat | inl _ => True end) w.
Proof.
  revert pos w. induction fuel as [|fuel IH]; intros pos w Hf Hfuel Hlen; [lia|]. cbn [attributes_loop].
  read_step c E1. destruct (peek_lt _ _ _ _ E1) as (l & Hl & Hpos). specialize (Hlen l Hl Hpos).
  destruct (negb (isalpha c)); [by apply ends_ret|].
  read_step pos1 E2. apply scan_at_le in E2. read_step c2 E3. destruct (negb (c2 =? EQUAL)); [by apply ends_ret|].
  apply ends_store; [done|]. intros w1 Hs1 Hf1. read_step name E4. read_step nds E5. cbv zeta.
  read_step c3 E6. destruct (negb (c3 =? QUOTE)); [by apply ends_ret|].
  read_step pos2 E7. apply scan_at_le in E7. read_step c4 E8. destruct (negb (c4 =? QUOTE)); [by apply ends_ret|].
  apply ends_store; [done|]. intros w2 Hs2 Hf2.
  assert (Hloop : forall w3, blocks w3 = blocks w2 -> fresh_above w3 ->
    ends (pos ← skip_at b (S pos2); attributes_loop fuel T n b pos) (fun r _ => match r with inr pos' => (pos <= pos')%nat | inl _ => True end) w3).
  { intros w3 Hb3 Hf3. read_step pos3 E9. apply skip_at_le in E9. eapply ends_mono; [apply IH; [done|lia|]|].
    - intros l3 Hl3 _. rewrite Hb3 in Hl3. rewrite (sizes_same w w2 b l l3); [lia|by eapply sizes_kept_trans|done|done].
    - intros [|pos'] w' _ _; [done|]. lia. }
  match goal with |- context [match ?o with Some _ => _ | None => _ end] => destruct o as [a|] end.
  - apply ends_bind. unfold ends at 1, modify. split_and!; [done|intros x k Hx; by exists k|]. by apply Hloop.
  - apply ends_bind, ends_ret; [done|]. by apply Hloop.
Qed.

Lemma ends_open_tag b pos w :
  fresh_above w ->
  ends (open_tag b pos) (fun r _ => match r with inr (_, pos', _) => (pos + 2 <= pos')%nat | inl _ => True end) w.
Proof.
  intros Hf. unfold open_tag. read_step pos0 E0. apply skip_at_le in E0. read_step c E1.
  destruct (c =? 0); [by apply ends_ret|]. destruct (negb (c =? LT)); [by apply ends_ret|].
  read_step c1 E2. destruct (isalpha c1) eqn:Ea; cbn [negb]; [|by apply ends_ret].
  apply ends_reads; [by auto with xml_reads|done|]. intros pos1 E3.
  assert (S (S pos0) <= pos1)%nat.
  { clear -E2 E3 Ea. unfold peek, scan_at, mbind, st_bind, load, lift in *. destruct (blocks w !! b) as [l|]; [|done].
    destruct (l !! S pos0) eqn:El; [|done]. injection E2 as ->. erewrite drop_S in E3 by done. cbn [scan] in E3.
    replace (c1 =? 0) with false in E3 by (unfold isalpha in Ea; lia). unfold name_char in E3 at 1. rewrite Ea in E3. cbn in E3.
    destruct (scan name_char (drop (S (S pos0)) l)); [|done]. injection E3 as <-. lia. }
  read_step c2 E4. destruct (c2 =? 0); [by apply ends_ret|]. destruct (c2 =? SLASH).
  - apply ends_store; [done|]. intros w1 Hs1 Hf1. read_step c3 E5. destruct (negb (c3 =? GT)); [by apply ends_ret|].
    apply ends_store; [done|]. intros w2 Hs2 Hf2. apply ends_ret; [done|]. lia.
  - destruct (c2 =? SPACE).
    + apply ends_store; [done|]. intros w1 Hs1 Hf1. apply ends_ret; [done|]. lia.
    + destruct (c2 =? GT); [|by apply ends_ret]. apply ends_store; [done|]. intros w1 Hs1 Hf1. apply ends_ret; [done|]. lia.
Qed.

Lemma ends_known_tag T n b pos simple w :
  fresh_above w -> ends (known_tag T n b pos simple) (fun r _ => match r with inr (pos', _) => (pos <= pos')%nat | inl _ => True end) w.
Proof.
  intros Hf. unfold known_tag. read_step c E1. destruct (c =? 0); [apply ends_ret; [done|lia]|].
  read_step pos1 E2. apply skip_at_le in E2. apply ends_reads; [by auto with xml_reads|done|]. intros l El.
  assert (blocks w !! b = Some l) as Hl by (unfold load in El; destruct (blocks w !! b); [by injection El as ->|done]).
  apply ends_andthen. eapply ends_mono; [apply ends_attributes_loop; [done|lia|]|].
  - intros l' Hl' _. assert (l' = l) as -> by congruence. lia.
  - intros [code|pos2] w' _ _ Hp; [done|]. intros Hf'. read_step c1 E3.
    set (pos3 := if c1 =? SLASH then S pos2 else pos2). assert (pos2 <= pos3)%nat by (unfold pos3; case_match; lia).
    read_step c2 E4. destruct (c2 =? GT); apply ends_ret; done || lia.
Qed.

Lemma ends_unknown_tag b pos simple w :
  fresh_above w -> ends (unknown_tag b pos simple) (fun r _ => match r with inr (pos', _) => (pos <= pos')%nat | inl _ => True end) w.
Proof.
  intros Hf. unfold unknown_tag. read_step c E1. apply ends_bind.
  eapply (ends_mono _ (fun pos' _ => (pos <= pos')%nat)).
  - destruct (c =? 0); [apply ends_ret; [done|lia]|]. read_step pos1 E2. apply scan_at_le in E2. read_step c1 E3.
    apply ends_ret; [done|]. case_match; lia.
  - intros pos' w' _ Hf' Hp. read_step c1 E3. case_match; by apply ends_ret.
Qed.

(** A handler that ends on every text. *)
Definition handler_ends (h : char_ptr -> st xml Z) : Prop := forall p w, fresh_above w -> ends (h p) (fun _ _ => True) w.

Lemma ends_call_handler (h : option (char_ptr -> st xml Z)) b pos w :
  (forall p, h = Some p -> handler_ends p) -> fresh_above w -> ends (call_handler h b pos) (fun _ _ => True) w.
Proof.
  intros Hh Hf. destruct h as [p|]; [|by apply ends_ret]. apply ends_bind. eapply ends_mono; [by apply Hh|].
  intros r w' _ Hf' _. case_match; by apply ends_ret.
Qed.

Lemma ends_node_content (h : option (char_ptr -> st xml Z)) tagName b pos simple w :
  (forall p, h = Some p -> handler_ends p) -> fresh_above w ->
  ends (node_content h tagName b pos simple) (fun r _ => match r with inr pos' => (pos <= pos')%nat | inl _ => True end) w.
Proof.
  intros Hh Hf. unfold node_content. destruct simple.
  - apply ends_andthen. eapply ends_mono; [by apply ends_call_handler|]. intros [code|[]] w' _ _ _ Hf'; [done|by apply ends_ret].
  - read_step name E1. apply ends_reads; [apply reads_lift; by destruct (_ <=? _)%nat|done|]. intros _ _.
    read_step rest E2. destruct (strstr (end_token name) rest) as [i|]; [|by apply ends_ret].
    apply ends_store; [done|]. intros w1 _ Hf1. apply ends_andthen. eapply ends_mono; [by apply ends_call_handler|].
    intros [code|[]] w' _ _ _ Hf'; [done|]. apply ends_ret; [done|]. lia.
Qed.

Lemma ends_parse_node T handlers b pos w :
  (forall i p, handlers i = Some p -> handler_ends p) -> fresh_above w ->
  ends (parse_node T handlers b pos) (fun r _ => match r with inr pos' => (pos + 2 <= pos')%nat | inl _ => True end) w.
Proof.
  intros Hh Hf. unfold parse_node. apply ends_andthen. eapply ends_mono; [by apply ends_open_tag|].
  intros [code|[[tagName pos1] simple]] w1 _ _ Hp1; [done|]. intros Hf1.
  read_step name E1. case_bool_decide; [by apply ends_ret|]. read_step nds E2. cbv zeta. apply ends_andthen.
  eapply (ends_mono _ (fun r _ => match r with inr (pos', _) => (pos1 <= pos')%nat | inl _ => True end)).
  { case_match; [by apply ends_known_tag|by apply ends_unknown_tag]. }
  intros [code|[pos2 simple2]] w2 _ _ Hp2; [done|]. intros Hf2. eapply ends_mono; [apply ends_node_content; [|done]|].
  - intros p Hp. destruct (findNode name nds); [|done]. by eapply Hh.
  - intros [code|pos3] w3 _ _ Hp3; [done|]. lia.
Qed.

Lemma ends_parse_loop fuel T handlers b pos w :
  (forall i p, handlers i = Some p -> handler_ends p) -> fresh_above w ->
  (1 <= fuel)%nat -> (forall l, blocks w !! b = Some l -> (pos < length l)%nat -> (length l + 2 <= 2 * fuel + pos)%nat) ->
  ends (parse_loop fuel T handlers b pos) (fun _ _ => True) w.
Proof.
  intros Hh. revert pos w. induction fuel as [|fuel IH]; intros pos w Hf Hfuel Hlen; [lia|]. cbn [parse_loop].
  read_step c E1. destruct (peek_lt _ _ _ _ E1) as (l & Hl & Hpos). specialize (Hlen l Hl Hpos).
  destruct (c =? 0); [by apply ends_ret|]. apply ends_bind. eapply ends_mono; [by apply ends_parse_node|].
  intros [code|pos'] w' Hs Hf' Hp; [by apply ends_ret|]. apply IH; [done|lia|].
  intros l' Hl' _. rewrite (sizes_same w w' b l l'); [lia|done|done|done].
Qed.

(** [XMLParse] ends whenever its handlers do. *)
Lemma ends_XMLParse T handlers str w :
  (forall i p, handlers i = Some p -> handler_ends p) -> fresh_above w ->
  ends (XMLParse malloc_ok T handlers str) (fun _ _ => True) w.
Proof.
  intros Hh Hf. unfold XMLParse. apply ends_bind. unfold try_malloc, ends at 1.
  split_and!; [done|intros x k Hx; by exists k|]. destruct (malloc_ok (allocs w)); cbn [negb]; [|by apply ends_ret].
  set (w0 := mk_xml _ _ _ _ _ _ _). unfold ends, mbind, st_bind, new_block.
  set (b := next_block w0). set (w1 := mk_xml _ _ _ _ _ _ _).
  assert (Hnew : blocks w !! b = None).
  { apply eq_None_not_Some. intros Hb. specialize (Hf b Hb). unfold b, w0 in Hf. cbn in Hf. lia. }
  assert (Hf1 : fresh_above w1).
  { intros x Hx. cbn in *. destruct (decide (b = x)) as [<-|]; [unfold b; cbn; lia|].
    rewrite lookup_insert_ne in Hx by done. specialize (Hf x Hx). lia. }
  assert (Hend : ends (parse_loop (S (length str)) T handlers b 0) (fun _ _ => True) w1).
  { destruct str as [|c s].
    - unfold ends. cbn. unfold peek, mbind, st_bind, load. cbn. rewrite lookup_insert_eq. cbn.
      split_and!; [done|apply sizes_kept_refl|done].
    - apply ends_parse_loop; [done|done|lia|]. intros l Hl _. unfold w1 in Hl. cbn in Hl. rewrite lookup_insert_eq in Hl.
      injection Hl as <-. cbn. rewrite length_app. cbn. lia. }
  unfold ends in Hend. destruct (parse_loop _ _ _ _ _ w1) as [[code w2]|]; [|done]. destruct Hend as (Hf2 & Hs2 & _).
  unfold free_block, mbind, st_bind, load. destruct (blocks w2 !! b) as [lb|] eqn:Eb; [|done]. cbn. split_and!; [| |done].
  - intros x Hx. cbn in *. apply Hf2. destruct (decide (b = x)) as [<-|]; [by exists lb|]. by rewrite lookup_delete_ne in Hx.
  - intros x k Hx. cbn in *. assert (x <> b) by (intros E; rewrite E in Hx; unfold b in Hx, Hnew; cbn in Hx, Hnew; congruence). rewrite lookup_delete_ne by done.
    apply Hs2. cbn. by rewrite lookup_insert_ne.
Qed.
End ends.
