(* ===== verification/XmlTun.v ===== *)
(** * The messages of a TSP server ([gogoc-tsp/src/xml/xml_tun.c])

The description of a tunnel, or of a redirection, is a nest of XML nodes.
Each level has a table of the nodes it knows, and each node a handler, which
parses the next level or stores a value in the structure [tTunnel]; six global
flags say which nodes are open.  This file models the tables, the handlers,
the entry point [tspXMLParse] and the release of the structure. *)

From Stdlib Require Import ZifyNat.
From stdpp Require Import base gmap list numbers strings countable.
From S2P Require Import Prelude Words CString XmlParse.

(** ** Data *)

Inductive table := Root | Tunnel | Server | Client | Router | DNSServer | Broker | Keepalive.

#[export] Instance table_eq_dec : EqDecision table.
Proof. solve_decision. Defined.

(** The fields of [tTunnel] that are strings, and those that are lists. *)
Inductive field :=
| action | type | lifetime | proxy | mtu | client_address_ipv4 | client_address_ipv6
| client_dns_server_address_ipv6 | client_dns_name | server_address_ipv4 | server_address_ipv6
| router_protocol | prefix_length | prefix | client_as | server_as | keepalive_interval | keepalive_address.

Inductive list_field :=
| dns_server_address_ipv4 | dns_server_address_ipv6 | broker_address_ipv4 | broker_address_ipv6
| broker_redirect_ipv4 | broker_redirect_ipv6 | broker_redirect_dn.

#[export] Instance field_eq_dec : EqDecision field.
Proof. solve_decision. Defined.
#[export] Instance list_field_eq_dec : EqDecision list_field.
Proof. solve_decision. Defined.

(** A string pointer that is not null: [Freed] once the string was released. *)
Inductive cell := Live (s : list Z) | Freed.

(** The structure, the flags and the number of blocks that it owns. *)
Record tunnel := mk_tunnel {
  fields : field -> option cell;
  lists : list_field -> list (option (list Z));
  in_client : bool;
  in_server : bool;
  in_router : bool;
  in_dns_server : bool;
  in_broker : bool;
  in_keepalive : bool;
  owned : Z;
}.

(** The structure after [memset], outside every node. *)
Definition tunnel0 : tunnel :=
  mk_tunnel (fun _ => None) (fun _ => []) false false false false false false 0.

Definition NODE (name : list Z) (attrs : list (list Z)) : tNode :=
  mk_tNode name ((fun a => mk_tAttribute a None) <$> attrs).

(** The tables as they are declared. *)
Definition nodes (T : table) : list tNode :=
  match T with
  | Root => [NODE (str "tunnel") [str "action"; str "type"; str "lifetime"; str "proxy"; str "mtu"]]
  | Tunnel => [NODE (str "server") []; NODE (str "client") []; NODE (str "broker") []]
  | Server => [NODE (str "address") [str "type"]; NODE (str "router") [str "protocol"]]
  | Client => [NODE (str "address") [str "type"]; NODE (str "dns_server") [str "type"];
               NODE (str "router") [str "protocol"]; NODE (str "keepalive") [str "interval"]]
  | Router => [NODE (str "prefix") [str "length"]; NODE (str "dns_server") [str "type"]; NODE (str "as") [str "number"]]
  | DNSServer => [NODE (str "address") [str "type"]]
  | Broker => [NODE (str "address") [str "type"]]
  | Keepalive => [NODE (str "address") [str "type"]]
  end.

Definition set_field (f : field) (v : option cell) (t : tunnel) : tunnel :=
  mk_tunnel (fun g => if decide (g = f) then v else fields t g) (lists t) (in_client t) (in_server t) (in_router t)
    (in_dns_server t) (in_broker t) (in_keepalive t) (owned t).
Definition set_list (f : list_field) (v : list (option (list Z))) (t : tunnel) : tunnel :=
  mk_tunnel (fields t) (fun g => if decide (g = f) then v else lists t g) (in_client t) (in_server t) (in_router t)
    (in_dns_server t) (in_broker t) (in_keepalive t) (owned t).
Definition add_owned (n : Z) (t : tunnel) : tunnel :=
  mk_tunnel (fields t) (lists t) (in_client t) (in_server t) (in_router t) (in_dns_server t) (in_broker t)
    (in_keepalive t) (owned t + n).
Definition set_in_client (v : bool) (t : tunnel) : tunnel :=
  mk_tunnel (fields t) (lists t) v (in_server t) (in_router t) (in_dns_server t) (in_broker t) (in_keepalive t) (owned t).
Definition set_in_server (v : bool) (t : tunnel) : tunnel :=
  mk_tunnel (fields t) (lists t) (in_client t) v (in_router t) (in_dns_server t) (in_broker t) (in_keepalive t) (owned t).
Definition set_in_router (v : bool) (t : tunnel) : tunnel :=
  mk_tunnel (fields t) (lists t) (in_client t) (in_server t) v (in_dns_server t) (in_broker t) (in_keepalive t) (owned t).
Definition set_in_dns_server (v : bool) (t : tunnel) : tunnel :=
  mk_tunnel (fields t) (lists t) (in_client t) (in_server t) (in_router t) v (in_broker t) (in_keepalive t) (owned t).
Definition set_in_broker (v : bool) (t : tunnel) : tunnel :=
  mk_tunnel (fields t) (lists t) (in_client t) (in_server t) (in_router t) (in_dns_server t) v (in_keepalive t) (owned t).
Definition set_in_keepalive (v : bool) (t : tunnel) : tunnel :=
  mk_tunnel (fields t) (lists t) (in_client t) (in_server t) (in_router t) (in_dns_server t) (in_broker t) v (owned t).

(** ** The handlers *)

Section handlers.
Context (malloc_ok : nat -> bool).
Notation xml := (xml table tunnel).

Definition update (f : tunnel -> tunnel) : st xml unit := modify (fun w => set_user (f (user w)) w).

(** The text is turned to lower case where it is, then copied. *)
Definition Assign (p : option char_ptr) (toStr : field) : st xml Z :=
  match p with
  | None => mret 0
  | Some (b, off) =>
    s ← read_at (b, off);
    let s := tolower <$> s in
    l ← load b;
    _ ← modify (fun w => set_blocks (<[b := blit off s l]> (blocks w)) w);
    ok ← try_malloc malloc_ok;
    if negb ok then _ ← update (set_field toStr None); mret (-1) else
    _ ← update (fun t => add_owned 1 (set_field toStr (Some (Live s)) t));
    mret 0
  end.

Definition AssignToList (p : char_ptr) (toList : list_field) : st xml Z :=
  ok ← try_malloc malloc_ok;
  if negb ok then mret (-1) else
  s ← read_at p;
  ok ← try_malloc malloc_ok;
  if negb ok then mret (-1) else
  _ ← update (fun t => add_owned 2 (set_list toList (Some s :: lists t toList) t));
  mret 0.

(** [n->attributes[k].value] for node [n] of table [T]. *)
Definition attribute (T : table) (n k : nat) : st xml (option char_ptr) :=
  gets (fun w => nd ← tables w T !! n; a ← nd_attributes nd !! k; at_value a).

(** The first operand of [strcmp (n->attributes[0].value, ...)]. *)
Definition compared (T : table) (n : nat) : st xml (list Z) :=
  v ← attribute T n 0;
  p ← lift (Prelude.from_option NullDeref v);
  read_at p.

Definition ignore {A} (m : st xml A) : st xml unit := _ ← m; mret tt.

Definition p_address (T : table) (n : nat) : processNode := fun content =>
  t ← gets user;
  _ ← (if in_client t then
         if in_keepalive t then
           ty ← compared T n;
           if bool_decide (ty = str "ipv6") || bool_decide (ty = str "ipv4")
           then ignore (Assign (Some content) keepalive_address) else mret tt
         else if in_router t then
           if in_dns_server t then
             ty ← compared T n;
             if bool_decide (ty = str "ipv4") then ignore (AssignToList content dns_server_address_ipv4)
             else if bool_decide (ty = str "ipv6") then ignore (AssignToList content dns_server_address_ipv6)
             else mret tt
           else mret tt
         else if in_dns_server t then
           ty ← compared T n;
           if bool_decide (ty = str "ipv6") then ignore (Assign (Some content) client_dns_server_address_ipv6)
           else mret tt
         else
           ty ← compared T n;
           if bool_decide (ty = str "ipv4") then ignore (Assign (Some content) client_address_ipv4)
           else if bool_decide (ty = str "ipv6") then ignore (Assign (Some content) client_address_ipv6)
           else if bool_decide (ty = str "dn") then ignore (Assign (Some content) client_dns_name)
           else mret tt
       else if in_server t then
         ty ← compared T n;
         if bool_decide (ty = str "ipv4") then ignore (Assign (Some content) server_address_ipv4)
         else if bool_decide (ty = str "ipv6") then ignore (Assign (Some content) server_address_ipv6)
         else mret tt
       else if in_broker t then
         ty ← compared T n;
         if bool_decide (ty = str "ipv4") then ignore (AssignToList content broker_redirect_ipv4)
         else if bool_decide (ty = str "ipv6") then ignore (AssignToList content broker_redirect_ipv6)
         else if bool_decide (ty = str "dn") then ignore (AssignToList content broker_redirect_dn)
         else mret tt
       else mret tt);
  mret 0.

Definition p_prefix (T : table) (n : nat) : processNode := fun content =>
  v ← attribute T n 0;
  _ ← Assign v prefix_length;
  _ ← Assign (Some content) prefix;
  mret 0.

Definition p_as (T : table) (n : nat) : processNode := fun content =>
  t ← gets user;
  v ← attribute T n 0;
  _ ← (if in_client t then ignore (Assign v client_as)
       else if in_server t then ignore (Assign v server_as) else mret tt);
  mret 0.

(** [XMLParse (content, T)]. *)
Definition parse_level (T : table) (handlers : list (nat -> processNode)) (content : char_ptr) : st xml Z :=
  s ← read_at content;
  XMLParse malloc_ok T (fun i => h ← handlers !! i; Some (h i)) s.

(** A handler that sets a flag while it parses the next level. *)
Definition flagged (set : bool -> tunnel -> tunnel) (m : st xml Z) : st xml Z :=
  _ ← update (set true);
  r ← m;
  _ ← update (set false);
  mret r.

Definition p_dns_server (T : table) (n : nat) : processNode := fun content =>
  flagged set_in_dns_server (parse_level DNSServer [p_address DNSServer] content).

Definition p_router (T : table) (n : nat) : processNode := fun content =>
  flagged set_in_router
    (v ← attribute T n 0;
     _ ← Assign v router_protocol;
     parse_level Router [p_prefix Router; p_dns_server Router; p_as Router] content).

Definition p_keepalive (T : table) (n : nat) : processNode := fun content =>
  v ← attribute T n 0;
  _ ← Assign v keepalive_interval;
  flagged set_in_keepalive (parse_level Keepalive [p_address Keepalive] content).

Definition p_server (T : table) (n : nat) : processNode := fun content =>
  flagged set_in_server (parse_level Server [p_address Server; p_router Server] content).

Definition p_broker (T : table) (n : nat) : processNode := fun content =>
  flagged set_in_broker (parse_level Broker [p_address Broker] content).

Definition p_client (T : table) (n : nat) : processNode := fun content =>
  flagged set_in_client
    (parse_level Client [p_address Client; p_dns_server Client; p_router Client; p_keepalive Client] content).

Definition p_tunnel (T : table) (n : nat) : processNode := fun content =>
  v ← attribute T n 0; _ ← Assign v action;
  v ← attribute T n 1; _ ← Assign v type;
  v ← attribute T n 2; _ ← Assign v lifetime;
  v ← attribute T n 3; _ ← Assign v proxy;
  v ← attribute T n 4; _ ← Assign v mtu;
  parse_level Tunnel [p_server Tunnel; p_client Tunnel; p_broker Tunnel] content.

(** ** The structure *)

Definition tspFree (f : field) : st xml unit :=
  t ← gets user;
  match fields t f with
  | None => mret tt
  | Some Freed => lift (Err UseAfterFree)
  | Some (Live _) => update (fun t => add_owned (-1) (set_field f (Some Freed) t))
  end.

(** What [tspFreeLinkedList] releases of a list, besides its argument: every
    string and every node but the first. *)
Fixpoint freed_blocks (l : list (option (list Z))) : Z :=
  match l with
  | [] => 0
  | v :: l' => (match l' with [] => 0 | _ => freed_blocks l' + 1 end) + (if v then 1 else 0)
  end.

Definition tspFreeLinkedList (f : list_field) : st xml unit :=
  t ← gets user;
  match lists t f with
  | [] => mret tt
  | l => update (fun t => add_owned (- freed_blocks l) (set_list f [None] t))
  end.

Definition all_fields : list field :=
  [action; type; lifetime; proxy; mtu; client_address_ipv4; client_address_ipv6; client_dns_server_address_ipv6;
   client_dns_name; server_address_ipv4; server_address_ipv6; router_protocol; prefix_length; prefix; client_as;
   server_as; keepalive_interval; keepalive_address].

Definition freed_lists : list list_field :=
  [dns_server_address_ipv4; dns_server_address_ipv6; broker_address_ipv4; broker_redirect_ipv4; broker_redirect_ipv6;
   broker_redirect_dn].

Fixpoint each {A} (f : A -> st xml unit) (l : list A) : st xml unit :=
  match l with [] => mret tt | a :: l' => _ ← f a; each f l' end.

Definition tspClearTunnelInfo : st xml unit :=
  _ ← each tspFree all_fields;
  each tspFreeLinkedList freed_lists.

(** The flag of [<keepalive>] is not reset. *)
Definition reset_flags (t : tunnel) : tunnel :=
  set_in_broker false (set_in_dns_server false (set_in_router false (set_in_server false (set_in_client false t)))).

Definition tspXMLParse (Data : list Z) : st xml Z :=
  _ ← tspClearTunnelInfo;
  _ ← update reset_flags;
  XMLParse malloc_ok Root (fun i => h ← [p_tunnel Root] !! i; Some (h i)) Data.
End handlers.

(** The parser when the program starts. *)
Definition xml0 : xml table tunnel := mk_xml _ _ ∅ 1 0 nodes tunnel0.

(** ** What a message means

A message as a tree, and what it does to the structure, without buffers,
pointers or tables. *)

(** [text] is the content of a leaf, and the blanks before the end tag of an
    inner node. *)
Inductive node := Node (indent name : list Z) (attrs : list (list Z * list Z)) (simple : bool) (text : list Z) (kids : list node).

Fixpoint to_elem (n : node) : elem :=
  match n with
  | Node indent name attrs simple text kids =>
    mk_elem indent name attrs simple (elems_text (map to_elem kids) text)
  end.

Definition print (n : node) : list Z := elem_text (to_elem n).

Definition assign (f : field) (v : list Z) (t : tunnel) : tunnel := add_owned 1 (set_field f (Some (Live (tolower <$> v))) t).
Definition push (f : list_field) (v : list Z) (t : tunnel) : tunnel := add_owned 2 (set_list f (Some v :: lists t f) t).

(** The attribute [a], if it is given. *)
Definition assign_attr (a : list Z) (f : field) (attrs : list (list Z * list Z)) (t : tunnel) : tunnel :=
  match assoc a attrs with Some v => assign f v t | None => t end.

(** Where an address goes: the field or the list. *)
Definition address_slot (t : tunnel) (ty : list Z) : option (field + list_field) :=
  let isa s := bool_decide (ty = str s) in
  if in_client t then
    if in_keepalive t then (if isa "ipv6" || isa "ipv4" then Some (inl keepalive_address) else None)
    else if in_router t then
      if in_dns_server t then
        if isa "ipv4" then Some (inr dns_server_address_ipv4)
        else if isa "ipv6" then Some (inr dns_server_address_ipv6) else None
      else None
    else if in_dns_server t then (if isa "ipv6" then Some (inl client_dns_server_address_ipv6) else None)
    else if isa "ipv4" then Some (inl client_address_ipv4)
    else if isa "ipv6" then Some (inl client_address_ipv6)
    else if isa "dn" then Some (inl client_dns_name) else None
  else if in_server t then
    if isa "ipv4" then Some (inl server_address_ipv4)
    else if isa "ipv6" then Some (inl server_address_ipv6) else None
  else if in_broker t then
    if isa "ipv4" then Some (inr broker_redirect_ipv4)
    else if isa "ipv6" then Some (inr broker_redirect_ipv6)
    else if isa "dn" then Some (inr broker_redirect_dn) else None
  else None.

Definition address_meaning (ty s : list Z) (t : tunnel) : tunnel :=
  match address_slot t ty with
  | Some (inl f) => assign f s t
  | Some (inr f) => push f s t
  | None => t
  end.

(** The nodes that a table knows. *)
Inductive kind := KTunnel | KServer | KClient | KBroker | KAddress | KRouter | KDNSServer | KKeepalive | KPrefix | KAs.

Definition kinds (T : table) : list (list Z * kind) :=
  match T with
  | Root => [(str "tunnel", KTunnel)]
  | Tunnel => [(str "server", KServer); (str "client", KClient); (str "broker", KBroker)]
  | Server => [(str "address", KAddress); (str "router", KRouter)]
  | Client => [(str "address", KAddress); (str "dns_server", KDNSServer); (str "router", KRouter); (str "keepalive", KKeepalive)]
  | Router => [(str "prefix", KPrefix); (str "dns_server", KDNSServer); (str "as", KAs)]
  | DNSServer | Broker | Keepalive => [(str "address", KAddress)]
  end.

Definition kind_of (T : table) (name : list Z) : option kind :=
  i ← find_name fst name (kinds T); snd <$> kinds T !! i.

(** The table of the content of a node. *)
Definition subtable (k : kind) : option table :=
  match k with
  | KTunnel => Some Tunnel | KServer => Some Server | KClient => Some Client | KBroker => Some Broker
  | KRouter => Some Router | KDNSServer => Some DNSServer | KKeepalive => Some Keepalive
  | KAddress | KPrefix | KAs => None
  end.

(** What a node does to the structure, given what its content does. *)
Definition kind_meaning (k : kind) (attrs : list (list Z * list Z)) (text : list Z) (content : tunnel -> tunnel) (t : tunnel) : tunnel :=
  match k with
  | KTunnel =>
    content (assign_attr (str "mtu") mtu attrs (assign_attr (str "proxy") proxy attrs
      (assign_attr (str "lifetime") lifetime attrs (assign_attr (str "type") type attrs (assign_attr (str "action") action attrs t)))))
  | KServer => set_in_server false (content (set_in_server true t))
  | KClient => set_in_client false (content (set_in_client true t))
  | KBroker => set_in_broker false (content (set_in_broker true t))
  | KDNSServer => set_in_dns_server false (content (set_in_dns_server true t))
  | KRouter => set_in_router false (content (assign_attr (str "protocol") router_protocol attrs (set_in_router true t)))
  | KKeepalive => set_in_keepalive false (content (set_in_keepalive true (assign_attr (str "interval") keepalive_interval attrs t)))
  | KAddress => match assoc (str "type") attrs with Some ty => address_meaning ty text t | None => t end
  | KPrefix => assign prefix text (assign_attr (str "length") prefix_length attrs t)
  | KAs => if in_client t then assign_attr (str "number") client_as attrs t
           else if in_server t then assign_attr (str "number") server_as attrs t else t
  end.

Fixpoint meaning (T : table) (n : node) (t : tunnel) {struct n} : tunnel :=
  match n with
  | Node _ name attrs _ text kids =>
    match kind_of T name with
    | None => t
    | Some k =>
      kind_meaning k attrs text
        (fun t => match subtable k with Some T' => foldl (fun t kid => meaning T' kid t) t kids | None => t end) t
    end
  end.

(** Well-formed messages: every attribute that the handler of the node reads is
    given (those of [<tunnel>] may be missing); a leaf has no children, an inner
    node no text, and only [<as/>] is written without an end tag. *)
Definition attr_names (k : kind) : list (list Z) :=
  match k with
  | KTunnel => [str "action"; str "type"; str "lifetime"; str "proxy"; str "mtu"]
  | KServer | KClient | KBroker | KDNSServer => []
  | KAddress => [str "type"]
  | KRouter => [str "protocol"]
  | KKeepalive => [str "interval"]
  | KPrefix => [str "length"]
  | KAs => [str "number"]
  end.

Definition kind_simple (k : kind) : bool := match k with KAs => true | _ => false end.

Fixpoint node_ok (T : table) (n : node) {struct n} : Prop :=
  elem_ok (to_elem n) /\
  match n with
  | Node _ name attrs simple text kids =>
    match kind_of T name with
    | None => simple = true -> attrs = []
    | Some k =>
      (k <> KTunnel -> Forall (fun a => is_Some (assoc a attrs)) (attr_names k)) /\
      (simple = true -> kind_simple k = true) /\
      match subtable k with
      | None => kids = []
      | Some T' => all_chars blank text /\ (fix all ks := match ks with [] => True | kid :: ks => node_ok T' kid /\ all ks end) kids
      end
    end
  end.

(** ** The handlers do what the message means *)

Definition sk0 (T : table) : list (list Z * list (list Z)) := skel (nodes T).

(** Text of which some letters were turned to lower case. *)
Definition lowered : list Z -> list Z -> Prop := Forall2 (fun a b => b = a \/ b = tolower a).

Lemma tolower_idem c : tolower (tolower c) = tolower c.
Proof. unfold tolower. destruct ((65 <=? c) && (c <=? 90)) eqn:E; [|by rewrite E]. by replace ((65 <=? c + 32) && (c + 32 <=? 90)) with false by lia. Qed.

Lemma tolower_nul c : tolower c = 0 <-> c = 0.
Proof. unfold tolower. destruct ((65 <=? c) && (c <=? 90)) eqn:E; lia. Qed.

Lemma lowered_refl l : lowered l l.
Proof. apply Forall2_same_length_lookup_2; [done|]. intros i x y -> [= ->]. by left. Qed.

Lemma lowered_length l l' : lowered l l' -> length l' = length l.
Proof. induction 1; cbn; congruence. Qed.

Lemma lowered_app l l' k k' : lowered l l' -> lowered k k' -> lowered (l ++ k) (l' ++ k').
Proof. apply Forall2_app. Qed.

Lemma lowered_tolower l : lowered l (tolower <$> l).
Proof. induction l; constructor; auto. Qed.

Lemma lowered_trans l1 l2 l3 : lowered l1 l2 -> lowered l2 l3 -> lowered l1 l3.
Proof.
  intros H. revert l3. induction H as [|a b l l' Hab _ IH]; intros l3 H3; inversion H3 as [|? c ? l3' Hbc H3']; subst; constructor; [|by apply IH].
  destruct Hab as [-> | ->], Hbc as [-> | ->]; rewrite ?tolower_idem; auto.
Qed.

Lemma lowered_fmap l l' : lowered l l' -> tolower <$> l' = tolower <$> l.
Proof. induction 1 as [|a b l l' H _ IH]; [done|]. cbn. rewrite IH. destruct H as [-> | ->]; [done|]. by rewrite tolower_idem. Qed.

Lemma lowered_no_nul l l' : lowered l l' -> no_nul l -> no_nul l'.
Proof.
  induction 1 as [|a b l l' H _ IH]; intros Hl; [done|]. apply no_nul_cons in Hl as [Ha Hl]. apply no_nul_cons. split; [|by apply IH].
  destruct H as [-> | ->]; [done|]. by rewrite tolower_nul.
Qed.

(** A value that stands in the text still does, up to case. *)
Definition stands_ci (pre v : list Z) (off : nat) : Prop := exists v', stands pre v' off /\ no_nul v' /\ tolower <$> v' = tolower <$> v.

Lemma stands_ci_lowered pre pre' v off : lowered pre pre' -> stands_ci pre v off -> stands_ci pre' v off.
Proof.
  intros Hl (v' & (p1 & p2 & -> & ->) & Hn & Hv).
  apply Forall2_app_inv_l in Hl as (q1 & r & H1 & Hr & ->). apply Forall2_app_inv_l in Hr as (q2 & r' & H2 & Hr & ->).
  inversion Hr as [|? c ? q3 Hc H3]; subst. exists q2. split_and!.
  - exists q1, q3. split; [symmetry; by apply lowered_length|]. by destruct Hc as [-> | ->].
  - by eapply lowered_no_nul.
  - rewrite <- Hv. by apply lowered_fmap.
Qed.

Section meanings.
Context (malloc_ok : nat -> bool) (Hm : forall n, malloc_ok n = true).
Notation xml := (xml table tunnel).
Implicit Types w : xml.

Lemma wp_try_malloc (Q : bool -> xml -> Prop) w :
  Q true (mk_xml _ _ (blocks w) (next_block w) (S (allocs w)) (tables w) (user w)) -> wp (try_malloc malloc_ok) Q w.
Proof. unfold wp, try_malloc. by rewrite Hm. Qed.

Lemma wp_read_block b pre s tl pos w (Q : list Z -> xml -> Prop) :
  blocks w !! b = Some (pre ++ s ++ 0 :: tl) -> pos = length pre -> no_nul s -> Q s w -> wp (read_at (b, pos)) Q w.
Proof.
  intros Hb -> Hs H. rewrite <- (buf_set_id _ _ _ Hb). apply wp_read_at; [done|done|]. by rewrite (buf_set_id _ _ _ Hb).
Qed.

Lemma inv_insert w b l l' : inv sk0 w -> blocks w !! b = Some l -> inv sk0 (set_blocks (<[b := l']> (blocks w)) w).
Proof.
  intros [H1 H2] Hb. split; [|exact H2]. intros x Hx. apply H1. cbn in Hx.
  destruct (decide (b = x)) as [->|]; [by rewrite Hb|]. by rewrite lookup_insert_ne in Hx.
Qed.

Lemma blit_middle (pre s s' tl : list Z) : length s' = length s -> blit (length pre) s' (pre ++ s ++ tl) = pre ++ s' ++ tl.
Proof.
  intros H. unfold blit. rewrite take_app_length. f_equal. f_equal.
  rewrite app_assoc. apply drop_app_exact. rewrite length_app. lia.
Qed.

Lemma wp_Assign b pre s tl f w (Q : Z -> xml -> Prop) :
  inv sk0 w -> blocks w !! b = Some (pre ++ s ++ 0 :: tl) -> no_nul s ->
  (forall w', user w' = assign f s (user w) -> inv sk0 w' -> tables w' = tables w ->
     blocks w' = <[b := pre ++ (tolower <$> s) ++ 0 :: tl]> (blocks w) -> Q 0 w') ->
  wp (Assign malloc_ok (Some (b, length pre)) f) Q w.
Proof.
  intros Hinv Hb Hs H. unfold Assign. apply wp_bind. eapply wp_read_block; [done..|].
  apply wp_bind. unfold load, wp at 1. rewrite Hb. rewrite blit_middle by apply length_fmap.
  apply wp_bind, wp_modify, wp_bind, wp_try_malloc. cbn [negb]. apply wp_bind, wp_modify, wp_ret.
  apply H; try done. exact (inv_insert _ _ _ _ Hinv Hb).
Qed.

Lemma wp_AssignToList b pre s tl f w (Q : Z -> xml -> Prop) :
  inv sk0 w -> blocks w !! b = Some (pre ++ s ++ 0 :: tl) -> no_nul s ->
  (forall w', user w' = push f s (user w) -> inv sk0 w' -> blocks w' = blocks w -> Q 0 w') ->
  wp (AssignToList malloc_ok (b, length pre) f) Q w.
Proof.
  intros Hinv Hb Hs H. unfold AssignToList. apply wp_bind, wp_try_malloc. cbn [negb].
  apply wp_bind. eapply wp_read_block; [done..|].
  apply wp_bind, wp_try_malloc. cbn [negb]. apply wp_bind, wp_modify, wp_ret. by apply H.
Qed.

(** An attribute that is assigned: given, or null. *)
Lemma wp_Assign_attr T n k a attrs b pre rest f w (Q : Z -> xml -> Prop) :
  inv sk0 w -> blocks w !! b = Some (pre ++ rest) ->
  match assoc a attrs with
  | Some v => exists off, attr_at w T n k = Some (b, off) /\ stands_ci pre v off
  | None => attr_at w T n k = None
  end ->
  (forall pre' w', user w' = assign_attr a f attrs (user w) -> inv sk0 w' -> tables w' = tables w ->
     lowered pre pre' -> blocks w' = <[b := pre' ++ rest]> (blocks w) -> Q 0 w') ->
  wp (Assign malloc_ok (attr_at w T n k) f) Q w.
Proof.
  intros Hinv Hb Ha H. unfold assign_attr in H.
  destruct (assoc a attrs) as [v|].
  - destruct Ha as (off & -> & v' & (p1 & p2 & -> & ->) & Hn & Hv).
    rewrite <- !app_assoc in Hb. cbn [app] in Hb.
    eapply wp_Assign; [done|exact Hb|done|]. intros w' Hu Hi Ht Hbl.
    apply (H (p1 ++ (tolower <$> v') ++ 0 :: p2)); try done.
    + rewrite Hu. unfold assign. by rewrite Hv.
    + apply lowered_app; [apply lowered_refl|]. apply lowered_app; [apply lowered_tolower|apply lowered_refl].
    + rewrite Hbl. by repeat (rewrite <- app_assoc; cbn [app]).
  - rewrite Ha. apply wp_ret. apply (H pre); try done; [apply lowered_refl|]. by rewrite insert_id.
Qed.

(** What the handler of a leaf leaves: the text of the leaf, up to case. *)
Definition leaf_done (b : positive) (pre s tl : list Z) (t : tunnel) (w : xml) (u : unit) (w' : xml) : Prop :=
  user w' = t /\ inv sk0 w' /\ exists s', length s' = length s /\ blocks w' = <[b := pre ++ s' ++ 0 :: tl]> (blocks w).

Section leaf.
Context (b : positive) (pre s tl : list Z) (w : xml).
Context (Hinv : inv sk0 w) (Hb : blocks w !! b = Some (pre ++ s ++ 0 :: tl)) (Hs : no_nul s).

Lemma leaf_skip : leaf_done b pre s tl (user w) w tt w.
Proof. split_and!; [done..|]. exists s. split; [done|]. by rewrite insert_id. Qed.

Lemma leaf_assign f : wp (ignore (Assign malloc_ok (Some (b, length pre)) f)) (leaf_done b pre s tl (assign f s (user w)) w) w.
Proof.
  apply wp_bind. eapply wp_Assign; [done..|]. intros w' Hu Hi _ Hbl. apply wp_ret. split_and!; [done..|].
  exists (tolower <$> s). split; [apply length_fmap|done].
Qed.

Lemma leaf_push f : wp (ignore (AssignToList malloc_ok (b, length pre) f)) (leaf_done b pre s tl (push f s (user w)) w) w.
Proof.
  apply wp_bind. eapply wp_AssignToList; [done..|]. intros w' Hu Hi Hbl. apply wp_ret. split_and!; [done..|].
  exists s. split; [done|]. by rewrite Hbl, insert_id.
Qed.

Lemma wp_compared T n ty off (Q : list Z -> xml -> Prop) :
  attr_at w T n 0 = Some (b, off) -> stands pre ty off -> no_nul ty -> Q ty w -> wp (compared T n) Q w.
Proof.
  intros Ha (p1 & p2 & -> & Ep) Hn H. apply wp_bind, wp_gets. fold (attr_at w T n 0). rewrite Ha.
  apply wp_bind, wp_lift. cbn [Prelude.from_option res_ok]. eapply (wp_read_block _ _ _ (p2 ++ s ++ 0 :: tl)); [|done|done|done].
  rewrite Hb, Ep. by repeat (rewrite <- app_assoc; cbn [app]).
Qed.
End leaf.

Lemma attr_value_no_nul attrs a v : Forall attr_ok attrs -> assoc a attrs = Some v -> no_nul v.
Proof.
  induction 1 as [|[k x] attrs [_ Hx] _ IH]; [done|]. cbn [assoc]. case_bool_decide; [|done]. intros [= <-]. by eapply all_chars_no_nul.
Qed.

Lemma address_handles T n e ty :
  Forall attr_ok (e_attrs e) -> assoc (str "type") (e_attrs e) = Some ty -> e_simple e = false ->
  handles sk0 T n [str "type"] (p_address malloc_ok T n) e (address_meaning ty (e_content e)).
Proof.
  intros Hok Hty Hsimple b pre s tl w Hinv Hb Hs Hsc Hattr. rewrite <- (Hsc Hsimple).
  specialize (Hattr 0%nat _ eq_refl). rewrite Hty in Hattr. destruct Hattr as (off & Hat & Hst).
  pose proof (attr_value_no_nul _ _ _ Hok Hty) as Hn.
  assert (Hcmp : forall Q : list Z -> xml -> Prop, Q ty w -> wp (compared T n) Q w) by (intros Q; by eapply wp_compared).
  unfold p_address. apply wp_bind, wp_gets, wp_bind.
  eapply (wp_mono _ (leaf_done b pre s tl (address_meaning ty s (user w)) w)).
  - unfold address_meaning, address_slot.
    destruct (in_client (user w)), (in_keepalive (user w)), (in_router (user w)), (in_dns_server (user w)),
      (in_server (user w)), (in_broker (user w)); try (apply wp_ret, leaf_skip; done);
      apply wp_bind, Hcmp; repeat case_bool_decide; cbn [orb];
      first [by apply leaf_assign | by apply leaf_push | by apply wp_ret, leaf_skip].
  - intros [] w' (Hu & Hi & s' & Hl & Hbl). apply wp_ret. split_and!; [done..|]. exists pre, s'. split_and!; try done. congruence.
Qed.

Lemma wp_attribute T n k (Q : option char_ptr -> xml -> Prop) w : Q (attr_at w T n k) w -> wp (attribute T n k) Q w.
Proof. done. Qed.

Lemma attrs_given_ci T n names b pre attrs w j a :
  Forall attr_ok attrs -> attrs_given T n names b pre attrs w -> names !! j = Some a ->
  match assoc a attrs with
  | Some v => exists off, attr_at w T n j = Some (b, off) /\ stands_ci pre v off
  | None => attr_at w T n j = None
  end.
Proof.
  intros Hok H Hj. specialize (H j a Hj). destruct (assoc a attrs) as [v|] eqn:E; [|done].
  destruct H as (off & ? & ?). exists off. split; [done|]. exists v. split_and!; try done. by eapply attr_value_no_nul.
Qed.

Lemma prefix_handles T n e :
  Forall attr_ok (e_attrs e) -> e_simple e = false ->
  handles sk0 T n [str "length"] (p_prefix malloc_ok T n) e
    (fun t => assign prefix (e_content e) (assign_attr (str "length") prefix_length (e_attrs e) t)).
Proof.
  intros Hok Hsimple b pre s tl w Hinv Hb Hs Hsc Hattr. rewrite <- (Hsc Hsimple). unfold p_prefix.
  apply wp_bind, wp_attribute, wp_bind. eapply wp_Assign_attr; [done|done|by eapply attrs_given_ci|].
  intros pre' w' Hu Hi _ Hl Hbl. apply wp_bind. rewrite <- (lowered_length _ _ Hl).
  eapply (wp_Assign b pre' s tl); [done|by rewrite Hbl, lookup_insert_eq|done|].
  intros w'' Hu' Hi' _ Hbl'. apply wp_ret. split_and!; [done|by rewrite Hu', Hu|done|].
  exists pre', (tolower <$> s). split_and!; [done|apply length_fmap|congruence|].
  by rewrite Hbl', Hbl, insert_insert_eq.
Qed.

Lemma as_handles T n e :
  Forall attr_ok (e_attrs e) ->
  handles sk0 T n [str "number"] (p_as malloc_ok T n) e
    (fun t => if in_client t then assign_attr (str "number") client_as (e_attrs e) t
              else if in_server t then assign_attr (str "number") server_as (e_attrs e) t else t).
Proof.
  intros Hok b pre s tl w Hinv Hb Hs Hsc Hattr. unfold p_as. apply wp_bind, wp_gets.
  assert (Hass : forall f,
    wp (v ← attribute T n 0; _ ← ignore (Assign malloc_ok v f); mret 0)
      (fun r w' => r = 0 /\ user w' = assign_attr (str "number") f (e_attrs e) (user w) /\ inv sk0 w' /\
         exists pre' s', length pre' = length pre /\ length s' = length s /\ (e_simple e = true -> s' = s) /\
           blocks w' = <[b := pre' ++ s' ++ 0 :: tl]> (blocks w)) w).
  { intros f. apply wp_bind, wp_attribute, wp_bind, wp_bind. eapply wp_Assign_attr; [done|done|by eapply attrs_given_ci|].
    intros pre' w' Hu Hi _ Hl Hbl. apply wp_ret, wp_ret. split_and!; try done. exists pre', s.
    split_and!; try done. by apply lowered_length. }
  destruct (in_client (user w)); [apply Hass|]. destruct (in_server (user w)); [apply Hass|].
  apply wp_bind, wp_gets, wp_bind, wp_ret, wp_ret. split_and!; try done. exists pre, s. split_and!; try done. by rewrite insert_id.
Qed.

(** *** Inner nodes *)

Definition handlers_of (hs : list (nat -> char_ptr -> st xml Z)) (i : nat) : option (char_ptr -> st xml Z) := h ← hs !! i; Some (h i).

Section inner.
Context (T' : table) (hs : list (nat -> char_ptr -> st xml Z)) (e : elem) (es : list elem) (fs : list (tunnel -> tunnel)) (tail : list Z).
Context (Hsimple : e_simple e = false) (Hcontent : e_content e = elems_text es tail) (Htail : all_chars blank tail).
Context (Hruns : Forall2 (elem_runs sk0 T' (handlers_of hs)) es fs).

Lemma wp_parse_level b pre tl w (Q : Z -> xml -> Prop) :
  inv sk0 w -> blocks w !! b = Some (pre ++ e_content e ++ 0 :: tl) -> no_nul (e_content e) ->
  (forall w', user w' = run_all fs (user w) -> inv sk0 w' -> blocks w' = blocks w -> Q 0 w') ->
  wp (parse_level malloc_ok T' hs (b, length pre)) Q w.
Proof.
  intros Hinv Hb Hs H. apply wp_bind. eapply wp_read_block; [done..|]. rewrite Hcontent.
  eapply wp_mono; [by eapply wp_XMLParse|]. intros r w' (-> & ? & ? & ?). by apply H.
Qed.

(** A flag around the content. *)
Lemma wp_flagged set b pre tl w (Q : Z -> xml -> Prop) :
  inv sk0 w -> blocks w !! b = Some (pre ++ e_content e ++ 0 :: tl) -> no_nul (e_content e) ->
  (forall w', user w' = set false (run_all fs (set true (user w))) -> inv sk0 w' -> blocks w' = blocks w -> Q 0 w') ->
  wp (flagged set (parse_level malloc_ok T' hs (b, length pre))) Q w.
Proof.
  intros Hinv Hb Hs H. apply wp_bind, wp_modify, wp_bind. eapply wp_parse_level; [done|done|done|].
  intros w' Hu Hi Hbl. apply wp_bind, wp_modify, wp_ret. apply H; try done. cbn. by rewrite Hu.
Qed.

Lemma flagged_handles T n set :
  handles sk0 T n [] (fun content => flagged set (parse_level malloc_ok T' hs content)) e
    (fun t => set false (run_all fs (set true t))).
Proof.
  intros b pre s tl w Hinv Hb Hs Hsc _. rewrite (Hsc Hsimple) in *. eapply wp_flagged; [done..|].
  intros w' Hu Hi Hbl. split_and!; try done. exists pre, (e_content e). split_and!; try done. by rewrite Hbl, insert_id.
Qed.

Lemma keepalive_handles T n :
  Forall attr_ok (e_attrs e) ->
  handles sk0 T n [str "interval"]
    (fun content => v ← attribute T n 0; _ ← Assign malloc_ok v keepalive_interval;
       flagged set_in_keepalive (parse_level malloc_ok T' hs content)) e
    (fun t => set_in_keepalive false (run_all fs (set_in_keepalive true (assign_attr (str "interval") keepalive_interval (e_attrs e) t)))).
Proof.
  intros Hok b pre s tl w Hinv Hb Hs Hsc Hattr. rewrite (Hsc Hsimple) in *.
  apply wp_bind, wp_attribute, wp_bind. eapply wp_Assign_attr; [done|done|by eapply attrs_given_ci|].
  intros pre' w' Hu Hi _ Hl Hbl. pose proof (lowered_length _ _ Hl) as Hlen. rewrite <- Hlen.
  eapply (wp_flagged _ b pre' tl); [done|by rewrite Hbl, lookup_insert_eq|done|].
  intros w'' Hu' Hi' Hbl'. split_and!; [done|by rewrite Hu', Hu|done|]. exists pre', (e_content e). split_and!; try done.
  by rewrite Hbl'.
Qed.

Lemma router_handles T n :
  Forall attr_ok (e_attrs e) ->
  handles sk0 T n [str "protocol"]
    (fun content => flagged set_in_router (v ← attribute T n 0; _ ← Assign malloc_ok v router_protocol; parse_level malloc_ok T' hs content)) e
    (fun t => set_in_router false (run_all fs (assign_attr (str "protocol") router_protocol (e_attrs e) (set_in_router true t)))).
Proof.
  intros Hok b pre s tl w Hinv Hb Hs Hsc Hattr. rewrite (Hsc Hsimple) in *.
  apply wp_bind, wp_modify, wp_bind, wp_bind, wp_attribute, wp_bind.
  eapply wp_Assign_attr; [done|done|by eapply attrs_given_ci|].
  intros pre' w' Hu Hi _ Hl Hbl. pose proof (lowered_length _ _ Hl) as Hlen. rewrite <- Hlen.
  eapply (wp_parse_level b pre' tl); [done|by rewrite Hbl, lookup_insert_eq|done|].
  intros w'' Hu' Hi' Hbl'. apply wp_bind, wp_modify, wp_ret. split_and!; [done|cbn; by rewrite Hu', Hu|done|].
  exists pre', (e_content e). split_and!; try done. cbn. by rewrite Hbl'.
Qed.
End inner.

(** *** The top of the message *)

Definition ready (T : table) (n : nat) (names : list (list Z)) (b : positive) (pre rest : list Z) (attrs : list (list Z * list Z)) (w : xml) : Prop :=
  inv sk0 w /\ blocks w !! b = Some (pre ++ rest) /\
  forall j a, names !! j = Some a ->
    match assoc a attrs with
    | Some v => exists off, attr_at w T n j = Some (b, off) /\ stands_ci pre v off
    | None => attr_at w T n j = None
    end.

Lemma wp_assign_step T n names b pre rest attrs k a f w w0 (Q : Z -> xml -> Prop) :
  ready T n names b pre rest attrs w -> names !! k = Some a -> blocks w = <[b := pre ++ rest]> (blocks w0) ->
  (forall pre' w', ready T n names b pre' rest attrs w' -> length pre' = length pre ->
     user w' = assign_attr a f attrs (user w) -> blocks w' = <[b := pre' ++ rest]> (blocks w0) -> Q 0 w') ->
  wp (Assign malloc_ok (attr_at w T n k) f) Q w.
Proof.
  intros (Hinv & Hb & Hat) Hk Hw H. eapply wp_Assign_attr; [done|done|by apply Hat|].
  intros pre' w' Hu Hi Ht Hl Hbl. apply (H pre'); [|by apply lowered_length|done|by rewrite Hbl, Hw, insert_insert_eq].
  split_and!; [done|by rewrite Hbl, lookup_insert_eq|]. intros j x Hj. specialize (Hat j x Hj).
  unfold attr_at. rewrite Ht. fold (attr_at w T n j). destruct (assoc x attrs); [|done].
  destruct Hat as (off & ? & ?). exists off. split; [done|]. by eapply stands_ci_lowered.
Qed.

Lemma tunnel_handles T n hs e es fs tail :
  e_simple e = false -> e_content e = elems_text es tail -> all_chars blank tail ->
  Forall2 (elem_runs sk0 Tunnel (handlers_of hs)) es fs -> Forall attr_ok (e_attrs e) ->
  handles sk0 T n (attr_names KTunnel)
    (fun content =>
       v ← attribute T n 0; _ ← Assign malloc_ok v action;
       v ← attribute T n 1; _ ← Assign malloc_ok v type;
       v ← attribute T n 2; _ ← Assign malloc_ok v lifetime;
       v ← attribute T n 3; _ ← Assign malloc_ok v proxy;
       v ← attribute T n 4; _ ← Assign malloc_ok v mtu;
       parse_level malloc_ok Tunnel hs content) e (kind_meaning KTunnel (e_attrs e) [] (run_all fs)).
Proof.
  intros Hsimple Hcontent Htail Hruns Hok b pre s tl w Hinv Hb Hs Hsc Hattr. rewrite (Hsc Hsimple) in *.
  assert (Hr : ready T n (attr_names KTunnel) b pre (e_content e ++ 0 :: tl) (e_attrs e) w)
    by (split_and!; [done..|intros j a Hj; by eapply attrs_given_ci]).
  assert (Hw : blocks w = <[b := pre ++ e_content e ++ 0 :: tl]> (blocks w)) by (by rewrite insert_id).
  apply wp_bind, wp_attribute, wp_bind. eapply wp_assign_step; [done|done|done|]. intros p1 w1 Hr1 Hl1 Hu1 Hb1.
  apply wp_bind, wp_attribute, wp_bind. eapply wp_assign_step; [done|done|done|]. intros p2 w2 Hr2 Hl2 Hu2 Hb2.
  apply wp_bind, wp_attribute, wp_bind. eapply wp_assign_step; [done|done|done|]. intros p3 w3 Hr3 Hl3 Hu3 Hb3.
  apply wp_bind, wp_attribute, wp_bind. eapply wp_assign_step; [done|done|done|]. intros p4 w4 Hr4 Hl4 Hu4 Hb4.
  apply wp_bind, wp_attribute, wp_bind. eapply wp_assign_step; [done|done|done|]. intros p5 w5 (Hi5 & Hlk5 & _) Hl5 Hu5 Hb5.
  assert (Hlen : length p5 = length pre) by congruence. rewrite <- Hlen.
  eapply (wp_parse_level Tunnel hs e es fs tail); [done..|]. intros w' Hu' Hi' Hbl'. split_and!; [done| |done|].
  - rewrite Hu', Hu5, Hu4, Hu3, Hu2, Hu1. done.
  - exists p5, (e_content e). split_and!; try done. by rewrite Hbl'.
Qed.

(** *** All levels *)

Definition level_handlers (T : table) : list (nat -> char_ptr -> st xml Z) :=
  match T with
  | Root => [p_tunnel malloc_ok Root]
  | Tunnel => [p_server malloc_ok Tunnel; p_client malloc_ok Tunnel; p_broker malloc_ok Tunnel]
  | Server => [p_address malloc_ok Server; p_router malloc_ok Server]
  | Client => [p_address malloc_ok Client; p_dns_server malloc_ok Client; p_router malloc_ok Client; p_keepalive malloc_ok Client]
  | Router => [p_prefix malloc_ok Router; p_dns_server malloc_ok Router; p_as malloc_ok Router]
  | DNSServer => [p_address malloc_ok DNSServer]
  | Broker => [p_address malloc_ok Broker]
  | Keepalive => [p_address malloc_ok Keepalive]
  end.

Definition handler_for (k : kind) : table -> nat -> char_ptr -> st xml Z :=
  match k with
  | KTunnel => p_tunnel malloc_ok | KServer => p_server malloc_ok | KClient => p_client malloc_ok | KBroker => p_broker malloc_ok
  | KAddress => p_address malloc_ok | KRouter => p_router malloc_ok | KDNSServer => p_dns_server malloc_ok
  | KKeepalive => p_keepalive malloc_ok | KPrefix => p_prefix malloc_ok | KAs => p_as malloc_ok
  end.

Lemma kind_find T name : find_name fst name (kinds T) = find_name id name (sk0 T).*1.
Proof. rewrite find_name_fmap. by destruct T. Qed.

Lemma kind_of_None T name : kind_of T name = None -> find_name id name (sk0 T).*1 = None.
Proof.
  unfold kind_of. rewrite kind_find. destruct (find_name id name (sk0 T).*1) as [i|] eqn:E; [|done].
  pose proof (find_name_lookup _ _ _ E) as Hi. cbn. destruct T; destruct i as [|[|[|[|i]]]]; done.
Qed.

Lemma kind_of_Some T name k :
  kind_of T name = Some k ->
  exists i declared, find_name id name (sk0 T).*1 = Some i /\ sk0 T !! i = Some (name, declared) /\ NoDup declared /\
    attr_names k `prefix_of` declared /\ handlers_of (level_handlers T) i = Some (handler_for k T i).
Proof.
  unfold kind_of. rewrite kind_find. destruct (find_name id name (sk0 T).*1) as [i|] eqn:E; [|done].
  pose proof (find_name_lookup _ _ _ E) as Hi. cbn.
  destruct T; destruct i as [|[|[|[|i]]]]; cbn in Hi; try done; injection Hi as <-; intros [= <-];
    eexists _, _; (split; [done|]); (split; [done|]); (split; [by apply (bool_decide_unpack _)|]); (split; [by apply (bool_decide_unpack _)|done]).
Qed.

Lemma node_tree_ind (P : node -> Prop) :
  (forall indent name attrs simple text kids, Forall P kids -> P (Node indent name attrs simple text kids)) -> forall n, P n.
Proof.
  intros H. refine (fix F n := match n with Node indent name attrs simple text kids => H indent name attrs simple text kids _ end).
  induction kids as [|kid kids IH]; constructor; [apply F|apply IH].
Qed.

Lemma run_all_map T kids t : run_all (map (meaning T) kids) t = foldl (fun t kid => meaning T kid t) t kids.
Proof. revert t. induction kids as [|kid kids IH]; intros t; [done|]. apply IH. Qed.

Lemma handles_ext T n names (h : char_ptr -> st xml Z) e f g : (forall t, f t = g t) -> handles sk0 T n names h e f -> handles sk0 T n names h e g.
Proof.
  intros Hfg H b pre s tl w H1 H2 H3 H4 H5. eapply wp_mono; [by apply H|]. intros r w' (? & Hu & ?).
  split; [done|]. split; [by rewrite <- Hfg|done].
Qed.

(** A node that its table knows, when its children run. *)
Lemma kind_handles T i k indent name attrs simple text kids :
  let n := Node indent name attrs simple text kids in
  elem_ok (to_elem n) -> (k <> KTunnel -> Forall (fun a => is_Some (assoc a attrs)) (attr_names k)) ->
  (simple = true -> kind_simple k = true) ->
  match subtable k with
  | None => kids = []
  | Some T' => all_chars blank text /\ Forall (fun kid => elem_runs sk0 T' (handlers_of (level_handlers T')) (to_elem kid) (meaning T' kid)) kids
  end ->
  handles sk0 T i (attr_names k) (handler_for k T i) (to_elem n)
    (kind_meaning k attrs text (fun t => match subtable k with Some T' => foldl (fun t kid => meaning T' kid t) t kids | None => t end)).
Proof.
  intros n (_ & _ & _ & Hattrs & _) Hgiven Hsimple Hsub.
  assert (Hruns : forall T', Forall (fun kid => elem_runs sk0 T' (handlers_of (level_handlers T')) (to_elem kid) (meaning T' kid)) kids ->
    Forall2 (elem_runs sk0 T' (handlers_of (level_handlers T'))) (map to_elem kids) (map (meaning T') kids)).
  { intros T' H. clear -H. induction H as [|kid kids Hk _ IH]; [by apply Forall2_nil|]. by apply Forall2_cons. }
  assert (Hnot : kind_simple k = false -> simple = false) by (intros Hk; destruct simple; [by rewrite Hsimple in Hk|done]).
  destruct k; cbn [subtable kind_simple] in *; try match type of Hsub with _ /\ _ => destruct Hsub as [Htext Hsub] end; try specialize (Hnot eq_refl); try specialize (Hgiven ltac:(done));
    try (eapply handles_ext; [|by eapply (tunnel_handles _ _ (level_handlers Tunnel)); eauto]; intros t; cbn; by rewrite run_all_map).
  - eapply handles_ext; [|by eapply (flagged_handles Server (level_handlers Server)); eauto]. intros t. cbn. by rewrite run_all_map.
  - eapply handles_ext; [|by eapply (flagged_handles Client (level_handlers Client)); eauto]. intros t. cbn. by rewrite run_all_map.
  - eapply handles_ext; [|by eapply (flagged_handles Broker (level_handlers Broker)); eauto]. intros t. cbn. by rewrite run_all_map.
  - apply list.Forall_cons in Hgiven as [[ty Hty] _]. subst kids. eapply handles_ext; [|by eapply address_handles]. intros t. cbn [kind_meaning]. by rewrite Hty.
  - eapply handles_ext; [|by eapply (router_handles Router (level_handlers Router)); eauto]. intros t. cbn. by rewrite run_all_map.
  - eapply handles_ext; [|by eapply (flagged_handles DNSServer (level_handlers DNSServer)); eauto]. intros t. cbn. by rewrite run_all_map.
  - eapply handles_ext; [|by eapply (keepalive_handles Keepalive (level_handlers Keepalive)); eauto]. intros t. cbn. by rewrite run_all_map.
  - subst kids. eapply handles_ext; [|by eapply prefix_handles]. done.
  - eapply handles_ext; [|by eapply as_handles]. done.
Qed.

Lemma all_kids_ok T kids :
  (fix all ks := match ks with [] => True | kid :: ks => node_ok T kid /\ all ks end) kids -> Forall (node_ok T) kids.
Proof. induction kids as [|kid kids IH]; [constructor|]. intros [? ?]. constructor; [done|by apply IH]. Qed.

Lemma kind_of_top T name : kind_of T name = Some KTunnel -> T = Root.
Proof.
  unfold kind_of. destruct (find_name fst name (kinds T)) as [i|]; [|done]. cbn.
  destruct T; destruct i as [|[|[|[|i]]]]; done.
Qed.

Lemma subtable_not_root k T : subtable k = Some T -> T <> Root.
Proof. by destruct k; intros [= <-]. Qed.

Lemma node_runs n : forall T, T <> Root -> node_ok T n -> elem_runs sk0 T (handlers_of (level_handlers T)) (to_elem n) (meaning T n).
Proof.
  induction n as [indent name attrs simple text kids IH] using node_tree_ind. intros T HT [Hok Hn]. split; [done|].
  destruct (kind_of T name) as [k|] eqn:Ek.
  - left. destruct Hn as (Hgiven & Hsimple & Hsub). destruct (kind_of_Some _ _ _ Ek) as (i & declared & ? & ? & ? & ? & ?).
    assert (k <> KTunnel) by (intros ->; by apply HT, (kind_of_top T name)).
    exists i, declared, (attr_names k), (handler_for k T i). split_and!; try done; [|by apply Hgiven].
    eapply handles_ext; [|apply (kind_handles T i k); [done..|]].
    + intros t. cbn [meaning]. by rewrite Ek.
    + destruct (subtable k) as [T'|] eqn:Es; [|done]. destruct Hsub as [Htext Hkids]. split; [done|].
      apply all_kids_ok in Hkids. apply list.Forall_forall. intros kid Hkid.
      rewrite list.Forall_forall in IH, Hkids. apply IH; [done|by eapply subtable_not_root|by apply Hkids].
  - right. split_and!; [by apply kind_of_None| |done]. intros t. cbn [meaning]. by rewrite Ek.
Qed.

Lemma wp_each {A} (f : A -> st xml unit) l w (Q : unit -> xml -> Prop) :
  (forall a, f a w = Ok (tt, w)) -> Q tt w -> wp (each f l) Q w.
Proof. intros Hf H. unfold wp. enough (each f l w = Ok (tt, w)) as -> by done. induction l as [|a l IH]; [done|]. cbn. unfold mbind, st_bind. by rewrite Hf. Qed.

(** The structure as the caller leaves it: nothing assigned. *)
Definition zeroed (t : tunnel) : Prop := (forall f, fields t f = None) /\ (forall f, lists t f = []).

Lemma wp_clear_zeroed w (Q : unit -> xml -> Prop) : zeroed (user w) -> Q tt w -> wp tspClearTunnelInfo Q w.
Proof.
  intros [Hf Hl] H. unfold tspClearTunnelInfo. apply wp_bind. apply wp_each.
  - intros f. unfold tspFree, mbind, st_bind, gets. by rewrite Hf.
  - apply wp_each; [|done]. intros f. unfold tspFreeLinkedList, mbind, st_bind, gets. by rewrite Hl.
Qed.
End meanings.

Lemma xml_parse_ok malloc_ok n tail w :
  (forall k, malloc_ok k = true) -> inv sk0 w -> zeroed (user w) ->
  node_ok Root n -> kind_of Root (e_name (to_elem n)) = Some KTunnel -> all_chars blank tail ->
  (forall j a, attr_names KTunnel !! j = Some a -> assoc a (e_attrs (to_elem n)) = None -> attr_at w Root 0 j = None) ->
  exists w', tspXMLParse malloc_ok (print n ++ tail) w = Ok (0, w') /\
    user w' = meaning Root n (reset_flags (user w)) /\ inv sk0 w' /\ blocks w' = blocks w.
Proof.
  intros Hm Hinv Hz Hn Hk Htail Hnull. destruct n as [indent name attrs simple text kids]. destruct Hn as [Hok Hn].
  cbn [to_elem e_name e_attrs] in Hk, Hnull. rewrite Hk in Hn. destruct Hn as (Hgiven & Hsimple & Htext & Hkids).
  destruct (kind_of_Some malloc_ok _ _ _ Hk) as (i & declared & Hfind & Hsk & Hnd & Hpre & Hh).
  assert (i = 0%nat) as -> by (destruct i as [|i]; [done|]; by destruct i).
  enough (wp (tspXMLParse malloc_ok (print (Node indent name attrs simple text kids) ++ tail))
            (fun r w' => r = 0 /\ user w' = meaning Root (Node indent name attrs simple text kids) (reset_flags (user w)) /\
               inv sk0 w' /\ blocks w' = blocks w) w) as Hwp.
  { apply wp_ok in Hwp as (r & w' & Hrun & -> & ?). by exists w'. }
  apply wp_bind, wp_clear_zeroed; [done|]. apply wp_bind, wp_modify.
  eapply wp_mono; [eapply (wp_XMLParse_one malloc_ok sk0 Root _ 0 declared (attr_names KTunnel)); try done|].
  - apply (kind_handles malloc_ok Hm Root 0 KTunnel); [done|done|done|]. split; [done|]. apply all_kids_ok in Hkids.
    eapply list.Forall_impl; [exact Hkids|]. intros kid Hkid. by apply node_runs.
  - intros r w' (-> & Hu & Hi & Hb). split_and!; try done. rewrite Hu. cbn [meaning]. by rewrite Hk.
Qed.

(** (C25) When every allocation succeeds, parsing the text of a well-formed message
    succeeds and does to the
    structure exactly what the message means, whatever pointers earlier messages
    left in the tables: neither the copies of the text nor the terminators and the
    lower-case letters written into them, nor the order of the attributes can be
    seen in the result, and every copy is released.  The attributes of [<tunnel>]
    that are missing must never have been given before. *)
Theorem tspXMLParse_refines malloc_ok n tail w :
  (forall k, malloc_ok k = true) -> inv sk0 w -> zeroed (user w) ->
  node_ok Root n -> kind_of Root (e_name (to_elem n)) = Some KTunnel -> all_chars blank tail ->
  (forall j a, attr_names KTunnel !! j = Some a -> assoc a (e_attrs (to_elem n)) = None -> attr_at w Root 0 j = None) ->
  exists w', tspXMLParse malloc_ok (print n ++ tail) w = Ok (0, w') /\
    user w' = meaning Root n (reset_flags (user w)) /\ inv sk0 w' /\ blocks w' = blocks w.
Proof. apply xml_parse_ok. Qed.

(** ** Termination *)

Section termination.
Context (malloc_ok : nat -> bool).
Notation xml := (xml table tunnel).
Implicit Types w : xml.

Lemma ends_update f w : fresh_above w -> ends (update f) (fun _ _ => True) w.
Proof. intros H. split_and!; [done|intros b l Hb; by exists l|done]. Qed.

Lemma ends_try_malloc w : fresh_above w -> ends (try_malloc malloc_ok) (fun _ _ => True) w.
Proof. intros H. split_and!; [done|intros b l Hb; by exists l|done]. Qed.

Lemma ends_then {A B} (m : st xml A) (k : A -> st xml B) w :
  ends m (fun _ _ => True) w -> (forall a w', fresh_above w' -> ends (k a) (fun _ _ => True) w') -> ends (m ≫= k) (fun _ _ => True) w.
Proof. intros Hm Hk. apply ends_bind. eapply ends_mono; [exact Hm|]. intros a w' _ Hf _. by apply Hk. Qed.

Lemma read_cstr_length l s : read_cstr l = Ok s -> (length s <= length l)%nat.
Proof.
  revert s. induction l as [|c l IH]; intros s; [done|]. cbn. case_match; [intros [= <-]; cbn; lia|].
  destruct (read_cstr l) as [t|]; [|done]. intros [= <-]. cbn. specialize (IH t eq_refl). lia.
Qed.

Lemma ends_Assign p f w : fresh_above w -> ends (Assign malloc_ok p f) (fun _ _ => True) w.
Proof.
  intros Hf. destruct p as [[b off]|]; [|by apply ends_ret]. unfold Assign.
  apply ends_reads; [apply reads_read_at|done|]. intros s Es. apply ends_reads; [apply reads_load|done|]. intros l El.
  assert (blocks w !! b = Some l) as Hl by (unfold load in El; destruct (blocks w !! b); [by injection El as ->|done]).
  assert (off + length s <= length l)%nat as Hoff.
  { unfold read_at, mbind, st_bind in Es. cbn [fst snd] in Es. rewrite El in Es. unfold lift in Es.
    destruct (read_cstr (drop off l)) as [t|] eqn:E; [|done]. injection Es as ->. pose proof E as E'.
    apply read_cstr_length in E. rewrite length_drop in E. destruct (decide (off <= length l)%nat); [lia|].
    by rewrite drop_ge in E' by lia. }
  apply ends_then.
  - unfold ends, modify. split_and!; [| |done].
    + intros x Hx. apply Hf. cbn in Hx. destruct (decide (b = x)) as [->|]; [by rewrite Hl|]. by rewrite lookup_insert_ne in Hx.
    + intros x k Hx. cbn. destruct (decide (b = x)) as [->|].
      * rewrite lookup_insert_eq. eexists. split; [done|]. rewrite length_blit; [congruence|]. by rewrite length_fmap.
      * rewrite lookup_insert_ne by done. eauto.
  - intros _ w1 Hf1. apply ends_then; [by apply ends_try_malloc|]. intros ok w2 Hf2.
    destruct (negb ok); (apply ends_then; [by apply ends_update|]); intros _ w3 Hf3; by apply ends_ret.
Qed.

Lemma ends_AssignToList p f w : fresh_above w -> ends (AssignToList malloc_ok p f) (fun _ _ => True) w.
Proof.
  intros Hf. unfold AssignToList. apply ends_then; [by apply ends_try_malloc|]. intros ok w1 Hf1.
  destruct (negb ok); [by apply ends_ret|]. apply ends_reads; [apply reads_read_at|done|]. intros s _.
  apply ends_then; [by apply ends_try_malloc|]. intros ok2 w2 Hf2. destruct (negb ok2); [by apply ends_ret|].
  apply ends_then; [by apply ends_update|]. intros _ w3 Hf3. by apply ends_ret.
Qed.

Lemma reads_compared T n : reads (compared T n).
Proof.
  apply reads_bind; [apply reads_gets|]. intros v. apply reads_bind; [apply reads_lift; by destruct v|]. intros p. apply reads_read_at.
Qed.

Lemma ends_ignore {A} (m : st xml A) w : ends m (fun _ _ => True) w -> ends (ignore m) (fun _ _ => True) w.
Proof. intros H. apply ends_then; [done|]. intros a w' Hf. by apply ends_ret. Qed.

(** The calls that end, whatever the state. *)
Ltac ends_leaf :=
  first [by apply ends_ret | by apply ends_ignore, ends_Assign | by apply ends_ignore, ends_AssignToList | by apply ends_Assign].

Lemma address_ends T n : handler_ends (p_address malloc_ok T n).
Proof.
  intros p w Hf. unfold p_address. apply ends_reads; [apply reads_gets|done|]. intros t _.
  apply ends_then; [|intros _ w' Hf'; by apply ends_ret].
  repeat case_match; first [ends_leaf | apply ends_reads; [apply reads_compared|done|]; intros ty _; repeat case_match; ends_leaf].
Qed.

Lemma prefix_ends T n : handler_ends (p_prefix malloc_ok T n).
Proof.
  intros p w Hf. unfold p_prefix. apply ends_reads; [apply reads_gets|done|]. intros v _.
  apply ends_then; [ends_leaf|]. intros _ w1 Hf1. apply ends_then; [ends_leaf|]. intros _ w2 Hf2. by apply ends_ret.
Qed.

Lemma as_ends T n : handler_ends (p_as malloc_ok T n).
Proof.
  intros p w Hf. unfold p_as. apply ends_reads; [apply reads_gets|done|]. intros t _. apply ends_reads; [apply reads_gets|done|].
  intros v _. apply ends_then; [repeat case_match; ends_leaf|]. intros _ w1 Hf1. by apply ends_ret.
Qed.

Lemma level_ends T hs : Forall (fun h => forall i, handler_ends (h i)) hs -> handler_ends (parse_level malloc_ok T hs).
Proof.
  intros Hh p w Hf. apply ends_reads; [apply reads_read_at|done|]. intros s _. apply ends_XMLParse; [|done].
  intros i h Hi. apply bind_Some in Hi as (x & E & [= <-]). by apply (Forall_lookup_1 _ _ _ _ Hh E).
Qed.

Lemma flagged_ends set m : handler_ends m -> handler_ends (fun c => flagged set (m c)).
Proof.
  intros Hm p w Hf. apply ends_then; [by apply ends_update|]. intros _ w1 Hf1. apply ends_then; [by apply Hm|].
  intros r w2 Hf2. apply ends_then; [by apply ends_update|]. intros _ w3 Hf3. by apply ends_ret.
Qed.

Lemma assign_ends T n k f m : handler_ends m -> handler_ends (fun c => v ← attribute T n k; _ ← Assign malloc_ok v f; m c).
Proof.
  intros Hm p w Hf. apply ends_reads; [apply reads_gets|done|]. intros v _. apply ends_then; [ends_leaf|].
  intros _ w1 Hf1. by apply Hm.
Qed.

Lemma dns_server_ends T n : handler_ends (p_dns_server malloc_ok T n).
Proof. apply flagged_ends, level_ends. repeat constructor; intros; apply address_ends. Qed.

Lemma router_ends T n : handler_ends (p_router malloc_ok T n).
Proof.
  apply flagged_ends, assign_ends, level_ends. repeat constructor; intros; [apply prefix_ends|apply dns_server_ends|apply as_ends].
Qed.

Lemma keepalive_ends T n : handler_ends (p_keepalive malloc_ok T n).
Proof. apply assign_ends, flagged_ends, level_ends. repeat constructor; intros; apply address_ends. Qed.

Lemma server_ends T n : handler_ends (p_server malloc_ok T n).
Proof. apply flagged_ends, level_ends. repeat constructor; intros; [apply address_ends|apply router_ends]. Qed.

Lemma broker_ends T n : handler_ends (p_broker malloc_ok T n).
Proof. apply flagged_ends, level_ends. repeat constructor; intros; apply address_ends. Qed.

Lemma client_ends T n : handler_ends (p_client malloc_ok T n).
Proof.
  apply flagged_ends, level_ends. repeat constructor; intros; [apply address_ends|apply dns_server_ends|apply router_ends|apply keepalive_ends].
Qed.

Lemma tunnel_ends T n : handler_ends (p_tunnel malloc_ok T n).
Proof.
  do 5 apply assign_ends. apply level_ends. repeat constructor; intros; [apply server_ends|apply client_ends|apply broker_ends].
Qed.
End termination.

(** (C26) Parsing ends on every text, well formed or not, from every state of the
    tables and of the structure, and whichever allocations fail: it returns, or
    it faults. *)
Theorem tspXMLParse_ends malloc_ok text w :
  fresh_above w -> tspXMLParse malloc_ok text w <> Err OutOfFuel.
Proof.
  intros Hf. enough (ends (tspXMLParse malloc_ok text) (fun _ _ => True) w) as H.
  { unfold ends in H. destruct (tspXMLParse malloc_ok text w); [done|]. congruence. }
  assert (Hfree : forall f w, fresh_above w -> ends (tspFree f) (fun _ _ => True) w).
  { intros f w1 H1. apply ends_reads; [apply reads_gets|done|]. intros t _.
    destruct (fields t f) as [[s|]|]; [by apply ends_update|by unfold ends, lift|by apply ends_ret]. }
  assert (Hlist : forall f w, fresh_above w -> ends (tspFreeLinkedList f) (fun _ _ => True) w).
  { intros f w1 H1. apply ends_reads; [apply reads_gets|done|]. intros t _. destruct (lists t f); [by apply ends_ret|by apply ends_update]. }
  assert (Heach : forall A (g : A -> st (xml table tunnel) unit) l w,
    (forall a w, fresh_above w -> ends (g a) (fun _ _ => True) w) -> fresh_above w -> ends (each g l) (fun _ _ => True) w).
  { intros A g l. induction l as [|a l IH]; intros w1 Hg H1; [by apply ends_ret|]. apply ends_then; [by apply Hg|]. intros _ w2 H2. by apply IH. }
  apply ends_then.
  - apply ends_then; [by apply Heach|]. intros _ w1 Hf1. by apply Heach.
  - intros _ w1 Hf1. apply ends_then; [by apply ends_update|]. intros _ w2 Hf2. apply ends_XMLParse; [|done].
    intros [|i] h; [|by destruct i]. intros [= <-]. apply tunnel_ends.
Qed.

(** ** Deciding whether a message is well formed *)

#[export] Instance all_chars_dec p s : Decision (all_chars p s).
Proof. unfold all_chars. apply _. Defined.
#[export] Instance no_nul_dec s : Decision (no_nul s).
Proof. unfold no_nul. apply _. Defined.

#[export] Instance name_ok_dec s : Decision (name_ok s).
Proof.
  destruct (decide (all_chars name_char s)) as [H|H]; [|right; by intros [? _]].
  destruct s as [|c s]; [right; by intros [_ (? & ? & ? & _)]|].
  destruct (decide (isalpha c = true)) as [Hc|Hc]; [left; split; [done|]; by exists c, s|].
  right. by intros [_ (? & ? & [= <- <-] & ?)].
Defined.

#[export] Instance attr_ok_dec x : Decision (attr_ok x).
Proof. unfold attr_ok. apply _. Defined.
#[export] Instance elem_ok_dec e : Decision (elem_ok e).
Proof. unfold elem_ok. apply _. Defined.
#[export] Instance kind_eq_dec : EqDecision kind.
Proof. solve_decision. Defined.

#[export] Instance node_ok_dec T n : Decision (node_ok T n).
Proof.
  revert T n. fix F 2. intros T [indent name attrs simple text kids]. cbn [node_ok].
  apply and_dec; [apply _|]. destruct (kind_of T name) as [k|]; [|apply _].
  apply and_dec; [apply _|]. apply and_dec; [apply _|]. destruct (subtable k) as [T'|]; [|apply _].
  apply and_dec; [apply _|]. induction kids as [|kid kids IH]; [left; exact I|]. apply and_dec; [apply F|exact IH].
Defined.

(** ** The message of the program's own test *)

(** A literal with its quotes written as apostrophes. *)
Definition quoted (s : string) : list Z := (fun c => if c =? 39 then QUOTE else c) <$> str s.

Definition newline (n : nat) : list Z := LF :: repeat SPACE n.

Definition leaf (indent : nat) (name : string) (attr : string) (value text : string) : node :=
  Node (newline indent) (str name) [(str attr, str value)] false (str text) [].
Definition inner (indent : nat) (name : string) (attrs : list (list Z * list Z)) (kids : list node) : node :=
  Node (newline indent) (str name) attrs false (newline indent) kids.

Definition test_message : node :=
  Node [SPACE] (str "tunnel")
    [(str "action", str "info"); (str "type", str "v6v4"); (str "lifetime", str "1440"); (str "proxy", str "yes"); (str "mtu", str "1280")]
    false (newline 1)
    [inner 2 "server" []
       [leaf 3 "address" "type" "ipv4" "206.123.31.114";
        leaf 3 "address" "type" "ipv6" "3ffe:b00:c18:ffff:0000:0000:0000:0000";
        inner 3 "router" [(str "protocol", str "bgp")]
          [Node (newline 4) (str "as") [(str "number", str "23456")] true [] []]];
     inner 2 "client" []
       [leaf 3 "address" "type" "ipv4" "1.1.1.1";
        leaf 3 "address" "type" "ipv6" "3ffe:b00:c18:ffff::0000:0000:0000:0001";
        leaf 3 "address" "type" "dn" "userid.domain";
        inner 3 "router" [(str "protocol", str "bgp")]
          [leaf 4 "prefix" "length" "48" "3ffe:0b00:c18:1234::";
           Node (newline 4) (str "as") [(str "number", str "12345")] true [] [];
           inner 4 "dns_server" []
             [leaf 5 "address" "type" "ipv4" "2.3.4.5"; leaf 5 "address" "type" "ipv4" "2.3.4.6";
              leaf 5 "address" "type" "ipv6" "3ffe:0c00::1"]];
        Node (newline 3) (str "keepalive") [(str "interval", str "30")] false []
          [Node [] (str "address") [(str "type", str "ipv6")] false (str "::") []]]].

Definition test_data : list Z := quoted
" <tunnel action='info' type='v6v4' lifetime='1440' proxy='yes' mtu='1280'>
  <server>
   <address type='ipv4'>206.123.31.114</address>
   <address type='ipv6'>3ffe:b00:c18:ffff:0000:0000:0000:0000</address>
   <router protocol='bgp'>
    <as number='23456'/>
   </router>
  </server>
  <client>
   <address type='ipv4'>1.1.1.1</address>
   <address type='ipv6'>3ffe:b00:c18:ffff::0000:0000:0000:0001</address>
   <address type='dn'>userid.domain</address>
   <router protocol='bgp'>
    <prefix length='48'>3ffe:0b00:c18:1234::</prefix>
    <as number='12345'/>
    <dns_server>
     <address type='ipv4'>2.3.4.5</address>
     <address type='ipv4'>2.3.4.6</address>
     <address type='ipv6'>3ffe:0c00::1</address>
    </dns_server>
   </router>
   <keepalive interval='30'><address type='ipv6'>::</address></keepalive>
  </client>
 </tunnel>
".

Example test_data_printed : print test_message ++ [LF] = test_data.
Proof. vm_compute. reflexivity. Qed.

Lemma inv_xml0 : inv sk0 xml0.
Proof. split; [|done]. intros b Hb. cbn in Hb. rewrite lookup_empty in Hb. by destruct Hb. Qed.

Lemma tspXMLParse_refines_witness :
  exists w', tspXMLParse (fun _ => true) (print test_message ++ [LF]) xml0 = Ok (0, w') /\
    user w' = meaning Root test_message (reset_flags (user xml0)) /\ inv sk0 w' /\ blocks w' = blocks xml0.
Proof.
  apply (tspXMLParse_refines (fun _ => true) test_message [LF] xml0); try done.
  - apply inv_xml0.
  - apply (bool_decide_unpack _). vm_compute. exact I.
  - apply (bool_decide_unpack _). vm_compute. exact I.
  - intros j a Hj Ha. do 5 (destruct j as [|j]; [done|]). done.
Defined.

Lemma tspXMLParse_ends_witness : tspXMLParse (fun _ => false) test_data xml0 <> Err OutOfFuel.
Proof. apply (tspXMLParse_ends (fun _ => false) test_data xml0). exact (proj1 inv_xml0). Defined.

(** ** Flaws *)

Section faults.
Context (malloc_ok : nat -> bool) (Hm : forall k, malloc_ok k = true).
Notation xml := (xml table tunnel).
Implicit Types w : xml.

Lemma bind_fault {A B} (m : st xml A) (k : A -> st xml B) f w : wp m (fun a w' => k a w' = Err f) w -> (m ≫= k) w = Err f.
Proof. unfold wp, mbind, st_bind. by destruct (m w) as [[a w']|]. Qed.

Lemma andthen_fault {A B} (m : st xml (Z + A)) (k : A -> st xml (Z + B)) f w :
  wp m (fun x w' => match x with inr a => k a w' = Err f | inl _ => False end) w -> andthen m k w = Err f.
Proof. intros H. apply bind_fault. eapply wp_mono; [exact H|]. by intros [code|a] w'. Qed.

(** The parser faults where its first turn does. *)
Lemma tspXMLParse_fault c text f w :
  zeroed (user w) -> inv sk0 w -> c <> 0 ->
  (forall b w1, inv sk0 (buf_set b [] w1) ->
     parse_node Root (handlers_of (level_handlers malloc_ok Root)) b 0 (buf_set b ((c :: text) ++ [0]) w1) = Err f) ->
  tspXMLParse malloc_ok (c :: text) w = Err f.
Proof.
  intros Hz [Hfresh Hskel] Hc H. apply bind_fault, wp_clear_zeroed; [done|]. apply bind_fault, wp_modify.
  unfold XMLParse. apply bind_fault, wp_try_malloc; [done|]. cbn [negb]. apply bind_fault. unfold new_block, wp.
  cbn [blocks next_block allocs tables user set_user].
  set (b := next_block w). set (w1 := mk_xml _ _ _ _ _ _ _).
  assert (Ew1 : w1 = buf_set b ((c :: text) ++ [0]) w1) by (symmetry; apply buf_set_id, lookup_insert_eq).
  assert (Hi : inv sk0 (buf_set b [] w1)).
  { split; [|exact Hskel]. intros b' Hb'. cbn in *. destruct (decide (b = b')) as [<-|]; [unfold b; lia|].
    rewrite !lookup_insert_ne in Hb' by done. specialize (Hfresh b' Hb'). lia. }
  enough (parse_loop (S (length (c :: text))) Root (handlers_of (level_handlers malloc_ok Root)) b 0 w1 = Err f) as Hl.
  { unfold mbind, st_bind.
    lazymatch goal with |- (match ?x with _ => _ end) = _ => replace x with (Err f : res (Z * xml)) by (symmetry; exact Hl) end.
    done. }
  rewrite Ew1. cbn [parse_loop]. apply bind_fault, (wp_peek b []); [done|]. rewrite (proj2 (Z.eqb_neq c 0)) by done.
  unfold mbind, st_bind at 1. change ([] ++ c :: text ++ [0]) with ((c :: text) ++ [0]). by rewrite H.
Qed.
End faults.

(** A tag that ends in a space right at the end of the text makes the parser
    skip the terminating zero and read past the copy, whatever the name of the tag
    and the state. *)
Theorem trailing_space_overread malloc_ok name w :
  (forall k, malloc_ok k = true) -> inv sk0 w -> zeroed (user w) -> name_ok name ->
  tspXMLParse malloc_ok (LT :: name ++ [SPACE]) w = Err OutOfBounds.
Proof.
  intros Hm Hinv Hz Hname. apply tspXMLParse_fault; [done..|]. intros b w1 Hi. unfold parse_node.
  pose proof Hname as [Hchars _]. pose proof (all_chars_no_nul _ _ Hchars) as Hnn.
  apply andthen_fault. cbn [app]. rewrite <- app_assoc.
  eapply (wp_open_tag b [] [] name [SPACE; 0] [0; 0]); [constructor|done|constructor|]. cbn [app].
  set (pos := (length (LT :: name) + 1)%nat).
  assert (Hlen : pos = length ((LT :: name) ++ [0])) by (unfold pos; rewrite length_app; done).
  apply bind_fault, (wp_read_at b [LT] name [0]); [done|done|]. cbn [app].
  rewrite bool_decide_false by (destruct Hname as [_ (? & ? & -> & _)]; done).
  apply bind_fault, wp_gets.
  assert (Eb : LT :: name ++ [0; 0] = ((LT :: name) ++ [0]) ++ [0]) by (cbn; by rewrite <- app_assoc).
  destruct (findNode _ _) as [n|].
  - apply andthen_fault. unfold known_tag. rewrite Eb. apply wp_bind, wp_peek; [done|]. apply wp_ret. cbn beta iota.
    rewrite <- Eb. unfold node_content. apply bind_fault, (wp_read_at b [LT] name [0]); [done|done|].
    unfold mbind, st_bind at 1, lift, guard_or. destruct (_ <=? _)%nat; [|done].
    unfold read_at, mbind, st_bind, load, lift. cbn [fst snd]. rewrite lookup_buf_set.
    rewrite drop_ge; [done|]. cbn [length app]. rewrite length_app. unfold pos. cbn. lia.
  - unfold andthen, unknown_tag. unfold mbind at 1. unfold st_bind at 1.
    enough ((c ← peek b pos;
       pos0 ← (if c =? 0 then mret (S pos) else pos0 ← scan_at (fun c0 => negb (c0 =? GT)) b pos; c0 ← peek b pos0; mret (if c0 =? GT then S pos0 else pos0));
       c0 ← peek b pos0; if (c0 =? 0) && negb false then leave (Z.of_nat pos0) else go (pos0, false)) (buf_set b (LT :: name ++ [0; 0]) w1)
       = (Err OutOfBounds : res ((Z + (nat * bool)) * xml table tunnel))) as -> by done.
    rewrite Eb. apply bind_fault, wp_peek; [done|]. apply bind_fault, wp_ret.
    unfold peek, mbind, st_bind, load, lift. rewrite lookup_buf_set.
    rewrite (proj2 (lookup_ge_None _ _)); [done|]. rewrite !length_app. unfold pos. cbn. lia.
Qed.

Lemma trailing_space_overread_witness : tspXMLParse (fun _ => true) (str "<tunnel ") xml0 = Err OutOfBounds.
Proof.
  apply (trailing_space_overread (fun _ => true) (str "tunnel") xml0); [done|apply inv_xml0|done|].
  apply (bool_decide_unpack _). vm_compute. exact I.
Defined.

(** A tag name of more than 96 characters overruns the buffer of the end tag. *)
Theorem long_name_overrun malloc_ok name c text w :
  (forall k, malloc_ok k = true) -> inv sk0 w -> zeroed (user w) -> name_ok name -> (96 < length name)%nat -> c <> 0 ->
  tspXMLParse malloc_ok (LT :: name ++ GT :: c :: text) w = Err OutOfBounds.
Proof.
  intros Hm Hinv Hz Hname Hlen Hc. apply tspXMLParse_fault; [done..|]. intros b w1 Hi. unfold parse_node.
  pose proof Hname as [Hchars _]. pose proof (all_chars_no_nul _ _ Hchars) as Hnn.
  apply andthen_fault. cbn [app]. rewrite <- app_assoc. cbn [app].
  eapply (wp_open_tag b [] [] name); [constructor|done|constructor|]. cbn [app]. rewrite Nat.add_0_r.
  apply bind_fault, (wp_read_at b [LT] name); [done|done|]. cbn [app].
  rewrite bool_decide_false by (destruct Hname as [_ (? & ? & -> & _)]; done). apply bind_fault, wp_gets.
  rewrite findNode_skel. destruct Hi as [_ Hskel]. cbn in Hskel. cbn [tables buf_set set_blocks]. rewrite Hskel.
  replace (find_name id name (sk0 Root).*1) with (@None nat).
  2: { symmetry. cbn. rewrite bool_decide_false; [done|]. intros ->. cbn in Hlen. lia. }
  apply andthen_fault. unfold unknown_tag.
  replace (LT :: name ++ 0 :: c :: text ++ [0]) with ((LT :: name) ++ 0 :: c :: text ++ [0]) by done.
  apply wp_bind, wp_peek; [done|]. apply wp_bind, wp_ret.
  replace ((LT :: name) ++ 0 :: c :: text ++ [0]) with (((LT :: name) ++ [0]) ++ c :: text ++ [0]) by (by rewrite <- app_assoc).
  apply wp_bind, wp_peek; [rewrite length_app; cbn; lia|]. rewrite (proj2 (Z.eqb_neq c 0)) by done. cbn [andb].
  apply wp_ret. cbn beta iota. unfold node_content. rewrite <- app_assoc.
  apply bind_fault, (wp_read_at b [LT] name); [done|done|].
  unfold mbind, st_bind at 1, lift, guard_or. rewrite (proj2 (Nat.leb_gt _ _)); [done|].
  unfold end_token, END_TOKEN. rewrite !length_app. cbn [length]. lia.
Qed.

Lemma long_name_overrun_witness : tspXMLParse (fun _ => true) (LT :: repeat 97 97 ++ [GT; LT]) xml0 = Err OutOfBounds.
Proof.
  apply (long_name_overrun (fun _ => true) (repeat 97 97) LT []); [done|apply inv_xml0|done| |cbn; lia|done].
  apply (bool_decide_unpack _). vm_compute. exact I.
Defined.

(** The structure after [memset], before the next message. *)
Definition next_message (w : xml table tunnel) : xml table tunnel := set_user tunnel0 w.

Definition with_mtu : list Z := quoted "<tunnel action='info' mtu='1280'></tunnel>".
Definition without_mtu : list Z := quoted "<tunnel action='info'></tunnel>".

(** The tables keep the pointers of the last message: an attribute that the
    next message does not give is read from memory that was freed. *)
Theorem missing_attribute_is_stale :
  exists w, tspXMLParse (fun _ => true) with_mtu xml0 = Ok (0, w) /\
    tspXMLParse (fun _ => true) without_mtu xml0 <> Err UseAfterFree /\
    tspXMLParse (fun _ => true) without_mtu (next_message w) = Err UseAfterFree.
Proof. eexists. split; [vm_compute; reflexivity|]. split; [vm_compute; discriminate|]. vm_compute. reflexivity. Qed.

(** An address without a type is compared through a null pointer. *)
Example untyped_address_is_null :
  tspXMLParse (fun _ => true) (str "<tunnel><client><address>::1</address></client></tunnel>") xml0 = Err NullDeref.
Proof. vm_compute. reflexivity. Qed.

(** A prefix without content takes the rest of its level as its value. *)
Example simple_prefix_takes_the_rest :
  exists w, tspXMLParse (fun _ => true)
      (quoted "<tunnel><client><router protocol='bgp'><prefix length='48'/><as number='1'/></router></client></tunnel>") xml0 = Ok (0, w) /\
    fields (user w) prefix = Some (Live (quoted "<as number='1'/>")).
Proof. eexists. split; [vm_compute; reflexivity|]. vm_compute. reflexivity. Qed.

(** Text that does not start with a tag is reported as parsed: the position of
    the error is 0. *)
Example error_at_start_is_success :
  exists w, tspXMLParse (fun _ => true) (str "503 busy") xml0 = Ok (0, w) /\ fields (user w) action = None.
Proof. eexists. split; [vm_compute; reflexivity|]. vm_compute. reflexivity. Qed.
