(* ===== verification/TspTunnel.v ===== *)
(** * The tunnel of the TSP client on macOS ([platform/darwin])

[tspStartLocal] ([tsp_local.c]) configures the interface and the routes with
commands of the system ([tsp_setup.c]), stays in the loop of the tunnel
([TunMainLoop] of [tsp_tun.c] for tunnels over UDP, [tspPerformTunnelLoop]
otherwise), and takes the tunnel down.  Commands are the lists of their
arguments; they and the packets that are copied are the trace of the model.
The conversions of IPv6 addresses are parameters. *)

From Stdlib Require Import ZifyNat.
From stdpp Require Import base list numbers strings.
From S2P Require Import Prelude Words CString TspClient XmlTun EchoEngine KeepAlive.

(** ** Data *)

(** The fields of [tTunnel]; a null pointer is [None]. *)
Definition tunnel_fields : Type := field -> option (list Z).

(** The settings that are used. *)
Record tun_conf := mk_tun_conf {
  if_tunnel_v6v4 : option (list Z);
  if_tunnel_v6udpv4 : option (list Z);
  if_tunnel_v4v6 : option (list Z);
  if_prefix : option (list Z);
  host_type : list Z;
  nodaemon : bool;
}.

Inductive gogocTunnelType := TUNTYPE_V6V4 | TUNTYPE_V6UDPV4 | TUNTYPE_V4V6.

#[export] Instance gogocTunnelType_eq_dec : EqDecision gogocTunnelType.
Proof. solve_decision. Defined.

(** ** Validation *)

Definition IPv4Addr : list Z := str ".0123456789".
Definition IPv6Addr : list Z := str "ABCDEFabcdef:0123456789".
Definition IPAddrAny : list Z := str "ABCDEFabcdef:.0123456789".
Definition Numeric : list Z := str "0123456789".

Definition IsAll (AllowedChars : list Z) (Value : option (list Z)) : bool :=
  match Value with
  | Some s => forallb (fun c => existsb (Z.eqb c) AllowedChars) s
  | None => false
  end.

Definition bad (b : bool) : Z := if b then 0 else 1.

Definition validate_tunnel_info (t : tunnel_fields) : Z :=
  bad (IsAll IPv4Addr (t client_address_ipv4)) +
  bad (IsAll IPv6Addr (t client_address_ipv6)) +
  (match t client_dns_server_address_ipv6 with Some s => bad (IsAll IPv6Addr (Some s)) | None => 0 end) +
  bad (IsAll IPv4Addr (t server_address_ipv4)) +
  bad (IsAll IPv6Addr (t server_address_ipv6)) +
  (match t prefix with Some s => bad (IsAll IPAddrAny (Some s)) + bad (IsAll Numeric (t prefix_length)) | None => 0 end).

(** ** Commands *)

Definition command : Type := list (list Z).

(** [sh]: a null argument ends the list. *)
Fixpoint sh (args : list (option (list Z))) : command :=
  match args with
  | Some a :: args' => a :: sh args'
  | _ => []
  end.

Definition word (s : string) : option (list Z) := Some (str s).
Definition route : option (list Z) := word "/sbin/route".
Definition ifconfig : option (list Z) := word "/sbin/ifconfig".

Section tunnel.
Context (inet_pton : list Z -> option (list Z)) (inet_ntop : list Z -> list Z).

(** [addr6.__u6_addr.__u6_addr8[15]++] *)
Definition next_address (a : list Z) : list Z := take 15 a ++ [wrap 8 (nth 15 a 0 + 1)].

(** [home_ip6addr]; the result of [inet_pton] is not tested. *)
Definition home_address (p : option (list Z)) : res (option (list Z)) :=
  match p with
  | None => Ok None
  | Some s => a ← from_option Uninitialised (inet_pton s); Ok (Some (inet_ntop (next_address a)))
  end.

Definition str_equal (a : list Z) (b : string) : bool := strcasecmp0 a (str b).

(** The interface, its prefix length and the type of the tunnel. *)
Definition tunnel_kind (c : tun_conf) (ty : list Z) : option (list Z) * option (list Z) * gogocTunnelType :=
  if str_equal ty "v6v4" then (if_tunnel_v6v4 c, word "128", TUNTYPE_V6V4)
  else if str_equal ty "v6udpv4" then (if_tunnel_v6udpv4 c, word "128", TUNTYPE_V6UDPV4)
  else if str_equal ty "v4v6" then (if_tunnel_v4v6 c, word "32", TUNTYPE_V4V6)
  else (None, None, TUNTYPE_V6UDPV4).

Definition is_router (c : tun_conf) (t : tunnel_fields) : bool :=
  str_equal (host_type c) "router" && bool_decide (is_Some (t prefix)).

(** [pal_strcasecmp (t->prefix_length, "64")] *)
Definition not_64 (t : tunnel_fields) : res bool := l ← from_option NullDeref (t prefix_length); Ok (negb (str_equal l "64")).

(** [gateway] is [t->originalgateway]; the result has the commands in their
    order. *)
Definition tspSetupInterface (c : tun_conf) (t : tunnel_fields) (gateway : option (list Z)) : res (status_code * list command) :=
  if negb (validate_tunnel_info t =? 0) then Ok (ERR_BAD_TUNNEL_PARAM, []) else
  ty ← from_option NullDeref (t type);
  let '(tunnel_interface, tunnel_prefixlen, tunnelType) := tunnel_kind c ty in
  home ← home_address (t prefix);
  let tunnel := if bool_decide (tunnelType = TUNTYPE_V6V4) then
      [sh [ifconfig; tunnel_interface; word "deletetunnel"];
       sh [ifconfig; tunnel_interface; word "tunnel"; t client_address_ipv4; t server_address_ipv4]] else [] in
  let interface := [sh [ifconfig; tunnel_interface; word "inet6"; t client_address_ipv6; t server_address_ipv6; word "prefixlen"; tunnel_prefixlen; word "alias"];
                    sh [ifconfig; tunnel_interface; word "mtu"; word "1280"]] in
  let verb := match gateway with Some _ => word "change" | None => word "add" end in
  let default_route := [sh [route; verb; word "-inet6"; word "default"; t server_address_ipv6]] in
  router ← (if is_router c t then
      blackhole ← not_64 t;
      Ok ([sh [word "/usr/sbin/sysctl"; word "-w"; word "net.inet6.ip6.forwarding=1"];
           sh [word "/usr/sbin/sysctl"; word "-w"; word "net.inet6.ip6.accept_rtadv=0"];
           sh [ifconfig; if_prefix c; word "inet6"; home; word "prefixlen"; word "64"]] ++
          (if blackhole : bool then [sh [route; word "add"; word "-inet6"; t prefix; word "-prefixlen"; t prefix_length; word "::1"]] else []) ++
          [sh [word "/usr/bin/killall"; word "rtadvd"]; sh [word "/usr/sbin/rtadvd"; if_prefix c]])
    else Ok []);
  Ok (SUCCESS, tunnel ++ interface ++ default_route ++ router).

Definition tspTearDownTunnel (c : tun_conf) (t : tunnel_fields) (gateway : option (list Z)) : res (list command) :=
  ty ← from_option NullDeref (t type);
  let '(tunnel_interface, _, tunnelType) := tunnel_kind c ty in
  home ← home_address (t prefix);
  router ← (if is_router c t then
      blackhole ← not_64 t;
      Ok ([sh [route; word "delete"; word "-inet6"; t prefix]] ++
          (if blackhole : bool then [sh [route; word "delete"; word "-inet6"; t prefix; word "-prefixlen"; t prefix_length; word "::1"]] else []) ++
          [sh [ifconfig; if_prefix c; word "inet6"; home; word "delete"]; sh [word "/usr/bin/killall"; word "rtadvd"]])
    else Ok []);
  let default_route := match gateway with
    | Some g => [sh [route; word "change"; word "-inet6"; word "default"; Some g]; sh [route; word "add"; word "-inet6"; word "default"; Some g]]
    | None => [sh [route; word "delete"; word "-inet6"; word "default"]]
    end in
  let interface := if bool_decide (tunnelType = TUNTYPE_V6V4) then
      [sh [ifconfig; tunnel_interface; word "inet6"; t client_address_ipv6; word "delete"]; sh [ifconfig; tunnel_interface; word "deletetunnel"]] else [] in
  Ok (router ++ default_route ++ interface).

(** ** The loop of a tunnel over UDP *)

Definition TUN_BUFSIZE : nat := 2048.

(** What happens in a turn: [None] for a descriptor that is not ready, and for a
    read that fails. *)
Record tun_input := mk_tun_input {
  ti_stop : bool;                          (* tspCheckForStopOrWait *)
  ti_finish : option iee_ret_t;            (* the engine ended by itself meanwhile *)
  ti_last : iee_ret_t;                     (* how it ends when it is stopped *)
  ti_tun : option (option (list Z));
  ti_socket : option (option (list Z));
}.

Inductive packet := ToBroker (p : list Z) | ToHost (p : list Z).

(** A packet is copied; a read that fails gives a length of -1 to the write. *)
Definition copied (ready : option (option (list Z))) (to : list Z -> packet) : res (list packet) :=
  match ready with
  | None => Ok []
  | Some None => Err OutOfBounds
  | Some (Some p) => Ok [to (take TUN_BUFSIZE p)]
  end.

Definition keepalive_turn (keepalive : bool) (i : tun_input) (w : world) : res (status_code * world) :=
  w ← thread_step (ti_finish i) w;
  if keepalive then loop_keepalive (mk_loop_input (ti_stop i) (ti_finish i) (ti_last i) 0) w else Ok (SUCCESS, w).

(** [None] when the inputs end before the loop does. *)
Fixpoint tun_loop (keepalive : bool) (inputs : list tun_input) (w : world) : res (option status_code * world * list packet) :=
  match inputs with
  | [] => Ok (None, w, [])
  | i :: inputs' =>
    r ← keepalive_turn keepalive i w;
    let '(status, w) := r in
    if negb (bool_decide (status = SUCCESS)) || ti_stop i then Ok (Some status, w, []) else
    out ← copied (ti_tun i) ToBroker;
    back ← copied (ti_socket i) ToHost;
    r ← tun_loop keepalive inputs' w;
    let '(status, w, packets) := r in
    Ok (status, w, out ++ back ++ packets)
  end.

(** The answers before the loop are those of [KeepAlive]. *)
Definition TunMainLoop (keepalive_interval : Z) (s : start_input) (inputs : list tun_input) : res (option status_code * world * list packet) :=
  let keepalive := negb (keepalive_interval =? 0) in
  r ← loop_start (mk_tunnel_loop_config (if keepalive then 1 else 0) 0) s;
  match r with
  | (Some status, w) => Ok (Some status, w, [])
  | (None, w) =>
    r ← tun_loop keepalive inputs w;
    match r with
    | (Some status, w, packets) =>
      if keepalive then d ← KA_destroy w; Ok (Some status, snd d, packets) else Ok (Some status, w, packets)
    | (None, w, packets) => Ok (None, w, packets)
    end
  end.

(** ** From the answer of the broker to the end of the tunnel *)

Definition IFNAMSIZ : nat := 16.

(** What the system answers. *)
Record local_env := mk_local_env {
  le_root : bool;                          (* geteuid () == 0 *)
  le_detached : bool;                      (* getppid () == 1 *)
  le_daemon : bool;                        (* daemon () succeeds *)
  le_tun : bool;                           (* TunInit opens the device *)
  le_malloc : bool;
  le_name : option (list Z);               (* its name, unless fstat fails *)
  le_gateway : option (list Z);            (* routepr *)
  le_start : start_input;
  le_turns : list loop_input;              (* of tspPerformTunnelLoop *)
  le_tun_turns : list tun_input;           (* of TunMainLoop *)
}.

(** [TunName] copies the name with [strncpy]. *)
Definition tun_name (e : local_env) : res (list Z) :=
  guard_or NullDeref (le_malloc e);;
  name ← from_option Uninitialised (le_name e);
  guard_or OutOfBounds (length name <? IFNAMSIZ)%nat;; Ok name.

Definition set_if_v6udpv4 (name : list Z) (c : tun_conf) : tun_conf :=
  mk_tun_conf (if_tunnel_v6v4 c) (Some name) (if_tunnel_v4v6 c) (if_prefix c) (host_type c) (nodaemon c).

(** The interval of the keep-alive, in seconds. *)
Definition interval (t : tunnel_fields) : Z := match t keepalive_interval with Some s => atoi s | None => 0 end.

(** The loop that follows a successful set-up; [None] as its status when the
    inputs end first. *)
Definition tunnel_runs (e : local_env) (t : tunnel_fields) (ty : list Z) : res (option status_code * world * list packet) :=
  if str_equal ty "v6udpv4" then TunMainLoop (interval t) (le_start e) (le_tun_turns e)
  else if str_equal ty "v6v4" then
    r ← tspPerformTunnelLoop (mk_tunnel_loop_config (interval t) 0) (le_start e) (le_turns e);
    Ok (fst r, snd r, [])
  else Ok (Some SUCCESS, world0, []).

(** The status, the commands, and the packets that were copied. *)
Definition tspStartLocal (e : local_env) (c : tun_conf) (t : tunnel_fields) : res (option status_code * list command * list packet) :=
  let failed := Ok (Some ERR_INTERFACE_SETUP_FAILED, [], []) in
  if negb (le_root e) then failed else
  if negb (nodaemon c) && negb (le_detached e) && negb (le_daemon e) then failed else
  ty ← from_option NullDeref (t type);
  if str_equal ty "v4v6" then failed else
  if str_equal ty "v6udpv4" && negb (le_tun e) then failed else
  c ← (if str_equal ty "v6udpv4" then name ← tun_name e; Ok (set_if_v6udpv4 name c) else Ok c);
  r ← tspSetupInterface c t (le_gateway e);
  let '(status, setup) := r in
  r ← (if bool_decide (status = SUCCESS) then tunnel_runs e t ty else Ok (Some status, world0, []));
  match r with
  | (Some status, _, packets) => teardown ← tspTearDownTunnel c t (le_gateway e); Ok (Some status, setup ++ teardown, packets)
  | (None, _, packets) => Ok (None, setup, packets)
  end.
End tunnel.

(** ** The arguments of the commands *)

(** A text of an address or a number: it holds no space and does not look like an
    option. *)
Definition address_text (a : list Z) : Prop := Forall (fun c => c ∈ IPAddrAny) a.

Definition own_words : list (list Z) := str <$> [
  "/sbin/route"; "/sbin/ifconfig"; "/usr/sbin/sysctl"; "/usr/bin/killall"; "/usr/sbin/rtadvd"; "rtadvd";
  "deletetunnel"; "tunnel"; "inet6"; "prefixlen"; "alias"; "mtu"; "1280"; "128"; "32"; "64"; "-inet6"; "default"; "change"; "add"; "delete";
  "-w"; "net.inet6.ip6.forwarding=1"; "net.inet6.ip6.accept_rtadv=0"; "-prefixlen"; "::1"]%string.

Section arguments.
Context (inet_pton : list Z -> option (list Z)) (inet_ntop : list Z -> list Z) (c : tun_conf).

(** Where an argument may come from: the program, its configuration, an address
    that was converted, or a field of the answer that is an address. *)
Definition allowed (a : list Z) : Prop :=
  a ∈ own_words \/ Some a = if_tunnel_v6v4 c \/ Some a = if_tunnel_v6udpv4 c \/ Some a = if_tunnel_v4v6 c \/ Some a = if_prefix c \/
  (exists x, a = inet_ntop x) \/ address_text a.

Definition allowed_arg (o : option (list Z)) : Prop := forall a, o = Some a -> allowed a.

Lemma sh_allowed args : Forall allowed_arg args -> Forall allowed (sh args).
Proof. induction 1 as [|o args Ho _ IH]; [constructor|]. cbn [sh]. destruct o as [a|]; [|constructor]. constructor; [by apply Ho|done]. Qed.

Lemma allowed_word s : bool_decide (str s ∈ own_words) = true -> allowed_arg (word s).
Proof. intros H%bool_decide_eq_true a [= <-]. by left. Qed.

Lemma IsAll_text allowed_chars o :
  forallb (fun x => existsb (Z.eqb x) IPAddrAny) allowed_chars = true -> IsAll allowed_chars o = true -> allowed_arg o.
Proof.
  intros Hsub H a ->. do 6 right. cbn in H. rewrite forallb_forall in H, Hsub. apply list.Forall_forall. intros x Hx%list_elem_of_In.
  apply H in Hx. apply existsb_exists in Hx as (y & Hy & ->%Z.eqb_eq). apply Hsub in Hy. apply existsb_exists in Hy as (z & Hz & ->%Z.eqb_eq).
  by apply list_elem_of_In.
Qed.

Lemma bad_zero b : 0 <= bad b /\ (bad b = 0 -> b = true).
Proof. destruct b; cbn; split; lia || done. Qed.

(** What the validation lets through. *)
Lemma validate_ok t : validate_tunnel_info t = 0 ->
  allowed_arg (t client_address_ipv4) /\ allowed_arg (t client_address_ipv6) /\ allowed_arg (t server_address_ipv4) /\
  allowed_arg (t server_address_ipv6) /\ allowed_arg (t prefix) /\ (is_Some (t prefix) -> allowed_arg (t prefix_length) /\ is_Some (t prefix_length)) /\
  is_Some (t client_address_ipv6) /\ is_Some (t server_address_ipv6).
Proof.
  unfold validate_tunnel_info. intros H.
  pose proof (bad_zero (IsAll IPv4Addr (t client_address_ipv4))) as [P1 H1]. pose proof (bad_zero (IsAll IPv6Addr (t client_address_ipv6))) as [P2 H2].
  pose proof (bad_zero (IsAll IPv4Addr (t server_address_ipv4))) as [P3 H3]. pose proof (bad_zero (IsAll IPv6Addr (t server_address_ipv6))) as [P4 H4].
  assert (0 <= match t client_dns_server_address_ipv6 with Some s => bad (IsAll IPv6Addr (Some s)) | None => 0 end) as Hdns
    by (destruct (t client_dns_server_address_ipv6); [apply bad_zero|done]).
  assert (forall s, t prefix = Some s -> IsAll IPAddrAny (Some s) = true /\ IsAll Numeric (t prefix_length) = true) as Hp.
  { intros s Es. rewrite Es in H. pose proof (bad_zero (IsAll IPAddrAny (Some s))) as [? ?]. pose proof (bad_zero (IsAll Numeric (t prefix_length))) as [? ?].
    split; auto with lia. }
  assert (0 <= match t prefix with Some s => bad (IsAll IPAddrAny (Some s)) + bad (IsAll Numeric (t prefix_length)) | None => 0 end) as Hpre.
  { destruct (t prefix) as [s|]; [|done]. pose proof (bad_zero (IsAll IPAddrAny (Some s))). pose proof (bad_zero (IsAll Numeric (t prefix_length))). lia. }
  specialize (H1 ltac:(lia)). specialize (H2 ltac:(lia)). specialize (H3 ltac:(lia)). specialize (H4 ltac:(lia)).
  split_and!.
  - by eapply IsAll_text, H1.
  - by eapply IsAll_text, H2.
  - by eapply IsAll_text, H3.
  - by eapply IsAll_text, H4.
  - destruct (t prefix) as [s|] eqn:Es; [|done]. eapply IsAll_text; [|apply (Hp s eq_refl)]. reflexivity.
  - intros [s Es]. destruct (Hp s Es) as [_ Hl]. split; [by eapply IsAll_text, Hl|]. by destruct (t prefix_length).
  - by destruct (t client_address_ipv6).
  - by destruct (t server_address_ipv6).
Qed.

Lemma kind_allowed ty : let '(i, l, _) := tunnel_kind c ty in allowed_arg i /\ allowed_arg l.
Proof.
  assert (allowed_arg (if_tunnel_v6v4 c) /\ allowed_arg (if_tunnel_v6udpv4 c) /\ allowed_arg (if_tunnel_v4v6 c)) as (H1 & H2 & H3)
    by (split_and!; intros a Ha; unfold allowed; auto 6).
  unfold tunnel_kind. destruct (str_equal ty "v6v4"); [split; [done|by apply allowed_word]|].
  destruct (str_equal ty "v6udpv4"); [split; [done|by apply allowed_word]|].
  destruct (str_equal ty "v4v6"); [split; [done|by apply allowed_word]|]. by split.
Qed.

#[local] Ltac commands_allowed :=
  unfold route, ifconfig;
  repeat (apply list.Forall_cons_2;
    [apply sh_allowed; repeat (apply list.Forall_cons_2; [first [assumption|apply allowed_word; vm_compute; reflexivity]|]); apply list.Forall_nil_2|]);
  apply list.Forall_nil_2.

(** What a server says does not become anything but addresses and numbers in the
    commands that set a tunnel up: when a value is anything else, no command is
    run. *)
Theorem setup_arguments_safe t gateway status cmds :
  tspSetupInterface inet_pton inet_ntop c t gateway = Ok (status, cmds) ->
  (status = SUCCESS \/ status = ERR_BAD_TUNNEL_PARAM /\ cmds = []) /\ Forall (Forall allowed) cmds.
Proof.
  unfold tspSetupInterface. destruct (Z.eqb_spec (validate_tunnel_info t) 0) as [Hv|]; cbn [negb]; [|intros [= <- <-]; auto].
  destruct (validate_ok t Hv) as (Hc4 & Hc6 & Hs4 & Hs6 & Hp & Hpl & _). intros E. inv_bind E.
  pose proof (kind_allowed v) as Hk. destruct (tunnel_kind c v) as [[i l] ty]. destruct Hk as [Hi Hl]. inv_bind E.
  assert (allowed_arg v0) as Hhome.
  { unfold home_address in E1. destruct (t prefix); [|by injection E1 as <-]. inv_bind E1. injection E1 as <-. intros a [= <-]. do 5 right. left. by eexists. }
  assert (allowed_arg (if_prefix c)) as Hif by (intros a Ha; unfold allowed; auto 6).
  inv_bind E. apply (inj Ok), pair_equal_spec in E as [<- <-]. split; [by left|].
  assert (Forall (Forall allowed) v1) as Hr.
  { destruct (is_router c t) eqn:Er; [|injection E2 as <-; constructor]. inv_bind E2. apply (inj Ok) in E2 as <-.
    assert (is_Some (t prefix)) as Hsome by (unfold is_router in Er; reflect_bools; done). destruct (Hpl Hsome) as [Hpl' _].
    apply Forall_app_2; [commands_allowed|]. apply Forall_app_2; [destruct v2; commands_allowed|commands_allowed]. }
  apply Forall_app_2; [destruct (bool_decide _); commands_allowed|]. apply Forall_app_2; [commands_allowed|].
  apply Forall_app_2; [destruct gateway; commands_allowed|done].
Qed.
End arguments.

(** ** The packets of a tunnel over UDP *)

(** No read fails; the keep-alive stops when it is asked to. *)
Definition reads_ok (i : tun_input) : Prop := ti_tun i <> Some None /\ ti_socket i <> Some None.
Definition loop_part (i : tun_input) : loop_input := mk_loop_input (ti_stop i) (ti_finish i) (ti_last i) 0.

Definition packets (i : tun_input) : list packet :=
  (match ti_tun i with Some (Some p) => [ToBroker (take TUN_BUFSIZE p)] | _ => [] end) ++
  (match ti_socket i with Some (Some p) => [ToHost (take TUN_BUFSIZE p)] | _ => [] end).

(** Why the loop ends in a turn. *)
Definition ended (s : status_code) (i : tun_input) : Prop :=
  s = SUCCESS /\ ti_stop i = true \/
  s = ERR_KEEPALIVE_TIMEOUT /\ ti_finish i = Some IEE_GENERAL_ECHO_TIMEOUT \/
  s = ERR_KEEPALIVE_ERROR /\ exists ret, ti_finish i = Some ret /\ ret <> IEE_SUCCESS.

(** The state of the keep-alive while the loop runs, and when it ends. *)
Definition in_loop (keepalive : bool) (w : world) : Prop := if keepalive then loop_inv w else w = world0.
Definition after_loop (keepalive : bool) (w : world) : Prop := if keepalive then stopped w else w = world0.

Lemma copied_ok ready to : ready <> Some None ->
  copied ready to = Ok (match ready with Some (Some p) => [to (take TUN_BUFSIZE p)] | _ => [] end).
Proof. by destruct ready as [[p|]|]. Qed.

Lemma keepalive_turn_ok keepalive i w :
  in_loop keepalive w -> clean_stop (loop_part i) ->
  exists s w', keepalive_turn keepalive i w = Ok (s, w') /\
    if negb (bool_decide (s = SUCCESS)) || ti_stop i then after_loop keepalive w' /\ ended s i else in_loop keepalive w'.
Proof.
  intros Hw Hc. unfold keepalive_turn. destruct keepalive; cbn [in_loop after_loop] in *.
  - destruct (thread_step_polled (loop_part i) w Hw) as (w1 & E1 & Hp). cbn [loop_part li_finish] in E1. rewrite E1. cbn [mbind res_bind].
    destruct (loop_keepalive_ok (loop_part i) w1 Hp Hc) as (s & w2 & E2 & Hw2 & Hs). unfold loop_part in E2. rewrite E2. exists s, w2. split; [done|].
    cbn [loop_part li_stop li_finish] in *. destruct (bool_decide (s = SUCCESS)) eqn:Es; cbn [negb andb orb] in *.
    + apply bool_decide_eq_true in Es as ->. destruct (ti_stop i) eqn:Et; [|done]. split; [done|]. left. done.
    + apply bool_decide_eq_false in Es. split; [done|]. unfold ended. destruct Hs as [|[?|(? & ret & ? & ? & _)]]; [done|by right; left|]. right. right. eauto.
  - subst w. exists SUCCESS, world0. split; [done|]. rewrite bool_decide_eq_true_2 by done. cbn [negb orb]. destruct (ti_stop i) eqn:Et; [|done].
    split; [done|]. by left.
Qed.

Lemma tun_loop_ok keepalive inputs w :
  in_loop keepalive w -> Forall reads_ok inputs -> Forall (fun i => clean_stop (loop_part i)) inputs ->
  exists s w' k, tun_loop keepalive inputs w = Ok (s, w', take k inputs ≫= packets) /\
    match s with
    | Some s => after_loop keepalive w' /\ exists i, inputs !! k = Some i /\ ended s i
    | None => k = length inputs /\ in_loop keepalive w'
    end.
Proof.
  intros Hw Hr Hc. revert w Hw. induction inputs as [|i inputs IH]; intros w Hw; cbn [tun_loop]; [by exists None, w, 0%nat|].
  apply list.Forall_cons in Hr as [[Hr1 Hr2] Hr]. apply list.Forall_cons in Hc as [Hc1 Hc].
  destruct (keepalive_turn_ok keepalive i w Hw Hc1) as (s & w1 & -> & Hs). cbn [mbind res_bind].
  destruct (negb (bool_decide (s = SUCCESS)) || ti_stop i).
  - exists (Some s), w1, 0%nat. destruct Hs. split; [done|]. split; [done|]. by exists i.
  - rewrite !copied_ok by done. cbn [mbind res_bind]. destruct (IH Hr Hc w1 Hs) as (s' & w' & k & -> & Hk). cbn [mbind res_bind].
    exists s', w', (S k). split; [|destruct s'; [done|by destruct Hk as [-> ?]]]. cbn [take mbind list_bind]. unfold packets at 2. by rewrite <- app_assoc.
Qed.

(** The loop copies every packet of each turn, in both directions and in order,
    until the client is told to stop or the keep-alive says that the broker is
    gone; then nothing of the keep-alive is left. *)
Theorem TunMainLoop_copies n s inputs :
  Forall reads_ok inputs -> Forall (fun i => clean_stop (loop_part i)) inputs ->
  exists st w k, TunMainLoop n s inputs = Ok (st, w, take k inputs ≫= packets) /\
    match st with
    | Some st => released w /\ ((exists i, inputs !! k = Some i /\ ended st i) \/ st = ERR_KEEPALIVE_ERROR /\ k = 0%nat)
    | None => k = length inputs
    end.
Proof.
  intros Hr Hc. unfold TunMainLoop. destruct (Z.eqb_spec n 0) as [->|Hn]; cbn [negb].
  - unfold loop_start. cbn [ka_interval Z.ltb Z.compare mbind res_bind].
    destruct (tun_loop_ok false inputs world0 eq_refl Hr Hc) as (st & w & k & -> & Hst). cbn [mbind res_bind].
    exists st, w, k. split; [by destruct st|]. destruct st as [st|]; [|apply Hst]. destruct Hst as [Hw Hi]. cbn in Hw. subst w. split; [|by left].
    split_and!; auto.
  - destruct (loop_start_ok (mk_tunnel_loop_config 1 0) s ltac:(done)) as (r & w & -> & Hw). cbn [mbind res_bind]. destruct r as [st|].
    + destruct Hw as [-> Hrel]. exists (Some ERR_KEEPALIVE_ERROR), w, 0%nat. split; [done|]. auto.
    + destruct (tun_loop_ok true inputs w Hw Hr Hc) as (st & w' & k & -> & Hst). cbn [mbind res_bind]. destruct st as [st|]; [|by exists None, w', k; destruct Hst].
      destruct Hst as [Hs Hi]. destruct (destroy_stopped w' Hs) as (w2 & -> & Hrel). cbn [mbind res_bind snd]. exists (Some st), w2, k. auto.
Qed.

(** ** The default route *)

(** What the commands do to the default route of the host, as their manual says. *)
Record route_laws {host : Type} (exec : command -> host -> host) (default : host -> option (list Z)) : Prop := {
  law_change g h : default (exec (sh [route; word "change"; word "-inet6"; word "default"; Some g]) h) = (_ ← default h; Some g);
  law_add g h : default (exec (sh [route; word "add"; word "-inet6"; word "default"; Some g]) h) =
                match default h with Some old => Some old | None => Some g end;
  law_delete h : default (exec (sh [route; word "delete"; word "-inet6"; word "default"]) h) = None;
  law_ifconfig args h : default (exec (sh (ifconfig :: args)) h) = default h;
}.

Section session.
Context (inet_pton : list Z -> option (list Z)) (inet_ntop : list Z -> list Z).
Context {host : Type} (exec : command -> host -> host) (default_route : host -> option (list Z)).
Context (laws : route_laws exec default_route).

Definition executed (cmds : list command) (h : host) : host := foldl (fun h cmd => exec cmd h) h cmds.

(** The prefix of the answer, if any, is an IPv6 address with a length. *)
Definition prefix_ok (t : tunnel_fields) : Prop :=
  forall p, t prefix = Some p -> is_Some (inet_pton p) /\ is_Some (t prefix_length).

Lemma home_ok t : prefix_ok t -> exists home, home_address inet_pton inet_ntop (t prefix) = Ok home.
Proof.
  intros Hp. unfold home_address. destruct (t prefix) as [p|] eqn:E; [|by eexists]. destruct (Hp p E) as [[a ->] _]. by eexists.
Qed.

Lemma not_64_ok c t : prefix_ok t -> is_router c t = true -> exists b, not_64 t = Ok b.
Proof.
  intros Hp Hr. unfold is_router in Hr. reflect_bools. destruct H0 as [p E]. destruct (Hp p E) as [_ [l El]]. unfold not_64. rewrite El. by eexists.
Qed.

Lemma setup_ok c t gateway ty : prefix_ok t -> t type = Some ty -> exists s cmds, tspSetupInterface inet_pton inet_ntop c t gateway = Ok (s, cmds).
Proof.
  intros Hp Ht. unfold tspSetupInterface. destruct (negb _); [by eexists _, _|]. rewrite Ht. cbn [from_option mbind res_bind].
  destruct (tunnel_kind c ty) as [[i l] k]. destruct (home_ok t Hp) as [home ->]. cbn [mbind res_bind].
  destruct (is_router c t) eqn:Er; [|by eexists _, _]. destruct (not_64_ok c t Hp Er) as [b ->]. by eexists _, _.
Qed.

(** Taking the tunnel down restores the default route, whatever happened before. *)
Lemma teardown_restores c t gateway ty : prefix_ok t -> t type = Some ty ->
  exists cmds, tspTearDownTunnel inet_pton inet_ntop c t gateway = Ok cmds /\ forall h, default_route (executed cmds h) = gateway.
Proof.
  intros Hp Ht. unfold tspTearDownTunnel. rewrite Ht. cbn [from_option mbind res_bind]. destruct (tunnel_kind c ty) as [[i l] k].
  destruct (home_ok t Hp) as [home ->]. cbn [mbind res_bind].
  assert (exists router, (if is_router c t then blackhole ← not_64 t;
      Ok ([sh [route; word "delete"; word "-inet6"; t prefix]] ++
          (if blackhole : bool then [sh [route; word "delete"; word "-inet6"; t prefix; word "-prefixlen"; t prefix_length; word "::1"]] else []) ++
          [sh [ifconfig; if_prefix c; word "inet6"; home; word "delete"]; sh [word "/usr/bin/killall"; word "rtadvd"]])
    else Ok []) = Ok router) as [router ->].
  { destruct (is_router c t) eqn:Er; [|by eexists]. destruct (not_64_ok c t Hp Er) as [b ->]. by eexists. }
  cbn [mbind res_bind]. eexists. split; [reflexivity|]. intros h. unfold executed. rewrite !foldl_app. set (h1 := foldl _ h router).
  assert (forall h2 cmds, Forall (fun cmd => exists args, cmd = sh (ifconfig :: args)) cmds -> default_route (foldl (fun h cmd => exec cmd h) h2 cmds) = default_route h2) as Hif.
  { intros h2 cmds Hc. revert h2. induction Hc as [|cmd cmds [args ->] _ IH]; intros h2; cbn [foldl]; [done|]. by rewrite IH, (law_ifconfig _ _ laws). }
  rewrite Hif by (destruct (bool_decide _); repeat (apply list.Forall_cons_2; [by eexists|]); apply list.Forall_nil_2).
  destruct gateway as [g|]; cbn [foldl]; [|apply (law_delete _ _ laws)].
  rewrite (law_add _ _ laws), (law_change _ _ laws). by destruct (default_route h1).
Qed.

(** What the system must provide: the name of the device fits, no read fails, and
    the keep-alive stops when it is asked to. *)
Definition env_ok (e : local_env) : Prop :=
  le_malloc e = true /\ (exists name, le_name e = Some name /\ (length name < IFNAMSIZ)%nat) /\
  Forall clean_stop (le_turns e) /\ Forall reads_ok (le_tun_turns e) /\ Forall (fun i => clean_stop (loop_part i)) (le_tun_turns e).

Lemma tunnel_runs_ok e t ty : env_ok e ->
  exists st w pk, tunnel_runs e t ty = Ok (st, w, pk) /\ (forall s, st = Some s -> released w).
Proof.
  intros (_ & _ & Hturns & Hreads & Hclean). unfold tunnel_runs. destruct (str_equal ty "v6udpv4").
  - destruct (TunMainLoop_copies (interval t) (le_start e) (le_tun_turns e) Hreads Hclean) as (st & w & k & -> & Hst).
    eexists _, _, _. split; [done|]. intros s ->. apply Hst.
  - destruct (str_equal ty "v6v4"); [|eexists _, _, _; split; [done|]; intros s _; split_and!; auto].
    destruct (tspPerformTunnelLoop_ok (mk_tunnel_loop_config (interval t) 0) (le_start e) (le_turns e)) as (st & w & -> & Hw); [by right|done|].
    cbn [mbind res_bind fst snd]. eexists _, _, _. split; [done|]. intros s ->. by apply (Hw s eq_refl).
Qed.

(** A session on the host never faults, whatever the broker answered and however
    the tunnel ends, and it leaves the default route as it found it: when the
    parameters are refused, when the keep-alive gives up, and when the client is
    told to stop. *)
Theorem session_restores_default_route e c t ty :
  env_ok e -> t type = Some ty -> prefix_ok t ->
  exists st cmds pk, tspStartLocal inet_pton inet_ntop e c t = Ok (st, cmds, pk) /\
    forall h s, st = Some s -> default_route h = le_gateway e -> default_route (executed cmds h) = le_gateway e.
Proof.
  intros He Ht Hp. pose proof He as (Hm & (name & Hname & Hlen) & _). unfold tspStartLocal. rewrite Ht. cbn [from_option mbind res_bind].
  destruct (negb (le_root e)); [eexists _, _, _; by split|]. destruct (negb (nodaemon c) && _ && _); [eexists _, _, _; by split|].
  destruct (str_equal ty "v4v6"); [eexists _, _, _; by split|]. destruct (str_equal ty "v6udpv4" && _); [eexists _, _, _; by split|].
  assert (exists c', (if str_equal ty "v6udpv4" then name ← tun_name e; Ok (set_if_v6udpv4 name c) else Ok c) = Ok c') as [c' ->].
  { destruct (str_equal ty "v6udpv4"); [|by eexists]. unfold tun_name, guard_or. rewrite Hm, Hname. cbn [from_option mbind res_bind].
    rewrite (proj2 (Nat.ltb_lt _ _) Hlen). by eexists. }
  cbn [mbind res_bind]. destruct (setup_ok c' t (le_gateway e) ty Hp Ht) as (s & setup & ->). cbn [mbind res_bind].
  destruct (teardown_restores c' t (le_gateway e) ty Hp Ht) as (teardown & Etd & Hrestore).
  assert (exists st w pk, (if bool_decide (s = SUCCESS) then tunnel_runs e t ty else Ok (Some s, world0, [])) = Ok (st, w, pk)) as (st & w & pk & ->).
  { destruct (bool_decide _); [|by eexists _, _, _]. destruct (tunnel_runs_ok e t ty He) as (st & w & pk & -> & _). by eexists _, _, _. }
  cbn [mbind res_bind]. destruct st as [st|]; [|eexists _, _, _; by split]. rewrite Etd. cbn [mbind res_bind]. eexists _, _, _. split; [reflexivity|].
  intros h s' _ _. unfold executed. rewrite foldl_app. apply Hrestore.
Qed.
End session.

(** ** Flaws *)

(** A prefix that is an IPv4 address passes the validation, but not the
    conversion, whose failure is not noticed. *)
Example dotted_prefix_is_uninitialised t :
  validate_tunnel_info t = 0 -> t type = Some (str "v6v4") -> t prefix = Some (str "1.2.3.4") ->
  forall c gateway ntop, tspSetupInterface (fun _ => None) ntop c t gateway = Err Uninitialised.
Proof. intros Hv Ht Hp c gateway ntop. unfold tspSetupInterface. rewrite Hv, Ht. cbn [Z.eqb negb from_option mbind res_bind]. cbn. by rewrite Hp. Qed.

(** A tunnel whose parameters were refused is taken down with these parameters:
    they become arguments of commands that run as root, without any test. *)
Example refused_parameters_reach_commands pton ntop c t gateway p :
  str_equal (host_type c) "router" = true -> t type = Some (str "v6udpv4") -> t prefix = Some p -> is_Some (pton p) -> is_Some (t prefix_length) ->
  exists cmds, tspTearDownTunnel pton ntop c t gateway = Ok (sh [route; word "delete"; word "-inet6"; Some p] :: cmds).
Proof.
  intros Hr Ht Hp [a Ha] [l Hl]. unfold tspTearDownTunnel, home_address, is_router, not_64. rewrite Ht, Hp, Ha, Hl, Hr.
  cbn [from_option mbind res_bind]. rewrite bool_decide_eq_true_2 by done. cbn [andb from_option mbind res_bind]. eexists. reflexivity.
Qed.

(** A prefix without its length: the set-up refuses it, and taking the tunnel down
    follows the null pointer. *)
Example refused_prefix_crashes pton ntop c t gateway p :
  str_equal (host_type c) "router" = true -> t type = Some (str "v6udpv4") -> t prefix = Some p -> is_Some (pton p) -> t prefix_length = None ->
  tspTearDownTunnel pton ntop c t gateway = Err NullDeref.
Proof.
  intros Hr Ht Hp [a Ha] Hl. unfold tspTearDownTunnel, home_address, is_router, not_64. rewrite Ht, Hp, Ha, Hl, Hr.
  cbn [from_option mbind res_bind]. by rewrite bool_decide_eq_true_2 by done.
Qed.

(** The test of the result of [read] is for less than -1: an error is taken for a
    packet of 2^64 - 1 bytes. *)
Example failed_read_is_sent :
  tun_loop false [mk_tun_input false None IEE_SUCCESS (Some None) None] world0 = Err OutOfBounds.
Proof. reflexivity. Qed.

(** ** Witnesses *)

Definition example_fields : tunnel_fields := fun f =>
  match f with
  | type => Some (str "v6v4")
  | client_address_ipv4 => Some (str "192.0.2.1")
  | client_address_ipv6 => Some (str "2001:db8::2")
  | server_address_ipv4 => Some (str "192.0.2.9")
  | server_address_ipv6 => Some (str "2001:db8::1")
  | prefix => Some (str "2001:db8:1::")
  | prefix_length => Some (str "56")
  | keepalive_interval => Some (str "30")
  | _ => None
  end.

Definition example_tun_conf : tun_conf := mk_tun_conf (word "gif0") (word "tun0") None (word "en0") (str "router") true.
Definition example_pton (_ : list Z) : option (list Z) := Some (repeat 0 16).
Definition example_ntop (_ : list Z) : list Z := str "2001:db8:1::1".

(** A host that is its default route. *)
Definition example_exec (cmd : command) (h : option (list Z)) : option (list Z) :=
  match cmd with
  | [p; verb; family; dest] => if bool_decide ([p; verb; family; dest] = [str "/sbin/route"; str "delete"; str "-inet6"; str "default"]) then None else h
  | [p; verb; family; dest; g] =>
    if bool_decide ([p; family; dest] = [str "/sbin/route"; str "-inet6"; str "default"]) then
      if bool_decide (verb = str "change") then _ ← h; Some g
      else if bool_decide (verb = str "add") then match h with Some old => Some old | None => Some g end else h
    else h
  | _ => h
  end.

Lemma example_laws : route_laws example_exec (fun h => h).
Proof.
  split.
  - intros g h. reflexivity.
  - intros g h. reflexivity.
  - intros h. reflexivity.
  - intros args h. change (sh (ifconfig :: args)) with (str "/sbin/ifconfig" :: sh args). unfold example_exec.
    assert (str "/sbin/ifconfig" <> str "/sbin/route") as Hne by (by vm_compute).
    destruct (sh args) as [|a [|b [|d [|g [|? ?]]]]]; try done; by rewrite bool_decide_eq_false_2 by (intros [= E]).
Qed.

Definition example_env : local_env :=
  mk_local_env true true true true true (Some (str "tun0")) (Some (str "fe80::1")) (start0 None)
    [turn0 false None 1000; turn0 true None 1001] [].

Lemma setup_arguments_safe_witness :
  exists cmds, tspSetupInterface example_pton example_ntop example_tun_conf example_fields None = Ok (SUCCESS, cmds) /\
    Forall (Forall (allowed example_ntop example_tun_conf)) cmds.
Proof.
  destruct (tspSetupInterface example_pton example_ntop example_tun_conf example_fields None) as [[s cmds]|] eqn:E; [|by vm_compute in E].
  destruct (setup_arguments_safe example_pton example_ntop example_tun_conf example_fields None s cmds E) as [_ H].
  exists cmds. split; [|exact H]. assert (s = SUCCESS) as -> by (vm_compute in E; congruence). reflexivity.
Defined.

Lemma session_restores_default_route_witness :
  exists st cmds pk, tspStartLocal example_pton example_ntop example_env example_tun_conf example_fields = Ok (st, cmds, pk) /\
    forall s, st = Some s -> executed example_exec cmds (Some (str "fe80::1")) = Some (str "fe80::1").
Proof.
  destruct (session_restores_default_route example_pton example_ntop example_exec (fun h => h) example_laws example_env example_tun_conf example_fields (str "v6v4"))
    as (st & cmds & pk & E & H).
  - split; [done|]. split; [by exists (str "tun0"); split; [|apply Nat.ltb_lt; vm_compute]|]. split; [|split; constructor].
    repeat (apply list.Forall_cons_2; [by split; [|left]|]). apply list.Forall_nil_2.
  - reflexivity.
  - intros p _. split; by eexists.
  - exists st, cmds, pk. split; [exact E|]. intros s Hs. exact (H (Some (str "fe80::1")) s Hs eq_refl).
Defined.
