(* ===== verification/TspMessages.v ===== *)
(** * The messages of the TSP dialogue ([gogoc-tsp/src/xml/xml_req.c])

The request that the client sends is formatted piece by piece into a static
buffer.  This file models it and relates it to the parser of the replies: the
request of a host parses back into what was asked for, and the redirection
message of a server reaches the list of brokers that the client connects to
next. *)

From Stdlib Require Import ZifyNat Sorted.
From stdpp Require Import base gmap list numbers strings.
From S2P Require Import Prelude Words CString Redirect TspClient TspSession XmlParse XmlTun.

(** ** The parser as a service of the session

[tspExtractPayload] clears the structure and calls the parser; [w] is the
state of its tables and [malloc_ok] tells which of its allocations succeed. *)
Definition xml_service (malloc_ok : nat -> bool) (w : xml table tunnel) (s : list Z) : res (option Redirect.tTunnel) :=
  r ← tspXMLParse malloc_ok s (next_message w);
  let '(ret, w') := r in
  Ok (if ret =? 0 then
        Some (mk_tTunnel (lists (user w') broker_redirect_ipv4) (lists (user w') broker_redirect_ipv6) (lists (user w') broker_redirect_dn))
      else None).

(** ** Redirection messages *)

Definition type_name (ty : tBrokerAddressType) : list Z :=
  match ty with
  | TSP_REDIRECT_BROKER_TYPE_IPV4 => str "ipv4"
  | TSP_REDIRECT_BROKER_TYPE_IPV6 => str "ipv6"
  | TSP_REDIRECT_BROKER_TYPE_FQDN => str "dn"
  | TSP_REDIRECT_BROKER_TYPE_NONE => []
  end.

Definition broker_node (indent : list Z) (b : tBroker) : node :=
  Node indent (str "address") [(str "type", type_name (address_type b))] false (address b) [].

(** A message that names the brokers [bs], in any layout. *)
Definition redirect_node (indent : list Z) (attrs : list (list Z * list Z)) (bs : list tBroker) : node :=
  Node [] (str "tunnel") attrs false indent [Node indent (str "broker") [] false indent (broker_node indent <$> bs)].

(** Brokers that a message can name. *)
Definition named_broker (b : tBroker) : Prop :=
  address_type b <> TSP_REDIRECT_BROKER_TYPE_NONE /\ distance b = 0 /\ good_address (address b) /\
  no_nul (address b) /\ no_lt (address b).

Definition list_of (ty : tBrokerAddressType) : list_field :=
  match ty with
  | TSP_REDIRECT_BROKER_TYPE_IPV4 => broker_redirect_ipv4
  | TSP_REDIRECT_BROKER_TYPE_IPV6 => broker_redirect_ipv6
  | _ => broker_redirect_dn
  end.

(** The lists of the structure are stacks. *)
Lemma brokers_pushed indent bs t f :
  Forall named_broker bs -> in_client t = false -> in_server t = false -> in_broker t = true ->
  let t' := foldl (fun t kid => meaning Broker kid t) t (broker_node indent <$> bs) in
  lists t' f = reverse ((fun b => Some (address b)) <$> filter (fun b => list_of (address_type b) = f) bs) ++ lists t f.
Proof.
  intros Hbs. revert t. induction Hbs as [|b bs (Hty & _) _ IH]; intros t Hc Hs Hb; [done|].
  cbn [fmap list_fmap foldl]. cbv zeta.
  assert (Em : meaning Broker (broker_node indent b) t = push (list_of (address_type b)) (address b) t).
  { change (address_meaning (type_name (address_type b)) (address b) t = push (list_of (address_type b)) (address b) t).
    unfold address_meaning, address_slot. rewrite Hc, Hs, Hb. by destruct (address_type b). }
  rewrite Em, IH by done. rewrite filter_cons. cbn [lists push add_owned set_list].
  destruct (decide (list_of (address_type b) = f)) as [<-|Hne].
  - rewrite decide_True by done. cbn [fmap list_fmap]. rewrite reverse_cons, <- app_assoc. done.
  - by rewrite decide_False by done.
Qed.

(** Attributes of [<tunnel>], in any order. *)
Definition tunnel_attrs (attrs : list (list Z * list Z)) : Prop := Forall attr_ok attrs /\ NoDup attrs.*1.

Ltac decided := apply (bool_decide_unpack _); vm_compute; exact I.

Lemma broker_node_ok indent b :
  all_chars blank indent -> named_broker b ->
  node_ok Broker (broker_node indent b) /\
  forall name, name_ok name -> name <> str "address" ->
    e_name (to_elem (broker_node indent b)) <> name /\ Forall (fun x => no_lt (snd x)) (e_attrs (to_elem (broker_node indent b))) /\
    no_token name (e_content (to_elem (broker_node indent b))).
Proof.
  intros Hi (Hty & _ & _ & Hn & Hlt).
  assert (Hname : name_ok (str "address")) by decided.
  assert (Hok : elem_ok (to_elem (broker_node indent b))).
  { split_and!; cbn [to_elem broker_node map e_indent e_name e_attrs e_content]; try done; [cbn; lia| |decided|by apply no_token_plain].
    constructor; [|constructor]. split; [decided|]. destruct (address_type b); [done|decided..]. }
  split; [split; [done|]; cbn; split; [|done]; intros _; by repeat constructor|].
  intros name Hnm Hne. split; [by apply not_eq_sym|]. split; [|by apply no_token_plain].
  cbn. constructor; [|constructor]. cbn [snd]. destruct (address_type b); try done; decided.
Qed.

Lemma blank_no_lt s : all_chars blank s -> no_lt s.
Proof. intros H. eapply list.Forall_impl; [exact H|]. intros c [_ Hc] ->. done. Qed.

Definition brokers_node (indent : list Z) (bs : list tBroker) : node :=
  Node indent (str "broker") [] false indent (broker_node indent <$> bs).

Lemma broker_elems_ok indent name bs :
  all_chars blank indent -> Forall named_broker bs -> name_ok name -> name <> str "address" ->
  no_token name (elems_text (map to_elem (broker_node indent <$> bs)) indent) /\
  no_nul (elems_text (map to_elem (broker_node indent <$> bs)) indent).
Proof.
  intros Hi Hbs Hn Hne.
  assert (Forall (fun e => elem_ok e /\ e_name e <> name /\ Forall (fun x => no_lt (snd x)) (e_attrs e) /\ no_token name (e_content e))
    (map to_elem (broker_node indent <$> bs))) as H.
  { induction Hbs as [|b bs Hb _ IH]; [constructor|]. cbn [fmap list_fmap map]. constructor; [|done].
    destruct (broker_node_ok indent b Hi Hb) as [[Hok _] Hrest]. split; [done|]. by apply Hrest. }
  split; [apply elems_no_token; [done|by apply blank_no_lt|done]|].
  apply no_nul_elems; [|by eapply all_chars_no_nul]. eapply list.Forall_impl; [exact H|]. by intros e [? _].
Qed.

Lemma brokers_elem_ok indent bs : all_chars blank indent -> Forall named_broker bs -> elem_ok (to_elem (brokers_node indent bs)).
Proof.
  intros Hi Hbs. assert (name_ok (str "broker")) by decided.
  destruct (broker_elems_ok indent (str "broker") bs) as [Ht Hn]; [done..|].
  split_and!; try done; [cbn; lia|apply NoDup_nil_2].
Qed.

Lemma redirect_node_ok indent attrs bs :
  all_chars blank indent -> tunnel_attrs attrs -> Forall named_broker bs -> node_ok Root (redirect_node indent attrs bs).
Proof.
  intros Hi [Ha Hnd] Hbs. assert (name_ok (str "tunnel")) by decided.
  pose proof (brokers_elem_ok indent bs Hi Hbs) as Hb.
  destruct (broker_elems_ok indent (str "tunnel") bs) as [Ht Hn]; [done..|]. split.
  - split_and!; try done; [constructor|cbn; lia| |].
    + apply (no_nul_elems [to_elem (brokers_node indent bs)]); [by constructor|by eapply all_chars_no_nul].
    + apply (elems_no_token _ [to_elem (brokers_node indent bs)]); [done|by apply blank_no_lt|].
      constructor; [|constructor]. split_and!; [done|done|constructor|done].
  - split; [done|]. split; [done|]. split; [done|]. split; [|done]. split; [exact Hb|]. cbn [kind_of].
    split; [by constructor|]. split; [done|]. split; [done|].
    clear -Hi Hbs. induction Hbs as [|b bs Hb _ IH]; [done|]. split; [by apply broker_node_ok|done].
Qed.

(** The lists that the message fills. *)
Definition redirect_lists (bs : list tBroker) (f : list_field) : list (option (list Z)) :=
  reverse ((fun b => Some (address b)) <$> filter (fun b => list_of (address_type b) = f) bs).

Lemma redirect_meaning indent attrs bs t f :
  Forall named_broker bs -> in_client t = false -> in_server t = false -> lists t f = [] ->
  lists (meaning Root (redirect_node indent attrs bs) t) f = redirect_lists bs f.
Proof.
  intros Hbs Hc Hs Hl.
  set (t1 := assign_attr (str "mtu") mtu attrs (assign_attr (str "proxy") proxy attrs (assign_attr (str "lifetime") lifetime attrs
    (assign_attr (str "type") type attrs (assign_attr (str "action") action attrs t))))).
  assert (Ht1 : in_client t1 = false /\ in_server t1 = false /\ lists t1 f = []).
  { unfold t1, assign_attr. repeat case_match; done. }
  destruct Ht1 as (Hc1 & Hs1 & Hl1).
  change (meaning Root (redirect_node indent attrs bs) t) with
    (set_in_broker false (foldl (fun t kid => meaning Broker kid t) (set_in_broker true t1) (broker_node indent <$> bs))).
  cbn [lists set_in_broker]. rewrite brokers_pushed by done. cbn [lists set_in_broker]. by rewrite Hl1, app_nil_r.
Qed.

Lemma xml_service_redirect xm indent attrs bs tail w :
  (forall k, xm k = true) -> inv sk0 w -> all_chars blank indent -> all_chars blank tail -> tunnel_attrs attrs -> Forall named_broker bs ->
  (forall j a, attr_names KTunnel !! j = Some a -> assoc a attrs = None -> attr_at w Root 0 j = None) ->
  xml_service xm w (print (redirect_node indent attrs bs) ++ tail) =
    Ok (Some (mk_tTunnel (redirect_lists bs broker_redirect_ipv4) (redirect_lists bs broker_redirect_ipv6) (redirect_lists bs broker_redirect_dn))).
Proof.
  intros Hm Hinv Hi Ht Ha Hbs Hnull. unfold xml_service.
  destruct (xml_parse_ok xm (redirect_node indent attrs bs) tail (next_message w)) as (w' & -> & Hu & _); try done.
  - by apply redirect_node_ok.
  - cbn [mbind res_bind Z.eqb]. rewrite Hu, !redirect_meaning by done. done.
Qed.

Lemma announce_reverse ty bs :
  ty <> TSP_REDIRECT_BROKER_TYPE_NONE -> Forall named_broker bs ->
  announce ty (redirect_lists bs (list_of ty)) = Some (reverse (filter (fun b => list_of (address_type b) = list_of ty) bs)).
Proof.
  intros Hty Hbs. unfold redirect_lists. rewrite <- fmap_reverse.
  assert (Hf : Forall (fun b => address_type b = ty /\ distance b = 0 /\ good_address (address b))
    (reverse (filter (fun b => list_of (address_type b) = list_of ty) bs))).
  { apply Forall_reverse, list.Forall_forall. intros b. rewrite list_elem_of_filter. intros [He Hb].
    rewrite list.Forall_forall in Hbs. destruct (Hbs b Hb) as (Hn & Hd & Hg & _). split_and!; try done.
    by destruct (address_type b), ty. }
  induction Hf as [|b l (Ht & Hd & Hg) _ IH]; [done|]. cbn [fmap list_fmap]. rewrite announce_cons, IH, decide_True by done.
  cbn. do 2 f_equal. destruct b. cbn in *. congruence.
Qed.

Lemma Forall_filter_parts bs :
  Forall named_broker bs ->
  filter (fun b => list_of (address_type b) = broker_redirect_ipv4) bs ++
  filter (fun b => list_of (address_type b) = broker_redirect_ipv6) bs ++
  filter (fun b => list_of (address_type b) = broker_redirect_dn) bs ≡ₚ bs.
Proof.
  induction 1 as [|b bs (Hty & _) _ IH]; [done|]. rewrite !filter_cons.
  destruct (address_type b); [done|..]; cbn [list_of];
    repeat (rewrite decide_True by done || rewrite decide_False by done); (etrans; [|apply Permutation_skip, IH]); solve_Permutation.
Qed.

(** The brokers of the message, in the order of the client. *)
Definition client_order (bs : list tBroker) : list tBroker :=
  reverse (filter (fun b => list_of (address_type b) = broker_redirect_ipv4) bs) ++
  reverse (filter (fun b => list_of (address_type b) = broker_redirect_ipv6) bs) ++
  reverse (filter (fun b => list_of (address_type b) = broker_redirect_dn) bs).

Lemma client_order_perm bs : Forall named_broker bs -> client_order bs ≡ₚ bs.
Proof. intros H. unfold client_order. rewrite !reverse_Permutation. by apply Forall_filter_parts. Qed.

Lemma announced_redirect bs :
  Forall named_broker bs ->
  announced (mk_tTunnel (redirect_lists bs broker_redirect_ipv4) (redirect_lists bs broker_redirect_ipv6) (redirect_lists bs broker_redirect_dn))
    = Some (client_order bs).
Proof.
  intros H. unfold announced. cbn [Redirect.broker_redirect_ipv4 Redirect.broker_redirect_ipv6 Redirect.broker_redirect_dn].
  rewrite (announce_reverse TSP_REDIRECT_BROKER_TYPE_IPV4), (announce_reverse TSP_REDIRECT_BROKER_TYPE_IPV6),
    (announce_reverse TSP_REDIRECT_BROKER_TYPE_FQDN) by done. done.
Qed.

(** A message of the server: a status line and the description. *)
Definition redirect_payload (status indent : list Z) (attrs : list (list Z * list Z)) (bs : list tBroker) (tail : list Z) : list Z :=
  status ++ LF :: print (redirect_node indent attrs bs) ++ tail.

Lemma extract_redirect xm status indent attrs bs tail w :
  (forall k, xm k = true) -> inv sk0 w -> all_chars blank indent -> all_chars blank tail -> tunnel_attrs attrs -> Forall named_broker bs ->
  (forall j a, attr_names KTunnel !! j = Some a -> assoc a attrs = None -> attr_at w Root 0 j = None) ->
  Forall (fun c => c <> LF /\ c <> 0) status ->
  exists t, tspExtractPayload (xml_service xm w) (redirect_payload status indent attrs bs tail) = Ok (Some t) /\
    announced t = Some (client_order bs).
Proof.
  intros Hm Hinv Hi Ht Ha Hbs Hnull Hst. eexists. split; [|by apply announced_redirect].
  unfold tspExtractPayload, redirect_payload. rewrite strchr_first by done. rewrite drop_app_length.
  set (text := print (redirect_node indent attrs bs) ++ tail).
  assert (exists r, text = LT :: r) as [r Er] by (by eexists).
  rewrite Er. cbn [strchr]. change (LF =? 60) with false. change (LF =? 0) with false. change (LT =? 60) with true. cbn [fmap option_fmap option_map].
  cbn [drop]. rewrite <- Er, c_str_no_nul; [unfold text; by rewrite xml_service_redirect|].
  unfold text. apply no_nul_app. split; [|by eapply all_chars_no_nul]. apply no_nul_elem. by destruct (redirect_node_ok indent attrs bs).
Qed.

(** (C27) The redirection from the text of the message to the list of brokers: a
    message that names brokers, in any layout and any order, is parsed, measured
    and sorted without a fault; and when the handler succeeds, the message named 1
    to 50 brokers and the client is left with exactly those, the nearest first, if
    there are several.  Every block of the lists is accounted for, and any
    allocation, thread or write of the handler may fail.  Conditions: the
    allocations of the parser succeed; an attribute of <tunnel> that is missing
    here was not given by an earlier message either (the code keeps a pointer into
    a message that is freed: a finding); the status line is shorter than the
    1024 bytes of its buffer, and the list, printed for the log, than the 4096 bytes
    of its own, which the code does not test; and the names of the brokers hold no
    zero byte and no character < and are shorter than 255 bytes. *)
Theorem redirection_end_to_end malloc_ok thread_ok join_ok echo xm w status indent attrs bs tail open_ok write_ok l file h :
  (forall k, xm k = true) -> inv sk0 w -> all_chars blank indent -> all_chars blank tail -> tunnel_attrs attrs -> Forall named_broker bs ->
  (forall j a, attr_names KTunnel !! j = Some a -> assoc a attrs = None -> attr_at w Root 0 j = None) ->
  Forall (fun c => c <> LF /\ c <> 0) status ->
  (length (Redirect.scan_line (redirect_payload status indent attrs bs tail)) < MAX_REDIRECT_STATUS_LENGTH)%nat ->
  (length (rendered (client_order bs)) < MAX_BROKER_LIST_STRING_LENGTH)%nat ->
  exists s l' file' h',
    tspHandleRedirect malloc_ok thread_ok join_ok echo (tspExtractPayload (xml_service xm w))
      (redirect_payload status indent attrs bs tail) open_ok write_ok l file h = Ok ((s, l', file'), h') /\
    hp_live h' = hp_live h - Z.of_nat (length l) + Z.of_nat (length l') /\
    (s = TSP_REDIRECT_OK ->
       (1 <= length bs <= 50)%nat /\
       ((length bs = 1%nat /\ l' = bs) \/ ((1 < length bs)%nat /\ l' ≡ₚ (measured echo <$> bs) /\ StronglySorted closer l'))).
Proof.
  intros Hm Hinv Hi Ht Ha Hbs Hnull Hst Hline Hlog.
  destruct (extract_redirect xm status indent attrs bs tail w) as (t & Et & Hann); [done..|].
  pose proof (client_order_perm bs Hbs) as Hperm. pose proof (Permutation_length Hperm) as Hlen.
  assert (Hfits : fits (tspExtractPayload (xml_service xm w)) (redirect_payload status indent attrs bs tail)).
  { split_and!; [done|by eexists|]. intros t' l0 Et' Hl0. rewrite Et in Et'. injection Et' as <-. rewrite Hann in Hl0. by injection Hl0 as <-. }
  destruct (wp_ok _ _ _ (wp_handle malloc_ok thread_ok join_ok echo _ _ open_ok write_ok l file h Hfits))
    as ([[s l'] file'] & h' & E & Hlive & Hok).
  exists s, l', file', h'. split; [done|]. split; [done|]. intros Hs.
  destruct (Hok Hs) as (t' & l0 & Et' & Hl0 & Hn & Hcase). rewrite Et in Et'. injection Et' as <-. rewrite Hann in Hl0. injection Hl0 as <-.
  rewrite Hlen in Hn, Hcase. split; [done|]. destruct Hcase as [[H1 ->]|(H1 & Hp & Hsort)].
  - left. split; [done|]. destruct bs as [|b [|]]; try done. by apply Permutation_singleton_r.
  - right. split_and!; [done| |done]. by rewrite Hp, Hperm.
Qed.

Definition broker1 : tBroker := mk_broker (str "1.2.3.4") TSP_REDIRECT_BROKER_TYPE_IPV4 0.
Definition broker2 : tBroker := mk_broker (str "broker.example.net") TSP_REDIRECT_BROKER_TYPE_FQDN 0.
Definition action_info : list (list Z * list Z) := [(str "action", str "info")].

#[export] Instance named_broker_dec b : Decision (named_broker b).
Proof.
  unfold named_broker, good_address, no_lt. apply and_dec; [|apply _].
  destruct (address_type b); [right; by intros []|left; done..].
Defined.

Lemma redirection_end_to_end_witness :
  exists s l' file' h',
    tspHandleRedirect (fun _ => true) (fun _ => true) (fun _ => true) (fun _ => 5) (tspExtractPayload (xml_service (fun _ => true) xml0))
      (redirect_payload (str "1001 redirect") [LF] action_info [broker1; broker2] [LF]) true (fun _ => true) [] [] (mk_heap 0 0)
      = Ok ((s, l', file'), h') /\
    hp_live h' = hp_live (mk_heap 0 0) - Z.of_nat (length (@nil tBroker)) + Z.of_nat (length l') /\
    (s = TSP_REDIRECT_OK ->
       (1 <= length [broker1; broker2] <= 50)%nat /\
       ((length [broker1; broker2] = 1%nat /\ l' = [broker1; broker2]) \/
        ((1 < length [broker1; broker2])%nat /\ l' ≡ₚ (measured (fun _ => 5) <$> [broker1; broker2]) /\ StronglySorted closer l'))).
Proof.
  apply (redirection_end_to_end _ _ _ _ (fun _ => true) xml0);
    [done|apply inv_xml0|decided|decided|split; decided|decided| |decided|vm_compute; lia|vm_compute; lia].
  intros j a Hj Ha. do 5 (destruct j as [|j]; [done|]). done.
Defined.

(** ** The request *)

(** The fields of [tConf] that the request is made of. *)
Record request_conf := mk_request_conf {
  rq_tunnel_mode : tTunnelMode;
  rq_proxy_client : bool;
  rq_client_v4 : list Z;
  rq_client_v6 : list Z;
  rq_keepalive : bool;
  rq_keepalive_interval : Z;
  rq_host_type : list Z;
  rq_protocol : list Z;
  rq_prefixlen : Z;
  rq_dns_server : list Z;
  rq_routing_info : list Z;
}.

(** The static buffers [Request] (5000 pointers) and [Buffer], and the
    configuration, which the function changes. *)
Record request := mk_request { rq_text : list Z; rq_buffer : list Z; rq_conf : request_conf }.

Definition REQUEST_SIZE : Z := 5000 * 8.
Definition BUFFER_SIZE : nat := 1024.

(** [strcat (Request, s)] *)
Definition strcat (s : list Z) : st request unit :=
  r ← get;
  _ ← lift (guard_or OutOfBounds (Z.of_nat (length (rq_text r)) + Z.of_nat (length s) + 1 <=? REQUEST_SIZE));
  put (mk_request (rq_text r ++ s) (rq_buffer r) (rq_conf r)).

(** [pal_snprintf (Buffer, sizeof Buffer, ...)] *)
Definition snprintf (s : list Z) : st request unit :=
  modify (fun r => mk_request (rq_text r) (strlcpy s BUFFER_SIZE) (rq_conf r)).

Definition cat_buffer : st request unit := r ← get; strcat (rq_buffer r).

Definition set_prefixlen (n : Z) (c : request_conf) : request_conf :=
  mk_request_conf (rq_tunnel_mode c) (rq_proxy_client c) (rq_client_v4 c) (rq_client_v6 c) (rq_keepalive c) (rq_keepalive_interval c)
    (rq_host_type c) (rq_protocol c) n (rq_dns_server c) (rq_routing_info c).
Definition set_dns_server (s : list Z) (c : request_conf) : request_conf :=
  mk_request_conf (rq_tunnel_mode c) (rq_proxy_client c) (rq_client_v4 c) (rq_client_v6 c) (rq_keepalive c) (rq_keepalive_interval c)
    (rq_host_type c) (rq_protocol c) (rq_prefixlen c) s (rq_routing_info c).
Definition modify_conf (f : request_conf -> request_conf) : st request unit :=
  modify (fun r => mk_request (rq_text r) (rq_buffer r) (f (rq_conf r))).

(** The tokens of [strtok (s, ":")], and the string that it leaves. *)
Definition COLON : Z := 58.
Fixpoint split_on (c : Z) (s : list Z) : list (list Z) :=
  match s with
  | [] => [[]]
  | x :: s' => if x =? c then [] :: split_on c s' else
               match split_on c s' with [] => [[x]] | t :: ts => (x :: t) :: ts end
  end.
Definition tokens (s : list Z) : list (list Z) := filter (fun t => t <> []) (split_on COLON s).

Fixpoint first_token (s : list Z) : list Z :=
  match s with
  | [] => []
  | x :: s' => if x =? COLON then x :: first_token s' else
               x :: (fix upto s := match s with [] => [] | y :: s' => if y =? COLON then [] else y :: upto s' end) s'
  end.

Definition CRLF : list Z := [CR; LF].

Fixpoint dns_loop (servers : list (list Z)) : st request unit :=
  match servers with
  | [] => mret tt
  | s :: servers' =>
    _ ← snprintf (quoted "     <address type='dn'>" ++ s ++ quoted "</address>" ++ CRLF);
    _ ← cat_buffer;
    dns_loop servers'
  end.

Definition mode_text (m : tTunnelMode) : list Z :=
  match m with V6UDPV4 => str "v6udpv4" | V6V4 => str "v6v4" | V4V6 => str "v4v6" | _ => str "v6anyv4" end.

(** With [V4V6_SUPPORT], as the application is built. *)
Definition tspBuildCreateRequest : st request unit :=
  r ← get;
  let conf := rq_conf r in
  let v4v6 := bool_decide (rq_tunnel_mode conf = V4V6) in
  _ ← put (mk_request [] (rq_buffer r) conf);
  _ ← strcat (quoted "<tunnel action='create' type='");
  _ ← strcat (mode_text (rq_tunnel_mode conf));
  _ ← strcat (quoted (if rq_proxy_client conf then "' proxy='yes'>" else "' proxy='no'>") ++ CRLF);
  _ ← strcat (str " <client>" ++ CRLF);
  _ ← snprintf (if v4v6 then quoted "  <address type='ipv6'>" ++ rq_client_v6 conf ++ str "</address>" ++ CRLF
                else quoted "  <address type='ipv4'>" ++ rq_client_v4 conf ++ str "</address>" ++ CRLF);
  _ ← cat_buffer;
  _ ← (if rq_keepalive conf then
         _ ← snprintf (quoted "  <keepalive interval='" ++ decimal (rq_keepalive_interval conf) ++ quoted "'>" ++ CRLF ++
                       (if v4v6 then quoted "    <address type='ipv4'>127.0.0.1</address>"
                        else quoted "    <address type='ipv6'>::</address>") ++ CRLF ++ str "  </keepalive>" ++ CRLF);
         cat_buffer
       else mret tt);
  _ ← (if bool_decide (rq_host_type conf = str "router") then
         let default_route := bool_decide (rq_protocol conf = str "default_route") in
         _ ← strcat (str "  <router");
         _ ← (if default_route then mret tt else
              _ ← snprintf (quoted " protocol='" ++ rq_protocol conf ++ quoted "'"); cat_buffer);
         _ ← strcat (str ">" ++ CRLF);
         _ ← (if rq_prefixlen conf =? 0 then modify_conf (set_prefixlen (if v4v6 then 24 else 48)) else mret tt);
         r ← get;
         _ ← snprintf (quoted "   <prefix length='" ++ decimal (rq_prefixlen (rq_conf r)) ++ quoted "'/>" ++ CRLF);
         _ ← cat_buffer;
         _ ← (if bool_decide (rq_dns_server conf = []) then mret tt else
              _ ← strcat (str "   <dns_server>" ++ CRLF);
              _ ← modify_conf (set_dns_server (first_token (rq_dns_server conf)));
              _ ← dns_loop (tokens (rq_dns_server conf));
              strcat (str "   </dns_server>" ++ CRLF));
         _ ← (if default_route && negb (bool_decide (rq_routing_info conf = [])) then
                _ ← snprintf (str "    " ++ rq_routing_info conf ++ CRLF); cat_buffer
              else mret tt);
         strcat (str "  </router>" ++ CRLF)
       else mret tt);
  _ ← strcat (str " </client>" ++ CRLF);
  strcat (str "</tunnel>" ++ CRLF).

Definition tspBuildCreateAcknowledge : list Z := quoted "<tunnel action='accept'></tunnel>" ++ CRLF.

(** *** The size of the request *)

Lemma wp_strcat s (Q : unit -> request -> Prop) r :
  Z.of_nat (length (rq_text r)) + Z.of_nat (length s) < REQUEST_SIZE ->
  Q tt (mk_request (rq_text r ++ s) (rq_buffer r) (rq_conf r)) -> wp (strcat s) Q r.
Proof.
  intros H HQ. apply wp_bind, wp_get, wp_bind, wp_lift. rewrite guard_or_true by (apply Z.leb_le; lia). by apply wp_put.
Qed.

(** [grows k m]: the computation adds at most [k] bytes to the request, and
    leaves a buffer that is not overrun. *)
Definition grows (k : Z) (m : st request unit) : Prop :=
  forall r, (length (rq_buffer r) < BUFFER_SIZE)%nat -> Z.of_nat (length (rq_text r)) + k < REQUEST_SIZE ->
    wp m (fun _ r' => (length (rq_buffer r') < BUFFER_SIZE)%nat /\ Z.of_nat (length (rq_text r')) <= Z.of_nat (length (rq_text r)) + k) r.

Lemma grows_bind k1 k2 m1 m2 : 0 <= k2 -> grows k1 m1 -> grows k2 m2 -> grows (k1 + k2) (_ ← m1; m2).
Proof.
  intros Hk H1 H2 r Hb Hl. apply wp_bind. eapply wp_mono; [apply H1; [done|lia]|]. intros [] r' [Hb' Hl'].
  eapply wp_mono; [apply H2; [done|lia]|]. intros [] r'' [Hb'' Hl'']. split; [done|lia].
Qed.

Lemma grows_mono k k' m : grows k m -> k <= k' -> grows k' m.
Proof. intros H Hk r Hb Hl. eapply wp_mono; [apply H; [done|lia]|]. intros [] r' [? ?]. split; [done|lia]. Qed.

Lemma grows_strcat k s : Z.of_nat (length s) <= k -> grows k (strcat s).
Proof. intros Hs r Hb Hl. apply wp_strcat; [lia|]. cbn. rewrite length_app. split; [done|lia]. Qed.

Lemma grows_ret : grows 0 (mret tt).
Proof. intros r Hb Hl. apply wp_ret. split; [done|lia]. Qed.

Lemma grows_snprintf s : grows 0 (snprintf s).
Proof. intros r Hb Hl. apply wp_modify. cbn [rq_buffer rq_text]. split; [apply length_strlcpy; unfold BUFFER_SIZE; lia|lia]. Qed.

Lemma grows_modify_conf f : grows 0 (modify_conf f).
Proof. intros r Hb Hl. apply wp_modify. cbn. split; [done|lia]. Qed.

Lemma grows_cat_buffer : grows 1023 cat_buffer.
Proof.
  intros r Hb Hl. apply wp_bind, wp_get, wp_strcat; [unfold BUFFER_SIZE in Hb; lia|]. cbn. rewrite length_app.
  unfold BUFFER_SIZE in *. split; [done|lia].
Qed.

Lemma grows_if k (b : bool) m1 m2 : grows k m1 -> grows k m2 -> grows k (if b then m1 else m2).
Proof. by destruct b. Qed.

Lemma grows_get k m : (forall r, grows k (m r)) -> grows k (r ← get; m r).
Proof. intros H r Hb Hl. apply wp_bind, wp_get. by apply H. Qed.

Definition dns_size (ts : list (list Z)) : Z := foldr (fun t n => 36 + Z.of_nat (length t) + n) 0 ts.

Lemma dns_size_nonneg ts : 0 <= dns_size ts.
Proof. unfold dns_size. induction ts as [|t ts IH]; cbn [foldr]; lia. Qed.

Lemma grows_dns_loop ts : grows (dns_size ts) (dns_loop ts).
Proof.
  induction ts as [|t ts IH]; [apply grows_ret|]. cbn [dns_loop]. pose proof (dns_size_nonneg ts) as Hn.
  intros r Hb Hl. change (dns_size (t :: ts)) with (36 + Z.of_nat (length t) + dns_size ts) in Hl |- *.
  set (s := quoted _ ++ _). assert (Hs : length s = (36 + length t)%nat) by (unfold s; rewrite !length_app; cbn; lia).
  apply wp_bind, wp_modify, wp_bind, wp_bind, wp_get. cbn [rq_buffer].
  assert (length (strlcpy s BUFFER_SIZE) <= 36 + length t)%nat by (unfold strlcpy; rewrite length_take; lia).
  apply wp_strcat; cbn [rq_text rq_buffer rq_conf]; [lia|].
  eapply wp_mono; [apply IH; cbn [rq_text rq_buffer rq_conf]; [apply length_strlcpy; unfold BUFFER_SIZE; lia|rewrite length_app; lia]|].
  intros [] r' [H1 H2]. cbn [rq_text] in H2. rewrite length_app in H2. split; [done|lia].
Qed.

Lemma split_on_size c s : foldr (fun t n => Z.of_nat (length t) + 1 + n) 0 (split_on c s) = Z.of_nat (length s) + 1.
Proof.
  induction s as [|x s IH]; [done|]. cbn [split_on]. destruct (x =? c); [cbn [foldr length]; rewrite IH; lia|].
  destruct (split_on c s) as [|t ts]; cbn [foldr length] in *; lia.
Qed.

Lemma tokens_size s : dns_size (tokens s) <= 19 * Z.of_nat (length s) + 19.
Proof.
  pose proof (split_on_size COLON s) as H. unfold tokens. revert H. generalize (Z.of_nat (length s)).
  induction (split_on COLON s) as [|t ts IH]; intros n H; cbn [foldr] in H; [cbn; lia|].
  assert (0 <= foldr (fun t n => Z.of_nat (length t) + 1 + n) 0 ts) by (clear; induction ts; cbn [foldr]; lia).
  specialize (IH (n - Z.of_nat (length t) - 1) ltac:(lia)). rewrite filter_cons. case_decide as Ht; [|lia].
  change (dns_size (t :: ?l)) with (36 + Z.of_nat (length t) + dns_size l).
  assert (1 <= length t)%nat by (destruct t; [done|cbn; lia]). lia.
Qed.

Lemma grows_seq k1 k m1 m2 : 0 <= k1 <= k -> grows k1 m1 -> grows (k - k1) m2 -> grows k (_ ← m1; m2).
Proof. intros Hk H1 H2. eapply grows_mono; [apply (grows_bind k1 (k - k1)); [lia|done|done]|lia]. Qed.

Lemma grows_print s : grows 1023 (_ ← snprintf s; cat_buffer).
Proof. apply (grows_seq 0); [lia|apply grows_snprintf|apply grows_cat_buffer]. Qed.

Lemma grows_nothing k : 0 <= k -> grows k (mret tt).
Proof. intros Hk. eapply grows_mono; [apply grows_ret|done]. Qed.

Lemma request_builds r :
  (length (rq_buffer r) < BUFFER_SIZE)%nat -> Z.of_nat (length (rq_dns_server (rq_conf r))) <= 1800 ->
  exists r', tspBuildCreateRequest r = Ok (tt, r') /\ Z.of_nat (length (rq_text r')) < REQUEST_SIZE.
Proof.
  intros Hb Hdns. pose proof (tokens_size (rq_dns_server (rq_conf r))) as Hts.
  pose proof (dns_size_nonneg (tokens (rq_dns_server (rq_conf r)))) as Hnn.
  enough (wp tspBuildCreateRequest (fun _ r' => Z.of_nat (length (rq_text r')) < REQUEST_SIZE) r) as H.
  { apply wp_ok in H as ([] & r' & ? & ?). by exists r'. }
  unfold tspBuildCreateRequest. apply wp_bind, wp_get. cbv zeta. apply wp_bind, wp_put.
  set (conf := rq_conf r) in *. set (v4v6 := bool_decide _).
  match goal with |- wp ?m _ _ => enough (grows 39999 m) as Hg end.
  { eapply wp_mono; [apply Hg; [exact Hb|done]|]. intros [] r' [_ Hl]. cbn [rq_text length] in Hl. unfold REQUEST_SIZE. lia. }
  apply (grows_seq 31); [lia|apply grows_strcat; apply Z.leb_le; by vm_compute|].
  apply (grows_seq 7); [lia|apply grows_strcat; destruct (rq_tunnel_mode conf); apply Z.leb_le; by vm_compute|].
  apply (grows_seq 17); [lia|apply grows_strcat; destruct (rq_proxy_client conf); apply Z.leb_le; by vm_compute|].
  apply (grows_seq 11); [lia|apply grows_strcat; apply Z.leb_le; by vm_compute|].
  apply (grows_seq 0); [lia|apply grows_snprintf|].
  apply (grows_seq 1023); [lia|apply grows_cat_buffer|].
  apply (grows_seq 1023); [lia|apply grows_if; [|by apply grows_nothing]|].
  { apply grows_print. }
  apply (grows_seq 37800); [lia|apply grows_if; [|by apply grows_nothing]|].
  2: { apply (grows_seq 12); [lia|apply grows_strcat; apply Z.leb_le; by vm_compute|]. apply grows_strcat. apply Z.leb_le. by vm_compute. }
  apply (grows_seq 9); [lia|apply grows_strcat; apply Z.leb_le; by vm_compute|].
  apply (grows_seq 1023); [lia|apply grows_if; [by apply grows_nothing|apply grows_print]|].
  apply (grows_seq 3); [lia|apply grows_strcat; apply Z.leb_le; by vm_compute|].
  apply (grows_seq 0); [lia|apply grows_if; [apply grows_modify_conf|apply grows_ret]|].
  apply grows_get. intros r1.
  apply (grows_seq 0); [lia|apply grows_snprintf|]. apply (grows_seq 1023); [lia|apply grows_cat_buffer|].
  apply (grows_seq 34600); [lia|apply grows_if; [by apply grows_nothing|]|].
  { apply (grows_seq 17); [lia|apply grows_strcat; apply Z.leb_le; by vm_compute|].
    apply (grows_seq 0); [lia|apply grows_modify_conf|].
    apply (grows_seq (dns_size (tokens (rq_dns_server conf)))); [lia|apply grows_dns_loop|].
    eapply grows_mono; [apply (grows_strcat 18); apply Z.leb_le; by vm_compute|lia]. }
  apply (grows_seq 1023); [lia|apply grows_if; [apply grows_print|by apply grows_nothing]|].
  apply grows_strcat. apply Z.leb_le. by vm_compute.
Qed.

(** The request fits its buffer, whatever the configuration, as long as the
    list of name servers has at most 1800 characters: the static array is never
    written past its end, and the pieces that are formatted are cut to their own
    buffer. *)
Theorem request_fits r :
  (length (rq_buffer r) < BUFFER_SIZE)%nat -> Z.of_nat (length (rq_dns_server (rq_conf r))) <= 1800 ->
  exists r', tspBuildCreateRequest r = Ok (tt, r') /\ Z.of_nat (length (rq_text r')) < REQUEST_SIZE.
Proof. apply request_builds. Qed.

(** *** The name servers *)

Lemma split_on_nil c s : split_on c s <> [].
Proof. destruct s as [|x s]; [done|]. cbn. destruct (x =? c); [done|]. by destruct (split_on c s). Qed.

(** [strtok] leaves the string cut after its first token. *)
Lemma tokens_first s : tokens (first_token s) = take 1 (tokens s).
Proof.
  unfold tokens. induction s as [|x s IH]; [done|]. cbn [first_token].
  destruct (x =? COLON) eqn:Ex.
  - cbn [split_on]. rewrite Ex, !filter_cons. rewrite !decide_False by (intros H; by apply H). exact IH.
  - set (upto := fix upto s := match s with [] => [] | y :: s' => if y =? COLON then [] else y :: upto s' end).
    assert (Hu : forall s, split_on COLON (upto s) = [upto s] /\ exists ts, split_on COLON s = upto s :: ts).
    { intros s0. induction s0 as [|y s0 [IH1 [ts IH2]]]; [by split; [|exists []]|]. cbn [upto split_on].
      destruct (y =? COLON) eqn:Ey; [split; [done|]; by eexists|]. cbn [split_on]. rewrite Ey, IH1, IH2. split; [done|]. by eexists. }
    destruct (Hu s) as [H1 [ts H2]]. cbn [split_on]. rewrite Ex, H1, H2, !filter_cons, !decide_True by done. done.
Qed.

(** The list of name servers before and after a computation. *)
Definition dns_is (d : list Z) (m : st request unit) (d' : list Z) : Prop :=
  forall r r', rq_dns_server (rq_conf r) = d -> m r = Ok (tt, r') -> rq_dns_server (rq_conf r') = d'.

Lemma dns_seq d d1 d2 m1 m2 : dns_is d m1 d1 -> dns_is d1 m2 d2 -> dns_is d (_ ← m1; m2) d2.
Proof.
  intros H1 H2 r r' Hd. unfold mbind, st_bind. destruct (m1 r) as [[[] r1]|] eqn:E; [|done]. intros E2. by eapply H2; [eapply H1|].
Qed.

Lemma dns_get d d' m : (forall r, dns_is d (m r) d') -> dns_is d (r ← get; m r) d'.
Proof. intros H r r' Hd E. by eapply (H r). Qed.

Lemma dns_if d d' (b : bool) m1 m2 : dns_is d m1 d' -> dns_is d m2 d' -> dns_is d (if b then m1 else m2) d'.
Proof. by destruct b. Qed.

Lemma dns_ret d : dns_is d (mret tt) d.
Proof. intros r r' Hd. by intros [= <-]. Qed.

Lemma dns_strcat d s : dns_is d (strcat s) d.
Proof.
  intros r r' Hd. unfold strcat, mbind, st_bind, get, lift, guard_or. cbn.
  destruct (_ <=? _); [|done]. by intros [= <-].
Qed.

Lemma dns_snprintf d s : dns_is d (snprintf s) d.
Proof. intros r r' Hd. by intros [= <-]. Qed.

Lemma dns_cat_buffer d : dns_is d cat_buffer d.
Proof. apply dns_get. intros r. apply dns_strcat. Qed.

Lemma dns_prefixlen d n : dns_is d (modify_conf (set_prefixlen n)) d.
Proof. intros r r' Hd. by intros [= <-]. Qed.

Lemma dns_cut d d' : dns_is d (modify_conf (set_dns_server d')) d'.
Proof. intros r r' Hd. by intros [= <-]. Qed.

#[local] Hint Resolve dns_ret dns_strcat dns_snprintf dns_cat_buffer dns_prefixlen dns_if : dns.

Lemma dns_servers d ts : dns_is d (dns_loop ts) d.
Proof. induction ts as [|t ts IH]; [apply dns_ret|]. cbn [dns_loop]. do 2 (eapply dns_seq; [auto with dns|]). exact IH. Qed.

(** The list of name servers is cut after the first one by the request that
    sends it, so that every later request asks for that one only. *)
Theorem name_servers_lost r r' :
  tspBuildCreateRequest r = Ok (tt, r') -> rq_host_type (rq_conf r) = str "router" ->
  tokens (rq_dns_server (rq_conf r')) = take 1 (tokens (rq_dns_server (rq_conf r))).
Proof.
  intros E Hr. set (d := rq_dns_server (rq_conf r)).
  set (d' := if bool_decide (d = []) then d else first_token d).
  enough (rq_dns_server (rq_conf r') = d') as ->.
  { unfold d'. case_bool_decide as Hd; [by rewrite Hd|apply tokens_first]. }
  revert E. unfold tspBuildCreateRequest. unfold mbind at 1, st_bind at 1, get at 1. cbv zeta. cbn [rq_conf rq_buffer].
  unfold mbind at 1, st_bind at 1, put at 1. intros E.
  match type of E with ?m ?r0 = _ => enough (dns_is d m d') as H; [by apply (H r0 r')|] end. clear E.
  rewrite Hr, bool_decide_true by done. do 5 (eapply dns_seq; [by auto with dns|]). eapply dns_seq; [apply dns_cat_buffer|].
  eapply dns_seq; [apply dns_if; [eapply dns_seq; by auto with dns|apply dns_ret]|].
  eapply (dns_seq _ d'); [|eapply dns_seq; by auto with dns].
  eapply dns_seq; [by auto with dns|]. eapply dns_seq; [apply dns_if; [apply dns_ret|eapply dns_seq; by auto with dns]|].
  do 2 (eapply dns_seq; [by auto with dns|]). apply dns_get. intros r1. do 2 (eapply dns_seq; [by auto with dns|]).
  eapply (dns_seq _ d'); [|eapply dns_seq; [apply dns_if; [eapply dns_seq; by auto with dns|apply dns_ret]|by auto with dns]].
  unfold d'. fold d. case_bool_decide; [apply dns_ret|]. eapply dns_seq; [by auto with dns|]. eapply dns_seq; [apply dns_cut|].
  eapply dns_seq; [apply dns_servers|by auto with dns].
Qed.

(** *** The request of a host *)

(** The text and the buffer before and after a computation. *)
Definition writes (t b : list Z) (m : st request unit) (t' b' : list Z) : Prop :=
  forall r r', rq_text r = t -> rq_buffer r = b -> m r = Ok (tt, r') -> rq_text r' = t' /\ rq_buffer r' = b'.

Lemma writes_seq t b t1 b1 t2 b2 m1 m2 : writes t b m1 t1 b1 -> writes t1 b1 m2 t2 b2 -> writes t b (_ ← m1; m2) t2 b2.
Proof.
  intros H1 H2 r r' Ht Hb. unfold mbind, st_bind. destruct (m1 r) as [[[] r1]|] eqn:E; [|done].
  destruct (H1 r r1 Ht Hb E) as [Ht1 Hb1]. by apply H2.
Qed.

Lemma writes_ret t b : writes t b (mret tt) t b.
Proof. intros r r' Ht Hb. by intros [= <-]. Qed.

Lemma writes_strcat t b s : writes t b (strcat s) (t ++ s) b.
Proof.
  intros r r' <- <-. unfold strcat, mbind, st_bind, get, lift, guard_or. cbn. destruct (_ <=? _); [|done]. by intros [= <-].
Qed.

Lemma writes_snprintf t b s : (length s < BUFFER_SIZE)%nat -> writes t b (snprintf s) t s.
Proof. intros Hs r r' Ht Hb. intros [= <-]. split; [done|]. by apply strlcpy_short. Qed.

Lemma writes_cat_buffer t b : writes t b cat_buffer (t ++ b) b.
Proof. intros r r' Ht Hb E. apply (writes_strcat t b b r r' Ht Hb). rewrite <- Hb. exact E. Qed.

Definition keepalive_node (ty address interval : list Z) : node :=
  Node (CRLF ++ [SPACE; SPACE]) (str "keepalive") [(str "interval", interval)] false (CRLF ++ [SPACE; SPACE])
    [Node (CRLF ++ repeat SPACE 4) (str "address") [(str "type", ty)] false address []].

(** A client of a tunnel for IPv4 has an IPv6 address, and the others the reverse;
    the keep-alive is of the other family. *)
Definition inverted (c : request_conf) : bool := bool_decide (rq_tunnel_mode c = V4V6).
Definition outer_type (c : request_conf) : list Z := if inverted c then str "ipv6" else str "ipv4".
Definition outer_address (c : request_conf) : list Z := if inverted c then rq_client_v6 c else rq_client_v4 c.
Definition inner_type (c : request_conf) : list Z := if inverted c then str "ipv4" else str "ipv6".
Definition inner_address (c : request_conf) : list Z := if inverted c then str "127.0.0.1" else str "::".

(** What a host asks for. *)
Definition request_node (c : request_conf) : node :=
  Node [] (str "tunnel")
    [(str "action", str "create"); (str "type", mode_text (rq_tunnel_mode c)); (str "proxy", str (if rq_proxy_client c then "yes" else "no"))]
    false CRLF
    [Node (CRLF ++ [SPACE]) (str "client") [] false (CRLF ++ [SPACE])
       (Node (CRLF ++ [SPACE; SPACE]) (str "address") [(str "type", outer_type c)] false (outer_address c) [] ::
        (if rq_keepalive c then [keepalive_node (inner_type c) (inner_address c) (decimal (rq_keepalive_interval c))] else []))].

Definition host_conf (c : request_conf) : Prop :=
  rq_host_type c <> str "router" /\ 0 <= rq_keepalive_interval c /\
  no_nul (outer_address c) /\ no_lt (outer_address c) /\ (length (outer_address c) <= 900)%nat.

Lemma writes_print t b s : (length s < BUFFER_SIZE)%nat -> writes t b (_ ← snprintf s; cat_buffer) (t ++ s) s.
Proof. intros Hs. eapply writes_seq; [by apply writes_snprintf|apply writes_cat_buffer]. Qed.

Lemma request_text r r' :
  host_conf (rq_conf r) -> tspBuildCreateRequest r = Ok (tt, r') -> rq_text r' = print (request_node (rq_conf r)) ++ CRLF.
Proof.
  intros (Hh & _ & _ & _ & Hlen) E. pose proof (length_decimal (rq_keepalive_interval (rq_conf r))) as Hd.
  revert E. unfold tspBuildCreateRequest. unfold mbind at 1, st_bind at 1, get at 1. cbv zeta. cbn [rq_conf rq_buffer].
  unfold mbind at 1, st_bind at 1, put at 1. intros E. set (c := rq_conf r) in *.
  rewrite (bool_decide_false (rq_host_type c = str "router")) in E by done.
  unfold outer_address in Hlen. fold (inverted c) in E.
  match type of E with ?m ?r0 = _ => assert (exists t' b', writes [] (rq_buffer r) m t' b' /\ t' = print (request_node c) ++ CRLF) as (t' & b' & H & Et) end.
  2: { destruct (H (mk_request [] (rq_buffer r) c) r' eq_refl eq_refl E) as [-> _]. done. }
  clear E. unfold request_node, outer_type, outer_address, inner_type, inner_address.
  destruct (inverted c), (rq_keepalive c); eexists _, _; (split;
    [ do 4 (eapply writes_seq; [apply writes_strcat|]);
      (eapply writes_seq; [apply writes_snprintf; unfold BUFFER_SIZE; rewrite !length_app; cbn; lia|]);
      (eapply writes_seq; [apply writes_cat_buffer|]);
      (eapply writes_seq; [first [apply writes_ret|apply writes_print; unfold BUFFER_SIZE; rewrite !length_app; cbn; lia]|]);
      (eapply writes_seq; [apply writes_ret|]); eapply writes_seq; apply writes_strcat
    | clear; generalize (mode_text (rq_tunnel_mode c)) (decimal (rq_keepalive_interval c)); intros mt d;
      destruct (rq_proxy_client c); cbn; repeat (rewrite <- app_assoc; cbn [app]); reflexivity ]).
Qed.

Lemma tolower_decimal n : 0 <= n -> tolower <$> decimal n = decimal n.
Proof.
  intros Hn. pose proof (decimal_chars n Hn) as H. induction H as [|c s Hc _ IH]; [done|]. cbn [fmap list_fmap]. rewrite IH.
  unfold tolower. by replace ((65 <=? c) && (c <=? 90)) with false by lia.
Qed.

(** The conditions on a child: its text holds no end tag of its ancestors. *)
Definition child_ok (e : elem) : Prop :=
  elem_ok e /\ Forall (fun x => no_lt (snd x)) (e_attrs e) /\
  forall name, name_ok name -> name <> str "address" -> name <> str "keepalive" -> e_name e <> name /\ no_token name (e_content e).

Lemma address_child indent ty s :
  all_chars blank indent -> all_chars value_char ty -> no_lt ty -> no_nul s -> no_lt s ->
  child_ok (to_elem (Node indent (str "address") [(str "type", ty)] false s [])).
Proof.
  intros Hi Hty Hlt Hs Hslt. split_and!.
  - split_and!; try done; [decided|cbn; lia| |decided|by apply no_token_plain]. constructor; [|constructor]. split; [decided|done].
  - by repeat constructor.
  - intros name Hn Hne _. split; [by apply not_eq_sym|]. by apply no_token_plain.
Qed.

Lemma children_ok name es tail :
  name_ok name -> name <> str "address" -> name <> str "keepalive" -> all_chars blank tail -> Forall child_ok es ->
  no_token name (elems_text es tail) /\ no_nul (elems_text es tail).
Proof.
  intros Hn H1 H2 Ht Hes. split.
  - apply elems_no_token; [done|by apply blank_no_lt|]. eapply list.Forall_impl; [exact Hes|].
    intros e (? & ? & H). destruct (H name) as [? ?]; done.
  - apply no_nul_elems; [|by eapply all_chars_no_nul]. eapply list.Forall_impl; [exact Hes|]. by intros e [? _].
Qed.

Lemma keepalive_child c n : 0 <= n -> child_ok (to_elem (keepalive_node (inner_type c) (inner_address c) (decimal n))).
Proof.
  intros Hn. unfold inner_type, inner_address. pose proof (decimal_chars n Hn) as Hd.
  assert (Hv : all_chars value_char (decimal n)).
  { eapply list.Forall_impl; [exact Hd|]. intros x Hx. cbn beta in Hx. split; [lia|]. unfold value_char, LF, CR, GT, QUOTE. lia. }
  assert (Hl : no_lt (decimal n)) by (eapply list.Forall_impl; [exact Hd|]; intros x Hx; cbn beta in Hx; unfold LT; lia).
  assert (name_ok (str "keepalive")) by decided.
  destruct (inverted c); (
    match goal with |- child_ok (to_elem (keepalive_node ?ty ?s _)) =>
      set (a := Node (CRLF ++ repeat SPACE 4) (str "address") [(str "type", ty)] false s []) end;
    assert (Ha : child_ok (to_elem a)) by (apply address_child; decided); split; [|split];
    [ split_and!; try done; cbn [to_elem keepalive_node e_indent e_name e_attrs e_content fmap list_fmap fst];
        [decided|cbn; lia| |decided..];
      apply list.Forall_cons_2; [|apply list.Forall_nil_2]; split; [decided|done]
    | apply list.Forall_cons_2; [exact Hl|apply list.Forall_nil_2]
    | intros name Hname H1 H2; split; [by apply not_eq_sym|];
      destruct (children_ok name [to_elem a] (CRLF ++ [SPACE; SPACE])) as [Ht _];
        [done|done|done|decided|by apply list.Forall_cons_2|exact Ht] ]).
Qed.

Lemma request_node_ok c : host_conf c -> node_ok Root (request_node c).
Proof.
  intros (_ & Hk & Hs & Hlt & _). unfold request_node.
  set (a := Node (CRLF ++ [SPACE; SPACE]) (str "address") [(str "type", outer_type c)] false (outer_address c) []).
  set (ks := if rq_keepalive c then [keepalive_node (inner_type c) (inner_address c) (decimal (rq_keepalive_interval c))] else []).
  assert (Hty : all_chars value_char (outer_type c) /\ no_lt (outer_type c)) by (unfold outer_type; destruct (inverted c); split; decided).
  assert (Ha : child_ok (to_elem a)) by (apply address_child; [decided|apply Hty|apply Hty|done|done]).
  assert (Hkids : Forall child_ok (map to_elem (a :: ks))).
  { cbn [map]. constructor; [done|]. unfold ks. destruct (rq_keepalive c); cbn [map]; [|constructor].
    constructor; [by apply keepalive_child|constructor]. }
  set (cl := Node (CRLF ++ [SPACE]) (str "client") [] false (CRLF ++ [SPACE]) (a :: ks)).
  assert (Hcl : elem_ok (to_elem cl)).
  { destruct (children_ok (str "client") (map to_elem (a :: ks)) (CRLF ++ [SPACE])) as [Ht Hn]; [decided|done|done|decided|done|].
    split_and!; try done; cbn [to_elem cl e_indent e_name e_attrs fmap list_fmap fst]; decided. }
  split.
  - assert (name_ok (str "tunnel")) by decided.
    destruct (children_ok (str "tunnel") (map to_elem (a :: ks)) (CRLF ++ [SPACE])) as [Ht Hn]; [done|done|done|decided|done|].
    split_and!; try done; cbn [to_elem e_indent e_name e_attrs fmap list_fmap fst]; [decided|decided| |decided| |].
    + constructor; [split; decided|]. constructor; [split; [decided|cbn [snd]; destruct (rq_tunnel_mode c); decided]|].
      constructor; [split; [decided|cbn [snd]; destruct (rq_proxy_client c); decided]|constructor].
    + apply (no_nul_elems [to_elem cl]); [by constructor|decided].
    + apply (elems_no_token _ [to_elem cl]); [done|decided|]. constructor; [|constructor]. by split_and!.
  - split; [done|]. split; [done|]. split; [decided|]. split; [|done]. split; [exact Hcl|].
    split; [done|]. split; [done|]. split; [decided|]. split.
    + destruct Ha as [Ha _]. split; [exact Ha|]. split; [intros _; by repeat constructor|done].
    + unfold ks. destruct (rq_keepalive c); [|done]. destruct (keepalive_child c _ Hk) as [Hok _]. split; [|done].
      split; [exact Hok|]. split; [intros _; by repeat constructor|]. split; [done|]. split; [decided|].
      split; [|done]. unfold inner_type, inner_address.
      destruct (inverted c); (split; [|by split; [intros _; repeat constructor|]]); decided.
Qed.

(** The fields that the request of a host sets. *)
Definition requested (c : request_conf) (t : tunnel) : Prop :=
  fields t action = Some (Live (str "create")) /\
  fields t type = Some (Live (mode_text (rq_tunnel_mode c))) /\
  fields t proxy = Some (Live (str (if rq_proxy_client c then "yes" else "no"))) /\
  fields t (if inverted c then client_address_ipv6 else client_address_ipv4) = Some (Live (tolower <$> outer_address c)) /\
  fields t keepalive_interval = (if rq_keepalive c then Some (Live (decimal (rq_keepalive_interval c))) else None) /\
  fields t keepalive_address = (if rq_keepalive c then Some (Live (inner_address c)) else None).

Lemma request_meaning c : 0 <= rq_keepalive_interval c -> requested c (meaning Root (request_node c) (reset_flags tunnel0)).
Proof.
  intros Hk. pose proof (tolower_decimal _ Hk) as Hd.
  unfold requested, request_node, outer_type, outer_address, inner_type, inner_address. generalize (inverted c). intros i. destruct (rq_keepalive c).
  - revert Hd. generalize (decimal (rq_keepalive_interval c)). intros d Hd.
    destruct i; (split_and!; [by destruct (rq_proxy_client c)|by destruct (rq_tunnel_mode c)|by destruct (rq_proxy_client c)|done| |done]);
      change (Some (Live (tolower <$> d)) = Some (Live d)); by rewrite Hd.
  - destruct i; (split_and!; [done|by destruct (rq_tunnel_mode c)|by destruct (rq_proxy_client c)|done..]).
Qed.

(** (C28) The request of a host can be built, in every mode, IPv4 over IPv6 included,
    and the parser of the other side, which reads the same language, gets back from
    it the kind of tunnel, the address of the client, in lower case, and the
    keep-alive that the configuration asks for.  Conditions: the configuration is
    not that of a router; the address has at most 900 bytes and no character <; the
    interval is not negative; the list of name servers has at most 1800 bytes (the
    static buffer is not tested) and what an earlier request left in that buffer
    fits it; the parser was never given a lifetime or an MTU
    (it would read them from a message that is freed), and its allocations
    succeed. *)
Theorem request_roundtrip r w :
  host_conf (rq_conf r) -> (length (rq_buffer r) < BUFFER_SIZE)%nat -> Z.of_nat (length (rq_dns_server (rq_conf r))) <= 1800 ->
  inv sk0 w -> attr_at w Root 0 2 = None -> attr_at w Root 0 4 = None ->
  exists r' w', tspBuildCreateRequest r = Ok (tt, r') /\
    tspXMLParse (fun _ => true) (rq_text r') (next_message w) = Ok (0, w') /\ requested (rq_conf r) (user w').
Proof.
  intros Hc Hb Hd Hinv H2 H4. destruct (request_builds r Hb Hd) as (r' & E & _). exists r'.
  rewrite (request_text r r' Hc E).
  destruct (xml_parse_ok (fun _ => true) (request_node (rq_conf r)) CRLF (next_message w)) as (w' & Hw' & Hu & _); try done.
  - by apply request_node_ok.
  - decided.
  - intros j a Hj Ha. destruct j as [|[|[|[|[|j]]]]]; cbn in Hj; try done; injection Hj as <-; done.
  - exists w'. split; [done|]. split; [done|]. rewrite Hu. apply request_meaning. by destruct Hc as (_ & ? & _).
Qed.

(** ** Examples *)

Definition conf0 : request_conf :=
  mk_request_conf V6UDPV4 false (str "192.0.2.1") [] true 30 (str "host") (str "default_route") 0 [] [].
Definition conf1 : request_conf :=
  mk_request_conf V6V4 false (str "auto") (str "auto") true 30 (str "router") (str "default_route") 0 (str "ns1.example.net:ns2.example.net") [].
(** In the mode V4V6 the families change places. *)
Definition conf_v4v6 : request_conf :=
  mk_request_conf V4V6 false (str "auto") (str "2001:db8::2") true 30 (str "router") (str "default_route") 0 [] [].

Definition request0 (c : request_conf) : request := mk_request [] [] c.

Lemma request_fits_witness :
  exists r', tspBuildCreateRequest (request0 conf1) = Ok (tt, r') /\ Z.of_nat (length (rq_text r')) < REQUEST_SIZE.
Proof. apply (request_fits (request0 conf1)); [vm_compute; lia|apply Z.leb_le; by vm_compute]. Defined.

Lemma request_roundtrip_witness :
  exists r' w', tspBuildCreateRequest (request0 conf0) = Ok (tt, r') /\
    tspXMLParse (fun _ => true) (rq_text r') (next_message xml0) = Ok (0, w') /\ requested conf0 (user w').
Proof.
  apply (request_roundtrip (request0 conf0) xml0); [|vm_compute; lia|apply Z.leb_le; by vm_compute|apply inv_xml0|done|done].
  split_and!; [done|done|decided|decided|apply Nat.leb_le; by vm_compute].
Defined.

Example v4v6_request :
  match tspBuildCreateRequest (request0 conf_v4v6) with
  | Ok (_, r) => rq_text r =
      quoted "<tunnel action='create' type='v4v6' proxy='no'>" ++ CRLF ++ str " <client>" ++ CRLF ++
      quoted "  <address type='ipv6'>2001:db8::2</address>" ++ CRLF ++ quoted "  <keepalive interval='30'>" ++ CRLF ++
      quoted "    <address type='ipv4'>127.0.0.1</address>" ++ CRLF ++ str "  </keepalive>" ++ CRLF ++ str "  <router>" ++ CRLF ++
      quoted "   <prefix length='24'/>" ++ CRLF ++ str "  </router>" ++ CRLF ++ str " </client>" ++ CRLF ++ str "</tunnel>" ++ CRLF
  | Err _ => False
  end.
Proof. vm_compute. reflexivity. Qed.

Definition request1 : request := Eval vm_compute in
  match tspBuildCreateRequest (request0 conf1) with Ok (_, r) => r | Err _ => request0 conf1 end.

Lemma name_servers_lost_witness : tokens (rq_dns_server (rq_conf request1)) = take 1 (tokens (rq_dns_server conf1)).
Proof. apply (name_servers_lost (request0 conf1) request1); [vm_compute; reflexivity|done]. Defined.
