(* ===== verification/Discovery.v ===== *)
(** * Local client discovery ([discovery.c], [discovery.h], [iothread.c])

The table of local interfaces, the multicast discovery bubbles, and the
reference-counted life of the discovery object. *)

From stdpp Require Import base gmap list numbers.
From S2P Require Import Prelude Words Addr Md5 Security Udp Packets.

(** ** Threads ([iothread.c]) *)

(** [struct teredo_iothread]: the procedure is identified by the file
    descriptor it serves. *)
Record teredo_iothread := mk_teredo_iothread { io_fd : Z }.

Definition teredo_iothread_start (mem thread : bool) (fd : Z) : option teredo_iothread :=
  if negb mem then None else
  if negb thread then None else Some (mk_teredo_iothread fd).

(** The descriptor that [teredo_iothread_stop] closes, if any. *)
Definition teredo_iothread_stop (io : teredo_iothread) (close : bool) : option Z :=
  if close then Some (io_fd io) else None.

(** ** The discovery object *)

(** [struct teredo_discovery_interface]. *)
Record interface := mk_interface { if_addr : Z; if_mask : Z }.

(** [ifaces] is the allocated array; code that reads past it is at fault. *)
Record teredo_discovery := mk_teredo_discovery {
  refcnt : Z;
  ifaces : list interface;
  d_src : in6_addr;
  d_recv : option teredo_iothread;
  d_send : option teredo_iothread;
}.

(** [teredo_discovery_params]; [ifname_re] stands for the compiled expression
    and [regexec] on it. *)
Record teredo_discovery_params := mk_teredo_discovery_params {
  disc_netmask : Z;
  forced : bool;
  ifname_re : option (list Z -> bool);
}.

(** An element of the list of [getifaddrs]. *)
Record ifaddr := mk_ifaddr {
  ifa_name : list Z;
  ifa_multicast : bool;     (* ifa_flags & IFF_MULTICAST *)
  ifa_addr : option Z;      (* AF_INET address, if there is one *)
  ifa_netmask : option Z;   (* None: null pointer *)
}.

Fixpoint is_ipv4_discovered (ifs : list interface) (ip : Z) : res bool :=
  match ifs with
  | [] => Err OutOfBounds
  | i :: ifs =>
    if if_addr i =? 0 then Ok false else
    if Z.land (Z.lxor ip (if_addr i)) (if_mask i) =? 0 then Ok true
    else is_ipv4_discovered ifs ip
  end.

Definition IsDiscoveryBubble (packet : teredo_packet) : res bool :=
  h ← get_ip6 (ip6 packet);
  Ok (IsBubble h && (dest_ipv4 packet =? htonl TEREDO_DISCOVERY_IPV4)
      && mem_eqb (ip6_dst h) in6addr_allnodes).

Section discovery.
Context `{Env}.

(** The loop of [SendDiscoveryBubble] over the interfaces. *)
Fixpoint send_bubbles (src : in6_addr) (fd : Z) (ifs : list interface) : st world unit :=
  match ifs with
  | [] => lift (Err OutOfBounds)
  | i :: ifs =>
    if if_addr i =? 0 then mret tt else
    emit (Multicast_if fd (if_addr i));;
    r ← ask env_setsockopt;
    (if r <? 0 then mret tt
     else teredo_send_bubble_anyway fd (htonl TEREDO_DISCOVERY_IPV4) (htons IPPORT_TEREDO)
            src in6addr_allnodes;; mret tt);;
    send_bubbles src fd ifs
  end.

Definition SendDiscoveryBubble (d : teredo_discovery) (fd : Z) : st world unit :=
  send_bubbles (d_src d) fd (ifaces d).

(** One round of [teredo_sendmcast_thread]; returns the delay in seconds
    before the next one. *)
Definition teredo_sendmcast_round (k : hmac_state) (d : teredo_discovery) (fd : Z)
    : st world Z :=
  SendDiscoveryBubble d fd;;
  now ← teredo_clock;
  mret (200 + teredo_get_flbits k now mod 100).

Definition teredo_discovery_joinmcast (sk ifaddr : Z) : st world unit :=
  emit (Join_mcast sk ifaddr);; r ← ask env_setsockopt; mret tt.

(** Whether the enumeration loop keeps an interface: its address and mask. *)
Definition select_iface (params : teredo_discovery_params) (ifa : ifaddr) : res (option interface) :=
  match ifa_addr ifa with
  | None => Ok None
  | Some addr =>
    if negb (ifa_multicast ifa) then Ok None else
    if negb (forced params) && is_ipv4_global_unicast addr then Ok None else
    if match ifname_re params with Some re => negb (re (ifa_name ifa)) | None => false end
    then Ok None else
    mask ← from_option NullDeref (ifa_netmask ifa);
    Ok (Some (mk_interface addr mask))
  end.

(** The enumeration loop; [mems] are the answers of [realloc].  [acc] is
    the array built so far, [None] before the first allocation. *)
Fixpoint collect_ifaces (params : teredo_discovery_params) (mems : nat -> bool)
    (acc : option (list interface)) (ifas : list ifaddr) : res (option (list interface)) :=
  match ifas with
  | [] => Ok acc
  | ifa :: ifas =>
    i ← select_iface params ifa;
    match i with
    | None => collect_ifaces params mems acc ifas
    | Some i =>
      let l := default [] acc in
      if negb (mems (length l)) then Ok acc
      else collect_ifaces params mems (Some (l ++ [i])) ifas
    end
  end.

Fixpoint join_ifaces (sk : Z) (ifs : list interface) : st world unit :=
  match ifs with
  | [] => lift (Err OutOfBounds)
  | i :: ifs =>
    if if_addr i =? 0 then mret tt else
    teredo_discovery_joinmcast sk (if_addr i);; join_ifaces sk ifs
  end.

(** What the system answers to [teredo_discovery_start]. *)
Record start_env := mk_start_env {
  se_malloc : bool;
  se_ifaddrs : option (list ifaddr);
  se_realloc : nat -> bool;
  se_socket : Z;
  se_recv : bool;
  se_send : bool;
}.

(** The last mask of the array is whatever the memory held. *)
Definition teredo_discovery_start (params : teredo_discovery_params) (fd : Z) (src : in6_addr)
    (se : start_env) : st world (option teredo_discovery) :=
  if negb (se_malloc se) then mret None else
  match se_ifaddrs se with
  | None => mret None
  | Some ifas =>
    ifs ← lift (collect_ifaces params (se_realloc se) None ifas);
    match ifs with
    | None => mret None
    | Some l =>
      let l := l ++ [mk_interface 0 0] in
      if se_socket se <? 0 then mret None else
      join_ifaces (se_socket se) l;;
      emit (Multicast_loop_off fd);;
      mret (Some (mk_teredo_discovery 1 l src
              (teredo_iothread_start true (se_recv se) (se_socket se))
              (teredo_iothread_start true (se_send se) fd)))
    end
  end.
End discovery.

Definition set_refcnt (n : Z) (d : teredo_discovery) : teredo_discovery :=
  mk_teredo_discovery n (ifaces d) (d_src d) (d_recv d) (d_send d).

Definition teredo_discovery_grab (d : teredo_discovery) : res teredo_discovery :=
  guard_or AssertFailed (negb (refcnt d =? 0));;
  Ok (set_refcnt (refcnt d + 1) d).

(** [None]: the object was released. *)
Definition teredo_discovery_release (d : teredo_discovery) : res (option teredo_discovery) :=
  guard_or AssertFailed (negb (refcnt d =? 0));;
  let d := set_refcnt (refcnt d - 1) d in
  if negb (refcnt d =? 0) then Ok (Some d) else
  guard_or AssertFailed (negb (bool_decide (is_Some (d_send d))));;
  guard_or AssertFailed (negb (bool_decide (is_Some (d_recv d))));;
  Ok None.

Definition teredo_discovery_stop (d : teredo_discovery) : res (option teredo_discovery) :=
  teredo_discovery_release (mk_teredo_discovery (refcnt d) (ifaces d) (d_src d) None None).

(** ** The table of interfaces *)

(** What an interface must be to be used for local discovery. *)
Definition suitable (params : teredo_discovery_params) (ifa : ifaddr) (addr mask : Z) : Prop :=
  ifa_addr ifa = Some addr /\ ifa_netmask ifa = Some mask /\ ifa_multicast ifa = true /\
  (forced params = true \/ is_ipv4_global_unicast addr = false) /\
  (forall re, ifname_re params = Some re -> re (ifa_name ifa) = true).

(** Every AF_INET interface has a netmask. *)
Definition masks_ok (ifas : list ifaddr) : Prop :=
  Forall (fun ifa => is_Some (ifa_addr ifa) -> is_Some (ifa_netmask ifa)) ifas.

Lemma select_iface_ok params ifa :
  (is_Some (ifa_addr ifa) -> is_Some (ifa_netmask ifa)) ->
  exists r, select_iface params ifa = Ok r /\
    (forall i, r = Some i -> suitable params ifa (if_addr i) (if_mask i)).
Proof.
  intros Hm. unfold select_iface. destruct (ifa_addr ifa) as [addr|] eqn:Ea;
    [|by eexists; split].
  destruct Hm as [mask Hmask]; [done|]. rewrite Hmask. cbn [from_option mbind res_bind].
  destruct (ifa_multicast ifa) eqn:Em; cbn [negb]; [|by eexists; split].
  destruct (negb (forced params) && is_ipv4_global_unicast addr) eqn:Ef; [by eexists; split|].
  destruct (match ifname_re params with Some re => negb (re (ifa_name ifa)) | None => false end) eqn:Er;
    [by eexists; split|].
  eexists. split; [done|]. intros i [= <-]. cbn [if_addr if_mask].
  split_and!; try done.
  - apply andb_false_iff in Ef as [Ef%negb_false_iff|Ef]; [by left|by right].
  - intros re Ere. rewrite Ere in Er. by apply negb_false_iff in Er.
Qed.

Definition table_ok (params : teredo_discovery_params) (ifas : list ifaddr) (l : list interface) : Prop :=
  Forall (fun i => exists ifa, ifa ∈ ifas /\ suitable params ifa (if_addr i) (if_mask i)) l.

Lemma collect_ifaces_ok params mems all ifas acc :
  masks_ok ifas -> (forall ifa, ifa ∈ ifas -> ifa ∈ all) -> table_ok params all (default [] acc) ->
  exists r, collect_ifaces params mems acc ifas = Ok r /\ table_ok params all (default [] r).
Proof.
  revert acc. induction ifas as [|ifa ifas IH]; intros acc Hm Hin Hacc; cbn [collect_ifaces];
    [by exists acc|].
  apply list.Forall_cons in Hm as [Hm Hms].
  destruct (select_iface_ok params ifa Hm) as (r & -> & Hr). cbn [mbind res_bind].
  assert (forall x, x ∈ ifas -> x ∈ all) as Hin' by (intros x Hx; apply Hin; by right).
  destruct r as [i|]; [|by apply IH].
  destruct (negb (mems _)); [by exists acc|]. apply IH; [done|done|]. cbn [default].
  apply list.Forall_app. split; [done|]. apply list.Forall_cons. split; [|constructor].
  exists ifa. split; [apply Hin; by left|by apply Hr].
Qed.

Lemma is_ipv4_discovered_ok params ifas l z ip :
  table_ok params ifas l -> if_addr z = 0 ->
  exists b, is_ipv4_discovered (l ++ [z]) ip = Ok b /\
    (b = true -> exists ifa addr mask, ifa ∈ ifas /\ suitable params ifa addr mask /\
       Z.land (Z.lxor ip addr) mask = 0).
Proof.
  intros Hl Hz. induction l as [|i l IH]; cbn [app is_ipv4_discovered].
  - exists false. by rewrite Hz.
  - apply list.Forall_cons in Hl as [(ifa & Hin & Hi) Hl].
    destruct (if_addr i =? 0); [by exists false|].
    destruct (Z.eqb_spec (Z.land (Z.lxor ip (if_addr i)) (if_mask i)) 0) as [E|_]; [|by apply IH].
    exists true. split; [done|]. intros _. eauto 10.
Qed.

Section start.
Context `{Env}.

Lemma send_bubbles_ok src fd l z w :
  if_addr z = 0 -> exists w', send_bubbles src fd (l ++ [z]) w = Ok (tt, w').
Proof.
  intros Hz. revert w. induction l as [|i l IH]; intros w; cbn [app send_bubbles].
  - rewrite Hz. by exists w.
  - destruct (if_addr i =? 0); [by exists w|].
    unfold mbind, st_bind, emit, ask; cbn [w_k w_out].
    destruct (_ <? 0); cbn; [apply IH|].
    unfold teredo_send_bubble_anyway, teredo_sendv, mbind, st_bind, emit, ask; cbn. apply IH.
Qed.

Lemma join_ifaces_ok sk l z w :
  if_addr z = 0 -> exists w', join_ifaces sk (l ++ [z]) w = Ok (tt, w').
Proof.
  intros Hz. revert w. induction l as [|i l IH]; intros w; cbn [app join_ifaces].
  - rewrite Hz. by exists w.
  - destruct (if_addr i =? 0); [by exists w|]. apply IH.
Qed.

(** A started discovery: threads may have failed to start. *)
Definition discovery_ok (d : teredo_discovery) : Prop :=
  0 < refcnt d /\ exists l z, ifaces d = l ++ [z] /\ if_addr z = 0.

Lemma discovery_start_ok params fd src se w :
  (forall ifas, se_ifaddrs se = Some ifas -> masks_ok ifas) ->
  exists d w', teredo_discovery_start params fd src se w = Ok (d, w') /\
    forall d0, d = Some d0 -> refcnt d0 = 1 /\ d_src d0 = src /\
      exists ifas l, se_ifaddrs se = Some ifas /\ table_ok params ifas l /\
        ifaces d0 = l ++ [mk_interface 0 0].
Proof.
  intros Hm. unfold teredo_discovery_start.
  destruct (se_malloc se); cbn [negb]; [|by eexists None, w].
  destruct (se_ifaddrs se) as [ifas|]; [|by eexists None, w].
  destruct (collect_ifaces_ok params (se_realloc se) ifas ifas None) as (r & Er & Hr);
    [by apply Hm|done|constructor|].
  unfold mbind at 1, st_bind at 1, lift. rewrite Er.
  destruct r as [l|]; [|by eexists None, w].
  destruct (se_socket se <? 0); [by eexists None, w|].
  destruct (join_ifaces_ok (se_socket se) l (mk_interface 0 0) w eq_refl) as [w1 E1].
  unfold mbind at 1, st_bind at 1. rewrite E1.
  unfold mbind, st_bind, emit. eexists _, _. split; [done|].
  intros d0 [= <-]. split_and!; [done..|]. by exists ifas, l.
Qed.
End start.

(** Local discovery never looks past its interface table, and a packet
    only counts as coming from a local network if its source is on the subnet
    of a multicast-capable interface that the configuration allows: matching
    the name pattern, and not globally addressed unless this is forced. *)
Theorem discovery_table_sound `{Env} (params : teredo_discovery_params) (fd ip : Z) (src : in6_addr)
    (se : start_env) (ifas : list ifaddr) (w : world)
    (Hifas : se_ifaddrs se = Some ifas) (Hm : masks_ok ifas) :
  exists d w', teredo_discovery_start params fd src se w = Ok (d, w') /\
    forall d0, d = Some d0 ->
      exists b, is_ipv4_discovered (ifaces d0) ip = Ok b /\
        (b = true -> exists ifa addr mask, ifa ∈ ifas /\ suitable params ifa addr mask /\
           Z.land (Z.lxor ip addr) mask = 0).
Proof.
  destruct (discovery_start_ok params fd src se w) as (d & w' & E & Hd).
  { intros ifas' E. rewrite E in Hifas. by injection Hifas as ->. }
  exists d, w'. split; [done|]. intros d0 Ed. destruct (Hd d0 Ed) as (_ & _ & ifas' & l & Ei & Hl & ->).
  rewrite Ei in Hifas. injection Hifas as ->. by apply (is_ipv4_discovered_ok params).
Qed.

Definition example_ifaddrs : list ifaddr :=
  [mk_ifaddr [108; 111] false (Some (ipv4 127 0 0 1)) (Some (ipv4 255 0 0 0));
   mk_ifaddr [101; 110; 48] true (Some (ipv4 192 168 1 2)) (Some (ipv4 255 255 255 0));
   mk_ifaddr [101; 110; 49] true (Some (ipv4 8 8 8 8)) (Some (ipv4 255 255 255 0))].

Definition example_params : teredo_discovery_params :=
  mk_teredo_discovery_params (ipv4 255 255 255 0) false (Some (fun n => negb (mem_eqb n []))).

Definition example_start : start_env :=
  mk_start_env true (Some example_ifaddrs) (fun _ => true) 9 true true.

Lemma discovery_table_sound_witness :
  (exists d w', @teredo_discovery_start quiet_env example_params 3 example_us example_start
                  (mk_world 0 []) = Ok (d, w') /\
    forall d0, d = Some d0 ->
      exists b, is_ipv4_discovered (ifaces d0) (ipv4 192 168 1 77) = Ok b /\
        (b = true -> exists ifa addr mask, ifa ∈ example_ifaddrs /\
           suitable example_params ifa addr mask /\
           Z.land (Z.lxor (ipv4 192 168 1 77) addr) mask = 0)) /\
  match @teredo_discovery_start quiet_env example_params 3 example_us example_start
          (mk_world 0 []) with
  | Ok (Some d, _) => is_ipv4_discovered (ifaces d) (ipv4 192 168 1 77) = Ok true /\
                      is_ipv4_discovered (ifaces d) (ipv4 8 8 8 9) = Ok false
  | _ => False
  end.
Proof.
  split; [|vm_compute; split; reflexivity].
  apply (@discovery_table_sound quiet_env example_params 3 (ipv4 192 168 1 77) example_us
           example_start example_ifaddrs (mk_world 0 []) eq_refl).
  repeat (apply list.Forall_cons; split; [intros _; eexists; reflexivity|]). constructor.
Defined.

(** ** Reference counting *)

Fixpoint grabs (n : nat) (d : teredo_discovery) : res teredo_discovery :=
  match n with O => Ok d | S n => d ← teredo_discovery_grab d; grabs n d end.

(** Releases until the object is gone; the number of references left over. *)
Fixpoint releases (n : nat) (d : teredo_discovery) : res (option teredo_discovery) :=
  match n with
  | O => Ok (Some d)
  | S n => d ← teredo_discovery_release d;
           match d with Some d => releases n d | None => if decide (n = 0%nat) then Ok None else Err UseAfterFree end
  end.

Lemma grabs_ok n d : 0 < refcnt d -> grabs n d = Ok (set_refcnt (refcnt d + Z.of_nat n) d).
Proof.
  revert d. induction n as [|n IH]; intros d Hd; cbn [grabs].
  - rewrite Z.add_0_r. by destruct d.
  - unfold teredo_discovery_grab. destruct (Z.eqb_spec (refcnt d) 0); [lia|].
    cbn [negb guard_or mbind res_bind]. rewrite IH by (cbn [refcnt set_refcnt]; lia).
    cbn [refcnt set_refcnt].
    by replace (refcnt d + 1 + Z.of_nat n) with (refcnt d + Z.of_nat (S n)) by lia.
Qed.

Lemma releases_ok n d :
  refcnt d = Z.of_nat n -> (0 < n)%nat -> d_send d = None -> d_recv d = None ->
  releases n d = Ok None.
Proof.
  revert d. induction n as [|n IH]; intros d Hn H0 Hs Hr; [lia|]. cbn [releases].
  unfold teredo_discovery_release. destruct (Z.eqb_spec (refcnt d) 0); [lia|].
  cbn [negb guard_or mbind res_bind refcnt set_refcnt].
  destruct (Z.eqb_spec (refcnt d - 1) 0) as [E|E]; cbn [negb].
  - cbn [d_send d_recv set_refcnt]. rewrite Hs, Hr. cbn. assert (n = 0%nat) as -> by lia.
    by rewrite decide_True.
  - apply IH; cbn [refcnt set_refcnt d_send d_recv]; [lia..|done|done].
Qed.

(** Life cycle of a discovery object: however many times it was grabbed
    before it is stopped, it stays allocated until the last of these
    references is released, no assertion fails, and that release frees it. *)
Theorem discovery_refcount (n : nat) (d : teredo_discovery) (Hd : refcnt d = 1) :
  exists d1, grabs n d = Ok d1 /\
    match n with
    | O => teredo_discovery_stop d1 = Ok None
    | S _ => exists d2, teredo_discovery_stop d1 = Ok (Some d2) /\ releases n d2 = Ok None
    end.
Proof.
  exists (set_refcnt (refcnt d + Z.of_nat n) d). split; [by apply grabs_ok; lia|].
  rewrite Hd. destruct n as [|n]; [done|].
  unfold teredo_discovery_stop, teredo_discovery_release. cbn [refcnt set_refcnt].
  destruct (Z.eqb_spec (1 + Z.of_nat (S n)) 0); [lia|].
  cbn [negb guard_or mbind res_bind refcnt set_refcnt].
  destruct (Z.eqb_spec (1 + Z.of_nat (S n) - 1) 0); [lia|]. cbn [negb].
  eexists. split; [done|]. apply releases_ok; cbn [refcnt set_refcnt d_send d_recv]; [lia..|done|done].
Qed.

Lemma discovery_refcount_witness :
  exists d1, grabs 2 (mk_teredo_discovery 1 [] [] None None) = Ok d1 /\
    exists d2, teredo_discovery_stop d1 = Ok (Some d2) /\ releases 2 d2 = Ok None.
Proof. apply (discovery_refcount 2 (mk_teredo_discovery 1 [] [] None None) eq_refl). Defined.
