(* ===== verification/MiredoDaemon.v ===== *)
(** * The miredo daemons ([miredo/src/relayd.c], [serverd.c], [checkconf.c], [miredo.c])

A supervisor ([miredo.c]) reads the configuration, forks a child and restarts
it on request or when it is killed.  The child turns the configuration into
calls of libteredo and of the tunnel device: [relay_run] for clients and
relays, [server_run] for servers.  A separate tool checks a configuration
without running anything.  The calls of a child are recorded in a trace of
events; the answers of the operating system and of the libraries are fields of
a record, and the resolver and [regcomp] are parameters.  What goes to
[syslog] is left out, except the messages of the configuration module, which
the checking tool counts. *)

From stdpp Require Import base gmap list numbers strings.
From S2P Require Import Prelude Words CString Addr MiredoConf Discovery.

(** ** The configuration of a client or relay ([relayd.c]) *)

Definition TEREDO_CONE : Z := 0.
Definition TEREDO_RESTRICT : Z := 1.
Definition TEREDO_CLIENT : Z := 2.
Definition NI_MAXHOST : nat := 1025.
Definition INADDR_ANY : Z := 0.

Definition is_client (mode : Z) : bool := negb (Z.land mode TEREDO_CLIENT =? 0).

(** The variables of [relay_run] when the configuration has been read. *)
Record relay_setup := mk_relay_setup {
  r_mode : Z;
  r_server : option (list Z);
  r_server2 : option (list Z);
  r_disc : option teredo_discovery_params;
  r_prefix : Z;
  r_mtu : Z;
  r_cone : bool;
  r_bind_ip : Z;
  r_bind_port : Z;
  r_ifname : option (list Z);
}.

Abbreviation conf_op := (st miredo_conf).

(** The settings, as operations on the configuration. *)
Definition get_setting (name : list Z) : conf_op (option (list Z * Z)) := miredo_conf_get name.
Definition free_setting : conf_op unit := modify free_value.
Definition clear_settings (show : Z) : conf_op unit := fun c => c' ← miredo_conf_clear show c; Ok (tt, c').

(** The first result is false for an error. *)
Definition ParseRelayType (name : list Z) (type : Z) : conf_op (bool * Z) :=
  x ← get_setting name;
  match x with
  | None => mret (true, type)
  | Some (val, line) =>
    let type' :=
      if strcasecmp0 val (str "client") || strcasecmp0 val (str "autoclient") then Some TEREDO_CLIENT
      else if strcasecmp0 val (str "restricted") then Some TEREDO_RESTRICT
      else if strcasecmp0 val (str "relay") || strcasecmp0 val (str "cone") then Some TEREDO_CONE
      else None in
    free_setting;;
    match type' with Some t => mret (true, t) | None => mret (false, type) end
  end.

(** [*disc_params] is the address of the local structure, here its contents, or
    null. *)
Definition ParseLocalDiscovery (name : list Z) (ldp : teredo_discovery_params) :
    conf_op (bool * bool * teredo_discovery_params) :=
  x ← get_setting name;
  match x with
  | None => mret (true, true, ldp)
  | Some (val, line) =>
    let unforced := mk_teredo_discovery_params (disc_netmask ldp) false (ifname_re ldp) in
    free_setting;;
    if strcasecmp0 val (str "enabled") then mret (true, true, unforced) else
    if strcasecmp0 val (str "forced") then mret (true, true, unforced) else
    if strcasecmp0 val (str "disabled") then mret (true, false, ldp) else
    mret (false, true, ldp)
  end.

Section daemon.
Context (getaddrinfo4 : list Z -> option Z) (getaddrinfo6 : list Z -> option (list Z)).
Context (regcomp : list Z -> option (list Z -> bool)).

Definition ParseDiscoveryInterfaces (name : list Z) : conf_op (bool * option (list Z -> bool)) :=
  x ← get_setting name;
  match x with
  | None => mret (true, None)
  | Some (val, line) =>
    free_setting;;
    match regcomp val with
    | None => mret (false, None)
    | Some re => mret (true, Some re)
    end
  end.

Definition parse_IPv4 (name : list Z) (ipv4 : Z) : conf_op (bool * Z) := miredo_conf_parse_IPv4 getaddrinfo4 name ipv4.
Definition parse_prefix (name : list Z) (prefix : Z) : conf_op (bool * Z) :=
  miredo_conf_parse_teredo_prefix getaddrinfo6 name prefix.
Definition get_int16 (name : list Z) (value : Z) : conf_op (bool * Z) := miredo_conf_get_int16 name value.

(** The servers and the parameters of the local discovery of a client. *)
Definition client_config (server_name : option (list Z)) :
    conf_op (option (option (list Z) * option (list Z) * option teredo_discovery_params)) :=
  servers ←
    match server_name with
    | Some s => mret (Some (s, None))
    | None =>
      x ← get_setting (str "ServerAddress");
      match x with
      | Some v =>
        free_setting;;
        y ← get_setting (str "ServerAddress2");
        match y with
        | Some v2 => free_setting;; mret (Some (strlcpy v.1 NI_MAXHOST, Some (strlcpy v2.1 NI_MAXHOST)))
        | None => mret (Some (strlcpy v.1 NI_MAXHOST, None))
        end
      | None => mret None
      end
    end;
  match servers with
  | None => mret None
  | Some (s, s2) =>
    d ← ParseLocalDiscovery (str "LocalDiscovery") (mk_teredo_discovery_params 0xffffffff false None);
    let '(ok, on, ldp) := d in
    if negb ok then mret None else
    i ← ParseDiscoveryInterfaces (str "DiscoveryInterfaces");
    let '(ok, re) := i in
    if negb ok then mret None else
    m ← parse_IPv4 (str "DiscoveryNetmask") (disc_netmask ldp);
    let '(ok, mask) := m in
    if negb ok then mret None else
    mret (Some (Some s, s2, if on : bool then Some (mk_teredo_discovery_params mask (forced ldp) re) else None))
  end.

(** The prefix and the MTU of a relay. *)
Definition static_config (prefix mtu : Z) : conf_op (option (Z * Z)) :=
  p ← parse_prefix (str "Prefix") prefix;
  let '(ok, prefix) := p in
  if negb ok then mret None else
  m ← get_int16 (str "InterfaceMTU") mtu;
  let '(ok, mtu) := m in
  if negb ok then mret None else mret (Some (prefix, mtu)).

(** What clients and relays have in common: the addresses of the socket and the
    name of the device. *)
Definition bind_config : conf_op (option (Z * Z)) :=
  a ← parse_IPv4 (str "BindAddress") INADDR_ANY;
  let '(ok, bind_ip) := a in
  if negb ok then mret None else
  p ← get_int16 (str "BindPort") 0;
  let '(ok, bind_port) := p in
  if negb ok then mret None else mret (Some (bind_ip, htons bind_port)).

(** The first part of [relay_run]; [None] when it returns -2. *)
Definition relay_config (server_name : option (list Z)) : conf_op (option relay_setup) :=
  t ← ParseRelayType (str "RelayType") TEREDO_CLIENT;
  let '(ok, mode) := t in
  if negb ok then mret None else
  s ← (if is_client mode then
         c ← client_config server_name;
         match c with
         | None => mret None
         | Some (s, s2, d) => mret (Some (s, s2, d, htonl TEREDO_PREFIX, 1280, false))
         end
       else
         p ← static_config (htonl TEREDO_PREFIX) 1280;
         match p with
         | None => mret None
         | Some (prefix, mtu) => mret (Some (None, None, None, prefix, mtu, mode =? TEREDO_CONE))
         end);
  match s with
  | None => mret None
  | Some (s, s2, d, prefix, mtu, cone) =>
    b ← bind_config;
    match b with
    | None => mret None
    | Some (bind_ip, bind_port) =>
      i ← get_setting (str "InterfaceName");
      clear_settings 5;;
      mret (Some (mk_relay_setup mode s s2 d prefix mtu cone bind_ip bind_port (fst <$> i)))
    end
  end.

(** ** Running a client or relay ([relayd.c]) *)

(** What the child does, in the order of the calls. *)
Inductive event :=
| Tun6Create (ifname : option (list Z))
| Tun6SetMTU (mtu : Z) | Tun6BringUp | Tun6AddAddress | Tun6AddRoute (prefix : Z)
| Tun6Destroy
| PrivprocStart | PrivprocStop
| TeredoStartup (client : bool) | TeredoCleanup (client : bool)
| IcmpOpen | IcmpClose
| Chroot | Setuid
| TeredoCreate (ip port : Z) | SetCallbacks | SetStateCallbacks
| SetClientMode (server server2 : option (list Z))
| SetDiscoveryParams (params : teredo_discovery_params)
| SetPrefix (prefix : Z) | SetConeFlag (cone : bool) | SetRelayMode
| RunAsync | EncapStart | EncapStop
| TeredoDestroy
| ServerCreate (ip ip2 : Z) | ServerSetPrefix (prefix : Z) | ServerSetMTU (mtu : Z) | ServerStart | ServerStop
| ServerDestroy.

(** The answers of the system and of the libraries; true is success. *)
Record run_env := mk_run_env {
  e_tun6_create : bool; e_enosys : bool; e_tun6_create_any : bool;
  e_socketpair : bool; e_fork : bool;
  e_setMTU : bool; e_bringUp : bool; e_addAddress : bool; e_addRoute : bool;
  e_startup : bool; e_icmp : bool;
  e_chroot : option bool;   (* None: no directory was given *)
  e_setuid : bool;
  e_create : bool; e_client_mode : Z; e_discovery_params : Z; e_relay_mode : Z;
  e_run_async : bool; e_pthread : bool;
  e_server_create : bool; e_server_prefix : bool; e_server_mtu : bool; e_server_start : bool;
}.

Abbreviation run_op := (st (list event)).
Definition emit (x : event) : run_op unit := modify (fun tr => tr ++ [x]).

Section run.
Context (e : run_env).

Definition drop_privileges : run_op Z :=
  match e_chroot e with
  | Some false => mret (-1)
  | c =>
    (match c with Some _ => emit Chroot | None => mret tt end);;
    if e_setuid e then emit Setuid;; mret 0 else mret (-1)
  end.

(** The descriptor of the socket to the privileged process is open or -1. *)
Definition create_dynamic_tunnel (ifname : option (list Z)) : run_op (bool * bool) :=
  if negb (e_tun6_create e) then mret (false, false) else
  emit (Tun6Create ifname);;
  if negb (e_socketpair e) || negb (e_fork e) then emit Tun6Destroy;; mret (false, false) else
  emit PrivprocStart;; mret (true, true).

Definition destroy_dynamic_tunnel (privfd : bool) : run_op unit :=
  lift (guard_or AssertFailed privfd);;
  emit PrivprocStop;; emit Tun6Destroy.

Definition create_static_tunnel (ifname : option (list Z)) (prefix mtu : Z) : run_op bool :=
  made ← (if e_tun6_create e then emit (Tun6Create ifname);; mret true
          else match ifname with
               | Some _ => if e_enosys e && e_tun6_create_any e then emit (Tun6Create None);; mret true else mret false
               | None => mret false
               end);
  if negb made then mret false else
  if negb (e_setMTU e) then emit Tun6Destroy;; mret false else
  emit (Tun6SetMTU mtu);;
  if negb (e_bringUp e) then emit Tun6Destroy;; mret false else
  emit Tun6BringUp;;
  if negb (e_addAddress e) then emit Tun6Destroy;; mret false else
  emit Tun6AddAddress;;
  if negb (e_addRoute e) then emit Tun6Destroy;; mret false else
  emit (Tun6AddRoute prefix);;
  mret true.

Definition miredo_init (client : bool) : run_op Z :=
  if negb (e_startup e) then mret (-1) else
  emit (TeredoStartup client);;
  if negb (e_icmp e) then mret (-1) else
  emit IcmpOpen;; mret 0.

Definition miredo_deinit (client : bool) : run_op unit :=
  emit IcmpClose;; emit (TeredoCleanup client).

Definition setup_client (server server2 : option (list Z)) (disc_params : option teredo_discovery_params) : run_op Z :=
  emit SetStateCallbacks;;
  emit (SetClientMode server server2);;
  let r := e_client_mode e in
  match disc_params with
  | Some p => if r =? 0 then emit (SetDiscoveryParams p);; mret (e_discovery_params e) else mret r
  | None => mret r
  end.

Definition setup_relay (prefix : Z) (cone : bool) : run_op Z :=
  emit (SetPrefix prefix);; emit (SetConeFlag cone);; emit SetRelayMode;; mret (e_relay_mode e).

(** The thread that encapsulates runs until the signal comes. *)
Definition run_tunnel : run_op Z :=
  if negb (e_run_async e) then mret (-1) else
  emit RunAsync;;
  if negb (e_pthread e) then mret (-1) else
  emit EncapStart;; emit EncapStop;; mret 0.

(** The second part of [relay_run]. *)
Definition relay_setup_run (su : relay_setup) : run_op Z :=
  let client := is_client (r_mode su) in
  t ← (if client then create_dynamic_tunnel (r_ifname su)
       else made ← create_static_tunnel (r_ifname su) (r_prefix su) (r_mtu su); mret (made, false));
  let '(made, privfd) := t in
  if negb made then mret (-1) else
  i ← miredo_init client;
  retval ←
    (if negb (i =? 0) then mret (-1) else
     d ← drop_privileges;
     retval ←
       (if negb (d =? 0) then mret (-1) else
        if negb (e_create e) then mret (-1) else
        emit (TeredoCreate (r_bind_ip su) (r_bind_port su));;
        emit SetCallbacks;;
        retval ← (if client then setup_client (r_server su) (r_server2 su) (r_disc su)
                  else setup_relay (r_prefix su) (r_cone su));
        retval ← (if retval =? 0 then run_tunnel else mret retval);
        emit TeredoDestroy;;
        mret retval);
     miredo_deinit client;;
     mret retval);
  (if client then destroy_dynamic_tunnel privfd else emit Tun6Destroy);;
  mret retval.

Definition relay_run (server_name : option (list Z)) : conf_op (Z * list event) :=
  su ← relay_config server_name;
  match su with
  | None => mret (-2, [])
  | Some su =>
    x ← lift (relay_setup_run su []);
    (match r_ifname su with Some _ => free_setting | None => mret tt end);;
    mret x
  end.

(** ** Running a server ([serverd.c]) *)

Definition server_ips (server_name : option (list Z)) : conf_op (option (Z * Z)) :=
  match server_name with
  | Some s => mret (match GetIPv4ByName getaddrinfo4 s with Some a => Some (a, INADDR_ANY) | None => None end)
  | None =>
    a ← parse_IPv4 (str "ServerBindAddress") INADDR_ANY;
    let '(ok, ip) := a in
    if negb ok then mret None else
    b ← parse_IPv4 (str "ServerBindAddress2") INADDR_ANY;
    let '(ok, ip2) := b in
    if negb ok then mret None else mret (Some (ip, ip2))
  end.

(** The configuration; [None] when [server_run] returns -2. *)
Definition server_config (server_name : option (list Z)) : conf_op (option (Z * Z * Z * Z)) :=
  ips ← server_ips server_name;
  match ips with
  | None => mret None
  | Some (server_ip, server_ip2) =>
    if server_ip =? INADDR_ANY then mret None else
    let server_ip2 := if server_ip2 =? INADDR_ANY then htonl (wrap 32 (ntohl server_ip + 1)) else server_ip2 in
    p ← static_config (htonl TEREDO_PREFIX) 1280;
    match p with
    | None => mret None
    | Some (prefix, mtu) => clear_settings 5;; mret (Some (server_ip, server_ip2, prefix, mtu))
    end
  end.

(** From the creation of the server; waiting for the signal is not an event. *)
Definition server_setup_run (ip ip2 prefix mtu : Z) : run_op Z :=
  (if e_server_create e then emit (ServerCreate ip ip2) else mret tt);;
  d ← drop_privileges;
  if negb (d =? 0) then mret (-1) else
  if negb (e_server_create e) then mret (-1) else
  started ←
    (if negb (e_server_prefix e) then mret false else
     emit (ServerSetPrefix prefix);;
     if negb (e_server_mtu e) then mret false else
     emit (ServerSetMTU mtu);;
     if negb (e_server_start e) then mret false else emit ServerStart;; mret true);
  if started : bool then emit ServerStop;; emit ServerDestroy;; mret 0
  else emit ServerDestroy;; mret (-1).

Definition server_run (server_name : option (list Z)) : conf_op (Z * list event) :=
  su ← server_config server_name;
  match su with
  | None => mret (-2, [])
  | Some (ip, ip2, prefix, mtu) => lift (server_setup_run ip ip2 prefix mtu [])
  end.
End run.

(** ** Checking a configuration ([checkconf.c]) *)

(** The relay type: whether it is a client, and the result so far. *)
Definition check_type (res : Z) : conf_op (bool * Z) :=
  v ← get_setting (str "RelayType");
  match v with
  | Some val =>
    free_setting;;
    mret (if strcasecmp0 val.1 (str "client") || strcasecmp0 val.1 (str "autoclient") then (true, res)
          else if strcasecmp0 val.1 (str "relay") || strcasecmp0 val.1 (str "cone") || strcasecmp0 val.1 (str "restricted")
               then (false, res) else (true, -1))
  | None => mret (true, res)
  end.

(** The settings of a client or a relay.  Variables that only receive results
    are passed as 0.  [pref] is what the uninitialised variable of that name
    happens to hold: it is read when there is no such setting. *)
Definition check_specific (pref : Z) (client : bool) (res : Z) : conf_op Z :=
  if client then
    a ← parse_IPv4 (str "ServerAddress") 0;
    let '(ok, ip) := a in
    res ← (if negb ok then mret (-1) else
           b ← parse_IPv4 (str "ServerAddress2") 0;
           mret (if b.1 : bool then res else -1));
    mret (if ip =? 0 then -1 else res)
  else
    p ← static_config pref 0;
    mret (match p with Some _ => res | None => -1 end).

Definition miredo_checkconf (pref : Z) : conf_op Z :=
  f ← (miredo_conf_parse_syslog_facility (str "SyslogFacility") 0 : conf_op (bool * Z));
  let res := if f.1 : bool then 0 else -1 in
  t ← check_type res;
  let '(client, res) := t in
  res ← check_specific pref client res;
  b ← bind_config;
  let res := match b with Some _ => res | None => -1 end in
  i ← get_setting (str "InterfaceName");
  (match i with Some _ => free_setting | None => mret tt end);;
  clear_settings 5;;
  mret res.

(** [failed] is set by the logger, whatever it logs. *)
Definition miredo_checkconffile (pref : Z) (create_ok : bool) (file : option (list Z * bool)) (mem : Z -> bool * bool * bool) : res Z :=
  if negb create_ok then Ok (-1) else
  x ← miredo_conf_read_file file mem miredo_conf_create;
  let '(ok, c) := x in
  y ← (if negb ok then Ok (true, c) else
       r ← miredo_checkconf pref c;
       let '(r, c) := r in Ok (negb (r =? 0), c));
  let '(failed, c) := y in
  c ← miredo_conf_destroy c;
  Ok (if failed || negb (bool_decide (logged c = [])) then -1 else 0).
End daemon.

(** ** The supervisor ([miredo.c]) *)

Definition SIGHUP : Z := 1.
Definition SIGINT : Z := 2.
Definition SIGQUIT : Z := 3.
Definition SIGTERM : Z := 15.
Definition SIGCHLD : Z := 20.
Definition LOG_DAEMON : Z := 24.

Inductive wait_status := Exited (code : Z) | Signaled (signum : Z).

Inductive sup_event := Forked (facility : Z) | Killed | Reaped (s : wait_status) | Slept.

(** The answers in one turn of the loop: the file, the allocations while it is
    read, whether [fork] succeeds, the signals in the order in which [sigwait]
    returns them, each with whether [waitpid] finds that the child has died, and
    how the child ended. *)
Record round := mk_round {
  rd_file : option (list Z * bool);
  rd_mem : Z -> bool * bool * bool;
  rd_fork : bool;
  rd_signals : list (Z * bool);
  rd_status : wait_status;
}.

(** The inner loop: the new [retval] and whether the child was told to end;
    [None] when the signals are used up. *)
Fixpoint wait_child (signals : list (Z * bool)) (retval : Z) : option (Z * bool) :=
  match signals with
  | [] => None
  | (signum, died) :: signals' =>
    if (signum =? SIGCHLD) && died then Some (retval, false) else
    if (signum =? SIGINT) || (signum =? SIGQUIT) || (signum =? SIGTERM) then Some (0, true) else
    if signum =? SIGHUP then Some (2, true) else
    wait_child signals' retval
  end.

(** One turn of the outer loop: [retval], or [None] while the child runs. *)
Definition miredo_round (r : round) : conf_op (option Z * list sup_event) :=
  x ← (miredo_conf_read_file (rd_file r) (rd_mem r) : conf_op bool);
  f ← (miredo_conf_parse_syslog_facility (str "SyslogFacility") LOG_DAEMON : conf_op (bool * Z));
  if negb (rd_fork r) then mret (Some 1, []) else
  clear_settings 0;;
  mret (match wait_child (rd_signals r) 1 with
        | None => (None, [Forked f.2])
        | Some (retval, told) =>
          let tr := [Forked f.2] ++ (if told : bool then [Killed] else []) ++ [Reaped (rd_status r)] in
          match rd_status r with
          | Exited code => (Some (if code =? 0 then retval else 1), tr)
          | Signaled _ => (Some 2, tr ++ [Slept])
          end
        end).

Fixpoint miredo_loop (rounds : list round) : conf_op (option Z * list sup_event) :=
  match rounds with
  | [] => mret (None, [])
  | r :: rounds' =>
    x ← miredo_round r;
    match x with
    | (None, tr) => mret (None, tr)
    | (Some retval, tr) =>
      if retval =? 2 then
        y ← miredo_loop rounds';
        let '(ret, tr') := y in mret (ret, tr ++ tr')
      else clear_settings 0;; mret (Some (- retval), tr)
    end
  end.

Definition miredo (create_ok : bool) (rounds : list round) : res (option Z * list sup_event * miredo_conf) :=
  if negb create_ok then Ok (Some (-1), [], miredo_conf_create) else miredo_loop rounds miredo_conf_create.

(** The child: the exit status that the supervisor sees. *)
Definition miredo_child (run : conf_op (Z * list event)) (c : miredo_conf) : res (wait_status * list event) :=
  x ← run c;
  let '(retval, tr, c) := x in
  c ← miredo_conf_destroy c;
  Ok (Exited (wrap 8 (- retval)), tr).

(** ** What the settings mean *)

(** The first setting of a name, in any case of letters. *)
Definition setting_of (A : list directive) (name : list Z) : option (list Z * Z) := fst (spec_get name A).

Definition relay_type (x : option (list Z * Z)) : option Z :=
  match x with
  | None => Some TEREDO_CLIENT
  | Some (v, _) =>
    if strcasecmp0 v (str "client") || strcasecmp0 v (str "autoclient") then Some TEREDO_CLIENT
    else if strcasecmp0 v (str "restricted") then Some TEREDO_RESTRICT
    else if strcasecmp0 v (str "relay") || strcasecmp0 v (str "cone") then Some TEREDO_CONE
    else None
  end.

(** Whether local discovery is on. *)
Definition discovery_mode (x : option (list Z * Z)) : option bool :=
  match x with
  | None => Some true
  | Some (v, _) =>
    if strcasecmp0 v (str "enabled") || strcasecmp0 v (str "forced") then Some true
    else if strcasecmp0 v (str "disabled") then Some false else None
  end.

Definition int16_of (x : option (list Z * Z)) (default : Z) : option Z :=
  match x with
  | None => Some default
  | Some (v, _) => if bool_decide (snd (strtoul v) = []) && (fst (strtoul v) <=? 65535) then Some (fst (strtoul v)) else None
  end.

Section meaning.
Context (getaddrinfo4 : list Z -> option Z) (getaddrinfo6 : list Z -> option (list Z)).
Context (regcomp : list Z -> option (list Z -> bool)).

Definition ipv4_of (x : option (list Z * Z)) (default : Z) : option Z :=
  match x with None => Some default | Some (v, _) => getaddrinfo4 v end.

Definition interfaces_of (x : option (list Z * Z)) : option (option (list Z -> bool)) :=
  match x with None => Some None | Some (v, _) => Some <$> regcomp v end.

(** A prefix is tested even when it is the default. *)
Definition prefix_of_setting (x : option (list Z * Z)) (default : Z) : option Z :=
  p ← match x with None => Some (le_load (take 4 (le_split 4 default ++ repeat 0 12))) | Some (v, _) => le_load ∘ take 4 <$> getaddrinfo6 v end;
  if is_valid_teredo_prefix p then Some p else None.

(** The settings of a client and of a relay. *)
Definition servers_meaning (f : list Z -> option (list Z * Z)) (server_name : option (list Z)) : option (list Z * option (list Z)) :=
  match server_name with
  | Some s => Some (s, None)
  | None =>
    s ← f (str "ServerAddress");
    Some (strlcpy (fst s) NI_MAXHOST, (fun s2 => strlcpy (fst s2) NI_MAXHOST) <$> f (str "ServerAddress2"))
  end.

Definition client_meaning (f : list Z -> option (list Z * Z)) (server_name : option (list Z)) :
    option (option (list Z) * option (list Z) * option teredo_discovery_params) :=
  s ← servers_meaning f server_name;
  on ← discovery_mode (f (str "LocalDiscovery"));
  re ← interfaces_of (f (str "DiscoveryInterfaces"));
  mask ← ipv4_of (f (str "DiscoveryNetmask")) 0xffffffff;
  Some (Some (fst s), snd s, if on : bool then Some (mk_teredo_discovery_params mask false re) else None).

Definition static_meaning (f : list Z -> option (list Z * Z)) (prefix mtu : Z) : option (Z * Z) :=
  p ← prefix_of_setting (f (str "Prefix")) prefix;
  m ← int16_of (f (str "InterfaceMTU")) mtu;
  Some (p, m).

Definition bind_meaning (f : list Z -> option (list Z * Z)) : option (Z * Z) :=
  ip ← ipv4_of (f (str "BindAddress")) INADDR_ANY;
  port ← int16_of (f (str "BindPort")) 0;
  Some (ip, htons port).

(** The part that differs between clients and relays. *)
Definition specific_meaning (f : list Z -> option (list Z * Z)) (mode : Z) (server_name : option (list Z)) :
    option (option (list Z) * option (list Z) * option teredo_discovery_params * Z * Z * bool) :=
  if is_client mode then
    c ← client_meaning f server_name; Some (c, htonl TEREDO_PREFIX, 1280, false)
  else
    p ← static_meaning f (htonl TEREDO_PREFIX) 1280; Some (None, None, None, fst p, snd p, mode =? TEREDO_CONE).

Definition relay_meaning (f : list Z -> option (list Z * Z)) (server_name : option (list Z)) : option relay_setup :=
  mode ← relay_type (f (str "RelayType"));
  x ← specific_meaning f mode server_name;
  b ← bind_meaning f;
  let '(s, s2, d, prefix, mtu, cone) := x in
  Some (mk_relay_setup mode s s2 d prefix mtu cone (fst b) (snd b) (fst <$> f (str "InterfaceName"))).

Definition ips_meaning (f : list Z -> option (list Z * Z)) (server_name : option (list Z)) : option (Z * Z) :=
  match server_name with
  | Some s => a ← getaddrinfo4 s; Some (a, INADDR_ANY)
  | None =>
    ip ← ipv4_of (f (str "ServerBindAddress")) INADDR_ANY;
    ip2 ← ipv4_of (f (str "ServerBindAddress2")) INADDR_ANY;
    Some (ip, ip2)
  end.

Definition server_meaning (f : list Z -> option (list Z * Z)) (server_name : option (list Z)) : option (Z * Z * Z * Z) :=
  ips ← ips_meaning f server_name;
  if fst ips =? INADDR_ANY then None else
  p ← static_meaning f (htonl TEREDO_PREFIX) 1280;
  Some (fst ips, if snd ips =? INADDR_ANY then htonl (wrap 32 (ntohl (fst ips) + 1)) else snd ips, fst p, snd p).

(** What the checking tool accepts, apart from settings that it does not know. *)
Definition check_meaning (f : list Z -> option (list Z * Z)) (pref : Z) : bool :=
  (match f (str "SyslogFacility") with None => true | Some (v, _) => bool_decide (is_Some (find_facility v)) end) &&
  (match relay_type (f (str "RelayType")) with
   | None => false
   | Some mode =>
     if is_client mode then
       match ipv4_of (f (str "ServerAddress")) 0 with
       | None => false
       | Some ip => bool_decide (is_Some (ipv4_of (f (str "ServerAddress2")) 0)) && negb (ip =? 0)
       end
     else bool_decide (is_Some (static_meaning f pref 0))
   end) &&
  bool_decide (is_Some (bind_meaning f)).
End meaning.

(** ** Reading the settings *)

Definition fresh (name : list Z) (used : list (list Z)) : bool := forallb (fun u => negb (strcasecmp0 name u)) used.

(** [view base c A used]: the structure holds what is left of the settings [A]
    when the names [used] have been taken out. *)
Definition view (base : Z) (c : miredo_conf) (A : list directive) (used : list (list Z)) : Prop :=
  exists L, conf_rep base c L /\ forall name, fresh name used = true -> setting_of (L.*2) name = setting_of A name.

Lemma strcasecmp0_eq a b : strcasecmp0 a b = true <-> tolower <$> a = tolower <$> b.
Proof. unfold strcasecmp0. apply bool_decide_eq_true. Qed.

Lemma spec_get_other name n A : strcasecmp0 n name = false -> setting_of (snd (spec_get name A)) n = setting_of A n.
Proof.
  intros Hn. unfold setting_of. induction A as [|d A IH]; cbn [spec_get]; [done|]. destruct (strcasecmp0 (d_name d) name) eqn:E1.
  - cbn [snd]. destruct (strcasecmp0 (d_name d) n) eqn:E2; [|by destruct (spec_get n A)].
    apply strcasecmp0_eq in E1, E2. assert (strcasecmp0 n name = true) as H by (apply strcasecmp0_eq; congruence). by rewrite H in Hn.
  - destruct (spec_get name A) as [r A'] eqn:Eg. cbn [snd spec_get] in *. destruct (strcasecmp0 (d_name d) n); [done|].
    destruct (spec_get n A') as [r1 A1], (spec_get n A) as [r2 A2]. exact IH.
Qed.

Lemma view_start base c L : conf_rep base c L -> view base c (L.*2) [].
Proof. intros H. by exists L. Qed.

Lemma fresh_cons n name used : fresh n (name :: used) = true -> strcasecmp0 n name = false /\ fresh n used = true.
Proof. cbn. intros [H1 H2]%andb_true_iff. split; [by apply negb_true_iff|done]. Qed.

Lemma get_view base c A used name :
  view base c A used -> fresh name used = true ->
  exists c', miredo_conf_get name c = Ok (setting_of A name, c') /\
    view (base + taken (setting_of A name)) c' A (name :: used) /\ logged c' = logged c.
Proof.
  intros (L & HR & HA) Hf. destruct (get_ok base name c L HR) as (r & c' & L' & -> & Hs & HR' & Hl & _).
  assert (r = setting_of A name) as ->. { rewrite <- HA by done. unfold setting_of. by rewrite <- Hs. }
  exists c'. split; [done|]. split; [|done]. exists L'. split; [done|]. intros n [Hn Hu]%fresh_cons.
  rewrite <- HA by done. rewrite <- (spec_get_other name n (L.*2) Hn). by rewrite <- Hs.
Qed.

Lemma view_free base c A used : view (base + 1) c A used -> view base (free_value c) A used.
Proof.
  intros (L & (H1 & H2 & H3 & H4 & H5) & HA). exists L. split; [|done]. split_and!; try done. cbn. lia.
Qed.

Lemma view_log base c A used m : view base (add_log m c) A used <-> view base c A used.
Proof. done. Qed.

Lemma view_base base c A used : view (base + 0) c A used -> view base c A used.
Proof. by rewrite Z.add_0_r. Qed.

(** The result of a typed accessor: [None] is an error and leaves the variable
    alone. *)
Definition answer {T} (m : option T) (d : T) : bool * T := match m with Some v => (true, v) | None => (false, d) end.

Section accessors.
Context (getaddrinfo4 : list Z -> option Z) (getaddrinfo6 : list Z -> option (list Z)).
Context (regcomp : list Z -> option (list Z -> bool)).
Context (base : Z) (A : list directive).

(** [reads op name x]: the operation takes out the setting [name] and returns
    [x]. *)
Definition reads {T} (op : conf_op T) (name : list Z) (x : T) : Prop :=
  forall c used (Q : T -> miredo_conf -> Prop),
    view base c A used -> fresh name used = true ->
    (forall c', view base c' A (name :: used) -> Q x c') -> wp op Q c.

(** The two cases of a setting: given, and then freed, or not given. *)
Ltac read_setting :=
  intros c used Q Hv Hf HQ; destruct (get_view base c A used _ Hv Hf) as (c0 & Hget & Hv0 & _);
  unfold wp, mbind, st_bind, get_setting, free_setting, modify; rewrite Hget; cbn [mbind res_bind];
  destruct (setting_of A _) as [[v l]|]; cbn [taken] in Hv0; [apply view_free in Hv0|apply view_base in Hv0; by apply HQ].

Lemma reads_ParseRelayType name : reads (ParseRelayType name TEREDO_CLIENT) name (answer (relay_type (setting_of A name)) TEREDO_CLIENT).
Proof.
  unfold ParseRelayType. read_setting. specialize (HQ _ Hv0). cbn [relay_type] in HQ.
  destruct (_ || _); [exact HQ|]. destruct (strcasecmp0 v (str "restricted")); [exact HQ|]. destruct (_ || _); exact HQ.
Qed.

Lemma reads_ParseLocalDiscovery name ldp :
  forced ldp = false ->
  reads (ParseLocalDiscovery name ldp) name (answer (discovery_mode (setting_of A name)) true, ldp).
Proof.
  intros Hfo. unfold ParseLocalDiscovery.
  assert (mk_teredo_discovery_params (disc_netmask ldp) false (ifname_re ldp) = ldp) as -> by (destruct ldp; by cbn in *; subst).
  read_setting. specialize (HQ _ Hv0). cbn [discovery_mode] in HQ.
  destruct (strcasecmp0 v (str "enabled")); [exact HQ|]. destruct (strcasecmp0 v (str "forced")); [exact HQ|].
  destruct (strcasecmp0 v (str "disabled")); exact HQ.
Qed.

Lemma reads_ParseDiscoveryInterfaces name :
  reads (ParseDiscoveryInterfaces regcomp name) name (answer (interfaces_of regcomp (setting_of A name)) None).
Proof.
  unfold ParseDiscoveryInterfaces. read_setting. specialize (HQ _ Hv0). cbn [interfaces_of] in HQ.
  by destruct (regcomp v).
Qed.

Lemma reads_parse_IPv4 name d : reads (parse_IPv4 getaddrinfo4 name d) name (answer (ipv4_of getaddrinfo4 (setting_of A name) d) d).
Proof.
  unfold parse_IPv4, miredo_conf_parse_IPv4, GetIPv4ByName. read_setting. cbn [ipv4_of] in HQ.
  destruct (getaddrinfo4 v); apply HQ; exact Hv0.
Qed.

Lemma reads_get_int16 name d : reads (get_int16 name d) name (answer (int16_of (setting_of A name) d) d).
Proof.
  unfold get_int16, miredo_conf_get_int16. read_setting. cbn [int16_of] in HQ.
  destruct (strtoul v) as [n rest]. cbn [fst snd] in HQ. rewrite Z.leb_antisym in HQ.
  destruct (bool_decide (rest = [])), (65535 <? n); apply HQ; exact Hv0.
Qed.

Lemma reads_parse_prefix name d :
  reads (parse_prefix getaddrinfo6 name d) name (answer (prefix_of_setting getaddrinfo6 (setting_of A name) d) d).
Proof.
  intros c used Q Hv Hf HQ. destruct (get_view base c A used _ Hv Hf) as (c' & Hget & Hv' & _).
  unfold wp, parse_prefix, miredo_conf_parse_teredo_prefix, miredo_conf_parse_IPv6. rewrite Hget. cbn [mbind res_bind].
  unfold prefix_of_setting in HQ. destruct (setting_of A name) as [[v l]|]; cbn [taken] in Hv'.
  - apply view_free in Hv'. destruct (getaddrinfo6 v) as [a|]; cbn [mbind res_bind fmap option_fmap option_map option_bind compose] in *.
    + destruct (is_valid_teredo_prefix _); apply HQ; exact Hv'.
    + apply HQ. exact Hv'.
  - apply view_base in Hv'. cbn [mbind res_bind option_bind] in *. destruct (is_valid_teredo_prefix _); apply HQ; exact Hv'.
Qed.

Lemma reads_facility name d :
  reads (miredo_conf_parse_syslog_facility name d : conf_op (bool * Z)) name
    (answer (match setting_of A name with None => Some d | Some (v, _) => find_facility v end) d).
Proof.
  unfold miredo_conf_parse_syslog_facility. read_setting. destruct (find_facility v); apply HQ; exact Hv0.
Qed.
End accessors.

Lemma fresh_app n l l' : fresh n (l ++ l') = fresh n l && fresh n l'.
Proof. apply forallb_app. Qed.

Lemma view_more base c A extra used : view base c A used -> view base c A (extra ++ used).
Proof. intros (L & HR & HA). exists L. split; [done|]. intros n Hn. rewrite fresh_app in Hn. apply andb_true_iff in Hn as [_ Hn]. by apply HA. Qed.

(** Names that differ from each other and from those that were used. *)
Definition all_fresh (names used : list (list Z)) : Prop := Forall (fun n => fresh n used = true) names.

(** What is left when everything has been read is freed. *)
Lemma wp_clear base A show c used (Q : unit -> miredo_conf -> Prop) :
  view base c A used ->
  (forall c' R, conf_rep base c' [] -> logged c' = logged c ++ superfluous show R ->
     (forall name, fresh name used = true -> setting_of R name = setting_of A name) -> Q tt c') ->
  wp (clear_settings show) Q c.
Proof.
  intros (L & HR & HA) HQ. destruct (clear_ok base show c L HR) as (c' & E & HR' & Hl).
  unfold wp, clear_settings. rewrite E. cbn. by apply (HQ c' (L.*2)).
Qed.

Section configurations.
Context (getaddrinfo4 : list Z -> option Z) (getaddrinfo6 : list Z -> option (list Z)).
Context (regcomp : list Z -> option (list Z -> bool)).
Context (base : Z) (A : list directive).

(** The names that an operation may take out, the last one first. *)
Definition reads_all {T} (op : conf_op T) (names : list (list Z)) (x : T) : Prop :=
  forall c used (Q : T -> miredo_conf -> Prop),
    view base c A used -> all_fresh names used ->
    (forall c', view base c' A (names ++ used) -> Q x c') -> wp op Q c.

Lemma reads_more {T} (op : conf_op T) n extra x : reads base A op n x -> reads_all op (extra ++ [n]) x.
Proof.
  intros H c used Q Hv Hf HQ. apply Forall_app in Hf as [_ Hf]. apply list.Forall_cons in Hf as [Hf _].
  apply (H c used Q Hv Hf). intros c' Hv'. apply HQ. rewrite <- app_assoc. by apply view_more.
Qed.

(** The next operation after one that reads [n]. *)
Lemma conf_reads_bind {T U} (op : conf_op T) (k : T -> conf_op U) n names x y :
  reads base A op n x -> Forall (fun m => fresh m [n] = true) names ->
  reads_all (k x) names y -> reads_all (op ≫= k) (names ++ [n]) y.
Proof.
  intros H Hns Hk c used Q Hv Hf HQ. apply Forall_app in Hf as [Hf1 Hf2]. apply list.Forall_cons in Hf2 as [Hf2 _].
  apply wp_bind, (H c used _ Hv Hf2). intros c' Hv'. apply (Hk c' (n :: used) Q Hv'); [|by rewrite <- app_assoc in HQ].
  eapply Forall_impl; [apply Forall_and; split; [exact Hf1|exact Hns]|]. cbn beta. intros m [H1 H2].
  change (n :: used) with ([n] ++ used). by rewrite fresh_app, H1, H2.
Qed.

Lemma conf_reads_ret {T} names (x : T) : reads_all (mret x) names x.
Proof. intros c used Q Hv _ HQ. apply HQ. by apply view_more. Qed.

Lemma reads_static prefix mtu :
  reads_all (static_config getaddrinfo6 prefix mtu) [str "InterfaceMTU"; str "Prefix"]
    (static_meaning getaddrinfo6 (setting_of A) prefix mtu).
Proof.
  unfold static_config, static_meaning. apply (conf_reads_bind _ _ _ [str "InterfaceMTU"] _ _ (reads_parse_prefix _ _ _ _ _)); [by repeat constructor|].
  destruct (prefix_of_setting _ _ _) as [p|]; cbn; [|apply conf_reads_ret].
  apply (conf_reads_bind _ _ _ [] _ _ (reads_get_int16 _ _ _ _)); [constructor|].
  destruct (int16_of _ _); apply conf_reads_ret.
Qed.

Lemma reads_binding :
  reads_all (bind_config getaddrinfo4) [str "BindPort"; str "BindAddress"] (bind_meaning getaddrinfo4 (setting_of A)).
Proof.
  unfold bind_config, bind_meaning. apply (conf_reads_bind _ _ _ [str "BindPort"] _ _ (reads_parse_IPv4 _ _ _ _ _)); [by repeat constructor|].
  destruct (ipv4_of _ _ _) as [p|]; cbn; [|apply conf_reads_ret].
  apply (conf_reads_bind _ _ _ [] _ _ (reads_get_int16 _ _ _ _)); [constructor|].
  destruct (int16_of _ _); apply conf_reads_ret.
Qed.

(** A setting that is used as text and freed. *)
Lemma reads_text {U} (k : option (list Z * Z) -> conf_op U) n names y :
  Forall (fun m => fresh m [n] = true) names ->
  reads_all (k (setting_of A n)) names y ->
  reads_all (x ← get_setting n; (match x with Some _ => free_setting | None => mret tt end);; k x) (names ++ [n]) y.
Proof.
  intros Hns Hk c used Q Hv Hf HQ. apply Forall_app in Hf as [Hf1 Hf2]. apply list.Forall_cons in Hf2 as [Hf2 _].
  destruct (get_view base c A used n Hv Hf2) as (c0 & Hget & Hv0 & _).
  assert (all_fresh names (n :: used)) as Hf.
  { eapply Forall_impl; [apply Forall_and; split; [exact Hf1|exact Hns]|]. cbn beta. intros m [H1 H2].
    change (n :: used) with ([n] ++ used). by rewrite fresh_app, H1, H2. }
  rewrite <- app_assoc in HQ. apply wp_bind. unfold wp, get_setting. rewrite Hget. apply wp_bind.
  destruct (setting_of A n); cbn [taken] in Hv0; [apply view_free in Hv0|apply view_base in Hv0];
    apply (Hk _ _ Q Hv0 Hf HQ).
Qed.

(** The text can be freed as soon as the setting is known to be there. *)
Lemma free_first {U} (k0 : conf_op U) (k : list Z * Z -> conf_op U) n Q c :
  wp (x ← get_setting n; (match x with Some _ => free_setting | None => mret tt end);; match x with Some v => k v | None => k0 end) Q c ->
  wp (x ← get_setting n; match x with Some v => free_setting;; k v | None => k0 end) Q c.
Proof. unfold wp, mbind, st_bind. destruct (get_setting n c) as [[[v|] c']|]; done. Qed.

Lemma reads_take {U} (k0 : conf_op U) (k : list Z * Z -> conf_op U) n names y :
  Forall (fun m => fresh m [n] = true) names ->
  reads_all (match setting_of A n with Some v => k v | None => k0 end) names y ->
  reads_all (x ← get_setting n; match x with Some v => free_setting;; k v | None => k0 end) (names ++ [n]) y.
Proof.
  intros Hns Hk c used Q Hv Hf HQ. apply free_first.
  apply (reads_text (fun x => match x with Some v => k v | None => k0 end) n names y Hns Hk c used Q Hv Hf HQ).
Qed.

Lemma reads_seq {T U} (op : conf_op T) (k : T -> conf_op U) names names' x y :
  reads_all op names x -> Forall (fun m => fresh m names = true) names' -> reads_all (k x) names' y ->
  reads_all (op ≫= k) (names' ++ names) y.
Proof.
  intros H Hns Hk c used Q Hv Hf HQ. apply Forall_app in Hf as [Hf1 Hf2].
  apply wp_bind, (H c used _ Hv Hf2). intros c' Hv'. apply (Hk c' (names ++ used) Q Hv'); [|by rewrite <- app_assoc in HQ].
  eapply Forall_impl; [apply Forall_and; split; [exact Hf1|exact Hns]|]. cbn beta. intros m [H1 H2]. by rewrite fresh_app, H1, H2.
Qed.

Definition client_names : list (list Z) :=
  [str "DiscoveryNetmask"; str "DiscoveryInterfaces"; str "LocalDiscovery"; str "ServerAddress2"; str "ServerAddress"].

Lemma reads_client server_name :
  reads_all (client_config getaddrinfo4 regcomp server_name)
    client_names
    (client_meaning getaddrinfo4 regcomp (setting_of A) server_name).
Proof.
  unfold client_config, client_meaning.
  apply (reads_seq _ _ [str "ServerAddress2"; str "ServerAddress"] [str "DiscoveryNetmask"; str "DiscoveryInterfaces"; str "LocalDiscovery"]
           (servers_meaning (setting_of A) server_name)); [|by repeat constructor|].
  - destruct server_name as [s|]; [apply conf_reads_ret|]. apply (reads_take _ _ _ [str "ServerAddress2"]); [by repeat constructor|]. cbn [servers_meaning].
    destruct (setting_of A (str "ServerAddress")) as [v|]; [|apply conf_reads_ret]. apply (reads_take _ _ _ []); [constructor|].
    destruct (setting_of A (str "ServerAddress2")); apply conf_reads_ret.
  - destruct (servers_meaning _ _) as [[s s2]|]; [|apply conf_reads_ret]. cbn [mbind option_bind fst snd].
    apply (conf_reads_bind _ _ _ [str "DiscoveryNetmask"; str "DiscoveryInterfaces"] _ _ (reads_ParseLocalDiscovery _ _ _ (mk_teredo_discovery_params 0xffffffff false None) eq_refl)); [by repeat constructor|].
    destruct (discovery_mode _) as [on|]; [|apply conf_reads_ret]. cbn [answer negb mbind option_bind].
    apply (conf_reads_bind _ _ _ [str "DiscoveryNetmask"] _ _ (reads_ParseDiscoveryInterfaces _ _ _ _)); [by repeat constructor|].
    destruct (interfaces_of _ _) as [re|]; [|apply conf_reads_ret]. cbn [answer negb mbind option_bind].
    apply (conf_reads_bind _ _ _ [] _ _ (reads_parse_IPv4 _ _ _ _ _)); [constructor|].
    destruct (ipv4_of _ _ _); apply conf_reads_ret.
Qed.

Definition specific_names : list (list Z) :=
  [str "InterfaceMTU"; str "Prefix"] ++ client_names.

Lemma reads_less {T} (op : conf_op T) names extra extra' x : reads_all op names x -> reads_all op (extra ++ names ++ extra') x.
Proof.
  intros H c used Q Hv Hf HQ. apply Forall_app in Hf as [_ Hf]. apply Forall_app in Hf as [Hf _].
  apply (H c used Q Hv Hf). intros c' (L & HR & HA). apply HQ. exists L. split; [done|]. intros n Hn.
  apply HA. rewrite !fresh_app in Hn. apply andb_true_iff in Hn as [[_ [H1 _]%andb_true_iff]%andb_true_iff H2].
  by rewrite fresh_app, H1, H2.
Qed.

Lemma specific_ok mode server_name :
  reads_all (if is_client mode then
         c ← client_config getaddrinfo4 regcomp server_name;
         match c with
         | None => mret None
         | Some (s, s2, d) => mret (Some (s, s2, d, htonl TEREDO_PREFIX, 1280, false))
         end
       else
         p ← static_config getaddrinfo6 (htonl TEREDO_PREFIX) 1280;
         match p with
         | None => mret None
         | Some (prefix, mtu) => mret (Some (None, None, None, prefix, mtu, mode =? TEREDO_CONE))
         end) specific_names (specific_meaning getaddrinfo4 getaddrinfo6 regcomp (setting_of A) mode server_name).
Proof.
  unfold specific_meaning. destruct (is_client mode).
  - apply (reads_less _ client_names [str "InterfaceMTU"; str "Prefix"] []). apply (reads_seq _ _ _ [] _ _ (reads_client server_name)); [constructor|].
    destruct (client_meaning _ _ _) as [[[s s2] d]|]; apply conf_reads_ret.
  - apply (reads_less _ [str "InterfaceMTU"; str "Prefix"] [] client_names). apply (reads_seq _ _ _ [] _ _ (reads_static _ _)); [constructor|].
    destruct (static_meaning _ _ _) as [[p m]|]; apply conf_reads_ret.
Qed.

Definition held (x : option (list Z)) : Z := if x then 1 else 0.

Lemma relay_config_ok server_name c :
  view base c A [] ->
  wp (relay_config getaddrinfo4 getaddrinfo6 regcomp server_name)
    (fun su c' => su = relay_meaning getaddrinfo4 getaddrinfo6 regcomp (setting_of A) server_name /\
       match su with
       | Some su => conf_rep (base + held (r_ifname su)) c' []
       | None => exists L, conf_rep base c' L
       end) c.
Proof.
  intros Hv. unfold relay_config, relay_meaning.
  apply wp_bind, (reads_ParseRelayType base A (str "RelayType") c [] _ Hv eq_refl). clear c Hv. intros c Hv.
  assert (forall c' used, view base c' A used -> exists L, conf_rep base c' L) as Hleft by (intros c' used (L & HL & _); by exists L).
  destruct (relay_type _) as [mode|]; cbn [answer negb mbind option_bind]; [|split; [done|by eapply Hleft]].
  apply wp_bind. apply (specific_ok mode server_name c [str "RelayType"] _ Hv); [by repeat constructor|]. clear c Hv. intros c Hv.
  destruct (specific_meaning getaddrinfo4 getaddrinfo6 regcomp (setting_of A) mode server_name) as [[[[[[s s2] d] prefix] mtu] cone]|]; cbn [mbind option_bind]; [|split; [done|by eapply Hleft]].
  apply wp_bind, (reads_binding c _ _ Hv); [by repeat constructor|]. clear c Hv. intros c Hv.
  destruct (bind_meaning _ _) as [[ip port]|]; cbn [mbind option_bind]; [|split; [done|by eapply Hleft]].
  apply wp_bind. destruct (get_view base c A _ (str "InterfaceName") Hv eq_refl) as (c0 & Hget & Hv0 & _).
  unfold wp at 1, get_setting. rewrite Hget.
  apply wp_bind, (wp_clear _ _ 5 c0 _ _ Hv0). intros c1 R HR _ _. split; [done|]. cbn [r_ifname].
  by destruct (setting_of A (str "InterfaceName")).
Qed.

Lemma reads_server_ips server_name :
  reads_all (server_ips getaddrinfo4 server_name) [str "ServerBindAddress2"; str "ServerBindAddress"]
    (ips_meaning getaddrinfo4 (setting_of A) server_name).
Proof.
  unfold server_ips, ips_meaning. destruct server_name as [s|]; [unfold GetIPv4ByName; destruct (getaddrinfo4 s); apply conf_reads_ret|].
  apply (conf_reads_bind _ _ _ [str "ServerBindAddress2"] _ _ (reads_parse_IPv4 _ _ _ _ _)); [by repeat constructor|].
  destruct (ipv4_of _ _ _) as [p|]; cbn; [|apply conf_reads_ret].
  apply (conf_reads_bind _ _ _ [] _ _ (reads_parse_IPv4 _ _ _ _ _)); [constructor|].
  destruct (ipv4_of _ _ _); apply conf_reads_ret.
Qed.

Lemma server_config_ok server_name c :
  view base c A [] ->
  wp (server_config getaddrinfo4 getaddrinfo6 server_name)
    (fun su c' => su = server_meaning getaddrinfo4 getaddrinfo6 (setting_of A) server_name /\
       (su <> None -> conf_rep base c' []) /\ exists L, conf_rep base c' L) c.
Proof.
  intros Hv. unfold server_config, server_meaning.
  assert (forall c' used, view base c' A used -> exists L, conf_rep base c' L) as Hleft by (intros c' used (L & HL & _); by exists L).
  apply wp_bind, (reads_server_ips server_name c [] _ Hv); [by repeat constructor|].
  clear c Hv. intros c Hv. destruct (ips_meaning _ _ _) as [[ip ip2]|]; cbn [mbind option_bind fst snd]; [|split_and!; [done..|by eapply Hleft]].
  destruct (ip =? INADDR_ANY); [split_and!; [done..|by eapply Hleft]|].
  apply wp_bind, (reads_static _ _ c _ _ Hv); [by repeat constructor|]. clear c Hv. intros c Hv.
  destruct (static_meaning _ _ _ _) as [[p m]|]; cbn [mbind option_bind]; [|split_and!; [done..|by eapply Hleft]].
  apply wp_bind, (wp_clear _ _ 5 c _ _ Hv). intros c1 R HR _ _. split_and!; [done..|by exists []].
Qed.

Definition check_names : list (list Z) :=
  [str "InterfaceName"; str "BindPort"; str "BindAddress"; str "InterfaceMTU"; str "Prefix"; str "ServerAddress2"; str "ServerAddress";
   str "RelayType"; str "SyslogFacility"].

Lemma reads_type res :
  reads_all (check_type res) [str "RelayType"]
    (match relay_type (setting_of A (str "RelayType")) with Some mode => (is_client mode, res) | None => (true, -1) end).
Proof.
  unfold check_type. apply (reads_take _ _ _ []); [constructor|]. destruct (setting_of A (str "RelayType")) as [[v l]|]; [|apply conf_reads_ret].
  cbn [fst relay_type]. destruct (strcasecmp0 v (str "client")), (strcasecmp0 v (str "autoclient")), (strcasecmp0 v (str "restricted")),
    (strcasecmp0 v (str "relay")), (strcasecmp0 v (str "cone")); apply conf_reads_ret.
Qed.

(** The result of the checks that depend on the type. *)
Definition specific_accepted (pref : Z) (client : bool) : bool :=
  if client then
    match ipv4_of getaddrinfo4 (setting_of A (str "ServerAddress")) 0 with
    | None => false
    | Some ip => bool_decide (is_Some (ipv4_of getaddrinfo4 (setting_of A (str "ServerAddress2")) 0)) && negb (ip =? 0)
    end
  else bool_decide (is_Some (static_meaning getaddrinfo6 (setting_of A) pref 0)).

Lemma reads_specific pref client res :
  reads_all (check_specific getaddrinfo4 getaddrinfo6 pref client res)
    [str "InterfaceMTU"; str "Prefix"; str "ServerAddress2"; str "ServerAddress"]
    (if specific_accepted pref client then res else -1).
Proof.
  unfold check_specific, specific_accepted. destruct client.
  - apply (reads_less _ [str "ServerAddress2"; str "ServerAddress"] [str "InterfaceMTU"; str "Prefix"] []).
    apply (conf_reads_bind _ _ _ [str "ServerAddress2"] _ _ (reads_parse_IPv4 _ _ _ _ _)); [by repeat constructor|].
    destruct (ipv4_of _ _ _) as [ip|]; cbn [answer negb]; [|apply conf_reads_ret].
    apply (reads_seq _ _ [str "ServerAddress2"] [] (if bool_decide (is_Some (ipv4_of getaddrinfo4 (setting_of A (str "ServerAddress2")) 0)) then res else -1));
      [|constructor|].
    + apply (conf_reads_bind _ _ _ [] _ _ (reads_parse_IPv4 _ _ _ _ _)); [constructor|]. destruct (ipv4_of _ _ _); apply conf_reads_ret.
    + destruct (bool_decide _), (ip =? 0); apply conf_reads_ret.
  - apply (reads_less _ [str "InterfaceMTU"; str "Prefix"] [] [str "ServerAddress2"; str "ServerAddress"]).
    apply (reads_seq _ _ _ [] _ _ (reads_static _ _)); [constructor|]. destruct (static_meaning _ _ _ _); apply conf_reads_ret.
Qed.

Lemma checkconf_ok pref c :
  view base c A [] ->
  wp (miredo_checkconf getaddrinfo4 getaddrinfo6 pref)
    (fun res c' => conf_rep base c' [] /\ (res = 0 -> check_meaning getaddrinfo4 getaddrinfo6 (setting_of A) pref = true) /\
       (logged c' = [] -> forall name, fresh name check_names = true -> setting_of A name = None)) c.
Proof.
  intros Hv. unfold miredo_checkconf, check_meaning.
  apply wp_bind, (reads_facility base A (str "SyslogFacility") 0 c [] _ Hv eq_refl). clear c Hv. intros c Hv.
  apply wp_bind, (reads_type _ c _ _ Hv); [by repeat constructor|]. clear c Hv. intros c Hv.
  destruct (match relay_type _ with Some _ => _ | None => _ end) as [client res] eqn:Et.
  apply wp_bind, (reads_specific pref client res c _ _ Hv); [by repeat constructor|]. clear c Hv. intros c Hv.
  apply wp_bind, (reads_binding c _ _ Hv); [by repeat constructor|]. clear c Hv. intros c Hv.
  apply wp_bind. destruct (get_view base c A _ (str "InterfaceName") Hv eq_refl) as (c0 & Hget & Hv0 & _).
  unfold wp at 1, get_setting. rewrite Hget. clear c Hv Hget. apply wp_bind.
  assert (exists c1, (match setting_of A (str "InterfaceName") with Some _ => free_setting | None => mret tt end) c0 = Ok (tt, c1) /\
    view base c1 A check_names) as (c1 & Hfree & Hv).
  { destruct (setting_of A (str "InterfaceName")); cbn [taken] in Hv0; eexists; (split; [reflexivity|]); [by apply view_free|by apply view_base]. }
  unfold wp at 1. rewrite Hfree. apply wp_bind, (wp_clear _ _ 5 c1 _ _ Hv). intros c2 R HR Hlog HA. apply wp_ret. split; [done|]. split.
  - destruct (bind_meaning _ _); [|done]. rewrite (bool_decide_eq_true_2 (is_Some (Some p))) by done. rewrite andb_true_r.
    destruct (specific_accepted pref client) eqn:Es; [|done]. intros ->. destruct (relay_type _) as [mode|]; [|done].
    injection Et as <- Ef. apply andb_true_iff. split; [|exact Es].
    destruct (setting_of A (str "SyslogFacility")) as [[v l]|]; [|done]. destruct (find_facility v); [done|done].
  - intros Hl name Hn. rewrite <- HA by done. rewrite Hl in Hlog. symmetry in Hlog. apply app_nil in Hlog as [_ Hlog].
    by destruct R.
Qed.
End configurations.

(** ** The order of the calls *)

(** What the child has at hand. *)
Record resources := mk_resources {
  has_tun : bool; has_priv : bool; has_lib : bool; has_icmp : bool; is_dropped : bool;
  has_relay : bool; is_running : bool; has_encap : bool;
}.

Definition no_resources : resources := mk_resources false false false false false false false false.

(** The rules of the interfaces: what each call needs and does.  The device is
    configured, and raw sockets are opened, while the process is privileged; the
    socket that the network reaches is opened only when it is not any more; and
    nothing is released while something else uses it. *)
Definition allowed (s : resources) (x : event) : option resources :=
  let '(mk_resources tun priv lib icmp dropped relay running encap) := s in
  let when b s' := if b : bool then Some s' else None in
  match x with
  | Tun6Create _ => when (negb tun && negb dropped) (mk_resources true priv lib icmp dropped relay running encap)
  | Tun6SetMTU _ | Tun6BringUp | Tun6AddAddress | Tun6AddRoute _ => when (tun && negb dropped) s
  | Tun6Destroy => when (tun && negb priv && negb relay && negb encap) (mk_resources false priv lib icmp dropped relay running encap)
  | PrivprocStart => when (tun && negb priv && negb dropped) (mk_resources tun true lib icmp dropped relay running encap)
  | PrivprocStop => when (priv && negb relay) (mk_resources tun false lib icmp dropped relay running encap)
  | TeredoStartup _ => when (negb lib) (mk_resources tun priv true icmp dropped relay running encap)
  | TeredoCleanup _ => when (lib && negb relay) (mk_resources tun priv false icmp dropped relay running encap)
  | IcmpOpen => when (negb icmp && negb dropped) (mk_resources tun priv lib true dropped relay running encap)
  | IcmpClose => when (icmp && negb relay) (mk_resources tun priv lib false dropped relay running encap)
  | Chroot => when (negb dropped) s
  | Setuid => when (negb dropped) (mk_resources tun priv lib icmp true relay running encap)
  | TeredoCreate _ _ => when (negb relay && tun && lib && icmp && dropped) (mk_resources tun priv lib icmp dropped true running encap)
  | SetCallbacks | SetStateCallbacks | SetClientMode _ _ | SetDiscoveryParams _ | SetPrefix _ | SetConeFlag _ | SetRelayMode =>
    when (relay && negb running) s
  | RunAsync => when (relay && negb running) (mk_resources tun priv lib icmp dropped relay true encap)
  | EncapStart => when (running && negb encap) (mk_resources tun priv lib icmp dropped relay running true)
  | EncapStop => when encap (mk_resources tun priv lib icmp dropped relay running false)
  | TeredoDestroy => when (relay && negb encap) (mk_resources tun priv lib icmp dropped false false encap)
  | _ => None
  end.

Fixpoint obeys (s : resources) (tr : list event) : option resources :=
  match tr with
  | [] => Some s
  | x :: tr' => s' ← allowed s x; obeys s' tr'
  end.

(** The arguments of the calls are those of the configuration. *)
Definition as_configured (su : relay_setup) (x : event) : Prop :=
  match x with
  | Tun6Create ifname => ifname = r_ifname su \/ ifname = None
  | Tun6SetMTU mtu => mtu = r_mtu su
  | Tun6AddRoute prefix | SetPrefix prefix => prefix = r_prefix su
  | TeredoCreate ip port => ip = r_bind_ip su /\ port = r_bind_port su
  | SetClientMode s s2 => is_client (r_mode su) = true /\ s = r_server su /\ s2 = r_server2 su
  | SetDiscoveryParams p => r_disc su = Some p
  | SetRelayMode => is_client (r_mode su) = false
  | SetConeFlag cone => cone = r_cone su
  | TeredoStartup client | TeredoCleanup client => client = is_client (r_mode su)
  | _ => True
  end.

(** All is released; the library stays initialised when the raw socket could
    not be opened. *)
Definition released (e : run_env) (s : resources) : Prop :=
  has_tun s = false /\ has_priv s = false /\ has_icmp s = false /\ has_relay s = false /\ has_encap s = false /\
  (has_lib s = true -> e_icmp e = false).

(** The thread that encapsulates ran until it was told to end. *)
Definition ran (tr : list event) : bool := existsb (fun x => match x with EncapStop => true | _ => false end) tr.

Definition well_run (e : run_env) (su : relay_setup) (ret : Z) (tr : list event) : Prop :=
  (exists s, obeys no_resources tr = Some s /\ released e s) /\ Forall (as_configured su) tr /\ (ret = 0 <-> ran tr = true).

Ltac leaf :=
  split; [eexists; split; [reflexivity|by split_and!]|split; [repeat constructor; cbn; by (split_and? || left || right || idtac)|]];
  cbn; repeat match goal with H : (_ =? 0) = false |- _ => apply Z.eqb_neq in H end; done.

Lemma relay_setup_run_ok e su : wp (relay_setup_run e su) (well_run e su) [].
Proof.
  unfold wp, relay_setup_run, create_dynamic_tunnel, create_static_tunnel, miredo_init, drop_privileges, setup_client, setup_relay, run_tunnel,
    miredo_deinit, destroy_dynamic_tunnel, emit, modify, lift, mbind, st_bind, mret, st_ret.
  destruct (is_client (r_mode su)) eqn:Ec.
  - destruct (e_tun6_create e), (e_socketpair e), (e_fork e); cbn; try leaf.
    destruct (e_startup e), (e_icmp e) eqn:Ei; cbn; try leaf.
    destruct (e_chroot e) as [[]|], (e_setuid e), (e_create e); cbn; try leaf.
    all: destruct (r_disc su) eqn:Ed, (e_client_mode e =? 0) eqn:Em; cbn; rewrite ?Em.
    all: try (destruct (e_discovery_params e =? 0) eqn:Ep); cbn.
    all: try leaf; destruct (e_run_async e), (e_pthread e); cbn; leaf.
  - destruct (r_ifname su) eqn:En.
    all: destruct (e_tun6_create e), (e_enosys e), (e_tun6_create_any e); cbn; try leaf.
    all: destruct (e_setMTU e), (e_bringUp e), (e_addAddress e), (e_addRoute e); cbn; try leaf.
    all: destruct (e_startup e), (e_icmp e) eqn:Ei; cbn; try leaf.
    all: destruct (e_chroot e) as [[]|], (e_setuid e), (e_create e); cbn; try leaf.
    all: destruct (e_relay_mode e =? 0) eqn:Em; cbn; rewrite ?Em.
    all: try leaf; destruct (e_run_async e), (e_pthread e); cbn; leaf.
Qed.

Section theorems.
Context (getaddrinfo4 : list Z -> option Z) (getaddrinfo6 : list Z -> option (list Z)).
Context (regcomp : list Z -> option (list Z -> bool)).

Lemma relay_run_ok e server_name base c L :
  conf_rep base c L ->
  exists ret tr c', relay_run getaddrinfo4 getaddrinfo6 regcomp e server_name c = Ok (ret, tr, c') /\
    match relay_meaning getaddrinfo4 getaddrinfo6 regcomp (setting_of (L.*2)) server_name with
    | None => ret = -2 /\ tr = [] /\ exists L', conf_rep base c' L'
    | Some su => well_run e su ret tr /\ conf_rep base c' []
    end.
Proof.
  intros HR. apply view_start in HR. pose proof (relay_config_ok getaddrinfo4 getaddrinfo6 regcomp base _ server_name c HR) as H.
  apply wp_ok in H as (su & c1 & E & <- & H). unfold relay_run, mbind, st_bind. rewrite E. destruct su as [su|]; [|by eexists _, _, _].
  pose proof (relay_setup_run_ok e su) as (ret & tr & -> & Hw)%wp_ok. cbn. destruct (r_ifname su); cbn in *.
  - eexists _, _, _. split; [done|]. split; [done|]. destruct H as (H1 & H2 & H3 & H4 & H5). split_and!; try done. cbn in *. lia.
  - rewrite Z.add_0_r in H. by eexists _, _, _.
Qed.

(** Local discovery is not forced. *)
Definition unforced (f : list Z -> option (list Z * Z)) : Prop :=
  match f (str "LocalDiscovery") with Some (v, _) => strcasecmp0 v (str "forced") = false | None => True end.

(** (C31) A client or relay does what its configuration says.  When the settings
    make no sense, it returns -2 before it has touched anything.  Otherwise every
    call is made with the configured arguments and in an order that respects the
    interfaces: the socket that the network reaches is opened only after the
    privileges were dropped, and, whatever fails and wherever, everything that was
    created is released again, except the library when the raw socket cannot be
    opened.  The result is 0 exactly when the tunnel has run.  The configuration
    does not force local discovery: for that setting, which the manual page
    distinguishes from the default, the code does what it does for the default
    (a finding). *)
Theorem relay_run_contract e server_name base c L :
  conf_rep base c L -> unforced (setting_of (L.*2)) ->
  exists ret tr c', relay_run getaddrinfo4 getaddrinfo6 regcomp e server_name c = Ok (ret, tr, c') /\
    match relay_meaning getaddrinfo4 getaddrinfo6 regcomp (setting_of (L.*2)) server_name with
    | None => ret = -2 /\ tr = [] /\ exists L', conf_rep base c' L'
    | Some su => well_run e su ret tr /\ conf_rep base c' []
    end.
Proof. intros HR _. by apply relay_run_ok. Qed.

Lemma static_default f pref : is_Some (static_meaning getaddrinfo6 f pref 0) -> is_Some (static_meaning getaddrinfo6 f (htonl TEREDO_PREFIX) 1280).
Proof.
  unfold static_meaning, prefix_of_setting. destruct (f (str "Prefix")) as [[v l]|]; cbn [mbind option_bind].
  - destruct (fmap _ _) as [p|]; cbn [mbind option_bind]; [|done]. destruct (is_valid_teredo_prefix p); cbn [mbind option_bind]; [|done].
    destruct (f (str "InterfaceMTU")) as [[v' l']|]; [done|]. by eexists.
  - intros H. change (is_valid_teredo_prefix (le_load (take 4 (le_split 4 (htonl TEREDO_PREFIX) ++ repeat 0 12)))) with true. cbn [mbind option_bind].
    destruct (f (str "InterfaceMTU")) as [[v' l']|]; [|by eexists]. destruct (is_valid_teredo_prefix _); cbn [mbind option_bind] in H; [|by destruct H].
    cbn [int16_of] in *. destruct (_ && _); [by eexists|by destruct H].
Qed.

(** What is accepted, and has no setting that the tool does not know, makes
    sense to the daemon. *)
Lemma accepted_makes_sense f pref server_name :
  check_meaning getaddrinfo4 getaddrinfo6 f pref = true ->
  (forall name, fresh name check_names = true -> f name = None) ->
  is_Some (relay_meaning getaddrinfo4 getaddrinfo6 regcomp f server_name).
Proof.
  intros [[_ Hs]%andb_true_iff Hb%bool_decide_eq_true]%andb_true_iff Hno. unfold relay_meaning.
  destruct (relay_type _) as [mode|]; [|done]. cbn [mbind option_bind].
  assert (is_Some (specific_meaning getaddrinfo4 getaddrinfo6 regcomp f mode server_name)) as [[[[[[s s2] d] p] m] cn] ->].
  { unfold specific_meaning. destruct (is_client mode).
    - unfold client_meaning. rewrite !(Hno (str "LocalDiscovery")), !(Hno (str "DiscoveryInterfaces")), !(Hno (str "DiscoveryNetmask")) by done.
      assert (is_Some (servers_meaning f server_name)) as [s ->]; [|by eexists].
      destruct server_name; [by eexists|]. cbn [servers_meaning]. destruct (f (str "ServerAddress")); [by eexists|].
      cbn [ipv4_of] in Hs. by destruct (bool_decide _).
    - apply bool_decide_eq_true, static_default in Hs as [p ->]. by eexists. }
  destruct Hb as [b ->]. by eexists.
Qed.

Lemma relay_meaning_ext f f' server_name :
  (forall name, fresh name [str "SyslogFacility"] = true -> f name = f' name) ->
  relay_meaning getaddrinfo4 getaddrinfo6 regcomp f server_name = relay_meaning getaddrinfo4 getaddrinfo6 regcomp f' server_name.
Proof.
  intros H. unfold relay_meaning, specific_meaning, client_meaning, servers_meaning, static_meaning, bind_meaning.
  by rewrite !(H (str "RelayType")), !(H (str "ServerAddress")), !(H (str "ServerAddress2")), !(H (str "LocalDiscovery")),
    !(H (str "DiscoveryInterfaces")), !(H (str "DiscoveryNetmask")), !(H (str "Prefix")), !(H (str "InterfaceMTU")),
    !(H (str "BindAddress")), !(H (str "BindPort")), !(H (str "InterfaceName")) by done.
Qed.

(** The checking tool can be trusted: when it accepts a file, the daemon that
    reads the same file, with the same answers of the resolver, does not stop
    with a configuration error, whatever else fails, but sets the tunnel up. *)
Theorem checkconf_sound e pref mem mem' s ferror server_name :
  no_nul s -> Z.of_nat (length s) < 2 ^ 32 - 1 -> all_mem mem -> all_mem mem' ->
  miredo_checkconffile getaddrinfo4 getaddrinfo6 pref true (Some (s, ferror)) mem = Ok 0 ->
  exists c facility c1 su ret tr c2,
    miredo_conf_read_file (Some (s, ferror)) mem' miredo_conf_create = Ok (true, c) /\
    miredo_conf_parse_syslog_facility (str "SyslogFacility") LOG_DAEMON c = Ok (true, facility, c1) /\
    relay_run getaddrinfo4 getaddrinfo6 regcomp e server_name c1 = Ok (ret, tr, c2) /\ well_run e su ret tr.
Proof.
  intros Hn Hlen Hm Hm' Hc. unfold miredo_checkconffile, miredo_conf_read_file in Hc. cbn [negb] in Hc.
  destruct (conf_read_ok 0 mem s ferror miredo_conf_create Hn Hlen create_rep) as (ok & c & L & E & HR & _ & _ & Hall).
  rewrite E in Hc. cbn [mbind res_bind] in Hc. destruct (Hall Hm) as (HL & -> & _). apply view_start in HR. rewrite HL in HR.
  set (A := (file_meaning s).1) in *. destruct ferror; cbn [negb] in Hc.
  { cbn [mbind res_bind] in Hc. destruct (miredo_conf_destroy c); done. }
  destruct (wp_ok _ _ _ (checkconf_ok getaddrinfo4 getaddrinfo6 0 A pref c HR)) as (r & c1 & E1 & HR1 & Hr & Hno).
  rewrite E1 in Hc. cbn [mbind res_bind] in Hc. destruct (clear_ok 0 0 c1 [] HR1) as (c2 & E2 & _ & Hl2). unfold superfluous in Hl2. cbn in Hl2.
  unfold miredo_conf_destroy in Hc. rewrite E2 in Hc. cbn [mbind res_bind] in Hc. rewrite app_nil_r in Hl2.
  destruct (Z.eqb_spec r 0) as [->|]; cbn [negb orb] in Hc; [|done]. case_bool_decide as Hlog; cbn [negb] in Hc; [|done]. rewrite Hl2 in Hlog.
  destruct (accepted_makes_sense (setting_of A) pref server_name (Hr eq_refl) (Hno Hlog)) as [su Hsu].
  destruct (conf_read_ok 0 mem' s false miredo_conf_create Hn Hlen create_rep) as (ok & c' & L' & E' & HR' & _ & _ & Hall').
  destruct (Hall' Hm') as (HL' & -> & _). apply view_start in HR'. rewrite HL' in HR'. fold A in HR'.
  pose proof (reads_facility 0 A (str "SyslogFacility") LOG_DAEMON c' [] (fun x c => x.1 = true /\ view 0 c A [str "SyslogFacility"]) HR' eq_refl) as Hf.
  apply wp_ok in Hf as ([okf fac] & c3 & E3 & Hokf & L3 & HR3 & HA3).
  2: { intros c'' Hv. split; [|done]. pose proof (Hr eq_refl) as [[Hfac _]%andb_true_iff _]%andb_true_iff.
       destruct (setting_of A (str "SyslogFacility")) as [[v l]|]; [|done]. apply bool_decide_eq_true in Hfac as [f ->]. done. }
  cbn in Hokf. subst okf. destruct (relay_run_ok e server_name 0 c3 L3 HR3) as (ret & tr & c4 & E4 & H4).
  rewrite (relay_meaning_ext _ (setting_of A) server_name HA3), Hsu in H4. destruct H4 as [H4 _].
  by exists c', fac, c3, su, ret, tr, c4.
Qed.
End theorems.

(** ** Servers *)

(** The server is created while the process is privileged and is configured and
    started afterwards; [None] for a call out of order. *)
Fixpoint server_obeys (dropped server started : bool) (tr : list event) : option (bool * bool) :=
  match tr with
  | [] => Some (server, started)
  | x :: tr' =>
    match x with
    | ServerCreate _ _ => if negb dropped && negb server then server_obeys dropped true started tr' else None
    | Chroot => if negb dropped then server_obeys dropped server started tr' else None
    | Setuid => if negb dropped then server_obeys true server started tr' else None
    | ServerSetPrefix _ | ServerSetMTU _ => if dropped && server && negb started then server_obeys dropped server started tr' else None
    | ServerStart => if dropped && server && negb started then server_obeys dropped server true tr' else None
    | ServerStop => if started then server_obeys dropped server false tr' else None
    | ServerDestroy => if server && negb started then server_obeys dropped false started tr' else None
    | _ => None
    end
  end.

Definition server_as_configured (su : Z * Z * Z * Z) (x : event) : Prop :=
  let '(ip, ip2, prefix, mtu) := su in
  match x with
  | ServerCreate a a2 => a = ip /\ a2 = ip2
  | ServerSetPrefix p => p = prefix
  | ServerSetMTU m => m = mtu
  | _ => True
  end.

Definition drops (e : run_env) : bool := match e_chroot e with Some false => false | _ => e_setuid e end.

Definition server_well_run (e : run_env) (su : Z * Z * Z * Z) (ret : Z) (tr : list event) : Prop :=
  (exists server, server_obeys false false false tr = Some (server, false) /\ (server = true -> drops e = false)) /\
  Forall (server_as_configured su) tr /\ (ret = 0 <-> existsb (fun x => match x with ServerStop => true | _ => false end) tr = true).

Lemma server_setup_run_ok e ip ip2 prefix mtu :
  wp (server_setup_run e ip ip2 prefix mtu) (server_well_run e (ip, ip2, prefix, mtu)) [].
Proof.
  unfold wp, server_setup_run, server_well_run, drops, drop_privileges, emit, modify, mbind, st_bind, mret, st_ret.
  destruct (e_server_create e), (e_chroot e) as [[]|], (e_setuid e), (e_server_prefix e), (e_server_mtu e), (e_server_start e); cbn;
    (split; [by eexists|split; [by repeat constructor|done]]).
Qed.

(** A server does what its configuration says: it returns -2 before it has done
    anything when the settings make no sense; otherwise it is created with the
    configured address, and the next one when there is no second, while the process
    is privileged, and serves only when it is not any more; on every path it is
    stopped and destroyed, except when the privileges cannot be dropped. *)
Theorem server_run_contract getaddrinfo4 getaddrinfo6 e server_name base c L :
  conf_rep base c L ->
  exists ret tr c' L', server_run getaddrinfo4 getaddrinfo6 e server_name c = Ok (ret, tr, c') /\ conf_rep base c' L' /\
    match server_meaning getaddrinfo4 getaddrinfo6 (setting_of (L.*2)) server_name with
    | None => ret = -2 /\ tr = []
    | Some su => server_well_run e su ret tr /\ L' = []
    end.
Proof.
  intros HR. apply view_start in HR. pose proof (server_config_ok getaddrinfo4 getaddrinfo6 base _ server_name c HR) as H.
  apply wp_ok in H as (su & c1 & E & <- & H1 & L1 & H2). unfold server_run, mbind, st_bind. rewrite E.
  destruct su as [[[[ip ip2] prefix] mtu]|]; [|by eexists _, _, _, L1].
  pose proof (server_setup_run_ok e ip ip2 prefix mtu) as (ret & tr & -> & Hw)%wp_ok. cbn.
  eexists _, _, _, []. split; [done|]. split; [by apply H1|done].
Qed.

(** ** The supervisor *)

(** Why the inner loop ended: the first signal that counts. *)
Inductive reason := Died | ExitAsked | ReloadAsked.

Definition reason_of (x : Z * bool) : option reason :=
  let '(signum, died) := x in
  if (signum =? SIGCHLD) && died then Some Died
  else if (signum =? SIGINT) || (signum =? SIGQUIT) || (signum =? SIGTERM) then Some ExitAsked
  else if signum =? SIGHUP then Some ReloadAsked else None.

Definition first_reason (signals : list (Z * bool)) : option reason := list.head (omap reason_of signals).

(** The child is started again. *)
Definition restarts (why : reason) (how : wait_status) : bool :=
  match how, why with
  | Signaled _, _ => true
  | Exited code, ReloadAsked => code =? 0
  | Exited _, _ => false
  end.

(** What the supervisor returns: 0 when it was told to exit and the child ended
    well, -1 for any other end. *)
Fixpoint supervise (rounds : list round) : option Z :=
  match rounds with
  | [] => None
  | r :: rounds' =>
    if negb (rd_fork r) then Some (-1) else
    match first_reason (rd_signals r) with
    | None => None
    | Some why =>
      if restarts why (rd_status r) then supervise rounds'
      else Some (match why, rd_status r with ExitAsked, Exited 0 => 0 | _, _ => -1 end)
    end
  end.

(** At most one child lives: what is left of it, or [None] for a second one or a
    signal to none. *)
Fixpoint children (alive : bool) (tr : list sup_event) : option bool :=
  match tr with
  | [] => Some alive
  | x :: tr' =>
    match x, alive with
    | Forked _, false => children true tr'
    | Killed, true => children true tr'
    | Reaped _, true => children false tr'
    | Slept, false => children false tr'
    | _, _ => None
    end
  end.

Lemma children_app b tr tr' : children b (tr ++ tr') = (b' ← children b tr; children b' tr').
Proof.
  revert b. induction tr as [|x tr IH]; intros b; cbn; [done|]. destruct x, b; done.
Qed.

Lemma wait_child_reason signals retval :
  wait_child signals retval =
  (fun why => match why with Died => (retval, false) | ExitAsked => (0, true) | ReloadAsked => (2, true) end) <$> first_reason signals.
Proof.
  unfold first_reason. induction signals as [|[n d] signals IH]; cbn; [done|]. unfold reason_of at 1.
  destruct ((n =? SIGCHLD) && d); [done|]. destruct (_ || _); [done|]. by destruct (n =? SIGHUP).
Qed.

(** The files that the supervisor finds. *)
Definition file_ok (file : option (list Z * bool)) : Prop :=
  match file with Some (s, _) => no_nul s /\ Z.of_nat (length s) < 2 ^ 32 - 1 | None => True end.

Lemma read_any base file mem c :
  file_ok file -> conf_rep base c [] -> exists ok c' L, miredo_conf_read_file file mem c = Ok (ok, c') /\ conf_rep base c' L.
Proof.
  intros Hf HR. destruct file as [[s ferror]|]; cbn [miredo_conf_read_file file_ok] in *.
  - destruct Hf as [Hn Hlen]. destruct (conf_read_ok base mem s ferror c Hn Hlen HR) as (ok & c' & L & E & HR' & _). by exists ok, c', L.
  - by exists false, (add_log OpenError c), [].
Qed.

(** A round, and what is left in memory. *)
Lemma miredo_round_ok base r c :
  file_ok (rd_file r) -> conf_rep base c [] ->
  wp (miredo_round r) (fun x c' =>
    if rd_fork r then
      conf_rep base c' [] /\
      match first_reason (rd_signals r) with
      | None => x.1 = None /\ children false x.2 = Some true
      | Some why =>
        x.1 = Some (if restarts why (rd_status r) then 2 else match why, rd_status r with ExitAsked, Exited 0 => 0 | _, _ => 1 end) /\
        children false x.2 = Some false
      end
    else x = (Some 1, []) /\ exists L, conf_rep base c' L) c.
Proof.
  intros Hf HR. unfold miredo_round. destruct (read_any base (rd_file r) (rd_mem r) c Hf HR) as (ok & c1 & L & E & HR1).
  apply wp_bind. unfold wp at 1. rewrite E. clear c HR E. apply view_start in HR1.
  apply wp_bind, (reads_facility base _ (str "SyslogFacility") LOG_DAEMON c1 [] _ HR1 eq_refl). intros c2 Hv.
  destruct (rd_fork r); cbn [negb]; [|destruct Hv as (L' & HL' & _); split; [done|by exists L']].
  apply wp_bind, (wp_clear _ _ 0 c2 _ _ Hv). intros c3 R HR3 _ _. apply wp_ret. split; [done|]. rewrite wait_child_reason.
  destruct (first_reason _) as [why|]; cbn [fmap option_fmap option_map]; [|done].
  destruct (rd_status r) as [code|n].
  - destruct why; cbn; destruct (Z.eqb_spec code 0) as [->|]; cbn; try done. by destruct code.
  - destruct why; done.
Qed.

Lemma miredo_loop_ok base rounds c :
  Forall (fun r => file_ok (rd_file r)) rounds -> conf_rep base c [] ->
  wp (miredo_loop rounds) (fun x c' => x.1 = supervise rounds /\
    (exists alive, children false x.2 = Some alive /\ (x.1 <> None -> alive = false)) /\ conf_rep base c' []) c.
Proof.
  intros Hf. revert c. induction Hf as [|r rounds Hr _ IH]; intros c HR; cbn [miredo_loop supervise].
  { split; [done|]. split; [by exists false|done]. }
  apply wp_bind. eapply wp_mono; [apply (miredo_round_ok base r c Hr HR)|]. intros [ret tr] c1. cbn [fst snd].
  destruct (rd_fork r); cbn [negb].
  - intros [HR1 Hx]. destruct (first_reason _) as [why|]; [|destruct Hx as [-> Htr]; split; [done|]; split; [by exists true|done]].
    destruct Hx as [-> Htr]. destruct (restarts why (rd_status r)); cbn [Z.eqb Pos.eqb].
    + apply wp_bind. eapply wp_mono; [apply (IH c1 HR1)|]. intros [ret tr'] c2. cbn [fst snd].
      intros (-> & (alive & Ha & Hn) & HR2). apply wp_ret. split; [done|]. split; [|done]. exists alive. split; [|done]. cbn [snd]. rewrite children_app, Htr. exact Ha.
    + set (v := match why with ExitAsked => _ | _ => _ end). assert (v = 0 \/ v = 1) as Hv by (unfold v; destruct why, (rd_status r) as [[]|]; auto).
      replace (v =? 2) with false by (by destruct Hv as [-> | ->]).
      apply wp_bind. destruct (clear_ok base 0 c1 [] HR1) as (c2 & E & HR2 & _). unfold wp at 1, clear_settings. rewrite E. cbn [mbind res_bind].
      apply wp_ret. cbn [fst snd]. split; [unfold v; by destruct why, (rd_status r) as [[]|]|]. split; [by exists false|done].
  - intros [[= -> ->] [L HR1]]. cbn [Z.eqb Pos.eqb]. apply wp_bind. destruct (clear_ok base 0 c1 L HR1) as (c2 & E & HR2 & _).
    unfold wp at 1, clear_settings. rewrite E. cbn [mbind res_bind]. split; [done|]. split; [by exists false|done].
Qed.

(** (C32) The supervisor never faults, whatever signals come and whatever files it
    finds, missing ones included, as long as they hold no zero byte (a line that
    begins with one makes the reader look before its buffer: a finding) and have
    fewer than 2^32 - 1 bytes; and it reads each configuration into an empty list,
    so that the stale pointer to the last setting never matters; there is never
    more than one child, and none is left when it returns; and it returns what
    [supervise] says: it restarts the child exactly when a signal killed it, or
    when it was asked to reload and the child ended without an error. *)
Theorem miredo_supervises rounds :
  Forall (fun r => file_ok (rd_file r)) rounds ->
  exists ret tr c, miredo true rounds = Ok (ret, tr, c) /\ ret = supervise rounds /\
    (exists alive, children false tr = Some alive /\ (ret <> None -> alive = false)) /\ strings c = 0 /\ settings c = ∅.
Proof.
  intros Hf. destruct (wp_ok _ _ _ (miredo_loop_ok 0 rounds miredo_conf_create Hf create_rep)) as ([ret tr] & c & E & Hret & Ha & HR).
  exists ret, tr, c. split; [exact E|]. split; [done|]. split; [done|]. destruct HR as (_ & _ & Hd & _ & Hs). cbn in Hd, Hs.
  split; [lia|]. by apply dom_empty_inv_L.
Qed.

(** ** Examples *)

Definition ipv4_literal (s : list Z) : option Z := if bool_decide (s = str "192.0.2.1") then Some 0x010200c0 else None.
Definition no_ipv6 (s : list Z) : option (list Z) := None.
Definition any_regex (s : list Z) : option (list Z -> bool) := Some (fun _ => true).
Definition good_env : run_env :=
  mk_run_env true false true true true true true true true true true None true true 0 0 0 true true true true true true.

Definition client_file : list Z := str "RelayType client" ++ [LF] ++ str "ServerAddress 192.0.2.1" ++ [LF].

Definition client_conf : miredo_conf :=
  Eval vm_compute in match miredo_conf_read_FILE (fun _ => (true, true, true)) client_file false miredo_conf_create with Ok (_, c) => c | Err _ => miredo_conf_create end.

Definition client_settings : list entry := [(1%positive, (str "RelayType", str "client", 1)); (2%positive, (str "ServerAddress", str "192.0.2.1", 2))].

Lemma client_conf_rep : conf_rep 0 client_conf client_settings.
Proof. split_and!; [by repeat (split; [done|]; eexists; split; [done|])|apply (bool_decide_unpack _); vm_compute; exact I|by vm_compute|by repeat constructor|done]. Qed.

Lemma relay_run_contract_witness :
  exists ret tr c', relay_run ipv4_literal no_ipv6 any_regex good_env None client_conf = Ok (ret, tr, c') /\ ret = 0 /\
    SetClientMode (Some (str "192.0.2.1")) None ∈ tr.
Proof.
  destruct (relay_run_contract ipv4_literal no_ipv6 any_regex good_env None 0 client_conf client_settings client_conf_rep I)
    as (ret & tr & c' & E & H).
  exists ret, tr, c'. split; [exact E|]. vm_compute in E. injection E as <- <- _. split; [done|]. repeat (left || right).
Defined.

Lemma server_run_contract_witness :
  exists ret tr c' L', server_run ipv4_literal no_ipv6 good_env (Some (str "192.0.2.1")) client_conf = Ok (ret, tr, c') /\
    conf_rep 0 c' L' /\ ret = 0 /\ tr = [ServerCreate 0x010200c0 0x020200c0; Setuid; ServerSetPrefix (htonl TEREDO_PREFIX); ServerSetMTU 1280; ServerStart; ServerStop; ServerDestroy].
Proof.
  destruct (server_run_contract ipv4_literal no_ipv6 good_env (Some (str "192.0.2.1")) 0 client_conf client_settings client_conf_rep)
    as (ret & tr & c' & L' & E & HR & _).
  exists ret, tr, c', L'. split; [exact E|]. split; [exact HR|]. vm_compute in E. injection E as <- <- _. by split.
Defined.

Lemma checkconf_sound_witness :
  exists c facility c1 su ret tr c2,
    miredo_conf_read_file (Some (client_file, false)) (fun _ => (true, true, true)) miredo_conf_create = Ok (true, c) /\
    miredo_conf_parse_syslog_facility (str "SyslogFacility") LOG_DAEMON c = Ok (true, facility, c1) /\
    relay_run ipv4_literal no_ipv6 any_regex good_env None c1 = Ok (ret, tr, c2) /\ well_run good_env su ret tr.
Proof.
  apply (checkconf_sound ipv4_literal no_ipv6 any_regex good_env 0 (fun _ => (true, true, true)) (fun _ => (true, true, true)) client_file false None).
  - apply (bool_decide_unpack _). vm_compute. exact I.
  - done.
  - done.
  - done.
  - by vm_compute.
Defined.

(** A child that crashes, one that is told to reload and one that is told to
    exit. *)
Definition history : list round :=
  let r signals status := mk_round (Some (client_file, false)) (fun _ => (true, true, true)) true signals status in
  [r [(SIGCHLD, true)] (Signaled 11); r [(SIGCHLD, false); (SIGHUP, false)] (Exited 0); r [(SIGTERM, false)] (Exited 0)].

Lemma miredo_supervises_witness :
  exists tr c, miredo true history = Ok (Some 0, tr, c) /\ strings c = 0 /\ children false tr = Some false.
Proof.
  destruct (miredo_supervises history) as (ret & tr & c & E & -> & (alive & Ha & Hn) & Hs & _).
  - repeat constructor; try done; apply (bool_decide_unpack _); vm_compute; exact I.
  - exists tr, c. split; [exact E|]. split; [done|]. rewrite Ha. by rewrite Hn.
Defined.

(** ** Flaws *)

(** A request to exit is lost when the child is killed by a signal while it ends:
    the supervisor starts it again. *)
Theorem exit_request_lost file mem signals n rounds c :
  file_ok file -> first_reason signals = Some ExitAsked -> conf_rep 0 c [] ->
  exists tr c', miredo_round (mk_round file mem true signals (Signaled n)) c = Ok (Some 2, tr, c') /\
    supervise (mk_round file mem true signals (Signaled n) :: rounds) = supervise rounds.
Proof.
  intros Hf Hs HR. destruct (wp_ok _ _ _ (miredo_round_ok 0 (mk_round file mem true signals (Signaled n)) c Hf HR)) as ([ret tr] & c' & E & H).
  cbn [rd_fork rd_signals rd_status] in H. rewrite Hs in H. cbn in H. destruct H as (_ & -> & _). exists tr, c'. split; [exact E|].
  cbn [supervise rd_fork rd_signals rd_status negb]. by rewrite Hs.
Qed.

Lemma exit_request_lost_witness :
  exists tr c', miredo_round (mk_round None (fun _ => (true, true, true)) true [(SIGTERM, false)] (Signaled 11)) miredo_conf_create = Ok (Some 2, tr, c') /\
    supervise [mk_round None (fun _ => (true, true, true)) true [(SIGTERM, false)] (Signaled 11)] = None.
Proof. by apply (exit_request_lost None (fun _ => (true, true, true)) [(SIGTERM, false)] 11 [] miredo_conf_create I eq_refl create_rep). Defined.

Definition relay_file : list Z := str "RelayType relay" ++ [LF].
Definition discovery_file : list Z := client_file ++ str "LocalDiscovery disabled" ++ [LF].
Definition forced_file : list Z := client_file ++ str "LocalDiscovery forced" ++ [LF].

(** The tool reads an uninitialised variable: whether it accepts a relay without
    a prefix depends on what the variable holds. *)
Example checkconf_reads_uninitialised :
  miredo_checkconffile ipv4_literal no_ipv6 0 true (Some (relay_file, false)) (fun _ => (true, true, true)) = Ok 0 /\
  miredo_checkconffile ipv4_literal no_ipv6 0xff000000 true (Some (relay_file, false)) (fun _ => (true, true, true)) = Ok (-1).
Proof. by vm_compute. Qed.

(** It refuses the settings of local discovery, which the daemon accepts. *)
Example checkconf_refuses_discovery :
  miredo_checkconffile ipv4_literal no_ipv6 0 true (Some (discovery_file, false)) (fun _ => (true, true, true)) = Ok (-1) /\
  is_Some (relay_meaning ipv4_literal no_ipv6 any_regex (setting_of (file_meaning discovery_file).1) None).
Proof. split; [by vm_compute|]. apply (bool_decide_unpack _). vm_compute. exact I. Qed.

(** Forced discovery is not forced. *)
Example forced_discovery_is_not :
  exists su, relay_meaning ipv4_literal no_ipv6 any_regex (setting_of (file_meaning forced_file).1) None = Some su /\
    forced <$> r_disc su = Some false.
Proof. eexists. split; [vm_compute; reflexivity|done]. Qed.
