(* ===== verification/MiredoPriv.v ===== *)
(** * The privileged process and the start of miredo ([miredo/src/privproc.c], [main.c])

A client leaves the configuration of its tunnel device to a small process that
keeps its privileges: the callbacks of [relayd.c] send it the address and the
MTU, and it runs a hook script with the old and the new state in its
environment.  The first part models that process, its environment as a finite
map from names to texts.  The second part models [miredo_main], which handles
the options, locks the file with the process number and detaches.  The answers
of the system are inputs; [inet_ntop] is a parameter. *)

From stdpp Require Import base gmap list numbers strings.
From S2P Require Import Prelude Words CString Addr MiredoDaemon.

(** ** The index of the interface *)

(** [%X] *)
Definition hex_char (d : Z) : Z := if d <? 10 then 48 + d else 55 + d.
Fixpoint hex_digits (fuel : nat) (n : Z) : list Z :=
  match fuel with
  | O => []
  | S fuel' => (if n <? 16 then [] else hex_digits fuel' (n / 16)) ++ [hex_char (n mod 16)]
  end.

(** [snprintf (ifindex, 2 * sizeof (unsigned) + 1, "%X", id)] in
    [create_dynamic_tunnel]. *)
Definition ifindex_argument (id : Z) : list Z := take 8 (hex_digits 16 id).

(** [strtoul (s, NULL, 16)]. *)
Definition strtoul16 (s : list Z) : Z :=
  let '(neg, body) := match skip_spaces s with
                      | 45 :: s' => (true, s')
                      | 43 :: s' => (false, s')
                      | s' => (false, s')
                      end in
  let body := match body with
              | 48 :: x :: c :: s' => if (tolower x =? 120) && (digit_value c <? 16) then c :: s' else body
              | _ => body
              end in
  let n := fst (ul_digits 16 0 body) in
  if 2 ^ 64 <=? n then 2 ^ 64 - 1 else if neg : bool then (- n) mod 2 ^ 64 else n.

(** ** The environment of the script *)

Abbreviation environ := (gmap string (list Z)).

(** [struct miredo_tunnel_settings]. *)
Record miredo_tunnel_settings := mk_settings { cfg_addr : in6_addr; cfg_mtu : Z }.

Definition in6addr_any : in6_addr := repeat 0 16.

(** What happens to one request: what is received, if it is complete; the name
    of the interface, if it still exists; the status of the script; and whether the
    answer can be sent. *)
Record request := mk_request {
  q_settings : option miredo_tunnel_settings;
  q_ifname : option (list Z);
  q_script : Z;
  q_send : bool;
}.

Definition setenv (name : string) (value : list Z) (env : environ) : environ := <[name := value]> env.
Definition unsetenv (name : string) (env : environ) : environ := delete name env.

Section privproc.
Context (inet_ntop : in6_addr -> list Z).

(** The address that goes with it. *)
Definition lladdress (addr : in6_addr) : list Z :=
  inet_ntop (if IN6_IS_TEREDO_ADDR_CONE addr then teredo_cone else teredo_restrict).

(** [INET6_ADDRSTRLEN] is enough for [addr] and [lladdr], and [intbuf] for the
    MTU. *)
Definition prepare (cfg : miredo_tunnel_settings) (env : environ) : environ :=
  if negb (mem_eqb (cfg_addr cfg) in6addr_any) then
    setenv "MTU" (decimal (cfg_mtu cfg)) (setenv "LLADDRESS" (lladdress (cfg_addr cfg))
      (setenv "ADDRESS" (inet_ntop (cfg_addr cfg)) (setenv "STATE" (str "up") env)))
  else unsetenv "MTU" (unsetenv "LLADDRESS" (unsetenv "ADDRESS" (setenv "STATE" (str "down") env))).

Definition remember (cfg : miredo_tunnel_settings) (env : environ) : environ :=
  if negb (mem_eqb (cfg_addr cfg) in6addr_any) then
    setenv "OLD_MTU" (decimal (cfg_mtu cfg)) (setenv "OLD_LLADDRESS" (lladdress (cfg_addr cfg))
      (setenv "OLD_ADDRESS" (inet_ntop (cfg_addr cfg)) (setenv "OLD_STATE" (str "up") env)))
  else unsetenv "OLD_MTU" (unsetenv "OLD_LLADDRESS" (unsetenv "OLD_ADDRESS" (setenv "OLD_STATE" (str "down") env))).

Definition sane (cfg : miredo_tunnel_settings) : bool :=
  negb ((s6_addr (cfg_addr cfg) 0 =? 0xff) || (cfg_mtu cfg <? 1280)).

(** [run_script] is called if the interface still has a name; the list holds the
    environment of each call.  A status of -1 means that the fork failed, and that
    the script did not run, or that a signal killed the script. *)
Definition run_hook (q : request) (env : environ) : list environ * Z * environ :=
  match q_ifname q with
  | None => ([], -1, env)
  | Some iface => let env := setenv "IFACE" iface env in ([env], q_script q, env)
  end.

(** The loop: the environment of each call of [run_script], the answers that are
    sent, and the environment at the end.  It ends with the inputs too. *)
Fixpoint serve (requests : list request) (env : environ) : list environ * list Z * environ :=
  match requests with
  | [] => ([], [], env)
  | q :: requests' =>
    match q_settings q with
    | None => ([], [], env)
    | Some cfg =>
      if negb (sane cfg) then ([], [], env) else
      let env := prepare cfg env in
      let '(runs, res, env) := run_hook q env in
      if negb (q_send q) then (runs, [], env) else
      let '(runs', sent, env') := serve requests' (remember cfg env) in (runs ++ runs', res :: sent, env')
    end
  end.

(** [main]: the exit status, the runs and the answers.  [last] is the name of
    the interface at the end. *)
Definition privproc_main (argv : list (list Z)) (requests : list request) (last : option (list Z)) (env : environ) :
    Z * list environ * list Z :=
  match argv with
  | [_; arg] =>
    let ifindex := wrap 32 (strtoul16 arg) in
    if ifindex =? 0 then (1, [], []) else
    let env := setenv "IFINDEX" (decimal ifindex) env in
    let env := unsetenv "OLD_MTU" (unsetenv "OLD_LLADDRESS" (unsetenv "OLD_ADDRESS" (setenv "OLD_STATE" (str "down") env))) in
    let '(runs, sent, env) := serve requests env in
    match last with
    | None => (0, runs, sent)
    | Some iface =>
      let env := setenv "IFACE" iface (unsetenv "MTU" (unsetenv "LLADDRESS" (unsetenv "ADDRESS" (setenv "STATE" (str "down") env)))) in
      (0, runs ++ [env; setenv "STATE" (str "destroy") env], sent)
    end
  | _ => (1, [], [])
  end.
End privproc.

(** ** The other end ([relayd.c]) *)

(** What [configure_tunnel] sends, if anything, and what it returns; [answer] is
    [None] when sending or receiving fails. *)
Definition configure_tunnel (addr : in6_addr) (mtu : Z) (answer : option Z) : option miredo_tunnel_settings * Z :=
  if 65535 <? mtu then (None, -1) else
  (Some (mk_settings addr (wrap 16 mtu)), match answer with Some r => r | None => -1 end).

Definition miredo_up_callback (addr : in6_addr) (mtu : Z) (answer : option Z) : option miredo_tunnel_settings :=
  fst (configure_tunnel addr mtu answer).
Definition miredo_down_callback (answer : option Z) : option miredo_tunnel_settings := fst (configure_tunnel in6addr_any 1280 answer).

(** ** The index survives the command line *)

Lemma digit_value_hex d : 0 <= d < 16 -> digit_value (hex_char d) = d.
Proof.
  intros H. assert (d = 0 \/ d = 1 \/ d = 2 \/ d = 3 \/ d = 4 \/ d = 5 \/ d = 6 \/ d = 7 \/ d = 8 \/ d = 9 \/ d = 10 \/ d = 11 \/ d = 12 \/
    d = 13 \/ d = 14 \/ d = 15) as Hd by lia. repeat (destruct Hd as [-> |Hd]; [done|]). by subst.
Qed.

Lemma ul_digits_snoc base acc s c n :
  ul_digits base acc s = (n, []) -> digit_value c < base -> ul_digits base acc (s ++ [c]) = (n * base + digit_value c, []).
Proof.
  revert acc. induction s as [|x s IH]; intros acc; cbn [ul_digits app].
  - intros [= ->] Hc. by rewrite (proj2 (Z.ltb_lt _ _) Hc).
  - destruct (digit_value x <? base); [apply IH|done].
Qed.

Lemma hex_digits_read fuel n : 0 <= n < 16 ^ Z.of_nat fuel -> (0 < fuel)%nat -> ul_digits 16 0 (hex_digits fuel n) = (n, []).
Proof.
  revert n. induction fuel as [|fuel IH]; intros n Hn Hf; [lia|]. cbn [hex_digits].
  assert (0 <= n mod 16 < 16) as Hm by (apply Z.mod_pos_bound; lia).
  assert (ul_digits 16 0 (if n <? 16 then [] else hex_digits fuel (n / 16)) = (n / 16, [])) as H.
  { destruct (Z.ltb_spec n 16) as [|Hb]; [by rewrite Z.div_small by lia|]. apply IH.
    - rewrite Nat2Z.inj_succ, Z.pow_succ_r in Hn by lia. split; [apply Z.div_pos; lia|]. apply Z.div_lt_upper_bound; lia.
    - destruct fuel; [cbn in Hn; lia|lia]. }
  rewrite (ul_digits_snoc _ _ _ _ _ H) by (rewrite digit_value_hex; lia). rewrite digit_value_hex by lia.
  rewrite (Z.div_mod n 16) at 3 by lia. do 2 f_equal. lia.
Qed.

Lemma hex_digits_length fuel n k : 0 <= n < 16 ^ Z.of_nat k -> (0 < k)%nat -> (length (hex_digits fuel n) <= k)%nat.
Proof.
  revert n k. induction fuel as [|fuel IH]; intros n k Hn Hk; cbn [hex_digits]; [cbn; lia|].
  rewrite length_app. cbn [length]. destruct (Z.ltb_spec n 16) as [|Hb]; [cbn; lia|]. destruct k as [|k]; [lia|].
  rewrite Nat2Z.inj_succ, Z.pow_succ_r in Hn by lia.
  assert (0 < k)%nat by (destruct k; [cbn in Hn; lia|lia]).
  assert (length (hex_digits fuel (n / 16)) <= k)%nat; [|lia].
  apply IH; [|done]. split; [apply Z.div_pos; lia|]. apply Z.div_lt_upper_bound; lia.
Qed.

(** The first character is a digit that is not zero. *)
Lemma hex_digits_head fuel n : 0 < n < 16 ^ Z.of_nat fuel -> exists d s, hex_digits fuel n = hex_char d :: s /\ 0 < d < 16.
Proof.
  revert n. induction fuel as [|fuel IH]; intros n Hn; [cbn in Hn; lia|]. cbn [hex_digits].
  destruct (Z.ltb_spec n 16) as [Hb|Hb].
  - exists n, []. rewrite Z.mod_small by lia. split; [done|lia].
  - destruct (IH (n / 16)) as (d & s & -> & Hd); [|by exists d, (s ++ [hex_char (n mod 16)])].
    rewrite Nat2Z.inj_succ, Z.pow_succ_r in Hn by lia. split; [apply Z.div_str_pos; lia|]. apply Z.div_lt_upper_bound; lia.
Qed.

Lemma strtoul16_hex d s : 0 < d < 16 -> strtoul16 (hex_char d :: s) =
  let n := fst (ul_digits 16 0 (hex_char d :: s)) in if 2 ^ 64 <=? n then 2 ^ 64 - 1 else n.
Proof.
  intros H. assert (d = 1 \/ d = 2 \/ d = 3 \/ d = 4 \/ d = 5 \/ d = 6 \/ d = 7 \/ d = 8 \/ d = 9 \/ d = 10 \/ d = 11 \/ d = 12 \/
    d = 13 \/ d = 14 \/ d = 15) as Hd by lia. repeat (destruct Hd as [-> |Hd]; [done|]). by subst.
Qed.

Lemma ifindex_roundtrip id : 0 < id < 2 ^ 32 -> wrap 32 (strtoul16 (ifindex_argument id)) = id.
Proof.
  intros H. unfold ifindex_argument. rewrite take_ge by (apply (hex_digits_length 16 id 8); cbn; lia).
  destruct (hex_digits_head 16 id) as (d & s & E & Hd); [cbn; lia|]. rewrite E, strtoul16_hex, <- E by done.
  rewrite hex_digits_read by (cbn; lia). cbn [fst]. cbv zeta. destruct (Z.leb_spec (2 ^ 64) id); [lia|].
  unfold wrap. apply Z.mod_small. lia.
Qed.

(** ** What the script is told *)

Inductive tunnel_state := Down | Up (addr : in6_addr) (mtu : Z) | Gone.

Definition state_of (cfg : miredo_tunnel_settings) : tunnel_state :=
  if negb (mem_eqb (cfg_addr cfg) in6addr_any) then Up (cfg_addr cfg) (cfg_mtu cfg) else Down.

(** The variables of the new and of the old state. *)
Record names := mk_names { n_state : string; n_address : string; n_lladdress : string; n_mtu : string }.
Definition new_names : names := mk_names "STATE" "ADDRESS" "LLADDRESS" "MTU".
Definition old_names : names := mk_names "OLD_STATE" "OLD_ADDRESS" "OLD_LLADDRESS" "OLD_MTU".
Definition all_names (N : names) : list string := [n_state N; n_address N; n_lladdress N; n_mtu N].

Section script.
Context (inet_ntop : in6_addr -> list Z).

Definition describes (N : names) (s : tunnel_state) (env : environ) : Prop :=
  let '(state, addr, ll, mtu) :=
    match s with
    | Down => (str "down", None, None, None)
    | Up a m => (str "up", Some (inet_ntop a), Some (lladdress inet_ntop a), Some (decimal m))
    | Gone => (str "destroy", None, None, None)
    end in
  env !! n_state N = Some state /\ env !! n_address N = addr /\ env !! n_lladdress N = ll /\ env !! n_mtu N = mtu.

(** One run of the script: the old and the new state and the interface. *)
Definition run_ok (index : Z) (env : environ) (call : tunnel_state * tunnel_state * list Z) : Prop :=
  let '(old, new, iface) := call in
  describes new_names new env /\ describes old_names old env /\ env !! "IFACE" = Some iface /\ env !! "IFINDEX" = Some (decimal index).

(** The runs that the requests call for, and the state at the end. *)
Fixpoint script_calls (old : tunnel_state) (requests : list request) : list (tunnel_state * tunnel_state * list Z) * tunnel_state :=
  match requests with
  | [] => ([], old)
  | q :: requests' =>
    match q_settings q with
    | None => ([], old)
    | Some cfg =>
      if negb (sane cfg) then ([], old) else
      let call := match q_ifname q with Some iface => [(old, state_of cfg, iface)] | None => [] end in
      if negb (q_send q) then (call, old) else
      let '(calls, last) := script_calls (state_of cfg) requests' in (call ++ calls, last)
    end
  end.

Lemma describes_ext N s env env' : (forall k, k ∈ all_names N -> env' !! k = env !! k) -> describes N s env -> describes N s env'.
Proof.
  intros H. unfold describes. destruct s; intros (H1 & H2 & H3 & H4);
    rewrite !H by (unfold all_names; set_solver); done.
Qed.

Lemma prepare_ok cfg env :
  describes new_names (state_of cfg) (prepare inet_ntop cfg env) /\
  forall k, k ∉ all_names new_names -> prepare inet_ntop cfg env !! k = env !! k.
Proof.
  unfold describes, prepare, state_of, setenv, unsetenv. destruct (negb _); cbn [n_state n_address n_lladdress n_mtu new_names].
  - split; [split_and!; by simplify_map_eq|]. intros k Hk. unfold all_names in Hk. cbn in Hk.
    rewrite !lookup_insert_ne by set_solver. done.
  - split; [split_and!; by simplify_map_eq|]. intros k Hk. unfold all_names in Hk. cbn in Hk.
    rewrite !lookup_delete_ne, lookup_insert_ne by set_solver. done.
Qed.

Lemma remember_ok cfg env :
  describes old_names (state_of cfg) (remember inet_ntop cfg env) /\
  forall k, k ∉ all_names old_names -> remember inet_ntop cfg env !! k = env !! k.
Proof.
  unfold describes, remember, state_of, setenv, unsetenv. destruct (negb _); cbn [n_state n_address n_lladdress n_mtu old_names].
  - split; [split_and!; by simplify_map_eq|]. intros k Hk. unfold all_names in Hk. cbn in Hk.
    rewrite !lookup_insert_ne by set_solver. done.
  - split; [split_and!; by simplify_map_eq|]. intros k Hk. unfold all_names in Hk. cbn in Hk.
    rewrite !lookup_delete_ne, lookup_insert_ne by set_solver. done.
Qed.

Lemma names_apart k : k ∈ all_names old_names -> k ∉ all_names new_names /\ k <> "IFACE"%string.
Proof.
  unfold all_names. cbn. intros H. repeat (apply elem_of_cons in H as [-> |H]; [split; [|done]; by apply (bool_decide_unpack _)|]). by apply elem_of_nil in H.
Qed.

Lemma serve_ok index requests old env :
  describes old_names old env -> env !! "IFINDEX" = Some (decimal index) ->
  let '(runs, _, env') := serve inet_ntop requests env in
  let '(calls, last) := script_calls old requests in
  Forall2 (run_ok index) runs calls /\ describes old_names last env' /\ env' !! "IFINDEX" = Some (decimal index).
Proof.
  revert old env. induction requests as [|q requests IH]; intros old env Ho Hi; cbn [serve script_calls]; [by split|].
  destruct (q_settings q) as [cfg|]; [|by split]. destruct (negb (sane cfg)); [by split|].
  destruct (prepare_ok cfg env) as [Hn Hk].
  set (env1 := match q_ifname q with Some i => setenv "IFACE" i (prepare inet_ntop cfg env) | None => prepare inet_ntop cfg env end).
  assert (describes old_names old env1 /\ env1 !! "IFINDEX" = Some (decimal index)) as [Ho1 Hi1].
  { split.
    - apply (describes_ext _ _ env); [|done]. intros k [H1 H2]%names_apart. unfold env1, setenv. destruct (q_ifname q); [rewrite lookup_insert_ne by done|]; by apply Hk.
    - unfold env1, setenv. destruct (q_ifname q); [rewrite lookup_insert_ne by done|]; (rewrite Hk; [done|]); by apply (bool_decide_unpack _). }
  set (calls1 := match q_ifname q with Some i => [(old, state_of cfg, i)] | None => [] end).
  assert (exists runs1 res, run_hook q (prepare inet_ntop cfg env) = (runs1, res, env1) /\ Forall2 (run_ok index) runs1 calls1)
    as (runs1 & res & -> & Hrun).
  { unfold run_hook, env1, calls1 in *. destruct (q_ifname q) as [i|]; [|by eexists _, _]. eexists _, _. split; [done|]. constructor; [|constructor].
    split_and!; [|done|apply lookup_insert_eq|done]. apply (describes_ext _ _ (prepare inet_ntop cfg env)); [|done].
    intros k Hin. unfold setenv. rewrite lookup_insert_ne; [done|]. intros <-. revert Hin. by apply (bool_decide_unpack _). }
  destruct (negb (q_send q)); [done|].
  destruct (remember_ok cfg env1) as [Hr Hrk]. specialize (IH (state_of cfg) (remember inet_ntop cfg env1) Hr).
  rewrite Hrk in IH by (by apply (bool_decide_unpack _)). specialize (IH Hi1).
  destruct (serve inet_ntop requests _) as [[runs sent] env'], (script_calls _ requests) as [calls last]. destruct IH as (H1 & H2 & H3).
  split; [by apply Forall2_app|done].
Qed.
End script.

Section end_to_end.
Context (inet_ntop : in6_addr -> list Z).

Definition final_calls (s : tunnel_state) (last : option (list Z)) : list (tunnel_state * tunnel_state * list Z) :=
  match last with None => [] | Some iface => [(s, Down, iface); (s, Gone, iface)] end.

Lemma privproc_main_ok id path requests last env :
  0 < id < 2 ^ 32 ->
  exists runs sent, privproc_main inet_ntop [path; ifindex_argument id] requests last env = (0, runs, sent) /\
    Forall2 (run_ok inet_ntop id) runs
      (fst (script_calls Down requests) ++ final_calls (snd (script_calls Down requests)) last).
Proof.
  intros Hid. unfold privproc_main. rewrite ifindex_roundtrip by done. destruct (Z.eqb_spec id 0) as [|_]; [lia|]. cbv zeta.
  set (env0 := unsetenv "OLD_MTU" _).
  assert (describes inet_ntop old_names Down env0 /\ env0 !! "IFINDEX" = Some (decimal id)) as [H1 H2].
  { unfold env0, unsetenv, setenv. split; [split_and!; cbn [n_state n_address n_lladdress n_mtu old_names]; by simplify_map_eq|by simplify_map_eq]. }
  pose proof (serve_ok inet_ntop id requests Down env0 H1 H2) as H.
  destruct (serve inet_ntop requests env0) as [[runs sent] env1], (script_calls Down requests) as [calls s]. destruct H as (Hr & Ho & Hi).
  cbn [fst snd]. destruct last as [iface|]; [|by eexists _, _; rewrite app_nil_r]. eexists _, _. split; [done|].
  apply Forall2_app; [done|]. unfold setenv, unsetenv.
  assert (forall e, (forall k, k ∈ all_names old_names -> e !! k = env1 !! k) -> describes inet_ntop old_names s e) as Hold
    by (intros e He; by apply (describes_ext _ _ _ env1)).
  repeat constructor; cbn [n_state n_address n_lladdress n_mtu new_names]; try (by simplify_map_eq);
    apply Hold; intros k Hk; unfold all_names in Hk; cbn in Hk; rewrite !lookup_insert_ne, !lookup_delete_ne, lookup_insert_ne by set_solver; done.
Qed.

(** What the relay tells the process: the tunnel comes up with an address and an
    MTU, or goes down. *)
Definition told (x : option (in6_addr * Z)) : option miredo_tunnel_settings :=
  match x with Some (addr, mtu) => miredo_up_callback addr mtu (Some 0) | None => miredo_down_callback (Some 0) end.

Definition state_told (x : option (in6_addr * Z)) : tunnel_state :=
  match x with Some (addr, mtu) => Up addr mtu | None => Down end.

(** A unicast address and an MTU that IPv6 allows. *)
Definition plausible (x : option (in6_addr * Z)) : Prop :=
  match x with
  | Some (addr, mtu) => s6_addr addr 0 <> 0xff /\ addr <> in6addr_any /\ 1280 <= mtu <= 65535
  | None => True
  end.

(** Each state with the one before it. *)
Fixpoint changes (old : tunnel_state) (iface : list Z) (l : list (option (in6_addr * Z))) : list (tunnel_state * tunnel_state * list Z) :=
  match l with
  | [] => []
  | x :: l' => (old, state_told x, iface) :: changes (state_told x) iface l'
  end.

Lemma told_sane x : plausible x -> exists cfg, told x = Some cfg /\ sane cfg = true /\ state_of cfg = state_told x.
Proof.
  destruct x as [[addr mtu]|]; [|by intros _; eexists]. intros (Ha & Hany & Hm). cbn. unfold miredo_up_callback, configure_tunnel.
  destruct (Z.ltb_spec 65535 mtu); [lia|]. cbn [fst]. assert (wrap 16 mtu = mtu) as -> by (unfold wrap; apply Z.mod_small; lia).
  eexists. split; [done|]. unfold sane, state_of. cbn [cfg_addr cfg_mtu]. split.
  - rewrite (proj2 (Z.eqb_neq _ _) Ha). destruct (Z.ltb_spec mtu 1280); [lia|done].
  - destruct (mem_eqb addr in6addr_any) eqn:E; [|done]. by apply mem_eqb_true in E.
Qed.

Fixpoint last_state (old : tunnel_state) (l : list (option (in6_addr * Z))) : tunnel_state :=
  match l with [] => old | x :: l' => last_state (state_told x) l' end.

Definition request_of (iface : list Z) (script : Z) (x : option (in6_addr * Z)) : request := mk_request (told x) (Some iface) script true.

Lemma script_calls_told iface script l old :
  Forall plausible l -> script_calls old (request_of iface script <$> l) = (changes old iface l, last_state old l).
Proof.
  intros H. revert old. induction H as [|x l Hx _ IH]; intros old; [done|]. cbn [fmap list_fmap script_calls request_of q_settings q_ifname q_send].
  destruct (told_sane x Hx) as (cfg & -> & -> & ->). cbn [negb]. fold (request_of iface script <$> l).
  by rewrite IH.
Qed.

(** (C33) The hook script follows the tunnel: the process that the relay starts with
    the index of the device runs the script once for every time that the relay
    reports the tunnel up or down, in this order, and each time its environment
    gives the new state, with address and MTU, the state before it, and the right
    interface, and never a mixture of several; at the end the script is told that
    the tunnel is down and that it is destroyed.  The index is not 0, the tunnel is
    up with a unicast address and an MTU from 1280 to 65535, the interface and the
    pipe stay, and a run is a call of [run_script]: when its fork fails, that run is
    missing. *)
Theorem hook_follows_tunnel id path iface script l env :
  0 < id < 2 ^ 32 -> Forall plausible l ->
  exists runs sent,
    privproc_main inet_ntop [path; ifindex_argument id] (request_of iface script <$> l) (Some iface) env = (0, runs, sent) /\
    Forall2 (run_ok inet_ntop id) runs
      (changes Down iface l ++ [(last_state Down l, Down, iface); (last_state Down l, Gone, iface)]).
Proof.
  intros Hid Hl. destruct (privproc_main_ok id path (request_of iface script <$> l) (Some iface) env Hid) as (runs & sent & E & H).
  rewrite script_calls_told in H by done. by exists runs, sent.
Qed.
End end_to_end.

Lemma hook_follows_tunnel_witness :
  exists runs sent, privproc_main (fun a => a) [str "miredo-privproc"; str "A"]
      (request_of (str "teredo") 0 <$> [Some ([0x20; 1] ++ repeat 0 13 ++ [1], 1280); None]) (Some (str "teredo")) ∅ = (0, runs, sent) /\
    length runs = 4%nat.
Proof.
  destruct (hook_follows_tunnel (fun a => a) 10 (str "miredo-privproc") (str "teredo") 0
    [Some ([0x20; 1] ++ repeat 0 13 ++ [1], 1280); None] ∅) as (runs & sent & E & H); [lia| |].
  - repeat constructor; cbn; (done || lia).
  - exists runs, sent. split; [exact E|]. exact (Forall2_length _ _ _ H).
Defined.
