(* ===== verification/MiredoMain.v ===== *)
(** * The start of the miredo daemons ([miredo/src/main.c])

[miredo_main] handles the options, looks for the configuration, secures the
process, detaches, locks the file with the process number and runs the
supervisor [miredo].  The options that [getopt_long] finds are a list, the
answers of the system a record.  On the platform of [config.h] there is no
default user and there are no capabilities.  Messages are left out. *)

From stdpp Require Import base list numbers strings.
From S2P Require Import Prelude Words CString.

Inductive opt :=
| OptConf (arg : list Z) | OptForeground | OptHelp | OptPidfile (arg : list Z) | OptUser (arg : list Z)
| OptChroot (arg : list Z) | OptVersion | OptUnknown.

Record options := mk_options {
  conffile : option (list Z);
  pidfile : option (list Z);
  username : option (list Z);
  chrootdir : option (list Z);
  foreground : bool;
}.

Definition no_options : options := mk_options None None None None false.

(** The loop over the options; [inl] is the exit status of an early return. *)
Fixpoint parse_options (l : list opt) (o : options) : Z + options :=
  match l with
  | [] => inr o
  | OptConf a :: l' =>
    if conffile o then inl 2 else parse_options l' (mk_options (Some a) (pidfile o) (username o) (chrootdir o) (foreground o))
  | OptForeground :: l' => parse_options l' (mk_options (conffile o) (pidfile o) (username o) (chrootdir o) true)
  | OptHelp :: _ => inl 0
  | OptPidfile a :: l' =>
    if pidfile o then inl 2 else parse_options l' (mk_options (conffile o) (Some a) (username o) (chrootdir o) (foreground o))
  | OptUser a :: l' =>
    if username o then inl 2 else parse_options l' (mk_options (conffile o) (pidfile o) (Some a) (chrootdir o) (foreground o))
  | OptChroot a :: l' =>
    if chrootdir o then inl 2 else parse_options l' (mk_options (conffile o) (pidfile o) (username o) (Some a) (foreground o))
  | OptVersion :: _ => inl 0
  | OptUnknown :: _ => inl 2
  end.

(** The answers of the system; true is success. *)
Record main_env := mk_main_env {
  m_access : list Z -> bool;         (* access (conffile, R_OK) *)
  m_chroot : list Z -> bool;         (* a directory that can be entered *)
  m_dup : bool;                      (* dup (2) == 3 *)
  m_diagnose : bool;
  m_pipe : bool;
  m_fork : bool;
  m_open : bool; m_fstat : bool; m_regular : bool; m_lockf : bool; m_ftruncate : bool; m_write : bool; m_fdatasync : bool;
  m_freopen : bool;
  m_notify : bool;                   (* write (pipes[1], ...) *)
  m_miredo : Z;
}.

Inductive main_event :=
| PidOpen (path : list Z) | PidLocked | PidClosed | Detached | Run (conf : list Z) (server : option (list Z)) | PidUnlink (path : list Z).

Section main.
Context (miredo_name etc_dir localstatedir : list Z).
Context (e : main_env).

(** [snprintf] into an array of [len] bytes. *)
Definition snprintf_in (len : nat) (s : list Z) : list Z := take (len - 1) s.

Definition default_conffile : list Z :=
  snprintf_in (length etc_dir + length miredo_name + (length (str "/miredo/.conf") + 1))
    (etc_dir ++ str "/miredo/" ++ miredo_name ++ str ".conf").

Definition default_pidfile : list Z :=
  snprintf_in ((length localstatedir + length (str "/run/.pid") + 1) + length miredo_name)
    (localstatedir ++ str "/run/" ++ miredo_name ++ str ".pid").

Definition create_pidfile (path : list Z) : bool * list main_event :=
  if negb (m_open e) then (false, []) else
  if m_fstat e && m_regular e && m_lockf e && m_ftruncate e && m_write e && m_fdatasync e
  then (true, [PidOpen path; PidLocked])
  else (false, [PidOpen path; PidClosed]).

(** From the opening of the pid file: what happens, the exit status, and whether
    the byte that the parent waits for was written. *)
Definition run_daemon (o : options) (conf pid : list Z) (server : option (list Z)) : list main_event * Z * bool :=
  let '(ok, tr) := create_pidfile pid in
  if negb ok then (tr, 1, false) else
  let ready := if foreground o then Some [] else if m_freopen e && m_pipe e && m_notify e then Some [Detached] else None in
  match ready with
  | None => (tr, 1, false)
  | Some tr' => (tr ++ tr' ++ [Run conf server; PidUnlink pid; PidClosed], if m_miredo e =? 0 then 0 else 1, true)
  end.

(** What happens, the exit status of the process that was started, and that of
    the one in the background; from the search for the configuration. *)
Definition miredo_start (o : options) (servername : option (list Z)) : list main_event * Z * option Z :=
  let conf := default default_conffile (conffile o) in
  if (if servername then false else negb (m_access e conf)) then ([], 1, None) else
  if (match chrootdir o with Some d => negb (m_chroot e d) | None => false end) then ([], 1, None) else
  let pid := default default_pidfile (pidfile o) in
  if negb (m_dup e) then ([], 1, None) else
  if negb (m_diagnose e) then ([], 1, None) else
  if foreground o then
    let '(tr, code, _) := run_daemon o conf pid servername in (tr, code, None)
  else
    if negb (m_fork e) then ([], 1, None) else
    let '(tr, code, notified) := run_daemon o conf pid servername in
    (tr, if notified : bool then 0 else 1, Some code).

Definition miredo_main (opts : list opt) (args : list (list Z)) : list main_event * Z * option Z :=
  match parse_options opts no_options with
  | inl code => ([], code, None)
  | inr o =>
    if (1 <? length args)%nat then ([], 2, None) else
    if username o then ([], 2, None) else
    miredo_start o (list.head args)
  end.
End main.

(** ** The command line *)

(** The options that take an argument, and that may be given once. *)
Definition kind (x : opt) : option nat :=
  match x with OptConf _ => Some 0 | OptPidfile _ => Some 1 | OptUser _ => Some 2 | OptChroot _ => Some 3 | _ => None end%nat.

Definition given (o : options) (k : nat) : bool :=
  match k with
  | 0 => bool_decide (is_Some (conffile o)) | 1 => bool_decide (is_Some (pidfile o))
  | 2 => bool_decide (is_Some (username o)) | _ => bool_decide (is_Some (chrootdir o))
  end%nat.

Definition informs (x : opt) : bool := match x with OptHelp | OptVersion => true | _ => false end.

Definition give (x : opt) (o : options) : options :=
  match x with
  | OptConf a => mk_options (Some a) (pidfile o) (username o) (chrootdir o) (foreground o)
  | OptPidfile a => mk_options (conffile o) (Some a) (username o) (chrootdir o) (foreground o)
  | OptUser a => mk_options (conffile o) (pidfile o) (Some a) (chrootdir o) (foreground o)
  | OptChroot a => mk_options (conffile o) (pidfile o) (username o) (Some a) (foreground o)
  | OptForeground => mk_options (conffile o) (pidfile o) (username o) (chrootdir o) true
  | _ => o
  end.

(** The rest of the options makes sense after those that were given. *)
Definition sensible (l : list opt) (o : options) : Prop :=
  OptUnknown ∉ l /\ NoDup (omap kind l) /\ Forall (fun k => given o k = false) (omap kind l).

Lemma parse_options_kind x k l o :
  kind x = Some k -> parse_options (x :: l) o = if given o k then inl 2 else parse_options l (give x o).
Proof. destruct x; intros [= <-]; cbn; by case_match. Qed.

Lemma given_give x k o j : kind x = Some k -> (j < 4)%nat -> given (give x o) j = (j =? k)%nat || given o j.
Proof. intros Hk Hj. destruct x; try discriminate Hk; injection Hk as <-; destruct j as [|[|[|[|]]]]; (reflexivity || lia). Qed.

Lemma kind_small (l : list opt) (k : nat) : k ∈ omap kind l -> (k < 4)%nat.
Proof. intros (x & _ & Hx)%list_elem_of_omap. destruct x; try discriminate Hx; injection Hx as <-; lia. Qed.

Lemma sensible_cons x k l o :
  kind x = Some k -> sensible (x :: l) o <-> given o k = false /\ sensible l (give x o).
Proof.
  intros Hk. unfold sensible. cbn [omap list_omap]. rewrite Hk. rewrite list.NoDup_cons, list.Forall_cons, not_elem_of_cons.
  assert (OptUnknown <> x) as Hx by (by intros <-).
  enough (Forall (fun j => given (give x o) j = false) (omap kind l) <-> k ∉ omap kind l /\ Forall (fun j => given o j = false) (omap kind l)) as ->
    by tauto.
  rewrite !list.Forall_forall. split.
  - intros H. split; [intros Hin; specialize (H k Hin); rewrite (given_give x k), Nat.eqb_refl in H; [done|done|exact (kind_small l k Hin)]|].
    intros j Hj. specialize (H j Hj). pose proof (kind_small l j Hj) as Hsm. rewrite (given_give x k o j Hk Hsm) in H. by apply orb_false_iff in H as [_ H].
  - intros [Hk' H] j Hj. rewrite (given_give x k o j Hk (kind_small l j Hj)). apply orb_false_iff. split; [|by apply H].
    apply Nat.eqb_neq. by intros ->.
Qed.

Lemma parse_options_ok l o :
  Forall (fun x => informs x = false) l ->
  (sensible l o /\ exists o', parse_options l o = inr o' /\ given o' 2 = given o 2 || bool_decide (2%nat ∈ omap kind l)) \/
  (~ sensible l o /\ parse_options l o = inl 2).
Proof.
  intros H. revert o. induction H as [|x l Hx _ IH]; intros o.
  { left. split; [|exists o; by rewrite orb_false_r]. split_and!; [apply not_elem_of_nil|constructor|constructor]. }
  destruct (kind x) as [k|] eqn:Hk.
  - rewrite (parse_options_kind x k) by done. rewrite (sensible_cons x k) by done. destruct (given o k) eqn:Hg; [right; by split; [intros []|]|].
    destruct (IH (give x o)) as [(Hs & o' & E & Ho')|[Hs E]]; [left|right; split; [by intros []|done]].
    split; [done|]. exists o'. split; [done|]. rewrite Ho', (given_give x k) by (done || lia). cbn [omap list_omap]. rewrite Hk.
    destruct (Nat.eqb_spec 2 k) as [<-|Hn]; cbn [orb].
    + rewrite bool_decide_eq_true_2 by (by left). by rewrite orb_true_r.
    + f_equal. apply bool_decide_ext. rewrite elem_of_cons. naive_solver.
  - destruct x; try done; cbn [parse_options].
    + destruct (IH (give OptForeground o)) as [(Hs & Ho)|[Hs E]]; [left|right]; (split; [|done]).
      * destruct Hs as (H1 & H2). split; [apply not_elem_of_cons; by split|exact H2].
      * intros ([_ H1]%not_elem_of_cons & H2). apply Hs. split; [exact H1|exact H2].
    + right. split; [|done]. intros [Hn _]. apply Hn. by left.
Qed.

(** ** The main theorem *)

(** The options before the first one that only informs, which is the last one that
    is looked at. *)
Fixpoint before_info (l : list opt) : list opt :=
  match l with [] => [] | x :: l' => if informs x then [] else x :: before_info l' end.

Definition asks_info (l : list opt) : bool := existsb informs l.

Lemma before_info_plain l : Forall (fun x => informs x = false) (before_info l).
Proof. induction l as [|x l IH]; cbn [before_info]; [constructor|]. destruct (informs x) eqn:E; by constructor. Qed.

Lemma parse_options_info l o :
  parse_options l o =
    match parse_options (before_info l) o with
    | inl code => inl code
    | inr o' => if asks_info l then inl 0 else inr o'
    end.
Proof.
  revert o. induction l as [|x l IH]; intros o; [done|].
  unfold asks_info in *. destruct x; cbn [before_info informs parse_options existsb orb]; try done; try apply IH;
    [destruct (conffile o)|destruct (pidfile o)|destruct (username o)|destruct (chrootdir o)]; done || apply IH.
Qed.

(** A command line that the program accepts: nothing unknown and no option twice
    before an option that asks for information; and without such an option, no
    user either, since the program is built without a default one, and at most the
    name of a server. *)
Definition command_line_ok (l : list opt) (args : list (list Z)) : Prop :=
  sensible (before_info l) no_options /\
  (asks_info l = false -> 2%nat ∉ omap kind (before_info l) /\ (length args <= 1)%nat).

Definition has_run (tr : list main_event) : bool := existsb (fun x => match x with Run _ _ => true | _ => false end) tr.

(** The daemon runs, with this configuration and this server, between the
    locking of the pid file and its removal. *)
Definition bracketed (conf pid : list Z) (server : option (list Z)) (tr : list main_event) : Prop :=
  exists mid, tr = [PidOpen pid; PidLocked] ++ mid ++ [Run conf server; PidUnlink pid; PidClosed] /\ (mid = [] \/ mid = [Detached]).

Section contract.
Context (miredo_name etc_dir localstatedir : list Z) (e : main_env).

Lemma run_daemon_ok o conf pid server :
  exists tr code ok, run_daemon e o conf pid server = (tr, code, ok) /\ (code = 0 \/ code = 1) /\ ok = has_run tr /\
    (has_run tr = true -> bracketed conf pid server tr) /\ (code = 0 -> has_run tr = true).
Proof.
  unfold run_daemon, create_pidfile, bracketed. destruct (m_open e); cbn [negb]; [|eexists _, _, _; split; [done|]; split_and!; [by right|done..]].
  destruct (m_fstat e && _ && _ && _ && _ && _); cbn [negb]; [|eexists _, _, _; split; [done|]; split_and!; [by right|done..]].
  destruct (foreground o).
  - eexists _, _, _. split; [done|]. split; [case_match; auto|]. split; [done|]. split; [|done]. intros _. exists []. auto.
  - destruct (m_freopen e && m_pipe e && m_notify e); [|eexists _, _, _; split; [done|]; split_and!; [by right|done..]].
    eexists _, _, _. split; [done|]. split; [case_match; auto|]. split; [done|]. split; [|done]. intros _. exists [Detached]. auto.
Qed.

(** The default paths are not cut. *)
Lemma default_conffile_whole : default_conffile miredo_name etc_dir = etc_dir ++ str "/miredo/" ++ miredo_name ++ str ".conf".
Proof. unfold default_conffile, snprintf_in. apply take_ge. rewrite !length_app. cbn. lia. Qed.

Lemma default_pidfile_whole : default_pidfile miredo_name localstatedir = localstatedir ++ str "/run/" ++ miredo_name ++ str ".pid".
Proof. unfold default_pidfile, snprintf_in. apply take_ge. rewrite !length_app. cbn. lia. Qed.

Definition conf_path (o : options) : list Z := default (etc_dir ++ str "/miredo/" ++ miredo_name ++ str ".conf") (conffile o).
Definition pid_path (o : options) : list Z := default (localstatedir ++ str "/run/" ++ miredo_name ++ str ".pid") (pidfile o).

Lemma miredo_start_ok o server :
  exists tr code bg, miredo_start miredo_name etc_dir localstatedir e o server = (tr, code, bg) /\ (code = 0 \/ code = 1) /\
    (has_run tr = true -> bracketed (conf_path o) (pid_path o) server tr) /\ (bg <> None -> (code = 0 <-> has_run tr = true)).
Proof.
  unfold miredo_start. rewrite default_conffile_whole, default_pidfile_whole. fold (conf_path o) (pid_path o).
  assert (exists tr code bg, ([], 1, None) = (tr, code, bg) /\ (code = 0 \/ code = 1) /\
    (has_run tr = true -> bracketed (conf_path o) (pid_path o) server tr) /\ (bg <> (None : option Z) -> (code = 0 <-> has_run tr = true))) as Hfail.
  { eexists _, _, _. split; [done|]. split_and!; [by right|done..]. }
  destruct (if server then _ else _); [exact Hfail|]. destruct (match chrootdir o with Some _ => _ | None => _ end); [exact Hfail|].
  destruct (m_dup e), (m_diagnose e); cbn [negb]; try exact Hfail.
  destruct (run_daemon_ok o (conf_path o) (pid_path o) server) as (tr & code & ok & -> & Hc & -> & Hb & H0). destruct (foreground o).
  - by eexists _, _, _.
  - destruct (m_fork e); cbn [negb]; [|exact Hfail]. eexists _, _, _. split; [done|]. destruct (has_run tr); split_and!; (by auto || done).
Qed.

End contract.

Definition some_env : main_env :=
  mk_main_env (fun _ => true) (fun _ => true) true true true true true true true true true true true true true 0.

