(* ===== verification/AiccuLine.v ===== *)
(** * Lines of the SixXS client ([aiccu/common.c])

What the TIC client and the configuration of aiccu are built on: reading lines
from a socket through a buffer that outlives the connection, sending formatted
lines, counting and copying the fields of a line, parsing a line by a table of
rules into the fields of a structure, and the MD5 of a string in hexadecimal.
The buffers have their sizes and every access to them is checked.  The server
is a list of the answers of [recv], after which the connection is closed, and a
list of those of [send].  The build is the one of the Xcode project, with
[AICCU_PATCH] and without GNUTLS.  [strdup] is taken to succeed. *)

From Stdlib Require Import ZifyNat.
From stdpp Require Import base gmap list numbers strings.
From S2P Require Import Prelude Words CString AiccuMd5 Addr.

(** ** Sockets *)

(** One answer of [recv]; the end of the list is a closed connection. *)
Inductive recv_answer := Data (bytes : list Z) | RecvFailed.

(** The global buffer of [tic.c] and the connection.  [sends] are the answers of
    [send]; at its end everything is accepted. *)
Record tic_sock := mk_tic_sock {
  tic_buf : list Z;
  tic_filled : Z;
  sock : bool;               (* the pointer is not null *)
  input : list recv_answer;
  sends : list Z;
  sent : list Z;
}.

Definition RBUFLEN : Z := 2048.

Definition set_buffer (b : list Z) (n : Z) (s : tic_sock) : tic_sock := mk_tic_sock b n (sock s) (input s) (sends s) (sent s).
Definition set_input (l : list recv_answer) (s : tic_sock) : tic_sock := mk_tic_sock (tic_buf s) (tic_filled s) (sock s) l (sends s) (sent s).
Definition set_sock (b : bool) (s : tic_sock) : tic_sock := mk_tic_sock (tic_buf s) (tic_filled s) b (input s) (sends s) (sent s).
Definition set_sends (l : list Z) (bytes : list Z) (s : tic_sock) : tic_sock :=
  mk_tic_sock (tic_buf s) (tic_filled s) (sock s) (input s) l (sent s ++ bytes).

(** [for (i=0; (i < n) && (rbuf[i] != LF); i++)] *)
Fixpoint seek (l : list Z) (n : Z) : res nat :=
  if n <=? 0 then Ok 0%nat else
  match l with
  | [] => Err OutOfBounds
  | c :: l' => if c =? LF then Ok 0%nat else i ← seek l' (n - 1); Ok (S i)
  end.

Definition byte_at (b : list Z) (i : nat) : res Z := Prelude.from_option OutOfBounds (b !! i).

(** A line from the buffer: the result, the caller's buffer, and the buffer and
    what is left in it.  [rbuf[i-1]] is read even when [i] is 0. *)
Definition take_line (rbuf : list Z) (filled : Z) (ubuflen : nat) : res (option (Z * list Z * list Z * Z)) :=
  i ← seek rbuf (filled - 1);
  c ← byte_at rbuf i;
  if negb (c =? LF) then Ok None else
  guard_or OutOfBounds (0 <? i)%nat;;
  d ← byte_at rbuf (i - 1);
  let n := if d =? CR then (i - 1)%nat else i in
  guard_or OutOfBounds (n <=? ubuflen)%nat;;
  let ubuf := take n rbuf ++ repeat 0 (ubuflen - n) in
  let used := S i in
  let left := wrap 32 (filled - Z.of_nat used) in
  rest ← (if 0 <? left then slice used (Z.to_nat left) rbuf else Ok []);
  Ok (Some (Z.of_nat used, ubuf, rest ++ drop (length rest) rbuf, left)).

(** [recv] of at most [max] bytes: [None] for an error. *)
Definition recv (max : Z) (l : list recv_answer) : option (list Z) * list recv_answer :=
  match l with
  | [] => (Some [], [])
  | RecvFailed :: l' => (None, l')
  | Data b :: l' =>
    let n := Z.to_nat max in
    (Some (take n b), match drop n b with [] => l' | r => Data r :: l' end)
  end.

(** The loop: the result and the caller's buffer.  The result of [recv] goes
    into an unsigned variable, so that -1 is not an error. *)
Fixpoint getline_loop (fuel : nat) (ubuflen : nat) (s : tic_sock) : res (Z * list Z * tic_sock) :=
  match fuel with
  | O => Err OutOfFuel
  | S fuel' =>
    x ← (if 0 <? tic_filled s then take_line (tic_buf s) (tic_filled s) ubuflen else Ok None);
    match x with
    | Some (ret, ubuf, rbuf, filled) => Ok (ret, ubuf, set_buffer rbuf filled s)
    | None =>
      let '(got, l) := recv (wrap 32 (RBUFLEN - tic_filled s - 10)) (input s) in
      let i := match got with Some b => Z.of_nat (length b) | None => 2 ^ 32 - 1 end in
      let s := set_input l s in
      if i <=? 0 then Ok (-1, repeat 0 ubuflen, s) else
      rbuf ← match got with
             | Some b => guard_or OutOfBounds (tic_filled s + i <=? RBUFLEN);; Ok (blit (Z.to_nat (tic_filled s)) b (tic_buf s))
             | None => Ok (tic_buf s)
             end;
      let filled := wrap 32 (tic_filled s + i) in
      let s := set_buffer rbuf filled s in
      if (RBUFLEN - 10 <=? filled) || (Z.of_nat ubuflen - 10 <=? filled) then Ok (-1, repeat 0 ubuflen, s)
      else getline_loop fuel' ubuflen s
    end
  end.

Definition input_size (l : list recv_answer) : nat :=
  sum_list ((fun a => match a with Data b => S (length b) | RecvFailed => 1%nat end) <$> l).

Definition sock_getline (ubuflen : nat) (s : tic_sock) : res (Z * list Z * tic_sock) :=
  if negb (sock s) then Ok (-1, [], s) else getline_loop (S (input_size (input s))) ubuflen s.

(** [sock_printf], once the text is formatted: [vsnprintf] cuts it to the buffer
    of 2048 bytes, but returns the length that it would have. *)
Fixpoint send_loop (text : list Z) (answers : list Z) : list Z * list Z :=
  match text, answers with
  | [], _ | _, [] => (text, answers)
  | _, n :: answers' =>
    if n <=? 0 then ([], answers') else
    let k := Z.to_nat n in
    let '(t, a) := send_loop (drop k text) answers' in (take k text ++ t, a)
  end.

Definition sock_printf (text : list Z) (s : tic_sock) : res tic_sock :=
  if negb (sock s) then Ok s else
  guard_or OutOfBounds (length text <=? 2048)%nat;;
  let buf := if (length text <? 2048)%nat then text else take 2047 text ++ [0] in
  let '(t, a) := send_loop buf (sends s) in Ok (set_sends a t s).

(** One turn of the loop of [connect_client]: what [socket] and [connect] do. *)
Inductive attempt := NoSocket | Refused | Connected.

(** The loop, for the addresses that are left: whether it connects, and the
    number of sockets that stay open.  The same address is tried again when there
    is no socket. *)
Fixpoint connect_loop (addresses : nat) (answers : list attempt) (sockets : Z) : option (bool * Z) :=
  match addresses, answers with
  | O, _ => Some (false, sockets)
  | S _, [] => None
  | S _, NoSocket :: answers' => connect_loop addresses answers' sockets
  | S n, Refused :: answers' => connect_loop n answers' sockets
  | S _, Connected :: _ => Some (true, sockets + 1)
  end.

(** [connect_client]; [resolved] is the number of addresses of the host. *)
Definition connect_client (resolved : option nat) (answers : list attempt) : option (bool * Z) :=
  match resolved with None => Some (false, 0) | Some n => connect_loop n answers 0 end.

(** ** Fields *)

(** [countfields]: the spaces and one more. *)
Definition countfields (s : list Z) : Z := 1 + Z.of_nat (length (filter (fun c => c = 32) s)).

(** The distance to the next space or terminator. *)
Fixpoint span_word (l : list Z) : res nat :=
  match l with
  | [] => Err OutOfBounds
  | c :: l' => if (c =? 0) || (c =? 32) then Ok 0%nat else n ← span_word l'; Ok (S n)
  end.

(** The loop of [copyfield] from a position of the buffer; after the last word
    it steps over the terminator. *)
Fixpoint copy_loop (fuel : nat) (l : list Z) (n : nat) : res (option (list Z)) :=
  match fuel with
  | O => Err OutOfFuel
  | S fuel' =>
    c ← byte_at l 0;
    if c =? 0 then Ok None else
    k ← span_word l;
    match n with
    | 1%nat => Ok (Some (take k l))
    | _ => copy_loop fuel' (drop (S k) l) (n - 1)
    end
  end.

(** Field [n], from 1, of the string in [b], cut to [buflen]. *)
Definition copyfield (b : list Z) (n : nat) (buflen : nat) : res (option (list Z)) :=
  x ← copy_loop (S (length b)) b n; Ok (match x with Some w => Some (take buflen w) | None => None end).

(** ** Rules *)

(** The kinds of rules that the tables use. *)
Inductive pl_type := PLRT_STRING | PLRT_INTEGER | PLRT_BOOL.

Record pl_rule := mk_pl_rule { title : list Z; type : pl_type; field : string }.

(** The structure that a table fills: its strings that are not null, and its
    numbers. *)
Record pl_data := mk_pl_data { strs : gmap string (list Z); ints : gmap string Z }.

Definition get_int (f : string) (d : pl_data) : Z := default 0 (ints d !! f).
Definition set_str (f : string) (v : list Z) (d : pl_data) : pl_data := mk_pl_data (<[f := v]> (strs d)) (ints d).
Definition set_int (f : string) (v : Z) (d : pl_data) : pl_data := mk_pl_data (strs d) (<[f := v]> (ints d)).

(** A store through a pointer to [bool] into an [int]. *)
Definition set_low_byte (v old : Z) : Z := old - wrap 8 old + v.

Definition is_blank (c : Z) : bool := (c =? LF) || (c =? CR) || (c =? 9) || (c =? 32).

(** The length without the white space at the end. *)
Fixpoint trimmed (s : list Z) : nat :=
  match s with
  | [] => 0%nat
  | c :: s' => match trimmed s' with O => if is_blank c then 0%nat else 1%nat | n => S n end
  end.

Definition is_prefix (p s : list Z) : bool := bool_decide (p `prefix_of` s).

(** [while (p < end && strncmp (p, split, strlen (split)) != 0) p++], where
    [end] is the last character. *)
Fixpoint find_split (split s : list Z) : nat :=
  match s with
  | [] | [_] => 0%nat
  | _ :: s' => if is_prefix split s then 0%nat else S (find_split split s')
  end.

(** The string at [i]. *)
Definition text_at (b : list Z) (i : nat) : res (list Z) :=
  guard_or OutOfBounds (bool_decide (0 ∈ drop i b));; Ok (c_str (drop i b)).

Definition is_quote (c : Z) : bool := (c =? 34) || (c =? 39).

(** [while (p <= end && *p != *val && *p != 0) p++]. *)
Fixpoint find_quote (fuel : nat) (b : list Z) (p last val : nat) : res nat :=
  match fuel with
  | O => Err OutOfFuel
  | S fuel' =>
    if (last <? p)%nat then Ok p else
    c ← byte_at b p; q ← byte_at b val;
    if (c =? q) || (c =? 0) then Ok p else find_quote fuel' b (S p) last val
  end.

Definition store (r : pl_rule) (val : list Z) (d : pl_data) : pl_data :=
  match type r with
  | PLRT_STRING => set_str (field r) val d
  | PLRT_INTEGER => set_int (field r) (wrap 32 (atoi val)) d
  | PLRT_BOOL =>
    if bool_decide (val = str "yes") || bool_decide (val = str "true") then set_int (field r) (set_low_byte 1 (get_int (field r) d)) d
    else if bool_decide (val = str "no") || bool_decide (val = str "false") then set_int (field r) (set_low_byte 0 (get_int (field r) d)) d
    else d
  end.

(** The rules are tried in order; a title that begins the name is enough. *)
Fixpoint apply_rules (rules : list pl_rule) (name val : list Z) (d : pl_data) : bool * pl_data :=
  match rules with
  | [] => (false, d)
  | r :: rules' => if is_prefix (title r) name then (true, store r val d) else apply_rules rules' name val d
  end.

(** [parseline (line, split, rules, data)] on the buffer that holds the line.
    The loop that skips white space after the separator never runs: it asks for a
    character that is a space and a tabulator. *)
Definition parseline (b : list Z) (split : list Z) (rules : list pl_rule) (d : pl_data) : res (bool * pl_data) :=
  guard_or OutOfBounds (bool_decide (0 ∈ b));;
  let line := c_str b in
  let len := trimmed line in
  let b := blit len (repeat 0 (length line - len)) b in
  let s := take len line in
  match s with
  | [] => Ok (true, d)
  | c :: s' =>
    if (c =? 35) || (c =? 59) || ((c =? 47) && bool_decide (list.head s' = Some 47)) then Ok (true, d) else
    let last := (len - 1)%nat in
    let p := find_split split s in
    let b := <[p := 0]> b in
    let p := S p in
    let val := (p + (length split - 1))%nat in
    c ← byte_at b p;
    x ← (if is_quote c then
           q ← find_quote (S (length b)) b (S p) last val;
           _ ← byte_at b q;
           Ok (<[q := 0]> b, S val)
         else Ok (b, val));
    let '(b, val) := x in
    name ← text_at b 0;
    v ← text_at b val;
    Ok (apply_rules rules name v d)
  end.

(** ** MD5 *)

(** [MD5String (s, signature, siglen)]: the string that [signature] then holds,
    if it is large enough.  The last [snprintf] also writes a thirty-third byte.
    [g] is the stack memory of the context. *)
Definition MD5String (g : list Z) (s : list Z) (siglen : nat) : res (option (list Z)) :=
  if (siglen <? 32)%nat then Ok None else
  d ← MD5 g s;
  guard_or OutOfBounds (33 <=? siglen)%nat;;
  Ok (Some (mjoin (hex_byte <$> d))).

(** ** Reading lines *)

Lemma seek_stop l n k :
  no_lf (take k l) -> Z.of_nat k <= n -> (Z.of_nat k = n \/ l !! k = Some LF) -> (k < length l)%nat -> seek l n = Ok k.
Proof.
  revert n k. induction l as [|c l IH]; intros n k Hno Hk Hstop Hlen; [cbn in Hlen; lia|]. cbn [seek].
  destruct k as [|k].
  - destruct (Z.leb_spec n 0); [done|]. destruct Hstop as [|Hc]; [lia|]. cbn in Hc. injection Hc as ->. done.
  - destruct (Z.leb_spec n 0); [lia|]. cbn in Hno. apply list.Forall_cons in Hno as [Hc Hno]. rewrite (proj2 (Z.eqb_neq c LF)) by done.
    rewrite (IH (n - 1) k); [done|done|lia| |cbn in Hlen; lia]. destruct Hstop as [|Hc']; [left; lia|by right].
Qed.

Definition UBUFLEN : nat := 1024.

Definition strip_cr (raw : list Z) : list Z :=
  match list.last raw with Some c => if c =? CR then take (length raw - 1) raw else raw | None => raw end.

Lemma take_drop_comm_sub {A} (l : list A) n k : (k <= n)%nat -> drop k (take n l) = take (n - k) (drop k l).
Proof. intros H. rewrite skipn_firstn_comm. done. Qed.

(** A buffer that starts with a line. *)
Lemma take_line_found b filled raw rest :
  length b = Z.to_nat RBUFLEN -> take (Z.to_nat filled) b = raw ++ LF :: rest -> no_lf raw -> raw <> [] -> 0 <= filled <= 1014 ->
  exists b', take_line b filled UBUFLEN = Ok (Some (Z.of_nat (length raw) + 1, strip_cr raw ++ repeat 0 (UBUFLEN - length (strip_cr raw)), b', Z.of_nat (length rest))) /\
    length b' = length b /\ take (length rest) b' = rest.
Proof.
  intros Hb HB Hno Hne Hf. unfold RBUFLEN in Hb.
  assert (Z.to_nat filled = length raw + S (length rest))%nat as Hlen.
  { apply (f_equal length) in HB. rewrite length_take, length_app in HB. cbn in HB. lia. }
  assert (take (length raw) b = raw) as Htake.
  { apply (f_equal (take (length raw))) in HB. rewrite take_take, Nat.min_l, take_app_length in HB by lia. done. }
  assert (b !! length raw = Some LF) as Hat.
  { rewrite <- (lookup_take_lt _ (Z.to_nat filled)) by lia. rewrite HB. by rewrite list_lookup_middle. }
  unfold take_line. rewrite (seek_stop b _ (length raw)); [|by rewrite Htake|lia|by right|lia]. cbn [mbind res_bind].
  unfold byte_at. rewrite Hat. cbn [Prelude.from_option mbind res_bind]. rewrite Z.eqb_refl. cbn [negb].
  set (n := length raw) in *. assert (0 < n)%nat as Hn by (unfold n; destruct raw; [done|cbn; lia]).
  rewrite (proj2 (Nat.ltb_lt 0 n) Hn). cbn [guard_or mbind res_bind].
  assert (b !! (n - 1)%nat = list.last raw) as Hlast.
  { rewrite last_lookup. fold n. transitivity (take n b !! pred n); [rewrite lookup_take_lt by lia; f_equal; lia|by rewrite Htake]. }
  destruct (list.last raw) as [x|] eqn:El; [|by apply last_None in El]. rewrite Hlast. cbn [Prelude.from_option mbind res_bind].
  set (k := if x =? CR then (n - 1)%nat else n).
  assert (take k b = strip_cr raw /\ length (strip_cr raw) = k) as [Hk Hlk].
  { unfold strip_cr, k. rewrite El. destruct (x =? CR); [|done]. fold n. split; [|rewrite length_take; lia].
    transitivity (take (n - 1) (take n b)); [rewrite take_take; f_equal; lia|by rewrite Htake]. }
  unfold guard_or. rewrite (proj2 (Nat.leb_le k UBUFLEN)) by (unfold k, UBUFLEN; case_match; lia). cbn [mbind res_bind].
  assert (wrap 32 (filled - Z.of_nat (S n)) = Z.of_nat (length rest)) as -> by (unfold wrap; rewrite Z.mod_small; lia).
  assert (take (length rest) (drop (S n) b) = rest) as Hrest.
  { replace (length rest) with (Z.to_nat filled - S n)%nat by lia. rewrite <- take_drop_comm_sub by lia.
    rewrite HB. change (LF :: rest) with ([LF] ++ rest). rewrite app_assoc, drop_app_length'; [done|]. rewrite length_app. cbn. fold n. lia. }
  assert ((if 0 <? Z.of_nat (length rest) then slice (S n) (Z.to_nat (Z.of_nat (length rest))) b else Ok []) = Ok rest) as ->.
  { destruct (Z.ltb_spec 0 (Z.of_nat (length rest))); [|destruct rest; [done|cbn in *; lia]].
    rewrite Nat2Z.id, slice_ok by lia. by rewrite Hrest. }
  cbn [mbind res_bind]. eexists. split; [do 3 f_equal|].
  - rewrite Hk, Hlk. f_equal. f_equal. f_equal. lia.
  - split; [rewrite length_app, length_drop; lia|]. by rewrite take_app_length.
Qed.

Lemma take_line_none b filled :
  no_lf (take (Z.to_nat filled) b) -> 0 < filled -> (Z.to_nat filled <= length b)%nat -> take_line b filled UBUFLEN = Ok None.
Proof.
  intros Hno Hf Hb. unfold take_line. rewrite (seek_stop b _ (Z.to_nat filled - 1)); [| |lia|left; lia|lia].
  - cbn [mbind res_bind]. unfold byte_at. destruct (b !! (Z.to_nat filled - 1)%nat) as [c|] eqn:E; [|apply lookup_ge_None in E; lia].
    cbn [Prelude.from_option mbind res_bind]. assert (c <> LF) as Hc; [|by rewrite (proj2 (Z.eqb_neq _ _) Hc)].
    unfold no_lf in Hno. rewrite list.Forall_forall in Hno. apply Hno. apply list_elem_of_lookup. exists (Z.to_nat filled - 1)%nat.
    rewrite lookup_take_lt by lia. done.
  - replace (take (Z.to_nat filled - 1) b) with (take (Z.to_nat filled - 1) (take (Z.to_nat filled) b)) by (rewrite take_take; f_equal; lia).
    by apply Forall_take.
Qed.

Definition data_of (a : recv_answer) : list Z := match a with Data d => d | RecvFailed => [] end.

(** What the server has sent and is not yet read. *)
Definition stream (s : tic_sock) : list Z := take (Z.to_nat (tic_filled s)) (tic_buf s) ++ mjoin (data_of <$> input s).

(** The server sends pieces of at most [m] bytes, and no call has failed. *)
Definition sock_ok (m : nat) (s : tic_sock) : Prop :=
  sock s = true /\ length (tic_buf s) = Z.to_nat RBUFLEN /\ 0 <= tic_filled s <= 1013 /\
  Forall (fun a => match a with Data d => (1 <= length d <= m)%nat | RecvFailed => False end) (input s).

Definition raw_ok (n : nat) (raw : list Z) : Prop := no_lf raw /\ raw <> [] /\ (length raw < n)%nat.

(** A line without a line feed in the buffer. *)
Lemma no_line_yet (B t raw rest : list Z) : B ++ t = raw ++ LF :: rest -> (LF ∈ B) \/ (no_lf B /\ (length B <= length raw)%nat).
Proof.
  intros H. destruct (decide (LF ∈ B)) as [|Hn]; [by left|right]. split.
  - apply list.Forall_forall. intros c Hc ->. done.
  - destruct (Nat.le_gt_cases (length B) (length raw)) as [|Hgt]; [done|]. exfalso. apply Hn.
    apply (f_equal (fun l => l !! length raw)) in H. rewrite list_lookup_middle, lookup_app_l in H by done.
    apply list_elem_of_lookup. by exists (length raw).
Qed.

Lemma line_in_buffer (B t raw rest : list Z) :
  B ++ t = raw ++ LF :: rest -> no_lf raw -> LF ∈ B -> exists r, B = raw ++ LF :: r /\ rest = r ++ t.
Proof.
  revert B. induction raw as [|c raw IH]; intros B H Hno Hin.
  - destruct B as [|b B]; [by apply elem_of_nil in Hin|]. cbn in H. injection H as -> <-. by exists B.
  - apply list.Forall_cons in Hno as [Hc Hno]. destruct B as [|b B]; [by apply elem_of_nil in Hin|]. cbn in H. injection H as -> H.
    apply elem_of_cons in Hin as [Hin|Hin]; [by subst|]. destruct (IH B H Hno Hin) as (r & -> & ->). by exists r.
Qed.

Lemma getline_loop_ok n m fuel s raw rest :
  (n + m <= 1014)%nat -> sock_ok m s -> stream s = raw ++ LF :: rest -> raw_ok n raw -> (input_size (input s) < fuel)%nat ->
  exists s', getline_loop fuel UBUFLEN s =
      Ok (Z.of_nat (length raw) + 1, strip_cr raw ++ repeat 0 (UBUFLEN - length (strip_cr raw)), s') /\
    sock_ok m s' /\ stream s' = rest /\ sent s' = sent s /\ sends s' = sends s.
Proof.
  intros Hnm. revert s. induction fuel as [|fuel IH]; intros s (Hs & Hb & Hf & Hin) Hst (Hno & Hne & Hlen) Hfuel; [lia|]. cbn [getline_loop].
  set (B := take (Z.to_nat (tic_filled s)) (tic_buf s)) in *.
  assert (length B = Z.to_nat (tic_filled s)) as HlB by (unfold B; rewrite length_take; unfold RBUFLEN in Hb; lia).
  destruct (no_line_yet B _ raw rest Hst) as [HLF|[HnB HB]].
  - destruct (line_in_buffer B _ raw rest Hst Hno HLF) as (r & HBr & ->).
    assert (0 < tic_filled s) as Hpos by (destruct B; [by apply elem_of_nil in HLF|cbn in HlB; lia]).
    rewrite (proj2 (Z.ltb_lt _ _) Hpos).
    destruct (take_line_found (tic_buf s) (tic_filled s) raw r Hb HBr Hno Hne) as (b' & -> & Hb' & Hr); [lia|]. cbn [mbind res_bind].
    eexists. split; [done|]. assert (length r <= length B)%nat by (rewrite HBr, length_app; cbn; lia).
    split; [split_and!; cbn; try done; [congruence|lia|lia]|]. split; [|done]. unfold stream. cbn. by rewrite Nat2Z.id, Hr.
  - assert ((if 0 <? tic_filled s then take_line (tic_buf s) (tic_filled s) UBUFLEN else Ok None) = Ok None) as ->.
    { destruct (Z.ltb_spec 0 (tic_filled s)); [|done]. apply take_line_none; [done|lia|unfold RBUFLEN in Hb; lia]. }
    cbn [mbind res_bind]. assert (wrap 32 (RBUFLEN - tic_filled s - 10) = 2038 - tic_filled s) as -> by (unfold wrap, RBUFLEN; rewrite Z.mod_small; lia).
    destruct (input s) as [|[d|] l] eqn:El; [| |by apply list.Forall_cons in Hin as [[] _]].
    { exfalso. unfold stream in Hst. rewrite El in Hst. cbn in Hst. rewrite app_nil_r in Hst. fold B in Hst. unfold no_lf in HnB. rewrite list.Forall_forall in HnB.
      apply (HnB LF); [|done]. rewrite Hst. apply elem_of_app. right. by left. }
    apply list.Forall_cons in Hin as [Hd Hin]. cbn [recv]. rewrite (take_ge d), drop_ge by lia.
    destruct (Z.leb_spec (Z.of_nat (length d)) 0); [lia|]. cbn [tic_filled set_input tic_buf]. unfold guard_or.
    rewrite (proj2 (Z.leb_le (tic_filled s + Z.of_nat (length d)) RBUFLEN)) by (unfold RBUFLEN; lia). cbn [mbind res_bind].
    assert (wrap 32 (tic_filled s + Z.of_nat (length d)) = tic_filled s + Z.of_nat (length d)) as Hw by (unfold wrap; rewrite Z.mod_small; lia).
    cbn [tic_filled set_input tic_buf]. rewrite Hw.
    rewrite (proj2 (Z.leb_gt (RBUFLEN - 10) _)), (proj2 (Z.leb_gt (Z.of_nat UBUFLEN - 10) _)) by (unfold RBUFLEN, UBUFLEN; lia). cbn [orb].
    set (s1 := set_buffer _ _ _). destruct (IH s1) as (s' & E & H1 & H2 & H3 & H4).
    + split_and!; cbn; try done; [|lia|lia]. rewrite length_blit; unfold RBUFLEN in *; lia.
    + rewrite <- Hst. unfold stream. rewrite El. cbn [s1 set_buffer set_input tic_filled tic_buf input fmap list_fmap data_of mjoin list_join]. fold B.
      rewrite app_assoc. f_equal. unfold blit. rewrite app_assoc. fold B.
      replace (Z.to_nat (tic_filled s + Z.of_nat (length d))) with (length (B ++ d)) by (rewrite length_app; lia). by rewrite take_app_length.
    + done.
    + cbn. unfold input_size in *. cbn in Hfuel. lia.
    + exists s'. split; [exact E|]. split_and!; done.
Qed.

Lemma sock_getline_ok n m s raw rest :
  (n + m <= 1014)%nat -> sock_ok m s -> stream s = raw ++ LF :: rest -> raw_ok n raw ->
  exists s', sock_getline UBUFLEN s =
      Ok (Z.of_nat (length raw) + 1, strip_cr raw ++ repeat 0 (UBUFLEN - length (strip_cr raw)), s') /\
    sock_ok m s' /\ stream s' = rest /\ sent s' = sent s /\ sends s' = sends s.
Proof.
  intros Hnm Hs Hst Hr. unfold sock_getline. pose proof Hs as (-> & _). cbn [negb].
  apply (getline_loop_ok n m); try done. lia.
Qed.

Lemma sock_getline_closed m s :
  sock_ok m s -> stream s = [] -> sock_getline UBUFLEN s = Ok (-1, repeat 0 UBUFLEN, s).
Proof.
  intros (Hs & Hb & Hf & Hin) Hst. unfold sock_getline. rewrite Hs. cbn [negb].
  unfold stream in Hst. apply app_nil in Hst as [H1 H2]. apply (f_equal length) in H1. rewrite length_take in H1. cbn in H1. unfold RBUFLEN in Hb.
  assert (tic_filled s = 0) as H0 by lia.
  assert (input s = []) as Hi.
  { destruct (input s) as [|a l]; [done|]. apply list.Forall_cons in Hin as [Ha _]. destruct a as [d|]; [|done].
    cbn in H2. apply app_nil in H2 as [-> _]. cbn in Ha. lia. }
  destruct s as [b f c i sd st]. cbn in *. subst. done.
Qed.

Lemma send_loop_all text answers :
  Forall (fun n => 0 < n) answers -> exists a, send_loop text answers = (text, a) /\ Forall (fun n => 0 < n) a.
Proof.
  intros H. revert text. induction H as [|n answers Hn Ha IH]; intros [|c text]; [by exists []|by exists []|by exists (n :: answers); repeat constructor|].
  cbn [send_loop]. destruct (Z.leb_spec n 0); [lia|]. destruct (IH (drop (Z.to_nat n) (c :: text))) as (a & -> & Hall).
  exists a. by rewrite take_drop.
Qed.

(** A text shorter than the buffer is sent whole, in as many calls as it takes. *)
Lemma sock_printf_ok text s :
  sock s = true -> (length text < 2048)%nat -> Forall (fun n => 0 < n) (sends s) ->
  exists a, sock_printf text s = Ok (set_sends a text s) /\ Forall (fun n => 0 < n) a.
Proof.
  intros Hs Hl Ha. unfold sock_printf. rewrite Hs. cbn [negb]. unfold guard_or. rewrite (proj2 (Nat.leb_le (length text) 2048)) by lia.
  cbn [mbind res_bind]. rewrite (proj2 (Nat.ltb_lt (length text) 2048)) by done.
  destruct (send_loop_all text _ Ha) as (a & -> & Ha'). by exists a.
Qed.

(** The lines that are still to come. *)
Definition print_lines (raws : list (list Z)) : list Z := mjoin ((fun r => r ++ [LF]) <$> raws).

Lemma print_lines_cons r rs : print_lines (r :: rs) = r ++ LF :: print_lines rs.
Proof. unfold print_lines. cbn. by rewrite <- app_assoc. Qed.

Lemma length_lines rs : (length rs <= length (print_lines rs))%nat.
Proof. induction rs as [|r rs IH]; [done|]. rewrite print_lines_cons, length_app. cbn [length]. lia. Qed.

Fixpoint getlines (k : nat) (s : tic_sock) : res (list (list Z) * tic_sock) :=
  match k with
  | O => Ok ([], s)
  | S k' =>
    x ← sock_getline UBUFLEN s;
    let '(ret, ubuf, s) := x in
    if ret =? -1 then Ok ([], s) else
    y ← getlines k' s;
    let '(l, s) := y in Ok (c_str ubuf :: l, s)
  end.

Lemma c_str_padded l n : no_nul l -> (0 < n)%nat -> c_str (l ++ repeat 0 n) = l.
Proof.
  intros H Hn. induction H as [|c l Hc _ IH]; [destruct n; [lia|done]|]. cbn. rewrite (proj2 (Z.eqb_neq c 0)) by done. by rewrite IH.
Qed.

Lemma strip_cr_incl raw : exists t, raw = strip_cr raw ++ t.
Proof.
  unfold strip_cr. destruct (list.last raw) as [c|]; [|exists []; by rewrite app_nil_r]. destruct (c =? CR); [|exists []; by rewrite app_nil_r].
  exists (drop (length raw - 1) raw). by rewrite take_drop.
Qed.

Lemma strip_cr_no_nul raw : no_nul raw -> no_nul (strip_cr raw).
Proof. intros H. destruct (strip_cr_incl raw) as [t Ht]. rewrite Ht in H. by apply Forall_app in H as [H _]. Qed.

Lemma length_strip_cr raw : (length (strip_cr raw) <= length raw)%nat.
Proof. destruct (strip_cr_incl raw) as [t Ht]. rewrite Ht at 2. rewrite length_app. lia. Qed.

(** (C35) Lines arrive whole, under these conditions: the connection is open, no
    call of [recv] fails, every piece that it gives has between 1 and [m] bytes,
    what the socket's buffer of 2048 bytes holds before has at most 1013 bytes,
    every line ends in a line feed, is not empty (a carriage return in front of
    the line feed counts), holds no zero byte and has less than [n] bytes, with
    [n + m] at most 1014, and the caller's buffer has the 1024 bytes of
    [UBUFLEN].  Then, however the pieces cut the lines, successive calls return
    exactly the lines, without their terminators, one by one and in their order,
    no call leaves a buffer, and the next call reports the end of the connection
    with -1. *)
Theorem getline_delivers n m s raws :
  (n + m <= 1014)%nat -> sock_ok m s -> stream s = print_lines raws -> Forall (raw_ok n) raws -> Forall no_nul raws ->
  exists s', getlines (length raws) s = Ok (strip_cr <$> raws, s') /\ sock_getline UBUFLEN s' = Ok (-1, repeat 0 UBUFLEN, s').
Proof.
  intros Hnm Hs Hst Hr. revert s Hs Hst. induction Hr as [|raw raws Hraw _ IH]; intros s Hs Hst Hn.
  - exists s. split; [done|]. by apply (sock_getline_closed m).
  - apply list.Forall_cons in Hn as [Hn0 Hn]. cbn [length getlines fmap list_fmap].
    assert (stream s = raw ++ LF :: print_lines raws) as Hst' by (rewrite Hst; unfold print_lines; cbn; by rewrite <- app_assoc).
    destruct (sock_getline_ok n m s raw _ Hnm Hs Hst' Hraw) as (s1 & -> & Hs1 & Hst1 & _). cbn [mbind res_bind].
    destruct (Z.eqb_spec (Z.of_nat (length raw) + 1) (-1)); [lia|]. destruct (IH s1 Hs1 Hst1 Hn) as (s' & -> & E). cbn [mbind res_bind].
    exists s'. split; [|done]. rewrite c_str_padded; [done|by apply strip_cr_no_nul|].
    pose proof (length_strip_cr raw). destruct Hraw as (_ & _ & Hl). unfold UBUFLEN. lia.
Qed.

Definition fresh_sock (l : list recv_answer) : tic_sock := mk_tic_sock (repeat 0 2048) 0 true l [] [].

Lemma getline_delivers_witness :
  exists s', getlines 2 (fresh_sock [Data (str "200 We"); Data (str "lcome" ++ [CR; LF] ++ str "20"); Data (str "1 Hi" ++ [LF])]) =
      Ok ([str "200 Welcome"; str "201 Hi"], s') /\ sock_getline UBUFLEN s' = Ok (-1, repeat 0 UBUFLEN, s').
Proof.
  apply (getline_delivers 100 100 _ [str "200 Welcome" ++ [CR]; str "201 Hi"]).
  - lia.
  - split_and!; [done|done|done|done|]. repeat constructor; cbn; lia.
  - done.
  - repeat constructor; cbn; try lia; try done.
  - repeat constructor; done.
Defined.

(** ** Parsing a line *)

Lemma trimmed_id s c : list.last s = Some c -> is_blank c = false -> trimmed s = length s.
Proof.
  intros Hl Hc. induction s as [|x s IH]; [done|]. cbn [trimmed]. destruct s as [|y s].
  - cbn in Hl. injection Hl as ->. cbn. by rewrite Hc.
  - rewrite last_cons_cons in Hl. rewrite (IH Hl). done.
Qed.

Lemma is_prefix_true p s : is_prefix p s = true <-> p `prefix_of` s.
Proof. apply bool_decide_eq_true. Qed.

(** The separator is found where it stands when its first character does not
    occur in the name. *)
Lemma find_split_ok c sp t v :
  c ∉ t -> v <> [] -> find_split (c :: sp) (t ++ (c :: sp) ++ v) = length t.
Proof.
  intros Hc Hv. induction t as [|x t IH].
  - cbn [app length]. destruct (sp ++ v) as [|y l] eqn:E; [by apply app_nil in E as [_ ->]|]. cbn [find_split].
    rewrite (proj2 (is_prefix_true _ _)); [done|]. rewrite <- E. by exists v.
  - apply not_elem_of_cons in Hc as [Hx Hc]. change ((x :: t) ++ (c :: sp) ++ v) with (x :: (t ++ (c :: sp) ++ v)).
    destruct (t ++ (c :: sp) ++ v) as [|y l] eqn:E.
    { by apply app_nil in E as [_ E]. }
    change ((if is_prefix (c :: sp) (x :: y :: l) then 0%nat else S (find_split (c :: sp) (y :: l))) = S (length t)).
    rewrite IH by done. destruct (is_prefix _ _) eqn:Ep; [|done].
    apply is_prefix_true in Ep as [k Hk]. by injection Hk as ->.
Qed.

Lemma c_str_zero l r : no_nul l -> c_str (l ++ 0 :: r) = l.
Proof. intros H. induction H as [|z l Hz _ IH]; [done|]. cbn. rewrite (proj2 (Z.eqb_neq z 0)) by done. by rewrite IH. Qed.

(** What a line of a name, the separator and a value does. *)
Lemma parseline_ok c sp rules d t v junk :
  c ∉ t -> no_nul (t ++ (c :: sp) ++ v) ->
  (match t with x :: _ => x <> 35 /\ x <> 59 /\ x <> 47 | [] => False end) ->
  (exists x, list.last v = Some x /\ is_blank x = false) ->
  (match sp ++ v with x :: _ => is_quote x = false | [] => False end) ->
  parseline (t ++ (c :: sp) ++ v ++ 0 :: junk) (c :: sp) rules d = Ok (apply_rules rules t v d).
Proof.
  intros Hc Hn Ht (x & Hx & Hblank) Hq. unfold parseline. set (s := t ++ (c :: sp) ++ v).
  assert (t ++ (c :: sp) ++ v ++ 0 :: junk = s ++ 0 :: junk) as -> by (unfold s; by rewrite <- !app_assoc).
  assert (v <> []) as Hv by (intros ->; done).
  unfold guard_or. rewrite bool_decide_eq_true_2 by (apply elem_of_app; right; by left). cbn [mbind res_bind].
  assert (c_str (s ++ 0 :: junk) = s) as ->.
  { by apply c_str_zero. }
  assert (list.last s = Some x) as Hls by (unfold s; rewrite app_assoc, last_app; by rewrite Hx).
  rewrite (trimmed_id s x) by done. rewrite Nat.sub_diag. cbn [repeat]. rewrite take_ge by lia.
  assert (blit (length s) [] (s ++ 0 :: junk) = s ++ 0 :: junk) as ->.
  { unfold blit. cbn [length app]. rewrite Nat.add_0_r. apply take_drop. }
  destruct t as [|y t]; [done|]. destruct Ht as (H1 & H2 & H3). change (s) with (y :: t ++ (c :: sp) ++ v) at 1.
  cbn match. rewrite (proj2 (Z.eqb_neq y 35)), (proj2 (Z.eqb_neq y 59)), (proj2 (Z.eqb_neq y 47)) by done. cbn [orb andb].
  unfold s. rewrite find_split_ok by done. fold s. set (t' := y :: t) in *.
  assert (<[length t' := 0]> (s ++ 0 :: junk) = t' ++ 0 :: sp ++ v ++ 0 :: junk) as ->.
  { unfold s. rewrite <- !app_assoc. change ((c :: sp) ++ v ++ 0 :: junk) with (c :: sp ++ v ++ 0 :: junk).
    rewrite insert_app_r_alt by lia. by rewrite Nat.sub_diag. }
  assert (no_nul t' /\ no_nul v) as [Hnt Hnv].
  { unfold s in Hn. apply Forall_app in Hn as [Hnt Hn]. split; [done|]. by apply Forall_app in Hn as [_ Hn]. }
  set (B := t' ++ 0 :: sp ++ v ++ 0 :: junk).
  assert (forall k, drop (S (length t') + k) B = drop k (sp ++ v ++ 0 :: junk)) as Hdrop.
  { intros k. rewrite <- drop_drop. f_equal. unfold B. change (0 :: sp ++ v ++ 0 :: junk) with ([0] ++ sp ++ v ++ 0 :: junk).
    rewrite app_assoc, drop_app_length'; [done|]. rewrite length_app. cbn. lia. }
  assert (exists q, byte_at B (S (length t')) = Ok q /\ is_quote q = false) as (q & -> & Hquote).
  { destruct (sp ++ v) as [|q l] eqn:E; [done|]. exists q. split; [|done]. unfold byte_at.
    rewrite <- (Nat.add_0_r (S (length t'))), <- lookup_drop. specialize (Hdrop 0%nat). rewrite Nat.add_0_r in Hdrop. rewrite Hdrop.
    rewrite app_assoc, E. done. }
  cbn [mbind res_bind]. rewrite Hquote. cbn [mbind res_bind]. unfold text_at, guard_or.
  rewrite (bool_decide_eq_true_2 (0 ∈ drop 0 B)) by (change (0 ∈ B); unfold B; apply elem_of_app; right; by left). cbn [mbind res_bind].
  cbn [length]. rewrite Nat.sub_succ, Nat.sub_0_r, Hdrop, drop_app_length.
  rewrite bool_decide_eq_true_2 by (apply elem_of_app; right; by left). cbn [mbind res_bind]. change (drop 0 B) with B.
  unfold B. by rewrite !c_str_zero.
Qed.

(** White space at the end of a line is cut off. *)
Lemma parseline_trim split rules d s w junk :
  no_nul s -> trimmed s = length s -> Forall (fun c => is_blank c = true) w ->
  parseline (s ++ w ++ 0 :: junk) split rules d = parseline (s ++ 0 :: repeat 0 (length w) ++ junk) split rules d.
Proof.
  intros Hs Ht Hw. assert (no_nul w) as Hnw by (eapply list.Forall_impl; [exact Hw|]; by intros c Hc ->).
  assert (trimmed (s ++ w) = length s) as Htw.
  { clear Hs. revert Ht. induction s as [|c s IH]; intros Ht.
    - clear Hnw. induction Hw as [|x w Hx _ IHw]; [done|]. cbn in *. by rewrite IHw, Hx.
    - cbn [app trimmed length] in *. destruct s as [|y s].
      + cbn [app] in *. assert (trimmed w = 0%nat) as -> by (clear -Hw; induction Hw as [|x w Hx _ IHw]; [done|]; cbn; by rewrite IHw, Hx). done.
      + destruct (trimmed (y :: s)) as [|k] eqn:E; [destruct (is_blank c); cbn in Ht; lia|]. cbn [length] in Ht.
        rewrite IH by (cbn [length]; lia). done. }
  unfold parseline, guard_or. rewrite !bool_decide_eq_true_2; [|apply elem_of_app; right; by left|rewrite app_assoc; apply elem_of_app; right; by left].
  cbn [mbind res_bind]. rewrite (app_assoc s w), (c_str_zero (s ++ w)), (c_str_zero s) by (try apply Forall_app; done). rewrite Htw, Ht.
  rewrite length_app, Nat.sub_diag. replace (length s + length w - length s)%nat with (length w) by lia.
  rewrite take_app_length, (take_ge s) by lia.
  assert (blit (length s) (repeat 0 (length w)) ((s ++ w) ++ 0 :: junk) = s ++ 0 :: repeat 0 (length w) ++ junk) as ->.
  { unfold blit. rewrite repeat_length, <- length_app, drop_app_length, <- (app_assoc s w), take_app_length.
    f_equal. change (0 :: junk) with ([0] ++ junk). rewrite app_assoc. change (0 :: repeat 0 (length w) ++ junk) with ((0 :: repeat 0 (length w)) ++ junk).
    f_equal. change [0] with (repeat 0 1). rewrite <- repeat_app. by rewrite Nat.add_comm. }
  unfold blit. cbn [repeat app]. rewrite Nat.add_0_r, take_drop. done.
Qed.

(** ** Settings *)

(** A setting and its value. *)
Definition item : Type := pl_rule * list Z.

Definition value_ok (v : list Z) : Prop := no_nul v /\ exists x, list.last v = Some x /\ is_blank x = false.

(** The titles of a table: letters first, no separator [c], and none begins
    another that comes later. *)
Definition title_ok (c : Z) (t : list Z) : bool :=
  match t with x :: _ => (65 <=? x) && bool_decide (c ∉ t) && bool_decide (0 ∉ t) | [] => false end.

Fixpoint table_ok (c : Z) (rules : list pl_rule) : bool :=
  match rules with
  | [] => true
  | r :: rules' => title_ok c (title r) && forallb (fun r' => negb (is_prefix (title r) (title r'))) rules' && table_ok c rules'
  end.

Lemma apply_rules_own c rules r v d : table_ok c rules = true -> r ∈ rules -> apply_rules rules (title r) v d = (true, store r v d).
Proof.
  induction rules as [|r' rules IH]; intros H Hr; [by apply elem_of_nil in Hr|]. cbn in H. apply andb_true_iff in H as [H H2].
  apply andb_true_iff in H as [_ H1]. cbn [apply_rules]. apply elem_of_cons in Hr as [-> | Hr].
  - by rewrite (proj2 (is_prefix_true _ _)).
  - rewrite forallb_forall in H1. rewrite (proj1 (negb_true_iff _) (H1 r (proj1 (list_elem_of_In _ _) Hr))). by apply IH.
Qed.

Lemma table_title c rules r : table_ok c rules = true -> r ∈ rules -> title_ok c (title r) = true.
Proof.
  induction rules as [|r' rules IH]; intros H Hr; [by apply elem_of_nil in Hr|]. cbn in H. apply andb_true_iff in H as [H H2].
  apply andb_true_iff in H as [H _]. apply elem_of_cons in Hr as [-> | Hr]; [done|by apply IH].
Qed.

(** A line with a title, the separator and a value stores the value. *)
Lemma setting_parsed c sp rules d i junk :
  table_ok c rules = true -> i.1 ∈ rules -> value_ok i.2 -> no_nul (c :: sp) ->
  (match sp ++ i.2 with x :: _ => is_quote x = false | [] => False end) ->
  parseline (title i.1 ++ (c :: sp) ++ i.2 ++ 0 :: junk) (c :: sp) rules d = Ok (true, store i.1 i.2 d).
Proof.
  intros Hr Hi [Hn Hv] Hsp Hq. pose proof (table_title _ _ _ Hr Hi) as Htitle. unfold title_ok in Htitle.
  destruct (title i.1) as [|x t] eqn:Et; [done|]. apply andb_true_iff in Htitle as [Htitle H0]. apply andb_true_iff in Htitle as [Hx Hc].
  apply Z.leb_le in Hx. apply bool_decide_eq_true in Hc, H0.
  rewrite parseline_ok; [|done| |lia|done|done].
  - rewrite <- Et. by rewrite (apply_rules_own c).
  - apply Forall_app. split; [|by apply Forall_app]. apply list.Forall_forall. by intros y Hy ->.
Qed.

Definition gathered (items : list item) (d : pl_data) : pl_data := foldl (fun d i => store i.1 i.2 d) d items.

Definition fields (items : list item) : list string := (fun i => field i.1) <$> items.

Lemma gathered_keeps items d f : f ∉ fields items -> strs (gathered items d) !! f = strs d !! f /\ ints (gathered items d) !! f = ints d !! f.
Proof.
  revert d. induction items as [|i items IH]; intros d Hf; [done|]. apply not_elem_of_cons in Hf as [Hi Hf].
  destruct (IH (store i.1 i.2 d) Hf) as [IH1 IH2]. change (gathered (i :: items) d) with (gathered items (store i.1 i.2 d)).
  rewrite IH1, IH2. unfold store. destruct (type i.1); cbn; [by rewrite lookup_insert_ne|by rewrite lookup_insert_ne|].
  repeat case_match; cbn; by rewrite ?lookup_insert_ne.
Qed.

Lemma gathered_lookup items d r v :
  NoDup (fields items) -> (r, v) ∈ items ->
  (type r = PLRT_STRING -> strs (gathered items d) !! field r = Some v) /\
  (type r = PLRT_INTEGER -> ints (gathered items d) !! field r = Some (wrap 32 (atoi v))) /\
  (type r = PLRT_BOOL -> v = str "true" -> ints (gathered items d) !! field r = Some (set_low_byte 1 (get_int (field r) d))) /\
  (type r = PLRT_BOOL -> v = str "false" -> ints (gathered items d) !! field r = Some (set_low_byte 0 (get_int (field r) d))).
Proof.
  revert d. induction items as [|i items IH]; intros d Hd Hin; [by apply elem_of_nil in Hin|].
  apply list.NoDup_cons in Hd as [Hni Hd]. change (gathered (i :: items) d) with (gathered items (store i.1 i.2 d)).
  apply elem_of_cons in Hin as [<- | Hin]; [|].
  2: { assert (get_int (field r) (store i.1 i.2 d) = get_int (field r) d) as <-; [|by apply IH].
    assert (field r <> field i.1) as Hne by (intros E; apply Hni; rewrite <- E; apply list_elem_of_fmap; by exists (r, v)).
    unfold get_int. f_equal. destruct (gathered_keeps [i] d (field r)) as [_ H]; [|exact H]. by apply not_elem_of_cons; split; [|apply not_elem_of_nil]. }
  cbn [fst snd] in *. destruct (gathered_keeps items (store r v d) (field r) Hni) as [-> ->]. unfold store.
  split; [intros ->; cbn; by rewrite lookup_insert_eq|]. split; [intros ->; cbn; by rewrite lookup_insert_eq|].
  split; intros -> ->.
  - assert (bool_decide (str "true" = str "yes") || bool_decide (str "true" = str "true") = true) as -> by done. cbn. by rewrite lookup_insert_eq.
  - assert (bool_decide (str "false" = str "yes") || bool_decide (str "false" = str "true") = false) as -> by done.
    assert (bool_decide (str "false" = str "no") || bool_decide (str "false" = str "false") = true) as -> by done. cbn. by rewrite lookup_insert_eq.
Qed.

(** ** Flaws *)

(** A reply of 1014 bytes or more that arrives in one piece is refused, though
    its first line is short, and stays in the buffer; what comes next is read
    without a test: a line of more than 1024 bytes overruns the caller's buffer. *)
Theorem burst_overruns raw rest :
  no_lf raw -> (1025 < length raw)%nat -> (length raw + 1 + length rest <= 2038)%nat ->
  exists s, sock_getline UBUFLEN (fresh_sock [Data (raw ++ LF :: rest)]) = Ok (-1, repeat 0 UBUFLEN, s) /\
    sock_getline UBUFLEN s = Err OutOfBounds.
Proof.
  intros Hno Hlen Htot. set (d := raw ++ LF :: rest).
  assert (length d = length raw + 1 + length rest)%nat as Hd by (unfold d; rewrite length_app; cbn; lia).
  unfold sock_getline at 1. cbn [fresh_sock sock negb input]. set (fuel := input_size _). cbn [getline_loop tic_filled input fresh_sock].
  change (0 <? 0) with false. cbn [mbind res_bind]. change (wrap 32 (RBUFLEN - 0 - 10)) with 2038. cbn [recv].
  rewrite (take_ge d), drop_ge by lia. destruct (Z.leb_spec (Z.of_nat (length d)) 0); [lia|]. cbn [tic_filled set_input tic_buf fresh_sock].
  unfold guard_or at 1. rewrite (proj2 (Z.leb_le (0 + Z.of_nat (length d)) RBUFLEN)) by (unfold RBUFLEN; lia). cbn [mbind res_bind].
  assert (wrap 32 (0 + Z.of_nat (length d)) = Z.of_nat (length d)) as -> by (unfold wrap; rewrite Z.mod_small; lia).
  rewrite (proj2 (Z.leb_le (Z.of_nat UBUFLEN - 10) _)) by (unfold UBUFLEN; lia). rewrite orb_true_r.
  eexists. split; [done|]. unfold sock_getline. cbn [sock set_buffer set_input fresh_sock negb input getline_loop tic_filled tic_buf].
  rewrite (proj2 (Z.ltb_lt 0 _)) by lia. unfold take_line. change (Z.to_nat 0) with 0%nat. set (b := blit 0 d (repeat 0 2048)).
  assert (take (length d) b = d) as Hb by (change b with (d ++ drop (0 + length d) (repeat 0 2048)); apply take_app_length).
  assert (length b = 2048%nat) as Hlb by (unfold b; rewrite length_blit; rewrite repeat_length; lia).
  assert (take (length raw) b = raw) as Hraw.
  { transitivity (take (length raw) (take (length d) b)); [rewrite take_take; f_equal; lia|]. rewrite Hb. unfold d. apply take_app_length. }
  assert (b !! length raw = Some LF) as Hat.
  { rewrite <- (lookup_take_lt _ (length d)) by lia. rewrite Hb. unfold d. by rewrite list_lookup_middle. }
  rewrite (seek_stop b _ (length raw)); [|by rewrite Hraw|lia|by right|lia]. cbn [mbind res_bind].
  assert (byte_at b (length raw) = Ok LF) as -> by (unfold byte_at; by rewrite Hat). cbn [mbind res_bind]. rewrite Z.eqb_refl. cbn [negb].
  rewrite (proj2 (Nat.ltb_lt 0 (length raw))) by lia. cbn [guard_or mbind res_bind].
  unfold byte_at. destruct (b !! (length raw - 1)%nat) as [x|] eqn:E; [|apply lookup_ge_None in E; lia]. cbn [Prelude.from_option mbind res_bind].
  unfold guard_or. rewrite (proj2 (Nat.leb_gt _ UBUFLEN)); [done|]. unfold UBUFLEN. case_match; lia.
Qed.

Lemma burst_overruns_witness :
  exists s, sock_getline UBUFLEN (fresh_sock [Data (repeat 65 1026 ++ LF :: [])]) = Ok (-1, repeat 0 UBUFLEN, s) /\
    sock_getline UBUFLEN s = Err OutOfBounds.
Proof. apply (burst_overruns (repeat 65 1026) []); [apply (bool_decide_unpack _); vm_compute; exact I|by vm_compute; lia|cbn; lia]. Defined.

(** A reset connection is not noticed: the count of bytes becomes 2^32 - 1, and
    the next call searches the memory after the buffer. *)
Example reset_is_not_noticed :
  exists s, sock_getline UBUFLEN (fresh_sock [RecvFailed]) = Ok (-1, repeat 0 UBUFLEN, s) /\ tic_filled s = 2 ^ 32 - 1 /\
    sock_getline UBUFLEN s = Err OutOfBounds.
Proof. eexists. split; [vm_compute; reflexivity|]. by vm_compute. Qed.

(** An empty line makes the byte before the buffer be read. *)
Example empty_line_underread : sock_getline UBUFLEN (fresh_sock [Data [LF]]) = Err OutOfBounds.
Proof. by vm_compute. Qed.

(** While no socket can be opened, [connect_client] tries the first address
    again and again. *)
Lemma connect_retries_without_socket n k : connect_client (Some (S n)) (repeat NoSocket k) = None.
Proof. unfold connect_client. by induction k. Qed.
