(* ===== verification/Tic.v ===== *)
(** * The TIC client ([aiccu/tic.c])

The dialogue in which the SixXS client logs in, lists its tunnels and asks for
one of them, line by line over the socket of [AiccuLine].  The blocks that are
allocated are counted.  The resolver of addresses ([inet_pton], [inet_ntop]) is
a parameter; the kernel's name, the clock and the random quit message are
answers of the environment.  [strdup] is taken to succeed. *)

From Stdlib Require Import ZifyNat.
From stdpp Require Import base gmap list numbers strings.
From S2P Require Import Prelude Words CString Md5 AiccuMd5 Ayiya AiccuLine.

(** ** Definitions *)

Definition TIC_VERSION : list Z := str "draft-00".
Definition TIC_CLIENT_NAME : list Z := str "AICCU".
Definition TIC_CLIENT_VERSION : list Z := str "2007.01.15-gui-darwin".

Definition TKZAiccuErrInvalidUser : Z := 2.
Definition TKZAiccuErrInvalidPwd : Z := 3.
Definition TKZAiccuErrNoTicConnection : Z := 4.
Definition TKZAiccuErrClientNotUpToDate : Z := 5.
Definition TKZAiccuErrNoTimeSync : Z := 6.

(** What the environment answers during a login: the connection, with what the
    server sends and how much each [send] accepts; the name and the release of the
    system; the clock; the random number; and the stack memory of the hash. *)
Record tic_env := mk_tic_env {
  connection : option (list recv_answer * list Z);
  sysname : list Z;
  release : list Z;
  clock : Z;
  dice : nat;
  stack : list Z;
}.

Definition byers : list (list Z) := str <$> [
  "Tschau!"; "Zij die gaan, groeten u"; "See you later alligator"; "A bitter thought, but I have to go";
  "Ajuuu paraplu"; "Thank you for the information"; "It was lovely talking to you again"; "Tschussss..."; "Aufwiedersehen";
  "I'll be back. Ha, you didn't know I was going to say that!";
  "We will be the only two people left in the world, Yes--Adam and Evil!";
  "Stranded"; "Die With You"; "The End Of Love"; "In My Garden"; "Set Me Free"; "Don't Leave"; "Insomnia"; "Why Go";
  "The Trick Is To Keep Breathing"; "We just stopped breating"; "Even the spirits are afraid"; "Deer Stop";
  "The Last Thing I Need Is You"; "Every Time We Live Together"; "My Autumn's Done Come";
  "Never Ever Land"; "None of this is real"; "Nothing Comes Easy"; "Illuminaughty";
  "Something I can never have"; "And All That Could Have Been..."; "That's what I get";
  "Under the weeping moon"; "For Absent Friends"; "It Could Be Sweet"; "Half Day Closing"; "Better Off Dead";
  "Solitary"; "Forsaken"; "Holding On"; "This is not our farewell"; "Running Down That Hill";
  "Schaltet den schmerz ab"; "Down where we belong" ]%string.

Definition line (words : list Z) : list Z := words ++ [LF].

Definition quit_text (dice : nat) (quitmsg : option (list Z)) : list Z :=
  match quitmsg with Some m => m | None => default [] (byers !! (dice mod length byers)%nat) end.

Definition tic_Logout (dice : nat) (quitmsg : option (list Z)) (s : tic_sock) : res tic_sock :=
  if negb (sock s) then Ok s else
  s ← sock_printf (line (str "QUIT " ++ quit_text dice quitmsg)) s;
  Ok (set_sock false s).

(** Fetching an answer: [None] for the end of the connection. *)
Definition answer (s : tic_sock) : res (option (list Z) * tic_sock) :=
  x ← sock_getline UBUFLEN s;
  let '(ret, buf, s) := x in Ok (if ret =? -1 then None else Some buf, s).

Definition ask (request : list Z) (s : tic_sock) : res (option (list Z) * tic_sock) :=
  s ← sock_printf (line request) s; answer s.

Definition is_positive (buf : list Z) : res bool := c ← byte_at buf 0; Ok (c =? 50).

(** [snprintf (quitmsg, 100, "Aborting: ...")], with the line feed that it ends
    with. *)
Definition clock_message (i : Z) : list Z := take 99 (line (str "Aborting: Clock is off by " ++ decimal i ++ str " seconds")).

(** The answer to the challenge. *)
Definition response (g challenge password : list Z) : res (option (list Z)) :=
  x ← MD5String g password 33;
  match x with
  | None => Ok None
  | Some sSignature => MD5String g (take 1023 (challenge ++ sSignature)) 33
  end.

(** [tic_Login] from the challenge on. *)
Definition login_challenge (e : tic_env) (password : list Z) (s : tic_sock) : res (Z * tic_sock) :=
  x ← ask (str "challenge md5") s;
  match x with
  | (None, s) => Ok (0, s)
  | (Some buf, s) =>
    b ← is_positive buf;
    text ← text_at buf 4;
    if negb b then Ok (0, s) else
    sSignature ← response (stack e) text password;
    x ← ask (str "authenticate md5 " ++ default [] sSignature) s;
    match x with
    | (None, s) => s ← tic_Logout (dice e) None s; Ok (0, s)
    | (Some buf, s) =>
      b ← is_positive buf;
      if b : bool then Ok (1, s) else
      s ← tic_Logout (dice e) None s;
      _ ← text_at buf 4; Ok (TKZAiccuErrInvalidPwd, s)
    end
  end.

Definition login_user (e : tic_env) (username password : list Z) (s : tic_sock) : res (Z * tic_sock) :=
  x ← ask (str "username " ++ username) s;
  match x with
  | (None, s) => Ok (0, s)
  | (Some buf, s) =>
    b ← is_positive buf;
    if b : bool then login_challenge e password s else
    _ ← text_at buf 4; Ok (TKZAiccuErrInvalidUser, s)
  end.

Definition login_clock (e : tic_env) (username password : list Z) (s : tic_sock) : res (Z * tic_sock) :=
  x ← ask (str "get unixtime") s;
  match x with
  | (None, s) => Ok (0, s)
  | (Some buf, s) =>
    b ← is_positive buf;
    text ← text_at buf 4;
    if negb b then Ok (0, s) else
    let i := tic_checktime (clock e) (atoi text) in
    if negb (i =? 0) then
      s ← tic_Logout (dice e) (Some (clock_message i)) s; Ok (TKZAiccuErrNoTimeSync, s)
    else login_user e username password s
  end.

Definition client_line (e : tic_env) : list Z :=
  str "client TIC/" ++ TIC_VERSION ++ str " " ++ TIC_CLIENT_NAME ++ str "/" ++ TIC_CLIENT_VERSION ++ str " " ++
  sysname e ++ str "/" ++ release e.

Definition login_client (e : tic_env) (username password : list Z) (s : tic_sock) : res (Z * tic_sock) :=
  x ← ask (client_line e) s;
  match x with
  | (None, s) => Ok (0, s)
  | (Some buf, s) =>
    b ← is_positive buf;
    if b : bool then login_clock e username password s else
    _ ← text_at buf 4; Ok (TKZAiccuErrClientNotUpToDate, s)
  end.

(** [tic_Login]: 1 for success; the buffer of the lines is that of the last
    connection. *)
Definition tic_Login (e : tic_env) (username password : list Z) (s : tic_sock) : res (Z * tic_sock) :=
  match connection e with
  | None => Ok (0, set_sock false s)
  | Some (l, a) =>
    let s := mk_tic_sock (tic_buf s) (tic_filled s) true l a (sent s) in
    x ← answer s;
    match x with
    | (None, s) => Ok (0, s)
    | (Some buf, s) =>
      b ← is_positive buf;
      if negb b then Ok (TKZAiccuErrNoTicConnection, s) else
      login_client e username password s
    end
  end.

(** ** The list of tunnels *)

Record TIC_sTunnel := mk_TIC_sTunnel {
  sId : option (list Z); sIPv6 : option (list Z); sIPv4 : option (list Z); sPOPId : option (list Z) }.

Definition count_some (o : option (list Z)) : Z := match o with Some _ => 1 | None => 0 end.

(** The blocks of one element. *)
Definition blocks_of (t : TIC_sTunnel) : Z :=
  1 + count_some (sId t) + count_some (sIPv6 t) + count_some (sIPv4 t) + count_some (sPOPId t).

(** The number of blocks that are left. *)
Definition tic_Free_sTunnel (l : list TIC_sTunnel) (live : Z) : Z := foldr (fun t n => n - blocks_of t) live l.

(** The four copies of a line: whether they all succeed, and the element. *)
Definition fill_sTunnel (buf : list Z) : res (bool * TIC_sTunnel) :=
  a ← copyfield buf 1 1024;
  match a with None => Ok (false, mk_TIC_sTunnel None None None None) | Some _ =>
  b ← copyfield buf 2 1024;
  match b with None => Ok (false, mk_TIC_sTunnel a None None None) | Some _ =>
  c ← copyfield buf 3 1024;
  match c with None => Ok (false, mk_TIC_sTunnel a b None None) | Some _ =>
  d ← copyfield buf 4 1024;
  Ok (match d with Some _ => true | None => false end, mk_TIC_sTunnel a b c d) end end end.

Definition code_is (code : list Z) (buf : list Z) : res bool :=
  guard_or OutOfBounds (3 <=? length buf)%nat;; Ok (bool_decide (take 3 buf = code)).

(** The loop: the last line, the elements, the blocks and the socket.  [mallocs]
    are the answers of [malloc] that are failures or not; at its end all succeed. *)
Fixpoint list_loop (fuel : nat) (mallocs : list bool) (l : list TIC_sTunnel) (live : Z) (s : tic_sock) :
    res (list Z * list TIC_sTunnel * Z * tic_sock) :=
  match fuel with
  | O => Err OutOfFuel
  | S fuel' =>
    x ← answer s;
    match x with
    | (None, s) => Ok (repeat 0 UBUFLEN, l, live, s)
    | (Some buf, s) =>
      b ← code_is (str "202") buf;
      if b : bool then Ok (buf, l, live, s) else
      text ← text_at buf 0;
      if negb (countfields text =? 4) then Ok (buf, l, live, s) else
      if negb (hd true mallocs) then Ok (buf, l, live, s) else
      y ← fill_sTunnel buf;
      let '(ok, t) := y in
      (* the element that is not complete is freed after the loop *)
      if ok : bool then list_loop fuel' (tl mallocs) (l ++ [t]) (live + blocks_of t) s
      else Ok (buf, l, live + blocks_of t - blocks_of t, s)
    end
  end.

Definition lines_left (s : tic_sock) : nat := S (length (tic_buf s) + input_size (input s)).

(** [tic_ListTunnels]: the list, or a null pointer ([None]), which is also the
    empty list, and the blocks that stay allocated. *)
Definition tic_ListTunnels (mallocs : list bool) (s : tic_sock) : res (list TIC_sTunnel * Z * tic_sock) :=
  x ← ask (str "tunnel list") s;
  match x with
  | (None, s) => Ok ([], 0, s)
  | (Some buf, s) =>
    b ← code_is (str "201") buf;
    if negb b then _ ← text_at buf 4; Ok ([], 0, s) else
    y ← list_loop (lines_left s) mallocs [] 0 s;
    let '(buf, l, live, s) := y in
    b ← code_is (str "202") buf;
    if b : bool then Ok (l, live, s) else
    _ ← text_at buf 4; Ok ([], tic_Free_sTunnel l live, s)
  end.

(** ** One tunnel, one point of presence *)

Definition rule (title : string) (type : pl_type) (field : string) : pl_rule := mk_pl_rule (str title) type field.

Definition tunnel_rules : list pl_rule := [
  rule "TunnelId" PLRT_STRING "sId";
  rule "Type" PLRT_STRING "sType";
  rule "IPv6 Endpoint" PLRT_STRING "sIPv6_Local";
  rule "IPv6 POP" PLRT_STRING "sIPv6_POP";
  rule "IPv6 PrefixLength" PLRT_INTEGER "nIPv6_PrefixLength";
  rule "POP Id" PLRT_STRING "sPOP_Id";
  rule "IPv4 Endpoint" PLRT_STRING "sIPv4_Local";
  rule "IPv4 POP" PLRT_STRING "sIPv4_POP";
  rule "UserState" PLRT_STRING "sUserState";
  rule "AdminState" PLRT_STRING "sAdminState";
  rule "Password" PLRT_STRING "sPassword";
  rule "Heartbeat_Interval" PLRT_INTEGER "nHeartbeat_Interval";
  rule "Tunnel MTU" PLRT_INTEGER "nMTU" ].

Definition pop_rules : list pl_rule := [
  rule "POPId" PLRT_STRING "sId";
  rule "City" PLRT_STRING "sCity";
  rule "Country" PLRT_STRING "sCountry";
  rule "IPv4" PLRT_STRING "sIPv4";
  rule "IPv6" PLRT_STRING "sIPv6";
  rule "ISP Short" PLRT_STRING "sISP_Short";
  rule "ISP Name" PLRT_STRING "sISP_Name";
  rule "ISP Website" PLRT_STRING "sISP_Website";
  rule "ISP ASN" PLRT_STRING "sISP_ASN";
  rule "ISP LIR" PLRT_STRING "sISP_LIR" ].

Definition separator : list Z := str ": ".

(** The loop that gathers the information: the last line and the structure. *)
Fixpoint show_loop (fuel : nat) (rules : list pl_rule) (d : pl_data) (s : tic_sock) : res (list Z * pl_data * tic_sock) :=
  match fuel with
  | O => Err OutOfFuel
  | S fuel' =>
    x ← answer s;
    match x with
    | (None, s) => Ok (repeat 0 UBUFLEN, d, s)
    | (Some buf, s) =>
      b ← code_is (str "202") buf;
      if b : bool then Ok (buf, d, s) else
      y ← parseline buf separator rules d; let '(_, d) := y in show_loop fuel' rules d s
    end
  end.

Definition no_data : pl_data := mk_pl_data ∅ ∅.

(** The part that [tic_GetTunnel] and [tic_GetPOP] share: the structure when the
    server sends all of it. *)
Definition show (malloc : bool) (request : list Z) (rules : list pl_rule) (s : tic_sock) : res (option pl_data * tic_sock) :=
  x ← ask request s;
  match x with
  | (None, s) => Ok (None, s)
  | (Some buf, s) =>
    b ← code_is (str "201") buf;
    if negb b then _ ← text_at buf 0; Ok (None, s) else
    if negb malloc then Ok (None, s) else
    y ← show_loop (lines_left s) rules no_data s;
    let '(buf, d, s) := y in
    b ← code_is (str "202") buf;
    if b : bool then Ok (Some d, s) else _ ← text_at buf 0; Ok (None, s)
  end.

Section show.
(** The conversions of addresses: [None] for a text that is not one, which
    leaves the memory as it was. *)
Context (inet_pton6 : list Z -> option (list Z)) (inet_ntop6 : list Z -> list Z).

(** The link-local address that is made up from the local one. *)
Definition link_local (a : list Z) : list Z :=
  [254; 128; 0; 0; 0; 0; 0; 0; Z.land (a !!! 2%nat) 0xfc; a !!! 3%nat; a !!! 4%nat; a !!! 5%nat; a !!! 6%nat; a !!! 7%nat; a !!! 14%nat; a !!! 15%nat].

(** [uninit] is the stack memory of the address. *)
Definition tic_GetTunnel (malloc : bool) (uninit : list Z) (id : list Z) (s : tic_sock) : res (option pl_data * tic_sock) :=
  x ← show malloc (str "tunnel show " ++ id) tunnel_rules s;
  match x with
  | (None, s) => Ok (None, s)
  | (Some d, s) =>
    local ← Prelude.from_option NullDeref (strs d !! "sIPv6_Local"%string);
    let ll := inet_ntop6 (link_local (default uninit (inet_pton6 local))) in
    let d := set_str "sIPv6_LinkLocal" ll d in
    type ← Prelude.from_option NullDeref (strs d !! "sType"%string);
    let tundev := bool_decide (type = str "ayiya") || bool_decide (type = str "l2tp") in
    Ok (Some (set_int "uses_tundev" (if tundev then 1 else 0) d), s)
  end.
End show.

Definition tic_GetPOP (malloc : bool) (id : list Z) (s : tic_sock) : res (option pl_data * tic_sock) :=
  show malloc (str "pop show " ++ id) pop_rules s.

(** ** Talking to a server *)

(** A server that sends the lines [raws], in pieces of at most [m] bytes, and
    accepts what it is sent. *)
Record talks (m : nat) (s : tic_sock) (raws : list (list Z)) : Prop := mk_talks {
  talks_sock : sock_ok m s;
  talks_stream : stream s = print_lines raws;
  talks_raws : Forall (fun r => raw_ok (1014 - m) r /\ no_nul r) raws;
  talks_sends : Forall (fun n => 0 < n) (sends s);
  talks_piece : (m <= 1014)%nat;
}.

(** The buffer of the caller that holds a line. *)
Definition padded (r : list Z) : list Z := strip_cr r ++ repeat 0 (UBUFLEN - length (strip_cr r)).

Lemma answer_line m s r rs :
  talks m s (r :: rs) -> exists s', answer s = Ok (Some (padded r), s') /\ talks m s' rs /\ sent s' = sent s.
Proof.
  intros [Hs Hst Hr Hp Hm]. apply list.Forall_cons in Hr as [[Hr Hn] Hrs].
  assert (stream s = r ++ LF :: print_lines rs) as Hst' by (by rewrite Hst, print_lines_cons).
  destruct (sock_getline_ok (1014 - m) m s r _ ltac:(lia) Hs Hst' Hr) as (s' & E & Hs' & Hst2 & Hse & Hsd).
  exists s'. unfold answer. rewrite E. cbn [mbind res_bind]. destruct (Z.eqb_spec (Z.of_nat (length r) + 1) (-1)); [lia|].
  split; [done|]. split; [|done]. by constructor; [| | |rewrite Hsd|].
Qed.

Lemma answer_end m s : talks m s [] -> answer s = Ok (None, s).
Proof. intros [Hs Hst _ _ _]. unfold answer. by rewrite (sock_getline_closed m). Qed.

Lemma say_line m s words raws :
  talks m s raws -> (length words < 2047)%nat ->
  exists s', sock_printf (line words) s = Ok s' /\ talks m s' raws /\ sent s' = sent s ++ line words.
Proof.
  intros [Hs Hst Hr Hp Hm] Hl. pose proof Hs as (Ht & _).
  destruct (sock_printf_ok (line words) s Ht) as (a & -> & Ha); [unfold line; rewrite length_app; cbn; lia|done|].
  by exists (set_sends a (line words) s).
Qed.

Lemma ask_line m s words r rs :
  talks m s (r :: rs) -> (length words < 2047)%nat ->
  exists s', ask words s = Ok (Some (padded r), s') /\ talks m s' rs /\ sent s' = sent s ++ line words.
Proof.
  intros Ht Hl. destruct (say_line m s words _ Ht Hl) as (s1 & E & Ht1 & Hs1). unfold ask. rewrite E. cbn [mbind res_bind].
  destruct (answer_line m s1 r rs Ht1) as (s2 & E2 & Ht2 & Hs2). exists s2. by rewrite Hs2.
Qed.

Lemma ask_end m s words :
  talks m s [] -> (length words < 2047)%nat ->
  exists s', ask words s = Ok (None, s') /\ talks m s' [] /\ sent s' = sent s ++ line words.
Proof.
  intros Ht Hl. destruct (say_line m s words _ Ht Hl) as (s1 & E & Ht1 & Hs1). unfold ask. rewrite E. cbn [mbind res_bind].
  rewrite (answer_end m) by done. by exists s1.
Qed.

Lemma tic_Logout_ok m s d q raws :
  talks m s raws -> (length (quit_text d q) < 2042)%nat ->
  exists s', tic_Logout d q s = Ok s' /\ sock s' = false /\ sent s' = sent s ++ line (str "QUIT " ++ quit_text d q).
Proof.
  intros Ht Hl. unfold tic_Logout. destruct (talks_sock _ _ _ Ht) as (-> & _). cbn [negb].
  destruct (say_line m s (str "QUIT " ++ quit_text d q) _ Ht) as (s1 & -> & _ & Hs1); [rewrite length_app; cbn; lia|].
  by exists (set_sock false s1).
Qed.

(** The text of a line, as the client sees it. *)
Definition text (r : list Z) : list Z := strip_cr r.
Definition positive (t : list Z) : bool := bool_decide (hd 0 t = 50).

Definition short (r : list Z) : Prop := (length (text r) < 1014)%nat /\ no_nul (text r).

Lemma talks_member m s raws r : talks m s raws -> r ∈ raws -> short r.
Proof.
  intros [_ _ Hr _ Hm] Hin. rewrite list.Forall_forall in Hr. destruct (Hr r Hin) as [(_ & _ & Hl) Hn]. split; [|by apply strip_cr_no_nul].
  pose proof (length_strip_cr r). unfold text. lia.
Qed.

Lemma talks_short m s r rs : talks m s (r :: rs) -> short r.
Proof. intros Ht. apply (talks_member m s _ _ Ht). by left. Qed.

Lemma is_positive_padded r : short r -> is_positive (padded r) = Ok (positive (text r)).
Proof.
  intros [Hl _]. unfold is_positive, byte_at, padded, positive, text in *. destruct (strip_cr r) as [|c t]; [done|].
  cbn. f_equal. by destruct (Z.eqb_spec c 50), (bool_decide_reflect (c = 50)).
Qed.

Lemma drop_zeros n k : drop k (repeat 0 n) = repeat 0 (n - k).
Proof. revert k. induction n as [|n IH]; intros [|k]; [done..|]. apply IH. Qed.

Lemma text_at_padded r k : short r -> (k < 1014)%nat -> text_at (padded r) k = Ok (drop k (text r)).
Proof.
  intros [Hl Hn] Hk. unfold text_at, padded, text in *.
  set (t := strip_cr r) in *. unfold guard_or.
  assert (drop k (t ++ repeat 0 (UBUFLEN - length t)) = drop k t ++ repeat 0 (UBUFLEN - length t - (k - length t))) as ->.
  { rewrite drop_app. f_equal. apply drop_zeros. }
  assert (0 < UBUFLEN - length t - (k - length t))%nat as Hz by (unfold UBUFLEN; lia).
  rewrite bool_decide_eq_true_2; [cbn [mbind res_bind]|].
  - f_equal. apply c_str_padded; [by apply Forall_drop|done].
  - apply elem_of_app. right. destruct (_ - _)%nat; [lia|by left].
Qed.

Definition is_code (code : list Z) : Prop := length code = 3%nat /\ no_nul code.

Lemma is_code_201 : is_code (str "201").
Proof. by repeat constructor. Qed.

Lemma is_code_202 : is_code (str "202").
Proof. by repeat constructor. Qed.

Lemma code_is_padded code r : short r -> is_code code -> code_is code (padded r) = Ok (bool_decide (take 3 (text r) = code)).
Proof.
  intros [Hl Hn] [Hc Hcn]. unfold code_is, guard_or, padded. unfold text in *. set (t := strip_cr r) in *.
  rewrite (proj2 (Nat.leb_le _ _)) by (rewrite length_app, repeat_length; unfold UBUFLEN; lia). cbn [mbind res_bind]. f_equal.
  apply bool_decide_ext. destruct (Nat.le_gt_cases 3 (length t)).
  - by rewrite take_app_le.
  - split; intros E; [|exfalso; apply (f_equal length) in E; rewrite length_take in E; lia].
    exfalso. assert (exists x, code !! length t = Some x) as [x Hx] by (apply lookup_lt_is_Some; lia).
    assert (x = 0) as ->; [|unfold no_nul in Hcn; rewrite list.Forall_forall in Hcn; by apply (Hcn 0 (list_elem_of_lookup_2 _ _ _ Hx))].
    rewrite <- E, lookup_take_lt, lookup_app_r, Nat.sub_diag in Hx by lia.
    destruct (UBUFLEN - length t)%nat eqn:Eu; [unfold UBUFLEN in Eu; lia|]. cbn in Hx. congruence.
Qed.

(** ** The login *)

Definition md5_hex (d : list Z) : list Z := mjoin (hex_byte <$> md5_spec d).

Lemma MD5String_ok g d : length g = 64%nat -> Z.of_nat (length d) < 2 ^ 32 -> MD5String g d 33 = Ok (Some (md5_hex d)).
Proof. intros Hg Hd. unfold MD5String. cbn [Nat.ltb Nat.leb guard_or]. by rewrite MD5_correct by done. Qed.

Lemma length_md5_hex d : length (md5_hex d) = 32%nat.
Proof. unfold md5_hex. by rewrite length_hex, md5_spec_length. Qed.

(** What both sides say: the requests of the client, which may depend on the last
    reply, and what it makes of the next reply.  [Stop] has the result and, when
    the client hangs up, its last line. *)
Inductive move := Go | Stop (code : Z) (farewell : option (list Z)).

Record exchange := mk_exchange {
  request : list Z -> list (list Z);
  accept : list Z -> move;
  closed : option (list Z);   (* the last line when there is no reply *)
}.

Definition bye (farewell : option (list Z)) : list (list Z) := match farewell with Some q => [str "QUIT " ++ q] | None => [] end.

(** The outcome of a conversation: the result, the lines of the client, and the
    replies that are left while the connection is open. *)
Fixpoint converse (script : list exchange) (prev : list Z) (replies : list (list Z)) : Z * list (list Z) * option (list (list Z)) :=
  match script with
  | [] => (1, [], Some replies)
  | x :: script' =>
    match replies with
    | [] => (0, request x prev ++ bye (closed x), match closed x with Some _ => None | None => Some [] end)
    | r :: replies' =>
      match accept x (text r) with
      | Go => let '(code, l, o) := converse script' (text r) replies' in (code, request x prev ++ l, o)
      | Stop code q => (code, request x prev ++ bye q, match q with Some _ => None | None => Some replies' end)
      end
    end
  end.

Definition when_positive (code : Z) (t : list Z) : move := if positive t then Go else Stop code None.

Section script.
Context (e : tic_env) (username password : list Z).

Definition good_bye : list Z := quit_text (dice e) None.

Definition script_challenge : list exchange := [
  mk_exchange (fun _ => [str "challenge md5"]) (when_positive 0) None;
  mk_exchange (fun c => [str "authenticate md5 " ++ md5_hex (take 1023 (drop 4 c ++ md5_hex password))])
    (fun t => if positive t then Go else Stop TKZAiccuErrInvalidPwd (Some good_bye)) (Some good_bye) ].

Definition script_user : list exchange :=
  mk_exchange (fun _ => [str "username " ++ username]) (when_positive TKZAiccuErrInvalidUser) None :: script_challenge.

Definition check_clock (t : list Z) : move :=
  if positive t then
    let i := tic_checktime (clock e) (atoi (drop 4 t)) in
    if i =? 0 then Go else Stop TKZAiccuErrNoTimeSync (Some (clock_message i))
  else Stop 0 None.

Definition script_clock : list exchange := mk_exchange (fun _ => [str "get unixtime"]) check_clock None :: script_user.

Definition script_client : list exchange :=
  mk_exchange (fun _ => [client_line e]) (when_positive TKZAiccuErrClientNotUpToDate) None :: script_clock.

Definition login_script : list exchange :=
  mk_exchange (fun _ => []) (when_positive TKZAiccuErrNoTicConnection) None :: script_client.

(** The names and the password fit the buffers. *)
Definition login_ok : Prop :=
  (length (sysname e) + length (release e) <= 1000)%nat /\ (length username <= 1000)%nat /\
  Z.of_nat (length password) < 2 ^ 32 /\ length (stack e) = 64%nat.

(** The result of a part of the login follows a script. *)
Definition follows (m : nat) (r : res (Z * tic_sock)) (s : tic_sock) (outcome : Z * list (list Z) * option (list (list Z))) : Prop :=
  let '(code, lines, rest) := outcome in
  exists s', r = Ok (code, s') /\ sent s' = sent s ++ print_lines lines /\
    match rest with Some raws => talks m s' raws | None => sock s' = false end.
End script.

Section follows.
Context (m : nat).

Lemma ask_step s words replies (P : res (Z * tic_sock) -> Prop) (K0 : tic_sock -> res (Z * tic_sock)) K1 :
  talks m s replies -> (length words < 2047)%nat ->
  (forall s1, replies = [] -> talks m s1 [] -> sent s1 = sent s ++ line words -> P (K0 s1)) ->
  (forall r rs s1, replies = r :: rs -> short r -> talks m s1 rs -> sent s1 = sent s ++ line words -> P (K1 (padded r) s1)) ->
  P (x ← ask words s; match x with (None, s) => K0 s | (Some b, s) => K1 b s end).
Proof.
  intros Ht Hl H0 H1. destruct replies as [|r rs].
  - destruct (ask_end m s words Ht Hl) as (s1 & -> & Ht1 & Hs1). cbn [mbind res_bind]. by apply H0.
  - destruct (ask_line m s words r rs Ht Hl) as (s1 & -> & Ht1 & Hs1). cbn [mbind res_bind]. apply (H1 r rs); try done. by apply (talks_short m s r rs).
Qed.

Lemma follows_cons r s s1 w code l o :
  sent s1 = sent s ++ line w -> follows m r s1 (code, l, o) -> follows m r s (code, w :: l, o).
Proof.
  intros Hs (s' & E & Hs' & Ho). exists s'. split; [done|]. split; [|done].
  rewrite Hs', Hs. unfold print_lines, line. cbn. by rewrite <- !app_assoc.
Qed.

(** The line before the state [s1]. *)
Ltac said s1 := refine (follows_cons _ _ s1 _ _ _ _ _ _); [assumption|].

Lemma follows_stop s raws code : talks m s raws -> follows m (Ok (code, s)) s (code, [], Some raws).
Proof. intros Ht. exists s. split; [done|]. split; [|done]. unfold print_lines. cbn. by rewrite app_nil_r. Qed.

Lemma follows_logout s raws d q code K :
  talks m s raws -> (length (quit_text d q) < 2042)%nat -> (forall s', K s' = Ok (code, s')) ->
  follows m (s ← tic_Logout d q s; K s) s (code, [str "QUIT " ++ quit_text d q], None).
Proof.
  intros Ht Hq HK. destruct (tic_Logout_ok m s d q raws Ht Hq) as (s1 & -> & Ho & Hs1). cbn [mbind res_bind]. exists s1.
  split; [apply HK|]. split; [|done]. rewrite Hs1. unfold print_lines, line. cbn. by rewrite app_nil_r.
Qed.

Lemma length_good_bye d : (length (quit_text d None) < 100)%nat.
Proof.
  assert (Forall (fun b => (length b < 100)%nat) byers) as H by (apply (bool_decide_unpack _); vm_compute; exact I).
  unfold quit_text. destruct (byers !! _) as [b|] eqn:E; [|cbn; lia]. rewrite list.Forall_forall in H. by apply H, (list_elem_of_lookup_2 _ _ _ E).
Qed.

Context (e : tic_env) (username password : list Z) (Hok : login_ok e username password).

Lemma response_ok t : short t -> response (stack e) (drop 4 (text t)) password = Ok (Some (md5_hex (take 1023 (drop 4 (text t) ++ md5_hex password)))).
Proof.
  intros _. destruct Hok as (_ & _ & Hp & Hst). unfold response. rewrite MD5String_ok by done. cbn [mbind res_bind].
  apply MD5String_ok; [done|]. rewrite length_take. lia.
Qed.

Lemma login_challenge_follows s replies :
  talks m s replies -> follows m (login_challenge e password s) s (converse (script_challenge e password) [] replies).
Proof.
  intros Ht. unfold login_challenge. eapply ask_step; [exact Ht|cbn; lia| |].
  - intros s1 -> Ht1 Hs1. said s1; by apply follows_stop.
  - intros r rs s1 -> Hr Ht1 Hs1. rewrite is_positive_padded, text_at_padded by (done || lia). cbn [mbind res_bind converse script_challenge].
    cbn [accept]. unfold when_positive. destruct (positive (text r)); cbn [negb]; [|said s1; by apply follows_stop].
    rewrite response_ok by done. cbn [mbind res_bind default]. set (answer_line := str "authenticate md5 " ++ _).
    assert (length answer_line < 2047)%nat as Hal by (unfold answer_line; cbn [from_option id]; rewrite length_app, length_md5_hex; cbn; lia).
    pose proof (length_good_bye (dice e)). eapply ask_step; [exact Ht1|exact Hal| |].
    + intros s2 -> Ht2 Hs2. cbn [request closed accept bye app]. apply (follows_cons _ _ s1), (follows_cons _ _ s2); try done.
      eapply follows_logout; [exact Ht2|lia|done].
    + intros r2 rs2 s2 -> Hr2 Ht2 Hs2. rewrite is_positive_padded by done. cbn [mbind res_bind request accept]. destruct (positive (text r2)).
      * said s1; said s2; by apply follows_stop.
      * said s1; said s2. eapply follows_logout; [exact Ht2|lia|].
        intros s'. by rewrite text_at_padded by (done || lia).
Qed.

Lemma converse_Go x script prev r replies code l o :
  accept x (text r) = Go -> converse script (text r) replies = (code, l, o) ->
  converse (x :: script) prev (r :: replies) = (code, request x prev ++ l, o).
Proof. intros Ha Hc. cbn [converse]. by rewrite Ha, Hc. Qed.

(** The rest of a script after a line that is accepted. *)
Lemma follows_Go r s s1 w x script prev t replies :
  sent s1 = sent s ++ line w -> request x prev = [w] -> accept x (text t) = Go ->
  follows m r s1 (converse script (text t) replies) -> follows m r s (converse (x :: script) prev (t :: replies)).
Proof.
  intros Hs Hr Ha Hf. destruct (converse script (text t) replies) as [[code l] o] eqn:E. rewrite (converse_Go _ _ _ _ _ code l o) by done.
  rewrite Hr. by apply (follows_cons _ _ s1).
Qed.

(** The first request of the last part of the script does not depend on the last
    reply. *)
Lemma converse_prev x script prev prev' replies : request x prev = request x prev' -> converse (x :: script) prev replies = converse (x :: script) prev' replies.
Proof. intros H. destruct replies as [|r replies]; cbn [converse]; by rewrite H. Qed.

Lemma login_user_follows s replies :
  talks m s replies -> follows m (login_user e username password s) s (converse (script_user e username password) [] replies).
Proof.
  intros Ht. unfold login_user. eapply ask_step; [exact Ht| | |].
  - destruct Hok as (_ & Hu & _). rewrite length_app. cbn. lia.
  - intros s1 -> Ht1 Hs1. said s1. by apply follows_stop.
  - intros r rs s1 -> Hr Ht1 Hs1. rewrite is_positive_padded by done. cbn [mbind res_bind]. unfold script_user.
    destruct (positive (text r)) eqn:Ep.
    + apply (follows_Go _ _ s1 (str "username " ++ username)); [done|done|cbn; unfold when_positive; by rewrite Ep|].
      unfold script_challenge. rewrite (converse_prev _ _ _ []) by done. by apply login_challenge_follows.
    + rewrite text_at_padded by (done || lia). cbn [mbind res_bind converse accept]. unfold when_positive. rewrite Ep. said s1. by apply follows_stop.
Qed.

Lemma length_clock_message i : (length (clock_message i) < 100)%nat.
Proof. unfold clock_message. rewrite length_take. lia. Qed.

Lemma login_clock_follows s replies :
  talks m s replies ->
  follows m (login_clock e username password s) s (converse (script_clock e username password) [] replies).
Proof.
  intros Ht. unfold login_clock, script_clock. eapply ask_step; [exact Ht|cbn; lia| |].
  - intros s1 -> Ht1 Hs1. said s1. by apply follows_stop.
  - intros r rs s1 -> Hr Ht1 Hs1. rewrite is_positive_padded, text_at_padded by (done || lia). cbn [mbind res_bind].
    set (i := tic_checktime (clock e) (atoi (drop 4 (text r)))).
    destruct (positive (text r)) eqn:Ep; cbn [negb].
    2: { cbn [converse accept]. unfold check_clock. rewrite Ep. said s1. by apply follows_stop. }
    destruct (i =? 0) eqn:Ei; cbn [negb].
    + apply (follows_Go _ _ s1 (str "get unixtime")); [done|done|cbn; unfold check_clock; by rewrite Ep; fold i; rewrite Ei|].
      unfold script_user. rewrite (converse_prev _ _ _ []) by done. by apply login_user_follows.
    + cbn [converse accept]. unfold check_clock. rewrite Ep. fold i. rewrite Ei. cbn [bye app request]. said s1.
      pose proof (length_clock_message i). by apply (follows_logout s1 rs (dice e) (Some (clock_message i))); [|cbn [quit_text]; lia|].
Qed.

Lemma login_client_follows s replies :
  talks m s replies -> follows m (login_client e username password s) s (converse (script_client e username password) [] replies).
Proof.
  intros Ht. unfold login_client, script_client. eapply ask_step; [exact Ht| | |].
  - destruct Hok as (He & _). unfold client_line, TIC_VERSION, TIC_CLIENT_NAME, TIC_CLIENT_VERSION. rewrite !length_app. cbn. lia.
  - intros s2 -> Ht2 Hs2. said s2. by apply follows_stop.
  - intros r2 rs s2 -> Hr2 Ht2 Hs2. rewrite is_positive_padded by done. cbn [mbind res_bind]. destruct (positive (text r2)) eqn:Ep2.
    + apply (follows_Go _ _ s2 (client_line e)); [done|done|cbn; unfold when_positive; by rewrite Ep2|].
      unfold script_clock. rewrite (converse_prev _ _ _ []) by done. by apply login_clock_follows.
    + rewrite text_at_padded by (done || lia). cbn [mbind res_bind converse accept]. unfold when_positive. rewrite Ep2. said s2. by apply follows_stop.
Qed.

Lemma follows_sent s1 r s o : sent s1 = sent s -> follows m r s1 o -> follows m r s o.
Proof. unfold follows. by intros ->. Qed.

Lemma follows_skip r s o : follows m r s o -> follows m r s (let '(code, l, rest) := o in (code, [] ++ l, rest)).
Proof. by destruct o as [[code l] rest]. Qed.
End follows.

(** A conversation succeeds if every reply is accepted. *)
Lemma converse_succeeds script prev replies :
  Forall (fun x => forall t q, accept x t <> Stop 1 q) script ->
  (converse script prev replies).1.1 = 1 <-> Forall2 (fun x r => accept x (text r) = Go) script (take (length script) replies).
Proof.
  intros H. revert prev replies. induction H as [|x script Hx _ IH]; intros prev replies; [cbn; split; [constructor|done]|].
  destruct replies as [|r replies]; [cbn; split; [done|intros E; by inversion E]|]. cbn [converse length firstn]. specialize (IH (text r) replies).
  destruct (accept x (text r)) as [|code q] eqn:E.
  - destruct (converse script (text r) replies) as [[code l] o]. cbn [fst] in *. rewrite IH. split; [by constructor|by inversion 1].
  - cbn. split; [intros ->; by destruct (Hx (text r) q)|inversion 1; congruence].
Qed.

(** The requests of a conversation that succeeds. *)
Fixpoint said (script : list exchange) (prev : list Z) (replies : list (list Z)) : list (list Z) :=
  match script, replies with
  | x :: script', r :: replies' => request x prev ++ said script' (text r) replies'
  | _, _ => []
  end.

Lemma converse_accepted script prev replies rest :
  Forall2 (fun x r => accept x (text r) = Go) script replies -> converse script prev (replies ++ rest) = (1, said script prev replies, Some rest).
Proof.
  intros H. revert prev. induction H as [|x r script replies Hx _ IH]; intros prev; [done|]. cbn [app converse said]. by rewrite Hx, IH.
Qed.

Lemma login_script_codes e username password : Forall (fun x => forall t q, accept x t <> Stop 1 q) (login_script e username password).
Proof.
  repeat constructor; cbn; intros t q; unfold when_positive, check_clock; destruct (positive t); try done. by destruct (_ =? 0).
Qed.

Lemma tic_Login_follows m e username password l a s replies :
  login_ok e username password -> connection e = Some (l, a) ->
  talks m (mk_tic_sock (tic_buf s) (tic_filled s) true l a (sent s)) replies ->
  follows m (tic_Login e username password s) s (converse (login_script e username password) [] replies).
Proof.
  intros Hok Hc Ht. unfold tic_Login. rewrite Hc. set (s0 := mk_tic_sock _ _ _ _ _ _) in *.
  destruct replies as [|r replies].
  { rewrite (answer_end m) by done. apply (follows_sent m s0); [done|]. by apply follows_stop. }
  destruct (answer_line m s0 r replies Ht) as (s1 & -> & Ht1 & Hs1). cbn [mbind res_bind].
  rewrite is_positive_padded by (by apply (talks_short m s0 r replies)). cbn [mbind res_bind]. unfold login_script.
  destruct (positive (text r)) eqn:Ep; cbn [negb].
  2: { cbn [converse accept]. unfold when_positive. rewrite Ep. apply (follows_sent m s1); [done|by apply follows_stop]. }
  cbn [converse accept]. unfold when_positive at 1. rewrite Ep. apply (follows_sent m s1); [done|]. apply follows_skip.
  unfold script_client. rewrite (converse_prev _ _ _ []) by done. by apply login_client_follows.
Qed.

(** (C36) The login follows its script, under these conditions: the connection
    succeeds, no call of [recv] or [send] fails, every piece that [recv] gives
    has between 1 and [m] bytes, [m] at most 1014, what the buffer holds before
    has at most 1013 bytes, every line of the server ends in a line feed, is not
    empty, holds no zero byte and has less than [1014 - m] bytes; the system's
    name and release have together at most 1000 bytes, the user's name at most
    1000, and the password less than 4 gigabytes.  Then, whatever the lines of
    the server say, the client sends exactly the lines of the script up to the
    first reply that it does not accept, with the password only inside the MD5
    of the challenge, and the farewell that the script has there; when a reply is
    refused, or the connection ends before it, the result is the code that the
    script gives for that place.  The result is 1 if and only if all six replies
    come and are accepted: each begins with a 2, and the third has a time that is
    close enough to the clock. *)
Theorem tic_Login_follows_script m e username password l a s replies :
  login_ok e username password -> connection e = Some (l, a) ->
  talks m (mk_tic_sock (tic_buf s) (tic_filled s) true l a (sent s)) replies ->
  follows m (tic_Login e username password s) s (converse (login_script e username password) [] replies) /\
  ((exists s', tic_Login e username password s = Ok (1, s')) <->
   Forall2 (fun x r => accept x (text r) = Go) (login_script e username password) (take 6 replies)).
Proof.
  intros Hok Hc Ht. pose proof (tic_Login_follows m e username password l a s replies Hok Hc Ht) as Hf. split; [done|].
  change 6%nat with (length (login_script e username password)). rewrite <- (converse_succeeds _ []) by apply login_script_codes.
  destruct (converse _ _ _) as [[code lines] o]. destruct Hf as (s' & -> & _). cbn. split.
  - intros (s1 & E). by injection E.
  - intros ->. by exists s'.
Qed.

(** A server that sends [raws] in one piece. *)
Definition tic_server (raws : list (list Z)) : list recv_answer := [Data (print_lines raws)].

Lemma talks_server raws out :
  let n := length (print_lines raws) in
  (1 <= n)%nat -> Forall (fun r => raw_ok (1014 - n) r /\ no_nul r) raws -> (n <= 1014)%nat ->
  talks n (mk_tic_sock (repeat 0 2048) 0 true (tic_server raws) [] out) raws.
Proof.
  intros n Hn Hr Hm. constructor; [|unfold stream, tic_server; cbn; by rewrite app_nil_r|done|done|done].
  split_and!; [done|done|done|done|]. cbn. repeat constructor; lia.
Qed.

#[local] Instance no_lf_dec s : Decision (no_lf s).
Proof. unfold no_lf. apply _. Defined.
#[local] Instance no_nul_dec s : Decision (no_nul s).
Proof. unfold no_nul. apply _. Defined.
#[local] Instance raw_ok_dec n r : Decision (raw_ok n r).
Proof. unfold raw_ok. apply _. Defined.

Definition example_login : list (list Z) :=
  str <$> ["200 SixXS TIC Service"; "200 Client Identity accepted"; "200 1500000000"; "200 Choose your authentication challenge please";
           "200 0123456789abcdef"; "200 Successfully logged in"]%string.

Definition example_env (raws : list (list Z)) : tic_env :=
  mk_tic_env (Some (tic_server raws, [])) (str "Darwin") (str "12.4.0") 1500000060 0 (repeat 0 64).

Ltac talks_example := apply talks_server; [vm_compute; lia|apply (bool_decide_unpack _); vm_compute; exact I|vm_compute; lia].

Lemma tic_Login_follows_script_witness :
  exists s', tic_Login (example_env example_login) (str "jdoe") (str "secret") (fresh_sock []) = Ok (1, s').
Proof.
  apply (proj2 (tic_Login_follows_script (length (print_lines example_login)) (example_env example_login) (str "jdoe") (str "secret")
    (tic_server example_login) [] (fresh_sock []) example_login
    ltac:(split_and!; vm_compute; (done || lia)) eq_refl ltac:(talks_example))).
  repeat constructor.
Defined.

(** ** The list of tunnels *)

Definition word (w : list Z) : Prop := w <> [] /\ Forall (fun c => c <> 0 /\ c <> 32 /\ c <> LF) w.

Lemma span_word_ok w l x : Forall (fun c => c <> 0 /\ c <> 32 /\ c <> LF) w -> x = 0 \/ x = 32 -> span_word (w ++ x :: l) = Ok (length w).
Proof.
  intros Hw Hx. induction Hw as [|c w (H0 & H32 & _) _ IH]; cbn.
  - by destruct Hx as [-> | ->].
  - rewrite (proj2 (Z.eqb_neq c 0)), (proj2 (Z.eqb_neq c 32)) by done. cbn [orb]. by rewrite IH.
Qed.

(** Words with a space between them. *)
Fixpoint unwords (ws : list (list Z)) : list Z :=
  match ws with [] => [] | [w] => w | w :: ws' => w ++ 32 :: unwords ws' end.

Lemma copy_loop_ok fuel ws k w z :
  Forall word ws -> (length ws < fuel)%nat -> ws !! k = Some w -> copy_loop fuel (unwords ws ++ 0 :: z) (S k) = Ok (Some w).
Proof.
  intros Hw. revert fuel k. induction Hw as [|v ws [Hne Hv] _ IH]; intros fuel k Hf Hk; [done|]. destruct fuel as [|fuel]; [cbn in Hf; lia|].
  assert (exists x l, unwords (v :: ws) ++ 0 :: z = v ++ x :: l /\ (x = 0 \/ x = 32) /\ (ws <> [] -> l = unwords ws ++ 0 :: z)) as (x & l & E & Hx & Hl).
  { destruct ws as [|u ws]; [exists 0, z; split_and!; [done|by left|done]|]. exists 32, (unwords (u :: ws) ++ 0 :: z).
    split_and!; [|by right|done]. change (unwords (v :: u :: ws)) with (v ++ 32 :: unwords (u :: ws)). by rewrite <- app_assoc. }
  rewrite E. cbn [copy_loop]. destruct v as [|c v]; [done|]. change (byte_at ((c :: v) ++ x :: l) 0) with (Ok c : res Z). cbn [mbind res_bind].
  pose proof Hv as Hv'. apply list.Forall_cons in Hv' as [(Hc & _) _]. rewrite (proj2 (Z.eqb_neq c 0)) by done.
  rewrite span_word_ok by done. cbn [mbind res_bind]. destruct k as [|k].
  - cbn in Hk. injection Hk as <-. by rewrite take_app_length.
  - change ((c :: v) ++ x :: l) with (([c] ++ v) ++ x :: l). 
    replace (drop (S (length (c :: v))) (([c] ++ v) ++ x :: l)) with l.
    + rewrite Nat.sub_succ, Nat.sub_0_r. cbn in Hk. rewrite Hl by (intros ->; done). apply IH; [cbn in Hf; lia|done].
    + change (x :: l) with ([x] ++ l). rewrite app_assoc, drop_app_length'; [done|]. rewrite length_app. cbn. lia.
Qed.

Lemma length_data l : (length (mjoin (data_of <$> l)) <= input_size l)%nat.
Proof.
  unfold input_size. induction l as [|a l IH]; [done|]. rewrite !fmap_cons.
  change (mjoin (data_of a :: (data_of <$> l))) with (data_of a ++ mjoin (data_of <$> l)). rewrite length_app.
  destruct a; cbn -[mjoin fmap] in *; lia.
Qed.

Lemma lines_left_ok m s raws : talks m s raws -> (length raws < lines_left s)%nat.
Proof.
  intros [(_ & Hb & Hf & _) Hst _ _ _]. unfold lines_left.
  assert (length (stream s) <= length (tic_buf s) + input_size (input s))%nat as H.
  { unfold stream. rewrite length_app, length_take. pose proof (length_data (input s)). lia. }
  pose proof (length_lines raws). rewrite Hst in H. lia.
Qed.

Lemma countfields_app a b : countfields (a ++ 32 :: b) = countfields a + countfields b.
Proof. unfold countfields. rewrite filter_app, length_app, filter_cons_True by done. cbn [length]. lia. Qed.

Lemma countfields_word w : word w -> countfields w = 1.
Proof.
  intros [_ H]. unfold countfields. enough (filter (fun c => c = 32) w = []) as -> by done.
  induction H as [|c w (_ & Hc & _) _ IH]; [done|]. by rewrite filter_cons_False.
Qed.

Lemma countfields_unwords ws : Forall word ws -> ws <> [] -> countfields (unwords ws) = Z.of_nat (length ws).
Proof.
  intros H Hne. induction H as [|w ws Hw Hws IH]; [done|]. destruct ws as [|u ws]; [by apply countfields_word|].
  change (unwords (w :: u :: ws)) with (w ++ 32 :: unwords (u :: ws)). rewrite countfields_app, countfields_word, IH by done. cbn [length]. lia.
Qed.

(** The fields of any string are copied without a fault. *)
Lemma span_word_total t z : no_nul t -> (0 < z)%nat -> exists k, span_word (t ++ repeat 0 z) = Ok k /\ (k <= length t)%nat.
Proof.
  intros H Hz. induction H as [|c t Hc _ (k & IH & Hk)]; [exists 0%nat; destruct z; [lia|done]|]. cbn. rewrite IH.
  destruct (_ || _); [by exists 0%nat; split; [|lia]|]. exists (S k). split; [done|lia].
Qed.

Lemma copy_loop_total fuel t z n : no_nul t -> (2 <= z)%nat -> (length t < fuel)%nat -> exists o, copy_loop fuel (t ++ repeat 0 z) n = Ok o.
Proof.
  revert t z n. induction fuel as [|fuel IH]; intros t z n Hn Hz Hf; [lia|]. cbn [copy_loop]. destruct t as [|c t].
  - destruct z; [lia|]. by exists None.
  - change (byte_at ((c :: t) ++ repeat 0 z) 0) with (Ok c : res Z). cbn [mbind res_bind].
    rewrite (proj2 (Z.eqb_neq c 0)) by (by inversion Hn). destruct (span_word_total (c :: t) z Hn ltac:(lia)) as (k & -> & Hk). cbn [mbind res_bind].
    assert (exists o, copy_loop fuel (drop (S k) ((c :: t) ++ repeat 0 z)) (n - 1) = Ok o) as (o & Ho); [|destruct n as [|[|n]]; eauto].
    rewrite drop_app, drop_zeros. destruct (Nat.le_gt_cases (S k) (length (c :: t))).
    + replace (S k - length (c :: t))%nat with 0%nat by lia. rewrite Nat.sub_0_r. apply IH; [by apply Forall_drop|done|].
      rewrite length_drop. cbn in *. lia.
    + rewrite drop_ge by lia. destruct fuel as [|fuel]; [cbn in *; lia|]. cbn [app copy_loop].
      replace (z - (S k - length (c :: t)))%nat with (S (z - 2)) by (cbn [length] in *; lia). by exists None.
Qed.

Lemma copyfield_total r n : short r -> exists o, copyfield (padded r) n 1024 = Ok o.
Proof.
  intros [Hl Hn]. unfold copyfield, padded. unfold text in *. set (t := strip_cr r) in *.
  destruct (copy_loop_total (S (length (t ++ repeat 0 (UBUFLEN - length t)))) t (UBUFLEN - length t) n) as (o & ->);
    [done|unfold UBUFLEN; lia|rewrite length_app; lia|].
  cbn [mbind res_bind]. by eexists.
Qed.

Lemma fill_sTunnel_total r : short r -> exists ok t, fill_sTunnel (padded r) = Ok (ok, t).
Proof.
  intros Hr. unfold fill_sTunnel.
  destruct (copyfield_total r 1 Hr) as ([a|] & ->), (copyfield_total r 2 Hr) as ([b|] & ->), (copyfield_total r 3 Hr) as ([c|] & ->),
    (copyfield_total r 4 Hr) as ([d|] & ->); cbn [mbind res_bind]; eauto.
Qed.

Definition blocks (l : list TIC_sTunnel) : Z := foldr (fun t n => blocks_of t + n) 0 l.

Lemma all_blocks_app l l' : blocks (l ++ l') = blocks l + blocks l'.
Proof. unfold blocks. induction l as [|t l IH]; [done|]. cbn [app foldr]. rewrite IH. lia. Qed.

Lemma tic_Free_sTunnel_ok l n : tic_Free_sTunnel l n = n - blocks l.
Proof. unfold tic_Free_sTunnel, blocks. induction l as [|t l IH]; cbn [foldr]; lia. Qed.

(** A line, or the zeroes of a connection that has ended. *)
Definition some_line (buf : list Z) : Prop := buf = repeat 0 UBUFLEN \/ exists r, short r /\ buf = padded r.

Lemma some_line_zero : repeat 0 UBUFLEN = padded [].
Proof. done. Qed.

Lemma some_line_padded buf : some_line buf -> exists r, short r /\ buf = padded r.
Proof. intros [-> | H]; [|done]. exists []. split; [|done]. split; [cbn; lia|constructor]. Qed.

Lemma list_loop_total m fuel mallocs l live s raws :
  talks m s raws -> (length raws < fuel)%nat ->
  exists buf l' s', list_loop fuel mallocs l live s = Ok (buf, l', live - blocks l + blocks l', s') /\ some_line buf.
Proof.
  revert mallocs l live s raws. induction fuel as [|fuel IH]; intros mallocs l live s raws Ht Hf; [lia|]. cbn [list_loop].
  assert (live - blocks l + blocks l = live) as Hlive by lia.
  destruct raws as [|r raws].
  { rewrite (answer_end m) by done. cbn [mbind res_bind]. eexists _, l, _. rewrite Hlive. split; [done|by left]. }
  destruct (answer_line m s r raws Ht) as (s1 & -> & Ht1 & _). cbn [mbind res_bind]. pose proof (talks_short _ _ _ _ Ht) as Hr.
  rewrite code_is_padded by (done || apply is_code_202). cbn [mbind res_bind].
  assert (some_line (padded r)) as Hsl by (right; by exists r).
  destruct (bool_decide _); [eexists _, l, _; rewrite Hlive; by split|]. rewrite text_at_padded by (done || lia). cbn [mbind res_bind].
  destruct (countfields _ =? 4); cbn [negb]; [|eexists _, l, _; rewrite Hlive; by split].
  destruct (hd true mallocs); cbn [negb]; [|eexists _, l, _; rewrite Hlive; by split].
  destruct (fill_sTunnel_total r Hr) as ([|] & t & ->); cbn [mbind res_bind].
  - destruct (IH (tl mallocs) (l ++ [t]) (live + blocks_of t) s1 raws Ht1) as (buf & l' & s' & E & Hb); [cbn in Hf; lia|].
    exists buf, l', s'. split; [|done]. rewrite E, all_blocks_app. change (blocks [t]) with (blocks_of t + 0).
    by replace (live + blocks_of t - (blocks l + (blocks_of t + 0))) with (live - blocks l) by lia.
  - exists (padded r), l, s1. split; [|done]. by replace (live - blocks l + blocks l) with (live + blocks_of t - blocks_of t) by lia.
Qed.

(** A tunnel as the server lists it. *)
Definition listed (ws : list (list Z)) : TIC_sTunnel :=
  mk_TIC_sTunnel (ws !! 0%nat) (ws !! 1%nat) (ws !! 2%nat) (ws !! 3%nat).

(** A line with the four fields [ws] of a tunnel. *)
Definition tunnel_line (raw : list Z) (ws : list (list Z)) : Prop :=
  text raw = unwords ws /\ length ws = 4%nat /\ Forall word ws /\ take 3 (text raw) <> str "202".

Lemma fill_sTunnel_ok raw ws : short raw -> tunnel_line raw ws -> fill_sTunnel (padded raw) = Ok (true, listed ws).
Proof.
  intros [Hs _] (Ht & Hl & Hw & _). unfold padded. unfold text in *. rewrite Ht in *.
  assert (forall k w, ws !! k = Some w -> copyfield (unwords ws ++ repeat 0 (UBUFLEN - length (unwords ws))) (S k) 1024 = Ok (Some w)) as H.
  { intros k w Hk. unfold copyfield. destruct (UBUFLEN - length (unwords ws))%nat as [|z] eqn:Ez; [unfold UBUFLEN in Ez; lia|].
    change (repeat 0 (S z)) with (0 :: repeat 0 z). rewrite (copy_loop_ok _ ws k w); [|done| |done].
    - cbn [mbind res_bind]. do 2 f_equal. apply take_ge. enough (length w <= length (unwords ws))%nat by lia. clear -Hk.
      revert k Hk. induction ws as [|v ws IH]; intros k Hk; [done|]. destruct ws as [|u ws].
      + destruct k; [by injection Hk as ->|done].
      + change (unwords (v :: u :: ws)) with (v ++ 32 :: unwords (u :: ws)). rewrite length_app. destruct k as [|k]; [injection Hk as ->; lia|].
        specialize (IH k Hk). cbn [length]. lia.
    - rewrite length_app. cbn [length]. rewrite repeat_length. unfold UBUFLEN in Ez. enough (length ws <= 4)%nat by lia. lia. }
  destruct ws as [|a [|b [|c [|d [|]]]]]; try done. unfold fill_sTunnel.
  rewrite (H 0%nat a), (H 1%nat b), (H 2%nat c), (H 3%nat d) by done. done.
Qed.

Lemma list_loop_ok m fuel l live s raws wss fin rest :
  talks m s (raws ++ fin :: rest) -> Forall2 tunnel_line raws wss -> take 3 (text fin) = str "202" -> (length raws < fuel)%nat ->
  exists s', list_loop fuel [] l live s = Ok (padded fin, l ++ (listed <$> wss), live + 5 * Z.of_nat (length wss), s') /\
    talks m s' rest /\ sent s' = sent s.
Proof.
  intros Ht H Hfin. revert l live s fuel Ht. induction H as [|raw ws raws wss Hl _ IH]; intros l live s fuel Ht Hf; (destruct fuel as [|fuel]; [lia|]).
  - cbn [app] in Ht. cbn [list_loop]. destruct (answer_line m s fin rest Ht) as (s1 & -> & Ht1 & Hs1). cbn [mbind res_bind].
    rewrite code_is_padded by (apply is_code_202 || by eapply talks_short). rewrite bool_decide_eq_true_2 by done. cbn [mbind res_bind].
    exists s1. rewrite app_nil_r, Z.add_0_r. done.
  - cbn [app] in Ht. cbn [list_loop]. destruct (answer_line m s raw _ Ht) as (s1 & -> & Ht1 & Hs1). cbn [mbind res_bind].
    pose proof (talks_short _ _ _ _ Ht) as Hr. pose proof Hl as (Htext & H4 & Hw & H202).
    rewrite code_is_padded by (done || apply is_code_202). rewrite bool_decide_eq_false_2 by done. cbn [mbind res_bind].
    rewrite text_at_padded by (done || lia). cbn [mbind res_bind]. change (drop 0 (text raw)) with (text raw).
    rewrite Htext, countfields_unwords, H4 by (done || by intros ->). cbn [negb Z.eqb Z.of_nat Pos.of_succ_nat Pos.succ Pos.eqb hd tl].
    rewrite (fill_sTunnel_ok raw ws) by done. cbn [mbind res_bind].
    destruct (IH (l ++ [listed ws]) (live + blocks_of (listed ws)) s1 fuel Ht1) as (s2 & -> & Ht2 & Hs2); [cbn in Hf; lia|].
    exists s2. rewrite Hs2, <- Hs1. split; [|done]. rewrite fmap_cons. cbn [length]. rewrite <- app_assoc. cbn [app]. do 3 f_equal.
    destruct ws as [|a [|b [|c [|d [|]]]]]; try done. unfold blocks_of, listed. cbn. lia.
Qed.

Lemma tic_ListTunnels_total m s mallocs replies : talks m s replies -> exists l s', tic_ListTunnels mallocs s = Ok (l, blocks l, s').
Proof.
  intros Ht. unfold tic_ListTunnels. destruct replies as [|r replies].
  { destruct (ask_end m s (str "tunnel list") Ht) as (s1 & -> & _); [cbn; lia|]. by exists [], s1. }
  destruct (ask_line m s (str "tunnel list") r replies Ht) as (s1 & -> & Ht1 & _); [cbn; lia|]. cbn [mbind res_bind].
  pose proof (talks_short _ _ _ _ Ht) as Hr. rewrite code_is_padded by (done || apply is_code_201). cbn [mbind res_bind].
  destruct (bool_decide _); cbn [negb]; [|rewrite text_at_padded by (done || lia); by exists [], s1].
  destruct (list_loop_total m (lines_left s1) mallocs [] 0 s1 replies Ht1) as (buf & l' & s' & -> & Hb); [by apply (lines_left_ok m)|].
  cbn [mbind res_bind]. apply some_line_padded in Hb as (r' & Hr' & ->). rewrite code_is_padded by (done || apply is_code_202). cbn [mbind res_bind].
  destruct (bool_decide _); [by exists l', s'|]. rewrite text_at_padded by (done || lia). cbn [mbind res_bind].
  exists [], s'. do 3 f_equal. rewrite tic_Free_sTunnel_ok. cbn. lia.
Qed.

Lemma tic_ListTunnels_lines m s start raws wss fin rest :
  talks m s (start :: raws ++ fin :: rest) -> take 3 (text start) = str "201" ->
  Forall2 tunnel_line raws wss -> take 3 (text fin) = str "202" ->
  exists s', tic_ListTunnels [] s = Ok (listed <$> wss, 5 * Z.of_nat (length wss), s') /\ talks m s' rest /\
    sent s' = sent s ++ line (str "tunnel list").
Proof.
  intros Ht Hstart Hl Hfin. unfold tic_ListTunnels.
  destruct (ask_line m s (str "tunnel list") start _ Ht) as (s1 & -> & Ht1 & Hs1); [cbn; lia|]. cbn [mbind res_bind].
  rewrite code_is_padded by (apply is_code_201 || by eapply talks_short). rewrite bool_decide_eq_true_2 by done. cbn [mbind res_bind negb].
  destruct (list_loop_ok m (lines_left s1) [] 0 s1 raws wss fin rest Ht1 Hl Hfin) as (s2 & -> & Ht2 & Hs2).
  { pose proof (lines_left_ok m s1 _ Ht1) as H. rewrite length_app in H. lia. }
  cbn [mbind res_bind]. assert (short fin) as Hsf by (apply (talks_member m s1 _ _ Ht1), elem_of_app; right; by left).
  rewrite code_is_padded by (done || apply is_code_202). rewrite bool_decide_eq_true_2 by done. cbn [mbind res_bind].
  exists s2. rewrite Hs2, Hs1. done.
Qed.

(** (C37) The list of tunnels arrives whole, under these conditions: the
    connection is open, no call of [recv] or [send] fails, every piece that
    [recv] gives has between 1 and [m] bytes, [m] at most 1014, what the buffer
    holds before has at most 1013 bytes, every line of the server ends in a line
    feed, is not empty, holds no zero byte and has less than [1014 - m] bytes,
    and the copies of the fields can be allocated.  Then, whatever the lines say
    and wherever the allocation of an element fails, the call returns and the
    blocks that stay allocated are those of the list it returns; and when no
    allocation fails and the server sends 201, lines of four words that do not
    begin with 202, and 202, the list has exactly their four fields, in their
    order, and the one line that was sent is the request. *)
Theorem tic_ListTunnels_contract m s :
  (forall mallocs replies, talks m s replies -> exists l s', tic_ListTunnels mallocs s = Ok (l, blocks l, s')) /\
  (forall start raws wss fin rest, talks m s (start :: raws ++ fin :: rest) -> take 3 (text start) = str "201" ->
     Forall2 tunnel_line raws wss -> take 3 (text fin) = str "202" ->
     exists s', tic_ListTunnels [] s = Ok (listed <$> wss, 5 * Z.of_nat (length wss), s') /\ talks m s' rest /\
       sent s' = sent s ++ line (str "tunnel list")).
Proof. split; [apply tic_ListTunnels_total|apply tic_ListTunnels_lines]. Qed.

Definition example_list : list (list Z) :=
  str "201 Listing tunnels" :: [str "T1 2001:db8::2 heartbeat simpop01"; str "T2 2001:db8:1::2 192.0.2.7 simpop02"] ++
  [str "202 <tunnel_id> <ipv6> <ipv4> <popid>"].

Lemma tic_ListTunnels_contract_witness :
  exists s', tic_ListTunnels [] (fresh_sock (tic_server example_list)) =
    Ok (listed <$> [str <$> ["T1"; "2001:db8::2"; "heartbeat"; "simpop01"]; str <$> ["T2"; "2001:db8:1::2"; "192.0.2.7"; "simpop02"]]%string, 10, s').
Proof.
  assert (talks (length (print_lines example_list)) (fresh_sock (tic_server example_list)) example_list) as Ht by talks_example.
  destruct (proj2 (tic_ListTunnels_contract (length (print_lines example_list)) (fresh_sock (tic_server example_list)))
    (str "201 Listing tunnels") [str "T1 2001:db8::2 heartbeat simpop01"; str "T2 2001:db8:1::2 192.0.2.7 simpop02"]
    [str <$> ["T1"; "2001:db8::2"; "heartbeat"; "simpop01"]; str <$> ["T2"; "2001:db8:1::2"; "192.0.2.7"; "simpop02"]]%string
    (str "202 <tunnel_id> <ipv6> <ipv4> <popid>") [] Ht eq_refl
    ltac:(repeat constructor; done) eq_refl) as (s' & E & _).
  exists s'. exact E.
Defined.

(** ** The description of a tunnel *)

(** A line that has the title and the value. *)
Definition item_line (raw : list Z) (i : item) : Prop := text raw = title i.1 ++ separator ++ i.2 /\ value_ok i.2.

Lemma item_parsed rules d raw i :
  short raw -> table_ok 58 rules = true -> i.1 ∈ rules -> item_line raw i ->
  parseline (padded raw) separator rules d = Ok (true, store i.1 i.2 d) /\ take 3 (text raw) <> str "202".
Proof.
  intros [Hs _] Hr Hi [Ht Hv]. split.
  - unfold padded. unfold text in *. rewrite Ht in *. destruct (UBUFLEN - length _)%nat as [|z] eqn:Ez; [unfold UBUFLEN in Ez; lia|].
    cbn [repeat]. rewrite <- !app_assoc. by apply (setting_parsed 58 [32]); [| | |repeat constructor|].
  - rewrite Ht. pose proof (table_title _ _ _ Hr Hi) as Htitle. unfold title_ok in Htitle.
    destruct (title i.1) as [|x t]; [done|]. apply andb_true_iff in Htitle as [Htitle _]. apply andb_true_iff in Htitle as [Hx _].
    apply Z.leb_le in Hx. cbn. intros E. injection E as E _. lia.
Qed.

Lemma show_loop_ok m fuel rules d s raws items fin rest :
  table_ok 58 rules = true -> Forall (fun i => i.1 ∈ rules) items ->
  talks m s (raws ++ fin :: rest) -> Forall2 item_line raws items -> take 3 (text fin) = str "202" -> (length raws < fuel)%nat ->
  exists s', show_loop fuel rules d s = Ok (padded fin, gathered items d, s') /\ talks m s' rest /\ sent s' = sent s.
Proof.
  intros Hok Hi Ht H Hfin. revert d s fuel Ht Hi. induction H as [|raw i raws items Hl _ IH]; intros d s fuel Ht Hi Hf; (destruct fuel as [|fuel]; [lia|]).
  - cbn [app] in Ht. cbn [show_loop]. destruct (answer_line m s fin rest Ht) as (s1 & -> & Ht1 & Hs1). cbn [mbind res_bind].
    rewrite code_is_padded by (apply is_code_202 || by eapply talks_short). rewrite bool_decide_eq_true_2 by done. cbn [mbind res_bind]. by exists s1.
  - cbn [app] in Ht. cbn [show_loop]. destruct (answer_line m s raw _ Ht) as (s1 & -> & Ht1 & Hs1). cbn [mbind res_bind].
    apply list.Forall_cons in Hi as [Hi1 Hi]. pose proof (talks_short _ _ _ _ Ht) as Hr.
    destruct (item_parsed rules d raw i Hr Hok Hi1 Hl) as [Hp H202].
    rewrite code_is_padded by (done || apply is_code_202). rewrite bool_decide_eq_false_2 by done. cbn [mbind res_bind]. rewrite Hp. cbn [mbind res_bind].
    destruct (IH (store i.1 i.2 d) s1 fuel Ht1 Hi) as (s2 & -> & Ht2 & Hs2); [cbn in Hf; lia|]. exists s2. by rewrite Hs2.
Qed.

Lemma show_ok m request rules s start raws items fin rest :
  (length request < 2047)%nat -> table_ok 58 rules = true -> Forall (fun i => i.1 ∈ rules) items ->
  talks m s (start :: raws ++ fin :: rest) -> take 3 (text start) = str "201" -> Forall2 item_line raws items -> take 3 (text fin) = str "202" ->
  exists s', show true request rules s = Ok (Some (gathered items no_data), s') /\ talks m s' rest /\ sent s' = sent s ++ line request.
Proof.
  intros Hreq Hok Hi Ht Hstart Hl Hfin. unfold show.
  destruct (ask_line m s request start _ Ht Hreq) as (s1 & -> & Ht1 & Hs1). cbn [mbind res_bind].
  rewrite code_is_padded by (apply is_code_201 || by eapply talks_short). rewrite bool_decide_eq_true_2 by done. cbn [mbind res_bind negb].
  destruct (show_loop_ok m (lines_left s1) rules no_data s1 raws items fin rest Hok Hi Ht1 Hl Hfin) as (s2 & -> & Ht2 & Hs2).
  { pose proof (lines_left_ok m s1 _ Ht1) as H. rewrite length_app in H. lia. }
  cbn [mbind res_bind]. rewrite code_is_padded by (apply is_code_202 || (apply (talks_member m s1 (raws ++ fin :: rest)); [done|apply elem_of_app; right; by left])).
  rewrite bool_decide_eq_true_2 by done. cbn [mbind res_bind]. exists s2. by rewrite Hs2, Hs1.
Qed.

Definition type_rule : pl_rule := rule "Type" PLRT_STRING "sType".
Definition local_rule : pl_rule := rule "IPv6 Endpoint" PLRT_STRING "sIPv6_Local".

Lemma tunnel_rules_ok : table_ok 58 tunnel_rules = true.
Proof. by vm_compute. Qed.

Lemma tunnel_fields : forall r, r ∈ tunnel_rules -> field r <> "sIPv6_LinkLocal"%string /\ field r <> "uses_tundev"%string.
Proof. apply list.Forall_forall. repeat constructor; done. Qed.

(** A server that describes a tunnel: its first line, the settings, and its last
    line. *)
Record describes (start : list Z) (raws : list (list Z)) (items : list item) (fin : list Z) : Prop := mk_describes {
  describes_start : take 3 (text start) = str "201";
  describes_items : Forall2 item_line raws items;
  describes_rules : Forall (fun i => i.1 ∈ tunnel_rules) items;
  describes_once : NoDup (fields items);
  describes_fin : take 3 (text fin) = str "202";
}.

Section get_tunnel.
Context (inet_pton6 : list Z -> option (list Z)) (inet_ntop6 : list Z -> list Z).

Lemma tic_GetTunnel_ok m uninit id s start raws items fin rest local type addr :
  (length id <= 1000)%nat -> talks m s (start :: raws ++ fin :: rest) -> describes start raws items fin ->
  (type_rule, type) ∈ items -> (local_rule, local) ∈ items -> inet_pton6 local = Some addr ->
  exists d s', tic_GetTunnel inet_pton6 inet_ntop6 true uninit id s = Ok (Some d, s') /\ talks m s' rest /\
    sent s' = sent s ++ line (str "tunnel show " ++ id) /\
    (forall r v, (r, v) ∈ items -> AiccuLine.type r = PLRT_STRING -> strs d !! field r = Some v) /\
    (forall r v, (r, v) ∈ items -> AiccuLine.type r = PLRT_INTEGER -> ints d !! field r = Some (wrap 32 (atoi v))) /\
    strs d !! "sIPv6_LinkLocal"%string = Some (inet_ntop6 (link_local addr)) /\
    ints d !! "uses_tundev"%string = Some (if decide (type = str "ayiya" \/ type = str "l2tp") then 1 else 0).
Proof.
  intros Hid Ht [Hstart Hl Hi Hd Hfin] Htype Hlocal Haddr. unfold tic_GetTunnel.
  destruct (show_ok m (str "tunnel show " ++ id) tunnel_rules s start raws items fin rest) as (s' & -> & Ht' & Hs');
    [rewrite length_app; cbn; lia|apply tunnel_rules_ok|done|done|done|done|done|]. cbn [mbind res_bind].
  set (d := gathered items no_data).
  pose proof (fun r v H => proj1 (gathered_lookup items no_data r v Hd H)) as Hstr.
  pose proof (fun r v H => proj1 (proj2 (gathered_lookup items no_data r v Hd H))) as Hint. fold d in Hstr, Hint.
  rewrite (Hstr _ _ Hlocal eq_refl : strs d !! "sIPv6_Local"%string = Some local). cbn [Prelude.from_option mbind res_bind]. rewrite Haddr.
  cbn [set_str strs default]. rewrite lookup_insert_ne by done.
  rewrite (Hstr _ _ Htype eq_refl : strs d !! "sType"%string = Some type). cbn [Prelude.from_option mbind res_bind].
  assert (forall r v, (r, v) ∈ items -> field r <> "sIPv6_LinkLocal"%string /\ field r <> "uses_tundev"%string) as Hne.
  { intros r v H. apply tunnel_fields. rewrite list.Forall_forall in Hi. by apply (Hi (r, v)). }
  eexists _, s'. split; [done|]. split; [done|]. split; [done|]. cbn [set_int set_str strs ints]. split_and!.
  - intros r v H Hr. destruct (Hne r v H). rewrite lookup_insert_ne by done. by apply Hstr.
  - intros r v H Hr. destruct (Hne r v H). rewrite lookup_insert_ne by done. by apply Hint.
  - by rewrite lookup_insert_eq.
  - rewrite lookup_insert_eq. f_equal. destruct (decide _) as [[-> | ->]|Hn]; [done|done|].
    rewrite !bool_decide_eq_false_2 by tauto. done.
Qed.
End get_tunnel.

(** The description of a tunnel is read back as it was sent: when the server
    sends settings of the table, each at most once, with a type and an IPv6
    endpoint, every text arrives as it is, every number as the value of its
    digits, the link-local address is the one that the endpoint gives, and the
    tunnel uses the device exactly when its type is one of the two that do. *)
Theorem tic_GetTunnel_roundtrip inet_pton6 inet_ntop6 m uninit id s start raws items fin rest local type addr :
  (length id <= 1000)%nat -> talks m s (start :: raws ++ fin :: rest) -> describes start raws items fin ->
  (type_rule, type) ∈ items -> (local_rule, local) ∈ items -> inet_pton6 local = Some addr ->
  exists d s', tic_GetTunnel inet_pton6 inet_ntop6 true uninit id s = Ok (Some d, s') /\ talks m s' rest /\
    sent s' = sent s ++ line (str "tunnel show " ++ id) /\
    (forall r v, (r, v) ∈ items -> AiccuLine.type r = PLRT_STRING -> strs d !! field r = Some v) /\
    (forall r v, (r, v) ∈ items -> AiccuLine.type r = PLRT_INTEGER -> ints d !! field r = Some (wrap 32 (atoi v))) /\
    strs d !! "sIPv6_LinkLocal"%string = Some (inet_ntop6 (link_local addr)) /\
    ints d !! "uses_tundev"%string = Some (if decide (type = str "ayiya" \/ type = str "l2tp") then 1 else 0).
Proof. apply tic_GetTunnel_ok. Qed.

Definition example_start : list Z := str "201 Showing tunnel information for T1".
Definition example_fin : list Z := str "202 Done".
Definition example_items : list item := [
  (rule "TunnelId" PLRT_STRING "sId", str "T1"); (type_rule, str "ayiya"); (local_rule, str "2001:db8:1234:5678::2");
  (rule "IPv6 PrefixLength" PLRT_INTEGER "nIPv6_PrefixLength", str "64");
  (rule "UserState" PLRT_STRING "sUserState", str "enabled"); (rule "AdminState" PLRT_STRING "sAdminState", str "enabled");
  (rule "Tunnel MTU" PLRT_INTEGER "nMTU", str "1280") ].
Definition item_text (i : item) : list Z := title i.1 ++ separator ++ i.2.
Definition example_show : list (list Z) := example_start :: (item_text <$> example_items) ++ [example_fin].

(** A resolver that knows one address. *)
Definition example_pton6 (t : list Z) : option (list Z) :=
  if bool_decide (t = str "2001:db8:1234:5678::2") then Some [32; 1; 13; 184; 18; 52; 86; 120; 0; 0; 0; 0; 0; 0; 0; 2] else None.
Definition example_ntop6 (a : list Z) : list Z := mjoin (hex_byte <$> a).

Lemma example_items_lines : Forall2 item_line (item_text <$> example_items) example_items.
Proof.
  unfold example_items. repeat (constructor; [split; [by vm_compute|split; [apply (bool_decide_unpack _); vm_compute; exact I|by eexists]]|]). constructor.
Qed.

(** Membership in a list that is written out. *)
Ltac member := repeat first [by apply list_elem_of_here | apply list_elem_of_further].

Lemma example_describes : describes example_start (item_text <$> example_items) example_items example_fin.
Proof.
  constructor; [done|apply example_items_lines| |apply (bool_decide_unpack _); vm_compute; exact I|done].
  unfold example_items, tunnel_rules, type_rule, local_rule. repeat constructor; cbn [fst]; member.
Qed.

Lemma tic_GetTunnel_roundtrip_witness :
  exists d s', tic_GetTunnel example_pton6 example_ntop6 true [] (str "T1") (fresh_sock (tic_server example_show)) = Ok (Some d, s') /\
    strs d !! "sId"%string = Some (str "T1") /\ ints d !! "nMTU"%string = Some 1280 /\
    strs d !! "sIPv6_LinkLocal"%string = Some (str "fe800000000000000cb8123456780002") /\ ints d !! "uses_tundev"%string = Some 1.
Proof.
  assert (talks (length (print_lines example_show)) (fresh_sock (tic_server example_show)) example_show) as Ht by talks_example.
  destruct (tic_GetTunnel_roundtrip example_pton6 example_ntop6 _ [] (str "T1") _ example_start (item_text <$> example_items) example_items
    example_fin [] (str "2001:db8:1234:5678::2") (str "ayiya") _ ltac:(vm_compute; lia) Ht example_describes
    ltac:(member) ltac:(member) eq_refl) as (d & s' & E & _ & _ & H1 & H2 & H3 & H4).
  exists d, s'. split_and!; [exact E| | |exact H3|exact H4].
  - apply (H1 (rule "TunnelId" PLRT_STRING "sId")); [member|done].
  - apply (H2 (rule "Tunnel MTU" PLRT_INTEGER "nMTU") (str "1280")); [member|done].
Defined.

(** ** Flaws *)

(** A description without a type makes the client follow a null pointer. *)
Theorem untyped_tunnel_crashes inet_pton6 inet_ntop6 m uninit id s start raws items fin rest :
  (length id <= 1000)%nat -> talks m s (start :: raws ++ fin :: rest) -> describes start raws items fin ->
  "sType"%string ∉ fields items \/ "sIPv6_Local"%string ∉ fields items ->
  tic_GetTunnel inet_pton6 inet_ntop6 true uninit id s = Err NullDeref.
Proof.
  intros Hid Ht [Hstart Hl Hi Hd Hfin] Hno. unfold tic_GetTunnel.
  destruct (show_ok m (str "tunnel show " ++ id) tunnel_rules s start raws items fin rest) as (s' & -> & _);
    [rewrite length_app; cbn; lia|apply tunnel_rules_ok|done|done|done|done|done|]. cbn [mbind res_bind].
  destruct (strs (gathered items no_data) !! "sIPv6_Local"%string) eqn:E; [|done]. cbn [Prelude.from_option mbind res_bind set_str strs].
  rewrite lookup_insert_ne by done. destruct Hno as [H|H]; destruct (gathered_keeps items no_data _ H) as [H' _]; [by rewrite H'|by rewrite H' in E].
Qed.

Lemma untyped_tunnel_crashes_witness :
  tic_GetTunnel example_pton6 example_ntop6 true [] (str "T1") (fresh_sock (tic_server [example_start; example_fin])) = Err NullDeref.
Proof.
  apply (untyped_tunnel_crashes _ _ (length (print_lines [example_start; example_fin])) [] _ _ example_start [] [] example_fin []).
  - vm_compute. lia.
  - talks_example.
  - constructor; [done|constructor|constructor|constructor|done].
  - left. apply not_elem_of_nil.
Defined.
