(* ===== verification/AiccuConf.v ===== *)
(** * Configuration of the SixXS client ([aiccu/aiccu.c])

The defaults, reading a file with the table of rules, and writing it back.  The
configuration is the structure that the table of [AiccuLine] fills; a file is
its contents, or [None] when it cannot be opened.  The build is the one of the
Xcode project, with [AICCU_PATCH] and without GNUTLS; [strdup] is taken to
succeed. *)

From Stdlib Require Import ZifyNat.
From stdpp Require Import base gmap list numbers strings.
From S2P Require Import Prelude Words CString AiccuLine.

(** ** Definitions *)

Definition conf_rule (name : string) (type : pl_type) : pl_rule := mk_pl_rule (str name) type name.

Definition aiccu_conf_rules : list pl_rule := [
  conf_rule "username" PLRT_STRING;
  conf_rule "password" PLRT_STRING;
  conf_rule "protocol" PLRT_STRING;
  conf_rule "server" PLRT_STRING;
  conf_rule "ipv6_interface" PLRT_STRING;
  conf_rule "tunnel_id" PLRT_STRING;
  conf_rule "local_ipv4_override" PLRT_STRING;
  conf_rule "automatic" PLRT_BOOL;
  conf_rule "daemonize" PLRT_BOOL;
  conf_rule "verbose" PLRT_BOOL;
  conf_rule "behindnat" PLRT_BOOL;
  conf_rule "requiretls" PLRT_BOOL;
  conf_rule "noconfigure" PLRT_BOOL;
  conf_rule "makebeats" PLRT_BOOL;
  conf_rule "defaultroute" PLRT_BOOL;
  conf_rule "pidfile" PLRT_STRING ].

Definition AICCU_PID : list Z := str "/var/run/aiccu.pid".
Definition AICCU_VER : list Z := str "2007.01.15".

Definition default_conf : pl_data := mk_pl_data
  (list_to_map [("ipv6_interface", str "aiccu"); ("protocol", str "tic"); ("server", str "tic.sixxs.net"); ("pidfile", AICCU_PID)]%string)
  (list_to_map [("running", 1); ("tunrunning", 0); ("daemonize", 0); ("verbose", 0); ("requiretls", 0); ("noconfigure", 0);
    ("makebeats", 1); ("defaultroute", 1); ("automatic", 0); ("behindnat", 0)]%string).

(** [aiccu_InitConfig]; the second [malloc], of the TIC structure, is not
    tested. *)
Definition aiccu_InitConfig (malloc malloc_tic : bool) : res (option pl_data) :=
  if negb malloc then Ok None else
  if negb malloc_tic then Err NullDeref else
  Ok (Some default_conf).

(** The loop of [aiccu_LoadConfig]; the terminator is the last byte of the
    buffer that is known. *)
Fixpoint load_loop (fuel : nat) (file : list Z) (d : pl_data) : res pl_data :=
  match fuel with
  | O => Err OutOfFuel
  | S fuel' =>
    match fgets 1000 file with
    | None => Ok d
    | Some (buf, file) => x ← parseline (buf ++ [0]) (str " ") aiccu_conf_rules d; load_loop fuel' file (snd x)
    end
  end.

Definition aiccu_LoadConfig (file : option (list Z)) (d : pl_data) : res (bool * pl_data) :=
  match file with
  | None => Ok (false, d)
  | Some f => d ← load_loop (S (length f)) f d; Ok (true, d)
  end.

(** [%s]; the C library prints a null pointer as a text. *)
Definition print_str (f : string) (d : pl_data) : list Z := default (str "(null)") (strs d !! f).
Definition print_bool (f : string) (d : pl_data) : list Z := if get_int f d =? 0 then str "false" else str "true".

Definition setting (f : string) (v : list Z) : list Z := str f ++ 32 :: v.

(** The lines that [aiccu_SaveConfig] writes. *)
Definition save_lines (d : pl_data) : list (list Z) := [
  str "# AICCU Configuration (Saved by AICCU " ++ AICCU_VER ++ str ")";
  [];
  str "# Login information";
  setting "username" (print_str "username" d);
  setting "password" (print_str "password" d);
  setting "protocol" (print_str "protocol" d);
  setting "server" (print_str "server" d);
  [];
  str "# Interface names to use";
  setting "ipv6_interface" (print_str "ipv6_interface" d);
  [];
  str "# The tunnel_id to use";
  str "# (only required when there are multiple tunnels in the list)";
  setting "tunnel_id" (print_str "tunnel_id" d);
  [];
  str "# Try to automatically login and setup the tunnel?";
  setting "automatic" (print_bool "automatic" d);
  [];
  str "# Script to run after setting up the interfaces (default: none)";
  [];
  str "# TLS Required?";
  setting "requiretls" (print_bool "requiretls" d);
  [];
  str "# Be verbose?";
  setting "verbose" (print_bool "verbose" d);
  [];
  str "# Daemonize?";
  setting "daemonize" (print_bool "daemonize" d);
  [];
  str "# Behind NAT (default: false)";
  str "# Notify the user that a NAT-kind network is detected";
  setting "behindnat" (print_bool "behindnat" d);
  [];
  str "# PID File";
  setting "pidfile" (print_str "pidfile" d);
  [];
  str "# Make heartbeats (default true)";
  str "# In general you don't want to turn this off";
  str "# Of course only applies to AYIYA and heartbeat tunnels not to static ones";
  setting "makebeats" (print_bool "makebeats" d);
  [];
  str "# Add a default route (default: true)";
  setting "defaultroute" (print_bool "defaultroute" d);
  [];
  str "# Don't configure anything (default: false)";
  setting "noconfigure" (print_bool "noconfigure" d) ].

(** [aiccu_SaveConfig]: the contents of the file, or the failure to open it. *)
Definition aiccu_SaveConfig (writable : bool) (d : pl_data) : option (list Z) :=
  if writable then Some (print_lines (save_lines d)) else None.

(** The strings that [aiccu_FreeConfig] releases. *)
Definition freed_strings : list string := ["username"; "password"; "ipv6_interface"; "tunnel_id"; "setupscript"; "pidfile"]%string.

(** [aiccu_FreeConfig]: the strings that stay allocated when the structure is
    gone. *)
Definition aiccu_FreeConfig (d : option pl_data) : gmap string (list Z) :=
  match d with None => ∅ | Some d => foldr delete (strs d) freed_strings end.

(** ** Reading a file *)

(** A line that is neither empty nor a comment is a setting of the table. *)
Inductive conf_line : list Z -> option item -> Prop :=
| conf_empty : conf_line [] None
| conf_comment l : trimmed (35 :: l) = S (length l) -> conf_line (35 :: l) None
| conf_setting i x v : i.1 ∈ aiccu_conf_rules -> i.2 = x :: v -> is_quote x = false -> value_ok i.2 ->
    conf_line (title i.1 ++ 32 :: i.2) (Some i).

Lemma conf_table_ok : table_ok 32 aiccu_conf_rules = true.
Proof. by vm_compute. Qed.

Definition apply_item (o : option item) (d : pl_data) : pl_data := match o with Some i => store i.1 i.2 d | None => d end.

Lemma title_no_nul r : r ∈ aiccu_conf_rules -> no_nul (title r).
Proof.
  intros Hr. pose proof (table_title _ _ _ conf_table_ok Hr) as H. unfold title_ok in H. destruct (title r) as [|x t]; [done|].
  apply andb_true_iff in H as [_ H]. apply bool_decide_eq_true in H. apply list.Forall_forall. by intros c Hc ->.
Qed.

Lemma conf_line_parsed l o d :
  no_nul l -> conf_line l o -> exists b, parseline ((l ++ [LF]) ++ [0]) (str " ") aiccu_conf_rules d = Ok (b, apply_item o d).
Proof.
  intros Hn Hl. rewrite <- app_assoc. change ([LF] ++ [0]) with ([LF] ++ 0 :: []). rewrite parseline_trim; [|done| |by repeat constructor].
  - destruct Hl as [|l Hl|i x v Hi Hx Hq Hv].
    + by exists true.
    + exists true. unfold parseline, guard_or. rewrite bool_decide_eq_true_2 by (apply elem_of_app; right; by left). cbn [mbind res_bind].
      rewrite c_str_zero by done. rewrite Hl. rewrite take_ge by (cbn; lia). done.
    + exists true. rewrite <- app_assoc. change (str " ") with (32 :: []). change ((32 :: i.2) ++ 0 :: repeat 0 (length [LF]) ++ []) with ([32] ++ i.2 ++ 0 :: repeat 0 (length [LF]) ++ []).
      apply setting_parsed; [apply conf_table_ok|done|done|by repeat constructor|cbn; by rewrite Hx].
  - destruct Hl as [|l Hl|i x v Hi Hx Hq (Hnv & y & Hy & Hb)]; [done|done|].
    apply (trimmed_id _ y); [|done]. change (title i.1 ++ 32 :: i.2) with (title i.1 ++ [32] ++ i.2). by rewrite app_assoc, last_app, Hy.
Qed.

Lemma load_loop_ok fuel ls os d :
  Forall2 (fun l o => conf_line l o /\ no_nul l /\ no_lf l /\ (length l < 999)%nat) ls os -> (length ls < fuel)%nat ->
  load_loop fuel (print_lines ls) d = Ok (foldl (fun d o => apply_item o d) d os).
Proof.
  intros H. revert fuel d. induction H as [|l o ls os (Hl & Hn & Hlf & Hlen) _ IH]; intros fuel d Hf; (destruct fuel as [|fuel]; [cbn in Hf; lia|]); [done|].
  cbn [load_loop]. assert (print_lines (l :: ls) = l ++ LF :: print_lines ls) as -> by apply print_lines_cons.
  unfold fgets. destruct (l ++ LF :: print_lines ls) as [|c t] eqn:E; [by destruct l|]. rewrite <- E, read_line_full by (done || lia).
  destruct (conf_line_parsed l o d Hn Hl) as (b & ->). cbn [mbind res_bind snd]. apply IH. cbn in Hf. lia.
Qed.

Definition saved_strings : list string := ["username"; "password"; "protocol"; "server"; "ipv6_interface"; "tunnel_id"; "pidfile"]%string.
Definition saved_flags : list string :=
  ["automatic"; "requiretls"; "verbose"; "daemonize"; "behindnat"; "makebeats"; "defaultroute"; "noconfigure"]%string.

(** A text that a line can hold. *)
Definition string_ok (v : list Z) : Prop :=
  value_ok v /\ no_lf v /\ (length v <= 900)%nat /\ match v with x :: _ => is_quote x = false | [] => False end.

(** The settings among the lines of the file. *)
Definition str_item (f : string) (d : pl_data) : option item := Some (conf_rule f PLRT_STRING, print_str f d).
Definition bool_item (f : string) (d : pl_data) : option item := Some (conf_rule f PLRT_BOOL, print_bool f d).

Definition saved_items (d : pl_data) : list (option item) := [
  None; None; None; str_item "username" d; str_item "password" d; str_item "protocol" d; str_item "server" d; None; None;
  str_item "ipv6_interface" d; None; None; None; str_item "tunnel_id" d; None; None; bool_item "automatic" d; None; None; None; None;
  bool_item "requiretls" d; None; None; bool_item "verbose" d; None; None; bool_item "daemonize" d; None; None; None; bool_item "behindnat" d;
  None; None; str_item "pidfile" d; None; None; None; None; bool_item "makebeats" d; None; None; bool_item "defaultroute" d; None; None;
  bool_item "noconfigure" d ].

Definition saved_line (l : list Z) (o : option item) : Prop := conf_line l o /\ no_nul l /\ no_lf l /\ (length l < 999)%nat.

Lemma empty_saved : saved_line [] None.
Proof. split_and!; [constructor|constructor|constructor|cbn; lia]. Qed.

Definition comment_ok (l : list Z) : bool :=
  (trimmed (35%Z :: l) =? S (length l))%nat && bool_decide (0 ∉ l) && bool_decide (LF ∉ l) && (length l <? 998)%nat.

Lemma comment_saved l : comment_ok l = true -> saved_line (35 :: l) None.
Proof.
  unfold comment_ok. intros H. apply andb_true_iff in H as [H Hlen]. apply andb_true_iff in H as [H Hlf]. apply andb_true_iff in H as [H H0].
  apply Nat.eqb_eq in H. apply bool_decide_eq_true in H0, Hlf. apply Nat.ltb_lt in Hlen. split_and!; [by constructor| | |cbn; lia].
  - constructor; [done|]. apply list.Forall_forall. by intros c Hc ->.
  - constructor; [done|]. apply list.Forall_forall. by intros c Hc ->.
Qed.

Lemma setting_saved f type v :
  conf_rule f type ∈ aiccu_conf_rules -> no_lf (str f) -> (length (str f) < 50)%nat -> string_ok v -> saved_line (setting f v) (Some (conf_rule f type, v)).
Proof.
  intros Hr Hlf Hl (Hv & Hvl & Hlen & Hq). destruct v as [|x v]; [done|]. pose proof (title_no_nul _ Hr) as Hn. split_and!.
  - by apply (conf_setting (conf_rule f type, x :: v) x v).
  - apply Forall_app. split; [done|]. constructor; [done|]. apply Hv.
  - apply Forall_app. split; [done|]. by constructor.
  - unfold setting. rewrite length_app. cbn [length] in *. lia.
Qed.

Lemma print_bool_ok f d : string_ok (print_bool f d).
Proof. unfold print_bool. destruct (_ =? 0); (split_and!; [split; [by repeat constructor|by eexists]|by repeat constructor|cbn; lia|done]). Qed.

Ltac rule_in := repeat first [by apply list_elem_of_here | apply list_elem_of_further].

Lemma save_lines_ok d : Forall (fun f => string_ok (print_str f d)) saved_strings -> Forall2 saved_line (save_lines d) (saved_items d).
Proof.
  intros H. repeat (apply list.Forall_cons in H as [? H]). unfold save_lines, saved_items, str_item, bool_item.
  repeat (apply Forall2_cons; split;
    [first [apply empty_saved | by apply comment_saved; vm_compute
           | apply setting_saved; [rule_in|by repeat constructor|by cbn; lia|first [assumption|apply print_bool_ok]]]|]).
  constructor.
Qed.

Lemma apply_items os d : foldl (fun d o => apply_item o d) d os = gathered (omap id os) d.
Proof.
  revert d. induction os as [|[i|] os IH]; intros d; [done| |]; cbn [foldl apply_item].
  - rewrite IH. done.
  - rewrite IH. done.
Qed.

Lemma saved_once d : NoDup (fields (omap id (saved_items d))).
Proof. apply (bool_decide_unpack _). vm_compute. exact I. Qed.

(** (C38) What is saved survives being loaded.  The file has seven strings (user
    name, password, protocol, server, interface, tunnel, file of the process
    number) and eight flags; [local_ipv4_override] and the script are not among
    them, and nothing is said of them.  The conditions: the file can be written;
    each of the seven strings, as it is printed, has between 1 and 900 bytes,
    no zero byte and no line feed, does not begin with a quote and does not end
    in white space; the flags of the structure that is loaded into are between 0
    and 255, because the code writes only the low byte of each.  Then each of the
    seven strings comes back as it was printed, which is the string itself, or
    the text (null) where none was set, and every flag comes back as 1 where it
    was set and as 0 where it was not. *)
Theorem aiccu_conf_roundtrip d d0 :
  Forall (fun f => string_ok (print_str f d)) saved_strings -> Forall (fun f => 0 <= get_int f d0 < 256) saved_flags ->
  exists d', aiccu_LoadConfig (aiccu_SaveConfig true d) d0 = Ok (true, d') /\
    Forall (fun f => strs d' !! f = Some (print_str f d)) saved_strings /\
    Forall (fun f => get_int f d' = if get_int f d =? 0 then 0 else 1) saved_flags.
Proof.
  intros Hs Hf. unfold aiccu_LoadConfig, aiccu_SaveConfig.
  rewrite (load_loop_ok _ _ (saved_items d)) by (by apply save_lines_ok || (apply le_n_S, length_lines)). cbn [mbind res_bind].
  eexists. split; [done|]. rewrite apply_items. set (items := omap id (saved_items d)).
  assert (forall f, f ∈ saved_strings -> (conf_rule f PLRT_STRING, print_str f d) ∈ items) as Hstr.
  { apply list.Forall_forall. apply list.Forall_cons; split; [by apply (list_elem_of_lookup_2 _ 0)|]. apply list.Forall_cons; split; [by apply (list_elem_of_lookup_2 _ 1)|]. apply list.Forall_cons; split; [by apply (list_elem_of_lookup_2 _ 2)|]. apply list.Forall_cons; split; [by apply (list_elem_of_lookup_2 _ 3)|]. apply list.Forall_cons; split; [by apply (list_elem_of_lookup_2 _ 4)|]. apply list.Forall_cons; split; [by apply (list_elem_of_lookup_2 _ 5)|]. apply list.Forall_cons; split; [by apply (list_elem_of_lookup_2 _ 11)|]. constructor. }
  assert (forall f, f ∈ saved_flags -> (conf_rule f PLRT_BOOL, print_bool f d) ∈ items) as Hflag.
  { apply list.Forall_forall. apply list.Forall_cons; split; [by apply (list_elem_of_lookup_2 _ 6)|]. apply list.Forall_cons; split; [by apply (list_elem_of_lookup_2 _ 7)|]. apply list.Forall_cons; split; [by apply (list_elem_of_lookup_2 _ 8)|]. apply list.Forall_cons; split; [by apply (list_elem_of_lookup_2 _ 9)|]. apply list.Forall_cons; split; [by apply (list_elem_of_lookup_2 _ 10)|]. apply list.Forall_cons; split; [by apply (list_elem_of_lookup_2 _ 12)|]. apply list.Forall_cons; split; [by apply (list_elem_of_lookup_2 _ 13)|]. apply list.Forall_cons; split; [by apply (list_elem_of_lookup_2 _ 14)|]. constructor. }
  split; apply list.Forall_forall; intros f Hin.
  - by apply (gathered_lookup items d0 (conf_rule f PLRT_STRING) (print_str f d) (saved_once d) (Hstr f Hin)).
  - rewrite list.Forall_forall in Hf. specialize (Hf f Hin). pose proof (gathered_lookup items d0 _ _ (saved_once d) (Hflag f Hin)) as (_ & _ & Ht & Hff).
    cbn [field conf_rule type] in Ht, Hff. unfold get_int at 1. unfold print_bool, set_low_byte, wrap in *. rewrite (Z.mod_small (get_int f d0)) in Ht, Hff by lia.
    destruct (get_int f d =? 0); [rewrite Hff|rewrite Ht]; try done; cbn; lia.
Qed.

Lemma default_strings : Forall (fun f => string_ok (print_str f default_conf)) saved_strings.
Proof.
  repeat (apply list.Forall_cons; split; [split_and!; [split; [by repeat constructor|by eexists]|by repeat constructor|vm_compute; lia|done]|]).
  constructor.
Qed.

Lemma aiccu_conf_roundtrip_witness :
  exists d', aiccu_LoadConfig (aiccu_SaveConfig true default_conf) default_conf = Ok (true, d') /\
    strs d' !! "server"%string = Some (str "tic.sixxs.net") /\ strs d' !! "tunnel_id"%string = Some (str "(null)") /\ get_int "makebeats" d' = 1.
Proof.
  destruct (aiccu_conf_roundtrip default_conf default_conf default_strings ltac:(repeat constructor; vm_compute; done)) as (d' & E & Hs & Hf).
  exists d'. rewrite list.Forall_forall in Hs, Hf. split; [exact E|]. split_and!.
  - exact (Hs "server"%string ltac:(by apply (list_elem_of_lookup_2 _ 3))).
  - exact (Hs "tunnel_id"%string ltac:(by apply (list_elem_of_lookup_2 _ 5))).
  - exact (Hf "makebeats"%string ltac:(by apply (list_elem_of_lookup_2 _ 5))).
Defined.

(** ** Flaws *)

(** [aiccu_FreeConfig] leaves the protocol and the server of the defaults. *)
Example free_leaks_defaults :
  aiccu_FreeConfig (Some default_conf) = <["protocol"%string := str "tic"]> {["server"%string := str "tic.sixxs.net"]}.
Proof. by vm_compute. Qed.
