(* ===== verification/AiccuMain.v ===== *)
(** * The SixXS client ([aiccu/aiccu_main.c], [aiccu.c], [aiccu_darwin.c], [heartbeat.c])

The modes of the program, the choice of a tunnel, its configuration by commands
of the system, and the loop of beats.  What the program does to the system is a
trace of events; commands are the texts that [system] gets.  The answers of the
system (sockets, resolver, fork, files, signals) are inputs.  The AYIYA tunnel
itself is modelled in [Ayiya]; here its start is an answer and its beat an
event. *)

From Stdlib Require Import ZifyNat.
From stdpp Require Import base gmap list numbers strings.
From S2P Require Import Prelude Words CString Md5 AiccuMd5 AiccuLine Tic AiccuConf.

Inductive event :=
| Exec (command : list Z)
| Datagram (bytes : list Z)
| AyiyaStart
| AyiyaBeat
| ListBrokers
| Test (automatic : bool)
| SignalRunning (stop : bool)
| WritePid
| UnlinkPid.

(** ** Heartbeats *)

(** The answers that [heartbeat_socket] gets: whether there is a socket, the
    broker resolves and connects, the local address, and, when a name is given for
    it, the texts of its addresses, [None] for the failure to make one. *)
Record hb_env := mk_hb_env {
  hb_socket : bool;
  hb_resolves : bool;
  hb_connects : bool;
  hb_sockname : bool;
  hb_local : option (list Z);
  hb_named : option (list (option (list Z)));
}.

Record hb_socket_result := mk_hb_result { hb_ok : bool; hb_open : Z; hb_address : option (list Z); hb_changed : bool }.

Definition hb_failed (sockets : Z) (local : option (list Z)) : res hb_socket_result := Ok (mk_hb_result false sockets local false).

Fixpoint first_name (l : list (option (list Z))) : res (list Z) :=
  match l with [] => Err Uninitialised | Some a :: _ => Ok a | None :: l' => first_name l' end.

(** [heartbeat_socket]; [named] tells whether [sIPv4LocalResolve] is given.  The
    address that no text was made for is compared all the same. *)
Definition heartbeat_socket (e : hb_env) (static named : bool) (local : option (list Z)) : res hb_socket_result :=
  if negb (hb_socket e) then hb_failed 0 local else
  if negb (hb_resolves e) then hb_failed 0 local else
  if negb (hb_connects e) then hb_failed 0 local else
  x ← (if named : bool then
         match hb_named e with None => Ok None | Some l => a ← first_name l; Ok (Some a) end
       else Ok (if hb_sockname e then hb_local e else None));
  match x with
  | None => hb_failed (if named : bool then 1 else 0) local
  | Some a =>
    let same := bool_decide (local = Some a) in
    Ok (mk_hb_result true 1 (Some a) (negb same && negb static))
  end.

Definition hb_name (nat : bool) (local : list Z) : list Z := if nat then str "sender" else local.

(** The text before the digest. *)
Definition hb_head (ipv6 name : list Z) (now : Z) : list Z :=
  str "HEARTBEAT TUNNEL " ++ ipv6 ++ str " " ++ name ++ str " " ++ decimal now ++ str " ".

(** [heartbeat_send]: the datagram.  The digest is written where the text would
    end if it had not been cut. *)
Definition heartbeat_send (g : list Z) (now : Z) (local ipv6 password : list Z) (nat : bool) : res (list Z) :=
  let head := hb_head ipv6 (hb_name nat local) now in
  d ← MD5 g (take 999 (head ++ password));
  guard_or OutOfBounds (length head + 33 <=? 1000)%nat;;
  Ok (head ++ mjoin (hex_byte <$> d)).

(** ** Commands *)

Definition printed (f : string) (d : pl_data) : list Z := default (str "(null)") (strs d !! f).
Definition needed (f : string) (d : pl_data) : res (list Z) := Prelude.from_option NullDeref (strs d !! f).

(** [aiccu_exec], once the command is formatted. *)
Definition aiccu_exec (command : list Z) : event := Exec (take 1023 command).

Definition interface (conf : pl_data) : list Z := printed "ipv6_interface" conf.

Definition tunnel_command (conf : pl_data) (local remote : list Z) : event :=
  aiccu_exec (str "/sbin/ifconfig " ++ interface conf ++ str " tunnel " ++ local ++ str " " ++ remote).

(** [aiccu_os_setup]; it always succeeds. *)
Definition aiccu_os_setup (conf d : pl_data) : res (list event) :=
  tunnel ← (if get_int "uses_tundev" d =? 0 then
              local ← needed "sIPv4_Local" d;
              Ok [tunnel_command conf (if bool_decide (local = str "heartbeat") then str "0.0.0.0" else local) (printed "sIPv4_POP" d)]
            else Ok []);
  let up := aiccu_exec (str "ifconfig " ++ interface conf ++ str " up") in
  let mtu := aiccu_exec (str "ifconfig " ++ interface conf ++ str " mtu " ++ decimal (get_int "nMTU" d)) in
  let alias := aiccu_exec (str "ifconfig " ++ interface conf ++ str " inet6 " ++ printed "sIPv6_Local" d ++ str " " ++
                 printed "sIPv6_POP" d ++ str " prefixlen 128 alias") in
  let route := if get_int "defaultroute" conf =? 0 then [] else
                 [aiccu_exec (str "route add -inet6 default " ++ printed "sIPv6_POP" d)] in
  Ok (tunnel ++ [up; mtu; alias] ++ route).

Definition aiccu_os_reconfig (conf d : pl_data) : list event :=
  if get_int "uses_tundev" d =? 0 then [tunnel_command conf (printed "sIPv4_Local" d) (printed "sIPv4_POP" d)] else [].

Definition aiccu_os_delete (conf d : pl_data) : list event :=
  aiccu_exec (str "ifconfig " ++ interface conf ++ str " down") ::
  (if get_int "uses_tundev" d =? 0 then [aiccu_exec (str "ifconfig " ++ interface conf ++ str " deletetunnel")] else []).

Definition aiccu_reconfig (conf d : pl_data) : list event := if get_int "noconfigure" conf =? 0 then aiccu_os_reconfig conf d else [].
Definition aiccu_delete (conf d : pl_data) : list event := if get_int "noconfigure" conf =? 0 then aiccu_os_delete conf d else [].

(** ** Beats *)

(** The answers for one beat: the socket, the clock, the stack memory. *)
Record beat_env := mk_beat_env { beat_hb : hb_env; beat_now : Z; beat_stack : list Z }.

Definition set_address (a : option (list Z)) (d : pl_data) : pl_data :=
  match a with Some a => set_str "sIPv4_Local" a d | None => d end.

(** [heartbeat_beat]: the tunnel, whose local address may have changed, and the
    events. *)
Definition heartbeat_beat (b : beat_env) (conf d : pl_data) : res (pl_data * list event) :=
  r ← heartbeat_socket (beat_hb b) false false (strs d !! "sIPv4_Local"%string);
  let d := set_address (hb_address r) d in
  if negb (hb_ok r) then Ok (d, []) else
  let reconfig := if hb_changed r then aiccu_reconfig conf d else [] in
  datagram ← heartbeat_send (beat_stack b) (beat_now b) (printed "sIPv4_Local" d) (printed "sIPv6_Local" d) (printed "sPassword" d) true;
  Ok (d, reconfig ++ [Datagram datagram]).

Definition is_type (name : string) (type : list Z) : bool := strcasecmp0 type (str name).

Definition aiccu_beat (b : beat_env) (conf d : pl_data) : res (pl_data * list event) :=
  if get_int "makebeats" conf =? 0 then Ok (d, []) else
  type ← needed "sType" d;
  if is_type "6in4-heartbeat" type then heartbeat_beat b conf d
  else if is_type "ayiya" type then Ok (d, [AyiyaBeat])
  else Ok (d, []).

(** [aiccu_setup]; [started] is the answer of [ayiya]. *)
Definition aiccu_setup (b : beat_env) (started : bool) (firstrun : bool) (conf d : pl_data) : res (bool * pl_data * list event) :=
  x ← (if firstrun then
         type ← needed "sType" d;
         if is_type "ayiya" type then Ok (started, [AyiyaStart]) else l ← aiccu_os_setup conf d; Ok (true, l)
       else l ← aiccu_os_setup conf d; Ok (true, l));
  let '(ret, l) := x in
  if negb ret then Ok (false, d, l) else
  y ← aiccu_beat b conf d; let '(d, l') := y in Ok (true, d, l ++ l').

(** ** The tunnel *)

Section main.
Context (inet_pton6 : list Z -> option (list Z)) (inet_ntop6 : list Z -> list Z).

(** What the environment answers to [get_tunnel]. *)
Record get_env := mk_get_env { login_env : tic_env; list_mallocs : list bool; show_malloc : bool; uninit : list Z }.

(** [get_tunnel]: the tunnel, the configuration with the chosen tunnel, the
    blocks that stay allocated, and the socket.  Every result of the login but 0
    counts as success. *)
Definition get_tunnel (e : get_env) (conf : pl_data) (s : tic_sock) : res (option pl_data * pl_data * Z * tic_sock) :=
  username ← needed "username" conf;
  password ← needed "password" conf;
  x ← tic_Login (login_env e) username password s;
  let '(code, s) := x in
  if code =? 0 then Ok (None, conf, 0, s) else
  y ← match strs conf !! "tunnel_id"%string with
      | Some id => Ok (Some id, 0, s)
      | None =>
        z ← tic_ListTunnels (list_mallocs e) s;
        let '(l, live, s) := z in
        match l with
        | [] => s ← tic_Logout (dice (login_env e)) (Some (str "I didn't have any tunnels to select")) s; Ok (None, live, s)
        | [t] => id ← Prelude.from_option NullDeref (sId t); Ok (Some id, tic_Free_sTunnel l live, s)
        | _ => s ← tic_Logout (dice (login_env e)) (Some (str "User still needed to select a tunnel")) s; Ok (None, tic_Free_sTunnel l live, s)
        end
      end;
  let '(id, live, s) := y in
  match id with
  | None => Ok (None, conf, live, s)
  | Some id =>
    let conf := set_str "tunnel_id" id conf in
    z ← tic_GetTunnel inet_pton6 inet_ntop6 (show_malloc e) (uninit e) id s;
    match z with
    | (None, s) => s ← tic_Logout (dice (login_env e)) (Some (str "No such tunnel")) s; Ok (None, conf, live, s)
    | (Some d, s) => s ← tic_Logout (dice (login_env e)) None s; Ok (Some d, conf, live, s)
    end
  end.

(** [list_tunnels]: whether it succeeds, and what it prints. *)
Definition list_tunnels (e : get_env) (conf : pl_data) (s : tic_sock) : res (bool * list TIC_sTunnel * tic_sock) :=
  username ← needed "username" conf;
  password ← needed "password" conf;
  x ← tic_Login (login_env e) username password s;
  let '(code, s) := x in
  if code =? 0 then Ok (false, [], s) else
  z ← tic_ListTunnels (list_mallocs e) s;
  let '(l, live, s) := z in
  s ← tic_Logout (dice (login_env e)) (Some (str "Getting current tunnel listing")) s; Ok (true, l, s).

(** ** The program *)

Inductive signal := SIGUSR1 | SIGTERM.

(** [sigusr1], [sigterm] *)
Definition handle (sig : signal) (conf : pl_data) : pl_data :=
  match sig with
  | SIGUSR1 => set_int "makebeats" (if get_int "makebeats" conf =? 0 then 1 else 0) conf
  | SIGTERM => set_int "running" 0 conf
  end.

(** The loop of beats; each turn has its answers and the signals that arrive
    until the next.  [None]: it still runs. *)
Fixpoint beat_loop (turns : list (beat_env * list signal)) (conf d : pl_data) : res (option (pl_data * pl_data * list event)) :=
  if get_int "running" conf =? 0 then Ok (Some (conf, d, [])) else
  match turns with
  | [] => Ok None
  | (b, sigs) :: turns' =>
    x ← aiccu_beat b conf d;
    let '(d, l) := x in
    y ← beat_loop turns' (foldl (fun c s => handle s c) conf sigs) d;
    match y with Some (conf, d, l') => Ok (Some (conf, d, l ++ l')) | None => Ok None end
  end.

Inductive AICCU_MODES := A_NONE | A_START | A_STOP | A_BROKERS | A_TUNNELS | A_TEST | A_AUTOTEST | A_LICENSE | A_VERSION.

Definition mode_names : list (string * AICCU_MODES) :=
  [("start", A_START); ("stop", A_STOP); ("brokers", A_BROKERS); ("tunnels", A_TUNNELS); ("test", A_TEST); ("autotest", A_AUTOTEST);
   ("license", A_LICENSE); ("version", A_VERSION)]%string.

Fixpoint find_mode (names : list (string * AICCU_MODES)) (arg : list Z) : AICCU_MODES :=
  match names with
  | [] => A_NONE
  | (n, m) :: names' => if strcasecmp0 arg (str n) then m else find_mode names' arg
  end.

Definition parse_mode (argv : list (list Z)) : AICCU_MODES :=
  match argv with [_; arg] | [_; arg; _] => find_mode mode_names arg | _ => A_NONE end.

(** The answer of [fork]. *)
Inductive fork_answer := ForkFailed | Parent | Child.

(** What the environment answers to [main]: the files, whether another instance
    runs, the server, whether AYIYA starts, the fork, whether the file of the
    process number can be written, the first beat and the turns of the loop. *)
Record main_env := mk_main_env {
  file : option (list Z) -> option (list Z);
  other_instance : bool;
  server : get_env;
  ayiya_starts : bool;
  fork : fork_answer;
  pid_writable : bool;
  first_beat : beat_env;
  turns : list (beat_env * list signal);
}.

Definition needs_beats (type : list Z) : bool := is_type "6in4-heartbeat" type || is_type "ayiya" type.

(** [main] from the set-up of the tunnel on, for [start]. *)
Definition start_tunnel (e : main_env) (conf d : pl_data) : res (option (Z * list event)) :=
  x ← aiccu_setup (first_beat e) (ayiya_starts e) true conf d;
  let '(ok, d, l) := x in
  if negb ok then Ok (Some (0, l)) else
  type ← needed "sType" d;
  if needs_beats type then
    y ← beat_loop (turns e) conf d;
    match y with
    | None => Ok None
    | Some (conf, d, l') => Ok (Some (0, l ++ l' ++ aiccu_delete conf d ++ [UnlinkPid]))
    end
  else Ok (Some (0, l ++ [UnlinkPid])).

(** [main] with a tunnel. *)
Definition main_tunnel (e : main_env) (mode : AICCU_MODES) (conf d : pl_data) : res (option (Z * list event)) :=
  match mode with
  | A_STOP => Ok (Some (0, aiccu_delete conf d))
  | _ =>
    admin ← needed "sAdminState" d;
    user ← (if bool_decide (admin = str "enabled") then needed "sUserState" d else Ok []);
    if negb (bool_decide (admin = str "enabled") && bool_decide (user = str "enabled")) then Ok (Some (-1, [])) else
    match mode with
    | A_TEST | A_AUTOTEST =>
      x ← aiccu_setup (first_beat e) (ayiya_starts e) true conf d;
      let '(ok, d, l) := x in
      Ok (Some (0, if ok : bool then l ++ [Test (match mode with A_AUTOTEST => true | _ => false end)] ++ aiccu_delete conf d else l))
    | _ =>
      if get_int "daemonize" conf =? 0 then start_tunnel e conf d else
      match fork e with
      | ForkFailed => Ok (Some (-1, []))
      | Parent => Ok (Some (0, []))
      | Child =>
        if negb (pid_writable e) then Ok (Some (0, [])) else
        x ← start_tunnel e conf d; Ok (match x with Some (r, l) => Some (r, WritePid :: l) | None => None end)
      end
    end
  end.

(** The memory of the lines before the first connection. *)
Definition no_connection : tic_sock := mk_tic_sock (repeat 0 2048) 0 false [] [] [].

(** [main]: the exit status and the events; [None] while it runs. *)
Definition aiccu_main (e : main_env) (argv : list (list Z)) : res (option (Z * list event)) :=
  match parse_mode argv with
  | A_NONE => Ok (Some (-1, []))
  | A_LICENSE | A_VERSION => Ok (Some (0, []))
  | A_BROKERS => Ok (Some (0, [ListBrokers]))
  | mode =>
    x ← aiccu_LoadConfig (file e (match argv with [_; _; f] => Some f | _ => None end)) default_conf;
    let '(loaded, conf) := x in
    if negb loaded then Ok (Some (-1, [])) else
    let testing := match mode with A_TEST | A_AUTOTEST => true | _ => false end in
    let asked := if testing : bool then [] else [SignalRunning (match mode with A_STOP => true | _ => false end)] in
    if negb testing && other_instance e then Ok (Some (0, asked)) else
    match strs conf !! "username"%string, strs conf !! "password"%string with
    | Some _, Some _ =>
      match mode with
      | A_TUNNELS => y ← list_tunnels (server e) conf no_connection; let '(ok, _, _) := y in Ok (Some (if ok : bool then 0 else -1, asked))
      | _ =>
        y ← get_tunnel (server e) conf no_connection;
        let '(d, conf, _, _) := y in
        match d with
        | None => Ok (Some (-1, asked))
        | Some d => z ← main_tunnel e mode conf d; Ok (match z with Some (r, l) => Some (r, asked ++ l) | None => None end)
        end
      end
    | _, _ => Ok (Some (-1, asked))
    end
  end.
End main.

(** ** Beats *)

(** The texts of a tunnel fit a datagram. *)
Definition tunnel_fits (d : pl_data) : Prop :=
  (length (printed "sIPv6_Local" d) <= 900)%nat /\ Z.of_nat (length (printed "sPassword" d)) < 2 ^ 31.

(** The datagram of a beat. *)
Definition beat_packet (now : Z) (d : pl_data) : list Z :=
  let head := hb_head (printed "sIPv6_Local" d) (str "sender") now in head ++ md5_hex (take 999 (head ++ printed "sPassword" d)).

Lemma heartbeat_send_ok g now local d :
  length g = 64%nat -> tunnel_fits d ->
  heartbeat_send g now local (printed "sIPv6_Local" d) (printed "sPassword" d) true = Ok (beat_packet now d).
Proof.
  intros Hg [Hl Hp]. unfold heartbeat_send, hb_name. rewrite MD5_correct by (done || (rewrite length_take; lia)). cbn [mbind res_bind].
  pose proof (length_decimal now). unfold guard_or. rewrite (proj2 (Nat.leb_le _ _)); [done|].
  unfold hb_head. rewrite !length_app. cbn [length str]. change (length (str "HEARTBEAT TUNNEL ")) with 17%nat. change (length (str " ")) with 1%nat.
  change (length (str "sender")) with 6%nat. lia.
Qed.

Lemma beat_packet_address now a d : beat_packet now (set_address a d) = beat_packet now d /\ (tunnel_fits (set_address a d) <-> tunnel_fits d).
Proof.
  assert (printed "sIPv6_Local" (set_address a d) = printed "sIPv6_Local" d /\ printed "sPassword" (set_address a d) = printed "sPassword" d) as [H1 H2].
  { destruct a as [a|]; [|done]. unfold printed. cbn. by rewrite !lookup_insert_ne. }
  unfold beat_packet, tunnel_fits. by rewrite H1, H2.
Qed.

(** What a beat gets from the resolver. *)
Definition hb_reaches (e : hb_env) : option (list Z) :=
  if hb_socket e && hb_resolves e && hb_connects e && hb_sockname e then hb_local e else None.

Lemma heartbeat_socket_ok e local :
  heartbeat_socket e false false local =
  Ok (match hb_reaches e with Some a => mk_hb_result true 1 (Some a) (negb (bool_decide (local = Some a))) | None => mk_hb_result false 0 local false end).
Proof.
  unfold heartbeat_socket, hb_reaches, hb_failed. destruct (hb_socket e), (hb_resolves e), (hb_connects e); cbn [negb andb]; try done.
  destruct (hb_sockname e); cbn [mbind res_bind]; [|done]. destruct (hb_local e); [|done]. by rewrite andb_true_r.
Qed.

Lemma heartbeat_beat_ok b conf d :
  length (beat_stack b) = 64%nat -> tunnel_fits d ->
  heartbeat_beat b conf d = Ok
    match hb_reaches (beat_hb b) with
    | Some a =>
      let d' := set_str "sIPv4_Local" a d in
      (d', (if decide (strs d !! "sIPv4_Local"%string = Some a) then [] else aiccu_reconfig conf d') ++ [Datagram (beat_packet (beat_now b) d)])
    | None => (d, [])
    end.
Proof.
  intros Hg Hd. unfold heartbeat_beat. rewrite heartbeat_socket_ok. cbn [mbind res_bind]. destruct (hb_reaches (beat_hb b)) as [a|]; cbn [hb_address hb_ok hb_changed negb].
  - destruct (beat_packet_address (beat_now b) (Some a) d) as [Hp Hf]. rewrite heartbeat_send_ok by (done || by apply Hf). cbn [mbind res_bind].
    rewrite Hp. cbn [set_address]. destruct (decide _) as [H|H]; [rewrite bool_decide_eq_true_2 by done|rewrite bool_decide_eq_false_2 by done]; done.
  - destruct (strs d !! "sIPv4_Local"%string) as [a|] eqn:E; [|done]. cbn. do 2 f_equal. unfold set_str. rewrite insert_id by done. by destruct d.
Qed.

(** A beat sends one datagram that the password signs: when the broker is
    reached from the address [a], the tunnel has that address afterwards, it is
    reconfigured before the datagram exactly when the address is new and the
    program may configure, and the datagram has the tunnel's address, the time
    and the MD5 of both with the password; otherwise nothing is sent and the
    tunnel stays as it was. *)
Theorem heartbeat_beat_contract b conf d :
  length (beat_stack b) = 64%nat -> tunnel_fits d ->
  heartbeat_beat b conf d = Ok
    match hb_reaches (beat_hb b) with
    | Some a =>
      let d' := set_str "sIPv4_Local" a d in
      (d', (if decide (strs d !! "sIPv4_Local"%string = Some a) then [] else aiccu_reconfig conf d') ++ [Datagram (beat_packet (beat_now b) d)])
    | None => (d, [])
    end.
Proof. apply heartbeat_beat_ok. Qed.

(** ** The loop *)

Definition beat_ok (b : beat_env) : Prop := length (beat_stack b) = 64%nat.

(** What a beat may do: send, or move the tunnel to a new address. *)
Definition beat_event (conf : pl_data) (ev : event) : Prop :=
  match ev with Datagram _ | AyiyaBeat => True | Exec c => exists d, Exec c ∈ aiccu_os_reconfig conf d | _ => False end.

(** What no beat changes. *)
Definition same_tunnel (d d' : pl_data) : Prop := exists a, d' = set_address a d.

Lemma same_tunnel_get d d' f : same_tunnel d d' -> f <> "sIPv4_Local"%string -> strs d' !! f = strs d !! f /\ ints d' = ints d.
Proof. intros ([a|] & ->) Hf; [|done]. cbn. by rewrite lookup_insert_ne. Qed.

Lemma same_tunnel_trans d d' d'' : same_tunnel d d' -> same_tunnel d' d'' -> same_tunnel d d''.
Proof.
  intros (a & ->) (b & ->). destruct b as [b|]; [exists (Some b)|by exists a]. destruct a as [a|]; [|done].
  unfold set_address, set_str. cbn. by rewrite insert_insert_eq.
Qed.

Lemma same_tunnel_fits d d' : same_tunnel d d' -> tunnel_fits d -> tunnel_fits d'.
Proof. intros (a & ->). destruct (beat_packet_address 0 a d) as [_ H]. apply H. Qed.

Lemma reconfig_events conf conf' d : interface conf = interface conf' -> Forall (beat_event conf') (aiccu_reconfig conf d).
Proof.
  intros Hi. unfold aiccu_reconfig. destruct (_ =? 0); [|constructor]. apply list.Forall_forall. intros ev Hev. unfold aiccu_os_reconfig in Hev.
  destruct (get_int "uses_tundev" d =? 0) eqn:E; [|by apply elem_of_nil in Hev]. apply list_elem_of_singleton in Hev as ->.
  exists d. unfold aiccu_os_reconfig. rewrite E. unfold tunnel_command. rewrite Hi. by apply list_elem_of_singleton.
Qed.

Lemma aiccu_beat_ok b conf conf' d :
  beat_ok b -> tunnel_fits d -> interface conf = interface conf' -> is_Some (strs d !! "sType"%string) ->
  exists d' l, aiccu_beat b conf d = Ok (d', l) /\ same_tunnel d d' /\ Forall (beat_event conf') l.
Proof.
  intros Hb Hd Hi [type Ht]. unfold aiccu_beat. assert (same_tunnel d d) as Hdd by by exists None.
  destruct (get_int "makebeats" conf =? 0); [exists d, []; split_and!; [done|done|constructor]|]. unfold needed. rewrite Ht. cbn [Prelude.from_option mbind res_bind].
  destruct (is_type "6in4-heartbeat" type).
  - rewrite heartbeat_beat_ok by done.
    destruct (hb_reaches (beat_hb b)) as [a|]; eexists _, _; (split; [done|]); [|by split; [|constructor]]. split; [by exists (Some a)|].
    apply Forall_app. split; [|by repeat constructor]. destruct (decide _); [constructor|by apply reconfig_events].
  - destruct (is_type "ayiya" type); [exists d, [AyiyaBeat]|exists d, []]; split_and!; try done; by repeat constructor.
Qed.

Lemma handle_interface sigs conf : interface (foldl (fun c s => handle s c) conf sigs) = interface conf.
Proof. revert conf. induction sigs as [|[] sigs IH]; intros conf; cbn; [done|by rewrite IH..]. Qed.

Lemma handle_noconfigure sigs conf : get_int "noconfigure" (foldl (fun c s => handle s c) conf sigs) = get_int "noconfigure" conf.
Proof.
  revert conf. induction sigs as [|[] sigs IH]; intros conf; cbn; [done| |]; rewrite IH; unfold get_int; cbn; by rewrite lookup_insert_ne.
Qed.

Lemma handle_stopped sigs conf : get_int "running" conf = 0 -> get_int "running" (foldl (fun c s => handle s c) conf sigs) = 0.
Proof.
  revert conf. induction sigs as [|[] sigs IH]; intros conf H; cbn; [done| |]; apply IH; unfold get_int in *; cbn;
    [by rewrite lookup_insert_ne|by rewrite lookup_insert_eq].
Qed.

Lemma handle_sigterm sigs conf : SIGTERM ∈ sigs -> get_int "running" (foldl (fun c s => handle s c) conf sigs) = 0.
Proof.
  revert conf. induction sigs as [|s sigs IH]; intros conf H; [by apply elem_of_nil in H|]. cbn [foldl].
  apply elem_of_cons in H as [<-|H]; [|by apply IH]. apply handle_stopped. unfold get_int. cbn. by rewrite lookup_insert_eq.
Qed.

(** A loop that is told to stop ends after the turn in which it is. *)
Lemma beat_loop_ok turns conf d :
  Forall (fun t => beat_ok t.1) turns -> tunnel_fits d -> is_Some (strs d !! "sType"%string) ->
  (get_int "running" conf = 0 \/ Exists (fun t => SIGTERM ∈ t.2) turns) ->
  exists conf' d' l, beat_loop turns conf d = Ok (Some (conf', d', l)) /\ same_tunnel d d' /\ Forall (beat_event conf) l /\
    interface conf' = interface conf /\ get_int "noconfigure" conf' = get_int "noconfigure" conf.
Proof.
  intros Ht. revert conf d. induction Ht as [|[b sigs] turns Hb _ IH]; intros conf d Hd Hs Hrun; cbn [beat_loop].
  - destruct Hrun as [-> |H]; [|by inversion H]. exists conf, d, []. split_and!; first [done|by exists None|constructor].
  - destruct (get_int "running" conf =? 0) eqn:E; [exists conf, d, []; split_and!; first [done|by exists None|constructor]|].
    destruct (aiccu_beat_ok b conf conf d Hb Hd eq_refl Hs) as (d1 & l1 & -> & H1 & Hl1). cbn [mbind res_bind].
    destruct (same_tunnel_get d d1 "sType" H1) as [Hty _]; [done|].
    destruct (IH (foldl (fun c s => handle s c) conf sigs) d1) as (conf' & d' & l & -> & H2 & Hl & Hi & Hn).
    + by apply (same_tunnel_fits d).
    + by rewrite Hty.
    + destruct Hrun as [H0|H]; [by rewrite H0 in E|]. inversion H as [? ? Hx|]; subst; [left; by apply handle_sigterm|by right].
    + cbn [mbind res_bind]. exists conf', d', (l1 ++ l). rewrite Hi, Hn, handle_interface, handle_noconfigure. split_and!; try done.
      * by apply (same_tunnel_trans d d1).
      * apply Forall_app. split; [done|]. eapply list.Forall_impl; [exact Hl|]. intros [c| | | | | | | |]; cbn; try done.
        intros (d2 & H). exists d2. unfold aiccu_os_reconfig, tunnel_command in *. by rewrite handle_interface in H.
Qed.

(** The commands that configure a tunnel of the type. *)
Definition setup_events (type : list Z) (conf d : pl_data) : res (list event) :=
  if is_type "ayiya" type then Ok [AyiyaStart] else aiccu_os_setup conf d.

Lemma delete_same conf conf' d d' :
  same_tunnel d d' -> interface conf' = interface conf -> get_int "noconfigure" conf' = get_int "noconfigure" conf -> aiccu_delete conf' d' = aiccu_delete conf d.
Proof.
  intros H Hi Hn. unfold aiccu_delete, aiccu_os_delete. rewrite Hi, Hn. destruct (same_tunnel_get d d' "sType" H) as [_ E]; [done|].
  unfold get_int at 2 4. by rewrite E.
Qed.

(** (C40) A tunnel that needs beats is taken down.  The conditions: the program is
    started in the foreground (daemonize off) and may configure (noconfigure
    off), the server has enabled the tunnel and the user's state, the type is
    heartbeat or AYIYA, an AYIYA thread starts and a heartbeat tunnel has the
    address that its commands need, and the tunnel's IPv6 address has at most 900
    bytes and its password less than 2 gigabytes, so that a beat fits its buffer.
    Then, however the beats go and whatever signals arrive, once one of them is
    SIGTERM the program ends with status 0, and what it did is to set up the
    tunnel once, to send beats and move the tunnel to new addresses, then, once,
    to bring the same interface down and to delete its tunnel unless a tun device
    carries it, and to remove the file of its process number. *)
Theorem sigterm_tears_down e conf d type setup :
  beat_ok (first_beat e) -> Forall (fun t => beat_ok t.1) (turns e) -> tunnel_fits d ->
  strs d !! "sType"%string = Some type -> needs_beats type = true -> ayiya_starts e = true -> setup_events type conf d = Ok setup ->
  strs d !! "sAdminState"%string = Some (str "enabled") -> strs d !! "sUserState"%string = Some (str "enabled") ->
  get_int "daemonize" conf = 0 -> get_int "noconfigure" conf = 0 -> Exists (fun t => SIGTERM ∈ t.2) (turns e) ->
  exists beats, main_tunnel e A_START conf d = Ok (Some (0, setup ++ beats ++
      aiccu_exec (str "ifconfig " ++ interface conf ++ str " down") ::
      (if get_int "uses_tundev" d =? 0 then [aiccu_exec (str "ifconfig " ++ interface conf ++ str " deletetunnel")] else []) ++ [UnlinkPid])) /\
    Forall (beat_event conf) beats.
Proof.
  intros Hb Hbs Hd Ht Hneeds Hstart Hsetup Ha Hu Hdm Hnc Hterm. unfold main_tunnel, needed. rewrite Ha, Hu. cbn [Prelude.from_option mbind res_bind].
  rewrite !bool_decide_eq_true_2 by done. cbn [mbind res_bind negb andb]. rewrite Hdm. cbn [Z.eqb]. unfold start_tunnel, aiccu_setup, needed.
  rewrite Ht. cbn [Prelude.from_option mbind res_bind].
  assert ((if is_type "ayiya" type then Ok (ayiya_starts e, [AyiyaStart]) else l ← aiccu_os_setup conf d; Ok (true, l)) = Ok (true, setup)) as ->.
  { unfold setup_events in Hsetup. destruct (is_type "ayiya" type); [by injection Hsetup as <-; rewrite Hstart|]. by rewrite Hsetup. }
  cbn [mbind res_bind negb].
  destruct (aiccu_beat_ok (first_beat e) conf conf d Hb Hd eq_refl ltac:(by rewrite Ht)) as (d1 & l1 & -> & H1 & Hl1). cbn [mbind res_bind negb].
  destruct (same_tunnel_get d d1 "sType" H1) as [Hty _]; [done|]. rewrite Hty, Ht. cbn [Prelude.from_option mbind res_bind]. rewrite Hneeds.
  destruct (beat_loop_ok (turns e) conf d1 Hbs (same_tunnel_fits _ _ H1 Hd) ltac:(by rewrite Hty, Ht) (or_intror Hterm))
    as (conf' & d' & l & -> & H2 & Hl & Hi & Hn). cbn [mbind res_bind].
  exists (l1 ++ l). split; [|by apply Forall_app]. rewrite (delete_same conf conf' d d' (same_tunnel_trans _ _ _ H1 H2) Hi Hn). unfold aiccu_delete. rewrite Hnc. cbn [Z.eqb].
  unfold aiccu_os_delete. by rewrite <- !app_assoc.
Qed.

Definition example_hb (a : string) : hb_env := mk_hb_env true true true true (Some (str a)) None.
Definition example_beat (a : string) (now : Z) : beat_env := mk_beat_env (example_hb a) now (repeat 0 64).

Definition heartbeat_tunnel : pl_data := mk_pl_data
  (list_to_map [("sType", str "6in4-heartbeat"); ("sIPv6_Local", str "2001:db8::2"); ("sIPv6_POP", str "2001:db8::1"); ("sIPv4_POP", str "192.0.2.1");
    ("sIPv4_Local", str "heartbeat"); ("sPassword", str "secret"); ("sAdminState", str "enabled"); ("sUserState", str "enabled")]%string)
  (list_to_map [("nMTU", 1280); ("uses_tundev", 0)]%string).

Definition example_run : main_env :=
  mk_main_env (fun _ => None) false (mk_get_env (example_env []) [] true []) true Parent true (example_beat "198.51.100.7" 1500000000)
    [(example_beat "198.51.100.7" 1500000060, []); (example_beat "198.51.100.9" 1500000120, [SIGUSR1; SIGTERM])].

Lemma sigterm_tears_down_witness :
  exists setup beats, setup_events (str "6in4-heartbeat") default_conf heartbeat_tunnel = Ok setup /\
    main_tunnel example_run A_START default_conf heartbeat_tunnel =
      Ok (Some (0, setup ++ beats ++ [Exec (str "ifconfig aiccu down"); Exec (str "ifconfig aiccu deletetunnel"); UnlinkPid])) /\
    Forall (beat_event default_conf) beats.
Proof.
  eexists. match goal with |- exists beats, _ = Ok ?s /\ _ => assert (setup_events (str "6in4-heartbeat") default_conf heartbeat_tunnel = Ok s) as Hs by reflexivity end.
  destruct (sigterm_tears_down example_run default_conf heartbeat_tunnel (str "6in4-heartbeat") _ ltac:(by vm_compute)
    ltac:(repeat constructor) ltac:(split; vm_compute; (lia || done)) eq_refl ltac:(by vm_compute) eq_refl Hs eq_refl eq_refl ltac:(by vm_compute)
    ltac:(by vm_compute) ltac:(right; left; right; left)) as (beats & E & Hb).
  exists beats. split; [exact Hs|]. split; [exact E|exact Hb].
Defined.

Lemma heartbeat_beat_contract_witness :
  heartbeat_beat (example_beat "198.51.100.7" 1500000000) default_conf heartbeat_tunnel =
  Ok (set_str "sIPv4_Local" (str "198.51.100.7") heartbeat_tunnel,
      [Exec (str "/sbin/ifconfig aiccu tunnel 198.51.100.7 192.0.2.1"); Datagram (beat_packet 1500000000 heartbeat_tunnel)]).
Proof. rewrite heartbeat_beat_contract; [vm_compute; reflexivity|reflexivity|split; vm_compute; (lia || done)]. Defined.

(** ** From the login to the tunnel *)

(** How the tunnel [id] is chosen: the replies it takes and the requests. *)
Inductive chooses (conf : pl_data) (id : list Z) : list (list Z) -> list (list Z) -> Prop :=
| configured : strs conf !! "tunnel_id"%string = Some id -> chooses conf id [] []
| only_one start raw ws fin : strs conf !! "tunnel_id"%string = None ->
    take 3 (text start) = str "201" -> tunnel_line raw ws -> ws !! 0%nat = Some id -> take 3 (text fin) = str "202" ->
    chooses conf id [start; raw; fin] [str "tunnel list"].

Lemma print_lines_app a b : print_lines (a ++ b) = print_lines a ++ print_lines b.
Proof. induction a as [|x a IH]; [done|]. cbn [app]. rewrite !print_lines_cons, IH. by rewrite <- app_assoc. Qed.

Lemma print_lines_one w : print_lines [w] = line w.
Proof. unfold print_lines, line. cbn. by rewrite app_nil_r. Qed.

(** (C39) The client and a server that plays its part get through the whole
    dialogue.  The conditions of the connection: it succeeds, no call of [recv]
    or [send] fails, every piece that [recv] gives has between 1 and [m] bytes,
    [m] at most 1014, what the buffer holds before has at most 1013 bytes, every
    line of the server ends in a line feed, is not empty, holds no zero byte and
    has less than [1014 - m] bytes, and all memory can be allocated.  Those of
    the configuration: a user and a password are set, the system's name and
    release have together at most 1000 bytes, the user's name and the tunnel's at
    most 1000 each, and the password less than 4 gigabytes.  Those of the server:
    it accepts the six steps of the login; the tunnel is the one configured, or
    none is and the server lists exactly one; and between 201 and 202 it sends
    settings of the table, each at most once, a title, a colon, a space and a
    value that is not empty and does not end in white space, among them a type
    and an IPv6 endpoint that [inet_pton] reads.  Then [get_tunnel] returns a
    description in which every text is the value that was sent and every number
    (prefix length, MTU, heartbeat interval) is what [atoi] reads in the value,
    in 32 bits, with the link-local address that belongs to the endpoint, and a
    tun device for the types ayiya and l2tp only; the client remembers the tunnel, leaves no block of the list
    allocated, says exactly the lines of the protocol, and hangs up. *)
Theorem get_tunnel_end_to_end inet_pton6 inet_ntop6 m e conf s username password l a id login choice requests start raws items fin rest local type addr :
  let env := login_env e in
  strs conf !! "username"%string = Some username -> strs conf !! "password"%string = Some password ->
  login_ok env username password -> connection env = Some (l, a) -> list_mallocs e = [] -> show_malloc e = true ->
  talks m (mk_tic_sock (tic_buf s) (tic_filled s) true l a (sent s)) (login ++ choice ++ start :: raws ++ fin :: rest) ->
  Forall2 (fun x r => accept x (text r) = Go) (login_script env username password) login ->
  chooses conf id choice requests -> (length id <= 1000)%nat -> describes start raws items fin ->
  (type_rule, type) ∈ items -> (local_rule, local) ∈ items -> inet_pton6 local = Some addr ->
  exists d s', get_tunnel inet_pton6 inet_ntop6 e conf s = Ok (Some d, set_str "tunnel_id" id conf, 0, s') /\
    sock s' = false /\
    sent s' = sent s ++ print_lines (said (login_script env username password) [] login ++ requests ++
      [str "tunnel show " ++ id; str "QUIT " ++ good_bye env]) /\
    (forall r v, (r, v) ∈ items -> AiccuLine.type r = PLRT_STRING -> strs d !! field r = Some v) /\
    (forall r v, (r, v) ∈ items -> AiccuLine.type r = PLRT_INTEGER -> ints d !! field r = Some (wrap 32 (atoi v))) /\
    strs d !! "sIPv6_LinkLocal"%string = Some (inet_ntop6 (link_local addr)) /\
    ints d !! "uses_tundev"%string = Some (if decide (type = str "ayiya" \/ type = str "l2tp") then 1 else 0).
Proof.
  intros env Hu Hp Hok Hc Hm Hs Ht Hlogin Hch Hid Hdesc Htype Hlocal Haddr. unfold get_tunnel, needed. rewrite Hu, Hp. cbn [Prelude.from_option mbind res_bind].
  pose proof (tic_Login_follows m env username password l a s _ Hok Hc Ht) as Hf.
  rewrite (converse_accepted _ _ login) in Hf by done. destruct Hf as (s1 & E1 & Hs1 & Ht1). fold env. rewrite E1. cbn [mbind res_bind Z.eqb].
  assert (exists s2, match strs conf !! "tunnel_id"%string with
      | Some id => Ok (Some id, 0, s1)
      | None =>
        z ← tic_ListTunnels (list_mallocs e) s1;
        let '(l, live, s) := z in
        match l with
        | [] => s ← tic_Logout (dice env) (Some (str "I didn't have any tunnels to select")) s; Ok (None, live, s)
        | [t] => id ← Prelude.from_option NullDeref (sId t); Ok (Some id, tic_Free_sTunnel l live, s)
        | _ => s ← tic_Logout (dice env) (Some (str "User still needed to select a tunnel")) s; Ok (None, tic_Free_sTunnel l live, s)
        end
      end = Ok (Some id, 0, s2) /\ talks m s2 (start :: raws ++ fin :: rest) /\ sent s2 = sent s1 ++ print_lines requests) as (s2 & -> & Ht2 & Hs2).
  { destruct Hch as [Hid'|st raw ws fi Hno Hst Hraw Hws Hfi].
    - rewrite Hid'. exists s1. split; [done|]. split; [done|]. by rewrite app_nil_r.
    - rewrite Hno, Hm. destruct (tic_ListTunnels_lines m s1 st [raw] [ws] fi (start :: raws ++ fin :: rest)) as (s2 & -> & Ht2 & Hs2);
        [done|done|(constructor; [exact Hraw|constructor])|done|]. cbn [mbind res_bind fmap list_fmap listed sId]. rewrite Hws. cbn [Prelude.from_option mbind res_bind].
      exists s2. rewrite print_lines_one. split; [|done]. do 3 f_equal. destruct Hraw as (_ & H4 & _).
      destruct ws as [|w1 [|w2 [|w3 [|w4 [|]]]]]; done. }
  cbn [mbind res_bind]. rewrite Hs.
  destruct (tic_GetTunnel_ok inet_pton6 inet_ntop6 m (uninit e) id s2 start raws items fin rest local type addr Hid Ht2 Hdesc Htype Hlocal Haddr)
    as (d & s3 & -> & Ht3 & Hs3 & Hstr). cbn [mbind res_bind].
  pose proof (length_good_bye (dice env)) as Hbye. destruct (tic_Logout_ok m s3 (dice env) None rest Ht3 ltac:(lia)) as (s4 & -> & Hcl & Hs4).
  cbn [mbind res_bind]. exists d, s4. split; [done|]. split; [done|]. split; [|done].
  rewrite Hs4, Hs3, Hs2, Hs1, !print_lines_app, print_lines_cons, print_lines_one. unfold line, good_bye. by rewrite <- !app_assoc.
Qed.

Definition example_conf : pl_data := set_str "username" (str "jdoe") (set_str "password" (str "secret") default_conf).

Definition example_choice : list (list Z) := [str "201 Listing tunnels"; str "T1 2001:db8:1234:5678::2 ayiya simpop01"; str "202 Done"].
Definition example_fields : list (list Z) := [str "T1"; str "2001:db8:1234:5678::2"; str "ayiya"; str "simpop01"].

Definition example_dialogue : list (list Z) := example_login ++ example_choice ++ example_start :: (item_text <$> example_items) ++ example_fin :: [].

Lemma get_tunnel_end_to_end_witness :
  exists d s', get_tunnel example_pton6 example_ntop6 (mk_get_env (example_env example_dialogue) [] true []) example_conf (fresh_sock []) =
      Ok (Some d, set_str "tunnel_id" (str "T1") example_conf, 0, s') /\ sock s' = false /\ strs d !! "sType"%string = Some (str "ayiya") /\
    ints d !! "nMTU"%string = Some 1280.
Proof.
  destruct (get_tunnel_end_to_end example_pton6 example_ntop6 (length (print_lines example_dialogue)) (mk_get_env (example_env example_dialogue) [] true [])
    example_conf (fresh_sock []) (str "jdoe") (str "secret") (tic_server example_dialogue) [] (str "T1") example_login example_choice [str "tunnel list"]
    example_start (item_text <$> example_items) example_items example_fin [] (str "2001:db8:1234:5678::2") (str "ayiya") _
    eq_refl eq_refl ltac:(split_and!; vm_compute; (done || lia)) eq_refl eq_refl eq_refl ltac:(talks_example) ltac:(repeat constructor)
    ltac:(apply (only_one _ _ _ _ example_fields);
      [done|done|split_and!; [done|done|apply (bool_decide_unpack _); vm_compute; exact I|done]|done|done])
    ltac:(vm_compute; lia) example_describes ltac:(member) ltac:(member) eq_refl) as (d & s' & E & Hcl & _ & Hstr & Hint & _).
  exists d, s'. split; [exact E|]. split; [exact Hcl|]. split; [apply (Hstr type_rule (str "ayiya")); [member|done]|].
  apply (Hint (rule "Tunnel MTU" PLRT_INTEGER "nMTU") (str "1280")); [member|done].
Defined.

(** ** Flaws *)

(** The setting that is described as no configuration, used to only send
    heartbeats, does not keep the tunnel from being set up, and it keeps it from
    being taken down. *)
Example noconfigure_leaves_the_tunnel :
  match main_tunnel example_run A_START (set_int "noconfigure" 1 default_conf) heartbeat_tunnel with
  | Ok (Some (code, l)) => code = 0 /\ head l = Some (Exec (str "/sbin/ifconfig aiccu tunnel 0.0.0.0 192.0.2.1")) /\
      Forall (fun ev => match ev with Exec c => c <> str "ifconfig aiccu down" | _ => True end) l
  | _ => False
  end.
Proof. vm_compute. split_and!; [done|done|]. repeat constructor; discriminate. Qed.

(** A user that the server refuses is not noticed: the code of the refusal counts
    as a login, and the client goes on to ask for the tunnel. *)
Example refused_user_goes_on :
  let env := mk_get_env (example_env (str <$> ["200 Welcome"; "200 ok"; "200 1500000000"; "400 unknown user"; "201 T1"; "Type: ayiya";
    "IPv6 Endpoint: 2001:db8:1234:5678::2"; "202 Done"]%string)) [] true [] in
  match get_tunnel example_pton6 example_ntop6 env (set_str "tunnel_id" (str "T1") example_conf) (fresh_sock []) with
  | Ok (Some d, _, _, _) => strs d !! "sType"%string = Some (str "ayiya")
  | _ => False
  end.
Proof. by vm_compute. Qed.

(** What the server sends reaches the shell: the program runs, as root, the
    command that the server has put behind the address of the broker. *)
Example server_runs_commands :
  let replies := example_login ++ (str <$> ["201 T1"; "Type: 6in4-static"; "IPv6 Endpoint: 2001:db8:1234:5678::2"; "IPv6 POP: ::1; reboot";
    "IPv4 Endpoint: 198.51.100.7"; "IPv4 POP: 192.0.2.1"; "UserState: enabled"; "AdminState: enabled"; "Tunnel MTU: 1280"; "202 Done"]%string) in
  let conf := print_lines [str "username jdoe"; str "password secret"; str "tunnel_id T1"] in
  let env := mk_main_env (fun _ => Some conf) false (mk_get_env (example_env replies) [] true []) true Parent true (example_beat "198.51.100.7" 0) [] in
  aiccu_main example_pton6 example_ntop6 env [str "aiccu"; str "start"] = Ok (Some (0,
    [SignalRunning false; Exec (str "/sbin/ifconfig aiccu tunnel 198.51.100.7 192.0.2.1"); Exec (str "ifconfig aiccu up");
     Exec (str "ifconfig aiccu mtu 1280"); Exec (str "ifconfig aiccu inet6 2001:db8:1234:5678::2 ::1; reboot prefixlen 128 alias");
     Exec (str "route add -inet6 default ::1; reboot"); UnlinkPid])).
Proof. by vm_compute. Qed.

(** An address as long as a line of the server can hold makes the digest overrun
    the datagram. *)
Lemma heartbeat_overruns g now local ipv6 password nat :
  length g = 64%nat -> (950 <= length ipv6)%nat -> heartbeat_send g now local ipv6 password nat = Err OutOfBounds.
Proof.
  intros Hg Hl. unfold heartbeat_send. rewrite MD5_correct by (done || (rewrite length_take; lia)). cbn [mbind res_bind].
  unfold guard_or. rewrite (proj2 (Nat.leb_gt _ _)); [done|]. unfold hb_head. rewrite !length_app. change (length (str "HEARTBEAT TUNNEL ")) with 17%nat. 
  change (length (str " ")) with 1%nat. lia.
Qed.

(** When no text can be made for any local address, an array that nothing was
    written to is compared. *)
Example unnamed_address_is_uninitialised : heartbeat_socket (mk_hb_env true true true true None (Some [None])) false true None = Err Uninitialised.
Proof. done. Qed.
