(* ===== verification/Maintain.v ===== *)
(** * Teredo client maintenance ([maintain.c], [maintain.h])

The qualification and refresh procedure of a Teredo client, as a state
machine: one step runs the thread from one point where it waits for the
outside world (name resolution, clock, condition variable) to the next. *)

From stdpp Require Import base gmap list numbers.
From S2P Require Import Prelude Words Addr Md5 Security Udp Packets.

(** ** Data *)

Record teredo_state := mk_teredo_state {
  addr : teredo_addr;
  s_ipv4 : Z;
  mtu : Z;
  up : bool;
}.

(** [struct timespec] *)
Record timespec := mk_timespec { tv_sec : Z; tv_nsec : Z }.

(** The parameters of [struct teredo_maintenance]. *)
Record maintenance_conf := mk_maintenance_conf {
  m_fd : Z;
  qualification_delay : Z;
  qualification_retries : Z;
  refresh_delay : Z;
  restart_delay : Z;
}.

Definition EPERM : Z := 1.
Definition EACCES : Z := 13.
Definition EINVAL : Z := 22.

(** ** Reception of a router advertisement *)

(** The error value and the new contents of [*state]. *)
Definition maintenance_recv (packet : teredo_packet) (server : Z) (nonce : list Z) (cone : bool)
    (state : teredo_state) : res (Z * teredo_state) :=
  guard_or AssertFailed (auth_present packet);;
  if negb (mem_eqb (auth_nonce packet) nonce) then Ok (EPERM, state) else
  if auth_fail packet then Ok (EACCES, state) else
  '(ok, a, m) ← teredo_parse_ra packet (addr state) cone (mtu state);
  let state := mk_teredo_state a (s_ipv4 state) m (up state) in
  if negb ok || negb (server_ip a =? server) then Ok (EINVAL, state) else
  Ok (0, mk_teredo_state a (dest_ipv4 packet) m (up state)).

(** Whether a packet is handed to the maintenance thread. *)
Definition teredo_maintenance_process (packet : teredo_packet) : res bool :=
  if negb (source_port packet =? htons IPPORT_TEREDO) || negb (auth_present packet)
  then Ok false else
  h ← get_ip6 (ip6 packet);
  Ok (IN6_ARE_ADDR_EQUAL (ip6_dst h) teredo_restrict).

(** ** Time *)

(** [true] and [*ts] unchanged when it is not in the past; [false] and the
    current time, which resets the schedule, when it is. *)
Definition checkTimeDrift (now ts : timespec) : bool * timespec :=
  if (tv_sec ts <? tv_sec now) || ((tv_sec now =? tv_sec ts) && (tv_nsec ts <? tv_nsec now))
  then (false, now) else (true, ts).

Definition add_sec (n : Z) (ts : timespec) : timespec := mk_timespec (tv_sec ts + n) (tv_nsec ts).

(** ** The procedure *)

(** Where the thread waits. *)
Inductive pc :=
| Resolve                                        (* getaddrinfo *)
| Restart_wait                                   (* before the next resolution *)
| Solicit                                        (* gettime in checkTimeDrift *)
| Await_ra (nonce : list Z) (newst : teredo_state)  (* wait_reply *)
| Refresh_wait.                                  (* before the next solicitation *)

Record mstate := mk_mstate {
  m_pc : pc;
  deadline : timespec;
  c_state : teredo_state;
  m_server : Z;            (* the local variable server_ip *)
  count : Z;
  blackhole : bool;        (* last_error == TERR_BLACKHOLE *)
}.

(** What the outside world answers. *)
Inductive input :=
| In_resolved (val : option Z) (now : timespec)
| In_time (now : timespec) (garbage : teredo_state)  (* contents of [newst] on the stack *)
| In_packet (p : teredo_packet)
| In_timeout.

Definition set_pc (p : pc) (m : mstate) : mstate :=
  mk_mstate p (deadline m) (c_state m) (m_server m) (count m) (blackhole m).

Definition loop_top (m : mstate) : mstate :=
  set_pc (if m_server m =? 0 then Resolve else Solicit) m.

(** End of an iteration: the wait before the next solicitation. *)
Definition finish (conf : maintenance_conf) (delay : Z) (m : mstate) : mstate :=
  if delay =? 0 then loop_top m else
  mk_mstate Refresh_wait (add_sec delay (add_sec (- qualification_delay conf) (deadline m)))
    (c_state m) (m_server m) (count m) (blackhole m).

Definition set_server (s : Z) (t : teredo_state) : teredo_state :=
  mk_teredo_state (set_server_ip s (addr t)) (s_ipv4 t) (mtu t) (up t).
Definition set_up (b : bool) (t : teredo_state) : teredo_state :=
  mk_teredo_state (addr t) (s_ipv4 t) (mtu t) b.
Definition set_flags (f : Z) (a : teredo_addr) : teredo_addr :=
  mk_teredo_addr (prefix a) (server_ip a) f (client_port a) (client_ip a).

(** Lines 263-296: one resolution.  The second result is the state passed to
    the state change callback, if it is called. *)
Definition resolve_step (conf : maintenance_conf) (val : option Z) (now : timespec) (m : mstate)
    : res (mstate * option teredo_state) :=
  let fail := Ok (mk_mstate Restart_wait (add_sec (restart_delay conf) now) (c_state m) 0
                    (count m) (blackhole m), None) in
  match val with
  | None => fail
  | Some ip =>
    if negb (is_ipv4_global_unicast ip) then fail else
    guard_or AssertFailed (negb (up (c_state m)));;
    let st := set_server ip (c_state m) in
    Ok (mk_mstate Solicit now st ip (count m) (blackhole m), Some st)
  end.

(** Lines 331-358: no response. *)
Definition timeout_step (conf : maintenance_conf) (m : mstate) : mstate * option teredo_state :=
  let count := count m + 1 in
  if count <? qualification_retries conf then
    (finish conf 0 (mk_mstate (m_pc m) (deadline m) (c_state m) (m_server m) count (blackhole m)), None)
  else if up (c_state m) then
    let st := set_up false (c_state m) in
    (finish conf (restart_delay conf) (mk_mstate (m_pc m) (deadline m) st 0 0 true), Some st)
  else
    (finish conf (restart_delay conf) (mk_mstate (m_pc m) (deadline m) (c_state m) (m_server m) 0 true),
     None).

(** Lines 361-386: a router advertisement was accepted; [newst] is the state
    read from it. *)
Definition success_step (k : hmac_state) (conf : maintenance_conf) (newst : teredo_state) (m : mstate)
    : mstate * option teredo_state :=
  let cur := c_state m in
  let a := set_flags (flags (addr cur)) (addr newst) in
  let a := if IN6_ARE_ADDR_EQUAL (ip6_of (addr cur)) (ip6_of a) then a else
           set_flags (Z.land (teredo_get_flbits k (tv_sec (deadline m))) (htons TEREDO_RANDOM_MASK)) a in
  let newst := mk_teredo_state a (s_ipv4 newst) (mtu newst) (up newst) in
  if negb (up cur) || negb (IN6_ARE_ADDR_EQUAL (ip6_of (addr cur)) (ip6_of a))
     || negb (mtu cur =? mtu newst)
  then (finish conf (refresh_delay conf)
          (mk_mstate (m_pc m) (deadline m) newst (m_server m) 0 false), Some newst)
  else (finish conf (refresh_delay conf)
          (mk_mstate (m_pc m) (deadline m) cur (m_server m) 0 false), None).

Section thread.
Context `{Env} (k : hmac_state) (conf : maintenance_conf).

(** Lines 299-311: the solicitation, unless the clock has drifted. *)
Definition solicit_step (now : timespec) (garbage : teredo_state) (m : mstate) : st world mstate :=
  let '(ok, dl) := checkTimeDrift now (add_sec (qualification_delay conf) (deadline m)) in
  let m := mk_mstate Solicit dl (c_state m) (m_server m) (count m) (blackhole m) in
  if negb ok then mret m else
  let nonce := teredo_get_nonce k (tv_sec dl) (m_server m) (htons IPPORT_TEREDO) in
  teredo_send_rs (m_fd conf) (m_server m) nonce false;;
  mret (set_pc (Await_ra nonce (mk_teredo_state (addr garbage) (s_ipv4 garbage) 1280 true)) m).

(** One step of [maintenance_thread].  An input that the current wait does
    not deliver leaves the state unchanged. *)
Definition maintenance_step (i : input) (m : mstate) : st world (mstate * option teredo_state) :=
  match m_pc m, i with
  | Resolve, In_resolved val now => lift (resolve_step conf val now m)
  | Restart_wait, In_timeout => mret (loop_top m, None)
  | Solicit, In_time now garbage => m ← solicit_step now garbage m; mret (m, None)
  | Await_ra _ _, In_timeout => mret (timeout_step conf m)
  | Await_ra nonce newst, In_packet p =>
    '(val, newst) ← lift (maintenance_recv p (m_server m) nonce false newst);
    if (val : Z) =? 0 then mret (success_step k conf newst m)
    else mret (set_pc (Await_ra nonce newst) m, None)
  | Refresh_wait, In_timeout => mret (loop_top m, None)
  | _, _ => mret (m, None)
  end.
End thread.

(** ** Start *)

Definition QualificationDelay : Z := 4.
Definition QualificationRetries : Z := 3.
Definition RefreshDelay : Z := 30.
Definition RestartDelay : Z := 100.

Definition or_default (x d : Z) : Z := if x =? 0 then d else x.

Definition null_addr : teredo_addr := mk_teredo_addr 0 0 0 0 0.
Definition null_state : teredo_state := mk_teredo_state null_addr 0 0 false.

(** The parameters and the initial state of the thread; [None] on failure. *)
Definition teredo_maintenance_start (mem dup thread : bool) (fd : Z) (s1 : option (list Z))
    (q_sec q_retries refresh_sec restart_sec : Z) : res (option (maintenance_conf * mstate)) :=
  if negb mem then Ok None else
  guard_or AssertFailed (bool_decide (is_Some s1));;
  let conf := mk_maintenance_conf fd (or_default q_sec QualificationDelay)
    (or_default q_retries QualificationRetries) (or_default refresh_sec RefreshDelay)
    (or_default restart_sec RestartDelay) in
  if negb dup then Ok None else
  if negb thread then Ok None else
  Ok (Some (conf, mk_mstate Resolve (mk_timespec 0 0) null_state 0 0 false)).

(** ** Reachable states *)

(** What the relay hands to the thread: packets that passed
    [teredo_maintenance_process] and the checks of [teredo_run_inner]. *)
Definition input_ok (i : input) : Prop :=
  match i with
  | In_packet p => packet_wf p /\ teredo_maintenance_process p = Ok true
  | _ => True
  end.

Definition mtu_ok (m : Z) : Prop := 1280 <= m <= 65535.
Definition flags_ok (f : Z) : Prop := Z.land f (htons TEREDO_RANDOM_MASK) = f.

(** How a step settles a solicitation: accepted advertisement or time-out. *)
Definition outcome (m : mstate) (i : input) (m' : mstate) : list bool :=
  match m_pc m, i, m_pc m' with
  | Await_ra _ _, In_timeout, _ => [false]
  | Await_ra _ _, In_packet _, Await_ra _ _ => []
  | Await_ra _ _, In_packet _, _ => [true]
  | _, _, _ => []
  end.

(** [reach m hist]: [hist] lists the outcomes of the solicitations so far,
    latest first. *)
Inductive reach `{Env} (k : hmac_state) (conf : maintenance_conf) (m0 : mstate)
    : mstate -> list bool -> Prop :=
| reach_start : reach k conf m0 m0 []
| reach_step m hist i w m' n w' :
    reach k conf m0 m hist -> input_ok i ->
    maintenance_step k conf i m w = Ok ((m', n), w') ->
    reach k conf m0 m' (outcome m i m' ++ hist).

(** Consecutive time-outs since the last accepted advertisement. *)
Fixpoint misses (hist : list bool) : Z :=
  match hist with
  | false :: hist => 1 + misses hist
  | _ => 0
  end.

Definition pc_ok (k : hmac_state) (m : mstate) : Prop :=
  match m_pc m with
  | Resolve | Restart_wait => m_server m = 0
  | Solicit => m_server m <> 0
  | Await_ra nonce newst =>
    m_server m <> 0 /\ up newst = true /\ mtu_ok (mtu newst) /\
    nonce = teredo_get_nonce k (tv_sec (deadline m)) (m_server m) (htons IPPORT_TEREDO)
  | Refresh_wait => True
  end.

Record minv (k : hmac_state) (conf : maintenance_conf) (m : mstate) (hist : list bool) : Prop := {
  minv_pc : pc_ok k m;
  minv_count : 0 <= count m < qualification_retries conf;
  minv_down : m_server m = 0 -> up (c_state m) = false;
  minv_server : m_server m <> 0 ->
    is_ipv4_global_unicast (m_server m) = true /\ server_ip (addr (c_state m)) = m_server m;
  minv_flags : flags_ok (flags (addr (c_state m)));
  minv_misses : up (c_state m) = true -> misses hist = count m;
}.

Lemma flags_ok_land x : flags_ok (Z.land x (htons TEREDO_RANDOM_MASK)).
Proof. unfold flags_ok. by rewrite <- Z.land_assoc, Z.land_diag. Qed.

Lemma maintenance_process_inv p :
  teredo_maintenance_process p = Ok true ->
  source_port p = htons IPPORT_TEREDO /\ auth_present p = true /\
  exists h, get_ip6 (ip6 p) = Ok h /\ ip6_dst h = teredo_restrict.
Proof.
  unfold teredo_maintenance_process. destruct (_ || _) eqn:E; [done|]. reflect_bools.
  destruct (get_ip6 (ip6 p)) as [h|]; cbn [mbind res_bind]; [|done].
  intros E'%(inj Ok). split_and!; try done. exists h. split; [done|]. by apply mem_eqb_true.
Qed.

(** An accepted advertisement. *)
Definition ra_accepted (p : teredo_packet) (server : Z) (nonce : list Z) (s : teredo_state) : Prop :=
  auth_nonce p = nonce /\ auth_fail p = false /\ orig_ipv4 p <> 0 /\
  server_ip (addr s) = server /\ is_valid_teredo_prefix (prefix (addr s)) = true /\
  client_port (addr s) = unot 16 (orig_port p) /\ client_ip (addr s) = unot 32 (orig_ipv4 p) /\
  s_ipv4 s = dest_ipv4 p /\ mtu_ok (mtu s).

Lemma maintenance_recv_ok p server nonce s :
  packet_wf p -> auth_present p = true -> mtu_ok (mtu s) ->
  exists val s', maintenance_recv p server nonce false s = Ok (val, s') /\
    up s' = up s /\ mtu_ok (mtu s') /\ (val = 0 -> ra_accepted p server nonce s').
Proof.
  intros Hwf Hauth Hm. unfold maintenance_recv. rewrite Hauth. cbn [guard_or mbind res_bind].
  destruct (mem_eqb (auth_nonce p) nonce) eqn:En; cbn [negb]; [|by eexists _, _].
  destruct (auth_fail p) eqn:Ef; [by eexists _, _|].
  destruct (parse_ra_ok p false (addr s) (mtu s) Hwf) as (ok & a & m & E & Hok). rewrite E.
  cbn [mbind res_bind].
  assert (mtu_ok m) as Hm'.
  { destruct ok; [destruct (Hok eq_refl) as (_ & _ & _ & _ & _ & _ & [->|?]); done|].
    by rewrite (parse_ra_fail_mtu _ _ _ _ _ _ E). }
  destruct ok; cbn [negb orb]; [|by eexists _, _].
  destruct (Z.eqb_spec (server_ip a) server) as [Es|]; cbn [negb]; [|by eexists _, _].
  eexists _, _. split; [done|]. split_and!; try done. intros _.
  destruct (Hok eq_refl) as (H1 & H2 & _ & _ & H5 & H6 & _).
  apply mem_eqb_true in En. by split_and!.
Qed.

(** What a step may tell the relay. *)
Definition notify_ok (k : hmac_state) (m : mstate) (i : input) (m' : mstate)
    (n : option teredo_state) : Prop :=
  match n with
  | None => up (c_state m') = up (c_state m)
  | Some s =>
    s = c_state m' /\
    (up s = true -> exists p nonce newst,
       i = In_packet p /\ m_pc m = Await_ra nonce newst /\
       ra_accepted p (m_server m) nonce s)
  end.

Definition went_down (m m' : mstate) : Prop :=
  up (c_state m) = true /\ up (c_state m') = false.

Definition step_post (k : hmac_state) (conf : maintenance_conf) (m : mstate) (hist : list bool)
    (i : input) (m' : mstate) (n : option teredo_state) : Prop :=
  minv k conf m' (outcome m i m' ++ hist) /\ notify_ok k m i m' n /\
  (went_down m m' -> misses (outcome m i m' ++ hist) = qualification_retries conf).

Lemma post_same k conf m hist i :
  minv k conf m hist -> outcome m i m = [] -> step_post k conf m hist i m None.
Proof.
  intros Hm Ho. unfold step_post. rewrite Ho. split_and!; [done|done|].
  intros [H1 H2]. congruence.
Qed.

Lemma finish_fields conf delay m :
  c_state (finish conf delay m) = c_state m /\ m_server (finish conf delay m) = m_server m /\
  count (finish conf delay m) = count m /\
  (forall n s, m_pc (finish conf delay m) <> Await_ra n s) /\
  (m_pc (finish conf delay m) = Refresh_wait \/
   m_pc (finish conf delay m) = if m_server m =? 0 then Resolve else Solicit).
Proof.
  unfold finish, loop_top. destruct (delay =? 0); cbn; split_and!;
    first [done|by left|by right|intros n s; by destruct (_ =? 0)].
Qed.

Lemma finish_pc_ok k conf delay m : pc_ok k (finish conf delay m).
Proof.
  destruct (finish_fields conf delay m) as (_ & Es & _ & _ & Hp). unfold pc_ok. rewrite Es.
  destruct Hp as [-> | ->]; [done|]. by destruct (Z.eqb_spec (m_server m) 0).
Qed.

Lemma outcome_finish m i conf delay m' nonce newst :
  m_pc m = Await_ra nonce newst ->
  outcome m i (finish conf delay m') =
  match i with In_timeout => [false] | In_packet _ => [true] | _ => [] end.
Proof.
  intros E. destruct (finish_fields conf delay m') as (_ & _ & _ & Hp & _).
  unfold outcome. rewrite E. destruct i; try done.
  destruct (m_pc (finish conf delay m')) eqn:E'; try done. exfalso. by eapply Hp.
Qed.

Section steps.
Context `{Env} (k : hmac_state) (conf : maintenance_conf).
Hypothesis Hret : 0 < qualification_retries conf.
Context (m : mstate) (hist : list bool).
Hypothesis Hm : minv k conf m hist.

Lemma resolve_step_ok val now :
  m_pc m = Resolve ->
  exists m' n, resolve_step conf val now m = Ok (m', n) /\
    step_post k conf m hist (In_resolved val now) m' n.
Proof.
  intros Epc. destruct Hm as [Hpc Hc Hd Hs Hf Hmi].
  unfold pc_ok in Hpc. rewrite Epc in Hpc. pose proof (Hd Hpc) as Hdown.
  assert (forall m', outcome m (In_resolved val now) m' = []) as Ho
    by (intros; unfold outcome; by rewrite Epc).
  unfold resolve_step, step_post.
  assert (forall dl bh, minv k conf (mk_mstate Restart_wait dl (c_state m) 0 (count m) bh) hist)
    as Hfail by (intros; split; cbn [c_state m_server count]; done).
  destruct val as [ip|]; [destruct (is_ipv4_global_unicast ip) eqn:Eg|]; cbn [negb];
    [|eexists _, _; split; [done|]; rewrite Ho; split_and!; [apply Hfail|done|];
      intros [? ?]; cbn in *; congruence ..].
  rewrite Hdown. cbn [negb guard_or mbind res_bind]. eexists _, _. split; [done|]. rewrite Ho.
  assert (ip <> 0) by (intros ->; by vm_compute in Eg).
  split_and!.
  - split; cbn [c_state m_server count pc_ok m_pc app set_server up addr]; try done.
  - split; [done|]. cbn [up set_server]. by rewrite Hdown.
  - intros [? ?]. cbn in *. congruence.
Qed.

Lemma timeout_step_ok nonce newst :
  m_pc m = Await_ra nonce newst ->
  exists m' n, timeout_step conf m = (m', n) /\ step_post k conf m hist In_timeout m' n.
Proof.
  intros Epc. destruct Hm as [Hpc Hc Hd Hs Hf Hmi].
  unfold pc_ok in Hpc. rewrite Epc in Hpc. destruct Hpc as (Hserver & _ & _ & _).
  unfold timeout_step, step_post.
  destruct (Z.ltb_spec (count m + 1) (qualification_retries conf)) as [Hlt|Hge];
    [|destruct (up (c_state m)) eqn:Eup]; eexists _, _; (split; [reflexivity|]);
    rewrite (outcome_finish _ _ _ _ _ _ _ Epc);
    match goal with |- context [finish conf ?d ?x] =>
      destruct (finish_fields conf d x) as (E1 & E2 & E3 & _ & _);
      pose proof (finish_pc_ok k conf d x) as E4
    end; cbn [c_state m_server count] in E1, E2, E3.
  - split_and!; [split; rewrite ?E1, ?E2, ?E3; try done; [lia|]|by rewrite <- E1|].
    + intros Hup. cbn [app misses]. rewrite Hmi by done. lia.
    + intros [? ?]. congruence.
  - split_and!; [split; rewrite ?E1, ?E2, ?E3; try done|split; [by rewrite E1|done]|].
    intros _. cbn [app misses]. rewrite Hmi by done. lia.
  - split_and!; [split; rewrite ?E1, ?E2, ?E3; try done; rewrite Eup; done| |].
    + unfold notify_ok. by rewrite E1.
    + intros [? ?]. congruence.
Qed.

Lemma success_step_ok p nonce newst0 newst :
  m_pc m = Await_ra nonce newst0 -> up newst = true ->
  ra_accepted p (m_server m) nonce newst ->
  exists m' n, success_step k conf newst m = (m', n) /\
    step_post k conf m hist (In_packet p) m' n.
Proof.
  intros Epc Hup (R1 & R2 & R3 & R4 & R5 & R6 & R7 & R8 & R9).
  destruct Hm as [Hpc Hc Hd Hs Hf Hmi].
  unfold pc_ok in Hpc. rewrite Epc in Hpc. destruct Hpc as (Hserver & _ & _ & _).
  unfold success_step, step_post.
  set (a := if IN6_ARE_ADDR_EQUAL _ _ then _ else _).
  assert (exists f, a = set_flags f (addr newst) /\ flags_ok f) as (f & Ea & Hfok).
  { subst a. destruct (IN6_ARE_ADDR_EQUAL _ _); [by eexists|].
    eexists. split; [|apply flags_ok_land]. done. }
  clearbody a. subst a.
  destruct (_ || _ || _) eqn:Eb; eexists _, _; (split; [reflexivity|]);
    rewrite (outcome_finish _ _ _ _ _ _ _ Epc);
    match goal with |- context [finish conf ?d ?x] =>
      destruct (finish_fields conf d x) as (E1 & E2 & E3 & _ & _);
      pose proof (finish_pc_ok k conf d x) as E4
    end; cbn [c_state m_server count] in E1, E2, E3.
  - split_and!.
    + split; rewrite ?E1, ?E2, ?E3; cbn [addr up set_flags server_ip flags app misses]; try done.
      intros _. by split; [apply Hs|].
    + split; [by rewrite E1|]. intros _. exists p, nonce, newst0. by split_and!.
    + intros [_ Hdn]. rewrite E1 in Hdn. cbn [up] in Hdn. congruence.
  - apply orb_false_iff in Eb as [[Hcu _]%orb_false_iff _]. apply negb_false_iff in Hcu.
    split_and!.
    + split; rewrite ?E1, ?E2, ?E3; cbn [app misses]; try done.
    + unfold notify_ok. by rewrite E1.
    + intros [_ Hdn]. rewrite E1 in Hdn. congruence.
Qed.

Lemma loop_top_ok i :
  (forall m', outcome m i m' = []) -> step_post k conf m hist i (loop_top m) None.
Proof.
  intros Ho. destruct Hm as [Hpc Hc Hd Hs Hf Hmi]. unfold step_post. rewrite Ho. split_and!.
  - split; cbn [loop_top set_pc m_server c_state count]; try done.
    unfold pc_ok, loop_top; cbn. by destruct (Z.eqb_spec (m_server m) 0).
  - done.
  - intros [? ?]. cbn in *. congruence.
Qed.

Lemma solicit_step_ok now g w :
  m_pc m = Solicit ->
  exists m' w', solicit_step k conf now g m w = Ok (m', w') /\
    step_post k conf m hist (In_time now g) m' None.
Proof.
  intros Epc. destruct Hm as [Hpc Hc Hd Hs Hf Hmi]. unfold pc_ok in Hpc. rewrite Epc in Hpc.
  unfold solicit_step. destruct (checkTimeDrift _ _) as [ok dl].
  assert (forall m', outcome m (In_time now g) m' = []) as Ho
    by (intros; unfold outcome; by rewrite Epc).
  unfold step_post. destruct ok; cbn [negb].
  - unfold teredo_send_rs, teredo_sendv, mbind, st_bind, emit, ask. eexists _, _.
    split; [reflexivity|]. rewrite Ho. split_and!.
    + split; cbn [set_pc c_state m_server count app]; try done.
    + done.
    + intros [? ?]. cbn in *. congruence.
  - eexists _, _. split; [reflexivity|]. rewrite Ho. split_and!.
    + by split.
    + done.
    + intros [? ?]. cbn in *. congruence.
Qed.

Lemma maintenance_step_ok i w :
  input_ok i -> exists m' n w', maintenance_step k conf i m w = Ok ((m', n), w') /\
    step_post k conf m hist i m' n.
Proof.
  intros Hi. unfold maintenance_step.
  assert (forall i', outcome m i' m = [] -> exists m' n w',
    (mret (m, None) : st world _) w = Ok ((m', n), w') /\ step_post k conf m hist i' m' n) as Hsame
    by (intros i' Ho; eexists _, _, w; split; [reflexivity|by apply post_same]).
  destruct (m_pc m) as [| | |nonce newst|] eqn:Epc; destruct i as [val now|now g|p|];
    try (apply Hsame; unfold outcome; by rewrite Epc).
  - destruct (resolve_step_ok val now Epc) as (m' & n & E & Hp). unfold lift. rewrite E. eauto.
  - eexists _, _, w. split; [reflexivity|]. apply loop_top_ok. intros. unfold outcome. by rewrite Epc.
  - destruct (solicit_step_ok now g w Epc) as (m' & w' & E & Hp). unfold mbind, st_bind.
    rewrite E. eauto.
  - destruct Hi as [Hwf (_ & Hau & _)%maintenance_process_inv].
    destruct Hm as [Hpc _ _ _ _ _]. unfold pc_ok in Hpc. rewrite Epc in Hpc.
    destruct Hpc as (Hsv & Hup & Hmtu & Hnonce).
    destruct (maintenance_recv_ok p (m_server m) nonce newst Hwf Hau Hmtu)
      as (val & s' & E & Hup' & Hmtu' & Hacc).
    unfold mbind, st_bind, lift. rewrite E. destruct (Z.eqb_spec val 0) as [Ev|_].
    + destruct (success_step_ok p nonce newst s' Epc) as (m' & n & E' & Hp); [congruence|by apply Hacc|].
      rewrite E'. by eexists _, _, _.
    + eexists _, _, _. split; [reflexivity|]. destruct Hm as [_ Hc Hd Hs Hf Hmi]. unfold step_post.
      unfold outcome. rewrite Epc. cbn [m_pc set_pc app]. split_and!.
      * split; cbn [set_pc c_state m_server count]; try done. unfold pc_ok; cbn [m_pc set_pc m_server deadline].
        split_and!; [exact Hsv|by rewrite Hup'|exact Hmtu'|exact Hnonce].
      * done.
      * intros [? ?]. cbn in *. congruence.
  - destruct (timeout_step_ok nonce newst Epc) as (m' & n & E & Hp). rewrite E. by eexists _, _, _.
  - eexists _, _, w. split; [reflexivity|]. apply loop_top_ok. intros. unfold outcome. by rewrite Epc.
Qed.
End steps.

Lemma reach_inv `{Env} k conf m0 m hist :
  0 < qualification_retries conf -> minv k conf m0 [] -> reach k conf m0 m hist ->
  minv k conf m hist.
Proof.
  intros Hret H0. induction 1 as [|m hist i w m' n w' _ IH Hi Hs]; [done|].
  destruct (maintenance_step_ok k conf Hret m hist IH i w Hi) as (m1 & n1 & w1 & E & Hp & _).
  rewrite E in Hs. by injection Hs as -> -> ->.
Qed.

Lemma start_inv k mem dup thread fd s1 q r rf rs conf m0 :
  teredo_maintenance_start mem dup thread fd s1 q r rf rs = Ok (Some (conf, m0)) -> 0 <= r ->
  0 < qualification_retries conf /\ minv k conf m0 [].
Proof.
  unfold teredo_maintenance_start. intros E Hr. destruct mem; [|done]. cbn [negb] in E.
  destruct (guard_or _ _); [|done]. cbn [mbind res_bind] in E.
  destruct dup; [|done]. destruct thread; [|done]. injection E as <- <-.
  assert (0 < or_default r QualificationRetries).
  { unfold or_default, QualificationRetries. destruct (Z.eqb_spec r 0); lia. }
  split; [done|]. by split.
Qed.

(** (C9) The maintenance thread of a client never fails an assertion or reads
    past a packet: from the state set up by [teredo_maintenance_start], after
    any sequence of answers of the resolver, the clock, the network and the
    timers, every further step returns; a qualified tunnel always has a
    server with a global unicast address, and fewer than the maximum number of
    solicitations are outstanding. *)
Theorem maintenance_thread_safe `{Env} (k : hmac_state) (mem dup thread : bool) (fd : Z)
    (s1 : option (list Z)) (q r rf rs : Z) (conf : maintenance_conf) (m0 m : mstate)
    (hist : list bool) (i : input) (w : world)
    (Hstart : teredo_maintenance_start mem dup thread fd s1 q r rf rs = Ok (Some (conf, m0)))
    (Hr : 0 <= r) (Hreach : reach k conf m0 m hist) (Hi : input_ok i) :
  (exists m' n w', maintenance_step k conf i m w = Ok ((m', n), w')) /\
  0 <= count m < qualification_retries conf /\
  (up (c_state m) = true -> is_ipv4_global_unicast (m_server m) = true /\
     server_ip (addr (c_state m)) = m_server m) /\
  flags_ok (flags (addr (c_state m))).
Proof.
  destruct (start_inv k _ _ _ _ _ _ _ _ _ _ _ Hstart Hr) as [Hret H0].
  pose proof (reach_inv _ _ _ _ _ Hret H0 Hreach) as Hm. split_and!.
  - destruct (maintenance_step_ok k conf Hret m hist Hm i w Hi) as (m' & n & w' & E & _). eauto.
  - apply Hm.
  - apply Hm.
  - intros Hup. apply (minv_server _ _ _ _ Hm). intros E.
    apply (minv_down _ _ _ _ Hm) in E. congruence.
  - apply Hm.
Qed.

(** (C10) A tunnel is only declared up on an authenticated answer: the step
    that reports a qualified state processes a packet that carries the nonce of
    the solicitation in flight, a keyed hash of the server, port and
    time that off-path hosts cannot guess, was not refused by the server,
    advertises that same server, and yields as client address and port the ones
    of the origin indication. *)
Theorem maintenance_up_authenticated `{Env} (k : hmac_state) (conf : maintenance_conf)
    (m0 m m' : mstate) (hist : list bool) (i : input) (w w' : world) (s : teredo_state)
    (Hret : 0 < qualification_retries conf) (H0 : minv k conf m0 [])
    (Hreach : reach k conf m0 m hist) (Hi : input_ok i)
    (Hs : maintenance_step k conf i m w = Ok ((m', Some s), w')) (Hup : up s = true) :
  exists p, i = In_packet p /\ source_port p = htons IPPORT_TEREDO /\
    ra_accepted p (m_server m)
      (teredo_get_nonce k (tv_sec (deadline m)) (m_server m) (htons IPPORT_TEREDO)) s.
Proof.
  pose proof (reach_inv _ _ _ _ _ Hret H0 Hreach) as Hm.
  destruct (maintenance_step_ok k conf Hret m hist Hm i w Hi) as (m1 & n1 & w1 & E & _ & Hn & _).
  rewrite E in Hs. injection Hs as -> -> ->. destruct Hn as [_ Hn].
  destruct (Hn Hup) as (p & nonce & newst & -> & Epc & Hacc). exists p.
  pose proof (minv_pc _ _ _ _ Hm) as Hpc. unfold pc_ok in Hpc. rewrite Epc in Hpc.
  destruct Hpc as (_ & _ & _ & <-). destruct Hi as [_ (Hport & _)%maintenance_process_inv].
  by split_and!.
Qed.

(** A qualified tunnel is declared down only after the configured number
    of consecutive solicitations went unanswered. *)
Theorem maintenance_down_after_retries `{Env} (k : hmac_state) (conf : maintenance_conf)
    (m0 m m' : mstate) (hist : list bool) (i : input) (w w' : world) (n : option teredo_state)
    (Hret : 0 < qualification_retries conf) (H0 : minv k conf m0 [])
    (Hreach : reach k conf m0 m hist) (Hi : input_ok i)
    (Hs : maintenance_step k conf i m w = Ok ((m', n), w')) (Hdown : went_down m m') :
  misses (outcome m i m' ++ hist) = qualification_retries conf /\
  n = Some (c_state m').
Proof.
  pose proof (reach_inv _ _ _ _ _ Hret H0 Hreach) as Hm.
  destruct (maintenance_step_ok k conf Hret m hist Hm i w Hi) as (m1 & n1 & w1 & E & _ & Hn & Hd).
  rewrite E in Hs. injection Hs as -> -> ->. split; [by apply Hd|].
  destruct n as [s|]; [by destruct Hn as [-> _]|]. destruct Hdown. cbn in Hn. congruence.
Qed.

(** ** Examples *)

Definition example_conf : maintenance_conf := mk_maintenance_conf 3 4 1 30 100.
Definition example_m0 : mstate := mk_mstate Resolve (mk_timespec 0 0) null_state 0 0 false.

Lemma example_m0_inv : minv example_key example_conf example_m0 [].
Proof. by split. Qed.

(** A server answers the first solicitation, sent at second 1000. *)
Definition example_answer : teredo_packet :=
  mk_teredo_packet (ip6 example_ra) (ipv4 192 0 2 45) (htons 3544) (htons 40000)
    (ipv4 198 51 100 7) (ipv4 10 0 0 1) true false
    (teredo_get_nonce example_key 1004 (ipv4 192 0 2 45) (htons IPPORT_TEREDO)).

Lemma example_answer_ok : input_ok (In_packet example_answer).
Proof.
  split; [|vm_compute; reflexivity].
  destruct example_ra_wf as [Hb Hh]. exact (conj Hb Hh).
Qed.

Definition example_garbage : teredo_state := mk_teredo_state (mk_teredo_addr 9 9 9 9 9) 9 9 false.
Definition w0 : world := mk_world 0 [].

(** The state in which the thread waits for the answer. *)
Definition example_m2 : mstate :=
  mk_mstate
    (Await_ra (teredo_get_nonce example_key 1004 (ipv4 192 0 2 45) (htons IPPORT_TEREDO))
       (mk_teredo_state (addr example_garbage) 9 1280 true))
    (mk_timespec 1004 0) (set_server (ipv4 192 0 2 45) null_state) (ipv4 192 0 2 45) 0 false.

Lemma example_m2_reach : reach (H := quiet_env) example_key example_conf example_m0 example_m2 [].
Proof.
  assert (reach (H := quiet_env) example_key example_conf example_m0
            (mk_mstate Solicit (mk_timespec 1000 0) (set_server (ipv4 192 0 2 45) null_state)
               (ipv4 192 0 2 45) 0 false) []) as H1.
  { refine (reach_step (H := quiet_env) _ _ _ example_m0 [] (In_resolved (Some (ipv4 192 0 2 45))
             (mk_timespec 1000 0)) w0 _ _ _ (reach_start _ _ _) I _). vm_compute. reflexivity. }
  refine (reach_step (H := quiet_env) _ _ _ _ [] (In_time (mk_timespec 1001 0) example_garbage)
            w0 _ _ _ H1 I _). vm_compute. reflexivity.
Qed.

(** The qualified state. *)
Definition example_up : teredo_state :=
  mk_teredo_state
    (mk_teredo_addr (htonl TEREDO_PREFIX) (ipv4 192 0 2 45)
       (Z.land (teredo_get_flbits example_key 1004) (htons TEREDO_RANDOM_MASK))
       (unot 16 (htons 40000)) (unot 32 (ipv4 198 51 100 7)))
    (ipv4 10 0 0 1) 1280 true.

Definition example_m3 : mstate :=
  mk_mstate Refresh_wait (mk_timespec 1030 0) example_up (ipv4 192 0 2 45) 0 false.

Lemma example_m3_step :
  maintenance_step (H := quiet_env) example_key example_conf (In_packet example_answer)
    example_m2 w0 = Ok ((example_m3, Some example_up), w0).
Proof. vm_compute. reflexivity. Qed.

Lemma maintenance_thread_safe_witness :
  (exists m' n w', maintenance_step (H := quiet_env) example_key
     (mk_maintenance_conf 3 4 1 30 100) (In_packet example_answer) example_m2 w0 = Ok ((m', n), w')) /\
  0 <= count example_m2 < 1.
Proof.
  destruct (maintenance_thread_safe (H := quiet_env) example_key true true true 3 (Some [116]) 0 1 0 0
              example_conf example_m0 example_m2 [] (In_packet example_answer) w0 eq_refl ltac:(lia)
              example_m2_reach example_answer_ok) as (H1 & H2 & _).
  split; [exact H1|exact H2].
Defined.

Lemma maintenance_up_authenticated_witness :
  exists p, In_packet example_answer = In_packet p /\ source_port p = htons IPPORT_TEREDO /\
    ra_accepted p (m_server example_m2)
      (teredo_get_nonce example_key 1004 (m_server example_m2) (htons IPPORT_TEREDO)) example_up.
Proof.
  exact (maintenance_up_authenticated (H := quiet_env) example_key example_conf example_m0
           example_m2 example_m3 [] (In_packet example_answer) w0 w0 example_up
           ltac:(cbn; lia) example_m0_inv example_m2_reach example_answer_ok example_m3_step eq_refl).
Defined.

(** With a single retry allowed, one lost solicitation brings the tunnel down. *)
Lemma example_m5_reach :
  exists m hist, reach (H := quiet_env) example_key example_conf example_m0 m hist /\
    up (c_state m) = true /\ m_pc m <> Refresh_wait /\ hist = [true] /\
    exists m' w', maintenance_step (H := quiet_env) example_key example_conf In_timeout m w0 =
      Ok ((m', Some (set_up false (c_state m))), w') /\ went_down m m'.
Proof.
  pose proof (reach_step (H := quiet_env) _ _ _ _ _ _ _ _ _ _ example_m2_reach example_answer_ok
                example_m3_step) as H3.
  assert (reach (H := quiet_env) example_key example_conf example_m0
            (mk_mstate Solicit (mk_timespec 1030 0) example_up (ipv4 192 0 2 45) 0 false) [true]) as H4.
  { refine (reach_step (H := quiet_env) _ _ _ _ _ In_timeout w0 _ _ _ H3 I _). reflexivity. }
  assert (reach (H := quiet_env) example_key example_conf example_m0
            (mk_mstate
               (Await_ra (teredo_get_nonce example_key 1034 (ipv4 192 0 2 45) (htons IPPORT_TEREDO))
                  (mk_teredo_state (addr example_garbage) 9 1280 true))
               (mk_timespec 1034 0) example_up (ipv4 192 0 2 45) 0 false) [true]) as H5.
  { refine (reach_step (H := quiet_env) _ _ _ _ _ (In_time (mk_timespec 1030 0) example_garbage)
              w0 _ _ _ H4 I _). vm_compute. reflexivity. }
  eexists _, _. split; [exact H5|]. split_and!; try done.
  eexists _, _. split; [reflexivity|done].
Qed.

Lemma maintenance_down_after_retries_witness :
  exists m m' hist, up (c_state m) = true /\ up (c_state m') = false /\
    misses (outcome m In_timeout m' ++ hist) = 1.
Proof.
  destruct example_m5_reach as (m & hist & Hr & Hup & _ & _ & m' & w' & Hs & Hd).
  exists m, m', hist. destruct Hd as [Hd1 Hd2]. split_and!; [exact Hd1|exact Hd2|].
  exact (proj1 (maintenance_down_after_retries (H := quiet_env) example_key example_conf example_m0
           m m' hist In_timeout w0 w' _ ltac:(cbn; lia) example_m0_inv Hr I Hs (conj Hd1 Hd2))).
Defined.
