(* ===== verification/Server.v ===== *)
(** * Teredo server ([server.c])

Router advertisements, forwarding of bubbles and of small ICMPv6 packets,
and the shared raw socket. *)

From stdpp Require Import base gmap list numbers.
From S2P Require Import Prelude Words Addr Md5 Security Udp Packets Maintain.

(** ** Data *)

(** [struct teredo_server], without the threads. *)
Record teredo_server := mk_teredo_server {
  fd_primary : Z;
  fd_secondary : Z;
  sv_ip : Z;        (* server_ip *)
  sv_ip2 : Z;       (* server_ip2 *)
  sv_prefix : Z;
  advLinkMTU : Z;   (* network byte order *)
  lladdr : teredo_addr;
}.

(** The raw IPv6 socket shared by all servers. *)
Record raw_socket := mk_raw_socket { raw_fd : Z; raw_users : Z }.

Definition ENETUNREACH : Z := 51.
Definition EHOSTUNREACH : Z := 65.
Definition ECONNREFUSED : Z := 61.
Definition EMSGSIZE : Z := 40.
Definition EPROTO : Z := 100.

(** ** Router advertisements *)

Definition auth_header (nonce : list Z) : list Z := [0; 1; 0; 0] ++ nonce ++ [0].

Definition orig_header (port ip : Z) : list Z :=
  [0; teredo_orig_ind] ++ le_split 2 (unot 16 port) ++ le_split 4 (unot 32 ip).

Definition ra_header (s : teredo_server) (dest_ip6 : in6_addr) : ip6_hdr := {|
  ip6_flow := ip6_flow_v6;
  ip6_plen := htons 56;
  ip6_nxt := IPPROTO_ICMPV6;
  ip6_hlim := 255;
  ip6_src := ip6_of (lladdr s);
  ip6_dst := dest_ip6;
|}.

(** The router advertisement, prefix and MTU options, after the checksum. *)
Definition ra_tail (s : teredo_server) : list Z :=
  [0; 0; 0; 0] ++ [0; 0; 0; 0] ++ le_split 4 (htonl 2000) ++
  ([ND_OPT_PREFIX_INFORMATION; 4; 64; 0x40] ++ [255; 255; 255; 255] ++ [255; 255; 255; 255] ++
   [0; 0; 0; 0] ++ (le_split 4 (sv_prefix s) ++ le_split 4 (sv_ip s) ++ repeat 0 8)) ++
  ([ND_OPT_MTU; 1; 0; 0] ++ le_split 4 (advLinkMTU s)).

Definition ra_body (cksum : Z) (s : teredo_server) : list Z :=
  [ND_ROUTER_ADVERT; 0] ++ le_split 2 cksum ++ ra_tail s.

Definition ra_bytes (s : teredo_server) (dest_ip6 : in6_addr) : list Z :=
  let h := ra_header s dest_ip6 in
  put_ip6 h ++ ra_body (icmp6_checksum h (ra_body 0 s)) s.

Section server.
Context `{Env}.

(** The nonce is an array of the packet: its address is never null. *)
Definition SendRA (s : teredo_server) (p : teredo_packet) (dest_ip6 : in6_addr)
    (secondary : bool) : st world bool :=
  let iov := [auth_header (auth_nonce p); orig_header (source_port p) (source_ipv4 p);
              ra_bytes s dest_ip6] in
  let secondary := if IN6_IS_TEREDO_ADDR_CONE dest_ip6 then negb secondary else secondary in
  r ← teredo_sendv (if secondary then fd_secondary s else fd_primary s) iov
        (source_ipv4 p) (source_port p);
  mret (0 <? r).

Definition teredo_forward_udp (fd : Z) (packet : teredo_packet) (insert_orig : bool)
    : st world bool :=
  h ← lift (get_ip6 (ip6 packet));
  let dest_ipv4 := IN6_TEREDO_IPV4 (ip6_dst h) in
  let dest_port := IN6_TEREDO_PORT (ip6_dst h) in
  if negb (is_ipv4_global_unicast dest_ipv4) then mret false else
  let orig := if insert_orig then orig_header (source_port packet) (source_ipv4 packet) else [] in
  r ← teredo_sendv fd [orig; ip6 packet] dest_ipv4 dest_port;
  mret (0 <? r).

Definition soft_error (e : Z) : bool :=
  (e =? ENETUNREACH) || (e =? EACCES) || (e =? EHOSTUNREACH) || (e =? ECONNREFUSED)
  || (e =? EMSGSIZE) || (e =? EPROTO).

(** The loop on errors that an earlier packet caused. *)
Fixpoint send_tries (tries : nat) (data : list Z) (dst : in6_addr) : st world bool :=
  match tries with
  | O => mret false
  | S tries =>
    emit (Sendto_raw data dst);;
    r ← ask env_sendto;
    match r with
    | inl n => mret (n =? Z.of_nat (length data))
    | inr e => if soft_error e then send_tries tries data dst else mret false
    end
  end.

Definition teredo_send_ipv6 (p : list Z) (len : nat) : st world bool :=
  h ← lift (get_ip6 p);
  data ← lift (slice 0 len p);
  send_tries 10 data (ip6_dst h).

Definition IN6_IS_ADDR_GLOBAL (a : in6_addr) : bool :=
  negb (IN6_IS_ADDR_UNSPECIFIED a || IN6_IS_ADDR_LOOPBACK a || IN6_IS_ADDR_LINKLOCAL a
        || IN6_IS_ADDR_MULTICAST a).

(** [ip6_nxt == ICMPv6 && plen >= 8 && type == router solicitation]. *)
Definition is_rs (packet : teredo_packet) (h : ip6_hdr) (plen : Z) : res bool :=
  if (ip6_nxt h =? IPPROTO_ICMPV6) && (sizeof_nd_router_solicit <=? plen) then
    t ← rd8 40 (ip6 packet); Ok (t =? ND_ROUTER_SOLICIT)
  else Ok false.

(** Teredo server cases 1 to 3: [None] when the packet is discarded. *)
Definition server_check (packet : teredo_packet) : res (option (ip6_hdr * Z)) :=
  if (length (ip6 packet) <? 40)%nat then Ok None else
  h ← get_ip6 (ip6 packet);
  let plen := ntohs (ip6_plen h) in
  if negb (Z.shiftr (ip6_vfc h) 4 =? 6) || (Z.of_nat (length (ip6 packet)) <? 40 + plen)
  then Ok None else
  if negb (IsBubble h) && negb (ip6_nxt h =? IPPROTO_ICMPV6) then Ok None else
  if negb (is_ipv4_global_unicast (source_ipv4 packet)) then Ok None else
  Ok (Some (h, plen)).

(** Teredo server cases 4 to 7. *)
Definition server_accept (s : teredo_server) (packet : teredo_packet) (h : ip6_hdr) (plen : Z)
    : res bool :=
  rs ← (if IN6_IS_ADDR_LINKLOCAL (ip6_src h) && IN6_ARE_ADDR_EQUAL in6addr_allrouters (ip6_dst h)
        then is_rs packet h plen else Ok false);
  if (rs : bool) then Ok true else
  if IN6_TEREDO_PREFIX (ip6_src h) =? sv_prefix s then
    Ok (in6_matches_teredo_client (ip6_src h) (source_ipv4 packet) (source_port packet))
  else
    Ok ((IN6_TEREDO_PREFIX (ip6_dst h) =? sv_prefix s) &&
        (IN6_TEREDO_SERVER (ip6_dst h) =? sv_ip s)).

(** The packet comes from the server itself. *)
Definition from_self (s : teredo_server) (packet : teredo_packet) : bool :=
  ((source_ipv4 packet =? sv_ip s) || (source_ipv4 packet =? sv_ip2 s))
  && (source_port packet =? htons IPPORT_TEREDO).

(** After [accept:]. *)
Definition server_handle (s : teredo_server) (sec : bool) (packet : teredo_packet) (h : ip6_hdr)
    (plen : Z) : st world Z :=
  if from_self s packet then mret (-2) else
  if IN6_ARE_ADDR_EQUAL in6addr_allrouters (ip6_dst h)
     || IN6_ARE_ADDR_EQUAL (ip6_of (lladdr s)) (ip6_dst h)
  then
    rs ← lift (is_rs packet h plen);
    if (rs : bool) then
      ok ← SendRA s packet (ip6_src h) sec; mret (if (ok : bool) then 1 else -1)
    else mret (-2)
  else
  if negb (IN6_IS_ADDR_GLOBAL (ip6_dst h)) then mret (-2) else
  if negb (ip6_nxt h =? IPPROTO_NONE) && (88 <? plen) then mret (-2) else
  if negb (IN6_TEREDO_PREFIX (ip6_dst h) =? sv_prefix s) then
    ok ← teredo_send_ipv6 (ip6 packet) (Z.to_nat (40 + plen)); mret (if (ok : bool) then 2 else -1)
  else
    ok ← teredo_forward_udp (fd_primary s) packet (IN6_TEREDO_SERVER (ip6_dst h) =? sv_ip s);
    mret (if (ok : bool) then 3 else -1).

Definition server_packet (s : teredo_server) (sec : bool) (packet : teredo_packet) : st world Z :=
  checked ← lift (server_check packet);
  match checked with
  | None => mret (-2)
  | Some (h, plen) =>
    ok ← lift (server_accept s packet h plen);
    if (ok : bool) then server_handle s sec packet h plen else mret (-2)
  end.

(** [p0] and [fill]: the uninitialised packet on the stack. *)
Definition teredo_process_packet (s : teredo_server) (sec : bool) (p0 : teredo_packet)
    (fill : list Z) (msg : option datagram) : st world Z :=
  p ← lift (teredo_recv_inner p0 fill msg);
  match p with
  | None => mret (-1)
  | Some packet => server_packet s sec packet
  end.
End server.

(** ** Creation *)

Definition UINT_MAX : Z := 2 ^ 32 - 1.

(** Creation of the raw socket by the first user: [sock] is what [socket]
    returns.  [None]: too many users. *)
Definition raw_acquire (sock : Z) (r : raw_socket) : option raw_socket :=
  if raw_users r =? UINT_MAX then None else
  Some (if raw_users r =? 0 then mk_raw_socket sock (raw_users r + 1)
        else mk_raw_socket (raw_fd r) (raw_users r + 1)).

Definition new_server (ip1 ip2 fd1 fd2 : Z) : teredo_server := {|
  fd_primary := fd1; fd_secondary := fd2; sv_ip := ip1; sv_ip2 := ip2;
  sv_prefix := htonl TEREDO_PREFIX;
  advLinkMTU := htonl 1280;
  lladdr := {| prefix := htonl 0xfe800000; server_ip := 0; flags := htons TEREDO_FLAG_CONE;
               client_port := unot 16 (htons IPPORT_TEREDO); client_ip := unot 32 ip1 |};
|}.

(** [sock], [fd1], [fd2]: the results of [socket] and of the two calls of
    [teredo_socket]; [mem]: whether [malloc] succeeds. *)
Definition teredo_server_create (ip1 ip2 sock fd1 fd2 : Z) (mem : bool) (r : raw_socket)
    : option teredo_server * raw_socket :=
  match raw_acquire sock r with
  | None => (None, r)
  | Some r =>
    if raw_fd r =? -1 then (None, r) else
    if negb (is_ipv4_global_unicast ip1) || negb (is_ipv4_global_unicast ip2) then (None, r) else
    if negb mem then (None, r) else
    if fd1 =? -1 then (None, r) else
    if fd2 =? -1 then (None, r) else
    (Some (new_server ip1 ip2 fd1 fd2), r)
  end.

Definition teredo_server_destroy (r : raw_socket) : raw_socket :=
  mk_raw_socket (raw_fd r) (wrap 32 (raw_users r - 1)).

Definition teredo_server_set_prefix (p : Z) (s : teredo_server) : bool * teredo_server :=
  if is_valid_teredo_prefix p then
    (true, mk_teredo_server (fd_primary s) (fd_secondary s) (sv_ip s) (sv_ip2 s) p
             (advLinkMTU s) (lladdr s))
  else (false, s).

Definition teredo_server_get_prefix (s : teredo_server) : Z := sv_prefix s.

Definition teredo_server_set_MTU (m : Z) (s : teredo_server) : bool * teredo_server :=
  if m <? 1280 then (false, s) else
  (true, mk_teredo_server (fd_primary s) (fd_secondary s) (sv_ip s) (sv_ip2 s) (sv_prefix s)
           (htonl m) (lladdr s)).

Definition teredo_server_get_MTU (s : teredo_server) : Z := wrap 16 (ntohl (advLinkMTU s)).

(** ** What a server may send *)

Inductive server_output (s : teredo_server) (p : teredo_packet) (h : ip6_hdr) : list event -> Prop :=
| out_nothing : server_output s p h []
| out_advert fd :
    (* a router advertisement, back to the sender of a solicitation *)
    from_self s p = false -> ip6_nxt h = IPPROTO_ICMPV6 ->
    server_output s p h
      [Sendmsg fd (source_ipv4 p) (source_port p)
         (auth_header (auth_nonce p) ++ orig_header (source_port p) (source_ipv4 p) ++
          ra_bytes s (ip6_src h))]
| out_forward orig :
    (* the packet, to the client designated by its destination address *)
    from_self s p = false ->
    is_ipv4_global_unicast (IN6_TEREDO_IPV4 (ip6_dst h)) = true ->
    IN6_TEREDO_PREFIX (ip6_dst h) = sv_prefix s ->
    orig = [] \/ orig = orig_header (source_port p) (source_ipv4 p) ->
    server_output s p h
      [Sendmsg (fd_primary s) (IN6_TEREDO_IPV4 (ip6_dst h)) (IN6_TEREDO_PORT (ip6_dst h))
         (orig ++ ip6 p)]
| out_native n data :
    (* at most ten attempts to send a small packet to the IPv6 Internet, from
       the address that the UDP source of the packet is entitled to *)
    from_self s p = false -> (n <= 10)%nat -> (length data <= 128)%nat ->
    data = take (length data) (ip6 p) ->
    IN6_IS_ADDR_GLOBAL (ip6_dst h) = true -> IN6_TEREDO_PREFIX (ip6_dst h) <> sv_prefix s ->
    IN6_TEREDO_PREFIX (ip6_src h) = sv_prefix s ->
    in6_matches_teredo_client (ip6_src h) (source_ipv4 p) (source_port p) = true ->
    server_output s p h (repeat (Sendto_raw data (ip6_dst h)) n).

Section outputs.
Context `{Env}.

Lemma send_tries_outputs n data dst w :
  outputs (send_tries n data dst) w
    (fun _ evs => exists m, (m <= n)%nat /\ evs = repeat (Sendto_raw data dst) m).
Proof.
  revert w. induction n as [|n IH]; intros w; cbn [send_tries].
  - apply outputs_ret. by exists 0%nat.
  - set (w1 := mk_world (S (w_k w)) (w_out w ++ [Sendto_raw data dst])).
    destruct (env_sendto (w_k w)) as [r|e] eqn:Er; [|destruct (soft_error e) eqn:Es].
    + exists (r =? Z.of_nat (length data)), w1, [Sendto_raw data dst].
      unfold mbind, st_bind, emit, ask. cbn [w_k w_out]. rewrite Er.
      split_and!; [done..|]. exists 1%nat. split; [lia|done].
    + destruct (IH w1) as (r & w' & evs & E & Ew & m & Hm & ->).
      exists r, w', (repeat (Sendto_raw data dst) (S m)).
      unfold mbind, st_bind, emit, ask. cbn [w_k w_out]. rewrite Er, Es. fold w1. rewrite E.
      split_and!; [done| |by exists (S m); split; [lia|]].
      rewrite Ew. cbn [w_out w1 repeat]. by rewrite <- app_assoc.
    + exists false, w1, [Sendto_raw data dst].
      unfold mbind, st_bind, emit, ask. cbn [w_k w_out]. rewrite Er, Es.
      split_and!; [done..|]. exists 1%nat. split; [lia|done].
Qed.

Lemma SendRA_outputs s p dst sec w :
  outputs (SendRA s p dst sec) w (fun _ evs => exists fd, evs =
    [Sendmsg fd (source_ipv4 p) (source_port p)
       (auth_header (auth_nonce p) ++ orig_header (source_port p) (source_ipv4 p) ++
        ra_bytes s dst)]).
Proof.
  unfold SendRA. eapply outputs_map; [apply sendv_outputs|]. intros ? evs ->.
  rewrite !join_cons, join_nil, app_nil_r. eauto.
Qed.
End outputs.

(** ** Safety of the server *)

Lemma server_check_ok p :
  bytes_ok (ip6 p) ->
  exists r, server_check p = Ok r /\
    (forall h plen, r = Some (h, plen) ->
       get_ip6 (ip6 p) = Ok h /\ plen = ntohs (ip6_plen h) /\
       40 + plen <= Z.of_nat (length (ip6 p)) /\ (IsBubble h = true \/ ip6_nxt h = IPPROTO_ICMPV6) /\
       is_ipv4_global_unicast (source_ipv4 p) = true).
Proof.
  intros Hb. unfold server_check. destruct (Nat.ltb_spec (length (ip6 p)) 40); [by eexists|].
  destruct (get_ip6_ok (ip6 p)) as [h Hh]; [lia|]. rewrite Hh. cbn [mbind res_bind].
  destruct (_ || _) eqn:E1; [by eexists|].
  destruct (_ && _) eqn:E2; [by eexists|].
  destruct (negb (is_ipv4_global_unicast _)) eqn:E3; [by eexists|].
  eexists. split; [done|]. intros h' plen [= <- <-]. reflect_bools. split_and!; try done.
  apply andb_false_iff in E2 as [E2|E2]; apply negb_false_iff in E2; [by left|right].
  by apply Z.eqb_eq.
Qed.

Lemma is_rs_ok p h plen :
  0 <= plen -> 40 + plen <= Z.of_nat (length (ip6 p)) ->
  exists b, is_rs p h plen = Ok b /\ (b = true -> ip6_nxt h = IPPROTO_ICMPV6).
Proof.
  intros H0 Hl. unfold is_rs. destruct (_ && _) eqn:E; [|by exists false].
  reflect_bools. unfold sizeof_nd_router_solicit in *.
  destruct (rd8_ok 40 (ip6 p)) as (x & -> & _); [lia|]. by eexists.
Qed.

Definition accepted (s : teredo_server) (p : teredo_packet) (h : ip6_hdr) : Prop :=
  IN6_ARE_ADDR_EQUAL in6addr_allrouters (ip6_dst h) = true \/
  (IN6_TEREDO_PREFIX (ip6_src h) = sv_prefix s /\
   in6_matches_teredo_client (ip6_src h) (source_ipv4 p) (source_port p) = true) \/
  IN6_TEREDO_PREFIX (ip6_dst h) = sv_prefix s.

Lemma server_accept_ok s p h plen :
  0 <= plen -> 40 + plen <= Z.of_nat (length (ip6 p)) ->
  exists b, server_accept s p h plen = Ok b /\ (b = true -> accepted s p h).
Proof.
  intros H0 Hl. unfold server_accept, accepted.
  destruct (is_rs_ok p h plen H0 Hl) as (rs & Ers & _).
  destruct (IN6_IS_ADDR_LINKLOCAL _ && IN6_ARE_ADDR_EQUAL _ _) eqn:Ea.
  - reflect_bools. rewrite Ers. cbn [mbind res_bind].
    destruct rs; [exists true; eauto|].
    destruct (_ =? _); eexists; (split; [done|]); auto.
  - cbn [mbind res_bind]. destruct (Z.eqb_spec (IN6_TEREDO_PREFIX (ip6_src h)) (sv_prefix s)).
    + eexists. split; [done|]. eauto.
    + eexists. split; [done|]. intros E. reflect_bools. auto.
Qed.

Lemma server_handle_ok `{Env} s sec p h plen w :
  get_ip6 (ip6 p) = Ok h -> 0 <= plen -> 40 + plen <= Z.of_nat (length (ip6 p)) ->
  accepted s p h -> IsBubble h = true \/ ip6_nxt h = IPPROTO_ICMPV6 -> plen = ntohs (ip6_plen h) ->
  outputs (server_handle s sec p h plen) w (fun _ evs => server_output s p h evs).
Proof.
  intros Hh H0 Hl Hacc Hbub Hplen. unfold server_handle.
  destruct (from_self s p) eqn:Eself; [apply outputs_ret, out_nothing|].
  destruct (IN6_ARE_ADDR_EQUAL in6addr_allrouters (ip6_dst h)) eqn:Er; cbn [orb].
  2: destruct (IN6_ARE_ADDR_EQUAL (ip6_of (lladdr s)) (ip6_dst h)) eqn:Er2; cbn [orb].
  1,2: destruct (is_rs_ok p h plen H0 Hl) as (rs & Ers & Hrs); apply (outputs_lift _ rs _ _ _ Ers);
    destruct rs; [|apply outputs_ret, out_nothing];
    (eapply outputs_map; [apply SendRA_outputs|]); intros ? evs [fd ->]; apply out_advert; auto.
  destruct (IN6_IS_ADDR_GLOBAL (ip6_dst h)) eqn:Eg; cbn [negb]; [|apply outputs_ret, out_nothing].
  destruct (negb (ip6_nxt h =? IPPROTO_NONE) && (88 <? plen)) eqn:Esz;
    [apply outputs_ret, out_nothing|].
  assert (plen <= 88) as Hsz.
  { apply andb_false_iff in Esz as [E|E]; reflect_bools; [|lia].
    destruct Hbub as [Hbub|Hi]; [|rewrite E in Hi; discriminate].
    unfold IsBubble in Hbub. reflect_bools.
    rewrite Hplen. match goal with E0 : ip6_plen h = 0 |- _ => rewrite E0 end. vm_compute. congruence. }
  destruct (Z.eqb_spec (IN6_TEREDO_PREFIX (ip6_dst h)) (sv_prefix s)) as [Ep|Ep]; cbn [negb].
  - unfold teredo_forward_udp. eapply outputs_map; [|intros ? ? Ho; exact Ho].
    apply (outputs_lift _ h _ _ _ Hh).
    destruct (is_ipv4_global_unicast _) eqn:Egl; cbn [negb]; [|apply outputs_ret, out_nothing].
    eapply outputs_map; [apply sendv_outputs|]. intros ? evs ->.
    rewrite !join_cons, join_nil, app_nil_r. apply out_forward; [done..|].
    destruct (IN6_TEREDO_SERVER _ =? _); [by right|by left].
  - unfold teredo_send_ipv6. eapply outputs_map; [|intros ? ? Ho; exact Ho].
    apply (outputs_lift _ h _ _ _ Hh).
    assert (slice 0 (Z.to_nat (40 + plen)) (ip6 p) = Ok (take (Z.to_nat (40 + plen)) (ip6 p))) as Esl
      by (rewrite slice_ok; [done|lia]).
    apply (outputs_lift _ _ _ _ _ Esl).
    eapply outputs_mono; [apply send_tries_outputs|]. intros _ evs (n & Hn & ->).
    assert (length (take (Z.to_nat (40 + plen)) (ip6 p)) = Z.to_nat (40 + plen)) as HL
      by (rewrite length_take; lia).
    destruct Hacc as [Ha|[[Ha1 Ha2]|Ha]]; [congruence| |done].
    apply out_native; try done; [rewrite HL; lia|by rewrite HL].
Qed.

Lemma server_packet_ok `{Env} s sec p w :
  bytes_ok (ip6 p) ->
  outputs (server_packet s sec p) w (fun _ evs =>
    evs = [] \/ exists h, get_ip6 (ip6 p) = Ok h /\ server_output s p h evs).
Proof.
  intros Hb. unfold server_packet. destruct (server_check_ok p Hb) as (r & Er & Hr).
  apply (outputs_lift _ r _ _ _ Er). destruct r as [[h plen]|]; [|apply outputs_ret; by left].
  destruct (Hr h plen eq_refl) as (Hh & Ep & Hl & Hbub & _).
  assert (0 <= plen) as H0.
  { rewrite Ep. apply (bswap_bounds 2 (ip6_plen h)). }
  destruct (server_accept_ok s p h plen H0 Hl) as (b & Eb & Hacc).
  apply (outputs_lift _ b _ _ _ Eb). destruct b; [|apply outputs_ret; by left].
  eapply outputs_mono; [by apply server_handle_ok; auto|]. eauto.
Qed.

(** ** Reception of what clients and servers build *)

Lemma list8 (l : list Z) : length l = 8%nat ->
  exists a b c d e f g h, l = [a; b; c; d; e; f; g; h].
Proof.
  intros Hl. do 8 (destruct l as [|? l]; [done|]). destruct l; [|done]. eauto 20.
Qed.

(** An authenticated datagram without, and with, an origin indication. *)
Lemma recv_spec_auth p nonce b data ip port cm :
  length nonce = 8%nat -> b <> 0 ->
  recv_spec p (mk_datagram (auth_header nonce ++ b :: data) ip port cm) =
  Some (set_orig (recv_packet p (mk_datagram (auth_header nonce ++ b :: data) ip port cm)
                   (Some (nonce, false))) (b :: data) 0 0).
Proof.
  intros Hn Hb. destruct (list8 nonce Hn) as (n0 & n1 & n2 & n3 & n4 & n5 & n6 & n7 & ->).
  unfold recv_spec, auth_header. cbn [dg_data app].
  change (Z.to_nat (0 + 0)) with 0%nat. rewrite decide_False by (cbn; lia).
  cbn [drop take nth Nat.add]. change (negb (0 =? 0)) with false.
  unfold orig_spec. destruct b; done.
Qed.

Lemma recv_spec_auth_orig p nonce data ip port oip oport cm :
  length nonce = 8%nat -> 0 <= oport < 2 ^ 16 -> 0 <= oip < 2 ^ 32 ->
  recv_spec p (mk_datagram (auth_header nonce ++ orig_header oport oip ++ data) ip port cm) =
  Some (set_orig (recv_packet p (mk_datagram (auth_header nonce ++ orig_header oport oip ++ data) ip port cm)
                   (Some (nonce, false))) data oport oip).
Proof.
  intros Hn Hp Hi. destruct (list8 nonce Hn) as (n0 & n1 & n2 & n3 & n4 & n5 & n6 & n7 & ->).
  pose proof (unot_bounds 16 oport ltac:(lia) Hp) as Hp'.
  pose proof (unot_bounds 32 oip ltac:(lia) Hi) as Hi'.
  pose proof (le_load_split_small 2 (unot 16 oport) Hp') as Ep.
  pose proof (le_load_split_small 4 (unot 32 oip) Hi') as Ei.
  unfold recv_spec, auth_header, orig_header. cbn [dg_data app].
  change (Z.to_nat (0 + 0)) with 0%nat.
  rewrite decide_False by (cbn [length]; rewrite ?length_app; cbn; lia).
  cbn [drop take nth Nat.add]. change (negb (0 =? 0)) with false.
  unfold orig_spec, teredo_orig_ind.
  destruct (le_split 2 (unot 16 oport)) as [|p0 [|p1 [|]]] eqn:E2;
    try (apply (f_equal length) in E2; by rewrite length_le_split in E2).
  destruct (le_split 4 (unot 32 oip)) as [|a0 [|a1 [|a2 [|a3 [|]]]]] eqn:E4;
    try (apply (f_equal length) in E4; by rewrite length_le_split in E4).
  cbn [app]. rewrite Ep, Ei, !unot_involutive. done.
Qed.

(** ** The advertisement, seen by the client *)

(** What the setters of the server guarantee. *)
Record server_wf (s : teredo_server) : Prop := {
  swf_prefix : 0 <= sv_prefix s < 2 ^ 32;
  swf_valid : is_valid_teredo_prefix (sv_prefix s) = true;
  swf_obsolete : sv_prefix s <> htonl TEREDO_PREFIX_OBSOLETE;
  swf_ip : 0 < sv_ip s < 2 ^ 32;
  swf_mtu : 0 <= advLinkMTU s < 2 ^ 32;
  swf_mtu_range : 1280 <= ntohl (advLinkMTU s) <= 65535;
}.

Lemma ra_header_wf s : ip6_hdr_wf (ra_header s teredo_restrict).
Proof.
  unfold ip6_hdr_wf, ra_header; cbn [ip6_flow ip6_plen ip6_nxt ip6_hlim ip6_src ip6_dst].
  split_and!; try done; try apply byte_ok_literal; try reflexivity.
  - apply le_split_bytes.
  - apply ip6_of_wf.
  - split; [done|]. bytes_ok_tac.
Qed.

Lemma ra_options_S fuel b off length newaddr net_mtu :
  8 <= length ->
  ra_options (S fuel) b off length newaddr net_mtu =
  (len8 ← rd8 (off + 1) b;
   let optlen := Z.shiftl len8 3 in
   if (length <? optlen) || (optlen =? 0) then Ok (false, newaddr, net_mtu) else
   type ← rd8 off b;
   let next := ra_options fuel b (off + Z.to_nat optlen) (length - optlen) in
   if type =? ND_OPT_PREFIX_INFORMATION then
     if optlen <? sizeof_nd_opt_prefix_info then Ok (false, newaddr, net_mtu) else
     plen ← rd8 (off + 2) b;
     if negb (plen =? 64) then Ok (false, newaddr, net_mtu) else
     if negb (server_ip newaddr =? 0) then Ok (false, newaddr, net_mtu) else
     pi ← slice (off + 16) 8 b;
     next (set_prefix (le_load (take 4 pi)) (set_server_ip (le_load (drop 4 pi)) newaddr)) net_mtu
   else if type =? ND_OPT_MTU then
     mo ← rd32 (off + 4) b;
     let net_mtu := ntohl mo in
     if (net_mtu <? 1280) || (65535 <? net_mtu) then Ok (false, newaddr, net_mtu)
     else next newaddr net_mtu
   else next newaddr net_mtu).
Proof. intros Hl. cbn [ra_options]. by rewrite (proj2 (Z.ltb_ge length 8)) by lia. Qed.

Section advert.
Context (s : teredo_server) (p : teredo_packet) (na : teredo_addr) (m0 : Z).
Hypothesis Hs : server_wf s.
Hypothesis Hp : ip6 p = ra_bytes s teredo_restrict.
Hypothesis Ho : orig_ipv4 p <> 0.

Let h := ra_header s teredo_restrict.
Let c := icmp6_checksum h (ra_body 0 s).

Lemma ra_hdr_len : length (put_ip6 h) = 40%nat.
Proof. apply put_ip6_length, ra_header_wf. Qed.

Lemma ra_rd8 k i : k = (40 + i)%nat -> rd8 k (ra_bytes s teredo_restrict) = rd8 i (ra_body c s).
Proof. intros ->. apply (rd8_app_r _ _ 40), ra_hdr_len. Qed.

Lemma ra_slice k i n :
  k = (40 + i)%nat -> slice k n (ra_bytes s teredo_restrict) = slice i n (ra_body c s).
Proof. intros ->. apply (slice_app_r _ _ 40), ra_hdr_len. Qed.

Lemma ra_options_first fuel a :
  server_ip a = 0 ->
  ra_options (S fuel) (ra_bytes s teredo_restrict) 56 40 a 0 =
  ra_options fuel (ra_bytes s teredo_restrict) 88 8
    (set_prefix (sv_prefix s) (set_server_ip (sv_ip s) a)) 0.
Proof.
  intros Ha. rewrite ra_options_S by lia.
  rewrite (ra_rd8 (56 + 1)%nat 17 eq_refl).
  change (rd8 17 (ra_body c s)) with (Ok 4). cbn [mbind res_bind].
  change (Z.shiftl 4 3) with 32. change ((40 <? 32) || (32 =? 0)) with false. cbv iota zeta.
  rewrite (ra_rd8 56%nat 16 eq_refl).
  change (rd8 16 (ra_body c s)) with (Ok ND_OPT_PREFIX_INFORMATION). cbn [mbind res_bind].
  change (ND_OPT_PREFIX_INFORMATION =? ND_OPT_PREFIX_INFORMATION) with true.
  change (32 <? sizeof_nd_opt_prefix_info) with false. cbv iota.
  rewrite (ra_rd8 (56 + 2)%nat 18 eq_refl).
  change (rd8 18 (ra_body c s)) with (Ok 64). cbn [mbind res_bind].
  change (negb (64 =? 64)) with false. cbv iota. rewrite Ha. change (negb (0 =? 0)) with false.
  cbv iota. rewrite (ra_slice (56 + 16) 32 8 eq_refl).
  change (slice 32 8 (ra_body c s)) with (Ok (le_split 4 (sv_prefix s) ++ le_split 4 (sv_ip s))).
  cbn [mbind res_bind]. rewrite take_app_exact, drop_app_exact by apply length_le_split.
  rewrite !le_load_split_small by (destruct Hs; lia). done.
Qed.

Lemma ra_options_second fuel a :
  ra_options (S fuel) (ra_bytes s teredo_restrict) 88 8 a 0 =
  Ok (true, a, ntohl (advLinkMTU s)).
Proof.
  rewrite ra_options_S by lia.
  rewrite (ra_rd8 (88 + 1)%nat 49 eq_refl).
  change (rd8 49 (ra_body c s)) with (Ok 1). cbn [mbind res_bind].
  change (Z.shiftl 1 3) with 8. change ((8 <? 8) || (8 =? 0)) with false. cbv iota zeta.
  rewrite (ra_rd8 88%nat 48 eq_refl).
  change (rd8 48 (ra_body c s)) with (Ok ND_OPT_MTU). cbn [mbind res_bind].
  change (ND_OPT_MTU =? ND_OPT_PREFIX_INFORMATION) with false.
  change (ND_OPT_MTU =? ND_OPT_MTU) with true. cbv iota.
  unfold rd32. rewrite (ra_slice (88 + 4) 52 4 eq_refl).
  change (slice 52 4 (ra_body c s)) with (Ok (le_split 4 (advLinkMTU s))). cbn [mbind res_bind].
  rewrite le_load_split_small by (destruct Hs; lia). destruct Hs as [_ _ _ _ _ [H1 H2]].
  destruct (Z.ltb_spec (ntohl (advLinkMTU s)) 1280); [lia|].
  destruct (Z.ltb_spec 65535 (ntohl (advLinkMTU s))); [lia|]. cbn [orb]. by destruct fuel.
Qed.

Lemma ra_bytes_parse :
  teredo_parse_ra p na false m0 =
  Ok (true, {| prefix := sv_prefix s; server_ip := sv_ip s; flags := 0;
               client_port := unot 16 (orig_port p); client_ip := unot 32 (orig_ipv4 p) |},
      ntohl (advLinkMTU s)).
Proof.
  unfold teredo_parse_ra. destruct (Z.eqb_spec (orig_ipv4 p) 0); [done|]. rewrite Hp.
  assert (get_ip6 (ra_bytes s teredo_restrict) = Ok h) as -> by apply get_put_ip6, ra_header_wf.
  cbn [mbind res_bind].
  assert (ip6_dst h = teredo_restrict /\ ip6_nxt h = IPPROTO_ICMPV6 /\ ntohs (ip6_plen h) = 56)
    as (-> & -> & ->) by (split_and!; reflexivity).
  change (negb (IN6_ARE_ADDR_EQUAL teredo_restrict teredo_restrict)
          || negb (IPPROTO_ICMPV6 =? IPPROTO_ICMPV6) || (56 <? sizeof_nd_router_advert)) with false.
  cbv iota. rewrite (ra_rd8 40 0 eq_refl), (ra_rd8 41 1 eq_refl). change (rd8 0 (ra_body c s)) with (Ok ND_ROUTER_ADVERT).
  change (rd8 1 (ra_body c s)) with (Ok 0). cbn [mbind res_bind].
  change (56 - sizeof_nd_router_advert) with 40.
  change (negb (ND_ROUTER_ADVERT =? ND_ROUTER_ADVERT) || negb (0 =? 0)
          || (40 <? sizeof_nd_opt_prefix_info)) with false. cbv iota.
  change (Z.to_nat 40) with (S (S 38)).
  rewrite ra_options_first by done. rewrite ra_options_second. cbn [mbind res_bind].
  destruct Hs as [H1 H2 H3 H4 H5 H6]. unfold ra_finish. cbn [prefix set_prefix set_server_ip].
  destruct (Z.eqb_spec (sv_prefix s) (htonl TEREDO_PREFIX_OBSOLETE)); [done|].
  cbn [prefix server_ip set_prefix set_server_ip]. rewrite H2. cbn [negb].
  destruct (Z.eqb_spec (ntohl (advLinkMTU s)) 0); [lia|]. cbn [negb].
  unfold wrap. rewrite Z.mod_small by lia. done.
Qed.
End advert.

(** ** Qualification, end to end *)

Definition rs_bytes : list Z := put_ip6 (rs_header false) ++ rs_body (rs_cksum false).
Definition rs_datagram (nonce : list Z) : list Z := auth_header nonce ++ rs_bytes.

Lemma rs_bytes_hdr : get_ip6 rs_bytes = Ok (rs_header false).
Proof. vm_compute. reflexivity. Qed.

Lemma teredo_send_rs_outputs `{Env} fd ip nonce w :
  outputs (teredo_send_rs fd ip nonce false) w
    (fun _ evs => evs = [Sendmsg fd ip (htons IPPORT_TEREDO) (rs_datagram nonce)]).
Proof.
  unfold teredo_send_rs. eapply outputs_map; [apply sendv_outputs|]. intros ? evs ->.
  by rewrite !join_cons, join_nil, app_nil_r.
Qed.

Lemma server_rs `{Env} s sec q :
  ip6 q = rs_bytes -> is_ipv4_global_unicast (source_ipv4 q) = true -> from_self s q = false ->
  server_packet s sec q =
  (lift (Ok true) ≫= fun _ => ok ← SendRA s q teredo_restrict sec; mret (if (ok : bool) then 1 else -1)).
Proof.
  intros Hq Hg Hf.
  assert (server_check q = Ok (Some (rs_header false, 8))) as Hc.
  { unfold server_check. rewrite Hq, rs_bytes_hdr, Hg. vm_compute. reflexivity. }
  assert (is_rs q (rs_header false) 8 = Ok true) as Hrs.
  { unfold is_rs. rewrite Hq. vm_compute. reflexivity. }
  assert (server_accept s q (rs_header false) 8 = Ok true) as Ha.
  { unfold server_accept. rewrite Hrs. reflexivity. }
  unfold server_packet. rewrite Hc. unfold mbind at 1, st_bind at 1, lift at 1. cbv iota beta.
  rewrite Ha. unfold server_handle. rewrite Hf.
  change (IN6_ARE_ADDR_EQUAL in6addr_allrouters (ip6_dst (rs_header false))) with true.
  cbn [orb]. rewrite Hrs. done.
Qed.

Lemma put_ip6_bytes h : ip6_hdr_wf h -> bytes_ok (put_ip6 h).
Proof.
  intros (H1 & H2 & H3 & H4 & H5 & [_ H6] & [_ H7]). unfold put_ip6.
  rewrite !bytes_ok_app, !bytes_ok_cons. split_and!; try done; [apply le_split_bytes|].
  apply bytes_ok_nil.
Qed.

Lemma ra_bytes_wf s :
  bytes_ok (ra_bytes s teredo_restrict) /\ length (ra_bytes s teredo_restrict) = 96%nat.
Proof.
  pose proof (ra_header_wf s) as Hh. unfold ra_bytes. cbv zeta.
  set (c := icmp6_checksum _ _). clearbody c. split.
  - apply bytes_ok_app. split; [by apply put_ip6_bytes|].
    unfold ra_body, ra_tail.
    rewrite !bytes_ok_app; split_and!; try apply le_split_bytes;
      repeat (apply bytes_ok_cons; split; [by apply byte_ok_literal|]); constructor.
  - rewrite length_app, put_ip6_length by done. unfold ra_body, ra_tail.
    rewrite !length_app, !length_le_split. done.
Qed.

Definition advert_datagram (s : teredo_server) (nonce : list Z) (ip port : Z) : list Z :=
  auth_header nonce ++ orig_header port ip ++ ra_bytes s teredo_restrict.

Lemma bytes_ok_headers nonce ip port :
  bytes_ok nonce -> bytes_ok (auth_header nonce) /\ bytes_ok (orig_header port ip).
Proof.
  intros Hn. split; unfold auth_header, orig_header;
    rewrite !bytes_ok_app; split_and!; try done; try apply le_split_bytes; bytes_ok_tac.
Qed.

(** The client side of the exchange. *)
Lemma advert_accepted s nonce ip port p1 fill cm :
  server_wf s -> length nonce = 8%nat -> bytes_ok nonce -> 0 < ip < 2 ^ 32 -> 0 <= port < 2 ^ 16 ->
  length fill = TEREDO_PACKET_SIZE ->
  exists q, teredo_recv_inner p1 fill
      (Some (mk_datagram (advert_datagram s nonce ip port) (sv_ip s) (htons IPPORT_TEREDO) cm))
      = Ok (Some q) /\
    teredo_maintenance_process q = Ok true /\
    forall st0, exists st1, maintenance_recv q (sv_ip s) nonce false st0 = Ok (0, st1) /\
      addr st1 = mk_teredo_addr (sv_prefix s) (sv_ip s) 0 (unot 16 port) (unot 32 ip) /\
      mtu st1 = ntohl (advLinkMTU s).
Proof.
  intros Hs Hn Hnb Hip Hport Hfill. destruct (ra_bytes_wf s) as [Hrb Hrl].
  destruct (bytes_ok_headers nonce ip port Hnb) as [Hab Hob].
  rewrite recv_inner_correct; [|done| |].
  2: { unfold advert_datagram. cbn [dg_data]. rewrite !length_app, Hrl.
       unfold auth_header, orig_header. rewrite !length_app, !length_le_split, Hn.
       unfold TEREDO_PACKET_SIZE, MAX_TEREDO_PACKET_SIZE. cbn [length]. lia. }
  2: { cbn [dg_data]. unfold advert_datagram. rewrite !bytes_ok_app; split_and!; done. }
  unfold advert_datagram. rewrite recv_spec_auth_orig by (done || lia).
  eexists. split; [reflexivity|].
  set (q := set_orig _ _ _ _).
  assert (ip6 q = ra_bytes s teredo_restrict /\ auth_present q = true /\ auth_nonce q = nonce /\
          auth_fail q = false /\ source_port q = htons IPPORT_TEREDO /\ orig_ipv4 q = ip /\
          orig_port q = port) as (E1 & E2 & E3 & E4 & E5 & E6 & E7) by done.
  clearbody q. split.
  - unfold teredo_maintenance_process. rewrite E1, E2, E5, Z.eqb_refl. cbn [negb orb].
    unfold ra_bytes. rewrite get_put_ip6 by apply ra_header_wf. reflexivity.
  - intros st0. unfold maintenance_recv. rewrite E2, E3, E4, mem_eqb_refl. cbn [negb guard_or mbind res_bind].
    rewrite (ra_bytes_parse s q (addr st0) (mtu st0) Hs E1) by (rewrite E6; lia).
    cbn [mbind res_bind server_ip]. rewrite Z.eqb_refl. cbn [negb orb].
    eexists. split; [reflexivity|]. cbn [addr mtu]. by rewrite E6, E7.
Qed.

(** The server side. *)
Lemma server_answers `{Env} s sec nonce ip port p0 fill cm w :
  length nonce = 8%nat -> bytes_ok nonce -> is_ipv4_global_unicast ip = true ->
  (ip <> sv_ip s /\ ip <> sv_ip2 s) \/ port <> htons IPPORT_TEREDO ->
  length fill = TEREDO_PACKET_SIZE ->
  outputs (teredo_process_packet s sec p0 fill (Some (mk_datagram (rs_datagram nonce) ip port cm))) w
    (fun _ evs => exists fd, evs = [Sendmsg fd ip port (advert_datagram s nonce ip port)]).
Proof.
  intros Hn Hnb Hg Hself Hfill. unfold teredo_process_packet.
  destruct (bytes_ok_headers nonce ip port Hnb) as [Hab _].
  assert (bytes_ok rs_bytes) as Hrb.
  { vm_compute. repeat (constructor; [split; congruence|]). constructor. }
  rewrite recv_inner_correct; [|done| |by apply bytes_ok_app].
  2: { cbn [dg_data]. unfold rs_datagram. rewrite length_app. change (length rs_bytes) with 48%nat.
       unfold auth_header. rewrite !length_app, Hn.
       unfold TEREDO_PACKET_SIZE, MAX_TEREDO_PACKET_SIZE. cbn [length]. lia. }
  unfold rs_datagram. change rs_bytes with (0x60 :: drop 1 rs_bytes).
  rewrite recv_spec_auth by done. change (0x60 :: drop 1 rs_bytes) with rs_bytes.
  set (q := set_orig _ _ _ _).
  assert (ip6 q = rs_bytes /\ auth_nonce q = nonce /\ source_port q = port /\ source_ipv4 q = ip)
    as (E1 & E2 & E3 & E4) by done.
  clearbody q. apply (outputs_lift _ (Some q) _ _ _ eq_refl).
  rewrite server_rs; [|done|by rewrite E4|].
  - apply (outputs_lift _ true _ _ _ eq_refl). eapply outputs_map; [apply SendRA_outputs|].
    intros _ evs [fd ->]. rewrite E2, E3, E4. by exists fd.
  - unfold from_self. rewrite E3, E4. apply andb_false_iff.
    destruct Hself as [[H1 H2]|H1]; [left; apply orb_false_iff; split|right]; by apply Z.eqb_neq.
Qed.

(** (C11) Qualification works end to end, with a server whose prefix is not the
    obsolete 3ffe:831f::/32, and a mapping of the client that is a global unicast
    address and not the server's own: the solicitation that a client sends,
    received by the server from the client's NAT mapping, makes the server send
    exactly one datagram, back to that mapping; received by the client, that
    datagram is handed to the maintenance procedure, passes its nonce check and
    yields the Teredo address made of the server's prefix and address and of
    the mapping, and the server's MTU. *)
Theorem qualification_end_to_end `{Env} (s : teredo_server) (sec : bool) (fd : Z) (nonce : list Z)
    (ip port : Z) (p0 p1 : teredo_packet) (fill0 fill1 : list Z) (cm0 cm1 : list (Z * Z * Z))
    (w0 w1 : world)
    (Hs : server_wf s) (Hn : length nonce = 8%nat) (Hnb : bytes_ok nonce)
    (Hip : 0 < ip < 2 ^ 32) (Hport : 0 <= port < 2 ^ 16) (Hg : is_ipv4_global_unicast ip = true)
    (Hself : (ip <> sv_ip s /\ ip <> sv_ip2 s) \/ port <> htons IPPORT_TEREDO)
    (Hf0 : length fill0 = TEREDO_PACKET_SIZE) (Hf1 : length fill1 = TEREDO_PACKET_SIZE) :
  exists rs ra sfd,
    outputs (teredo_send_rs fd (sv_ip s) nonce false) w0
      (fun _ evs => evs = [Sendmsg fd (sv_ip s) (htons IPPORT_TEREDO) rs]) /\
    outputs (teredo_process_packet s sec p0 fill0 (Some (mk_datagram rs ip port cm0))) w1
      (fun _ evs => evs = [Sendmsg sfd ip port ra]) /\
    exists q, teredo_recv_inner p1 fill1
        (Some (mk_datagram ra (sv_ip s) (htons IPPORT_TEREDO) cm1)) = Ok (Some q) /\
      teredo_maintenance_process q = Ok true /\
      forall st0, exists st1, maintenance_recv q (sv_ip s) nonce false st0 = Ok (0, st1) /\
        addr st1 = mk_teredo_addr (sv_prefix s) (sv_ip s) 0 (unot 16 port) (unot 32 ip) /\
        mtu st1 = ntohl (advLinkMTU s).
Proof.
  destruct (server_answers s sec nonce ip port p0 fill0 cm0 w1 Hn Hnb Hg Hself Hf0)
    as (r & w' & evs & E & Ew & sfd & ->).
  exists (rs_datagram nonce), (advert_datagram s nonce ip port), sfd.
  split; [apply teredo_send_rs_outputs|]. split; [by eexists r, w', _|].
  by apply advert_accepted.
Qed.

Definition example_server : teredo_server :=
  new_server (ipv4 192 0 2 45) (ipv4 192 0 2 46) 5 6.

Lemma example_server_wf : server_wf example_server.
Proof. split; vm_compute; intuition congruence. Qed.

Lemma qualification_end_to_end_witness :
  exists rs ra sfd,
    outputs (@teredo_send_rs quiet_env 3 (sv_ip example_server) (repeat 9 8) false) w0
      (fun _ evs => evs = [Sendmsg 3 (sv_ip example_server) (htons IPPORT_TEREDO) rs]) /\
    outputs (@teredo_process_packet quiet_env example_server false example_packet
               (repeat 0 TEREDO_PACKET_SIZE)
               (Some (mk_datagram rs (ipv4 198 51 100 7) (htons 40000) []))) w0
      (fun _ evs => evs = [Sendmsg sfd (ipv4 198 51 100 7) (htons 40000) ra]).
Proof.
  destruct (@qualification_end_to_end quiet_env example_server false 3 (repeat 9 8)
              (ipv4 198 51 100 7) (htons 40000) example_packet example_packet
              (repeat 0 TEREDO_PACKET_SIZE) (repeat 0 TEREDO_PACKET_SIZE) [] [] w0 w0
              example_server_wf eq_refl ltac:(cbn [repeat]; bytes_ok_tac)
              ltac:(vm_compute; intuition congruence) ltac:(vm_compute; intuition congruence)
              eq_refl ltac:(right; vm_compute; congruence)
              (repeat_length _ _) (repeat_length _ _)) as (rs & ra & sfd & H1 & H2 & _).
  exists rs, ra, sfd. split; [exact H1|exact H2].
Defined.

(** A server is memory safe and not a packet reflector: for every
    datagram it returns, and it sends nothing, or one advertisement back to the
    sender of the datagram, or the packet to the client whose global unicast
    IPv4 address is inside its Teredo destination, or a packet of at most 128
    bytes to a global native IPv6 destination with, as source, a Teredo
    address that matches the sender's own IPv4 address and port; nothing is
    ever sent for a datagram that comes from the server's own addresses. *)
Theorem server_outputs_classified `{Env} (s : teredo_server) (sec : bool) (p0 : teredo_packet)
    (fill : list Z) (d : datagram) (w : world)
    (Hfill : length fill = TEREDO_PACKET_SIZE)
    (Hd : (length (dg_data d) <= TEREDO_PACKET_SIZE)%nat) (Hok : bytes_ok (dg_data d)) :
  outputs (teredo_process_packet s sec p0 fill (Some d)) w (fun _ evs =>
    evs = [] \/ exists p h, recv_spec p0 d = Some p /\ get_ip6 (ip6 p) = Ok h /\
      server_output s p h evs).
Proof.
  unfold teredo_process_packet. rewrite recv_inner_correct by done.
  apply (outputs_lift _ (recv_spec p0 d) _ _ _ eq_refl).
  destruct (recv_spec p0 d) as [p|] eqn:E; [|apply outputs_ret; by left].
  eapply outputs_mono; [apply server_packet_ok; by eapply recv_spec_bytes|].
  intros _ evs [->|(h & Hh & Ho)]; [by left|right]. by exists p, h.
Qed.

Lemma server_outputs_classified_witness :
  outputs (@teredo_process_packet quiet_env example_server false example_packet
             (repeat 0 TEREDO_PACKET_SIZE) (Some example_datagram)) w0 (fun _ evs =>
    evs = [] \/ exists p h, recv_spec example_packet example_datagram = Some p /\
      get_ip6 (ip6 p) = Ok h /\ server_output example_server p h evs).
Proof.
  apply server_outputs_classified.
  - apply repeat_length.
  - apply Nat2Z.inj_le. vm_compute. congruence.
  - vm_compute. repeat (constructor; [split; congruence|]). constructor.
Defined.

(** Despite the limit on the size of the packets it relays, a server
    forwards every byte that follows a bubble in a datagram: a bubble between
    two clients may carry an arbitrary payload past the length announced by its
    header. *)
Theorem server_forwards_trailing_bytes `{Env} (s : teredo_server) (sec : bool) (p : teredo_packet)
    (h : ip6_hdr) (w : world)
    (Hh : get_ip6 (ip6 p) = Ok h) (Hv : Z.shiftr (ip6_vfc h) 4 = 6) (Hbub : IsBubble h = true)
    (Hg : is_ipv4_global_unicast (source_ipv4 p) = true) (Hself : from_self s p = false)
    (Hsrc : IN6_TEREDO_PREFIX (ip6_src h) = sv_prefix s)
    (Hm : in6_matches_teredo_client (ip6_src h) (source_ipv4 p) (source_port p) = true)
    (Hr : IN6_ARE_ADDR_EQUAL in6addr_allrouters (ip6_dst h) = false)
    (Hl : IN6_ARE_ADDR_EQUAL (ip6_of (lladdr s)) (ip6_dst h) = false)
    (Hgl : IN6_IS_ADDR_GLOBAL (ip6_dst h) = true)
    (Hdst : IN6_TEREDO_PREFIX (ip6_dst h) = sv_prefix s)
    (Hdg : is_ipv4_global_unicast (IN6_TEREDO_IPV4 (ip6_dst h)) = true) :
  ntohs (ip6_plen h) = 0 /\
  outputs (server_packet s sec p) w (fun _ evs => exists orig, evs =
    [Sendmsg (fd_primary s) (IN6_TEREDO_IPV4 (ip6_dst h)) (IN6_TEREDO_PORT (ip6_dst h))
       (orig ++ ip6 p)]).
Proof.
  pose proof Hbub as Hbub'. unfold IsBubble in Hbub'. apply andb_true_iff in Hbub' as [Hp Hn].
  apply Z.eqb_eq in Hp, Hn. assert (ntohs (ip6_plen h) = 0) as Hz by by rewrite Hp.
  split; [done|]. destruct (get_ip6_inv _ _ Hh) as (HL & _).
  assert (server_check p = Ok (Some (h, 0))) as Hc.
  { unfold server_check. destruct (Nat.ltb_spec (length (ip6 p)) 40); [lia|].
    rewrite Hh. cbn [mbind res_bind]. rewrite Hv, Hz, Hbub, Hg.
    destruct (Z.ltb_spec (Z.of_nat (length (ip6 p))) (40 + 0)); [lia|]. done. }
  assert (server_accept s p h 0 = Ok true) as Ha.
  { unfold server_accept, IN6_ARE_ADDR_EQUAL in *. rewrite Hr, andb_false_r. cbn [mbind res_bind].
    by rewrite Hsrc, Z.eqb_refl, Hm. }
  unfold server_packet. apply (outputs_lift _ _ _ _ _ Hc), (outputs_lift _ _ _ _ _ Ha).
  unfold server_handle. rewrite Hself, Hr, Hl, Hgl, Hn, Hdst, !Z.eqb_refl. cbn [orb negb andb].
  eapply outputs_map; [|intros ? ? Ho; exact Ho]. unfold teredo_forward_udp.
  apply (outputs_lift _ h _ _ _ Hh). rewrite Hdg. cbn [negb].
  eapply outputs_map; [apply sendv_outputs|]. intros ? evs ->.
  rewrite !join_cons, join_nil, app_nil_r. eauto.
Qed.

Definition example_client (a b c d port : Z) : in6_addr :=
  ip6_of (mk_teredo_addr (htonl TEREDO_PREFIX) (ipv4 192 0 2 45) 0 (unot 16 (htons port))
            (unot 32 (ipv4 a b c d))).

Definition example_trailing : teredo_packet :=
  mk_teredo_packet (bubble_head ++ example_client 198 51 100 7 40000 ++
                    example_client 203 0 113 9 50000 ++ repeat 65 1400)
    (ipv4 198 51 100 7) (htons 40000) 0 0 0 false false [].

Lemma server_forwards_trailing_bytes_witness :
  outputs (@server_packet quiet_env example_server false example_trailing) w0 (fun _ evs =>
    exists orig, evs = [Sendmsg 5 (ipv4 203 0 113 9) (htons 50000) (orig ++ ip6 example_trailing)]) /\
  length (ip6 example_trailing) = 1440%nat.
Proof.
  split; [|vm_compute; reflexivity].
  destruct (get_ip6 (ip6 example_trailing)) as [h|] eqn:E; [|by vm_compute in E].
  assert (h = mk_ip6_hdr [0x60; 0; 0; 0] 0 59 0 (example_client 198 51 100 7 40000)
                (example_client 203 0 113 9 50000)) as Eh.
  { apply (inj Ok). rewrite <- E. vm_compute. reflexivity. }
  destruct (@server_forwards_trailing_bytes quiet_env example_server false example_trailing h w0 E)
    as [_ H]; [subst h; vm_compute; reflexivity..|].
  eapply outputs_mono; [exact H|]. intros _ evs [orig ->]. exists orig. subst h.
  vm_compute (IN6_TEREDO_IPV4 _). vm_compute (IN6_TEREDO_PORT _). reflexivity.
Defined.

(** The raw socket is not shared correctly when creation fails: a server
    whose addresses are refused still counts as a user of the socket, and once
    the creation of the socket has failed, every later attempt to create a
    server in the process fails too, whatever the system would then answer. *)
Theorem server_create_leaks_raw_user (ip1 ip2 sock fd1 fd2 : Z) (mem : bool) (r : raw_socket)
    (Hr : 0 <= raw_users r < UINT_MAX) :
  ((is_ipv4_global_unicast ip1 = false) ->
   exists r', teredo_server_create ip1 ip2 sock fd1 fd2 mem r = (None, r') /\
     raw_users r' = raw_users r + 1) /\
  (raw_users r = 0 ->
   exists r', teredo_server_create ip1 ip2 (-1) fd1 fd2 mem r = (None, r') /\
     forall ip1' ip2' sock' fd1' fd2' mem',
       (teredo_server_create ip1' ip2' sock' fd1' fd2' mem' r').1 = None).
Proof.
  unfold teredo_server_create, raw_acquire. split.
  - intros Hip. destruct (Z.eqb_spec (raw_users r) UINT_MAX); [lia|].
    rewrite Hip. cbn [negb orb]. destruct (raw_users r =? 0); cbn [raw_fd].
    + destruct (sock =? -1); eexists; split; reflexivity.
    + destruct (raw_fd r =? -1); eexists; split; reflexivity.
  - intros E. rewrite E. cbn. eexists. split; [reflexivity|]. intros. cbn. reflexivity.
Qed.

Lemma server_create_leaks_raw_user_witness :
  exists r', teredo_server_create (ipv4 192 0 2 1) (ipv4 192 0 2 2) (-1) 3 4 true
               (mk_raw_socket 0 0) = (None, r') /\
    (teredo_server_create (ipv4 192 0 2 1) (ipv4 192 0 2 2) 7 3 4 true r').1 = None.
Proof.
  destruct (server_create_leaks_raw_user (ipv4 192 0 2 1) (ipv4 192 0 2 2) 7 3 4 true
              (mk_raw_socket 0 0) ltac:(vm_compute; intuition congruence)) as [_ H].
  destruct (H eq_refl) as (r' & E & H'). exists r'. split; [exact E|apply H'].
Defined.
