(* ===== verification/Relay.v ===== *)
(** * Teredo relay and client ([relay.c])

Transmission and reception of IPv6 packets through the tunnel, the
automaton of each peer, and the control functions of the tunnel. *)

From stdpp Require Import base gmap list numbers.
From S2P Require Import Prelude Words Addr Md5 Security Udp Packets PeerList Discovery Maintain.

Definition MAX_PEERS : Z := 1024.
Definition ICMP_RATE_LIMIT_MS : Z := 100.
Definition ICMP6_DST_UNREACH_ADMIN : Z := 1.
Definition ICMP6_DST_UNREACH_ADDR : Z := 3.

(** ** The tunnel *)

(** [struct teredo_tunnel].  The callbacks are booleans: false stands for the
    dummy function.  The read/write lock of the state only brackets sections
    that run without interruption here. *)
Record teredo_tunnel := mk_teredo_tunnel {
  tlist : teredo_peerlist;
  opaque : Z;
  maintenance : bool;                    (* not a null pointer *)
  discovery : option teredo_discovery;
  up_cb : bool;
  down_cb : bool;
  disc_params : option teredo_discovery_params;
  recv_cb : bool;
  icmpv6_cb : bool;
  tstate : teredo_state;
  rl_count : Z;                          (* ratelimit.count *)
  rl_last : Z;                           (* ratelimit.last *)
  trecv : bool;                          (* the reception thread exists *)
  tfd : Z;
}.

Definition set_list (v : teredo_peerlist) (t : teredo_tunnel) : teredo_tunnel :=
  mk_teredo_tunnel v (opaque t) (maintenance t) (discovery t) (up_cb t) (down_cb t) (disc_params t)
    (recv_cb t) (icmpv6_cb t) (tstate t) (rl_count t) (rl_last t) (trecv t) (tfd t).
Definition set_discovery (v : option teredo_discovery) (t : teredo_tunnel) : teredo_tunnel :=
  mk_teredo_tunnel (tlist t) (opaque t) (maintenance t) v (up_cb t) (down_cb t) (disc_params t)
    (recv_cb t) (icmpv6_cb t) (tstate t) (rl_count t) (rl_last t) (trecv t) (tfd t).
Definition set_state (v : teredo_state) (t : teredo_tunnel) : teredo_tunnel :=
  mk_teredo_tunnel (tlist t) (opaque t) (maintenance t) (discovery t) (up_cb t) (down_cb t) (disc_params t)
    (recv_cb t) (icmpv6_cb t) v (rl_count t) (rl_last t) (trecv t) (tfd t).
Definition set_ratelimit (count last : Z) (t : teredo_tunnel) : teredo_tunnel :=
  mk_teredo_tunnel (tlist t) (opaque t) (maintenance t) (discovery t) (up_cb t) (down_cb t) (disc_params t)
    (recv_cb t) (icmpv6_cb t) (tstate t) count last (trecv t) (tfd t).

(** The tunnel and the outside world. *)
Record sys := mk_sys { s_world : world; s_tunnel : teredo_tunnel }.

(** What [malloc] and the tree answer, call after call. *)
Class Mem := {
  mem_node : nat -> bool;
  mem_item : nat -> option teredo_listitem;
  mem_queue : nat -> bool;
}.

Definition in_world {A} (m : st world A) : st sys A := fun s =>
  match m (s_world s) with
  | Ok (a, w) => Ok (a, mk_sys w (s_tunnel s))
  | Err f => Err f
  end.

Definition in_list {A} (f : teredo_peerlist -> res (A * teredo_peerlist)) : st sys A := fun s =>
  match f (tlist (s_tunnel s)) with
  | Ok (a, l) => Ok (a, mk_sys (s_world s) (set_list l (s_tunnel s)))
  | Err f => Err f
  end.

Definition tunnel : st sys teredo_tunnel := gets s_tunnel.
Definition set_tunnel (t : teredo_tunnel) : st sys unit :=
  modify (fun s => mk_sys (s_world s) t).

(** ** Per-peer counters *)

Definition set_bubbles (n : Z) (p : teredo_peer) : teredo_peer :=
  mk_teredo_peer (queue p) (queue_left p) (last_rx p) (last_tx p) (last_ping p)
    (mapped_addr p) (mapped_port p) (trusted p) (local p) n (pings p).
Definition set_pings (n : Z) (p : teredo_peer) : teredo_peer :=
  mk_teredo_peer (queue p) (queue_left p) (last_rx p) (last_tx p) (last_ping p)
    (mapped_addr p) (mapped_port p) (trusted p) (local p) (bubbles p) n.
Definition set_trusted (b : bool) (p : teredo_peer) : teredo_peer :=
  mk_teredo_peer (queue p) (queue_left p) (last_rx p) (last_tx p) (last_ping p)
    (mapped_addr p) (mapped_port p) b (local p) (bubbles p) (pings p).
Definition set_local (b : bool) (p : teredo_peer) : teredo_peer :=
  mk_teredo_peer (queue p) (queue_left p) (last_rx p) (last_tx p) (last_ping p)
    (mapped_addr p) (mapped_port p) (trusted p) b (bubbles p) (pings p).
Definition set_last_ping (n : Z) (p : teredo_peer) : teredo_peer :=
  mk_teredo_peer (queue p) (queue_left p) (last_rx p) (last_tx p) n
    (mapped_addr p) (mapped_port p) (trusted p) (local p) (bubbles p) (pings p).

(** 0 if a ping may be sent, 1 if one was sent recently, -1 if the peer seems
    unreachable; clocks are [unsigned long]. *)
Definition CountPing (p : teredo_peer) (now : Z) : Z * teredo_peer :=
  let res := if pings p =? 0 then 0
             else if 4 <=? pings p then -1
             else if wrap 64 (now - last_ping p) <=? 2 then 1 else 0 in
  if res =? 0 then (res, set_pings (wrap 3 (pings p + 1)) (set_last_ping now p)) else (res, p).

Definition CountBubble (p : teredo_peer) (now : Z) : Z * teredo_peer :=
  let '(res, p) :=
    if 0 <? bubbles p then
      if 4 <=? bubbles p then
        if wrap 64 (now - last_tx p) <=? 300 then (-1, p) else (0, set_bubbles 0 p)
      else if wrap 64 (now - last_tx p) <=? 2 then (1, p) else (0, p)
    else (0, p) in
  if res =? 0 then (res, set_bubbles (wrap 3 (bubbles p + 1)) (TouchTransmit now p)) else (res, p).

Definition SetMappingFromPacket (packet : teredo_packet) (p : teredo_peer) : teredo_peer :=
  SetMapping (source_ipv4 packet) (source_port packet) p.

Definition IsClient (t : teredo_tunnel) : bool := maintenance t.

Section relay.
Context `{Env, Mem} (k : hmac_state).

Definition call_recv_cb (t : teredo_tunnel) (data : list Z) : st world unit :=
  if recv_cb t then emit (Recv_cb data) else mret tt.

(** ** ICMPv6 errors *)

Definition rate_limit (now : Z) (t : teredo_tunnel) : bool * teredo_tunnel :=
  let '(last, count) :=
    if negb (now =? rl_last t) then (now, 1000 / ICMP_RATE_LIMIT_MS) else (rl_last t, rl_count t) in
  if count =? 0 then (false, set_ratelimit count last t)
  else (true, set_ratelimit (if 0 <? count then count - 1 else count) last t).

Definition teredo_send_unreach (code : Z) (packet : list Z) : st sys unit :=
  now ← in_world teredo_clock;
  t ← tunnel;
  let '(ok, t) := rate_limit now t in
  set_tunnel t;;
  if negb ok then mret tt else
  out ← lift (BuildICMPv6Error ICMP6_DST_UNREACH code packet);
  h ← lift (get_ip6 packet);
  if icmpv6_cb t then in_world (emit (Icmpv6_cb out (ip6_src h))) else mret tt.

(** ** State changes *)

(** Lines 190-194: the previous discovery is stopped. *)
Definition stop_discovery : st sys unit :=
  t ← tunnel;
  match discovery t with
  | None => mret tt
  | Some d => lift (teredo_discovery_stop d);; set_tunnel (set_discovery None t)
  end.

Definition teredo_state_change (state : teredo_state) (se : start_env) : st sys unit :=
  t ← tunnel;
  let previously_up := up (tstate t) in
  set_tunnel (set_state state t);;
  if up state then
    stop_discovery;;
    in_list (fun l => l ← teredo_list_reset MAX_PEERS l; Ok (tt, l));;
    t ← tunnel;
    (if up_cb t then in_world (emit (Up_cb (ip6_of (addr state)) (mtu state))) else mret tt);;
    match disc_params t with
    | None => mret tt
    | Some params =>
      d ← in_world (teredo_discovery_start params (tfd t) (ip6_of (addr state)) se);
      set_tunnel (set_discovery d t)
    end
  else if previously_up then
    t ← tunnel;
    if down_cb t then in_world (emit Down_cb) else mret tt
  else mret tt.

(** ** Access to the peer list *)

Definition list_lookup (a : in6_addr) (create : bool) : st sys (option (loc * bool)) :=
  node ← in_world (ask mem_node);
  item ← in_world (ask mem_item);
  in_list (teredo_list_lookup a create node item).

Definition list_release : st sys unit :=
  in_list (fun l => l ← teredo_list_release l; Ok (tt, l)).

Definition peer_get (p : loc) : st sys teredo_peer :=
  in_list (fun l => v ← get_peer p l; Ok (v, l)).

Definition peer_put (p : loc) (v : teredo_peer) : st sys unit :=
  in_list (fun l => l ← put_peer p v l; Ok (tt, l)).

(** ** Transmission *)

Definition teredo_encap (p : loc) (data : list Z) (now : Z) : st sys Z :=
  v ← peer_get p;
  peer_put p (TouchTransmit now v);;
  list_release;;
  t ← tunnel;
  r ← in_world (teredo_send (tfd t) data (mapped_addr v) (mapped_port v));
  mret (if r =? Z.of_nat (length data) then 0 else -1).

Definition enqueue_out (v : teredo_peer) (data : list Z) : st sys teredo_peer :=
  mem ← in_world (ask mem_queue);
  lift (teredo_enqueue_out mem v data).

Definition enqueue_in (v : teredo_peer) (data : list Z) (ip port : Z) : st sys teredo_peer :=
  mem ← in_world (ask mem_queue);
  lift (teredo_enqueue_in mem v data ip port).

(** Client case 2: direct IPv6 connectivity test. *)
Definition transmit_ping (p : loc) (v : teredo_peer) (created : bool) (s : teredo_state)
    (dst : in6_addr) (packet : list Z) (now : Z) : st sys Z :=
  t ← tunnel;
  lift (guard_or AssertFailed (IsClient t));;
  let v := if created then SetMapping 0 0 v else v in
  v ← enqueue_out v packet;
  let '(res, v) := CountPing v now in
  peer_put p v;;
  list_release;;
  res ← (if res =? 0 then in_world (SendPing k (tfd t) (addr s) dst) else mret res);
  (if (res : Z) =? -1 then teredo_send_unreach ICMP6_DST_UNREACH_ADDR packet else mret tt);;
  mret 0.

(** Lines 514-523: the multicast bubble; [teredo_discovery_release] is
    called even on a null pointer. *)
Definition discovery_bubble : st sys unit :=
  t ← tunnel;
  match discovery t with
  | None => lift (Err NullDeref)
  | Some d =>
    d ← lift (teredo_discovery_grab d);
    set_tunnel (set_discovery (Some d) t);;
    in_world (SendDiscoveryBubble d (tfd t));;
    d ← lift (teredo_discovery_release d);
    set_tunnel (set_discovery d t)
  end.

(** Client case 3: untrusted local peer. *)
Definition transmit_local (p : loc) (v : teredo_peer) (s : teredo_state) (dst : in6_addr)
    (packet : list Z) (now : Z) : st sys Z :=
  v ← enqueue_out v packet;
  let '(res, v) := CountBubble v now in
  peer_put p v;;
  list_release;;
  t ← tunnel;
  (if res =? 0 then
     in_world (teredo_send_bubble_anyway (tfd t) (mapped_addr v) (mapped_port v)
                 (ip6_of (addr s)) dst);;
     discovery_bubble
   else mret tt);;
  (if res =? -1 then teredo_send_unreach ICMP6_DST_UNREACH_ADDR packet else mret tt);;
  mret 0.

(** Client case 5 and relay case 3: untrusted non-cone peer. *)
Definition transmit_bubble (p : loc) (v : teredo_peer) (created : bool) (s : teredo_state)
    (dst : in6_addr) (packet : list Z) (now : Z) : st sys Z :=
  let v := if created then SetMapping (IN6_TEREDO_IPV4 dst) (IN6_TEREDO_PORT dst) v else v in
  v ← enqueue_out v packet;
  let '(res, v) := CountBubble v now in
  peer_put p v;;
  list_release;;
  t ← tunnel;
  if res =? 0 then
    r ← (if Z.land (flags (addr s)) (htons TEREDO_FLAG_CONE) =? 0
         then in_world (SendBubbleFromDst k (tfd t) dst false) else mret 0);
    if negb ((r : Z) =? 0) then mret (-1) else
    in_world (SendBubbleFromDst k (tfd t) dst true)
  else
    (if res =? -1 then teredo_send_unreach ICMP6_DST_UNREACH_ADDR packet else mret tt);;
    mret 0.

(** Lines 443-453: what a lookup with creation does to the peer. *)
Definition fresh_peer (v : teredo_peer) : teredo_peer :=
  set_trusted false (set_local false (set_bubbles 0 (set_pings 0 v))).

(** From the lookup on. *)
Definition transmit_peer (s : teredo_state) (dst : in6_addr) (packet : list Z) : st sys Z :=
  now ← in_world teredo_clock;
  r ← list_lookup dst true;
  match r with
  | None => mret (-1)
  | Some (p, created) =>
    v ← peer_get p;
    if negb created && trusted v && IsValid v now then teredo_encap p packet now else
    let v := if (created : bool) then fresh_peer v else v in
    peer_put p v;;
    if negb (IN6_TEREDO_PREFIX dst =? prefix (addr s)) then
      transmit_ping p v created s dst packet now
    else if local v && IsValid v now then transmit_local p v s dst packet now
    else transmit_bubble p v created s dst packet now
  end.

(** Lines 343-433: the checks that do not involve the peer list. *)
Definition teredo_transmit (packet : list Z) : st sys Z :=
  h ← lift (get_ip6 packet);
  let dst := ip6_dst h in
  if s6_addr dst 0 =? 0xff then mret 0 else
  t ← tunnel;
  let s := tstate t in
  if IsClient t && negb (up s) then
    teredo_send_unreach ICMP6_DST_UNREACH_ADDR packet;; mret 0
  else if negb (IN6_TEREDO_PREFIX dst =? prefix (addr s)) then
    if IsClient t then
      if negb (IN6_TEREDO_PREFIX (ip6_src h) =? prefix (addr s)) then
        teredo_send_unreach ICMP6_DST_UNREACH_ADMIN packet;; mret 0
      else transmit_peer s dst packet
    else teredo_send_unreach ICMP6_DST_UNREACH_ADDR packet;; mret 0
  else
    let peer_server := IN6_TEREDO_SERVER dst in
    if negb (is_ipv4_global_unicast peer_server) || (peer_server =? 0) then mret 0
    else transmit_peer s dst packet.

(** ** Reception *)

Definition teredo_islocal (t : teredo_tunnel) (packet : teredo_packet) (h : ip6_hdr) : res bool :=
  match disc_params t, discovery t with
  | Some params, Some d =>
    let our := addr (tstate t) in
    if negb (IN6_TEREDO_PREFIX (ip6_src h) =? prefix our) then Ok false else
    let client_ip' := IN6_TEREDO_IPV4 (ip6_src h) in
    if negb (Z.land (Z.lxor client_ip' (unot 32 (client_ip our))) (disc_netmask params) =? 0)
    then Ok false else
    is_ipv4_discovered (ifaces d) (source_ipv4 packet)
  | _, _ => Ok false
  end.

(** The fields of the peer are still read after the list is released. *)
Definition teredo_predecap (p : loc) (now : Z) : st sys unit :=
  v ← peer_get p;
  let v := set_pings 0 (set_bubbles 0 (TouchReceive now v)) in
  let '(q, v) := teredo_peer_queue_yield v in
  peer_put p v;;
  list_release;;
  t ← tunnel;
  match q with
  | [] => mret tt
  | _ =>
    v ← peer_get p;
    in_world (teredo_queue_emit q (tfd t) (mapped_addr v) (mapped_port v) (call_recv_cb t))
  end.

(** Lines 676-746: reception by a client.  True when the packet is to be
    processed further. *)
Definition run_client (s : teredo_state) (packet : teredo_packet) (h : ip6_hdr) : st sys bool :=
  processed ← lift (teredo_maintenance_process packet);
  if (processed : bool) then in_world (emit (To_maintenance packet));; mret false else
  if negb (up s) then mret false else
  t ← tunnel;
  stop ← (if (source_ipv4 packet =? server_ip (addr s))
             && (source_port packet =? htons IPPORT_TEREDO) then
            let '(ipv4, port) :=
              if (orig_ipv4 packet =? 0) && IsBubble h
                 && (IN6_TEREDO_PREFIX (ip6_src h) =? prefix (addr s))
              then (IN6_TEREDO_IPV4 (ip6_src h), IN6_TEREDO_PORT (ip6_src h))
              else (orig_ipv4 packet, orig_port packet) in
            if negb (ipv4 =? 0) then
              in_world (teredo_reply_bubble (tfd t) ipv4 port h);; mret (IsBubble h)
            else mret false
          else mret false);
  if (stop : bool) then mret false else
  mret (negb ((Z.land (s6_addr (ip6_src h) 0) 0xff =? 0xfe)
              && (Z.land (s6_addr (ip6_src h) 1) 0xc0 =? 0x80))).

(** Client case 4: local discovery bubble.  The bubble counter is updated
    after the list is released. *)
Definition run_discovery_bubble (s : teredo_state) (packet : teredo_packet) (h : ip6_hdr)
    (found : option loc) (now : Z) : st sys unit :=
  found ← match found with
          | Some p => mret (Some p)
          | None =>
            r ← list_lookup (ip6_src h) true;
            match r with
            | None => mret None
            | Some (p, _) =>
              v ← peer_get p;
              peer_put p (set_local false (set_trusted false v));; mret (Some p)
            end
          end;
  match found with
  | None => mret tt
  | Some p =>
    v ← peer_get p;
    let v := if local v then v else set_bubbles 0 v in
    peer_put p (TouchReceive now (set_local true (SetMappingFromPacket packet v)));;
    list_release;;
    v ← peer_get p;
    let '(res, v) := CountBubble v now in
    peer_put p v;;
    if negb (res =? 0) then mret tt else
    t ← tunnel;
    in_world (teredo_send_bubble_anyway (tfd t) (source_ipv4 packet) (source_port packet)
                (ip6_of (addr s)) (ip6_src h));; mret tt
  end.

(** Client cases 1 and 2.  True when the packet was handled. *)
Definition run_known (packet : teredo_packet) (len : nat) (p : loc) (now : Z) : st sys bool :=
  v ← peer_get p;
  t ← tunnel;
  if trusted v && (source_ipv4 packet =? mapped_addr v) && (source_port packet =? mapped_port v)
  then
    teredo_predecap p now;;
    in_world (call_recv_cb t (take len (ip6 packet)));; mret true
  else if IsClient t then
    tm ← in_world (ask env_time);
    r ← lift (CheckPing k tm packet);
    if (r : Z) =? 0 then
      peer_put p (SetMappingFromPacket packet (set_trusted true v));;
      teredo_predecap p now;; mret true
    else mret false
  else mret false.

(** Whether a packet with a Teredo source is acceptable (client cases 3 and
    5, and the two extensions). *)
Definition teredo_source_ok (packet : teredo_packet) (h : ip6_hdr) (v : option teredo_peer)
    (islocal : bool) : res bool :=
  if in6_matches_teredo_client (ip6_src h) (source_ipv4 packet) (source_port packet)
     || match v with
        | Some v => local v && (source_ipv4 packet =? mapped_addr v)
                    && (source_port packet =? mapped_port v)
        | None => islocal
        end
  then Ok true
  else if IsBubble h then r ← CheckBubble k packet; Ok (r =? 0)
  else Ok false.

(** Lines 893-925: the packet is accepted. *)
Definition accept_teredo (packet : teredo_packet) (h : ip6_hdr) (len : nat) (found : option loc)
    (islocal : bool) (now : Z) : st sys unit :=
  t ← tunnel;
  found ← match found with
          | Some p => mret (Some p)
          | None =>
            if IsClient t then
              r ← list_lookup (ip6_src h) true;
              match r with
              | None => mret None
              | Some (p, _) =>
                v ← peer_get p; peer_put p (set_local islocal v);; mret (Some p)
              end
            else mret None
          end;
  match found with
  | None => mret tt
  | Some p =>
    v ← peer_get p;
    peer_put p (set_trusted true (SetMappingFromPacket packet v));;
    teredo_predecap p now;;
    if IsBubble h then mret tt else in_world (call_recv_cb t (take len (ip6 packet)))
  end.

(** Lines 877-927: the source is a Teredo address. *)
Definition run_teredo (packet : teredo_packet) (h : ip6_hdr) (len : nat) (found : option loc)
    (islocal : bool) (now : Z) : st sys unit :=
  v ← match found with Some p => v ← peer_get p; mret (Some v) | None => mret None end;
  ok ← lift (teredo_source_ok packet h v islocal);
  if (ok : bool) then accept_teredo packet h len found islocal now
  else match found with Some _ => list_release | None => mret tt end.

(** Client case 6: lines 929-980. *)
Definition run_unknown (s : teredo_state) (packet : teredo_packet) (h : ip6_hdr) (len : nat)
    (found : option loc) (now : Z) : st sys unit :=
  t ← tunnel;
  lift (guard_or AssertFailed (IsClient t));;
  found ← match found with
          | Some p => mret (Some p)
          | None =>
            r ← list_lookup (ip6_src h) true;
            match r with
            | None => mret None
            | Some (p, create) =>
              v ← peer_get p;
              (if (create : bool) then peer_put p (fresh_peer (SetMapping 0 0 v)) else mret tt);;
              mret (Some p)
            end
          end;
  match found with
  | None => mret tt
  | Some p =>
    v ← peer_get p;
    v ← enqueue_in v (take len (ip6 packet)) (source_ipv4 packet) (source_port packet);
    let '(res, v) := CountPing (TouchReceive now v) now in
    peer_put p v;;
    list_release;;
    if res =? 0 then in_world (SendPing k (tfd t) (addr s) (ip6_src h));; mret tt else mret tt
  end.

(** Lines 843-987: the packet is neither a discovery bubble nor multicast. *)
Definition run_unicast (s : teredo_state) (packet : teredo_packet) (h : ip6_hdr) (len : nat)
    (islocal : bool) (found : option loc) (now : Z) : st sys unit :=
  handled ← match found with Some p => run_known packet len p now | None => mret false end;
  if (handled : bool) then mret tt else
  if IN6_TEREDO_PREFIX (ip6_src h) =? prefix (addr s) then
    run_teredo packet h len found islocal now
  else run_unknown s packet h len found now.

(** Lines 757-841: actual packet reception. *)
Definition run_receive (s : teredo_state) (packet : teredo_packet) (h : ip6_hdr) (len : nat)
    (islocal : bool) : st sys unit :=
  now ← in_world teredo_clock;
  r ← list_lookup (ip6_src h) false;
  let found := match r with Some (p, _) => Some p | None => None end in
  bubble ← (if islocal then lift (IsDiscoveryBubble packet) else mret false);
  if (bubble : bool) then run_discovery_bubble s packet h found now else
  if s6_addr (ip6_dst h) 0 =? 0xff then
    match found with Some _ => list_release | None => mret tt end
  else run_unicast s packet h len islocal found now.

Definition teredo_run_inner (packet : teredo_packet) : st sys unit :=
  if (length (ip6 packet) <? 40)%nat then mret tt else
  h ← lift (get_ip6 (ip6 packet));
  let length := 40 + ntohs (ip6_plen h) in
  if negb (Z.shiftr (ip6_vfc h) 4 =? 6)
     || (Z.of_nat (List.length (ip6 packet)) <? length) then mret tt else
  t ← tunnel;
  let s := tstate t in
  islocal ← lift (teredo_islocal t packet h);
  if IsClient t then
    go ← run_client s packet h;
    if (go : bool) then run_receive s packet h (Z.to_nat length) islocal else mret tt
  else if negb (IN6_TEREDO_PREFIX (ip6_src h) =? prefix (addr s)) then mret tt
  else run_receive s packet h (Z.to_nat length) islocal.

(** [teredo_run], and one round of [teredo_recv_thread]; [p0] and [fill]: the
    packet on the stack. *)
Definition teredo_run (p0 : teredo_packet) (fill : list Z) (msg : option datagram) : st sys unit :=
  p ← lift (teredo_recv_inner p0 fill msg);
  match p with None => mret tt | Some packet => teredo_run_inner packet end.
End relay.

(** ** Creation, destruction and settings *)

Definition tunnel_state0 (ipv4 port : Z) : teredo_state :=
  mk_teredo_state
    (mk_teredo_addr (htonl TEREDO_PREFIX) 0 0 (unot 16 port) (unot 32 ipv4)) 0 0 false.

(** [mem]: the tunnel can be allocated; [fd]: the result of [teredo_socket];
    [lmem], [lthread]: whether the peer list can be created. *)
Definition teredo_create (mem : bool) (fd : Z) (lmem lthread : bool) (ipv4 port : Z)
    : res (option teredo_tunnel) :=
  if negb mem then Ok None else
  if fd =? -1 then Ok None else
  l ← teredo_list_create lmem lthread MAX_PEERS 30;
  match l with
  | None => Ok None
  | Some l => Ok (Some (mk_teredo_tunnel l 0 false None false false None false false
                          (tunnel_state0 ipv4 port) 1 0 false fd))
  end.

(** The memory of the peer list that is still allocated afterwards. *)
Definition teredo_destroy (t : teredo_tunnel) : res (gmap loc teredo_listitem) :=
  guard_or AssertFailed (negb (tfd t =? -1));;
  (match discovery t with
   | Some d => teredo_discovery_stop d;; Ok tt
   | None => Ok tt
   end);;
  teredo_list_destroy (tlist t).

Definition teredo_run_async (mem thread : bool) (t : teredo_tunnel) : Z * teredo_tunnel :=
  if trecv t then (-1, t) else
  match teredo_iothread_start mem thread (tfd t) with
  | None => (-1, t)
  | Some _ =>
    (0, mk_teredo_tunnel (tlist t) (opaque t) (maintenance t) (discovery t) (up_cb t) (down_cb t)
          (disc_params t) (recv_cb t) (icmpv6_cb t) (tstate t) (rl_count t) (rl_last t) true (tfd t))
  end.

Definition with_addr (a : teredo_addr) (t : teredo_tunnel) : teredo_tunnel :=
  set_state (mk_teredo_state a (s_ipv4 (tstate t)) (mtu (tstate t)) (up (tstate t))) t.

Definition teredo_set_prefix (p : Z) (t : teredo_tunnel) : Z * teredo_tunnel :=
  if negb (is_valid_teredo_prefix p) then (-1, t) else
  if maintenance t then (-1, t) else (0, with_addr (set_prefix p (addr (tstate t))) t).

Definition teredo_set_cone_flag (cone : bool) (t : teredo_tunnel) : Z * teredo_tunnel :=
  if maintenance t then (-1, t) else
  let a := addr (tstate t) in
  (0, with_addr (set_flags (if cone then Z.lor (flags a) (htons TEREDO_FLAG_CONE)
                            else Z.land (flags a) (unot 16 (htons TEREDO_FLAG_CONE))) a) t).

Definition teredo_set_relay_mode (t : teredo_tunnel) : Z := if maintenance t then -1 else 0.

(** [lmem], [lthread]: whether the new list can be created; [mmem], [mdup],
    [mthread]: whether the maintenance can be started. *)
Definition teredo_set_client_mode (lmem lthread mmem mdup mthread : bool) (s : option (list Z))
    (t : teredo_tunnel) : res (Z * teredo_tunnel * option (maintenance_conf * mstate)) :=
  if maintenance t then Ok (-1, t, None) else
  newlist ← teredo_list_create lmem lthread MAX_PEERS 600;
  match newlist with
  | None => Ok (-1, t, None)
  | Some newlist =>
    teredo_list_destroy (tlist t);;
    m ← teredo_maintenance_start mmem mdup mthread (tfd t) s 0 0 0 0;
    let t := mk_teredo_tunnel newlist (opaque t) (bool_decide (is_Some m)) (discovery t) (up_cb t) (down_cb t)
               (disc_params t) (recv_cb t) (icmpv6_cb t) (tstate t) (rl_count t) (rl_last t)
               (trecv t) (tfd t) in
    Ok (if bool_decide (is_Some m) then 0 else -1, t, m)
  end.

Definition teredo_set_discovery_params (p : option teredo_discovery_params) (t : teredo_tunnel)
    : res teredo_tunnel :=
  guard_or AssertFailed (IsClient t);;
  Ok (mk_teredo_tunnel (tlist t) (opaque t) (maintenance t) (discovery t) (up_cb t) (down_cb t) p
        (recv_cb t) (icmpv6_cb t) (tstate t) (rl_count t) (rl_last t) (trecv t) (tfd t)).

Definition teredo_set_privdata (v : Z) (t : teredo_tunnel) : Z * teredo_tunnel :=
  (opaque t,
   mk_teredo_tunnel (tlist t) v (maintenance t) (discovery t) (up_cb t) (down_cb t) (disc_params t)
     (recv_cb t) (icmpv6_cb t) (tstate t) (rl_count t) (rl_last t) (trecv t) (tfd t)).

Definition teredo_get_privdata (t : teredo_tunnel) : Z := opaque t.

Definition teredo_set_recv_callback (cb : bool) (t : teredo_tunnel) : teredo_tunnel :=
  mk_teredo_tunnel (tlist t) (opaque t) (maintenance t) (discovery t) (up_cb t) (down_cb t) (disc_params t)
    cb (icmpv6_cb t) (tstate t) (rl_count t) (rl_last t) (trecv t) (tfd t).

Definition teredo_set_icmpv6_callback (cb : bool) (t : teredo_tunnel) : teredo_tunnel :=
  mk_teredo_tunnel (tlist t) (opaque t) (maintenance t) (discovery t) (up_cb t) (down_cb t) (disc_params t)
    (recv_cb t) cb (tstate t) (rl_count t) (rl_last t) (trecv t) (tfd t).

(** A null pointer selects the dummy callback. *)
Definition teredo_set_state_cb (u d : bool) (t : teredo_tunnel) : teredo_tunnel :=
  mk_teredo_tunnel (tlist t) (opaque t) (maintenance t) (discovery t) u d (disc_params t)
    (recv_cb t) (icmpv6_cb t) (tstate t) (rl_count t) (rl_last t) (trecv t) (tfd t).
