(* ===== verification/RelayProofs.v ===== *)
(** * Correctness of the relay ([relay.c])

Safety of every path through transmission and reception, lock discipline,
the rules by which a peer becomes trusted, and rate limits. *)

From stdpp Require Import base gmap list numbers.
From S2P Require Import Prelude Words Addr Md5 Security Udp Packets PeerList Discovery Maintain Relay.

(** ** Running relay code *)

(** [runs E m s Q]: from [s], [m] returns without a fault, everything it sends
    satisfies [E], and [Q] holds of the result. *)
Definition runs {A} (E : event -> Prop) (m : st sys A) (s : sys) (Q : A -> sys -> Prop) : Prop :=
  exists a s' evs, m s = Ok (a, s') /\ w_out (s_world s') = w_out (s_world s) ++ evs /\
    Forall E evs /\ Q a s'.

Section runs.
Context (E : event -> Prop).

Lemma runs_ret {A} (a : A) s (Q : A -> sys -> Prop) : Q a s -> runs E (mret a) s Q.
Proof. intros HQ. exists a, s, []. rewrite app_nil_r. by split_and!; [| |constructor|]. Qed.

Lemma runs_bind {A B} (m : st sys A) (f : A -> st sys B) s Q :
  runs E m s (fun a s' => runs E (f a) s' Q) -> runs E (m ≫= f) s Q.
Proof.
  intros (a & s1 & evs & E1 & Ew & He & b & s2 & evs' & E2 & Ew' & He' & HQ).
  exists b, s2, (evs ++ evs'). unfold mbind, st_bind. rewrite E1. split_and!; [done| | |done].
  - by rewrite Ew', Ew, app_assoc.
  - by apply list.Forall_app.
Qed.

Lemma runs_mono {A} (m : st sys A) s (P Q : A -> sys -> Prop) :
  runs E m s P -> (forall a s', P a s' -> Q a s') -> runs E m s Q.
Proof. intros (a & s1 & evs & E1 & Ew & He & HP) HQ. exists a, s1, evs. auto. Qed.

Lemma runs_weaken (E' : event -> Prop) {A} (m : st sys A) s (Q : A -> sys -> Prop) :
  (forall e, E' e -> E e) -> runs E' m s Q -> runs E m s Q.
Proof.
  intros HE (a & s1 & evs & E1 & Ew & He & HP). exists a, s1, evs. split_and!; try done.
  by eapply list.Forall_impl.
Qed.

Lemma runs_lift {A} (m : res A) s (Q : A -> sys -> Prop) :
  (exists a, m = Ok a /\ Q a s) -> runs E (lift m) s Q.
Proof.
  intros (a & -> & HQ). exists a, s, []. rewrite app_nil_r. by split_and!; [| |constructor|].
Qed.

Lemma runs_tunnel s (Q : teredo_tunnel -> sys -> Prop) : Q (s_tunnel s) s -> runs E tunnel s Q.
Proof.
  intros HQ. exists (s_tunnel s), s, []. rewrite app_nil_r. by split_and!; [| |constructor|].
Qed.

Lemma runs_set_tunnel t s (Q : unit -> sys -> Prop) :
  Q tt (mk_sys (s_world s) t) -> runs E (set_tunnel t) s Q.
Proof.
  intros HQ. exists tt, (mk_sys (s_world s) t), []. rewrite app_nil_r.
  by split_and!; [| |constructor|].
Qed.

Lemma runs_world {A} (m : st world A) s (P : A -> list event -> Prop) (Q : A -> sys -> Prop) :
  outputs m (s_world s) P ->
  (forall a evs w, P a evs -> Forall E evs /\ Q a (mk_sys w (s_tunnel s))) ->
  runs E (in_world m) s Q.
Proof.
  intros (a & w' & evs & E1 & Ew & HP) HQ. destruct (HQ a evs w' HP) as [He Hq].
  exists a, (mk_sys w' (s_tunnel s)), evs. unfold in_world. rewrite E1. by split_and!.
Qed.

Lemma runs_list {A} (f : teredo_peerlist -> res (A * teredo_peerlist)) s (Q : A -> sys -> Prop) :
  (exists a l, f (tlist (s_tunnel s)) = Ok (a, l) /\
     Q a (mk_sys (s_world s) (set_list l (s_tunnel s)))) ->
  runs E (in_list f) s Q.
Proof.
  intros (a & l & E1 & HQ). exists a, (mk_sys (s_world s) (set_list l (s_tunnel s))), [].
  unfold in_list. rewrite E1, app_nil_r. by split_and!; [| |constructor|].
Qed.

Lemma runs_ask {A} (f : nat -> A) s (Q : A -> sys -> Prop) :
  (forall n w, Q (f n) (mk_sys w (s_tunnel s))) -> runs E (in_world (ask f)) s Q.
Proof.
  intros HQ. exists (f (w_k (s_world s))), (mk_sys (mk_world (S (w_k (s_world s)))
    (w_out (s_world s))) (s_tunnel s)), []. rewrite app_nil_r.
  by split_and!; [| |constructor|].
Qed.
End runs.

(** The list enters only through its interface. *)
Section relay_proofs.
Context {PM : PeerMap}.

(** ** States of the peer list during a call *)

Definition peers := in6_addr -> option teredo_peer.

Definition upd_peers (V : peers) (key : in6_addr) (v : teredo_peer) : peers :=
  fun k' => if decide (k' = key) then Some v else V k'.

(** The list is free and maps addresses to peers as [V] does. *)
Definition Free (t : teredo_tunnel) (V : peers) (s : sys) : Prop :=
  exists l, s_tunnel s = set_list l t /\ pm_ok l /\ locked l = false /\ forall k', pm_view l k' = V k'.

(** The list is locked by the caller, who holds the peer [p] of [key]. *)
Definition Held (t : teredo_tunnel) (p : loc) (key : in6_addr) (v : teredo_peer) (V : peers)
    (s : sys) : Prop :=
  exists l, s_tunnel s = set_list l t /\ pm_ok l /\ locked l = true /\ pm_at l p key /\
    pm_view l key = Some v /\ forall k', k' <> key -> pm_view l k' = V k'.

(** The list was released, the caller still has the pointer. *)
Definition Freed (t : teredo_tunnel) (p : loc) (key : in6_addr) (V : peers) (s : sys) : Prop :=
  exists l, s_tunnel s = set_list l t /\ pm_ok l /\ locked l = false /\ pm_at l p key /\
    forall k', pm_view l k' = V k'.

Lemma Freed_Free t p key V s : Freed t p key V s -> Free t V s.
Proof. intros (l & H1 & H2 & H3 & H4 & H5). by exists l. Qed.

Lemma Free_world t V s w : Free t V s -> Free t V (mk_sys w (s_tunnel s)).
Proof. done. Qed.

Section list_ops.
Context `{Env, Mem} (E : event -> Prop) (t : teredo_tunnel).

Lemma runs_lookup key create V s (Q : option (loc * bool) -> sys -> Prop) :
  Free t V s ->
  (forall s', Free t V s' -> V key = None -> Q None s') ->
  (forall p v s', Held t p key v V s' -> V key = Some v -> Q (Some (p, false)) s') ->
  (forall p g s', Held t p key (teredo_peer_init g) V s' -> V key = None -> create = true ->
     Q (Some (p, true)) s') ->
  runs E (list_lookup key create) s Q.
Proof.
  intros (l & Et & Hok & Hlk & HV) HN HF HC. unfold list_lookup.
  apply runs_bind, runs_ask. intros n1 w1. apply runs_bind, runs_ask. intros n2 w2. cbn [s_tunnel].
  apply runs_list. rewrite Et. cbn [tlist set_list s_tunnel].
  destruct (pm_lookup l key create (mem_node n1) (mem_item n2) Hok Hlk)
    as (r & l' & -> & Hok' & Hpost). exists r, l'. split; [done|].
  destruct r as [[p [|]]|].
  - destruct Hpost as (Hlk' & Hd & Hother & Hc & Hnone & g & _ & Hv).
    apply (HC p (peer g)); [|by rewrite <- HV|done]. exists l'. split_and!; try done.
    intros k' Hk'. by rewrite Hother, HV.
  - destruct Hpost as (Hlk' & Hd & Hother & Hsame & [v Hv]).
    apply (HF p v); [|by rewrite <- HV]. exists l'. split_and!; try done.
    + by rewrite Hsame.
    + intros k' Hk'. by rewrite Hother, HV.
  - destruct Hpost as (Hlk' & Hsame & Hnone). apply HN.
    + exists l'. split_and!; try done. intros k'. by rewrite Hsame, HV.
    + by rewrite <- HV.
Qed.

Lemma runs_get p key v V s (Q : teredo_peer -> sys -> Prop) :
  Held t p key v V s -> (forall s', Held t p key v V s' -> Q v s') -> runs E (peer_get p) s Q.
Proof.
  intros (l & Et & Hok & Hlk & Hd & Hv & HV) HQ. unfold peer_get. apply runs_list. rewrite Et.
  cbn [tlist set_list s_tunnel]. destruct (pm_get l p key Hok Hd) as (v' & -> & Hv').
  rewrite Hv in Hv'. injection Hv' as <-. cbn [mbind res_bind]. exists v, l. split; [done|].
  apply HQ. exists l. by split_and!.
Qed.

Lemma runs_put p key v v' V s (Q : unit -> sys -> Prop) :
  Held t p key v V s -> (forall s', Held t p key v' V s' -> Q tt s') ->
  runs E (peer_put p v') s Q.
Proof.
  intros (l & Et & Hok & Hlk & Hd & Hv & HV) HQ. unfold peer_put. apply runs_list. rewrite Et.
  cbn [tlist set_list s_tunnel].
  destruct (pm_put l p key v' Hok Hd) as (l' & -> & Hok' & Hlk' & Hat & Hv' & Hother).
  cbn [mbind res_bind]. exists tt, l'. split; [done|]. apply HQ. exists l'.
  split_and!; try done.
  - congruence.
  - intros k' Hk'. by rewrite Hother, HV.
Qed.

Lemma runs_release p key v V s (Q : unit -> sys -> Prop) :
  Held t p key v V s -> (forall s', Freed t p key (upd_peers V key v) s' -> Q tt s') ->
  runs E list_release s Q.
Proof.
  intros (l & Et & Hok & Hlk & Hd & Hv & HV) HQ. unfold list_release. apply runs_list. rewrite Et.
  cbn [tlist set_list s_tunnel].
  destruct (pm_release l Hok Hlk) as (l' & -> & Hok' & Hlk' & Hat & Hsame).
  cbn [mbind res_bind]. exists tt, l'. split; [done|]. apply HQ. exists l'.
  split_and!; try done.
  - by apply Hat.
  - intros k'. rewrite Hsame. unfold upd_peers. case_decide; [by subst|by apply HV].
Qed.

Lemma runs_get_freed p key v V s (Q : teredo_peer -> sys -> Prop) :
  Freed t p key V s -> V key = Some v -> (forall s', Freed t p key V s' -> Q v s') ->
  runs E (peer_get p) s Q.
Proof.
  intros (l & Et & Hok & Hlk & Hd & HV) Hv HQ. unfold peer_get. apply runs_list. rewrite Et.
  cbn [tlist set_list s_tunnel]. destruct (pm_get l p key Hok Hd) as (v' & -> & Hv').
  rewrite HV, Hv in Hv'. injection Hv' as <-. cbn [mbind res_bind]. exists v, l. split; [done|].
  apply HQ. exists l. by split_and!.
Qed.

Lemma runs_put_freed p key v V s (Q : unit -> sys -> Prop) :
  Freed t p key V s -> (forall s', Freed t p key (upd_peers V key v) s' -> Q tt s') ->
  runs E (peer_put p v) s Q.
Proof.
  intros (l & Et & Hok & Hlk & Hd & HV) HQ. unfold peer_put. apply runs_list. rewrite Et.
  cbn [tlist set_list s_tunnel].
  destruct (pm_put l p key v Hok Hd) as (l' & -> & Hok' & Hlk' & Hat & Hv' & Hother).
  cbn [mbind res_bind]. exists tt, l'. split; [done|]. apply HQ. exists l'.
  split_and!; try done.
  - congruence.
  - intros k'. unfold upd_peers. case_decide; [by subst|]. by rewrite Hother, HV.
Qed.

Lemma runs_tunnel_free V s (Q : teredo_tunnel -> sys -> Prop) :
  Free t V s -> (forall l, Q (set_list l t) s) -> runs E tunnel s Q.
Proof. intros (l & Et & _) HQ. apply runs_tunnel. by rewrite Et. Qed.
End list_ops.

(** ** What the helpers send *)

(** Events that are not deliveries to the IPv6 stack nor state notifications. *)
Definition sends (e : event) : Prop :=
  match e with Recv_cb _ | Up_cb _ _ | Down_cb => False | _ => True end.

Section helpers.
Context `{Env}.

Lemma sendv_sends fd iov ip port w :
  outputs (teredo_sendv fd iov ip port) w (fun _ evs => Forall sends evs).
Proof. eapply outputs_mono; [apply sendv_outputs|]. intros _ evs ->. by repeat constructor. Qed.

Lemma bubble_anyway_sends fd ip port src dst w :
  outputs (teredo_send_bubble_anyway fd ip port src dst) w (fun _ evs => Forall sends evs).
Proof. unfold teredo_send_bubble_anyway. eapply outputs_map; [apply sendv_sends|done]. Qed.

Lemma bubble_sends fd ip port src dst w :
  outputs (teredo_send_bubble fd ip port src dst) w (fun _ evs => Forall sends evs).
Proof.
  unfold teredo_send_bubble. destruct (is_ipv4_global_unicast ip); [apply bubble_anyway_sends|].
  apply outputs_ret. constructor.
Qed.

Lemma bubble_from_dst_sends k fd dst ind w :
  outputs (SendBubbleFromDst k fd dst ind) w (fun _ evs => Forall sends evs).
Proof. unfold SendBubbleFromDst. destruct ind; apply bubble_sends. Qed.

Lemma ping_sends k fd src dst w :
  outputs (SendPing k fd src dst) w (fun _ evs => Forall sends evs).
Proof.
  unfold SendPing. eapply outputs_bind; [apply ask_outputs|]. intros now evs w' ->.
  eapply outputs_map; [apply sendv_sends|done].
Qed.

Lemma discovery_bubble_sends d fd w :
  discovery_ok d -> outputs (SendDiscoveryBubble d fd) w (fun _ evs => Forall sends evs).
Proof.
  intros (_ & l & z & El & Hz). unfold SendDiscoveryBubble. rewrite El. clear El.
  revert w. induction l as [|i l IH]; intros w; cbn [app send_bubbles].
  - rewrite Hz. apply outputs_ret. constructor.
  - destruct (if_addr i =? 0); [apply outputs_ret; constructor|].
    eapply outputs_bind; [apply emit_outputs|]. intros _ evs w1 ->.
    eapply outputs_bind; [apply ask_outputs|]. intros r evs w2 ->. cbn [app].
    eapply (outputs_bind _ _ _ (fun _ evs => Forall sends evs)).
    + destruct (r <? 0); [apply outputs_ret; constructor|].
      eapply outputs_bind; [apply bubble_anyway_sends|]. intros a evs w3 He.
      apply outputs_ret. by rewrite app_nil_r.
    + intros _ evs w3 He. eapply outputs_mono; [apply IH|]. intros b evs' He'.
      constructor; [done|]. by apply list.Forall_app.
Qed.
End helpers.

(** ** Peers *)

(** The queue is consistent, and a peer is only local while discovery runs. *)
Definition peer_ok (t : teredo_tunnel) (v : teredo_peer) : Prop :=
  queue_ok v /\ (local v = true -> is_Some (discovery t)).

Definition peers_ok (t : teredo_tunnel) (V : peers) : Prop :=
  forall k' v, V k' = Some v -> peer_ok t v.

Definition same_mapping (v v' : teredo_peer) : Prop :=
  mapped_addr v' = mapped_addr v /\ mapped_port v' = mapped_port v.

(** The fields that counters and queues leave alone. *)
Definition same_core (v v' : teredo_peer) : Prop :=
  trusted v' = trusted v /\ local v' = local v /\ same_mapping v v'.

(** Only the peer of [key] changes, it stays well formed, and a peer that is
    trusted afterwards satisfies [A] or was trusted before with the same
    mapping. *)
Definition evolves (t : teredo_tunnel) (key : in6_addr) (A : teredo_peer -> Prop) (V V' : peers)
    : Prop :=
  (forall k', V' k' = V k') \/
  exists v', (forall k', V' k' = upd_peers V key v' k') /\ peer_ok t v' /\
    (trusted v' = true -> A v' \/ exists v, V key = Some v /\ trusted v = true /\ same_mapping v v').

Lemma evolves_ok t key A V V' : peers_ok t V -> evolves t key A V V' -> peers_ok t V'.
Proof.
  intros HV [Hs|(v' & Hs & Hv' & _)] k' v.
  - rewrite Hs. apply HV.
  - rewrite Hs. unfold upd_peers. case_decide; [intros [= <-]; done|apply HV].
Qed.

Lemma CountPing_core v now : same_core v (CountPing v now).2 /\
  queue (CountPing v now).2 = queue v /\ queue_left (CountPing v now).2 = queue_left v.
Proof. unfold CountPing. case_ifs; by repeat split. Qed.

Lemma CountBubble_core v now : same_core v (CountBubble v now).2 /\
  queue (CountBubble v now).2 = queue v /\ queue_left (CountBubble v now).2 = queue_left v.
Proof. unfold CountBubble. case_ifs; by repeat split. Qed.

Lemma peer_queue_core v data ip port inc :
  queue_ok v -> exists v', teredo_peer_queue true v data ip port inc = Ok v' /\ queue_ok v' /\
    same_core v v'.
Proof.
  intros Hq. destruct (peer_queue_ok v data ip port inc Hq) as (v' & E & Hq' & _).
  exists v'. split; [done|]. split; [done|]. revert E. unfold teredo_peer_queue.
  case_ifs; intros [= <-]; by repeat split.
Qed.

Lemma same_core_trans v1 v2 v3 : same_core v1 v2 -> same_core v2 v3 -> same_core v1 v3.
Proof.
  intros (H1 & H2 & H3 & H4) (H1' & H2' & H3' & H4'). repeat split; congruence.
Qed.

Lemma peer_ok_core t v v' : peer_ok t v -> queue_ok v' -> same_core v v' -> peer_ok t v'.
Proof. intros [_ Hl] Hq (_ & El & _). split; [done|]. by rewrite El. Qed.

Lemma queue_ok_same v v' :
  queue_ok v -> queue v' = queue v -> queue_left v' = queue_left v -> queue_ok v'.
Proof. intros [H1 H2] E1 E2. split; by rewrite ?E1, ?E2. Qed.

Lemma queue_ok_init g : queue_ok (teredo_peer_init g).
Proof. by split. Qed.

(** ** Transmission *)

(** The list is free; only the rate limiter of the tunnel may have moved. *)
Definition Quiet (t : teredo_tunnel) (V : peers) (s : sys) : Prop :=
  exists c la, Free (set_ratelimit c la t) V s.

(** The packets that [BuildICMPv6Error] can quote. *)
Definition quotable (packet : list Z) : Prop :=
  bytes_ok packet /\
  exists h, get_ip6 packet = Ok h /\ (ip6_nxt h <> IPPROTO_ICMPV6 \/ (41 <= length packet)%nat).

Definition tunnel_ok (t : teredo_tunnel) : Prop := forall d, discovery t = Some d -> discovery_ok d.

Lemma Free_Quiet t V s : Free t V s -> Quiet t V s.
Proof. intros Hf. exists (rl_count t), (rl_last t). by destruct t. Qed.

Section transmit.
Context `{Env, Mem} (k : hmac_state) (E : event -> Prop).
Hypothesis HE : forall e, sends e -> E e.
Hypothesis Hmem : forall n, mem_queue n = true.
Context (t : teredo_tunnel).
Hypothesis Ht : tunnel_ok t.

Lemma runs_sends {A} (m : st world A) s (Q : A -> sys -> Prop) :
  outputs m (s_world s) (fun _ evs => Forall sends evs) ->
  (forall a w, Q a (mk_sys w (s_tunnel s))) -> runs E (in_world m) s Q.
Proof.
  intros Ho HQ. eapply runs_world; [exact Ho|]. intros a evs w Hs. split; [|apply HQ].
  eapply list.Forall_impl; [exact Hs|exact HE].
Qed.

Lemma send_unreach_runs code packet V s (Q : unit -> sys -> Prop) :
  quotable packet -> Quiet t V s -> (forall s', Quiet t V s' -> Q tt s') ->
  runs E (teredo_send_unreach code packet) s Q.
Proof.
  intros (Hb & h & Hh & Hnxt) (c & la & l & Et & Hl) HQ. unfold teredo_send_unreach.
  apply runs_bind, runs_ask. intros n w. apply runs_bind, runs_tunnel. cbn [s_tunnel].
  destruct (rate_limit _ _) as [ok t'] eqn:Er.
  assert (exists c' la', t' = set_list l (set_ratelimit c' la' t)) as (c' & la' & ->).
  { revert Er. unfold rate_limit. rewrite Et.
    destruct (negb (_ =? _)); case_ifs; intros [= _ <-]; eexists _, _; reflexivity. }
  assert (forall w', Quiet t V (mk_sys w' (set_list l (set_ratelimit c' la' t)))) as Hq.
  { intros w'. exists c', la', l. by split. }
  apply runs_bind, runs_set_tunnel. destruct ok; cbn [negb]; [|by apply runs_ret, HQ].
  apply runs_bind, runs_lift. rewrite (BuildICMPv6Error_ok _ _ _ h Hb Hh Hnxt).
  eexists. split; [done|]. apply runs_bind, runs_lift. exists h. split; [done|].
  destruct (icmpv6_cb _); [|by apply runs_ret, HQ].
  apply runs_sends.
  - eapply outputs_mono; [apply emit_outputs|]. intros ? evs ->. by repeat constructor.
  - intros [] w'. by apply HQ.
Qed.

Lemma enqueue_out_runs v data s (Q : teredo_peer -> sys -> Prop) :
  queue_ok v ->
  (forall v' w, queue_ok v' -> same_core v v' -> Q v' (mk_sys w (s_tunnel s))) ->
  runs E (enqueue_out v data) s Q.
Proof.
  intros Hq HQ. unfold enqueue_out. apply runs_bind, runs_ask. intros n w. rewrite Hmem.
  apply runs_lift. destruct (peer_queue_core v data 0 0 false Hq) as (v' & Ev & Hq' & Hc).
  exists v'. split; [done|]. by apply HQ.
Qed.

(** Case 1: a trusted peer receives exactly the packet. *)
Lemma encap_runs p key v V data now s (Q : Z -> sys -> Prop) :
  Held t p key v V s ->
  (forall r s', Free t (upd_peers V key (TouchTransmit now v)) s' -> Q r s') ->
  runs E (teredo_encap p data now) s Q.
Proof.
  intros Hh HQ. unfold teredo_encap. apply runs_bind, (runs_get _ _ _ _ _ _ _ _ Hh).
  intros s1 H1. apply runs_bind, (runs_put _ _ _ _ _ _ _ _ _ H1). intros s2 H2.
  apply runs_bind, (runs_release _ _ _ _ _ _ _ _ H2). intros s3 H3. apply Freed_Free in H3.
  apply runs_bind, (runs_tunnel_free _ _ _ _ _ H3). intros l. apply runs_bind.
  apply runs_sends; [apply sendv_sends|]. intros r w. apply runs_ret. by apply HQ.
Qed.

Lemma discovery_bubble_runs V s (Q : unit -> sys -> Prop) :
  is_Some (discovery t) -> Free t V s -> (forall s', Free t V s' -> Q tt s') ->
  runs E discovery_bubble s Q.
Proof.
  intros [d Hd] Hf HQ. pose proof (Ht d Hd) as Hok. unfold discovery_bubble.
  destruct Hf as (l & Et & Hl). apply runs_bind, runs_tunnel. rewrite Et. cbn [discovery set_list].
  rewrite Hd. destruct Hok as (Hr & Htab).
  apply runs_bind, runs_lift. unfold teredo_discovery_grab.
  destruct (Z.eqb_spec (refcnt d) 0); [lia|]. cbn [negb guard_or mbind res_bind].
  eexists. split; [done|]. apply runs_bind, runs_set_tunnel. apply runs_bind.
  apply runs_sends.
  { apply discovery_bubble_sends. split; [cbn [refcnt set_refcnt]; lia|exact Htab]. }
  intros [] w. apply runs_bind, runs_lift. unfold teredo_discovery_release. cbn [refcnt set_refcnt].
  destruct (Z.eqb_spec (refcnt d + 1) 0); [lia|]. cbn [negb guard_or mbind res_bind refcnt set_refcnt].
  destruct (Z.eqb_spec (refcnt d + 1 - 1) 0); [lia|]. cbn [negb].
  eexists. split; [done|]. apply runs_set_tunnel. apply HQ. exists l. split; [|done].
  cbn [s_tunnel s_world tfd]. unfold set_discovery, set_list, set_refcnt; cbn.
  replace (refcnt d + 1 - 1) with (refcnt d) by lia. destruct t; cbn in *. rewrite Hd.
  by destruct d.
Qed.

(** What a transmission may do to the peer: nobody becomes trusted. *)
Definition transmit_post (V : peers) (dst : in6_addr) (s : sys) : Prop :=
  exists V', evolves t dst (fun _ => False) V V' /\ Quiet t V' s.

Lemma evolves_put V dst v' :
  peer_ok t v' ->
  (trusted v' = true -> exists v, V dst = Some v /\ trusted v = true /\ same_mapping v v') ->
  evolves t dst (fun _ => False) V (upd_peers V dst v').
Proof. intros Hv Ht'. right. exists v'. split_and!; [done|done|]. intros Htr. right. auto. Qed.

(** The state of the peer when a transmission case is entered. *)
Definition case_pre (V : peers) (dst : in6_addr) (v : teredo_peer) : Prop :=
  queue_ok v /\ (local v = true -> is_Some (discovery t)) /\
  (trusted v = true -> exists v0, V dst = Some v0 /\ trusted v0 = true /\ same_mapping v0 v).

Lemma case_pre_core V dst v v' :
  case_pre V dst v -> queue_ok v' -> same_core v v' -> case_pre V dst v'.
Proof.
  intros (Hq & Hl & Htr) Hq' (E1 & E2 & E3 & E4). split_and!; [done|by rewrite E2|].
  rewrite E1. intros Htv. destruct (Htr Htv) as (v0 & G0 & G1 & G2 & G3). exists v0.
  split_and!; try done. split; congruence.
Qed.

Lemma case_pre_evolves V dst v : case_pre V dst v ->
  evolves t dst (fun _ => False) V (upd_peers V dst v).
Proof. intros (Hq & Hl & Htr). by apply evolves_put. Qed.

(** The common part of the three untrusted cases: queue, count, store and
    release. *)
Lemma queue_count_runs (cnt : teredo_peer -> Z * teredo_peer) p key v V packet s
    (f : Z -> teredo_peer -> st sys Z) (Q : Z -> sys -> Prop) :
  (forall x, same_core x (cnt x).2 /\ queue (cnt x).2 = queue x /\
             queue_left (cnt x).2 = queue_left x) ->
  (exists v0, Held t p key v0 V s) -> queue_ok v ->
  (forall r v' s', queue_ok v' -> same_core v v' -> Free t (upd_peers V key v') s' ->
     runs E (f r v') s' Q) ->
  runs E (v ← enqueue_out v packet; let '(r, v) := cnt v in peer_put p v;; list_release;; f r v) s Q.
Proof.
  intros Hcnt (v0 & Hh) Hq HQ. apply runs_bind, (enqueue_out_runs v); [done|].
  intros v1 w Hq1 Hc1. destruct (Hcnt v1) as (Hc2 & Eq & El).
  destruct (cnt v1) as [r v2]. cbn [snd] in *.
  assert (Held t p key v0 V (mk_sys w (s_tunnel s))) as Hh1 by exact Hh.
  apply runs_bind, (runs_put _ _ _ _ _ v2 _ _ _ Hh1). intros s2 H2.
  apply runs_bind, (runs_release _ _ _ _ _ _ _ _ H2). intros s3 H3. apply Freed_Free in H3.
  apply HQ; [by eapply queue_ok_same|by eapply same_core_trans|done].
Qed.

Lemma runs_tunnel_held p key v V s (Q : teredo_tunnel -> sys -> Prop) :
  Held t p key v V s -> (forall l, Q (set_list l t) s) -> runs E tunnel s Q.
Proof. intros (l & Et & _) HQ. apply runs_tunnel. by rewrite Et. Qed.

(** An unreachable error for the peer, if the counter says so. *)
Lemma maybe_unreach_runs (b : bool) packet V s (Q : Z -> sys -> Prop) :
  quotable packet -> Quiet t V s -> (forall s', Quiet t V s' -> Q 0 s') ->
  runs E ((if b then teredo_send_unreach ICMP6_DST_UNREACH_ADDR packet else mret tt);; mret 0) s Q.
Proof.
  intros Hp Hq HQ. apply runs_bind. destruct b.
  - apply (send_unreach_runs _ _ V); [done|done|]. intros s' Hs'. apply runs_ret. by apply HQ.
  - apply runs_ret, runs_ret. by apply HQ.
Qed.

Section cases.
Context (st0 : teredo_state) (dst : in6_addr) (packet : list Z) (now : Z) (V : peers).
Hypothesis Hquote : quotable packet.

Lemma done_post v s : case_pre V dst v -> Quiet t (upd_peers V dst v) s -> transmit_post V dst s.
Proof. intros Hc Hq. exists (upd_peers V dst v). split; [by apply case_pre_evolves|done]. Qed.

Lemma set_mapping_pre v a b :
  case_pre V dst v -> trusted v = false -> case_pre V dst (SetMapping a b v).
Proof. intros (Hq & Hl & _) Hf. split_and!; [done|done|]. cbn. rewrite Hf. done. Qed.

Lemma transmit_ping_runs p v v0 (created : bool) s :
  IsClient t = true -> Held t p dst v0 V s -> case_pre V dst v ->
  (created = true -> trusted v = false) ->
  runs E (transmit_ping k p v created st0 dst packet now) s (fun _ => transmit_post V dst).
Proof.
  intros Hcl Hh Hpre Hcr. unfold transmit_ping.
  apply runs_bind, (runs_tunnel_held _ _ _ _ _ _ Hh). intros l. cbn [IsClient maintenance set_list].
  apply runs_bind, runs_lift. exists tt. unfold IsClient in *. rewrite Hcl. split; [done|].
  set (v1 := if created then SetMapping 0 0 v else v).
  assert (case_pre V dst v1) as Hpre1.
  { subst v1. destruct created; [by apply set_mapping_pre, Hcr|done]. }
  apply (queue_count_runs (fun v => CountPing v now) p dst v1 V).
  - intros x. apply CountPing_core.
  - by exists v0.
  - apply Hpre1.
  - intros r v' s' Hq' Hc' Hf. pose proof (case_pre_core _ _ _ _ Hpre1 Hq' Hc') as Hpre'.
    apply runs_bind.
    assert (forall r' w, runs E ((if (r' : Z) =? -1 then
        teredo_send_unreach ICMP6_DST_UNREACH_ADDR packet else mret tt);; mret 0)
        (mk_sys w (s_tunnel s')) (fun _ => transmit_post V dst)) as Hend.
    { intros r' w. apply (maybe_unreach_runs _ _ (upd_peers V dst v')); [done| |].
      - by apply Free_Quiet.
      - intros s2. by apply done_post. }
    destruct (r =? 0).
    + apply runs_sends; [apply ping_sends|]. intros r' w. apply Hend.
    + apply runs_ret. specialize (Hend r (s_world s')). by destruct s'.
Qed.

Lemma transmit_local_runs p v v0 s :
  Held t p dst v0 V s -> case_pre V dst v -> local v = true ->
  runs E (transmit_local p v st0 dst packet now) s (fun _ => transmit_post V dst).
Proof.
  intros Hh Hpre Hloc. unfold transmit_local.
  apply (queue_count_runs (fun v => CountBubble v now) p dst v V).
  - intros x. apply CountBubble_core.
  - by exists v0.
  - apply Hpre.
  - intros r v' s' Hq' Hc' Hf. pose proof (case_pre_core _ _ _ _ Hpre Hq' Hc') as Hpre'.
    apply runs_bind, (runs_tunnel_free _ _ _ _ _ Hf). intros l. cbn [tfd set_list].
    apply runs_bind.
    assert (forall s2, Free t (upd_peers V dst v') s2 ->
      runs E ((if r =? -1 then teredo_send_unreach ICMP6_DST_UNREACH_ADDR packet else mret tt);;
              mret 0) s2 (fun _ => transmit_post V dst)) as Hend.
    { intros s2 Hs2. apply (maybe_unreach_runs _ _ (upd_peers V dst v')); [done|by apply Free_Quiet|].
      intros s3. by apply done_post. }
    destruct (r =? 0); [|by apply runs_ret, Hend].
    apply runs_bind, runs_sends; [apply bubble_anyway_sends|]. intros r' w.
    apply (discovery_bubble_runs (upd_peers V dst v')); [|exact Hf|exact Hend].
    apply Hpre'. destruct Hc' as (_ & -> & _). done.
Qed.

Lemma transmit_bubble_runs p v v0 (created : bool) s :
  Held t p dst v0 V s -> case_pre V dst v -> (created = true -> trusted v = false) ->
  runs E (transmit_bubble k p v created st0 dst packet now) s (fun _ => transmit_post V dst).
Proof.
  intros Hh Hpre Hcr. unfold transmit_bubble.
  set (v1 := if created then SetMapping _ _ v else v).
  assert (case_pre V dst v1) as Hpre1.
  { subst v1. destruct created; [by apply set_mapping_pre, Hcr|done]. }
  apply (queue_count_runs (fun v => CountBubble v now) p dst v1 V).
  - intros x. apply CountBubble_core.
  - by exists v0.
  - apply Hpre1.
  - intros r v' s' Hq' Hc' Hf. pose proof (case_pre_core _ _ _ _ Hpre1 Hq' Hc') as Hpre'.
    apply runs_bind, (runs_tunnel_free _ _ _ _ _ Hf). intros l. cbn [tfd set_list].
    assert (forall w, transmit_post V dst (mk_sys w (s_tunnel s'))) as Hend.
    { intros w. apply (done_post v'); [done|]. apply Free_Quiet. exact Hf. }
    destruct (r =? 0).
    + apply runs_bind.
      assert (forall r' w, runs E (if negb ((r' : Z) =? 0) then mret (-1) else
                 in_world (SendBubbleFromDst k (tfd t) dst true)) (mk_sys w (s_tunnel s'))
                 (fun _ => transmit_post V dst)) as Hsec.
      { intros r' w. destruct (negb _); [apply runs_ret, Hend|].
        apply runs_sends; [apply bubble_from_dst_sends|]. intros r2 w2. apply Hend. }
      destruct (_ =? 0).
      * apply runs_sends; [apply bubble_from_dst_sends|]. intros r' w. apply Hsec.
      * apply runs_ret. specialize (Hsec 0 (s_world s')). by destruct s'.
    + apply (maybe_unreach_runs _ _ (upd_peers V dst v')); [done|by apply Free_Quiet|].
      intros s3. by apply done_post.
Qed.

End cases.

Lemma transmit_peer_runs st0 dst packet V s :
  quotable packet -> peers_ok t V -> Free t V s ->
  (IN6_TEREDO_PREFIX dst <> prefix (addr st0) -> IsClient t = true) ->
  runs E (transmit_peer k st0 dst packet) s (fun _ => transmit_post V dst).
Proof.
  intros Hquote HV Hf Hcl. unfold transmit_peer.
  apply runs_bind, runs_ask. intros n w. apply runs_bind.
  assert (Free t V (mk_sys w (s_tunnel s))) as Hf' by exact Hf.
  apply (runs_lookup _ _ _ _ _ _ _ Hf').
  { intros s1 H1 _. apply runs_ret. exists V. split; [by left|by apply Free_Quiet]. }
  - intros p v s1 H1 HVd. apply runs_bind, (runs_get _ _ _ _ _ _ _ _ H1). intros s2 H2.
    cbn [negb andb].
    assert (case_pre V dst v) as Hpre.
    { destruct (HV _ _ HVd) as [Hq Hl]. split_and!; [done|done|]. intros Htr. by exists v. }
    destruct (trusted v && IsValid v _) eqn:Etv.
    + apply (encap_runs _ _ _ _ _ _ _ _ H2). intros r s3 H3.
      eapply done_post; [|by apply Free_Quiet]. apply (case_pre_core _ _ v); [done|apply Hpre|by repeat split].
    + apply runs_bind, (runs_put _ _ _ _ _ v _ _ _ H2). intros s3 H3.
      destruct (Z.eqb_spec (IN6_TEREDO_PREFIX dst) (prefix (addr st0))) as [Ep|Ep]; cbn [negb].
      * destruct (local v && IsValid v _) eqn:El.
        -- apply andb_true_iff in El as [El _]. by eapply transmit_local_runs.
        -- by eapply transmit_bubble_runs.
      * by eapply transmit_ping_runs; [|by apply Hcl| | |].
  - intros p g s1 H1 HVd _. apply runs_bind, (runs_get _ _ _ _ _ _ _ _ H1). intros s2 H2.
    cbn [negb andb]. set (v := fresh_peer (teredo_peer_init g)).
    assert (case_pre V dst v) as Hpre by (split_and!; [by apply queue_ok_init|done|done]).
    apply runs_bind, (runs_put _ _ _ _ _ v _ _ _ H2). intros s3 H3.
    destruct (Z.eqb_spec (IN6_TEREDO_PREFIX dst) (prefix (addr st0))) as [Ep|Ep]; cbn [negb].
    + change (local v) with false. cbn [andb]. by eapply transmit_bubble_runs.
    + by eapply transmit_ping_runs; [|by apply Hcl| | |].
Qed.

Lemma teredo_transmit_runs packet h V s :
  quotable packet -> get_ip6 packet = Ok h -> peers_ok t V -> Free t V s ->
  runs E (teredo_transmit k packet) s (fun _ => transmit_post V (ip6_dst h)).
Proof.
  intros Hq Hh HV Hf. unfold teredo_transmit.
  assert (forall s', Quiet t V s' -> transmit_post V (ip6_dst h) s') as Hnop
    by (intros s' Hs'; exists V; split; [by left|done]).
  apply runs_bind, runs_lift. exists h. split; [done|].
  destruct (_ =? 0xff); [by apply runs_ret, Hnop, Free_Quiet|].
  apply runs_bind, (runs_tunnel_free _ _ _ _ _ Hf). intros l.
  change (IsClient (set_list l t)) with (IsClient t). change (tstate (set_list l t)) with (tstate t).
  assert (forall code, runs E (teredo_send_unreach code packet;; mret 0) s
            (fun _ => transmit_post V (ip6_dst h))) as Hun.
  { intros code. apply runs_bind, (send_unreach_runs _ _ V); [done|by apply Free_Quiet|].
    intros s' Hs'. by apply runs_ret, Hnop. }
  destruct (IsClient t && negb (up (tstate t))); [apply Hun|].
  destruct (Z.eqb_spec (IN6_TEREDO_PREFIX (ip6_dst h)) (prefix (addr (tstate t)))) as [Ep|Ep]; cbn [negb].
  - destruct (_ || _); [by apply runs_ret, Hnop, Free_Quiet|]. by apply transmit_peer_runs.
  - destruct (IsClient t) eqn:Ecl; [|apply Hun].
    destruct (negb _); [apply Hun|]. by apply transmit_peer_runs.
Qed.
End transmit.

(** ** Reception *)

Lemma upd_upd V key v1 v2 k' : upd_peers (upd_peers V key v1) key v2 k' = upd_peers V key v2 k'.
Proof. unfold upd_peers. by case_decide. Qed.

Lemma upd_same V key v : upd_peers V key v key = Some v.
Proof. unfold upd_peers. by rewrite decide_True. Qed.

Lemma Free_ext t V V' s : (forall k', V k' = V' k') -> Free t V s -> Free t V' s.
Proof.
  intros HV (l & H1 & H2 & H3 & H4). exists l. split_and!; try done. intros k'. by rewrite H4.
Qed.

Section receive.
Context `{Env, Mem} (k : hmac_state).
Hypothesis Hmem : forall n, mem_queue n = true.
Context (t : teredo_tunnel) (V : peers) (packet : teredo_packet) (h : ip6_hdr) (islocal : bool).
Hypothesis Ht : tunnel_ok t.
Hypothesis HV : peers_ok t V.
Hypothesis Hwf : packet_wf packet.
Hypothesis Hh : get_ip6 (ip6 packet) = Ok h.
Hypothesis Hlocal : teredo_islocal t packet h = Ok islocal.

Let src := ip6_src h.
Let len := Z.to_nat (40 + ntohs (ip6_plen h)).

Definition from_packet (v : teredo_peer) : Prop :=
  mapped_addr v = source_ipv4 packet /\ mapped_port v = source_port packet.

(** The packet proves that its source is reachable at its UDP origin. *)
Definition source_proved : Prop :=
  (IsClient t = true /\ exists tm, CheckPing k tm packet = Ok 0) \/
  (IN6_TEREDO_PREFIX src = prefix (addr (tstate t)) /\
   (in6_matches_teredo_client src (source_ipv4 packet) (source_port packet) = true \/
    (exists v, V src = Some v /\ local v = true /\ from_packet v) \/
    (V src = None /\ islocal = true) \/
    (IsBubble h = true /\ CheckBubble k packet = Ok 0))).

Lemma source_ok_inv :
  IN6_TEREDO_PREFIX src = prefix (addr (tstate t)) ->
  teredo_source_ok k packet h (V src) islocal = Ok true -> source_proved.
Proof.
  intros Hp Hok. right. split; [done|]. revert Hok. unfold teredo_source_ok.
  destruct (in6_matches_teredo_client _ _ _) eqn:Em; [by left|]. cbn [orb]. intros Hok. right.
  destruct (match V src with Some v => _ | None => _ end) eqn:El.
  - destruct (V src) as [v|]; [left|right; left; by split]. reflect_bools.
    exists v. by repeat split.
  - right. right. destruct (IsBubble h); [|done]. split; [done|].
    destruct (CheckBubble k packet) as [r|]; [|done]. cbn in Hok.
    apply (inj Ok) in Hok. apply Z.eqb_eq in Hok. by rewrite Hok.
Qed.

(** How a peer may be, or stay, trusted at the origin of the packet. *)
Definition trust_proved (v : teredo_peer) : Prop :=
  from_packet v /\
  (source_proved \/
   (islocal = true /\ IsDiscoveryBubble packet = Ok true /\
    exists v0, V src = Some v0 /\ trusted v0 = true)).

(** What may be passed to the IPv6 stack: the packet itself if its source is
    trusted at its origin or proves it, and packets queued earlier from the
    same origin. *)
Definition deliverable (d : list Z) : Prop :=
  (d = take len (ip6 packet) /\
   ((exists v, V src = Some v /\ trusted v = true /\ from_packet v) \/ source_proved)) \/
  (exists v q, V src = Some v /\ q ∈ queue v /\ q_incoming q = true /\ q_data q = d /\
     q_ipv4 q = source_ipv4 packet /\ q_port q = source_port packet).

Definition allowed (e : event) : Prop :=
  match e with Recv_cb d => deliverable d | Up_cb _ _ | Down_cb => False | _ => True end.

Lemma sends_allowed e : sends e -> allowed e.
Proof. by destruct e. Qed.

Definition receive_post (s : sys) : Prop :=
  exists V', evolves t src trust_proved V V' /\ Free t V' s.

Lemma post_same_peers s : Free t V s -> receive_post s.
Proof. intros Hf. exists V. split; [by left|done]. Qed.

Lemma post_upd v' s :
  peer_ok t v' ->
  (trusted v' = true -> trust_proved v' \/
     exists v, V src = Some v /\ trusted v = true /\ same_mapping v v') ->
  Free t (upd_peers V src v') s -> receive_post s.
Proof. intros Hv Htr Hf. exists (upd_peers V src v'). split; [|done]. right. by exists v'. Qed.

Lemma queue_emit_allowed q fd a b w :
  (forall x, x ∈ q -> q_incoming x = true -> q_ipv4 x = a -> q_port x = b -> deliverable (q_data x)) ->
  outputs (teredo_queue_emit q fd a b (call_recv_cb t)) w (fun _ evs => Forall allowed evs).
Proof.
  intros Hq. revert w. induction q as [|x q IH]; intros w; cbn [teredo_queue_emit].
  { apply outputs_ret. constructor. }
  assert (forall w', outputs (teredo_queue_emit q fd a b (call_recv_cb t)) w'
            (fun _ evs => Forall allowed evs)) as IH'.
  { apply IH. intros y Hy. apply Hq. by right. }
  eapply (outputs_bind _ _ _ (fun _ evs => Forall allowed evs)).
  - destruct (q_incoming x) eqn:Ei.
    + destruct (_ && _) eqn:Em; [|apply outputs_ret; constructor]. reflect_bools.
      unfold call_recv_cb. destruct (recv_cb t); [|apply outputs_ret; constructor].
      eapply outputs_mono; [apply emit_outputs|]. intros _ evs ->.
      constructor; [|constructor]. apply Hq; [by left|done|done|done].
    + eapply outputs_bind; [apply sendv_outputs|]. intros r evs w' ->.
      apply outputs_ret. rewrite app_nil_r. by repeat constructor.
  - intros u evs w' He. eapply outputs_mono; [apply IH'|]. intros u' evs' He'.
    by apply list.Forall_app.
Qed.

(** A peer after the counters are reset and the queue taken. *)
Definition cleaned (now : Z) (v : teredo_peer) : teredo_peer :=
  (teredo_peer_queue_yield (set_pings 0 (set_bubbles 0 (TouchReceive now v)))).2.

Lemma cleaned_ok now v : (local v = true -> is_Some (discovery t)) -> peer_ok t (cleaned now v).
Proof. intros Hl. split; [by split|done]. Qed.

Lemma predecap_runs p v now s (Q : unit -> sys -> Prop) :
  Held t p src v V s -> from_packet v ->
  (forall x, x ∈ queue v -> q_incoming x = true -> q_ipv4 x = mapped_addr v ->
     q_port x = mapped_port v -> deliverable (q_data x)) ->
  (forall s', Free t (upd_peers V src (cleaned now v)) s' -> Q tt s') ->
  runs allowed (teredo_predecap p now) s Q.
Proof.
  intros Hh0 Hm Hq HQ. unfold teredo_predecap.
  apply runs_bind, (runs_get _ _ _ _ _ _ _ _ Hh0). intros s1 H1. cbn [teredo_peer_queue_yield].
  apply runs_bind, (runs_put _ _ _ _ _ (cleaned now v) _ _ _ H1). intros s2 H2.
  apply runs_bind, (runs_release _ _ _ _ _ _ _ _ H2). intros s3 H3.
  apply runs_bind, (runs_tunnel_free _ _ _ _ _ (Freed_Free _ _ _ _ _ H3)). intros l.
  change (queue (set_pings 0 (set_bubbles 0 (TouchReceive now v)))) with (queue v).
  destruct (queue v) as [|x q] eqn:Eq.
  { apply runs_ret, HQ. by apply Freed_Free in H3. }
  rewrite <- Eq. apply runs_bind.
  apply (runs_get_freed _ _ _ _ _ _ _ _ H3 (upd_same _ _ _)). intros s4 H4.
  eapply runs_world; [apply queue_emit_allowed|].
  - rewrite Eq. exact Hq.
  - intros [] evs w He. split; [exact He|]. apply HQ. apply Freed_Free in H4. exact H4.
Qed.

Lemma recv_cb_runs d s (Q : unit -> sys -> Prop) l :
  deliverable d -> (forall w, Q tt (mk_sys w (s_tunnel s))) ->
  runs allowed (in_world (call_recv_cb (set_list l t) d)) s Q.
Proof.
  intros Hd HQ. unfold call_recv_cb. cbn [recv_cb set_list].
  eapply (runs_world _ _ _ (fun _ evs => Forall allowed evs)).
  - destruct (recv_cb t); [|apply outputs_ret; constructor].
    eapply outputs_mono; [apply emit_outputs|]. intros _ evs ->. constructor; [exact Hd|constructor].
  - intros [] evs w He. by split.
Qed.

(** ** Reception by a client *)

Lemma runs_sends_allowed {A} (m : st world A) s (Q : A -> sys -> Prop) :
  outputs m (s_world s) (fun _ evs => Forall sends evs) ->
  (forall a w, Q a (mk_sys w (s_tunnel s))) -> runs allowed (in_world m) s Q.
Proof. intros Ho HQ. eapply runs_sends; [exact sends_allowed|done..]. Qed.

Definition link_local : bool :=
  (Z.land (s6_addr (ip6_src h) 0) 0xff =? 0xfe) && (Z.land (s6_addr (ip6_src h) 1) 0xc0 =? 0x80).

(** The packets that reach the peer list at all. *)
Definition admitted : Prop :=
  if IsClient t then up (tstate t) = true /\ link_local = false
  else IN6_TEREDO_PREFIX src = prefix (addr (tstate t)).

Lemma run_client_runs s (Q : bool -> sys -> Prop) :
  IsClient t = true -> Free t V s ->
  (forall b s', (b = true -> admitted) -> Free t V s' -> Q b s') ->
  runs sends (run_client (tstate t) packet h) s Q.
Proof.
  intros Hcl Hf HQ. unfold run_client.
  assert (exists b, teredo_maintenance_process packet = Ok b) as [b Eb].
  { unfold teredo_maintenance_process. rewrite Hh. cbn. destruct (_ || _); eauto. }
  assert (forall s', Free t V s' -> Q false s') as HF by (intros s' Hs'; by apply HQ).
  apply runs_bind, runs_lift. exists b. split; [done|]. destruct b.
  { apply runs_bind, (runs_sends _ (fun e He => He)).
    - eapply outputs_mono; [apply emit_outputs|]. intros _ evs ->. by repeat constructor.
    - intros [] w. by apply runs_ret, HF. }
  destruct (up (tstate t)) eqn:Eup; cbn [negb]; [|by apply runs_ret, HF].
  apply runs_bind, (runs_tunnel_free _ _ _ _ _ Hf). intros l. cbn [tfd set_list].
  apply runs_bind.
  assert (forall (b : bool) s', Free t V s' ->
    runs sends (if b then mret false else mret (negb link_local)) s' Q) as Hend.
  { intros [] s' Hf'; apply runs_ret; [by apply HF|]. apply HQ; [|done].
    intros E%negb_true_iff. unfold admitted. by rewrite Hcl. }
  destruct ((source_ipv4 packet =? server_ip (addr (tstate t)))
            && (source_port packet =? htons IPPORT_TEREDO)); [|by apply runs_ret, (Hend false)].
  destruct (if (orig_ipv4 packet =? 0) && IsBubble h
               && (IN6_TEREDO_PREFIX (ip6_src h) =? prefix (addr (tstate t)))
            then (IN6_TEREDO_IPV4 (ip6_src h), IN6_TEREDO_PORT (ip6_src h))
            else (orig_ipv4 packet, orig_port packet)) as [ip port].
  destruct (negb (ip =? 0)); [|by apply runs_ret, (Hend false)].
  apply runs_bind, (runs_sends _ (fun e He => He)); [apply bubble_sends|].
  intros r w. apply runs_ret, Hend. exact Hf.
Qed.

(** ** The cases of reception *)

(** The result of the first lookup. *)
Definition Found (found : option loc) (s : sys) : Prop :=
  match found with
  | None => Free t V s /\ V src = None
  | Some p => exists v, Held t p src v V s /\ V src = Some v
  end.

Lemma islocal_discovery : islocal = true -> is_Some (discovery t).
Proof.
  intros ->. revert Hlocal. unfold teredo_islocal. destruct (disc_params t); [|done].
  by destruct (discovery t).
Qed.

Lemma discovery_reply_runs p v now s :
  islocal = true -> IsDiscoveryBubble packet = Ok true ->
  Held t p src v V s -> queue_ok v ->
  (trusted v = true -> exists v0, V src = Some v0 /\ trusted v0 = true) ->
  runs allowed
    (v ← peer_get p;
     let v := if local v then v else set_bubbles 0 v in
     peer_put p (TouchReceive now (set_local true (SetMappingFromPacket packet v)));;
     list_release;;
     v ← peer_get p;
     let '(res, v) := CountBubble v now in
     peer_put p v;;
     if negb (res =? 0) then mret tt else
     t' ← tunnel;
     in_world (teredo_send_bubble_anyway (tfd t') (source_ipv4 packet) (source_port packet)
                 (ip6_of (addr (tstate t))) (ip6_src h));; mret tt) s (fun _ => receive_post).
Proof.
  intros Hl Hd Hh0 Hq Htr. apply runs_bind, (runs_get _ _ _ _ _ _ _ _ Hh0). intros s1 H1.
  cbv zeta. set (v1 := TouchReceive now (set_local true (SetMappingFromPacket packet
               (if local v then v else set_bubbles 0 v)))).
  assert (queue_ok v1 /\ from_packet v1 /\ trusted v1 = trusted v /\ local v1 = true)
    as (Hq1 & Hm1 & Et1 & El1) by (subst v1; destruct (local v); by repeat split; try apply Hq).
  clearbody v1.
  apply runs_bind, (runs_put _ _ _ _ _ v1 _ _ _ H1). intros s2 H2.
  apply runs_bind, (runs_release _ _ _ _ _ _ _ _ H2). intros s3 H3.
  apply runs_bind, (runs_get_freed _ _ _ _ _ _ _ _ H3 (upd_same _ _ _)). intros s4 H4.
  destruct (CountBubble_core v1 now) as ((Et2 & El2 & Ea2 & Ep2) & Eq2 & Ex2).
  destruct (CountBubble v1 now) as [r v2]. cbn [snd] in *.
  apply runs_bind, (runs_put_freed _ _ _ _ v2 _ _ _ H4). intros s5 H5. apply Freed_Free in H5.
  assert (forall w, receive_post (mk_sys w (s_tunnel s5))) as Hend.
  { intros w. apply (post_upd v2).
    - split; [by eapply queue_ok_same|]. intros _. by apply islocal_discovery.
    - intros Ht2. left. split; [by split; rewrite ?Ea2, ?Ep2; apply Hm1|]. right.
      split_and!; try done. apply Htr. congruence.
    - eapply Free_ext; [apply upd_upd|exact H5]. }
  destruct (negb _); [apply runs_ret; specialize (Hend (s_world s5)); by destruct s5|].
  apply runs_bind, (runs_tunnel_free _ _ _ _ _ H5). intros l.
  apply runs_bind, runs_sends_allowed; [apply bubble_anyway_sends|].
  intros a w. by apply runs_ret.
Qed.

Lemma run_discovery_bubble_runs found now s :
  islocal = true -> IsDiscoveryBubble packet = Ok true -> Found found s ->
  runs allowed (run_discovery_bubble (tstate t) packet h found now) s (fun _ => receive_post).
Proof.
  intros Hl Hd Hfo. unfold run_discovery_bubble. apply runs_bind. destruct found as [p|].
  - destruct Hfo as (v & Hheld & Hv). apply runs_ret.
    apply (discovery_reply_runs p v); try done; [by apply (HV _ _ Hv)|]. intros Htr. by exists v.
  - destruct Hfo as [Hf Hnone]. apply runs_bind, (runs_lookup _ _ _ _ _ _ _ Hf).
    + intros s1 H1 _. apply runs_ret, runs_ret. by apply post_same_peers.
    + intros p v s1 _ Hv. fold src in Hv. congruence.
    + intros p g s1 H1 _ _. apply runs_bind, (runs_get _ _ _ _ _ _ _ _ H1). intros s2 H2.
      apply runs_bind, (runs_put _ _ _ _ _ (set_local false (set_trusted false (teredo_peer_init g))) _ _ _ H2).
      intros s3 H3. apply runs_ret. by apply (discovery_reply_runs p _ now s3 Hl Hd H3).
Qed.

Lemma queued_deliverable v x :
  V src = Some v -> x ∈ queue v -> q_incoming x = true ->
  q_ipv4 x = source_ipv4 packet -> q_port x = source_port packet -> deliverable (q_data x).
Proof. intros Hv Hx Hi Ha Hp. right. by exists v, x. Qed.

(** Client cases 1 and 2. *)
Lemma run_known_runs p v now s (Q : bool -> sys -> Prop) :
  Held t p src v V s -> V src = Some v ->
  (forall s', receive_post s' -> Q true s') ->
  (forall s', Held t p src v V s' -> Q false s') ->
  runs allowed (run_known k packet len p now) s Q.
Proof.
  intros Hh0 Hv HT HF. unfold run_known. destruct (HV _ _ Hv) as [Hq Hl].
  apply runs_bind, (runs_get _ _ _ _ _ _ _ _ Hh0). intros s1 H1.
  apply runs_bind, (runs_tunnel_held _ _ _ _ _ _ _ _ H1). intros l.
  destruct (trusted v && _ && _) eqn:Et.
  - apply andb_true_iff in Et as [[Et1 Ea]%andb_true_iff Ep]. apply Z.eqb_eq in Ea, Ep.
    assert (from_packet v) as Hm by (by split).
    apply runs_bind, (predecap_runs p v now s1 _ H1 Hm).
    { intros x Hx Hi Ha Hp. destruct Hm as [Hm1 Hm2]. eapply queued_deliverable; try done; congruence. }
    intros s2 H2. apply runs_bind, recv_cb_runs.
    { left. split; [done|]. left. by exists v. }
    intros w. apply runs_ret, HT, (post_upd (cleaned now v)); [by apply cleaned_ok| |exact H2].
    intros _. right. by exists v.
  - change (IsClient (set_list l t)) with (IsClient t).
    destruct (IsClient t) eqn:Ec; [|by apply runs_ret, HF].
    apply runs_bind, runs_ask. intros n w.
    destruct (CheckPing k (env_time n) packet) as [r|f] eqn:Ecp; cycle 1.
    { exfalso. destruct (CheckPing_total k (env_time n) packet Hwf) as [r Er]. congruence. }
    apply runs_bind, runs_lift. exists r. split; [done|].
    assert (Held t p src v V (mk_sys w (s_tunnel s1))) as H1' by exact H1.
    destruct (Z.eqb_spec r 0) as [->|Hr]; [|by apply runs_ret, HF].
    set (v1 := SetMappingFromPacket packet (set_trusted true v)).
    apply runs_bind, (runs_put _ _ _ _ _ v1 _ _ _ H1'). intros s2 H2.
    assert (from_packet v1) as Hm by done.
    apply runs_bind, (predecap_runs p v1 now s2 _ H2 Hm).
    { intros x Hx Hi Ha Hp. by eapply queued_deliverable. }
    intros s3 H3. apply runs_ret, HT, (post_upd (cleaned now v1)); [by apply cleaned_ok| |exact H3].
    intros _. left. split; [done|]. left. left. split; [done|]. by exists (env_time n).
Qed.

Lemma runs_tunnel_found found s (Q : teredo_tunnel -> sys -> Prop) :
  Found found s -> (forall l, Q (set_list l t) s) -> runs allowed tunnel s Q.
Proof.
  destruct found as [p|]; cbn [Found].
  - intros (v & (l & Et & _) & _) HQ. apply runs_tunnel. by rewrite Et.
  - intros [(l & Et & _) _] HQ. apply runs_tunnel. by rewrite Et.
Qed.

Lemma runs_release_found p v s : Held t p src v V s -> V src = Some v ->
  runs allowed list_release s (fun _ => receive_post).
Proof.
  intros Hh0 Hv. apply (runs_release _ _ _ _ _ _ _ _ Hh0). intros s1 H1.
  apply (post_upd v); [by apply (HV _ _ Hv)| |by apply Freed_Free in H1].
  intros Htr. right. by exists v.
Qed.

Lemma teredo_source_ok_total v : exists b, teredo_source_ok k packet h v islocal = Ok b.
Proof.
  unfold teredo_source_ok. destruct (_ || _); [by eexists|]. destruct (IsBubble h); [|by eexists].
  destruct (CheckBubble_ok k packet Hwf) as (h' & r & _ & -> & _). by eexists.
Qed.

(** The packet is accepted: its source becomes trusted at its origin. *)
Lemma accept_runs p v now s l :
  Held t p src v V s -> source_proved -> (local v = true -> is_Some (discovery t)) ->
  (queue v = [] \/ exists v0, V src = Some v0 /\ queue v0 = queue v) ->
  runs allowed
    (v ← peer_get p;
     peer_put p (set_trusted true (SetMappingFromPacket packet v));;
     teredo_predecap p now;;
     if IsBubble h then mret tt else in_world (call_recv_cb (set_list l t) (take len (ip6 packet))))
    s (fun _ => receive_post).
Proof.
  intros Hh0 Hsp Hl Hq. apply runs_bind, (runs_get _ _ _ _ _ _ _ _ Hh0). intros s1 H1.
  set (v1 := set_trusted true (SetMappingFromPacket packet v)).
  apply runs_bind, (runs_put _ _ _ _ _ v1 _ _ _ H1). intros s2 H2.
  assert (from_packet v1) as Hm by done.
  apply runs_bind, (predecap_runs p v1 now s2 _ H2 Hm).
  { intros x Hx Hi Ha Hp. change (queue v1) with (queue v) in Hx.
    destruct Hq as [Hq|(v0 & Hv0 & Hq)]; [rewrite Hq in Hx; by apply elem_of_nil in Hx|].
    rewrite <- Hq in Hx. by eapply queued_deliverable. }
  intros s3 H3.
  assert (forall w, receive_post (mk_sys w (s_tunnel s3))) as Hend.
  { intros w. apply (post_upd (cleaned now v1)); [by apply cleaned_ok| |exact H3].
    intros _. left. split; [done|]. by left. }
  destruct (IsBubble h); [apply runs_ret; specialize (Hend (s_world s3)); by destruct s3|].
  apply recv_cb_runs; [|apply Hend]. left. split; [done|]. by right.
Qed.

Lemma accept_teredo_runs found now s :
  source_proved -> Found found s ->
  runs allowed (accept_teredo packet h len found islocal now) s (fun _ => receive_post).
Proof.
  intros Hsp Hfo. unfold accept_teredo. apply runs_bind, (runs_tunnel_found _ _ _ Hfo). intros l.
  change (IsClient (set_list l t)) with (IsClient t). apply runs_bind. destruct found as [p|].
  - destruct Hfo as (v & Hh0 & Hv). destruct (HV _ _ Hv) as [_ Hl].
    apply runs_ret. apply (accept_runs p v); try done. right. by exists v.
  - destruct Hfo as [Hf Hnone].
    destruct (IsClient t); [|apply runs_ret, runs_ret; by apply post_same_peers].
    apply runs_bind, (runs_lookup _ _ _ _ _ _ _ Hf).
    + intros s1 H1 _. apply runs_ret, runs_ret. by apply post_same_peers.
    + intros p v s1 _ Hv. fold src in Hv. congruence.
    + intros p g s1 H1 _ _. apply runs_bind, (runs_get _ _ _ _ _ _ _ _ H1). intros s2 H2.
      apply runs_bind, (runs_put _ _ _ _ _ (set_local islocal (teredo_peer_init g)) _ _ _ H2).
      intros s3 H3. apply runs_ret. apply (accept_runs p _ now s3 l H3); try done.
      * intros El. by apply islocal_discovery.
      * by left.
Qed.

(** Without a proof of origin the list is only released. *)
Lemma reject_runs (found : option loc) s :
  Found found s ->
  runs allowed (match found with Some _ => list_release | None => mret tt end) s
    (fun _ => receive_post).
Proof.
  destruct found as [p|].
  - intros (v & Hh0 & Hv). by eapply runs_release_found.
  - intros [Hf _]. apply runs_ret. by apply post_same_peers.
Qed.

(** The peer that was found is the one of the source. *)
Lemma found_peer_runs (found : option loc) s (Q : option teredo_peer -> sys -> Prop) :
  Found found s -> (forall s', Found found s' -> Q (V src) s') ->
  runs allowed (match found with Some p => v ← peer_get p; mret (Some v) | None => mret None end) s Q.
Proof.
  intros Hfo HQ. destruct found as [p|].
  - destruct Hfo as (v & Hh0 & Hv). apply runs_bind, (runs_get _ _ _ _ _ _ _ _ Hh0). intros s1 H1.
    apply runs_ret. rewrite <- Hv. apply HQ. by exists v.
  - apply runs_ret. destruct Hfo as [Hf Hnone]. rewrite <- Hnone. apply HQ. by split.
Qed.

(** Client cases 3 and 5. *)
Lemma run_teredo_runs found now s :
  IN6_TEREDO_PREFIX src = prefix (addr (tstate t)) -> Found found s ->
  runs allowed (run_teredo k packet h len found islocal now) s (fun _ => receive_post).
Proof.
  intros Hpre Hfo. unfold run_teredo. apply runs_bind, found_peer_runs; [done|]. intros s1 H1.
  destruct (teredo_source_ok_total (V src)) as [ok Eok].
  apply runs_bind, runs_lift. exists ok. split; [done|]. destruct ok.
  - apply accept_teredo_runs; [by apply source_ok_inv|done].
  - by apply reject_runs.
Qed.

(** Client case 6. *)
Lemma unknown_runs p v now s l :
  Held t p src v V s -> queue_ok v -> (local v = true -> is_Some (discovery t)) ->
  (trusted v = true -> exists v0, V src = Some v0 /\ trusted v0 = true /\ same_mapping v0 v) ->
  runs allowed
    (v ← peer_get p;
     v ← enqueue_in v (take len (ip6 packet)) (source_ipv4 packet) (source_port packet);
     let '(res, v) := CountPing (TouchReceive now v) now in
     peer_put p v;;
     list_release;;
     if res =? 0 then in_world (SendPing k (tfd (set_list l t)) (addr (tstate t)) (ip6_src h));; mret tt
     else mret tt) s (fun _ => receive_post).
Proof.
  intros Hh0 Hq Hl Htr. apply runs_bind, (runs_get _ _ _ _ _ _ _ _ Hh0). intros s1 H1.
  apply runs_bind. unfold enqueue_in. apply runs_bind, runs_ask. intros n w. rewrite Hmem.
  destruct (peer_queue_core v (take len (ip6 packet)) (source_ipv4 packet) (source_port packet) true Hq)
    as (v1 & Ev & Hq1 & Ec1).
  apply runs_lift. exists v1. split; [exact Ev|].
  destruct (CountPing_core (TouchReceive now v1) now) as (Ec2 & Eq2 & Ex2).
  destruct (CountPing (TouchReceive now v1) now) as [r v2]. cbn [snd] in *.
  assert (Held t p src v V (mk_sys w (s_tunnel s1))) as H1' by exact H1.
  apply runs_bind, (runs_put _ _ _ _ _ v2 _ _ _ H1'). intros s2 H2.
  apply runs_bind, (runs_release _ _ _ _ _ _ _ _ H2). intros s3 H3. apply Freed_Free in H3.
  assert (same_core v v2) as (C1 & C2 & C3 & C4).
  { eapply same_core_trans; [exact Ec1|]. exact Ec2. }
  assert (forall w, receive_post (mk_sys w (s_tunnel s3))) as Hend.
  { intros w'. apply (post_upd v2); [|intros Ht2; right|exact H3].
    - split; [|by rewrite C2]. eapply queue_ok_same; [exact Hq1|exact Eq2|exact Ex2].
    - rewrite C1 in Ht2. destruct (Htr Ht2) as (v0 & G0 & G1 & G2 & G3). exists v0.
      split_and!; try done. split; congruence. }
  destruct (r =? 0).
  - apply runs_bind, runs_sends_allowed; [apply ping_sends|]. intros a w'. apply runs_ret, Hend.
  - apply runs_ret. specialize (Hend (s_world s3)). by destruct s3.
Qed.

Lemma run_unknown_runs found now s :
  IsClient t = true -> Found found s ->
  runs allowed (run_unknown k (tstate t) packet h len found now) s (fun _ => receive_post).
Proof.
  intros Hcl Hfo. unfold run_unknown. apply runs_bind, (runs_tunnel_found _ _ _ Hfo). intros l.
  apply runs_bind, runs_lift. exists tt. change (IsClient (set_list l t)) with (IsClient t).
  rewrite Hcl. split; [done|]. apply runs_bind. destruct found as [p|].
  - destruct Hfo as (v & Hh0 & Hv). destruct (HV _ _ Hv) as [Hq Hl]. apply runs_ret.
    apply (unknown_runs p v); try done. intros Htr. by exists v.
  - destruct Hfo as [Hf Hnone]. apply runs_bind, (runs_lookup _ _ _ _ _ _ _ Hf).
    + intros s1 H1 _. apply runs_ret, runs_ret. by apply post_same_peers.
    + intros p v s1 _ Hv. fold src in Hv. congruence.
    + intros p g s1 H1 _ _. apply runs_bind, (runs_get _ _ _ _ _ _ _ _ H1). intros s2 H2.
      set (v1 := fresh_peer (SetMapping 0 0 (teredo_peer_init g))).
      apply runs_bind, (runs_put _ _ _ _ _ v1 _ _ _ H2). intros s3 H3.
      apply runs_ret. apply (unknown_runs p v1 now s3 l H3); [by split|done|done].
Qed.

Lemma run_unicast_runs found now s :
  (IN6_TEREDO_PREFIX src <> prefix (addr (tstate t)) -> IsClient t = true) -> Found found s ->
  runs allowed (run_unicast k (tstate t) packet h len islocal found now) s (fun _ => receive_post).
Proof.
  intros Hcl Hfo. unfold run_unicast.
  assert (forall s', Found found s' ->
    runs allowed (if IN6_TEREDO_PREFIX (ip6_src h) =? prefix (addr (tstate t)) then
      run_teredo k packet h len found islocal now
    else run_unknown k (tstate t) packet h len found now) s' (fun _ => receive_post)) as Hrest.
  { intros s' Hfo'. destruct (Z.eqb_spec (IN6_TEREDO_PREFIX (ip6_src h)) (prefix (addr (tstate t)))).
    - by apply run_teredo_runs.
    - apply run_unknown_runs; [by apply Hcl|done]. }
  apply runs_bind. destruct found as [p|].
  - destruct Hfo as (v & Hh0 & Hv). apply (run_known_runs p v _ _ _ Hh0 Hv).
    + intros s2 H2. by apply runs_ret.
    + intros s2 H2. apply Hrest. by exists v.
  - apply runs_ret. by apply Hrest.
Qed.

(** The test for discovery bubbles. *)
Lemma bubble_test_runs s (Q : bool -> sys -> Prop) :
  (forall b : bool, (b = true -> islocal = true /\ IsDiscoveryBubble packet = Ok true) -> Q b s) ->
  runs allowed (if islocal then lift (IsDiscoveryBubble packet) else mret false) s Q.
Proof.
  intros HQ. assert (exists b, IsDiscoveryBubble packet = Ok b) as [b Eb].
  { unfold IsDiscoveryBubble. rewrite Hh. by eexists. }
  assert (forall i : bool, i = islocal -> runs allowed
      (if i then lift (IsDiscoveryBubble packet) else mret false) s Q) as Hi; [|by apply Hi].
  intros [] Hi; [apply runs_lift; exists b; split; [done|]|apply runs_ret]; apply HQ; [|done].
  intros Hb. rewrite Eb, Hb. by split.
Qed.

Lemma run_receive_runs s :
  Free t V s -> (IN6_TEREDO_PREFIX src <> prefix (addr (tstate t)) -> IsClient t = true) ->
  runs allowed (run_receive k (tstate t) packet h len islocal) s (fun _ => receive_post).
Proof.
  intros Hf Hcl. unfold run_receive. apply runs_bind, runs_ask. intros n w.
  assert (forall found s', Found found s' ->
    runs allowed (bubble ← (if islocal then lift (IsDiscoveryBubble packet) else mret false);
      if (bubble : bool) then run_discovery_bubble (tstate t) packet h found (env_clock n) else
      if s6_addr (ip6_dst h) 0 =? 0xff then
        match found with Some _ => list_release | None => mret tt end
      else run_unicast k (tstate t) packet h len islocal found (env_clock n)) s'
      (fun _ => receive_post)) as Hmain.
  { intros found s' Hfo. apply runs_bind, bubble_test_runs. intros b Hb. destruct b.
    - destruct (Hb eq_refl) as [Hil Hd]. by apply run_discovery_bubble_runs.
    - destruct (_ =? 0xff); [by apply reject_runs|by apply run_unicast_runs]. }
  assert (Free t V (mk_sys w (s_tunnel s))) as Hf' by exact Hf.
  apply runs_bind, (runs_lookup _ _ _ _ _ _ _ Hf').
  - intros s1 H1 Hnone. apply Hmain. by split.
  - intros p v s1 H1 Hv. apply Hmain. by exists v.
  - done.
Qed.

Definition received (e : event) : Prop := sends e \/ (admitted /\ allowed e).

Definition run_post (s : sys) : Prop :=
  exists V', evolves t src trust_proved V V' /\ Free t V' s /\
    (forall k', V' k' <> V k' -> admitted).

Lemma run_post_same s : Free t V s -> run_post s.
Proof. intros Hf. exists V. split_and!; [by left|done|done]. Qed.

Lemma run_admitted_runs s :
  Free t V s -> admitted ->
  runs received (run_receive k (tstate t) packet h len islocal) s (fun _ => run_post).
Proof.
  intros Hf Had. apply (runs_weaken _ allowed); [intros e He; by right|].
  eapply runs_mono; [apply run_receive_runs; [done|]|].
  - intros Hne. unfold admitted in Had. by destruct (IsClient t).
  - intros _ s' (V' & He & Hf'). exists V'. by split_and!.
Qed.
End receive.

Lemma islocal_total t packet h : tunnel_ok t -> exists b, teredo_islocal t packet h = Ok b.
Proof.
  intros Ht. unfold teredo_islocal. destruct (disc_params t); [|by eexists].
  destruct (discovery t) as [d|] eqn:Ed; [|by eexists].
  destruct (negb _); [by eexists|]. destruct (negb _); [by eexists|].
  destruct (Ht d Ed) as (_ & l & z & -> & Hz). clear Ed.
  induction l as [|i l IH]; cbn [app is_ipv4_discovered]; [rewrite Hz; by eexists|].
  destruct (if_addr i =? 0); [by eexists|]. destruct (_ =? 0); [by eexists|done].
Qed.

Section run.
Context `{Env, Mem} (k : hmac_state).
Hypothesis Hmem : forall n, mem_queue n = true.
Context (t : teredo_tunnel) (V : peers).
Hypothesis Ht : tunnel_ok t.
Hypothesis HV : peers_ok t V.

Lemma teredo_run_inner_runs packet s :
  bytes_ok (ip6 packet) -> Free t V s ->
  (exists u s', teredo_run_inner k packet s = Ok (u, s') /\ w_out (s_world s') = w_out (s_world s) /\
     Free t V s') \/
  exists h islocal, get_ip6 (ip6 packet) = Ok h /\ teredo_islocal t packet h = Ok islocal /\
    packet_wf packet /\
    runs (received k t V packet h islocal) (teredo_run_inner k packet) s
      (fun _ => run_post k t V packet h islocal).
Proof.
  intros Hb Hf.
  assert (forall u : unit, exists u' s', @mret (st sys) _ _ u s = Ok (u', s') /\
      w_out (s_world s') = w_out (s_world s) /\ Free t V s') as Hnop
    by (intros u; by exists u, s).
  destruct (Nat.ltb_spec (length (ip6 packet)) 40) as [Hlt|Hge].
  { left. unfold teredo_run_inner. rewrite (proj2 (Nat.ltb_lt _ _) Hlt). apply (Hnop tt). }
  destruct (get_ip6_ok _ Hge) as [h Hh].
  destruct (negb (Z.shiftr (ip6_vfc h) 4 =? 6)
     || (Z.of_nat (length (ip6 packet)) <? 40 + ntohs (ip6_plen h))) eqn:Eg.
  { left. unfold teredo_run_inner. rewrite (proj2 (Nat.ltb_ge _ _) Hge).
    unfold mbind, st_bind, lift. rewrite Hh, Eg. apply (Hnop tt). }
  right. destruct (islocal_total t packet h Ht) as [il Hil]. exists h, il.
  split; [done|]. split; [done|].
  assert (packet_wf packet) as Hwf.
  { split; [done|]. exists h. split; [done|]. apply orb_false_iff in Eg as [_ Eg%Z.ltb_ge]. lia. }
  split; [done|]. unfold teredo_run_inner. rewrite (proj2 (Nat.ltb_ge _ _) Hge).
  apply runs_bind, runs_lift. exists h. split; [done|]. rewrite Eg.
  apply runs_bind, (runs_tunnel_free _ _ _ _ _ Hf). intros l.
  apply runs_bind, runs_lift. exists il. split; [exact Hil|].
  change (IsClient (set_list l t)) with (IsClient t). change (tstate (set_list l t)) with (tstate t).
  destruct (IsClient t) eqn:Ecl.
  - apply runs_bind, (runs_weaken _ sends); [intros e He; by left|].
    apply (run_client_runs t V packet h Hh); [done|done|]. intros go s' Hgo Hf'.
    destruct go; [|apply runs_ret; by apply run_post_same].
    apply run_admitted_runs; try done. by apply Hgo.
  - destruct (Z.eqb_spec (IN6_TEREDO_PREFIX (ip6_src h)) (prefix (addr (tstate t)))) as [Ep|Ep]; cbn [negb].
    + apply run_admitted_runs; try done. unfold admitted. by rewrite Ecl.
    + apply runs_ret. by apply run_post_same.
Qed.
End run.
End relay_proofs.
