(* ===== verification/Tunnel.v ===== *)
(** * The tunnel over its life ([relay.c])

Every sequence of calls on a tunnel is safe; what a state change, a
transmission and a reception guarantee; the rate limits. *)

From Stdlib Require Import Sorted.
From stdpp Require Import base gmap list numbers.
From S2P Require Import Prelude Words Addr Md5 Security Udp Packets PeerList Discovery Maintain Relay RelayProofs.

(** ** The invariant of a tunnel between two calls *)

Definition tunnel_inv (t : teredo_tunnel) : Prop :=
  tfd t <> -1 /\ tunnel_ok t /\ pm_ok (tlist t) /\ locked (tlist t) = false /\
  peers_ok t (pm_view (tlist t)).

Lemma inv_Free s : tunnel_inv (s_tunnel s) -> Free (s_tunnel s) (pm_view (tlist (s_tunnel s))) s.
Proof.
  intros (_ & _ & H1 & H2 & _). exists (tlist (s_tunnel s)). split_and!; try done.
  by destruct (s_tunnel s).
Qed.

Lemma Free_inv t V s :
  tfd t <> -1 -> tunnel_ok t -> peers_ok t V -> Free t V s -> tunnel_inv (s_tunnel s).
Proof.
  intros Hfd Ht HV (l & -> & H1 & H2 & H3). split_and!; try done.
  intros k' v. cbn. rewrite H3. apply HV.
Qed.

Lemma discovery_stop_ok d :
  discovery_ok d -> exists r, teredo_discovery_stop d = Ok r.
Proof.
  intros [Hr _]. unfold teredo_discovery_stop, teredo_discovery_release. cbn.
  destruct (Z.eqb_spec (refcnt d) 0); [lia|]. cbn. destruct (negb _); by eexists.
Qed.

Lemma bind_step {A B} (m : st sys A) (f : A -> st sys B) s a s' :
  m s = Ok (a, s') -> (m ≫= f) s = f a s'.
Proof. unfold mbind, st_bind. by intros ->. Qed.

Section state_change.
Context `{Env}.

Lemma join_ifaces_sends sk l z w :
  if_addr z = 0 -> outputs (join_ifaces sk (l ++ [z])) w (fun _ evs => Forall sends evs).
Proof.
  intros Hz. revert w. induction l as [|i l IH]; intros w; cbn [app join_ifaces].
  - rewrite Hz. apply outputs_ret. constructor.
  - destruct (if_addr i =? 0); [apply outputs_ret; constructor|].
    eapply (outputs_bind _ _ _ (fun _ evs => Forall sends evs)).
    + unfold teredo_discovery_joinmcast.
      eapply outputs_bind; [apply emit_outputs|]. intros _ evs w1 ->.
      eapply outputs_bind; [apply ask_outputs|]. intros r evs w2 ->.
      apply outputs_ret. by repeat constructor.
    + intros _ evs w1 He. eapply outputs_mono; [apply IH|]. intros b evs' He'.
      by apply list.Forall_app.
Qed.

Lemma discovery_start_outputs params fd src se w :
  (forall ifas, se_ifaddrs se = Some ifas -> masks_ok ifas) ->
  outputs (teredo_discovery_start params fd src se) w
    (fun d evs => Forall sends evs /\ forall d0, d = Some d0 -> discovery_ok d0).
Proof.
  intros Hm. assert (forall w', outputs (mret None : st world (option teredo_discovery)) w'
    (fun d evs => Forall sends evs /\ forall d0, d = Some d0 -> discovery_ok d0)) as Hnone.
  { intros w'. apply outputs_ret. by split; [constructor|]. }
  unfold teredo_discovery_start. destruct (se_malloc se); cbn [negb]; [|apply Hnone].
  destruct (se_ifaddrs se) as [ifas|]; [|apply Hnone].
  destruct (collect_ifaces_ok params (se_realloc se) ifas ifas None) as (r & Er & Hr);
    [by apply Hm|done|constructor|].
  apply (outputs_lift _ r _ _ _ Er). destruct r as [l|]; [|apply Hnone].
  cbv zeta. destruct (se_socket se <? 0); [apply Hnone|].
  eapply outputs_bind; [by apply join_ifaces_sends|]. intros u evs w1 He. cbn beta in He.
  eapply outputs_bind; [apply emit_outputs|]. intros u' evs' w2 ->.
  apply outputs_ret. split.
  - apply list.Forall_app. split; [done|]. by repeat constructor.
  - intros d0 [= <-]. split; [cbn; lia|]. by eexists _, (mk_interface 0 0).
Qed.

(** What the tunnel reports of a change from [before] to [after]. *)
Definition notification (t : teredo_tunnel) (after : teredo_state) : list event :=
  if up after then if up_cb t then [Up_cb (ip6_of (addr after)) (mtu after)] else []
  else if up (tstate t) && down_cb t then [Down_cb] else [].

Lemma stop_discovery_ok s :
  tunnel_ok (s_tunnel s) ->
  stop_discovery s = Ok (tt, mk_sys (s_world s) (set_discovery None (s_tunnel s))).
Proof.
  intros Ht. unfold stop_discovery, mbind, st_bind, tunnel, gets.
  destruct (discovery (s_tunnel s)) as [d|] eqn:Ed.
  - destruct (discovery_stop_ok d (Ht d Ed)) as [r Er]. unfold lift. by rewrite Er.
  - destruct s as [w t]. cbn in *. unfold set_discovery. rewrite <- Ed. by destruct t.
Qed.

Lemma notify_ok (b : bool) e s :
  (if b then in_world (emit e) else mret tt) s =
  Ok (tt, mk_sys (mk_world (w_k (s_world s)) (w_out (s_world s) ++ (if b then [e] else [])))
                 (s_tunnel s)).
Proof.
  destruct b; [done|]. destruct s as [[n o] t]. cbn. by rewrite app_nil_r.
Qed.

Lemma state_change_ok state se s :
  tunnel_inv (s_tunnel s) -> (forall ifas, se_ifaddrs se = Some ifas -> masks_ok ifas) ->
  exists s' evs, teredo_state_change state se s = Ok (tt, s') /\
    w_out (s_world s') = w_out (s_world s) ++ notification (s_tunnel s) state ++ evs /\
    Forall sends evs /\ tunnel_inv (s_tunnel s') /\ tstate (s_tunnel s') = state /\
    if up state then forall a, pm_view (tlist (s_tunnel s')) a = None
    else evs = [] /\ tlist (s_tunnel s') = tlist (s_tunnel s).
Proof.
  intros (Hfd & Ht & Hl & Hlk & HV) Hm. unfold teredo_state_change, notification.
  set (t := s_tunnel s). rewrite (bind_step _ _ _ t s) by done. cbv zeta.
  rewrite (bind_step _ _ _ tt (mk_sys (s_world s) (set_state state t))) by done.
  destruct (up state) eqn:Eup.
  - erewrite bind_step by by apply stop_discovery_ok. cbn [s_world s_tunnel].
    destruct (pm_reset (tlist t) MAX_PEERS) as (l & El & Hok & Hlk' & Hv);
      [done|done|unfold MAX_PEERS; lia|].
    set (t1 := set_list l (set_discovery None (set_state state t))).
    rewrite (bind_step _ _ _ tt (mk_sys (s_world s) t1))
      by (unfold in_list; cbn [s_tunnel tlist set_discovery set_state]; by rewrite El).
    rewrite (bind_step _ _ _ t1 (mk_sys (s_world s) t1)) by done.
    erewrite bind_step by apply notify_ok. cbn [s_world s_tunnel].
    change (up_cb t1) with (up_cb t). change (disc_params t1) with (disc_params t).
    assert (forall d, (forall d0, d = Some d0 -> discovery_ok d0) ->
              tunnel_inv (set_discovery d t1)) as Hinv.
    { intros d Hd. split_and!; try done. intros k' v. cbn. by rewrite Hv. }
    destruct (disc_params t) as [params|].
    + destruct (discovery_start_outputs params (tfd t1) (ip6_of (addr state)) se
        (mk_world (w_k (s_world s)) (w_out (s_world s)
           ++ (if up_cb t then [Up_cb (ip6_of (addr state)) (mtu state)] else []))) Hm)
        as (d & w' & evs & Ed & Ew & Hs & Hd).
      exists (mk_sys w' (set_discovery d t1)), evs.
      rewrite (bind_step _ _ _ d (mk_sys w' t1))
        by (unfold in_world; cbn [s_world s_tunnel]; by rewrite Ed). cbn [w_out] in Ew.
      rewrite <- app_assoc in Ew. split_and!; try done. by apply Hinv.
    + exists (mk_sys (mk_world (w_k (s_world s)) (w_out (s_world s)
           ++ (if up_cb t then [Up_cb (ip6_of (addr state)) (mtu state)] else []))) t1), [].
      rewrite app_nil_r. split_and!; try done. by apply (Hinv None).
  - exists (mk_sys (mk_world (w_k (s_world s)) (w_out (s_world s)
       ++ (if up (tstate t) && down_cb t then [Down_cb] else []))) (set_state state t)), [].
    rewrite app_nil_r. split_and!; try done.
    destruct (up (tstate t)).
    + rewrite (bind_step _ _ _ (set_state state t) (mk_sys (s_world s) (set_state state t))) by done.
      by rewrite notify_ok.
    + cbn. rewrite app_nil_r. by destruct (s_world s).
Qed.
End state_change.

(** ** Calls on a tunnel *)

(** The entry points of the library, as the threads of the program make them.
    The peer list, the state and the rate limiter have their locks, and
    nothing is called back under the lock of the list; a call is one step
    here, the finer interleavings on the list are those of
    [PeerList.action]. *)
Inductive op :=
| Transmit (packet : list Z)
| Receive (p0 : teredo_packet) (fill : list Z) (msg : option datagram)
| State_change (state : teredo_state) (se : start_env)
| Gc_round
| Set_prefix (p : Z)
| Set_cone_flag (cone : bool)
| Set_client_mode (lmem lthread mmem mdup mthread : bool) (server : list Z)
    (params : teredo_discovery_params)
| Set_callbacks (recv icmpv6 u d : bool)
| Run_async (mem thread : bool).

(** What the callers promise: the tunnel driver passes whole IPv6 packets, the
    kernel whole datagrams, and the system gives every address its mask. *)
Definition op_ok (o : op) : Prop :=
  match o with
  | Transmit packet => quotable packet
  | Receive _ fill msg =>
    length fill = TEREDO_PACKET_SIZE /\
    forall d, msg = Some d -> (length (dg_data d) <= TEREDO_PACKET_SIZE)%nat /\ bytes_ok (dg_data d)
  | State_change _ se => forall ifas, se_ifaddrs se = Some ifas -> masks_ok ifas
  | _ => True
  end.

Definition in_tunnel (f : teredo_tunnel -> teredo_tunnel) : st sys unit :=
  t ← tunnel; set_tunnel (f t).

Section calls.
Context `{Env, Mem} (k : hmac_state).

Definition call (o : op) : st sys unit :=
  match o with
  | Transmit packet => teredo_transmit k packet;; mret tt
  | Receive p0 fill msg => teredo_run k p0 fill msg
  | State_change state se => teredo_state_change state se
  | Gc_round => in_list (fun l => l ← garbage_collector l; Ok (tt, l))
  | Set_prefix p => in_tunnel (fun t => (teredo_set_prefix p t).2)
  | Set_cone_flag cone => in_tunnel (fun t => (teredo_set_cone_flag cone t).2)
  | Set_client_mode lmem lthread mmem mdup mthread server params =>
    t ← tunnel;
    r ← lift (teredo_set_client_mode lmem lthread mmem mdup mthread (Some server) t);
    let '(res, t, _) := r in
    if (res : Z) =? 0 then
      t ← lift (teredo_set_discovery_params (Some params) t); set_tunnel t
    else set_tunnel t
  | Set_callbacks recv icmpv6 u d =>
    in_tunnel (fun t => teredo_set_state_cb u d
                 (teredo_set_icmpv6_callback icmpv6 (teredo_set_recv_callback recv t)))
  | Run_async mem thread => in_tunnel (fun t => (teredo_run_async mem thread t).2)
  end.

Fixpoint calls (os : list op) : st sys unit :=
  match os with
  | [] => mret tt
  | o :: os => call o;; calls os
  end.

Lemma set_inv t f s :
  s_tunnel s = t ->
  tlist (f t) = tlist t -> discovery (f t) = discovery t -> tfd (f t) = tfd t ->
  tunnel_inv t -> exists s', in_tunnel f s = Ok (tt, s') /\ tunnel_inv (s_tunnel s').
Proof.
  intros Es E1 E2 E3 (Hfd & Ht & Hl & Hlk & HV). exists (mk_sys (s_world s) (f t)).
  split; [by unfold in_tunnel, mbind, st_bind, tunnel, gets, set_tunnel, modify; rewrite Es|].
  cbn. unfold tunnel_inv, tunnel_ok, peers_ok, peer_ok. rewrite E1, E2, E3. by split_and!.
Qed.

Lemma collect_inv s :
  tunnel_inv (s_tunnel s) -> exists s', call Gc_round s = Ok (tt, s') /\ tunnel_inv (s_tunnel s').
Proof.
  intros (Hfd & Ht & Hl & Hlk & HV).
  destruct (pm_collect (tlist (s_tunnel s)) Hl Hlk) as (l & El & Hok & Hlk' & Hsub).
  exists (mk_sys (s_world s) (set_list l (s_tunnel s))). unfold call, in_list. rewrite El.
  split; [done|]. split_and!; try done. intros k' v Hv. apply (HV k' v). by apply Hsub.
Qed.

Lemma client_mode_inv lmem lthread mmem mdup mthread server params s :
  tunnel_inv (s_tunnel s) ->
  exists s', call (Set_client_mode lmem lthread mmem mdup mthread server params) s = Ok (tt, s') /\
    tunnel_inv (s_tunnel s').
Proof.
  set (t := s_tunnel s). intros Hinv. pose proof Hinv as (Hfd & Ht & Hl & Hlk & HV).
  unfold call. rewrite (bind_step _ _ _ t s) by done. unfold teredo_set_client_mode.
  destruct (maintenance t); [by exists (mk_sys (s_world s) t)|].
  destruct (pm_create lmem lthread MAX_PEERS 600) as [->|(l & -> & Hl' & Hlk' & Hv)];
    [lia|unfold MAX_PEERS; lia|by exists (mk_sys (s_world s) t)|].
  cbn [mbind res_bind]. rewrite pm_destroy by done. cbn [mbind res_bind].
  unfold teredo_maintenance_start.
  assert (forall m dp, tunnel_inv (mk_teredo_tunnel l (opaque t) m (discovery t) (up_cb t)
    (down_cb t) dp (recv_cb t) (icmpv6_cb t) (tstate t) (rl_count t) (rl_last t) (trecv t) (tfd t)))
    as Hinv'.
  { intros m dp. split_and!; try done. intros k' v. cbn. by rewrite Hv. }
  destruct mmem, mdup, mthread; cbn; eexists; (split; [reflexivity|]; apply Hinv').
Qed.

Hypothesis Hmem : forall n, mem_queue n = true.

Lemma transmit_inv packet s :
  quotable packet -> tunnel_inv (s_tunnel s) ->
  exists r s', teredo_transmit k packet s = Ok (r, s') /\ tunnel_inv (s_tunnel s').
Proof.
  intros Hq Hinv. pose proof Hinv as (Hfd & Ht & _ & _ & HV). pose proof Hq as (_ & h & Hh & _).
  destruct (teredo_transmit_runs k (fun _ => True) ltac:(done) Hmem _ Ht packet h _ s Hq Hh HV
              (inv_Free s Hinv)) as (r & s' & _ & E & _ & _ & V' & Hev & c & la & Hf).
  exists r, s'. split; [done|].
  apply (Free_inv (set_ratelimit c la (s_tunnel s)) V'); [done|done| |done].
  by apply (evolves_ok _ _ _ _ _ HV Hev).
Qed.

Lemma receive_inv p0 fill msg s :
  op_ok (Receive p0 fill msg) -> tunnel_inv (s_tunnel s) ->
  exists s', teredo_run k p0 fill msg s = Ok (tt, s') /\ tunnel_inv (s_tunnel s').
Proof.
  intros [Hfill Hmsg] Hinv. pose proof Hinv as (Hfd & Ht & _ & _ & HV). unfold teredo_run.
  destruct msg as [d|]; [|by exists s]. destruct (Hmsg d eq_refl) as [Hlen Hb].
  rewrite (bind_step _ _ _ (recv_spec p0 d) s)
    by (unfold lift; by rewrite recv_inner_correct).
  destruct (recv_spec p0 d) as [packet|] eqn:Er; [|by exists s].
  destruct (teredo_run_inner_runs k Hmem _ _ Ht HV packet s (recv_spec_bytes _ _ _ Hb Er)
              (inv_Free s Hinv)) as [([] & s' & E & _ & Hf)|(h & il & Hh & Hil & Hwf & Hr)].
  - exists s'. split; [done|]. by eapply Free_inv.
  - destruct Hr as ([] & s' & evs & E & _ & _ & V' & Hev & Hf & _). exists s'. split; [done|].
    eapply Free_inv; [exact Hfd|exact Ht| |exact Hf]. by apply (evolves_ok _ _ _ _ _ HV Hev).
Qed.

Lemma call_inv o s :
  op_ok o -> tunnel_inv (s_tunnel s) ->
  exists s', call o s = Ok (tt, s') /\ tunnel_inv (s_tunnel s').
Proof.
  intros Ho Hinv. destruct o; cbn [call].
  - destruct (transmit_inv packet s Ho Hinv) as (r & s' & E & Hs').
    exists s'. by rewrite (bind_step _ _ _ _ _ E).
  - by apply receive_inv.
  - destruct (state_change_ok state se s Hinv Ho) as (s' & evs & E & _ & _ & Hs' & _). by exists s'.
  - by apply collect_inv.
  - apply (set_inv (s_tunnel s)); try done; unfold teredo_set_prefix; case_ifs; done.
  - apply (set_inv (s_tunnel s)); try done; unfold teredo_set_cone_flag; case_ifs; done.
  - by apply client_mode_inv.
  - by apply (set_inv (s_tunnel s)).
  - apply (set_inv (s_tunnel s)); try done; unfold teredo_run_async;
      destruct (trecv (s_tunnel s)), (teredo_iothread_start mem thread (tfd (s_tunnel s))); done.
Qed.

Lemma calls_inv os : forall s, Forall op_ok os -> tunnel_inv (s_tunnel s) ->
  exists s', calls os s = Ok (tt, s') /\ tunnel_inv (s_tunnel s').
Proof.
  induction os as [|o os IH]; intros s Hos Hinv; [by exists s|].
  apply list.Forall_cons in Hos as [Ho Hos]. destruct (call_inv o s Ho Hinv) as (s1 & E & H1).
  destruct (IH s1 Hos H1) as (s2 & E2 & H2). exists s2. cbn [calls].
  by rewrite (bind_step _ _ _ _ _ E).
Qed.
End calls.

Lemma create_inv mem fd lmem lthread ip port :
  exists r, teredo_create mem fd lmem lthread ip port = Ok r /\
    forall t, r = Some t -> tunnel_inv t.
Proof.
  unfold teredo_create. destruct mem; cbn [negb]; [|by eexists].
  destruct (Z.eqb_spec fd (-1)); [by eexists|].
  destruct (pm_create lmem lthread MAX_PEERS 30) as [->|(l & -> & Hl & Hlk & Hv)];
    [lia|unfold MAX_PEERS; lia|by eexists|].
  eexists. split; [done|]. intros t [= <-]. split_and!; try done. intros k' v. cbn. by rewrite Hv.
Qed.

Lemma destroy_inv t : tunnel_inv t -> teredo_destroy t = Ok ∅.
Proof.
  intros (Hfd & Ht & Hl & Hlk & _). unfold teredo_destroy.
  rewrite (proj2 (Z.eqb_neq _ _) Hfd). cbn [negb guard_or mbind res_bind].
  destruct (discovery t) as [d|] eqn:Ed; cbn [mbind res_bind]; [|by apply pm_destroy].
  destruct (discovery_stop_ok d (Ht d Ed)) as [r ->]. by apply pm_destroy.
Qed.

(** (C1) The life of a tunnel is free of faults: whatever sequence of
    transmissions, datagrams, state changes, collections and settings follows
    its creation, no call reads out of bounds, follows a null or stale
    pointer, fails an assertion or misuses a lock, every call returns, and the
    destruction of the tunnel afterwards releases every peer.  Transmitted
    packets are IPv6 packets with the byte after the header that an ICMPv6
    header announces, and memory for queued packets is available: the code
    tests neither. *)
Theorem tunnel_lifecycle_safe `{Env, Mem} (k : hmac_state) (mem : bool) (fd : Z)
    (lmem lthread : bool) (ip port : Z) (os : list op) (w : world)
    (Hmem : forall n, mem_queue n = true) (Hos : Forall op_ok os) :
  exists r, teredo_create mem fd lmem lthread ip port = Ok r /\
    forall t, r = Some t ->
      exists s, calls k os (mk_sys w t) = Ok (tt, s) /\ teredo_destroy (s_tunnel s) = Ok ∅.
Proof.
  destruct (create_inv mem fd lmem lthread ip port) as (r & Er & Hr). exists r. split; [done|].
  intros t Ht. destruct (calls_inv k Hmem os (mk_sys w t) Hos (Hr t Ht)) as (s & Es & Hs).
  exists s. split; [done|]. by apply destroy_inv.
Qed.

(** A client that qualifies, sends a packet to a native IPv6 host, and
    receives the reply to the connectivity test. *)
Definition example_mem : Mem :=
  {| mem_node := fun _ => true; mem_item := fun _ => Some garbage_item; mem_queue := fun _ => true |}.

Definition example_out : list Z :=
  put_ip6 {| ip6_flow := ip6_flow_v6; ip6_plen := htons 4; ip6_nxt := 17; ip6_hlim := 64;
             ip6_src := ip6_of (addr example_up); ip6_dst := example_peer |} ++ [1; 2; 3; 4].

Definition example_reply : datagram :=
  mk_datagram (echo_reply (ping_packet example_key 100 (ip6_of (addr example_up)) example_peer) 60 0)
    (ipv4 203 0 113 9) (htons 50000) [].

Definition example_calls : list op :=
  [Set_callbacks true true true true;
   Set_client_mode true true true true true [0] example_params;
   State_change example_up example_start;
   Transmit example_out;
   Receive example_packet (repeat 1 TEREDO_PACKET_SIZE) (Some example_reply);
   Transmit example_out; Gc_round;
   State_change (mk_teredo_state (addr example_up) 0 1280 false) example_start].

Lemma example_out_quotable : quotable example_out.
Proof.
  split; [vm_compute; repeat (constructor; [split; congruence|]); constructor|].
  eexists. split; [vm_compute; reflexivity|]. left. vm_compute. congruence.
Qed.

Lemma example_reply_ok :
  op_ok (Receive example_packet (repeat 1 TEREDO_PACKET_SIZE) (Some example_reply)).
Proof.
  split; [apply repeat_length|]. intros d [= <-]. split.
  - apply Nat2Z.inj_le. vm_compute. congruence.
  - vm_compute. repeat (constructor; [split; congruence|]). constructor.
Qed.

Lemma example_masks ifas : se_ifaddrs example_start = Some ifas -> masks_ok ifas.
Proof.
  intros [= <-]. repeat (apply list.Forall_cons; split; [intros _; eexists; reflexivity|]). constructor.
Qed.

Lemma example_calls_ok : Forall op_ok example_calls.
Proof.
  unfold example_calls. repeat apply list.Forall_cons_2; try exact I.
  - intros ifas. apply example_masks.
  - apply example_out_quotable.
  - apply example_reply_ok.
  - apply example_out_quotable.
  - intros ifas. apply example_masks.
  - apply list.Forall_nil_2.
Qed.

Definition example_tunnel : teredo_tunnel :=
  match teredo_create true 3 true true 0 0 with
  | Ok (Some t) => t
  | _ => mk_teredo_tunnel example_list 0 false None false false None false false example_up 0 0 false 0
  end.

(** The first packet is queued while the host is tested, and leaves for the
    address that answered the test; the second one leaves at once. *)
Lemma example_calls_out :
  match calls (H := quiet_env) (H0 := example_mem) example_key example_calls (mk_sys w0 example_tunnel) with
  | Ok (_, s) => w_out (s_world s) =
      [Up_cb (ip6_of (addr example_up)) 1280; Join_mcast 9 (ipv4 192 168 1 2); Multicast_loop_off 3;
       Sendmsg 3 (ipv4 192 0 2 45) (htons 3544)
         (ping_packet example_key 100 (ip6_of (addr example_up)) example_peer);
       Sendmsg 3 (ipv4 203 0 113 9) (htons 50000) example_out;
       Sendmsg 3 (ipv4 203 0 113 9) (htons 50000) example_out; Down_cb]
  | Err _ => False
  end.
Proof. vm_compute. reflexivity. Qed.

Lemma tunnel_lifecycle_safe_witness :
  exists r, teredo_create true 3 true true 0 0 = Ok r /\
    forall t, r = Some t ->
      exists s, calls (H := quiet_env) (H0 := example_mem) example_key example_calls (mk_sys w0 t)
                = Ok (tt, s) /\ teredo_destroy (s_tunnel s) = Ok ∅.
Proof.
  apply (@tunnel_lifecycle_safe quiet_env example_mem example_key true 3 true true 0 0 example_calls w0).
  - intros n. reflexivity.
  - exact example_calls_ok.
Defined.

(** ** Contracts of transmission and reception *)

Definition same_others (key : in6_addr) (V V' : peers) : Prop := forall a, a <> key -> V' a = V a.

(** Whoever is trusted afterwards satisfies [A], or was trusted before with
    the same mapping. *)
Definition trust_kept (key : in6_addr) (A : teredo_peer -> Prop) (V V' : peers) : Prop :=
  forall v', V' key = Some v' -> trusted v' = true ->
    A v' \/ exists v, V key = Some v /\ trusted v = true /\ same_mapping v v'.

Lemma evolves_contract t key A V V' :
  evolves t key A V V' -> same_others key V V' /\ trust_kept key A V V'.
Proof.
  intros [Hs|(v & Hs & _ & Htr)].
  - split; [by intros a _|]. intros v' Hv' Ht. right. exists v'. by rewrite <- Hs.
  - split; [intros a Ha; rewrite Hs; unfold upd_peers; by rewrite decide_False|].
    intros v'. rewrite Hs, upd_same. intros [= <-]. apply Htr.
Qed.

Lemma Free_view t V s a : Free t V s -> pm_view (tlist (s_tunnel s)) a = V a.
Proof. intros (l & -> & _ & _ & HV). apply HV. Qed.

Lemma contract_ext key A V V1 V2 :
  (forall a, V2 a = V1 a) -> same_others key V V1 /\ trust_kept key A V V1 ->
  same_others key V V2 /\ trust_kept key A V V2.
Proof.
  intros E [H1 H2]. split; [intros a Ha; rewrite E; by apply H1|].
  intros v'. rewrite E. apply H2.
Qed.

(** (C3) Transmission: a packet with a whole IPv6 header and, when that header
    announces ICMPv6, at least the one byte after it that the code reads
    before it quotes the packet in an error (the driver passes on anything of
    40 bytes or more, so a bare header that announces ICMPv6 is excluded here:
    the code reads past its end) is handled without a fault and with the list
    unlocked at the end; only the peer of the destination changes; nobody
    becomes trusted, nor gets another mapping while trusted, by being sent a
    packet; and nothing is ever delivered locally or reported as a state
    change.  The tunnel satisfies its invariant, and memory for queued packets
    is available, which the code does not test. *)
Theorem teredo_transmit_contract `{Env, Mem} (k : hmac_state) (packet : list Z) (h : ip6_hdr) (s : sys)
    (Hmem : forall n, mem_queue n = true) (Hinv : tunnel_inv (s_tunnel s))
    (Hq : quotable packet) (Hh : get_ip6 packet = Ok h) :
  exists r s' evs, teredo_transmit k packet s = Ok (r, s') /\
    w_out (s_world s') = w_out (s_world s) ++ evs /\ Forall sends evs /\
    tunnel_inv (s_tunnel s') /\
    same_others (ip6_dst h) (pm_view (tlist (s_tunnel s))) (pm_view (tlist (s_tunnel s'))) /\
    trust_kept (ip6_dst h) (fun _ => False) (pm_view (tlist (s_tunnel s))) (pm_view (tlist (s_tunnel s'))).
Proof.
  pose proof Hinv as (Hfd & Ht & _ & _ & HV).
  destruct (teredo_transmit_runs k sends (fun e He => He) Hmem _ Ht packet h _ s Hq Hh HV
              (inv_Free s Hinv)) as (r & s' & evs & E & Ew & He & V' & Hev & c & la & Hf).
  exists r, s', evs. split_and!; try done.
  - eapply (Free_inv (set_ratelimit c la (s_tunnel s)) V'); [done|done| |done].
    by apply (evolves_ok _ _ _ _ _ HV Hev).
  - eapply contract_ext; [intros a; by eapply Free_view|]. by eapply evolves_contract.
  - eapply contract_ext; [intros a; by eapply Free_view|]. by eapply evolves_contract.
Qed.

(** A qualified client whose list is empty. *)
Definition example_client_tunnel : teredo_tunnel :=
  match calls (H := quiet_env) (H0 := example_mem) example_key (take 3 example_calls)
          (mk_sys w0 example_tunnel) with
  | Ok (_, s) => s_tunnel s
  | Err _ => example_tunnel
  end.

Lemma example_tunnel_inv : tunnel_inv example_tunnel.
Proof.
  destruct (create_inv true 3 true true 0 0) as (r & Er & Hr). apply Hr.
  vm_compute in Er. injection Er as <-. reflexivity.
Qed.

Lemma example_client_inv : tunnel_inv example_client_tunnel.
Proof.
  unfold example_client_tunnel.
  destruct (@calls_inv quiet_env example_mem example_key (fun _ => eq_refl) (take 3 example_calls)
              (mk_sys w0 example_tunnel)) as (s & -> & Hs); [|exact example_tunnel_inv|done].
  apply list.Forall_take, example_calls_ok.
Qed.

Definition example_out_hdr : ip6_hdr :=
  {| ip6_flow := ip6_flow_v6; ip6_plen := htons 4; ip6_nxt := 17; ip6_hlim := 64;
     ip6_src := ip6_of (addr example_up); ip6_dst := example_peer |}.

Definition example_sys : sys := mk_sys w0 example_client_tunnel.

Lemma teredo_transmit_contract_witness :
  exists r s' evs, teredo_transmit (H := quiet_env) (H0 := example_mem) example_key example_out
      example_sys = Ok (r, s') /\
    w_out (s_world s') = w_out (s_world example_sys) ++ evs /\ Forall sends evs /\
    tunnel_inv (s_tunnel s') /\
    same_others (ip6_dst example_out_hdr) (pm_view (tlist (s_tunnel example_sys)))
      (pm_view (tlist (s_tunnel s'))) /\
    trust_kept (ip6_dst example_out_hdr) (fun _ => False) (pm_view (tlist (s_tunnel example_sys)))
      (pm_view (tlist (s_tunnel s'))).
Proof.
  apply (@teredo_transmit_contract quiet_env example_mem example_key example_out example_out_hdr
           example_sys).
  - intros n. reflexivity.
  - exact example_client_inv.
  - exact example_out_quotable.
  - vm_compute. reflexivity.
Defined.

(** (C2) Reception: any datagram is handled without a fault and with the list
    unlocked at the end.  Either it has no effect, or it carries an IPv6 packet
    such that only the peer of its source changes, that peer is trusted
    afterwards only if it was at the same address and port, or the packet
    proves its origin (a reply to one of our pings, a source address that
    embeds the UDP source, a valid bubble, or a neighbour on the local
    network), and what reaches the IPv6 stack is the packet itself from such
    an origin, or packets queued earlier from it.  A client that is not
    qualified, and packets with a link-local source, never get that far.
    Memory for queued packets is available. *)
Theorem teredo_run_contract `{Env, Mem} (k : hmac_state) (p0 : teredo_packet) (fill : list Z)
    (d : datagram) (s : sys) (Hmem : forall n, mem_queue n = true)
    (Hinv : tunnel_inv (s_tunnel s)) (Hop : op_ok (Receive p0 fill (Some d))) :
  exists s' evs, teredo_run k p0 fill (Some d) s = Ok (tt, s') /\
    w_out (s_world s') = w_out (s_world s) ++ evs /\ tunnel_inv (s_tunnel s') /\
    let t := s_tunnel s in
    let V := pm_view (tlist t) in
    let V' := pm_view (tlist (s_tunnel s')) in
    ((evs = [] /\ forall a, V' a = V a) \/
     exists packet h islocal, recv_spec p0 d = Some packet /\ get_ip6 (ip6 packet) = Ok h /\
       teredo_islocal t packet h = Ok islocal /\
       Forall (received k t V packet h islocal) evs /\
       same_others (ip6_src h) V V' /\
       trust_kept (ip6_src h) (trust_proved k t V packet h islocal) V V' /\
       forall a, V' a <> V a -> admitted t h).
Proof.
  pose proof Hinv as (Hfd & Ht & _ & _ & HV). destruct Hop as [Hfill Hmsg].
  destruct (Hmsg d eq_refl) as [Hlen Hb]. unfold teredo_run.
  rewrite (bind_step _ _ _ (recv_spec p0 d) s) by (unfold lift; by rewrite recv_inner_correct).
  destruct (recv_spec p0 d) as [packet|] eqn:Er; cycle 1.
  { exists s, []. rewrite app_nil_r. split_and!; try done. by left. }
  destruct (teredo_run_inner_runs k Hmem _ _ Ht HV packet s (recv_spec_bytes _ _ _ Hb Er)
              (inv_Free s Hinv)) as [([] & s' & E & Ew & Hf)|(h & il & Hh & Hil & Hwf & Hr)].
  - exists s', []. rewrite app_nil_r. split_and!; try done; [by eapply Free_inv|].
    left. split; [done|]. intros a. by eapply Free_view.
  - destruct Hr as ([] & s' & evs & E & Ew & He & V' & Hev & Hf & Had). exists s', evs.
    split_and!; try done.
    { eapply Free_inv; [exact Hfd|exact Ht| |exact Hf]. by apply (evolves_ok _ _ _ _ _ HV Hev). }
    right. exists packet, h, il. split_and!; try done.
    1, 2: eapply contract_ext; [intros a; by eapply Free_view|]; by eapply evolves_contract.
    intros a. rewrite (Free_view _ _ _ a Hf). apply Had.
Qed.

(** The client after its first packet to the host. *)
Definition example_waiting : sys :=
  match calls (H := quiet_env) (H0 := example_mem) example_key (take 4 example_calls)
          (mk_sys w0 example_tunnel) with
  | Ok (_, s) => s
  | Err _ => example_sys
  end.

Lemma example_waiting_inv : tunnel_inv (s_tunnel example_waiting).
Proof.
  unfold example_waiting.
  destruct (@calls_inv quiet_env example_mem example_key (fun _ => eq_refl) (take 4 example_calls)
              (mk_sys w0 example_tunnel)) as (s & -> & Hs); [|exact example_tunnel_inv|done].
  apply list.Forall_take, example_calls_ok.
Qed.

Lemma teredo_run_contract_witness :
  exists s' evs, teredo_run (H := quiet_env) (H0 := example_mem) example_key example_packet
      (repeat 1 TEREDO_PACKET_SIZE) (Some example_reply) example_waiting = Ok (tt, s') /\
    w_out (s_world s') = w_out (s_world example_waiting) ++ evs /\ tunnel_inv (s_tunnel s') /\
    let t := s_tunnel example_waiting in
    let V := pm_view (tlist t) in
    let V' := pm_view (tlist (s_tunnel s')) in
    ((evs = [] /\ forall a, V' a = V a) \/
     exists packet h islocal, recv_spec example_packet example_reply = Some packet /\
       get_ip6 (ip6 packet) = Ok h /\ teredo_islocal t packet h = Ok islocal /\
       Forall (received example_key t V packet h islocal) evs /\
       same_others (ip6_src h) V V' /\
       trust_kept (ip6_src h) (trust_proved example_key t V packet h islocal) V V' /\
       forall a, V' a <> V a -> admitted t h).
Proof.
  apply (@teredo_run_contract quiet_env example_mem example_key example_packet
           (repeat 1 TEREDO_PACKET_SIZE) example_reply example_waiting).
  - intros n. reflexivity.
  - exact example_waiting_inv.
  - exact example_reply_ok.
Defined.

(** A state change is reported exactly once and first: a client that
    comes up reports its address and MTU, forgets every peer, and then only
    sets up local discovery; one that goes down reports it only if it was up,
    keeps its peers and does nothing else. *)
Theorem teredo_state_change_contract `{Env} (state : teredo_state) (se : start_env) (s : sys)
    (Hinv : tunnel_inv (s_tunnel s))
    (Hm : forall ifas, se_ifaddrs se = Some ifas -> masks_ok ifas) :
  exists s' evs, teredo_state_change state se s = Ok (tt, s') /\
    w_out (s_world s') = w_out (s_world s) ++ notification (s_tunnel s) state ++ evs /\
    Forall sends evs /\ tunnel_inv (s_tunnel s') /\ tstate (s_tunnel s') = state /\
    if up state then forall a, pm_view (tlist (s_tunnel s')) a = None
    else evs = [] /\ tlist (s_tunnel s') = tlist (s_tunnel s).
Proof. by apply state_change_ok. Qed.

Lemma teredo_state_change_contract_witness :
  exists s' evs, teredo_state_change (H := quiet_env) example_up example_start example_waiting
      = Ok (tt, s') /\
    w_out (s_world s') = w_out (s_world example_waiting)
      ++ notification (s_tunnel example_waiting) example_up ++ evs /\
    Forall sends evs /\ tunnel_inv (s_tunnel s') /\ tstate (s_tunnel s') = example_up /\
    if up example_up then forall a, pm_view (tlist (s_tunnel s')) a = None
    else evs = [] /\ tlist (s_tunnel s') = tlist (s_tunnel example_waiting).
Proof.
  apply (@teredo_state_change_contract quiet_env example_up example_start example_waiting).
  - exact example_waiting_inv.
  - exact example_masks.
Defined.

(** ** Established peers *)

Definition emits {A} (m : st sys A) (s : sys) (evs : list event) (Q : A -> sys -> Prop) : Prop :=
  exists a s', m s = Ok (a, s') /\ w_out (s_world s') = w_out (s_world s) ++ evs /\ Q a s'.

Definition silent : event -> Prop := fun _ => False.

Lemma emits_silent {A B} (m : st sys A) (f : A -> st sys B) s evs Q :
  runs silent m s (fun a s' => emits (f a) s' evs Q) -> emits (m ≫= f) s evs Q.
Proof.
  intros (a & s1 & evs1 & E1 & Ew & He & b & s2 & E2 & Ew2 & HQ).
  exists b, s2. rewrite (bind_step _ _ _ _ _ E1). split_and!; try done.
  destruct evs1 as [|e evs1]; [|by apply list.Forall_cons in He as [[] _]].
  by rewrite Ew2, Ew, app_nil_r.
Qed.

(** The packets that are sent to a peer: a qualified client may send from its
    Teredo address to anywhere, and both clients and relays to Teredo addresses
    whose server is a global unicast address. *)
Definition routable (t : teredo_tunnel) (h : ip6_hdr) : bool :=
  negb (s6_addr (ip6_dst h) 0 =? 0xff) && negb (IsClient t && negb (up (tstate t))) &&
  if IN6_TEREDO_PREFIX (ip6_dst h) =? prefix (addr (tstate t)) then
    is_ipv4_global_unicast (IN6_TEREDO_SERVER (ip6_dst h)) && negb (IN6_TEREDO_SERVER (ip6_dst h) =? 0)
  else IsClient t && (IN6_TEREDO_PREFIX (ip6_src h) =? prefix (addr (tstate t))).

Section established.
Context `{Env, Mem} (k : hmac_state).

Lemma transmit_routable packet h s :
  get_ip6 packet = Ok h -> routable (s_tunnel s) h = true ->
  teredo_transmit k packet s = transmit_peer k (tstate (s_tunnel s)) (ip6_dst h) packet s.
Proof.
  intros Hh Hr. unfold teredo_transmit. rewrite (bind_step _ _ _ h s) by (unfold lift; by rewrite Hh).
  unfold routable in Hr. apply andb_true_iff in Hr as [[Hm Hu]%andb_true_iff Hr].
  apply negb_true_iff in Hm, Hu. cbv zeta. rewrite Hm.
  rewrite (bind_step _ _ _ (s_tunnel s) s) by done. rewrite Hu.
  destruct (_ =? prefix _); cbn [negb].
  - apply andb_true_iff in Hr as [Hg Hz]. apply negb_true_iff in Hz. by rewrite Hg, Hz.
  - apply andb_true_iff in Hr as [Hc Hs]. by rewrite Hc, Hs.
Qed.

Lemma encap_emits t p key v V data now s :
  Held t p key v V s ->
  emits (teredo_encap p data now) s [Sendmsg (tfd t) (mapped_addr v) (mapped_port v) data]
    (fun _ s' => Free t (upd_peers V key (TouchTransmit now v)) s').
Proof.
  intros Hh. unfold teredo_encap. apply emits_silent, (runs_get _ _ _ _ _ _ _ _ Hh).
  intros s1 H1. apply emits_silent, (runs_put _ _ _ _ _ _ _ _ _ H1). intros s2 H2.
  apply emits_silent, (runs_release _ _ _ _ _ _ _ _ H2). intros s3 H3. apply Freed_Free in H3.
  apply emits_silent, (runs_tunnel_free _ _ _ _ _ H3). intros l.
  destruct (sendv_outputs (tfd t) [data] (mapped_addr v) (mapped_port v) (s_world s3))
    as (r & w' & evs & Es & Ew & ->). cbn in Ew. rewrite app_nil_r in Ew.
  unfold emits. rewrite (bind_step _ _ _ r (mk_sys w' (s_tunnel s3)))
    by (unfold in_world, teredo_send; cbn [tfd set_list]; by rewrite Es).
  eexists _, _. split; [done|]. by split.
Qed.
End established.

(** A packet for a peer that is trusted and was heard of recently leaves
    at once, as exactly one UDP datagram with the packet as its payload,
    towards the mapped address and port of the peer; nothing else is sent, and
    only the transmission time of the peer changes. *)
Theorem transmit_to_trusted_peer `{Env, Mem} (k : hmac_state) (packet : list Z) (h : ip6_hdr)
    (s : sys) (v : teredo_peer)
    (Hinv : tunnel_inv (s_tunnel s)) (Hh : get_ip6 packet = Ok h)
    (Hr : routable (s_tunnel s) h = true)
    (Hv : pm_view (tlist (s_tunnel s)) (ip6_dst h) = Some v) (Htr : trusted v = true)
    (Hval : IsValid v (env_clock (w_k (s_world s))) = true) :
  exists r s', teredo_transmit k packet s = Ok (r, s') /\
    w_out (s_world s') = w_out (s_world s) ++
      [Sendmsg (tfd (s_tunnel s)) (mapped_addr v) (mapped_port v) packet] /\
    same_others (ip6_dst h) (pm_view (tlist (s_tunnel s))) (pm_view (tlist (s_tunnel s'))) /\
    pm_view (tlist (s_tunnel s')) (ip6_dst h) = Some (TouchTransmit (env_clock (w_k (s_world s))) v).
Proof.
  rewrite (transmit_routable k packet h s Hh Hr). unfold transmit_peer.
  set (now := env_clock (w_k (s_world s))) in *.
  set (s1 := mk_sys (mk_world (S (w_k (s_world s))) (w_out (s_world s))) (s_tunnel s)).
  rewrite (bind_step _ _ _ now s1) by done.
  match goal with |- exists r s', ?m s1 = _ /\ _ =>
    assert (emits m s1 [Sendmsg (tfd (s_tunnel s)) (mapped_addr v) (mapped_port v) packet]
      (fun _ s' => Free (s_tunnel s) (upd_peers (pm_view (tlist (s_tunnel s))) (ip6_dst h)
                     (TouchTransmit now v)) s')) as (r & s' & E & Ew & Hf)
  end.
  { apply emits_silent, (runs_lookup _ _ _ _ _ _ _ (inv_Free s1 Hinv)).
    - intros s2 H2 Hn. change (s_tunnel s1) with (s_tunnel s) in Hn. congruence.
    - intros p v' s2 H2 Hv'. change (s_tunnel s1) with (s_tunnel s) in Hv'. rewrite Hv in Hv'. injection Hv' as <-.
      apply emits_silent, (runs_get _ _ _ _ _ _ _ _ H2). intros s3 H3. cbn [negb andb].
      rewrite Htr, Hval. cbn [andb]. by eapply encap_emits.
    - intros p g s2 _ Hn. change (s_tunnel s1) with (s_tunnel s) in Hn. congruence. }
  exists r, s'. split_and!; try done.
  - intros a Ha. rewrite (Free_view _ _ _ a Hf). unfold upd_peers. by rewrite decide_False.
  - rewrite (Free_view _ _ _ _ Hf). apply upd_same.
Qed.

(** The client after the reply of the host. *)
Definition example_established : sys :=
  match calls (H := quiet_env) (H0 := example_mem) example_key (take 5 example_calls)
          (mk_sys w0 example_tunnel) with
  | Ok (_, s) => s
  | Err _ => example_sys
  end.

Lemma example_established_inv : tunnel_inv (s_tunnel example_established).
Proof.
  unfold example_established.
  destruct (@calls_inv quiet_env example_mem example_key (fun _ => eq_refl) (take 5 example_calls)
              (mk_sys w0 example_tunnel)) as (s & -> & Hs); [|exact example_tunnel_inv|done].
  apply list.Forall_take, example_calls_ok.
Qed.

Definition example_host : teredo_peer :=
  default (teredo_peer_init (peer garbage_item))
    (pm_view (tlist (s_tunnel example_established)) (ip6_dst example_out_hdr)).

Lemma transmit_to_trusted_peer_witness :
  exists r s', teredo_transmit (H := quiet_env) (H0 := example_mem) example_key example_out
      example_established = Ok (r, s') /\
    w_out (s_world s') = w_out (s_world example_established) ++
      [Sendmsg (tfd (s_tunnel example_established)) (mapped_addr example_host)
         (mapped_port example_host) example_out] /\
    same_others (ip6_dst example_out_hdr) (pm_view (tlist (s_tunnel example_established)))
      (pm_view (tlist (s_tunnel s'))) /\
    pm_view (tlist (s_tunnel s')) (ip6_dst example_out_hdr) =
      Some (TouchTransmit (env_clock (Env := quiet_env) (w_k (s_world example_established)))
              example_host).
Proof.
  apply (@transmit_to_trusted_peer quiet_env example_mem example_key example_out example_out_hdr
           example_established example_host).
  - exact example_established_inv.
  - vm_compute. reflexivity.
  - vm_compute. reflexivity.
  - vm_compute. reflexivity.
  - vm_compute. reflexivity.
  - vm_compute. reflexivity.
Defined.

(** ** Rate limits *)

(** The errors that may still be sent while the clock shows [now]. *)
Definition icmp_budget (now : Z) (t : teredo_tunnel) : Z :=
  if now =? rl_last t then rl_count t else 10.

Section unreach.
Context `{Env}.

Fixpoint unreach_all (reqs : list (Z * list Z)) : st sys unit :=
  match reqs with
  | [] => mret tt
  | (code, packet) :: reqs => teredo_send_unreach code packet;; unreach_all reqs
  end.

(** The error for a request, as it reaches the IPv6 stack. *)
Definition unreach_event (req : Z * list Z) : event :=
  match BuildICMPv6Error ICMP6_DST_UNREACH req.1 req.2, get_ip6 req.2 with
  | Ok out, Ok h => Icmpv6_cb out (ip6_src h)
  | _, _ => Down_cb
  end.

Lemma unreach_all_ok now : (forall n, env_clock n = now) ->
  forall reqs s, Forall (fun req => quotable req.2) reqs ->
    icmpv6_cb (s_tunnel s) = true -> 0 <= icmp_budget now (s_tunnel s) ->
    exists s', unreach_all reqs s = Ok (tt, s') /\
      w_out (s_world s') = w_out (s_world s) ++
        (unreach_event <$> take (Z.to_nat (icmp_budget now (s_tunnel s))) reqs).
Proof.
  intros Hnow. induction reqs as [|[code packet] reqs IH]; intros s Hq Hcb Hb.
  { exists s. rewrite take_nil, app_nil_r. done. }
  apply list.Forall_cons in Hq as [(Hby & h & Hh & Hnxt) Hq]. cbn [snd] in *.
  cbn [unreach_all]. set (b := icmp_budget now (s_tunnel s)) in *.
  set (s0 := mk_sys (mk_world (S (w_k (s_world s))) (w_out (s_world s))) (s_tunnel s)).
  assert (rate_limit now (s_tunnel s) =
    (negb (b =? 0), set_ratelimit (if 0 <? b then b - 1 else b) now (s_tunnel s))) as Erl.
  { unfold rate_limit, b, icmp_budget. change (1000 / ICMP_RATE_LIMIT_MS) with 10.
    destruct (Z.eqb_spec now (rl_last (s_tunnel s))) as [<-|]; cbn [negb]; [|done].
    destruct (Z.eqb_spec (rl_count (s_tunnel s)) 0) as [->|]; done. }
  set (t1 := set_ratelimit (if 0 <? b then b - 1 else b) now (s_tunnel s)) in *.
  assert (icmp_budget now t1 = if 0 <? b then b - 1 else b) as Eb1
    by (unfold icmp_budget; cbn; by rewrite Z.eqb_refl).
  assert (teredo_send_unreach code packet s =
    Ok (tt, mk_sys (mk_world (S (w_k (s_world s))) (w_out (s_world s) ++
       (if b =? 0 then [] else [unreach_event (code, packet)]))) t1)) as Es.
  { unfold teredo_send_unreach. rewrite (bind_step _ _ _ now s0)
      by (cbn; by rewrite Hnow). rewrite (bind_step _ _ _ (s_tunnel s) s0) by done.
    rewrite Erl. rewrite (bind_step _ _ _ tt (mk_sys (s_world s0) t1)) by done.
    destruct (b =? 0); cbn [negb]; [by rewrite app_nil_r|].
    pose proof (BuildICMPv6Error_ok ICMP6_DST_UNREACH code packet h Hby Hh Hnxt) as Eo.
    unfold unreach_event. cbn [fst snd]. rewrite Eo, Hh.
    erewrite bind_step by done. erewrite bind_step by done.
    change (icmpv6_cb t1) with (icmpv6_cb (s_tunnel s)). by rewrite Hcb. }
  rewrite (bind_step _ _ _ _ _ Es).
  destruct (IH (mk_sys (mk_world (S (w_k (s_world s))) (w_out (s_world s) ++
       (if b =? 0 then [] else [unreach_event (code, packet)]))) t1)) as (s' & E' & Ew').
  { done. }
  { exact Hcb. }
  { cbn [s_tunnel]. rewrite Eb1. destruct (Z.ltb_spec 0 b); lia. }
  exists s'. split; [done|]. rewrite Ew'. cbn [s_world s_tunnel w_out]. rewrite Eb1, <- app_assoc.
  f_equal. destruct (Z.eqb_spec b 0) as [->|Hne]; [done|].
  rewrite (proj2 (Z.ltb_lt 0 b)) by lia.
  replace (Z.to_nat b) with (S (Z.to_nat (b - 1))) by lia. done.
Qed.
End unreach.

(** ICMPv6 errors are limited to ten per value of the clock, a second: of
    any number of requests made while the clock shows the same value, exactly
    the first ones up to the remaining budget are reported, in order, each
    with the error built for it; the others are dropped silently. *)
Theorem icmp_rate_limit `{Env} (now : Z) (reqs : list (Z * list Z)) (s : sys)
    (Hnow : forall n, env_clock n = now) (Hq : Forall (fun req => quotable req.2) reqs)
    (Hcb : icmpv6_cb (s_tunnel s) = true) (Hb : 0 <= icmp_budget now (s_tunnel s)) :
  exists s', unreach_all reqs s = Ok (tt, s') /\
    w_out (s_world s') = w_out (s_world s) ++
      (unreach_event <$> take (Z.to_nat (icmp_budget now (s_tunnel s))) reqs).
Proof. by apply unreach_all_ok. Qed.

Definition frozen_env : Env := {|
  env_clock := fun _ => 500; env_time := fun _ => 100; env_sendmsg := fun _ => 40;
  env_setsockopt := fun _ => 0; env_sendto := fun _ => inl 40 |}.

(** Twelve requests, ten errors. *)
Lemma icmp_rate_limit_witness :
  exists s', unreach_all (H := frozen_env) (repeat (3, example_out) 12) example_sys = Ok (tt, s') /\
    w_out (s_world s') = w_out (s_world example_sys) ++
      (unreach_event <$> take 10 (repeat (3, example_out) 12)).
Proof.
  apply (@icmp_rate_limit frozen_env 500 (repeat (3, example_out) 12) example_sys).
  - intros n. reflexivity.
  - cbn [repeat]. repeat apply list.Forall_cons_2; try exact example_out_quotable.
    apply list.Forall_nil_2.
  - vm_compute. reflexivity.
  - vm_compute. congruence.
Defined.

(** ** Repetition of bubbles and pings *)

(** The times at which a counter lets something be sent, of the times at which
    it is asked. *)
Fixpoint permitted (count : teredo_peer -> Z -> Z * teredo_peer) (p : teredo_peer) (nows : list Z)
    : list Z :=
  match nows with
  | [] => []
  | now :: nows =>
    let '(r, p) := count p now in
    if r =? 0 then now :: permitted count p nows else permitted count p nows
  end.

(** Times of a clock that does not go backwards and has not wrapped around. *)
Definition clock_trace (nows : list Z) : Prop :=
  StronglySorted Z.le nows /\ Forall (fun n => 0 <= n < 2 ^ 64) nows.

Lemma clock_trace_cons now nows :
  clock_trace (now :: nows) ->
  0 <= now < 2 ^ 64 /\ Forall (fun n => now <= n) nows /\ clock_trace nows.
Proof.
  intros [Hs Hr]. apply list.Forall_cons in Hr as [Hn Hr]. inversion Hs; subst.
  by repeat split; try done; try apply Hn.
Qed.

(** [b] sendings happened since the last pause, the last one at [last]. *)
Fixpoint spaced (b last : Z) (l : list Z) : Prop :=
  match l with
  | [] => True
  | x :: l =>
    (b = 0 \/ (last + 2 < x /\ (b = 4 -> last + 300 < x))) /\
    spaced (if b =? 4 then 1 else b + 1) x l
  end.

Lemma spaced_gaps l : forall b last, 0 <= b <= 4 -> spaced b last l ->
  (forall i x y, l !! i = Some x -> l !! S i = Some y -> x + 2 < y) /\
  (forall i x y, l !! i = Some x -> l !! (4 + i)%nat = Some y -> x + 300 < y).
Proof.
  induction l as [|x0 l IH]; intros b last Hb; [by intros _; split; intros [|i]|].
  cbn [spaced]. intros [Hx0 Hl].
  assert (0 <= (if b =? 4 then 1 else b + 1) <= 4) as Hb' by (destruct (Z.eqb_spec b 4); lia).
  destruct (IH _ _ Hb' Hl) as [IH1 IH2]. split; (intros [|i] x y; [|by eauto]); intros [= <-] Hy.
  - destruct l as [|x1 l]; [done|]. injection Hy as <-. cbn [spaced] in Hl.
    destruct Hl as [Hl _]. destruct (Z.eqb_spec b 4); lia.
  - destruct l as [|x1 [|x2 [|x3 [|x4 l]]]]; try done. injection Hy as <-. clear IH IH1 IH2.
    cbn [spaced] in Hl. destruct Hl as (H1 & H2 & H3 & H4 & _).
    clear Hb' Hx0. repeat match goal with Hy : context [?a =? 4] |- _ => destruct (Z.eqb_spec a 4) end; lia.
Qed.

(** The clock has not gone back since the last sending. *)
Definition sent_before (b last : Z) (nows : list Z) : Prop :=
  b = 0 \/ (0 <= last /\ Forall (fun n => last <= n) nows).

Lemma wrap_gap now last : 0 <= last <= now -> now < 2 ^ 64 -> wrap 64 (now - last) = now - last.
Proof. intros H1 H2. unfold wrap. apply Z.mod_small. lia. Qed.

Lemma sent_before_head b last now nows : sent_before b last (now :: nows) -> b <> 0 -> 0 <= last <= now.
Proof. intros [?|[H1 H2]] Hb; [done|]. apply list.Forall_cons in H2 as [H2 _]. lia. Qed.

Lemma sent_before_tail b last now nows : sent_before b last (now :: nows) -> sent_before b last nows.
Proof. intros [?|[H1 H2]]; [by left|right]. by apply list.Forall_cons in H2 as [_ H2]. Qed.

Lemma CountBubble_spec p now :
  0 <= bubbles p <= 4 -> (bubbles p <> 0 -> 0 <= last_tx p <= now) -> now < 2 ^ 64 ->
  (exists r, r <> 0 /\ CountBubble p now = (r, p)) \/
  exists p', CountBubble p now = (0, p') /\ last_tx p' = now /\
    bubbles p' = (if bubbles p =? 4 then 1 else bubbles p + 1) /\
    (bubbles p = 0 \/ (last_tx p + 2 < now /\ (bubbles p = 4 -> last_tx p + 300 < now))).
Proof.
  intros Hb Hl Hn. unfold CountBubble.
  destruct (Z.ltb_spec 0 (bubbles p)) as [Hpos|Hz].
  - rewrite wrap_gap by lia. destruct (Z.leb_spec 4 (bubbles p)) as [H4|H4].
    + destruct (Z.leb_spec (now - last_tx p) 300); [left; by exists (-1)|]. right.
      eexists. split; [done|]. split; [done|]. split; [|lia].
      rewrite (proj2 (Z.eqb_eq _ _)) by lia. done.
    + destruct (Z.leb_spec (now - last_tx p) 2); [left; by exists 1|]. right.
      eexists. split; [done|]. split; [done|]. split; [|lia].
      rewrite (proj2 (Z.eqb_neq _ _)) by lia. cbn. unfold wrap. apply Z.mod_small. lia.
  - right. eexists. split; [done|]. split; [done|].
    assert (bubbles p = 0) as -> by lia. split; [done|lia].
Qed.

Lemma CountPing_spec p now :
  0 <= pings p <= 4 -> (pings p <> 0 -> 0 <= last_ping p <= now) -> now < 2 ^ 64 ->
  (exists r, r <> 0 /\ CountPing p now = (r, p)) \/
  exists p', CountPing p now = (0, p') /\ last_ping p' = now /\ pings p' = pings p + 1 /\
    pings p < 4 /\ (pings p = 0 \/ last_ping p + 2 < now).
Proof.
  intros Hb Hl Hn. unfold CountPing.
  destruct (Z.eqb_spec (pings p) 0) as [E0|Hne].
  - right. eexists. split; [done|]. split; [done|]. rewrite E0. split; [done|lia].
  - rewrite wrap_gap by lia. destruct (Z.leb_spec 4 (pings p)) as [H4|H4]; [left; by exists (-1)|].
    destruct (Z.leb_spec (now - last_ping p) 2); [left; by exists 1|]. right.
    eexists. split; [done|]. split; [done|]. split; [|lia].
    cbn. unfold wrap. apply Z.mod_small. lia.
Qed.

Lemma permitted_bubbles nows : forall p, clock_trace nows -> 0 <= bubbles p <= 4 ->
  sent_before (bubbles p) (last_tx p) nows ->
  spaced (bubbles p) (last_tx p) (permitted CountBubble p nows).
Proof.
  induction nows as [|now nows IH]; intros p Hc Hb Hl; [done|].
  apply clock_trace_cons in Hc as (Hn & Hge & Hc). cbn [permitted].
  destruct (CountBubble_spec p now) as [(r & Hr & ->)|(p' & -> & Et & Eb & Hgap)]; try lia.
  - intros. by eapply sent_before_head.
  - rewrite (proj2 (Z.eqb_neq _ _) Hr). apply IH; [done|done|]. by eapply sent_before_tail.
  - cbn [spaced]. rewrite Z.eqb_refl. split; [done|]. rewrite <- Et, <- Eb. apply IH; [done| |].
    + rewrite Eb. destruct (Z.eqb_spec (bubbles p) 4); lia.
    + right. rewrite Et. split; [lia|done].
Qed.

Lemma permitted_pings nows : forall p, clock_trace nows -> 0 <= pings p <= 4 ->
  sent_before (pings p) (last_ping p) nows ->
  pings p + Z.of_nat (length (permitted CountPing p nows)) <= 4 /\
  spaced (pings p) (last_ping p) (permitted CountPing p nows).
Proof.
  induction nows as [|now nows IH]; intros p Hc Hb Hl; [cbn; lia|].
  apply clock_trace_cons in Hc as (Hn & Hge & Hc). cbn [permitted].
  destruct (CountPing_spec p now) as [(r & Hr & ->)|(p' & -> & Et & Eb & Hlt & Hgap)]; try lia.
  - intros. by eapply sent_before_head.
  - rewrite (proj2 (Z.eqb_neq _ _) Hr). apply IH; [done|done|]. by eapply sent_before_tail.
  - rewrite Z.eqb_refl. cbn [spaced length].
    destruct (IH p') as [IH1 IH2]; [done|lia|right; rewrite Et; split; [lia|done]|].
    rewrite (proj2 (Z.eqb_neq _ _)) by lia. rewrite Eb, Et in *. split; [lia|]. split; [lia|done].
Qed.

(** (C24) RFC 4380, 5.2.6: however often a bubble for a new peer is asked for,
    two bubbles are more than two seconds apart, and five of them span more
    than 300 seconds, as long as the clock does not go backwards.  The
    three-bit counter never wraps around. *)
Theorem bubbles_rate_limited (p : teredo_peer) (nows : list Z)
    (Hp : bubbles p = 0) (Hc : clock_trace nows) :
  let l := permitted CountBubble p nows in
  (forall i x y, l !! i = Some x -> l !! S i = Some y -> x + 2 < y) /\
  (forall i x y, l !! i = Some x -> l !! (4 + i)%nat = Some y -> x + 300 < y).
Proof.
  apply (spaced_gaps _ (bubbles p) (last_tx p)); [lia|]. apply permitted_bubbles; [done|lia|by left].
Qed.

Lemma bubbles_rate_limited_witness :
  let p := teredo_peer_init (peer garbage_item) in
  let l := permitted CountBubble (fresh_peer p) [10; 11; 13; 15; 16; 19; 21; 400; 401; 500] in
  l = [10; 13; 16; 19; 400; 500] /\
  ((forall i x y, l !! i = Some x -> l !! S i = Some y -> x + 2 < y) /\
   (forall i x y, l !! i = Some x -> l !! (4 + i)%nat = Some y -> x + 300 < y)).
Proof.
  split; [vm_compute; reflexivity|].
  apply (bubbles_rate_limited (fresh_peer (teredo_peer_init (peer garbage_item)))
           [10; 11; 13; 15; 16; 19; 21; 400; 401; 500]).
  - reflexivity.
  - split; repeat constructor; lia.
Defined.

(** However often a ping for a new peer is asked for, the peer is tested
    at most four times, more than two seconds apart, as long as the clock does
    not go backwards and the peer does not answer. *)
Theorem pings_rate_limited (p : teredo_peer) (nows : list Z)
    (Hp : pings p = 0) (Hc : clock_trace nows) :
  let l := permitted CountPing p nows in
  (length l <= 4)%nat /\
  (forall i x y, l !! i = Some x -> l !! S i = Some y -> x + 2 < y).
Proof.
  destruct (permitted_pings nows p) as [H1 H2]; [done|lia|by left|].
  split; [lia|]. apply (spaced_gaps _ (pings p) (last_ping p)); [lia|done].
Qed.

Lemma pings_rate_limited_witness :
  let p := fresh_peer (teredo_peer_init (peer garbage_item)) in
  let l := permitted CountPing p [10; 11; 13; 15; 16; 19; 21; 400; 401; 500] in
  l = [10; 13; 16; 19] /\
  ((length l <= 4)%nat /\ (forall i x y, l !! i = Some x -> l !! S i = Some y -> x + 2 < y)).
Proof.
  split; [vm_compute; reflexivity|].
  apply (pings_rate_limited (fresh_peer (teredo_peer_init (peer garbage_item)))
           [10; 11; 13; 15; 16; 19; 21; 400; 401; 500]).
  - reflexivity.
  - split; repeat constructor; lia.
Defined.

(** ** Client mode *)

(** [tunnel.h] promises that a failed [teredo_set_client_mode] leaves the
    tunnel as it was; when the maintenance procedure cannot be started, the
    call fails but every peer of the tunnel is already forgotten. *)
Theorem client_mode_failure_forgets_peers (t : teredo_tunnel) (mdup mthread : bool)
    (server : list Z) (Hinv : tunnel_inv t) (Hm : maintenance t = false) :
  exists t', teredo_set_client_mode true true false mdup mthread (Some server) t
             = Ok (-1, t', None) /\
    (forall a, pm_view (tlist t') a = None) /\ expiration (tlist t') = 600.
Proof.
  destruct Hinv as (Hfd & Ht & Hl & Hlk & HV). unfold teredo_set_client_mode. rewrite Hm.
  unfold teredo_list_create. cbn [negb guard_or mbind res_bind Z.ltb Z.compare].
  rewrite pm_destroy by done. eexists. split; [reflexivity|]. by split.
Qed.

(** A relay that sent a packet to a Teredo client. *)
Definition example_relayed : list Z :=
  put_ip6 {| ip6_flow := ip6_flow_v6; ip6_plen := htons 4; ip6_nxt := 17; ip6_hlim := 64;
             ip6_src := example_peer; ip6_dst := example_us |} ++ [1; 2; 3; 4].

Lemma example_relayed_quotable : quotable example_relayed.
Proof.
  split; [vm_compute; repeat (constructor; [split; congruence|]); constructor|].
  eexists. split; [vm_compute; reflexivity|]. left. vm_compute. congruence.
Qed.

Definition example_relay : teredo_tunnel :=
  match calls (H := quiet_env) (H0 := example_mem) example_key [Transmit example_relayed]
          (mk_sys w0 example_tunnel) with
  | Ok (_, s) => s_tunnel s
  | Err _ => example_tunnel
  end.

Lemma example_relay_inv : tunnel_inv example_relay.
Proof.
  unfold example_relay.
  destruct (@calls_inv quiet_env example_mem example_key (fun _ => eq_refl) [Transmit example_relayed]
              (mk_sys w0 example_tunnel)) as (s & -> & Hs); [|exact example_tunnel_inv|done].
  apply list.Forall_cons_2; [exact example_relayed_quotable|apply list.Forall_nil_2].
Qed.

Lemma client_mode_failure_forgets_peers_witness :
  is_Some (pm_view (tlist example_relay) example_us) /\
  exists t', teredo_set_client_mode true true false true true (Some [0]) example_relay
             = Ok (-1, t', None) /\
    (forall a, pm_view (tlist t') a = None) /\ expiration (tlist t') = 600.
Proof.
  split; [vm_compute; eexists; reflexivity|].
  apply (client_mode_failure_forgets_peers example_relay true true [0]).
  - exact example_relay_inv.
  - reflexivity.
Defined.
